(* ===== verification/_CoqProject ===== *)
-Q . S2P
Prelude.v
CSem.v
Wire.v
Packet.v
Connect.v
Publish.v
Subscribe.v
Stream.v
Format.v
Topics.v
Platform.v
Sim.v
Client.v
ClientState.v
Handlers.v
Locks.v
ClientIO.v
ClientLive.v
ClientReceive.v
FreeRTOS.v
FreeRTOSClient.v
FreeRTOSSSL.v
TlsReceive.v
Transport.v
CppClient.v
CppQoS2.v
CppDelivery.v
CppSim.v
CppClientState.v
CppClientIO.v
CppLive.v
CppReceive.v
CppPlatforms.v
CppArduino.v
Numerals.v
ArduinoString.v
Lwip.v
LwipSim.v
TcpUdp.v
SslClient.v
TlsClient.v
TlsExamples.v
Ppp.v
Http.v
HttpSim.v
HttpUrl.v
HttpLink.v
HttpBody.v
HttpExchange.v
HttpState.v
HttpTcp.v
HttpTcpSim.v
Ftp.v
FtpLines.v
FtpSession.v
FtpTransfer.v
FtpCopy.v
FtpXfer.v
FtpSim.v
Samples.v
SampleSpec.v
SampleTalk.v
SampleLive.v
SampleSerial.v
SampleLine.v
CppSamples.v
CppOptions.v
CppSamplesSpec.v
CppMain.v
