(* ===== verification/Prelude.v ===== *)
(** * Verification of the MQTT clients and packet library of FEmbed-Lwip

    The repository packages the embedded Paho MQTT code for lwIP devices: a
    packet library in C (src/paho/MQTTPacket/src), a client in C over it
    (src/paho/MQTTClient-C/src), the platform of the ESP32 the C client runs
    on (src/paho/MQTTClient-C/src/FreeRTOS), a client in C++ over the same
    packet library (src/paho/MQTTClient/src), and C++ network classes over
    lwIP, with an HTTP and an FTP client (src/src). This development is a shallow embedding of that code: a
    Rocq function for each function of the source, with its guards, early
    returns and assignments in the order of the source, and theorems about
    them.

    ** How C is modelled (Prelude.v, CSem.v)

    - A computation has an [outcome]: [Ok], with its result; [UB], with the
      rule of C it breaks (an access outside an object, a null pointer, an
      uninitialised object, signed overflow, division by zero, a failed
      assertion); or [NoFuel], a loop that did not end in the iterations it
      was given. A theorem that gives [Ok] for a function therefore says that
      it returns and that it is defined.
    - [M S A] passes a state [S] along. The packet writers and readers run on a
      [cursor] (the [unsigned char **pptr] of the source: a buffer and a
      position); the clients run on their structure together with the state
      [W] of everything outside.
    - An [int] is a Z, and its addition [+i] is undefined out of 32 bits;
      unsigned integers, bytes and conversions wrap where the source
      converts. Bit-fields are [bf_get] and [bf_set]. Whether [char] is
      signed and how wide [size_t] is are parameters (the class [CImpl], with
      the instances [x86_64] and [esp32]).
    - A pointer to bytes is the contents of its object when it is used and an
      offset ([ptr]); [None] is null. Where the sharing of memory over time
      matters (the static pointer of esp_ssl_read) there is an explicit heap.
      A memcpy whose operands overlap is taken as memmove.
    - The value of an uninitialised local that is passed by address before it
      is assigned is a parameter [o] of the function, so that theorems hold for
      every value it may have.
    - Loops are structural recursion on a count where the source has a bound
      and on [fuel] where the end depends on the environment. That the fuel
      is enough is proved: sendPacket_terminates and cpp_sendPacket_sends give a
      bound in the bytes to send and the writes that take none, handshake_terminates and
      arduino_read_returns one in the timeout, list_deserializers_return one in the bytes
      received, MQTTPacket_readnb_reads one in the bytes and the empty answers of the
      source, http_body_copied and ftp_login_refines one in the bytes the server
      sends, http_silent_server one in the timeout, MQTTPacket_decode_loop and decodePacket_loop have 5, one more
      than the four bytes the source accepts. esp_write_spins, wifi_read_spins and
      send_ssl_data_spins, await_hangs and subscription_hangs show loops for which no
      fuel is enough.

    ** Parts, files and source

    - The wire format (Wire.v) is the specification of MQTT packets as pure
      functions from contents to bytes; it models no code.
    - Packet library. Packet.v: MQTTPacket.c and .h (remaining length, integers,
      strings, header). Connect.v: MQTTConnectClient.c, MQTTConnectServer.c,
      MQTTConnect.h. Publish.v: MQTTSerializePublish.c,
      MQTTDeserializePublish.c. Subscribe.v: MQTTSubscribeClient.c,
      MQTTSubscribeServer.c, MQTTUnsubscribeClient.c, MQTTUnsubscribeServer.c.
      Stream.v: the readers MQTTPacket_read and MQTTPacket_readnb of
      MQTTPacket.c, over any [getfn]. Format.v: MQTTFormat.c.
    - C client. Platform.v is its interface to timers, network, mutex and
      application, a class; Sim.v a concrete instance for examples. Client.v
      has every function of MQTTClient.c with MQTT_TASK defined, over the
      record [MQTTClient]; Topics.v is isTopicMatched. ClientState.v,
      Handlers.v, Locks.v and ClientIO.v are the theorems about its functions;
      ClientLive.v (over the interface [Serving] to a broker) and
      ClientReceive.v (over [Hearing], which adds the handlers) have whole
      sessions, calls composed as an application composes them. A [pace] says which
      waits outlast the run; a platform whose clock stands still is [calm].
    - ESP32 platform. FreeRTOS.v is MQTTFreeRTOS.c over TCP, over the
      operations of FreeRTOS and lwIP as a class [RTOS], with the instance
      [freertos] of Platform.v's class that it implements; FreeRTOSClient.v puts the
      client's sessions on it, over a clock that moves on in the calls of the socket
      and an xTaskCheckForTimeOut that compares it with the time that was taken; FreeRTOSSSL.v is the
      variant over TLS, over a class [OpenSSL], with an explicit heap, and
      TlsReceive.v is readPacket and decodePacket of MQTTClient.c on that heap.
    - Transport.v: the transports of the packet samples, a serial line (Module
      Serial) and a socket (Module Socket). Samples.v: the programs that use the
      socket, ping.c, ping_nb.c, pub0sub1.c, pub0sub1_nb.c and qos0pub.c, a Module
      each, over the class [Process] of signals, clock and printf; SampleSpec.v,
      SampleTalk.v and SampleLive.v are the theorems about them. SampleSerial.v: ping_nb.c and
      pub0sub1_nb.c of samples/baremetalserial, with the line they simulate;
      SampleLine.v has the theorems.
    - C++ client. CppClient.v has every member function of the class template
      Client of MQTTClient.h, and the classes PacketId and FP, over the class
      [Config] of its template arguments and macros and Platform.v's interface
      to Network and Timer (the class [CppPlatform] adds the objects of the
      application and the heap). CppQoS2.v (the table of identifiers), CppDelivery.v (whom a message
      is handed to), CppClientState.v and CppClientIO.v
      are the theorems about it, CppSim.v an instance to evaluate it on; CppLive.v
      has whole sessions, over the interface [Serving] of ClientLive.v, and CppReceive.v
      what cycle makes of any sequence of messages and releases.
      CppPlatforms.v (Module Linux) and CppArduino.v (Modules Arduino and Mbed)
      are the Network and Timer classes of src/paho/MQTTClient/src, with the
      instances of Platform.v's class they make.
    - C++ samples. CppSamples.v: stdoutsub.cpp and hello.cpp, a Module each, over
      CppClient.v and linux.cpp; CppOptions.v (the command line) and
      CppSamplesSpec.v are the theorems. CppMain.v: the classes and the handler of
      linux/main.cpp, as the platform of a client.
    - C++ wrappers of src/src. Lwip.v has the functions of lwIP they call as a
      class, objects with methods, and what is documented about descriptors;
      LwipSim.v an instance. TcpUdp.v: TCPClient.cpp, TCPServer.cpp,
      UDPClient.cpp, UDPServer.cpp, a Module each. SslClient.v: ssl_client.cpp,
      its names and fingerprints (Module Names) and its connection (Module
      SslClient) over a class [Mbedtls]. TlsClient.v: TCPClientSecure.cpp;
      TlsExamples.v has an instance of these classes and the witnesses. Ppp.v:
      PPPAdapter.cpp and SNTP.cpp.
    - Numerals.v has the functions of the C library that read numbers from text, and
      ArduinoString.v the class String of the Arduino core, as a class with laws
      and an instance; they model no code.
    - HTTP client. Http.v has every member function of HTTPClient.cpp, over the record
      [HTTPClient] in a store of shared pointers and the class [HttpNet] of the
      network clients, streams and clock it uses; HttpSim.v an instance. HttpUrl.v
      (URLs and headers), HttpLink.v (the link to a server, as an interface),
      HttpBody.v, HttpExchange.v and HttpState.v are the theorems about it.
      HttpTcp.v puts TcpUdp.v's TCPClient below it (HttpTcpSim.v has the witness, and
      a page that comes through both).
    - FTP client. Ftp.v has every member function of FTPClient.cpp, over a heap of
      objects with the number of their owners, and the methods of TcpUdp.v's
      TCPClient. FtpLines.v has lines and replies, with the interface [ControlLine]
      to a server and [ControlNet] to other sockets and files beside it; FtpSession.v commands and logins; FtpTransfer.v the data
      connection and what is refused, FtpCopy.v the loops of a transfer, FtpXfer.v
      transfers that are accepted, over the interface [DataNet] to the second
      connection and the file; FtpSim.v a server to run it on and the witnesses.

    ** What the theorems show

    - Packets: each serializer refines its specification (it writes exactly the
      bytes of the wire format at the front of the buffer and leaves the rest,
      or refuses a buffer that is too short), each deserializer recovers the
      contents, and on arbitrary bytes stays within the buffer as far as the
      declared length does. The overflows there are in the code are theorems
      too (names ending in _overflow, _short, _no_id).
    - Readers: a packet delivered in any fragmentation is read whole
      (MQTTPacket_readnb_reads, MQTTPacket_read_correct, readPacket_correct).
    - C client: the invariant of every reachable state (client_reachable_ok),
      the mutex (api_releases_mutex), handlers as a finite map
      (MQTTSetMessageHandler_refines, deliverMessage_spec), the answers of
      cycle, the results of the API functions and the state they leave, and
      keep-alive. Over a broker that answers, a session of any messages succeeds
      and sends what it should (client_session_served), and every message the
      broker sends is handed over and answered (client_hears_all); the calls
      return, which [total] (Prelude.v) and its rules say.
    - Platforms: timers keep their deadline, reads and writes are complete on a
      ready socket, and the platform keeps the promise
      the client's theorems assume (freertos_serves the class [Hearing],
      arduino_is_stream ClientIO.v's [stream]), so that the
      session of ClientLive.v runs over it (freertos_serves_witness); on
      Linux a read is complete or has ten bytes (linux_read_pieces). Over TLS a
      first packet is read whole (tls_readPacket_correct), and one that follows a
      packet without a body is stored out of bounds
      (tls_packet_after_ping_overruns).
    - C++ client: what is offered to the network and what is read
      (cpp_sendPacket_sends, cpp_readPacket_correct), the answers of cycle,
      a QoS 2 message delivered exactly once until it is released, by cycle run on any
      sequence of packets (qos2_delivered_once, on top of the
      refinement of a finite set, qos2_table_refines), the ranges of the members
      in every reachable state (cpp_reachable_typed), the ownership of the topic
      filters (cpp_filters_owned), errors and the state they leave; over a broker
      that answers, a session that sends an old message again and new ones succeeds
      (cpp_session_served).
    - Wrappers: an object closes the descriptors it opened and nothing else, over
      any sequence of calls (tcp_client_no_leak, secure_client_no_leak, by a
      method-by-method property, [tidy]), and the ways it does not; names and
      fingerprints of certificates against a specification (matchName_spec,
      parse_fingerprint_spec, psk_roundtrip); the end of the TLS handshake, by the clock; what
      connect reports (secure_connect_result).
    - HTTP client: a URL is taken apart into what it was made of (http_begin_parses),
      the headers are a finite map in order (http_addHeader_refines), an exchange
      sends exactly the request and reads the response (http_exchange), a body
      in any pieces, by length or in chunks, is copied (http_body_copied), the
      ranges of the members (http_reachable_typed), a server that is silent
      (http_silent_server), a transport that is kept too long (http_then_https); and
      TCPClient keeps what these theorems assume of a connection, where char is not signed
      (tcp_is_link).
    - FTP client: over replies of any number of lines, in any pieces, login holds the
      dialogue of the protocol (ftp_login_refines); a transfer that is refused is
      reported as done, and leaves no object, socket or file behind (ftp_get_refused); one
      that is accepted copies every byte, closes the socket and the file, and leaves the
      client at the start of its next command (ftp_xfer_copies). These hold while fewer than
      512 bytes of replies are under way: where a line or the buffer is overrun is shown
      by ftp_readLine_overruns.

    - Samples: what the programs send is one conversation, whatever the broker answers
      (ping_talks, ping_nb_talks, pub0sub1_talks, pub0sub1_nb_talks,
      qos0pub_sends), and over a broker that accepts them, and publishes what it
      likes, pub0sub1.c ends with a reading for every look at its flag (pub0sub1_publishes;
      a packet that comes in pieces is lost); the simulated line is one the transport's theorems hold for
      (samplesend_takes, samplerecv_gives, serial_connect_sends); waits that never
      end and acknowledgements that are misread (await_hangs, subscription_hangs,
      suback_two_codes); getopts reads back the options that were written
      (getopts_roundtrip), and the programs in C++ never reach the end of main
      (stdoutsub_never_returns, hello_never_returns).

    ** What is not modelled

    - lwIP, FreeRTOS, OpenSSL and mbedTLS, and the functions of the
      application: operations of type classes. A theorem that relies on what
      one of them does says so by a hypothesis, and has a witness with a
      concrete instance.
    - Logging, printf and the debug printing of packets in the clients
      (MQTT_DEBUG), which the builds of the repository do not define; the
      macros of StackTrace.h, which expand to nothing there.
    - A handler of the application changes the world outside the client but
      does not call the client back.
    - The configuration of MQTTClient.c without MQTT_TASK, what a thread that
      runs MQTTRun does between the calls of another ([MQTTRun_loop] models
      any number of its iterations).
    - The tests, the sketch for the Arduino (Hello.ino), and the function main of the
      sample main.cpp, which passes pointers where Client::connect and Client::publish
      take references and does not compile.
    - The settings MQTTCLIENT_QOS1 = 0, MQTTCLIENT_QOS2 = 1 of the C++ client
      (they do not compile), and its logging macros.
    - The enumeration of HTTP status codes of HTTPClient.h, which the code does not
      use. *)

From stdpp Require Export base list numbers tactics.
From Stdlib Require Export ZArith Lia.

(** ** Automation for integers *)

Ltac Zify.zify_post_hook ::= Z.to_euclidean_division_equations.

#[global] Open Scope Z_scope.

Declare Scope c_scope.
Delimit Scope c_scope with c.

(** Rules that measure lists. *)
Create Rewrite HintDb lens.

(** ** Outcomes of a C computation

    [Ok a] is a defined result; [UB f] is a computation whose behaviour the C
    standard leaves undefined, with the reason; [NoFuel] is a loop that did
    not finish in the fuel given to it (only loops whose progress depends on
    the environment can end this way, see the header). *)

Inductive fault : Type :=
  | OutOfBounds      (* an access outside the object a pointer designates *)
  | NullPointer      (* an access through a null pointer *)
  | Uninitialised    (* the use of an object that was never written *)
  | SignedOverflow   (* an int result that does not fit 32 bits *)
  | DivisionByZero
  | WrongFunction    (* a call through a pointer of another function's type *)
  | WrongClass       (* static_cast to a class the object is not of *)
  | AssertionFailed. (* assert( ) aborts: not undefined, but no result either *)

#[export] Instance fault_eq_dec : EqDecision fault.
Proof. solve_decision. Defined.

Inductive outcome (A : Type) : Type :=
  | Ok (a : A)
  | UB (f : fault)
  | NoFuel.
Arguments Ok {A} a.
Arguments UB {A} f.
Arguments NoFuel {A}.

#[export] Instance outcome_eq_dec {A} `{EqDecision A} : EqDecision (outcome A).
Proof. solve_decision. Defined.

#[export] Instance outcome_ret : MRet outcome := @Ok.
#[export] Instance outcome_bind : MBind outcome := λ A B f m,
  match m with Ok a => f a | UB u => UB u | NoFuel => NoFuel end.

(** [defined m]: the computation has a defined result. *)
Definition defined {A} (m : outcome A) : Prop := ∃ a, m = Ok a.

Lemma bind_Ok {A B} (f : A → outcome B) m a :
  m = Ok a → (m ≫= f) = f a.
Proof. by intros ->. Qed.

Lemma bind_Ok_inv {A B} (f : A → outcome B) m b :
  (m ≫= f) = Ok b → ∃ a, m = Ok a ∧ f a = Ok b.
Proof. destruct m as [a|u|]; simpl; [eauto|done|done]. Qed.

Lemma bind_UB {A B} (f : A → outcome B) m u : m = UB u → (m ≫= f) = UB u.
Proof. by intros ->. Qed.

(** ** State passing

    [M S A] is a computation over a state [S] that may be undefined. *)

Definition M (S A : Type) : Type := S → outcome (A * S).

#[export] Instance M_ret {S} : MRet (M S) := λ A a s, Ok (a, s).
#[export] Instance M_bind {S} : MBind (M S) := λ A B f m s,
  match m s with Ok (a, s') => f a s' | UB u => UB u | NoFuel => NoFuel end.

Definition get {S} : M S S := λ s, Ok (s, s).
Definition gets {S A} (f : S → A) : M S A := λ s, Ok (f s, s).
Definition modify {S} (f : S → S) : M S unit := λ s, Ok (tt, f s).
Definition lift {S A} (m : outcome A) : M S A := λ s,
  match m with Ok a => Ok (a, s) | UB u => UB u | NoFuel => NoFuel end.
Definition no_fuel {S A} : M S A := λ _, NoFuel.

Lemma run_ret {S A} (a : A) (s : S) : (mret a : M S A) s = Ok (a, s).
Proof. done. Qed.

Lemma run_bind {S A B} (m : M S A) (f : A → M S B) s a s' :
  m s = Ok (a, s') → (m ≫= f) s = f a s'.
Proof. unfold mbind, M_bind. by intros ->. Qed.

Lemma run_bind_ret {S A B} (a : A) (f : A → M S B) s : (mret a ≫= f) s = f a s.
Proof. done. Qed.

Lemma run_bind_inv {S A B} (m : M S A) (f : A → M S B) s b s2 :
  (m ≫= f) s = Ok (b, s2) → ∃ a s1, m s = Ok (a, s1) ∧ f a s1 = Ok (b, s2).
Proof.
  unfold mbind, M_bind. destruct (m s) as [[a s1]|u|]; [eauto|done|done].
Qed.

Lemma run_lift {S A} (o : outcome A) (a : A) (s : S) :
  o = Ok a → (lift o : M S A) s = Ok (a, s).
Proof. unfold lift. by intros ->. Qed.

Lemma run_bind_lift_Ok {S A B} (a : A) (f : A → M S B) (s : S) : (lift (Ok a) ≫= f) s = f a s.
Proof. done. Qed.

Lemma run_lift_inv {S A} (o : outcome A) (a : A) (s s' : S) :
  (lift o : M S A) s = Ok (a, s') → o = Ok a ∧ s' = s.
Proof. unfold lift. destruct o; naive_solver. Qed.

(** *** Runs that end

    Run from [s], [m] gives a value and a state for which [Q] holds. *)

Definition total {S A} (m : M S A) (s : S) (Q : A → S → Prop) : Prop :=
  ∃ a s', m s = Ok (a, s') ∧ Q a s'.

Lemma total_ret {S A} (a : A) (s : S) (Q : A → S → Prop) : Q a s → total (mret a) s Q.
Proof. intros. by exists a, s. Qed.

Lemma total_bind {S A B} (m : M S A) (f : A → M S B) s Q Q' :
  total m s Q' → (∀ a s', Q' a s' → total (f a) s' Q) → total (m ≫= f) s Q.
Proof.
  intros (a & s1 & E1 & H1) H2. destruct (H2 a s1 H1) as (b & s2 & E2 & HQ).
  exists b, s2. by rewrite (run_bind _ _ _ _ _ E1).
Qed.

Lemma total_lift {S A B} (o : outcome A) (f : A → M S B) a s Q :
  o = Ok a → total (f a) s Q → total (lift o ≫= f) s Q.
Proof. intros E HQ. unfold total. by rewrite (run_bind _ _ _ _ _ (run_lift _ _ _ E)). Qed.

Lemma total_weaken {S A} (m : M S A) s (Q Q' : A → S → Prop) :
  total m s Q' → (∀ a s', Q' a s' → Q a s') → total m s Q.
Proof. intros (a & s' & E & HQ) HI. exists a, s'. auto. Qed.

Lemma total_run {S A B} (m : M S A) (f : A → M S B) s a s' Q :
  m s = Ok (a, s') → total (f a) s' Q → total (m ≫= f) s Q.
Proof. intros E HQ. unfold total. by rewrite (run_bind _ _ _ _ _ E). Qed.

(** ** Tactics *)

(** Decide the integer tests of the goal, keeping the facts for [lia]. *)
Ltac ztest :=
  match goal with
  | |- context [Z.ltb ?a ?b] => destruct (Z.ltb_spec a b)
  | |- context [Z.leb ?a ?b] => destruct (Z.leb_spec a b)
  | |- context [Z.eqb ?a ?b] => destruct (Z.eqb_spec a b)
  end; cbn [negb andb orb]; try lia.
Ltac ztests := repeat ztest.

(** Split a successful run of a sequence into the runs of its parts. *)
Ltac run_inv :=
  repeat match goal with
  | H : Ok _ = Ok _ |- _ => injection H as H; simplify_eq
  | H : (_, _) = (_, _) |- _ => simplify_eq
  | H : @mbind (M _) _ _ _ _ _ _ = Ok (_, _) |- _ =>
      apply run_bind_inv in H as (? & ? & ? & ?)
  | H : @mbind outcome _ _ _ _ _ = Ok _ |- _ =>
      apply bind_Ok_inv in H as (? & ? & ?)
  | H : lift _ _ = Ok (_, _) |- _ =>
      apply run_lift_inv in H as [? ?]
  | H : @mret (M _) _ _ _ _ = Ok _ |- _ => cbv [mret M_ret] in H
  | H : @mret outcome _ _ _ = Ok _ |- _ => cbv [mret outcome_ret] in H
  | H : UB _ = Ok _ |- _ => discriminate H
  | H : NoFuel = Ok _ |- _ => discriminate H
  end.

(** ** Lists indexed by integers *)

Abbreviation len l := (Z.of_nat (length l)) (only parsing).

Lemma drop_drop_Z {A} (l : list A) a b :
  0 ≤ a → 0 ≤ b →
  drop (Z.to_nat b) (drop (Z.to_nat a) l) = drop (Z.to_nat (a + b)) l.
Proof. intros. rewrite drop_drop. f_equal. lia. Qed.

Lemma drop_len_app {A} (l k : list A) (n : Z) :
  n = len l → drop (Z.to_nat n) (l ++ k) = k.
Proof. intros ->. rewrite Nat2Z.id. apply drop_app_length. Qed.

Lemma take_len_app {A} (l k : list A) (n : Z) :
  n = len l → take (Z.to_nat n) (l ++ k) = l.
Proof. intros ->. rewrite Nat2Z.id. apply take_app_length. Qed.

Lemma len_app {A} (l k : list A) : len (l ++ k) = len l + len k.
Proof. rewrite length_app. lia. Qed.

Lemma len_cons {A} (x : A) (l : list A) : len (x :: l) = 1 + len l.
Proof. cbn [length]. lia. Qed.

Lemma len_pos {A} (l : list A) : l ≠ [] → 1 ≤ len l.
Proof. destruct l; [done|cbn [length]; lia]. Qed.

Lemma len_nonneg {A} (l : list A) : 0 ≤ len l.
Proof. lia. Qed.

#[export] Hint Rewrite @len_app @len_cons : lens.
