(* ===== verification/CSem.v ===== *)
(** * The fragment of C the sources use

    Machine integers at their width, bit-fields, pointers into byte objects,
    the functions of <string.h> the sources call, and the cursor
    ([unsigned char** pptr]) through which packets are written and read.
    Nothing here models a file under src/: it is the language and its
    library. *)

From Stdlib Require Ascii String.
From S2P Require Import Prelude.
Export String.StringSyntax.
#[global] Delimit Scope string_scope with string.

(** ** Integers *)

Definition INT_MAX : Z := 2147483647.
Definition INT_MIN : Z := -2147483648.
Definition in_int (z : Z) : bool := (INT_MIN <=? z) && (z <=? INT_MAX).

(** Conversions (modular, as gcc defines the implementation-defined ones). *)
Definition to_uchar (z : Z) : Z := z mod 256.
Definition to_schar (z : Z) : Z := (z + 128) mod 256 - 128.
Definition to_ushort (z : Z) : Z := z mod 65536.
Definition to_uint (z : Z) : Z := z mod 4294967296.
Definition to_int (z : Z) : Z := (z + 2147483648) mod 4294967296 - 2147483648.

(** Whether plain [char] is signed is implementation-defined (it is on x86,
    it is not on Xtensa, ARM and RISC-V), and so is the width of [size_t]. *)
Class CImpl := { char_signed : bool; lp64 : bool }.
Definition x86_64 : CImpl := {| char_signed := true; lp64 := true |}.
Definition esp32 : CImpl := {| char_signed := false; lp64 := false |}.

Definition to_char `{CImpl} (z : Z) : Z :=
  if char_signed then to_schar z else to_uchar z.

Definition to_size `{CImpl} (z : Z) : Z :=
  z mod (if lp64 then 18446744073709551616 else 4294967296).

(** [int] addition: overflow is undefined. *)
Definition iadd (a b : Z) : outcome Z :=
  if in_int (a + b) then Ok (a + b) else UB SignedOverflow.
Notation "a +i b" := (iadd a b) (at level 50, left associativity) : c_scope.

(** Bit-fields of [w] bits at bit [lo] of a byte. *)
Definition bf_get (lo w b : Z) : Z := Z.land (Z.shiftr b lo) (Z.ones w).
Definition bf_set (lo w v b : Z) : Z :=
  Z.lor (Z.ldiff b (Z.shiftl (Z.ones w) lo)) (Z.shiftl (Z.land v (Z.ones w)) lo).

(** A C truth value. *)
Definition truth (z : Z) : bool := negb (z =? 0).

(** ** Bytes and objects *)

Definition byte (z : Z) : Prop := 0 ≤ z < 256.
Abbreviation bytes := (Forall byte).

#[export] Instance byte_dec z : Decision (byte z).
Proof. unfold byte. apply _. Defined.

(** Solve a decidable goal about concrete data by evaluation. *)
Ltac decide_by_vm := apply (bool_decide_unpack _); vm_compute; exact I.

(** [buf[i]] *)
Definition load (buf : list Z) (i : Z) : outcome Z :=
  if 0 <=? i then
    match buf !! Z.to_nat i with Some v => Ok v | None => UB OutOfBounds end
  else UB OutOfBounds.

(** [n] bytes from [buf + i] *)
Definition load_bytes (buf : list Z) (i n : Z) : outcome (list Z) :=
  if n =? 0 then Ok []
  else if (0 <=? i) && (0 <=? n) && (i + n <=? len buf)
  then Ok (take (Z.to_nat n) (drop (Z.to_nat i) buf))
  else UB OutOfBounds.

(** [bs] stored at [buf + i] *)
Definition store_bytes (buf : list Z) (i : Z) (bs : list Z) : outcome (list Z) :=
  match bs with
  | [] => Ok buf
  | _ => if (0 <=? i) && (i + len bs <=? len buf)
         then Ok (take (Z.to_nat i) buf ++ bs ++ drop (Z.to_nat (i + len bs)) buf)
         else UB OutOfBounds
  end.

(** An array of any type: [a[i]] and [a[i] = v]. *)
Definition arr_get {A} (a : list A) (i : Z) : outcome A :=
  if 0 <=? i then
    match a !! Z.to_nat i with Some v => Ok v | None => UB OutOfBounds end
  else UB OutOfBounds.
Definition arr_set {A} (a : list A) (i : Z) (v : A) : outcome (list A) :=
  if (0 <=? i) && (i <? len a) then Ok (<[Z.to_nat i := v]> a) else UB OutOfBounds.

(** ** Pointers

    A pointer to a byte object is the contents of the object, as they are
    when the pointer is used, and an offset in it. [None] is the null
    pointer. *)

Record ptr : Type := Ptr { obj : list Z; off : Z }.

#[export] Instance ptr_eq_dec : EqDecision ptr.
Proof. solve_decision. Defined.

Definition nonnull {A} (p : option A) : bool :=
  match p with Some _ => true | None => false end.

(** The bytes [p[0..n)]; no access is made for [n = 0]. *)
Definition mem_read (p : option ptr) (n : Z) : outcome (list Z) :=
  if n =? 0 then Ok []
  else match p with
       | None => UB NullPointer
       | Some p => load_bytes (obj p) (off p) n
       end.

Definition ptr_load (p : option ptr) (i : Z) : outcome Z :=
  match p with None => UB NullPointer | Some p => load (obj p) (off p + i) end.

(** A string literal or a C string object. *)
Definition c_string (bs : list Z) : ptr := Ptr (bs ++ [0]) 0.

(** Characters of a Rocq string literal as bytes. *)
Definition bytes_of (s : String.string) : list Z :=
  map (λ c, Z.of_N (Ascii.N_of_ascii c)) (String.list_ascii_of_string s).

(** ** <string.h> *)

Fixpoint scan_nul (l : list Z) : option nat :=
  match l with
  | [] => None
  | x :: l => if x =? 0 then Some O else S <$> scan_nul l
  end.

(** strlen, with the conversion of its size_t to the int it is assigned to. *)
Definition strlen (p : option ptr) : outcome Z :=
  match p with
  | None => UB NullPointer
  | Some p =>
      if (off p <? 0) then UB OutOfBounds
      else match scan_nul (drop (Z.to_nat (off p)) (obj p)) with
           | Some n => Ok (to_int (Z.of_nat n))
           | None => UB OutOfBounds
           end
  end.

(** strncmp: stops at the first difference, at a common NUL or after [n]. *)
Fixpoint strncmp_list (n : nat) (a b : list Z) : outcome Z :=
  match n with
  | O => Ok 0
  | S n =>
      match a, b with
      | x :: a, y :: b =>
          if negb (x =? y) then Ok (x - y)
          else if x =? 0 then Ok 0
          else strncmp_list n a b
      | _, _ => UB OutOfBounds
      end
  end.

Definition strncmp (p q : option ptr) (n : Z) : outcome Z :=
  if n =? 0 then Ok 0
  else if n <? 0 then UB OutOfBounds
  else match p, q with
  | Some p, Some q =>
      if (off p <? 0) || (off q <? 0) then UB OutOfBounds
      else strncmp_list (Z.to_nat n) (drop (Z.to_nat (off p)) (obj p))
                        (drop (Z.to_nat (off q)) (obj q))
  | _, _ => UB NullPointer
  end.

(** strcmp: the same without a limit. *)
Fixpoint strcmp_list (a b : list Z) : outcome Z :=
  match a, b with
  | x :: a, y :: b =>
      if negb (x =? y) then Ok (x - y)
      else if x =? 0 then Ok 0
      else strcmp_list a b
  | _, _ => UB OutOfBounds
  end.

Definition strcmp (p q : option ptr) : outcome Z :=
  match p, q with
  | Some p, Some q =>
      if (off p <? 0) || (off q <? 0) then UB OutOfBounds
      else strcmp_list (drop (Z.to_nat (off p)) (obj p)) (drop (Z.to_nat (off q)) (obj q))
  | _, _ => UB NullPointer
  end.

(** memcmp: the difference of the first bytes that differ. *)
Fixpoint memcmp_list (a b : list Z) : Z :=
  match a, b with
  | x :: a, y :: b => if x =? y then memcmp_list a b else x - y
  | _, _ => 0
  end.

Definition memcmp (p q : option ptr) (n : Z) : outcome Z :=
  a ← mem_read p n; b ← mem_read q n; Ok (memcmp_list a b).

(** ** The cursor: [unsigned char** pptr] over a buffer *)

Record cursor : Type := Cur { c_buf : list Z; c_pos : Z }.

Definition tell : M cursor Z := gets c_pos.
Definition advance (n : Z) : M cursor unit := modify (λ c, Cur (c_buf c) (c_pos c + n)).
Definition peek (i : Z) : M cursor Z := λ c,
  match load (c_buf c) (c_pos c + i) with
  | Ok v => Ok (v, c) | UB u => UB u | NoFuel => NoFuel end.
(** [memcpy( *pptr, bs, n)] *)
Definition poke_bytes (bs : list Z) : M cursor unit := λ c,
  match store_bytes (c_buf c) (c_pos c) bs with
  | Ok b => Ok (tt, Cur b (c_pos c)) | UB u => UB u | NoFuel => NoFuel end.
(** [**pptr = v] *)
Definition poke (v : Z) : M cursor unit := poke_bytes [to_uchar v].
(** The pointer [*pptr] itself. *)
Definition here : M cursor ptr := gets (λ c, Ptr (c_buf c) (c_pos c)).

(** Run on a cursor an operation that takes the pointer by value. *)
Definition at_ptr {A} (m : list Z → Z → outcome (A * list Z)) : M cursor A := λ c,
  match m (c_buf c) (c_pos c) with
  | Ok (a, b) => Ok (a, Cur b (c_pos c)) | UB u => UB u | NoFuel => NoFuel end.

(** A packet writer of the shape [ptr = buf; ...; rc = ptr - buf; return rc]. *)
Definition run_writer (buf : list Z) (m : M cursor unit) : outcome (Z * list Z) :=
  match m (Cur buf 0) with
  | Ok (_, c) => Ok (c_pos c, c_buf c) | UB u => UB u | NoFuel => NoFuel end.

(** [for (i = 0; i < count; ++i) body(i)] *)
Fixpoint for_loop {S} (n : nat) (i : Z) (body : Z → M S unit) : M S unit :=
  match n with
  | O => mret tt
  | S n => body i ;; for_loop n (i + 1) body
  end.

(** ** Facts about integers and bit-fields *)

Lemma truth_nonzero z : z ≠ 0 → truth z = true.
Proof. unfold truth. by destruct (Z.eqb_spec z 0). Qed.

Lemma to_uchar_byte z : byte (to_uchar z).
Proof. unfold byte, to_uchar. lia. Qed.

Lemma to_uchar_id z : byte z → to_uchar z = z.
Proof. unfold byte, to_uchar. lia. Qed.

(** A byte survives the trip through a [char], signed or not. *)
Lemma to_uchar_to_char `{CImpl} z : to_uchar (to_char z) = to_uchar z.
Proof. unfold to_uchar, to_char, to_schar, to_uchar. destruct char_signed; lia. Qed.

Lemma to_char_small `{CImpl} z : 0 ≤ z < 128 → to_char z = z.
Proof. unfold to_char, to_schar, to_uchar. destruct char_signed; lia. Qed.

Lemma to_int_id z : in_int z = true → to_int z = z.
Proof. unfold in_int, to_int, INT_MIN, INT_MAX. intros. lia. Qed.

Lemma to_uint_id z : 0 ≤ z ≤ INT_MAX → to_uint z = z.
Proof. unfold to_uint, INT_MAX. lia. Qed.

Lemma iadd_Ok a b : INT_MIN ≤ a + b ≤ INT_MAX → iadd a b = Ok (a + b).
Proof.
  unfold iadd, in_int, INT_MIN, INT_MAX. intros.
  destruct (_ && _) eqn:E; [done|]. lia.
Qed.

Lemma iadd_inv a b c : iadd a b = Ok c → c = a + b ∧ INT_MIN ≤ c ≤ INT_MAX.
Proof.
  unfold iadd, in_int, INT_MIN, INT_MAX. destruct (_ && _) eqn:E; [|done].
  intros [=]. lia.
Qed.

Lemma bf_get_range lo w b : 0 ≤ w → 0 ≤ bf_get lo w b < 2 ^ w.
Proof.
  intros. unfold bf_get. rewrite Z.land_ones by done.
  apply Z.mod_pos_bound. lia.
Qed.

Lemma bf_get_div lo w b : 0 ≤ lo → 0 ≤ w → bf_get lo w b = (b / 2 ^ lo) mod 2 ^ w.
Proof. intros. unfold bf_get. by rewrite Z.land_ones, Z.shiftr_div_pow2 by done. Qed.

Lemma land_mask_0 b lo w :
  0 ≤ lo → 0 ≤ w → (b / 2 ^ lo) mod 2 ^ w = 0 → Z.land b (Z.shiftl (Z.ones w) lo) = 0.
Proof.
  intros Hlo Hw E. rewrite <- Z.shiftr_div_pow2, <- Z.land_ones in E by done.
  apply Z.bits_inj'. intros i Hi. rewrite Z.land_spec, Z.shiftl_spec, Z.bits_0 by done.
  destruct (Z.ltb_spec i lo).
  - by rewrite (Z.testbit_neg_r _ (i - lo)), andb_false_r by lia.
  - apply (f_equal (λ z, Z.testbit z (i - lo))) in E.
    rewrite Z.land_spec, Z.shiftr_spec, Z.bits_0 in E by lia.
    by rewrite Z.sub_add in E.
Qed.

Lemma lor_add a b : Z.land a b = 0 → Z.lor a b = a + b.
Proof. intros E. by rewrite <- Z.lxor_lor, <- Z.add_nocarry_lxor. Qed.

(** Setting a bit-field that is clear adds its value at its place. *)
Lemma bf_set_add lo w v b :
  0 ≤ lo → 0 ≤ w → (b / 2 ^ lo) mod 2 ^ w = 0 →
  bf_set lo w v b = b + (v mod 2 ^ w) * 2 ^ lo.
Proof.
  intros Hlo Hw E. pose proof (land_mask_0 b lo w Hlo Hw E) as L. unfold bf_set.
  assert (Z.ldiff b (Z.shiftl (Z.ones w) lo) = b) as ->.
  { apply Z.bits_inj'. intros i Hi. apply (f_equal (λ z, Z.testbit z i)) in L.
    rewrite Z.land_spec, Z.bits_0 in L. rewrite Z.ldiff_spec.
    destruct (Z.testbit b i), (Z.testbit (Z.shiftl _ _) i); done. }
  rewrite lor_add; [by rewrite Z.land_ones, Z.shiftl_mul_pow2|].
  apply Z.bits_inj'. intros i Hi. apply (f_equal (λ z, Z.testbit z i)) in L.
  rewrite Z.land_spec, Z.shiftl_spec, Z.bits_0 in * by done.
  rewrite Z.land_spec. destruct (Z.testbit b i), (Z.testbit (Z.ones w) (i - lo));
    by rewrite ?andb_false_r.
Qed.

(** ** Facts about memory accesses *)

Lemma load_app pre x post i : i = len pre → load (pre ++ x :: post) i = Ok x.
Proof.
  intros ->. unfold load. destruct (Z.leb_spec 0 (len pre)); [|lia].
  by rewrite Nat2Z.id, list_lookup_middle.
Qed.

Lemma load_bytes_app pre bs post i n :
  i = len pre → n = len bs → load_bytes (pre ++ bs ++ post) i n = Ok bs.
Proof.
  intros -> ->. unfold load_bytes. autorewrite with lens.
  destruct (Z.eqb_spec (len bs) 0) as [E|E].
  - by destruct bs.
  - ztests. by rewrite !Nat2Z.id, drop_app_length, take_app_length.
Qed.

Lemma store_bytes_app pre old post i bs :
  i = len pre → length old = length bs →
  store_bytes (pre ++ old ++ post) i bs = Ok (pre ++ bs ++ post).
Proof.
  intros -> E. unfold store_bytes. destruct bs as [|b bs].
  { by apply nil_length_inv in E as ->. }
  autorewrite with lens. cbn [length] in *.
  ztests. repeat f_equal.
  - rewrite Nat2Z.id. apply take_app_length.
  - rewrite app_assoc. apply drop_len_app. rewrite length_app. lia.
Qed.

Lemma store_bytes_length buf i bs buf' :
  store_bytes buf i bs = Ok buf' → length buf' = length buf.
Proof.
  unfold store_bytes. destruct bs; [by intros [= ->]|].
  ztests; [|done..]. intros [= <-].
  rewrite (length_app (take _ _)). cbn [length] in *.
  rewrite length_app, length_take, length_drop. lia.
Qed.

Lemma arr_set_length {A} (a : list A) i v a' : arr_set a i v = Ok a' → length a' = length a.
Proof.
  unfold arr_set. ztests; [|done..]. intros [= <-]. apply length_insert.
Qed.

(** ** C strings *)

(** [cstr p bs]: [p] is a C string with the characters [bs]. *)
Definition cstr (p : ptr) (bs : list Z) : Prop :=
  0 ≤ off p ∧ Forall (λ b, byte b ∧ b ≠ 0) bs ∧ len bs ≤ INT_MAX ∧
  ∃ tl, drop (Z.to_nat (off p)) (obj p) = bs ++ 0 :: tl.

Lemma scan_nul_app bs tl :
  Forall (λ b, byte b ∧ b ≠ 0) bs → scan_nul (bs ++ 0 :: tl) = Some (length bs).
Proof.
  induction 1 as [|b bs [_ Hb] _ IH]; [done|].
  cbn [scan_nul app]. destruct (Z.eqb_spec b 0); [done|]. by rewrite IH.
Qed.

Lemma strlen_cstr p bs : cstr p bs → strlen (Some p) = Ok (len bs).
Proof.
  intros (Ho & Hnz & Hl & tl & E). unfold strlen.
  destruct (Z.ltb_spec (off p) 0); [lia|].
  rewrite E, scan_nul_app by done. rewrite to_int_id; [done|].
  unfold in_int, INT_MIN, INT_MAX in *. lia.
Qed.

Lemma load_bytes_rest buf i n bs tl :
  0 ≤ i → drop (Z.to_nat i) buf = bs ++ tl → n = len bs →
  load_bytes buf i n = Ok bs.
Proof.
  intros Hi E ->. unfold load_bytes.
  destruct (Z.eqb_spec (len bs) 0) as [F|F]; [by destruct bs|].
  pose proof (f_equal length E) as L. rewrite length_drop, length_app in L.
  ztests. by rewrite E, Nat2Z.id, take_app_length.
Qed.

Lemma mem_read_rest buf i n bs tl :
  0 ≤ i → drop (Z.to_nat i) buf = bs ++ tl → n = len bs →
  mem_read (Some (Ptr buf i)) n = Ok bs.
Proof.
  intros Hi E ->. unfold mem_read. destruct (Z.eqb_spec (len bs) 0) as [F|F]; [by destruct bs|].
  by eapply load_bytes_rest.
Qed.

Lemma mem_read_cstr p bs : cstr p bs → mem_read (Some p) (len bs) = Ok bs.
Proof. intros (Ho & Hnz & Hl & tl & E). destruct p. by eapply mem_read_rest. Qed.

Lemma load_bytes_inv buf i n bs :
  load_bytes buf i n = Ok bs → n ≠ 0 →
  0 ≤ i ∧ len bs = n ∧ i + n ≤ len buf ∧ ∃ tl, drop (Z.to_nat i) buf = bs ++ tl.
Proof.
  unfold load_bytes. intros E Hn. revert E. ztests; [|done..]. intros [= <-].
  rewrite length_take, length_drop. repeat split; [lia..|].
  exists (drop (Z.to_nat n) (drop (Z.to_nat i) buf)). by rewrite take_drop.
Qed.

Lemma load_bytes_defined buf i n :
  0 ≤ i → 0 ≤ n → i + n ≤ len buf → ∃ bs, load_bytes buf i n = Ok bs ∧ len bs = n.
Proof.
  intros. unfold load_bytes. destruct (Z.eqb_spec n 0) as [->|]; [by exists []|].
  ztests. eexists. split; [done|]. rewrite length_take, length_drop. lia.
Qed.

Lemma mem_read_prefix p n k bs :
  mem_read p n = Ok bs → 0 ≤ k ≤ n → mem_read p k = Ok (take (Z.to_nat k) bs).
Proof.
  unfold mem_read. intros E Hk. destruct (Z.eqb_spec k 0) as [->|]; [done|].
  destruct (Z.eqb_spec n 0); [lia|]. destruct p as [p|]; [|done].
  destruct (load_bytes_inv _ _ _ _ E) as (Hi & Hl & Hn & tl & Ed); [lia|].
  unfold load_bytes. ztests. rewrite Ed, take_app_le by lia. done.
Qed.

(** strncmp against a string without NUL decides equality. *)
Lemma strncmp_list_spec a b t1 t2 :
  length a = length b → Forall (λ x, byte x ∧ x ≠ 0) b →
  ∃ r, strncmp_list (length b) (a ++ t1) (b ++ t2) = Ok r ∧ (r = 0 ↔ a = b).
Proof.
  revert a. induction b as [|y b IH]; intros [|x a] L F; try done; [by exists 0|].
  injection L as L. inversion F as [|? ? [_ Hy] F']; subst. cbn [length app strncmp_list].
  destruct (Z.eqb_spec x y) as [->|N]; cbn [negb].
  - destruct (Z.eqb_spec y 0); [done|]. destruct (IH a L F') as (r & E & Hr).
    exists r. split; [done|]. rewrite Hr. split; [by intros ->|by intros [= ->]].
  - exists (x - y). split; [done|]. split; [lia|congruence].
Qed.

Lemma strncmp_cstr p q a b tl :
  0 ≤ off p → drop (Z.to_nat (off p)) (obj p) = a ++ tl → cstr q b → length a = length b →
  ∃ r, strncmp (Some p) (Some q) (len b) = Ok r ∧ (r = 0 ↔ a = b).
Proof.
  intros Hp Ea (Hq & Fb & _ & tq & Eq) L. unfold strncmp.
  destruct (Z.eqb_spec (len b) 0) as [E|E].
  - exists 0. split; [done|]. destruct b; [by destruct a|done].
  - ztests. rewrite Ea, Eq, Nat2Z.id. by apply strncmp_list_spec.
Qed.

(** strcmp decides equality of C strings. *)
Lemma strcmp_list_spec a b t1 t2 :
  Forall (λ x, byte x ∧ x ≠ 0) a → Forall (λ x, byte x ∧ x ≠ 0) b →
  ∃ r, strcmp_list (a ++ 0 :: t1) (b ++ 0 :: t2) = Ok r ∧ (r = 0 ↔ a = b).
Proof.
  intros Fa. revert b. induction Fa as [|x a [_ Hx] _ IH]; intros b Fb;
    destruct Fb as [|y b [_ Hy] Fb]; cbn [app strcmp_list].
  - by exists 0.
  - destruct (Z.eqb_spec 0 y); [congruence|]. exists (0 - y). split; [done|]. split; [lia|done].
  - destruct (Z.eqb_spec x 0); [congruence|]. exists (x - 0). split; [done|]. split; [lia|done].
  - destruct (Z.eqb_spec x y) as [->|N]; cbn [negb].
    + destruct (Z.eqb_spec y 0); [done|]. destruct (IH b Fb) as (r & E & Hr).
      exists r. split; [done|]. rewrite Hr. split; [by intros ->|by intros [= ->]].
    + exists (x - y). split; [done|]. split; [lia|congruence].
Qed.

Lemma strcmp_cstr p q a b :
  cstr p a → cstr q b → ∃ r, strcmp (Some p) (Some q) = Ok r ∧ (r = 0 ↔ a = b).
Proof.
  intros (Hp & Fa & _ & t1 & Ea) (Hq & Fb & _ & t2 & Eb). unfold strcmp. ztests.
  rewrite Ea, Eb. by apply strcmp_list_spec.
Qed.

Lemma c_string_cstr bs :
  Forall (λ b, byte b ∧ b ≠ 0) bs → len bs ≤ INT_MAX → cstr (c_string bs) bs.
Proof. intros. repeat split; [done..|]. by exists []. Qed.

(** ** Writers

    [emits m a bs]: run at any place of a buffer with room for [bs], the
    writer [m] replaces exactly the next [length bs] bytes by [bs], moves the
    cursor past them and returns [a]. *)

Definition emits {A} (m : M cursor A) (a : A) (bs : list Z) : Prop :=
  ∀ pre old post, length old = length bs →
    m (Cur (pre ++ old ++ post) (len pre)) =
      Ok (a, Cur (pre ++ bs ++ post) (len pre + len bs)).

Lemma emits_ret {A} (a : A) : emits (mret a) a [].
Proof.
  intros pre old post E. apply nil_length_inv in E as ->.
  rewrite run_ret. cbn [length]. by rewrite Z.add_0_r.
Qed.

Lemma emits_bind {A B} (m : M cursor A) (f : A → M cursor B) a b bs1 bs2 :
  emits m a bs1 → emits (f a) b bs2 → emits (m ≫= f) b (bs1 ++ bs2).
Proof.
  intros H1 H2 pre old post E. rewrite length_app in E.
  rewrite <- (take_drop (length bs1) old), <- (app_assoc (take _ _)).
  rewrite (run_bind _ _ _ a (Cur ((pre ++ bs1) ++ drop (length bs1) old ++ post)
                                 (len (pre ++ bs1)))).
  - rewrite H2 by (rewrite length_drop; lia).
    do 3 f_equal; [by rewrite <- !app_assoc | rewrite !length_app; lia].
  - rewrite H1 by (rewrite length_take; lia).
    do 3 f_equal; [by rewrite <- !app_assoc | rewrite !length_app; lia].
Qed.

Lemma emits_eq {A} (m : M cursor A) a bs bs' : emits m a bs → bs = bs' → emits m a bs'.
Proof. by intros ? <-. Qed.

Lemma emits_poke_bytes bs n :
  n = len bs → emits (poke_bytes bs ;; advance n) tt bs.
Proof.
  intros -> pre old post E.
  rewrite (run_bind _ _ _ tt (Cur (pre ++ bs ++ post) (len pre))); [done|].
  unfold poke_bytes. cbn [c_buf c_pos]. by rewrite store_bytes_app.
Qed.

Lemma emits_poke v : emits (poke v ;; advance 1) tt [to_uchar v].
Proof. by apply emits_poke_bytes. Qed.

Lemma run_assoc {S A B C} (m : M S A) (f : A → M S B) (g : B → M S C) s :
  ((m ≫= f) ≫= g) s = (m ≫= λ a, f a ≫= g) s.
Proof. unfold mbind, M_bind. by destruct (m s) as [[]| |]. Qed.

Lemma emits_poke_then {A} v (k : M cursor A) a bs :
  emits k a bs → emits (poke v ;; advance 1 ;; k) a (to_uchar v :: bs).
Proof.
  intros Hk pre old post E. unfold poke.
  rewrite <- (run_assoc (poke_bytes _) (λ _, advance 1) (λ _, k)).
  by apply (emits_bind _ (λ _, k) tt a _ _ (emits_poke v)).
Qed.

Lemma run_bind_tell {A} (f : Z → M cursor A) c : (tell ≫= f) c = f (c_pos c) c.
Proof. done. Qed.

(** A read of the state that does not depend on the buffer. *)
Lemma emits_lift {A} (o : outcome A) a : o = Ok a → emits (lift o) a [].
Proof.
  intros -> pre old post E. apply nil_length_inv in E as ->.
  rewrite (run_lift _ a) by done. cbn [length]. by rewrite Z.add_0_r.
Qed.

Lemma emits_if {A} (b : bool) (m1 m2 : M cursor A) a bs1 bs2 :
  (b = true → emits m1 a bs1) → (b = false → emits m2 a bs2) →
  emits (if b then m1 else m2) a (if b then bs1 else bs2).
Proof. destruct b; auto. Qed.

Lemma emits_for n i (body : Z → M cursor unit) (bs : nat → list Z) :
  (∀ k, (k < n)%nat → emits (body (i + Z.of_nat k)) tt (bs k)) →
  emits (for_loop n i body) tt (concat (map bs (seq 0 n))).
Proof.
  revert i bs. induction n as [|n IH]; intros i bs Hb; [apply emits_ret|].
  cbn [for_loop seq map concat]. eapply emits_bind.
  - specialize (Hb O). rewrite Z.add_0_r in Hb. apply Hb. lia.
  - rewrite <- seq_shift, map_map. apply IH. intros k Hk.
    replace (i + 1 + Z.of_nat k) with (i + Z.of_nat (S k)) by lia.
    apply Hb. lia.
Qed.

(** A loop over an array writes the concatenation of what its elements give. *)
Lemma emits_for_list {A} (l : list A) i (body : Z → M cursor unit) (f : A → list Z) :
  (∀ k x, l !! k = Some x → emits (body (i + Z.of_nat k)) tt (f x)) →
  emits (for_loop (length l) i body) tt (concat (map f l)).
Proof.
  revert i. induction l as [|x l IH]; intros i Hb; [apply emits_ret|].
  cbn [length for_loop map concat]. eapply emits_bind.
  - specialize (Hb O x eq_refl). by rewrite Z.add_0_r in Hb.
  - apply IH. intros k y E. replace (i + 1 + Z.of_nat k) with (i + Z.of_nat (S k)) by lia.
    by apply Hb.
Qed.

Lemma arr_get_lookup {A} (a : list A) (k : nat) x : a !! k = Some x → arr_get a (Z.of_nat k) = Ok x.
Proof. intros E. unfold arr_get. ztest. by rewrite Nat2Z.id, E. Qed.

Lemma arr_get_app {A} (a : list A) x r i : i = len a → arr_get (a ++ x :: r) i = Ok x.
Proof. intros ->. apply arr_get_lookup, list_lookup_middle. done. Qed.

Lemma arr_set_app {A} (a : list A) x y r i :
  i = len a → arr_set (a ++ x :: r) i y = Ok ((a ++ [y]) ++ r).
Proof.
  intros ->. unfold arr_set. autorewrite with lens. ztests.
  rewrite Nat2Z.id, <- app_assoc. f_equal. rewrite insert_app_r_alt by done.
  by rewrite Nat.sub_diag.
Qed.

Lemma arr_get_oob {A} (a : list A) i : len a ≤ i → arr_get a i = UB OutOfBounds.
Proof.
  intros. unfold arr_get. ztest. by rewrite lookup_ge_None_2 by lia.
Qed.

Lemma arr_set_oob {A} (a : list A) i x : len a ≤ i → arr_set a i x = UB OutOfBounds.
Proof. intros. unfold arr_set. by ztests. Qed.

(** *** Computations that fail *)

Lemma run_bind_UB {S A B} (m : M S A) (f : A → M S B) s u :
  m s = UB u → (m ≫= f) s = UB u.
Proof. unfold mbind, M_bind. by intros ->. Qed.

(** *** Termination *)

Definition returns {S A} (m : M S A) (s : S) : Prop := m s ≠ NoFuel.

Lemma returns_bind {S A B} (m : M S A) (f : A → M S B) s :
  returns m s → (∀ a s', m s = Ok (a, s') → returns (f a) s') → returns (m ≫= f) s.
Proof. unfold returns, mbind, M_bind. destruct (m s) as [[]| |]; naive_solver. Qed.

Lemma returns_ret {S A} (a : A) (s : S) : returns (mret a) s.
Proof. done. Qed.
Lemma returns_gets {S A} (f : S → A) (s : S) : returns (gets f) s.
Proof. done. Qed.
Lemma returns_modify {S} (f : S → S) (s : S) : returns (modify f) s.
Proof. done. Qed.
Lemma returns_lift {S A} (o : outcome A) (s : S) : o ≠ NoFuel → returns (lift o) s.
Proof. unfold returns, lift. by destruct o. Qed.
Lemma returns_peek i c : returns (peek i) c.
Proof. unfold returns, peek, load. ztest; [|done]. by destruct (_ !! _). Qed.

Lemma arr_get_returns {A} (a : list A) i : arr_get a i ≠ NoFuel.
Proof. unfold arr_get. ztest; [|done]. by destruct (_ !! _). Qed.
Lemma load_bytes_returns buf i n : load_bytes buf i n ≠ NoFuel.
Proof. unfold load_bytes. destruct (n =? 0); [done|]. by destruct (_ && _). Qed.
Lemma arr_set_returns {A} (a : list A) i v : arr_set a i v ≠ NoFuel.
Proof. unfold arr_set. by destruct (_ && _). Qed.

Create HintDb returns.
#[export] Hint Resolve returns_ret returns_gets returns_modify returns_lift returns_peek
  arr_get_returns arr_set_returns : returns.

(** Splits a sequence and a conditional, and solves what the hints know. *)
Ltac returns_step :=
  first
    [ apply returns_bind; [|intros ? ? ?]
    | match goal with
      | |- returns (if ?b then _ else _) _ => destruct b eqn:?
      | |- returns (let '(_, _) := ?x in _) _ => destruct x
      | |- returns (match ?x with _ => _ end) _ => destruct x
      end ].

(** [overruns m bs]: run where less than [length bs] bytes are left, the writer
    [m] stores past the end of the buffer. *)
Definition overruns {A} (m : M cursor A) (bs : list Z) : Prop :=
  ∀ pre post, (length post < length bs)%nat → m (Cur (pre ++ post) (len pre)) = UB OutOfBounds.

Lemma overruns_nil {A} (m : M cursor A) : overruns m [].
Proof. intros pre post L. cbn in L. lia. Qed.

Lemma overruns_bind {A B} (m : M cursor A) (f : A → M cursor B) a bs1 bs2 :
  emits m a bs1 → overruns m bs1 → overruns (f a) bs2 → overruns (m ≫= f) (bs1 ++ bs2).
Proof.
  intros H1 O1 O2 pre post L. rewrite length_app in L.
  destruct (decide (length post < length bs1)%nat) as [Hs|Hs];
    [apply run_bind_UB, O1; done|].
  rewrite <- (take_drop (length bs1) post) at 1.
  rewrite (run_bind _ _ _ _ _ (H1 pre (take (length bs1) post) (drop (length bs1) post)
    ltac:(rewrite length_take; lia))).
  rewrite app_assoc. replace (len pre + len bs1) with (len (pre ++ bs1)) by apply len_app.
  apply O2. rewrite length_drop. lia.
Qed.

Lemma overruns_eq {A} (m : M cursor A) bs bs' : overruns m bs → bs = bs' → overruns m bs'.
Proof. by intros ? <-. Qed.

Lemma overruns_poke_bytes {A} bs (k : M cursor A) : overruns (poke_bytes bs ;; k) bs.
Proof.
  intros pre post L. apply run_bind_UB. unfold poke_bytes, store_bytes. cbn [c_buf c_pos].
  destruct bs; [cbn in L; lia|]. autorewrite with lens. cbn [length] in *. ztests; done.
Qed.

Lemma overruns_for_list {A} (l : list A) i (body : Z → M cursor unit) (f : A → list Z) :
  (∀ k x, l !! k = Some x → emits (body (i + Z.of_nat k)) tt (f x)) →
  (∀ k x, l !! k = Some x → overruns (body (i + Z.of_nat k)) (f x)) →
  overruns (for_loop (length l) i body) (concat (map f l)).
Proof.
  revert i. induction l as [|x l IH]; intros i Hb Ho; [apply overruns_nil|].
  cbn [length for_loop map concat]. eapply (overruns_bind _ _ tt).
  - specialize (Hb O x eq_refl). by rewrite Z.add_0_r in Hb.
  - specialize (Ho O x eq_refl). by rewrite Z.add_0_r in Ho.
  - apply IH; intros k y E; replace (i + 1 + Z.of_nat k) with (i + Z.of_nat (S k)) by lia;
      [by apply Hb|by apply Ho].
Qed.

Lemma run_writer_overruns buf m bs :
  overruns m bs → len buf < len bs → run_writer buf m = UB OutOfBounds.
Proof.
  intros O L. unfold run_writer. specialize (O [] buf ltac:(lia)). change (len (@nil Z)) with 0 in O. cbn [app] in O. by rewrite O.
Qed.

(** The contract of a whole packet writer: it returns the length of what it
    wrote, at the front of the buffer, and leaves the rest of it alone. *)
Lemma run_writer_emits buf m bs :
  emits m tt bs → len bs ≤ len buf →
  run_writer buf m = Ok (len bs, bs ++ drop (length bs) buf).
Proof.
  intros H L. unfold run_writer.
  specialize (H [] (take (length bs) buf) (drop (length bs) buf)).
  change (len (@nil Z)) with 0 in H. cbn [app] in H. rewrite take_drop in H. rewrite H; [done|].
  rewrite length_take. lia.
Qed.

(** ** Readers

    [rest c]: the bytes of the buffer from the cursor on. *)

Definition rest (c : cursor) : list Z := drop (Z.to_nat (c_pos c)) (c_buf c).
Definition adv (c : cursor) (n : Z) : cursor := Cur (c_buf c) (c_pos c + n).

Lemma adv_adv c a b : adv (adv c a) b = adv c (a + b).
Proof. unfold adv. cbn. f_equal. lia. Qed.

Lemma rest_adv c n : 0 ≤ c_pos c → 0 ≤ n → rest (adv c n) = drop (Z.to_nat n) (rest c).
Proof. intros. unfold rest, adv. cbn. symmetry. by apply drop_drop_Z. Qed.

Lemma rest_adv_app c n bs r :
  0 ≤ c_pos c → rest c = bs ++ r → n = len bs → rest (adv c n) = r.
Proof. intros ? E ->. rewrite rest_adv, E by lia. by apply drop_len_app. Qed.

Lemma peek_rest c i pre b r :
  0 ≤ c_pos c → rest c = pre ++ b :: r → i = len pre → peek i c = Ok (b, c).
Proof.
  intros Hp E ->. unfold peek, load. destruct (Z.leb_spec 0 (c_pos c + len pre)); [|lia].
  unfold rest in E. assert (c_buf c !! Z.to_nat (c_pos c + len pre) = Some b) as ->; [|done].
  replace (Z.to_nat (c_pos c + len pre)) with (Z.to_nat (c_pos c) + length pre)%nat by lia.
  rewrite <- lookup_drop, E. by apply list_lookup_middle.
Qed.

Lemma peek_inv c i b c' :
  peek i c = Ok (b, c') → c' = c ∧ 0 ≤ c_pos c + i < len (c_buf c).
Proof.
  unfold peek, load. destruct (Z.leb_spec 0 (c_pos c + i)); [|done].
  destruct (_ !! _) eqn:E; [|done]. intros [=]. split; [done|].
  apply lookup_lt_Some in E. lia.
Qed.

Lemma peek_defined c i :
  0 ≤ c_pos c + i < len (c_buf c) → ∃ b, peek i c = Ok (b, c).
Proof.
  intros. unfold peek, load. destruct (Z.leb_spec 0 (c_pos c + i)); [|lia].
  destruct (lookup_lt_is_Some_2 (c_buf c) (Z.to_nat (c_pos c + i))) as [b ->]; [lia|].
  by exists b.
Qed.

Lemma peek_byte c i b c' : bytes (c_buf c) → peek i c = Ok (b, c') → byte b.
Proof.
  unfold peek, load. intros Hb. destruct (Z.leb_spec 0 (c_pos c + i)); [|done].
  destruct (_ !! _) eqn:E; [|done]. intros [= -> _]. by eapply Forall_lookup_1.
Qed.
