(* ===== verification/Wire.v ===== *)
(** * The MQTT wire format, as a specification

    Pure functions from the contents of a packet to its bytes. The files that
    model the C functions prove that the serializers write exactly these bytes
    and that the deserializers recover the contents from them. *)

From S2P Require Import Prelude CSem.

(** ** Variable-length integers *)

(** Seven bits per byte, least significant first, bit 7 set on all but the
    last; at most [k] bytes. *)
Fixpoint varint_k (k : nat) (n : Z) : list Z :=
  match k with
  | O => []
  | S k => if n <? 128 then [n] else (128 + n mod 128) :: varint_k k (n / 128)
  end.

(** Five bytes hold any 32-bit int; MQTT allows four. *)
Definition varint (n : Z) : list Z := varint_k 5 n.

(** The largest remaining length of the MQTT specification. *)
Definition MAX_REMAINING : Z := 268435455.

(** ** Fixed-size integers, strings, packets *)

Definition int16 (n : Z) : list Z := [(n / 256) mod 256; n mod 256].

Definition str (bs : list Z) : list Z := int16 (len bs) ++ bs.

(** The first byte: packet type and flags. *)
Definition fixed_header (type dup qos retain : Z) : Z :=
  16 * (type mod 16) + 8 * (dup mod 2) + 2 * (qos mod 4) + retain mod 2.

Definition packet (header : Z) (body : list Z) : list Z :=
  header :: varint (len body) ++ body.

(** ** Connect packets *)

Record will_msg : Type := WillMsg
  { w_topic : list Z; w_message : list Z; w_qos : Z; w_retain : Z }.

Record connect : Type := Connect
  { k_version : Z; k_client : list Z; k_keepalive : Z; k_clean : Z;
    k_will : option will_msg; k_user : option (list Z); k_pass : option (list Z) }.

Definition opt_bit {A} (o : option A) : Z := match o with Some _ => 1 | None => 0 end.
Definition opt_str (o : option (list Z)) : list Z :=
  match o with Some bs => str bs | None => [] end.

Definition protocol (version : Z) : list Z :=
  if version =? 4 then str (bytes_of "MQTT"%string) ++ [4] else str (bytes_of "MQIsdp"%string) ++ [3].

Definition connect_flags (k : connect) : Z :=
  2 * k_clean k +
  match k_will k with Some w => 4 + 8 * w_qos w + 32 * w_retain w | None => 0 end +
  64 * opt_bit (k_pass k) + 128 * opt_bit (k_user k).

Definition will_body (o : option will_msg) : list Z :=
  match o with Some w => str (w_topic w) ++ str (w_message w) | None => [] end.

Definition connect_body (k : connect) : list Z :=
  protocol (k_version k) ++ [connect_flags k] ++ int16 (k_keepalive k) ++
  str (k_client k) ++ will_body (k_will k) ++ opt_str (k_user k) ++ opt_str (k_pass k).

(** A string MQTT can carry. *)
Definition mqtt_str (bs : list Z) : Prop := bytes bs ∧ len bs < 65536.

Definition bit (z : Z) : Prop := z = 0 ∨ z = 1.

#[export] Instance mqtt_str_dec bs : Decision (mqtt_str bs).
Proof. unfold mqtt_str. apply _. Defined.
#[export] Instance bit_dec z : Decision (bit z).
Proof. unfold bit. apply _. Defined.

Record connect_wf (k : connect) : Prop :=
  { wf_version : k_version k = 3 ∨ k_version k = 4;
    wf_client : mqtt_str (k_client k);
    wf_keepalive : 0 ≤ k_keepalive k < 65536;
    wf_clean : bit (k_clean k);
    wf_will : ∀ w, k_will k = Some w →
      mqtt_str (w_topic w) ∧ mqtt_str (w_message w) ∧ 0 ≤ w_qos w < 4 ∧ bit (w_retain w);
    wf_user : ∀ u, k_user k = Some u → mqtt_str u;
    wf_pass : ∀ p, k_pass k = Some p → mqtt_str p }.

(** ** Publish packets *)

Record publish : Type := Publish
  { pb_dup : Z; pb_qos : Z; pb_retain : Z; pb_id : Z; pb_topic : list Z; pb_payload : list Z }.

(** The packet identifier is only there for QoS 1 and 2. *)
Definition publish_body (p : publish) : list Z :=
  str (pb_topic p) ++ (if 0 <? pb_qos p then int16 (pb_id p) else []) ++ pb_payload p.

Record publish_wf (p : publish) : Prop :=
  { wf_dup : bit (pb_dup p);
    wf_qos : 0 ≤ pb_qos p < 4;
    wf_retain : bit (pb_retain p);
    wf_id : 0 ≤ pb_id p < 65536;
    wf_topic : mqtt_str (pb_topic p);
    wf_payload : bytes (pb_payload p);
    wf_body : len (publish_body p) ≤ MAX_REMAINING }.

(** ** Subscribe and unsubscribe packets *)

(** A subscription: topic filter and requested QoS. *)
Definition subscribe_body (id : Z) (subs : list (list Z * Z)) : list Z :=
  int16 id ++ concat (map (λ s, str s.1 ++ [s.2]) subs).

Definition unsubscribe_body (id : Z) (filters : list (list Z)) : list Z :=
  int16 id ++ concat (map str filters).

(** ** Facts *)

Lemma varint_k_bytes k n : 0 ≤ n → Forall byte (varint_k k n).
Proof.
  revert n. induction k as [|k IH]; intros n Hn; cbn [varint_k]; [constructor|].
  ztests; constructor; unfold byte; [lia|constructor|lia|]. apply IH. lia.
Qed.

Lemma varint_bytes n : 0 ≤ n → bytes (varint n).
Proof. apply varint_k_bytes. Qed.

Lemma varint_len n : 0 ≤ n →
  len (varint n) = if n <? 128 then 1 else if n <? 16384 then 2
                   else if n <? 2097152 then 3 else if n <? 268435456 then 4 else 5.
Proof.
  intros Hn. unfold varint. cbn [varint_k].
  repeat (ztest; cbn [length]); lia.
Qed.

Lemma varint_len_bounds n : 0 ≤ n → 1 ≤ len (varint n) ≤ 5.
Proof. intros Hn. rewrite varint_len by done. ztests. Qed.

Lemma varint_len_mqtt n : 0 ≤ n ≤ MAX_REMAINING → 1 ≤ len (varint n) ≤ 4.
Proof. unfold MAX_REMAINING. intros Hn. rewrite varint_len by lia. ztests. Qed.

(** Four bytes are enough for the lengths MQTT allows. *)
Lemma varint_4 n : 0 ≤ n ≤ MAX_REMAINING → varint n = varint_k 4 n.
Proof.
  unfold MAX_REMAINING. intros Hn. unfold varint. cbn [varint_k].
  repeat (ztest; [done|]; f_equal). ztests; done.
Qed.

Lemma int16_bytes n : bytes (int16 n).
Proof. repeat constructor; unfold byte; lia. Qed.

Lemma int16_len n : len (int16 n) = 2.
Proof. done. Qed.

Lemma int16_value n : 0 ≤ n < 65536 → 256 * ((n / 256) mod 256) + n mod 256 = n.
Proof. lia. Qed.

Lemma fixed_header_byte t d q r : byte (fixed_header t d q r).
Proof. unfold byte, fixed_header. lia. Qed.

Lemma connect_flags_byte k : connect_wf k → byte (connect_flags k).
Proof.
  intros [_ _ _ Hc Hw _ _]. unfold byte, connect_flags, opt_bit, bit in *.
  destruct (k_will k) as [w|]; [destruct (Hw w eq_refl) as (_ & _ & ? & ?)|];
    destruct (k_user k), (k_pass k); lia.
Qed.

Lemma str_len bs : len (str bs) = 2 + len bs.
Proof. unfold str. rewrite len_app, int16_len. done. Qed.

Lemma str_bytes bs : bytes bs → bytes (str bs).
Proof. intros. apply Forall_app; split; [apply int16_bytes|done]. Qed.

Lemma packet_len h body : len (packet h body) = 1 + len (varint (len body)) + len body.
Proof. unfold packet. autorewrite with lens. lia. Qed.

#[export] Hint Rewrite str_len int16_len packet_len : lens.
