(* ===== verification/Packet.v ===== *)
(** * MQTTPacket.c and MQTTPacket.h: the primitives every packet is built from

    The remaining-length encoding, characters and 16-bit integers, MQTT
    strings, and the fixed header. *)

From S2P Require Import Prelude CSem Wire.

(** ** Constants (MQTTPacket.h) *)

Definition MQTTPACKET_BUFFER_TOO_SHORT : Z := -2.
Definition MQTTPACKET_READ_ERROR : Z := -1.
Definition MQTTPACKET_READ_COMPLETE : Z := 0.

Definition CONNECT : Z := 1.
Definition CONNACK : Z := 2.
Definition PUBLISH : Z := 3.
Definition PUBACK : Z := 4.
Definition PUBREC : Z := 5.
Definition PUBREL : Z := 6.
Definition PUBCOMP : Z := 7.
Definition SUBSCRIBE : Z := 8.
Definition SUBACK : Z := 9.
Definition UNSUBSCRIBE : Z := 10.
Definition UNSUBACK : Z := 11.
Definition PINGREQ : Z := 12.
Definition PINGRESP : Z := 13.
Definition DISCONNECT : Z := 14.

(** ** The MQTTHeader union: the byte and its bit-fields *)

Definition header_retain (b : Z) : Z := bf_get 0 1 b.
Definition header_qos (b : Z) : Z := bf_get 1 2 b.
Definition header_dup (b : Z) : Z := bf_get 3 1 b.
Definition header_type (b : Z) : Z := bf_get 4 4 b.
Definition set_header_retain (v b : Z) : Z := bf_set 0 1 v b.
Definition set_header_qos (v b : Z) : Z := bf_set 1 2 v b.
Definition set_header_dup (v b : Z) : Z := bf_set 3 1 v b.
Definition set_header_type (v b : Z) : Z := bf_set 4 4 v b.

(** ** MQTT strings *)

Record MQTTLenString : Type := { ls_len : Z; ls_data : option ptr }.
Record MQTTString : Type := { cstring : option ptr; lenstring : MQTTLenString }.

Definition MQTTString_initializer : MQTTString :=
  {| cstring := None; lenstring := {| ls_len := 0; ls_data := None |} |}.

#[export] Instance MQTTLenString_eq_dec : EqDecision MQTTLenString.
Proof. solve_decision. Defined.
#[export] Instance MQTTString_eq_dec : EqDecision MQTTString.
Proof. solve_decision. Defined.

Section Packet.
Context `{CImpl}.

(** ** The remaining length *)

(** The do-while loop of MQTTPacket_encode. [fuel]: 5 iterations encode any
    32-bit int (see [MQTTPacket_encode_total]). *)
Fixpoint MQTTPacket_encode_loop (fuel : nat) (buf : list Z) (p length rc : Z)
  : outcome (Z * list Z) :=
  match fuel with
  | O => NoFuel
  | S fuel =>
      let d := to_char (Z.rem length 128) in
      let length := Z.quot length 128 in
      let d := if 0 <? length then to_char (Z.lor d 128) else d in
      buf ← store_bytes buf (p + rc) [to_uchar d];
      let rc := rc + 1 in
      if 0 <? length then MQTTPacket_encode_loop fuel buf p length rc
      else Ok (rc, buf)
  end.

(** [MQTTPacket_encode(buf + p, length)]: the number of bytes and the buffer. *)
Definition MQTTPacket_encode (length : Z) (buf : list Z) (p : Z) : outcome (Z * list Z) :=
  MQTTPacket_encode_loop 5 buf p length 0.

Definition MAX_NO_OF_REMAINING_LENGTH_BYTES : Z := 4.

(** A [getcharfn]/[getfn] called with a count: its return value and the bytes
    it stored at the destination. *)
Definition getfn (S : Type) : Type := Z → M S (Z * list Z).

(** The loop of MQTTPacket_decode. It returns at the fifth iteration at the
    latest, so [fuel] 5 is enough (see [MQTTPacket_decode_total]). *)
Fixpoint MQTTPacket_decode_loop {S} (fuel : nat) (getcharfn : getfn S)
    (value multiplier len : Z) : M S (Z * Z) :=
  match fuel with
  | O => no_fuel
  | Datatypes.S fuel =>
      let len := len + 1 in
      if MAX_NO_OF_REMAINING_LENGTH_BYTES <? len then mret (len, value)
      else
        '(rc, cs) ← getcharfn 1;
        if negb (rc =? 1) then mret (len, value)
        else
          c ← lift (match cs with [] => UB Uninitialised | c :: _ => Ok c end);
          let value := value + Z.land c 127 * multiplier in
          let multiplier := multiplier * 128 in
          if negb (Z.land c 128 =? 0)
          then MQTTPacket_decode_loop fuel getcharfn value multiplier len
          else mret (len, value)
  end.

(** The return value and [*value]. *)
Definition MQTTPacket_decode {S} (getcharfn : getfn S) : M S (Z * Z) :=
  MQTTPacket_decode_loop 5 getcharfn 0 1 0.

Definition MQTTPacket_len (rem_len : Z) : outcome Z :=
  rem_len ← (rem_len +i 1)%c;
  if rem_len <? 128 then (rem_len +i 1)%c
  else if rem_len <? 16384 then (rem_len +i 2)%c
  else if rem_len <? 2097151 then (rem_len +i 3)%c
  else (rem_len +i 4)%c.

(** bufchar reads through the static [bufptr]; every character lands in [*c]. *)
Fixpoint bufchar_loop (n : nat) (c : list Z) : M cursor (list Z) :=
  match n with
  | O => mret c
  | S n => v ← peek 0; advance 1 ;; bufchar_loop n [v]
  end.
Definition bufchar : getfn cursor := λ count,
  c ← bufchar_loop (Z.to_nat count) []; mret (count, c).

(** [MQTTPacket_decodeBuf(p, &value)]: [bufptr] starts at [p]. *)
Definition MQTTPacket_decodeBuf (p : ptr) : outcome (Z * Z) :=
  '(r, _) ← MQTTPacket_decode bufchar (Cur (obj p) (off p)); Ok r.

(** ** Characters and integers *)

Definition readInt : M cursor Z :=
  a ← peek 0; b ← peek 1; advance 2 ;; mret (256 * a + b).

Definition readChar : M cursor Z :=
  c ← peek 0; advance 1 ;; mret (to_char c).

Definition writeChar (c : Z) : M cursor unit := poke (to_char c) ;; advance 1.

Definition writeInt (anInt : Z) : M cursor unit :=
  poke (to_uchar (Z.quot anInt 256)) ;; advance 1 ;;
  poke (to_uchar (Z.rem anInt 256)) ;; advance 1.

(** [memcpy( *pptr, data, n); *pptr += n] *)
Definition copy_in (data : option ptr) (n : Z) : M cursor unit :=
  bs ← lift (mem_read data n); poke_bytes bs ;; advance n.

Definition writeCString (string : option ptr) : M cursor unit :=
  len ← lift (strlen string); writeInt len ;; copy_in string len.

Definition getLenStringLen (p : option ptr) : outcome Z :=
  a ← ptr_load p 0; b ← ptr_load p 1; Ok (256 * a + b).

Definition writeMQTTString (s : MQTTString) : M cursor unit :=
  if 0 <? ls_len (lenstring s) then
    writeInt (ls_len (lenstring s)) ;;
    copy_in (ls_data (lenstring s)) (ls_len (lenstring s))
  else if nonnull (cstring s) then writeCString (cstring s)
  else writeInt 0.

(** [readMQTTLenString(&mqttstring, pptr, enddata)]: the return code and the
    structure, which a failure leaves partly written. *)
Definition readMQTTLenString (s : MQTTString) (enddata : Z) : M cursor (Z * MQTTString) :=
  p ← tell;
  if 1 <? enddata - p then
    n ← readInt;
    q ← here;
    if off q + n <=? enddata then
      advance n ;;
      mret (1, {| cstring := None; lenstring := {| ls_len := n; ls_data := Some q |} |})
    else
      mret (0, {| cstring := None;
                  lenstring := {| ls_len := n; ls_data := ls_data (lenstring s) |} |})
  else mret (0, {| cstring := None; lenstring := lenstring s |}).

Definition MQTTstrlen (s : MQTTString) : outcome Z :=
  if nonnull (cstring s) then strlen (cstring s) else Ok (ls_len (lenstring s)).

Definition MQTTPacket_equals (a : MQTTString) (bptr : option ptr) : outcome bool :=
  '(aptr, alen) ←
    (if nonnull (cstring a) then n ← strlen (cstring a); Ok (cstring a, n)
     else Ok (ls_data (lenstring a), ls_len (lenstring a)));
  blen ← strlen bptr;
  if alen =? blen then r ← strncmp aptr bptr alen; Ok (r =? 0) else Ok false.

(** ** The pieces of a packet writer *)

(** [ptr += MQTTPacket_encode(ptr, n)] *)
Definition writeRemLen (n : Z) : M cursor unit :=
  rc ← at_ptr (MQTTPacket_encode n); advance rc.

(** [curdata += (rc = MQTTPacket_decodeBuf(curdata, &mylen))]: (rc, mylen). *)
Definition readRemLen : M cursor (Z * Z) :=
  p ← here; '(rc, mylen) ← lift (MQTTPacket_decodeBuf p);
  advance rc ;; mret (rc, mylen).


(** ** The fixed header *)

Lemma set_header_type_add v b :
  (b / 16) mod 16 = 0 → set_header_type v b = b + (v mod 16) * 16.
Proof. apply (bf_set_add 4 4); done. Qed.
Lemma set_header_dup_add v b :
  (b / 8) mod 2 = 0 → set_header_dup v b = b + (v mod 2) * 8.
Proof. apply (bf_set_add 3 1); done. Qed.
Lemma set_header_qos_add v b :
  (b / 2) mod 4 = 0 → set_header_qos v b = b + (v mod 4) * 2.
Proof. apply (bf_set_add 1 2); done. Qed.
Lemma set_header_retain_add v b :
  (b / 1) mod 2 = 0 → set_header_retain v b = b + (v mod 2) * 1.
Proof. apply (bf_set_add 0 1); done. Qed.

Lemma header_type_only t : set_header_type t 0 = fixed_header t 0 0 0.
Proof. rewrite set_header_type_add by done. unfold fixed_header. lia. Qed.

Lemma header_no_retain t d q :
  set_header_qos q (set_header_dup d (set_header_type t 0)) = fixed_header t d q 0.
Proof.
  rewrite set_header_type_add by done. rewrite set_header_dup_add by lia.
  rewrite set_header_qos_add by lia. unfold fixed_header. lia.
Qed.

Lemma header_full t d q r :
  set_header_retain r (set_header_qos q (set_header_dup d (set_header_type t 0))) =
    fixed_header t d q r.
Proof.
  rewrite header_no_retain, set_header_retain_add; unfold fixed_header; lia.
Qed.

Lemma header_type_of t d q r : header_type (fixed_header t d q r) = t mod 16.
Proof.
  unfold header_type. rewrite bf_get_div by done. unfold fixed_header.
  change (2 ^ 4) with 16. lia.
Qed.
Lemma header_dup_of t d q r : header_dup (fixed_header t d q r) = d mod 2.
Proof.
  unfold header_dup. rewrite bf_get_div by done. unfold fixed_header.
  change (2 ^ 3) with 8. change (2 ^ 1) with 2. lia.
Qed.
Lemma header_qos_of t d q r : header_qos (fixed_header t d q r) = q mod 4.
Proof.
  unfold header_qos. rewrite bf_get_div by done. unfold fixed_header.
  change (2 ^ 1) with 2. change (2 ^ 2) with 4. lia.
Qed.
Lemma header_retain_of t d q r : header_retain (fixed_header t d q r) = r mod 2.
Proof.
  unfold header_retain. rewrite bf_get_div by done. unfold fixed_header.
  change (2 ^ 1) with 2. change (2 ^ 0) with 1. lia.
Qed.

(** ** Writers emit the wire format *)

Lemma lor_128 d : 0 ≤ d < 128 → Z.lor d 128 = 128 + d.
Proof.
  intros Hd. rewrite lor_add; [lia|].
  apply (land_mask_0 d 7 1); [done..|]. rewrite Z.div_small; done.
Qed.

Lemma encode_loop_emits fuel n pre old post p rc :
  0 ≤ n < 128 ^ Z.of_nat fuel → length old = length (varint_k fuel n) →
  p + rc = len pre → (0 < fuel)%nat →
  MQTTPacket_encode_loop fuel (pre ++ old ++ post) p n rc =
    Ok (rc + len (varint_k fuel n), pre ++ varint_k fuel n ++ post).
Proof.
  revert n pre old rc. induction fuel as [|fuel IH]; intros n pre old rc Hn E Hp Hf; [lia|].
  cbn [MQTTPacket_encode_loop varint_k] in *.
  rewrite Z.rem_mod_nonneg, Z.quot_div_nonneg, (to_char_small (n mod 128)) by lia.
  rewrite lor_128 by lia. rewrite Nat2Z.inj_succ, Z.pow_succ_r in Hn by lia.
  destruct (Z.ltb_spec n 128).
  - destruct (Z.ltb_spec 0 (n / 128)); [lia|].
    destruct old as [|o [|]]; [done| |done].
    rewrite to_uchar_id by (unfold byte; lia).
    cbn [app]. rewrite (store_bytes_app pre [o] post) by done.
    cbn [mbind outcome_bind length app Z.of_nat]. repeat f_equal. lia.
  - destruct (Z.ltb_spec 0 (n / 128)); [|lia].
    destruct old as [|o old]; [done|]. injection E as E.
    rewrite to_uchar_to_char, to_uchar_id by (unfold byte; lia).
    rewrite (store_bytes_app pre [o] (old ++ post)) by done.
    cbn [mbind outcome_bind]. destruct fuel as [|fuel]; [cbn in Hn; lia|].
    specialize (IH (n / 128) (pre ++ [128 + n mod 128]) old (rc + 1)).
    rewrite <- app_assoc in IH. cbn [app] in *. rewrite IH; [|split; [lia|apply Z.div_lt_upper_bound; lia]|done| |lia].
    + rewrite <- app_assoc. cbn [app length]. do 2 f_equal. lia.
    + autorewrite with lens. cbn [length]. lia.
Qed.

Lemma encode_emits n pre old post :
  0 ≤ n ≤ INT_MAX → length old = length (varint n) →
  MQTTPacket_encode n (pre ++ old ++ post) (len pre) =
    Ok (len (varint n), pre ++ varint n ++ post).
Proof.
  unfold INT_MAX. intros Hn E. unfold MQTTPacket_encode, varint in *.
  rewrite encode_loop_emits; [by rewrite Z.add_0_l|cbn; lia|done|lia|lia].
Qed.

Lemma emits_writeRemLen n : 0 ≤ n ≤ INT_MAX → emits (writeRemLen n) tt (varint n).
Proof.
  intros Hn pre old post E. unfold writeRemLen.
  rewrite (run_bind _ _ _ (len (varint n)) (Cur (pre ++ varint n ++ post) (len pre))); [done|].
  unfold at_ptr. cbn [c_buf c_pos]. by rewrite encode_emits.
Qed.

Lemma emits_writeChar c : emits (writeChar c) tt [to_uchar c].
Proof. rewrite <- to_uchar_to_char. apply emits_poke. Qed.

Lemma emits_writeByte c : byte c → emits (writeChar c) tt [c].
Proof. intros Hc. rewrite <- (to_uchar_id _ Hc) at 2. apply emits_writeChar. Qed.

Lemma emits_writeInt n : 0 ≤ n → emits (writeInt n) tt (int16 n).
Proof.
  intros Hn. unfold writeInt, int16. eapply emits_eq.
  { apply emits_poke_then, emits_poke. }
  unfold to_uchar. rewrite Z.rem_mod_nonneg, Z.quot_div_nonneg by lia.
  f_equal; [|f_equal]; lia.
Qed.

Lemma emits_copy_in p n bs :
  mem_read p n = Ok bs → n = len bs → emits (copy_in p n) tt bs.
Proof.
  intros E L. unfold copy_in. apply (emits_eq _ _ ([] ++ bs)); [|done].
  eapply emits_bind; [by apply emits_lift|]. by apply emits_poke_bytes.
Qed.

(** [denotes s bs]: the structure stands for the characters [bs], either as a
    C string or with an explicit length, but not as both. *)
Definition denotes (s : MQTTString) (bs : list Z) : Prop :=
  bytes bs ∧ len bs ≤ INT_MAX ∧
  match cstring s with
  | Some p => cstr p bs ∧ ls_len (lenstring s) ≤ 0
  | None => ls_len (lenstring s) = len bs ∧ mem_read (ls_data (lenstring s)) (len bs) = Ok bs
  end.

(** The two ways a caller fills the structure. *)
Definition of_cstring (bs : list Z) : MQTTString :=
  {| cstring := Some (c_string bs); lenstring := lenstring MQTTString_initializer |}.
Definition of_data (bs : list Z) : MQTTString :=
  {| cstring := None; lenstring := {| ls_len := len bs; ls_data := Some (Ptr bs 0) |} |}.

Lemma of_cstring_denotes bs :
  Forall (λ b, byte b ∧ b ≠ 0) bs → len bs ≤ INT_MAX → denotes (of_cstring bs) bs.
Proof.
  intros Hb Hl. split; [|split; [done|]].
  - eapply List.Forall_impl; [|exact Hb]. by intros ? [].
  - split; [by apply c_string_cstr|done].
Qed.

Lemma of_data_denotes bs : bytes bs → len bs ≤ INT_MAX → denotes (of_data bs) bs.
Proof.
  intros Hb Hl. split; [done|]. split; [done|]. split; [done|].
  apply (mem_read_rest bs 0 _ bs []); [done| |done]. by rewrite app_nil_r.
Qed.

Lemma emits_writeCString p bs :
  cstr p bs → emits (writeCString (Some p)) tt (str bs).
Proof.
  intros Hc. unfold writeCString. apply (emits_eq _ _ ([] ++ str bs)); [|done].
  eapply emits_bind; [apply emits_lift; by apply strlen_cstr|].
  eapply emits_bind; [apply emits_writeInt; lia|].
  apply emits_copy_in; [by apply mem_read_cstr|done].
Qed.

Lemma emits_writeMQTTString s bs :
  denotes s bs → emits (writeMQTTString s) tt (str bs).
Proof.
  intros (Hb & Hl & Hs). unfold writeMQTTString.
  destruct (cstring s) as [p|] eqn:Ec.
  - destruct Hs as [Hc Hn]. destruct (Z.ltb_spec 0 (ls_len (lenstring s))); [lia|].
    by apply emits_writeCString.
  - destruct Hs as [-> Hm]. destruct (Z.ltb_spec 0 (len bs)).
    + eapply emits_bind; [apply emits_writeInt; lia|]. by apply emits_copy_in.
    + destruct bs; [|cbn in *; lia]. cbn [nonnull]. by apply emits_writeInt.
Qed.

Lemma MQTTstrlen_denotes s bs : denotes s bs → MQTTstrlen s = Ok (len bs).
Proof.
  intros (Hb & Hl & Hs). unfold MQTTstrlen. destruct (cstring s) as [p|]; cbn [nonnull].
  - apply strlen_cstr, Hs.
  - by destruct Hs as [-> _].
Qed.

(** ** Readers recover what the wire format holds *)

Lemma readChar_rest c b r :
  0 ≤ c_pos c → rest c = b :: r → readChar c = Ok (to_char b, adv c 1).
Proof.
  intros Hp E. unfold readChar.
  by rewrite (run_bind _ _ _ b c) by (by apply (peek_rest _ _ [] b r)).
Qed.

Lemma readInt_rest c a b r :
  0 ≤ c_pos c → rest c = a :: b :: r → readInt c = Ok (256 * a + b, adv c 2).
Proof.
  intros Hp E. unfold readInt.
  rewrite (run_bind _ _ _ a c) by (by apply (peek_rest _ _ [] a (b :: r))).
  by rewrite (run_bind _ _ _ b c) by (by apply (peek_rest _ _ [a] b r)).
Qed.

Lemma readInt_int16 c n r :
  0 ≤ c_pos c → 0 ≤ n < 65536 → rest c = int16 n ++ r → readInt c = Ok (n, adv c 2).
Proof.
  intros Hp Hn E. rewrite (readInt_rest c ((n / 256) mod 256) (n mod 256) r) by done.
  by rewrite int16_value.
Qed.

(** The string a deserializer returns is a view of its own buffer. *)
Definition view (c : cursor) (n : Z) : MQTTString :=
  {| cstring := None; lenstring := {| ls_len := n; ls_data := Some (Ptr (c_buf c) (c_pos c)) |} |}.

Lemma view_denotes c bs r :
  0 ≤ c_pos c → rest c = bs ++ r → bytes bs → len bs ≤ INT_MAX →
  denotes (view c (len bs)) bs.
Proof.
  intros Hp E Hb Hl. split; [done|]. split; [done|]. cbn. split; [done|].
  by eapply mem_read_rest.
Qed.

Lemma readMQTTLenString_str s c bs r enddata :
  0 ≤ c_pos c → rest c = str bs ++ r → len bs < 65536 →
  c_pos c + (2 + len bs) ≤ enddata →
  readMQTTLenString s enddata c =
    Ok ((1, view (adv c 2) (len bs)), adv c (2 + len bs)).
Proof.
  intros Hp E Hl He. unfold readMQTTLenString.
  rewrite (run_bind _ _ _ (c_pos c) c) by done.
  destruct (Z.ltb_spec 1 (enddata - c_pos c)); [|lia].
  unfold str in E. rewrite <- app_assoc in E.
  rewrite (run_bind _ _ _ (len bs) (adv c 2)) by (eapply readInt_int16; [done|lia|done]).
  rewrite (run_bind _ _ _ (Ptr (c_buf c) (c_pos c + 2)) (adv c 2)) by done.
  cbn [off]. destruct (Z.leb_spec (c_pos c + 2 + len bs) enddata); [|lia].
  rewrite (run_bind _ _ _ tt (adv c (2 + len bs))); [done|].
  unfold advance, modify, adv. cbn [c_buf c_pos]. do 3 f_equal. lia.
Qed.

(** A source delivers bytes when one-byte reads yield them one after the other. *)
Inductive delivers {S} (g : getfn S) : S → list Z → S → Prop :=
  | delivers_nil s : delivers g s [] s
  | delivers_cons s b s1 bs s2 :
      g 1 s = Ok ((1, [b]), s1) → delivers g s1 bs s2 → delivers g s (b :: bs) s2.

Lemma land_127 c : Z.land c 127 = c mod 128.
Proof. change 127 with (Z.ones 7). by rewrite Z.land_ones. Qed.

Lemma land_128 c : byte c → (Z.land c 128 =? 0) = (c <? 128).
Proof.
  unfold byte. intros Hc.
  assert (Hall : Forall (λ c, (Z.land c 128 =? 0) = (c <? 128)) (map Z.of_nat (seq 0 256))).
  { apply (bool_decide_unpack _). vm_compute. done. }
  rewrite Forall_forall in Hall. apply Hall, in_map_iff.
  exists (Z.to_nat c). split; [lia|]. apply in_seq. lia.
Qed.

Lemma decode_loop_varint {S} (g : getfn S) k fuel n v m l s s' :
  0 ≤ n < 128 ^ Z.of_nat k → (0 < k)%nat → (k ≤ fuel)%nat → 0 ≤ l → l + Z.of_nat k ≤ 4 →
  delivers g s (varint_k k n) s' →
  MQTTPacket_decode_loop fuel g v m l s = Ok ((l + len (varint_k k n), v + n * m), s').
Proof.
  revert fuel n v m l s. induction k as [|k IH]; intros fuel n v m l s Hn Hk Hf Hl Hlk D; [lia|].
  destruct fuel as [|fuel]; [lia|]. cbn [varint_k MQTTPacket_decode_loop] in *.
  unfold MAX_NO_OF_REMAINING_LENGTH_BYTES. destruct (Z.ltb_spec 4 (l + 1)); [lia|].
  rewrite Nat2Z.inj_succ, Z.pow_succ_r in Hn by lia.
  destruct (Z.ltb_spec n 128).
  - inversion D as [|? ? s1 ? ? E D']; simplify_eq. inversion D'; simplify_eq.
    rewrite (run_bind _ _ _ _ _ E). cbn [Z.eqb Pos.eqb negb].
    rewrite (run_bind _ _ _ n _) by done.
    rewrite land_128 by (unfold byte; lia). destruct (Z.ltb_spec n 128); [|lia].
    cbn [negb]. rewrite run_ret, land_127, Z.mod_small by lia. by cbn [length].
  - inversion D as [|? ? s1 ? ? E D']; simplify_eq.
    rewrite (run_bind _ _ _ _ _ E). cbn [Z.eqb Pos.eqb negb].
    rewrite (run_bind _ _ _ (128 + n mod 128) _) by done.
    rewrite land_128 by (unfold byte; lia). destruct (Z.ltb_spec (128 + n mod 128) 128); [lia|].
    cbn [negb]. destruct k as [|k]; [cbn in Hn; lia|].
    rewrite (IH fuel (n / 128)) by (done || lia).
    rewrite land_127. cbn [length]. do 3 f_equal; [lia|].
    replace ((128 + n mod 128) mod 128) with (n mod 128) by lia. nia.
Qed.

Lemma bufchar_delivers c bs r :
  0 ≤ c_pos c → rest c = bs ++ r → delivers bufchar c bs (adv c (len bs)).
Proof.
  revert c. induction bs as [|b bs IH]; intros c Hp E.
  - unfold adv. cbn [length Z.of_nat]. rewrite Z.add_0_r. destruct c. constructor.
  - econstructor.
    + unfold bufchar. change (Z.to_nat 1) with 1%nat. cbn [bufchar_loop].
      rewrite (run_bind _ _ _ [b] (adv c 1)); [done|].
      by rewrite (run_bind _ _ _ b c) by (by apply (peek_rest _ _ [] b (bs ++ r))).
    + rewrite len_cons, <- adv_adv. apply IH; [unfold adv; cbn; lia|].
      by apply (rest_adv_app c 1 [b]).
Qed.

Lemma decodeBuf_varint p n r :
  0 ≤ off p → 0 ≤ n ≤ MAX_REMAINING →
  drop (Z.to_nat (off p)) (obj p) = varint n ++ r →
  MQTTPacket_decodeBuf p = Ok (len (varint n), n).
Proof.
  intros Hp Hn E. unfold MQTTPacket_decodeBuf, MQTTPacket_decode.
  rewrite varint_4 in * by done.
  rewrite (decode_loop_varint bufchar 4 5 n 0 1 0 _ (adv (Cur (obj p) (off p)) (len (varint_k 4 n))));
    [|unfold MAX_REMAINING in *; cbn; lia|lia..|].
  - cbn [mbind outcome_bind]. do 2 f_equal; lia.
  - eapply bufchar_delivers; [done|exact E].
Qed.

Lemma readRemLen_varint c n r :
  0 ≤ c_pos c → 0 ≤ n ≤ MAX_REMAINING → rest c = varint n ++ r →
  readRemLen c = Ok ((len (varint n), n), adv c (len (varint n))).
Proof.
  intros Hp Hn E. unfold readRemLen. rewrite (run_bind _ _ _ (Ptr (c_buf c) (c_pos c)) c) by done.
  by erewrite (run_bind _ _ _ _ c) by (by apply run_lift; eapply decodeBuf_varint).
Qed.
(** The same facts in the form the deserializers' proofs chain: [at_ c l], the
    cursor is inside the buffer and [l] is what follows it. *)
Definition at_ (c : cursor) (l : list Z) : Prop := 0 ≤ c_pos c ∧ rest c = l.

Lemma at_start buf : at_ (Cur buf 0) buf.
Proof. split; [done|]. apply drop_0. Qed.

Lemma at_adv c n bs r : at_ c (bs ++ r) → n = len bs → at_ (adv c n) r.
Proof.
  intros [Hp E] ->. split; [unfold adv; cbn; lia|]. by eapply rest_adv_app.
Qed.

Lemma readChar_at c b r :
  at_ c (b :: r) → readChar c = Ok (to_char b, adv c 1) ∧ at_ (adv c 1) r.
Proof.
  intros Ha. split; [destruct Ha; by eapply readChar_rest|]. by apply (at_adv _ _ [b]).
Qed.

Lemma readInt_at c n r :
  at_ c (int16 n ++ r) → 0 ≤ n < 65536 → readInt c = Ok (n, adv c 2) ∧ at_ (adv c 2) r.
Proof.
  intros Ha Hn. split; [destruct Ha; by eapply readInt_int16|]. by eapply at_adv.
Qed.

Lemma readMQTTLenString_at s c bs r enddata :
  at_ c (str bs ++ r) → mqtt_str bs → c_pos c + (2 + len bs) ≤ enddata →
  readMQTTLenString s enddata c =
    Ok ((1, view (adv c 2) (len bs)), adv c (2 + len bs)) ∧
  at_ (adv c (2 + len bs)) r ∧ denotes (view (adv c 2) (len bs)) bs.
Proof.
  intros Ha [Hb Hl] He. split; [|split].
  - destruct Ha. by eapply readMQTTLenString_str.
  - eapply at_adv; [exact Ha|]. by rewrite str_len.
  - unfold str in Ha. rewrite <- app_assoc in Ha.
    apply (at_adv _ 2) in Ha as [Hp E]; [|done].
    eapply view_denotes; [done|done|done|unfold INT_MAX; lia].
Qed.

Lemma readRemLen_at c n r :
  at_ c (varint n ++ r) → 0 ≤ n ≤ MAX_REMAINING →
  readRemLen c = Ok ((len (varint n), n), adv c (len (varint n))) ∧
  at_ (adv c (len (varint n))) r.
Proof.
  intros Ha Hn. split; [destruct Ha; by eapply readRemLen_varint|]. by eapply at_adv.
Qed.

(** ** Sizes *)

(** What MQTTPacket_len computes. *)
Definition packet_size (n : Z) : Z :=
  let m := n + 1 in
  m + (if m <? 128 then 1 else if m <? 16384 then 2 else if m <? 2097151 then 3 else 4).

Lemma MQTTPacket_len_size n :
  INT_MIN ≤ n ≤ INT_MAX - 5 → MQTTPacket_len n = Ok (packet_size n).
Proof.
  unfold MQTTPacket_len, packet_size, INT_MIN, INT_MAX. intros Hn.
  rewrite iadd_Ok by (unfold INT_MIN, INT_MAX; lia). cbn [mbind outcome_bind].
  ztests; apply iadd_Ok; unfold INT_MIN, INT_MAX; lia.
Qed.

Lemma body_size (body : list Z) :
  len body ≤ MAX_REMAINING → INT_MIN ≤ len body ≤ INT_MAX - 5.
Proof. unfold MAX_REMAINING, INT_MIN, INT_MAX. lia. Qed.

Lemma packet_size_ge h body :
  len body ≤ MAX_REMAINING → len (packet h body) ≤ packet_size (len body).
Proof.
  unfold MAX_REMAINING, packet_size. intros Hl. rewrite packet_len, varint_len by lia. ztests.
Qed.

(** The result of writing [bs] at the front of [buf]. *)
Definition written (buf bs : list Z) : Z * list Z := (len bs, bs ++ drop (length bs) buf).

(** The end of every serializer that measures its packet first. *)
Lemma serialize_packet buf buflen m h body :
  emits m tt (packet h body) → len body ≤ MAX_REMAINING → buflen ≤ len buf →
  (if buflen <? packet_size (len body) then Ok (MQTTPACKET_BUFFER_TOO_SHORT, buf)
   else run_writer buf m) =
  Ok (if buflen <? packet_size (len body) then (MQTTPACKET_BUFFER_TOO_SHORT, buf)
      else written buf (packet h body)).
Proof.
  intros Hm Hl Hb. ztests; [done|]. apply run_writer_emits; [done|].
  pose proof (packet_size_ge h body Hl). lia.
Qed.

Lemma emits_packet h body m :
  emits m tt body → byte h → len body ≤ INT_MAX →
  emits (writeChar h ;; writeRemLen (len body) ;; m) tt (packet h body).
Proof.
  intros Hm Hh Hl. unfold packet. apply (emits_eq _ _ ([to_uchar h] ++ varint (len body) ++ body)).
  - eapply emits_bind; [apply emits_writeChar|].
    eapply emits_bind; [apply emits_writeRemLen; lia|done].
  - by rewrite to_uchar_id.
Qed.

(** The same writers in a buffer that is too short. *)

Lemma encode_loop_overruns fuel n buf p rc :
  0 ≤ n < 128 ^ Z.of_nat fuel → (0 < fuel)%nat → 0 ≤ p + rc ≤ len buf →
  len buf < p + rc + len (varint_k fuel n) →
  MQTTPacket_encode_loop fuel buf p n rc = UB OutOfBounds.
Proof.
  revert n buf rc. induction fuel as [|fuel IH]; intros n buf rc Hn Hf Hp Hl; [lia|].
  cbn [MQTTPacket_encode_loop varint_k] in *.
  rewrite Z.rem_mod_nonneg, Z.quot_div_nonneg by lia.
  rewrite Nat2Z.inj_succ, Z.pow_succ_r in Hn by lia.
  destruct (decide (p + rc = len buf)) as [E|E].
  { apply bind_UB. unfold store_bytes. cbn [length]. ztests; done. }
  destruct (Z.ltb_spec n 128); [cbn [length] in Hl; lia|]. rewrite len_cons in Hl.
  destruct (Z.ltb_spec 0 (n / 128)); [|lia].
  match goal with |- context [store_bytes buf (p + rc) ?bs] =>
    destruct (store_bytes buf (p + rc) bs) as [buf'| |] eqn:Es end;
    [|unfold store_bytes in Es; cbn [length] in Es; revert Es; ztests; congruence..].
  pose proof (store_bytes_length _ _ _ _ Es) as L. cbn [mbind outcome_bind].
  destruct fuel as [|fuel]; [cbn in Hn; lia|].
  apply IH; [split; [lia|apply Z.div_lt_upper_bound; lia]|lia..].
Qed.

Lemma overruns_writeRemLen n : 0 ≤ n ≤ INT_MAX → overruns (writeRemLen n) (varint n).
Proof.
  intros Hn pre post L. apply run_bind_UB. unfold at_ptr, MQTTPacket_encode. cbn [c_buf c_pos].
  unfold INT_MAX, varint in *.
  rewrite (encode_loop_overruns 5 n); [done|cbn; lia|lia|rewrite len_app; lia..].
Qed.

Lemma overruns_writeChar c : overruns (writeChar c) [to_uchar c].
Proof. rewrite <- to_uchar_to_char. apply (overruns_poke_bytes [_]). Qed.

Lemma overruns_writeInt n : overruns (writeInt n) (int16 n).
Proof.
  intros pre post L. cbn in L. unfold writeInt, poke.
  destruct post as [|x [|y post]]; cbn in L; [..|lia].
  - apply (overruns_poke_bytes [_]). cbn. lia.
  - rewrite <- (run_assoc (poke_bytes _)).
    set (h := to_uchar (to_uchar (n ÷ 256))).
    pose proof (emits_poke_bytes [h] 1 eq_refl pre [x] [] eq_refl) as E. cbn [app] in E.
    rewrite (run_bind _ _ _ _ _ E).
    replace (len pre + len [h]) with (len (pre ++ [h])) by (apply len_app).
    rewrite <- (app_nil_r (pre ++ _)) at 1. apply (overruns_poke_bytes [_]). cbn. lia.
Qed.

Lemma overruns_packet h body (m : M cursor unit) :
  overruns m body → len body ≤ INT_MAX →
  overruns (writeChar h ;; writeRemLen (len body) ;; m) (packet h body).
Proof.
  intros Hm Hl.
  assert (O : overruns (writeChar h ;; writeRemLen (len body) ;; m)
                ([to_uchar h] ++ varint (len body) ++ body)).
  { eapply overruns_bind; [apply emits_writeChar|apply overruns_writeChar|].
    eapply overruns_bind; [apply emits_writeRemLen; lia|apply overruns_writeRemLen; lia|done]. }
  intros pre post L. apply O. exact L.
Qed.

(** ** Properties *)

(** MQTTPacket_encode writes the variable-length encoding of any non-negative
    int in at most five bytes, and nothing else in the buffer changes. *)
Theorem MQTTPacket_encode_refines n pre old post :
  0 ≤ n ≤ INT_MAX → length old = length (varint n) →
  MQTTPacket_encode n (pre ++ old ++ post) (len pre) =
    Ok (len (varint n), pre ++ varint n ++ post) ∧ 1 ≤ len (varint n) ≤ 5.
Proof. intros Hn L. split; [by apply encode_emits|]. apply varint_len_bounds. lia. Qed.

(** MQTTPacket_decode recovers any remaining length MQTT allows from a source that
    delivers its encoding, consuming exactly the encoding. *)
Theorem MQTTPacket_decode_roundtrip {S} (g : getfn S) n s s' :
  0 ≤ n ≤ MAX_REMAINING → delivers g s (varint n) s' →
  MQTTPacket_decode g s = Ok ((len (varint n), n), s').
Proof.
  intros Hn D. unfold MQTTPacket_decode. rewrite varint_4 in * by done.
  rewrite (decode_loop_varint g 4 5 n 0 1 0 s s'); [|unfold MAX_REMAINING in *; cbn; lia|lia..|done].
  do 3 f_equal; lia.
Qed.

(** A source whose one-byte reads are defined and store a byte when they say so. *)
Definition reads_bytes {S} (g : getfn S) : Prop :=
  ∀ s, ∃ rc cs s', g 1 s = Ok ((rc, cs), s') ∧ (rc = 1 → cs ≠ []).

Lemma decode_loop_bounds {S} (g : getfn S) fuel v l s :
  reads_bytes g → 0 ≤ l ≤ 4 → (Z.to_nat (5 - l) ≤ fuel)%nat → 0 ≤ v < 128 ^ l →
  ∃ n value s', MQTTPacket_decode_loop fuel g v (128 ^ l) l s = Ok ((n, value), s') ∧
    l + 1 ≤ n ≤ 5 ∧ 0 ≤ value ≤ MAX_REMAINING.
Proof.
  intros Hg. revert v l s. induction fuel as [|fuel IH]; intros v l s Hl Hf Hv; [lia|].
  assert (Hmax : 128 ^ l ≤ 128 ^ 4) by (apply Z.pow_le_mono_r; lia).
  assert (Hv4 : 0 ≤ v ≤ MAX_REMAINING) by (unfold MAX_REMAINING; lia).
  cbn [MQTTPacket_decode_loop]. unfold MAX_NO_OF_REMAINING_LENGTH_BYTES.
  destruct (Z.ltb_spec 4 (l + 1)); [by exists (l + 1), v, s; repeat split; lia|].
  destruct (Hg s) as (rc & cs & s1 & E & Hcs). rewrite (run_bind _ _ _ _ _ E).
  destruct (Z.eqb_spec rc 1) as [->|]; cbn [negb];
    [|by exists (l + 1), v, s1; repeat split; lia].
  destruct cs as [|b cs]; [by destruct (Hcs eq_refl)|].
  rewrite (run_bind _ _ _ b s1) by done. rewrite land_127.
  pose proof (Z.pow_pos_nonneg 128 l ltac:(lia) ltac:(lia)) as Hp.
  assert (Hn : 0 ≤ v + b mod 128 * 128 ^ l < 128 ^ (l + 1))
    by (rewrite Z.pow_add_r, Z.pow_1_r by lia; pose proof (Z.mod_pos_bound b 128); nia).
  replace (128 ^ l * 128) with (128 ^ (l + 1)) by (rewrite Z.pow_add_r by lia; lia).
  destruct (negb _).
  - destruct (IH (v + b mod 128 * 128 ^ l) (l + 1) s1) as (n & value & s' & E' & Hb & Hval);
      [lia..|]. exists n, value, s'. repeat split; [exact E'|lia..].
  - assert (128 ^ (l + 1) ≤ 128 ^ 4) by (apply Z.pow_le_mono_r; lia).
    eexists _, _, s1. split; [reflexivity|]. unfold MAX_REMAINING. split; lia.
Qed.

(** Whatever the source delivers, MQTTPacket_decode returns after at most five
    iterations, with a value that fits the 28 bits MQTT allows: no int overflows. *)
Theorem MQTTPacket_decode_bounds {S} (g : getfn S) s :
  reads_bytes g →
  ∃ n value s', MQTTPacket_decode g s = Ok ((n, value), s') ∧
    1 ≤ n ≤ 5 ∧ 0 ≤ value ≤ MAX_REMAINING.
Proof. intros Hg. apply (decode_loop_bounds g 5 0 0 s Hg); cbn; lia. Qed.

(** MQTTPacket_len is never less than the size of the packet, and at most one more,
    for the remaining lengths MQTT allows; above them it is one byte short. *)
Theorem MQTTPacket_len_covers h body total :
  len body ≤ INT_MAX - 5 → MQTTPacket_len (len body) = Ok total →
  if len body <=? MAX_REMAINING
  then len (packet h body) ≤ total ≤ len (packet h body) + 1
  else total = len (packet h body) - 1.
Proof.
  intros Hl. rewrite MQTTPacket_len_size by (unfold INT_MIN; lia). intros [= <-].
  rewrite packet_len, varint_len by lia. unfold packet_size, MAX_REMAINING. ztests.
Qed.

(** ** Readers on arbitrary bytes *)

(** A run that is defined, leaves the buffer alone and moves the cursor
    forward, to a place [Q] says. *)
Definition runs {A} (m : M cursor A) (c : cursor) (Q : A → cursor → Prop) : Prop :=
  ∃ a c', m c = Ok (a, c') ∧ c_buf c' = c_buf c ∧ c_pos c ≤ c_pos c' ∧ Q a c'.

Lemma runs_ret {A} (a : A) c (Q : A → cursor → Prop) : Q a c → runs (mret a) c Q.
Proof. intros. exists a, c. done. Qed.

Lemma runs_bind {A B} (m : M cursor A) (f : A → M cursor B) c Q R :
  runs m c Q → (∀ a c', c_buf c' = c_buf c → c_pos c ≤ c_pos c' → Q a c' → runs (f a) c' R) →
  runs (m ≫= f) c R.
Proof.
  intros (a & c' & E & Eb & Hp & HQ) Hf. destruct (Hf a c' Eb Hp HQ) as (b & c2 & E2 & Eb2 & ? & ?).
  exists b, c2. rewrite (run_bind _ _ _ _ _ E). repeat split; [done|congruence|lia|done].
Qed.

Lemma runs_weaken {A} (m : M cursor A) c Q R :
  runs m c Q → (∀ a c', Q a c' → R a c') → runs m c R.
Proof. intros (a & c' & ? & ? & ? & ?) HQ. exists a, c'. auto. Qed.

Lemma runs_tell c : runs tell c (λ a c', a = c_pos c ∧ c' = c).
Proof. by exists (c_pos c), c. Qed.

Lemma runs_lift {A} (o : outcome A) a c : o = Ok a → runs (lift o) c (λ a' c', a' = a ∧ c' = c).
Proof. intros. exists a, c. by rewrite (run_lift _ a). Qed.

Lemma runs_readChar c :
  0 ≤ c_pos c < len (c_buf c) → runs readChar c (λ _ c', c_pos c' = c_pos c + 1).
Proof.
  intros Hp. destruct (peek_defined c 0) as [b E]; [lia|].
  exists (to_char b), (adv c 1). unfold readChar. rewrite (run_bind _ _ _ _ _ E).
  cbn. repeat split; lia.
Qed.

Lemma runs_readInt c :
  0 ≤ c_pos c → c_pos c + 1 < len (c_buf c) → bytes (c_buf c) →
  runs readInt c (λ n c', c_pos c' = c_pos c + 2 ∧ 0 ≤ n < 65536).
Proof.
  intros Hp Hl Hb. destruct (peek_defined c 0) as [a Ea]; [lia|].
  destruct (peek_defined c 1) as [b Eb]; [lia|].
  pose proof (peek_byte _ _ _ _ Hb Ea). pose proof (peek_byte _ _ _ _ Hb Eb). unfold byte in *.
  exists (256 * a + b), (adv c 2). unfold readInt. rewrite (run_bind _ _ _ _ _ Ea).
  rewrite (run_bind _ _ _ _ _ Eb). cbn. repeat split; lia.
Qed.

Lemma decode_loop_cursor fuel v m l c n value c' :
  MQTTPacket_decode_loop fuel bufchar v m l c = Ok ((n, value), c') → 0 ≤ l → l + 1 ≤ n.
Proof.
  revert v m l c. induction fuel as [|fuel IH]; intros v m l c E Hl; [done|].
  cbn [MQTTPacket_decode_loop] in E. destruct (_ <? l + 1); [run_inv; lia|].
  apply run_bind_inv in E as ([rc cs] & c1 & E1 & E). destruct (negb (rc =? 1)); [run_inv; lia|].
  apply run_bind_inv in E as (b & c2 & E2 & E). destruct (negb _); [|run_inv; lia].
  apply IH in E; lia.
Qed.

Lemma decode_loop_defined fuel v m l c :
  0 ≤ c_pos c → 0 ≤ l → (Z.to_nat (5 - l) ≤ fuel)%nat → c_pos c + (4 - l) ≤ len (c_buf c) →
  l ≤ 4 → ∃ n value c', MQTTPacket_decode_loop fuel bufchar v m l c = Ok ((n, value), c') ∧ n ≤ 5.
Proof.
  revert v m l c. induction fuel as [|fuel IH]; intros v m l c Hp Hl Hf Hc H4; [lia|].
  cbn [MQTTPacket_decode_loop]. unfold MAX_NO_OF_REMAINING_LENGTH_BYTES.
  destruct (Z.ltb_spec 4 (l + 1)); [by exists (l + 1), v, c; split; [|lia]|].
  destruct (peek_defined c 0) as [b E]; [lia|].
  assert (E1 : bufchar 1 c = Ok ((1, [b]), adv c 1)).
  { unfold bufchar. change (Z.to_nat 1) with 1%nat. cbn [bufchar_loop].
    rewrite run_assoc, (run_bind _ _ _ _ _ E). done. }
  rewrite (run_bind _ _ _ _ _ E1). cbn [Z.eqb Pos.eqb negb].
  rewrite (run_bind _ _ _ b (adv c 1)) by done. destruct (negb _).
  - apply IH; cbn; lia.
  - by eexists (l + 1), _, _; split; [|lia].
Qed.

Lemma runs_readRemLen c :
  0 ≤ c_pos c → c_pos c + 4 ≤ len (c_buf c) →
  runs readRemLen c (λ r c', 1 ≤ r.1 ≤ 5 ∧ c_pos c' = c_pos c + r.1).
Proof.
  intros Hp Hc. destruct (decode_loop_defined 5 0 1 0 (Cur (c_buf c) (c_pos c)))
    as (n & value & c' & E & Hn); [cbn; lia..|].
  pose proof (decode_loop_cursor _ _ _ _ _ _ _ _ E).
  assert (D : MQTTPacket_decodeBuf (Ptr (c_buf c) (c_pos c)) = Ok (n, value))
    by (unfold MQTTPacket_decodeBuf, MQTTPacket_decode; by rewrite (bind_Ok _ _ _ E)).
  exists (n, value), (adv c n). unfold readRemLen.
  rewrite (run_bind _ _ _ (Ptr (c_buf c) (c_pos c)) c) by done.
  rewrite (run_bind _ _ _ (n, value) c) by (by apply run_lift). cbn. repeat split; lia.
Qed.

(** What a call of readMQTTLenString leaves: 1 with a string inside the packet,
    or 0. *)
Definition string_read (c : cursor) (enddata : Z) (r : Z * MQTTString) (c' : cursor) : Prop :=
  (r.1 = 1 ∧ c_pos c' = c_pos c + 2 + ls_len (lenstring r.2) ∧ c_pos c' ≤ enddata ∧
   0 ≤ ls_len (lenstring r.2) ∧ cstring r.2 = None ∧
   defined (mem_read (ls_data (lenstring r.2)) (ls_len (lenstring r.2)))) ∨
  (r.1 = 0 ∧ c_pos c' ≤ c_pos c + 2).

Lemma runs_readMQTTLenString s enddata c :
  bytes (c_buf c) → 0 ≤ c_pos c → enddata ≤ len (c_buf c) →
  runs (readMQTTLenString s enddata) c (string_read c enddata).
Proof.
  intros Hb Hp He. unfold readMQTTLenString, runs. rewrite run_bind_tell. ztest.
  - destruct (runs_readInt c) as (n & c1 & E & Eb & Hp1 & Hc1 & Hn); [lia..|done|].
    rewrite (run_bind _ _ _ _ _ E).
    rewrite (run_bind _ _ _ (Ptr (c_buf c1) (c_pos c1)) c1) by done. cbn [off]. ztest.
    + eexists _, (adv c1 n). split; [reflexivity|]. split; [done|].
      split; [cbn; lia|]. left. cbn [fst snd adv c_pos c_buf ls_len lenstring ls_data].
      repeat split; [lia..|]. unfold defined, mem_read. cbn [obj off].
      destruct (load_bytes_defined (c_buf c1) (c_pos c1) n) as (bs & E' & _);
        [lia|lia|rewrite Eb; lia|]. destruct (Z.eqb_spec n 0); eauto.
    + eexists _, c1. split; [reflexivity|]. split; [done|]. split; [lia|]. right. cbn. lia.
  - eexists _, c. split; [reflexivity|]. split; [done|]. split; [lia|]. right. cbn. lia.
Qed.

(** ** Every reader returns *)

Lemma decode_loop_returns {S} fuel (g : getfn S) v m l s :
  (∀ s, returns (g 1) s) → l ≤ 4 → (Z.to_nat (5 - l) ≤ fuel)%nat →
  returns (MQTTPacket_decode_loop fuel g v m l) s.
Proof.
  intros Hg. revert v m l s. induction fuel as [|fuel IH]; intros v m l s Hl Hf; [lia|].
  cbn [MQTTPacket_decode_loop]. unfold MAX_NO_OF_REMAINING_LENGTH_BYTES.
  destruct (Z.ltb_spec 4 (l + 1)); [done|]. returns_step; [apply Hg|].
  destruct a as [rc cs]. returns_step; [done|]. returns_step; [|returns_step; [apply IH; lia|done]].
  apply returns_lift. by destruct cs.
Qed.

Lemma returns_bufchar n c : returns (bufchar n) c.
Proof.
  unfold bufchar. returns_step; [|done]. generalize (@nil Z).
  clear. induction (Z.to_nat n) as [|k IH] in c |- *; intros l; [done|]. cbn [bufchar_loop].
  returns_step; [apply returns_peek|]. returns_step; [done|apply IH].
Qed.

Lemma decodeBuf_returns p : MQTTPacket_decodeBuf p ≠ NoFuel.
Proof.
  unfold MQTTPacket_decodeBuf, MQTTPacket_decode.
  pose proof (decode_loop_returns 5 bufchar 0 1 0 (Cur (obj p) (off p))
    (returns_bufchar 1) ltac:(lia) ltac:(lia)) as R.
  unfold returns in R. by destruct (MQTTPacket_decode_loop _ _ _ _ _ _) as [[]| |].
Qed.

Lemma returns_readChar c : returns readChar c.
Proof. unfold readChar. repeat (returns_step || solve [auto with returns] || done). Qed.
Lemma returns_readInt c : returns readInt c.
Proof. unfold readInt. repeat (returns_step || solve [auto with returns] || done). Qed.
Lemma returns_readRemLen c : returns readRemLen c.
Proof.
  unfold readRemLen.
  repeat (returns_step || solve [auto using decodeBuf_returns with returns] || done).
Qed.
Lemma returns_readMQTTLenString s enddata c : returns (readMQTTLenString s enddata) c.
Proof.
  unfold readMQTTLenString.
  repeat (returns_step || solve [auto using returns_readInt with returns] || done).
Qed.

Lemma readInt_inv c n c' : readInt c = Ok (n, c') → c_pos c' = c_pos c + 2 ∧ c_buf c' = c_buf c.
Proof.
  unfold readInt. intros E. run_inv.
  repeat match goal with H : peek _ _ = Ok _ |- _ => apply peek_inv in H as [-> _] end.
  unfold advance, modify in *. by simplify_eq/=.
Qed.

(** A string that was read moves the cursor by at least its two length bytes. *)
Lemma readMQTTLenString_progress s enddata c ok s' c' :
  bytes (c_buf c) → readMQTTLenString s enddata c = Ok ((ok, s'), c') → truth ok = true →
  c_pos c + 2 ≤ c_pos c' ∧ c_buf c' = c_buf c.
Proof.
  intros Hb E Ht. unfold readMQTTLenString in E. rewrite run_bind_tell in E.
  destruct (1 <? _); [|by run_inv].
  apply run_bind_inv in E as (n & c1 & En & E).
  destruct (readInt_inv _ _ _ En) as [P1 B1].
  assert (0 ≤ n).
  { unfold readInt in En. run_inv.
    repeat match goal with H : peek _ _ = Ok _ |- _ =>
      pose proof (peek_byte _ _ _ _ Hb H); apply peek_inv in H as [-> _] end.
    unfold byte in *. lia. }
  rewrite (run_bind _ _ _ (Ptr (c_buf c1) (c_pos c1)) c1) in E by done.
  destruct (_ <=? enddata); [|by run_inv].
  apply run_bind_inv in E as ([] & c2 & E2 & E). unfold advance, modify in E2.
  run_inv. cbn. split; [lia|done].
Qed.

Lemma readChar_inv c v c' : readChar c = Ok (v, c') → c_pos c' = c_pos c + 1 ∧ c_buf c' = c_buf c.
Proof.
  unfold readChar. intros E. run_inv.
  repeat match goal with H : peek _ _ = Ok _ |- _ => apply peek_inv in H as [-> _] end.
  unfold advance, modify in *. by simplify_eq/=.
Qed.

Lemma readRemLen_inv c r c' :
  readRemLen c = Ok (r, c') → c_pos c' = c_pos c + r.1 ∧ c_buf c' = c_buf c.
Proof.
  unfold readRemLen. intros E.
  apply run_bind_inv in E as (p & c1 & E1 & E). unfold here, gets in E1. injection E1 as <- <-.
  apply run_bind_inv in E as ([rc n] & c2 & E2 & E). apply run_lift_inv in E2 as [_ ->].
  by injection E as <- <-.
Qed.

(** ReadMQTTLenString never reads or advances past enddata, whatever the bytes: it
    returns 1 with a string that lies inside the packet, or 0. *)
Theorem readMQTTLenString_safe s enddata c :
  bytes (c_buf c) → 0 ≤ c_pos c → enddata ≤ len (c_buf c) →
  ∃ r c', readMQTTLenString s enddata c = Ok (r, c') ∧ c_buf c' = c_buf c ∧
    c_pos c ≤ c_pos c' ∧ string_read c enddata r c'.
Proof. intros. by apply runs_readMQTTLenString. Qed.

Lemma equals_denotes a p x y :
  denotes a x → cstr p y → MQTTPacket_equals a (Some p) = Ok (bool_decide (x = y)).
Proof.
  intros (Hb & Hl & Ha) Hp.
  assert (D : ∃ q, (if nonnull (cstring a) then n ← strlen (cstring a); Ok (cstring a, n)
     else Ok (ls_data (lenstring a), ls_len (lenstring a))) = Ok (q, len x) ∧
     (x ≠ [] → ∃ q' tl, q = Some q' ∧ 0 ≤ off q' ∧ drop (Z.to_nat (off q')) (obj q') = x ++ tl)).
  { destruct (cstring a) as [q|]; cbn [nonnull].
    - destruct Ha as [Hc _]. exists (Some q). rewrite (bind_Ok _ _ _ (strlen_cstr _ _ Hc)).
      split; [done|]. intros _. destruct Hc as (Hq & _ & _ & tl & E). eauto.
    - destruct Ha as [-> Hm]. exists (ls_data (lenstring a)). split; [done|]. intros Hx.
      pose proof (len_pos x Hx). unfold mem_read in Hm.
      destruct (Z.eqb_spec (len x) 0); [lia|]. destruct (ls_data _) as [q|]; [|done].
      destruct (load_bytes_inv _ _ _ _ Hm) as (Hq & _ & _ & tl & E); [lia|]. eauto. }
  destruct D as (q & E & Hq). unfold MQTTPacket_equals. rewrite (bind_Ok _ _ _ E).
  rewrite (bind_Ok _ _ _ (strlen_cstr _ _ Hp)). destruct (Z.eqb_spec (len x) (len y)) as [L|L].
  - destruct (decide (x = [])) as [->|Hx].
    + destruct y; [done|]. cbn in L. lia.
    + destruct (Hq Hx) as (q' & tl & -> & Ho & Ed).
      destruct (strncmp_cstr q' p x y tl) as (r & Er & Hr); [done..|lia|].
      rewrite L, (bind_Ok _ _ _ Er). f_equal. destruct (Z.eqb_spec r 0).
      * symmetry. apply bool_decide_eq_true. tauto.
      * symmetry. apply bool_decide_eq_false. tauto.
  - rewrite bool_decide_eq_false_2; [done|]. by intros ->.
Qed.

(** MQTTPacket_equals decides whether an MQTT string, in either representation, has
    the characters of a C string. *)
Theorem MQTTPacket_equals_correct a p x y :
  denotes a x → cstr p y → MQTTPacket_equals a (Some p) = Ok (bool_decide (x = y)).
Proof. apply equals_denotes. Qed.

End Packet.

#[export] Hint Resolve returns_readChar returns_readInt returns_readRemLen
  returns_readMQTTLenString : returns.

(** ** Examples *)

#[local] Existing Instance x86_64.

Example encode_321 : MQTTPacket_encode 321 [0;0;0;0] 1 = Ok (2, [0; 193; 2; 0]).
Proof. vm_compute. reflexivity. Qed.

Lemma MQTTPacket_encode_refines_witness :
  MQTTPacket_encode 321 ([9] ++ [0; 0] ++ [7]) 1 = Ok (2, [9; 193; 2; 7]) ∧ 1 ≤ 2 ≤ 5.
Proof. apply (MQTTPacket_encode_refines 321 [9] [0; 0] [7]); [decide_by_vm|reflexivity]. Defined.

Lemma MQTTPacket_decode_roundtrip_witness :
  MQTTPacket_decode bufchar (Cur [9; 193; 2; 7] 1) = Ok ((2, 321), Cur [9; 193; 2; 7] 3).
Proof.
  apply (MQTTPacket_decode_roundtrip bufchar 321); [decide_by_vm|].
  apply (bufchar_delivers (Cur [9; 193; 2; 7] 1) (varint 321) [7]); [decide_by_vm|reflexivity].
Defined.

(** A source that never ends: every byte asks for another one. *)
Lemma MQTTPacket_decode_bounds_witness :
  ∃ n value s', MQTTPacket_decode (λ _ (s : unit), Ok ((1, [255]), s)) tt = Ok ((n, value), s') ∧
    1 ≤ n ≤ 5 ∧ 0 ≤ value ≤ MAX_REMAINING.
Proof. apply MQTTPacket_decode_bounds. intros s. by eexists _, _, _. Defined.

Lemma MQTTPacket_len_covers_witness :
  len (packet 16 [1; 2; 3]) ≤ 5 ≤ len (packet 16 [1; 2; 3]) + 1.
Proof. apply (MQTTPacket_len_covers 16 [1; 2; 3] 5); [decide_by_vm|reflexivity]. Defined.

Lemma readMQTTLenString_safe_witness :
  ∃ r c', readMQTTLenString MQTTString_initializer 4 (Cur [0; 9; 97; 98; 99] 0) = Ok (r, c') ∧
    c_buf c' = [0; 9; 97; 98; 99] ∧ 0 ≤ c_pos c' ∧
    string_read (Cur [0; 9; 97; 98; 99] 0) 4 r c'.
Proof. apply readMQTTLenString_safe; decide_by_vm. Defined.

Lemma MQTTPacket_equals_correct_witness :
  MQTTPacket_equals (of_data [97; 47; 98]) (Some (c_string [97; 47; 98])) = Ok true.
Proof.
  apply (MQTTPacket_equals_correct _ _ [97; 47; 98] [97; 47; 98]).
  - apply of_data_denotes; decide_by_vm.
  - apply c_string_cstr; decide_by_vm.
Defined.

Example decode_321 : MQTTPacket_decodeBuf (Ptr [9; 193; 2; 7] 1) = Ok (2, 321).
Proof. vm_compute. reflexivity. Qed.

(** ** Tactics that run the next read of the goal

    They use the hypothesis [at_ c l] of the current cursor and replace it by
    the one of the cursor after the read. *)

Ltac clia := cbn [adv c_pos c_buf obj off] in *; lia.

Ltac rd_char :=
  match goal with Ha : at_ ?c (?b :: ?r) |- _ =>
    let E := fresh in let Ha' := fresh "Ha" in
    destruct (readChar_at c b r Ha) as [E Ha'];
    rewrite (run_bind _ _ _ _ _ E); clear E Ha; rename Ha' into Ha
  end.

Ltac rd_int :=
  match goal with Ha : at_ ?c (int16 ?n ++ ?r) |- _ =>
    let E := fresh in let Ha' := fresh "Ha" in
    destruct (readInt_at c n r Ha) as [E Ha'];
    [try lia | rewrite (run_bind _ _ _ _ _ E); clear E Ha; rename Ha' into Ha]
  end.

Ltac rd_remlen :=
  match goal with Ha : at_ ?c (varint ?n ++ ?r) |- _ =>
    let E := fresh in let Ha' := fresh "Ha" in
    destruct (readRemLen_at c n r Ha) as [E Ha'];
    [try lia | rewrite (run_bind _ _ _ _ _ E); clear E Ha; rename Ha' into Ha]
  end.

(** [rd_str D]: read a string; [D] is the fact that the result denotes it. *)
Ltac rd_str D :=
  match goal with
  | Ha : at_ ?c (str ?bs ++ ?r) |- context [@mbind _ _ _ _ _ (readMQTTLenString ?s ?e)] =>
    let E := fresh in let Ha' := fresh "Ha" in
    destruct (readMQTTLenString_at s c bs r e Ha) as (E & Ha' & D);
    [try done | try (cbn [adv c_pos]; lia)
    | rewrite (run_bind _ _ _ _ _ E); clear E Ha; rename Ha' into Ha]
  end.
