(* ===== verification/Connect.v ===== *)
(** * MQTTConnectClient.c, MQTTConnectServer.c and MQTTConnect.h

    The CONNECT and CONNACK packets, and the packets without a body. *)

From S2P Require Import Prelude CSem Wire Packet.

(** ** Data (MQTTConnect.h) *)

(** The MQTTConnectFlags union. *)
Definition flag_cleansession (b : Z) : Z := bf_get 1 1 b.
Definition flag_will (b : Z) : Z := bf_get 2 1 b.
Definition flag_willQoS (b : Z) : Z := bf_get 3 2 b.
Definition flag_willRetain (b : Z) : Z := bf_get 5 1 b.
Definition flag_password (b : Z) : Z := bf_get 6 1 b.
Definition flag_username (b : Z) : Z := bf_get 7 1 b.
Definition set_flag_cleansession (v b : Z) : Z := bf_set 1 1 v b.
Definition set_flag_will (v b : Z) : Z := bf_set 2 1 v b.
Definition set_flag_willQoS (v b : Z) : Z := bf_set 3 2 v b.
Definition set_flag_willRetain (v b : Z) : Z := bf_set 5 1 v b.
Definition set_flag_password (v b : Z) : Z := bf_set 6 1 v b.
Definition set_flag_username (v b : Z) : Z := bf_set 7 1 v b.

(** The MQTTConnackFlags union. *)
Definition flag_sessionpresent (b : Z) : Z := bf_get 0 1 b.
Definition set_flag_sessionpresent (v b : Z) : Z := bf_set 0 1 v b.

Record MQTTPacket_willOptions : Type := WillOptions
  { will_struct_id : list Z; will_struct_version : Z;
    topicName : MQTTString; message : MQTTString; retained : Z; qos : Z }.

Record MQTTPacket_connectData : Type := ConnectData
  { struct_id : list Z; struct_version : Z; MQTTVersion : Z; clientID : MQTTString;
    keepAliveInterval : Z; cleansession : Z; willFlag : Z;
    will : MQTTPacket_willOptions; username : MQTTString; password : MQTTString }.

Definition MQTTPacket_willOptions_initializer : MQTTPacket_willOptions :=
  WillOptions (bytes_of "MQTW"%string) 0 MQTTString_initializer MQTTString_initializer 0 0.

Definition MQTTPacket_connectData_initializer : MQTTPacket_connectData :=
  ConnectData (bytes_of "MQTC"%string) 0 4 MQTTString_initializer 60 1 0
    MQTTPacket_willOptions_initializer MQTTString_initializer MQTTString_initializer.

(** Assignments to the fields the deserializer fills. *)
Definition set_topicName v w :=
  WillOptions (will_struct_id w) (will_struct_version w) v (message w) (retained w) (qos w).
Definition set_message v w :=
  WillOptions (will_struct_id w) (will_struct_version w) (topicName w) v (retained w) (qos w).
Definition set_retained v w :=
  WillOptions (will_struct_id w) (will_struct_version w) (topicName w) (message w) v (qos w).
Definition set_qos v w :=
  WillOptions (will_struct_id w) (will_struct_version w) (topicName w) (message w) (retained w) v.
Definition set_clientID v d :=
  ConnectData (struct_id d) (struct_version d) (MQTTVersion d) v (keepAliveInterval d)
    (cleansession d) (willFlag d) (will d) (username d) (password d).
Definition set_keepAliveInterval v d :=
  ConnectData (struct_id d) (struct_version d) (MQTTVersion d) (clientID d) v
    (cleansession d) (willFlag d) (will d) (username d) (password d).
Definition set_cleansession v d :=
  ConnectData (struct_id d) (struct_version d) (MQTTVersion d) (clientID d)
    (keepAliveInterval d) v (willFlag d) (will d) (username d) (password d).
Definition set_willFlag v d :=
  ConnectData (struct_id d) (struct_version d) (MQTTVersion d) (clientID d)
    (keepAliveInterval d) (cleansession d) v (will d) (username d) (password d).
Definition set_will v d :=
  ConnectData (struct_id d) (struct_version d) (MQTTVersion d) (clientID d)
    (keepAliveInterval d) (cleansession d) (willFlag d) v (username d) (password d).
Definition set_username v d :=
  ConnectData (struct_id d) (struct_version d) (MQTTVersion d) (clientID d)
    (keepAliveInterval d) (cleansession d) (willFlag d) (will d) v (password d).
Definition set_password v d :=
  ConnectData (struct_id d) (struct_version d) (MQTTVersion d) (clientID d)
    (keepAliveInterval d) (cleansession d) (willFlag d) (will d) (username d) v.

Section Connect.
Context `{CImpl}.

(** ** The client side: MQTTConnectClient.c *)

(** [s.cstring || s.lenstring.data] *)
Definition string_given (s : MQTTString) : bool :=
  nonnull (cstring s) || nonnull (ls_data (lenstring s)).

Definition MQTTSerialize_connectLength (options : MQTTPacket_connectData) : outcome Z :=
  let len := if MQTTVersion options =? 3 then 12
             else if MQTTVersion options =? 4 then 10 else 0 in
  n ← MQTTstrlen (clientID options);
  len ← (len +i n)%c; len ← (len +i 2)%c;
  len ← (if truth (willFlag options) then
           t ← MQTTstrlen (topicName (will options));
           m ← MQTTstrlen (message (will options));
           len ← (len +i t)%c; len ← (len +i 2)%c; len ← (len +i m)%c; (len +i 2)%c
         else Ok len);
  len ← (if string_given (username options) then
           n ← MQTTstrlen (username options); len ← (len +i n)%c; (len +i 2)%c
         else Ok len);
  if string_given (password options) then
    n ← MQTTstrlen (password options); len ← (len +i n)%c; (len +i 2)%c
  else Ok len.

(** The assignments to [flags] in MQTTSerialize_connect. *)
Definition connect_flags_of (options : MQTTPacket_connectData) : Z :=
  let flags := set_flag_cleansession (cleansession options) 0 in
  let flags := set_flag_will (if truth (willFlag options) then 1 else 0) flags in
  let flags := if truth (flag_will flags)
               then set_flag_willRetain (retained (will options))
                      (set_flag_willQoS (qos (will options)) flags)
               else flags in
  let flags := if string_given (username options) then set_flag_username 1 flags else flags in
  if string_given (password options) then set_flag_password 1 flags else flags.

(** What MQTTSerialize_connect writes once it knows that the packet fits. *)
Definition write_connect (len : Z) (options : MQTTPacket_connectData) : M cursor unit :=
  writeChar (set_header_type CONNECT 0) ;;
  writeRemLen len ;;
  (if MQTTVersion options =? 4 then
     writeCString (Some (c_string (bytes_of "MQTT"%string))) ;; writeChar 4
   else
     writeCString (Some (c_string (bytes_of "MQIsdp"%string))) ;; writeChar 3) ;;
  let flags := connect_flags_of options in
  writeChar flags ;;
  writeInt (keepAliveInterval options) ;;
  writeMQTTString (clientID options) ;;
  (if truth (willFlag options) then
     writeMQTTString (topicName (will options)) ;; writeMQTTString (message (will options))
   else mret tt) ;;
  (if truth (flag_username flags) then writeMQTTString (username options) else mret tt) ;;
  (if truth (flag_password flags) then writeMQTTString (password options) else mret tt).

Definition MQTTSerialize_connect (buf : list Z) (buflen : Z)
    (options : MQTTPacket_connectData) : outcome (Z * list Z) :=
  len ← MQTTSerialize_connectLength options;
  total ← MQTTPacket_len len;
  if buflen <? total then Ok (MQTTPACKET_BUFFER_TOO_SHORT, buf)
  else run_writer buf (write_connect len options).

(** The return code, [*sessionPresent] and [*connack_rc]. *)
Definition MQTTDeserialize_connack (sessionPresent connack_rc : Z) (buf : list Z) (buflen : Z)
  : outcome (Z * Z * Z) :=
  '(r, _) ← (
    header ← readChar;
    if negb (header_type (to_uchar header) =? CONNACK) then mret (0, sessionPresent, connack_rc)
    else
      '(rc, mylen) ← readRemLen;
      curdata ← tell;
      let enddata := curdata + mylen in
      if enddata - curdata <? 2 then mret (rc, sessionPresent, connack_rc)
      else
        flags ← readChar;
        c ← readChar;
        mret (1, flag_sessionpresent (to_uchar flags), to_uchar c)) (Cur buf 0);
  Ok r.

Definition MQTTSerialize_zero (buf : list Z) (buflen : Z) (packettype : Z)
  : outcome (Z * list Z) :=
  if buflen <? 2 then Ok (MQTTPACKET_BUFFER_TOO_SHORT, buf)
  else run_writer buf (writeChar (set_header_type packettype 0) ;; writeRemLen 0).

Definition MQTTSerialize_disconnect (buf : list Z) (buflen : Z) : outcome (Z * list Z) :=
  MQTTSerialize_zero buf buflen DISCONNECT.

Definition MQTTSerialize_pingreq (buf : list Z) (buflen : Z) : outcome (Z * list Z) :=
  MQTTSerialize_zero buf buflen PINGREQ.

(** ** The server side: MQTTConnectServer.c *)

Definition MQTTPacket_checkVersion (protocol : MQTTString) (version : Z) : outcome Z :=
  let data := ls_data (lenstring protocol) in
  let len := ls_len (lenstring protocol) in
  is3 ← (if version =? 3
         then r ← memcmp data (Some (c_string (bytes_of "MQIsdp"%string))) (Z.min 6 len);
              Ok (r =? 0)
         else Ok false);
  if is3 : bool then Ok 1
  else
    is4 ← (if version =? 4
           then r ← memcmp data (Some (c_string (bytes_of "MQTT"%string))) (Z.min 4 len);
                Ok (r =? 0)
           else Ok false);
    if is4 : bool then Ok 1 else Ok 0.

(** [enddata - curdata < 3 || !readMQTTLenString(&s, &curdata, enddata)]:
    whether it failed, and the string. *)
Definition read_credential (s : MQTTString) (enddata : Z) : M cursor (bool * MQTTString) :=
  curdata ← tell;
  if enddata - curdata <? 3 then mret (true, s)
  else '(ok, s) ← readMQTTLenString s enddata; mret (negb (truth ok), s).

(** The part of MQTTDeserialize_connect after the will: user name and password. *)
Definition read_credentials (flags : Z) (enddata : Z) (data : MQTTPacket_connectData)
  : M cursor (Z * MQTTPacket_connectData) :=
  if truth (flag_username flags) then
    '(bad, s) ← read_credential (username data) enddata;
    let data := set_username s data in
    if bad : bool then mret (0, data)
    else if truth (flag_password flags) then
      '(bad, s) ← read_credential (password data) enddata;
      let data := set_password s data in
      if bad : bool then mret (0, data) else mret (1, data)
    else mret (1, data)
  else if truth (flag_password flags) then mret (0, data)
  else mret (1, data).

(** The part for the will: whether it failed, and the data. *)
Definition read_will (flags : Z) (enddata : Z) (data : MQTTPacket_connectData)
  : M cursor (bool * MQTTPacket_connectData) :=
  let data := set_willFlag (flag_will flags) data in
  if truth (flag_will flags) then
    let data := set_will (set_retained (flag_willRetain flags)
                           (set_qos (flag_willQoS flags) (will data))) data in
    '(ok, s) ← readMQTTLenString (topicName (will data)) enddata;
    let data := set_will (set_topicName s (will data)) data in
    if negb (truth ok) then mret (true, data)
    else
      '(ok, s) ← readMQTTLenString (message (will data)) enddata;
      let data := set_will (set_message s (will data)) data in
      mret (negb (truth ok), data)
  else mret (false, data).

Definition read_connect (data : MQTTPacket_connectData) (enddata : Z)
  : M cursor (Z * MQTTPacket_connectData) :=
  header ← readChar;
  if negb (header_type (to_uchar header) =? CONNECT) then mret (0, data)
  else
    '(_, mylen) ← readRemLen;
    (* Protocol is an uninitialised local; it is not used if it is not read *)
    '(ok, Protocol) ← readMQTTLenString MQTTString_initializer enddata;
    curdata ← tell;
    if negb (truth ok) || (enddata - curdata <? 0) then mret (0, data)
    else
      version ← readChar;
      known ← lift (MQTTPacket_checkVersion Protocol version);
      if truth known then
        flags ← readChar;
        let flags := to_uchar flags in
        let data := set_cleansession (flag_cleansession flags) data in
        keepalive ← readInt;
        let data := set_keepAliveInterval (to_ushort keepalive) data in
        '(ok, s) ← readMQTTLenString (clientID data) enddata;
        let data := set_clientID s data in
        if negb (truth ok) then mret (0, data)
        else
          '(bad, data) ← read_will flags enddata data;
          if bad : bool then mret (0, data)
          else read_credentials flags enddata data
      else mret (0, data).

Definition MQTTDeserialize_connect (data : MQTTPacket_connectData) (buf : list Z) (len : Z)
  : outcome (Z * MQTTPacket_connectData) :=
  '(r, _) ← read_connect data len (Cur buf 0); Ok r.

Definition MQTTSerialize_connack (buf : list Z) (buflen : Z) (connack_rc sessionPresent : Z)
  : outcome (Z * list Z) :=
  if buflen <? 2 then Ok (MQTTPACKET_BUFFER_TOO_SHORT, buf)
  else run_writer buf (
    writeChar (set_header_type CONNACK 0) ;;
    writeRemLen 2 ;;
    writeChar (set_flag_sessionpresent sessionPresent 0) ;;
    writeChar connack_rc).

(** ** The abstract contents of the data structure *)

(** [connect_denotes d k]: [d] holds the abstract connect request [k] (the
    protocol version apart). *)
Record connect_denotes (d : MQTTPacket_connectData) (k : connect) : Prop :=
  { cd_client : denotes (clientID d) (k_client k);
    cd_keepalive : keepAliveInterval d = k_keepalive k;
    cd_clean : cleansession d = k_clean k;
    cd_will : match k_will k with
      | Some w => willFlag d ≠ 0 ∧ denotes (topicName (will d)) (w_topic w) ∧
                  denotes (message (will d)) (w_message w) ∧
                  qos (will d) = w_qos w ∧ retained (will d) = w_retain w
      | None => willFlag d = 0
      end;
    cd_user : match k_user k with
      | Some u => string_given (username d) = true ∧ denotes (username d) u
      | None => string_given (username d) = false
      end;
    cd_pass : match k_pass k with
      | Some p => string_given (password d) = true ∧ denotes (password d) p
      | None => string_given (password d) = false
      end }.

(** The connect packet of the wire format. *)
Definition connect_packet (k : connect) : list Z :=
  packet (fixed_header CONNECT 0 0 0) (connect_body k).

Lemma protocol_len v : v = 3 ∨ v = 4 → len (protocol v) = if v =? 3 then 9 else 7.
Proof. intros [-> | ->]; reflexivity. Qed.

Lemma opt_str_len o : len (opt_str o) = match o with Some bs => 2 + len bs | None => 0 end.
Proof. destruct o; [apply str_len|done]. Qed.

Lemma connect_body_len k :
  connect_wf k →
  len (connect_body k) =
    (if k_version k =? 3 then 12 else 10) + (2 + len (k_client k)) +
    match k_will k with Some w => 4 + len (w_topic w) + len (w_message w) | None => 0 end +
    match k_user k with Some u => 2 + len u | None => 0 end +
    match k_pass k with Some p => 2 + len p | None => 0 end.
Proof.
  intros [Hv _ _ _ _ _ _]. unfold connect_body. autorewrite with lens.
  rewrite protocol_len, !opt_str_len by done. cbn [length].
  destruct (k_will k) as [w|]; unfold will_body; autorewrite with lens; cbn [length];
    destruct (k_version k =? 3); lia.
Qed.

Lemma connect_body_bound k : connect_wf k → len (connect_body k) ≤ MAX_REMAINING.
Proof.
  intros Hk. rewrite connect_body_len by done. destruct Hk as [_ [_ Hc] _ _ Hw Hu Hp].
  unfold MAX_REMAINING.
  destruct (k_will k) as [w|]; [destruct (Hw w eq_refl) as ([_ ?] & [_ ?] & _)|];
    (destruct (k_user k) as [u|]; [destruct (Hu u eq_refl) as [_ ?]|]);
    (destruct (k_pass k) as [p|]; [destruct (Hp p eq_refl) as [_ ?]|]);
    destruct (k_version k =? 3); lia.
Qed.

#[local] Ltac int_bounds := unfold INT_MIN, INT_MAX; lia.
#[local] Ltac step_add := rewrite iadd_Ok by int_bounds; cbn [mbind outcome_bind].

Lemma connectLength_denotes d k :
  connect_wf k → connect_denotes d k → MQTTVersion d = k_version k →
  MQTTSerialize_connectLength d = Ok (len (connect_body k)).
Proof.
  intros Hk Hd Hv. rewrite connect_body_len by done.
  destruct Hk as [Hver [_ Hc] _ _ Hw Hu Hp], Hd as [Dc _ _ Dw Du Dp].
  unfold MQTTSerialize_connectLength. rewrite Hv, (MQTTstrlen_denotes _ _ Dc).
  cbn [mbind outcome_bind].
  set (base := if k_version k =? 3 then 12 else _).
  replace (if k_version k =? 3 then 12 else 10) with base
    by (subst base; destruct Hver as [-> | ->]; done).
  assert (Hb : 10 ≤ base ≤ 12) by (subst base; destruct Hver as [-> | ->]; done).
  clearbody base. step_add. step_add.
  destruct (k_will k) as [w|].
  1: destruct (Hw w eq_refl) as ([_ ?] & [_ ?] & _), Dw as (Df & Dt & Dm & _).
  1: rewrite (truth_nonzero _ Df), (MQTTstrlen_denotes _ _ Dt), (MQTTstrlen_denotes _ _ Dm).
  1: cbn [mbind outcome_bind]; do 4 step_add.
  2: rewrite Dw; cbn [truth Z.eqb negb mbind outcome_bind].
  all: (destruct (k_user k) as [u|];
    [destruct (Hu u eq_refl) as [_ ?], Du as [-> Du]; rewrite (MQTTstrlen_denotes _ _ Du);
     cbn [mbind outcome_bind]; do 2 step_add
    |rewrite Du; cbn [mbind outcome_bind]]).
  all: (destruct (k_pass k) as [p|];
    [destruct (Hp p eq_refl) as [_ ?], Dp as [-> Dp]; rewrite (MQTTstrlen_denotes _ _ Dp);
     cbn [mbind outcome_bind]; step_add; rewrite iadd_Ok by int_bounds
    |rewrite Dp]).
  all: f_equal; lia.
Qed.

(** The flags byte of the wire format is the one the bit-fields produce. *)
Lemma connect_flags_of_denotes d k :
  connect_wf k → connect_denotes d k → connect_flags_of d = connect_flags k.
Proof.
  intros [_ _ _ Hc Hw _ _] [_ _ Dc Dw Du Dp]. unfold connect_flags_of, connect_flags.
  rewrite Dc. unfold set_flag_cleansession, set_flag_will, set_flag_willQoS,
    set_flag_willRetain, set_flag_username, set_flag_password, flag_will, bit in *.
  rewrite (bf_set_add 1 1) by done. change (2 ^ 1) with 2.
  assert (Eu : string_given (username d) = match k_user k with Some _ => true | None => false end)
    by (destruct (k_user k); [by destruct Du|done]).
  assert (Ep : string_given (password d) = match k_pass k with Some _ => true | None => false end)
    by (destruct (k_pass k); [by destruct Dp|done]).
  rewrite Eu, Ep. clear Eu Ep Du Dp Dc.
  destruct (k_will k) as [w|].
  - destruct (Hw w eq_refl) as (_ & _ & Hq & Hr), Dw as (Df & _ & _ & -> & ->).
    rewrite (truth_nonzero _ Df).
    assert (Eq : w_qos w = 0 ∨ w_qos w = 1 ∨ w_qos w = 2 ∨ w_qos w = 3) by lia.
    destruct Hc as [-> | ->], Hr as [-> | ->], Eq as [-> | [-> | [-> | ->]]],
      (k_user k), (k_pass k); reflexivity.
  - rewrite Dw. destruct Hc as [-> | ->], (k_user k), (k_pass k); reflexivity.
Qed.

#[local] Ltac flag_of :=
  intros [_ _ _ Hc Hw _ _]; unfold connect_flags, bit in *;
  rewrite bf_get_div by done; rewrite ?Z.pow_1_r;
  match goal with |- context [k_will ?k] =>
    destruct (k_will k) as [w|]; [destruct (Hw w eq_refl) as (_ & _ & ? & ?)|];
    destruct (k_user k), (k_pass k) end; cbn [opt_bit nonnull]; cbn; lia.

Lemma flag_cleansession_of k :
  connect_wf k → flag_cleansession (connect_flags k) = k_clean k.
Proof. unfold flag_cleansession. flag_of. Qed.
Lemma flag_will_of k :
  connect_wf k → flag_will (connect_flags k) = opt_bit (k_will k).
Proof. unfold flag_will. flag_of. Qed.
Lemma flag_willQoS_of k :
  connect_wf k →
  flag_willQoS (connect_flags k) = match k_will k with Some w => w_qos w | None => 0 end.
Proof. unfold flag_willQoS. flag_of. Qed.
Lemma flag_willRetain_of k :
  connect_wf k →
  flag_willRetain (connect_flags k) = match k_will k with Some w => w_retain w | None => 0 end.
Proof. unfold flag_willRetain. flag_of. Qed.
Lemma flag_username_bit k :
  connect_wf k → flag_username (connect_flags k) = opt_bit (k_user k).
Proof. unfold flag_username. flag_of. Qed.
Lemma flag_password_bit k :
  connect_wf k → flag_password (connect_flags k) = opt_bit (k_pass k).
Proof. unfold flag_password. flag_of. Qed.

Lemma flag_username_of k :
  connect_wf k → truth (flag_username (connect_flags k)) = nonnull (k_user k).
Proof. intros Hk. rewrite flag_username_bit by done. by destruct (k_user k). Qed.

Lemma flag_password_of k :
  connect_wf k → truth (flag_password (connect_flags k)) = nonnull (k_pass k).
Proof. intros Hk. rewrite flag_password_bit by done. by destruct (k_pass k). Qed.

(** ** Writing *)

Lemma literal_cstr s :
  forallb (λ b, (0 <? b) && (b <? 256)) (bytes_of s) = true → len (bytes_of s) ≤ INT_MAX →
  cstr (c_string (bytes_of s)) (bytes_of s).
Proof.
  intros Hb Hl. apply c_string_cstr; [|done]. apply Forall_forall. intros b Hin.
  apply (proj1 (forallb_forall _ _) Hb) in Hin. unfold byte. lia.
Qed.

Lemma emits_protocol v :
  emits (if v =? 4 then writeCString (Some (c_string (bytes_of "MQTT"%string))) ;; writeChar 4
         else writeCString (Some (c_string (bytes_of "MQIsdp"%string))) ;; writeChar 3)
        tt (protocol v).
Proof.
  unfold protocol. apply emits_if; intros _.
  - eapply emits_bind; [by apply emits_writeCString, literal_cstr|apply (emits_writeChar 4)].
  - eapply emits_bind; [by apply emits_writeCString, literal_cstr|apply (emits_writeChar 3)].
Qed.

(** A credential is written exactly when the request has it. *)
Lemma emits_opt_str s o :
  (∀ bs, o = Some bs → denotes s bs) →
  emits (if nonnull o then writeMQTTString s else mret tt) tt (opt_str o).
Proof.
  intros Hs. destruct o as [bs|]; [by apply emits_writeMQTTString, Hs|apply emits_ret].
Qed.

Lemma emits_write_connect d k :
  connect_wf k → connect_denotes d k → MQTTVersion d = k_version k →
  emits (write_connect (len (connect_body k)) d) tt (connect_packet k).
Proof.
  intros Hk Hd Hv. unfold write_connect, connect_packet.
  rewrite (header_type_only CONNECT), (connect_flags_of_denotes d k) by done.
  rewrite flag_username_of, flag_password_of, Hv by done.
  pose proof (connect_body_bound k Hk) as Hb. unfold MAX_REMAINING in Hb.
  apply emits_packet; [|apply fixed_header_byte|unfold INT_MAX; lia].
  pose proof (connect_flags_byte k Hk) as Hf.
  destruct Hk as [_ _ Hka _ Hw _ _], Hd as [Dc -> _ Dw Du Dp]. unfold connect_body.
  eapply emits_bind; [apply emits_protocol|].
  eapply emits_bind; [by apply emits_writeByte|].
  eapply emits_bind; [apply emits_writeInt; lia|].
  eapply emits_bind; [by apply emits_writeMQTTString|].
  eapply emits_bind.
  { destruct (k_will k) as [w|].
    - destruct Dw as (Df & Dt & Dm & _). rewrite (truth_nonzero _ Df).
      eapply emits_bind; by apply emits_writeMQTTString.
    - rewrite Dw. apply emits_ret. }
  eapply emits_bind; apply emits_opt_str; intros bs Eo.
  - rewrite Eo in Du. by destruct Du.
  - rewrite Eo in Dp. by destruct Dp.
Qed.

(** The serializer with room for the packet. *)
Lemma serialize_connect_room d k buf buflen :
  connect_wf k → connect_denotes d k → MQTTVersion d = k_version k →
  packet_size (len (connect_body k)) ≤ buflen ≤ len buf →
  MQTTSerialize_connect buf buflen d = Ok (written buf (connect_packet k)).
Proof.
  intros Hk Hd Hv Hb. unfold MQTTSerialize_connect.
  rewrite (bind_Ok _ _ _ (connectLength_denotes d k Hk Hd Hv)).
  pose proof (connect_body_bound k Hk) as Hl.
  rewrite (bind_Ok _ _ _ (MQTTPacket_len_size _ (body_size _ Hl))).
  rewrite (serialize_packet buf buflen _ _ _ (emits_write_connect d k Hk Hd Hv) Hl ltac:(lia)). by ztest.
Qed.

(** C12: MQTTSerialize_connect returns MQTTPACKET_BUFFER_TOO_SHORT and leaves the buffer
    alone when MQTTPacket_len of the packet exceeds buflen; otherwise it writes exactly
    the connect packet of the wire format at the front of the buffer and returns its
    length. *)
Theorem MQTTSerialize_connect_refines d k buf buflen :
  connect_wf k → connect_denotes d k → MQTTVersion d = k_version k → buflen ≤ len buf →
  MQTTSerialize_connect buf buflen d =
    Ok (if buflen <? packet_size (len (connect_body k))
        then (MQTTPACKET_BUFFER_TOO_SHORT, buf) else written buf (connect_packet k)).
Proof.
  intros Hk Hd Hv Hb. unfold MQTTSerialize_connect.
  rewrite (connectLength_denotes d k) by done. cbn [mbind outcome_bind].
  pose proof (connect_body_bound k Hk) as Hl.
  rewrite MQTTPacket_len_size by (unfold MAX_REMAINING, INT_MIN, INT_MAX in *; lia).
  cbn [mbind outcome_bind]. apply serialize_packet; [|done..]. by apply emits_write_connect.
Qed.

(** ** Reading *)

Lemma view_given c n : string_given (view c n) = true.
Proof. done. Qed.

Lemma read_credential_at s c u r enddata :
  at_ c (str u ++ r) → mqtt_str u → c_pos c + (2 + len u) ≤ enddata → 3 ≤ enddata - c_pos c →
  read_credential s enddata c = Ok ((false, view (adv c 2) (len u)), adv c (2 + len u)) ∧
  at_ (adv c (2 + len u)) r ∧ denotes (view (adv c 2) (len u)) u.
Proof.
  intros Ha Hu He H3. destruct (readMQTTLenString_at s c u r enddata Ha Hu He) as (E & Ha' & Hd).
  split; [|done]. unfold read_credential. rewrite (run_bind _ _ _ (c_pos c) c) by done.
  ztests. by rewrite (run_bind _ _ _ _ _ E).
Qed.

(** The credentials MQTTDeserialize_connect accepts: no password without a
    user name, and no empty string at the end of the packet. *)
Definition credentials_ok (k : connect) : Prop :=
  (k_pass k ≠ None → k_user k ≠ None) ∧ k_pass k ≠ Some [] ∧
  (k_pass k = None → k_user k ≠ Some []).

Lemma read_credentials_at d c k r enddata :
  connect_wf k → credentials_ok k →
  at_ c (opt_str (k_user k) ++ opt_str (k_pass k) ++ r) →
  c_pos c + len (opt_str (k_user k)) + len (opt_str (k_pass k)) ≤ enddata →
  (k_user k = None → string_given (username d) = false) →
  (k_pass k = None → string_given (password d) = false) →
  ∃ su sp c', read_credentials (connect_flags k) enddata d c =
      Ok ((1, set_password sp (set_username su d)), c') ∧
    match k_user k with Some u => string_given su = true ∧ denotes su u
                      | None => string_given su = false end ∧
    match k_pass k with Some p => string_given sp = true ∧ denotes sp p
                      | None => string_given sp = false end.
Proof.
  intros Hk (C1 & C2 & C3) Ha He Nu Np. unfold read_credentials.
  rewrite flag_username_of, flag_password_of by done.
  destruct Hk as [_ _ _ _ _ Hu Hp].
  destruct (k_user k) as [u|], (k_pass k) as [p|]; cbn [opt_str nonnull app] in *.
  - rewrite !str_len in He.
    assert (Hp0 : 1 ≤ len p) by (apply len_pos; naive_solver).
    edestruct (read_credential_at (username d) c u (str p ++ r) enddata) as (E & Ha' & D); [done|by apply Hu|lia..|].
    rewrite (run_bind _ _ _ _ _ E).
    edestruct (read_credential_at (password (set_username (view (adv c 2) (len u)) d))
      (adv c (2 + len u)) p r enddata) as (E' & _ & D'); [done|by apply Hp|cbn; lia..|].
    rewrite (run_bind _ _ _ _ _ E'). eauto 10.
  - assert (Hu0 : 1 ≤ len u) by (apply len_pos; naive_solver).
    rewrite str_len in He. cbn [length] in He.
    edestruct (read_credential_at (username d) c u r enddata) as (E & Ha' & D); [done|by apply Hu|lia..|].
    rewrite (run_bind _ _ _ _ _ E).
    exists (view (adv c 2) (len u)), (password d). by destruct d; eauto 10.
  - exfalso. by apply C1.
  - exists (username d), (password d), c. destruct d; cbn in *. auto.
Qed.

Lemma read_will_at d c k r enddata :
  connect_wf k → at_ c (will_body (k_will k) ++ r) →
  c_pos c + len (will_body (k_will k)) ≤ enddata →
  ∃ w', read_will (connect_flags k) enddata d c =
      Ok ((false, set_will w' (set_willFlag (opt_bit (k_will k)) d)),
          adv c (len (will_body (k_will k)))) ∧
    match k_will k with
    | Some w => denotes (topicName w') (w_topic w) ∧ denotes (message w') (w_message w) ∧
                qos w' = w_qos w ∧ retained w' = w_retain w
    | None => w' = will d
    end.
Proof.
  intros Hk Ha He. unfold read_will.
  rewrite flag_will_of, flag_willQoS_of, flag_willRetain_of by done.
  destruct Hk as [_ _ _ _ Hw _ _], (k_will k) as [w|]; cbn [opt_bit will_body app] in *.
  - destruct (Hw w eq_refl) as (Ht & Hm & _). rewrite <- app_assoc in Ha.
    autorewrite with lens in *. cbn [truth Z.eqb negb].
    edestruct (readMQTTLenString_at (topicName (will d)) c (w_topic w)
      (str (w_message w) ++ r) enddata) as (E & Ha' & D);
      [exact Ha|exact Ht|lia|]. cbn [will set_will set_willFlag set_retained set_qos topicName].
    rewrite (run_bind _ _ _ _ _ E). cbn [truth Z.eqb negb].
    edestruct (readMQTTLenString_at (message (will d)) (adv c (2 + len (w_topic w)))
      (w_message w) r enddata) as (E' & _ & D'); [exact Ha'|exact Hm|cbn; lia|].
    cbn [will set_will set_topicName message].
    rewrite (run_bind _ _ _ _ _ E'). rewrite !adv_adv. clear E E'.
    refine (ex_intro _ (set_message _ (set_topicName _ (set_retained (w_retain w)
      (set_qos (w_qos w) (will d))))) (conj eq_refl _)).
    rewrite adv_adv in D'. done.
  - exists (will d). split; [|done]. cbn [truth Z.eqb negb]. rewrite run_ret. cbn [length]. destruct d, c; cbn.
    unfold adv. cbn. by rewrite Z.add_0_r.
Qed.

(** The name and the level of the protocol in a packet. *)
Definition protocol_name (v : Z) : list Z :=
  if v =? 4 then bytes_of "MQTT"%string else bytes_of "MQIsdp"%string.

Lemma protocol_split v : v = 3 ∨ v = 4 → protocol v = str (protocol_name v) ++ [v].
Proof. by intros [-> | ->]. Qed.

Lemma protocol_name_str v : mqtt_str (protocol_name v).
Proof.
  unfold protocol_name, mqtt_str. destruct (v =? 4); vm_compute; split; [|done| |done];
    repeat constructor; done.
Qed.

Lemma checkVersion_known s v :
  v = 3 ∨ v = 4 → cstring s = None → denotes s (protocol_name v) →
  MQTTPacket_checkVersion s v = Ok 1.
Proof.
  intros Hv Hc (_ & _ & Hs). rewrite Hc in Hs. destruct Hs as [Hl Hm].
  unfold MQTTPacket_checkVersion, memcmp. rewrite Hl.
  destruct Hv as [-> | ->]; cbn [Z.eqb Pos.eqb].
  - change (Z.min 6 _) with (len (protocol_name 3)). by rewrite Hm.
  - change (Z.min 4 _) with (len (protocol_name 4)). cbn [mbind outcome_bind]. by rewrite Hm.
Qed.

Lemma connect_packet_split k junk :
  connect_wf k →
  connect_packet k ++ junk =
    fixed_header CONNECT 0 0 0 :: varint (len (connect_body k)) ++
    str (protocol_name (k_version k)) ++ k_version k :: connect_flags k ::
    int16 (k_keepalive k) ++ str (k_client k) ++ will_body (k_will k) ++
    opt_str (k_user k) ++ opt_str (k_pass k) ++ junk.
Proof.
  intros Hk. unfold connect_packet, packet. cbn [app]. f_equal.
  rewrite <- app_assoc. f_equal. unfold connect_body.
  rewrite protocol_split by apply Hk. by rewrite <- !app_assoc.
Qed.

(** C13: MQTTDeserialize_connect recovers from the bytes of a connect packet everything
    the packet holds, except that it leaves the MQTTVersion field as it was. *)
Theorem MQTTDeserialize_connect_roundtrip d0 k junk n :
  connect_wf k → credentials_ok k →
  string_given (username d0) = false → string_given (password d0) = false →
  len (connect_packet k) ≤ n →
  ∃ d, MQTTDeserialize_connect d0 (connect_packet k ++ junk) n = Ok (1, d) ∧
       connect_denotes d k ∧ MQTTVersion d = MQTTVersion d0.
Proof.
  intros Hk Hcr Hu Hp Hn. unfold MQTTDeserialize_connect.
  pose proof (connect_body_bound k Hk) as Hmax.
  pose proof (connect_packet_split k junk Hk) as Esplit.
  pose proof (f_equal length (connect_packet_split k [] Hk)) as Hlen.
  rewrite app_nil_r in Hlen. apply (f_equal Z.of_nat) in Hlen. autorewrite with lens in Hlen.
  pose proof (at_start (connect_packet k ++ junk)) as Ha. rewrite Esplit in Ha at 2.
  unfold read_connect. pose proof Hk as [Hv Hc Hka _ _ _ _].
  rd_char. rewrite to_uchar_to_char, to_uchar_id by apply fixed_header_byte.
  rewrite header_type_of. change (CONNECT mod 16 =? CONNECT) with true. cbn [negb].
  rd_remlen. rd_str D2; [apply protocol_name_str|].
  rewrite run_bind_tell. cbn [truth Z.eqb negb orb]. ztest; [clia|].
  rd_char. rewrite to_char_small by lia.
  rewrite (run_bind _ _ _ 1 _) by (by apply run_lift, checkVersion_known).
  cbn [truth Z.eqb negb]. rd_char.
  rewrite to_uchar_to_char, to_uchar_id by (by apply connect_flags_byte).
  rd_int. rd_str D3. cbn [truth Z.eqb negb].
  rewrite flag_cleansession_of by done.
  match goal with Ha : at_ ?c (will_body _ ++ ?r) |- context [read_will ?f n ?d] =>
    destruct (read_will_at d c k r n Hk Ha) as (w' & E & W); [clia|];
    rewrite (run_bind _ _ _ _ _ E); clear E;
    pose proof (at_adv _ _ _ _ Ha eq_refl) as Ha'
  end.
  match goal with |- context [read_credentials _ n ?d] =>
    destruct (read_credentials_at d _ k junk n Hk Hcr Ha') as (su & sp & c' & E & U & P);
    [clia|done|done|rewrite E]
  end.
  eexists; split; [reflexivity|]; split; [|done].
  unfold to_ushort. rewrite Z.mod_small by lia.
  split; cbn; try done.
  destruct (k_will k) as [w|]; cbn [opt_bit]; [|done]. by split; [|exact W].
Qed.

(** ** CONNACK and the packets without a body *)

Definition connack_packet (sp rc : Z) : list Z := packet (fixed_header CONNACK 0 0 0) [sp; rc].

Lemma emits_connack sp rc :
  bit sp → byte rc →
  emits (writeChar (set_header_type CONNACK 0) ;; writeRemLen 2 ;;
         writeChar (set_flag_sessionpresent sp 0) ;; writeChar rc) tt (connack_packet sp rc).
Proof.
  intros Hs Hr. rewrite (header_type_only CONNACK). unfold set_flag_sessionpresent, bit in *.
  rewrite (bf_set_add 0 1) by done. change (2 ^ 1) with 2. change (2 ^ 0) with 1.
  replace (0 + sp mod 2 * 1) with sp by lia.
  apply (emits_packet _ [sp; rc]); [|apply fixed_header_byte|done].
  apply (emits_bind _ _ tt tt [sp] [rc]); apply emits_writeByte; unfold byte in *; [lia|done].
Qed.

(** A CONNACK packet at the front of a buffer. *)
Lemma read_connack sp rc junk sp0 rc0 n :
  bit sp → byte rc →
  MQTTDeserialize_connack sp0 rc0 (connack_packet sp rc ++ junk) n = Ok (1, sp, rc).
Proof.
  intros Hs Hr. unfold MQTTDeserialize_connack.
  match goal with |- context [Cur ?buf 0] => pose proof (at_start buf) as Ha end.
  match type of Ha with at_ ?c _ =>
    change (at_ c (fixed_header CONNACK 0 0 0 :: varint 2 ++ sp :: rc :: junk)) in Ha end.
  rd_char. rewrite to_uchar_to_char, to_uchar_id by apply fixed_header_byte.
  rewrite header_type_of. change (CONNACK mod 16 =? CONNACK) with true. cbn [negb].
  rd_remlen; [done|]. rewrite run_bind_tell. ztest. rd_char. rd_char.
  rewrite run_ret, !to_uchar_to_char, !to_uchar_id by (unfold byte, bit in *; lia).
  unfold flag_sessionpresent. rewrite bf_get_div by done. change (2 ^ 0) with 1.
  change (2 ^ 1) with 2. cbn [mbind outcome_bind]. do 3 f_equal. unfold bit in *. lia.
Qed.

(** What MQTTSerialize_connack writes into a buffer of at least four bytes,
    MQTTDeserialize_connack reads back from it. *)
Theorem MQTTDeserialize_connack_roundtrip sp rc buf buflen sp0 rc0 n :
  bit sp → byte rc → 4 ≤ buflen ≤ len buf →
  ∃ buf', MQTTSerialize_connack buf buflen rc sp = Ok (4, buf') ∧
          MQTTDeserialize_connack sp0 rc0 buf' n = Ok (1, sp, rc).
Proof.
  intros Hs Hr Hb. unfold MQTTSerialize_connack. ztest.
  rewrite (run_writer_emits buf _ (connack_packet sp rc)) by
    first [by apply emits_connack | change (len (connack_packet sp rc)) with 4; lia].
  eexists. split; [reflexivity|]. by apply read_connack.
Qed.

(** MQTTSerialize_connack only asks for two bytes but writes four: with a buffer
    of two or three bytes its writes leave the buffer. *)
Theorem MQTTSerialize_connack_overflow sp rc buf buflen :
  len buf = buflen → 2 ≤ buflen < 4 → MQTTSerialize_connack buf buflen rc sp = UB OutOfBounds.
Proof.
  intros Hl Hb. unfold MQTTSerialize_connack. ztest.
  destruct buf as [|a [|b [|c [|]]]]; cbn [length] in *; try lia; reflexivity.
Qed.

(** A CONNACK with fewer than two bytes is reported with return code 1, success,
    and neither the session-present flag nor the return code is assigned. *)
Theorem MQTTDeserialize_connack_short q n junk sp0 rc0 buflen :
  0 ≤ n < 2 →
  MQTTDeserialize_connack sp0 rc0 (fixed_header CONNACK 0 q 0 :: n :: junk) buflen =
    Ok (1, sp0, rc0).
Proof.
  intros Hn. unfold MQTTDeserialize_connack.
  match goal with |- context [Cur ?buf 0] => pose proof (at_start buf) as Ha end.
  rd_char. rewrite to_uchar_to_char, to_uchar_id by apply fixed_header_byte.
  rewrite header_type_of. change (CONNACK mod 16 =? CONNACK) with true. cbn [negb].
  assert (En : varint n = [n]) by (unfold varint; cbn [varint_k]; ztests; done).
  match type of Ha with at_ ?c _ => change (at_ c ([n] ++ junk)) in Ha end.
  rewrite <- En in Ha. rd_remlen; [unfold MAX_REMAINING; lia|].
  rewrite run_bind_tell, En. ztest. done.
Qed.

(** DISCONNECT and PINGREQ are two bytes: the packet type and a remaining length
    of zero; a smaller buffer is refused and left alone. *)
Theorem MQTTSerialize_zero_correct buf buflen type :
  buflen ≤ len buf →
  MQTTSerialize_zero buf buflen type =
    Ok (if buflen <? 2 then (MQTTPACKET_BUFFER_TOO_SHORT, buf)
        else written buf [16 * (type mod 16); 0]).
Proof.
  intros Hb. unfold MQTTSerialize_zero. ztest; [done|].
  rewrite (header_type_only type). apply run_writer_emits; [|cbn [length]; lia].
  assert (E : fixed_header type 0 0 0 = 16 * (type mod 16)) by (unfold fixed_header; lia).
  rewrite <- E. apply (emits_bind _ _ tt tt [fixed_header type 0 0 0] (varint 0)).
  - apply emits_writeByte, fixed_header_byte.
  - by apply emits_writeRemLen.
Qed.

(** ** The protocol name and level *)

(** The name agrees with the literal as far as the shorter of the two goes. *)
Definition name_agrees (literal name : list Z) : bool :=
  bool_decide (take (length literal) name = take (length name) literal).

Lemma memcmp_list_eq a b : length a = length b → memcmp_list a b = 0 ↔ a = b.
Proof.
  revert b. induction a as [|x a IH]; intros [|y b] L; try done.
  injection L as L. cbn [memcmp_list]. destruct (Z.eqb_spec x y) as [->|].
  - rewrite (IH b L). split; [by intros ->|by intros [= ->]].
  - split; [lia|congruence].
Qed.

Lemma memcmp_literal p name lit :
  mem_read p (len name) = Ok name →
  memcmp p (Some (c_string (bytes_of lit))) (Z.min (len (bytes_of lit)) (len name)) =
    Ok (memcmp_list (take (length (bytes_of lit)) name) (take (length name) (bytes_of lit))).
Proof.
  intros Hm. unfold memcmp.
  rewrite (bind_Ok _ _ _ (mem_read_prefix _ _ (Z.min (len (bytes_of lit)) (len name)) _ Hm
    ltac:(lia))).
  assert (Hl : mem_read (Some (c_string (bytes_of lit))) (len (bytes_of lit)) = Ok (bytes_of lit))
    by (by apply (mem_read_rest _ 0 _ _ [0])).
  rewrite (bind_Ok _ _ _ (mem_read_prefix _ _ (Z.min (len (bytes_of lit)) (len name)) _ Hl ltac:(lia))).
  do 2 f_equal.
  - destruct (Z.min_spec (len (bytes_of lit)) (len name)) as [[H1 ->]|[H1 ->]]; rewrite Nat2Z.id;
      [done|]. by rewrite !take_ge by lia.
  - destruct (Z.min_spec (len (bytes_of lit)) (len name)) as [[H1 ->]|[H1 ->]]; rewrite Nat2Z.id;
      [|done]. by rewrite !take_ge by lia.
Qed.

(** MQTTPacket_checkVersion only compares the name with "MQTT" (level 4) or "MQIsdp"
    (level 3) as far as the shorter one goes: any prefix, the empty name included, and
    any longer name is accepted. *)
Theorem MQTTPacket_checkVersion_prefix s name version :
  denotes s name → cstring s = None →
  MQTTPacket_checkVersion s version =
    Ok (if (version =? 3) && name_agrees (bytes_of "MQIsdp"%string) name ||
           (version =? 4) && name_agrees (bytes_of "MQTT"%string) name then 1 else 0).
Proof.
  intros (_ & _ & Hs) Hc. rewrite Hc in Hs. destruct Hs as [Hl Hm].
  assert (A : ∀ lit : String.string,
    (r ← memcmp (ls_data (lenstring s)) (Some (c_string (bytes_of lit)))
           (Z.min (len (bytes_of lit)) (ls_len (lenstring s))); Ok (r =? 0)) =
    Ok (name_agrees (bytes_of lit) name)).
  { intros lit. rewrite Hl, (bind_Ok _ _ _ (memcmp_literal _ _ lit Hm)). f_equal.
    pose proof (memcmp_list_eq (take (length (bytes_of lit)) name)
      (take (length name) (bytes_of lit))) as R. rewrite !length_take in R.
    unfold name_agrees. symmetry. destruct (Z.eqb_spec (memcmp_list
      (take (length (bytes_of lit)) name) (take (length name) (bytes_of lit))) 0).
    - apply bool_decide_eq_true. apply R; [lia|assumption].
    - apply bool_decide_eq_false. intros E. apply R in E; [contradiction|lia]. }
  pose proof (A "MQIsdp"%string) as A3. pose proof (A "MQTT"%string) as A4.
  change (len (bytes_of "MQIsdp"%string)) with 6 in A3.
  change (len (bytes_of "MQTT"%string)) with 4 in A4.
  unfold MQTTPacket_checkVersion. destruct (Z.eqb_spec version 3) as [->|].
  - rewrite (bind_Ok _ _ _ A3). cbn [Z.eqb Pos.eqb mbind outcome_bind andb].
    rewrite orb_false_r. by destruct (name_agrees _ _).
  - cbn [mbind outcome_bind andb orb]. destruct (version =? 4); [|done].
    rewrite (bind_Ok _ _ _ A4). clear. by destruct (name_agrees (bytes_of "MQTT"%string) name).
Qed.

(** ** Arbitrary bytes *)

Lemma checkVersion_defined s version :
  0 ≤ ls_len (lenstring s) → defined (mem_read (ls_data (lenstring s)) (ls_len (lenstring s))) →
  ∃ r, MQTTPacket_checkVersion s version = Ok r.
Proof.
  intros Hl [bs Hm]. unfold MQTTPacket_checkVersion, memcmp.
  assert (L : ∀ lit k, 0 ≤ k ≤ len (bytes_of lit) →
    ∃ b, mem_read (Some (c_string (bytes_of lit))) k = Ok b).
  { intros lit k Hk. eexists. eapply mem_read_prefix; [|exact Hk].
    by apply (mem_read_rest _ 0 _ _ [0]). }
  destruct (version =? 3).
  - rewrite (mem_read_prefix _ _ (Z.min 6 _) _ Hm) by lia.
    destruct (L "MQIsdp"%string (Z.min 6 (ls_len (lenstring s)))) as [b ->];
      [change (len _) with 6; lia|]. cbn [mbind outcome_bind].
    destruct (_ =? 0); [eauto|]. cbn [mbind outcome_bind].
    destruct (version =? 4); [|eauto].
    rewrite (mem_read_prefix _ _ (Z.min 4 _) _ Hm) by lia.
    destruct (L "MQTT"%string (Z.min 4 (ls_len (lenstring s)))) as [b' ->];
      [change (len _) with 4; lia|]. cbn [mbind outcome_bind]. destruct (_ =? 0); eauto.
  - cbn [mbind outcome_bind]. destruct (version =? 4); [|eauto].
    rewrite (mem_read_prefix _ _ (Z.min 4 _) _ Hm) by lia.
    destruct (L "MQTT"%string (Z.min 4 (ls_len (lenstring s)))) as [b' ->];
      [change (len _) with 4; lia|]. cbn [mbind outcome_bind]. destruct (_ =? 0); eauto.
Qed.

(** The result of a reader that says how it failed. *)
Definition bool_rc {A} (r : Z * A) (_ : cursor) : Prop := r.1 = 0 ∨ r.1 = 1.

Lemma runs_readString s enddata c :
  bytes (c_buf c) → 0 ≤ c_pos c → enddata ≤ len (c_buf c) →
  runs (readMQTTLenString s enddata) c (λ _ _, True).
Proof. intros. eapply runs_weaken; [by apply runs_readMQTTLenString|done]. Qed.

Lemma runs_read_credential s enddata c :
  bytes (c_buf c) → 0 ≤ c_pos c → enddata ≤ len (c_buf c) →
  runs (read_credential s enddata) c (λ _ _, True).
Proof.
  intros Hb Hp He. unfold read_credential, runs. rewrite run_bind_tell. ztest.
  - by eexists _, c.
  - apply (runs_bind _ _ _ (λ _ _, True)); [by apply runs_readString|].
    intros [ok s'] c' _ _ _. by apply runs_ret.
Qed.

Lemma runs_read_credentials flags enddata d c :
  bytes (c_buf c) → 0 ≤ c_pos c → enddata ≤ len (c_buf c) →
  runs (read_credentials flags enddata d) c bool_rc.
Proof.
  intros Hb Hp He. unfold read_credentials.
  destruct (truth (flag_username flags)).
  - apply (runs_bind _ _ _ (λ _ _, True)); [by apply runs_read_credential|].
    intros [bad s] c1 Eb1 Hp1 _. destruct bad; [apply runs_ret; by left|].
    destruct (truth (flag_password flags)); [|apply runs_ret; by right].
    apply (runs_bind _ _ _ (λ _ _, True)); [apply runs_read_credential; rewrite ?Eb1; lia || done|].
    intros [bad s'] c2 _ _ _. destruct bad; apply runs_ret; [by left|by right].
  - destruct (truth (flag_password flags)); apply runs_ret; [by left|by right].
Qed.

Lemma runs_read_will flags enddata d c :
  bytes (c_buf c) → 0 ≤ c_pos c → enddata ≤ len (c_buf c) →
  runs (read_will flags enddata d) c (λ _ _, True).
Proof.
  intros Hb Hp He. unfold read_will. destruct (truth (flag_will flags)); [|by apply runs_ret].
  apply (runs_bind _ _ _ (λ _ _, True)); [by apply runs_readString|].
  intros [ok s] c1 Eb1 Hp1 _. destruct (negb (truth ok)); [by apply runs_ret|].
  apply (runs_bind _ _ _ (λ _ _, True)); [apply runs_readString; rewrite ?Eb1; lia || done|].
  intros [ok' s'] c2 _ _ _. by apply runs_ret.
Qed.

(** C14: on arbitrary bytes MQTTDeserialize_connect is defined and returns 0 or 1, when
    the buffer has five bytes and extends four bytes past the packet: the header, the
    level, the flags and the keep-alive are read without a bounds check. *)
Theorem MQTTDeserialize_connect_safe d buf n :
  bytes buf → 5 ≤ len buf → 0 ≤ n → n + 4 ≤ len buf →
  ∃ rc d', MQTTDeserialize_connect d buf n = Ok (rc, d') ∧ (rc = 0 ∨ rc = 1).
Proof.
  intros Hb H5 Hn H4. unfold MQTTDeserialize_connect.
  assert (R : runs (read_connect d n) (Cur buf 0) bool_rc).
  { unfold read_connect.
    apply (runs_bind _ _ _ _ _ (runs_readChar (Cur buf 0) ltac:(cbn; lia))).
    intros h c1 E1 _ P1. cbn [c_buf c_pos] in *. destruct (negb _); [apply runs_ret; by left|].
    apply (runs_bind _ _ _ _ _ (runs_readRemLen c1 ltac:(lia) ltac:(rewrite E1; lia))).
    intros [rl mylen] c2 E2 _ [Hrl P2]. cbn [fst] in *. rewrite E1 in E2.
    eapply runs_bind; [apply (runs_readMQTTLenString _ n c2); rewrite ?E2; lia || done|].
    intros [ok proto] c3 E3 P3 S3. rewrite E2 in E3.
    apply (runs_bind _ _ _ _ _ (runs_tell c3)). intros ? ? _ _ [-> ->].
    destruct (truth ok) eqn:Eok; cbn [negb orb]; [|apply runs_ret; by left].
    destruct S3 as [(_ & Pp & Pe & Hl & _ & Hm)|[F _]]; cbn [fst snd] in *; [|by subst ok].
    ztest.
    apply (runs_bind _ _ _ _ _ (runs_readChar c3 ltac:(rewrite E3; lia))).
    intros version c4 E4 _ P4. rewrite E3 in E4.
    destruct (checkVersion_defined proto version Hl Hm) as [known Ek].
    apply (runs_bind _ _ _ _ _ (runs_lift _ known c4 Ek)). intros ? ? _ _ [-> ->].
    destruct (truth known); [|apply runs_ret; by left].
    apply (runs_bind _ _ _ _ _ (runs_readChar c4 ltac:(rewrite E4; lia))).
    intros flags c5 E5 _ P5. rewrite E4 in E5.
    eapply runs_bind; [apply (runs_readInt c5); rewrite ?E5; lia || done|].
    intros keepalive c6 E6 _ [P6 _]. rewrite E5 in E6.
    apply (runs_bind _ _ _ (λ _ _, True)); [apply runs_readString; rewrite ?E6; lia || done|].
    intros [ok' s'] c7 E7 P7 _. rewrite E6 in E7.
    destruct (negb (truth ok')); [apply runs_ret; by left|].
    apply (runs_bind _ _ _ (λ _ _, True)); [apply runs_read_will; rewrite ?E7; lia || done|].
    intros [bad d'] c8 E8 P8 _. rewrite E7 in E8. destruct bad; [apply runs_ret; by left|].
    apply runs_read_credentials; rewrite ?E8; lia || done. }
  destruct R as ([rc d'] & c' & E & _ & _ & Hrc). exists rc, d'.
  by rewrite (bind_Ok _ _ _ E).
Qed.

End Connect.

(** ** The theorems at concrete packets *)

#[local] Existing Instance x86_64.

Definition ex_connect : connect :=
  Connect 4 (bytes_of "me"%string) 60 1 (Some (WillMsg (bytes_of "t"%string) [1; 0] 1 0))
    (Some (bytes_of "u"%string)) (Some (bytes_of "pw"%string)).

Lemma ex_connect_wf : connect_wf ex_connect.
Proof.
  split; [by right|decide_by_vm|decide_by_vm|by right| | |].
  - intros w [= <-]. decide_by_vm.
  - intros u [= <-]. decide_by_vm.
  - intros p [= <-]. decide_by_vm.
Qed.

Definition ex_connectData : MQTTPacket_connectData :=
  ConnectData (bytes_of "MQTC"%string) 0 4 (of_cstring (bytes_of "me"%string)) 60 1 1
    (WillOptions (bytes_of "MQTW"%string) 0 (of_cstring (bytes_of "t"%string)) (of_data [1; 0]) 0 1)
    (of_cstring (bytes_of "u"%string)) (of_cstring (bytes_of "pw"%string)).

Lemma ex_connect_denotes : connect_denotes ex_connectData ex_connect.
Proof.
  split; [apply of_cstring_denotes; decide_by_vm|done..| | |].
  - split; [done|]. split; [apply of_cstring_denotes; decide_by_vm|].
    split; [apply of_data_denotes; decide_by_vm|done].
  - split; [done|]. apply of_cstring_denotes; decide_by_vm.
  - split; [done|]. apply of_cstring_denotes; decide_by_vm.
Qed.

Lemma MQTTSerialize_connect_refines_witness :
  MQTTSerialize_connect (replicate 31 7) 31 ex_connectData =
  Ok (30, [16; 28; 0; 4; 77; 81; 84; 84; 4; 206; 0; 60; 0; 2; 109; 101; 0; 1; 116; 0; 2; 1; 0;
           0; 1; 117; 0; 2; 112; 119] ++ [7]).
Proof.
  apply (MQTTSerialize_connect_refines ex_connectData ex_connect (replicate 31 7) 31
    ex_connect_wf ex_connect_denotes); done.
Defined.

Lemma MQTTDeserialize_connect_roundtrip_witness :
  ∃ d, MQTTDeserialize_connect MQTTPacket_connectData_initializer
         (connect_packet ex_connect ++ [9]) 30 = Ok (1, d) ∧
       connect_denotes d ex_connect ∧ MQTTVersion d = 4.
Proof.
  apply (MQTTDeserialize_connect_roundtrip MQTTPacket_connectData_initializer);
    [exact ex_connect_wf| |done..]. by repeat split.
Defined.

Lemma MQTTDeserialize_connack_roundtrip_witness :
  ∃ buf', MQTTSerialize_connack [0; 0; 0; 0] 4 5 1 = Ok (4, buf') ∧
          MQTTDeserialize_connack 7 7 buf' 4 = Ok (1, 1, 5).
Proof. apply MQTTDeserialize_connack_roundtrip; decide_by_vm. Defined.

Lemma MQTTSerialize_connack_overflow_witness :
  MQTTSerialize_connack [0; 0; 0] 3 0 1 = UB OutOfBounds.
Proof. apply MQTTSerialize_connack_overflow; decide_by_vm. Defined.

Lemma MQTTDeserialize_connack_short_witness :
  MQTTDeserialize_connack 7 8 [32; 0] 2 = Ok (1, 7, 8).
Proof. apply (MQTTDeserialize_connack_short 0 0 []); decide_by_vm. Defined.

Lemma MQTTSerialize_zero_correct_witness :
  MQTTSerialize_zero [1; 2; 3] 3 DISCONNECT = Ok (2, [224; 0; 3]).
Proof. by apply (MQTTSerialize_zero_correct [1; 2; 3] 3 DISCONNECT). Defined.

(** A client that names the protocol "MQ" is accepted. *)
Lemma MQTTPacket_checkVersion_prefix_witness :
  MQTTPacket_checkVersion (of_data (bytes_of "MQ"%string)) 4 = Ok 1.
Proof.
  apply (MQTTPacket_checkVersion_prefix _ (bytes_of "MQ"%string)); [|done].
  apply of_data_denotes; decide_by_vm.
Defined.

Lemma MQTTDeserialize_connect_safe_witness :
  ∃ rc d', MQTTDeserialize_connect MQTTPacket_connectData_initializer
             [16; 255; 255; 255; 255; 0; 4; 77; 0; 0; 0; 0] 8 = Ok (rc, d') ∧ (rc = 0 ∨ rc = 1).
Proof. apply MQTTDeserialize_connect_safe; decide_by_vm. Defined.

(** Without the four bytes of slack a truncated packet is read past its end. *)
Example connect_reads_past_end :
  MQTTDeserialize_connect MQTTPacket_connectData_initializer [16; 6; 0; 4; 77; 81; 84; 84] 8 =
    UB OutOfBounds.
Proof. vm_compute. reflexivity. Qed.

(** An MQTTVersion other than 3 and 4 is counted as no protocol header at all, but
    "MQIsdp" is written: the writes leave the buffer MQTTPacket_len has measured. *)
Example connect_version_5_overflow :
  let options := ConnectData (bytes_of "MQTC"%string) 0 5 MQTTString_initializer 60 1 0
    MQTTPacket_willOptions_initializer MQTTString_initializer MQTTString_initializer in
  MQTTSerialize_connect (replicate 4 0) 4 options = UB OutOfBounds.
Proof. vm_compute. reflexivity. Qed.
