(* ===== verification/Publish.v ===== *)
(** * MQTTSerializePublish.c and MQTTDeserializePublish.c

    The PUBLISH packet and the acknowledgements that share one format:
    PUBACK, PUBREC, PUBREL, PUBCOMP (and UNSUBACK). *)

From S2P Require Import Prelude CSem Wire Packet.

(** The objects MQTTDeserialize_publish writes through its pointers. *)
Record publish_out : Type := PublishOut
  { p_dup : Z; p_qos : Z; p_retained : Z; p_packetid : Z;
    p_topicName : MQTTString; p_payload : option ptr; p_payloadlen : Z }.

Section Publish.
Context `{CImpl}.

(** ** Serialization *)

Definition MQTTSerialize_publishLength (qos : Z) (topicName : MQTTString) (payloadlen : Z)
  : outcome Z :=
  n ← MQTTstrlen topicName;
  len ← (2 +i n)%c;
  len ← (len +i payloadlen)%c;
  if 0 <? qos then (len +i 2)%c else Ok len.

Definition write_publish (rem_len dup qos retained packetid : Z) (topicName : MQTTString)
    (payload : option ptr) (payloadlen : Z) : M cursor unit :=
  let header := set_header_type PUBLISH 0 in
  let header := set_header_dup dup header in
  let header := set_header_qos qos header in
  let header := set_header_retain retained header in
  writeChar header ;;
  writeRemLen rem_len ;;
  writeMQTTString topicName ;;
  (if 0 <? qos then writeInt packetid else mret tt) ;;
  copy_in payload payloadlen.

Definition MQTTSerialize_publish (buf : list Z) (buflen : Z) (dup qos retained packetid : Z)
    (topicName : MQTTString) (payload : option ptr) (payloadlen : Z)
  : outcome (Z * list Z) :=
  rem_len ← MQTTSerialize_publishLength qos topicName payloadlen;
  total ← MQTTPacket_len rem_len;
  if buflen <? total then Ok (MQTTPACKET_BUFFER_TOO_SHORT, buf)
  else run_writer buf
         (write_publish rem_len dup qos retained packetid topicName payload payloadlen).

Definition MQTTSerialize_ack (buf : list Z) (buflen : Z) (packettype dup packetid : Z)
  : outcome (Z * list Z) :=
  if buflen <? 4 then Ok (MQTTPACKET_BUFFER_TOO_SHORT, buf)
  else
    let header := set_header_type packettype 0 in
    let header := set_header_dup dup header in
    let header := set_header_qos (if packettype =? PUBREL then 1 else 0) header in
    run_writer buf (writeChar header ;; writeRemLen 2 ;; writeInt packetid).

Definition MQTTSerialize_puback (buf : list Z) (buflen packetid : Z) : outcome (Z * list Z) :=
  MQTTSerialize_ack buf buflen PUBACK 0 packetid.

Definition MQTTSerialize_pubrel (buf : list Z) (buflen dup packetid : Z)
  : outcome (Z * list Z) :=
  MQTTSerialize_ack buf buflen PUBREL dup packetid.

Definition MQTTSerialize_pubcomp (buf : list Z) (buflen packetid : Z) : outcome (Z * list Z) :=
  MQTTSerialize_ack buf buflen PUBCOMP 0 packetid.

(** ** Deserialization *)

(** The part of MQTTDeserialize_publish after the remaining length, which
    took [rc] bytes. *)
Definition read_publish_body (rc mylen : Z) (o : publish_out) : M cursor (Z * publish_out) :=
  curdata ← tell;
  let enddata := curdata + mylen in
  '(ok, topic) ← readMQTTLenString (p_topicName o) enddata;
  let o := PublishOut (p_dup o) (p_qos o) (p_retained o) (p_packetid o) topic
             (p_payload o) (p_payloadlen o) in
  curdata ← tell;
  if negb (truth ok) || (enddata - curdata <? 0) then mret (rc, o)
  else
    packetid ← (if 0 <? p_qos o then n ← readInt; mret (to_ushort n)
                else mret (p_packetid o));
    curdata ← tell;
    payload ← here;
    mret (1, PublishOut (p_dup o) (p_qos o) (p_retained o) packetid topic
               (Some payload) (enddata - curdata)).

Definition MQTTDeserialize_publish (o : publish_out) (buf : list Z) (buflen : Z)
  : outcome (Z * publish_out) :=
  '(r, _) ← (
    header ← readChar;
    let header := to_uchar header in
    if negb (header_type header =? PUBLISH) then mret (0, o)
    else
      let o := PublishOut (header_dup header) (header_qos header) (header_retain header)
                 (p_packetid o) (p_topicName o) (p_payload o) (p_payloadlen o) in
      '(rc, mylen) ← readRemLen;
      read_publish_body rc mylen o) (Cur buf 0);
  Ok r.

(** The return code, [*packettype], [*dup] and [*packetid]. *)
Definition MQTTDeserialize_ack (packetid : Z) (buf : list Z) (buflen : Z)
  : outcome (Z * Z * Z * Z) :=
  '(r, _) ← (
    header ← readChar;
    let header := to_uchar header in
    let dup := header_dup header in
    let packettype := header_type header in
    '(rc, mylen) ← readRemLen;
    curdata ← tell;
    let enddata := curdata + mylen in
    if enddata - curdata <? 2 then mret (rc, packettype, dup, packetid)
    else n ← readInt; mret (1, packettype, dup, to_ushort n)) (Cur buf 0);
  Ok r.

(** ** The publish packet *)

Definition publish_packet (p : publish) : list Z :=
  packet (fixed_header PUBLISH (pb_dup p) (pb_qos p) (pb_retain p)) (publish_body p).

(** The arguments of MQTTSerialize_publish that stand for [p]. *)
Record publish_args (p : publish) (topicName : MQTTString) (payload : option ptr) : Prop :=
  { pa_topic : denotes topicName (pb_topic p);
    pa_payload : mem_read payload (len (pb_payload p)) = Ok (pb_payload p) }.

Lemma publish_body_len p :
  len (publish_body p) =
    2 + len (pb_topic p) + len (pb_payload p) + if 0 <? pb_qos p then 2 else 0.
Proof. unfold publish_body. autorewrite with lens. ztests; cbn [length int16]; lia. Qed.

Lemma publishLength_denotes p topicName payload :
  publish_wf p → publish_args p topicName payload →
  MQTTSerialize_publishLength (pb_qos p) topicName (len (pb_payload p)) =
    Ok (len (publish_body p)).
Proof.
  intros Hp [Ht _]. pose proof (wf_body _ Hp) as Hl. rewrite publish_body_len in *.
  unfold MQTTSerialize_publishLength, MAX_REMAINING in *. rewrite (MQTTstrlen_denotes _ _ Ht).
  cbn [mbind outcome_bind]. revert Hl. ztest; intros Hl.
  all: repeat (rewrite iadd_Ok by (unfold INT_MIN, INT_MAX; lia); cbn [mbind outcome_bind]).
  all: f_equal; lia.
Qed.

Lemma emits_write_publish p topicName payload :
  publish_wf p → publish_args p topicName payload →
  emits (write_publish (len (publish_body p)) (pb_dup p) (pb_qos p) (pb_retain p) (pb_id p)
           topicName payload (len (pb_payload p))) tt (publish_packet p).
Proof.
  intros Hp [Ht Hm]. unfold write_publish, publish_packet. rewrite (header_full PUBLISH).
  pose proof (wf_body _ Hp). unfold MAX_REMAINING in *.
  apply emits_packet; [|apply fixed_header_byte|unfold INT_MAX; lia]. unfold publish_body.
  eapply emits_bind; [by apply emits_writeMQTTString|].
  eapply emits_bind; [|by apply emits_copy_in].
  apply emits_if; intros _; [apply emits_writeInt; apply Hp|apply emits_ret].
Qed.

(** The serializer with room for the packet. *)
Lemma serialize_publish_room p topicName payload buf buflen :
  publish_wf p → publish_args p topicName payload →
  packet_size (len (publish_body p)) ≤ buflen ≤ len buf →
  MQTTSerialize_publish buf buflen (pb_dup p) (pb_qos p) (pb_retain p) (pb_id p)
      topicName payload (len (pb_payload p)) = Ok (written buf (publish_packet p)).
Proof.
  intros Hp Ha Hb. unfold MQTTSerialize_publish. pose proof (wf_body _ Hp) as Hl.
  rewrite (bind_Ok _ _ _ (publishLength_denotes p topicName payload Hp Ha)).
  rewrite (bind_Ok _ _ _ (MQTTPacket_len_size _ (body_size _ Hl))).
  rewrite (serialize_packet buf buflen _ _ _ (emits_write_publish p topicName payload Hp Ha) Hl ltac:(lia)).
  by ztest.
Qed.

(** C1: MQTTSerialize_publish returns MQTTPACKET_BUFFER_TOO_SHORT and leaves the
    buffer alone when MQTTPacket_len of the packet exceeds buflen; otherwise it
    writes exactly the bytes of the publish packet at the front of the buffer,
    leaves the rest of the buffer alone and returns their number. *)
Theorem MQTTSerialize_publish_refines p topicName payload buf buflen :
  publish_wf p → publish_args p topicName payload → buflen ≤ len buf →
  MQTTSerialize_publish buf buflen (pb_dup p) (pb_qos p) (pb_retain p) (pb_id p)
      topicName payload (len (pb_payload p)) =
    Ok (if buflen <? packet_size (len (publish_body p))
        then (MQTTPACKET_BUFFER_TOO_SHORT, buf) else written buf (publish_packet p)).
Proof.
  intros Hp Ha Hb. unfold MQTTSerialize_publish. pose proof (wf_body _ Hp) as Hl.
  rewrite (bind_Ok _ _ _ (publishLength_denotes p topicName payload Hp Ha)).
  rewrite (bind_Ok _ _ _ (MQTTPacket_len_size _ (body_size _ Hl))).
  exact (serialize_packet buf buflen _ _ _ (emits_write_publish p topicName payload Hp Ha) Hl Hb).
Qed.

(** [publish_result o0 p o]: MQTTDeserialize_publish, starting from the objects
    [o0], has stored [p] in [o]. Without a packet identifier in the packet the
    object is left as it was. *)
Record publish_result (o0 : publish_out) (p : publish) (o : publish_out) : Prop :=
  { pr_dup : p_dup o = pb_dup p;
    pr_qos : p_qos o = pb_qos p;
    pr_retained : p_retained o = pb_retain p;
    pr_id : p_packetid o = if 0 <? pb_qos p then pb_id p else p_packetid o0;
    pr_topic : denotes (p_topicName o) (pb_topic p);
    pr_topic_view : cstring (p_topicName o) = None;
    pr_len : p_payloadlen o = len (pb_payload p);
    pr_payload : mem_read (p_payload o) (p_payloadlen o) = Ok (pb_payload p) }.

Lemma mem_read_at c bs r :
  at_ c (bs ++ r) → mem_read (Some (Ptr (c_buf c) (c_pos c))) (len bs) = Ok bs.
Proof. intros [Hp E]. by eapply mem_read_rest. Qed.

Lemma read_publish_body_at p o c r rc :
  publish_wf p → at_ c (publish_body p ++ r) →
  p_dup o = pb_dup p → p_qos o = pb_qos p → p_retained o = pb_retain p →
  ∃ o' c', read_publish_body rc (len (publish_body p)) o c = Ok ((1, o'), c') ∧
           publish_result o p o'.
Proof.
  intros [Hd Hq Hr Hi Ht Hpl _] Ha Ed Eq Er. unfold read_publish_body.
  rewrite run_bind_tell. pose proof (publish_body_len p) as Hl.
  unfold publish_body in Ha at 1. rewrite <- !app_assoc in Ha.
  assert (Hle : (if 0 <? pb_qos p then 2 else 0) + len (pb_payload p) + 2 + len (pb_topic p)
                = len (publish_body p)) by (revert Hl; ztest; intros; lia).
  assert (H2 : 0 ≤ (if 0 <? pb_qos p then 2 else 0) ≤ 2) by (ztest; lia).
  rd_str D. rewrite run_bind_tell. cbn [truth Z.eqb negb orb]. ztest; [clia|].
  cbn [p_qos]. rewrite Eq. revert Hle Ha. clear Hl H2. ztest; intros Hle Ha.
  - rewrite (run_assoc readInt). rd_int. unfold to_ushort.
    rewrite (run_bind _ _ _ (pb_id p) (adv (adv c (2 + len (pb_topic p))) 2))
      by (by rewrite run_ret, Z.mod_small by lia).
    rewrite run_bind_tell. eexists _, _. split; [reflexivity|].
    assert (Hx : c_pos c + len (publish_body p) -
      c_pos (adv (adv c (2 + len (pb_topic p))) 2) = len (pb_payload p)) by clia.
    split; cbn [p_dup p_qos p_retained p_packetid p_topicName p_payload p_payloadlen];
      try done; [by destruct (Z.ltb_spec 0 (pb_qos p)); [|lia]|].
    rewrite Hx. by eapply mem_read_at.
  - rewrite (run_bind _ _ _ (p_packetid o) (adv c (2 + len (pb_topic p)))) by done.
    rewrite run_bind_tell. eexists _, _. split; [reflexivity|].
    assert (Hx : c_pos c + len (publish_body p) -
      c_pos (adv c (2 + len (pb_topic p))) = len (pb_payload p)) by clia.
    split; cbn [p_dup p_qos p_retained p_packetid p_topicName p_payload p_payloadlen];
      try done; [by destruct (Z.ltb_spec 0 (pb_qos p)); [lia|]|].
    rewrite Hx. by eapply mem_read_at.
Qed.

Lemma read_publish p o0 junk n :
  publish_wf p →
  ∃ o, MQTTDeserialize_publish o0 (publish_packet p ++ junk) n = Ok (1, o) ∧
       publish_result o0 p o.
Proof.
  intros Hp. unfold MQTTDeserialize_publish.
  pose proof (at_start (publish_packet p ++ junk)) as Ha. unfold publish_packet in Ha at 2.
  unfold packet in Ha.   cbn [app] in Ha. rewrite <- app_assoc in Ha. pose proof Hp as [Hd Hq Hr _ _ _ Hl].
  rd_char. rewrite to_uchar_to_char, to_uchar_id by apply fixed_header_byte.
  rewrite header_type_of, header_dup_of, header_qos_of, header_retain_of.
  change (PUBLISH mod 16 =? PUBLISH) with true. cbn [negb]. rd_remlen.
  match goal with |- context [read_publish_body ?rc _ ?o] =>
    edestruct (read_publish_body_at p o _ junk rc Hp Ha) as (o' & c' & E & R) end;
    [cbn [p_dup p_qos p_retained]; unfold bit in *; lia..|].
  rewrite E. exists o'. split; [done|]. destruct R; split; done.
Qed.

(** C2: MQTTDeserialize_publish recovers every field of a publish packet from its
    bytes, whatever follows them in the buffer. *)
Theorem MQTTDeserialize_publish_roundtrip p o0 junk n :
  publish_wf p →
  ∃ o, MQTTDeserialize_publish o0 (publish_packet p ++ junk) n = Ok (1, o) ∧
       publish_result o0 p o.
Proof. apply read_publish. Qed.

(** A topic whose length runs past the end of the packet is an error, but the
    return code of MQTTDeserialize_publish is then the number of bytes of the
    remaining length: for a packet shorter than 128 bytes this is 1, the code of
    success, and the payload pointer the caller gets is the one it passed in. *)
Theorem MQTTDeserialize_publish_bad_topic d q r a b n junk o0 buflen :
  2 ≤ n ≤ MAX_REMAINING → byte a → byte b → n < 2 + (256 * a + b) →
  ∃ o, MQTTDeserialize_publish o0 (fixed_header PUBLISH d q r :: varint n ++ a :: b :: junk) buflen
         = Ok (len (varint n), o) ∧
       p_payload o = p_payload o0 ∧ p_payloadlen o = p_payloadlen o0 ∧
       (n < 128 → len (varint n) = 1).
Proof.
  intros Hn Hba Hbb Hlong. unfold MQTTDeserialize_publish.
  match goal with |- context [Cur ?buf 0] => pose proof (at_start buf) as Ha end.
  rd_char. rewrite to_uchar_to_char, to_uchar_id by apply fixed_header_byte.
  rewrite header_type_of. change (PUBLISH mod 16 =? PUBLISH) with true. cbn [negb].
  rd_remlen. unfold read_publish_body. rewrite run_bind_tell.
  match type of Ha with at_ ?c _ => set (c0 := c) in * end.
  assert (E : readMQTTLenString (p_topicName o0) (c_pos c0 + n) c0 =
    Ok ((0, {| cstring := None; lenstring := {| ls_len := 256 * a + b;
                ls_data := ls_data (lenstring (p_topicName o0)) |} |}), adv c0 2)).
  { unfold readMQTTLenString. rewrite run_bind_tell. ztest.
    rewrite (run_bind _ _ _ (256 * a + b) (adv c0 2)) by (destruct Ha; by eapply readInt_rest).
    rewrite (run_bind _ _ _ (Ptr (c_buf c0) (c_pos c0 + 2)) (adv c0 2)) by done.
    cbn [off]. ztest. done. }
  cbn [p_topicName]. rewrite (run_bind _ _ _ _ _ E). rewrite run_bind_tell.
  cbn [truth Z.eqb negb orb]. eexists. split; [reflexivity|].
  split; [done|]. split; [done|]. intros. rewrite varint_len by lia. ztests.
Qed.

(** A QoS 1 or 2 publish packet that ends after its topic, before the packet
    identifier, is accepted with a payload length of -2. *)
Theorem MQTTDeserialize_publish_no_id d q r topic a b junk o0 buflen :
  0 < q < 4 → mqtt_str topic → byte a → byte b →
  ∃ o, MQTTDeserialize_publish o0
         (packet (fixed_header PUBLISH d q r) (str topic) ++ a :: b :: junk) buflen = Ok (1, o) ∧
       p_packetid o = 256 * a + b ∧ p_payloadlen o = -2.
Proof.
  intros Hq Ht Hba Hbb. unfold MQTTDeserialize_publish. unfold byte in *.
  match goal with |- context [Cur ?buf 0] => pose proof (at_start buf) as Ha end.
  unfold packet in Ha at 2. cbn [app] in Ha. rewrite <- app_assoc in Ha.
  pose proof (proj2 Ht) as Hl. unfold MAX_REMAINING.
  rd_char. rewrite to_uchar_to_char, to_uchar_id by apply fixed_header_byte.
  rewrite header_type_of, header_qos_of. change (PUBLISH mod 16 =? PUBLISH) with true. cbn [negb].
  rd_remlen; [unfold MAX_REMAINING; rewrite str_len; lia|].
  unfold read_publish_body. rewrite run_bind_tell, str_len in *. rd_str D.
  rewrite run_bind_tell. cbn [truth Z.eqb negb orb p_qos]. ztest; [clia|].
  rewrite (Z.mod_small q 4) by lia. ztest.
  rewrite (run_assoc readInt).
  rewrite (run_bind _ _ _ (256 * a + b) (adv (adv _ (2 + len topic)) 2))
    by (destruct Ha; by eapply readInt_rest).
  rewrite run_bind_ret. eexists. split; [reflexivity|]. cbn [p_packetid p_payloadlen].
  unfold to_ushort. split; [lia|]. clia.
Qed.

(** ** Acknowledgements *)

Definition ack_packet (type dup id : Z) : list Z :=
  packet (fixed_header type dup (if type =? PUBREL then 1 else 0) 0) (int16 id).

Lemma write_ack buf buflen type dup id :
  0 ≤ id → buflen ≤ len buf →
  MQTTSerialize_ack buf buflen type dup id =
    Ok (if buflen <? 4 then (MQTTPACKET_BUFFER_TOO_SHORT, buf)
        else written buf (ack_packet type dup id)).
Proof.
  intros Hi Hb. unfold MQTTSerialize_ack. ztest; [done|]. rewrite header_no_retain.
  apply run_writer_emits; [|by change (len (ack_packet type dup id)) with 4; lia].
  apply (emits_packet _ (int16 id)); [by apply emits_writeInt|apply fixed_header_byte|done].
Qed.

Lemma read_ack type dup id junk packetid buflen :
  0 ≤ type < 16 → bit dup → 0 ≤ id < 65536 →
  MQTTDeserialize_ack packetid (ack_packet type dup id ++ junk) buflen = Ok (1, type, dup, id).
Proof.
  intros Ht Hd Hi. unfold MQTTDeserialize_ack.
  match goal with |- context [Cur ?buf 0] => pose proof (at_start buf) as Ha end.
  unfold ack_packet in Ha at 2. unfold packet in Ha. cbn [app] in Ha.
  rewrite <- app_assoc in Ha. rd_char.
  rewrite to_uchar_to_char, to_uchar_id by apply fixed_header_byte.
  rewrite header_type_of, header_dup_of. change (len (int16 id)) with 2 in *.
  rd_remlen; [done|]. rewrite run_bind_tell. ztest.
  rd_int. unfold to_ushort, bit in *. rewrite run_ret, !Z.mod_small by lia. done.
Qed.

(** What MQTTSerialize_ack writes into a buffer, MQTTDeserialize_ack reads back
    from it: packet type, DUP flag and packet identifier. *)
Theorem MQTTDeserialize_ack_roundtrip type dup id buf buflen packetid n :
  0 ≤ type < 16 → bit dup → 0 ≤ id < 65536 → 4 ≤ buflen ≤ len buf →
  ∃ buf', MQTTSerialize_ack buf buflen type dup id = Ok (4, buf') ∧
          MQTTDeserialize_ack packetid buf' n = Ok (1, type, dup, id).
Proof.
  intros Ht Hd Hi Hb. rewrite write_ack by lia. ztest.
  eexists. split; [reflexivity|]. by apply read_ack.
Qed.

(** An acknowledgement too short to hold an identifier is reported with return
    code 1, success, and *packetid is not assigned. *)
Theorem MQTTDeserialize_ack_short h n junk packetid buflen :
  byte h → 0 ≤ n < 2 →
  MQTTDeserialize_ack packetid (h :: n :: junk) buflen =
    Ok (1, header_type h, header_dup h, packetid).
Proof.
  intros Hh Hn. unfold MQTTDeserialize_ack.
  match goal with |- context [Cur ?buf 0] => pose proof (at_start buf) as Ha end.
  rd_char. rewrite to_uchar_to_char, to_uchar_id by done.
  assert (En : varint n = [n]) by (unfold varint; cbn [varint_k]; ztests; done).
  match type of Ha with at_ ?c _ => change (at_ c ([n] ++ junk)) in Ha end.
  rewrite <- En in Ha.
  rd_remlen; [unfold MAX_REMAINING; lia|]. rewrite run_bind_tell, En. ztest. done.
Qed.

End Publish.

(** ** The theorems at concrete packets *)

#[local] Existing Instance x86_64.

Definition ex_publish : publish := Publish 0 1 1 23 (bytes_of "a/b"%string) [104; 0; 255].

Lemma ex_publish_wf : publish_wf ex_publish.
Proof. split; decide_by_vm. Qed.

Lemma ex_publish_args :
  publish_args ex_publish (of_cstring (bytes_of "a/b"%string)) (Some (Ptr [104; 0; 255] 0)).
Proof. split; [apply of_cstring_denotes; decide_by_vm|done]. Qed.

Lemma MQTTSerialize_publish_refines_witness :
  publish_wf ex_publish ∧
  MQTTSerialize_publish (replicate 20 0) 20 0 1 1 23 (of_cstring (bytes_of "a/b"%string))
    (Some (Ptr [104; 0; 255] 0)) 3 =
  Ok (12, [51; 10; 0; 3; 97; 47; 98; 0; 23; 104; 0; 255] ++ replicate 8 0).
Proof.
  split; [exact ex_publish_wf|].
  by apply (MQTTSerialize_publish_refines ex_publish _ _ (replicate 20 0) 20
    ex_publish_wf ex_publish_args).
Defined.

Lemma MQTTDeserialize_publish_roundtrip_witness :
  ∃ o, MQTTDeserialize_publish (PublishOut 0 0 0 0 MQTTString_initializer None 0)
         ([51; 10; 0; 3; 97; 47; 98; 0; 23; 104; 0; 255] ++ [7; 7]) 100 = Ok (1, o) ∧
       publish_result (PublishOut 0 0 0 0 MQTTString_initializer None 0) ex_publish o.
Proof. apply (MQTTDeserialize_publish_roundtrip ex_publish), ex_publish_wf. Defined.

Lemma MQTTDeserialize_publish_bad_topic_witness :
  ∃ o, MQTTDeserialize_publish (PublishOut 0 0 0 0 MQTTString_initializer None 0)
         [48; 4; 0; 9; 97; 98] 6 = Ok (1, o) ∧ p_payload o = None.
Proof.
  destruct (MQTTDeserialize_publish_bad_topic 0 0 0 0 9 4 [97; 98]
    (PublishOut 0 0 0 0 MQTTString_initializer None 0) 6) as (o & E & P & _);
    [decide_by_vm..|]. exists o. split; [exact E|exact P].
Defined.

Lemma MQTTDeserialize_publish_no_id_witness :
  ∃ o, MQTTDeserialize_publish (PublishOut 0 0 0 0 MQTTString_initializer None 0)
         [50; 3; 0; 1; 97; 1; 2; 0] 8 = Ok (1, o) ∧ p_packetid o = 258 ∧ p_payloadlen o = -2.
Proof. apply (MQTTDeserialize_publish_no_id 0 1 0 [97] 1 2 [0]); decide_by_vm. Defined.

Lemma MQTTDeserialize_ack_roundtrip_witness :
  ∃ buf', MQTTSerialize_ack [0; 0; 0; 0; 9] 5 PUBREL 0 258 = Ok (4, buf') ∧
          MQTTDeserialize_ack 0 buf' 5 = Ok (1, PUBREL, 0, 258).
Proof. apply MQTTDeserialize_ack_roundtrip; decide_by_vm. Defined.

Lemma MQTTDeserialize_ack_short_witness :
  MQTTDeserialize_ack 77 [64; 0] 2 = Ok (1, PUBACK, 0, 77).
Proof. apply (MQTTDeserialize_ack_short 64 0 []); decide_by_vm. Defined.
