(* ===== verification/Subscribe.v ===== *)
(** * MQTTSubscribeClient.c, MQTTSubscribeServer.c, MQTTUnsubscribeClient.c and
      MQTTUnsubscribeServer.c *)

From S2P Require Import Prelude CSem Wire Packet Publish.

Section Subscribe.
Context `{CImpl}.

(** ** MQTTSubscribeClient.c *)

(** [for (i = 0; i < count; ++i) len += 2 + MQTTstrlen(topicFilters[i]) + extra] *)
Fixpoint filters_length (n : nat) (i extra len : Z) (topicFilters : list MQTTString)
  : outcome Z :=
  match n with
  | O => Ok len
  | S n =>
      s ← arr_get topicFilters i;
      l ← MQTTstrlen s;
      l ← (2 +i l)%c;
      l ← (l +i extra)%c;
      len ← (len +i l)%c;
      filters_length n (i + 1) extra len topicFilters
  end.

Definition MQTTSerialize_subscribeLength (count : Z) (topicFilters : list MQTTString)
  : outcome Z :=
  filters_length (Z.to_nat count) 0 1 2 topicFilters.

Definition write_subscribe (rem_len dup packetid count : Z) (topicFilters : list MQTTString)
    (requestedQoSs : list Z) : M cursor unit :=
  let header := set_header_qos 1 (set_header_dup dup (set_header_type SUBSCRIBE 0)) in
  writeChar header ;;
  writeRemLen rem_len ;;
  writeInt packetid ;;
  for_loop (Z.to_nat count) 0 (λ i,
    s ← lift (arr_get topicFilters i);
    writeMQTTString s ;;
    q ← lift (arr_get requestedQoSs i);
    writeChar q).

Definition MQTTSerialize_subscribe (buf : list Z) (buflen : Z) (dup packetid count : Z)
    (topicFilters : list MQTTString) (requestedQoSs : list Z) : outcome (Z * list Z) :=
  rem_len ← MQTTSerialize_subscribeLength count topicFilters;
  total ← MQTTPacket_len rem_len;
  if buflen <? total then Ok (MQTTPACKET_BUFFER_TOO_SHORT, buf)
  else run_writer buf (write_subscribe rem_len dup packetid count topicFilters requestedQoSs).

(** The loop of MQTTDeserialize_suback: the return code, [*count] and the
    array. Each iteration moves the cursor, so a fuel of one more than the
    bytes left is enough. *)
Fixpoint suback_loop (fuel : nat) (enddata maxcount count : Z) (grantedQoSs : list Z)
  : M cursor (Z * Z * list Z) :=
  match fuel with
  | O => no_fuel
  | S fuel =>
      curdata ← tell;
      if curdata <? enddata then
        if maxcount <? count then mret (-1, count, grantedQoSs)
        else
          q ← readChar;
          grantedQoSs ← lift (arr_set grantedQoSs count q);
          suback_loop fuel enddata maxcount (count + 1) grantedQoSs
      else mret (1, count, grantedQoSs)
  end.

(** The return code, [*packetid], [*count] and the array. *)
Definition MQTTDeserialize_suback (packetid maxcount count : Z) (grantedQoSs : list Z)
    (buf : list Z) (buflen : Z) : outcome (Z * Z * Z * list Z) :=
  '(r, _) ← (
    header ← readChar;
    if negb (header_type (to_uchar header) =? SUBACK)
    then mret (0, packetid, count, grantedQoSs)
    else
      '(rc, mylen) ← readRemLen;
      curdata ← tell;
      let enddata := curdata + mylen in
      if enddata - curdata <? 2 then mret (rc, packetid, count, grantedQoSs)
      else
        n ← readInt;
        '(rc, count, grantedQoSs) ←
          suback_loop (Datatypes.S (Z.to_nat mylen)) enddata maxcount 0 grantedQoSs;
        mret (rc, to_ushort n, count, grantedQoSs)) (Cur buf 0);
  Ok r.

(** ** MQTTSubscribeServer.c *)

(** The loop of MQTTDeserialize_subscribe; [rc] is what an early exit returns. *)
Fixpoint subscribe_loop (fuel : nat) (enddata rc count : Z)
    (topicFilters : list MQTTString) (requestedQoSs : list Z)
  : M cursor (Z * Z * list MQTTString * list Z) :=
  match fuel with
  | O => no_fuel
  | S fuel =>
      curdata ← tell;
      if curdata <? enddata then
        old ← lift (arr_get topicFilters count);
        '(ok, s) ← readMQTTLenString old enddata;
        topicFilters ← lift (arr_set topicFilters count s);
        if negb (truth ok) then mret (rc, count, topicFilters, requestedQoSs)
        else
          curdata ← tell;
          if enddata <=? curdata then mret (rc, count, topicFilters, requestedQoSs)
          else
            q ← readChar;
            requestedQoSs ← lift (arr_set requestedQoSs count q);
            subscribe_loop fuel enddata rc (count + 1) topicFilters requestedQoSs
      else mret (1, count, topicFilters, requestedQoSs)
  end.

(** The return code, [*dup], [*packetid], [*count] and the two arrays. *)
Definition MQTTDeserialize_subscribe (dup packetid maxcount count : Z)
    (topicFilters : list MQTTString) (requestedQoSs : list Z) (buf : list Z) (buflen : Z)
  : outcome (Z * Z * Z * Z * list MQTTString * list Z) :=
  '(r, _) ← (
    header ← readChar;
    let header := to_uchar header in
    if negb (header_type header =? SUBSCRIBE)
    then mret (-1, dup, packetid, count, topicFilters, requestedQoSs)
    else
      let dup := header_dup header in
      '(rc, mylen) ← readRemLen;
      curdata ← tell;
      let enddata := curdata + mylen in
      n ← readInt;
      '(rc, count, topicFilters, requestedQoSs) ←
        subscribe_loop (Datatypes.S (Z.to_nat mylen)) enddata rc 0 topicFilters requestedQoSs;
      mret (rc, dup, to_ushort n, count, topicFilters, requestedQoSs)) (Cur buf 0);
  Ok r.

Definition MQTTSerialize_suback (buf : list Z) (buflen : Z) (packetid count : Z)
    (grantedQoSs : list Z) : outcome (Z * list Z) :=
  need ← (2 +i count)%c;
  if buflen <? need then Ok (MQTTPACKET_BUFFER_TOO_SHORT, buf)
  else run_writer buf (
    writeChar (set_header_type SUBACK 0) ;;
    writeRemLen need ;;
    writeInt packetid ;;
    for_loop (Z.to_nat count) 0 (λ i, q ← lift (arr_get grantedQoSs i); writeChar q)).

(** ** MQTTUnsubscribeClient.c *)

Definition MQTTSerialize_unsubscribeLength (count : Z) (topicFilters : list MQTTString)
  : outcome Z :=
  filters_length (Z.to_nat count) 0 0 2 topicFilters.

Definition write_unsubscribe (rem_len dup packetid count : Z) (topicFilters : list MQTTString)
  : M cursor unit :=
  let header := set_header_qos 1 (set_header_dup dup (set_header_type UNSUBSCRIBE 0)) in
  writeChar header ;;
  writeRemLen rem_len ;;
  writeInt packetid ;;
  for_loop (Z.to_nat count) 0 (λ i, s ← lift (arr_get topicFilters i); writeMQTTString s).

Definition MQTTSerialize_unsubscribe (buf : list Z) (buflen : Z) (dup packetid count : Z)
    (topicFilters : list MQTTString) : outcome (Z * list Z) :=
  rem_len ← MQTTSerialize_unsubscribeLength count topicFilters;
  total ← MQTTPacket_len rem_len;
  if buflen <? total then Ok (MQTTPACKET_BUFFER_TOO_SHORT, buf)
  else run_writer buf (write_unsubscribe rem_len dup packetid count topicFilters).

(** The return code and [*packetid]. *)
Definition MQTTDeserialize_unsuback (packetid : Z) (buf : list Z) (buflen : Z)
  : outcome (Z * Z) :=
  '(rc, type, _, packetid) ← MQTTDeserialize_ack packetid buf buflen;
  Ok (if type =? UNSUBACK then 1 else rc, packetid).

(** ** MQTTUnsubscribeServer.c *)

Fixpoint unsubscribe_loop (fuel : nat) (enddata rc count : Z) (topicFilters : list MQTTString)
  : M cursor (Z * Z * list MQTTString) :=
  match fuel with
  | O => no_fuel
  | S fuel =>
      curdata ← tell;
      if curdata <? enddata then
        old ← lift (arr_get topicFilters count);
        '(ok, s) ← readMQTTLenString old enddata;
        topicFilters ← lift (arr_set topicFilters count s);
        if negb (truth ok) then mret (rc, count, topicFilters)
        else unsubscribe_loop fuel enddata rc (count + 1) topicFilters
      else mret (1, count, topicFilters)
  end.

(** The return code, [*dup], [*packetid], [*count] and the array. *)
Definition MQTTDeserialize_unsubscribe (dup packetid maxcount count : Z)
    (topicFilters : list MQTTString) (buf : list Z) (len : Z)
  : outcome (Z * Z * Z * Z * list MQTTString) :=
  '(r, _) ← (
    header ← readChar;
    let header := to_uchar header in
    if negb (header_type header =? UNSUBSCRIBE) then mret (0, dup, packetid, count, topicFilters)
    else
      let dup := header_dup header in
      '(rc, mylen) ← readRemLen;
      curdata ← tell;
      let enddata := curdata + mylen in
      n ← readInt;
      '(rc, count, topicFilters) ←
        unsubscribe_loop (Datatypes.S (Z.to_nat mylen)) enddata rc 0 topicFilters;
      mret (rc, dup, to_ushort n, count, topicFilters)) (Cur buf 0);
  Ok r.

Definition MQTTSerialize_unsuback (buf : list Z) (buflen packetid : Z)
  : outcome (Z * list Z) :=
  if buflen <? 2 then Ok (MQTTPACKET_BUFFER_TOO_SHORT, buf)
  else run_writer buf (
    writeChar (set_header_type UNSUBACK 0) ;; writeRemLen 2 ;; writeInt packetid).

(** ** Sizes *)

Lemma filters_length_denotes extra pre fs strs l :
  Forall2 denotes fs strs → 0 ≤ extra → 0 ≤ l →
  l + len (concat (map str strs)) + extra * len strs ≤ INT_MAX →
  filters_length (length fs) (len pre) extra l (pre ++ fs) =
    Ok (l + len (concat (map str strs)) + extra * len strs).
Proof.
  intros F. revert pre l. induction F as [|f s fs strs D F IH]; intros pre l He Hl Hb.
  - cbn. f_equal. lia.
  - cbn [length map concat filters_length] in *. rewrite len_app, str_len in *.
    rewrite (bind_Ok _ _ _ (arr_get_app pre f fs (len pre) eq_refl)).
    rewrite (bind_Ok _ _ _ (MQTTstrlen_denotes _ _ D)).
    assert (0 ≤ len (concat (map str strs))) by lia.
    assert (0 ≤ extra * len strs) by nia. unfold INT_MAX in *.
    rewrite (bind_Ok _ _ (2 + len s)) by (apply iadd_Ok; unfold INT_MIN, INT_MAX; lia).
    rewrite (bind_Ok _ _ (2 + len s + extra)) by (apply iadd_Ok; unfold INT_MIN, INT_MAX; lia).
    rewrite (bind_Ok _ _ (l + (2 + len s + extra))) by (apply iadd_Ok; unfold INT_MIN, INT_MAX; lia).
    specialize (IH (pre ++ [f]) (l + (2 + len s + extra))).
    rewrite <- app_assoc in IH. cbn [app] in IH.
    replace (len (pre ++ [f])) with (len pre + 1) in IH by (autorewrite with lens; cbn; lia).
    rewrite IH by lia. f_equal. lia.
Qed.

Lemma subscriptions_len (subs : list (list Z * Z)) :
  len (concat (map (λ s, str s.1 ++ [s.2]) subs)) =
    len (concat (map str (map fst subs))) + len subs.
Proof.
  induction subs as [|s subs IH]; [done|]. cbn [map concat]. autorewrite with lens in *.
  cbn [length] in *. lia.
Qed.

(** ** The subscribe and unsubscribe packets *)

Definition subscribe_packet (dup id : Z) (subs : list (list Z * Z)) : list Z :=
  packet (fixed_header SUBSCRIBE dup 1 0) (subscribe_body id subs).

Definition unsubscribe_packet (dup id : Z) (filters : list (list Z)) : list Z :=
  packet (fixed_header UNSUBSCRIBE dup 1 0) (unsubscribe_body id filters).

(** What MQTT can carry. *)
Record subscribe_wf (dup id : Z) (subs : list (list Z * Z)) : Prop :=
  { sw_dup : bit dup; sw_id : 0 ≤ id < 65536;
    sw_subs : Forall (λ s, mqtt_str s.1 ∧ 0 ≤ s.2 < 128) subs;
    sw_len : len (subscribe_body id subs) ≤ MAX_REMAINING }.

Record unsubscribe_wf (dup id : Z) (filters : list (list Z)) : Prop :=
  { uw_dup : bit dup; uw_id : 0 ≤ id < 65536;
    uw_filters : Forall mqtt_str filters;
    uw_len : len (unsubscribe_body id filters) ≤ MAX_REMAINING }.

Lemma emits_write_subscribe dup id subs topicFilters :
  subscribe_wf dup id subs → Forall2 denotes topicFilters (map fst subs) →
  emits (write_subscribe (len (subscribe_body id subs)) dup id (len subs) topicFilters
           (map snd subs)) tt (subscribe_packet dup id subs).
Proof.
  intros [_ Hi Hs Hl] F. unfold write_subscribe, subscribe_packet.
  rewrite (header_no_retain SUBSCRIBE). unfold MAX_REMAINING in Hl.
  apply emits_packet; [|apply fixed_header_byte|unfold INT_MAX; lia].
  eapply emits_bind; [apply emits_writeInt; lia|]. rewrite Nat2Z.id.
  apply emits_for_list. intros k [s q] E. rewrite Z.add_0_l.
  assert (Es : map fst subs !! k = Some s) by (by rewrite list_lookup_fmap, E).
  assert (Eq : map snd subs !! k = Some q) by (by rewrite list_lookup_fmap, E).
  destruct (Forall2_lookup_r _ _ _ _ _ F Es) as (f & Ef & D).
  pose proof (Forall_lookup_1 _ _ _ _ Hs E) as [_ Hq]. cbn in Hq.
  apply (emits_eq _ _ ([] ++ str s ++ [] ++ [q])); [|done].
  eapply emits_bind; [by apply emits_lift, arr_get_lookup|].
  eapply emits_bind; [by apply emits_writeMQTTString|].
  eapply emits_bind; [by apply emits_lift, arr_get_lookup|].
  apply emits_writeByte. unfold byte. lia.
Qed.

Lemma emits_write_unsubscribe dup id filters topicFilters :
  unsubscribe_wf dup id filters → Forall2 denotes topicFilters filters →
  emits (write_unsubscribe (len (unsubscribe_body id filters)) dup id (len filters) topicFilters)
    tt (unsubscribe_packet dup id filters).
Proof.
  intros [_ Hi Hs Hl] F. unfold write_unsubscribe, unsubscribe_packet.
  rewrite (header_no_retain UNSUBSCRIBE). unfold MAX_REMAINING in Hl.
  apply emits_packet; [|apply fixed_header_byte|unfold INT_MAX; lia].
  eapply emits_bind; [apply emits_writeInt; lia|]. rewrite Nat2Z.id.
  apply emits_for_list. intros k s E. rewrite Z.add_0_l.
  destruct (Forall2_lookup_r _ _ _ _ _ F E) as (f & Ef & D).
  apply (emits_eq _ _ ([] ++ str s)); [|done].
  eapply emits_bind; [by apply emits_lift, arr_get_lookup|]. by apply emits_writeMQTTString.
Qed.

(** MQTTSerialize_subscribe writes exactly the subscribe packet of the wire format
    for its filters and requested QoS values, or refuses a buffer shorter than
    MQTTPacket_len of the packet. *)
Theorem MQTTSerialize_subscribe_refines dup id subs topicFilters buf buflen :
  subscribe_wf dup id subs → Forall2 denotes topicFilters (map fst subs) → buflen ≤ len buf →
  MQTTSerialize_subscribe buf buflen dup id (len subs) topicFilters (map snd subs) =
    Ok (if buflen <? packet_size (len (subscribe_body id subs))
        then (MQTTPACKET_BUFFER_TOO_SHORT, buf) else written buf (subscribe_packet dup id subs)).
Proof.
  intros Hw F Hb. unfold MQTTSerialize_subscribe. pose proof (sw_len _ _ _ Hw) as Hl.
  assert (E : MQTTSerialize_subscribeLength (len subs) topicFilters =
              Ok (len (subscribe_body id subs))).
  { unfold MQTTSerialize_subscribeLength, subscribe_body in *. rewrite len_app in *.
    rewrite subscriptions_len, int16_len in *. unfold MAX_REMAINING in Hl.
    pose proof (Forall2_length F) as L. rewrite length_map in L. rewrite Nat2Z.id, <- L.
    pose proof (filters_length_denotes 1 [] topicFilters (map fst subs) 2 F) as E.
    rewrite length_map in E. change (len (@nil MQTTString)) with 0 in E. cbn [app] in E. rewrite E by (unfold INT_MAX; lia).
    f_equal. lia. }
  rewrite (bind_Ok _ _ _ E), (bind_Ok _ _ _ (MQTTPacket_len_size _ (body_size _ Hl))).
  exact (serialize_packet buf buflen _ _ _ (emits_write_subscribe _ _ _ _ Hw F) Hl Hb).
Qed.

(** MQTTSerialize_unsubscribe writes exactly the unsubscribe packet of the wire
    format, or refuses a buffer shorter than MQTTPacket_len of the packet. *)
Theorem MQTTSerialize_unsubscribe_refines dup id filters topicFilters buf buflen :
  unsubscribe_wf dup id filters → Forall2 denotes topicFilters filters → buflen ≤ len buf →
  MQTTSerialize_unsubscribe buf buflen dup id (len filters) topicFilters =
    Ok (if buflen <? packet_size (len (unsubscribe_body id filters))
        then (MQTTPACKET_BUFFER_TOO_SHORT, buf)
        else written buf (unsubscribe_packet dup id filters)).
Proof.
  intros Hw F Hb. unfold MQTTSerialize_unsubscribe. pose proof (uw_len _ _ _ Hw) as Hl.
  assert (E : MQTTSerialize_unsubscribeLength (len filters) topicFilters =
              Ok (len (unsubscribe_body id filters))).
  { unfold MQTTSerialize_unsubscribeLength, unsubscribe_body in *. rewrite len_app in *.
    rewrite int16_len in *. unfold MAX_REMAINING in Hl.
    pose proof (Forall2_length F) as L. rewrite Nat2Z.id, <- L.
    pose proof (filters_length_denotes 0 [] topicFilters filters 2 F) as E.
    change (len (@nil MQTTString)) with 0 in E. cbn [app] in E. rewrite E by (unfold INT_MAX; lia). f_equal. lia. }
  rewrite (bind_Ok _ _ _ E), (bind_Ok _ _ _ (MQTTPacket_len_size _ (body_size _ Hl))).
  exact (serialize_packet buf buflen _ _ _ (emits_write_unsubscribe _ _ _ _ Hw F) Hl Hb).
Qed.

(** ** Reading SUBACK *)

Definition suback_packet (id : Z) (codes : list Z) : list Z :=
  packet (fixed_header SUBACK 0 0 0) (int16 id ++ codes).

Lemma suback_loop_codes codes fuel c junk enddata maxcount done arr :
  at_ c (codes ++ junk) → c_pos c + len codes = enddata →
  len done + len codes ≤ maxcount + 1 → (length codes ≤ length arr)%nat →
  (length codes < fuel)%nat →
  ∃ c', suback_loop fuel enddata maxcount (len done) (done ++ arr) c =
    Ok ((1, len done + len codes, done ++ map to_char codes ++ drop (length codes) arr), c').
Proof.
  revert fuel c done arr. induction codes as [|x codes IH];
    intros fuel c done arr Ha He Hm Hl Hf; (destruct fuel as [|fuel]; [lia|]);
    cbn [suback_loop length map app] in *; rewrite run_bind_tell; ztest; [|].
  - exists c. rewrite run_ret, Z.add_0_r. done.
  - ztest. destruct arr as [|y arr]; [cbn in Hl; lia|]. rd_char.
    rewrite (run_bind _ _ _ ((done ++ [to_char x]) ++ arr) (adv c 1))
      by (by apply run_lift, arr_set_app).
    destruct (IH fuel (adv c 1) (done ++ [to_char x]) arr) as (c' & E);
      [done|clia|autorewrite with lens; cbn [length] in *; lia|cbn in Hl; lia|lia|].
    exists c'. replace (len done + 1) with (len (done ++ [to_char x]))
      by (autorewrite with lens; cbn; lia).
    rewrite E. cbn [drop]. do 3 f_equal; [f_equal|by rewrite <- app_assoc].
    autorewrite with lens. cbn [length]. lia.
Qed.

Lemma suback_loop_overflow codes fuel c junk enddata maxcount done arr :
  at_ c (codes ++ junk) → c_pos c + len codes ≤ enddata →
  len done + len arr = maxcount → (length arr < length codes)%nat → (length codes < fuel)%nat →
  suback_loop fuel enddata maxcount (len done) (done ++ arr) c = UB OutOfBounds.
Proof.
  revert fuel c done arr. induction codes as [|x codes IH];
    intros fuel c done arr Ha He Hm Hl Hf; (destruct fuel as [|fuel]; [cbn in *; lia|]);
    cbn [suback_loop length app] in *; [lia|].
  rewrite run_bind_tell. ztest. ztest. rd_char. destruct arr as [|y arr].
  - apply run_bind_UB. unfold lift. rewrite arr_set_oob; [done|].
    autorewrite with lens. cbn. lia.
  - rewrite (run_bind _ _ _ ((done ++ [to_char x]) ++ arr) (adv c 1))
      by (by apply run_lift, arr_set_app).
    replace (len done + 1) with (len (done ++ [to_char x]))
      by (autorewrite with lens; cbn; lia).
    apply (IH fuel (adv c 1)); [done|clia|autorewrite with lens; cbn [length] in *; lia|cbn in *; lia|lia].
Qed.

Lemma suback_packet_split id codes junk :
  suback_packet id codes ++ junk =
    fixed_header SUBACK 0 0 0 :: varint (2 + len codes) ++ int16 id ++ codes ++ junk.
Proof.
  unfold suback_packet, packet. rewrite len_app. change (len (int16 id)) with 2.
  cbn [app]. by rewrite <- !app_assoc.
Qed.

(** Up to the loop, MQTTDeserialize_suback on a suback packet. *)
Lemma suback_start packetid maxcount count arr id codes junk buflen :
  0 ≤ id < 65536 → 2 + len codes ≤ MAX_REMAINING →
  ∃ c, at_ c (codes ++ junk) ∧
    MQTTDeserialize_suback packetid maxcount count arr (suback_packet id codes ++ junk) buflen =
    '(r, _) ← ('(rc, count, arr) ← suback_loop (S (Z.to_nat (2 + len codes)))
                 (c_pos c + len codes) maxcount 0 arr;
               mret (rc, id, count, arr)) c; Ok r.
Proof.
  intros Hi Hl. unfold MQTTDeserialize_suback.
  match goal with |- context [Cur ?buf 0] => pose proof (at_start buf) as Ha end.
  rewrite (suback_packet_split id codes junk) in Ha at 2.
  rd_char. rewrite to_uchar_to_char, to_uchar_id by apply fixed_header_byte.
  rewrite header_type_of. change (SUBACK mod 16 =? SUBACK) with true. cbn [negb].
  rd_remlen. rewrite run_bind_tell. ztest. rd_int.
  unfold to_ushort. rewrite (Z.mod_small id) by lia.
  eexists. split; [exact Ha|].
  match goal with |- context [suback_loop _ (c_pos ?c + (2 + len codes))] =>
    replace (c_pos c + (2 + len codes)) with (c_pos (adv c 2) + len codes) by clia end.
  reflexivity.
Qed.

(** MQTTDeserialize_suback recovers the packet identifier and the return codes of a
    suback packet (as the char values the array gets), when the array is large enough. *)
Theorem MQTTDeserialize_suback_roundtrip packetid maxcount count arr id codes junk buflen :
  0 ≤ id < 65536 → 2 + len codes ≤ MAX_REMAINING → len codes ≤ maxcount → maxcount ≤ len arr →
  MQTTDeserialize_suback packetid maxcount count arr (suback_packet id codes ++ junk) buflen =
    Ok (1, id, len codes, map to_char codes ++ drop (length codes) arr).
Proof.
  intros Hi Hl Hm Ha.
  destruct (suback_start packetid maxcount count arr id codes junk buflen Hi Hl) as (c & Hat & ->).
  destruct (suback_loop_codes codes (S (Z.to_nat (2 + len codes))) c junk (c_pos c + len codes)
    maxcount [] arr) as (c' & E); [done|done|cbn; lia|lia|lia|].
  change (len (@nil Z)) with 0 in E. cbn [app] in E.
  rewrite (bind_Ok _ _ _ (run_bind _ _ _ _ _ E)). done.
Qed.

(** MQTTDeserialize_suback compares count with maxcount only after the array is full:
    a suback packet with more codes than the array has entries is stored past its end. *)
Theorem MQTTDeserialize_suback_overflow packetid maxcount count arr id codes junk buflen :
  0 ≤ id < 65536 → 2 + len codes ≤ MAX_REMAINING → maxcount = len arr → len arr < len codes →
  MQTTDeserialize_suback packetid maxcount count arr (suback_packet id codes ++ junk) buflen =
    UB OutOfBounds.
Proof.
  intros Hi Hl -> Ha.
  destruct (suback_start packetid (len arr) count arr id codes junk buflen Hi Hl) as (c & Hat & ->).
  pose proof (suback_loop_overflow codes (S (Z.to_nat (2 + len codes))) c junk
    (c_pos c + len codes) (len arr) [] arr Hat) as E.
  change (len (@nil Z)) with 0 in E. cbn [app] in E.
  apply bind_UB, run_bind_UB, E; lia.
Qed.

(** ** Reading SUBSCRIBE and UNSUBSCRIBE *)

Lemma subscribe_loop_at subs fuel c junk enddata rc fdone fs qdone qs :
  at_ c (concat (map (λ s, str s.1 ++ [s.2]) subs) ++ junk) →
  c_pos c + len (concat (map (λ s, str s.1 ++ [s.2]) subs)) = enddata →
  Forall (λ s, mqtt_str s.1 ∧ 0 ≤ s.2 < 128) subs →
  length fdone = length qdone → (length subs ≤ length fs)%nat → (length subs ≤ length qs)%nat →
  (length subs < fuel)%nat →
  ∃ new c', subscribe_loop fuel enddata rc (len fdone) (fdone ++ fs) (qdone ++ qs) c =
    Ok ((1, len fdone + len subs, fdone ++ new ++ drop (length subs) fs,
         qdone ++ map snd subs ++ drop (length subs) qs), c') ∧
    Forall2 denotes new (map fst subs).
Proof.
  revert fuel c fdone fs qdone qs. induction subs as [|[s q] subs IH];
    intros fuel c fdone fs qdone qs Ha He Hs Ld Lf Lq Hf; (destruct fuel as [|fuel]; [lia|]);
    cbn [subscribe_loop length map concat fst snd] in *; rewrite run_bind_tell.
  - ztest. exists [], c. rewrite run_ret, Z.add_0_r. done.
  - rewrite <- !app_assoc in Ha. autorewrite with lens in He. cbn [length] in He.
    ztest. destruct fs as [|f fs]; [cbn in Lf; lia|]. destruct qs as [|q0 qs]; [cbn in Lq; lia|].
    apply Forall_cons_1 in Hs as [[Hstr Hq] Hs'].
    rewrite (run_bind _ _ _ f c) by (by apply run_lift, arr_get_app). rd_str D.
    rewrite (run_bind _ _ _ ((fdone ++ [view (adv c 2) (len s)]) ++ fs) (adv c (2 + len s)))
      by (by apply run_lift, arr_set_app).
    cbn [truth Z.eqb negb]. rewrite run_bind_tell. ztest; [clia|].
    cbn [app] in Ha. rd_char. cbn in Hq. rewrite to_char_small by lia.
    rewrite (run_bind _ _ _ ((qdone ++ [q]) ++ qs) (adv (adv c (2 + len s)) 1))
      by (apply run_lift, arr_set_app; lia).
    edestruct (IH fuel (adv (adv c (2 + len s)) 1) (fdone ++ [view (adv c 2) (len s)]) fs
      (qdone ++ [q]) qs) as (new & c' & E & F);
      [exact Ha|clia|done|rewrite !length_app; cbn; lia|cbn in Lf; lia|cbn in Lq; lia|lia|].
    exists (view (adv c 2) (len s) :: new), c'. split; [|by constructor].
    replace (len fdone + 1) with (len (fdone ++ [view (adv c 2) (len s)]))
      by (autorewrite with lens; cbn; lia).
    rewrite E. cbn [drop]. rewrite <- !app_assoc. do 5 f_equal.
    autorewrite with lens. cbn [length]. lia.
Qed.

Lemma unsubscribe_loop_at filters fuel c junk enddata rc fdone fs :
  at_ c (concat (map str filters) ++ junk) →
  c_pos c + len (concat (map str filters)) = enddata →
  Forall mqtt_str filters → (length filters ≤ length fs)%nat → (length filters < fuel)%nat →
  ∃ new c', unsubscribe_loop fuel enddata rc (len fdone) (fdone ++ fs) c =
    Ok ((1, len fdone + len filters, fdone ++ new ++ drop (length filters) fs), c') ∧
    Forall2 denotes new filters.
Proof.
  revert fuel c fdone fs. induction filters as [|s filters IH];
    intros fuel c fdone fs Ha He Hs Lf Hf; (destruct fuel as [|fuel]; [lia|]);
    cbn [unsubscribe_loop length map concat] in *; rewrite run_bind_tell.
  - ztest. exists [], c. rewrite run_ret, Z.add_0_r. done.
  - rewrite <- !app_assoc in Ha. autorewrite with lens in He.
    ztest. destruct fs as [|f fs]; [cbn in Lf; lia|].
    apply Forall_cons_1 in Hs as [Hstr Hs'].
    rewrite (run_bind _ _ _ f c) by (by apply run_lift, arr_get_app). rd_str D.
    rewrite (run_bind _ _ _ ((fdone ++ [view (adv c 2) (len s)]) ++ fs) (adv c (2 + len s)))
      by (by apply run_lift, arr_set_app).
    cbn [truth Z.eqb negb].
    edestruct (IH fuel (adv c (2 + len s)) (fdone ++ [view (adv c 2) (len s)]) fs)
      as (new & c' & E & F); [exact Ha|clia|done|cbn in Lf; lia|lia|].
    exists (view (adv c 2) (len s) :: new), c'. split; [|by constructor].
    replace (len fdone + 1) with (len (fdone ++ [view (adv c 2) (len s)]))
      by (autorewrite with lens; cbn; lia).
    rewrite E. cbn [drop]. rewrite <- !app_assoc. do 4 f_equal.
    autorewrite with lens. cbn [length]. lia.
Qed.

Lemma subscribe_packet_split dup id subs junk :
  subscribe_packet dup id subs ++ junk =
    fixed_header SUBSCRIBE dup 1 0 :: varint (len (subscribe_body id subs)) ++
    int16 id ++ concat (map (λ s, str s.1 ++ [s.2]) subs) ++ junk.
Proof.
  unfold subscribe_packet, packet, subscribe_body. cbn [app]. by rewrite <- !app_assoc.
Qed.

Lemma unsubscribe_packet_split dup id filters junk :
  unsubscribe_packet dup id filters ++ junk =
    fixed_header UNSUBSCRIBE dup 1 0 :: varint (len (unsubscribe_body id filters)) ++
    int16 id ++ concat (map str filters) ++ junk.
Proof.
  unfold unsubscribe_packet, packet, unsubscribe_body. cbn [app]. by rewrite <- !app_assoc.
Qed.

Lemma concat_length_ge {A B} (f : A → list B) l :
  (∀ x, 1 ≤ len (f x)) → (length l ≤ length (concat (map f l)))%nat.
Proof.
  intros Hf. induction l as [|x l IH]; [done|]. cbn [map concat length].
  rewrite length_app. specialize (Hf x). lia.
Qed.

(** MQTTDeserialize_subscribe recovers the DUP flag, the packet identifier, the topic
    filters and the requested QoS values of a subscribe packet, when the arrays have
    room for them. *)
Theorem MQTTDeserialize_subscribe_roundtrip dup id subs junk dup0 id0 maxcount count0 fs qs n :
  subscribe_wf dup id subs → (length subs ≤ length fs)%nat → (length subs ≤ length qs)%nat →
  ∃ new, MQTTDeserialize_subscribe dup0 id0 maxcount count0 fs qs
           (subscribe_packet dup id subs ++ junk) n =
    Ok (1, dup, id, len subs, new ++ drop (length subs) fs, map snd subs ++ drop (length subs) qs) ∧
    Forall2 denotes new (map fst subs).
Proof.
  intros [Hd Hi Hs Hl] Lf Lq. unfold MQTTDeserialize_subscribe.
  match goal with |- context [Cur ?buf 0] => pose proof (at_start buf) as Ha end.
  rewrite subscribe_packet_split in Ha at 2.
  rd_char. rewrite to_uchar_to_char, to_uchar_id by apply fixed_header_byte.
  rewrite header_type_of, header_dup_of. change (SUBSCRIBE mod 16 =? SUBSCRIBE) with true.
  cbn [negb]. rd_remlen. rewrite run_bind_tell. rd_int.
  unfold to_ushort, bit in *. rewrite (Z.mod_small id), (Z.mod_small dup) by lia.
  assert (Hb : len (subscribe_body id subs) = 2 + len (concat (map (λ s, str s.1 ++ [s.2]) subs)))
    by (unfold subscribe_body; by rewrite len_app).
  pose proof (concat_length_ge (λ s : list Z * Z, str s.1 ++ [s.2]) subs
    ltac:(intros; autorewrite with lens; cbn; lia)) as Hc.
  match goal with |- context [subscribe_loop ?fuel ?e ?rc 0 fs qs] =>
    destruct (subscribe_loop_at subs fuel _ junk e rc [] fs [] qs Ha) as (new & c' & E & F);
      [clia|done|done|done|done|lia|]
  end.
  change (len (@nil MQTTString)) with 0 in E. cbn [app] in E. rewrite Z.add_0_l in E.
  exists new. split; [|done]. by rewrite (bind_Ok _ _ _ (run_bind _ _ _ _ _ E)).
Qed.

(** MQTTDeserialize_unsubscribe recovers the DUP flag, the packet identifier and the
    topic filters of an unsubscribe packet, when the array has room for them. *)
Theorem MQTTDeserialize_unsubscribe_roundtrip dup id filters junk dup0 id0 maxcount count0 fs n :
  unsubscribe_wf dup id filters → (length filters ≤ length fs)%nat →
  ∃ new, MQTTDeserialize_unsubscribe dup0 id0 maxcount count0 fs
           (unsubscribe_packet dup id filters ++ junk) n =
    Ok (1, dup, id, len filters, new ++ drop (length filters) fs) ∧ Forall2 denotes new filters.
Proof.
  intros [Hd Hi Hs Hl] Lf. unfold MQTTDeserialize_unsubscribe.
  match goal with |- context [Cur ?buf 0] => pose proof (at_start buf) as Ha end.
  rewrite unsubscribe_packet_split in Ha at 2.
  rd_char. rewrite to_uchar_to_char, to_uchar_id by apply fixed_header_byte.
  rewrite header_type_of, header_dup_of. change (UNSUBSCRIBE mod 16 =? UNSUBSCRIBE) with true.
  cbn [negb]. rd_remlen. rewrite run_bind_tell. rd_int.
  unfold to_ushort, bit in *. rewrite (Z.mod_small id), (Z.mod_small dup) by lia.
  assert (Hb : len (unsubscribe_body id filters) = 2 + len (concat (map str filters)))
    by (unfold unsubscribe_body; by rewrite len_app).
  pose proof (concat_length_ge str filters ltac:(intros; rewrite str_len; lia)) as Hc.
  match goal with |- context [unsubscribe_loop ?fuel ?e ?rc 0 fs] =>
    destruct (unsubscribe_loop_at filters fuel _ junk e rc [] fs Ha) as (new & c' & E & F);
      [clia|done|done|lia|]
  end.
  change (len (@nil MQTTString)) with 0 in E. cbn [app] in E. rewrite Z.add_0_l in E.
  exists new. split; [|done]. by rewrite (bind_Ok _ _ _ (run_bind _ _ _ _ _ E)).
Qed.

(** Whatever maxcount says, one filter more than the array holds is stored past
    the end of the array. *)
Lemma subscribe_loop_overflow subs fuel c junk enddata rc count fs qs :
  at_ c (concat (map (λ s, str s.1 ++ [s.2]) subs) ++ junk) →
  c_pos c + len (concat (map (λ s, str s.1 ++ [s.2]) subs)) ≤ enddata →
  Forall (λ s, mqtt_str s.1 ∧ 0 ≤ s.2 < 128) subs →
  0 ≤ count → len fs < count + len subs → len fs ≤ len qs → (length subs < fuel)%nat →
  count ≤ len fs → subscribe_loop fuel enddata rc count fs qs c = UB OutOfBounds.
Proof.
  revert fuel c count fs qs. induction subs as [|[s q] subs IH];
    intros fuel c count fs qs Ha He Hs H0 Lf Lq Hf Hc; (destruct fuel as [|fuel]; [lia|]);
    cbn [subscribe_loop length map concat fst snd] in *; [lia|].
  rewrite run_bind_tell.
  rewrite <- !app_assoc in Ha. autorewrite with lens in He. cbn [length] in He. ztest.
  destruct (Z.eq_dec count (len fs)) as [->|N].
  { apply run_bind_UB. unfold lift. by rewrite arr_get_oob by lia. }
  apply Forall_cons_1 in Hs as [[Hstr Hq] Hs'].
  destruct (lookup_lt_is_Some_2 fs (Z.to_nat count)) as [f Ef]; [lia|].
  rewrite (run_bind _ _ _ f c)
    by (apply run_lift; rewrite <- (Z2Nat.id count) by lia; by apply arr_get_lookup).
  rd_str D.
  rewrite (run_bind _ _ _ (<[Z.to_nat count := view (adv c 2) (len s)]> fs) (adv c (2 + len s)))
    by (apply run_lift; unfold arr_set; by ztests).
  cbn [truth Z.eqb negb]. rewrite run_bind_tell. ztest; [clia|].
  cbn [app] in Ha. rd_char. cbn in Hq.
  rewrite (run_bind _ _ _ (<[Z.to_nat count := to_char q]> qs) (adv (adv c (2 + len s)) 1))
    by (apply run_lift; unfold arr_set; by ztests).
  apply (IH fuel (adv (adv c (2 + len s)) 1)); rewrite ?length_insert; try done; try lia. clia.
Qed.

(** MQTTDeserialize_subscribe never looks at maxcount: a subscribe packet with more
    topic filters than the arrays hold is stored past their end. *)
Theorem MQTTDeserialize_subscribe_overflow dup id subs junk dup0 id0 maxcount count0 fs qs n :
  subscribe_wf dup id subs → (length fs < length subs)%nat → length qs = length fs →
  MQTTDeserialize_subscribe dup0 id0 maxcount count0 fs qs
    (subscribe_packet dup id subs ++ junk) n = UB OutOfBounds.
Proof.
  intros [Hd Hi Hs Hl] Lf Lq. unfold MQTTDeserialize_subscribe.
  match goal with |- context [Cur ?buf 0] => pose proof (at_start buf) as Ha end.
  rewrite subscribe_packet_split in Ha at 2.
  rd_char. rewrite to_uchar_to_char, to_uchar_id by apply fixed_header_byte.
  rewrite header_type_of, header_dup_of. change (SUBSCRIBE mod 16 =? SUBSCRIBE) with true.
  cbn [negb]. rd_remlen. rewrite run_bind_tell. rd_int.
  assert (Hb : len (subscribe_body id subs) = 2 + len (concat (map (λ s, str s.1 ++ [s.2]) subs)))
    by (unfold subscribe_body; by rewrite len_app).
  pose proof (concat_length_ge (λ s : list Z * Z, str s.1 ++ [s.2]) subs
    ltac:(intros; autorewrite with lens; cbn; lia)) as Hc.
  match goal with |- context [subscribe_loop ?fuel ?e ?rc 0 fs qs] =>
    pose proof (subscribe_loop_overflow subs fuel _ junk e rc 0 fs qs Ha) as E end.
  apply bind_UB, run_bind_UB, E; [clia|done|lia..].
Qed.

(** ** The acknowledgements the server sends *)

Lemma concat_singletons (l : list Z) : concat (map (λ x, [x]) l) = l.
Proof. induction l as [|x l IH]; [done|]. cbn. by rewrite IH. Qed.

Lemma suback_body_len id codes : len (int16 id ++ codes) = 2 + len codes.
Proof. by rewrite len_app. Qed.

Lemma emits_suback id codes :
  0 ≤ id → bytes codes → 2 + len codes ≤ INT_MAX →
  emits (writeChar (set_header_type SUBACK 0) ;; writeRemLen (2 + len codes) ;; writeInt id ;;
         for_loop (Z.to_nat (len codes)) 0 (λ i, q ← lift (arr_get codes i); writeChar q))
    tt (suback_packet id codes).
Proof.
  intros Hi Hc Hl. rewrite (header_type_only SUBACK), Nat2Z.id. unfold suback_packet.
  replace (2 + len codes) with (len (int16 id ++ codes)) in * by (by rewrite len_app).
  apply emits_packet; [|apply fixed_header_byte|done].
  eapply emits_bind; [by apply emits_writeInt|].
  apply (emits_eq _ _ (concat (map (λ x, [x]) codes))).
  - apply emits_for_list. intros k x E. rewrite Z.add_0_l.
    apply (emits_eq _ _ ([] ++ [x])); [|done].
    eapply emits_bind; [by apply emits_lift, arr_get_lookup|].
    apply emits_writeByte. by eapply Forall_lookup_1.
  - apply concat_singletons.
Qed.

(** What MQTTSerialize_suback writes into a buffer with room for the whole packet,
    MQTTDeserialize_suback reads back, return codes up to 127 unchanged. *)
Theorem MQTTSerialize_suback_roundtrip id codes buf buflen id0 maxcount count arr n :
  0 ≤ id < 65536 → Forall (λ q, 0 ≤ q < 128) codes → 2 + len codes ≤ MAX_REMAINING →
  len (suback_packet id codes) ≤ buflen ≤ len buf → len codes ≤ maxcount ≤ len arr →
  ∃ buf', MQTTSerialize_suback buf buflen id (len codes) codes =
            Ok (len (suback_packet id codes), buf') ∧
          MQTTDeserialize_suback id0 maxcount count arr buf' n =
            Ok (1, id, len codes, codes ++ drop (length codes) arr).
Proof.
  intros Hi Hc Hl Hb Hm. assert (Hl' : 2 + len codes ≤ INT_MAX)
    by (unfold MAX_REMAINING, INT_MAX in *; lia).
  assert (Hbytes : bytes codes)
    by (eapply List.Forall_impl; [|exact Hc]; intros ? Hq; unfold byte; cbn in Hq; lia).
  exists (suback_packet id codes ++ drop (length (suback_packet id codes)) buf). split.
  - unfold MQTTSerialize_suback. rewrite (bind_Ok _ _ (2 + len codes))
      by (apply iadd_Ok; unfold INT_MIN; lia).
    unfold suback_packet in Hb. rewrite packet_len, len_app, int16_len in Hb.
    pose proof (varint_len_bounds (2 + len codes) ltac:(lia)). ztest.
    apply run_writer_emits; [apply emits_suback; lia || done|].
    unfold suback_packet. rewrite packet_len, len_app, int16_len. lia.
  - destruct (suback_start id0 maxcount count arr id codes
      (drop (length (suback_packet id codes)) buf) n Hi Hl) as (c & Hat & ->).
    destruct (suback_loop_codes codes (S (Z.to_nat (2 + len codes))) c _ (c_pos c + len codes)
      maxcount [] arr Hat) as (c' & E); [done|cbn; lia|lia|lia|].
    change (len (@nil Z)) with 0 in E. cbn [app] in E.
    rewrite (bind_Ok _ _ _ (run_bind _ _ _ _ _ E)). do 2 f_equal. f_equal.
    clear -Hc. induction Hc as [|x codes Hx _ IH]; [done|]. cbn [map].
    by rewrite IH, to_char_small.
Qed.

(** MQTTSerialize_suback asks for 2 + count bytes but writes 4 + count: with a buffer
    one or two bytes short its writes leave the buffer. *)
Theorem MQTTSerialize_suback_overflow id codes buf buflen :
  0 ≤ id → bytes codes → len codes < 126 → len buf = buflen →
  2 + len codes ≤ buflen < 4 + len codes →
  MQTTSerialize_suback buf buflen id (len codes) codes = UB OutOfBounds.
Proof.
  intros Hi Hc Hl Hbl Hb. unfold MQTTSerialize_suback.
  rewrite (bind_Ok _ _ (2 + len codes)) by (apply iadd_Ok; unfold INT_MIN, INT_MAX; lia). ztest.
  apply (run_writer_overruns _ _ (suback_packet id codes)).
  - rewrite Nat2Z.id. unfold suback_packet. rewrite <- (suback_body_len id).
    apply overruns_packet; [|rewrite suback_body_len; unfold INT_MAX; lia].
    eapply overruns_bind; [by apply emits_writeInt|apply overruns_writeInt|].
    apply (overruns_eq _ (concat (map (λ x, [x]) codes))); [|apply concat_singletons].
    apply overruns_for_list; intros k x E; rewrite Z.add_0_l;
      pose proof (to_uchar_id _ (Forall_lookup_1 _ _ _ _ Hc E)) as Ex.
    + apply (emits_eq _ _ ([] ++ [x])); [|done].
      eapply emits_bind; [by apply emits_lift, arr_get_lookup|]. rewrite <- Ex at 2.
      apply emits_writeChar.
    + apply (overruns_eq _ ([] ++ [x])); [|done].
      eapply overruns_bind; [by apply emits_lift, arr_get_lookup|apply overruns_nil|].
      rewrite <- Ex at 2. apply overruns_writeChar.
  - unfold suback_packet. rewrite packet_len, suback_body_len.
    pose proof (varint_len_bounds (2 + len codes) ltac:(lia)). lia.
Qed.

Definition unsuback_packet (id : Z) : list Z := packet (fixed_header UNSUBACK 0 0 0) (int16 id).

(** What MQTTSerialize_unsuback writes into a buffer of at least four bytes,
    MQTTDeserialize_unsuback reads back. It takes any other acknowledgement of the same
    shape for an UNSUBACK too: only the length of the packet is looked at. *)
Theorem MQTTDeserialize_unsuback_correct id id0 id1 buf buflen type dup junk n :
  0 ≤ id < 65536 → 4 ≤ buflen ≤ len buf → 0 ≤ type < 16 → bit dup →
  (∃ buf', MQTTSerialize_unsuback buf buflen id = Ok (4, buf') ∧
           MQTTDeserialize_unsuback id0 buf' n = Ok (1, id)) ∧
  MQTTDeserialize_unsuback id1 (ack_packet type dup id ++ junk) n = Ok (1, id).
Proof.
  intros Hi Hb Ht Hd.
  assert (R : ∀ i t d r, 0 ≤ t < 16 → bit d →
    MQTTDeserialize_unsuback i (ack_packet t d id ++ r) n = Ok (1, id)).
  { intros i t d r Hti Hdi. unfold MQTTDeserialize_unsuback.
    rewrite (bind_Ok _ _ _ (read_ack t d id r i n Hti Hdi Hi)). by destruct (t =? UNSUBACK). }
  split; [|by apply R]. exists (ack_packet UNSUBACK 0 id ++ drop 4 buf).
  split; [|apply R; [done|by left]]. unfold MQTTSerialize_unsuback. ztest.
  rewrite (header_type_only UNSUBACK).
  apply (run_writer_emits buf _ (unsuback_packet id));
    [|change (len (unsuback_packet id)) with 4; lia].
  apply (emits_packet _ (int16 id)); [apply emits_writeInt; lia|apply fixed_header_byte|done].
Qed.

(** MQTTSerialize_unsuback asks for two bytes and writes four. *)
Lemma MQTTSerialize_unsuback_overflow id buf buflen :
  len buf = buflen → 2 ≤ buflen < 4 → MQTTSerialize_unsuback buf buflen id = UB OutOfBounds.
Proof.
  intros Hl Hb. unfold MQTTSerialize_unsuback. ztest.
  destruct buf as [|a [|b [|c [|]]]]; cbn [length] in *; try lia; reflexivity.
Qed.

(** ** Termination *)

Lemma suback_loop_returns fuel enddata maxcount count arr c :
  (Z.to_nat (enddata - c_pos c) < fuel)%nat →
  returns (suback_loop fuel enddata maxcount count arr) c.
Proof.
  revert count arr c. induction fuel as [|fuel IH]; intros count arr c Hf; [lia|].
  cbn [suback_loop]. unfold returns. rewrite run_bind_tell. ztest; [|done].
  destruct (maxcount <? count); [done|].
  apply returns_bind; [auto with returns|]. intros q c1 E1.
  destruct (readChar_inv _ _ _ E1) as [P1 _].
  apply returns_bind; [auto with returns|]. intros arr' c2 E2.
  apply run_lift_inv in E2 as [_ ->]. apply IH. lia.
Qed.

Lemma subscribe_loop_returns fuel enddata rc count fs qs c :
  bytes (c_buf c) → (Z.to_nat (enddata - c_pos c) < fuel)%nat →
  returns (subscribe_loop fuel enddata rc count fs qs) c.
Proof.
  revert count fs qs c. induction fuel as [|fuel IH]; intros count fs qs c Hb Hf; [lia|].
  cbn [subscribe_loop]. unfold returns. rewrite run_bind_tell. ztest; [|done].
  apply returns_bind; [auto with returns|]. intros old c1 E1. apply run_lift_inv in E1 as [_ ->].
  apply returns_bind; [auto with returns|]. intros [ok s] c2 E2.
  apply returns_bind; [auto with returns|]. intros fs' c3 E3. apply run_lift_inv in E3 as [_ ->].
  destruct (truth ok) eqn:Et; [|done].
  destruct (readMQTTLenString_progress _ _ _ _ _ _ Hb E2 Et) as [P2 B2].
  cbn [negb]. unfold returns. rewrite run_bind_tell. destruct (enddata <=? c_pos c2); [done|].
  apply returns_bind; [auto with returns|]. intros q c4 E4.
  destruct (readChar_inv _ _ _ E4) as [P4 B4].
  apply returns_bind; [auto with returns|]. intros qs' c5 E5. apply run_lift_inv in E5 as [_ ->].
  apply IH; [by rewrite B4, B2|lia].
Qed.

Lemma unsubscribe_loop_returns fuel enddata rc count fs c :
  bytes (c_buf c) → (Z.to_nat (enddata - c_pos c) < fuel)%nat →
  returns (unsubscribe_loop fuel enddata rc count fs) c.
Proof.
  revert count fs c. induction fuel as [|fuel IH]; intros count fs c Hb Hf; [lia|].
  cbn [unsubscribe_loop]. unfold returns. rewrite run_bind_tell. ztest; [|done].
  apply returns_bind; [auto with returns|]. intros old c1 E1. apply run_lift_inv in E1 as [_ ->].
  apply returns_bind; [auto with returns|]. intros [ok s] c2 E2.
  apply returns_bind; [auto with returns|]. intros fs' c3 E3. apply run_lift_inv in E3 as [_ ->].
  destruct (truth ok) eqn:Et; [|done].
  destruct (readMQTTLenString_progress _ _ _ _ _ _ Hb E2 Et) as [P2 B2].
  apply IH; [by rewrite B2|lia].
Qed.

Lemma Ok_of_returns {A B} (m : M A B) s : returns m s → ('(r, _) ← m s; Ok r) ≠ NoFuel.
Proof. unfold returns. destruct (m s) as [[]| |]; done. Qed.

(** The loops of the three deserializers that read a list move the cursor forward at
    every iteration, so that the calls return, or leave the buffer, whatever the bytes. *)
Theorem list_deserializers_return buf n dup id maxcount count fs qs :
  bytes buf →
  MQTTDeserialize_suback id maxcount count qs buf n ≠ NoFuel ∧
  MQTTDeserialize_subscribe dup id maxcount count fs qs buf n ≠ NoFuel ∧
  MQTTDeserialize_unsubscribe dup id maxcount count fs buf n ≠ NoFuel.
Proof.
  intros Hb. split; [|split]; apply Ok_of_returns;
    (apply returns_bind; [auto with returns|]; intros h c1 E1;
     destruct (readChar_inv _ _ _ E1) as [_ B1]; cbv zeta);
    match goal with |- context [negb ?b] => destruct (negb b); [done|] end;
    (apply returns_bind; [auto with returns|]; intros [rc mylen] c2 E2;
     destruct (readRemLen_inv _ _ _ E2) as [_ B2]);
    unfold returns; rewrite run_bind_tell;
    try match goal with |- context [if ?b then _ else _] => destruct b; [done|] end;
    (apply returns_bind; [auto with returns|]; intros i c3 E3;
     destruct (readInt_inv _ _ _ E3) as [P3 B3]);
    assert (Hb3 : bytes (c_buf c3)) by (by rewrite B3, B2, B1);
    (apply returns_bind; [|by intros [[[]]] ? ?]).
  - apply suback_loop_returns. lia.
  - apply subscribe_loop_returns; [done|lia].
  - apply unsubscribe_loop_returns; [done|lia].
Qed.

End Subscribe.

(** ** The theorems at concrete packets *)

#[local] Existing Instance x86_64.

Definition ex_subs : list (list Z * Z) := [(bytes_of "a"%string, 1); (bytes_of "b/#"%string, 0)].
Definition ex_filters : list MQTTString :=
  [of_cstring (bytes_of "a"%string); of_cstring (bytes_of "b/#"%string)].

Lemma ex_subs_wf : subscribe_wf 0 77 ex_subs.
Proof. split; decide_by_vm. Qed.
Lemma ex_unsubs_wf : unsubscribe_wf 0 77 (map fst ex_subs).
Proof. split; decide_by_vm. Qed.
Lemma ex_filters_denote : Forall2 denotes ex_filters (map fst ex_subs).
Proof.
  constructor; [|constructor; [|constructor]]; apply of_cstring_denotes; decide_by_vm.
Qed.

Lemma MQTTSerialize_subscribe_refines_witness :
  MQTTSerialize_subscribe (replicate 20 0) 20 0 77 2 ex_filters [1; 0] =
  Ok (14, [130; 12; 0; 77; 0; 1; 97; 1; 0; 3; 98; 47; 35; 0] ++ replicate 6 0).
Proof.
  by apply (MQTTSerialize_subscribe_refines 0 77 ex_subs ex_filters (replicate 20 0) 20
    ex_subs_wf ex_filters_denote).
Defined.

Lemma MQTTSerialize_unsubscribe_refines_witness :
  MQTTSerialize_unsubscribe (replicate 13 0) 13 0 77 2 ex_filters =
  Ok (12, [162; 10; 0; 77; 0; 1; 97; 0; 3; 98; 47; 35] ++ [0]).
Proof.
  by apply (MQTTSerialize_unsubscribe_refines 0 77 (map fst ex_subs) ex_filters (replicate 13 0) 13
    ex_unsubs_wf ex_filters_denote).
Defined.

Lemma MQTTDeserialize_suback_roundtrip_witness :
  MQTTDeserialize_suback 0 3 0 [9; 9; 9] ([144; 4; 0; 77; 1; 128] ++ [5]) 7 =
    Ok (1, 77, 2, [1; -128; 9]).
Proof.
  exact (MQTTDeserialize_suback_roundtrip 0 3 0 [9; 9; 9] 77 [1; 128] [5] 7
    ltac:(decide_by_vm) ltac:(decide_by_vm) ltac:(decide_by_vm) ltac:(decide_by_vm)).
Defined.

(** The client's own call: one entry, and a broker that sends two codes. *)
Lemma MQTTDeserialize_suback_overflow_witness :
  MQTTDeserialize_suback 0 1 0 [9] [144; 4; 0; 77; 1; 1] 6 = UB OutOfBounds.
Proof. apply (MQTTDeserialize_suback_overflow 0 1 0 [9] 77 [1; 1] []); decide_by_vm. Defined.

Lemma MQTTDeserialize_subscribe_roundtrip_witness :
  ∃ new, MQTTDeserialize_subscribe 9 9 2 9 (replicate 3 MQTTString_initializer) [9; 9]
           ([130; 12; 0; 77; 0; 1; 97; 1; 0; 3; 98; 47; 35; 0] ++ []) 14 =
    Ok (1, 0, 77, 2, new ++ [MQTTString_initializer], [1; 0]) ∧
    Forall2 denotes new (map fst ex_subs).
Proof.
  apply (MQTTDeserialize_subscribe_roundtrip 0 77 ex_subs []); [apply ex_subs_wf|decide_by_vm..].
Defined.

Lemma MQTTDeserialize_unsubscribe_roundtrip_witness :
  ∃ new, MQTTDeserialize_unsubscribe 9 9 2 9 (replicate 2 MQTTString_initializer)
           ([162; 10; 0; 77; 0; 1; 97; 0; 3; 98; 47; 35] ++ [1]) 12 =
    Ok (1, 0, 77, 2, new ++ []) ∧ Forall2 denotes new (map fst ex_subs).
Proof.
  apply (MQTTDeserialize_unsubscribe_roundtrip 0 77 (map fst ex_subs) [1]);
    [apply ex_unsubs_wf|decide_by_vm].
Defined.

Lemma MQTTDeserialize_subscribe_overflow_witness :
  MQTTDeserialize_subscribe 9 9 1 9 [MQTTString_initializer] [9]
    ([130; 12; 0; 77; 0; 1; 97; 1; 0; 3; 98; 47; 35; 0] ++ []) 14 = UB OutOfBounds.
Proof.
  apply (MQTTDeserialize_subscribe_overflow 0 77 ex_subs []);
    [apply ex_subs_wf|decide_by_vm|reflexivity].
Defined.

Lemma MQTTSerialize_suback_roundtrip_witness :
  ∃ buf', MQTTSerialize_suback (replicate 8 0) 8 77 2 [2; 0] = Ok (6, buf') ∧
          MQTTDeserialize_suback 0 2 0 [9; 9] buf' 8 = Ok (1, 77, 2, [2; 0]).
Proof.
  apply (MQTTSerialize_suback_roundtrip 77 [2; 0] (replicate 8 0) 8 0 2 0 [9; 9] 8); decide_by_vm.
Defined.

Lemma MQTTSerialize_suback_overflow_witness :
  MQTTSerialize_suback [0; 0; 0; 0] 4 77 1 [1] = UB OutOfBounds.
Proof. apply (MQTTSerialize_suback_overflow 77 [1]); decide_by_vm. Defined.

(** A PUBACK passes for an UNSUBACK. *)
Lemma MQTTDeserialize_unsuback_correct_witness :
  MQTTDeserialize_unsuback 0 [64; 2; 1; 2] 4 = Ok (1, 258).
Proof.
  apply (MQTTDeserialize_unsuback_correct 258 0 0 [0; 0; 0; 0] 4 PUBACK 0 []); decide_by_vm.
Defined.

Lemma list_deserializers_return_witness :
  MQTTDeserialize_suback 0 100 0 (replicate 100 0) [144; 255; 255; 255; 127; 0; 1] 7 ≠ NoFuel.
Proof.
  apply (list_deserializers_return [144; 255; 255; 255; 127; 0; 1] 7 0 0 100 0 [] (replicate 100 0)).
  decide_by_vm.
Defined.
