(* ===== verification/Stream.v ===== *)
(** * MQTTPacket_read and MQTTPacket_readnb (MQTTPacket.c)

    Reading one packet from a byte source, blocking and non-blocking. The
    source is the caller's [getfn], a parameter: called with a count it
    returns its return value and the bytes it stored at the destination. *)

From S2P Require Import Prelude CSem Wire Packet.

(** The MQTTTransport structure; [getfn] and [sck] are the parameter [g] and
    the state of the monad. *)
Record MQTTTransport : Type := Transport
  { multiplier : Z; t_rem_len : Z; t_len : Z; t_state : Z }.

Section Stream.
Context `{CImpl} {S : Type} (g : getfn S).

(** ** Blocking *)

Definition MQTTPacket_read (buf : list Z) (buflen : Z) : M S (Z * list Z) :=
  '(n, bs) ← g 1;
  buf ← lift (store_bytes buf 0 bs);
  if negb (n =? 1) then mret (-1, buf)
  else
    '(_, rem_len) ← MQTTPacket_decode g;
    '(k, buf) ← lift (MQTTPacket_encode rem_len buf 1);
    let len := 1 + k in
    total ← lift (rem_len +i len)%c;
    if buflen <? total then mret (-1, buf)
    else
      '(bad, buf) ← (
        if truth rem_len then
          '(n, bs) ← g rem_len;
          buf ← lift (store_bytes buf len bs);
          mret (negb (n =? rem_len), buf)
        else mret (false, buf));
      if bad : bool then mret (-1, buf)
      else
        b ← lift (load buf 0);
        mret (header_type b, buf).

(** ** Non-blocking *)

(** The loop of MQTTPacket_decodenb; it leaves at [len = 4] at the latest, so
    5 iterations are enough. *)
Fixpoint MQTTPacket_decodenb_loop (fuel : nat) (trp : MQTTTransport) : M S (Z * MQTTTransport) :=
  match fuel with
  | O => no_fuel
  | Datatypes.S fuel =>
      if MAX_NO_OF_REMAINING_LENGTH_BYTES <=? t_len trp
      then mret (MQTTPACKET_READ_ERROR, trp)
      else
        '(frc, cs) ← g 1;
        if frc =? -1 then mret (MQTTPACKET_READ_ERROR, trp)
        else if frc =? 0 then mret (0, trp)
        else
          c ← lift (match cs with [] => UB Uninitialised | c :: _ => Ok c end);
          let trp := Transport (multiplier trp * 128)
                       (t_rem_len trp + Z.land c 127 * multiplier trp)
                       (t_len trp + 1) (t_state trp) in
          if negb (Z.land c 128 =? 0) then MQTTPacket_decodenb_loop fuel trp
          else mret (t_len trp, trp)
  end.

Definition MQTTPacket_decodenb (trp : MQTTTransport) : M S (Z * MQTTTransport) :=
  let trp := if t_len trp =? 0 then Transport 1 0 (t_len trp) (t_state trp) else trp in
  MQTTPacket_decodenb_loop 5 trp.

Definition set_state (st : Z) (trp : MQTTTransport) : MQTTTransport :=
  Transport (multiplier trp) (t_rem_len trp) (t_len trp) st.

(** [exit: trp->state = 0; return rc;] *)
Definition readnb_exit (rc : Z) (buf : list Z) (trp : MQTTTransport)
  : M S (Z * list Z * MQTTTransport) :=
  mret (rc, buf, set_state 0 trp).

(** case 2: the rest of the packet *)
Definition readnb_body (buf : list Z) (trp : MQTTTransport)
  : M S (Z * list Z * MQTTTransport) :=
  if truth (t_rem_len trp) then
    '(frc, bs) ← g (t_rem_len trp);
    buf ← lift (store_bytes buf (t_len trp) bs);
    if frc =? -1 then readnb_exit (-1) buf trp
    else if frc =? 0 then mret (0, buf, trp)
    else
      let trp := Transport (multiplier trp) (t_rem_len trp - frc) (t_len trp + frc)
                   (t_state trp) in
      if truth (t_rem_len trp) then mret (0, buf, trp)
      else b ← lift (load buf 0); readnb_exit (header_type b) buf trp
  else b ← lift (load buf 0); readnb_exit (header_type b) buf trp.

(** case 1: the remaining length *)
Definition readnb_length (buf : list Z) (buflen : Z) (trp : MQTTTransport)
  : M S (Z * list Z * MQTTTransport) :=
  '(frc, trp) ← MQTTPacket_decodenb trp;
  if frc =? MQTTPACKET_READ_ERROR then readnb_exit (-1) buf trp
  else if frc =? 0 then mret (0, buf, trp)
  else
    '(k, buf) ← lift (MQTTPacket_encode (t_rem_len trp) buf 1);
    let trp := Transport (multiplier trp) (t_rem_len trp) (1 + k) (t_state trp) in
    total ← lift (t_rem_len trp +i t_len trp)%c;
    if buflen <? total then readnb_exit (-1) buf trp
    else readnb_body buf (set_state (t_state trp + 1) trp).

(** case 0: the header byte *)
Definition readnb_header (buf : list Z) (buflen : Z) (trp : MQTTTransport)
  : M S (Z * list Z * MQTTTransport) :=
  '(frc, bs) ← g 1;
  buf ← lift (store_bytes buf 0 bs);
  if frc =? -1 then readnb_exit (-1) buf trp
  else if frc =? 0 then mret (0, buf, trp)
  else
    let trp := Transport (multiplier trp) (t_rem_len trp) 0 (t_state trp + 1) in
    readnb_length buf buflen trp.

(** The switch: each case falls through to the next one. *)
Definition MQTTPacket_readnb (buf : list Z) (buflen : Z) (trp : MQTTTransport)
  : M S (Z * list Z * MQTTTransport) :=
  if t_state trp =? 1 then readnb_length buf buflen trp
  else if t_state trp =? 2 then readnb_body buf trp
  else if t_state trp =? 0 then readnb_header buf buflen trp
  else readnb_header buf buflen (set_state 0 trp).

(** ** Buffers filled from the front *)

Definition over (bs buf : list Z) : list Z := bs ++ drop (length bs) buf.

Lemma over_nil buf : over [] buf = buf.
Proof. done. Qed.

Lemma over_length bs buf : (length bs ≤ length buf)%nat → length (over bs buf) = length buf.
Proof. intros. unfold over. rewrite length_app, length_drop. lia. Qed.

Lemma over_split a b buf :
  (length a + length b ≤ length buf)%nat →
  over a buf = a ++ take (length b) (drop (length a) buf) ++ drop (length (a ++ b)) buf.
Proof.
  intros. unfold over. rewrite length_app, <- drop_drop. by rewrite take_drop.
Qed.

Lemma store_over a b buf i :
  i = len a → (length a + length b ≤ length buf)%nat →
  store_bytes (over a buf) i b = Ok (over (a ++ b) buf).
Proof.
  intros Hi L. rewrite (over_split a b) by done. rewrite store_bytes_app; [|done|].
  - unfold over. by rewrite <- app_assoc.
  - rewrite length_take, length_drop. lia.
Qed.

Lemma encode_over a n buf i :
  i = len a → 0 ≤ n ≤ INT_MAX → (length a + length (varint n) ≤ length buf)%nat →
  MQTTPacket_encode n (over a buf) i = Ok (len (varint n), over (a ++ varint n) buf).
Proof.
  intros -> Hn L. rewrite (over_split a (varint n)) by done. rewrite encode_emits; [|done|].
  - unfold over. by rewrite <- app_assoc.
  - rewrite length_take, length_drop. lia.
Qed.

Lemma load_over h bs buf : load (over (h :: bs) buf) 0 = Ok h.
Proof. done. Qed.

(** ** MQTTPacket_read *)

(** When the source delivers a packet, MQTTPacket_read returns its type and leaves
    exactly its bytes at the front of the buffer; a packet larger than buflen is refused
    after its header, which is all that has been written. *)
Theorem MQTTPacket_read_correct h body buf buflen s s1 s2 s3 :
  byte h → len body ≤ MAX_REMAINING → 5 ≤ len buf → buflen ≤ len buf →
  g 1 s = Ok ((1, [h]), s1) → delivers g s1 (varint (len body)) s2 →
  (body = [] → s3 = s2) → (body ≠ [] → g (len body) s2 = Ok ((len body, body), s3)) →
  MQTTPacket_read buf buflen s =
    Ok (if buflen <? len (packet h body)
        then ((-1, over (h :: varint (len body)) buf), s2)
        else ((header_type h, over (packet h body) buf), s3)).
Proof.
  intros Hh Hl H5 Hb E1 D E0 E2. unfold MQTTPacket_read.
  rewrite (run_bind _ _ _ _ _ E1). pose proof (varint_len_mqtt (len body) ltac:(lia)) as Hv.
  rewrite <- (over_nil buf) at 1.
  rewrite (run_bind _ _ _ (over [h] buf) s1) by (apply run_lift, (store_over [] [h]); cbn; lia).
  cbn [Z.eqb Pos.eqb negb]. unfold MQTTPacket_decode.
  rewrite (run_bind _ _ _ (len (varint (len body)), len body) s2).
  2:{ rewrite varint_4 in * by lia.
      rewrite (decode_loop_varint g 4 5 (len body) 0 1 0 s1 s2);
        [|unfold MAX_REMAINING in *; cbn; lia|lia..|done]. do 3 f_equal; lia. }
  rewrite (run_bind _ _ _ (len (varint (len body)), over (h :: varint (len body)) buf) s2)
    by (apply run_lift, (encode_over [h]); unfold MAX_REMAINING, INT_MAX in *; cbn [length]; lia).
  rewrite (run_bind _ _ _ (len body + (1 + len (varint (len body)))) s2)
    by (apply run_lift, iadd_Ok; unfold MAX_REMAINING, INT_MIN, INT_MAX in *; lia).
  rewrite packet_len.
  replace (len body + (1 + len (varint (len body))))
    with (1 + len (varint (len body)) + len body) by lia.
  ztest; [done|]. unfold truth.
  destruct (Z.eqb_spec (len body) 0) as [N|N]; cbn [negb].
  - destruct body; [|cbn in N; lia]. rewrite (E0 eq_refl). unfold packet. rewrite app_nil_r. done.
  - rewrite (run_assoc (g (len body))).
    rewrite (run_bind _ _ _ _ _ (E2 ltac:(intros ->; cbn in N; lia))).
    rewrite run_assoc, (run_bind _ _ _ (over ((h :: varint (len body)) ++ body) buf) s3).
    + rewrite run_bind_ret, Z.eqb_refl. done.
    + apply run_lift, store_over; [by rewrite len_cons|cbn [length]; lia].
Qed.

(** A source that stores at most as many bytes as it is asked for, and one when
    it is asked for one and says so. *)
Definition well_behaved : Prop :=
  ∀ n s, 0 < n → ∃ rc cs s', g n s = Ok ((rc, cs), s') ∧ len cs ≤ n ∧ (rc = 1 → cs ≠ []).

(** Whatever a well-behaved source delivers, MQTTPacket_read stays inside a buffer of
    five bytes or more and returns -1 or a packet type. Five bytes are needed because
    the remaining length is put back before buflen is looked at. *)
Theorem MQTTPacket_read_safe buf buflen s :
  well_behaved → 5 ≤ len buf → buflen ≤ len buf →
  ∃ rc buf' s', MQTTPacket_read buf buflen s = Ok ((rc, buf'), s') ∧ length buf' = length buf ∧
    -1 ≤ rc < 16.
Proof.
  intros Hg H5 Hb. unfold MQTTPacket_read.
  assert (Store : ∀ b i bs, length b = length buf → 0 ≤ i → i + len bs ≤ len buf →
    ∃ b', store_bytes b i bs = Ok b' ∧ length b' = length buf).
  { intros b i bs L H0 Hi. destruct (store_bytes b i bs) as [b'| |] eqn:E;
      [exists b'; split; [done|]; by rewrite (store_bytes_length _ _ _ _ E)| |];
      exfalso; revert E; unfold store_bytes; destruct bs; [congruence| |congruence|];
      rewrite L; ztests; congruence. }
  destruct (Hg 1 s) as (rc & cs & s1 & E1 & L1 & _); [lia|]. rewrite (run_bind _ _ _ _ _ E1).
  destruct (Store buf 0 cs) as (b1 & Eb1 & Lb1); [done|lia..|].
  rewrite (run_bind _ _ _ b1 s1) by (by apply run_lift).
  destruct (negb (rc =? 1)); [by exists (-1), b1, s1; repeat split|].
  destruct (decode_loop_bounds g 5 0 0 s1) as (k & value & s2 & E2 & _ & Hv);
    [|lia|lia|cbn; lia|].
  { intros s'. destruct (Hg 1 s') as (rc' & cs' & s'' & E & _ & Hc); [lia|]. eauto. }
  change (128 ^ 0) with 1 in E2. unfold MQTTPacket_decode. rewrite (run_bind _ _ _ _ _ E2).
  pose proof (varint_len_mqtt value Hv) as Hvl.
  assert (Enc : ∃ b2, MQTTPacket_encode value b1 1 = Ok (len (varint value), b2) ∧
                      length b2 = length buf).
  { destruct b1 as [|x b1]; [cbn in Lb1; lia|]. exists (over (x :: varint value) (x :: b1)).
    split; [|rewrite over_length by (cbn [length] in *; lia); done].
    apply (encode_over [x] value (x :: b1)); [done|unfold MAX_REMAINING, INT_MAX in *; lia|].
    cbn [length] in *. lia. }
  destruct Enc as (b2 & Eb2 & Lb2).
  rewrite (run_bind _ _ _ (len (varint value), b2) s2) by (by apply run_lift).
  rewrite (run_bind _ _ _ (value + (1 + len (varint value))) s2)
    by (apply run_lift, iadd_Ok; unfold MAX_REMAINING, INT_MIN, INT_MAX in *; lia).
  ztest; [by exists (-1), b2, s2; repeat split|].
  assert (Last : ∀ b s', length b = length buf →
    ∃ rc buf' s'',
      (b0 ← (lift (load b 0) : M S Z); (mret (header_type b0, b) : M S (Z * list Z))) s' =
        Ok ((rc, buf'), s'') ∧
      length buf' = length buf ∧ -1 ≤ rc < 16).
  { intros b s' L. destruct b as [|x b]; [cbn in L; lia|].
    exists (header_type x), (x :: b), s'. split; [done|]. split; [done|].
    pose proof (bf_get_range 4 4 x ltac:(lia)). unfold header_type. lia. }
  unfold truth. destruct (Z.eqb_spec value 0); cbn [negb].
  - rewrite run_bind_ret. by apply Last.
  - destruct (Hg value s2) as (rc3 & cs3 & s3 & E3 & L3 & _); [lia|].
    destruct (Store b2 (1 + len (varint value)) cs3) as (b3 & Eb3 & Lb3); [done|lia..|].
    rewrite run_assoc, (run_bind _ _ _ _ _ E3).
    rewrite run_assoc, (run_bind _ _ _ b3 s3) by (by apply run_lift). rewrite run_bind_ret.
    destruct (negb (rc3 =? value)); [by exists (-1), b3, s3; repeat split|]. by apply Last.
Qed.

(** ** MQTTPacket_readnb: a packet that arrives in pieces *)

(** [R s bs]: [bs] is what the source will still deliver. A call for [n] bytes
    returns the next ones, at most [n] of them, or 0 when none has arrived. *)
Variable R : S → list Z → Prop.

Definition source : Prop :=
  ∀ s bs n, R s bs → 0 < n ≤ INT_MAX → ∃ k s', 0 ≤ k ≤ n ∧ k ≤ len bs ∧
    g n s = Ok ((k, take (Z.to_nat k) bs), s') ∧ R s' (drop (Z.to_nat k) bs).

(** [idle s] bounds how often the source still answers 0 while it has bytes to deliver. *)
Variable idle : S → nat.

Definition lively : Prop :=
  ∀ s b bs n k cs s', R s (b :: bs) → 0 < n ≤ INT_MAX → g n s = Ok ((k, cs), s') →
    (idle s' + (if (k =? 0)%Z then 1 else 0) ≤ idle s)%nat.

(** One byte of a source: nothing yet, or the next byte. *)
Lemma source_byte s b bs :
  source → lively → R s (b :: bs) →
  (∃ s', g 1 s = Ok ((0, []), s') ∧ R s' (b :: bs) ∧ (idle s' < idle s)%nat) ∨
  (∃ s', g 1 s = Ok ((1, [b]), s') ∧ R s' bs ∧ (idle s' ≤ idle s)%nat).
Proof.
  intros Hg Hl Hs. assert (Hn : 0 < 1 ≤ INT_MAX) by done.
  destruct (Hg s (b :: bs) 1 Hs Hn) as (k & s' & Hk & _ & E & Hs').
  pose proof (Hl s b bs 1 _ _ s' Hs Hn E) as Hi.
  assert (k = 0 ∨ k = 1) as [-> | ->] by lia; [left|right]; exists s'; (split; [exact E|]; split; [done|]);
    cbn in Hi; lia.
Qed.

(** The varint loop in its middle: [k] bytes may still come, and encode [q]. *)
Lemma decodenb_loop_at k fuel q l v st s r :
  source → lively → (0 < k ≤ 4)%nat → (k ≤ fuel)%nat → l = 4 - Z.of_nat k → 0 ≤ q < 128 ^ Z.of_nat k →
  0 ≤ v < 128 ^ l → R s (varint_k k q ++ r) →
  ∃ rc trp s', MQTTPacket_decodenb_loop fuel (Transport (128 ^ l) v l st) s =
                 Ok ((rc, trp), s') ∧
    ((rc = 0 ∧ ∃ k' q', (0 < k' ≤ k)%nat ∧ 0 ≤ q' < 128 ^ Z.of_nat k' ∧
        t_len trp = 4 - Z.of_nat k' ∧ t_state trp = st ∧ multiplier trp = 128 ^ (t_len trp) ∧
        0 ≤ t_rem_len trp < 128 ^ (t_len trp) ∧ t_rem_len trp + 128 ^ (t_len trp) * q' = v + 128 ^ l * q ∧
        R s' (varint_k k' q' ++ r) ∧
        (idle s' + length (varint_k k' q') < idle s + length (varint_k k q))%nat) ∨
     (0 < rc ∧ t_rem_len trp = v + 128 ^ l * q ∧ t_state trp = st ∧ R s' r ∧ (idle s' ≤ idle s)%nat)).
Proof.
  intros Hg Hlv. revert fuel q l v s. induction k as [|k IH]; intros fuel q l v s Hk Hf Hl Hq Hv Hs; [lia|].
  destruct fuel as [|fuel]; [lia|]. cbn [MQTTPacket_decodenb_loop t_len].
  unfold MAX_NO_OF_REMAINING_LENGTH_BYTES. ztest. cbn [varint_k] in Hs.
  rewrite Nat2Z.inj_succ, Z.pow_succ_r in Hq by lia.
  assert (Wait : ∀ s', R s' (varint_k (Datatypes.S k) q ++ r) → (idle s' < idle s)%nat →
    ∃ rc trp s'', Ok (0, Transport (128 ^ l) v l st, s') = Ok ((rc, trp), s'') ∧
    ((rc = 0 ∧ ∃ k' q', (0 < k' ≤ Datatypes.S k)%nat ∧ 0 ≤ q' < 128 ^ Z.of_nat k' ∧
        t_len trp = 4 - Z.of_nat k' ∧ t_state trp = st ∧ multiplier trp = 128 ^ (t_len trp) ∧
        0 ≤ t_rem_len trp < 128 ^ (t_len trp) ∧ t_rem_len trp + 128 ^ (t_len trp) * q' = v + 128 ^ l * q ∧
        R s'' (varint_k k' q' ++ r) ∧
        (idle s'' + length (varint_k k' q') < idle s + length (varint_k (Datatypes.S k) q))%nat) ∨
     (0 < rc ∧ t_rem_len trp = v + 128 ^ l * q ∧ t_state trp = st ∧ R s'' r ∧ (idle s'' ≤ idle s)%nat))).
  { intros s' Hs' Hi. eexists _, _, _. split; [reflexivity|]. left. split; [done|].
    exists (Datatypes.S k), q. rewrite Nat2Z.inj_succ, Z.pow_succ_r by lia. cbn. repeat split; try done; lia. }
  destruct (Z.ltb_spec q 128) as [Hlt|Hge]; cbn [app] in Hs.
  - destruct (source_byte _ _ _ Hg Hlv Hs) as [(s' & E & Hs' & Hi)|(s' & E & Hs' & Hi)];
      rewrite (run_bind _ _ _ _ _ E); cbn [Z.eqb Pos.eqb].
    + apply Wait; [|done]. cbn [varint_k]. by destruct (Z.ltb_spec q 128); [|lia].
    + rewrite run_bind_lift_Ok, land_127, land_128 by (unfold byte; lia).
      ztest. cbn [negb multiplier t_rem_len t_len t_state]. rewrite run_ret.
      eexists _, _, _. split; [reflexivity|]. right. cbn. rewrite Z.mod_small by lia.
      split; [lia|]. split; [lia|]. by repeat split.
  - destruct (source_byte _ _ _ Hg Hlv Hs) as [(s' & E & Hs' & Hi)|(s' & E & Hs' & Hi)];
      rewrite (run_bind _ _ _ _ _ E); cbn [Z.eqb Pos.eqb].
    + apply Wait; [|done]. cbn [varint_k]. by destruct (Z.ltb_spec q 128); [lia|].
    + rewrite run_bind_lift_Ok, land_127, land_128 by (unfold byte; lia).
      ztest. cbn [negb multiplier t_rem_len t_len t_state].
      destruct k as [|k]; [cbn in Hq; lia|].
      replace (128 ^ l * 128) with (128 ^ (l + 1)) by (rewrite Z.pow_add_r by lia; lia).
      assert (Hv' : 0 ≤ v + (128 + q mod 128) mod 128 * 128 ^ l < 128 ^ (l + 1)).
      { rewrite Z.pow_add_r by lia. pose proof (Z.mod_pos_bound (128 + q mod 128) 128). nia. }
      destruct (IH fuel (q / 128) (l + 1) (v + (128 + q mod 128) mod 128 * 128 ^ l) s')
        as (rc & trp & s2 & E2 & Hr);
        [lia|lia|lia|split; [lia|apply Z.div_lt_upper_bound; lia]|done|done|].
      exists rc, trp, s2. split; [exact E2|].
      assert (Hval : v + (128 + q mod 128) mod 128 * 128 ^ l + 128 ^ (l + 1) * (q / 128) =
                     v + 128 ^ l * q).
      { rewrite Z.pow_add_r by lia. replace ((128 + q mod 128) mod 128) with (q mod 128) by lia.
        pose proof (Z.div_mod q 128 ltac:(lia)). nia. }
      rewrite Hval in Hr. destruct Hr as [(-> & k' & q' & Hk' & Hr)|Hr]; [left|right].
      * split; [done|]. exists k', q'. split; [lia|].
        assert (length (varint_k (Datatypes.S (Datatypes.S k)) q) = Datatypes.S (length (varint_k (Datatypes.S k) (q / 128))))
          by (cbn [varint_k]; by destruct (Z.ltb_spec q 128); [lia|]).
        destruct Hr as (? & ? & ? & ? & ? & ? & ? & ?). split_and!; done || lia.
      * destruct Hr as (? & ? & ? & ? & ?). split_and!; done || lia.
Qed.

(** The fixed header of a packet. *)
Definition head (h : Z) (body : list Z) : list Z := h :: varint (len body).

(** [reading h body junk buf0 n s trp buf]: the packet is arriving. The states of
    the transport structure stand for how much of it has been read into [buf];
    the source still holds the other [n] bytes, then [junk]. *)
Inductive reading (h : Z) (body junk buf0 : list Z) : nat → S → MQTTTransport → list Z → Prop :=
  | reading_header s trp :
      t_state trp = 0 → R s (packet h body ++ junk) →
      reading h body junk buf0 (length (packet h body)) s trp buf0
  | reading_length k q s trp :
      t_state trp = 1 → (0 < k ≤ 4)%nat → 0 ≤ q < 128 ^ Z.of_nat k → t_len trp = 4 - Z.of_nat k →
      (t_len trp = 0 → q = len body) →
      (t_len trp ≠ 0 → multiplier trp = 128 ^ t_len trp ∧ 0 ≤ t_rem_len trp < 128 ^ t_len trp ∧
         t_rem_len trp + 128 ^ t_len trp * q = len body) →
      R s (varint_k k q ++ body ++ junk) →
      reading h body junk buf0 (length (varint_k k q) + length body) s trp (over [h] buf0)
  | reading_body b1 b2 s trp :
      t_state trp = 2 → body = b1 ++ b2 → t_rem_len trp = len b2 →
      t_len trp = len (head h body ++ b1) → R s (b2 ++ junk) →
      reading h body junk buf0 (length b2) s trp (over (head h body ++ b1) buf0).

(** What a call leaves: still reading, with less to wait for, or the packet. *)
Definition read_step (h : Z) (body junk buf0 : list Z) (left : nat)
    (m : M S (Z * list Z * MQTTTransport)) (s : S) : Prop :=
  ∃ rc buf' trp' s', m s = Ok ((rc, buf', trp'), s') ∧
    ((rc = 0 ∧ ∃ n, reading h body junk buf0 n s' trp' buf' ∧ (idle s' + n < left)%nat) ∨
     (rc = header_type h ∧ buf' = over (packet h body) buf0 ∧ t_state trp' = 0 ∧ R s' junk)).

Lemma read_step_weaken h body junk buf0 left left' m s :
  (left ≤ left')%nat → read_step h body junk buf0 left m s → read_step h body junk buf0 left' m s.
Proof.
  intros L (rc & buf' & trp' & s' & E & [(-> & n & Hr & Hn)|Hr]); exists rc, buf', trp', s' || exists 0, buf', trp', s';
    (split; [exact E|]); [left|by right]. split; [done|]. exists n. split; [done|lia].
Qed.

Section Steps.
Context (h : Z) (body junk buf0 : list Z) (Hg : source) (Hlv : lively)
  (Hmax : len body ≤ MAX_REMAINING) (Hfit : len (packet h body) ≤ len buf0).

Lemma head_fits : len (head h body) + len body ≤ len buf0.
Proof. clear -Hfit. unfold packet, head in *. autorewrite with lens in *. lia. Qed.

Lemma readnb_body_step b1 b2 s trp :
  t_state trp = 2 → body = b1 ++ b2 → t_rem_len trp = len b2 →
  t_len trp = len (head h body ++ b1) → R s (b2 ++ junk) →
  read_step h body junk buf0 (idle s + length b2)
    (readnb_body (over (head h body ++ b1) buf0) trp) s.
Proof.
  intros Hst Eb Hr Hlen Hs. unfold readnb_body. pose proof head_fits as Hf.
  assert (Fin : ∀ t s', R s' junk → read_step h body junk buf0 (idle s + length b2)
    (b ← lift (load (over (head h body ++ body) buf0) 0);
     readnb_exit (header_type b) (over (head h body ++ body) buf0) t) s').
  { intros t s' Hs'. exists (header_type h), (over (packet h body) buf0), (set_state 0 t), s'.
    split; [done|]. by right. }
  unfold truth. destruct (Z.eqb_spec (t_rem_len trp) 0) as [E0|E0]; cbn [negb].
  - rewrite Hr in E0. destruct b2; [|cbn in E0; lia]. rewrite app_nil_r in Eb.
    rewrite <- Eb. by apply Fin.
  - assert (len b2 ≤ len body) by (rewrite Eb, length_app; lia).
    destruct (Hg s (b2 ++ junk) (t_rem_len trp) Hs) as (k & s' & Hk & Hkl & E & Hs');
      [unfold MAX_REMAINING, INT_MAX in *; lia|].
    assert (Hi : (idle s' + (if (k =? 0)%Z then 1 else 0) ≤ idle s)%nat).
    { destruct b2 as [|b b2']; [cbn in Hr; lia|].
      eapply (Hlv s b (b2' ++ junk) (t_rem_len trp)); [exact Hs| |exact E].
      unfold MAX_REMAINING, INT_MAX in *; lia. }
    unfold read_step. rewrite (run_bind _ _ _ _ _ E).
    rewrite take_app_le in * by lia. rewrite drop_app_le in Hs' by lia.
    assert (La : len (take (Z.to_nat k) b2) = k) by (rewrite length_take; lia).
    assert (Lb : len (drop (Z.to_nat k) b2) = len b2 - k) by (rewrite length_drop; lia).
    pose proof (take_drop (Z.to_nat k) b2) as Eb2.
    set (b2a := take _ b2) in *. set (b2b := drop _ b2) in *. clearbody b2a b2b.
    assert (Lbody : len body = len b1 + k + len b2b)
      by (rewrite Eb, <- Eb2, !length_app; lia).
    rewrite (run_bind _ _ _ (over ((head h body ++ b1) ++ b2a) buf0) s')
      by (apply run_lift, store_over; [done|rewrite length_app; lia]).
    rewrite <- app_assoc. ztest. ztest.
    { subst k. destruct b2a; [|cbn in *; lia]. cbn [app] in Eb2. rewrite app_nil_r.
      eexists _, _, _, _. split; [reflexivity|]. left. split; [done|]. subst b2b.
      exists (length b2). split; [by apply reading_body|]. cbn in Hi. lia. }
    cbn [t_rem_len multiplier t_len t_state]. ztest.
    + replace (b1 ++ b2a) with body; [by apply Fin; destruct b2b; [|cbn in *; lia]|].
      rewrite Eb, <- Eb2. destruct b2b; [|cbn in *; lia]. by rewrite app_nil_r.
    + eexists _, _, _, _. split; [reflexivity|]. left. split; [done|].
      exists (length b2b). split; [|lia].
      apply reading_body; cbn [t_state t_rem_len t_len]; [done|by rewrite <- app_assoc, Eb2|lia| |done].
      rewrite Hlen, !length_app. lia.
Qed.

Lemma encode_body :
  MQTTPacket_encode (len body) (over [h] buf0) 1 =
    Ok (len (varint (len body)), over (head h body) buf0).
Proof.
  pose proof head_fits as Hf. unfold head in *. cbn [length] in Hf.
  apply (encode_over [h]); [done|unfold MAX_REMAINING, INT_MAX in *; lia|cbn [length]; lia].
Qed.

Lemma readnb_length_step buflen k q s trp :
  len (packet h body) ≤ buflen →
  t_state trp = 1 → (0 < k ≤ 4)%nat → 0 ≤ q < 128 ^ Z.of_nat k → t_len trp = 4 - Z.of_nat k →
  (t_len trp = 0 → q = len body) →
  (t_len trp ≠ 0 → multiplier trp = 128 ^ t_len trp ∧ 0 ≤ t_rem_len trp < 128 ^ t_len trp ∧
     t_rem_len trp + 128 ^ t_len trp * q = len body) →
  R s (varint_k k q ++ body ++ junk) →
  read_step h body junk buf0 (idle s + (length (varint_k k q) + length body))
    (readnb_length (over [h] buf0) buflen trp) s.
Proof.
  intros Hb Hst Hk Hq Hl H0 H1 Hs. unfold readnb_length, MQTTPacket_decodenb.
  set (v := if t_len trp =? 0 then 0 else t_rem_len trp).
  assert (Et : (if t_len trp =? 0 then Transport 1 0 (t_len trp) (t_state trp) else trp) =
               Transport (128 ^ t_len trp) v (t_len trp) 1).
  { unfold v. destruct (Z.eqb_spec (t_len trp) 0) as [E|E]; [by rewrite E, Hst|].
    destruct (H1 E) as (<- & _). destruct trp; cbn in *. by subst. }
  assert (Hv : 0 ≤ v < 128 ^ t_len trp ∧ v + 128 ^ t_len trp * q = len body).
  { unfold v. destruct (Z.eqb_spec (t_len trp) 0) as [E|E]; [|by destruct (H1 E)].
    rewrite E, (H0 E). lia. }
  clearbody v. rewrite Et. clear Et.
  destruct (decodenb_loop_at k 5 q (t_len trp) v 1 s (body ++ junk) Hg Hlv)
    as (rc & trp' & s' & E & Hr); [lia|lia|done|done|by destruct Hv|done|].
  unfold read_step. rewrite (run_bind _ _ _ _ _ E). rewrite (proj2 Hv) in Hr.
  destruct Hr as [(-> & k' & q' & Hk' & Hq' & Hl' & Hst' & Hm & Hv' & Ev & Hs' & Hi)|(Hrc & Ev & Hst' & Hs' & Hi)].
  - change (0 =? MQTTPACKET_READ_ERROR) with false. cbn [Z.eqb].
    eexists _, _, _, _. split; [reflexivity|]. left. split; [done|].
    exists (length (varint_k k' q') + length body)%nat. split; [|lia].
    apply reading_length; [done|lia|done|done| |done|done].
    intros E0. rewrite E0 in *. lia.
  - unfold MQTTPACKET_READ_ERROR. ztest. ztest. rewrite Ev.
    rewrite (run_bind _ _ _ _ _ (run_lift _ _ s' encode_body)).
    rewrite packet_len in Hb. cbn [t_rem_len t_len].
    rewrite (run_bind _ _ _ (len body + (1 + len (varint (len body)))) s')
      by (apply run_lift, iadd_Ok; pose proof (varint_len_mqtt (len body) ltac:(lia));
          unfold MAX_REMAINING, INT_MIN, INT_MAX in *; lia).
    ztest. pose proof (readnb_body_step [] body s'
      (set_state 2 (Transport (multiplier trp') (len body) (1 + len (varint (len body))) 1))) as Hbody.
    rewrite app_nil_r in Hbody. cbn [t_state]. rewrite Hst'.
    eapply read_step_weaken; [|apply Hbody; try done]; [lia|].
    cbn [t_len set_state]. unfold head. by rewrite len_cons.
Qed.

End Steps.

(** A call of MQTTPacket_readnb on a packet that arrives in any pieces asks to be called again,
    with the transport structure and the buffer standing for the part read so far, or
    returns the packet. *)
Lemma MQTTPacket_readnb_step h body junk buf0 buf buflen n trp s :
  source → lively → len body ≤ MAX_REMAINING → len (packet h body) ≤ buflen → buflen ≤ len buf0 →
  reading h body junk buf0 n s trp buf →
  read_step h body junk buf0 (idle s + n) (MQTTPacket_readnb buf buflen trp) s.
Proof.
  intros Hg Hlv Hmax Hb Hl Hr. unfold MQTTPacket_readnb.
  destruct Hr as [s trp Hst Hs|k q s trp Hst Hk Hq Hlen H0 H1 Hs|b1 b2 s trp Hst Eb Er Hlen Hs];
    rewrite Hst; cbn [Z.eqb Pos.eqb].
  - unfold readnb_header, packet in *. cbn [app] in Hs.
    destruct (source_byte _ _ _ Hg Hlv Hs) as [(s' & E & Hs' & Hi)|(s' & E & Hs' & Hi)];
      unfold read_step; rewrite (run_bind _ _ _ _ _ E).
    + rewrite (run_bind _ _ _ buf0 s') by done. cbn [Z.eqb]. eexists _, _, _, _. split; [reflexivity|].
      left. split; [done|]. eexists. split; [by apply reading_header|]. unfold packet. lia.
    + rewrite (run_bind _ _ _ (over [h] buf0) s')
        by (apply run_lift, (store_over [] [h] buf0); [done|cbn [length] in *; lia]).
      cbn [Z.eqb Pos.eqb]. rewrite Hst. rewrite <- app_assoc, varint_4 in Hs' by lia.
      eapply read_step_weaken; [|apply (readnb_length_step h body junk buf0) with (k := 4%nat) (q := len body); try done].
      * cbn [length app]. rewrite length_app, <- varint_4 by lia. lia.
      * unfold packet. lia.
      * lia.
      * unfold MAX_REMAINING in Hmax. cbn. lia.
  - apply (readnb_length_step h body junk buf0); try done. lia.
  - apply (readnb_body_step h body junk buf0); try done. lia.
Qed.

(** The caller, which calls again for as long as the answer is 0. *)
Fixpoint readnb_all (calls : nat) (buf : list Z) (buflen : Z) (trp : MQTTTransport)
  : M S (Z * list Z * MQTTTransport) :=
  match calls with
  | O => no_fuel
  | Datatypes.S calls =>
      '(rc, buf, trp) ← MQTTPacket_readnb buf buflen trp;
      if rc =? 0 then readnb_all calls buf buflen trp else mret (rc, buf, trp)
  end.

(** C15: a caller of MQTTPacket_readnb that calls again for as long as the answer is 0 gets
    the type of the packet (not 0, which MQTT does not use) and exactly its bytes in the buffer,
    in whatever pieces the packet arrives and wherever in it the caller starts, and the source is
    left at the byte after it: every call makes progress, so one call more than the source has bytes and empty answers
    is enough. *)
Theorem MQTTPacket_readnb_reads h body junk buf0 buf buflen n trp s calls :
  source → lively → len body ≤ MAX_REMAINING → len (packet h body) ≤ buflen → buflen ≤ len buf0 →
  header_type h ≠ 0 → reading h body junk buf0 n s trp buf → (idle s + n < calls)%nat →
  ∃ trp' s', readnb_all calls buf buflen trp s =
    Ok ((header_type h, over (packet h body) buf0, trp'), s') ∧ t_state trp' = 0 ∧ R s' junk.
Proof.
  intros Hg Hlv Hmax Hb Hl Hh. revert n s trp buf. induction calls as [|calls IH]; intros n s trp buf Hr Hc; [lia|].
  cbn [readnb_all].
  destruct (MQTTPacket_readnb_step h body junk buf0 buf buflen n trp s Hg Hlv Hmax Hb Hl Hr)
    as (rc & buf' & trp' & s' & E & [(-> & n' & Hr' & Hn)|(-> & -> & Hst & Hs')]);
    rewrite (run_bind _ _ _ _ _ E).
  - apply (IH n'); [done|lia].
  - destruct (Z.eqb_spec (header_type h) 0); [done|]. by exists trp', s'.
Qed.

End Stream.

(** ** The theorems at concrete sources *)

#[local] Existing Instance x86_64.

(** A source that holds all its bytes. *)
Definition ex_file : getfn (list Z) := λ n s,
  Ok ((len (take (Z.to_nat n) s), take (Z.to_nat n) s), drop (Z.to_nat n) s).

Lemma MQTTPacket_read_correct_witness :
  MQTTPacket_read ex_file [9; 9; 9; 9; 9; 9] 6 [48; 3; 1; 2; 3; 7] =
    Ok ((3, [48; 3; 1; 2; 3; 9]), [7]).
Proof.
  apply (MQTTPacket_read_correct ex_file 48 [1; 2; 3] [9; 9; 9; 9; 9; 9] 6 _ [3; 1; 2; 3; 7]
    [1; 2; 3; 7] [7]); [decide_by_vm..|reflexivity| |done|reflexivity].
  repeat econstructor.
Defined.

(** The source holds fewer bytes than the packet announces. *)
Lemma MQTTPacket_read_safe_witness :
  ∃ rc buf' s', MQTTPacket_read ex_file [9; 9; 9; 9; 9] 5 [48; 3; 1] = Ok ((rc, buf'), s') ∧
    length buf' = 5%nat ∧ -1 ≤ rc < 16.
Proof.
  apply (MQTTPacket_read_safe ex_file [9; 9; 9; 9; 9]); [|decide_by_vm..].
  intros n s Hn. eexists _, _, _. split; [reflexivity|]. rewrite length_take. split; [lia|].
  intros E T. apply (f_equal length) in T. rewrite length_take in T. cbn in T. lia.
Defined.

(** A source that says "call again" before every byte. *)
Definition ex_slow : getfn (bool * list Z) := λ n s,
  let '(ready, bs) := s in
  if ready : bool then Ok ((len (take 1 bs), take 1 bs), (false, drop 1 bs))
  else Ok ((0, []), (true, bs)).

Lemma ex_slow_source : source ex_slow (λ s bs, s.2 = bs).
Proof.
  intros [[] bs] ? n <- Hn; cbn [snd ex_slow].
  - exists (len (take 1 bs)), (false, drop 1 bs). rewrite length_take, Nat2Z.id.
    split; [lia|]. split; [lia|]. destruct bs; done.
  - exists 0, (true, bs). repeat split; lia || done.
Qed.

Lemma ex_slow_lively : lively ex_slow (λ s bs, s.2 = bs) (λ s, 2 * length s.2 + if s.1 then 0 else 1)%nat.
Proof.
  intros [[] ?] b bs n k cs s' [=] Hn [=]; subst; cbn [fst snd length take drop].
  - rewrite take_0, drop_0. change (Z.of_nat (S (length [])) =? 0) with false. cbv iota. lia.
  - change (0 =? 0) with true. cbv iota. lia.
Qed.

(** A packet of which the header and half of the body have been read. *)
Lemma MQTTPacket_readnb_reads_witness :
  ∃ trp' s', readnb_all ex_slow 9 (over [48; 4; 1; 2] (replicate 6 0)) 6 (Transport 128 2 4 2) (true, [3; 4; 7]) =
    Ok ((3, [48; 4; 1; 2; 3; 4], trp'), s') ∧ t_state trp' = 0 ∧ s'.2 = [7].
Proof.
  apply (MQTTPacket_readnb_reads ex_slow (λ s bs, s.2 = bs) (λ s, 2 * length s.2 + if s.1 then 0 else 1)%nat
    48 [1; 2; 3; 4] [7] (replicate 6 0) _ 6 2 (Transport 128 2 4 2) (true, [3; 4; 7]) 9).
  - exact ex_slow_source.
  - exact ex_slow_lively.
  - decide_by_vm.
  - decide_by_vm.
  - decide_by_vm.
  - done.
  - by apply (reading_body _ 48 [1; 2; 3; 4] [7] (replicate 6 0) [1; 2] [3; 4]).
  - decide_by_vm.
Defined.

(** A buffer shorter than five bytes is written past its end, whatever [buflen]. *)
Example read_short_buffer :
  MQTTPacket_read ex_file [0; 0] 2 [48; 255; 255; 127] = UB OutOfBounds.
Proof. vm_compute. reflexivity. Qed.
