(* ===== verification/Format.v ===== *)
(** * MQTTFormat.c: packets as text

    The functions that describe a packet in a string, for logging, and the
    part of snprintf they use. *)

From stdpp Require Import pretty.
From S2P Require Import Prelude CSem Wire Packet Connect Publish Subscribe.

(** ** snprintf *)

(** The pieces of the format strings: literal text, %d, %s and %.*s. *)
Inductive piece : Type :=
  | Text (s : String.string)
  | Dec (z : Z)
  | CStr (s : String.string)
  | Prec (n : Z) (p : option ptr).

(** At most [n] characters, up to a NUL. *)
Fixpoint until_nul (n : nat) (l : list Z) : outcome (list Z) :=
  match n with
  | O => Ok []
  | S n =>
      match l with
      | [] => UB OutOfBounds
      | x :: l => if x =? 0 then Ok [] else r ← until_nul n l; Ok (x :: r)
      end
  end.

Definition read_prec (n : Z) (p : option ptr) : outcome (list Z) :=
  match p with
  | None => UB NullPointer
  | Some p =>
      if off p <? 0 then UB OutOfBounds
      else
        let l := drop (Z.to_nat (off p)) (obj p) in
        (* a negative precision counts as none *)
        until_nul (if n <? 0 then S (length l) else Z.to_nat n) l
  end.

Definition expand_piece (x : piece) : outcome (list Z) :=
  match x with
  | Text s | CStr s => Ok (bytes_of s)
  | Dec z => Ok (bytes_of (pretty z))
  | Prec n p => read_prec n p
  end.

Fixpoint expand (f : list piece) : outcome (list Z) :=
  match f with
  | [] => Ok []
  | x :: f => a ← expand_piece x; b ← expand f; Ok (a ++ b)
  end.

Section Format.
Context `{CImpl}.

(** [snprintf(buf + pos, size, f)]: the length of the whole text; at most
    [size - 1] characters and a NUL are stored. The int [size] is converted to
    size_t. *)
Definition snprintf (buf : list Z) (pos size : Z) (f : list piece) : outcome (Z * list Z) :=
  text ← expand f;
  let n := to_size size in
  buf ← (if n =? 0 then Ok buf
         else store_bytes buf pos (take (Z.to_nat (n - 1)) text ++ [0]));
  Ok (len text, buf).

(** ** The code *)

Definition MQTTPacket_names : list String.string :=
  ["RESERVED"; "CONNECT"; "CONNACK"; "PUBLISH"; "PUBACK"; "PUBREC"; "PUBREL";
   "PUBCOMP"; "SUBSCRIBE"; "SUBACK"; "UNSUBSCRIBE"; "UNSUBACK";
   "PINGREQ"; "PINGRESP"; "DISCONNECT"]%string.

Definition MQTTPacket_getName (packetid : Z) : outcome String.string :=
  arr_get MQTTPacket_names packetid.

(** [strindex += snprintf(&strbuf[strindex], strbuflen - strindex, ...)] *)
Definition append (strbuf : list Z) (strbuflen strindex : Z) (f : list piece)
  : outcome (Z * list Z) :=
  '(n, strbuf) ← snprintf strbuf strindex (strbuflen - strindex) f;
  Ok (strindex + n, strbuf).

Definition lenstr (s : MQTTString) : piece := Prec (ls_len (lenstring s)) (ls_data (lenstring s)).

Definition MQTTStringFormat_connect (strbuf : list Z) (strbuflen : Z)
    (data : MQTTPacket_connectData) : outcome (Z * list Z) :=
  '(strindex, strbuf) ← snprintf strbuf 0 strbuflen
    [Text "CONNECT MQTT version "; Dec (MQTTVersion data); Text ", client id ";
     lenstr (clientID data); Text ", clean session "; Dec (cleansession data);
     Text ", keep alive "; Dec (keepAliveInterval data)];
  '(strindex, strbuf) ← (
    if truth (willFlag data) then
      append strbuf strbuflen strindex
        [Text ", will QoS "; Dec (qos (will data)); Text ", will retain ";
         Dec (retained (will data)); Text ", will topic "; lenstr (topicName (will data));
         Text ", will message "; lenstr (message (will data))]
    else Ok (strindex, strbuf));
  '(strindex, strbuf) ← (
    if nonnull (ls_data (lenstring (username data))) && (0 <? ls_len (lenstring (username data)))
    then append strbuf strbuflen strindex [Text ", user name "; lenstr (username data)]
    else Ok (strindex, strbuf));
  if nonnull (ls_data (lenstring (password data))) && (0 <? ls_len (lenstring (password data)))
  then append strbuf strbuflen strindex [Text ", password "; lenstr (password data)]
  else Ok (strindex, strbuf).

Definition MQTTStringFormat_connack (strbuf : list Z) (strbuflen connack_rc sessionPresent : Z)
  : outcome (Z * list Z) :=
  snprintf strbuf 0 strbuflen
    [Text "CONNACK session present "; Dec sessionPresent; Text ", rc "; Dec connack_rc].

Definition MQTTStringFormat_publish (strbuf : list Z) (strbuflen : Z)
    (dup qos retained packetid : Z) (topicName : MQTTString) (payload : option ptr)
    (payloadlen : Z) : outcome (Z * list Z) :=
  let topiclen := ls_len (lenstring topicName) in
  snprintf strbuf 0 strbuflen
    [Text "PUBLISH dup "; Dec dup; Text ", QoS "; Dec qos; Text ", retained "; Dec retained;
     Text ", packet id "; Dec packetid; Text ", topic ";
     Prec (if topiclen <? 20 then topiclen else 20) (ls_data (lenstring topicName));
     Text ", payload length "; Dec payloadlen; Text ", payload ";
     Prec (if payloadlen <? 20 then payloadlen else 20) payload].

Definition MQTTStringFormat_ack (strbuf : list Z) (strbuflen packettype dup packetid : Z)
  : outcome (Z * list Z) :=
  name ← arr_get MQTTPacket_names packettype;
  '(strindex, strbuf) ← snprintf strbuf 0 strbuflen
    [CStr name; Text ", packet id "; Dec packetid];
  if truth dup then append strbuf strbuflen strindex [Text ", dup "; Dec dup]
  else Ok (strindex, strbuf).

Definition MQTTStringFormat_subscribe (strbuf : list Z) (strbuflen dup packetid count : Z)
    (topicFilters : list MQTTString) (requestedQoSs : list Z) : outcome (Z * list Z) :=
  t ← arr_get topicFilters 0;
  q ← arr_get requestedQoSs 0;
  snprintf strbuf 0 strbuflen
    [Text "SUBSCRIBE dup "; Dec dup; Text ", packet id "; Dec packetid; Text " count "; Dec count;
     Text " topic "; lenstr t; Text " qos "; Dec q].

Definition MQTTStringFormat_suback (strbuf : list Z) (strbuflen packetid count : Z)
    (grantedQoSs : list Z) : outcome (Z * list Z) :=
  q ← arr_get grantedQoSs 0;
  snprintf strbuf 0 strbuflen
    [Text "SUBACK packet id "; Dec packetid; Text " count "; Dec count; Text " granted qos "; Dec q].

Definition MQTTStringFormat_unsubscribe (strbuf : list Z) (strbuflen dup packetid count : Z)
    (topicFilters : list MQTTString) : outcome (Z * list Z) :=
  t ← arr_get topicFilters 0;
  snprintf strbuf 0 strbuflen
    [Text "UNSUBSCRIBE dup "; Dec dup; Text ", packet id "; Dec packetid; Text " count "; Dec count;
     Text " topic "; lenstr t].

(** The cases the two functions share; [o] is what their uninitialised locals
    hold. The result is the string buffer. *)
Definition format_publish (o : publish_out) (strbuf : list Z) (strbuflen : Z) (buf : list Z)
    (buflen : Z) : outcome (list Z) :=
  '(ok, r) ← MQTTDeserialize_publish
    (PublishOut (p_dup o) (p_qos o) (p_retained o) (p_packetid o) MQTTString_initializer
       (p_payload o) (p_payloadlen o)) buf buflen;
  if ok =? 1 then
    '(_, strbuf) ← MQTTStringFormat_publish strbuf strbuflen (p_dup r) (p_qos r) (p_retained r)
      (p_packetid r) (p_topicName r) (p_payload r) (p_payloadlen r);
    Ok strbuf
  else Ok strbuf.

Definition format_ack (o : publish_out) (strbuf : list Z) (strbuflen : Z) (buf : list Z)
    (buflen : Z) : outcome (list Z) :=
  '(ok, packettype, dup, packetid) ← MQTTDeserialize_ack (p_packetid o) buf buflen;
  if ok =? 1 then
    '(_, strbuf) ← MQTTStringFormat_ack strbuf strbuflen packettype dup packetid; Ok strbuf
  else Ok strbuf.

Definition format_name (type : Z) (strbuf : list Z) (strbuflen : Z) : outcome (list Z) :=
  name ← arr_get MQTTPacket_names type;
  '(_, strbuf) ← snprintf strbuf 0 strbuflen [CStr name]; Ok strbuf.

(** [header.byte = buf[0]; MQTTPacket_decodeBuf(&buf[1], &rem_length)]: the
    type. *)
Definition packet_type_of (buf : list Z) : outcome Z :=
  b ← load buf 0; _ ← MQTTPacket_decodeBuf (Ptr buf 1); Ok (header_type b).

Definition MQTTFormat_toClientString (o : publish_out) (strbuf : list Z) (strbuflen : Z)
    (buf : list Z) (buflen : Z) : outcome (list Z) :=
  type ← packet_type_of buf;
  if type =? CONNACK then
    '(ok, sessionPresent, connack_rc) ← MQTTDeserialize_connack (p_dup o) (p_retained o) buf buflen;
    if ok =? 1 then
      '(_, strbuf) ← MQTTStringFormat_connack strbuf strbuflen connack_rc sessionPresent; Ok strbuf
    else Ok strbuf
  else if type =? PUBLISH then format_publish o strbuf strbuflen buf buflen
  else if (type =? PUBACK) || (type =? PUBREC) || (type =? PUBREL) || (type =? PUBCOMP)
  then format_ack o strbuf strbuflen buf buflen
  else if type =? SUBACK then
    '(ok, packetid, count, granted) ←
      MQTTDeserialize_suback (p_packetid o) 1 0 [p_qos o] buf buflen;
    if ok =? 1 then
      '(_, strbuf) ← MQTTStringFormat_suback strbuf strbuflen packetid count granted; Ok strbuf
    else Ok strbuf
  else if type =? UNSUBACK then
    '(ok, packetid) ← MQTTDeserialize_unsuback (p_packetid o) buf buflen;
    if ok =? 1 then
      '(_, strbuf) ← MQTTStringFormat_ack strbuf strbuflen UNSUBACK 0 packetid; Ok strbuf
    else Ok strbuf
  else if (type =? PINGREQ) || (type =? PINGRESP) || (type =? DISCONNECT)
  then format_name type strbuf strbuflen
  else Ok strbuf.

(** [d]: what the uninitialised connect data holds. *)
Definition MQTTFormat_toServerString (o : publish_out) (d : MQTTPacket_connectData)
    (strbuf : list Z) (strbuflen : Z) (buf : list Z) (buflen : Z) : outcome (list Z) :=
  type ← packet_type_of buf;
  strbuf ← (
    if type =? CONNECT then
      '(rc, data) ← MQTTDeserialize_connect d buf buflen;
      if rc =? 1 then '(_, strbuf) ← MQTTStringFormat_connect strbuf strbuflen data; Ok strbuf
      else Ok strbuf
    else if type =? PUBLISH then format_publish o strbuf strbuflen buf buflen
    else if (type =? PUBACK) || (type =? PUBREC) || (type =? PUBREL) || (type =? PUBCOMP)
    then format_ack o strbuf strbuflen buf buflen
    else if type =? SUBSCRIBE then
      '(rc, dup, packetid, count, topicFilters, requestedQoSs) ←
        MQTTDeserialize_subscribe (p_dup o) (p_packetid o) 1 0 [p_topicName o] [p_qos o] buf buflen;
      if rc =? 1 then
        '(_, strbuf) ← MQTTStringFormat_subscribe strbuf strbuflen dup packetid count topicFilters
                          requestedQoSs; Ok strbuf
      else Ok strbuf
    else if type =? UNSUBSCRIBE then
      '(rc, dup, packetid, count, topicFilters) ←
        MQTTDeserialize_unsubscribe (p_dup o) (p_packetid o) 1 0 [p_topicName o] buf buflen;
      if rc =? 1 then
        '(_, strbuf) ← MQTTStringFormat_unsubscribe strbuf strbuflen dup packetid count topicFilters;
        Ok strbuf
      else Ok strbuf
    else if (type =? PINGREQ) || (type =? PINGRESP) || (type =? DISCONNECT)
    then format_name type strbuf strbuflen
    else Ok strbuf);
  store_bytes strbuf strbuflen [0].

(** ** What snprintf stores *)

Lemma snprintf_length buf pos size f n buf' :
  snprintf buf pos size f = Ok (n, buf') → length buf' = length buf.
Proof.
  unfold snprintf. intros E. apply bind_Ok_inv in E as (text & _ & E). cbv zeta in E.
  apply bind_Ok_inv in E as (b & E1 & E). injection E as _ <-.
  destruct (to_size size =? 0); [by injection E1 as <-|]. by eapply store_bytes_length.
Qed.

(** In bounds, it replaces a prefix of the room it is given. *)
Lemma snprintf_room pre room post f text :
  expand f = Ok text → len room ≤ INT_MAX →
  ∃ room', snprintf (pre ++ room ++ post) (len pre) (len room) f =
             Ok (len text, pre ++ room' ++ post) ∧ length room' = length room ∧
           (room ≠ [] → ∃ tl, room' = take (length room - 1) text ++ 0 :: tl).
Proof.
  intros E HI. unfold snprintf. rewrite (bind_Ok _ _ _ E). cbv zeta.
  assert (to_size (len room) = len room) as ->
    by (unfold to_size, INT_MAX in *; rewrite Z.mod_small by (destruct lp64; lia); done).
  destruct room as [|x room]; [exists []; split; [done|]; by split|].
  destruct (Z.eqb_spec (len (x :: room)) 0) as [|_]; [done|].
  set (txt := take _ text). pose (bs := txt ++ [0]).
  assert (Hb : (length bs ≤ length (x :: room))%nat)
    by (unfold bs, txt; rewrite length_app, length_take; cbn [length]; lia).
  exists (bs ++ drop (length bs) (x :: room)). fold bs. split; [|split].
  - rewrite <- (take_drop (length bs) (x :: room)) at 1. rewrite <- app_assoc.
    erewrite bind_Ok by (apply store_bytes_app; [done|rewrite length_take; lia]).
    by rewrite <- app_assoc.
  - rewrite length_app, length_drop. lia.
  - intros _. eexists. unfold bs, txt. rewrite <- app_assoc. cbn [app].
    repeat f_equal. cbn [length]. lia.
Qed.

(** ** MQTTStringFormat_ack *)

Definition ack_text (name : String.string) (packetid : Z) : list Z :=
  bytes_of name ++ bytes_of ", packet id " ++ bytes_of (pretty packetid).
Definition dup_text (dup : Z) : list Z := bytes_of ", dup " ++ bytes_of (pretty dup).

Lemma expand_ack name packetid :
  expand [CStr name; Text ", packet id "; Dec packetid] = Ok (ack_text name packetid).
Proof. cbn [expand expand_piece mbind outcome_bind]. unfold ack_text. by rewrite app_nil_r. Qed.

Lemma expand_dup dup : expand [Text ", dup "; Dec dup] = Ok (dup_text dup).
Proof. cbn [expand expand_piece mbind outcome_bind]. unfold dup_text. by rewrite app_nil_r. Qed.

(** The text of an acknowledgement stays in a string buffer of the stated length whenever
    the part before "dup" does; when it does not and dup is set, the second snprintf is given
    a negative size, which it takes for a huge one, and writes past the end of the buffer. *)
Theorem MQTTStringFormat_ack_bounds strbuf packettype name dup packetid :
  MQTTPacket_names !! Z.to_nat packettype = Some name → 0 ≤ packettype → len strbuf ≤ INT_MAX →
  len (ack_text name packetid) ≤ INT_MAX →
  if truth dup && (len strbuf <? len (ack_text name packetid))
  then MQTTStringFormat_ack strbuf (len strbuf) packettype dup packetid = UB OutOfBounds
  else ∃ strbuf', MQTTStringFormat_ack strbuf (len strbuf) packettype dup packetid =
         Ok (len (ack_text name packetid) + (if truth dup then len (dup_text dup) else 0), strbuf') ∧
       length strbuf' = length strbuf.
Proof.
  intros Hn Hp HI HT. unfold MQTTStringFormat_ack.
  rewrite (bind_Ok _ _ name) by (unfold arr_get; ztest; by rewrite Hn).
  destruct (snprintf_room [] strbuf [] _ _ (expand_ack name packetid) HI)
    as (b1 & E1 & L1 & _).
  rewrite !app_nil_r in E1. cbn [app] in E1. change (len (@nil Z)) with 0 in E1.
  rewrite (bind_Ok _ _ _ E1). destruct (truth dup); cbn [andb];
    [|eexists; split; [by rewrite Z.add_0_r|done]].
  unfold append. destruct (Z.ltb_spec (len strbuf) (len (ack_text name packetid))) as [Hs|Hs].
  - apply bind_UB. unfold snprintf. rewrite (bind_Ok _ _ _ (expand_dup dup)). cbv zeta.
    destruct (Z.eqb_spec (to_size (len strbuf - len (ack_text name packetid))) 0) as [E0|].
    + exfalso. unfold to_size, INT_MAX in *. destruct lp64; lia.
    + apply bind_UB. unfold store_bytes. destruct (take _ _ ++ [0]) eqn:Et; [by destruct (take _ _)|].
      cbn [length]. ztests; done.
  - assert (Hd : b1 = take (length (ack_text name packetid)) b1 ++
      drop (length (ack_text name packetid)) b1 ++ []) by (by rewrite app_nil_r, take_drop).
    destruct (snprintf_room (take (length (ack_text name packetid)) b1)
      (drop (length (ack_text name packetid)) b1) [] _ _ (expand_dup dup)) as (b2 & E2 & L2 & _).
    { rewrite length_drop. lia. }
    rewrite <- Hd in E2. rewrite length_take, length_drop in E2.
    replace (Z.of_nat (_ `min` _)) with (len (ack_text name packetid)) in E2 by lia.
    replace (Z.of_nat (length b1 - _)) with (len strbuf - len (ack_text name packetid)) in E2 by lia.
    rewrite (bind_Ok _ _ _ E2). eexists. split; [done|].
    rewrite !length_app, length_take, L2, length_drop. cbn [length]. lia.
Qed.

(** ** The terminator of MQTTFormat_toServerString *)

Lemma append_length strbuf n i f j strbuf' :
  append strbuf n i f = Ok (j, strbuf') → length strbuf' = length strbuf.
Proof.
  unfold append. intros E. apply bind_Ok_inv in E as ([k b] & E1 & E). injection E as _ <-.
  by eapply snprintf_length.
Qed.



(** [holds_len p s o]: where [o] has a result, the string buffer [p] finds in it is
    as long as [s]. *)
Definition holds_len {A} (p : A → list Z) (s : list Z) (o : outcome A) : Prop :=
  ∀ a, o = Ok a → length (p a) = length s.

Lemma holds_len_Ok {A} (p : A → list Z) s a : length (p a) = length s → holds_len p s (Ok a).
Proof. by intros ? ? [= <-]. Qed.

Lemma holds_len_snprintf strbuf pos size f : holds_len snd strbuf (snprintf strbuf pos size f).
Proof. intros [n b] E. by apply snprintf_length in E. Qed.

Lemma holds_len_append strbuf n i f : holds_len snd strbuf (append strbuf n i f).
Proof. intros [j b] E. by apply append_length in E. Qed.

Lemma holds_len_bind {A B} (p : A → list Z) (q : B → list Z) s m (f : A → outcome B) :
  holds_len p s m → (∀ a, holds_len q (p a) (f a)) → holds_len q s (m ≫= f).
Proof.
  intros Hm Hf b E. apply bind_Ok_inv in E as (a & E1 & E2).
  rewrite (Hf a b E2). by apply Hm.
Qed.

(** A step that has no string buffer. *)
Lemma holds_len_pass {A B} (q : B → list Z) s (m : outcome A) (f : A → outcome B) :
  (∀ a, holds_len q s (f a)) → holds_len q s (m ≫= f).
Proof. intros Hf b E. apply bind_Ok_inv in E as (a & _ & E). by apply (Hf a b). Qed.

Create HintDb holds_len.
#[local] Hint Resolve holds_len_snprintf holds_len_append : holds_len.

Ltac holds_len_step :=
  match goal with
  | |- holds_len _ _ (Ok _) => by apply holds_len_Ok
  | |- holds_len _ _ (if ?b then _ else _) => destruct b
  | |- holds_len _ _ (let '(_, _) := ?x in _) => destruct x; cbn [snd]
  | |- holds_len _ ?s (@mbind _ _ (Z * list Z) _ _ _) =>
      apply (holds_len_bind snd); [|intros [? ?]; cbn [snd]]
  | |- holds_len _ ?s (@mbind _ _ (list Z) _ _ _) => apply (holds_len_bind id); [|intros ?; unfold id]
  | |- holds_len _ _ (mbind _ _) => apply holds_len_pass; intros ?
  end.
Ltac holds_len_all := repeat first [solve [eauto with holds_len] | holds_len_step].

Lemma holds_len_connect strbuf n d : holds_len snd strbuf (MQTTStringFormat_connect strbuf n d).
Proof. unfold MQTTStringFormat_connect. holds_len_all. Qed.

Lemma holds_len_publish strbuf n a b c d t p l :
  holds_len snd strbuf (MQTTStringFormat_publish strbuf n a b c d t p l).
Proof. apply holds_len_snprintf. Qed.

Lemma holds_len_ack strbuf n a b c : holds_len snd strbuf (MQTTStringFormat_ack strbuf n a b c).
Proof. unfold MQTTStringFormat_ack. holds_len_all. Qed.

Lemma holds_len_subscribe strbuf n a b c ts qs :
  holds_len snd strbuf (MQTTStringFormat_subscribe strbuf n a b c ts qs).
Proof. unfold MQTTStringFormat_subscribe. holds_len_all. Qed.

Lemma holds_len_unsubscribe strbuf n a b c ts :
  holds_len snd strbuf (MQTTStringFormat_unsubscribe strbuf n a b c ts).
Proof. unfold MQTTStringFormat_unsubscribe. holds_len_all. Qed.

#[local] Hint Resolve holds_len_connect holds_len_publish holds_len_ack holds_len_subscribe holds_len_unsubscribe : holds_len.

Lemma holds_len_format_publish o strbuf n buf l : holds_len id strbuf (format_publish o strbuf n buf l).
Proof. unfold format_publish. holds_len_all. Qed.

Lemma holds_len_format_ack o strbuf n buf l : holds_len id strbuf (format_ack o strbuf n buf l).
Proof. unfold format_ack. holds_len_all. Qed.

Lemma holds_len_format_name t strbuf n : holds_len id strbuf (format_name t strbuf n).
Proof. unfold format_name. holds_len_all. Qed.

#[local] Hint Resolve holds_len_format_publish holds_len_format_ack holds_len_format_name : holds_len.

(** MQTTFormat_toServerString returns only for a string buffer larger than the size it is
    told: it ends by storing the terminator at strbuf[strbuflen], whatever the packet is. *)
Theorem MQTTFormat_toServerString_overruns o d strbuf strbuflen buf buflen strbuf' :
  MQTTFormat_toServerString o d strbuf strbuflen buf buflen = Ok strbuf' →
  0 ≤ strbuflen < len strbuf ∧ strbuf' !! Z.to_nat strbuflen = Some 0.
Proof.
  unfold MQTTFormat_toServerString. intros E. apply bind_Ok_inv in E as (type & _ & E).
  apply bind_Ok_inv in E as (b & E1 & E).
  assert (L : length b = length strbuf).
  { revert E1. change b with (id b). match goal with |- ?m = Ok _ → _ => assert (K : holds_len id strbuf m) end;
      [|by apply K]. holds_len_all. }
  unfold store_bytes in E. cbn [length] in E. revert E. ztest; [|done]. ztest; [|done].
  intros [= <-]. split; [lia|]. rewrite lookup_app_r by (rewrite length_take; lia).
  rewrite length_take. by replace (Z.to_nat strbuflen - _)%nat with 0%nat by lia.
Qed.

End Format.

(** ** Witnesses *)

#[local] Existing Instance esp32.

(** "PUBACK, packet id 7" in a buffer of ten bytes. *)
Lemma MQTTStringFormat_ack_bounds_witness :
  MQTTStringFormat_ack (replicate 10 1) 10 PUBACK 1 7 = UB OutOfBounds.
Proof.
  apply (MQTTStringFormat_ack_bounds (replicate 10 1) PUBACK "PUBACK"%string 1 7);
    [reflexivity|decide_by_vm..].
Defined.

(** A PINGREQ. *)
Lemma MQTTFormat_toServerString_overruns_witness :
  0 ≤ 10 < len (replicate 12 1) ∧
  [80; 73; 78; 71; 82; 69; 81; 0; 1; 1; 0; 1] !! Z.to_nat 10 = Some 0.
Proof.
  apply (MQTTFormat_toServerString_overruns
    (PublishOut 0 0 0 0 MQTTString_initializer None 0) MQTTPacket_connectData_initializer
    (replicate 12 1) 10 [192; 0] 2).
  vm_compute. reflexivity.
Defined.
