(* ===== verification/Topics.v ===== *)
(** * isTopicMatched (MQTTClient.c): topic filters

    The character loop of the client, and its equivalence with matching level
    by level. *)

From S2P Require Import Prelude CSem Wire Packet.

(** ** The code *)

Definition SLASH : Z := 47.
Definition PLUS : Z := 43.
Definition HASH : Z := 35.

(** [while (nextpos < curn_end && *nextpos != '/') nextpos = ++curn + 1;] with
    [nextpos = curn + 1]; [fuel] bounds the characters left. *)
Fixpoint skip_level (fuel : nat) (data : option ptr) (curn curn_end : Z) : outcome Z :=
  match fuel with
  | O => NoFuel
  | S fuel =>
      if curn + 1 <? curn_end then
        x ← ptr_load data (curn + 1);
        if negb (x =? SLASH) then skip_level fuel data (curn + 1) curn_end else Ok curn
      else Ok curn
  end.

(** The while loop of isTopicMatched, [curf] and [curn] as indices, and the
    test it ends with. *)
Fixpoint isTopicMatched_loop (fuel : nat) (filter data : option ptr) (curf curn curn_end : Z)
  : outcome bool :=
  match fuel with
  | O => NoFuel
  | S fuel =>
      f ← ptr_load filter curf;
      if truth f && (curn <? curn_end) then
        n ← ptr_load data curn;
        if (n =? SLASH) && negb (f =? SLASH) then Ok ((curn =? curn_end) && (f =? 0))
        else if negb (f =? PLUS) && negb (f =? HASH) && negb (f =? n)
        then Ok ((curn =? curn_end) && (f =? 0))
        else
          curn ← (if f =? PLUS
                  then skip_level (Datatypes.S (Z.to_nat (curn_end - curn))) data curn curn_end
                  else if f =? HASH then Ok (curn_end - 1)
                  else Ok curn);
          isTopicMatched_loop fuel filter data (curf + 1) (curn + 1) curn_end
      else Ok ((curn =? curn_end) && (f =? 0))
  end.

(** Each iteration advances [curf] in the filter and it stops at its NUL. *)
Definition isTopicMatched (filter : option ptr) (topicName : MQTTString) : outcome bool :=
  n ← strlen filter;
  isTopicMatched_loop (Datatypes.S (Z.to_nat n)) filter (ls_data (lenstring topicName))
    0 0 (ls_len (lenstring topicName)).


(** ** Reference: matching level by level *)

Fixpoint levels (s : list Z) : list (list Z) :=
  match s with
  | [] => [[]]
  | c :: s =>
      if c =? SLASH then [] :: levels s
      else match levels s with l :: ls => (c :: l) :: ls | [] => [[c]] end
  end.

(** A + level stands for one non-empty level, a final # for a non-empty level
    and everything after it. (MQTT lets both stand for empty levels as well,
    and # for none at all.) *)
Fixpoint match_levels (fs ls : list (list Z)) : bool :=
  match fs, ls with
  | [], [] => true
  | f :: fs, l :: ls =>
      if bool_decide (f = [HASH]) then bool_decide (l ≠ [])
      else (bool_decide (f = l) || bool_decide (f = [PLUS]) && bool_decide (l ≠ [])) &&
           match_levels fs ls
  | _, _ => false
  end.

Definition plain (c : Z) : Prop := c ≠ SLASH ∧ c ≠ PLUS ∧ c ≠ HASH.

(** The topic filters the code assumes: a wildcard is alone in its level, and
    # is the last level. *)
Fixpoint filter_ok (fs : list (list Z)) : Prop :=
  match fs with
  | [] => True
  | [f] => f = [PLUS] ∨ f = [HASH] ∨ Forall plain f
  | f :: fs => (f = [PLUS] ∨ Forall plain f) ∧ filter_ok fs
  end.

(** ** The loop on lists of characters *)

Fixpoint skip (n : list Z) : list Z :=
  match n with [] => [] | x :: n' => if x =? SLASH then n else skip n' end.

Fixpoint tm (f n : list Z) : bool :=
  match f, n with
  | [], [] => true
  | [], _ :: _ => false
  | _ :: _, [] => false
  | c :: f, x :: n =>
      if (x =? SLASH) && negb (c =? SLASH) then false
      else if negb (c =? PLUS) && negb (c =? HASH) && negb (c =? x) then false
      else tm f (if c =? PLUS then skip n else if c =? HASH then [] else n)
  end.

Lemma skip_suffix n : ∃ p, n = p ++ skip n.
Proof.
  induction n as [|x n [p IH]]; [by exists []|]. cbn [skip].
  destruct (x =? SLASH); [by exists []|]. exists (x :: p). cbn. by f_equal.
Qed.

Lemma ptr_load_mem p bs k x :
  mem_read p (len bs) = Ok bs → bs !! k = Some x → ptr_load p (Z.of_nat k) = Ok x.
Proof.
  intros E Hk. pose proof (lookup_lt_Some _ _ _ Hk). unfold mem_read in E.
  destruct (Z.eqb_spec (len bs) 0); [lia|]. destruct p as [p|]; [|done].
  destruct (load_bytes_inv _ _ _ _ E) as (Ho & _ & _ & tl & Ed); [done|].
  unfold ptr_load, load. ztest.
  replace (Z.to_nat (off p + Z.of_nat k)) with (Z.to_nat (off p) + k)%nat by lia.
  by rewrite <- lookup_drop, Ed, lookup_app_l, Hk by done.
Qed.

Lemma ptr_load_cstr p f k x :
  cstr p f → (f ++ [0]) !! k = Some x → ptr_load (Some p) (Z.of_nat k) = Ok x.
Proof.
  intros (Ho & _ & _ & tl & Ed) Hk. unfold ptr_load, load. ztest.
  replace (Z.to_nat (off p + Z.of_nat k)) with (Z.to_nat (off p) + k)%nat by lia.
  rewrite <- lookup_drop, Ed. change (0 :: tl) with ([0] ++ tl).
  by rewrite app_assoc, (lookup_app_l_Some _ _ _ _ Hk).
Qed.

Section Loop.
Context (data : option ptr) (topic : list Z).
Context (Hd : mem_read data (len topic) = Ok topic).

Lemma skip_level_at fuel pre x n :
  topic = pre ++ x :: n → (length n < fuel)%nat →
  skip_level fuel data (len pre) (len topic) = Ok (len topic - len (skip n) - 1).
Proof.
  revert pre x n. induction fuel as [|fuel IH]; intros pre x n Et Hf; [lia|].
  assert (L : len topic = len pre + 1 + len n) by (rewrite Et; autorewrite with lens; lia).
  cbn [skip_level]. destruct n as [|y n]; cbn [length skip] in *; ztest; [f_equal; lia|].
  rewrite (bind_Ok _ _ y).
  2:{ replace (len pre + 1) with (Z.of_nat (S (length pre))) by lia.
      apply (ptr_load_mem _ topic); [done|]. rewrite Et.
      rewrite lookup_app_r by lia. by replace (S (length pre) - length pre)%nat with 1%nat by lia. }
  destruct (Z.eqb_spec y SLASH); cbn [negb]; [cbn [length]; f_equal; lia|].
  replace (len pre + 1) with (len (pre ++ [x])) by (autorewrite with lens; cbn; lia).
  apply (IH _ y n); [by rewrite <- app_assoc|lia].
Qed.

Context (p : ptr) (filter : list Z) (Hp : cstr p filter).

Lemma isTopicMatched_loop_tm fuel fpre f npre n :
  filter = fpre ++ f → topic = npre ++ n → (length f < fuel)%nat →
  isTopicMatched_loop fuel (Some p) data (len fpre) (len npre) (len topic) = Ok (tm f n).
Proof.
  revert fpre f npre n. induction fuel as [|fuel IH]; intros fpre f npre n Ef Et Hf; [lia|].
  assert (L : len topic = len npre + len n) by (rewrite Et; autorewrite with lens; lia).
  cbn [isTopicMatched_loop]. destruct f as [|c f].
  { rewrite (bind_Ok _ _ 0).
    2:{ apply (ptr_load_cstr _ _ _ _ Hp). rewrite Ef, app_nil_r. by apply list_lookup_middle. }
    cbn [truth Z.eqb negb andb]. rewrite andb_true_r. f_equal.
    destruct n; cbn [tm length] in *; ztest; done. }
  assert (Hc : c ≠ 0).
  { destruct Hp as (_ & F & _). rewrite Ef in F. apply Forall_app in F as [_ F].
    apply Forall_cons_1 in F as [[_ ?] _]. done. }
  rewrite (bind_Ok _ _ c).
  2:{ apply (ptr_load_cstr _ _ _ _ Hp). rewrite Ef, <- app_assoc. by apply list_lookup_middle. }
  rewrite (truth_nonzero _ Hc). cbn [andb].
  assert (Stop : ∀ z, Ok ((z =? len topic) && (c =? 0)) = Ok false)
    by (intros; destruct (Z.eqb_spec c 0); [done|by rewrite andb_false_r]).
  destruct n as [|x n]; cbn [length tm] in *; ztest; [apply Stop|].
  rewrite (bind_Ok _ _ x).
  2:{ apply (ptr_load_mem _ topic); [done|]. rewrite Et. by apply list_lookup_middle. }
  destruct (_ && _); [apply Stop|]. destruct (_ && _); [apply Stop|].
  assert (Next : ∀ npre' n', topic = npre' ++ n' →
    isTopicMatched_loop fuel (Some p) data (len fpre + 1) (len npre') (len topic) = Ok (tm f n')).
  { intros npre' n' E. replace (len fpre + 1) with (len (fpre ++ [c]))
      by (autorewrite with lens; cbn; lia).
    apply IH; [by rewrite <- app_assoc|done|cbn in Hf; lia]. }
  destruct (c =? PLUS).
  - rewrite (bind_Ok _ _ _ (skip_level_at (S (Z.to_nat (len topic - len npre))) npre x n Et
      ltac:(cbn [length] in *; lia))).
    destruct (skip_suffix n) as [q Eq]. rewrite <- (Next (npre ++ x :: q) (skip n)).
    + apply (f_equal length) in Eq. rewrite length_app in Eq.
      f_equal. autorewrite with lens. lia.
    + rewrite <- app_assoc. cbn. by rewrite <- Eq.
  - destruct (c =? HASH); cbn [mbind outcome_bind].
    + replace (len topic - 1 + 1) with (len topic) by lia. apply Next. by rewrite app_nil_r.
    + replace (len npre + 1) with (len (npre ++ [x])) by (autorewrite with lens; cbn; lia).
      apply Next. by rewrite <- app_assoc.
Qed.

End Loop.

(** ** The loop against the reference *)

(** What follows a level: nothing, or a separator. *)
Definition level_end (r : list Z) : Prop := r = [] ∨ ∃ r', r = SLASH :: r'.

Lemma tm_literal f fs l ls :
  Forall plain f → Forall (λ c, c ≠ SLASH) l → level_end fs → level_end ls →
  tm (f ++ fs) (l ++ ls) = bool_decide (f = l) && tm fs ls.
Proof.
  intros Ff. revert l. induction Ff as [|c f (Hs & Hp & Hh) _ IH]; intros [|x l] Fl Ef El; cbn [app].
  - done.
  - apply Forall_cons_1 in Fl as [Hx _]. rewrite bool_decide_eq_false_2 by done. cbn [andb].
    destruct Ef as [-> | [fs' ->]]; [done|]. cbn [tm].
    destruct (Z.eqb_spec x SLASH); [done|]. by destruct (Z.eqb_spec SLASH x).
  - rewrite bool_decide_eq_false_2 by done. destruct El as [-> | [ls' ->]]; [done|].
    cbn [tm andb]. destruct (Z.eqb_spec c SLASH); [done|]. done.
  - apply Forall_cons_1 in Fl as [Hx Fl]. cbn [tm].
    destruct (Z.eqb_spec x SLASH); [done|]. destruct (Z.eqb_spec c PLUS); [done|].
    destruct (Z.eqb_spec c HASH); [done|]. cbn [andb negb].
    destruct (Z.eqb_spec c x) as [->|N]; cbn [negb].
    + rewrite IH by done. f_equal. apply bool_decide_ext. split; [by intros ->|by intros [= ->]].
    + rewrite bool_decide_eq_false_2 by congruence. done.
Qed.

Lemma skip_level_end l ls :
  Forall (λ c, c ≠ SLASH) l → level_end ls → skip (l ++ ls) = ls.
Proof.
  intros Fl El. induction Fl as [|x l Hx _ IH]; cbn [app skip].
  - by destruct El as [-> | [ls' ->]].
  - by destruct (Z.eqb_spec x SLASH).
Qed.

Lemma tm_plus fs l ls :
  Forall (λ c, c ≠ SLASH) l → level_end ls →
  tm (PLUS :: fs) (l ++ ls) = bool_decide (l ≠ []) && tm fs ls.
Proof.
  intros Fl El. destruct l as [|x l]; cbn [app].
  - rewrite bool_decide_eq_false_2 by auto. by destruct El as [-> | [ls' ->]].
  - apply Forall_cons_1 in Fl as [Hx Fl]. rewrite bool_decide_eq_true_2 by done.
    cbn [tm]. destruct (Z.eqb_spec x SLASH); [done|]. cbn. by rewrite skip_level_end.
Qed.

Lemma tm_hash l ls :
  Forall (λ c, c ≠ SLASH) l → level_end ls → tm [HASH] (l ++ ls) = bool_decide (l ≠ []).
Proof.
  intros Fl El. destruct l as [|x l]; cbn [app].
  - rewrite bool_decide_eq_false_2 by auto. by destruct El as [-> | [ls' ->]].
  - apply Forall_cons_1 in Fl as [Hx Fl]. rewrite bool_decide_eq_true_2 by done.
    cbn [tm]. by destruct (Z.eqb_spec x SLASH).
Qed.

(** The levels joined again. *)
Fixpoint join (ls : list (list Z)) : list Z :=
  match ls with [] => [] | [l] => l | l :: ls => l ++ SLASH :: join ls end.

Lemma levels_cons s : ∃ l ls, levels s = l :: ls.
Proof.
  induction s as [|c s (l & ls & E)]; [by exists [], []|]. cbn [levels].
  rewrite E. destruct (c =? SLASH); eauto.
Qed.

Lemma join_levels s : join (levels s) = s.
Proof.
  induction s as [|c s IH]; [done|]. cbn [levels]. destruct (levels_cons s) as (l & ls & E).
  rewrite E in *. destruct (Z.eqb_spec c SLASH) as [->|]; [cbn [join app]; by f_equal|].
  destruct ls; cbn [join app] in *; by f_equal.
Qed.

Lemma levels_no_slash s : Forall (Forall (λ c, c ≠ SLASH)) (levels s).
Proof.
  induction s as [|c s IH]; [repeat constructor|]. cbn [levels].
  destruct (levels_cons s) as (l & ls & E). rewrite E in *.
  destruct (Z.eqb_spec c SLASH); [by constructor|].
  apply Forall_cons_1 in IH as [? ?]. constructor; [by constructor|done].
Qed.

Lemma join_end l ls :
  ∃ r, join (l :: ls) = l ++ r ∧ level_end r ∧
       r = match ls with [] => [] | _ => SLASH :: join ls end.
Proof.
  destruct ls as [|l' ls].
  - exists []. rewrite app_nil_r. split; [done|]. split; [by left|done].
  - eexists. split; [reflexivity|]. split; [right; eauto|done].
Qed.

Lemma tm_tail fs ls :
  tm (match fs with [] => [] | _ => SLASH :: join fs end)
     (match ls with [] => [] | _ => SLASH :: join ls end) =
  match fs, ls with [], [] => true | [], _ | _, [] => false | _, _ => tm (join fs) (join ls) end.
Proof. by destruct fs, ls. Qed.

Lemma tm_levels fs ls :
  filter_ok fs → Forall (Forall (λ c, c ≠ SLASH)) ls → fs ≠ [] → ls ≠ [] →
  tm (join fs) (join ls) = match_levels fs ls.
Proof.
  revert ls. induction fs as [|f fs IH]; [done|]. intros [|l ls] Hf Fl _ Nl; [done|].
  apply Forall_cons_1 in Fl as [Hl Fl].
  destruct (join_end f fs) as (rf & -> & Ef & Hrf). destruct (join_end l ls) as (rl & -> & El & Hrl).
  cbn [match_levels].
  assert (Hf' : (f = [HASH] ∧ fs = []) ∨ (f ≠ [HASH] ∧ (f = [PLUS] ∨ Forall plain f) ∧ filter_ok fs)).
  { assert (Hne : f = [PLUS] ∨ Forall plain f → f ≠ [HASH]).
    { intros [-> | F] E; [done|]. subst f. apply Forall_cons_1 in F as [(_ & _ & N) _]. done. }
    destruct fs; cbn [filter_ok] in Hf; 
      [|destruct Hf as [H1 H2]; right; split; [by apply Hne|split; [exact H1|exact H2]]].
    destruct Hf as [?|[?|?]]; [right|by left|right]; (split; [by apply Hne; auto|split; [auto|exact I]]). }
  destruct Hf' as [[-> ->]|(Nf & Hcase & Hok)].
  - rewrite bool_decide_eq_true_2, Hrf, app_nil_r by done. by apply tm_hash.
  - rewrite (bool_decide_eq_false_2 (f = [HASH])) by done.
    assert (Tail : tm rf rl = match_levels fs ls).
    { rewrite Hrf, Hrl, tm_tail. destruct fs as [|f' fs], ls as [|l' ls]; try done.
      by apply IH. }
    rewrite <- Tail. destruct Hcase as [-> | F].
    + cbn [app]. rewrite tm_plus by done. f_equal.
      rewrite (bool_decide_eq_true_2 ([PLUS] = [PLUS])) by done. cbn [andb].
      destruct (decide ([PLUS] = l)) as [<-|N]; [done|]. by rewrite (bool_decide_eq_false_2 ([PLUS] = l)).
    + rewrite tm_literal by done. f_equal.
      rewrite (bool_decide_eq_false_2 (f = [PLUS])), andb_false_l, orb_false_r; [done|].
      intros ->. apply Forall_cons_1 in F as [(_ & N & _) _]. done.
Qed.

(** C7: isTopicMatched is total on a filter that is a C string and a topic name with its
    length, and for filters whose wildcards are alone in their level it decides matching
    level by level: + is one non-empty level, # one non-empty level and all that follow. *)
Theorem isTopicMatched_refines p t f n :
  cstr p f → denotes t n → cstring t = None → filter_ok (levels f) →
  isTopicMatched (Some p) t = Ok (match_levels (levels f) (levels n)).
Proof.
  intros Hp (_ & _ & Ht) Hc Hf. rewrite Hc in Ht. destruct Ht as [Hl Hm].
  unfold isTopicMatched. rewrite (bind_Ok _ _ _ (strlen_cstr _ _ Hp)), Hl.
  pose proof (isTopicMatched_loop_tm (ls_data (lenstring t)) n Hm p f Hp
    (S (Z.to_nat (len f))) [] f [] n eq_refl eq_refl ltac:(lia)) as E.
  change (len (@nil Z)) with 0 in E. rewrite E. f_equal.
  destruct (levels_cons f) as (l & ls & Ef), (levels_cons n) as (l' & ls' & En).
  rewrite <- (tm_levels (levels f) (levels n)), !join_levels;
    [done|done|apply levels_no_slash|by rewrite Ef|by rewrite En].
Qed.

(** Matching never fails, whatever the filter holds. *)
Lemma isTopicMatched_defined p t f n :
  cstr p f → denotes t n → cstring t = None → isTopicMatched (Some p) t = Ok (tm f n).
Proof.
  intros Hp (_ & _ & Ht) Hc. rewrite Hc in Ht. destruct Ht as [Hl Hm].
  unfold isTopicMatched. rewrite (bind_Ok _ _ _ (strlen_cstr _ _ Hp)), Hl.
  pose proof (isTopicMatched_loop_tm (ls_data (lenstring t)) n Hm p f Hp
    (S (Z.to_nat (len f))) [] f [] n eq_refl eq_refl ltac:(lia)) as E. exact E.
Qed.

(** ** The theorem at concrete topics *)

Definition matches (f n : String.string) : bool :=
  match_levels (levels (bytes_of f)) (levels (bytes_of n)).

Lemma isTopicMatched_refines_witness :
  isTopicMatched (Some (c_string (bytes_of "sport/+/player/#"%string)))
    (of_data (bytes_of "sport/tennis/player/1/x"%string)) = Ok true.
Proof.
  apply (isTopicMatched_refines _ _ (bytes_of "sport/+/player/#"%string)
    (bytes_of "sport/tennis/player/1/x"%string)).
  - apply c_string_cstr; decide_by_vm.
  - apply of_data_denotes; decide_by_vm.
  - reflexivity.
  - split; [right; repeat constructor; discriminate|].
    split; [by left|]. split; [right; repeat constructor; discriminate|]. right. by left.
Defined.

Example matches_examples :
  [matches "+/+" "a/b"; matches "+" "a/b"; matches "a/#" "a"; matches "a/+" "a/";
   matches "#" "/a"; matches "a/b" "a/b"]%string = [true; false; false; false; false; true].
Proof. vm_compute. reflexivity. Qed.
