(* ===== verification/Platform.v ===== *)
(** * What the client asks of its platform

    The timers, the network and the mutex of the platform header, and the
    application's message handlers. The client is verified against this
    interface; FreeRTOS.v implements it as MQTTFreeRTOS.c does. *)

From S2P Require Import Prelude CSem Packet.

(** ** The structures of MQTTClient.h that cross the interface *)

Record MQTTMessage : Type := Message
  { m_qos : Z; m_retained : Z; m_dup : Z; m_id : Z;
    m_payload : option ptr; m_payloadlen : Z }.

Record MessageData : Type := NewMessageData
  { md_topicName : MQTTString; md_message : MQTTMessage }.

(** ** The platform

    [W] is the state of everything outside the client: clock, sockets, peers,
    the application. A timer is passed by address and updated in place, so an
    operation takes its value and returns the new one. *)
Class Platform (W : Type) : Type :=
  { Timer : Type;
    TimerInit : M W Timer;
    TimerCountdownMS : Timer → Z → M W Timer;
    TimerCountdown : Timer → Z → M W Timer;
    TimerIsExpired : Timer → M W (bool * Timer);
    TimerLeftMS : Timer → M W (Z * Timer);
    (* mqttread(n, dst, len, timeout): the result and the bytes stored at dst *)
    mqttread : Z → Z → M W (Z * list Z);
    (* mqttwrite(n, src, len, timeout) *)
    mqttwrite : ptr → Z → Z → M W Z;
    MutexInit : M W unit;
    MutexLock : M W Z;
    MutexUnlock : M W Z;
    (* function pointers of type messageHandler and their calls *)
    messageHandler : Type;
    call_handler : messageHandler → MessageData → M W unit }.
