(* ===== verification/Sim.v ===== *)
(** * A platform to evaluate the client on

    A concrete instance of the interface of Platform.v: a clock that advances
    at every look, a network with the bytes the broker will send, a log of the
    bytes written, a limit on how many bytes one write accepts, and a log of
    the application's handlers. The theorems about the client hold for any
    platform; this one only serves their examples. *)

From S2P Require Import Prelude CSem Packet Platform.

Record world : Type := World
  { w_clock : Z; w_in : list Z; w_out : list Z; w_accept : Z; w_locked : Z;
    w_calls : list (nat * Z) }.

Definition write_sim (src : ptr) (n timeout : Z) : M world Z := λ w,
  let k := Z.min n (w_accept w) in
  match load_bytes (obj src) (off src) k with
  | Ok bs => Ok (k, World (w_clock w) (w_in w) (w_out w ++ bs) (w_accept w) (w_locked w) (w_calls w))
  | UB u => UB u | NoFuel => NoFuel
  end.

(** All the bytes that are asked for, or as many as there are. *)
Definition read_sim (n timeout : Z) : M world (Z * list Z) := λ w,
  let bs := take (Z.to_nat n) (w_in w) in
  Ok ((len bs, bs),
      World (w_clock w) (drop (Z.to_nat n) (w_in w)) (w_out w) (w_accept w) (w_locked w)
        (w_calls w)).

Definition set_locked (n : Z) : M world unit := λ w,
  Ok (tt, World (w_clock w) (w_in w) (w_out w) (w_accept w) n (w_calls w)).

#[export] Instance sim : Platform world :=
  {| Timer := Z;
     TimerInit := mret 0;
     TimerCountdownMS := λ _ ms w, Ok (w_clock w + ms, w);
     TimerCountdown := λ _ s w, Ok (w_clock w + 1000 * s, w);
     TimerIsExpired := λ t w,
       Ok ((t <? w_clock w, t),
           World (w_clock w + 1) (w_in w) (w_out w) (w_accept w) (w_locked w) (w_calls w));
     TimerLeftMS := λ t w, Ok ((t - w_clock w, t), w);
     mqttread := read_sim;
     mqttwrite := write_sim;
     MutexInit := set_locked 0;
     MutexLock := λ w, (set_locked (w_locked w + 1) ;; mret 0) w;
     MutexUnlock := λ w, (set_locked (w_locked w - 1) ;; mret 0) w;
     messageHandler := nat;
     call_handler := λ h md w,
       Ok (tt, World (w_clock w) (w_in w) (w_out w) (w_accept w) (w_locked w)
                 (w_calls w ++ [(h, m_id (md_message md))])) |}.

(** A handler of the application, by its number. *)
Definition app_handler (n : nat) : messageHandler (W := world) := n.

(** A timer of the simulated platform. *)
Definition at_time (t : Z) : Timer (W := world) := t.
