(* ===== verification/Client.v ===== *)
(** * MQTTClient-C: MQTTClient.c and MQTTClient.h *)

From S2P Require Import Prelude CSem Wire Packet Connect Publish Subscribe Topics Platform.

(** ** Constants *)

Definition MAX_PACKET_ID : Z := 65535.
Definition MAX_MESSAGE_HANDLERS : Z := 5.

Definition QOS0 : Z := 0.
Definition QOS1 : Z := 1.
Definition QOS2 : Z := 2.
Definition SUBFAIL : Z := 128.

Definition BUFFER_OVERFLOW : Z := -2.
Definition FAILURE : Z := -1.
Definition SUCCESS : Z := 0.

Record MQTTConnackData : Type := ConnackData { cd_rc : Z; cd_sessionPresent : Z }.
Record MQTTSubackData : Type := SubackData { grantedQoS : Z }.

Module Client.
Section Client.
Context `{CImpl} {W : Type} `{Platform W}.

(** ** The client structure *)

(** A slot of messageHandlers: topicFilter and fp. *)
Record MessageHandlers : Type := Slot { topicFilter : option ptr; fp : option messageHandler }.

Record MQTTClient : Type := mkClient
  { next_packetid : Z; command_timeout_ms : Z; buf_size : Z; readbuf_size : Z;
    buf : list Z; readbuf : list Z; keepAliveInterval : Z; ping_outstanding : Z;
    isconnected : Z; cleansession : Z; messageHandlers : list MessageHandlers;
    defaultMessageHandler : option messageHandler; last_sent : Timer; last_received : Timer }.

Definition set_next_packetid v c := mkClient v (command_timeout_ms c) (buf_size c)
  (readbuf_size c) (buf c) (readbuf c) (keepAliveInterval c) (ping_outstanding c)
  (isconnected c) (cleansession c) (messageHandlers c) (defaultMessageHandler c)
  (last_sent c) (last_received c).
Definition set_buf v c := mkClient (next_packetid c) (command_timeout_ms c) (buf_size c)
  (readbuf_size c) v (readbuf c) (keepAliveInterval c) (ping_outstanding c)
  (isconnected c) (cleansession c) (messageHandlers c) (defaultMessageHandler c)
  (last_sent c) (last_received c).
Definition set_readbuf v c := mkClient (next_packetid c) (command_timeout_ms c) (buf_size c)
  (readbuf_size c) (buf c) v (keepAliveInterval c) (ping_outstanding c)
  (isconnected c) (cleansession c) (messageHandlers c) (defaultMessageHandler c)
  (last_sent c) (last_received c).
Definition set_keepAliveInterval v c := mkClient (next_packetid c) (command_timeout_ms c)
  (buf_size c) (readbuf_size c) (buf c) (readbuf c) v (ping_outstanding c)
  (isconnected c) (cleansession c) (messageHandlers c) (defaultMessageHandler c)
  (last_sent c) (last_received c).
Definition set_ping_outstanding v c := mkClient (next_packetid c) (command_timeout_ms c)
  (buf_size c) (readbuf_size c) (buf c) (readbuf c) (keepAliveInterval c) v
  (isconnected c) (cleansession c) (messageHandlers c) (defaultMessageHandler c)
  (last_sent c) (last_received c).
Definition set_isconnected v c := mkClient (next_packetid c) (command_timeout_ms c)
  (buf_size c) (readbuf_size c) (buf c) (readbuf c) (keepAliveInterval c) (ping_outstanding c)
  v (cleansession c) (messageHandlers c) (defaultMessageHandler c)
  (last_sent c) (last_received c).
Definition set_cleansession v c := mkClient (next_packetid c) (command_timeout_ms c)
  (buf_size c) (readbuf_size c) (buf c) (readbuf c) (keepAliveInterval c) (ping_outstanding c)
  (isconnected c) v (messageHandlers c) (defaultMessageHandler c)
  (last_sent c) (last_received c).
Definition set_messageHandlers v c := mkClient (next_packetid c) (command_timeout_ms c)
  (buf_size c) (readbuf_size c) (buf c) (readbuf c) (keepAliveInterval c) (ping_outstanding c)
  (isconnected c) (cleansession c) v (defaultMessageHandler c)
  (last_sent c) (last_received c).
Definition set_last_sent v c := mkClient (next_packetid c) (command_timeout_ms c) (buf_size c)
  (readbuf_size c) (buf c) (readbuf c) (keepAliveInterval c) (ping_outstanding c)
  (isconnected c) (cleansession c) (messageHandlers c) (defaultMessageHandler c)
  v (last_received c).
Definition set_last_received v c := mkClient (next_packetid c) (command_timeout_ms c)
  (buf_size c) (readbuf_size c) (buf c) (readbuf c) (keepAliveInterval c) (ping_outstanding c)
  (isconnected c) (cleansession c) (messageHandlers c) (defaultMessageHandler c)
  (last_sent c) v.

(** ** Computations over the client and its platform *)

Abbreviation C A := (M (MQTTClient * W) A).

Definition env {A} (m : M W A) : C A := λ s,
  match m (snd s) with
  | Ok (a, w) => Ok (a, (fst s, w)) | UB u => UB u | NoFuel => NoFuel end.
Definition client : C MQTTClient := gets fst.
Definition update (f : MQTTClient → MQTTClient) : C unit := modify (λ s, (f (fst s), snd s)).

(** A serializer run on [c->buf], its result the int it returns. *)
Definition on_buf (m : list Z → outcome (Z * list Z)) : C Z :=
  c ← client; '(len, b) ← lift (m (buf c)); update (set_buf b) ;; mret len.

(** [memcpy(c->readbuf + i, bs, ...)] as the network layer does it. *)
Definition store_readbuf (i : Z) (bs : list Z) : C unit :=
  c ← client; b ← lift (store_bytes (readbuf c) i bs); update (set_readbuf b).

(** ** Sending *)

Definition getNextPacketId : C Z :=
  c ← client;
  let id := if next_packetid c =? MAX_PACKET_ID then 1 else to_uint (next_packetid c + 1) in
  update (set_next_packetid id) ;; mret id.

(** The while loop of sendPacket: [sent] and the timer when it ends. *)
Fixpoint sendPacket_loop (fuel : nat) (length sent : Z) (timer : Timer) : C (Z * Timer) :=
  match fuel with
  | O => no_fuel
  | S fuel =>
      if sent <? length then
        '(expired, timer) ← env (TimerIsExpired timer);
        if expired : bool then mret (sent, timer)
        else
          '(ms, timer) ← env (TimerLeftMS timer);
          c ← client;
          rc ← env (mqttwrite (Ptr (buf c) sent) length ms);
          if rc <? 0 then mret (sent, timer)
          else
            sent ← lift (sent +i rc)%c;
            sendPacket_loop fuel length sent timer
      else mret (sent, timer)
  end.

Definition sendPacket (fuel : nat) (length : Z) (timer : Timer) : C (Z * Timer) :=
  '(sent, timer) ← sendPacket_loop fuel length 0 timer;
  if sent =? length then
    c ← client;
    t ← env (TimerCountdown (last_sent c) (keepAliveInterval c));
    update (set_last_sent t) ;;
    mret (SUCCESS, timer)
  else mret (FAILURE, timer).

(** ** Initialisation *)

(** [MQTTClientInit(&c, ...)]: [c] is what the memory of the structure held;
    keepAliveInterval and the fp fields are not assigned. *)
Definition MQTTClientInit (c : MQTTClient) (command_timeout : Z) (sendbuf : list Z)
    (sendbuf_size : Z) (rbuf : list Z) (rbuf_size : Z) : M W MQTTClient :=
  sent ← TimerInit;
  received ← TimerInit;
  MutexInit ;;
  mret (mkClient 1 command_timeout sendbuf_size rbuf_size sendbuf rbuf
          (keepAliveInterval c) 0 0 0
          (map (λ h, Slot None (fp h)) (messageHandlers c)) None sent received).

(** ** Receiving *)

(** The loop of decodePacket; like MQTTPacket_decode, over mqttread. *)
Fixpoint decodePacket_loop (fuel : nat) (timeout value multiplier len : Z) : M W (Z * Z) :=
  match fuel with
  | O => no_fuel
  | S fuel =>
      let len := len + 1 in
      if MAX_NO_OF_REMAINING_LENGTH_BYTES <? len then mret (len, value)
      else
        '(rc, cs) ← mqttread 1 timeout;
        if negb (rc =? 1) then mret (len, value)
        else
          i ← lift (match cs with [] => UB Uninitialised | i :: _ => Ok i end);
          let value := value + Z.land i 127 * multiplier in
          let multiplier := multiplier * 128 in
          if negb (Z.land i 128 =? 0)
          then decodePacket_loop fuel timeout value multiplier len
          else mret (len, value)
  end.

Definition decodePacket (timeout : Z) : M W (Z * Z) := decodePacket_loop 5 timeout 0 1 0.

Definition readPacket (timer : Timer) : C (Z * Timer) :=
  '(ms, timer) ← env (TimerLeftMS timer);
  '(rc, bs) ← env (mqttread 1 ms);
  store_readbuf 0 bs ;;
  if negb (rc =? 1) then mret (rc, timer)
  else
    '(ms, timer) ← env (TimerLeftMS timer);
    '(_, rem_len) ← env (decodePacket ms);
    c ← client;
    '(k, b) ← lift (MQTTPacket_encode rem_len (readbuf c) 1);
    update (set_readbuf b) ;;
    let len := 1 + k in
    if to_size (readbuf_size c - len) <? rem_len then mret (BUFFER_OVERFLOW, timer)
    else
      '(bad, timer) ← (
        if 0 <? rem_len then
          '(ms, timer) ← env (TimerLeftMS timer);
          '(rc, bs) ← env (mqttread rem_len ms);
          store_readbuf len bs ;;
          mret (negb (rc =? rem_len), timer)
        else mret (false, timer));
      if bad : bool then mret (0, timer)
      else
        c ← client;
        b ← lift (load (readbuf c) 0);
        (if 0 <? keepAliveInterval c then
           t ← env (TimerCountdown (last_received c) (keepAliveInterval c));
           update (set_last_received t)
         else mret tt) ;;
        mret (header_type b, timer).

(** ** Delivery *)

(** The loop of deliverMessage from slot [i] on. *)
Fixpoint deliver_loop (n : nat) (i rc : Z) (topicName : MQTTString) (message : MQTTMessage)
  : C Z :=
  match n with
  | O => mret rc
  | S n =>
      c ← client;
      h ← lift (arr_get (messageHandlers c) i);
      matched ← lift (
        if nonnull (topicFilter h) then
          eq ← MQTTPacket_equals topicName (topicFilter h);
          if eq : bool then Ok true else isTopicMatched (topicFilter h) topicName
        else Ok false);
      rc ← (match matched, fp h with
            | true, Some f => env (call_handler f (NewMessageData topicName message)) ;; mret SUCCESS
            | _, _ => mret rc
            end);
      deliver_loop n (i + 1) rc topicName message
  end.

Definition deliverMessage (topicName : MQTTString) (message : MQTTMessage) : C Z :=
  rc ← deliver_loop (Z.to_nat MAX_MESSAGE_HANDLERS) 0 FAILURE topicName message;
  c ← client;
  match rc =? FAILURE, defaultMessageHandler c with
  | true, Some f => env (call_handler f (NewMessageData topicName message)) ;; mret SUCCESS
  | _, _ => mret rc
  end.

(** ** Keep-alive and the session *)

Definition keepalive (fuel : nat) : C Z :=
  c ← client;
  if keepAliveInterval c =? 0 then mret SUCCESS
  else
    '(e, t) ← env (TimerIsExpired (last_sent c));
    update (set_last_sent t) ;;
    expired ← (if e : bool then mret true
               else '(e, t) ← env (TimerIsExpired (last_received c));
                    update (set_last_received t) ;; mret e);
    if expired : bool then
      c ← client;
      if truth (ping_outstanding c) then mret FAILURE
      else
        timer ← env TimerInit;
        timer ← env (TimerCountdownMS timer 1000);
        len ← on_buf (λ b, MQTTSerialize_pingreq b (to_int (buf_size c)));
        if 0 <? len then
          '(rc, _) ← sendPacket fuel len timer;
          (if rc =? SUCCESS then update (set_ping_outstanding 1) else mret tt) ;;
          mret rc
        else mret SUCCESS
    else mret SUCCESS.

Definition MQTTCleanSession : C unit :=
  update (λ c, set_messageHandlers
    (map (λ h, Slot None (fp h)) (messageHandlers c)) c).

Definition MQTTCloseSession : C unit :=
  update (set_ping_outstanding 0) ;;
  update (set_isconnected 0) ;;
  c ← client;
  if truth (cleansession c) then MQTTCleanSession else mret tt.

(** ** One round of the protocol *)

(** case PUBLISH of cycle: whether it goes to exit, [rc] and the timer. The
    locals MQTTDeserialize_publish fills are uninitialised: [o] is whatever
    they hold; payloadlen is a size_t written through an int pointer. *)
Definition cycle_publish (fuel : nat) (o : publish_out) (timer : Timer)
  : C (bool * Z * Timer) :=
  c ← client;
  '(ok, o) ← lift (MQTTDeserialize_publish
    (PublishOut (p_dup o) (p_qos o) (p_retained o) (p_packetid o) (p_topicName o)
       (p_payload o) 0) (readbuf c) (to_int (readbuf_size c)));
  if negb (ok =? 1) then mret (true, SUCCESS, timer)
  else
    let msg := Message (p_qos o) (p_retained o) (p_dup o) (p_packetid o) (p_payload o)
                 (to_uint (p_payloadlen o)) in
    deliverMessage (p_topicName o) msg ;;
    if negb (m_qos msg =? QOS0) then
      c ← client;
      len ← (if m_qos msg =? QOS1 then
               on_buf (λ b, MQTTSerialize_ack b (to_int (buf_size c)) PUBACK 0 (m_id msg))
             else if m_qos msg =? QOS2 then
               on_buf (λ b, MQTTSerialize_ack b (to_int (buf_size c)) PUBREC 0 (m_id msg))
             else mret 0);
      '(rc, timer) ← (if len <=? 0 then mret (FAILURE, timer)
                      else sendPacket fuel len timer);
      mret (rc =? FAILURE, rc, timer)
    else mret (false, SUCCESS, timer).

(** case PUBREC and case PUBREL of cycle. [mypacketid] is uninitialised. *)
Definition cycle_pubrec_pubrel (fuel : nat) (packet_type mypacketid : Z) (timer : Timer)
  : C (bool * Z * Timer) :=
  c ← client;
  '(ok, _, _, id) ← lift (MQTTDeserialize_ack mypacketid (readbuf c) (to_int (readbuf_size c)));
  if negb (ok =? 1) then mret (true, FAILURE, timer)
  else
    len ← on_buf (λ b, MQTTSerialize_ack b (to_int (buf_size c))
                         (if packet_type =? PUBREC then PUBREL else PUBCOMP) 0 id);
    if len <=? 0 then mret (true, FAILURE, timer)
    else
      '(rc, timer) ← sendPacket fuel len timer;
      if negb (rc =? SUCCESS) then mret (true, FAILURE, timer)
      else mret (false, SUCCESS, timer).

(** The switch of cycle: whether it goes to exit, [rc] and the timer. *)
Definition cycle_switch (fuel : nat) (o : publish_out) (packet_type : Z) (timer : Timer)
  : C (bool * Z * Timer) :=
  if packet_type =? 0 then mret (false, SUCCESS, timer)
  else if (packet_type =? CONNACK) || (packet_type =? PUBACK) || (packet_type =? SUBACK) ||
          (packet_type =? UNSUBACK) then mret (false, SUCCESS, timer)
  else if packet_type =? PUBLISH then cycle_publish fuel o timer
  else if (packet_type =? PUBREC) || (packet_type =? PUBREL)
  then cycle_pubrec_pubrel fuel packet_type (p_packetid o) timer
  else if packet_type =? PUBCOMP then mret (false, SUCCESS, timer)
  else if packet_type =? PINGRESP
  then update (set_ping_outstanding 0) ;; mret (false, SUCCESS, timer)
  else mret (true, packet_type, timer).

(** [o]: what the uninitialised locals of cycle hold. *)
Definition cycle (fuel : nat) (o : publish_out) (timer : Timer) : C (Z * Timer) :=
  '(packet_type, timer) ← readPacket timer;
  '(to_exit, rc, timer) ← cycle_switch fuel o packet_type timer;
  rc ← (if to_exit : bool then mret rc
        else k ← keepalive fuel; mret (if negb (k =? SUCCESS) then FAILURE else rc));
  if rc =? SUCCESS then mret (packet_type, timer)
  else
    c ← client;
    (if truth (isconnected c) then MQTTCloseSession else mret tt) ;;
    mret (rc, timer).

(** The do-while loop of MQTTYield. *)
Fixpoint yield_loop (n fuel : nat) (o : publish_out) (timer : Timer) : C Z :=
  match n with
  | O => no_fuel
  | S n =>
      '(r, timer) ← cycle fuel o timer;
      if r <? 0 then mret FAILURE
      else
        '(expired, timer) ← env (TimerIsExpired timer);
        if expired : bool then mret SUCCESS else yield_loop n fuel o timer
  end.

Definition MQTTYield (fuel : nat) (o : publish_out) (timeout_ms : Z) : C Z :=
  timer ← env TimerInit;
  timer ← env (TimerCountdownMS timer timeout_ms);
  yield_loop fuel fuel o timer.

(** One iteration of the loop of MQTTRun, which has no end. *)
Definition run_iteration (fuel : nat) (o : publish_out) (timer : Timer) : C Timer :=
  timer ← env (TimerCountdownMS timer 500);
  env MutexLock ;;
  '(_, timer) ← cycle fuel o timer;
  env MutexUnlock ;;
  mret timer.

(** [n] iterations of MQTTRun. *)
Fixpoint MQTTRun_loop (n fuel : nat) (o : publish_out) (timer : Timer) : C Timer :=
  match n with
  | O => mret timer
  | S n => timer ← run_iteration fuel o timer; MQTTRun_loop n fuel o timer
  end.
Definition MQTTRun (n fuel : nat) (o : publish_out) : C Timer :=
  timer ← env TimerInit; MQTTRun_loop n fuel o timer.

(** The do-while loop of waitfor. *)
Fixpoint waitfor_loop (n fuel : nat) (o : publish_out) (packet_type rc : Z) (timer : Timer)
  : C (Z * Timer) :=
  match n with
  | O => no_fuel
  | S n =>
      '(expired, timer) ← env (TimerIsExpired timer);
      if expired : bool then mret (rc, timer)
      else
        '(rc, timer) ← cycle fuel o timer;
        if negb (rc =? packet_type) && (0 <=? rc)
        then waitfor_loop n fuel o packet_type rc timer
        else mret (rc, timer)
  end.

Definition waitfor (fuel : nat) (o : publish_out) (packet_type : Z) (timer : Timer)
  : C (Z * Timer) :=
  waitfor_loop fuel fuel o packet_type FAILURE timer.

(** ** The API *)

Definition MQTTIsConnected : C Z := c ← client; mret (isconnected c).

(** The part of MQTTConnectWithResults between the locks, once the client is
    known not to be connected: [rc] and [*data]. *)
Definition connect_session (fuel : nat) (o : publish_out)
    (options : option MQTTPacket_connectData) (data : MQTTConnackData)
  : C (Z * MQTTConnackData) :=
  timer ← env TimerInit;
  c ← client;
  timer ← env (TimerCountdownMS timer (command_timeout_ms c));
  let options := match options with
                 | Some options => options | None => MQTTPacket_connectData_initializer end in
  update (set_keepAliveInterval (Connect.keepAliveInterval options)) ;;
  update (set_cleansession (Connect.cleansession options)) ;;
  c ← client;
  t ← env (TimerCountdown (last_received c) (keepAliveInterval c));
  update (set_last_received t) ;;
  len ← on_buf (λ b, MQTTSerialize_connect b (to_int (buf_size c)) options);
  if len <=? 0 then mret (FAILURE, data)
  else
    '(rc, timer) ← sendPacket fuel len timer;
    if negb (rc =? SUCCESS) then mret (rc, data)
    else
      '(r, _) ← waitfor fuel o CONNACK timer;
      if r =? CONNACK then
        c ← client;
        '(ok, sessionPresent, connack_rc) ←
          lift (MQTTDeserialize_connack 0 0 (readbuf c) (to_int (readbuf_size c)));
        mret (if ok =? 1 then connack_rc else FAILURE, ConnackData connack_rc sessionPresent)
      else mret (FAILURE, data).

Definition MQTTConnectWithResults (fuel : nat) (o : publish_out)
    (options : option MQTTPacket_connectData) (data : MQTTConnackData)
  : C (Z * MQTTConnackData) :=
  env MutexLock ;;
  c ← client;
  '(rc, data) ← (if truth (isconnected c) then mret (FAILURE, data)
                 else connect_session fuel o options data);
  (if rc =? SUCCESS then
     update (set_isconnected 1) ;; update (set_ping_outstanding 0)
   else mret tt) ;;
  env MutexUnlock ;;
  mret (rc, data).

Definition MQTTConnect (fuel : nat) (o : publish_out)
    (options : option MQTTPacket_connectData) : C Z :=
  '(rc, _) ← MQTTConnectWithResults fuel o options (ConnackData 0 0); mret rc.

(** The first loop of MQTTSetMessageHandler: the index of the slot with this
    filter, MAX_MESSAGE_HANDLERS if there is none. *)
Fixpoint find_filter (n : nat) (i : Z) (filter : option ptr) (hs : list MessageHandlers)
  : outcome Z :=
  match n with
  | O => Ok i
  | S n =>
      h ← arr_get hs i;
      same ← (if nonnull (topicFilter h)
              then r ← strcmp (topicFilter h) filter; Ok (r =? 0) else Ok false);
      if same : bool then Ok i else find_filter n (i + 1) filter hs
  end.

(** The second loop: the index of the first empty slot. *)
Fixpoint find_empty (n : nat) (i : Z) (hs : list MessageHandlers) : outcome Z :=
  match n with
  | O => Ok i
  | S n =>
      h ← arr_get hs i;
      if nonnull (topicFilter h) then find_empty n (i + 1) hs else Ok i
  end.

Definition MQTTSetMessageHandler (filter : option ptr) (handler : option messageHandler) : C Z :=
  c ← client;
  let slots := Z.to_nat MAX_MESSAGE_HANDLERS in
  i ← lift (find_filter slots 0 filter (messageHandlers c));
  let rc := if i <? MAX_MESSAGE_HANDLERS then SUCCESS else FAILURE in
  match handler with
  | None =>
      (if rc =? SUCCESS then
         hs ← lift (arr_set (messageHandlers c) i (Slot None None));
         update (set_messageHandlers hs)
       else mret tt) ;;
      mret rc
  | Some _ =>
      i ← (if rc =? FAILURE then lift (find_empty slots 0 (messageHandlers c)) else mret i);
      let rc := if (rc =? FAILURE) && (i <? MAX_MESSAGE_HANDLERS) then SUCCESS else rc in
      (if i <? MAX_MESSAGE_HANDLERS then
         hs ← lift (arr_set (messageHandlers c) i (Slot filter handler));
         update (set_messageHandlers hs)
       else mret tt) ;;
      mret rc
  end.

(** [MQTTString topic = MQTTString_initializer; topic.cstring = s;] *)
Definition topic_of (s : option ptr) : MQTTString :=
  {| cstring := s; lenstring := lenstring MQTTString_initializer |}.

(** [if (rc == FAILURE) MQTTCloseSession(c); MutexUnlock; return rc;] *)
Definition api_exit {A} (rc : Z) (a : A) : C (Z * A) :=
  (if rc =? FAILURE then MQTTCloseSession else mret tt) ;;
  env MutexUnlock ;;
  mret (rc, a).

(** The timer every request starts: TimerInit and TimerCountdownMS. *)
Definition command_timer : C Timer :=
  timer ← env TimerInit; c ← client; env (TimerCountdownMS timer (command_timeout_ms c)).

(** What MQTTSubscribeWithResults does with a SUBACK; [rc] is SUCCESS. *)
Definition subscribe_ack (o : publish_out) (filter : option ptr)
    (handler : option messageHandler) (rc : Z) : C (Z * MQTTSubackData) :=
  c ← client;
  '(ok, _, _, granted) ←
    lift (MQTTDeserialize_suback (p_packetid o) 1 0 [QOS0] (readbuf c)
            (to_int (readbuf_size c)));
  q ← lift (arr_get granted 0);
  let data := SubackData (to_uint q) in
  if (ok =? 1) && negb (grantedQoS data =? SUBFAIL)
  then rc ← MQTTSetMessageHandler filter handler; mret (rc, data)
  else mret (rc, data).

Definition subscribe_session (fuel : nat) (o : publish_out) (filter : option ptr) (qos : Z)
    (handler : option messageHandler) (data : MQTTSubackData) : C (Z * MQTTSubackData) :=
  timer ← command_timer;
  id ← getNextPacketId;
  c ← client;
  len ← on_buf (λ b, MQTTSerialize_subscribe b (to_int (buf_size c)) 0 (to_ushort id) 1
                       [topic_of filter] [qos]);
  if len <=? 0 then mret (FAILURE, data)
  else
    '(rc, timer) ← sendPacket fuel len timer;
    if negb (rc =? SUCCESS) then mret (rc, data)
    else
      '(r, _) ← waitfor fuel o SUBACK timer;
      if r =? SUBACK then subscribe_ack o filter handler rc
      else mret (FAILURE, data).

Definition MQTTSubscribeWithResults (fuel : nat) (o : publish_out) (filter : option ptr)
    (qos : Z) (handler : option messageHandler) (data : MQTTSubackData)
  : C (Z * MQTTSubackData) :=
  env MutexLock ;;
  c ← client;
  '(rc, data) ← (if truth (isconnected c)
                 then subscribe_session fuel o filter qos handler data
                 else mret (FAILURE, data));
  api_exit rc data.

Definition MQTTSubscribe (fuel : nat) (o : publish_out) (filter : option ptr) (qos : Z)
    (handler : option messageHandler) : C Z :=
  '(rc, _) ← MQTTSubscribeWithResults fuel o filter qos handler (SubackData 0); mret rc.

Definition unsubscribe_session (fuel : nat) (o : publish_out) (filter : option ptr) : C Z :=
  timer ← command_timer;
  id ← getNextPacketId;
  c ← client;
  len ← on_buf (λ b, MQTTSerialize_unsubscribe b (to_int (buf_size c)) 0 (to_ushort id) 1
                       [topic_of filter]);
  if len <=? 0 then mret FAILURE
  else
    '(rc, timer) ← sendPacket fuel len timer;
    if negb (rc =? SUCCESS) then mret rc
    else
      '(r, _) ← waitfor fuel o UNSUBACK timer;
      if r =? UNSUBACK then
        c ← client;
        '(ok, _) ← lift (MQTTDeserialize_unsuback (p_packetid o) (readbuf c)
                           (to_int (readbuf_size c)));
        (if ok =? 1 then MQTTSetMessageHandler filter None ;; mret tt else mret tt) ;;
        mret rc
      else mret FAILURE.

Definition MQTTUnsubscribe (fuel : nat) (o : publish_out) (filter : option ptr) : C Z :=
  env MutexLock ;;
  c ← client;
  rc ← (if truth (isconnected c) then unsubscribe_session fuel o filter else mret FAILURE);
  '(rc, _) ← api_exit rc tt; mret rc.

(** [waitfor(c, t, &timer) == t] and the acknowledgement of MQTTPublish. *)
Definition publish_wait (fuel : nat) (o : publish_out) (packet_type rc : Z) (timer : Timer)
  : C Z :=
  '(r, _) ← waitfor fuel o packet_type timer;
  if r =? packet_type then
    c ← client;
    '(ok, _, _, _) ← lift (MQTTDeserialize_ack (p_packetid o) (readbuf c)
                             (to_int (readbuf_size c)));
    mret (if negb (ok =? 1) then FAILURE else rc)
  else mret FAILURE.

(** The message is updated: MQTTPublish assigns its id. *)
Definition publish_session (fuel : nat) (o : publish_out) (topicName : option ptr)
    (message : MQTTMessage) : C (Z * MQTTMessage) :=
  timer ← command_timer;
  message ← (if (m_qos message =? QOS1) || (m_qos message =? QOS2) then
               id ← getNextPacketId;
               mret (Message (m_qos message) (m_retained message) (m_dup message)
                       (to_ushort id) (m_payload message) (m_payloadlen message))
             else mret message);
  c ← client;
  len ← on_buf (λ b, MQTTSerialize_publish b (to_int (buf_size c)) 0 (m_qos message)
                       (m_retained message) (m_id message) (topic_of topicName)
                       (m_payload message) (to_int (m_payloadlen message)));
  if len <=? 0 then mret (FAILURE, message)
  else
    '(rc, timer) ← sendPacket fuel len timer;
    if negb (rc =? SUCCESS) then mret (rc, message)
    else
      rc ← (if m_qos message =? QOS1 then publish_wait fuel o PUBACK rc timer
            else if m_qos message =? QOS2 then publish_wait fuel o PUBCOMP rc timer
            else mret rc);
      mret (rc, message).

Definition MQTTPublish (fuel : nat) (o : publish_out) (topicName : option ptr)
    (message : MQTTMessage) : C (Z * MQTTMessage) :=
  env MutexLock ;;
  c ← client;
  '(rc, message) ← (if truth (isconnected c) then publish_session fuel o topicName message
                    else mret (FAILURE, message));
  api_exit rc message.

Definition MQTTDisconnect (fuel : nat) : C Z :=
  env MutexLock ;;
  timer ← command_timer;
  c ← client;
  len ← on_buf (λ b, MQTTSerialize_disconnect b (to_int (buf_size c)));
  rc ← (if 0 <? len then '(rc, _) ← sendPacket fuel len timer; mret rc else mret FAILURE);
  MQTTCloseSession ;;
  env MutexUnlock ;;
  mret rc.

(** ** Running a step of the client *)

Lemma run_env {A} (m : M W A) c w a w' :
  m w = Ok (a, w') → env m (c, w) = Ok (a, (c, w')).
Proof. unfold env. cbn [fst snd]. by intros ->. Qed.

Lemma bind_env {A B} (m : M W A) (f : A → C B) c w a w' :
  m w = Ok (a, w') → (env m ≫= f) (c, w) = f a (c, w').
Proof. intros E. by apply run_bind, run_env. Qed.

Lemma bind_client {B} (f : MQTTClient → C B) c w : (client ≫= f) (c, w) = f c (c, w).
Proof. done. Qed.

Lemma bind_update {B} g (f : unit → C B) c w : (update g ≫= f) (c, w) = f tt (g c, w).
Proof. done. Qed.

Lemma env_bind_ext {A B} (m : M W A) (f g : A → C B) c w :
  (∀ a w', f a (c, w') = g a (c, w')) → (env m ≫= f) (c, w) = (env m ≫= g) (c, w).
Proof.
  intros E. unfold env, mbind, M_bind. cbn [fst snd]. destruct (m w) as [[a w']| |]; [|done..].
  apply E.
Qed.

Lemma env_seq {A B D} (m : M W A) (k : M W B) (f : B → C D) c w :
  (env (m ;; k) ≫= f) (c, w) = (env m ;; env k ≫= f) (c, w).
Proof.
  unfold env, mbind, M_bind. cbn [fst snd]. by destruct (m w) as [[a w']| |].
Qed.

End Client.
End Client.
