(* ===== verification/ClientState.v ===== *)
(** * Invariants of the client structure

    What every function of MQTTClient.c keeps, whatever the network, the
    clock and the application do. *)

From stdpp Require Import relations.
From S2P Require Import Prelude CSem Wire Packet Connect Publish Subscribe Topics Platform Sim.
From S2P Require Import Client.

(** ** Serializers never change the size of the buffer *)

Section Writers.
Context `{CImpl}.

Definition fixed_size {A} (m : M cursor A) : Prop :=
  ∀ c a c', m c = Ok (a, c') → length (c_buf c') = length (c_buf c).

Lemma fixed_ret {A} (a : A) : fixed_size (mret a).
Proof. intros c b c' E. by run_inv. Qed.
Lemma fixed_bind {A B} (m : M cursor A) (f : A → M cursor B) :
  fixed_size m → (∀ a, fixed_size (f a)) → fixed_size (m ≫= f).
Proof.
  intros Hm Hf c b c' E. apply run_bind_inv in E as (a & c1 & E1 & E2).
  by rewrite (Hf _ _ _ _ E2), (Hm _ _ _ E1).
Qed.
Lemma fixed_if {A} (b : bool) (m1 m2 : M cursor A) :
  fixed_size m1 → fixed_size m2 → fixed_size (if b then m1 else m2).
Proof. by destruct b. Qed.
Lemma fixed_lift {A} (o : outcome A) : fixed_size (lift o).
Proof. intros c a c' E. by apply run_lift_inv in E as [_ ->]. Qed.
Lemma fixed_advance n : fixed_size (advance n).
Proof. intros c a c' [= <- <-]. done. Qed.
Lemma fixed_poke_bytes bs : fixed_size (poke_bytes bs).
Proof.
  intros c a c'. unfold poke_bytes. destruct (store_bytes _ _ _) eqn:E; intros [= <- <-].
  by eapply store_bytes_length.
Qed.
Lemma fixed_for n i body : (∀ i, fixed_size (body i)) → fixed_size (for_loop n i body).
Proof.
  revert i. induction n as [|n IH]; intros i Hb; [apply fixed_ret|].
  apply fixed_bind; [apply Hb|intros _; by apply IH].
Qed.

Lemma encode_loop_length fuel buf p n rc k buf' :
  MQTTPacket_encode_loop fuel buf p n rc = Ok (k, buf') → length buf' = length buf.
Proof.
  revert buf n rc. induction fuel as [|fuel IH]; intros buf n rc E; [done|].
  cbn [MQTTPacket_encode_loop] in E. apply bind_Ok_inv in E as (b & Eb & E).
  rewrite <- (store_bytes_length _ _ _ _ Eb). destruct (0 <? _); [by eapply IH|by simplify_eq].
Qed.

Lemma fixed_writeRemLen n : fixed_size (writeRemLen n).
Proof.
  apply fixed_bind; [|intros; apply fixed_advance]. intros c a c'. unfold at_ptr.
  destruct (MQTTPacket_encode n (c_buf c) (c_pos c)) as [[k b]| |] eqn:E; intros [= <- <-].
  by eapply encode_loop_length.
Qed.

End Writers.

Create HintDb fixed.
#[export] Hint Resolve fixed_ret fixed_lift fixed_advance fixed_poke_bytes fixed_writeRemLen : fixed.

Ltac fixed_tac :=
  repeat first
    [ solve [auto with fixed]
    | apply fixed_bind; [|intros]
    | apply fixed_if
    | apply fixed_for; intros
    | match goal with |- fixed_size (let _ := _ in _) => cbv zeta
                 | |- fixed_size (match ?x with _ => _ end) => destruct x end ].

Section Serializers.
Context `{CImpl}.

Lemma fixed_writeChar c : fixed_size (writeChar c).
Proof. unfold writeChar, poke. fixed_tac. Qed.
Lemma fixed_writeInt n : fixed_size (writeInt n).
Proof. unfold writeInt, poke. fixed_tac. Qed.
Lemma fixed_copy_in p n : fixed_size (copy_in p n).
Proof. unfold copy_in. fixed_tac. Qed.

#[local] Hint Resolve fixed_writeChar fixed_writeInt fixed_copy_in : fixed.

Lemma fixed_writeCString p : fixed_size (writeCString p).
Proof. unfold writeCString. fixed_tac. Qed.
#[local] Hint Resolve fixed_writeCString : fixed.
Lemma fixed_writeMQTTString s : fixed_size (writeMQTTString s).
Proof. unfold writeMQTTString. fixed_tac. Qed.
#[local] Hint Resolve fixed_writeMQTTString : fixed.

(** A serializer as the client calls it. *)
Definition keeps_size (m : outcome (Z * list Z)) (b : list Z) : Prop :=
  ∀ n b', m = Ok (n, b') → length b' = length b.

Lemma keeps_size_writer b m : fixed_size m → keeps_size (run_writer b m) b.
Proof.
  intros Hm n b'. unfold run_writer. destruct (m (Cur b 0)) as [[[] c]| |] eqn:E; intros [= <- <-].
  exact (Hm _ _ _ E).
Qed.

Lemma keeps_size_same b n : keeps_size (Ok (n, b)) b.
Proof. by intros ? ? [= <- <-]. Qed.

Lemma keeps_size_bind {A} (o : outcome A) f b :
  (∀ a, keeps_size (f a) b) → keeps_size (o ≫= f) b.
Proof. intros Hf n b' E. apply bind_Ok_inv in E as (a & _ & E). by eapply Hf. Qed.

Lemma keeps_size_if (c : bool) m1 m2 b :
  keeps_size m1 b → keeps_size m2 b → keeps_size (if c then m1 else m2) b.
Proof. by destruct c. Qed.

#[local] Ltac size_tac :=
  repeat first
    [ apply keeps_size_writer; fixed_tac | apply keeps_size_if | apply keeps_size_same
    | apply keeps_size_bind; intros ].

Lemma connect_size b n d : keeps_size (MQTTSerialize_connect b n d) b.
Proof. unfold MQTTSerialize_connect, write_connect. size_tac. Qed.
Lemma zero_size b n t : keeps_size (MQTTSerialize_zero b n t) b.
Proof. unfold MQTTSerialize_zero. size_tac. Qed.
Lemma ack_size b n t d i : keeps_size (MQTTSerialize_ack b n t d i) b.
Proof. unfold MQTTSerialize_ack. size_tac. Qed.
Lemma publish_size b n d q r i t p k : keeps_size (MQTTSerialize_publish b n d q r i t p k) b.
Proof. unfold MQTTSerialize_publish, write_publish. size_tac. Qed.
Lemma subscribe_size b n d i k f q : keeps_size (MQTTSerialize_subscribe b n d i k f q) b.
Proof. unfold MQTTSerialize_subscribe, write_subscribe. size_tac. Qed.
Lemma unsubscribe_size b n d i k f : keeps_size (MQTTSerialize_unsubscribe b n d i k f) b.
Proof. unfold MQTTSerialize_unsubscribe, write_unsubscribe. size_tac. Qed.

Lemma pingreq_size b n : keeps_size (MQTTSerialize_pingreq b n) b.
Proof. apply zero_size. Qed.
Lemma disconnect_size b n : keeps_size (MQTTSerialize_disconnect b n) b.
Proof. apply zero_size. Qed.

End Serializers.

Create HintDb sizes.
#[export] Hint Resolve connect_size pingreq_size disconnect_size ack_size publish_size subscribe_size
  unsubscribe_size : sizes.

Module ClientState.
Import Client.

(** ** What every function keeps *)

Section State.
Context `{CImpl} {W : Type} `{Platform W}.

#[local] Abbreviation C A := (M (MQTTClient * W) A).

(** A property of the client that no assignment of the code spoils, apart from
    the one MQTTConnect makes on success. *)
Class Stable (P : MQTTClient → Prop) : Prop :=
  { st_keepAliveInterval v c : P c → P (set_keepAliveInterval v c);
    st_cleansession v c : P c → P (set_cleansession v c);
    st_last_sent v c : P c → P (set_last_sent v c);
    st_last_received v c : P c → P (set_last_received v c);
    st_ping v c : bit v → P c → P (set_ping_outstanding v c);
    st_disconnected c : P c → P (set_isconnected 0 c);
    st_buf b c : length b = length (buf c) → P c → P (set_buf b c);
    st_readbuf b c : length b = length (readbuf c) → P c → P (set_readbuf b c);
    st_handlers hs c :
      length hs = length (messageHandlers c) → P c → P (set_messageHandlers hs c);
    st_packetid c :
      P c → P (set_next_packetid (if next_packetid c =? MAX_PACKET_ID then 1
                                  else to_uint (next_packetid c + 1)) c) }.

Context (P : MQTTClient → Prop) `{Stable P}.

Definition keeps {A} (m : C A) : Prop :=
  ∀ s a s', P (fst s) → m s = Ok (a, s') → P (fst s').

Lemma keeps_ret {A} (a : A) : keeps (mret a).
Proof. intros s b s' Hs E. by run_inv. Qed.
Lemma keeps_bind {A B} (m : C A) (f : A → C B) :
  keeps m → (∀ a, keeps (f a)) → keeps (m ≫= f).
Proof.
  intros Hm Hf s b s' Hs E. apply run_bind_inv in E as (a & s1 & E1 & E2).
  exact (Hf a s1 b s' (Hm s a s1 Hs E1) E2).
Qed.
Lemma keeps_if {A} (b : bool) (m1 m2 : C A) : keeps m1 → keeps m2 → keeps (if b then m1 else m2).
Proof. by destruct b. Qed.
Lemma keeps_lift {A} (o : outcome A) : keeps (lift o).
Proof. intros s a s' Hs E. by apply run_lift_inv in E as [_ ->]. Qed.
Lemma keeps_no_fuel {A} : keeps (no_fuel : C A).
Proof. by intros s a s' _ E. Qed.
Lemma keeps_env {A} (m : M W A) : keeps (env m).
Proof.
  intros [c w] a s' Hs. unfold env. cbn [fst snd].
  destruct (m w) as [[b w']| |]; intros [= <- <-]. done.
Qed.
Lemma keeps_client : keeps client.
Proof. intros s a s' Hs [= <- <-]. done. Qed.
Lemma keeps_update f : (∀ c, P c → P (f c)) → keeps (update f).
Proof. intros Hf s a s' Hs [= <- <-]. by apply Hf. Qed.

Lemma keeps_on_buf (m : list Z → outcome (Z * list Z)) :
  (∀ b, keeps_size (m b) b) → keeps (on_buf m).
Proof.
  intros Hm [c w] n s' Hs E. unfold on_buf in E.
  apply run_bind_inv in E as (c1 & s1 & E1 & E). injection E1 as <- <-. cbn [fst] in *.
  apply run_bind_inv in E as ([k b] & s2 & E2 & E). apply run_lift_inv in E2 as [E2 ->].
  apply Hm in E2. apply run_bind_inv in E as ([] & s3 & E3 & E). injection E3 as <-.
  injection E as _ <-. cbn [fst snd]. by apply st_buf.
Qed.

Lemma keeps_store_readbuf i bs : keeps (store_readbuf i bs).
Proof.
  intros [c w] n s' Hs E. unfold store_readbuf in E.
  apply run_bind_inv in E as (c1 & s1 & E1 & E). injection E1 as <- <-. cbn [fst] in *.
  apply run_bind_inv in E as (b & s2 & E2 & E). apply run_lift_inv in E2 as [E2 ->].
  apply store_bytes_length in E2. injection E as _ <-. cbn [fst snd]. by apply st_readbuf.
Qed.

(** Assignments to one field. *)
Lemma keeps_set_keepAliveInterval v : keeps (update (set_keepAliveInterval v)).
Proof. apply keeps_update, st_keepAliveInterval. Qed.
Lemma keeps_set_cleansession v : keeps (update (set_cleansession v)).
Proof. apply keeps_update, st_cleansession. Qed.
Lemma keeps_set_last_sent v : keeps (update (set_last_sent v)).
Proof. apply keeps_update, st_last_sent. Qed.
Lemma keeps_set_last_received v : keeps (update (set_last_received v)).
Proof. apply keeps_update, st_last_received. Qed.
Lemma keeps_set_ping v : bit v → keeps (update (set_ping_outstanding v)).
Proof. intros Hv. apply keeps_update. intros c. by apply st_ping. Qed.
Lemma keeps_disconnect : keeps (update (set_isconnected 0)).
Proof. apply keeps_update, st_disconnected. Qed.

(** A read of the client whose value is that of the current state. *)
Lemma keeps_client_bind {A} (f : MQTTClient → C A) :
  (∀ c w a s', P c → f c (c, w) = Ok (a, s') → P (fst s')) → keeps (client ≫= f).
Proof. intros Hf [c w] a s' Hs E. exact (Hf c w a s' Hs E). Qed.

Lemma keeps_getNextPacketId : keeps getNextPacketId.
Proof.
  apply keeps_client_bind. intros c w a s' Hs E. injection E as _ <-. cbn [fst].
  by apply st_packetid.
Qed.

Lemma keeps_MQTTCleanSession : keeps MQTTCleanSession.
Proof. apply keeps_update. intros c Hc. apply st_handlers; [|done]. by rewrite length_map. Qed.

End State.

Create HintDb keeps.
#[export] Hint Resolve keeps_ret keeps_lift keeps_no_fuel keeps_env keeps_client
  keeps_store_readbuf keeps_set_keepAliveInterval keeps_set_cleansession keeps_set_last_sent
  keeps_set_last_received keeps_disconnect keeps_getNextPacketId keeps_MQTTCleanSession : keeps.

(** One step of a proof that a function keeps the invariant. *)
Ltac keeps_step :=
  first
    [ solve [auto with keeps]
    | match goal with
      | |- keeps _ (on_buf _) => apply keeps_on_buf; intros
      | |- keeps _ (update (set_ping_outstanding _)) =>
          apply keeps_set_ping; try solve [apply _]; unfold bit; lia
      | |- keeps_size _ _ => auto with sizes
      | |- keeps _ (let _ := _ in _) => cbv zeta
      | |- keeps _ (if _ then _ else _) => apply keeps_if
      | |- keeps _ (match ?x with _ => _ end) => destruct x
      end
    | apply keeps_bind; [|intros] ].
Ltac keeps_tac := repeat keeps_step.

Section Operations.
Context `{CImpl} {W : Type} `{Platform W} (P : MQTTClient → Prop) `{HP : !Stable P}.
#[local] Abbreviation C A := (M (MQTTClient * W) A).
#[local] Abbreviation Keeps := (keeps P).

Lemma keeps_sendPacket fuel length timer : Keeps (sendPacket fuel length timer).
Proof.
  unfold sendPacket. keeps_tac. generalize 0 as sent.
  induction fuel as [|fuel IH] in timer |- *; intros sent; cbn [sendPacket_loop]; keeps_tac.
Qed.
#[local] Hint Resolve keeps_sendPacket : keeps.

(** The remaining length put back into readbuf. *)
Lemma keeps_encode {A} rem_len (f : MQTTClient → Z → C A) :
  (∀ c k, Keeps (f c k)) →
  Keeps (c ← client; '(k, b) ← lift (MQTTPacket_encode rem_len (readbuf c) 1);
         update (set_readbuf b) ;; f c k).
Proof.
  intros Hf. apply keeps_client_bind. intros c w a s' Hs E.
  apply run_bind_inv in E as ([k b] & s1 & E1 & E). apply run_lift_inv in E1 as [E1 ->].
  apply encode_loop_length in E1. apply run_bind_inv in E as ([] & s2 & E2 & E).
  refine (Hf c k s2 a s' _ E). injection E2 as <-. cbn [fst snd]. by apply st_readbuf.
Qed.

Lemma keeps_readPacket timer : Keeps (readPacket timer).
Proof.
  unfold readPacket. repeat first [apply keeps_encode; intros | keeps_step].
Qed.

Lemma keeps_deliverMessage topicName message : Keeps (deliverMessage topicName message).
Proof.
  unfold deliverMessage. apply keeps_bind.
  - generalize 0 FAILURE. induction (Z.to_nat MAX_MESSAGE_HANDLERS) as [|n IH]; intros i rc;
      cbn [deliver_loop]; keeps_tac.
  - intros rc. keeps_tac.
Qed.

Lemma keeps_MQTTCloseSession : Keeps MQTTCloseSession.
Proof. unfold MQTTCloseSession. keeps_tac. Qed.

Lemma keeps_keepalive fuel : Keeps (keepalive fuel).
Proof. unfold keepalive. keeps_tac. Qed.

#[local] Hint Resolve keeps_readPacket keeps_deliverMessage keeps_MQTTCloseSession
  keeps_keepalive : keeps.

Lemma keeps_cycle fuel o timer : Keeps (cycle fuel o timer).
Proof.
  unfold cycle, cycle_switch, cycle_publish, cycle_pubrec_pubrel. keeps_tac.
Qed.
#[local] Hint Resolve keeps_cycle : keeps.

Lemma keeps_waitfor fuel o packet_type timer : Keeps (waitfor fuel o packet_type timer).
Proof.
  unfold waitfor. generalize FAILURE as rc. generalize fuel at 1 as n. intros n. revert timer.
  induction n as [|n IH]; intros timer rc; cbn [waitfor_loop]; keeps_tac.
Qed.

Lemma keeps_MQTTSetMessageHandler filter handler : Keeps (MQTTSetMessageHandler filter handler).
Proof.
  apply keeps_client_bind. intros c w a s' Hs E. cbv zeta in E.
  apply run_bind_inv in E as (i & s1 & E1 & E). apply run_lift_inv in E1 as [_ ->].
  assert (Set_ : ∀ (b : bool) j v (r : Z) s2,
    ((if b then hs ← lift (arr_set (messageHandlers c) j v); update (set_messageHandlers hs)
      else mret tt) ;; mret r) (c, w) = Ok (a, s2) → P (fst s2)).
  { intros b j v r s2 E2. apply run_bind_inv in E2 as ([] & s3 & E3 & E2). injection E2 as _ <-.
    destruct b; [|by injection E3 as <-].
    apply run_bind_inv in E3 as (hs & s4 & E4 & E3). apply run_lift_inv in E4 as [E4 ->].
    apply arr_set_length in E4. injection E3 as <-. cbn [fst snd].
    by apply st_handlers. }
  destruct handler as [h|].
  - apply run_bind_inv in E as (j & s1 & E1 & E).
    assert (s1 = (c, w)) as ->; [|by eapply Set_].
    destruct (_ =? FAILURE); [by apply run_lift_inv in E1 as [_ ->]|by injection E1 as _ <-].
  - by eapply Set_.
Qed.
#[local] Hint Resolve keeps_waitfor keeps_MQTTSetMessageHandler : keeps.

Lemma keeps_connect_session fuel o options data : Keeps (connect_session fuel o options data).
Proof. unfold connect_session. keeps_tac. Qed.

Lemma keeps_MQTTConnectWithResults fuel o options data :
  (∀ c, P c → P (set_isconnected 1 c)) → Keeps (MQTTConnectWithResults fuel o options data).
Proof.
  intros H1. pose proof (keeps_update P _ H1) as Hc. pose proof keeps_connect_session.
  unfold MQTTConnectWithResults. keeps_tac.
Qed.

Lemma keeps_command_timer : Keeps command_timer.
Proof. unfold command_timer. keeps_tac. Qed.
Lemma keeps_api_exit {A} rc (a : A) : Keeps (api_exit rc a).
Proof. unfold api_exit. keeps_tac. Qed.
#[local] Hint Resolve keeps_command_timer keeps_api_exit : keeps.

Lemma keeps_MQTTSubscribeWithResults fuel o filter qos handler data :
  Keeps (MQTTSubscribeWithResults fuel o filter qos handler data).
Proof. unfold MQTTSubscribeWithResults, subscribe_session, subscribe_ack. keeps_tac. Qed.

Lemma keeps_MQTTUnsubscribe fuel o filter : Keeps (MQTTUnsubscribe fuel o filter).
Proof. unfold MQTTUnsubscribe, unsubscribe_session. keeps_tac. Qed.

Lemma keeps_MQTTPublish fuel o topicName message : Keeps (MQTTPublish fuel o topicName message).
Proof. unfold MQTTPublish, publish_session, publish_wait. keeps_tac. Qed.

Lemma keeps_MQTTDisconnect fuel : Keeps (MQTTDisconnect fuel).
Proof. unfold MQTTDisconnect. keeps_tac. Qed.

Lemma keeps_MQTTYield fuel o timeout_ms : Keeps (MQTTYield fuel o timeout_ms).
Proof.
  unfold MQTTYield. keeps_tac. generalize fuel at 1 as n. intros n.
  induction n as [|n IH] in a0 |- *; cbn [yield_loop]; keeps_tac.
Qed.

Lemma keeps_run_iteration fuel o timer : Keeps (run_iteration fuel o timer).
Proof. unfold run_iteration. keeps_tac. Qed.

End Operations.

(** ** Sequences of calls *)

Section Calls.
Context `{CImpl} {W : Type} `{Platform W}.

(** A client with the buffers it was initialised with. *)
Record client_ok (nbuf nread : nat) (c : MQTTClient) : Prop :=
  { ok_id : 1 ≤ next_packetid c ≤ MAX_PACKET_ID;
    ok_handlers : len (messageHandlers c) = MAX_MESSAGE_HANDLERS;
    ok_buf : length (buf c) = nbuf ∧ buf_size c = Z.of_nat nbuf;
    ok_readbuf : length (readbuf c) = nread ∧ readbuf_size c = Z.of_nat nread;
    ok_connected : bit (isconnected c);
    ok_ping : bit (ping_outstanding c) }.

Lemma next_id_range c :
  1 ≤ next_packetid c ≤ MAX_PACKET_ID →
  1 ≤ (if next_packetid c =? MAX_PACKET_ID then 1 else to_uint (next_packetid c + 1)) ≤ MAX_PACKET_ID.
Proof. unfold MAX_PACKET_ID, to_uint. intros. ztest. Qed.

#[export] Instance client_ok_stable nbuf nread : Stable (client_ok nbuf nread).
Proof.
  split; intros; match goal with Hc : client_ok _ _ ?c |- _ =>
    destruct Hc as [A1 A2 [A3 A4] [A5 A6] A7 A8]; pose proof (next_id_range c A1) end;
    split; cbn; unfold bit in *; auto; lia.
Qed.

(** A client that is not connected. *)
Definition disconnected (c : MQTTClient) : Prop := isconnected c = 0.

#[export] Instance disconnected_stable : Stable disconnected.
Proof. split; intros; done. Qed.

Context (nbuf nread : nat).


(** One call of the API, one iteration of the background task, or anything
    that happens outside the client. *)
Inductive api_step : MQTTClient * W → MQTTClient * W → Prop :=
  | step_connect fuel o options data r s s' :
      MQTTConnectWithResults fuel o options data s = Ok (r, s') → api_step s s'
  | step_subscribe fuel o filter qos handler data r s s' :
      MQTTSubscribeWithResults fuel o filter qos handler data s = Ok (r, s') → api_step s s'
  | step_unsubscribe fuel o filter r s s' :
      MQTTUnsubscribe fuel o filter s = Ok (r, s') → api_step s s'
  | step_publish fuel o topic message r s s' :
      MQTTPublish fuel o topic message s = Ok (r, s') → api_step s s'
  | step_disconnect fuel r s s' : MQTTDisconnect fuel s = Ok (r, s') → api_step s s'
  | step_handler filter handler r s s' :
      MQTTSetMessageHandler filter handler s = Ok (r, s') → api_step s s'
  | step_yield fuel o timeout r s s' : MQTTYield fuel o timeout s = Ok (r, s') → api_step s s'
  | step_task fuel o timer timer' s s' :
      run_iteration fuel o timer s = Ok (timer', s') → api_step s s'
  | step_world c w w' : api_step (c, w) (c, w').

Lemma api_step_ok s s' : api_step s s' → client_ok nbuf nread (fst s) → client_ok nbuf nread (fst s').
Proof.
  intros Hstep Hs. destruct Hstep as
    [? ? ? ? ? ? ? E|? ? ? ? ? ? ? ? ? E|? ? ? ? ? ? E|? ? ? ? ? ? ? E|? ? ? ? E|? ? ? ? ? E
    |? ? ? ? ? ? E|? ? ? ? ? ? E|]; [..|exact Hs].
  - refine (keeps_MQTTConnectWithResults (client_ok nbuf nread) _ _ _ _ _ _ _ _ Hs E).
    intros c [H1 H2 H3 H4 H5 H6]. split; try done. by right.
  - exact (keeps_MQTTSubscribeWithResults (client_ok nbuf nread) _ _ _ _ _ _  _ _ _ Hs E).
  - exact (keeps_MQTTUnsubscribe (client_ok nbuf nread) _ _ _  _ _ _ Hs E).
  - exact (keeps_MQTTPublish (client_ok nbuf nread) _ _ _ _  _ _ _ Hs E).
  - exact (keeps_MQTTDisconnect (client_ok nbuf nread) _  _ _ _ Hs E).
  - exact (keeps_MQTTSetMessageHandler (client_ok nbuf nread) _ _  _ _ _ Hs E).
  - exact (keeps_MQTTYield (client_ok nbuf nread) _ _ _  _ _ _ Hs E).
  - exact (keeps_run_iteration (client_ok nbuf nread) _ _ _  _ _ _ Hs E).
Qed.

Lemma MQTTClientInit_ok c0 timeout sendbuf rbuf w c w' :
  len (messageHandlers c0) = MAX_MESSAGE_HANDLERS → length sendbuf = nbuf → length rbuf = nread →
  MQTTClientInit c0 timeout sendbuf (Z.of_nat nbuf) rbuf (Z.of_nat nread) w = Ok (c, w') →
  client_ok nbuf nread c.
Proof.
  intros Hh Hb Hr E. unfold MQTTClientInit in E.
  apply run_bind_inv in E as (t1 & w1 & _ & E). apply run_bind_inv in E as (t2 & w2 & _ & E).
  apply run_bind_inv in E as ([] & w3 & _ & E). injection E as <- _.
  split; cbn; rewrite ?length_map; unfold MAX_PACKET_ID, bit; auto; lia.
Qed.

End Calls.

(** C8: from MQTTClientInit on, whatever sequence of API calls is made and whatever the
    network, the clock and the application do, the next packet identifier stays in
    1..65535, the handler table keeps its five slots, the buffers keep the sizes they were
    given, and isconnected and ping_outstanding stay 0 or 1. *)
Theorem client_reachable_ok `{CImpl} {W : Type} `{Platform W} c0 timeout sendbuf rbuf w c w' s :
  len (messageHandlers c0) = MAX_MESSAGE_HANDLERS →
  MQTTClientInit c0 timeout sendbuf (len sendbuf) rbuf (len rbuf) w = Ok (c, w') →
  rtc api_step (c, w') s → client_ok (length sendbuf) (length rbuf) (fst s).
Proof.
  intros Hh Hi Hr.
  assert (Hc : client_ok (length sendbuf) (length rbuf) c)
    by (eapply MQTTClientInit_ok; [exact Hh|done|done|exact Hi]).
  remember (c, w') as s0 eqn:E. assert (Hok : client_ok (length sendbuf) (length rbuf) (fst s0))
    by (by subst). clear E Hc Hi. induction Hr as [|s1 s2 s3 Hstep _ IH]; [done|].
  apply IH. by eapply api_step_ok.
Qed.

(** ** Packet identifiers *)

Section Ids.
Context `{CImpl} {W : Type} `{Platform W}.
#[local] Abbreviation C A := (M (MQTTClient * W) A).

(** [n] calls of getNextPacketId. *)
Fixpoint next_ids (n : nat) : C (list Z) :=
  match n with
  | O => mret []
  | S n => id ← getNextPacketId; ids ← next_ids n; mret (id :: ids)
  end.

Definition id_after (x : Z) (k : Z) : Z := (x - 1 + k) mod MAX_PACKET_ID + 1.

Lemma next_ids_run n c w :
  1 ≤ next_packetid c ≤ MAX_PACKET_ID →
  ∃ s, next_ids n (c, w) =
    Ok (map (λ k, id_after (next_packetid c) (Z.of_nat k)) (seq 1 n), s).
Proof.
  revert c. induction n as [|n IH]; intros c Hc; [by eexists|]. cbn [next_ids].
  pose proof (next_id_range c Hc) as Hn.
  set (id := if next_packetid c =? MAX_PACKET_ID then _ else _) in Hn.
  rewrite (run_bind _ _ _ id (set_next_packetid id c, w)) by done.
  destruct (IH (set_next_packetid id c) Hn) as (s & E). rewrite (run_bind _ _ _ _ _ E).
  exists s. rewrite run_ret. do 2 f_equal. cbn [seq map next_packetid set_next_packetid].
  rewrite <- (seq_shift n 1), map_map.
  assert (Hid : id = id_after (next_packetid c) 1).
  { unfold id, id_after, to_uint, MAX_PACKET_ID in *. ztest. }
  f_equal; [exact Hid|]. apply map_ext. intros k. rewrite Hid. unfold id_after, MAX_PACKET_ID. lia.
Qed.

(** Successive packet identifiers count up from the current one and wrap from 65535 to
    1: the k-th is ((x - 1 + k) mod 65535) + 1, never 0, and any 65535 in a row are
    pairwise distinct. *)
Theorem getNextPacketId_sequence n c w :
  1 ≤ next_packetid c ≤ MAX_PACKET_ID → Z.of_nat n ≤ MAX_PACKET_ID →
  ∃ ids s, next_ids n (c, w) = Ok (ids, s) ∧
    (∀ k id, ids !! k = Some id → id = id_after (next_packetid c) (Z.of_nat k + 1)) ∧
    Forall (λ id, 1 ≤ id ≤ MAX_PACKET_ID) ids ∧ NoDup ids.
Proof.
  intros Hc Hn. destruct (next_ids_run n c w Hc) as (s & E). eexists _, s. split; [exact E|].
  split; [|split].
  - intros k id Hk. rewrite list_lookup_fmap in Hk. destruct (seq 1 n !! k) as [j|] eqn:Hj; [|done].
    apply lookup_seq in Hj as [-> _]. injection Hk as <-. f_equal. lia.
  - apply Forall_forall. intros id Hid. apply list_elem_of_In, list_elem_of_fmap in Hid as (k & -> & _).
    unfold id_after, MAX_PACKET_ID. lia.
  - apply NoDup_fmap_2_strong; [|apply NoDup_seq]. intros j k Hj Hk Hjk.
    apply elem_of_seq in Hj, Hk. unfold id_after, MAX_PACKET_ID in *. lia.
Qed.

End Ids.

(** ** The theorems on the simulated platform *)

#[local] Existing Instance x86_64.

Definition ex_world : world := World 0 [] [] 1000 0 [].
Definition ex_client : MQTTClient :=
  mkClient 65534 1000 64 64 (replicate 64 0) (replicate 64 0) 0 0 0 0 (replicate 5 (Slot None None))
    None 0 0.

Lemma client_reachable_ok_witness :
  ∃ s, rtc api_step (mkClient 1 500 8 9 (replicate 8 0) (replicate 9 0) 0 0 0 0
                       (replicate 5 (Slot None None)) None 0 0, ex_world) s ∧
       client_ok 8 9 (fst s).
Proof.
  set (c := mkClient _ _ _ _ _ _ _ _ _ _ _ _ _ _).
  assert (R : rtc api_step (c, ex_world)
    (mkClient 1 500 8 9 (replicate 8 0) (replicate 9 0) 0 0 0 0
       (Slot (Some (c_string [97])) (Some (app_handler 7)) :: replicate 4 (Slot None None)) None 0 0, ex_world)).
  { apply rtc_once, (step_handler (Some (c_string [97])) (Some (app_handler 7)) 0). reflexivity. }
  eexists. split; [exact R|].
  apply (client_reachable_ok ex_client 500 (replicate 8 0) (replicate 9 0) ex_world c ex_world);
    [reflexivity|reflexivity|exact R].
Defined.

Lemma getNextPacketId_sequence_witness :
  ∃ ids s, next_ids 3 (ex_client, ex_world) = Ok (ids, s) ∧
    (∀ k id, ids !! k = Some id → id = id_after 65534 (Z.of_nat k + 1)) ∧
    Forall (λ id, 1 ≤ id ≤ MAX_PACKET_ID) ids ∧ NoDup ids.
Proof. apply (getNextPacketId_sequence 3 ex_client ex_world); [decide_by_vm|decide_by_vm]. Defined.

Example next_ids_wrap :
  (next_ids 3 (ex_client, ex_world) ≫= λ r, Ok r.1) = Ok [65535; 1; 2].
Proof. vm_compute. reflexivity. Qed.

End ClientState.
