(* ===== verification/Handlers.v ===== *)
(** * The message handlers of the client

    The five slots as a finite map from topic filters to handlers:
    MQTTSetMessageHandler inserts into and deletes from the map, and
    deliverMessage calls the handlers whose filter matches. *)

From stdpp Require Import gmap.
From S2P Require Import Prelude CSem Wire Packet Topics Platform Sim Client.

Module Handlers.
Import Client.

Section Handlers.
Context `{CImpl} {W : Type} `{Platform W}.
#[local] Abbreviation C A := (M (MQTTClient * W) A).

(** ** The slots as a finite map *)

(** The contents of a slot: a filter and its handler, or nothing. *)
Abbreviation entry := (option (list Z * option messageHandler)).

Definition holds (h : MessageHandlers) (e : entry) : Prop :=
  match e with
  | Some (f, x) => ∃ p, topicFilter h = Some p ∧ cstr p f ∧ fp h = x
  | None => topicFilter h = None
  end.

Definition entries (tbl : list entry) : list (list Z * option messageHandler) := omap id tbl.
Definition table (tbl : list entry) : gmap (list Z) (option messageHandler) :=
  list_to_map (entries tbl).

(** The slots [hs] stand for the map [m]: no filter is there twice. *)
Definition slots_hold (hs : list MessageHandlers) (m : gmap (list Z) (option messageHandler))
  : Prop :=
  ∃ tbl, Forall2 holds hs tbl ∧ NoDup (entries tbl).*1 ∧ table tbl = m.

Lemma entries_app a b : entries (a ++ b) = entries a ++ entries b.
Proof. apply omap_app. Qed.

(** A slot that holds another filter, or nothing. *)
Definition other (f : list Z) (e : entry) : Prop :=
  match e with Some (f', _) => f' ≠ f | None => True end.

Lemma other_entries f tbl : Forall (other f) tbl ↔ f ∉ (entries tbl).*1.
Proof.
  induction tbl as [|[[f' x]|] tbl IH]; cbn.
  - split; [intros _; apply not_elem_of_nil|constructor].
  - rewrite Forall_cons_iff, IH, not_elem_of_cons. cbn. intuition congruence.
  - rewrite Forall_cons_iff, IH. cbn. tauto.
Qed.

Lemma find_filter_spec p f pre hs tbl :
  cstr p f → Forall2 holds hs tbl →
  (Forall (other f) tbl ∧
   find_filter (length hs) (len pre) (Some p) (pre ++ hs) = Ok (len pre + len hs)) ∨
  (∃ h1 h h2 t1 x t2, hs = h1 ++ h :: h2 ∧ tbl = t1 ++ Some (f, x) :: t2 ∧
     Forall2 holds h1 t1 ∧ holds h (Some (f, x)) ∧ Forall2 holds h2 t2 ∧
     Forall (other f) t1 ∧
     find_filter (length hs) (len pre) (Some p) (pre ++ hs) = Ok (len pre + len h1)).
Proof.
  intros Hp F. revert pre. induction F as [|h e hs tbl He F IH]; intros pre.
  - left. split; [constructor|]. cbn. f_equal. lia.
  - cbn [find_filter length]. rewrite (bind_Ok _ _ _ (arr_get_app pre h hs _ eq_refl)).
    assert (Next : other f e →
      (b ← (if nonnull (topicFilter h)
            then r ← strcmp (topicFilter h) (Some p); Ok (r =? 0) else Ok false);
       if b : bool then Ok (len pre)
       else find_filter (length hs) (len pre + 1) (Some p) (pre ++ h :: hs)) =
      find_filter (length hs) (len (pre ++ [h])) (Some p) ((pre ++ [h]) ++ hs)).
    { intros Ho. rewrite <- app_assoc. cbn [app].
      replace (len (pre ++ [h])) with (len pre + 1) by (autorewrite with lens; cbn; lia).
      destruct e as [[f' x]|]; cbn in He, Ho.
      - destruct He as (q & -> & Hq & _). cbn [nonnull].
        destruct (strcmp_cstr q p f' f Hq Hp) as (r & -> & Hr). cbn [mbind outcome_bind].
        destruct (Z.eqb_spec r 0); [tauto|done].
      - rewrite He. done. }
    assert (Cases : (∃ x, e = Some (f, x)) ∨ other f e).
    { destruct e as [[f' x]|]; [|by right]. destruct (decide (f' = f)) as [->|]; [by left; exists x|by right]. }
    destruct Cases as [[x ->]|Ho].
    + right. exists [], h, hs, [], x, tbl. repeat (split; [done || constructor|]).
      destruct He as (q & -> & Hq & _). cbn [nonnull].
      destruct (strcmp_cstr q p f f Hq Hp) as (r & -> & Hr). cbn [mbind outcome_bind].
      destruct (Z.eqb_spec r 0); [|tauto]. cbn. f_equal. lia.
    + rewrite (Next Ho). destruct (IH (pre ++ [h])) as [[Fo E]|(h1 & h' & h2 & t1 & x & t2 & -> & -> & F1 & Hh & F2 & Fo & E)].
      * left. split; [by constructor|]. rewrite E. f_equal. autorewrite with lens. cbn. lia.
      * right. exists (h :: h1), h', h2, (e :: t1), x, t2.
        repeat (split; [done || by constructor|]). rewrite E. f_equal. autorewrite with lens. cbn [length]. lia.
Qed.

Lemma find_empty_spec pre hs tbl :
  Forall2 holds hs tbl →
  (length (entries tbl) = length hs ∧
   find_empty (length hs) (len pre) (pre ++ hs) = Ok (len pre + len hs)) ∨
  (∃ h1 h h2 t1 t2, hs = h1 ++ h :: h2 ∧ tbl = t1 ++ None :: t2 ∧
     Forall2 holds h1 t1 ∧ Forall2 holds h2 t2 ∧
     find_empty (length hs) (len pre) (pre ++ hs) = Ok (len pre + len h1)).
Proof.
  intros F. revert pre. induction F as [|h e hs tbl He F IH]; intros pre.
  - left. split; [done|]. cbn. f_equal. lia.
  - cbn [find_empty length]. rewrite (bind_Ok _ _ _ (arr_get_app pre h hs _ eq_refl)).
    destruct e as [[f x]|].
    + assert (Hn : nonnull (topicFilter h) = true) by (by destruct He as (q & -> & _)).
      rewrite Hn. specialize (IH (pre ++ [h])).
      rewrite <- app_assoc in IH. cbn [app] in IH.
      replace (len (pre ++ [h])) with (len pre + 1) in IH by (autorewrite with lens; cbn; lia).
      destruct IH as [[L E]|(h1 & h' & h2 & t1 & t2 & -> & -> & F1 & F2 & E)].
      * left. rewrite E. change (entries (Some (f, x) :: tbl)) with ((f, x) :: entries tbl).
        split; [cbn [length]; congruence|]. f_equal. lia.
      * right. exists (h :: h1), h', h2, (Some (f, x) :: t1), t2. rewrite E.
        repeat (split; [done || by constructor|]). f_equal. rewrite len_cons. lia.
    + cbn in He. rewrite He. right. exists [], h, hs, [], tbl. repeat (split; [done || constructor|]).
      cbn. f_equal. lia.
Qed.

(** ** MQTTSetMessageHandler *)

(** What the function promises: a map of at most five filters. *)
Definition set_handler (f : list Z) (handler : option messageHandler)
    (m : gmap (list Z) (option messageHandler)) : Z * gmap (list Z) (option messageHandler) :=
  match handler with
  | None => if decide (is_Some (m !! f)) then (SUCCESS, delete f m) else (FAILURE, m)
  | Some _ =>
      if decide (is_Some (m !! f) ∨ Z.of_nat (size m) < MAX_MESSAGE_HANDLERS)
      then (SUCCESS, <[f := handler]> m) else (FAILURE, m)
  end.

Lemma table_middle t1 f x t2 :
  NoDup (entries (t1 ++ Some (f, x) :: t2)).*1 →
  table (t1 ++ Some (f, x) :: t2) = <[f := x]> (table (t1 ++ None :: t2)) ∧
  table (t1 ++ None :: t2) !! f = None ∧ NoDup (entries (t1 ++ None :: t2)).*1.
Proof.
  unfold table. rewrite !entries_app.
  change (entries (Some (f, x) :: t2)) with ((f, x) :: entries t2).
  change (entries (None :: t2)) with (entries t2).
  generalize (entries t1) (entries t2). intros l1 l2 N.
  pose proof N as N'. rewrite <- Permutation_middle in N'. cbn [fmap list_fmap fst] in N'.
  apply list.NoDup_cons in N' as [Nf Nd].
  split; [|split; [by apply not_elem_of_list_to_map_1|exact Nd]].
  rewrite (list_to_map_proper (M := gmap (list Z)) _ _ N (symmetry (Permutation_middle l1 l2 (f, x)))).
  done.
Qed.

(** A free slot filled with a filter that is not in the table. *)
Lemma table_fill t1 f x t2 :
  f ∉ (entries (t1 ++ None :: t2)).*1 → NoDup (entries (t1 ++ None :: t2)).*1 →
  NoDup (entries (t1 ++ Some (f, x) :: t2)).*1.
Proof.
  rewrite !entries_app. change (entries (Some (f, x) :: t2)) with ((f, x) :: entries t2).
  change (entries (None :: t2)) with (entries t2).
  intros Nf N. rewrite <- Permutation_middle. by apply list.NoDup_cons.
Qed.

Lemma Forall2_length_eq {A B} (P : A → B → Prop) l k : Forall2 P l k → length l = length k.
Proof. by induction 1; cbn; f_equal. Qed.

Lemma entries_size tbl : NoDup (entries tbl).*1 → size (table tbl) = length (entries tbl).
Proof. apply map_size_list_to_map. Qed.

Lemma entries_length tbl : (length (entries tbl) ≤ length tbl)%nat.
Proof.
  induction tbl as [|[e|] tbl IH]; [done| |]; cbn [length].
  - change (entries (Some e :: tbl)) with (e :: entries tbl). cbn. lia.
  - change (entries (None :: tbl)) with (entries tbl). lia.
Qed.

Lemma set_same c : set_messageHandlers (messageHandlers c) c = c.
Proof. by destruct c. Qed.

(** The call when a slot already has the filter. *)
Lemma set_present c w p f handler h1 h h2 t1 x t2 :
  messageHandlers c = h1 ++ h :: h2 → len (messageHandlers c) = MAX_MESSAGE_HANDLERS →
  Forall2 holds h1 t1 → Forall2 holds h2 t2 → cstr p f →
  NoDup (entries (t1 ++ Some (f, x) :: t2)).*1 →
  find_filter (length (messageHandlers c)) 0 (Some p) (messageHandlers c) = Ok (len h1) →
  ∃ hs', MQTTSetMessageHandler (Some p) handler (c, w) =
           Ok (SUCCESS, (set_messageHandlers hs' c, w)) ∧
    slots_hold hs' (match handler with
                    | None => delete f (table (t1 ++ Some (f, x) :: t2))
                    | Some _ => <[f := handler]> (table (t1 ++ Some (f, x) :: t2)) end) ∧
    length hs' = length (messageHandlers c).
Proof.
  intros Eh Hlen F1 F2 Hp N E. destruct (table_middle _ _ _ _ N) as (Et & Ef & N0).
  assert (L : len h1 < MAX_MESSAGE_HANDLERS)
    by (rewrite Eh, len_app, len_cons in Hlen; lia).
  unfold MQTTSetMessageHandler. rewrite (run_bind _ _ _ c (c, w)) by done. cbv zeta.
  replace (Z.to_nat MAX_MESSAGE_HANDLERS) with (length (messageHandlers c)) by lia.
  rewrite (run_bind _ _ _ _ _ (run_lift _ _ (c, w) E)). ztest.
  exists ((h1 ++ [Slot (if handler is Some _ then Some p else None) handler]) ++ h2).
  assert (A : ∀ v, arr_set (messageHandlers c) (len h1) v = Ok ((h1 ++ [v]) ++ h2))
    by (intros v; rewrite Eh; by apply arr_set_app).
  split; [|split; [|rewrite Eh, !length_app; cbn; lia]].
  - destruct handler as [fn|]; cbn [Z.eqb].
    + change (SUCCESS =? FAILURE) with false. cbv iota. rewrite run_bind_ret. cbn [andb].
      ztest.
      by rewrite run_assoc, (run_bind _ _ _ _ _ (run_lift _ _ (c, w) (A _))).
    + change (SUCCESS =? SUCCESS) with true. cbv iota.
      by rewrite run_assoc, (run_bind _ _ _ _ _ (run_lift _ _ (c, w) (A _))).
  - rewrite <- app_assoc. cbn [app]. destruct handler as [fn|].
    + exists (t1 ++ Some (f, Some fn) :: t2).
      assert (Nn : NoDup (entries (t1 ++ Some (f, Some fn) :: t2)).*1).
      { apply table_fill; [|done]. rewrite !entries_app in *.
        change (entries (Some (f, x) :: t2)) with ((f, x) :: entries t2) in N.
        rewrite <- Permutation_middle in N. by apply list.NoDup_cons in N as [? _]. }
      split; [|split; [done|]].
      * apply Forall2_app; [done|]. constructor; [|done]. by exists p.
      * destruct (table_middle _ _ _ _ Nn) as (-> & _). by rewrite Et, insert_insert_eq.
    + exists (t1 ++ None :: t2). split; [|split; [done|]].
      * apply Forall2_app; [done|]. by constructor.
      * by rewrite Et, delete_insert_id.
Qed.

(** What an array holds once a filter is in a slot that was free. *)
Lemma fill_slot hs p f fn h1 h h2 t1 t2 :
  hs = h1 ++ h :: h2 → Forall2 holds h1 t1 → Forall2 holds h2 t2 → cstr p f →
  Forall (other f) (t1 ++ None :: t2) → NoDup (entries (t1 ++ None :: t2)).*1 →
  ∃ hs', arr_set hs (len h1) (Slot (Some p) (Some fn)) = Ok hs' ∧
    slots_hold hs' (<[f := Some fn]> (table (t1 ++ None :: t2))) ∧ length hs' = length hs ∧
    (length (entries (t1 ++ None :: t2)) < length hs)%nat.
Proof.
  intros -> F1 F2 Hp Fo N. exists ((h1 ++ [Slot (Some p) (Some fn)]) ++ h2).
  assert (Nn : NoDup (entries (t1 ++ Some (f, Some fn) :: t2)).*1)
    by (apply table_fill; [by apply other_entries|done]).
  split; [by apply arr_set_app|]. split; [|split; [rewrite !length_app; cbn; lia|]].
  - exists (t1 ++ Some (f, Some fn) :: t2). rewrite <- app_assoc. split; [|split; [done|]].
    + apply Forall2_app; [done|]. constructor; [|done]. by exists p.
    + by destruct (table_middle _ _ _ _ Nn) as (-> & _).
  - rewrite entries_app, !length_app. change (entries (None :: t2)) with (entries t2).
    pose proof (entries_length t1). pose proof (entries_length t2).
    pose proof (Forall2_length_eq _ _ _ F1). pose proof (Forall2_length_eq _ _ _ F2).
    cbn [length]. lia.
Qed.

(** C6: MQTTSetMessageHandler treats the slots as a map from topic filters to handlers:
    with a handler it replaces the filter's or takes a free slot, without one it removes
    the filter; it fails, changing nothing, when the filter to remove is not there or when
    all five slots are taken by other filters. No filter is ever there twice. *)
Theorem MQTTSetMessageHandler_refines c w p f handler m :
  slots_hold (messageHandlers c) m → len (messageHandlers c) = MAX_MESSAGE_HANDLERS → cstr p f →
  ∃ hs', MQTTSetMessageHandler (Some p) handler (c, w) =
           Ok (fst (set_handler f handler m), (set_messageHandlers hs' c, w)) ∧
    slots_hold hs' (snd (set_handler f handler m)) ∧ length hs' = length (messageHandlers c).
Proof.
  intros (tbl & F & N & Em) Hlen Hp.
  pose proof (Forall2_length_eq _ _ _ F) as L.
  destruct (find_filter_spec p f [] (messageHandlers c) tbl Hp F)
    as [[Fo E]|(h1 & h & h2 & t1 & x & t2 & Eh & -> & F1 & _ & F2 & _ & E)];
    cbn [app] in E; change (len (@nil MessageHandlers)) with 0 in E; rewrite Z.add_0_l in E.
  2:{ destruct (set_present c w p f handler h1 h h2 t1 x t2 Eh Hlen F1 F2 Hp N E) as (hs' & R & S & L').
      assert (Hm : is_Some (m !! f))
        by (destruct (table_middle _ _ _ _ N) as (Et & _); rewrite <- Em, Et, lookup_insert_eq; eauto).
      exists hs'. unfold set_handler. rewrite Em in S. destruct handler as [fn|].
      - by rewrite decide_True by auto.
      - by rewrite decide_True by auto. }
  assert (Hm : ¬ is_Some (m !! f)).
  { rewrite <- Em. apply eq_None_not_Some, not_elem_of_list_to_map_1. by apply other_entries. }
  assert (Fail : MQTTSetMessageHandler (Some p) handler (c, w) = Ok (FAILURE, (c, w)) →
    ∃ hs', MQTTSetMessageHandler (Some p) handler (c, w) =
           Ok (FAILURE, (set_messageHandlers hs' c, w)) ∧
      slots_hold hs' m ∧ length hs' = length (messageHandlers c)).
  { intros R. exists (messageHandlers c). rewrite set_same. split; [done|]. split; [|done].
    by exists tbl. }
  revert Fail. unfold MQTTSetMessageHandler. rewrite (run_bind _ _ _ c (c, w)) by done. cbv zeta.
  replace (Z.to_nat MAX_MESSAGE_HANDLERS) with (length (messageHandlers c)) by lia.
  rewrite (run_bind _ _ _ _ _ (run_lift _ _ (c, w) E)). ztest. intros Fail.
  unfold set_handler. destruct handler as [fn|]; [|rewrite decide_False by done; by apply Fail].
  change (FAILURE =? FAILURE) with true in *. cbn [andb] in *.
  destruct (find_empty_spec [] (messageHandlers c) tbl F)
    as [[Le Ee]|(h1 & h & h2 & t1 & t2 & Eh & -> & F1 & F2 & Ee)];
    cbn [app] in Ee; change (len (@nil MessageHandlers)) with 0 in Ee; rewrite Z.add_0_l in Ee;
    rewrite (run_bind _ _ _ _ _ (run_lift _ _ (c, w) Ee)) in *.
  - rewrite decide_False.
    + apply Fail. ztest. done.
    + rewrite <- Em, entries_size by done. intros [?|?]; [|lia]. apply Hm. by rewrite <- Em.
  - destruct (fill_slot _ p f fn h1 h h2 t1 t2 Eh F1 F2 Hp Fo N) as (hs' & A & S & L' & Hroom).
    rewrite decide_True by (right; rewrite <- Em, entries_size by done; lia).
    exists hs'. clear Fail. assert (len h1 < MAX_MESSAGE_HANDLERS)
      by (rewrite Eh, len_app, len_cons in Hlen; lia). ztest.
    rewrite run_assoc, (run_bind _ _ _ _ _ (run_lift _ _ (c, w) A)). by rewrite Em in S.
Qed.

(** ** deliverMessage *)

(** The handler a slot contributes for a topic. *)
Definition selected (topic : list Z) (e : entry) : option messageHandler :=
  match e with
  | Some (f, Some fn) => if bool_decide (topic = f) || tm f topic then Some fn else None
  | _ => None
  end.

Fixpoint call_all (fns : list messageHandler) (md : MessageData) : M W unit :=
  match fns with [] => mret tt | fn :: fns => call_handler fn md ;; call_all fns md end.

(** The return code when [fns] have been called. *)
Definition called (rc : Z) (fns : list messageHandler) : Z :=
  match fns with [] => rc | _ => SUCCESS end.

Lemma slot_matches p f t topic :
  cstr p f → denotes t topic → cstring t = None →
  (eq ← MQTTPacket_equals t (Some p);
   if eq : bool then Ok true else isTopicMatched (Some p) t) =
  Ok (bool_decide (topic = f) || tm f topic).
Proof.
  intros Hp Ht Hc. rewrite (bind_Ok _ _ _ (equals_denotes t p topic f Ht Hp)).
  destruct (bool_decide _); [done|]. by apply isTopicMatched_defined.
Qed.

Lemma deliver_loop_spec c t topic msg hs tbl pre rc w :
  denotes t topic → cstring t = None → messageHandlers c = pre ++ hs → Forall2 holds hs tbl →
  deliver_loop (length hs) (len pre) rc t msg (c, w) =
    (env (call_all (omap (selected topic) tbl) (NewMessageData t msg)) ;;
     mret (called rc (omap (selected topic) tbl))) (c, w).
Proof.
  intros Ht Hc. revert tbl pre rc w. induction hs as [|h hs IH]; intros tbl pre rc w Eh F.
  { by inversion F. }
  inversion F as [|? e ? tbl' He F']; subst. cbn [deliver_loop length].
  rewrite (run_bind _ _ _ c (c, w)) by done.
  rewrite (run_bind _ _ _ h (c, w)) by (apply run_lift; rewrite Eh; by apply arr_get_app).
  assert (Next : ∀ rc' w', deliver_loop (length hs) (len pre + 1) rc' t msg (c, w') =
    (env (call_all (omap (selected topic) tbl') (NewMessageData t msg)) ;;
     mret (called rc' (omap (selected topic) tbl'))) (c, w')).
  { intros rc' w'. replace (len pre + 1) with (len (pre ++ [h])) by (autorewrite with lens; cbn; lia).
    apply IH; [by rewrite <- app_assoc|done]. }
  destruct e as [[f x]|].
  - destruct He as (p & -> & Hp & ->). cbn [nonnull].
    rewrite (run_bind _ _ _ _ _ (run_lift _ _ (c, w) (slot_matches p f t topic Hp Ht Hc))).
    cbn [omap list_omap selected]. destruct x as [fn|]; [|destruct (_ || _); apply Next].
    destruct (_ || _); [|apply Next]. cbn [call_all].
    rewrite run_assoc, env_seq. apply env_bind_ext. intros [] w'.
    rewrite run_bind_ret, (Next SUCCESS). apply env_bind_ext. intros [] w2.
    by destruct (omap _ tbl').
  - cbn in He. rewrite He. apply Next.
Qed.

(** The handlers deliverMessage calls: those whose filter matches, in the
    order of the slots, else the default handler if there is one. *)
Definition recipients (c : MQTTClient) (topic : list Z) (tbl : list entry) : list messageHandler :=
  match omap (selected topic) tbl, defaultMessageHandler c with
  | [], Some fn => [fn]
  | fns, _ => fns
  end.

(** The calls of deliverMessage. *)
Lemma deliverMessage_calls c w t topic msg tbl :
  Forall2 holds (messageHandlers c) tbl → len (messageHandlers c) = MAX_MESSAGE_HANDLERS →
  denotes t topic → cstring t = None →
  deliverMessage t msg (c, w) =
    (env (call_all (recipients c topic tbl) (NewMessageData t msg)) ;;
     mret (called FAILURE (recipients c topic tbl))) (c, w).
Proof.
  intros F Hlen Ht Hc. unfold deliverMessage.
  replace (Z.to_nat MAX_MESSAGE_HANDLERS) with (length (messageHandlers c)) by lia.
  pose proof (deliver_loop_spec c t topic msg _ tbl [] FAILURE w Ht Hc eq_refl F) as E.
  change (len (@nil MessageHandlers)) with 0 in E. unfold mbind at 1, M_bind at 1.
  rewrite E. clear E. change (
    ((env (call_all (omap (selected topic) tbl) (NewMessageData t msg)) ;;
      mret (called FAILURE (omap (selected topic) tbl))) ≫= (λ rc,
      c ← client;
      match rc =? FAILURE, defaultMessageHandler c with
      | true, Some f => env (call_handler f (NewMessageData t msg)) ;; mret SUCCESS
      | _, _ => mret rc
      end)) (c, w) = (env (call_all (recipients c topic tbl) (NewMessageData t msg)) ;;
     mret (called FAILURE (recipients c topic tbl))) (c, w)).
  unfold recipients. destruct (omap (selected topic) tbl) as [|fn fns] eqn:Es.
  - rewrite run_assoc, (run_bind _ _ _ tt (c, w)) by done.
    cbn [called]. rewrite run_bind_ret, (run_bind _ _ _ c (c, w)) by done.
    change (FAILURE =? FAILURE) with true. cbv iota.
    destruct (defaultMessageHandler c) as [fn|]; [|done]. cbn [call_all called].
    rewrite env_seq. apply env_bind_ext. done.
  - rewrite run_assoc. destruct (defaultMessageHandler c); apply env_bind_ext; intros [] w'; done.
Qed.

(** C5: deliverMessage calls, in the order of the slots, every handler whose topic filter
    is equal to the topic or matches it, the default handler when there is none, and
    succeeds exactly when some handler was called; the client itself does not change. *)
Theorem deliverMessage_spec c w t topic msg tbl :
  Forall2 holds (messageHandlers c) tbl → len (messageHandlers c) = MAX_MESSAGE_HANDLERS →
  denotes t topic → cstring t = None →
  deliverMessage t msg (c, w) =
    (env (call_all (recipients c topic tbl) (NewMessageData t msg)) ;;
     mret (called FAILURE (recipients c topic tbl))) (c, w).
Proof. apply deliverMessage_calls. Qed.

End Handlers.
(** ** The theorems on the simulated platform *)

#[local] Existing Instance x86_64.

Definition ex_world : world := World 0 [] [] 1000 0 [].
Definition ex_slots : list MessageHandlers :=
  [Slot (Some (c_string (bytes_of "a/+"%string))) (Some (app_handler 1)); Slot None None;
   Slot (Some (c_string (bytes_of "a/b"%string))) (Some (app_handler 2)); Slot None None;
   Slot None None].
Definition ex_entries : list (option (list Z * option (messageHandler (W := world)))) :=
  [Some (bytes_of "a/+"%string, Some (app_handler 1)); None;
   Some (bytes_of "a/b"%string, Some (app_handler 2)); None; None].
Definition ex_client : MQTTClient :=
  mkClient 1 1000 64 64 (replicate 64 0) (replicate 64 0) 0 0 1 0 ex_slots None 0 0.

Lemma ex_holds : Forall2 holds ex_slots ex_entries.
Proof.
  constructor.
  { eexists. repeat split; [done|apply c_string_cstr; decide_by_vm..]. }
  constructor; [done|]. constructor; [|by repeat constructor].
  eexists. repeat split; [done|apply c_string_cstr; decide_by_vm..].
Qed.

Lemma MQTTSetMessageHandler_refines_witness :
  ∃ hs', MQTTSetMessageHandler (Some (c_string (bytes_of "x"%string))) (Some (app_handler 3))
           (ex_client, ex_world) = Ok (SUCCESS, (set_messageHandlers hs' ex_client, ex_world)) ∧
    slots_hold hs' (<[bytes_of "x"%string := Some (app_handler 3)]> (table ex_entries)) ∧
    length hs' = 5%nat.
Proof.
  apply (MQTTSetMessageHandler_refines ex_client ex_world (c_string (bytes_of "x"%string))
    (bytes_of "x"%string) (Some (app_handler 3)) (table ex_entries)).
  - exists ex_entries. split; [exact ex_holds|]. split; [decide_by_vm|done].
  - reflexivity.
  - apply c_string_cstr; decide_by_vm.
Defined.

Lemma deliverMessage_spec_witness :
  deliverMessage (of_data (bytes_of "a/b"%string)) (Message 0 0 0 9 None 0) (ex_client, ex_world) =
    Ok (SUCCESS, (ex_client, World 0 [] [] 1000 0 [(1%nat, 9); (2%nat, 9)])).
Proof.
  refine (eq_trans (deliverMessage_spec ex_client ex_world (of_data (bytes_of "a/b"%string))
    (bytes_of "a/b"%string) (Message 0 0 0 9 None 0) ex_entries ex_holds eq_refl _ eq_refl) _).
  - apply of_data_denotes; decide_by_vm.
  - vm_compute. reflexivity.
Defined.

End Handlers.
