(* ===== verification/Locks.v ===== *)
(** * The mutex of the client

    Every function of the API that takes the client's mutex gives it back, on
    every path, and the rest of the client never touches it. *)

From S2P Require Import Prelude CSem Wire Packet Connect Publish Subscribe Topics Platform Sim.
From S2P Require Import Client ClientState.

Module Locks.
Import Client ClientState.

Section Locks.
Context `{CImpl} {W : Type} `{Platform W}.
#[local] Abbreviation C A := (M (MQTTClient * W) A).

(** [held w]: how often the mutex has been taken; only the two operations of
    the mutex change it. *)
Context (held : W → Z).

Definition moves {A} (d : Z) (m : M W A) : Prop :=
  ∀ w a w', m w = Ok (a, w') → held w' = held w + d.

Record mutex : Prop :=
  { mx_lock : moves 1 MutexLock;
    mx_unlock : moves (-1) MutexUnlock;
    mx_init : moves 0 TimerInit;
    mx_countdown_ms t n : moves 0 (TimerCountdownMS t n);
    mx_countdown t n : moves 0 (TimerCountdown t n);
    mx_expired t : moves 0 (TimerIsExpired t);
    mx_left t : moves 0 (TimerLeftMS t);
    mx_read n ms : moves 0 (mqttread n ms);
    mx_write p n ms : moves 0 (mqttwrite p n ms);
    mx_handler h md : moves 0 (call_handler h md) }.

Context (Hm : mutex).

(** The client function [m] changes the depth by [d]. *)
Definition shifts {A} (d : Z) (m : C A) : Prop :=
  ∀ s a s', m s = Ok (a, s') → held (snd s') = held (snd s) + d.

Lemma shifts_env {A} d (m : M W A) : moves d m → shifts d (env m).
Proof.
  intros Hd [c w] a s'. unfold env. cbn [fst snd].
  destruct (m w) as [[b w']| |] eqn:E; intros [= <- <-]. by eapply Hd.
Qed.
Lemma shifts_bind {A B} d1 d2 (m : C A) (f : A → C B) :
  shifts d1 m → (∀ a, shifts d2 (f a)) → shifts (d1 + d2) (m ≫= f).
Proof.
  intros H1 H2 s b s' E. apply run_bind_inv in E as (a & s1 & E1 & E2).
  rewrite (H2 _ _ _ _ E2), (H1 _ _ _ E1). lia.
Qed.

(** Code that leaves the mutex as it was. *)
Abbreviation quiet := (shifts 0).

Lemma quiet_bind {A B} (m : C A) (f : A → C B) :
  quiet m → (∀ a, quiet (f a)) → quiet (m ≫= f).
Proof. exact (shifts_bind 0 0 m f). Qed.
Lemma quiet_ret {A} (a : A) : quiet (mret a).
Proof. intros s b s' [= <- <-]. lia. Qed.
Lemma quiet_if {A} (b : bool) (m1 m2 : C A) : quiet m1 → quiet m2 → quiet (if b then m1 else m2).
Proof. by destruct b. Qed.
Lemma quiet_lift {A} (o : outcome A) : quiet (lift o).
Proof. intros s a s' E. apply run_lift_inv in E as [_ ->]. lia. Qed.
Lemma quiet_no_fuel {A} : quiet (no_fuel : C A).
Proof. by intros s a s' E. Qed.
Lemma quiet_client : quiet client.
Proof. intros s a s' [= <- <-]. lia. Qed.
Lemma quiet_update f : quiet (update f).
Proof. intros s a s' [= <- <-]. cbn. lia. Qed.

End Locks.

Create HintDb locks.
#[export] Hint Resolve quiet_ret quiet_lift quiet_no_fuel quiet_client quiet_update
  mx_lock mx_unlock mx_init mx_countdown_ms mx_countdown mx_expired mx_left mx_read mx_write
  mx_handler : locks.

Ltac quiet_step :=
  first
    [ solve [auto with locks]
    | match goal with
      | |- shifts _ _ (env _) => apply shifts_env
      | |- shifts _ _ (let _ := _ in _) => cbv zeta
      | |- shifts _ _ (if _ then _ else _) => apply quiet_if
      | |- shifts _ _ (match ?x with _ => _ end) => destruct x
      end
    | apply quiet_bind; [|intros] ].
Ltac quiet_tac := repeat quiet_step.

Section Operations.
Context `{CImpl} {W : Type} `{Platform W} (held : W → Z) (Hm : mutex held).
#[local] Abbreviation C A := (M (MQTTClient * W) A).
#[local] Abbreviation Quiet := (shifts held 0).

Lemma quiet_sendPacket_loop fuel length sent timer :
  Quiet (sendPacket_loop fuel length sent timer).
Proof. revert sent timer. induction fuel as [|fuel IH]; intros; cbn [sendPacket_loop]; quiet_tac. Qed.
#[local] Hint Resolve quiet_sendPacket_loop : locks.

Lemma quiet_sendPacket fuel length timer : Quiet (sendPacket fuel length timer).
Proof. unfold sendPacket. quiet_tac. Qed.
#[local] Hint Resolve quiet_sendPacket : locks.

Lemma moves_decodePacket_loop fuel timeout v m l :
  moves held 0 (decodePacket_loop fuel timeout v m l).
Proof.
  revert v m l. induction fuel as [|fuel IH]; intros v m l w a w' E; [done|].
  cbn [decodePacket_loop] in E. destruct (_ <? l + 1); [injection E as _ <-; lia|].
  apply run_bind_inv in E as ([rc cs] & w1 & E1 & E). pose proof (mx_read held Hm _ _ _ _ _ E1).
  destruct (negb (rc =? 1)); [injection E as _ <-; lia|].
  apply run_bind_inv in E as (b & w2 & E2 & E). apply run_lift_inv in E2 as [_ ->].
  destruct (negb _); [apply IH in E; lia|injection E as _ <-; lia].
Qed.

Lemma quiet_store_readbuf i bs : Quiet (store_readbuf i bs).
Proof. unfold store_readbuf. quiet_tac. Qed.
Lemma quiet_on_buf m : Quiet (on_buf m).
Proof. unfold on_buf. quiet_tac. Qed.
Lemma quiet_decodePacket timeout : moves held 0 (decodePacket timeout).
Proof. apply moves_decodePacket_loop. Qed.
#[local] Hint Resolve quiet_store_readbuf quiet_on_buf quiet_decodePacket : locks.

Lemma quiet_readPacket timer : Quiet (readPacket timer).
Proof. unfold readPacket. quiet_tac. Qed.

Lemma quiet_deliver_loop n i rc t msg : Quiet (deliver_loop n i rc t msg).
Proof. revert i rc. induction n as [|n IH]; intros; cbn [deliver_loop]; quiet_tac. Qed.
#[local] Hint Resolve quiet_readPacket quiet_deliver_loop : locks.

Lemma quiet_deliverMessage t msg : Quiet (deliverMessage t msg).
Proof. unfold deliverMessage. quiet_tac. Qed.
Lemma quiet_MQTTCloseSession : Quiet MQTTCloseSession.
Proof. unfold MQTTCloseSession, MQTTCleanSession. quiet_tac. Qed.
Lemma quiet_keepalive fuel : Quiet (keepalive fuel).
Proof. unfold keepalive. quiet_tac. Qed.
#[local] Hint Resolve quiet_deliverMessage quiet_MQTTCloseSession quiet_keepalive : locks.

Lemma quiet_cycle fuel o timer : Quiet (cycle fuel o timer).
Proof. unfold cycle, cycle_switch, cycle_publish, cycle_pubrec_pubrel. quiet_tac. Qed.
#[local] Hint Resolve quiet_cycle : locks.

Lemma quiet_waitfor_loop n fuel o pt rc timer : Quiet (waitfor_loop n fuel o pt rc timer).
Proof. revert rc timer. induction n as [|n IH]; intros; cbn [waitfor_loop]; quiet_tac. Qed.
Lemma quiet_waitfor fuel o pt timer : Quiet (waitfor fuel o pt timer).
Proof. apply quiet_waitfor_loop. Qed.
Lemma quiet_getNextPacketId : Quiet getNextPacketId.
Proof. unfold getNextPacketId. quiet_tac. Qed.
Lemma quiet_command_timer : Quiet command_timer.
Proof. unfold command_timer. quiet_tac. Qed.
Lemma quiet_MQTTSetMessageHandler filter handler : Quiet (MQTTSetMessageHandler filter handler).
Proof. unfold MQTTSetMessageHandler. quiet_tac. Qed.
#[local] Hint Resolve quiet_waitfor quiet_getNextPacketId quiet_command_timer
  quiet_MQTTSetMessageHandler : locks.

Lemma quiet_connect_session fuel o options data : Quiet (connect_session fuel o options data).
Proof. unfold connect_session. quiet_tac. Qed.
Lemma quiet_subscribe_session fuel o filter qos handler data :
  Quiet (subscribe_session fuel o filter qos handler data).
Proof. unfold subscribe_session, subscribe_ack. quiet_tac. Qed.
Lemma quiet_unsubscribe_session fuel o filter : Quiet (unsubscribe_session fuel o filter).
Proof. unfold unsubscribe_session. quiet_tac. Qed.
Lemma quiet_publish_session fuel o topic msg : Quiet (publish_session fuel o topic msg).
Proof. unfold publish_session, publish_wait. quiet_tac. Qed.
#[local] Hint Resolve quiet_connect_session quiet_subscribe_session quiet_unsubscribe_session
  quiet_publish_session : locks.

Lemma unlock_ret {A} (a : A) : shifts held (-1) (env MutexUnlock ;; mret a).
Proof.
  apply (shifts_bind held (-1) 0); [apply shifts_env, Hm|intros; apply quiet_ret].
Qed.

Lemma unlock_exit {A} rc (a : A) : shifts held (-1) (api_exit rc a).
Proof.
  unfold api_exit. apply (shifts_bind held 0 (-1)); [quiet_tac|intros; apply unlock_ret].
Qed.

(** From the lock to the unlock at the end. *)
#[local] Ltac locked_tac :=
  apply (shifts_bind held 1 (-1)); [apply shifts_env, Hm|intros _];
  repeat first
    [ apply unlock_ret | apply unlock_exit
    | match goal with |- shifts _ _ (match ?x with _ => _ end) => destruct x end
    | apply (shifts_bind held 0 (-1)); [solve [quiet_tac]|intros] ].

Lemma quiet_yield_loop n fuel o timer : Quiet (yield_loop n fuel o timer).
Proof. revert timer. induction n as [|n IH]; intros; cbn [yield_loop]; quiet_tac. Qed.
#[local] Hint Resolve quiet_yield_loop : locks.

(** C9: every function of the API that takes the mutex of the client has released it when it
    returns, on every path, and so has every iteration of the background task; MQTTYield and
    MQTTSetMessageHandler never touch it. *)
Theorem api_releases_mutex fuel o options cdata filter qos handler sdata topic msg ms timer :
  shifts held 0 (MQTTConnectWithResults fuel o options cdata) ∧
  shifts held 0 (MQTTSubscribeWithResults fuel o filter qos handler sdata) ∧
  shifts held 0 (MQTTUnsubscribe fuel o filter) ∧
  shifts held 0 (MQTTPublish fuel o topic msg) ∧
  shifts held 0 (MQTTDisconnect fuel) ∧
  shifts held 0 (run_iteration fuel o timer) ∧
  shifts held 0 (MQTTYield fuel o ms) ∧
  shifts held 0 (MQTTSetMessageHandler filter handler).
Proof.
  split; [|split; [|split; [|split; [|split; [|split; [|split]]]]]].
  - unfold MQTTConnectWithResults. locked_tac.
  - unfold MQTTSubscribeWithResults. locked_tac.
  - unfold MQTTUnsubscribe. apply (shifts_bind held 1 (-1)); [apply shifts_env, Hm|intros _].
    apply (shifts_bind held 0 (-1)); [quiet_tac|intros c].
    apply (shifts_bind held 0 (-1)); [quiet_tac|intros rc].
    apply (shifts_bind held (-1) 0); [apply unlock_exit|intros [r []]; quiet_tac].
  - unfold MQTTPublish. locked_tac.
  - unfold MQTTDisconnect. locked_tac.
  - unfold run_iteration. apply (shifts_bind held 0 0); [quiet_tac|intros t]. locked_tac.
  - unfold MQTTYield. quiet_tac.
  - apply quiet_MQTTSetMessageHandler.
Qed.

End Operations.

(** ** The theorem on the simulated platform *)

#[local] Existing Instance x86_64.

Lemma sim_mutex : mutex w_locked.
Proof.
  split; intros; intros w a w' E; cbn in E; unfold read_sim, write_sim in E;
    try (injection E as _ <-; cbn; lia).
  destruct (load_bytes _ _ _); [|done..]. injection E as _ <-. cbn. lia.
Qed.

Lemma api_releases_mutex_witness :
  shifts w_locked 0 (MQTTPublish 10 (PublishOut 0 0 0 0 MQTTString_initializer None 0)
    (Some (c_string [97])) (Message 1 0 0 0 None 0)).
Proof.
  apply (api_releases_mutex w_locked sim_mutex 10 (PublishOut 0 0 0 0 MQTTString_initializer None 0)
    None (ConnackData 0 0) None 0 None (SubackData 0) (Some (c_string [97]))
    (Message 1 0 0 0 None 0) 0 0).
Defined.

End Locks.
