(* ===== verification/ClientIO.v ===== *)
(** * The client and the network

    Sending, receiving, the answers of cycle, and what the API functions do
    with errors. *)

From S2P Require Import Prelude CSem Wire Packet Connect Publish Subscribe Stream Topics Platform.
From S2P Require Import Sim Client ClientState.

Module ClientIO.
Import Client ClientState.

Section IO.
Context `{CImpl} {W : Type} `{Platform W}.
#[local] Abbreviation C A := (M (MQTTClient * W) A).

(** ** Sending *)

(** When the network takes the whole packet in one write before the timer expires,
    sendPacket succeeds, having offered exactly the first [length] bytes of buf, and
    restarts the keep-alive timer of the sender. *)
Theorem sendPacket_success fuel c w n timer t1 w1 ms t2 w2 w3 t3 w4 :
  0 < n ≤ INT_MAX → (2 ≤ fuel)%nat →
  TimerIsExpired timer w = Ok ((false, t1), w1) →
  TimerLeftMS t1 w1 = Ok ((ms, t2), w2) →
  mqttwrite (Ptr (buf c) 0) n ms w2 = Ok (n, w3) →
  TimerCountdown (last_sent c) (keepAliveInterval c) w3 = Ok (t3, w4) →
  sendPacket fuel n timer (c, w) = Ok ((SUCCESS, t2), (set_last_sent t3 c, w4)).
Proof.
  intros Hn Hf E1 E2 E3 E4. destruct fuel as [|[|fuel]]; [lia..|].
  unfold sendPacket. rewrite (run_bind _ _ _ (n, t2) (c, w3)).
  - ztest. by rewrite bind_client, (bind_env _ _ _ _ _ _ E4), bind_update.
  - cbn [sendPacket_loop]. ztest. rewrite (bind_env _ _ _ _ _ _ E1), (bind_env _ _ _ _ _ _ E2).
    rewrite bind_client, (bind_env _ _ _ _ _ _ E3). ztest.
    rewrite (run_bind _ _ _ n (c, w3))
      by (apply run_lift; rewrite iadd_Ok by (unfold INT_MIN; lia); f_equal; lia).
    ztest. done.
Qed.

(** After a write that took only [k] bytes, sendPacket offers [length] bytes again, from
    buf + k on, not the [length - k] that are left: if the network then takes more than
    those, bytes that follow the packet in buf have been sent and the call fails although
    the whole packet is on its way. *)
Theorem sendPacket_partial_write fuel c w n k r timer t1 w1 ms t2 w2 w3 t3 w4 ms' t4 w5 w6 :
  0 < k < n → n - k < r → n ≤ INT_MAX → k + r ≤ INT_MAX → (3 ≤ fuel)%nat →
  TimerIsExpired timer w = Ok ((false, t1), w1) →
  TimerLeftMS t1 w1 = Ok ((ms, t2), w2) →
  mqttwrite (Ptr (buf c) 0) n ms w2 = Ok (k, w3) →
  TimerIsExpired t2 w3 = Ok ((false, t3), w4) →
  TimerLeftMS t3 w4 = Ok ((ms', t4), w5) →
  mqttwrite (Ptr (buf c) k) n ms' w5 = Ok (r, w6) →
  sendPacket fuel n timer (c, w) = Ok ((FAILURE, t4), (c, w6)).
Proof.
  intros Hk Hr Hn Hi Hf E1 E2 E3 E4 E5 E6. destruct fuel as [|[|[|fuel]]]; [lia..|].
  unfold sendPacket. rewrite (run_bind _ _ _ (k + r, t4) (c, w6)); [by ztest|].
  cbn [sendPacket_loop]. ztest. rewrite (bind_env _ _ _ _ _ _ E1), (bind_env _ _ _ _ _ _ E2).
  rewrite bind_client, (bind_env _ _ _ _ _ _ E3). ztest.
  rewrite (run_bind _ _ _ k (c, w3))
    by (apply run_lift; rewrite iadd_Ok by (unfold INT_MIN; lia); f_equal; lia).
  ztest. rewrite (bind_env _ _ _ _ _ _ E4), (bind_env _ _ _ _ _ _ E5).
  rewrite bind_client, (bind_env _ _ _ _ _ _ E6). ztest.
  rewrite (run_bind _ _ _ (k + r) (c, w6)) by (apply run_lift, iadd_Ok; unfold INT_MIN; lia).
  ztest. done.
Qed.

(** The platform's operations return, and a write that takes nothing brings the end of the
    timer nearer: [I d t w] says that before [t] runs out at most [d] writes take nothing,
    and [J d t w] the same of a timer that has just been looked at and has not run out. *)
Record progressing (I J : nat → Timer → W → Prop) : Prop :=
  { pg_expired d t w : I d t w → TimerIsExpired t w ≠ NoFuel ∧
      ∀ t' w', TimerIsExpired t w = Ok ((false, t'), w') → J d t' w';
    pg_left d t w : J d t w → TimerLeftMS t w ≠ NoFuel ∧
      ∀ ms t' w', TimerLeftMS t w = Ok ((ms, t'), w') → J d t' w';
    pg_countdown t n w : TimerCountdown t n w ≠ NoFuel;
    pg_write p n ms d t w : J d t w → 0 < n → mqttwrite p n ms w ≠ NoFuel ∧
      ∀ r w', mqttwrite p n ms w = Ok (r, w') → 0 ≤ r →
        ∃ d', (d' + (if (r =? 0)%Z then 1 else 0) ≤ d)%nat ∧ I d' t w' }.

Lemma returns_bind_env {A B} (m : M W A) (f : A → C B) c w :
  m w ≠ NoFuel → (∀ a w', m w = Ok (a, w') → returns (f a) (c, w')) →
  returns (env m ≫= f) (c, w).
Proof.
  unfold returns, env, mbind, M_bind. cbn [fst snd]. intros Hm Hf.
  destruct (m w) as [[a w']| |]; [by apply Hf|done..].
Qed.

Lemma sendPacket_loop_returns I J fuel n sent d timer c w :
  progressing I J → I d timer w → 0 < n → (Z.to_nat (n - sent) + d < fuel)%nat →
  returns (sendPacket_loop fuel n sent timer) (c, w).
Proof.
  intros Hp. revert sent d timer w. induction fuel as [|fuel IH]; intros sent d timer w Hw Hn Hf; [lia|].
  cbn [sendPacket_loop]. destruct (Z.ltb_spec sent n); [|done].
  destruct (pg_expired I J Hp d timer w Hw) as [R1 K1].
  apply returns_bind_env; [exact R1|]. intros [[] t1] w1 E1; [done|]. apply K1 in E1.
  destruct (pg_left I J Hp d t1 w1 E1) as [R2 K2].
  apply returns_bind_env; [exact R2|]. intros [ms t2] w2 E2. apply K2 in E2.
  unfold returns. rewrite bind_client.
  destruct (pg_write I J Hp (Ptr (buf c) sent) n ms d t2 w2 E2 Hn) as [R3 K3].
  apply returns_bind_env; [exact R3|]. intros r w3 E3.
  destruct (Z.ltb_spec r 0); [done|]. destruct (K3 _ _ E3) as (d' & Hd & Hw3); [done|].
  apply returns_bind; [apply returns_lift; unfold iadd; by destruct (in_int _)|].
  intros sent' s' [Es ->]%run_lift_inv. apply iadd_inv in Es as [-> _].
  eapply IH; [exact Hw3|done|]. destruct (Z.eqb_spec r 0); lia.
Qed.

(** C16: the loop of sendPacket ends, also on a network whose writes take nothing: after at
    most as many iterations as there are bytes to send and writes that take nothing before
    the timer runs out. *)
Theorem sendPacket_terminates I J n d timer c w :
  progressing I J → I d timer w → sendPacket (S (Z.to_nat n + d)) n timer (c, w) ≠ NoFuel.
Proof.
  intros Hp Hw. unfold sendPacket. apply returns_bind.
  - destruct (Z.ltb_spec 0 n); [apply (sendPacket_loop_returns I J _ n 0 d); [done..|lia]|].
    cbn [sendPacket_loop]. by ztest.
  - intros [sent t] [c' w'] _. destruct (sent =? n); [|done]. unfold returns. rewrite bind_client.
    apply returns_bind_env; [by eapply pg_countdown|]. done.
Qed.

(** ** Receiving *)

(** decodePacket is MQTTPacket_decode over the client's network. *)
Lemma decodePacket_loop_same fuel timeout v m l w :
  decodePacket_loop fuel timeout v m l w =
    MQTTPacket_decode_loop fuel (λ n, mqttread n timeout) v m l w.
Proof.
  revert v m l w. induction fuel as [|fuel IH]; intros v m l w; [done|].
  cbn [decodePacket_loop MQTTPacket_decode_loop].
  destruct (MAX_NO_OF_REMAINING_LENGTH_BYTES <? l + 1); [done|].
  unfold mbind, M_bind. destruct (mqttread 1 timeout w) as [[[rc cs] w1]| |]; [|done..].
  destruct (negb (rc =? 1)); [done|]. unfold lift. destruct cs as [|b cs]; [done|].
  destruct (negb _); [apply IH|done].
Qed.

Lemma decodePacket_same timeout w :
  decodePacket timeout w = MQTTPacket_decode (λ n, mqttread n timeout) w.
Proof. apply decodePacket_loop_same. Qed.

(** [R w bs]: [bs] is what the network will deliver; a read that asks for no
    more than that gets it all, and the timers leave it alone. *)
Record stream (R : W → list Z → Prop) : Prop :=
  { sr_read w bs rest ms : R w (bs ++ rest) → bs ≠ [] →
      ∃ w', mqttread (len bs) ms w = Ok ((len bs, bs), w') ∧ R w' rest;
    sr_left t w bs : R w bs → ∃ ms t' w', TimerLeftMS t w = Ok ((ms, t'), w') ∧ R w' bs;
    sr_countdown t n w bs : R w bs → ∃ t' w', TimerCountdown t n w = Ok (t', w') ∧ R w' bs }.

(** The pace of a run: the waits, in milliseconds, that are [long] enough to outlast it, the
    timers that are [running] until its end, and the timeouts that are [enough] when the
    world is as it is. *)
Record pace : Type := Pace
  { long : Z → Prop; running : Timer → Prop; enough : W → Z → Prop }.

(** A network that delivers while the timers run. *)
Record paced (p : pace) (R : W → list Z → Prop) : Prop :=
  { pd_read w bs rest ms : R w (bs ++ rest) → bs ≠ [] → enough p w ms →
      ∃ w', mqttread (len bs) ms w = Ok ((len bs, bs), w') ∧ enough p w' ms ∧ R w' rest;
    pd_left t w bs : R w bs → running p t →
      ∃ ms t' w', TimerLeftMS t w = Ok ((ms, t'), w') ∧ running p t' ∧ enough p w' ms ∧ R w' bs;
    pd_countdown t n w bs : R w bs → ∃ t' w',
      TimerCountdown t n w = Ok (t', w') ∧ (long p (1000 * n) → running p t') ∧ R w' bs }.

(** A run without haste. *)
Definition calm : pace := Pace (λ _, True) (λ _, True) (λ _ _, True).

Lemma stream_paced R : stream R → paced calm R.
Proof.
  intros HR. split.
  - intros w bs rest ms Hw Hb _. destruct (sr_read R HR w bs rest ms Hw Hb) as (w' & ? & ?). by exists w'.
  - intros t w bs Hw _. destruct (sr_left R HR t w bs Hw) as (ms & t' & w' & ? & ?). by exists ms, t', w'.
  - intros t n w bs Hw. destruct (sr_countdown R HR t n w bs Hw) as (t' & w' & ? & ?). by exists t', w'.
Qed.

Lemma paced_delivers p R bs rest ms w :
  paced p R → R w (bs ++ rest) → enough p w ms →
  ∃ w', delivers (λ n, mqttread n ms) w bs w' ∧ R w' rest.
Proof.
  intros HR. revert w. induction bs as [|b bs IH]; intros w Hw Hm; [exists w; split; [constructor|done]|].
  destruct (pd_read p R HR w [b] (bs ++ rest) ms Hw) as (w1 & E & A1 & H1); [done|done|].
  destruct (IH w1 H1 A1) as (w2 & D & H2). exists w2. split; [|done]. by econstructor.
Qed.

Lemma store_readbuf_over c w a bs i :
  i = len a → (length a + length bs ≤ length (readbuf c))%nat →
  store_readbuf i bs (set_readbuf (over a (readbuf c)) c, w) =
    Ok (tt, (set_readbuf (over (a ++ bs) (readbuf c)) c, w)).
Proof.
  intros Hi L. unfold store_readbuf. rewrite bind_client. cbn [readbuf set_readbuf].
  by rewrite (run_bind _ _ _ _ _ (run_lift _ _ _ (store_over a bs (readbuf c) i Hi L))).
Qed.

Lemma set_readbuf_same c : set_readbuf (readbuf c) c = c.
Proof. by destruct c. Qed.

(** The end of readPacket. *)
Definition readPacket_end (timer : Timer) : C (Z * Timer) :=
  c ← client;
  b ← lift (load (readbuf c) 0);
  (if 0 <? keepAliveInterval c then
     t ← env (TimerCountdown (last_received c) (keepAliveInterval c));
     update (set_last_received t)
   else mret tt) ;;
  mret (header_type b, timer).

(** The fixed header of a packet read into readbuf, and the length test. *)
Lemma readPacket_head p R h body rest timer c w :
  paced p R → running p timer → byte h → len body ≤ MAX_REMAINING → 5 ≤ len (readbuf c) →
  readbuf_size c = len (readbuf c) → readbuf_size c ≤ INT_MAX → R w (packet h body ++ rest) →
  ∃ t w', R w' (body ++ rest) ∧ running p t ∧
    readPacket timer (c, w) =
    (if readbuf_size c <? len (packet h body) then mret (BUFFER_OVERFLOW, t)
     else
      '(bad, timer) ← (
        if 0 <? len body then
          '(ms, timer) ← env (TimerLeftMS t);
          '(rc, bs) ← env (mqttread (len body) ms);
          store_readbuf (len (head h body)) bs ;;
          mret (negb (rc =? len body), timer)
        else mret (false, t));
      if bad : bool then mret (0, timer)
      else readPacket_end timer) (set_readbuf (over (head h body) (readbuf c)) c, w').
Proof.
  intros HR Ht Hh Hl H5 Hs Hmax Hw. unfold readPacket.
  destruct (pd_left p R HR timer w _ Hw Ht) as (ms & t1 & w1 & E1 & Ht1 & Hm & H1).
  rewrite (bind_env _ _ _ _ _ _ E1).
  destruct (pd_read p R HR w1 [h] (varint (len body) ++ body ++ rest) ms) as (w2 & E2 & _ & H2);
    [by rewrite (app_assoc (varint _))|done|done|].
  rewrite (bind_env _ _ _ _ _ _ E2).
  pose proof (store_readbuf_over c w2 [] [h] 0 eq_refl ltac:(cbn; lia)) as Es.
  rewrite over_nil, set_readbuf_same in Es. rewrite (run_bind _ _ _ _ _ Es). cbn [app].
  change (len [h] =? 1) with true. cbn [negb].
  destruct (pd_left p R HR t1 w2 _ H2 Ht1) as (ms2 & t2 & w3 & E3 & Ht2 & Hm2 & H3).
  rewrite (bind_env _ _ _ _ _ _ E3).
  destruct (paced_delivers p R _ (body ++ rest) ms2 w3 HR H3 Hm2) as (w4 & D & H4).
  pose proof (varint_len_mqtt (len body) ltac:(lia)) as Hv.
  assert (E4 : decodePacket ms2 w3 = Ok ((len (varint (len body)), len body), w4)).
  { assert (Eq : decodePacket ms2 w3 = MQTTPacket_decode (λ n, mqttread n ms2) w3)
      by (apply decodePacket_same).
    rewrite Eq. unfold MQTTPacket_decode. rewrite varint_4 in * by lia.
    rewrite (decode_loop_varint _ 4 5 (len body) 0 1 0 w3 w4);
      [|unfold MAX_REMAINING in *; cbn; lia|lia..|exact D]. do 3 f_equal; lia. }
  rewrite (bind_env _ _ _ _ _ _ E4), bind_client. cbn [readbuf set_readbuf].
  rewrite (run_bind _ _ _ _ _ (run_lift _ _ _ (encode_over [h] (len body) (readbuf c) 1 eq_refl
    ltac:(unfold MAX_REMAINING, INT_MAX in *; lia) ltac:(cbn [length]; lia)))).
  rewrite bind_update. cbv zeta. cbn [readbuf_size set_readbuf].
  exists t2, w4. split; [done|]. split; [done|].
  replace (to_size (readbuf_size c - (1 + len (varint (len body)))) <? len body)
    with (readbuf_size c <? len (packet h body)).
  - unfold head. rewrite len_cons. reflexivity.
  - rewrite packet_len. unfold to_size, INT_MAX in *. rewrite Z.mod_small by (destruct lp64; lia).
    ztests; done.
Qed.

(** The client after it has read [bs] to the front of readbuf. *)
Definition received (bs : list Z) (t : Timer) (c : MQTTClient) : MQTTClient :=
  let c' := set_readbuf (over bs (readbuf c)) c in
  if 0 <? keepAliveInterval c then set_last_received t c' else c'.

(** A packet that fits readbuf. *)
Lemma readPacket_fits p R h body rest timer c w :
  paced p R → running p timer → byte h → len (packet h body) ≤ len (readbuf c) → 5 ≤ len (readbuf c) →
  readbuf_size c = len (readbuf c) → readbuf_size c ≤ INT_MAX → len body ≤ MAX_REMAINING →
  R w (packet h body ++ rest) →
  ∃ t tr w', readPacket timer (c, w) =
      Ok ((header_type h, t), (received (packet h body) tr c, w')) ∧ R w' rest ∧
    running p t ∧ (0 < keepAliveInterval c → long p (1000 * keepAliveInterval c) → running p tr).
Proof.
  intros HR Ht Hh Hfit H5 Hs Hmax Hl Hw.
  destruct (readPacket_head p R h body rest timer c w HR Ht Hh Hl H5 Hs Hmax Hw) as (t & w1 & H1 & Ht1 & ->).
  destruct (Z.ltb_spec (readbuf_size c) (len (packet h body))) as [|Hge]; [lia|]. rewrite packet_len in Hfit.
  assert (Fin : ∀ t2 w2, R w2 rest → ∃ tr w',
    readPacket_end t2 (set_readbuf (over (packet h body) (readbuf c)) c, w2) =
    Ok ((header_type h, t2), (received (packet h body) tr c, w')) ∧ R w' rest ∧
    (0 < keepAliveInterval c → long p (1000 * keepAliveInterval c) → running p tr)).
  { intros t2 w2 H2. unfold readPacket_end. rewrite bind_client. cbn [readbuf set_readbuf keepAliveInterval last_received].
    unfold received. rewrite (run_bind _ _ _ h _) by done. destruct (Z.ltb_spec 0 (keepAliveInterval c)).
    - destruct (pd_countdown p R HR (last_received c) (keepAliveInterval c) w2 rest H2)
        as (tr & w3 & E3 & Htr & G3). exists tr, w3. split; [|done].
      by rewrite run_assoc, (bind_env _ _ _ _ _ _ E3).
    - exists t, w2. split; [done|]. split; [done|]. lia. }
  destruct (Z.ltb_spec 0 (len body)) as [Hb|Hb].
  - destruct (pd_left p R HR t w1 _ H1 Ht1) as (ms & t2 & w2 & E2 & Ht2 & Hm & H2).
    destruct (pd_read p R HR w2 body rest ms H2) as (w3 & E3 & _ & H3);
      [intros ->; cbn in Hb; lia|done|].
    destruct (Fin t2 w3 H3) as (tr & w' & E & Hw' & Htr). exists t2, tr, w'. split; [|done].
    rewrite <- E, run_assoc, (bind_env _ _ _ _ _ _ E2), run_assoc, (bind_env _ _ _ _ _ _ E3).
    assert (Es : store_readbuf (len (head h body)) body
        (set_readbuf (over (head h body) (readbuf c)) c, w3) =
      Ok (tt, (set_readbuf (over (packet h body) (readbuf c)) c, w3)))
      by (apply store_readbuf_over; [done|unfold head; cbn [length]; lia]).
    rewrite run_assoc, (run_bind _ _ _ _ _ Es), run_bind_ret, Z.eqb_refl. done.
  - destruct body; [|cbn in Hb; lia]. destruct (Fin t w1 H1) as (tr & w' & E & Hw').
    destruct Hw' as [Hw' Htr]. exists t, tr, w'. split; [|done]. rewrite <- E. done.
Qed.

(** C3: readPacket brings a packet that the network delivers into readbuf, byte for byte,
    returns its type and restarts the keep-alive timer of the receiver; a packet that does
    not fit readbuf gives BUFFER_OVERFLOW, with its body left in the network. *)
Theorem readPacket_correct R h body rest timer c w :
  stream R → byte h → len body ≤ MAX_REMAINING → 5 ≤ len (readbuf c) →
  readbuf_size c = len (readbuf c) → readbuf_size c ≤ INT_MAX → R w (packet h body ++ rest) →
  ∃ t w', if readbuf_size c <? len (packet h body)
    then R w' (body ++ rest) ∧ readPacket timer (c, w) =
           Ok ((BUFFER_OVERFLOW, t), (set_readbuf (over (head h body) (readbuf c)) c, w'))
    else R w' rest ∧ ∃ tr, readPacket timer (c, w) =
           Ok ((header_type h, t), (received (packet h body) tr c, w')).
Proof.
  intros HR%stream_paced Hh Hl H5 Hs Hmax Hw.
  destruct (Z.ltb_spec (readbuf_size c) (len (packet h body))) as [L|L].
  - destruct (readPacket_head calm R h body rest timer c w HR I Hh Hl H5 Hs Hmax Hw) as (t & w1 & H1 & _ & ->).
    exists t, w1. by ztest.
  - destruct (readPacket_fits calm R h body rest timer c w) as (t & tr & w' & E & Hw' & _); [done|done|done|lia|done..|].
    exists t, w'. split; [done|]. by exists tr.
Qed.

(** ** The answers of cycle *)

Lemma deliverMessage_client t msg c w r c' w' :
  deliverMessage t msg (c, w) = Ok (r, (c', w')) → c' = c.
Proof.
  assert (L : ∀ n i rc w r s, deliver_loop n i rc t msg (c, w) = Ok (r, s) → fst s = c).
  { induction n as [|n IH]; intros i rc w0 r0 s E; [by injection E as _ <-|].
    cbn [deliver_loop] in E. rewrite bind_client in E.
    apply run_bind_inv in E as (h & s1 & E1 & E). apply run_lift_inv in E1 as [_ ->].
    apply run_bind_inv in E as (m & s2 & E2 & E). apply run_lift_inv in E2 as [_ ->].
    apply run_bind_inv in E as (rc' & [c3 w3] & E3 & E).
    assert (c3 = c) as ->; [|by eapply IH].
    destruct m, (fp h); try (by injection E3 as _ <- _).
    apply run_bind_inv in E3 as ([] & [c4 w4] & E4 & E3). unfold env in E4. cbn [fst snd] in E4.
    destruct (call_handler _ _ w0) as [[[] w5]| |]; [|done..]. injection E4 as <- _.
    by injection E3 as _ <- _. }
  intros E. unfold deliverMessage in E. apply run_bind_inv in E as (rc & [c1 w1] & E1 & E).
  apply L in E1. cbn [fst] in E1. subst c1. rewrite bind_client in E.
  destruct (rc =? FAILURE), (defaultMessageHandler c); try (by injection E as _ <- _).
  apply run_bind_inv in E as ([] & [c4 w4] & E4 & E). unfold env in E4. cbn [fst snd] in E4.
  destruct (call_handler _ _ w1) as [[[] w5]| |]; [|done..]. injection E4 as <- _.
  by injection E as _ <- _.
Qed.

(** An acknowledgement written to the front of buf. *)
Definition acknowledging (type id : Z) (c : MQTTClient) : MQTTClient :=
  set_buf (over (ack_packet type 0 id) (buf c)) c.

Lemma on_buf_ack n type id c w :
  0 ≤ id → 4 ≤ n ≤ len (buf c) →
  on_buf (λ b, MQTTSerialize_ack b n type 0 id) (c, w) = Ok (4, (acknowledging type id c, w)).
Proof.
  intros Hi Hn. unfold on_buf. rewrite bind_client, write_ack by lia. ztest. done.
Qed.

(** The message a publish packet carries. *)
Record carries (p : publish) (t : MQTTString) (msg : MQTTMessage) : Prop :=
  { ca_topic : denotes t (pb_topic p);
    ca_view : cstring t = None;
    ca_qos : m_qos msg = pb_qos p;
    ca_retained : m_retained msg = pb_retain p;
    ca_dup : m_dup msg = pb_dup p;
    ca_id : 0 < pb_qos p → m_id msg = pb_id p;
    ca_len : m_payloadlen msg = len (pb_payload p);
    ca_payload : mem_read (m_payload msg) (m_payloadlen msg) = Ok (pb_payload p) }.

(** The case PUBLISH of cycle, whatever deliverMessage does. *)
Lemma cycle_publish_steps p junk fuel o timer c w :
  publish_wf p → readbuf c = publish_packet p ++ junk →
  4 ≤ buf_size c ≤ INT_MAX → buf_size c = len (buf c) →
  ∃ t msg, carries p t msg ∧ ∀ r s, deliverMessage t msg (c, w) = Ok (r, s) → 
    ∃ w', s = (c, w') ∧ cycle_publish fuel o timer (c, w) =
      (if pb_qos p =? 0 then mret (false, SUCCESS, timer)
       else if pb_qos p =? 3 then mret (true, FAILURE, timer)
       else update (acknowledging (if pb_qos p =? 1 then PUBACK else PUBREC) (pb_id p)) ;;
            '(rc, timer) ← sendPacket fuel 4 timer;
            mret (rc =? FAILURE, rc, timer)) (c, w').
Proof.
  intros Hp Hr Hn Hb. unfold cycle_publish.
  edestruct (read_publish p (PublishOut (p_dup o) (p_qos o) (p_retained o) (p_packetid o)
    (p_topicName o) (p_payload o) 0) junk (to_int (readbuf_size c)) Hp) as (o' & E & R).
  destruct R as [R1 R2 R3 R4 R5 R6 R7 R8]. pose proof Hp as [_ Hq _ Hi _ _ Hl].
  assert (Hlen : to_uint (p_payloadlen o') = len (pb_payload p)).
  { rewrite R7. unfold to_uint. rewrite publish_body_len in Hl. unfold MAX_REMAINING in Hl.
    revert Hl. ztest; intros; rewrite Z.mod_small; lia. }
  exists (p_topicName o'), (Message (p_qos o') (p_retained o') (p_dup o') (p_packetid o')
    (p_payload o') (to_uint (p_payloadlen o'))).
  split.
  { split; cbn; try done; [intros; rewrite R4; by ztest|by rewrite Hlen, <- R7]. }
  intros r [c' w'] Ed. pose proof (deliverMessage_client _ _ _ _ _ _ _ Ed) as ->.
  exists w'. split; [done|]. rewrite bind_client, Hr.
  rewrite (run_bind _ _ _ _ _ (run_lift _ _ (c, w) E)). cbn [Z.eqb Pos.eqb negb].
  rewrite (run_bind _ _ _ _ _ Ed). cbn [m_qos m_id]. rewrite R2. unfold QOS0, QOS1, QOS2.
  destruct (Z.eqb_spec (pb_qos p) 0) as [E0|N0]; cbn [negb]; [done|].
  assert (Hid : p_packetid o' = pb_id p) by (rewrite R4; by ztest).
  rewrite bind_client, Hid.
  assert (Hsz : 4 ≤ to_int (buf_size c) ≤ len (buf c))
    by (rewrite to_int_id; unfold in_int, INT_MIN, INT_MAX in *; lia).
  destruct (Z.eqb_spec (pb_qos p) 3) as [E3|N3].
  - rewrite E3. cbn. done.
  - assert (pb_qos p = 1 ∨ pb_qos p = 2) as [E1|E2] by lia.
    + rewrite E1. cbn [Z.eqb Pos.eqb].
      rewrite (run_bind _ _ _ _ _ (on_buf_ack _ PUBACK (pb_id p) c w' ltac:(lia) Hsz)). done.
    + rewrite E2. cbn [Z.eqb Pos.eqb].
      rewrite (run_bind _ _ _ _ _ (on_buf_ack _ PUBREC (pb_id p) c w' ltac:(lia) Hsz)). done.
Qed.

(** C4: for a PUBLISH packet in readbuf, cycle hands the message to deliverMessage and then
    answers by its QoS: nothing for QoS 0, a PUBACK with the packet's identifier for QoS 1,
    a PUBREC with it for QoS 2; QoS 3, which MQTT forbids, is delivered and then an error. *)
Theorem cycle_publish_answers p junk fuel o timer c w :
  publish_wf p → readbuf c = publish_packet p ++ junk →
  4 ≤ buf_size c ≤ INT_MAX → buf_size c = len (buf c) →
  ∃ t msg, carries p t msg ∧ ∀ r s, deliverMessage t msg (c, w) = Ok (r, s) → 
    ∃ w', s = (c, w') ∧ cycle_publish fuel o timer (c, w) =
      (if pb_qos p =? 0 then mret (false, SUCCESS, timer)
       else if pb_qos p =? 3 then mret (true, FAILURE, timer)
       else update (acknowledging (if pb_qos p =? 1 then PUBACK else PUBREC) (pb_id p)) ;;
            '(rc, timer) ← sendPacket fuel 4 timer;
            mret (rc =? FAILURE, rc, timer)) (c, w').
Proof. apply cycle_publish_steps. Qed.

(** Cycle answers a PUBREC with a PUBREL and a PUBREL with a PUBCOMP, for the same
    packet identifier, and reports a failure to send it. *)
Theorem cycle_pubrec_pubrel_answers type dup id junk fuel myid timer c w :
  type = PUBREC ∨ type = PUBREL → bit dup → 0 ≤ id < 65536 →
  readbuf c = ack_packet type dup id ++ junk →
  4 ≤ buf_size c ≤ INT_MAX → buf_size c = len (buf c) →
  cycle_pubrec_pubrel fuel type myid timer (c, w) =
    ('(rc, timer) ← sendPacket fuel 4 timer;
     if negb (rc =? SUCCESS) then mret (true, FAILURE, timer) else mret (false, SUCCESS, timer))
      (acknowledging (if type =? PUBREC then PUBREL else PUBCOMP) id c, w).
Proof.
  intros Ht Hd Hi Hr Hn Hb. unfold cycle_pubrec_pubrel. rewrite bind_client, Hr.
  assert (Ht' : 0 ≤ type < 16) by (destruct Ht as [-> | ->]; done).
  rewrite (run_bind _ _ _ _ _ (run_lift _ _ (c, w)
    (read_ack type dup id junk myid (to_int (readbuf_size c)) Ht' Hd Hi))).
  cbn [Z.eqb Pos.eqb negb].
  assert (Hsz : 4 ≤ to_int (buf_size c) ≤ len (buf c))
    by (rewrite to_int_id; unfold in_int, INT_MIN, INT_MAX in *; lia).
  rewrite (run_bind _ _ _ _ _ (on_buf_ack _ (if type =? PUBREC then PUBREL else PUBCOMP) id c w
    ltac:(lia) Hsz)). done.
Qed.

(** ** Errors end the session *)

(** What MQTTCloseSession leaves. *)
Definition closed (c : MQTTClient) : MQTTClient :=
  let c := set_isconnected 0 (set_ping_outstanding 0 c) in
  if truth (cleansession c)
  then set_messageHandlers (map (λ h, Slot None (fp h)) (messageHandlers c)) c else c.

Lemma run_close c w : MQTTCloseSession (c, w) = Ok (tt, (closed c, w)).
Proof.
  unfold MQTTCloseSession, closed. rewrite !bind_update, bind_client.
  by destruct (truth _).
Qed.

Lemma closed_disconnected c : isconnected (closed c) = 0.
Proof. unfold closed. by destruct (truth _). Qed.

(** When cycle reports an error (a failed read, a packet too large for readbuf, a packet
    it cannot answer, a missing PINGRESP) the client is no longer connected. *)
Theorem cycle_error_closes fuel o timer s rc t s' :
  cycle fuel o timer s = Ok ((rc, t), s') → rc < 0 → isconnected (fst s') = 0.
Proof.
  intros E Hrc. unfold cycle in E. apply run_bind_inv in E as ([pt t1] & s1 & _ & E).
  apply run_bind_inv in E as ([[to_exit rc1] t2] & s2 & E2 & E).
  apply run_bind_inv in E as (rc2 & s3 & E3 & E).
  destruct (Z.eqb_spec rc2 SUCCESS) as [->|N].
  - (* the packet type is returned: it is not negative when the switch succeeded *)
    injection E as <- <- <-. exfalso. destruct to_exit.
    + injection E3 as -> <-. revert E2. unfold cycle_switch.
      destruct (Z.eqb_spec pt 0); [by intros [=]|].
      destruct (_ || _) eqn:B1.
      { unfold CONNACK, PUBACK, SUBACK, UNSUBACK in B1. lia. }
      destruct (Z.eqb_spec pt PUBLISH); [unfold PUBLISH in *; lia|].
      destruct ((pt =? PUBREC) || (pt =? PUBREL)) eqn:B2; [unfold PUBREC, PUBREL in B2; lia|].
      destruct (Z.eqb_spec pt PUBCOMP); [by intros [=]|].
      destruct (Z.eqb_spec pt PINGRESP); [unfold PINGRESP in *; lia|].
      intros [= E' _]. unfold SUCCESS in E'. lia.
    + revert E2. unfold cycle_switch.
      destruct (Z.eqb_spec pt 0); [lia|]. destruct (_ || _) eqn:B1.
      { unfold CONNACK, PUBACK, SUBACK, UNSUBACK in B1. lia. }
      destruct (Z.eqb_spec pt PUBLISH); [unfold PUBLISH in *; lia|].
      destruct ((pt =? PUBREC) || (pt =? PUBREL)) eqn:B2; [unfold PUBREC, PUBREL in B2; lia|].
      destruct (Z.eqb_spec pt PUBCOMP); [unfold PUBCOMP in *; lia|].
      destruct (Z.eqb_spec pt PINGRESP); [unfold PINGRESP in *; lia|]. done.
  - destruct s3 as [c3 w3]. rewrite bind_client in E.
    apply run_bind_inv in E as ([] & [c4 w4] & E4 & E). injection E as <- <- <-. cbn [fst].
    unfold truth in E4. destruct (Z.eqb_spec (isconnected c3) 0) as [Ez|]; cbn [negb] in E4.
    + by injection E4 as <- _.
    + rewrite run_close in E4. injection E4 as <- _. apply closed_disconnected.
Qed.

(** A request on a client that is not connected takes and releases the lock, fails
    and closes the session; nothing is read from or written to the network. *)
Theorem not_connected_fails fuel o c w l w1 u w2 filter qos handler data topic msg :
  isconnected c = 0 → MutexLock w = Ok (l, w1) → MutexUnlock w1 = Ok (u, w2) →
  MQTTSubscribeWithResults fuel o filter qos handler data (c, w) =
    Ok ((FAILURE, data), (closed c, w2)) ∧
  MQTTUnsubscribe fuel o filter (c, w) = Ok (FAILURE, (closed c, w2)) ∧
  MQTTPublish fuel o topic msg (c, w) = Ok ((FAILURE, msg), (closed c, w2)).
Proof.
  intros Hc E1 E2.
  assert (Exit : ∀ {A} (a : A), api_exit FAILURE a (c, w1) = Ok ((FAILURE, a), (closed c, w2))).
  { intros A a. unfold api_exit. change (FAILURE =? FAILURE) with true. cbv iota.
    by rewrite (run_bind _ _ _ _ _ (run_close c w1)), (bind_env _ _ _ _ _ _ E2). }
  unfold MQTTSubscribeWithResults, MQTTUnsubscribe, MQTTPublish.
  split; [|split]; rewrite (bind_env _ _ _ _ _ _ E1), bind_client, Hc; cbn [truth Z.eqb negb];
    rewrite run_bind_ret.
  - apply Exit.
  - by rewrite (run_bind _ _ _ _ _ (Exit unit tt)).
  - apply Exit.
Qed.

(** MQTTSubscribe, MQTTUnsubscribe and MQTTPublish leave a client that is not connected
    whenever they return FAILURE; MQTTDisconnect always does. *)
Theorem failed_request_disconnects fuel o filter qos handler data topic msg s s' :
  (∀ d, MQTTSubscribeWithResults fuel o filter qos handler data s = Ok ((FAILURE, d), s') →
        isconnected (fst s') = 0) ∧
  (MQTTUnsubscribe fuel o filter s = Ok (FAILURE, s') → isconnected (fst s') = 0) ∧
  (∀ m, MQTTPublish fuel o topic msg s = Ok ((FAILURE, m), s') → isconnected (fst s') = 0) ∧
  (∀ r, MQTTDisconnect fuel s = Ok (r, s') → isconnected (fst s') = 0).
Proof.
  assert (Unlock : ∀ {B} (b : B) c w r s2,
    (env MutexUnlock ;; mret b) (c, w) = Ok (r, s2) → fst s2 = c ∧ r = b).
  { intros B b c w r s2 E. apply run_bind_inv in E as (u & [c' w'] & E1 & E).
    unfold env in E1. cbn [fst snd] in E1. destruct (MutexUnlock w) as [[]| |]; [|done..].
    injection E1 as _ <- _. by injection E as <- <-. }
  assert (Exit : ∀ {A} rc (a b : A) s1, api_exit rc a s1 = Ok ((FAILURE, b), s') →
    isconnected (fst s') = 0).
  { intros A rc a b [c1 w1] E. unfold api_exit in E.
    apply run_bind_inv in E as ([] & [c2 w2] & E1 & E). apply Unlock in E as [-> [= <- <-]].
    change (FAILURE =? FAILURE) with true in E1. cbv iota in E1. rewrite run_close in E1.
    injection E1 as <- _. apply closed_disconnected. }
  split; [|split; [|split]].
  - intros d E. apply run_bind_inv in E as (l & s1 & _ & E).
    apply run_bind_inv in E as (c & s2 & _ & E). apply run_bind_inv in E as ([rc d'] & s3 & _ & E).
    by eapply Exit.
  - intros E. apply run_bind_inv in E as (l & s1 & _ & E).
    apply run_bind_inv in E as (c & s2 & _ & E). apply run_bind_inv in E as (rc & s3 & _ & E).
    apply run_bind_inv in E as ([rc' []] & s4 & E4 & E). injection E as -> ->. by eapply Exit.
  - intros m E. apply run_bind_inv in E as (l & s1 & _ & E).
    apply run_bind_inv in E as (c & s2 & _ & E). apply run_bind_inv in E as ([rc m'] & s3 & _ & E).
    by eapply Exit.
  - intros r E. apply run_bind_inv in E as (l & s1 & _ & E).
    apply run_bind_inv in E as (t & s2 & _ & E). apply run_bind_inv in E as (c & s3 & _ & E).
    apply run_bind_inv in E as (n & s4 & _ & E). apply run_bind_inv in E as (rc & [c5 w5] & _ & E).
    rewrite (run_bind _ _ _ _ _ (run_close c5 w5)) in E.
    apply Unlock in E as [-> _]. apply closed_disconnected.
Qed.

(** MQTTConnect on a client that is not connected leaves it connected exactly when it
    returns SUCCESS. *)
Theorem connect_result fuel o options data c w rc d s' :
  isconnected c = 0 →
  MQTTConnectWithResults fuel o options data (c, w) = Ok ((rc, d), s') →
  isconnected (fst s') = if rc =? SUCCESS then 1 else 0.
Proof.
  intros Hc E. unfold MQTTConnectWithResults in E.
  apply run_bind_inv in E as (l & s1 & E1 & E).
  assert (D1 : disconnected (fst s1)) by (by eapply (keeps_env disconnected _ (c, w))).
  destruct s1 as [c1 w1]. rewrite bind_client in E. cbn [fst] in D1. unfold disconnected in D1.
  rewrite D1 in E. cbn [truth Z.eqb negb] in E.
  apply run_bind_inv in E as ([rc1 d1] & [c2 w2] & E2 & E).
  assert (D2 : disconnected c2)
    by (exact (keeps_connect_session disconnected _ _ _ _ (c1, w1) _ _ D1 E2)).
  apply run_bind_inv in E as ([] & [c3 w3] & E3 & E).
  apply run_bind_inv in E as (u & [c4 w4] & E4 & E). injection E as <- <- <-. cbn [fst].
  assert (c4 = c3) as ->.
  { unfold env in E4. cbn [fst snd] in E4. destruct (MutexUnlock w3) as [[]| |]; [|done..].
    by injection E4 as _ <- _. }
  destruct (rc1 =? SUCCESS); by injection E3 as <- _.
Qed.

(** ** Acknowledgements *)

(** MQTTPublish takes the first PUBACK or PUBCOMP that arrives for its own: the packet
    identifier it carries, like its packet type, is read and not compared. *)
Theorem publish_wait_any_id fuel o packet_type rc timer s t c' w' type dup id junk :
  waitfor fuel o packet_type timer s = Ok ((packet_type, t), (c', w')) →
  readbuf c' = ack_packet type dup id ++ junk →
  0 ≤ type < 16 → bit dup → 0 ≤ id < 65536 →
  publish_wait fuel o packet_type rc timer s = Ok (rc, (c', w')).
Proof.
  intros E Hr Ht Hd Hi. unfold publish_wait. rewrite (run_bind _ _ _ _ _ E), Z.eqb_refl.
  rewrite bind_client, Hr.
  by rewrite (run_bind _ _ _ _ _ (run_lift _ _ (c', w')
    (read_ack type dup id junk (p_packetid o) (to_int (readbuf_size c')) Ht Hd Hi))).
Qed.

(** A broker refuses a subscription with return code 0x80. Where plain char is unsigned
    MQTTSubscribe sees it and installs no handler (and still returns rc, SUCCESS); where
    char is signed the code reads as -128, the comparison with 0x80 never holds and the
    handler of the refused subscription is installed. *)
Theorem subscribe_refused o filter handler rc c w id junk :
  0 ≤ id < 65536 → readbuf c = suback_packet id [SUBFAIL] ++ junk →
  subscribe_ack o filter handler rc (c, w) =
    if char_signed
    then (rc ← MQTTSetMessageHandler filter handler;
          mret (rc, SubackData 4294967168)) (c, w)
    else Ok ((rc, SubackData SUBFAIL), (c, w)).
Proof.
  intros Hi Hr. unfold subscribe_ack. rewrite bind_client, Hr.
  destruct (suback_start (p_packetid o) 1 0 [QOS0] id [SUBFAIL] junk (to_int (readbuf_size c)) Hi)
    as (k & Hat & ->); [done|].
  destruct (suback_loop_codes [SUBFAIL] (S (Z.to_nat (2 + len [SUBFAIL]))) k junk
    (c_pos k + len [SUBFAIL]) 1 [] [QOS0] Hat) as (k' & E); [done|cbn; lia..|].
  change (len (@nil Z)) with 0 in E. cbn [app] in E.
  rewrite (run_bind _ _ _ (1, id, 1, [to_char SUBFAIL]) (c, w)).
  2:{ apply run_lift. rewrite (bind_Ok _ _ _ (run_bind _ _ _ _ _ E)). done. }
  rewrite (run_bind _ _ _ (to_char SUBFAIL) (c, w)) by done.
  unfold to_char. destruct char_signed; done.
Qed.

(** ** Keep-alive *)

(** Keepalive does nothing when it is disabled or neither timer has expired; on expiry
    it fails if a PINGREQ is unanswered, and otherwise sends one, recording it as
    outstanding exactly when it was sent. *)
Theorem keepalive_spec fuel c w ts w1 tr w2 e1 e2 :
  2 ≤ buf_size c ≤ INT_MAX → buf_size c = len (buf c) →
  TimerIsExpired (last_sent c) w = Ok ((e1, ts), w1) →
  TimerIsExpired (last_received c) w1 = Ok ((e2, tr), w2) →
  let c1 := set_last_sent ts c in
  let '(c2, w') := if e1 : bool then (c1, w1) else (set_last_received tr c1, w2) in
  keepalive fuel (c, w) =
    if keepAliveInterval c =? 0 then Ok (SUCCESS, (c, w))
    else if negb (e1 || e2) then Ok (SUCCESS, (c2, w'))
    else if truth (ping_outstanding c) then Ok (FAILURE, (c2, w'))
    else (timer ← env TimerInit; timer ← env (TimerCountdownMS timer 1000);
          update (λ c, set_buf (over [192; 0] (buf c)) c) ;;
          '(rc, _) ← sendPacket fuel 2 timer;
          (if rc =? SUCCESS then update (set_ping_outstanding 1) else mret tt) ;;
          mret rc) (c2, w').
Proof.
  intros Hn Hb E1 E2. cbv zeta.
  assert (Hsz : 2 ≤ to_int (buf_size c) ≤ len (buf c))
    by (rewrite to_int_id; unfold in_int, INT_MIN, INT_MAX in *; lia).
  assert (Ping : ∀ c3 w3, buf c3 = buf c → buf_size c3 = buf_size c →
    on_buf (λ b, MQTTSerialize_pingreq b (to_int (buf_size c))) (c3, w3) =
      Ok (2, (set_buf (over [192; 0] (buf c3)) c3, w3))).
  { intros c3 w3 Eb Es. unfold on_buf. rewrite bind_client. unfold MQTTSerialize_pingreq.
    rewrite (run_bind _ _ _ (2, over [192; 0] (buf c3)) (c3, w3)); [done|].
    apply run_lift. unfold MQTTSerialize_zero. ztest. rewrite (header_type_only PINGREQ).
    rewrite (run_writer_emits (buf c3) _ [192; 0]); [done| |rewrite Eb; cbn [length]; lia].
    apply (emits_bind _ _ tt tt [192] (varint 0)); [by apply (emits_writeByte 192)|].
    by apply emits_writeRemLen. }
  assert (Go : ∀ c3 w3, buf c3 = buf c → buf_size c3 = buf_size c →
    ping_outstanding c3 = ping_outstanding c →
    (c ← client;
     if truth (ping_outstanding c) then mret FAILURE
     else
       timer ← env TimerInit; timer ← env (TimerCountdownMS timer 1000);
       len ← on_buf (λ b, MQTTSerialize_pingreq b (to_int (buf_size c)));
       if 0 <? len then
         '(rc, _) ← sendPacket fuel len timer;
         (if rc =? SUCCESS then update (set_ping_outstanding 1) else mret tt) ;;
         mret rc
       else mret SUCCESS) (c3, w3) =
    if truth (ping_outstanding c) then Ok (FAILURE, (c3, w3))
    else (timer ← env TimerInit; timer ← env (TimerCountdownMS timer 1000);
          update (λ c, set_buf (over [192; 0] (buf c)) c) ;;
          '(rc, _) ← sendPacket fuel 2 timer;
          (if rc =? SUCCESS then update (set_ping_outstanding 1) else mret tt) ;;
          mret rc) (c3, w3)).
  { intros c3 w3 Eb Es Ep. rewrite bind_client, Ep. destruct (truth _); [done|].
    rewrite Es. apply env_bind_ext. intros t w4. apply env_bind_ext. intros t' w5.
    rewrite (run_bind _ _ _ _ _ (Ping c3 w5 Eb Es)). done. }
  unfold keepalive. rewrite bind_client.
  destruct e1; cbn [orb negb].
  - destruct (keepAliveInterval c =? 0); [done|].
    rewrite (bind_env _ _ _ _ _ _ E1), bind_update. apply Go; done.
  - destruct (keepAliveInterval c =? 0); [done|].
    rewrite (bind_env _ _ _ _ _ _ E1), bind_update, run_assoc, (bind_env _ _ _ _ _ _ E2).
    rewrite run_assoc, bind_update, run_bind_ret. destruct e2; cbn [negb]; [|done].
    apply Go; done.
Qed.

End IO.
(** ** The theorems on the simulated platform *)

#[local] Existing Instance x86_64.

Definition no_locals : publish_out := PublishOut 0 0 0 0 MQTTString_initializer None 0.
Definition net (bs : list Z) : world := World 0 bs [] 1000 0 [].
Definition a_client (connected : Z) (b rb : list Z) : MQTTClient :=
  mkClient 1 10 (len b) (len rb) b rb 60 0 connected 1 (replicate 5 (Slot None None)) None 100000
    100000.

Lemma sendPacket_success_witness :
  sendPacket 2 3 1000 (a_client 1 [7; 8; 9; 1] [], net []) =
    Ok ((SUCCESS, 1000), (set_last_sent 60001 (a_client 1 [7; 8; 9; 1] []),
                          World 1 [] [7; 8; 9] 1000 0 [])).
Proof.
  apply (sendPacket_success 2 (a_client 1 [7; 8; 9; 1] []) (net []) 3 1000 1000
    (World 1 [] [] 1000 0 []) 999 1000 (World 1 [] [] 1000 0 [])
    (World 1 [] [7; 8; 9] 1000 0 []) 60001); try reflexivity. decide_by_vm.
Defined.

(** A packet of three bytes on a network that takes two at a time: the second
    write takes the last byte and one that follows the packet in the buffer. *)
Lemma sendPacket_partial_write_witness :
  sendPacket 3 3 1000 (a_client 1 [7; 8; 9; 1; 2] [], World 0 [] [] 2 0 []) =
    Ok ((FAILURE, 1000), (a_client 1 [7; 8; 9; 1; 2] [], World 2 [] [7; 8; 9; 1] 2 0 [])).
Proof.
  apply (sendPacket_partial_write 3 (a_client 1 [7; 8; 9; 1; 2] []) (World 0 [] [] 2 0 [])
    3 2 2 1000 1000 (World 1 [] [] 2 0 []) 999 1000 (World 1 [] [] 2 0 [])
    (World 1 [] [7; 8] 2 0 []) 1000 (World 2 [] [7; 8] 2 0 []) 998 1000 (World 2 [] [7; 8] 2 0 []));
    try reflexivity; unfold INT_MAX; lia.
Defined.

(** A look at the clock of the simulated platform takes it one further. *)
Lemma sim_progressing : progressing
  (λ d (t : Timer) w, 0 ≤ w_accept w ∧ (t : Z) + 1 - w_clock w ≤ Z.of_nat d)
  (λ d (t : Timer) w, 0 ≤ w_accept w ∧ (t : Z) + 2 - w_clock w ≤ Z.of_nat d ∧ (0 < d)%nat).
Proof.
  split.
  - intros d t w [Ha Hw]. split; [done|]. intros t' w' [=]. subst. cbn. lia.
  - intros d t w Hw. split; [done|]. by intros ms t' w' [= <- <- <-].
  - done.
  - intros p n ms d t w (Ha & Hw & Hd) Hn. cbn. unfold write_sim.
    destruct (load_bytes _ _ _) eqn:E; [|done|by destruct (load_bytes_returns _ _ _ E)].
    split; [done|]. intros r w' [= <- <-] Hr. cbn [w_clock w_accept].
    destruct (Z.eqb_spec (Z.min n (w_accept w)) 0); [exists (d - 1)%nat|exists d]; lia.
Qed.

(** On a network that never takes a byte the loop ends with the timer. *)
Lemma sendPacket_terminates_witness :
  sendPacket 14 3 9 (a_client 1 [7; 8; 9; 1] [], World 0 [] [] 0 0 []) ≠ NoFuel.
Proof.
  apply (sendPacket_terminates _ _ 3 10 (at_time 9) _ _ sim_progressing). split; decide_by_vm.
Defined.

Lemma sim_stream : stream (λ (w : world) bs, w_in w = bs).
Proof.
  split.
  - intros w bs rest ms Hw Hn.
    exists (World (w_clock w) rest (w_out w) (w_accept w) (w_locked w) (w_calls w)).
    split; [|done]. cbn. unfold read_sim. by rewrite Hw, take_len_app, drop_len_app by done.
  - intros t w bs Hw. by eexists _, _, _.
  - intros t n w bs Hw. by eexists _, _.
Qed.

Lemma readPacket_correct_witness :
  ∃ t w', w_in w' = [5] ∧ ∃ tr,
    readPacket 1000 (a_client 1 [] (replicate 6 0), net [48; 2; 1; 2; 5]) =
    Ok ((PUBLISH, t), (received [48; 2; 1; 2] tr (a_client 1 [] (replicate 6 0)), w')).
Proof.
  apply (readPacket_correct (λ (w : world) bs, w_in w = bs) 48 [1; 2] [5] (at_time 1000)
    (a_client 1 [] (replicate 6 0)) (net [48; 2; 1; 2; 5]) sim_stream);
    [decide_by_vm..|reflexivity|decide_by_vm|reflexivity].
Defined.

Lemma cycle_publish_answers_witness :
  let c := a_client 1 (replicate 8 0) (publish_packet ex_publish ++ [1]) in
  ∃ t msg, carries ex_publish t msg ∧ ∀ r s, deliverMessage t msg (c, net []) = Ok (r, s) →
    ∃ w', s = (c, w') ∧ cycle_publish 9 no_locals 1000 (c, net []) =
      (update (acknowledging PUBACK 23) ;;
       '(rc, timer) ← sendPacket 9 4 1000; mret (rc =? FAILURE, rc, timer)) (c, w').
Proof.
  apply (cycle_publish_answers ex_publish [1] 9 no_locals (at_time 1000)
    (a_client 1 (replicate 8 0) (publish_packet ex_publish ++ [1])) (net []) ex_publish_wf eq_refl);
    decide_by_vm.
Defined.

Lemma cycle_pubrec_pubrel_answers_witness :
  cycle_pubrec_pubrel 9 PUBREC 0 1000 (a_client 1 (replicate 4 0) [80; 2; 1; 2], net []) =
    Ok ((false, SUCCESS, 1000),
        (set_last_sent 60001 (a_client 1 [98; 2; 1; 2] [80; 2; 1; 2]),
         World 1 [] [98; 2; 1; 2] 1000 0 [])).
Proof.
  refine (eq_trans (cycle_pubrec_pubrel_answers PUBREC 0 258 [] 9 0 (at_time 1000)
    (a_client 1 (replicate 4 0) [80; 2; 1; 2]) (net []) (or_introl eq_refl) (or_introl eq_refl)
    _ eq_refl _ eq_refl) _); [decide_by_vm..|]. vm_compute. reflexivity.
Defined.

(** A packet larger than readbuf. *)
Lemma cycle_error_closes_witness :
  ∃ s', cycle 9 no_locals 1000 (a_client 1 [] (replicate 6 0), net [48; 100]) =
          Ok ((BUFFER_OVERFLOW, 1000), s') ∧ isconnected (fst s') = 0.
Proof.
  eexists. split; [vm_compute; reflexivity|].
  apply (cycle_error_closes 9 no_locals (at_time 1000) (a_client 1 [] (replicate 6 0), net [48; 100])
    BUFFER_OVERFLOW (at_time 1000)); [vm_compute; reflexivity|decide_by_vm].
Defined.

Lemma not_connected_fails_witness :
  MQTTPublish 9 no_locals (Some (c_string [97])) (Message 1 0 0 0 None 0)
    (a_client 0 [] [], net []) =
  Ok ((FAILURE, Message 1 0 0 0 None 0), (closed (a_client 0 [] []), net [])).
Proof.
  apply (not_connected_fails 9 no_locals (a_client 0 [] []) (net []) 0
    (World 0 [] [] 1000 1 []) 0 (net []) None 0 None (SubackData 0)); reflexivity.
Defined.

(** The broker does not answer within the command timeout. *)
Lemma failed_request_disconnects_witness :
  ∃ m s', MQTTPublish 40 no_locals (Some (c_string [97])) (Message 1 0 0 0 None 0)
    (a_client 1 (replicate 20 0) (replicate 6 0), net []) = Ok ((FAILURE, m), s') ∧
    isconnected (fst s') = 0.
Proof.
  eexists _, _. split; [vm_compute; reflexivity|].
  refine (proj1 (proj2 (proj2 (failed_request_disconnects 40 no_locals None 0 None (SubackData 0)
    (Some (c_string [97])) (Message 1 0 0 0 None 0)
    (a_client 1 (replicate 20 0) (replicate 6 0), net []) _))) _ _).
  vm_compute. reflexivity.
Defined.

(** The broker accepts the connection, without a session. *)
Lemma connect_result_witness :
  ∃ s', MQTTConnectWithResults 20 no_locals None (ConnackData 9 9)
    (a_client 0 (replicate 20 0) (replicate 6 0), net [32; 2; 0; 0]) =
      Ok ((SUCCESS, ConnackData 0 0), s') ∧ isconnected (fst s') = 1.
Proof.
  eexists. split; [vm_compute; reflexivity|].
  apply (connect_result 20 no_locals None (ConnackData 9 9)
    (a_client 0 (replicate 20 0) (replicate 6 0)) (net [32; 2; 0; 0]) SUCCESS (ConnackData 0 0));
    [reflexivity|vm_compute; reflexivity].
Defined.

(** A PUBACK for the identifier 2313 ends the wait for another message's. *)
Lemma publish_wait_any_id_witness :
  ∃ s', publish_wait 100 no_locals PUBACK SUCCESS 1000
    (a_client 1 (replicate 20 0) (replicate 6 0), net [64; 2; 9; 9]) = Ok (SUCCESS, s').
Proof.
  eexists.
  eapply (publish_wait_any_id 100 no_locals PUBACK SUCCESS (at_time 1000)
    (a_client 1 (replicate 20 0) (replicate 6 0), net [64; 2; 9; 9])
    (at_time 1000) _ _ PUBACK 0 2313 [0; 0]); [vm_compute; reflexivity|reflexivity|decide_by_vm..].
Defined.

(** On x86 the handler of a refused subscription is installed. *)
Lemma subscribe_refused_witness :
  subscribe_ack no_locals (Some (c_string [97])) (Some (app_handler 7)) SUCCESS
    (a_client 1 [] [144; 3; 0; 1; 128], net []) =
  Ok ((SUCCESS, SubackData 4294967168),
      (set_messageHandlers
         (Slot (Some (c_string [97])) (Some (app_handler 7)) :: replicate 4 (Slot None None))
         (a_client 1 [] [144; 3; 0; 1; 128]), net [])).
Proof.
  refine (eq_trans (subscribe_refused no_locals (Some (c_string [97])) (Some (app_handler 7)) SUCCESS
    (a_client 1 [] [144; 3; 0; 1; 128]) (net []) 1 [] _ eq_refl) _); [decide_by_vm|].
  vm_compute. reflexivity.
Defined.

Lemma keepalive_spec_witness :
  keepalive 9 (set_last_sent (-1) (a_client 1 (replicate 4 0) []), net []) =
    Ok (SUCCESS, (set_ping_outstanding 1 (set_last_sent 60002 (a_client 1 [192; 0; 0; 0] [])),
                  World 2 [] [192; 0] 1000 0 [])).
Proof.
  refine (eq_trans (keepalive_spec 9 (set_last_sent (-1) (a_client 1 (replicate 4 0) [])) (net [])
    (-1) (World 1 [] [] 1000 0 []) 100000 (World 2 [] [] 1000 0 []) true false _ eq_refl eq_refl
    eq_refl) _); [decide_by_vm|]. vm_compute. reflexivity.
Defined.

End ClientIO.
