(* ===== verification/ClientLive.v ===== *)
(** * A session of the client that succeeds

    Over a platform that serves it - timers that do not run out, a network that
    takes what is written and a broker that answers - the client connects,
    publishes any list of messages of any QoS and disconnects: every call
    returns SUCCESS, and what is on the wire is the dialogue of MQTT. *)

From S2P Require Import Prelude CSem Wire Packet Connect Publish Subscribe Stream Topics Platform.
From S2P Require Import Sim Client ClientState ClientIO.

Module ClientLive.
Import Client ClientIO.

(** ** The dialogue

    A request to publish, and what goes over the wire for it in both
    directions. *)

Record request : Type := Request
  { rq_qos : Z; rq_retained : Z; rq_topic : list Z; rq_payload : list Z }.

(** The identifier after [n]. *)
Definition next_id (n : Z) : Z := if n =? MAX_PACKET_ID then 1 else n + 1.

(** [n] is the last identifier used: a message of QoS 0 uses none. *)
Definition id_after (n : Z) (r : request) : Z := if rq_qos r =? 0 then n else next_id n.

Definition publish_of (n : Z) (r : request) : publish :=
  Publish 0 (rq_qos r) (rq_retained r) (if rq_qos r =? 0 then 0 else next_id n) (rq_topic r)
    (rq_payload r).

Definition sends (n : Z) (r : request) : list Z :=
  publish_packet (publish_of n r) ++ (if rq_qos r =? 2 then ack_packet PUBREL 0 (next_id n) else []).

Definition replies (n : Z) (r : request) : list Z :=
  if rq_qos r =? 1 then ack_packet PUBACK 0 (next_id n)
  else if rq_qos r =? 2 then ack_packet PUBREC 0 (next_id n) ++ ack_packet PUBCOMP 0 (next_id n)
  else [].

Fixpoint all_sends (n : Z) (rs : list request) : list Z :=
  match rs with [] => [] | r :: rs => sends n r ++ all_sends (id_after n r) rs end.
Fixpoint all_replies (n : Z) (rs : list request) : list Z :=
  match rs with [] => [] | r :: rs => replies n r ++ all_replies (id_after n r) rs end.

Section Live.
Context `{CImpl} {W : Type} `{Platform W}.
#[local] Abbreviation C A := (M (MQTTClient * W) A).

(** ** A platform that serves

    [st w bs l]: the broker will send [bs], and the client has written [l]; it writes at most
    [lim] bytes at once. The broker is as fast as the pace [pc] of the run says: a timer set for
    a wait that is long enough is running, and one that is running has not run out. *)
Class Serving (lim : Z) (pc : pace) (st : W → list Z → list Z → Prop) : Prop :=
  { sv_init w bs l : st w bs l → total TimerInit w (λ _ w', st w' bs l);
    sv_countdown_ms w bs l t n : st w bs l →
      total (TimerCountdownMS t n) w (λ t' w', (long pc n → running pc t') ∧ st w' bs l);
    sv_countdown w bs l t n : st w bs l →
      total (TimerCountdown t n) w (λ t' w', (long pc (1000 * n) → running pc t') ∧ st w' bs l);
    sv_expired w bs l t : st w bs l → running pc t →
      total (TimerIsExpired t) w (λ r w', r.1 = false ∧ running pc r.2 ∧ st w' bs l);
    sv_left w bs l t : st w bs l → running pc t →
      total (TimerLeftMS t) w (λ r w', enough pc w' r.1 ∧ running pc r.2 ∧ st w' bs l);
    sv_read w x bs l ms : st w (x ++ bs) l → x ≠ [] → enough pc w ms →
      total (mqttread (len x) ms) w (λ r w', r = (len x, x) ∧ enough pc w' ms ∧ st w' bs l);
    sv_write w bs l p n x ms : st w bs l → 0 < n ≤ lim → 0 ≤ off p → load_bytes (obj p) (off p) n = Ok x →
      enough pc w ms → total (mqttwrite p n ms) w (λ r w', r = n ∧ st w' bs (l ++ x));
    sv_lock w bs l : st w bs l → total MutexLock w (λ _ w', st w' bs l);
    sv_unlock w bs l : st w bs l → total MutexUnlock w (λ _ w', st w' bs l) }.

Context {lim : Z} {pc : pace} (st : W → list Z → list Z → Prop) `{!Serving lim pc st}.

Lemma st_paced l : paced pc (λ w bs, st w bs l).
Proof.
  split.
  - intros w bs rest ms Hw Hn Hm. destruct (sv_read w bs rest l ms Hw Hn Hm) as (r & w' & E & -> & Hm' & Hw').
    by exists w'.
  - intros t w bs Hw Ht. destruct (sv_left w bs l t Hw Ht) as ([ms t'] & w' & E & Hm & Ht' & Hw').
    by exists ms, t', w'.
  - intros t n w bs Hw. destruct (sv_countdown w bs l t n Hw) as (t' & w' & E & Ht & Hw'). by exists t', w'.
Qed.

Lemma total_env {A B} (m : M W A) (f : A → C B) c w R Q :
  total m w R → (∀ a w', R a w' → total (f a) (c, w') Q) → total (env m ≫= f) (c, w) Q.
Proof.
  intros (a & w' & E & HR) HQ. destruct (HQ a w' HR) as (b & s & E' & Hs). exists b, s.
  by rewrite (bind_env _ _ _ _ _ _ E).
Qed.

(** ** What stays

    Everything of the client but the bytes in its buffers and its timers. *)
Definition core (c : MQTTClient) :=
  (next_packetid c, command_timeout_ms c, buf_size c, readbuf_size c, length (buf c),
   length (readbuf c), keepAliveInterval c, ping_outstanding c, isconnected c,
   (cleansession c, messageHandlers c, defaultMessageHandler c)).

(** What keep-alive looks at runs: the timer of the receiver, and both timers. *)
Definition hearing (pc : pace) (c : MQTTClient) : Prop :=
  keepAliveInterval c ≠ 0 → long pc (1000 * keepAliveInterval c) ∧ running pc (last_received c).
Definition ticking (pc : pace) (c : MQTTClient) : Prop :=
  keepAliveInterval c ≠ 0 → long pc (1000 * keepAliveInterval c) ∧ running pc (last_received c) ∧
    running pc (last_sent c).

Lemma ticking_hearing c : ticking pc c → hearing pc c.
Proof. intros Hc Hk. by destruct (Hc Hk) as (? & ? & ?). Qed.

(** Buffers as large as the client thinks, with room for an acknowledgement, and no more than
    can be written at once. *)
Record sized (lim : Z) (c : MQTTClient) : Prop :=
  { sz_buf : buf_size c = len (buf c); sz_readbuf : readbuf_size c = len (readbuf c);
    sz_buf_max : len (buf c) ≤ INT_MAX; sz_buf_lim : len (buf c) ≤ lim; sz_readbuf_max : len (readbuf c) ≤ INT_MAX;
    sz_buf_min : 5 ≤ len (buf c); sz_readbuf_min : 5 ≤ len (readbuf c) }.

Lemma sized_core c c' : core c' = core c → sized lim c → sized lim c'.
Proof. intros [=] []. split; lia. Qed.

Lemma core_over bs c : (length bs ≤ length (buf c))%nat → core (set_buf (over bs (buf c)) c) = core c.
Proof. intros L. unfold core. cbn. by rewrite over_length. Qed.

Lemma core_received bs t c :
  (length bs ≤ length (readbuf c))%nat → core (received bs t c) = core c.
Proof. intros L. unfold core, received. destruct (_ <? _); cbn; by rewrite over_length. Qed.

Lemma readbuf_received bs t c : readbuf (received bs t c) = over bs (readbuf c).
Proof. unfold received. by destruct (_ <? _). Qed.

(** ** Sending and receiving *)

Lemma send_total fuel n x timer c w bs l :
  0 < n ≤ INT_MAX → n ≤ lim → (2 ≤ fuel)%nat → load_bytes (buf c) 0 n = Ok x → st w bs l →
  running pc timer → hearing pc c →
  total (sendPacket fuel n timer) (c, w)
    (λ r s, r.1 = SUCCESS ∧ running pc r.2 ∧ ticking pc s.1 ∧ (∃ t, s.1 = set_last_sent t c) ∧
       st s.2 bs (l ++ x)).
Proof.
  intros Hn Hlim Hf Hx Hw Ht Hk.
  destruct (sv_expired w bs l timer Hw Ht) as ([e t1] & w1 & E1 & He & Ht1 & A1). cbn in He. subst e.
  destruct (sv_left w1 bs l t1 A1 Ht1) as ([ms t2] & w2 & E2 & Hm & Ht2 & A2).
  destruct (sv_write (lim := lim) w2 bs l (Ptr (buf c) 0) n x ms A2 ltac:(lia) ltac:(done) Hx Hm) as (r & w3 & E3 & -> & A3).
  destruct (sv_countdown w3 _ _ (last_sent c) (keepAliveInterval c) A3) as (t3 & w4 & E4 & Ht3 & A4).
  eexists _, _. split; [by eapply sendPacket_success|]. split; [done|]. split; [done|].
  split; [|split; [by exists t3|done]].
  intros K. destruct (Hk K) as [HL HR]. split; [done|]. split; [done|]. by apply Ht3.
Qed.

(** What an operation that has written [x] to buf sends. *)
Lemma send_over fuel x timer c w bs l :
  x ≠ [] → (2 ≤ fuel)%nat → len x ≤ len (buf c) → sized lim c → st w bs l →
  running pc timer → hearing pc c →
  total (sendPacket fuel (len x) timer) (set_buf (over x (buf c)) c, w)
    (λ r s, r.1 = SUCCESS ∧ running pc r.2 ∧ ticking pc s.1 ∧ core s.1 = core c ∧ readbuf s.1 = readbuf c ∧
       st s.2 bs (l ++ x)).
Proof.
  intros Hx Hf Hl Hs Hw Ht Hk. pose proof (len_pos x Hx). pose proof (sz_buf_max lim c Hs). pose proof (sz_buf_lim lim c Hs).
  eapply total_weaken; [eapply (send_total fuel (len x) x); [lia|lia|done| |exact Hw|done|done]|].
  - cbn [buf set_buf]. by apply (load_bytes_app [] x).
  - intros r [c' w'] (Hr & Hrt & Hc & [t Et] & Hw'). cbn [fst snd] in *. subst c'. split; [done|].
    split; [done|]. split; [done|]. split; [|done]. rewrite <- (core_over x c ltac:(lia)). done.
Qed.

Lemma read_total h body rest timer c w l :
  byte h → len body ≤ MAX_REMAINING → len (packet h body) ≤ len (readbuf c) → sized lim c →
  st w (packet h body ++ rest) l → running pc timer → ticking pc c →
  total (readPacket timer) (c, w) (λ r s, r.1 = header_type h ∧ running pc r.2 ∧ ticking pc s.1 ∧
    core s.1 = core c ∧ readbuf s.1 = over (packet h body) (readbuf c) ∧ st s.2 rest l).
Proof.
  intros Hh Hl Hfit Hs Hw Ht Hk.
  destruct (readPacket_fits pc _ h body rest timer c w (st_paced l) Ht Hh Hfit)
    as (t & tr & w' & E & Hw' & Ht' & Htr); [apply Hs..|destruct Hs; lia|done|done|].
  eexists _, _. split; [exact E|]. cbn [fst snd]. split; [done|]. split; [done|].
  split; [|split; [apply core_received; lia|split; [apply readbuf_received|done]]].
  unfold ticking, received in *. destruct (Z.ltb_spec 0 (keepAliveInterval c)); cbn; intros K;
    destruct (Hk K) as (? & ? & ?); [|done]. split; [done|]. split; [by apply Htr|done].
Qed.

(** Before a timer has run out there is nothing to do. *)
Lemma keepalive_total fuel c w bs l :
  st w bs l → ticking pc c →
  total (keepalive fuel) (c, w) (λ k s, k = SUCCESS ∧ ticking pc s.1 ∧ core s.1 = core c ∧
    readbuf s.1 = readbuf c ∧ st s.2 bs l).
Proof.
  intros Hw Hk. unfold keepalive. unfold total. rewrite bind_client.
  destruct (Z.eqb_spec (keepAliveInterval c) 0) as [|K]; [by eexists _, _|]. destruct (Hk K) as (HL & HR & HT).
  eapply total_env; [by apply sv_expired|]. intros [e t] w1 (He & Ht & A1). cbn in He. subst e.
  unfold total. rewrite bind_update, run_assoc.
  eapply total_env; [by apply sv_expired|]. intros [e t'] w2 (He & Ht' & A2). cbn in He. subst e.
  by eexists _, _.
Qed.

End Live.

(** ** Rounds of the protocol *)

(** What a round leaves when it has read [bs] and written [x]. *)
Definition after_round `{CImpl} {W : Type} `{Platform W} (pc : pace) (st : W → list Z → list Z → Prop)
    (c : MQTTClient) (bs : list Z) (rest l x : list Z) (c' : MQTTClient) (w' : W) : Prop :=
  core c' = core c ∧ ticking pc c' ∧ (∃ junk, readbuf c' = bs ++ junk) ∧ st w' rest (l ++ x).

(** A round from [st] to [st']: they may differ in what the handlers have done. *)
Section Round.
Context `{CImpl} {W : Type} `{Platform W} (o : publish_out).
Context {lim : Z} {pc : pace} (st : W → list Z → list Z → Prop) `{!Serving lim pc st}.
Context (st' : W → list Z → list Z → Prop) `{!Serving lim pc st'}.

Lemma cycle_total fuel timer h body rest x c w l :
  byte h → len body ≤ MAX_REMAINING → len (packet h body) ≤ len (readbuf c) → sized lim c →
  st w (packet h body ++ rest) l → running pc timer → ticking pc c → 0 < header_type h →
  (∀ t c1 w1, core c1 = core c → sized lim c1 → ticking pc c1 → running pc t →
     readbuf c1 = over (packet h body) (readbuf c) → st w1 rest l →
     total (cycle_switch fuel o (header_type h) t) (c1, w1) (λ r s, r.1 = (false, SUCCESS) ∧
       running pc r.2 ∧ ticking pc s.1 ∧ core s.1 = core c ∧ readbuf s.1 = readbuf c1 ∧
       st' s.2 rest (l ++ x))) →
  total (cycle fuel o timer) (c, w) (λ r s, r.1 = header_type h ∧ running pc r.2 ∧
    after_round pc st' c (packet h body) rest l x s.1 s.2).
Proof.
  intros Hh Hl Hfit Hs Hw Htm Hk Ht Hsw. unfold cycle.
  eapply total_bind; [by apply (read_total st)|]. intros [pt t] [c1 w1] (Ept & Ht1 & Hk1 & Ec & Er & A1).
  cbn [fst snd] in *. subst pt.
  eapply total_bind; [apply Hsw; [done|by eapply sized_core|done..]|].
  intros [[to_exit rc] t2] [c2 w2] (E0 & Ht2 & Hk2 & Ec2 & Er2 & A2). cbn [fst snd] in *. injection E0 as -> ->.
  eapply total_bind.
  { eapply total_bind; [by apply (keepalive_total st' fuel c2 w2)|]. intros k s Hq.
    apply (total_ret _ _ (λ a s, a = SUCCESS ∧ ticking pc s.1 ∧ core s.1 = core c2 ∧ readbuf s.1 = readbuf c2 ∧
      st' s.2 rest (l ++ x))).
    destruct Hq as (-> & Hq). by split. }
  intros rc [c3 w3] (-> & Hk3 & Ec3 & Er3 & A3). cbn [fst snd] in *. change (SUCCESS =? SUCCESS) with true.
  apply total_ret. cbn [fst snd]. split; [done|]. split; [done|]. split; [congruence|]. split; [done|]. split; [|done].
  exists (drop (length (packet h body)) (readbuf c)). rewrite Er3, Er2, Er. done.
Qed.

End Round.

Section Live.
Context `{CImpl} {W : Type} `{Platform W} (o : publish_out).
#[local] Abbreviation C A := (M (MQTTClient * W) A).
Context {lim : Z} {pc : pace} (st : W → list Z → list Z → Prop) `{!Serving lim pc st}.

(** A packet that only wakes the caller. *)
Lemma cycle_ack fuel timer type body rest c w l :
  type = CONNACK ∨ type = PUBACK ∨ type = PUBCOMP →
  len body ≤ 2 → sized lim c → st w (packet (fixed_header type 0 0 0) body ++ rest) l →
  running pc timer → ticking pc c →
  total (cycle fuel o timer) (c, w) (λ r s, r.1 = type ∧ running pc r.2 ∧
    after_round pc st c (packet (fixed_header type 0 0 0) body) rest l [] s.1 s.2).
Proof.
  intros Ht Hb Hs Hw Htm Hk. pose proof (sz_readbuf_min lim c Hs).
  assert (Et : header_type (fixed_header type 0 0 0) = type) by (by destruct Ht as [->|[->| ->]]).
  assert (Hlen : len (packet (fixed_header type 0 0 0) body) ≤ 4).
  { rewrite packet_len, varint_len by lia. ztest; lia. }
  eapply total_weaken;
    [eapply (cycle_total o st st fuel timer (fixed_header type 0 0 0) body rest []); try exact Hw; try exact Hs; try done
    |intros r s; by rewrite Et].
  - apply fixed_header_byte.
  - unfold MAX_REMAINING. lia.
  - lia.
  - rewrite Et. by destruct Ht as [->|[->| ->]].
  - intros t c1 w1 Ec _ Hk1 Ht1 Er A1. rewrite Et. unfold total. rewrite app_nil_r.
    exists (false, SUCCESS, t), (c1, w1). split; [by destruct Ht as [->|[->| ->]]|done].
Qed.

(** A PUBREC is answered by a PUBREL, and a PUBREL by a PUBCOMP. *)
Lemma cycle_answer fuel timer type id rest c w l :
  type = PUBREC ∨ type = PUBREL → 0 ≤ id < 65536 → (2 ≤ fuel)%nat → sized lim c →
  st w (ack_packet type 0 id ++ rest) l → running pc timer → ticking pc c →
  total (cycle fuel o timer) (c, w) (λ r s, r.1 = type ∧ running pc r.2 ∧
    after_round pc st c (ack_packet type 0 id) rest l
      (ack_packet (if type =? PUBREC then PUBREL else PUBCOMP) 0 id) s.1 s.2).
Proof.
  intros Ht Hid Hf Hs Hw Htm Hk. pose proof (sz_readbuf_min lim c Hs). pose proof (sz_buf_min lim c Hs).
  set (h := fixed_header type 0 (if type =? PUBREL then 1 else 0) 0).
  assert (Et : header_type h = type) by (by destruct Ht as [-> | ->]).
  assert (El : ∀ ty, len (ack_packet ty 0 id) = 4) by done.
  set (ty := if type =? PUBREC then PUBREL else PUBCOMP).
  eapply total_weaken;
    [apply (cycle_total o st st fuel timer h (int16 id) rest (ack_packet ty 0 id) c w l)
    |intros r s; rewrite Et; exact (λ x, x)].
  - apply fixed_header_byte.
  - done.
  - change (len (ack_packet type 0 id) ≤ len (readbuf c)). rewrite El. lia.
  - done.
  - exact Hw.
  - done.
  - done.
  - rewrite Et. by destruct Ht as [-> | ->].
  - intros t c1 w1 Ec Hs1 Hk1 Ht1 Er A1. rewrite Et.
    assert (Esw : cycle_switch fuel o type t = cycle_pubrec_pubrel fuel type (p_packetid o) t)
      by (by destruct Ht as [-> | ->]).
    rewrite Esw. unfold total.
    rewrite (cycle_pubrec_pubrel_answers type 0 id (drop 4 (readbuf c)));
      [|done|by left|done|by rewrite Er|destruct Hs1; lia|apply Hs1].
    unfold acknowledging. fold ty. rewrite <- (El ty).
    eapply total_bind; [apply (send_over st fuel _ t c1 w1 rest l); try done;
      [rewrite El; destruct Hs1; lia|by apply ticking_hearing]|].
    intros [rc t2] s (Hr & Ht2 & Hk2 & Hc & Hb & Hst). cbn [fst] in Hr. subst rc. apply total_ret.
    split; [done|]. split; [done|]. split; [done|]. split; [congruence|]. by split.
Qed.

(** ** Waiting *)

Lemma wait_step n fuel type rc timer c w bs l (Q : Z * Timer → MQTTClient * W → Prop) R :
  st w bs l → running pc timer →
  (∀ t w', st w' bs l → running pc t → total (cycle fuel o t) (c, w') R) →
  (∀ r t s, R (r, t) s →
     if negb (r =? type) && (0 <=? r) then total (waitfor_loop n fuel o type r t) s Q else Q (r, t) s) →
  total (waitfor_loop (S n) fuel o type rc timer) (c, w) Q.
Proof.
  intros Hw Ht HR HQ. cbn [waitfor_loop]. eapply total_env; [by apply sv_expired|].
  intros [e t] w1 (He & Ht1 & A1). cbn in He. subst e.
  eapply total_bind; [by apply HR|]. intros [r t'] s Hr. specialize (HQ r t' s Hr).
  destruct (_ && _); [done|by apply total_ret].
Qed.

Lemma wait_ack fuel timer type body rest c w l :
  type = CONNACK ∨ type = PUBACK ∨ type = PUBCOMP → (1 ≤ fuel)%nat →
  len body ≤ 2 → sized lim c → st w (packet (fixed_header type 0 0 0) body ++ rest) l →
  running pc timer → ticking pc c →
  total (waitfor fuel o type timer) (c, w)
    (λ r s, r.1 = type ∧ after_round pc st c (packet (fixed_header type 0 0 0) body) rest l [] s.1 s.2).
Proof.
  intros Ht Hf Hb Hs Hw Htm Hk. unfold waitfor. destruct fuel as [|n]; [lia|].
  eapply wait_step; [exact Hw|done|intros t w' A Ht1; by apply cycle_ack|].
  intros r t s (Hr & _ & Ha). cbn [fst] in Hr. subst r. by rewrite Z.eqb_refl.
Qed.

(** The handshake of QoS 2. *)
Lemma wait_pubcomp fuel timer id rest c w l :
  0 ≤ id < 65536 → (2 ≤ fuel)%nat → sized lim c →
  st w (ack_packet PUBREC 0 id ++ ack_packet PUBCOMP 0 id ++ rest) l → running pc timer → ticking pc c →
  total (waitfor fuel o PUBCOMP timer) (c, w)
    (λ r s, r.1 = PUBCOMP ∧
       after_round pc st c (ack_packet PUBCOMP 0 id) rest l (ack_packet PUBREL 0 id) s.1 s.2).
Proof.
  intros Hid Hf Hs Hw Htm Hk. unfold waitfor. destruct fuel as [|[|n]]; [lia..|].
  eapply wait_step; [exact Hw|done|intros t w' A Ht1; eapply (cycle_answer _ t PUBREC id); [by left|done..|exact A|done|done]|].
  intros r t [c1 w1] (Hr & Ht1 & Hc & Hk1 & _ & A1). cbn [fst snd] in *. subst r.
  change (negb (PUBREC =? PUBCOMP) && (0 <=? PUBREC)) with true. cbv iota.
  eapply wait_step; [exact A1|done| |].
  - intros t' w' A Ht'. apply (cycle_ack (S (S n)) t' PUBCOMP (int16 id) rest c1 w'); try done; [by do 2 right|].
    by eapply sized_core.
  - intros r t' [c2 w2] (Hr & _ & Hc2 & Hk2 & Hj & A2). cbn [fst snd] in *. subst r. rewrite Z.eqb_refl.
    cbn [negb andb]. split; [done|]. split; [congruence|]. split; [done|]. split; [done|].
    by rewrite app_nil_r in A2.
Qed.

(** ** The calls *)

Lemma on_buf_written m x c w :
  m (buf c) = Ok (written (buf c) x) →
  on_buf m (c, w) = Ok (len x, (set_buf (over x (buf c)) c, w)).
Proof. intros E. unfold on_buf. by rewrite bind_client, (run_bind _ _ _ _ _ (run_lift _ _ (c, w) E)). Qed.

Lemma total_timer {B} (f : Timer → C B) c w bs l Q :
  st w bs l → long pc (command_timeout_ms c) →
  (∀ t w', st w' bs l → running pc t → total (f t) (c, w') Q) → total (command_timer ≫= f) (c, w) Q.
Proof.
  intros Hw HL HQ. unfold command_timer, total. rewrite run_assoc.
  eapply total_env; [by apply sv_init|]. intros t w1 A1. unfold total. rewrite run_assoc, bind_client.
  eapply total_env; [apply sv_countdown_ms, A1|]. intros t' w2 [Ht A2]. apply HQ; [done|by apply Ht].
Qed.

Lemma run_next_id c w :
  1 ≤ next_packetid c ≤ MAX_PACKET_ID →
  getNextPacketId (c, w) = Ok (next_id (next_packetid c), (set_next_packetid (next_id (next_packetid c)) c, w)).
Proof.
  unfold MAX_PACKET_ID. intros Hn. unfold getNextPacketId. rewrite bind_client. unfold next_id, MAX_PACKET_ID.
  destruct (Z.eqb_spec (next_packetid c) 65535); [done|].
  rewrite to_uint_id by (unfold INT_MAX; lia). done.
Qed.

Lemma next_id_id n : 0 ≤ n ≤ MAX_PACKET_ID → 1 ≤ next_id n ≤ MAX_PACKET_ID.
Proof. unfold next_id, MAX_PACKET_ID. ztest; lia. Qed.

(** An acknowledgement that is waited for. *)
Lemma acked fuel ty id rc timer c w rest l x :
  0 ≤ ty < 16 → 0 ≤ id < 65536 →
  total (waitfor fuel o ty timer) (c, w)
    (λ r s, r.1 = ty ∧ after_round pc st c (ack_packet ty 0 id) rest l x s.1 s.2) →
  total (publish_wait fuel o ty rc timer) (c, w)
    (λ a s, a = rc ∧ ticking pc s.1 ∧ core s.1 = core c ∧ st s.2 rest (l ++ x)).
Proof.
  intros Ht Hi Hwait. unfold publish_wait. eapply total_bind; [exact Hwait|].
  intros [r t] [c1 w1] (Hr & Hc & Hk & [junk Hj] & A1). cbn [fst snd] in *. subst r. rewrite Z.eqb_refl.
  unfold total. rewrite bind_client, Hj.
  rewrite (run_bind _ _ _ _ _ (run_lift _ _ (c1, w1)
    (read_ack ty 0 id junk (p_packetid o) (to_int (readbuf_size c1)) Ht ltac:(by left) Hi))).
  by eexists _, _.
Qed.

(** What the application passes to MQTTPublish. *)
Definition message_of (r : request) : MQTTMessage :=
  Message (rq_qos r) (rq_retained r) 0 0 (Some (Ptr (rq_payload r) 0)) (len (rq_payload r)).

(** A topic that is a C string, and a packet for which there is room. *)
Record request_ok (room : Z) (r : request) : Prop :=
  { ro_qos : rq_qos r = 0 ∨ rq_qos r = 1 ∨ rq_qos r = 2;
    ro_retained : bit (rq_retained r);
    ro_topic : Forall (λ b, byte b ∧ b ≠ 0) (rq_topic r);
    ro_topic_len : len (rq_topic r) < 65536;
    ro_payload : bytes (rq_payload r);
    ro_body : len (publish_body (publish_of 0 r)) ≤ MAX_REMAINING;
    ro_room : packet_size (len (publish_body (publish_of 0 r))) ≤ room }.

Lemma publish_of_len n r : len (publish_body (publish_of n r)) = len (publish_body (publish_of 0 r)).
Proof. by rewrite !publish_body_len. Qed.

Lemma publish_of_wf room n r :
  request_ok room r → 0 ≤ n ≤ MAX_PACKET_ID → publish_wf (publish_of n r).
Proof.
  intros [Hq Hr Ht Htl Hp Hb _] Hn. pose proof (next_id_id n Hn). unfold MAX_PACKET_ID in *.
  split; [by left|cbn; lia|done|cbn; destruct (_ =? _); lia| |done|by rewrite publish_of_len].
  cbn [pb_topic publish_of]. split; [|lia]. eapply List.Forall_impl; [|exact Ht]. by intros ? [].
Qed.

Lemma publish_fits room n r :
  request_ok room r → 0 ≤ n ≤ MAX_PACKET_ID → len (publish_packet (publish_of n r)) ≤ room.
Proof.
  intros Hr Hn. pose proof (packet_size_ge (fixed_header PUBLISH 0 (rq_qos r) (rq_retained r))
    (publish_body (publish_of n r)) (wf_body _ (publish_of_wf _ n r Hr Hn))) as G.
  pose proof (ro_room _ _ Hr) as G2. rewrite publish_of_len in G.
  unfold publish_packet. cbn [publish_of pb_dup pb_qos pb_retain] in *. lia.
Qed.

Lemma serialize_request c n r w :
  request_ok (len (buf c)) r → 1 ≤ n ≤ MAX_PACKET_ID → sized lim c →
  on_buf (λ b, MQTTSerialize_publish b (to_int (buf_size c)) 0 (rq_qos r) (rq_retained r)
      (pb_id (publish_of n r)) (topic_of (Some (c_string (rq_topic r))))
      (Some (Ptr (rq_payload r) 0)) (to_int (len (rq_payload r)))) (c, w) =
    Ok (len (publish_packet (publish_of n r)),
        (set_buf (over (publish_packet (publish_of n r)) (buf c)) c, w)).
Proof.
  intros Hr Hn Hs. pose proof (publish_of_wf _ n r Hr ltac:(lia)) as Hwf.
  assert (Hpl : len (rq_payload r) ≤ MAX_REMAINING).
  { pose proof (wf_body _ Hwf) as Hb. rewrite publish_body_len in Hb. cbn [pb_payload publish_of] in Hb.
    destruct (_ <? _); lia. }
  assert (Hi : ∀ z, 0 ≤ z ≤ INT_MAX → to_int z = z)
    by (intros z Hz; apply to_int_id; unfold in_int, INT_MIN; lia).
  rewrite (Hi (buf_size c)), (Hi (len (rq_payload r))) by (destruct Hs; unfold MAX_REMAINING, INT_MAX in *; lia).
  apply on_buf_written. destruct Hs as [-> _ _ _ _ _].
  apply (serialize_publish_room (publish_of n r)); [done| |rewrite publish_of_len; split; [apply Hr|done]].
  split.
  - apply (of_cstring_denotes (rq_topic r)); [apply Hr|]. pose proof (ro_topic_len _ _ Hr). unfold INT_MAX. lia.
  - cbn [publish_of pb_payload]. unfold mem_read. destruct (Z.eqb_spec (len (rq_payload r)) 0) as [E|E].
    + by destruct (rq_payload r).
    + rewrite <- (app_nil_r (rq_payload r)) at 1. by apply (load_bytes_app [] (rq_payload r) []).
Qed.

(** The message gets its identifier. *)
Lemma run_message_id r c w :
  request_ok (len (buf c)) r → 1 ≤ next_packetid c ≤ MAX_PACKET_ID →
  (if (m_qos (message_of r) =? QOS1) || (m_qos (message_of r) =? QOS2) then
     id ← getNextPacketId;
     mret (Message (rq_qos r) (rq_retained r) 0 (to_ushort id) (Some (Ptr (rq_payload r) 0))
             (len (rq_payload r)))
   else mret (message_of r)) (c, w) =
  Ok (Message (rq_qos r) (rq_retained r) 0 (pb_id (publish_of (next_packetid c) r))
        (Some (Ptr (rq_payload r) 0)) (len (rq_payload r)),
      (set_next_packetid (id_after (next_packetid c) r) c, w)).
Proof.
  intros [Hq _ _ _ _ _ _] Hn. pose proof (next_id_id (next_packetid c) ltac:(lia)) as Hid. unfold MAX_PACKET_ID in Hid.
  unfold message_of, id_after. cbn [m_qos publish_of pb_id]. destruct Hq as [Hq|Hq].
  - rewrite Hq. change (0 =? QOS1) with false. change (0 =? QOS2) with false. cbn [orb Z.eqb].
    by destruct c.
  - assert ((rq_qos r =? QOS1) || (rq_qos r =? QOS2) = true) as -> by (by destruct Hq as [-> | ->]).
    assert (rq_qos r =? 0 = false) as -> by (by destruct Hq as [-> | ->]).
    rewrite (run_bind _ _ _ _ _ (run_next_id c w Hn)), run_ret.
    unfold to_ushort. by rewrite Z.mod_small by lia.
Qed.

(** What the client does once its packet is sent: it waits as the QoS asks. *)
Lemma answered fuel n r timer c w rest l :
  request_ok (len (buf c)) r → 1 ≤ n ≤ MAX_PACKET_ID → sized lim c → (2 ≤ fuel)%nat →
  st w (replies n r ++ rest) l → running pc timer → ticking pc c →
  total (if rq_qos r =? QOS1 then publish_wait fuel o PUBACK SUCCESS timer
         else if rq_qos r =? QOS2 then publish_wait fuel o PUBCOMP SUCCESS timer
         else mret SUCCESS) (c, w)
    (λ a s, a = SUCCESS ∧ ticking pc s.1 ∧ core s.1 = core c ∧
       st s.2 rest (l ++ if rq_qos r =? 2 then ack_packet PUBREL 0 (next_id n) else [])).
Proof.
  intros Hr Hn Hs Hf Hw Htm Hk. pose proof (next_id_id n ltac:(lia)) as Hid. unfold MAX_PACKET_ID in Hid.
  destruct (ro_qos _ _ Hr) as [E|[E|E]]; unfold replies in Hw; rewrite E in *; cbn in Hw |- *.
  - apply total_ret. by rewrite app_nil_r.
  - apply (acked fuel PUBACK (next_id n) SUCCESS timer c w rest l []); [done|lia|].
    apply (wait_ack fuel timer PUBACK (int16 (next_id n)) rest c w l); try done; [by right; left|lia].
  - rewrite <- app_assoc in Hw. apply (acked fuel PUBCOMP (next_id n) SUCCESS timer c w rest l); [done|lia|].
    by apply wait_pubcomp; [lia|..].
Qed.

Lemma publish_session_total fuel r c w rest l :
  request_ok (len (buf c)) r → 1 ≤ next_packetid c ≤ MAX_PACKET_ID → sized lim c → (2 ≤ fuel)%nat →
  st w (replies (next_packetid c) r ++ rest) l → long pc (command_timeout_ms c) → ticking pc c →
  total (publish_session fuel o (Some (c_string (rq_topic r))) (message_of r)) (c, w)
    (λ a s, a.1 = SUCCESS ∧ ticking pc s.1 ∧
       core s.1 = core (set_next_packetid (id_after (next_packetid c) r) c) ∧
       st s.2 rest (l ++ sends (next_packetid c) r)).
Proof.
  intros Hr Hn Hs Hf Hw HL Hk. unfold publish_session.
  eapply total_timer; [exact Hw|done|]. intros timer w1 A1 Ht1.
  eapply total_run; [exact (run_message_id r c w1 Hr Hn)|].
  set (n := next_packetid c) in *. set (c1 := set_next_packetid (id_after n r) c).
  assert (Hs1 : sized lim c1) by (destruct Hs; by split).
  eapply total_run; [reflexivity|]. cbn [m_qos m_retained m_id m_payload m_payloadlen].
  eapply total_run; [exact (serialize_request c1 n r w1 Hr Hn Hs1)|].
  set (x := publish_packet (publish_of n r)).
  assert (Hx : x ≠ []) by done. pose proof (len_pos x Hx) as L1.
  assert (L2 : len x ≤ len (buf c1)) by (apply publish_fits; [done|lia]).
  destruct (Z.leb_spec (len x) 0); [lia|].
  eapply total_bind; [by apply (send_over st fuel x timer c1 w1 (replies n r ++ rest) l); try done; apply ticking_hearing|].
  intros [rc t2] [c2 w2] (E & Ht2 & Hk2 & Hc2 & _ & A2). cbn [fst snd] in *. subst rc.
  change (negb (SUCCESS =? SUCCESS)) with false. cbv iota.
  assert (Hs2 : sized lim c2) by (by eapply sized_core).
  assert (Hb2 : length (buf c2) = length (buf c)) by (injection Hc2; done).
  eapply total_bind; [apply (answered fuel n r t2 c2 w2 rest (l ++ x)); [by rewrite Hb2|done..]|].
  intros rc [c3 w3] (-> & Hk3 & Hc3 & A3). apply total_ret. cbn [fst snd] in *. split; [done|].
  split; [done|]. split; [congruence|]. unfold sends. fold x. by rewrite app_assoc.
Qed.

(** MQTTPublish, while the broker answers. *)
Lemma publish_total fuel r c w rest l :
  request_ok (len (buf c)) r → 1 ≤ next_packetid c ≤ MAX_PACKET_ID → sized lim c → isconnected c ≠ 0 →
  (2 ≤ fuel)%nat → st w (replies (next_packetid c) r ++ rest) l →
  long pc (command_timeout_ms c) → ticking pc c →
  total (MQTTPublish fuel o (Some (c_string (rq_topic r))) (message_of r)) (c, w)
    (λ a s, a.1 = SUCCESS ∧ ticking pc s.1 ∧
       core s.1 = core (set_next_packetid (id_after (next_packetid c) r) c) ∧
       st s.2 rest (l ++ sends (next_packetid c) r)).
Proof.
  intros Hr Hn Hs Hc Hf Hw HL Hk. unfold MQTTPublish.
  eapply total_env; [by apply sv_lock|]. intros lk w1 A1. cbn beta in A1.
  unfold total. rewrite bind_client, truth_nonzero by done.
  eapply total_bind; [by apply publish_session_total|].
  intros [rc msg] [c2 w2] (E & Hk2 & Hc2 & A2). cbn [fst snd] in *. subst rc.
  unfold api_exit. change (SUCCESS =? FAILURE) with false. cbv iota.
  eapply total_run; [reflexivity|]. eapply total_env; [by apply sv_unlock|].
  intros u w3 A3. by apply total_ret.
Qed.

(** The application: it publishes the messages in turn. *)
Fixpoint publish_all (fuel : nat) (rs : list request) : C (list Z) :=
  match rs with
  | [] => mret []
  | r :: rs =>
      '(rc, _) ← MQTTPublish fuel o (Some (c_string (rq_topic r))) (message_of r);
      rcs ← publish_all fuel rs;
      mret (rc :: rcs)
  end.

Lemma id_after_range n r : 1 ≤ n ≤ MAX_PACKET_ID → 1 ≤ id_after n r ≤ MAX_PACKET_ID.
Proof. intros Hn. unfold id_after. destruct (_ =? 0); [done|]. apply next_id_id. lia. Qed.

Lemma publish_all_total fuel rs c w rest l :
  Forall (request_ok (len (buf c))) rs → 1 ≤ next_packetid c ≤ MAX_PACKET_ID → sized lim c →
  isconnected c ≠ 0 → (2 ≤ fuel)%nat → st w (all_replies (next_packetid c) rs ++ rest) l →
  long pc (command_timeout_ms c) → ticking pc c →
  total (publish_all fuel rs) (c, w)
    (λ a s, a = replicate (length rs) SUCCESS ∧ sized lim s.1 ∧ ticking pc s.1 ∧
       isconnected s.1 = isconnected c ∧ command_timeout_ms s.1 = command_timeout_ms c ∧ st s.2 rest (l ++ all_sends (next_packetid c) rs)).
Proof.
  revert c w l. induction rs as [|r rs IH]; intros c w l Hrs Hn Hs Hc Hf Hw HL Hk.
  - apply total_ret. cbn. by rewrite app_nil_r.
  - cbn [publish_all all_replies all_sends] in *. apply list.Forall_cons in Hrs as [Hr Hrs].
    rewrite <- app_assoc in Hw.
    eapply total_bind; [by apply publish_total|].
    intros [rc msg] [c1 w1] (E & Hk1 & Hc1 & A1). cbn [fst snd] in *. subst rc.
    assert (Hs1 : sized lim c1) by (eapply sized_core; [exact Hc1|]; destruct Hs; by split).
    injection Hc1 as En Et _ _ Eb _ _ _ Ei _. cbn in En, Et, Eb, Ei.
    eapply total_bind.
    { apply (IH c1 w1 (l ++ sends (next_packetid c) r)); rewrite ?Eb, ?En, ?Ei, ?Et; try done.
      by apply id_after_range. }
    intros rcs [c2 w2] (-> & Hs2 & Hk2 & Hc2 & Et2 & A2). apply total_ret. cbn [fst snd] in *.
    split; [done|]. split; [done|]. split; [done|]. split; [congruence|]. split; [congruence|]. by rewrite En, <- app_assoc in A2.
Qed.

(** ** The session *)

(** The waits of a session: for an answer, and between the signs of life. *)
Definition patient (pc : pace) (d : MQTTPacket_connectData) (c : MQTTClient) : Prop :=
  long pc (command_timeout_ms c) ∧
  (Connect.keepAliveInterval d ≠ 0 → long pc (1000 * Connect.keepAliveInterval d)).

(** What a successful MQTTConnect changes. *)
Definition connected (d : MQTTPacket_connectData) (c : MQTTClient) : MQTTClient :=
  set_ping_outstanding 0 (set_isconnected 1
    (set_cleansession (Connect.cleansession d) (set_keepAliveInterval (Connect.keepAliveInterval d) c))).

Lemma connect_session_total fuel d k sp data c w rest l :
  connect_wf k → connect_denotes d k → MQTTVersion d = k_version k →
  packet_size (len (connect_body k)) ≤ len (buf c) → sized lim c → bit sp → (2 ≤ fuel)%nat →
  st w (connack_packet sp 0 ++ rest) l → patient pc d c →
  total (connect_session fuel o (Some d) data) (c, w)
    (λ a s, a.1 = SUCCESS ∧ ticking pc s.1 ∧ core s.1 = core (set_cleansession (Connect.cleansession d)
         (set_keepAliveInterval (Connect.keepAliveInterval d) c)) ∧
       st s.2 rest (l ++ connect_packet k)).
Proof.
  intros Hk Hd Hv Hroom Hs Hsp Hf Hw [HL HK]. unfold connect_session.
  eapply total_env; [by apply sv_init|]. intros t0 w1 A1. cbn beta in A1.
  eapply total_run; [reflexivity|].
  eapply total_env; [by apply sv_countdown_ms|]. intros timer w2 [Ht2 A2]. specialize (Ht2 HL).
  eapply total_run; [reflexivity|]. eapply total_run; [reflexivity|]. eapply total_run; [reflexivity|].
  cbn [fst snd].
  set (c1 := set_cleansession _ _) in *.
  eapply total_env; [by apply sv_countdown|]. intros tr w3 [Htr A3].
  eapply total_run; [reflexivity|]. cbn [fst snd].
  set (c2 := set_last_received tr c1).
  assert (Hs2 : sized lim c2) by (destruct Hs; by split).
  assert (Hk2 : hearing pc c2) by (intros K; split; [by apply HK|by apply Htr, HK]).
  set (x := connect_packet k).
  assert (Hx : x ≠ []) by done. pose proof (len_pos x Hx) as L1.
  pose proof (packet_size_ge (fixed_header CONNECT 0 0 0) (connect_body k) (connect_body_bound k Hk)) as L2.
  eapply total_run.
  { apply (on_buf_written _ x c2 w3).
    rewrite to_int_id by (destruct Hs; unfold in_int, INT_MIN, INT_MAX in *; cbn; lia).
    apply serialize_connect_room; [done..|]. split; [|cbn; destruct Hs; lia]. cbn. destruct Hs; lia. }
  destruct (Z.leb_spec (len x) 0); [lia|].
  eapply total_bind; [apply (send_over st fuel x timer c2 w3 (connack_packet sp 0 ++ rest) l); try done;
    change (len x ≤ len (buf c)); unfold x, connect_packet; lia|].
  intros [rc t2] [c3 w4] (E & Ht4 & Hk4 & Hc3 & _ & A4). cbn [fst snd] in *. subst rc.
  change (negb (SUCCESS =? SUCCESS)) with false. cbv iota.
  eapply total_bind.
  { apply (wait_ack fuel t2 CONNACK [sp; 0] rest c3 w4 (l ++ x)); [by left|lia|done| |exact A4|done|done].
    by eapply sized_core. }
  intros [r t3] [c4 w5] (Hr & Hc4 & Hk5 & [junk Hj] & A5). cbn [fst snd] in *. subst r.
  change (CONNACK =? CONNACK) with true. cbv iota.
  eapply total_run; [reflexivity|]. cbn [fst]. rewrite Hj.
  eapply total_run; [apply run_lift; apply (read_connack sp 0 junk); [done|by split]|].
  apply total_ret. cbn [fst snd]. change (1 =? 1) with true. split; [done|]. split; [done|].
  split; [|by rewrite app_nil_r in A5]. rewrite Hc4, Hc3. done.
Qed.

Lemma connect_total fuel d k sp c w rest l :
  connect_wf k → connect_denotes d k → MQTTVersion d = k_version k →
  packet_size (len (connect_body k)) ≤ len (buf c) → sized lim c → bit sp → (2 ≤ fuel)%nat →
  isconnected c = 0 → st w (connack_packet sp 0 ++ rest) l → patient pc d c →
  total (MQTTConnect fuel o (Some d)) (c, w)
    (λ a s, a = SUCCESS ∧ ticking pc s.1 ∧ core s.1 = core (connected d c) ∧ st s.2 rest (l ++ connect_packet k)).
Proof.
  intros Hk Hd Hv Hroom Hs Hsp Hf Hc Hw HL. unfold MQTTConnect, MQTTConnectWithResults.
  eapply (total_bind _ _ _ _ (λ a s, a.1 = SUCCESS ∧ ticking pc s.1 ∧ core s.1 = core (connected d c) ∧
    st s.2 rest (l ++ connect_packet k))); [|intros [rc data] s Hq; by apply total_ret].
  eapply total_env; [by apply sv_lock|]. intros lk w1 A1. cbn beta in A1.
  eapply total_run; [reflexivity|]. cbn [fst]. rewrite Hc. change (truth 0) with false. cbv iota.
  eapply total_bind; [by eapply connect_session_total|].
  intros [rc data] [c2 w2] (E & Hk2 & Hc2 & A2). cbn [fst snd] in *. subst rc.
  change (SUCCESS =? SUCCESS) with true. cbv iota.
  eapply total_run; [reflexivity|]. cbn [fst snd].
  eapply total_env; [by apply sv_unlock|]. intros u w3 A3. apply total_ret. cbn [fst snd].
  split; [done|]. split; [done|]. split; [|done]. injection Hc2. intros. unfold core, connected. cbn in *. congruence.
Qed.

Lemma disconnect_total fuel c w rest l :
  sized lim c → (2 ≤ fuel)%nat → st w rest l → long pc (command_timeout_ms c) → ticking pc c →
  total (MQTTDisconnect fuel) (c, w)
    (λ a s, a = SUCCESS ∧ isconnected s.1 = 0 ∧ st s.2 rest (l ++ [224; 0])).
Proof.
  intros Hs Hf Hw HL Hk. unfold MQTTDisconnect. pose proof (sz_buf_min lim c Hs).
  eapply total_env; [by apply sv_lock|]. intros lk w1 A1. cbn beta in A1.
  eapply total_timer; [exact A1|done|]. intros timer w2 A2 Ht2.
  eapply total_run; [reflexivity|]. cbn [fst].
  eapply total_run.
  { apply (on_buf_written _ [224; 0] c w2). unfold MQTTSerialize_disconnect.
    rewrite to_int_id by (destruct Hs; unfold in_int, INT_MIN, INT_MAX in *; lia).
    rewrite MQTTSerialize_zero_correct by (destruct Hs; lia).
    rewrite (sz_buf lim c Hs). destruct (Z.ltb_spec (len (buf c)) 2); [lia|done]. }
  eapply total_bind.
  { eapply (total_bind _ _ _ (λ a s, a = SUCCESS ∧ st s.2 rest (l ++ [224; 0])));
      [apply (send_over st fuel [224; 0] timer c w2 rest l); try done; [cbn; lia|by apply ticking_hearing]|].
    intros [rc t] s (E & _ & _ & _ & _ & A3). by apply total_ret. }
  intros rc [c3 w3] (-> & A3). cbn [snd] in A3.
  eapply total_run; [apply run_close|].
  eapply total_env; [by apply sv_unlock|]. intros u w4 A4. apply total_ret. cbn [fst snd].
  split; [done|]. split; [apply closed_disconnected|done].
Qed.

(** An application that connects, publishes and disconnects. *)
Definition session (fuel : nat) (d : MQTTPacket_connectData) (rs : list request)
  : C (Z * list Z * Z) :=
  rc ← MQTTConnect fuel o (Some d);
  rcs ← publish_all fuel rs;
  rc' ← MQTTDisconnect fuel;
  mret (rc, rcs, rc').

(** What the session does and leaves. *)
Lemma session_total fuel d k sp rs c w rest l :
  connect_wf k → connect_denotes d k → MQTTVersion d = k_version k →
  packet_size (len (connect_body k)) ≤ len (buf c) → Forall (request_ok (len (buf c))) rs →
  sized lim c → 1 ≤ next_packetid c ≤ MAX_PACKET_ID → isconnected c = 0 → bit sp → (2 ≤ fuel)%nat →
  st w (connack_packet sp 0 ++ all_replies (next_packetid c) rs ++ rest) l → patient pc d c →
  total (session fuel d rs) (c, w) (λ a s,
    a = (SUCCESS, replicate (length rs) SUCCESS, SUCCESS) ∧ isconnected s.1 = 0 ∧
    st s.2 rest (l ++ connect_packet k ++ all_sends (next_packetid c) rs ++ [224; 0])).
Proof.
  intros Hk Hd Hv Hroom Hrs Hs Hn Hc Hsp Hf Hw HL. unfold session.
  eapply total_bind; [by eapply connect_total|]. intros rc [c1 w1] (-> & Hk1 & Hc1 & A1). cbn [fst snd] in *.
  destruct HL as [HL _].
  assert (Hs1 : sized lim c1) by (eapply sized_core; [exact Hc1|]; destruct Hs; by split).
  injection Hc1 as En Et _ _ Eb _ _ _ Ei _. cbn in En, Et, Eb, Ei.
  eapply total_bind.
  { apply (publish_all_total fuel rs c1 w1 rest (l ++ connect_packet k)); rewrite ?Eb, ?En, ?Ei, ?Et; done. }
  intros rcs [c2 w2] (-> & Hs2 & Hk2 & _ & Et2 & A2). cbn [fst snd] in *.
  eapply total_bind; [apply disconnect_total; [done..|by rewrite Et2, Et|done]|]. intros rc [c3 w3] (-> & Hc3 & A3).
  apply total_ret. cbn [fst snd] in *. split; [done|]. split; [done|].
  by rewrite En, <- !app_assoc in A3.
Qed.

(** C10: a client whose platform serves it connects, publishes every message, of any QoS, and
    disconnects, each call returning SUCCESS; it has then sent the connect packet, every
    message once under its own identifier with a PUBREL for those of QoS 2, and a disconnect
    packet, and read the answers of the broker and nothing more. The command timeout and the
    keep-alive interval outlast the run. *)
Theorem client_session_served fuel d k sp rs c w rest l :
  connect_wf k → connect_denotes d k → MQTTVersion d = k_version k →
  packet_size (len (connect_body k)) ≤ len (buf c) → Forall (request_ok (len (buf c))) rs →
  sized lim c → 1 ≤ next_packetid c ≤ MAX_PACKET_ID → isconnected c = 0 → bit sp → (2 ≤ fuel)%nat →
  st w (connack_packet sp 0 ++ all_replies (next_packetid c) rs ++ rest) l → patient pc d c →
  total (session fuel d rs) (c, w) (λ a s,
    a = (SUCCESS, replicate (length rs) SUCCESS, SUCCESS) ∧ isconnected s.1 = 0 ∧
    st s.2 rest (l ++ connect_packet k ++ all_sends (next_packetid c) rs ++ [224; 0])).
Proof. apply session_total. Qed.

End Live.

(** ** Example *)

(** What the broker will send, and what has been written to it. *)
#[local] Instance serving_sim : Platform (list Z * list Z) :=
  {| Timer := unit; TimerInit := mret tt; TimerCountdownMS := λ _ _, mret tt;
     TimerCountdown := λ _ _, mret tt; TimerIsExpired := λ t, mret (false, t);
     TimerLeftMS := λ t, mret (1000, t);
     mqttread := λ n _ w, Ok ((Z.min n (len w.1), take (Z.to_nat n) w.1), (drop (Z.to_nat n) w.1, w.2));
     mqttwrite := λ p n _ w, bs ← load_bytes (obj p) (off p) n; Ok (n, (w.1, w.2 ++ bs));
     MutexInit := mret tt; MutexLock := mret 0; MutexUnlock := mret 0;
     messageHandler := unit; call_handler := λ _ _, mret tt |}.

#[local] Instance serving_sim_serves : Serving 100 calm (λ w bs l, w = (bs, l)).
Proof.
  split; try (intros; subst; by eexists _, _).
  - intros w x bs l ms -> _. eexists _, _. split; [reflexivity|]. cbn [fst snd].
    rewrite Nat2Z.id, take_app_length, drop_app_length, length_app.
    split; [|done]. f_equal. lia.
  - intros w bs l p n x ms -> _ _ E. eexists _, _. split; [|done].
    cbn. rewrite E. by split.
Qed.

#[local] Existing Instance x86_64.

Definition served_client : MQTTClient :=
  mkClient 65534 1000 40 8 (replicate 40 0) (replicate 8 0) 0 0 0 0
    (replicate 5 (Slot None None)) None tt tt.

Definition three : list request :=
  [Request 0 0 [97] [1; 2]; Request 1 1 [98] [3]; Request 2 0 [99] []].

(** Three messages, over the end of the range of identifiers. *)
Lemma client_session_served_witness :
  ∃ s, session no_locals 2 ex_connectData three
      (served_client, (connack_packet 1 0 ++ [64; 2; 255; 255; 80; 2; 0; 1; 112; 2; 0; 1] ++ [7], [])) =
    Ok ((SUCCESS, [SUCCESS; SUCCESS; SUCCESS], SUCCESS), s) ∧
    s.2 = ([7], connect_packet ex_connect ++
      [48; 5; 0; 1; 97; 1; 2;  51; 6; 0; 1; 98; 255; 255; 3;  52; 5; 0; 1; 99; 0; 1;
       98; 2; 0; 1;  224; 0]).
Proof.
  destruct (client_session_served no_locals (λ w bs l, w = (bs, l)) 2 ex_connectData ex_connect 1 three
    served_client (connack_packet 1 0 ++ [64; 2; 255; 255; 80; 2; 0; 1; 112; 2; 0; 1] ++ [7], [])
    [7] [] ex_connect_wf ex_connect_denotes eq_refl) as (a & s & E & -> & _ & Hs).
  - decide_by_vm.
  - repeat (apply list.Forall_cons; split); [..|by apply list.Forall_nil];
      (split; [cbn; auto|unfold bit; cbn; auto|decide_by_vm..]).
  - split; decide_by_vm.
  - decide_by_vm.
  - done.
  - by right.
  - lia.
  - reflexivity.
  - done.
  - exists s. split; [exact E|exact Hs].
Defined.

End ClientLive.
