(* ===== verification/ClientReceive.v ===== *)
(** * What the client hears

    Over a platform that serves the client, the background task of the client
    hands every message the broker sends, of any QoS, to the handlers its topic
    is for, and answers it as its QoS asks. *)

From S2P Require Import Prelude CSem Wire Packet Connect Publish Subscribe Stream Topics Platform.
From S2P Require Import Sim Client ClientState Handlers ClientIO ClientLive.

Module ClientReceive.
Import Client Handlers ClientIO ClientLive.

(** ** The dialogue *)

(** What the broker sends for a message, and what the client answers. *)
Definition incoming (p : publish) : list Z :=
  publish_packet p ++ (if pb_qos p =? 2 then ack_packet PUBREL 0 (pb_id p) else []).

Definition first_answer (p : publish) : list Z :=
  if pb_qos p =? 1 then ack_packet PUBACK 0 (pb_id p)
  else if pb_qos p =? 2 then ack_packet PUBREC 0 (pb_id p) else [].
Definition answers (p : publish) : list Z :=
  first_answer p ++ (if pb_qos p =? 2 then ack_packet PUBCOMP 0 (pb_id p) else []).

(** The packets of a message. *)
Definition rounds (p : publish) : nat := if pb_qos p =? 2 then 2 else 1.

Section Receive.
Context `{CImpl} {W : Type} `{Platform W} (o : publish_out).

(** A handler, and what it has been called with. *)
Abbreviation event := (messageHandler * MessageData)%type.

(** [st w bs l hs]: the broker will send [bs], [l] has been written, and the handlers in [hs]
    have been called. *)
Class Hearing (lim : Z) (pc : pace) (st : W → list Z → list Z → list event → Prop) : Prop :=
  { hr_serving hs : Serving lim pc (λ w bs l, st w bs l hs);
    hr_call w bs l hs fn md : st w bs l hs →
      total (call_handler fn md) w (λ _ w', st w' bs l (hs ++ [(fn, md)])) }.
#[local] Existing Instance hr_serving.

(** Serving is kept by a choice of what has happened. *)
Lemma serving_exists {A} lim pc (P : A → Prop) (st : A → W → list Z → list Z → Prop) :
  (∀ a, Serving lim pc (st a)) → Serving lim pc (λ w bs l, ∃ a, P a ∧ st a w bs l).
Proof.
  intros HS. split.
  - intros w bs l (a & Ha & Hw). eapply total_weaken; [by apply (sv_init w bs l)|]. by exists a.
  - intros w bs l t n (a & Ha & Hw). eapply total_weaken; [by apply (sv_countdown_ms w bs l)|].
    intros t' w' [? ?]. split; [done|by exists a].
  - intros w bs l t n (a & Ha & Hw). eapply total_weaken; [by apply (sv_countdown w bs l)|].
    intros t' w' [? ?]. split; [done|by exists a].
  - intros w bs l t (a & Ha & Hw) Ht. eapply total_weaken; [by apply (sv_expired w bs l)|].
    intros r w' (? & ? & ?). split; [done|]. split; [done|by exists a].
  - intros w bs l t (a & Ha & Hw) Ht. eapply total_weaken; [by apply (sv_left w bs l)|].
    intros r w' (? & ? & ?). split; [done|]. split; [done|by exists a].
  - intros w x bs l ms (a & Ha & Hw) Hx Hm. eapply total_weaken; [by apply (sv_read w x bs l)|].
    intros r w' (? & ? & ?). split; [done|]. split; [done|by exists a].
  - intros w bs l p n x ms (a & Ha & Hw) Hn Ho Hx Hm.
    eapply total_weaken; [by apply (sv_write w bs l p n x)|].
    intros r w' [? ?]. split; [done|by exists a].
  - intros w bs l (a & Ha & Hw). eapply total_weaken; [by apply (sv_lock w bs l)|]. by exists a.
  - intros w bs l (a & Ha & Hw). eapply total_weaken; [by apply (sv_unlock w bs l)|]. by exists a.
Qed.

Context {lim : Z} {pc : pace} (st : W → list Z → list Z → list event → Prop) `{!Hearing lim pc st}.

(** ** One message *)

(** What the handlers [fns] hear of [md]. *)
Abbreviation to_all md fns := (map (λ fn, (fn, md)) fns).

Lemma call_all_total fns md w bs l hs :
  st w bs l hs → total (call_all fns md) w (λ _ w', st w' bs l (hs ++ to_all md fns)).
Proof.
  revert w hs. induction fns as [|fn fns IH]; intros w hs Hw; cbn [call_all map].
  - apply total_ret. by rewrite app_nil_r.
  - eapply total_bind; [by apply hr_call|]. intros u w' Hw'.
    eapply total_weaken; [apply IH, Hw'|]. intros v w2 Hw2. by rewrite <- app_assoc in Hw2.
Qed.

Context (tbl : list (option (list Z * option messageHandler))).

(** The slots of the client hold [tbl]. *)
Record listening (c : MQTTClient) : Prop :=
  { ls_sized : sized lim c; ls_slots : len (messageHandlers c) = MAX_MESSAGE_HANDLERS;
    ls_holds : Forall2 holds (messageHandlers c) tbl }.

Lemma listening_core c c' : core c' = core c → listening c → listening c'.
Proof.
  intros Hc [Hs Hl Hh]. split; [by eapply sized_core|..];
    injection Hc as _ _ _ _ _ _ _ _ _ _ Eh _; by rewrite Eh.
Qed.

Lemma recipients_core c c' topic : core c' = core c → recipients c' topic tbl = recipients c topic tbl.
Proof. intros [= _ _ _ _ _ _ _ _ _ _ _ Ed]. unfold recipients. by rewrite Ed. Qed.

(** What a message of the broker leads to: it is in what the handlers are given. *)
Definition told (c : MQTTClient) (p : publish) (hs : list event) (w : W) (bs l : list Z) : Prop :=
  ∃ md, carries p (md_topicName md) (md_message md) ∧
    st w bs l (hs ++ to_all md (recipients c (pb_topic p) tbl)).

#[local] Instance told_serving c p hs : Serving lim pc (told c p hs).
Proof.
  apply (serving_exists lim pc (λ md, carries p (md_topicName md) (md_message md))
    (λ md w bs l, st w bs l (hs ++ to_all md (recipients c (pb_topic p) tbl)))). intros md. apply _.
Qed.

Lemma deliver_total p t msg c w bs l hs :
  carries p t msg → listening c → st w bs l hs →
  ∃ r w', deliverMessage t msg (c, w) = Ok (r, (c, w')) ∧ told c p hs w' bs l.
Proof.
  intros Hcar [_ Hl Hh] Hw. rewrite (deliverMessage_calls c w t (pb_topic p) msg tbl Hh Hl);
    [|apply Hcar..].
  destruct (call_all_total (recipients c (pb_topic p) tbl) (NewMessageData t msg) w bs l hs Hw)
    as (u & w' & E & Hw').
  eexists _, w'. split; [by rewrite (bind_env _ _ _ _ _ _ E)|]. by exists (NewMessageData t msg).
Qed.

(** An answer to the message in readbuf. *)
Lemma answer_total fuel (q : W → list Z → list Z → Prop) `{!Serving lim pc q} type id timer c w bs l :
  (2 ≤ fuel)%nat → sized lim c → q w bs l → running pc timer → ticking pc c →
  total (update (acknowledging type id) ;; '(rc, timer) ← sendPacket fuel 4 timer;
         mret (rc =? FAILURE, rc, timer)) (c, w)
    (λ r s, r.1 = (false, SUCCESS) ∧ running pc r.2 ∧ ticking pc s.1 ∧ core s.1 = core c ∧ readbuf s.1 = readbuf c ∧
       q s.2 bs (l ++ ack_packet type 0 id)).
Proof.
  intros Hf Hs Hw Ht Hk. eapply total_run; [reflexivity|]. cbn [fst snd]. unfold acknowledging.
  assert (El : len (ack_packet type 0 id) = 4) by done. rewrite <- El.
  eapply total_bind; [apply (send_over q fuel _ timer c w bs l); try done;
    [rewrite El; destruct Hs; lia|by apply ticking_hearing]|].
  intros [rc t] s (E & Ht' & Hk' & Hc & Hb & Hw'). cbn [fst] in E. subst rc. by apply total_ret.
Qed.

Lemma cycle_message fuel timer p rest c w l hs :
  publish_wf p → pb_qos p ≤ 2 → len (publish_packet p) ≤ len (readbuf c) → listening c →
  (2 ≤ fuel)%nat → st w (publish_packet p ++ rest) l hs → running pc timer → ticking pc c →
  total (cycle fuel o timer) (c, w) (λ r s,
    r.1 = PUBLISH ∧ running pc r.2 ∧ after_round pc (told c p hs) c (publish_packet p) rest l (first_answer p) s.1 s.2).
Proof.
  intros Hp Hq Hfit Hls Hf Hw Htm Hk. pose proof (ls_sized c Hls) as Hs.
  set (h := fixed_header PUBLISH (pb_dup p) (pb_qos p) (pb_retain p)).
  assert (Et : header_type h = PUBLISH) by (unfold h; by rewrite header_type_of).
  eapply total_weaken;
    [apply (cycle_total o (λ w bs l, st w bs l hs) (told c p hs) fuel timer h (publish_body p) rest
       (first_answer p) c w l)|intros r s; rewrite Et; exact (λ x, x)].
  - apply fixed_header_byte.
  - apply Hp.
  - exact Hfit.
  - exact Hs.
  - exact Hw.
  - exact Htm.
  - exact Hk.
  - by rewrite Et.
  - intros t c1 w1 Ec Hs1 Hk1 Ht1 Er A1. rewrite Et.
    change (cycle_switch fuel o PUBLISH t) with (cycle_publish fuel o t).
    destruct (cycle_publish_steps p (drop (length (publish_packet p)) (readbuf c)) fuel o t c1 w1 Hp Er)
      as (tn & msg & Hcar & Hstep); [destruct Hs1; lia|apply Hs1|].
    destruct (deliver_total p tn msg c1 w1 rest l hs Hcar (listening_core c c1 Ec Hls) A1)
      as (r & w2 & Ed & A2).
    destruct (Hstep _ _ Ed) as (w3 & [= <-] & E).
    assert (A3 : told c p hs w2 rest l)
      by (unfold told in *; by rewrite (recipients_core c c1) in A2).
    unfold total. rewrite E. clear E. unfold first_answer. pose proof (wf_qos p Hp).
    assert (pb_qos p = 0 ∨ pb_qos p = 1 ∨ pb_qos p = 2) as [Eq|[Eq|Eq]] by lia; rewrite Eq; cbn [Z.eqb Pos.eqb].
    + apply total_ret. by rewrite app_nil_r.
    + eapply total_weaken; [by apply (answer_total fuel (told c p hs))|].
      intros ? ? (? & ? & ? & ? & ? & ?). split; [done|]. split; [done|]. split; [done|]. split; [congruence|done].
    + eapply total_weaken; [by apply (answer_total fuel (told c p hs))|].
      intros ? ? (? & ? & ? & ? & ? & ?). split; [done|]. split; [done|]. split; [done|]. split; [congruence|done].
Qed.

(** ** The task *)

(** An iteration of MQTTRun is a round under the mutex. *)
Lemma iteration_total fuel timer c w bs l (q : W → list Z → list Z → Prop) `{!Serving lim pc q}
    (q' : W → list Z → list Z → Prop) `{!Serving lim pc q'} rest x :
  long pc 500 → q w bs l →
  (∀ t w', q w' bs l → running pc t →
     total (cycle fuel o t) (c, w') (λ _ s, core s.1 = core c ∧ ticking pc s.1 ∧ q' s.2 rest x)) →
  total (run_iteration fuel o timer) (c, w) (λ _ s, core s.1 = core c ∧ ticking pc s.1 ∧ q' s.2 rest x).
Proof.
  intros HL Hw Hcy. unfold run_iteration.
  eapply total_env; [by apply (sv_countdown_ms (st := q) w bs l)|]. intros t w1 [Ht A1]. specialize (Ht HL).
  eapply total_env; [by apply (sv_lock (st := q) w1 bs l)|]. intros u w2 A2. cbn beta in A2.
  eapply total_bind; [by apply Hcy|]. intros [rc t'] [c3 w3] (Hc & Hk & A3). cbn [fst snd] in *.
  eapply total_env; [by apply (sv_unlock (st := q') w3 rest x)|]. intros u' w4 A4. by apply total_ret.
Qed.

(** What the handlers hear of the messages [ps], given as [mds]. *)
Definition heard (c : MQTTClient) (ps : list publish) (mds : list MessageData) : list event :=
  concat (zip_with (λ p md, to_all md (recipients c (pb_topic p) tbl)) ps mds).

Lemma message_total fuel timer p rest c w l hs n (Q : Timer → MQTTClient * W → Prop) :
  publish_wf p → pb_qos p ≤ 2 → len (publish_packet p) ≤ len (readbuf c) → listening c →
  (2 ≤ fuel)%nat → st w (incoming p ++ rest) l hs → long pc 500 → ticking pc c →
  (∀ t c' w', core c' = core c → ticking pc c' → told c p hs w' rest (l ++ answers p) →
     total (MQTTRun_loop n fuel o t) (c', w') Q) →
  total (MQTTRun_loop (rounds p + n) fuel o timer) (c, w) Q.
Proof.
  intros Hp Hq Hfit Hls Hf Hw HL Hk HQ. unfold incoming in Hw. rewrite <- app_assoc in Hw.
  assert (First : ∀ rest', st w (publish_packet p ++ rest') l hs →
    total (run_iteration fuel o timer) (c, w)
      (λ _ s, core s.1 = core c ∧ ticking pc s.1 ∧ told c p hs s.2 rest' (l ++ first_answer p))).
  { intros rest' Hw'. apply (iteration_total fuel timer c w (publish_packet p ++ rest') l
      (λ w bs l, st w bs l hs) (told c p hs)); [exact HL|exact Hw'|].
    intros t w' A Ht. eapply total_weaken; [by apply (cycle_message fuel t p rest' c w' l hs)|].
    by intros r s (_ & _ & Hc & Hk' & _ & A'). }
  unfold rounds, answers in *. destruct (Z.eqb_spec (pb_qos p) 2) as [E2|N2]; cbn [Nat.add MQTTRun_loop].
  - eapply total_bind; [by apply First|]. intros t1 [c1 w1] (Hc1 & Hk1 & A1). cbn [fst snd] in *.
    eapply total_bind.
    + apply (iteration_total fuel t1 c1 w1 (ack_packet PUBREL 0 (pb_id p) ++ rest) (l ++ first_answer p)
        (told c p hs) (told c p hs) rest ((l ++ first_answer p) ++ ack_packet PUBCOMP 0 (pb_id p)));
        [exact HL|exact A1|].
      intros t w' A Ht. eapply total_weaken;
        [apply (cycle_answer o (told c p hs) fuel t PUBREL (pb_id p) rest c1 w' (l ++ first_answer p));
          [by right|apply Hp|done|eapply sized_core, Hls; exact Hc1|exact A|done|done]|].
      by intros r s (_ & _ & Hc & Hk' & _ & A').
    + intros t2 [c2 w2] (Hc2 & Hk2 & A2). cbn [fst snd] in *. apply HQ; [congruence|done|].
      by rewrite <- app_assoc in A2.
  - eapply total_bind; [apply First; exact Hw|]. intros t1 [c1 w1] (Hc1 & Hk1 & A1). cbn [fst snd] in *.
    apply HQ; [done|done|]. by rewrite app_nil_r.
Qed.

(** C11: when the broker sends messages of any QoS, the background task hands each of them, in
    the order in which they arrive, to every handler whose filter matches its topic, or to the
    default handler, with its topic, payload and flags; and it answers each as its QoS asks, with
    a PUBACK, or with a PUBREC and, once the message is released, a PUBCOMP. The half second
    that MQTTRun gives an iteration, and the keep-alive interval, outlast the run. *)
Theorem client_hears_all fuel ps rest c w l hs :
  Forall (λ p, publish_wf p ∧ pb_qos p ≤ 2 ∧ len (publish_packet p) ≤ len (readbuf c)) ps →
  listening c → (2 ≤ fuel)%nat → st w (concat (map incoming ps) ++ rest) l hs →
  long pc 500 → ticking pc c →
  total (MQTTRun (sum_list_with rounds ps) fuel o) (c, w) (λ _ s,
    core s.1 = core c ∧ ∃ mds, Forall2 (λ p md, carries p (md_topicName md) (md_message md)) ps mds ∧
      st s.2 rest (l ++ concat (map answers ps)) (hs ++ heard c ps mds)).
Proof.
  intros Hps Hls Hf Hw HL Hk. unfold MQTTRun.
  eapply total_env; [by apply (sv_init (st := λ w bs l, st w bs l hs) w)|].
  intros timer w1 A1. cbn beta in A1. clear w Hw.
  assert (L : ∀ ps c1 w1 l hs timer, core c1 = core c → ticking pc c1 →
    Forall (λ p, publish_wf p ∧ pb_qos p ≤ 2 ∧ len (publish_packet p) ≤ len (readbuf c)) ps →
    st w1 (concat (map incoming ps) ++ rest) l hs →
    total (MQTTRun_loop (sum_list_with rounds ps) fuel o timer) (c1, w1) (λ _ s,
      core s.1 = core c ∧ ∃ mds, Forall2 (λ p md, carries p (md_topicName md) (md_message md)) ps mds ∧
        st s.2 rest (l ++ concat (map answers ps)) (hs ++ heard c ps mds))); [|by apply L].
  clear ps Hps w1 A1 l hs timer.
  induction ps as [|p ps IH]; intros c1 w1 l hs timer Hc1 Hk1 Hps A1.
  - apply total_ret. split; [done|]. exists []. cbn. by rewrite !app_nil_r.
  - apply list.Forall_cons in Hps as [(Hp & Hq & Hfit) Hps]. cbn [map concat] in *.
    rewrite <- app_assoc in A1. cbn [sum_list_with].
    assert (Hb : length (readbuf c1) = length (readbuf c)) by (injection Hc1; done).
    eapply (message_total fuel timer p); [done|done|by rewrite Hb|by eapply listening_core|done|exact A1|done|done|].
    intros t c2 w2 Hc2 Hk2 (md & Hcar & A2). eapply total_weaken;
      [apply (IH c2 w2 (l ++ answers p) (hs ++ to_all md (recipients c1 (pb_topic p) tbl)));
        [congruence|done|done|exact A2]|].
    intros _ s (Hc3 & mds & F & A3). split; [done|]. exists (md :: mds). split; [by constructor|].
    unfold heard in *. cbn [zip_with concat]. rewrite (recipients_core c c1 _ Hc1) in A3.
    by rewrite <- !app_assoc in A3.
Qed.

End Receive.

(** ** Example *)

Record ear : Type := Ear { e_in : list Z; e_out : list Z; e_heard : list (nat * MessageData) }.

#[local] Instance hearing_sim : Platform ear :=
  {| Timer := unit; TimerInit := mret tt; TimerCountdownMS := λ _ _, mret tt;
     TimerCountdown := λ _ _, mret tt; TimerIsExpired := λ t, mret (false, t);
     TimerLeftMS := λ t, mret (1000, t);
     mqttread := λ n _ w, Ok ((Z.min n (len (e_in w)), take (Z.to_nat n) (e_in w)),
                              Ear (drop (Z.to_nat n) (e_in w)) (e_out w) (e_heard w));
     mqttwrite := λ p n _ w,
       bs ← load_bytes (obj p) (off p) n; Ok (n, Ear (e_in w) (e_out w ++ bs) (e_heard w));
     MutexInit := mret tt; MutexLock := mret 0; MutexUnlock := mret 0;
     messageHandler := nat;
     call_handler := λ fn md w, Ok (tt, Ear (e_in w) (e_out w) (e_heard w ++ [(fn, md)])) |}.

Definition at_ear (w : ear) (bs l : list Z) (hs : list (messageHandler (W := ear) * MessageData)) : Prop :=
  w = Ear bs l hs.

#[local] Instance hearing_sim_hears : Hearing 8 calm at_ear.
Proof.
  unfold at_ear. split.
  - intros hs. split; try (intros; subst; by eexists _, _).
    + intros w x bs l ms -> _ _. eexists _, _. split; [reflexivity|]. cbn [e_in e_out e_heard].
      rewrite Nat2Z.id, take_app_length, drop_app_length, length_app.
      split; [|done]. f_equal. lia.
    + intros w bs l p n x ms -> _ _ E _. eexists _, _. split; [|done].
      cbn. rewrite E. by split.
  - intros w bs l hs fn md ->. by eexists _, _.
Qed.

#[local] Existing Instance x86_64.

Definition ear_slots : list (MessageHandlers (W := ear)) :=
  [Slot (Some (c_string (bytes_of "a/+"%string))) (Some (1%nat : messageHandler (W := ear)));
   Slot None None; Slot None None; Slot None None; Slot None None].
Definition ear_entries : list (option (list Z * option (messageHandler (W := ear)))) :=
  [Some (bytes_of "a/+"%string, Some (1%nat : messageHandler (W := ear))); None; None; None; None].

Definition ear_client : MQTTClient (W := ear) :=
  mkClient 1 1000 8 16 (replicate 8 0) (replicate 16 0) 60 0 1 0 ear_slots
    (Some (9%nat : messageHandler (W := ear))) tt tt.

Lemma ear_listening : listening (lim := 8) ear_entries ear_client.
Proof.
  split; [split; decide_by_vm|done|].
  constructor; [|repeat constructor]. eexists. split; [done|]. split; [|done].
  apply c_string_cstr; decide_by_vm.
Qed.

(** A message of QoS 1 on a/b, and one of QoS 2 on a topic nobody has asked for. *)
Definition two_messages : list publish :=
  [Publish 0 1 0 7 (bytes_of "a/b"%string) [1; 2]; Publish 0 2 0 8 (bytes_of "c"%string) [3]].

(** The task needs three rounds for them. *)
Lemma client_hears_all_witness :
  ∃ t c' w', MQTTRun 3 2 no_locals (ear_client, Ear (concat (map incoming two_messages) ++ [5]) [] []) =
      Ok (t, (c', w')) ∧
    e_in w' = [5] ∧ e_out w' = [64; 2; 0; 7;  80; 2; 0; 8;  112; 2; 0; 8] ∧ (e_heard w').*1 = [1%nat; 9%nat].
Proof.
  destruct (client_hears_all no_locals at_ear ear_entries 2 two_messages [5]
    ear_client (Ear (concat (map incoming two_messages) ++ [5]) [] []) [] [])
    as (t & [c' w'] & E & _ & mds & F & Hw).
  - repeat (apply list.Forall_cons; split); [..|by apply list.Forall_nil];
      (split; [split; first [unfold bit; cbn; tauto|decide_by_vm|split; decide_by_vm]|split; decide_by_vm]).
  - apply ear_listening.
  - lia.
  - reflexivity.
  - done.
  - done.
  - exists t, c', w'. split; [exact E|]. unfold at_ear in Hw. cbn [snd] in Hw. subst w'. cbn [e_in e_out e_heard].
    split; [done|]. split; [reflexivity|].
    destruct (Forall2_cons_inv_l _ _ _ _ F) as (m1 & l1 & _ & F1 & ->).
    destruct (Forall2_cons_inv_l _ _ _ _ F1) as (m2 & l2 & _ & F2 & ->).
    apply Forall2_nil_inv_l in F2 as ->. vm_compute. reflexivity.
Defined.

End ClientReceive.
