(* ===== verification/FreeRTOS.v ===== *)
(** * MQTTFreeRTOS.c: the platform of the ESP32

    Timers, mutex, thread and the plain TCP network, over the operations of
    FreeRTOS and of lwIP's sockets that the file calls (the class [RTOS]), and
    the instance of Platform.v's interface they make. The TLS variant is in
    FreeRTOSSSL.v. *)

From S2P Require Import Prelude CSem Packet Platform ClientIO.

(** ** What the file calls

    Descriptor sets are lists of descriptors; a timeout is its [tv_sec] and
    [tv_usec]. Receiving stores bytes at the address given and returns them
    here; a semaphore handle is NULL when its creation failed. *)

Definition fd_set : Type := list Z.
Definition FD_ISSET (fd : Z) (s : fd_set) : bool := bool_decide (fd ∈ s).

Class RTOS (W : Type) : Type :=
  { (* portTICK_RATE_MS is the same number *)
    portTICK_PERIOD_MS : Z;
    portMAX_DELAY : Z;
    TimeOut_t : Type;
    TimeOut_zero : TimeOut_t;
    vTaskSetTimeOutState : M W TimeOut_t;
    (* xTaskCheckForTimeOut(&t, &ticks): the result and what it leaves in both *)
    xTaskCheckForTimeOut : TimeOut_t → Z → M W (Z * TimeOut_t * Z);
    SemaphoreHandle_t : Type;
    xSemaphoreCreateMutex : M W SemaphoreHandle_t;
    xSemaphoreTake : SemaphoreHandle_t → Z → M W Z;
    xSemaphoreGive : SemaphoreHandle_t → M W Z;
    taskYIELD : M W unit;
    configMINIMAL_STACK_SIZE : Z;
    TaskFunction_t : Type;
    TaskArgument : Type;
    TaskHandle_t : Type;
    uxTaskPriorityGet_self : M W Z;
    xTaskCreate : TaskFunction_t → String.string → Z → TaskArgument → Z → M W (Z * TaskHandle_t);
    (* select(nfds, &r, &w, &e, &timeout): the result and the sets it leaves *)
    select : Z → fd_set → fd_set → fd_set → Z * Z → M W (Z * fd_set * fd_set * fd_set);
    MSG_DONTWAIT : Z;
    recv : Z → Z → Z → M W (Z * list Z);
    send : Z → ptr → Z → Z → M W Z;
    close : Z → M W unit;
    in_addr : Type;
    gethostbyname : ptr → M W (option in_addr);
    socket_stream : M W Z;
    (* connect(fd, address, port in network byte order) *)
    connect : Z → in_addr → Z → M W Z }.

Definition pdFALSE : Z := 0.
Definition pdTRUE : Z := 1.

(** htons on a little-endian machine. *)
Definition htons (port : Z) : Z := to_ushort port mod 256 * 256 + to_ushort port / 256.

Module FreeRTOS.
Section FreeRTOS.
Context `{CImpl} {W : Type} `{RTOS W}.

(** ** Threads and mutexes *)

Record Thread : Type := mkThread { task : TaskHandle_t }.

Definition ThreadStart (fn : TaskFunction_t) (arg : TaskArgument) : M W (Z * Thread) :=
  let usTaskStackSize := to_ushort (configMINIMAL_STACK_SIZE * 5) in
  uxTaskPriority ← uxTaskPriorityGet_self;
  '(rc, t) ← xTaskCreate fn "MQTTTask"%string usTaskStackSize arg uxTaskPriority;
  mret (rc, mkThread t).

(** MQTTStartTask of MQTTClient.c: a thread that runs MQTTRun on the client. *)
Definition MQTTStartTask (MQTTRun : TaskFunction_t) (client : TaskArgument) : M W (Z * Thread) :=
  ThreadStart MQTTRun client.

Record Mutex : Type := mkMutex { sem : SemaphoreHandle_t }.

Definition MutexInit : M W Mutex := s ← xSemaphoreCreateMutex; mret (mkMutex s).
Definition MutexLock (mutex : Mutex) : M W Z := xSemaphoreTake (sem mutex) portMAX_DELAY.
Definition MutexUnlock (mutex : Mutex) : M W Z :=
  x ← xSemaphoreGive (sem mutex); taskYIELD ;; mret x.

(** ** Timers *)

Record Timer : Type := mkTimer { xTicksToWait : Z; xTimeOut : TimeOut_t }.

(** Both operands of [timeout_ms / portTICK_PERIOD_MS] are unsigned; where a
    tick is shorter than a millisecond the constant is 0. *)
Definition to_ticks (timeout_ms : Z) : outcome Z :=
  if portTICK_PERIOD_MS =? 0 then UB DivisionByZero
  else Ok (timeout_ms / portTICK_PERIOD_MS).

Definition TimerCountdownMS (timeout_ms : Z) : M W Timer :=
  ticks ← lift (to_ticks timeout_ms);
  t ← vTaskSetTimeOutState;
  mret (mkTimer ticks t).

Definition TimerCountdown (timeout : Z) : M W Timer :=
  TimerCountdownMS (to_uint (timeout * 1000)).

Definition TimerLeftMS (timer : Timer) : M W (Z * Timer) :=
  '(_, t, ticks) ← xTaskCheckForTimeOut (xTimeOut timer) (xTicksToWait timer);
  mret (to_int (to_uint (ticks * portTICK_PERIOD_MS)), mkTimer ticks t).

Definition TimerIsExpired (timer : Timer) : M W (bool * Timer) :=
  '(r, t, ticks) ← xTaskCheckForTimeOut (xTimeOut timer) (xTicksToWait timer);
  mret (r =? pdTRUE, mkTimer ticks t).

Definition TimerInit : Timer := mkTimer 0 TimeOut_zero.

(** ** The network

    [tv_usec] is a long. *)

Definition timeval_of (timeout_ms : Z) : Z * Z :=
  (0, let us := to_uint (timeout_ms * 1000) in if lp64 then us else to_int us).

(** The do loop of esp_read: its result and the bytes stored at buffer. *)
Fixpoint esp_read_loop (fuel : nat) (my_socket len recvLen : Z) (t : TimeOut_t) (ticks : Z)
    (dst : list Z) : M W (Z * list Z) :=
  match fuel with
  | O => no_fuel
  | S fuel =>
      '(rc, bs) ← recv my_socket (to_uint (len - recvLen)) MSG_DONTWAIT;
      let dst := take (Z.to_nat recvLen) dst ++ bs in
      if rc <? 0 then mret (rc, dst)
      else
        recvLen ← lift (if 0 <? rc then (recvLen +i rc)%c else Ok recvLen);
        if to_uint recvLen <? len then
          '(r, t, ticks) ← xTaskCheckForTimeOut t ticks;
          if r =? pdFALSE then esp_read_loop fuel my_socket len recvLen t ticks dst
          else mret (recvLen, dst)
        else mret (recvLen, dst)
  end.

Definition esp_read (fuel : nat) (my_socket len timeout_ms : Z) : M W (Z * list Z) :=
  ticks ← lift (to_ticks timeout_ms);
  t ← vTaskSetTimeOutState;
  nfds ← lift (my_socket +i 1)%c;
  '(n, fdset, _, _) ← select nfds [my_socket] [] [] (timeval_of timeout_ms);
  if 0 <? n then
    if FD_ISSET my_socket fdset then esp_read_loop fuel my_socket len 0 t ticks []
    else mret (0, [])
  else mret (0, []).

(** [do readysock = select(...); while (readysock <= 0)], on the same set. *)
Fixpoint esp_write_wait (fuel : nat) (my_socket : Z) (fdset : fd_set) (timeout : Z * Z)
  : M W fd_set :=
  match fuel with
  | O => no_fuel
  | S fuel =>
      nfds ← lift (my_socket +i 1)%c;
      '(readysock, _, fdset, _) ← select nfds [] fdset [] timeout;
      if readysock <=? 0 then esp_write_wait fuel my_socket fdset timeout else mret fdset
  end.

Fixpoint esp_write_loop (fuel : nat) (my_socket : Z) (buffer : ptr) (len sentLen : Z)
    (t : TimeOut_t) (ticks : Z) : M W Z :=
  match fuel with
  | O => no_fuel
  | S fuel =>
      rc ← send my_socket (Ptr (obj buffer) (off buffer + sentLen)) (to_uint (len - sentLen))
             MSG_DONTWAIT;
      if rc <? 0 then mret rc
      else
        sentLen ← lift (if 0 <? rc then (sentLen +i rc)%c else Ok sentLen);
        if to_uint sentLen <? len then
          '(r, t, ticks) ← xTaskCheckForTimeOut t ticks;
          if r =? pdFALSE then esp_write_loop fuel my_socket buffer len sentLen t ticks
          else mret sentLen
        else mret sentLen
  end.

Definition esp_write (fuel : nat) (my_socket : Z) (buffer : ptr) (len timeout_ms : Z) : M W Z :=
  ticks ← lift (to_ticks timeout_ms);
  t ← vTaskSetTimeOutState;
  fdset ← esp_write_wait fuel my_socket [my_socket] (timeval_of timeout_ms);
  if FD_ISSET my_socket fdset then esp_write_loop fuel my_socket buffer len 0 t ticks
  else mret 0.

Definition esp_disconnect (my_socket : Z) : M W unit := close my_socket.

(** The function pointers take the network; these read its socket. *)
Record Network : Type := mkNetwork
  { my_socket : Z;
    n_mqttread : Z → Z → Z → M W (Z * list Z);
    n_mqttwrite : Z → ptr → Z → Z → M W Z;
    n_disconnect : Z → M W unit }.

Definition NetworkInit (fuel : nat) : Network :=
  mkNetwork 0 (esp_read fuel) (esp_write fuel) esp_disconnect.

Definition set_socket (s : Z) (n : Network) : Network :=
  mkNetwork s (n_mqttread n) (n_mqttwrite n) (n_disconnect n).

Definition NetworkConnect (n : Network) (addr : ptr) (port : Z) : M W (Z * Network) :=
  ipAddress ← gethostbyname addr;
  match ipAddress with
  | None => mret (-1, n)
  | Some ip =>
      s ← socket_stream;
      let n := set_socket s n in
      if s <? 0 then mret (-1, n)
      else
        retVal ← connect s ip (htons port);
        (if retVal <? 0 then close s else mret tt) ;;
        mret (retVal, n)
  end.

(** ** The interface of Platform.v *)

(** The client's Network and Mutex, the functions the application installs,
    and the world. *)
Record device : Type := mkDevice { net : Network; mutex : option Mutex; os : W }.

Definition in_os {A} (m : M W A) : M device A := λ d,
  match m (os d) with
  | Ok (a, w) => Ok (a, mkDevice (net d) (mutex d) w) | UB u => UB u | NoFuel => NoFuel end.

(** Locking a mutex that MutexInit did not initialise. *)
Definition with_mutex {A} (m : Mutex → M W A) : M device A := λ d,
  match mutex d with Some x => in_os (m x) d | None => UB Uninitialised end.

Definition freertos (Handler : Type) (call : Handler → MessageData → M W unit)
  : Platform device :=
  {| Platform.Timer := Timer;
     Platform.TimerInit := mret TimerInit;
     Platform.TimerCountdownMS := λ _ ms, in_os (TimerCountdownMS (to_uint ms));
     Platform.TimerCountdown := λ _ s, in_os (TimerCountdown (to_uint s));
     Platform.TimerIsExpired := λ t, in_os (TimerIsExpired t);
     Platform.TimerLeftMS := λ t, in_os (TimerLeftMS t);
     Platform.mqttread := λ n ms d,
       in_os (n_mqttread (net d) (my_socket (net d)) (to_uint n) (to_uint ms)) d;
     Platform.mqttwrite := λ src n ms d,
       in_os (n_mqttwrite (net d) (my_socket (net d)) src (to_uint n) (to_uint ms)) d;
     Platform.MutexInit := λ d,
       '(m, d) ← in_os MutexInit d; Ok (tt, mkDevice (net d) (Some m) (os d));
     Platform.MutexLock := with_mutex MutexLock;
     Platform.MutexUnlock := with_mutex MutexUnlock;
     Platform.messageHandler := Handler;
     Platform.call_handler := λ h md, in_os (call h md) |}.


(** ** Timers keep their deadline

    A clock in ticks that does not run backwards, and what FreeRTOS documents
    of xTaskCheckForTimeOut: before the timeout it leaves the ticks that
    remain, counted from now; after it, zero. *)
Record clock (now : W → Z) (start : TimeOut_t → Z) : Prop :=
  { ck_set w : ∃ t, vTaskSetTimeOutState w = Ok (t, w) ∧ start t = now w;
    ck_check t ticks w : ∃ t', start t' = now w ∧
      xTaskCheckForTimeOut t ticks w =
        Ok (if now w - start t <? ticks then (pdFALSE, t', ticks - (now w - start t))
            else (pdTRUE, t', 0), w) }.

Definition deadline (start : TimeOut_t → Z) (timer : Timer) : Z :=
  start (xTimeOut timer) + xTicksToWait timer.

Lemma run_to_ticks ms (w : W) :
  0 < portTICK_PERIOD_MS → lift (to_ticks ms) w = Ok (ms / portTICK_PERIOD_MS, w).
Proof. intros. unfold to_ticks. by ztest. Qed.

(** A timer set for [ms] milliseconds expires when, and not before, [ms / tick] whole ticks
    have gone by: however often and whenever it is looked at, the deadline stays, TimerIsExpired
    says whether it has passed, and TimerLeftMS the time to it in milliseconds. *)
Theorem timer_keeps_deadline now start :
  clock now start → 0 < portTICK_PERIOD_MS →
  (∀ ms w, ∃ T, TimerCountdownMS ms w = Ok (T, w) ∧
     deadline start T = now w + ms / portTICK_PERIOD_MS) ∧
  (∀ T w, ∃ T', TimerIsExpired T w = Ok ((deadline start T <=? now w, T'), w) ∧
     deadline start T' = Z.max (deadline start T) (now w)) ∧
  (∀ T w, ∃ T', TimerLeftMS T w =
       Ok ((to_int (to_uint (Z.max 0 (deadline start T - now w) * portTICK_PERIOD_MS)), T'), w) ∧
     deadline start T' = Z.max (deadline start T) (now w)).
Proof.
  intros HC HP. split; [|split].
  - intros ms w. destruct (ck_set _ _ HC w) as (t & E & Et). unfold TimerCountdownMS.
    rewrite (run_bind _ _ _ _ _ (run_to_ticks ms w HP)), (run_bind _ _ _ _ _ E).
    eexists. split; [done|]. unfold deadline. cbn. by rewrite Et.
  - intros T w. destruct (ck_check _ _ HC (xTimeOut T) (xTicksToWait T) w) as (t & Et & E).
    unfold TimerIsExpired. rewrite (run_bind _ _ _ _ _ E). unfold deadline.
    destruct (Z.ltb_spec (now w - start (xTimeOut T)) (xTicksToWait T));
      ztest; eexists; (split; [done|]); cbn; lia.
  - intros T w. destruct (ck_check _ _ HC (xTimeOut T) (xTicksToWait T) w) as (t & Et & E).
    unfold TimerLeftMS. rewrite (run_bind _ _ _ _ _ E). unfold deadline.
    destruct (Z.ltb_spec (now w - start (xTimeOut T)) (xTicksToWait T)) as [L|L];
      eexists; (split; [|]).
    + replace (Z.max 0 _) with (xTicksToWait T - (now w - start (xTimeOut T))) by lia. done.
    + cbn. lia.
    + replace (Z.max 0 _) with 0 by lia. done.
    + cbn. lia.
Qed.

(** ** Reading *)

(** *** A run of bounded length

    From tick [t0] on, and over before tick [t1]. *)
Section Run.
Context (now : W → Z) (start : TimeOut_t → Z) (t0 t1 : Z).
Context (HC : clock now start) (HP : 0 < portTICK_PERIOD_MS).

Definition within (w : W) : Prop := t0 ≤ now w < t1.

(** A wait of [ms] milliseconds that starts within the run is not over before the run is, nor
    longer than the counter of a timer. *)
Definition lasts (ms : Z) : Prop :=
  t1 - t0 ≤ ms / portTICK_PERIOD_MS ∧ ms + (t1 - t0) * portTICK_PERIOD_MS < 2 ^ 32.
(** A timer that does not run out within the run. *)
Definition lasting (T : Timer) : Prop :=
  t1 ≤ deadline start T ∧ (deadline start T - t0) * portTICK_PERIOD_MS < 2 ^ 32.
(** A timeout of [ms] milliseconds from now that does not either. *)
Definition outlasts (w : W) (ms : Z) : Prop := t1 ≤ now w + ms / portTICK_PERIOD_MS.

Lemma run_check_early t ticks w :
  now w < start t + ticks → ∃ t' ticks', xTaskCheckForTimeOut t ticks w = Ok ((pdFALSE, t', ticks'), w) ∧
    start t' + ticks' = start t + ticks ∧ ticks' = start t + ticks - now w.
Proof.
  intros L. destruct (ck_check _ _ HC t ticks w) as (t' & Et & E). rewrite E. ztest.
  eexists _, _. split; [done|]. lia.
Qed.

Lemma countdown_lasting ms w :
  within w → ∃ T, TimerCountdownMS ms w = Ok (T, w) ∧ (lasts ms → lasting T).
Proof.
  intros Hw. destruct (ck_set _ _ HC w) as (t & E & Et). unfold TimerCountdownMS.
  rewrite (run_bind _ _ _ _ _ (run_to_ticks ms w HP)), (run_bind _ _ _ _ _ E).
  eexists. split; [done|]. intros [L1 L2]. unfold lasting, deadline, within in *. cbn. rewrite Et.
  pose proof (Z.mul_div_le ms portTICK_PERIOD_MS HP). split; [lia|]. nia.
Qed.

Lemma expired_lasting T w :
  within w → lasting T → ∃ T', TimerIsExpired T w = Ok ((false, T'), w) ∧ lasting T'.
Proof.
  intros Hw HT. unfold TimerIsExpired, lasting, deadline, within in *.
  destruct (run_check_early (xTimeOut T) (xTicksToWait T) w) as (t' & ticks' & E & Ed & _); [lia|].
  rewrite (run_bind _ _ _ _ _ E). eexists. split; [done|]. cbn. by rewrite Ed.
Qed.

Lemma left_lasting T w :
  within w → lasting T → ∃ ms T', TimerLeftMS T w = Ok ((ms, T'), w) ∧ lasting T' ∧ outlasts w (to_uint ms).
Proof.
  intros Hw HT. unfold TimerLeftMS, lasting, deadline, within, outlasts in *.
  destruct (run_check_early (xTimeOut T) (xTicksToWait T) w) as (t' & ticks' & E & Ed & Et); [lia|].
  rewrite (run_bind _ _ _ _ _ E). eexists _, _. split; [done|]. cbn. split; [by rewrite Ed|].
  assert (0 ≤ ticks' * portTICK_PERIOD_MS < 2 ^ 32) by nia.
  replace (to_uint (to_int (to_uint (ticks' * portTICK_PERIOD_MS)))) with (ticks' * portTICK_PERIOD_MS)
    by (unfold to_uint, to_int; lia).
  rewrite Z.div_mul by lia. lia.
Qed.

(** *** Bytes that have arrived

    [S w bs]: [bs] has arrived on the socket [fd]; recv gives at least one of the bytes there
    are. *)
Record arrived (fd : Z) (S : W → list Z → Prop) : Prop :=
  { ar_within w bs : S w bs → within w;
    ar_select w bs tv : S w bs → bs ≠ [] → ∃ w',
      select (fd + 1) [fd] [] [] tv w = Ok ((1, [fd], [], []), w') ∧ now w ≤ now w' ∧ S w' bs;
    ar_recv w bs n : S w bs → 0 < n ≤ len bs → ∃ k w', 0 < k ≤ n ∧
      recv fd n MSG_DONTWAIT w = Ok ((k, take (Z.to_nat k) bs), w') ∧ now w ≤ now w' ∧
      S w' (drop (Z.to_nat k) bs) }.

Lemma esp_read_loop_arrived fd S fuel pre bs rest t ticks w :
  arrived fd S → S w (bs ++ rest) → bs ≠ [] → len (pre ++ bs) ≤ INT_MAX →
  (length bs ≤ fuel)%nat → t1 ≤ start t + ticks →
  ∃ w', esp_read_loop fuel fd (len (pre ++ bs)) (len pre) t ticks pre w =
          Ok ((len (pre ++ bs), pre ++ bs), w') ∧ now w ≤ now w' ∧ S w' rest.
Proof.
  intros HS. revert pre bs t ticks w.
  induction fuel as [|fuel IH]; intros pre bs t ticks w Hw Hbs HI Hf Ht; [destruct bs; [done|cbn in Hf; lia]|].
  pose proof (len_pos bs Hbs) as Hp. rewrite length_app in HI. cbn [esp_read_loop].
  replace (to_uint _) with (len bs) by (rewrite to_uint_id; rewrite length_app; lia).
  destruct (ar_recv _ _ HS w (bs ++ rest) (len bs)) as (k & w1 & Hk & E & Hn & A1);
    [done|rewrite length_app; lia|].
  rewrite (run_bind _ _ _ _ _ E). rewrite take_app_le, drop_app_le in * by lia.
  rewrite Nat2Z.id, take_ge by lia. cbv zeta. ztest. ztest.
  rewrite (run_bind _ _ _ (len pre + k) w1)
    by (apply run_lift, iadd_Ok; unfold INT_MIN; lia).
  assert (Ep : pre ++ bs = (pre ++ take (Z.to_nat k) bs) ++ drop (Z.to_nat k) bs)
    by (by rewrite <- app_assoc, take_drop).
  assert (El : len (pre ++ take (Z.to_nat k) bs) = len pre + k)
    by (rewrite length_app, length_take; lia).
  rewrite to_uint_id, (length_app pre bs) by lia. destruct (Z.ltb_spec (len pre + k) (Z.of_nat (length pre + length bs))).
  - pose proof (ar_within _ _ HS w1 _ A1) as Hin. unfold within in Hin.
    destruct (run_check_early t ticks w1) as (t2 & ticks2 & E2 & Ed & _); [lia|].
    rewrite (run_bind _ _ _ _ _ E2). change (pdFALSE =? pdFALSE) with true. cbv iota.
    destruct (IH (pre ++ take (Z.to_nat k) bs) (drop (Z.to_nat k) bs) t2 ticks2 w1 A1)
      as (w' & E' & Hn' & A').
    + intros E0. apply (f_equal length) in E0. rewrite length_drop in E0. cbn in E0. lia.
    + rewrite <- Ep, length_app. lia.
    + rewrite length_drop. lia.
    + lia.
    + exists w'. split; [|split; [lia|done]]. rewrite <- El, <- (length_app pre bs), Ep. done.
  - exists w1. rewrite drop_ge in A1 by lia. rewrite take_ge by lia. split; [|by split].
    unfold mret, M_ret. do 3 f_equal. lia.
Qed.


Lemma esp_read_arrived fd S fuel bs rest ms w :
  arrived fd S → 0 ≤ fd < INT_MAX → S w (bs ++ rest) → bs ≠ [] →
  len bs ≤ INT_MAX → (length bs ≤ fuel)%nat → outlasts w ms →
  ∃ w', esp_read fuel fd (len bs) ms w = Ok ((len bs, bs), w') ∧ now w ≤ now w' ∧ S w' rest.
Proof.
  intros HS Hfd Hw Hbs HI Hf Hms. unfold esp_read. rewrite (run_bind _ _ _ _ _ (run_to_ticks ms w HP)).
  destruct (ck_set _ _ HC w) as (t & E1 & Et). rewrite (run_bind _ _ _ _ _ E1).
  rewrite (run_bind _ _ _ (fd + 1) w) by (apply run_lift, iadd_Ok; unfold INT_MIN; lia).
  destruct (ar_select _ _ HS w _ (timeval_of ms) Hw) as (w2 & E2 & Hn & A2); [by destruct bs|].
  rewrite (run_bind _ _ _ _ _ E2). ztest.
  assert (FD_ISSET fd [fd] = true) as -> by (apply bool_decide_eq_true; left).
  destruct (esp_read_loop_arrived fd S fuel [] bs rest t (ms / portTICK_PERIOD_MS) w2)
    as (w' & E & Hn' & A'); [done..|unfold outlasts in Hms; lia|]. exists w'. split; [done|]. split; [lia|done].
Qed.

End Run.

(** Bytes that were received before the connection would block are lost: when one recv
    gives [k] of the [n] bytes and the next gives an error, as it does with MSG_DONTWAIT when
    no more bytes have arrived yet, esp_read returns the error, although the [k] bytes have
    left the socket. *)
Theorem esp_read_loses_bytes fuel fd n ms w t w1 fds wfds efds c w2 k bs w3 t2 ticks2 w4 rc w5 :
  0 < k < n → n ≤ INT_MAX → 0 ≤ fd < INT_MAX → 0 < portTICK_PERIOD_MS → 0 < c → rc < 0 →
  vTaskSetTimeOutState w = Ok (t, w1) →
  select (fd + 1) [fd] [] [] (timeval_of ms) w1 = Ok ((c, fds, wfds, efds), w2) → fd ∈ fds →
  recv fd n MSG_DONTWAIT w2 = Ok ((k, bs), w3) →
  xTaskCheckForTimeOut t (ms / portTICK_PERIOD_MS) w3 = Ok ((pdFALSE, t2, ticks2), w4) →
  recv fd (n - k) MSG_DONTWAIT w4 = Ok ((rc, []), w5) →
  esp_read (S (S fuel)) fd n ms w = Ok ((rc, take (Z.to_nat k) bs), w5).
Proof.
  intros Hk Hn Hfd HP Hc Hrc E1 E2 Hin E3 E4 E5. unfold esp_read.
  rewrite (run_bind _ _ _ _ _ (run_to_ticks ms w HP)), (run_bind _ _ _ _ _ E1).
  rewrite (run_bind _ _ _ (fd + 1) w1) by (apply run_lift, iadd_Ok; unfold INT_MIN; lia).
  rewrite (run_bind _ _ _ _ _ E2). ztest.
  assert (FD_ISSET fd fds = true) as -> by (by apply bool_decide_eq_true).
  cbn [esp_read_loop]. rewrite Z.sub_0_r, to_uint_id, (run_bind _ _ _ _ _ E3) by lia.
  cbv zeta. ztest. ztest.
  rewrite (run_bind _ _ _ k w3) by (apply run_lift; rewrite iadd_Ok by (unfold INT_MIN; lia); f_equal; lia).
  rewrite to_uint_id by lia. ztest. rewrite (run_bind _ _ _ _ _ E4).
  change (pdFALSE =? pdFALSE) with true. cbv iota.
  rewrite to_uint_id, (run_bind _ _ _ _ _ E5) by lia. cbv zeta. ztest.
  unfold mret, M_ret. by rewrite app_nil_r.
Qed.

(** ** Writing *)

(** What POSIX and lwIP document of select: a call that times out clears the
    sets, and a call on empty sets can only time out or fail. *)
Definition select_times_out (I : W → Prop) : Prop :=
  ∀ w n tv, I w → ∃ c w', c ≤ 0 ∧ select n [] [] [] tv w = Ok ((c, [], [], []), w') ∧ I w'.

(** When the socket does not accept data within the timeout, esp_write never returns: the
    loop around select waits again on the set the call has cleared. *)
Theorem esp_write_spins I fuel fd src n ms w t w1 c w2 :
  select_times_out I → 0 ≤ fd < INT_MAX → 0 < portTICK_PERIOD_MS →
  vTaskSetTimeOutState w = Ok (t, w1) →
  select (fd + 1) [] [fd] [] (timeval_of ms) w1 = Ok ((c, [], [], []), w2) → c ≤ 0 → I w2 →
  esp_write fuel fd src n ms w = NoFuel.
Proof.
  intros HI Hfd HP E1 E2 Hc Hw. unfold esp_write.
  assert (Spin : ∀ f w, I w → esp_write_wait f fd [] (timeval_of ms) w = NoFuel).
  { induction f as [|f IH]; intros w0 A; [done|]. cbn [esp_write_wait].
    rewrite (run_bind _ _ _ (fd + 1) w0) by (apply run_lift, iadd_Ok; unfold INT_MIN; lia).
    destruct (HI w0 (fd + 1) (timeval_of ms) A) as (c' & w' & Hc' & E & A').
    rewrite (run_bind _ _ _ _ _ E). ztest. by apply IH. }
  rewrite (run_bind _ _ _ _ _ (run_to_ticks ms w HP)), (run_bind _ _ _ _ _ E1).
  destruct fuel as [|f]; [done|].
  assert (E : esp_write_wait (S f) fd [fd] (timeval_of ms) w1 = NoFuel); [|].
  { cbn [esp_write_wait].
    rewrite (run_bind _ _ _ (fd + 1) w1) by (apply run_lift, iadd_Ok; unfold INT_MIN; lia).
    rewrite (run_bind _ _ _ _ _ E2). ztest. by apply Spin. }
  unfold mbind, M_bind at 1. by rewrite E.
Qed.

Section RunSend.
Context (now : W → Z) (start : TimeOut_t → Z) (t0 t1 : Z).
Context (HC : clock now start) (HP : 0 < portTICK_PERIOD_MS).

(** What the stack does with a socket that is ready: select says so, and send
    takes between one and all the bytes. [S w l] tracks the log [l] of bytes
    sent. *)
Record sending (fd : Z) (S : W → list Z → Prop) : Prop :=
  { se_within w l : S w l → within now t0 t1 w;
    se_select w l tv : S w l → ∃ w',
      select (fd + 1) [] [fd] [] tv w = Ok ((1, [], [fd], []), w') ∧ now w ≤ now w' ∧ S w' l;
    se_send w l p n bs : S w l → 0 < n → mem_read (Some p) n = Ok bs → ∃ k w', 0 < k ≤ n ∧
      send fd p n MSG_DONTWAIT w = Ok (k, w') ∧ S w' (l ++ take (Z.to_nat k) bs) }.

Lemma esp_write_loop_sends fd S fuel buf i bs sent t ticks w l :
  sending fd S → S w l → 0 ≤ i → load_bytes buf i (len bs) = Ok bs → 0 ≤ sent < len bs →
  len bs ≤ INT_MAX → len bs - sent ≤ Z.of_nat fuel → t1 ≤ start t + ticks →
  ∃ w', esp_write_loop fuel fd (Ptr buf i) (len bs) sent t ticks w = Ok (len bs, w') ∧
    S w' (l ++ drop (Z.to_nat sent) bs).
Proof.
  intros HS Hw Hi Hb Hs HI. revert sent t ticks w l Hs Hw.
  induction fuel as [|fuel IH]; intros sent t ticks w l Hs Hw Hf Ht; [lia|].
  cbn [esp_write_loop obj off]. rewrite to_uint_id by lia.
  destruct (load_bytes_inv _ _ _ _ Hb) as (_ & _ & Hlen & tl & Ed); [lia|].
  assert (Er : mem_read (Some (Ptr buf (i + sent))) (len bs - sent) = Ok (drop (Z.to_nat sent) bs)).
  { eapply (mem_read_rest _ _ _ _ tl); [lia| |rewrite length_drop; lia].
    rewrite <- drop_drop_Z by lia. by rewrite Ed, drop_app_le by lia. }
  destruct (se_send _ _ HS w l (Ptr buf (i + sent)) (len bs - sent) _ Hw ltac:(lia) Er) as (k & w1 & Hk & E & A1).
  rewrite (run_bind _ _ _ _ _ E). ztest. ztest.
  rewrite (run_bind _ _ _ (sent + k) w1) by (apply run_lift, iadd_Ok; unfold INT_MIN; lia).
  rewrite to_uint_id by lia. destruct (Z.ltb_spec (sent + k) (len bs)).
  - pose proof (se_within _ _ HS w1 _ A1) as Hin. unfold within in Hin.
    destruct (run_check_early now start HC t ticks w1) as (t2 & ticks2 & E2 & Edl & _); [lia|].
    rewrite (run_bind _ _ _ _ _ E2). change (pdFALSE =? pdFALSE) with true. cbv iota.
    destruct (IH (sent + k) t2 ticks2 w1 _ ltac:(lia) A1 ltac:(lia) ltac:(lia)) as (w' & E' & A').
    exists w'. split; [done|]. rewrite <- app_assoc in A'.
    rewrite <- drop_drop_Z in A' by lia. by rewrite take_drop in A'.
  - exists w1. rewrite take_ge in A1 by (rewrite length_drop; lia). split; [|done].
    unfold mret, M_ret. do 2 f_equal. lia.
Qed.

(** On a ready socket esp_write sends all the bytes it is given, in order and once, however
    few of them each send takes. *)
Theorem esp_write_sends_all fd S fuel buf i n bs ms w l :
  sending fd S → S w l → 0 ≤ fd < INT_MAX → 0 ≤ i → 0 < n ≤ INT_MAX →
  load_bytes buf i n = Ok bs → n ≤ Z.of_nat fuel → outlasts now t1 w ms →
  ∃ w', esp_write fuel fd (Ptr buf i) n ms w = Ok (n, w') ∧ S w' (l ++ bs).
Proof.
  intros HS Hw Hfd Hi Hn Hb Hf Hms.
  destruct (load_bytes_inv _ _ _ _ Hb) as (_ & Hl & _); [lia|]. subst n. unfold esp_write.
  rewrite (run_bind _ _ _ _ _ (run_to_ticks ms w HP)).
  destruct (ck_set _ _ HC w) as (t & E1 & Et). rewrite (run_bind _ _ _ _ _ E1).
  destruct (se_select _ _ HS w _ (timeval_of ms) Hw) as (w2 & E2 & Hle & A2).
  rewrite (run_bind _ _ _ [fd] w2).
  - assert (FD_ISSET fd [fd] = true) as -> by (apply bool_decide_eq_true; left).
    destruct (esp_write_loop_sends fd S fuel buf i bs 0 t (ms / portTICK_PERIOD_MS) w2 l)
      as (w' & E & A'); [done..|lia|lia|lia|unfold outlasts in Hms; lia|]. by exists w'.
  - destruct fuel as [|fuel]; [lia|]. cbn [esp_write_wait].
    rewrite (run_bind _ _ _ (fd + 1) w) by (apply run_lift, iadd_Ok; unfold INT_MIN; lia).
    rewrite (run_bind _ _ _ _ _ E2). by ztest.
Qed.

End RunSend.

(** ** What a read may store *)

(** recv stores at most the bytes asked for, and returns how many. *)
Definition recv_honest : Prop :=
  ∀ fd n w rc bs w', 0 ≤ n → recv fd n MSG_DONTWAIT w = Ok ((rc, bs), w') →
    rc ≤ n ∧ len bs = Z.max 0 rc.

Lemma esp_read_loop_bounded fuel fd n recvLen t ticks dst w rc dst' w' :
  recv_honest → 0 ≤ n ≤ INT_MAX → 0 ≤ recvLen ≤ n → len dst = recvLen →
  esp_read_loop fuel fd n recvLen t ticks dst w = Ok ((rc, dst'), w') →
  rc ≤ n ∧ len dst' ≤ n ∧ (0 ≤ rc → len dst' = rc).
Proof.
  intros HR Hn. revert recvLen t ticks dst w.
  induction fuel as [|fuel IH]; intros recvLen t ticks dst w Hr Hl E; [done|].
  cbn [esp_read_loop] in E. apply run_bind_inv in E as ([k bs] & w1 & E1 & E).
  apply HR in E1 as [Hk Hbs]; [|unfold to_uint; lia]. rewrite to_uint_id in Hk by lia.
  rewrite take_ge in E by lia. cbv zeta in E.
  destruct (Z.ltb_spec k 0) as [|K0]; [injection E as <- <- <-; rewrite length_app; lia|].
  apply run_bind_inv in E as (r2 & w2 & E2 & E). apply run_lift_inv in E2 as [E2 ->].
  assert (r2 = recvLen + k) as ->.
  { destruct (Z.ltb_spec 0 k); [by apply iadd_inv in E2 as [-> _]|injection E2; lia]. }
  assert (Hl2 : len (dst ++ bs) = recvLen + k) by (rewrite length_app; lia).
  destruct (to_uint (recvLen + k) <? n).
  - apply run_bind_inv in E as ([[r t2] ticks2] & w3 & _ & E). destruct (r =? pdFALSE).
    + apply IH in E; [done|lia|done].
    + injection E as <- <- <-. lia.
  - injection E as <- <- <-. lia.
Qed.

(** Esp_read stores at most the bytes asked for, and a result that is not an error is the
    number of bytes stored: the buffer the client passes is never overrun. *)
Theorem esp_read_bounded fuel fd n ms w rc dst w' :
  recv_honest → 0 ≤ n ≤ INT_MAX → esp_read fuel fd n ms w = Ok ((rc, dst), w') →
  rc ≤ n ∧ len dst ≤ n ∧ (0 ≤ rc → len dst = rc).
Proof.
  intros HR Hn E. unfold esp_read in E. apply run_bind_inv in E as (ticks & w1 & _ & E).
  apply run_bind_inv in E as (t & w2 & _ & E). apply run_bind_inv in E as (nfds & w3 & _ & E).
  apply run_bind_inv in E as ([[[c fds] wfds] efds] & w4 & _ & E).
  destruct (0 <? c), (FD_ISSET fd fds);
    [|injection E as <- <- <-; cbn; lia..].
  by eapply (esp_read_loop_bounded _ _ _ 0 _ _ []) in E; [..|lia|].
Qed.

(** ** The client's network *)

Context (Handler : Type) (call : Handler → MessageData → M W unit).

(** The network after NetworkInit and a connect that gave the socket [fd]. *)
Definition on_socket (fuel : nat) (fd : Z) (d : device) : Prop :=
  ∃ n, net d = set_socket fd n ∧ n = NetworkInit fuel.

End FreeRTOS.

(** ** A system to evaluate the file on

    One socket with the bytes that have arrived, the bytes sent, how many bytes
    a call moves at most, whether the socket accepts data, and a tick counter that
    moves with every recv. *)

Record system : Type := System
  { y_ticks : Z; y_in : list Z; y_out : list Z; y_chunk : Z; y_writable : bool }.

Definition select_sys (n : Z) (r w e : fd_set) (tv : Z * Z) : M system (Z * fd_set * fd_set * fd_set) :=
  λ y,
    let r := if bool_decide (y_in y = []) then [] else r in
    let w := if y_writable y then w else [] in
    Ok ((len r + len w, r, w, []), y).

Definition recv_sys (fd n flags : Z) : M system (Z * list Z) := λ y,
  let k := Z.max 0 (Z.min n (y_chunk y)) in
  let bs := take (Z.to_nat k) (y_in y) in
  Ok ((if bool_decide (y_in y = []) then -1 else len bs, bs),
      System (y_ticks y + 1) (drop (Z.to_nat k) (y_in y)) (y_out y) (y_chunk y) (y_writable y)).

Definition send_sys (fd : Z) (p : ptr) (n flags : Z) : M system Z := λ y,
  let k := Z.min n (y_chunk y) in
  match load_bytes (obj p) (off p) k with
  | Ok bs => Ok (k, System (y_ticks y) (y_in y) (y_out y ++ bs) (y_chunk y) (y_writable y))
  | UB u => UB u | NoFuel => NoFuel
  end.

Definition rtos_sim : RTOS system :=
  {| portTICK_PERIOD_MS := 10; portMAX_DELAY := 4294967295;
     TimeOut_t := Z; TimeOut_zero := 0;
     vTaskSetTimeOutState := gets y_ticks;
     xTaskCheckForTimeOut := λ t ticks y,
       Ok (if y_ticks y - t <? ticks then (pdFALSE, y_ticks y, ticks - (y_ticks y - t))
           else (pdTRUE, y_ticks y, 0), y);
     SemaphoreHandle_t := unit; xSemaphoreCreateMutex := mret tt;
     xSemaphoreTake := λ _ _, mret pdTRUE; xSemaphoreGive := λ _, mret pdTRUE;
     taskYIELD := mret tt; configMINIMAL_STACK_SIZE := 768;
     TaskFunction_t := unit; TaskArgument := unit; TaskHandle_t := unit;
     uxTaskPriorityGet_self := mret 5; xTaskCreate := λ _ _ _ _ _, mret (pdTRUE, tt);
     select := select_sys; MSG_DONTWAIT := 8; recv := recv_sys; send := send_sys;
     close := λ _, mret tt; in_addr := Z; gethostbyname := λ _, mret (Some 16777343);
     socket_stream := gets (λ y, if y_writable y then 54 else -1); connect := λ _ _ _, mret 0 |}.

#[local] Existing Instance esp32.
#[local] Existing Instance rtos_sim.

(** The time at which a wait began. *)
Definition tick (n : Z) : TimeOut_t := n.
Definition started (t : TimeOut_t (RTOS := rtos_sim)) : Z := t.

Lemma sim_clock : clock y_ticks started.
Proof. split; [intros w; by exists (y_ticks w)|intros t ticks w; by exists (y_ticks w)]. Qed.

(** 25 ms from tick 100 are two ticks. *)
Lemma timer_keeps_deadline_witness :
  ∃ T, TimerCountdownMS 25 (System 100 [] [] 1 true) =
         Ok (T, System 100 [] [] 1 true) ∧ deadline started T = 102.
Proof.
  apply (proj1 (timer_keeps_deadline _ _ sim_clock eq_refl) 25
    (System 100 [] [] 1 true)).
Defined.

Lemma esp_read_loses_bytes_witness :
  esp_read 2 54 4 100 (System 0 [1; 2; 3] [] 9 true) = Ok ((-1, [1; 2; 3]), System 2 [] [] 9 true).
Proof.
  apply (esp_read_loses_bytes 0 54 4 100 (System 0 [1; 2; 3] [] 9 true)
    (tick 0) (System 0 [1; 2; 3] [] 9 true) [54] [] [] 1
    (System 0 [1; 2; 3] [] 9 true) 3 [1; 2; 3] (System 1 [] [] 9 true)
    (tick 1) 9 (System 1 [] [] 9 true) (-1) (System 2 [] [] 9 true));
    try reflexivity; try (unfold INT_MAX; cbn; lia). apply list_elem_of_here.
Defined.

Lemma esp_write_spins_witness :
  esp_write 1000 54 (Ptr [1] 0) 1 100 (System 0 [] [] 9 false) = NoFuel.
Proof.
  apply (esp_write_spins (λ y, y_in y = [] ∧ y_writable y = false) 1000 54
    (Ptr [1] 0) 1 100 (System 0 [] [] 9 false) (tick 0)
    (System 0 [] [] 9 false) 0 (System 0 [] [] 9 false)); try done.
  intros w n tv [Hi Hw]. exists 0, w. split; [done|]. split; [|done].
  cbn. unfold select_sys. by rewrite Hi, Hw.
Defined.

Lemma sim_sending : sending y_ticks 0 10 54
  (λ y l, y_out y = l ∧ 0 < y_chunk y ∧ y_writable y = true ∧ y_in y = [] ∧ y_ticks y = 0).
Proof.
  split.
  - intros w l Hw. unfold within. lia.
  - intros w l tv Hw. exists w. split; [|done]. destruct Hw as (_ & _ & Hw & Hi & _).
    cbn. unfold select_sys. by rewrite Hi, Hw.
  - intros w l p n bs (Hl & Hc & Hw & Hi & Ht) Hn E.
    pose proof (mem_read_prefix _ _ (Z.min n (y_chunk w)) _ E ltac:(lia)) as E'.
    exists (Z.min n (y_chunk w)). eexists. split; [lia|]. cbn. unfold send_sys.
    unfold mem_read in E'. destruct (Z.eqb_spec (Z.min n (y_chunk w)) 0); [lia|]. rewrite E'.
    split; [done|]. cbn. by rewrite Hl.
Qed.

(** Two bytes at a time, in less than 100 ms, which are ten ticks. *)
Lemma esp_write_sends_all_witness :
  ∃ w', esp_write 5 54 (Ptr [9; 1; 2; 3; 4; 5] 1) 5 100 (System 0 [] [7] 2 true) = Ok (5, w') ∧
    y_out w' = [7; 1; 2; 3; 4; 5] ∧ 0 < y_chunk w' ∧ y_writable w' = true ∧ y_in w' = [] ∧ y_ticks w' = 0.
Proof.
  apply (esp_write_sends_all y_ticks started 0 10 sim_clock eq_refl 54 _ 5 [9; 1; 2; 3; 4; 5] 1 5
    [1; 2; 3; 4; 5] 100 (System 0 [] [7] 2 true) [7] sim_sending); try done; unfold INT_MAX, outlasts; cbn; lia.
Defined.

Lemma sim_recv_honest : recv_honest.
Proof.
  intros fd n w rc bs w' Hn [= <- <- <-]. case_bool_decide as E.
  - rewrite E, take_nil. cbn. lia.
  - rewrite length_take. lia.
Qed.

Lemma esp_read_bounded_witness :
  esp_read 4 54 3 100 (System 0 [1; 2; 3; 4] [] 2 true) =
    Ok ((3, [1; 2; 3]), System 2 [4] [] 2 true) ∧ 3 ≤ 3 ∧ len [1; 2; 3] ≤ 3.
Proof.
  assert (E : esp_read 4 54 3 100 (System 0 [1; 2; 3; 4] [] 2 true) =
    Ok ((3, [1; 2; 3]), System 2 [4] [] 2 true)) by (vm_compute; reflexivity).
  destruct (esp_read_bounded 4 54 3 100 _ _ _ _ sim_recv_honest
    ltac:(decide_by_vm) E) as (A & B & _). by split.
Defined.

End FreeRTOS.
