(* ===== verification/FreeRTOSClient.v ===== *)
(** * The client on the ESP32

    The platform of MQTTFreeRTOS.c keeps what the theorems about whole sessions of the
    client are proved from (ClientLive.v, ClientReceive.v): over it, and over FreeRTOS and
    lwIP as they are documented, the client of MQTTClient.c holds its dialogue. *)

From S2P Require Import Prelude CSem Wire Packet Connect Publish Platform Client ClientIO.
From S2P Require Import ClientLive ClientReceive FreeRTOS.

Module FreeRTOSClient.
Import Client ClientIO ClientLive ClientReceive FreeRTOS.

Section Device.
Context `{CImpl} {W : Type} `{RTOS W}.
Context (Handler : Type) (call : Handler → MessageData → M W unit).
#[local] Instance esp_platform : Platform (device (W := W)) := freertos Handler call.

(** ** The operating system

    A clock in ticks, as FreeRTOS documents it ([clock] of FreeRTOS.v), and a run from tick [t0]
    to before tick [t1]. *)
Context (now : W → Z) (start : TimeOut_t → Z) (t0 t1 : Z).

(** [S w bs l hs]: within the run, [bs] will arrive on the socket [fd], [l] has been sent on it,
    and the handlers in [hs] have been called. The socket accepts data, and the mutex can be
    taken. *)
Record esp_serves (fd : Z) (S : W → list Z → list Z → list (Handler * MessageData) → Prop) : Prop :=
  { es_arrived l hs : arrived now t0 t1 fd (λ w bs, S w bs l hs);
    es_sending bs hs : sending now t0 t1 fd (λ w l, S w bs l hs);
    es_take x w bs l hs : S w bs l hs → total (xSemaphoreTake x portMAX_DELAY) w (λ _ w', S w' bs l hs);
    es_give x w bs l hs : S w bs l hs → total (xSemaphoreGive x) w (λ _ w', S w' bs l hs);
    es_yield w bs l hs : S w bs l hs → total taskYIELD w (λ _ w', S w' bs l hs);
    es_call fn md w bs l hs : S w bs l hs → total (call fn md) w (λ _ w', S w' bs l (hs ++ [(fn, md)])) }.

(** The waits, timers and timeouts that outlast the run. *)
Definition esp_pace : pace (W := device) :=
  {| long := λ ms, lasts t0 t1 (to_uint ms);
     running := lasting start t0 t1 : Platform.Timer → Prop;
     enough := λ d ms, outlasts now t1 (os d) (to_uint ms) |}.

Context (fuel : nat) (lim fd : Z) (S : W → list Z → list Z → list (Handler * MessageData) → Prop).

(** The device is connected, and its mutex made. *)
Definition on_device (d : device) (bs l : list Z) (hs : list (Handler * MessageData)) : Prop :=
  on_socket fuel fd d ∧ is_Some (mutex d) ∧ S (os d) bs l hs ∧ len bs ≤ lim.

Lemma total_in_os {A} (m : M W A) d (Q : A → W → Prop) :
  total m (os d) Q → total (in_os m) d (λ a d', Q a (os d') ∧ net d' = net d ∧ mutex d' = mutex d).
Proof.
  intros (a & w' & E & HQ). exists a, (mkDevice (net d) (mutex d) w'). unfold in_os. by rewrite E.
Qed.

(** What only the operating system notices. *)
Lemma device_os {A} (m : M W A) (R : A → Prop) d bs l hs :
  on_device d bs l hs →
  (S (os d) bs l hs → total m (os d) (λ a w', R a ∧ S w' bs l hs)) →
  total (in_os m) d (λ a d', R a ∧ on_device d' bs l hs).
Proof.
  intros (Hn & Hm & Hw & Hb) HT. eapply total_weaken; [by apply total_in_os, HT|].
  intros a d' ([HR Hw'] & En & Em). split; [done|].
  unfold on_device, on_socket in *. by rewrite En, Em.
Qed.

Context (HC : clock now start) (HS : esp_serves fd S) (Hfd : 0 ≤ fd < INT_MAX) (HP : 0 < portTICK_PERIOD_MS).
Context (Hlim : lim ≤ INT_MAX) (Hfuel : lim ≤ Z.of_nat fuel).

Lemma in_run w bs l hs : S w bs l hs → within now t0 t1 w.
Proof. apply (ar_within _ _ _ _ _ (es_arrived _ _ HS l hs)). Qed.

Lemma countdown_device ms d bs l hs :
  on_device d bs l hs → total (in_os (TimerCountdownMS ms)) d
    (λ t d', (lasts t0 t1 ms → lasting start t0 t1 t) ∧ on_device d' bs l hs).
Proof.
  intros Hd. apply (device_os _ _ d bs l hs Hd). intros Hw.
  destruct (countdown_lasting now start t0 t1 HC HP ms (os d) (in_run _ _ _ _ Hw)) as (T & E & HT).
  by exists T, (os d).
Qed.

(** Taking and giving the mutex. *)
Lemma mutex_total (m : Mutex → M W Z) d bs l hs :
  (∀ x w, S w bs l hs → total (m x) w (λ _ w', S w' bs l hs)) →
  on_device d bs l hs → total (with_mutex m) d (λ _ d', on_device d' bs l hs).
Proof.
  intros HT Hd. pose proof Hd as (_ & [x Ex] & _). unfold total, with_mutex. rewrite Ex.
  eapply total_weaken; [apply (device_os _ (λ _, True) d bs l hs Hd)|by intros ? ? [_ ?]].
  intros Hw. eapply total_weaken; [by apply HT|done].
Qed.

Lemma read_device d x bs l hs ms : on_device d (x ++ bs) l hs → x ≠ [] → enough esp_pace d ms →
  total (Platform.mqttread (len x) ms) d
    (λ r d', r = (len x, x) ∧ enough esp_pace d' ms ∧ on_device d' bs l hs).
Proof.
  intros ((n & En & ->) & Hm & Hw & Hb) Hx Hms. rewrite length_app in Hb.
  destruct (esp_read_arrived now start t0 t1 HC HP fd _ fuel x bs (to_uint ms) (os d) (es_arrived _ _ HS l hs))
    as (w' & E & Hle & A'); [done..|lia|lia|done|].
  exists (len x, x), (mkDevice (net d) (mutex d) w'). split.
  - cbn. unfold in_os. rewrite En. cbn. rewrite to_uint_id by lia. by rewrite E.
  - split; [done|]. split; [unfold enough, esp_pace, outlasts in *; cbn; lia|].
    split; [by eexists|]. split; [done|]. split; [done|]. lia.
Qed.

Lemma write_device d bs l hs p n x ms : on_device d bs l hs → 0 < n ≤ lim → 0 ≤ off p →
  load_bytes (obj p) (off p) n = Ok x → enough esp_pace d ms →
  total (Platform.mqttwrite p n ms) d (λ r d', r = n ∧ on_device d' bs (l ++ x) hs).
Proof.
  intros ((m & En & ->) & Hm & Hw & Hb) Hn Ho Hx Hms. destruct p as [buf i].
  destruct (esp_write_sends_all now start t0 t1 HC HP fd _ fuel buf i n x (to_uint ms) (os d) l (es_sending _ _ HS bs hs))
    as (w' & E & A'); [done..|lia|done|lia|done|].
  exists n, (mkDevice (net d) (mutex d) w'). split.
  - cbn. unfold in_os. rewrite En. cbn. rewrite to_uint_id by lia. by rewrite E.
  - split; [done|]. by split; [eexists|].
Qed.

Lemma to_uint_seconds n : to_uint (to_uint n * 1000) = to_uint (1000 * n).
Proof. unfold to_uint. lia. Qed.

(** C17: the platform that MQTTFreeRTOS.c makes serves the client, and hears it: over a clock
    as FreeRTOS documents it, timers, mutex, network and handlers keep everything that the
    theorems about sessions of the client, and about the messages it receives, are proved from,
    for runs that end before the waits of the client do. *)
Theorem freertos_serves : Hearing lim esp_pace on_device.
Proof.
  split.
  - intros hs. split.
    + intros d bs l Hd. by apply total_ret.
    + intros d bs l t n Hd. by apply countdown_device.
    + intros d bs l t n Hd. cbn. unfold TimerCountdown. rewrite to_uint_seconds. by apply countdown_device.
    + intros d bs l t Hd Ht. eapply total_weaken;
        [apply (device_os _ (λ r, r.1 = false ∧ running esp_pace r.2) d bs l hs Hd)|by intros ? ? [[? ?] ?]].
      intros Hw. destruct (expired_lasting now start t0 t1 HC t (os d) (in_run _ _ _ _ Hw) Ht) as (T & E & HT).
      by exists (false, T), (os d).
    + intros d bs l t (Hn & Hm & Hw & Hb) Ht.
      destruct (left_lasting now start t0 t1 HC HP t (os d) (in_run _ _ _ _ Hw) Ht) as (ms & T & E & HT & Ho).
      exists (ms, T), (mkDevice (net d) (mutex d) (os d)). split; [cbn; unfold in_os; by rewrite E|].
      split; [exact Ho|]. split; [exact HT|by split].
    + intros d x bs l ms. apply read_device.
    + intros d bs l p n x ms. apply write_device.
    + intros d bs l Hd. apply mutex_total; [|done]. intros x w Hw. by apply (es_take fd S HS).
    + intros d bs l Hd. apply mutex_total; [|done]. intros x w Hw. unfold MutexUnlock.
      eapply total_bind; [by apply (es_give _ _ HS)|]. intros r w1 A1. cbn beta in A1.
      eapply total_bind; [exact (es_yield _ _ HS _ _ _ _ A1)|]. intros u w2 A2. by apply total_ret.
  - intros d bs l hs fn md (Hn & Hm & Hw & Hb).
    eapply total_weaken; [apply total_in_os, (es_call _ _ HS); exact Hw|].
    intros [] d' (Hw' & En & Em). unfold on_device, on_socket in *. by rewrite En, Em.
Qed.

End Device.

(** ** A session on the simulated system

    Four bytes at a time, three messages of QoS 0, 1 and 2. A tick is 10 ms; every recv takes
    one, and the session has 50. *)

#[local] Existing Instance esp32.
#[local] Existing Instance rtos_sim.

Definition no_handlers (h : unit) (md : MessageData) : M system unit := mret tt.
#[local] Instance esp_sim_platform : Platform (device (W := system)) := freertos unit no_handlers.

Definition sim_serves (y : system) (bs l : list Z) (hs : list (unit * MessageData)) : Prop :=
  y_in y = bs ∧ y_out y = l ∧ 0 < y_chunk y ∧ y_writable y = true ∧ 0 ≤ y_ticks y ∧ y_ticks y + len bs < 50.

Lemma sim_esp_serves :
  esp_serves unit no_handlers y_ticks 0 50 54 (λ y bs l _, sim_serves y bs l []).
Proof.
  split; try (intros; by eexists _, _).
  - intros l hs. split.
    + intros w bs (_ & _ & _ & _ & ? & ?). unfold within. lia.
    + intros w bs tv (Hi & Ho & Hc & Hr & Ht) Hb. exists w. split; [|done]. cbn. unfold select_sys.
      rewrite bool_decide_eq_false_2 by congruence. by rewrite Hr.
    + intros w bs n (Hi & Hl & Hc & Hw & Ht & Hb) Hn. exists (Z.min n (y_chunk w)). eexists. split; [lia|].
      cbn. unfold recv_sys.
      rewrite bool_decide_eq_false_2 by (destruct bs; [cbn in Hn; lia|congruence]).
      rewrite Hi, Z.max_r by lia. rewrite length_take.
      replace (Z.of_nat _) with (Z.min n (y_chunk w)) by lia. split; [done|]. cbn. split; [lia|].
      unfold sim_serves. cbn [y_in y_out y_chunk y_writable y_ticks]. rewrite length_drop. split_and!; done || lia.
  - intros bs hs. split.
    + intros w l (_ & _ & _ & _ & ? & ?). unfold within. lia.
    + intros w l tv (Hi & Hl & Hc & Hw & Ht). exists w. split; [|done].
      cbn. unfold select_sys. rewrite Hw. by destruct (bool_decide _).
    + intros w l p n x (Hi & Hl & Hc & Hw & Ht) Hn E.
      pose proof (mem_read_prefix _ _ (Z.min n (y_chunk w)) _ E ltac:(lia)) as E'.
      exists (Z.min n (y_chunk w)). eexists. split; [lia|]. cbn. unfold send_sys.
      unfold mem_read in E'. destruct (Z.eqb_spec (Z.min n (y_chunk w)) 0); [lia|]. rewrite E'.
      split; [done|]. unfold sim_serves. cbn [y_in y_out y_chunk y_writable y_ticks]. destruct Ht. rewrite Hl. by split_and!.
Qed.

Definition esp_client : MQTTClient :=
  mkClient 65534 1000 40 8 (replicate 40 0) (replicate 8 0) 0 0 0 0
    (replicate 5 (Slot None None)) None (TimerInit (W := system)) (TimerInit (W := system)).

Definition esp_answers : list Z := connack_packet 1 0 ++ [64; 2; 255; 255; 80; 2; 0; 1; 112; 2; 0; 1].

Definition esp_device : device :=
  mkDevice (set_socket 54 (NetworkInit 100)) (Some (mkMutex (tt : SemaphoreHandle_t)))
    (System 0 (esp_answers ++ [7]) [] 4 true).

Lemma freertos_serves_witness :
  ∃ s, session no_locals 2 ex_connectData three (esp_client, esp_device) =
      Ok ((SUCCESS, [SUCCESS; SUCCESS; SUCCESS], SUCCESS), s) ∧
    y_in (os s.2) = [7] ∧
    y_out (os s.2) = connect_packet ex_connect ++
      [48; 5; 0; 1; 97; 1; 2;  51; 6; 0; 1; 98; 255; 255; 3;  52; 5; 0; 1; 99; 0; 1;
       98; 2; 0; 1;  224; 0].
Proof.
  pose proof (hr_serving (Hearing := freertos_serves unit no_handlers y_ticks started 0 50 100 100 54
    (λ y bs l _, sim_serves y bs l []) sim_clock sim_esp_serves ltac:(decide_by_vm) eq_refl
    ltac:(decide_by_vm) ltac:(decide_by_vm)) []) as HS.
  destruct (session_total no_locals _ 2 ex_connectData ex_connect 1 three
    esp_client esp_device [7] [] ex_connect_wf ex_connect_denotes eq_refl)
    as (a & s & E & -> & _ & (_ & _ & (Hi & Ho & _) & _)).
  - decide_by_vm.
  - repeat (apply list.Forall_cons; split); [..|by apply list.Forall_nil];
      (split; [cbn; auto|unfold bit; cbn; auto|decide_by_vm..]).
  - split; decide_by_vm.
  - decide_by_vm.
  - done.
  - by right.
  - lia.
  - split; [by eexists|]. split; [by eexists|]. split; [split_and!; decide_by_vm|decide_by_vm].
  - split; [|intros _]; split; decide_by_vm.
  - exists s. split; [exact E|]. by split.
Defined.

End FreeRTOSClient.
