(* ===== verification/FreeRTOSSSL.v ===== *)
(** * MQTTFreeRTOS.c: the network over TLS

    The functions compiled with CONFIG_SSL_USING_MBEDTLS. esp_ssl_read keeps
    the address of the buffer of one call for the next two in a static
    variable, so memory is explicit here: objects by number, addresses in
    them. *)

From stdpp Require Import gmap.
From S2P Require Import Prelude CSem Packet Platform FreeRTOS.

(** ** Memory *)

Abbreviation heap := (gmap nat (list Z)).
Definition addr : Type := nat * Z.
Definition shift (a : addr) (n : Z) : addr := (a.1, a.2 + n).

Definition heap_load (h : heap) (a : addr) : outcome Z :=
  match h !! a.1 with Some bs => load bs a.2 | None => UB OutOfBounds end.
Definition heap_read (h : heap) (a : addr) (n : Z) : outcome (list Z) :=
  match h !! a.1 with Some bs => load_bytes bs a.2 n | None => UB OutOfBounds end.
Definition heap_store (h : heap) (a : addr) (bs : list Z) : outcome heap :=
  match h !! a.1 with
  | Some old => new ← store_bytes old a.2 bs; Ok (<[a.1 := new]> h)
  | None => UB OutOfBounds
  end.

(** ** The OpenSSL functions the file calls *)

Class OpenSSL (W : Type) : Type :=
  { SSL_METHOD : Type; SSL_CTX : Type; SSL : Type;
    SSL_VERIFY_NONE : Z;
    SSL_CTX_new : SSL_METHOD → M W (option SSL_CTX);
    SSL_CTX_load_verify_buffer : SSL_CTX → ptr → Z → M W Z;
    SSL_CTX_use_certificate_ASN1 : SSL_CTX → Z → ptr → M W Z;
    SSL_CTX_use_PrivateKey_ASN1 : Z → SSL_CTX → ptr → Z → M W Z;
    SSL_CTX_set_verify : SSL_CTX → Z → M W unit;
    SSL_new : SSL_CTX → M W (option SSL);
    SSL_set_fd : SSL → Z → M W unit;
    SSL_connect : SSL → M W Z;
    (* the result and the bytes stored at the address given *)
    SSL_read : option SSL → Z → M W (Z * list Z);
    SSL_write : option SSL → ptr → Z → M W Z;
    SSL_free : option SSL → M W unit;
    SSL_CTX_free : option SSL_CTX → M W unit }.

Module FreeRTOSSSL.
Import FreeRTOS.
Section SSL.
Context `{CImpl} {W : Type} `{RTOS W} `{OpenSSL W}.

(** The fields of Network these functions use, the static variable
    [read_buffer], memory and the world. *)
Record tls : Type := mkTls
  { t_socket : Z; read_count : Z; t_ctx : option SSL_CTX; t_ssl : option SSL;
    read_buffer : option addr; mem : heap; world : W }.

Abbreviation T A := (M tls A).

Definition sys {A} (m : M W A) : T A := λ s,
  match m (world s) with
  | Ok (a, w) => Ok (a, mkTls (t_socket s) (read_count s) (t_ctx s) (t_ssl s) (read_buffer s)
                            (mem s) w)
  | UB u => UB u | NoFuel => NoFuel
  end.
Definition set_mem (h : heap) : T unit := modify (λ s,
  mkTls (t_socket s) (read_count s) (t_ctx s) (t_ssl s) (read_buffer s) h (world s)).
Definition set_read_count (n : Z) : T unit := modify (λ s,
  mkTls (t_socket s) n (t_ctx s) (t_ssl s) (read_buffer s) (mem s) (world s)).
Definition set_read_buffer (a : addr) : T unit := modify (λ s,
  mkTls (t_socket s) (read_count s) (t_ctx s) (t_ssl s) (Some a) (mem s) (world s)).
Definition set_my_socket (n : Z) : T unit := modify (λ s,
  mkTls n (read_count s) (t_ctx s) (t_ssl s) (read_buffer s) (mem s) (world s)).
Definition set_ctx (c : option SSL_CTX) : T unit := modify (λ s,
  mkTls (t_socket s) (read_count s) c (t_ssl s) (read_buffer s) (mem s) (world s)).
Definition set_ssl (x : option SSL) : T unit := modify (λ s,
  mkTls (t_socket s) (read_count s) (t_ctx s) x (read_buffer s) (mem s) (world s)).

Definition store (a : addr) (bs : list Z) : T unit :=
  h ← gets mem; h ← lift (heap_store h a bs); set_mem h.

(** The static pointer, null until the first call of a packet. *)
Definition the_read_buffer : T addr :=
  p ← gets read_buffer; lift (match p with Some a => Ok a | None => UB NullPointer end).

Definition expired (t : TimeOut_t) (ticks : Z) : T (Z * TimeOut_t * Z) :=
  sys (xTaskCheckForTimeOut t ticks).

(** [do rc = SSL_read(n->ssl, a, len); ... while (...)]: an error to return at
    once, or the timeout and its ticks. Every pass stores at the same
    address. *)
Fixpoint ssl_read_loop (fuel : nat) (a : addr) (len recvLen : Z) (t : TimeOut_t) (ticks : Z)
  : T (Z + TimeOut_t * Z) :=
  match fuel with
  | O => no_fuel
  | S fuel =>
      ssl ← gets t_ssl;
      '(rc, bs) ← sys (SSL_read ssl len);
      store a bs ;;
      if rc <? 0 then mret (inl rc)
      else
        recvLen ← lift (if 0 <? rc then (recvLen +i rc)%c else Ok recvLen);
        if to_uint recvLen <? len then
          '(r, t, ticks) ← expired t ticks;
          if r =? pdFALSE then ssl_read_loop fuel a len recvLen t ticks
          else mret (inr (t, ticks))
        else mret (inr (t, ticks))
  end.

(** The first call for a packet: type byte, one length byte, and the body. *)
Definition ssl_read_first (fuel : nat) (buffer : addr) (timeout_ms : Z) (t : TimeOut_t) (ticks : Z)
  : T Z :=
  sock ← gets t_socket;
  nfds ← lift (sock +i 1)%c;
  '(n, readset, _, errset) ← sys (select nfds [sock] [] [sock] (timeval_of timeout_ms));
  if 0 <? n then
    if FD_ISSET sock errset then mret 0
    else if FD_ISSET sock readset then
      set_read_buffer buffer ;;
      head ← ssl_read_loop fuel buffer 2 0 t ticks;
      match head with
      | inl rc => mret rc
      | inr (t, ticks) =>
          h ← gets mem;
          len ← lift (heap_load h (shift buffer 1));
          body ← (if 0 <? len then ssl_read_loop fuel (shift buffer 2) len 0 t ticks
                  else mret (inr (t, ticks)));
          match body with
          | inl rc => mret rc
          | inr _ =>
              c ← gets read_count; c ← lift (c +i 1)%c; set_read_count c ;; mret 1
          end
      end
    else mret 0
  else mret 0.

(** memcpy between parts of one object that overlap, which C leaves undefined,
    is taken to copy like memmove. *)
Definition esp_ssl_read (fuel : nat) (buffer : addr) (len timeout_ms : Z) : T Z :=
  ticks ← lift (to_ticks timeout_ms);
  t ← sys vTaskSetTimeOutState;
  c ← gets read_count;
  if c =? 0 then ssl_read_first fuel buffer timeout_ms t ticks
  else if c =? 1 then
    '(r, _, _) ← expired t ticks;
    if r =? pdTRUE then
      set_read_count 0 ;; a ← the_read_buffer; store a [0] ;; mret 0
    else
      c ← lift (c +i 1)%c; set_read_count c ;;
      a ← the_read_buffer; h ← gets mem; v ← lift (heap_load h (shift a 1));
      store buffer [v] ;; mret 1
  else if c =? 2 then
    set_read_count 0 ;;
    '(r, _, _) ← expired t ticks;
    if r =? pdTRUE then a ← the_read_buffer; store a [0] ;; mret 0
    else
      a ← the_read_buffer; h ← gets mem; bs ← lift (heap_read h (shift a 2) len);
      store buffer bs ;; mret (to_int len)
  else mret 0.

(** ** Writing *)

Fixpoint ssl_write_wait (fuel : nat) (my_socket : Z) (writeset errset : fd_set) (timeout : Z * Z)
  : T (fd_set * fd_set) :=
  match fuel with
  | O => no_fuel
  | S fuel =>
      nfds ← lift (my_socket +i 1)%c;
      '(readysock, _, writeset, errset) ← sys (select nfds [] writeset errset timeout);
      if readysock <=? 0 then ssl_write_wait fuel my_socket writeset errset timeout
      else mret (writeset, errset)
  end.

Fixpoint ssl_write_loop (fuel : nat) (buffer : ptr) (len sentLen : Z) (t : TimeOut_t) (ticks : Z)
  : T Z :=
  match fuel with
  | O => no_fuel
  | S fuel =>
      ssl ← gets t_ssl;
      rc ← sys (SSL_write ssl (Ptr (obj buffer) (off buffer + sentLen)) (to_uint (len - sentLen)));
      if rc <? 0 then mret rc
      else
        sentLen ← lift (if 0 <? rc then (sentLen +i rc)%c else Ok sentLen);
        if to_uint sentLen <? len then
          '(r, t, ticks) ← expired t ticks;
          if r =? pdFALSE then ssl_write_loop fuel buffer len sentLen t ticks
          else mret sentLen
        else mret sentLen
  end.

Definition esp_ssl_write (fuel : nat) (buffer : ptr) (len timeout_ms : Z) : T Z :=
  ticks ← lift (to_ticks timeout_ms);
  t ← sys vTaskSetTimeOutState;
  sock ← gets t_socket;
  '(writeset, errset) ← ssl_write_wait fuel sock [sock] [sock] (timeval_of timeout_ms);
  if FD_ISSET sock errset then mret 0
  else if FD_ISSET sock writeset then ssl_write_loop fuel buffer len 0 t ticks
  else mret 0.

(** ** Connecting *)

Definition esp_ssl_disconnect : T unit :=
  sock ← gets t_socket; sys (close sock) ;;
  ssl ← gets t_ssl; sys (SSL_free ssl) ;;
  ctx ← gets t_ctx; sys (SSL_CTX_free ctx) ;;
  set_read_count 0.

(** The function pointers of Network; each takes the network. *)
Record network_ops : Type := NetworkOps
  { n_mqttread : addr → Z → Z → T Z;
    n_mqttwrite : ptr → Z → Z → T Z;
    n_disconnect : T unit }.

(** The fields, and the pointers it stores. *)
Definition NetworkInitSSL (fuel : nat) : T network_ops :=
  set_my_socket 0 ;; set_read_count 0 ;; set_ctx None ;; set_ssl None ;;
  mret (NetworkOps (esp_ssl_read fuel) (esp_ssl_write fuel) esp_ssl_disconnect).

Record ssl_ca_crt_key_t : Type := CaCrtKey
  { cacrt : option ptr; cacrt_len : Z; cert : option ptr; cert_len : Z;
    key : option ptr; key_len : Z }.

(** The labels at the end of NetworkConnectSSL. *)
Definition exit1 (retVal : Z) : T Z := ctx ← gets t_ctx; sys (SSL_CTX_free ctx) ;; mret retVal.
Definition exit2 (retVal : Z) : T Z := sock ← gets t_socket; sys (close sock) ;; exit1 retVal.
Definition exit3 (retVal : Z) : T Z := ssl ← gets t_ssl; sys (SSL_free ssl) ;; exit2 retVal.

(** From the socket on; [retVal] is what the certificate calls left in it. *)
Definition ssl_connect_socket (ctx : SSL_CTX) (ipAddress : in_addr) (port retVal : Z) : T Z :=
  sock ← sys socket_stream;
  set_my_socket sock ;;
  if sock <? 0 then exit1 retVal
  else
    retVal ← sys (connect sock ipAddress (htons port));
    if retVal <? 0 then exit2 retVal
    else
      ssl ← sys (SSL_new ctx);
      set_ssl ssl ;;
      match ssl with
      | None => exit2 retVal
      | Some ssl =>
          sys (SSL_set_fd ssl sock) ;;
          retVal ← sys (SSL_connect ssl);
          if retVal <=? 0 then exit3 retVal else mret retVal
      end.

(** The certificates: the value of retVal, and whether to go to exit1. *)
Definition ssl_certificates (ctx : SSL_CTX) (ssl_cck : ssl_ca_crt_key_t) : T (bool * Z) :=
  '(bad, retVal) ← (
    match cacrt ssl_cck with
    | Some ca =>
        r ← sys (SSL_CTX_load_verify_buffer ctx ca (cacrt_len ssl_cck)); mret (negb (r =? 1), r)
    | None => mret (false, -1)
    end);
  if bad : bool then mret (true, retVal)
  else
    match cert ssl_cck, key ssl_cck with
    | Some c, Some k =>
        r ← sys (SSL_CTX_use_certificate_ASN1 ctx (cert_len ssl_cck) c);
        if r =? 0 then mret (true, r)
        else r ← sys (SSL_CTX_use_PrivateKey_ASN1 0 ctx k (key_len ssl_cck)); mret (r =? 0, r)
    | _, _ => mret (false, retVal)
    end.

Definition NetworkConnectSSL (host : ptr) (port : Z) (ssl_cck : ssl_ca_crt_key_t)
    (method : SSL_METHOD) (verify_mode : Z) : T Z :=
  ipAddress ← sys (gethostbyname host);
  match ipAddress with
  | None => mret (-1)
  | Some ip =>
      ctx ← sys (SSL_CTX_new method);
      set_ctx ctx ;;
      match ctx with
      | None => mret (-1)
      | Some ctx =>
          '(bad, retVal) ← ssl_certificates ctx ssl_cck;
          if bad : bool then exit1 retVal
          else
            sys (SSL_CTX_set_verify ctx (if nonnull (cacrt ssl_cck) then verify_mode
                                         else SSL_VERIFY_NONE)) ;;
            ssl_connect_socket ctx ip port retVal
      end
  end.


(** ** Running *)

Lemma bind_sys {A B} (m : M W A) (f : A → T B) sk c ctx ssl rb h w0 a w :
  m w0 = Ok (a, w) →
  (sys m ≫= f) (mkTls sk c ctx ssl rb h w0) = f a (mkTls sk c ctx ssl rb h w).
Proof. unfold mbind, M_bind, sys. cbn [world]. by intros ->. Qed.

Lemma bind_gets {A B} (g : tls → A) (f : A → T B) s : (gets g ≫= f) s = f (g s) s.
Proof. done. Qed.

Lemma run_store sk c ctx ssl rb h w a bs h' :
  heap_store h a bs = Ok h' →
  store a bs (mkTls sk c ctx ssl rb h w) = Ok (tt, mkTls sk c ctx ssl rb h' w).
Proof. intros E. unfold store. by rewrite bind_gets, (run_bind _ _ _ _ _ (run_lift _ _ _ E)). Qed.

Lemma heap_store_over h b pre old post bs :
  h !! b = Some (pre ++ old ++ post) → length old = length bs →
  heap_store h (b, len pre) bs = Ok (<[b := pre ++ bs ++ post]> h).
Proof.
  intros E L. unfold heap_store. cbn [fst snd]. rewrite E.
  by rewrite (bind_Ok _ _ _ (store_bytes_app _ _ _ _ _ eq_refl L)).
Qed.

Lemma heap_store_overrun h b bs i bs' :
  h !! b = Some bs → bs' ≠ [] → len bs < i + len bs' → heap_store h (b, i) bs' = UB OutOfBounds.
Proof.
  intros E N L. unfold heap_store. cbn [fst snd]. rewrite E. apply bind_UB.
  unfold store_bytes. destruct bs' as [|x bs']; [done|]. ztests; done.
Qed.

(** One SSL_read that gives all that was asked for ends the loop. *)
Lemma ssl_read_loop_whole fuel a n t ticks sk c ctx ssl rb h w bs w' h' :
  0 < n ≤ INT_MAX → SSL_read ssl n w = Ok ((n, bs), w') → heap_store h a bs = Ok h' →
  ssl_read_loop (S fuel) a n 0 t ticks (mkTls sk c ctx ssl rb h w) =
    Ok (inr (t, ticks), mkTls sk c ctx ssl rb h' w').
Proof.
  intros Hn E Es. cbn [ssl_read_loop]. rewrite bind_gets. cbn [t_ssl].
  rewrite (bind_sys _ _ _ _ _ _ _ _ _ _ _ E).
  rewrite (run_bind _ _ _ _ _ (run_store _ _ _ _ _ _ _ _ _ _ Es)). ztest. ztest.
  rewrite (run_bind _ _ _ n _) by (apply run_lift, iadd_Ok; unfold INT_MIN; lia).
  rewrite to_uint_id by lia. by ztest.
Qed.

(** The first call up to the second byte of the header. *)
Lemma ssl_read_first_head fuel b pre x y post ms n t w0 w1 rs ws w2 hd l w3 sk ctx ssl rb h :
  h !! b = Some (pre ++ [x; y] ++ post) → 0 ≤ sk < INT_MAX → 0 < portTICK_PERIOD_MS →
  vTaskSetTimeOutState w0 = Ok (t, w1) →
  select (sk + 1) [sk] [] [sk] (timeval_of ms) w1 = Ok ((1, rs, ws, []), w2) → sk ∈ rs →
  SSL_read ssl 2 w2 = Ok ((2, [hd; l]), w3) →
  esp_ssl_read (S fuel) (b, len pre) n ms (mkTls sk 0 ctx ssl rb h w0) =
    (body ← (if 0 <? l then ssl_read_loop (S fuel) (b, len pre + 2) l 0 t (ms / portTICK_PERIOD_MS)
             else mret (inr (t, ms / portTICK_PERIOD_MS)));
     match body with
     | inl rc => mret rc
     | inr _ => c ← gets read_count; c ← lift (c +i 1)%c; set_read_count c ;; mret 1
     end) (mkTls sk 0 ctx ssl (Some (b, len pre)) (<[b := pre ++ [hd; l] ++ post]> h) w3).
Proof.
  intros Hb Hsk HP E1 E2 Hin E3. unfold esp_ssl_read.
  rewrite (run_bind _ _ _ (ms / portTICK_PERIOD_MS) _)
    by (apply run_lift; unfold to_ticks; by ztest).
  rewrite (bind_sys _ _ _ _ _ _ _ _ _ _ _ E1), bind_gets. cbn [read_count Z.eqb].
  unfold ssl_read_first. rewrite bind_gets. cbn [t_socket].
  rewrite (run_bind _ _ _ (sk + 1) _) by (apply run_lift, iadd_Ok; unfold INT_MIN; lia).
  rewrite (bind_sys _ _ _ _ _ _ _ _ _ _ _ E2). ztest.
  assert (FD_ISSET sk [] = false) as -> by (apply bool_decide_eq_false, not_elem_of_nil).
  assert (FD_ISSET sk rs = true) as -> by (by apply bool_decide_eq_true).
  rewrite (run_bind _ _ _ tt (mkTls sk 0 ctx ssl (Some (b, len pre)) h w2)) by reflexivity.
  rewrite (run_bind _ _ _ _ _ (ssl_read_loop_whole fuel (b, len pre) 2 t (ms / portTICK_PERIOD_MS)
    sk 0 ctx ssl (Some (b, len pre)) h w2 [hd; l] w3 _ ltac:(unfold INT_MAX; lia) E3
    (heap_store_over h b pre [x; y] post [hd; l] Hb eq_refl))).
  rewrite bind_gets. cbn [mem].
  assert (El : heap_load (<[b:=pre ++ [hd; l] ++ post]> h) (shift (b, len pre) 1) = Ok l).
  { unfold heap_load, shift. cbn [fst snd]. rewrite lookup_insert_eq.
    replace (pre ++ [hd; l] ++ post) with ((pre ++ [hd]) ++ l :: post) by (by rewrite <- app_assoc).
    apply load_app. rewrite length_app. cbn [length]. lia. }
  rewrite (run_bind _ _ _ _ _ (run_lift _ _ _ El)). done.
Qed.

(** The first call for a packet asks for one byte and stores the whole packet: where the
    object behind its buffer is shorter than the two bytes of the header and what the peer
    sends as body, the call writes past its end. *)
Theorem esp_ssl_read_overruns fuel b pre x y post n ms t w0 w1 rs ws w2 hd l w3 k body w4
    sk ctx ssl rb h :
  h !! b = Some (pre ++ [x; y] ++ post) → len post < len body →
  0 ≤ sk < INT_MAX → 0 < portTICK_PERIOD_MS → 0 < l →
  vTaskSetTimeOutState w0 = Ok (t, w1) →
  select (sk + 1) [sk] [] [sk] (timeval_of ms) w1 = Ok ((1, rs, ws, []), w2) → sk ∈ rs →
  SSL_read ssl 2 w2 = Ok ((2, [hd; l]), w3) → SSL_read ssl l w3 = Ok ((k, body), w4) →
  esp_ssl_read (S fuel) (b, len pre) n ms (mkTls sk 0 ctx ssl rb h w0) = UB OutOfBounds.
Proof.
  intros Hb Hfit Hsk HP Hl E1 E2 Hin E3 E4.
  rewrite (ssl_read_first_head fuel b pre x y post ms n t w0 w1 rs ws w2 hd l w3) by done.
  ztest. apply run_bind_UB. cbn [ssl_read_loop]. rewrite bind_gets. cbn [t_ssl].
  rewrite (bind_sys _ _ _ _ _ _ _ _ _ _ _ E4).
  apply run_bind_UB. unfold store. rewrite bind_gets. cbn [mem]. apply run_bind_UB. unfold lift.
  rewrite (heap_store_overrun _ b (pre ++ [hd; l] ++ post) (len pre + 2) body);
    [done|apply lookup_insert_eq|intros ->; cbn in Hfit; lia|rewrite !length_app; cbn [length]; lia].
Qed.

(** ** The three calls *)

(** A wait of one tick or more has not timed out when it begins. *)
Lemma run_expired_at_once now start ms w :
  clock now start → 0 < portTICK_PERIOD_MS ≤ ms →
  ∃ t t' ticks', vTaskSetTimeOutState w = Ok (t, w) ∧
    xTaskCheckForTimeOut t (ms / portTICK_PERIOD_MS) w = Ok ((pdFALSE, t', ticks'), w).
Proof.
  intros HC HP. destruct (ck_set _ _ HC w) as (t & E & Et).
  destruct (ck_check _ _ HC t (ms / portTICK_PERIOD_MS) w) as (t' & _ & E').
  assert (1 ≤ ms / portTICK_PERIOD_MS) by (apply Z.div_le_lower_bound; lia).
  destruct (Z.ltb_spec (now w - start t) (ms / portTICK_PERIOD_MS)); [|lia]. eauto 10.
Qed.

Lemma ssl_read_second now start fuel a b pre hd l post old n ms sk ctx ssl h w :
  clock now start → 0 < portTICK_PERIOD_MS ≤ ms → h !! b = Some (pre ++ hd :: l :: post) →
  heap_store h a [l] = Ok old →
  esp_ssl_read fuel a n ms (mkTls sk 1 ctx ssl (Some (b, len pre)) h w) =
    Ok (1, mkTls sk 2 ctx ssl (Some (b, len pre)) old w).
Proof.
  intros HC HP Hb Es. unfold esp_ssl_read.
  destruct (run_expired_at_once now start ms w HC HP) as (t & t' & ticks' & E1 & E2).
  rewrite (run_bind _ _ _ (ms / portTICK_PERIOD_MS) _)
    by (apply run_lift; unfold to_ticks; by ztest).
  rewrite (bind_sys _ _ _ _ _ _ _ _ _ _ _ E1), bind_gets. cbn [read_count Z.eqb Pos.eqb].
  unfold expired. rewrite (bind_sys _ _ _ _ _ _ _ _ _ _ _ E2).
  change (pdFALSE =? pdTRUE) with false. cbv iota.
  rewrite (run_bind _ _ _ 2 _) by reflexivity.
  rewrite (run_bind _ _ _ tt (mkTls sk 2 ctx ssl (Some (b, len pre)) h w)) by reflexivity.
  rewrite (run_bind _ _ _ (b, len pre) (mkTls sk 2 ctx ssl (Some (b, len pre)) h w)) by reflexivity.
  rewrite bind_gets. cbn [mem].
  assert (El : heap_load h (shift (b, len pre) 1) = Ok l).
  { unfold heap_load, shift. cbn [fst snd]. rewrite Hb.
    replace (pre ++ hd :: l :: post) with ((pre ++ [hd]) ++ l :: post) by (by rewrite <- app_assoc).
    apply load_app. rewrite length_app. cbn [length]. lia. }
  rewrite (run_bind _ _ _ _ _ (run_lift _ _ _ El)).
  by rewrite (run_bind _ _ _ _ _ (run_store _ _ _ _ _ _ _ _ _ _ Es)).
Qed.

Lemma ssl_read_third now start fuel b pre hd body post ms sk ctx ssl h w :
  clock now start → 0 < portTICK_PERIOD_MS ≤ ms → len body ≤ INT_MAX →
  h !! b = Some (pre ++ hd :: len body :: body ++ post) →
  esp_ssl_read fuel (b, len pre + 2) (len body) ms (mkTls sk 2 ctx ssl (Some (b, len pre)) h w) =
    Ok (len body, mkTls sk 0 ctx ssl (Some (b, len pre)) h w).
Proof.
  intros HC HP HI Hb. unfold esp_ssl_read.
  destruct (run_expired_at_once now start ms w HC HP) as (t & t' & ticks' & E1 & E2).
  rewrite (run_bind _ _ _ (ms / portTICK_PERIOD_MS) _)
    by (apply run_lift; unfold to_ticks; by ztest).
  rewrite (bind_sys _ _ _ _ _ _ _ _ _ _ _ E1), bind_gets. cbn [read_count Z.eqb Pos.eqb].
  rewrite (run_bind _ _ _ tt (mkTls sk 0 ctx ssl (Some (b, len pre)) h w)) by reflexivity.
  unfold expired. rewrite (bind_sys _ _ _ _ _ _ _ _ _ _ _ E2).
  change (pdFALSE =? pdTRUE) with false. cbv iota.
  rewrite (run_bind _ _ _ (b, len pre) (mkTls sk 0 ctx ssl (Some (b, len pre)) h w)) by reflexivity.
  rewrite bind_gets. cbn [mem].
  assert (Esplit : pre ++ hd :: len body :: body ++ post = (pre ++ [hd; len body]) ++ body ++ post)
    by (by rewrite <- app_assoc).
  assert (Elen : len pre + 2 = len (pre ++ [hd; len body])) by (rewrite length_app; cbn [length]; lia).
  assert (Er : heap_read h (shift (b, len pre) 2) (len body) = Ok body).
  { unfold heap_read, shift. cbn [fst snd]. rewrite Hb, Esplit. by apply load_bytes_app. }
  rewrite (run_bind _ _ _ _ _ (run_lift _ _ _ Er)). rewrite Elen.
  assert (Es : heap_store h (b, len (pre ++ [hd; len body])) body = Ok h).
  { rewrite Esplit in Hb. rewrite (heap_store_over h b _ body post body Hb eq_refl).
    f_equal. by apply insert_id. }
  rewrite (run_bind _ _ _ _ _ (run_store _ _ _ _ _ _ _ _ _ _ Es)).
  rewrite to_int_id by (unfold in_int, INT_MIN, INT_MAX in *; lia). done.
Qed.

(** A packet of less than 128 bytes of body, received over TLS by the three calls readPacket
    makes (the type byte, the length byte into another object, the body right after them), is
    complete in the buffer of the first call, when the timeouts are not shorter than a tick, and the three results are 1, 1 and the length of
    the body. *)
Theorem esp_ssl_read_packet now start fuel b v pre x y old post n1 n2 ms1 ms2 ms3 rs ws w0 w2 hd body w3 w4
    z sk ctx ssl rb h :
  clock now start → portTICK_PERIOD_MS ≤ ms2 → portTICK_PERIOD_MS ≤ ms3 →
  h !! b = Some (pre ++ [x; y] ++ old ++ post) → length old = length body →
  h !! v = Some [z] → v ≠ b → 0 < len body < 128 → 0 ≤ sk < INT_MAX → 0 < portTICK_PERIOD_MS →
  select (sk + 1) [sk] [] [sk] (timeval_of ms1) w0 = Ok ((1, rs, ws, []), w2) → sk ∈ rs →
  SSL_read ssl 2 w2 = Ok ((2, [hd; len body]), w3) →
  SSL_read ssl (len body) w3 = Ok ((len body, body), w4) →
  (r1 ← esp_ssl_read (S fuel) (b, len pre) n1 ms1;
   r2 ← esp_ssl_read (S fuel) (v, 0) n2 ms2;
   r3 ← esp_ssl_read (S fuel) (b, len pre + 2) (len body) ms3;
   mret (r1, r2, r3)) (mkTls sk 0 ctx ssl rb h w0) =
  Ok ((1, 1, len body), mkTls sk 0 ctx ssl (Some (b, len pre))
       (<[v := [len body]]> (<[b := pre ++ hd :: len body :: body ++ post]> h)) w4).
Proof.
  intros HC Hm2 Hm3 Hb Hold Hv Hne Hl Hsk HP E2 Hin E3 E4. destruct (ck_set _ _ HC w0) as (t & E1 & _).
  assert (Er1 : esp_ssl_read (S fuel) (b, len pre) n1 ms1 (mkTls sk 0 ctx ssl rb h w0) =
    Ok (1, mkTls sk 1 ctx ssl (Some (b, len pre))
             (<[b := pre ++ hd :: len body :: body ++ post]> h) w4)).
  { rewrite (ssl_read_first_head fuel b pre x y (old ++ post) ms1 n1 t w0 w0 rs ws w2 hd
      (len body) w3) by (done || lia).
    ztest.
    assert (Es : heap_store (<[b := pre ++ [hd; len body] ++ old ++ post]> h) (b, len pre + 2) body
      = Ok (<[b := pre ++ hd :: len body :: body ++ post]> h)).
    { replace (len pre + 2) with (len (pre ++ [hd; len body]))
        by (rewrite length_app; cbn [length]; lia).
      rewrite (heap_store_over (<[b := pre ++ [hd; len body] ++ old ++ post]> h) b
        (pre ++ [hd; len body]) old post body);
        [by rewrite insert_insert_eq, <- app_assoc
        |by rewrite lookup_insert_eq, <- app_assoc|done]. }
    rewrite (run_bind _ _ _ _ _ (ssl_read_loop_whole fuel (b, len pre + 2) (len body) t
      (ms1 / portTICK_PERIOD_MS) sk 0 ctx ssl (Some (b, len pre)) _ w3 body w4 _
      ltac:(unfold INT_MAX; lia) E4 Es)). done. }
  rewrite (run_bind _ _ _ _ _ Er1).
  assert (Es : heap_store (<[b := pre ++ hd :: len body :: body ++ post]> h) (v, 0) [len body] =
    Ok (<[v := [len body]]> (<[b := pre ++ hd :: len body :: body ++ post]> h))).
  { apply (heap_store_over _ v [] [z] [] [len body]); [|done].
    by rewrite lookup_insert_ne. }
  rewrite (run_bind _ _ _ _ _ (ssl_read_second now start (S fuel) (v, 0) b pre hd (len body) (body ++ post)
    _ n2 ms2 sk ctx ssl _ w4 HC ltac:(lia) (lookup_insert_eq _ _ _) Es)).
  rewrite (run_bind _ _ _ _ _ (ssl_read_third now start (S fuel) b pre hd body post ms3 sk ctx ssl
    (<[v := [len body]]> (<[b := pre ++ hd :: len body :: body ++ post]> h)) w4 HC ltac:(lia)
    ltac:(unfold INT_MAX; lia) ltac:(rewrite lookup_insert_ne by done; apply lookup_insert_eq))).
  done.
Qed.

(** ** Connecting *)

(** With a client certificate and key that load, a socket that cannot be created makes
    NetworkConnectSSL return the result of loading the key, which is 1 like that of a
    connection that succeeds; when SSL_new fails the result is that of connect, 0. *)
Theorem NetworkConnectSSL_hides_failures host port cck method vm sk c0 ctx0 ssl rb h ip ctx cp kp r k
    sock w0 w1 w2 w3 w4 w5 w6 w7 :
  gethostbyname host w0 = Ok (Some ip, w1) → SSL_CTX_new method w1 = Ok (Some ctx, w2) →
  cacrt cck = None → cert cck = Some cp → key cck = Some kp →
  SSL_CTX_use_certificate_ASN1 ctx (cert_len cck) cp w2 = Ok (r, w3) → r ≠ 0 →
  SSL_CTX_use_PrivateKey_ASN1 0 ctx kp (key_len cck) w3 = Ok (k, w4) → k ≠ 0 →
  SSL_CTX_set_verify ctx SSL_VERIFY_NONE w4 = Ok (tt, w5) → socket_stream w5 = Ok (sock, w6) →
  (sock < 0 → SSL_CTX_free (Some ctx) w6 = Ok (tt, w7) →
   NetworkConnectSSL host port cck method vm (mkTls sk c0 ctx0 ssl rb h w0) =
     Ok (k, mkTls sock c0 (Some ctx) ssl rb h w7)) ∧
  (0 ≤ sock → ∀ rc v1 v2 v3, connect sock ip (htons port) w6 = Ok (rc, v1) → 0 ≤ rc →
   SSL_new ctx v1 = Ok (None, v2) → close sock v2 = Ok (tt, v3) →
   SSL_CTX_free (Some ctx) v3 = Ok (tt, w7) →
   NetworkConnectSSL host port cck method vm (mkTls sk c0 ctx0 ssl rb h w0) =
     Ok (rc, mkTls sock c0 (Some ctx) None rb h w7)).
Proof.
  intros E1 E2 Hca Hce Hk E3 Hr E4 Hk0 E5 E6.
  assert (E : NetworkConnectSSL host port cck method vm (mkTls sk c0 ctx0 ssl rb h w0) =
    ssl_connect_socket ctx ip port k (mkTls sk c0 (Some ctx) ssl rb h w5)).
  { unfold NetworkConnectSSL. rewrite (bind_sys _ _ _ _ _ _ _ _ _ _ _ E1).
    rewrite (bind_sys _ _ _ _ _ _ _ _ _ _ _ E2).
    rewrite (run_bind _ _ _ tt (mkTls sk c0 (Some ctx) ssl rb h w2)) by reflexivity.
    rewrite (run_bind _ _ _ (false, k) (mkTls sk c0 (Some ctx) ssl rb h w4)).
    - rewrite Hca. cbn [nonnull]. by rewrite (bind_sys _ _ _ _ _ _ _ _ _ _ _ E5).
    - unfold ssl_certificates. rewrite Hca, run_bind_ret, Hce, Hk.
      rewrite (bind_sys _ _ _ _ _ _ _ _ _ _ _ E3). ztest.
      rewrite (bind_sys _ _ _ _ _ _ _ _ _ _ _ E4). by ztest. }
  rewrite E. unfold ssl_connect_socket. rewrite (bind_sys _ _ _ _ _ _ _ _ _ _ _ E6).
  rewrite (run_bind _ _ _ tt (mkTls sock c0 (Some ctx) ssl rb h w6)) by reflexivity. split.
  - intros Hs E7. ztest. unfold exit1. rewrite bind_gets. cbn [t_ctx].
    by rewrite (bind_sys _ _ _ _ _ _ _ _ _ _ _ E7).
  - intros Hs rc v1 v2 v3 E7 Hrc E8 E9 E10. ztest.
    rewrite (bind_sys _ _ _ _ _ _ _ _ _ _ _ E7). ztest.
    rewrite (bind_sys _ _ _ _ _ _ _ _ _ _ _ E8).
    rewrite (run_bind _ _ _ tt (mkTls sock c0 (Some ctx) None rb h v2)) by reflexivity.
    unfold exit2, exit1. rewrite bind_gets. cbn [t_socket].
    rewrite (bind_sys _ _ _ _ _ _ _ _ _ _ _ E9), bind_gets. cbn [t_ctx].
    by rewrite (bind_sys _ _ _ _ _ _ _ _ _ _ _ E10).
Qed.

End SSL.

(** ** A TLS library to evaluate the file on *)

#[local] Existing Instance esp32.
#[local] Existing Instance rtos_sim.

Definition ssl_sim : OpenSSL system :=
  {| SSL_METHOD := unit; SSL_CTX := unit; SSL := unit; SSL_VERIFY_NONE := 0;
     SSL_CTX_new := λ _, mret (Some tt);
     SSL_CTX_load_verify_buffer := λ _ _ _, mret 1;
     SSL_CTX_use_certificate_ASN1 := λ _ _ _, mret 1;
     SSL_CTX_use_PrivateKey_ASN1 := λ _ _ _ _, mret 1;
     SSL_CTX_set_verify := λ _ _, mret tt; SSL_new := λ _, mret (Some tt);
     SSL_set_fd := λ _ _, mret tt; SSL_connect := λ _, mret 1;
     SSL_read := λ _ n, recv_sys 0 n 0; SSL_write := λ _ p n, send_sys 0 p n 0;
     SSL_free := λ _, mret tt; SSL_CTX_free := λ _, mret tt |}.

(** The state before a packet: the client's readbuf and a variable. *)
Definition tls_sim (readbuf : list Z) (arrived : list Z) : tls (H1 := ssl_sim) :=
  mkTls (H1 := ssl_sim) 54 0 None None None {[0%nat := readbuf; 1%nat := [0]]} (System 0 arrived [] 9 true).

(** A PUBACK read into the front of a buffer of six bytes. *)
Lemma esp_ssl_read_packet_witness :
  ∃ s, (r1 ← esp_ssl_read (H1 := ssl_sim) 9 (0%nat, 0) 1 100;
   r2 ← esp_ssl_read (H1 := ssl_sim) 9 (1%nat, 0) 1 100;
   r3 ← esp_ssl_read (H1 := ssl_sim) 9 (0%nat, 2) 2 100;
   mret (r1, r2, r3)) (tls_sim [7; 7; 7; 7; 8; 8] [64; 2; 1; 9; 13]) = Ok ((1, 1, 2), s) ∧
   mem (H1 := ssl_sim) s !! 0%nat = Some [64; 2; 1; 9; 8; 8].
Proof.
  eexists. split.
  - apply (esp_ssl_read_packet (H1 := ssl_sim) y_ticks started 8 0%nat 1%nat [] 7 7 [7; 7]
      [8; 8] 1 1 100 100 100 [54] [] (System 0 [64; 2; 1; 9; 13] [] 9 true)
      (System 0 [64; 2; 1; 9; 13] [] 9 true) 64 [1; 9] (System 1 [1; 9; 13] [] 9 true)
      (System 2 [13] [] 9 true) 0 54); try reflexivity; try done.
    + apply sim_clock.
    + apply list_elem_of_here.
  - reflexivity.
Defined.

(** A packet of five bytes for a buffer of four. *)
Lemma esp_ssl_read_overruns_witness :
  esp_ssl_read (H1 := ssl_sim) 9 (0%nat, 0) 1 100
    (tls_sim [7; 7; 7; 7] [64; 3; 1; 9; 13]) = UB OutOfBounds.
Proof.
  apply (esp_ssl_read_overruns (H1 := ssl_sim) 8 0%nat [] 7 7 [7; 7] 1 100
    (tick 0) (System 0 [64; 3; 1; 9; 13] [] 9 true)
    (System 0 [64; 3; 1; 9; 13] [] 9 true) [54] [] (System 0 [64; 3; 1; 9; 13] [] 9 true)
    64 3 (System 1 [1; 9; 13] [] 9 true) 3 [1; 9; 13] (System 2 [] [] 9 true) 54); try reflexivity; try done.
  apply list_elem_of_here.
Defined.

(** No socket, and yet 1. *)
Lemma NetworkConnectSSL_hides_failures_witness :
  ∃ s', NetworkConnectSSL (H1 := ssl_sim) (c_string [97]) 8883
    (CaCrtKey None 0 (Some (Ptr [1] 0)) 1 (Some (Ptr [1] 0)) 1) tt 0
    (mkTls (H1 := ssl_sim) 0 0 None None None ∅ (System 0 [] [] 9 false)) = Ok (1, s').
Proof.
  eexists.
  apply (proj1 (NetworkConnectSSL_hides_failures (H0 := rtos_sim) (H1 := ssl_sim) (c_string [97])
    8883 (CaCrtKey None 0 (Some (Ptr [1] 0)) 1 (Some (Ptr [1] 0)) 1) tt 0 0 0 None None None ∅
    16777343 tt (Ptr [1] 0) (Ptr [1] 0) 1 1 (-1) (System 0 [] [] 9 false) (System 0 [] [] 9 false)
    (System 0 [] [] 9 false) (System 0 [] [] 9 false) (System 0 [] [] 9 false)
    (System 0 [] [] 9 false) (System 0 [] [] 9 false) (System 0 [] [] 9 false)
    eq_refl eq_refl eq_refl eq_refl eq_refl eq_refl ltac:(done) eq_refl ltac:(done) eq_refl eq_refl));
    [done|reflexivity].
Defined.

End FreeRTOSSSL.
