(* ===== verification/TlsReceive.v ===== *)
(** * MQTTClient.c over the TLS network of MQTTFreeRTOS.c

    esp_ssl_read stores at addresses of its own: the first call for a packet
    fills the client's readbuf, the next two copy out of it. The receiving half
    of MQTTClient.c is therefore translated once more here, over the memory of
    FreeRTOSSSL.v, with readbuf and the local variable of decodePacket as
    objects. *)

From stdpp Require Import gmap fin_maps.
From S2P Require Import Prelude CSem Wire Packet Stream Platform Client FreeRTOS FreeRTOSSSL.

Module TlsReceive.
Import FreeRTOS FreeRTOSSSL.
Section Receive.
Context `{CImpl} {W : Type} `{RTOS W} `{OpenSSL W}.

Abbreviation T A := (M (tls (W := W)) A).

(** What readPacket uses of MQTTClient: the function pointers of its network,
    the object of readbuf, and three fields. *)
Record receiver : Type := mkReceiver
  { ipstack : network_ops; readbuf : nat; readbuf_size : Z; keepAliveInterval : Z;
    last_received : Timer }.

(** A variable of type unsigned char that lives while [f] runs; its address
    is not valid afterwards. decodePacket assigns it before it reads it. *)
Definition with_local {A} (f : nat → T A) : T A :=
  h ← gets mem;
  let i := fresh (dom h) in
  set_mem (<[i := [0]]> h) ;;
  a ← f i;
  h ← gets mem; set_mem (delete i h) ;;
  mret a.

Fixpoint decodePacket_loop (fuel : nat) (c : receiver) (i : nat)
    (timeout value multiplier len : Z) : T (Z * Z) :=
  match fuel with
  | O => no_fuel
  | S fuel =>
      let len := len + 1 in
      if MAX_NO_OF_REMAINING_LENGTH_BYTES <? len then mret (len, value)
      else
        rc ← n_mqttread (ipstack c) (i, 0) 1 (to_uint timeout);
        if negb (rc =? 1) then mret (len, value)
        else
          h ← gets mem;
          b ← lift (heap_load h (i, 0));
          let value := value + Z.land b 127 * multiplier in
          let multiplier := multiplier * 128 in
          if negb (Z.land b 128 =? 0)
          then decodePacket_loop fuel c i timeout value multiplier len
          else mret (len, value)
  end.

Definition decodePacket (c : receiver) (timeout : Z) : T (Z * Z) :=
  with_local (λ i, decodePacket_loop 5 c i timeout 0 1 0).

(** [MQTTPacket_encode(c->readbuf + 1, rem_len)] *)
Definition encode_readbuf (c : receiver) (rem_len : Z) : T Z :=
  h ← gets mem;
  buf ← lift (match h !! readbuf c with Some b => Ok b | None => UB OutOfBounds end);
  '(k, buf) ← lift (MQTTPacket_encode rem_len buf 1);
  set_mem (<[readbuf c := buf]> h) ;; mret k.

(** The result, the timer and [c->last_received]. *)
Definition readPacket (c : receiver) (timer : Timer) : T (Z * Timer * Timer) :=
  '(ms, timer) ← sys (TimerLeftMS timer);
  rc ← n_mqttread (ipstack c) (readbuf c, 0) 1 (to_uint ms);
  if negb (rc =? 1) then mret (rc, timer, last_received c)
  else
    '(ms, timer) ← sys (TimerLeftMS timer);
    '(_, rem_len) ← decodePacket c ms;
    k ← encode_readbuf c rem_len;
    let len := 1 + k in
    if to_size (readbuf_size c - len) <? rem_len
    then mret (BUFFER_OVERFLOW, timer, last_received c)
    else
      '(bad, timer) ← (
        if 0 <? rem_len then
          '(ms, timer) ← sys (TimerLeftMS timer);
          rc ← n_mqttread (ipstack c) (readbuf c, len) (to_uint rem_len) (to_uint ms);
          mret (negb (rc =? rem_len), timer)
        else mret (false, timer));
      if bad : bool then mret (0, timer, last_received c)
      else
        h ← gets mem;
        b ← lift (heap_load h (readbuf c, 0));
        t ← (if 0 <? keepAliveInterval c
             then sys (TimerCountdown (to_uint (keepAliveInterval c)))
             else mret (last_received c));
        mret (header_type b, timer, t).

(** ** What the network delivers *)

(** The clock and the run are those of FreeRTOS.v: from tick [t0] to before tick [t1]. *)
Context (now : W → Z) (start : TimeOut_t → Z) (t0 t1 : Z).

(** [S w bs]: within the run, the TLS session will give [bs], as many bytes at once as are
    asked for, and select reports its socket [sk]. *)
Record delivering (sk : Z) (ssl : option SSL) (S : W → list Z → Prop) : Prop :=
  { de_within w bs : S w bs → within now t0 t1 w;
    de_select w bs tv : S w bs → bs ≠ [] → ∃ w',
      select (sk + 1) [sk] [] [sk] tv w = Ok ((1, [sk], [], []), w') ∧ S w' bs;
    de_read w bs rest : S w (bs ++ rest) → bs ≠ [] → ∃ w',
      SSL_read ssl (len bs) w = Ok ((len bs, bs), w') ∧ S w' rest }.

Context (sk : Z) (ctx : option SSL_CTX) (ssl : option SSL) (S : W → list Z → Prop).
Context (HC : clock now start) (HP : 0 < portTICK_PERIOD_MS) (Hsk : 0 ≤ sk < INT_MAX).
Context (HS : delivering sk ssl S).

Abbreviation at_count n rb h w := (mkTls sk n ctx ssl rb h w).

(** A timer that runs until the end of the run leaves more than a tick. *)
Lemma run_left timer n rb h w bs :
  S w bs → lasting start t0 t1 timer →
  ∃ ms t, sys (TimerLeftMS timer) (at_count n rb h w) = Ok ((ms, t), at_count n rb h w) ∧
    lasting start t0 t1 t ∧ portTICK_PERIOD_MS ≤ to_uint ms.
Proof.
  intros Hw Ht. pose proof (de_within _ _ _ HS w bs Hw) as Hin.
  destruct (left_lasting now start t0 t1 HC HP timer w Hin Ht) as (ms & T & E & HT & Ho).
  exists ms, T. split; [unfold sys; cbn [world]; by rewrite E|]. split; [done|].
  unfold outlasts, within in *. destruct (Z.le_gt_cases portTICK_PERIOD_MS (to_uint ms)); [done|].
  rewrite Z.div_small in Ho by (unfold to_uint in *; lia). lia.
Qed.

(** The first call for a packet takes all of it from the session. *)
Lemma ssl_first fuel b buf hd body rest n ms rb h w :
  h !! b = Some buf → 2 + len body ≤ len buf → len body < 128 →
  S w (hd :: len body :: body ++ rest) →
  ∃ w', esp_ssl_read (Datatypes.S fuel) (b, 0) n ms (at_count 0 rb h w) =
      Ok (1, at_count 1 (Some (b, 0)) (<[b := over (hd :: len body :: body) buf]> h) w') ∧
    S w' rest.
Proof.
  intros Hb Hl H128 Hw. destruct buf as [|x [|y tl]]; [cbn in Hl; lia..|].
  destruct (ck_set _ _ HC w) as (t & E1 & _).
  destruct (de_select _ _ _ HS w _ (timeval_of ms) Hw) as (w2 & E2 & Hw2); [done|].
  destruct (de_read _ _ _ HS w2 [hd; len body] (body ++ rest) Hw2) as (w3 & E3 & Hw3); [done|].
  rewrite (ssl_read_first_head fuel b [] x y tl ms n t w w [sk] [] w2 hd (len body) w3)
    by (done || apply list_elem_of_here). cbn [app].
  destruct (Z.ltb_spec 0 (len body)) as [L|L].
  - destruct (de_read _ _ _ HS w3 body rest Hw3) as (w4 & E4 & Hw4); [intros ->; cbn in L; lia|].
    exists w4. split; [|done].
    assert (Es : heap_store (<[b:=[hd; len body] ++ tl]> h) (b, 2) body =
      Ok (<[b := over (hd :: len body :: body) (x :: y :: tl)]> h)).
    { unfold heap_store. cbn [fst snd]. rewrite lookup_insert_eq.
      change ([hd; len body] ++ tl) with (over [hd; len body] (x :: y :: tl)).
      rewrite (store_over [hd; len body] body _ 2) by (done || cbn [length] in *; lia).
      cbn. by rewrite insert_insert_eq. }
    change (len [] + 2) with 2.
    rewrite (run_bind _ _ _ _ _ (ssl_read_loop_whole fuel (b, 2) (len body) t _ sk 0 ctx ssl _ _ w3
      body w4 _ ltac:(unfold INT_MAX; lia) E4 Es)). done.
  - destruct body; [|cbn in L; lia]. exists w3. split; [|done]. reflexivity.
Qed.

(** decodePacket takes the length from the readbuf of the client. *)
Lemma decode_second b hd l tl ms c fuel h w :
  h !! b = Some (hd :: l :: tl) → 0 ≤ l < 128 → portTICK_PERIOD_MS ≤ to_uint ms →
  ipstack c = NetworkOps (esp_ssl_read fuel) (esp_ssl_write fuel) esp_ssl_disconnect →
  decodePacket c ms (at_count 1 (Some (b, 0)) h w) = Ok ((1, l), at_count 2 (Some (b, 0)) h w).
Proof.
  intros Hb Hl Hm Hc. unfold decodePacket, with_local. rewrite bind_gets. cbn [mem].
  set (i := fresh (dom h)).
  assert (Hi : h !! i = None) by (apply not_elem_of_dom, is_fresh).
  assert (Hne : i ≠ b) by (intros E; congruence).
  rewrite (run_bind _ _ _ tt (at_count 1 (Some (b, 0)) (<[i := [0]]> h) w)) by reflexivity.
  rewrite (run_bind _ _ _ (1, l) (at_count 2 (Some (b, 0)) (<[i := [l]]> h) w)).
  - rewrite bind_gets. cbn [mem].
    rewrite (run_bind _ _ _ tt (at_count 2 (Some (b, 0)) h w)); [done|].
    unfold set_mem, modify. cbn. by rewrite delete_insert_id.
  - cbn [decodePacket_loop]. change (MAX_NO_OF_REMAINING_LENGTH_BYTES <? 0 + 1) with false.
    rewrite Hc. cbn [n_mqttread]. cbv iota.
    rewrite (run_bind _ _ _ 1 (at_count 2 (Some (b, 0)) (<[i := [l]]> h) w)).
    + change (1 =? 1) with true. cbn [negb]. rewrite bind_gets. cbn [mem].
      rewrite (run_bind _ _ _ l (at_count 2 (Some (b, 0)) (<[i := [l]]> h) w))
        by (apply run_lift; unfold heap_load; cbn [fst snd]; by rewrite lookup_insert_eq).
      rewrite land_127, land_128, Z.mod_small by (unfold byte; lia). ztest. cbn [negb].
      rewrite run_ret. do 3 f_equal; lia.
    + apply (ssl_read_second now start fuel (i, 0) b [] hd l tl _ 1 (to_uint ms) sk ctx ssl); [done|lia| |].
      * by rewrite lookup_insert_ne.
      * unfold heap_store. cbn [fst snd].
        by rewrite lookup_insert_eq, (bind_Ok _ _ [l]), insert_insert_eq.
Qed.

Context (c : receiver) (fuel : nat) (buf : list Z).
Context (Hc : ipstack c = NetworkOps (esp_ssl_read (Datatypes.S fuel))
                            (esp_ssl_write (Datatypes.S fuel)) esp_ssl_disconnect).
Context (Hsize : readbuf_size c = len buf) (Hmax : len buf ≤ INT_MAX).

(** The length goes back where it is. *)
Lemma encode_same hd body n rb h w :
  h !! readbuf c = Some (over (packet hd body) buf) → len body < 128 → 2 + len body ≤ len buf →
  encode_readbuf c (len body) (at_count n rb h w) = Ok (1, at_count n rb h w).
Proof.
  intros Hb Hl Hbuf. unfold encode_readbuf. rewrite bind_gets. cbn [mem]. rewrite Hb.
  rewrite run_bind_lift_Ok.
  assert (Ev : varint (len body) = [len body]) by (unfold varint; cbn [varint_k]; by ztest).
  assert (Eo : over (packet hd body) buf = over [hd] (over (packet hd body) buf)) by done.
  rewrite Eo at 1.
  rewrite (run_bind _ _ _ _ _ (run_lift _ _ _ (encode_over [hd] (len body)
    (over (packet hd body) buf) 1 eq_refl ltac:(unfold INT_MAX; lia) ltac:(rewrite Ev, over_length;
      rewrite ?Ev; unfold packet; rewrite ?Ev; cbn [length app]; lia)))).
  rewrite Ev. change (len [len body]) with 1.
  assert (over ([hd] ++ [len body]) (over (packet hd body) buf) = over (packet hd body) buf) as ->.
  { unfold packet. rewrite Ev. done. }
  unfold set_mem. rewrite (run_bind _ _ _ tt (at_count n rb h w)); [done|].
  unfold modify. cbn. by rewrite insert_id.
Qed.

(** The end of readPacket. *)
Abbreviation read_end t3 :=
  (h ← gets mem; b ← lift (heap_load h (readbuf c, 0));
   t ← (if 0 <? keepAliveInterval c then sys (TimerCountdown (to_uint (keepAliveInterval c)))
        else mret (last_received c)); (mret (header_type b, t3, t) : T (Z * Timer * Timer))).

Lemma read_end_returns b tl (t3 : Timer) n rb h w :
  h !! readbuf c = Some (b :: tl) →
  ∃ tr, read_end t3 (at_count n rb h w) = Ok ((header_type b, t3, tr), at_count n rb h w).
Proof.
  intros Hb. rewrite bind_gets. cbn [mem].
  rewrite (run_bind _ _ _ b (at_count n rb h w))
    by (apply run_lift; unfold heap_load; cbn [fst snd]; by rewrite Hb).
  destruct (0 <? keepAliveInterval c); [|by eexists].
  destruct (ck_set _ _ HC w) as (t & E & _).
  set (T := mkTimer (to_uint (to_uint (keepAliveInterval c) * 1000) / portTICK_PERIOD_MS) t).
  exists T. rewrite (bind_sys _ _ _ _ _ _ _ _ _ T w); [done|].
  unfold TimerCountdown, TimerCountdownMS.
  rewrite (run_bind _ _ _ _ _ (run_to_ticks _ w HP)). by rewrite (run_bind _ _ _ _ _ E).
Qed.

(** One packet of less than 128 bytes of body, from a network at rest: readPacket returns its
    type with the packet in readbuf. With a body the network is at rest again; without one it
    still waits for the call that would fetch the body. *)
Lemma readPacket_short hd body rest timer rb h w :
  byte hd → len body < 128 → 2 + len body ≤ len buf → h !! readbuf c = Some buf →
  S w (packet hd body ++ rest) → lasting start t0 t1 timer →
  ∃ t tr w', readPacket c timer (at_count 0 rb h w) =
      Ok ((header_type hd, t, tr),
          at_count (if bool_decide (body = []) then 2 else 0) (Some (readbuf c, 0))
            (<[readbuf c := over (packet hd body) buf]> h) w') ∧ S w' rest ∧ lasting start t0 t1 t.
Proof.
  intros Hhd Hl Hbuf Hb Hw Ht.
  assert (Ep : packet hd body = hd :: len body :: body)
    by (unfold packet, varint; cbn [varint_k]; by ztest).
  unfold readPacket. destruct (run_left timer 0 rb h w _ Hw Ht) as (ms & T1 & E1 & Ht1 & _).
  rewrite (run_bind _ _ _ _ _ E1), Hc. cbn [n_mqttread].
  rewrite Ep in Hw. cbn [app] in Hw.
  destruct (ssl_first fuel (readbuf c) buf hd body rest 1 (to_uint ms) rb h w Hb Hbuf Hl Hw)
    as (w2 & E2 & Hw2).
  rewrite (run_bind _ _ _ _ _ E2). change (negb (1 =? 1)) with false. cbv iota.
  rewrite <- Ep. set (h2 := <[readbuf c := over (packet hd body) buf]> h).
  assert (Hb2 : h2 !! readbuf c = Some (over (packet hd body) buf)) by apply lookup_insert_eq.
  destruct (run_left T1 1 (Some (readbuf c, 0)) h2 w2 _ Hw2 Ht1) as (ms2 & T2 & E3 & Ht2 & Hm2).
  rewrite (run_bind _ _ _ _ _ E3).
  assert (E4 : decodePacket c ms2 (at_count 1 (Some (readbuf c, 0)) h2 w2) =
    Ok ((1, len body), at_count 2 (Some (readbuf c, 0)) h2 w2)).
  { eapply decode_second; [rewrite Hb2, Ep; reflexivity|lia|exact Hm2|exact Hc]. }
  rewrite (run_bind _ _ _ _ _ E4).
  rewrite (run_bind _ _ _ _ _ (encode_same hd body _ _ _ _ Hb2 Hl Hbuf)). cbv zeta.
  assert (to_size (readbuf_size c - (1 + 1)) <? len body = false) as ->.
  { unfold to_size. rewrite Hsize, Z.mod_small by (unfold INT_MAX in *; destruct lp64; lia).
    destruct (Z.ltb_spec (len buf - (1 + 1)) (len body)); [lia|done]. }
  assert (Fin : ∀ (t3 : Timer) n, ∃ tr, read_end t3 (at_count n (Some (readbuf c, 0)) h2 w2) =
    Ok ((header_type hd, t3, tr), at_count n (Some (readbuf c, 0)) h2 w2))
    by (intros; eapply read_end_returns; rewrite Hb2, Ep; reflexivity).
  destruct body as [|x body].
  - destruct (Fin T2 2) as [tr E]. exists T2, tr, w2. split; [|by split]. exact E.
  - set (bd := x :: body) in *. rewrite bool_decide_eq_false_2 by done.
    assert (0 <? len bd = true) as -> by (unfold bd; cbn [length]; ztest; done).
    destruct (run_left T2 2 (Some (readbuf c, 0)) h2 w2 _ Hw2 Ht2) as (ms3 & T3 & E5 & Ht3 & Hm3).
    destruct (Fin T3 0) as [tr E]. exists T3, tr, w2. split; [|by split].
    rewrite run_assoc, (run_bind _ _ _ _ _ E5).
    assert (E6 : esp_ssl_read (Datatypes.S fuel) (readbuf c, 1 + 1) (to_uint (len bd)) (to_uint ms3)
        (at_count 2 (Some (readbuf c, 0)) h2 w2) =
      Ok (len bd, at_count 0 (Some (readbuf c, 0)) h2 w2)).
    { rewrite to_uint_id by (unfold INT_MAX; lia).
      apply (ssl_read_third now start (Datatypes.S fuel) (readbuf c) [] hd bd (drop (length (packet hd bd)) buf));
        [done|lia|unfold INT_MAX; lia|].
      rewrite Hb2. unfold over. rewrite Ep. done. }
    rewrite run_assoc, (run_bind _ _ _ _ _ E6), run_bind_ret, Z.eqb_refl. exact E.
Qed.

(** Over TLS too readPacket brings a packet into readbuf, byte for byte, and returns its type,
    and the network is at rest again: for packets with a body of one to 127 bytes that fit
    readbuf. *)
Theorem tls_readPacket_correct hd body rest timer rb h w :
  byte hd → 0 < len body < 128 → 2 + len body ≤ len buf → h !! readbuf c = Some buf →
  S w (packet hd body ++ rest) → lasting start t0 t1 timer →
  ∃ t tr w', readPacket c timer (at_count 0 rb h w) =
      Ok ((header_type hd, t, tr),
          at_count 0 (Some (readbuf c, 0)) (<[readbuf c := over (packet hd body) buf]> h) w') ∧
    S w' rest.
Proof.
  intros Hhd Hl Hbuf Hb Hw Ht.
  destruct (readPacket_short hd body rest timer rb h w) as (t & tr & w' & E & Hw' & _); try done; [lia|].
  exists t, tr, w'. split; [|done]. rewrite E. by rewrite bool_decide_eq_false_2 by (intros ->; cbn in Hl; lia).
Qed.

(** ** After a packet without a body *)

(** The call that was not made: the next packet starts with a byte of the last one. *)
Lemma third_late b x y z tl n rb h w :
  h !! b = Some (x :: y :: z :: tl) → rb = Some (b, 0) → portTICK_PERIOD_MS ≤ n →
  esp_ssl_read (Datatypes.S fuel) (b, 0) 1 n (at_count 2 rb h w) =
    Ok (1, at_count 0 (Some (b, 0)) (<[b := z :: y :: z :: tl]> h) w).
Proof.
  intros Hb -> Hn. unfold esp_ssl_read.
  destruct (run_expired_at_once now start n w HC ltac:(lia)) as (t & t' & ticks' & E1 & E2).
  rewrite (run_bind _ _ _ (n / portTICK_PERIOD_MS) _)
    by (apply run_lift; unfold to_ticks; by ztest).
  rewrite (bind_sys _ _ _ _ _ _ _ _ _ _ _ E1), bind_gets. cbn [read_count Z.eqb Pos.eqb].
  rewrite (run_bind _ _ _ tt (at_count 0 (Some (b, 0)) h w)) by reflexivity.
  unfold expired. rewrite (bind_sys _ _ _ _ _ _ _ _ _ _ _ E2).
  change (pdFALSE =? pdTRUE) with false. cbv iota.
  rewrite (run_bind _ _ _ (b, 0) (at_count 0 (Some (b, 0)) h w)) by reflexivity.
  rewrite bind_gets. cbn [mem].
  assert (Er : heap_read h (shift (b, 0) 2) 1 = Ok [z]).
  { unfold heap_read, shift. cbn [fst snd]. rewrite Hb. apply (load_bytes_app [x; y] [z] tl); done. }
  rewrite (run_bind _ _ _ _ _ (run_lift _ _ _ Er)).
  assert (Es : heap_store h (b, 0) [z] = Ok (<[b := z :: y :: z :: tl]> h)).
  { apply (heap_store_over h b [] [x] (y :: z :: tl) [z] Hb eq_refl). }
  by rewrite (run_bind _ _ _ _ _ (run_store _ _ _ _ _ _ _ _ _ _ Es)).
Qed.

(** A first call when nothing arrives. *)
Lemma first_silent i n ms k r ws e rb h w w2 :
  select (sk + 1) [sk] [] [sk] (timeval_of ms) w = Ok ((k, r, ws, e), w2) → k ≤ 0 →
  esp_ssl_read (Datatypes.S fuel) (i, 0) n ms (at_count 0 rb h w) = Ok (0, at_count 0 rb h w2).
Proof.
  intros E2 Hk. unfold esp_ssl_read. destruct (ck_set _ _ HC w) as (t & E1 & _).
  rewrite (run_bind _ _ _ (ms / portTICK_PERIOD_MS) _)
    by (apply run_lift; unfold to_ticks; by ztest).
  rewrite (bind_sys _ _ _ _ _ _ _ _ _ _ _ E1), bind_gets. cbn [read_count Z.eqb].
  unfold ssl_read_first. rewrite bind_gets. cbn [t_socket].
  rewrite (run_bind _ _ _ (sk + 1) _) by (apply run_lift, iadd_Ok; unfold INT_MIN; lia).
  rewrite (bind_sys _ _ _ _ _ _ _ _ _ _ _ E2). by ztest.
Qed.

Lemma decode_silent ms k r ws e rb h w w2 :
  select (sk + 1) [sk] [] [sk] (timeval_of (to_uint ms)) w = Ok ((k, r, ws, e), w2) → k ≤ 0 →
  decodePacket c ms (at_count 0 rb h w) = Ok ((1, 0), at_count 0 rb h w2).
Proof.
  intros E Hk. unfold decodePacket, with_local. rewrite bind_gets. cbn [mem]. set (i := fresh (dom h)).
  rewrite (run_bind _ _ _ tt (at_count 0 rb (<[i := [0]]> h) w)) by reflexivity.
  rewrite (run_bind _ _ _ (1, 0) (at_count 0 rb (<[i := [0]]> h) w2)).
  - rewrite bind_gets. cbn [mem].
    rewrite (run_bind _ _ _ tt (at_count 0 rb h w2)); [done|].
    unfold set_mem, modify. cbn. rewrite delete_insert_id; [done|].
    apply not_elem_of_dom, is_fresh.
  - cbn [decodePacket_loop]. change (MAX_NO_OF_REMAINING_LENGTH_BYTES <? 0 + 1) with false. cbv iota.
    rewrite Hc. cbn [n_mqttread].
    by rewrite (run_bind _ _ _ _ _ (first_silent _ _ _ _ _ _ _ _ _ _ _ E Hk)).
Qed.

Lemma encode_zero x y tl n rb h w :
  h !! readbuf c = Some (x :: y :: tl) →
  encode_readbuf c 0 (at_count n rb h w) = Ok (1, at_count n rb (<[readbuf c := x :: 0 :: tl]> h) w).
Proof.
  intros Hb. unfold encode_readbuf. rewrite bind_gets. cbn [mem]. rewrite Hb, run_bind_lift_Ok.
  by rewrite (run_bind _ _ _ _ _ (run_lift _ _ _ (encode_over [x] 0 (x :: y :: tl) 1 eq_refl
    ltac:(unfold INT_MAX; lia) ltac:(cbn; lia)))).
Qed.

(** A variable of one byte has no room for the header of a packet. *)
Lemma first_into_local i z ms bs rb h w :
  h !! i = Some [z] → S w bs → 2 ≤ len bs →
  esp_ssl_read (Datatypes.S fuel) (i, 0) 1 ms (at_count 0 rb h w) = UB OutOfBounds.
Proof.
  intros Hi Hw Hl. unfold esp_ssl_read. destruct (ck_set _ _ HC w) as (t & E1 & _).
  rewrite (run_bind _ _ _ (ms / portTICK_PERIOD_MS) _)
    by (apply run_lift; unfold to_ticks; by ztest).
  rewrite (bind_sys _ _ _ _ _ _ _ _ _ _ _ E1), bind_gets. cbn [read_count Z.eqb].
  unfold ssl_read_first. rewrite bind_gets. cbn [t_socket].
  rewrite (run_bind _ _ _ (sk + 1) _) by (apply run_lift, iadd_Ok; unfold INT_MIN; lia).
  destruct (de_select _ _ _ HS w _ (timeval_of ms) Hw) as (w2 & E2 & Hw2);
    [intros ->; cbn in Hl; lia|].
  rewrite (bind_sys _ _ _ _ _ _ _ _ _ _ _ E2). change (0 <? 1) with true. cbv iota.
  assert (FD_ISSET sk [] = false) as -> by (apply bool_decide_eq_false, not_elem_of_nil).
  assert (FD_ISSET sk [sk] = true) as -> by (by apply bool_decide_eq_true, list_elem_of_here).
  rewrite (run_bind _ _ _ tt (at_count 0 (Some (i, 0)) h w2)) by reflexivity.
  apply run_bind_UB. cbn [ssl_read_loop]. rewrite bind_gets. cbn [t_ssl].
  destruct bs as [|x [|y bs]]; [cbn in Hl; lia..|].
  destruct (de_read _ _ _ HS w2 [x; y] bs Hw2) as (w3 & E3 & _); [done|].
  rewrite (bind_sys _ _ _ _ _ _ _ _ _ _ _ E3).
  apply run_bind_UB. unfold store. rewrite bind_gets. cbn [mem]. apply run_bind_UB. unfold lift.
  by rewrite (heap_store_overrun h i [z] 0 [x; y] Hi).
Qed.

(** C18: after a packet without a body, as a PINGRESP is one, the network waits for a call that
    readPacket does not make. When the next packet arrives, its header is stored at the
    address of the local variable of decodePacket, which has room for one byte. The two reads are
    over before their timer runs out. *)
Theorem tls_packet_after_ping_overruns hd bs timer rb h w :
  byte hd → 3 ≤ len buf → h !! readbuf c = Some buf → S w (packet hd [] ++ bs) → 2 ≤ len bs →
  lasting start t0 t1 timer →
  ('(_, timer, _) ← readPacket c timer; readPacket c timer) (at_count 0 rb h w) = UB OutOfBounds.
Proof.
  intros Hhd Hbuf Hb Hw Hbs Ht.
  destruct (readPacket_short hd [] bs timer rb h w) as (t & tr & w' & E & Hw' & Ht');
    [done|done|cbn [length]; lia|done|done|done|].
  rewrite (run_bind _ _ _ _ _ E). cbv beta iota. change (bool_decide _) with true.
  set (h1 := <[readbuf c := _]> h).
  destruct buf as [|x [|y [|z tl]]]; [cbn in Hbuf; lia..|].
  assert (Hb1 : h1 !! readbuf c = Some (hd :: 0 :: z :: tl)) by apply lookup_insert_eq.
  unfold readPacket. destruct (run_left t 2 (Some (readbuf c, 0)) h1 w' _ Hw' Ht') as (ms & T1 & E1 & Ht1 & Hm1).
  rewrite (run_bind _ _ _ _ _ E1), Hc. cbn [n_mqttread].
  rewrite (run_bind _ _ _ _ _ (third_late (readbuf c) hd 0 z tl (to_uint ms) _ h1 w' Hb1 eq_refl Hm1)).
  change (negb (1 =? 1)) with false. cbv iota.
  set (h2 := <[readbuf c := z :: _]> h1).
  destruct (run_left T1 0 (Some (readbuf c, 0)) h2 w' _ Hw' Ht1) as (ms2 & T2 & E2 & _).
  rewrite (run_bind _ _ _ _ _ E2). apply run_bind_UB.
  unfold decodePacket, with_local. rewrite bind_gets. cbn [mem]. set (i := fresh (dom h2)).
  rewrite (run_bind _ _ _ tt (at_count 0 (Some (readbuf c, 0)) (<[i := [0]]> h2) w')) by reflexivity.
  apply run_bind_UB. cbn [decodePacket_loop].
  change (MAX_NO_OF_REMAINING_LENGTH_BYTES <? 0 + 1) with false. cbv iota.
  rewrite Hc. cbn [n_mqttread]. apply run_bind_UB.
  by apply (first_into_local i 0 _ bs _ _ _ (lookup_insert_eq _ _ _)).
Qed.

(** When nothing arrives either, the second call returns the type of a packet all the same:
    its first byte is the third byte of readbuf, and it is taken for a packet without a
    body. *)
Theorem tls_phantom_packet hd timer rb h w x y z tl :
  byte hd → buf = x :: y :: z :: tl → h !! readbuf c = Some buf → S w (packet hd []) →
  lasting start t0 t1 timer →
  (∀ w tv, S w [] → ∃ k r ws e w', select (sk + 1) [sk] [] [sk] tv w = Ok ((k, r, ws, e), w') ∧ k ≤ 0) →
  ∃ t tr w', ('(_, timer, _) ← readPacket c timer; readPacket c timer) (at_count 0 rb h w) =
    Ok ((header_type z, t, tr),
        at_count 0 (Some (readbuf c, 0)) (<[readbuf c := z :: 0 :: z :: tl]> h) w').
Proof.
  intros Hhd Ebuf Hb Hw Ht Hsel.
  destruct (readPacket_short hd [] [] timer rb h w) as (t & tr & w1 & E & Hw' & Ht');
    [done|done|rewrite Ebuf; cbn [length]; lia|done|by rewrite app_nil_r|done|].
  rewrite (run_bind _ _ _ _ _ E). cbv beta iota. change (bool_decide _) with true. rewrite Ebuf.
  set (h1 := <[readbuf c := _]> h).
  assert (Hb1 : h1 !! readbuf c = Some (hd :: 0 :: z :: tl)) by apply lookup_insert_eq.
  unfold readPacket. destruct (run_left t 2 (Some (readbuf c, 0)) h1 w1 _ Hw' Ht') as (ms & T1 & E1 & Ht1 & Hm1).
  rewrite (run_bind _ _ _ _ _ E1), Hc. cbn [n_mqttread].
  rewrite (run_bind _ _ _ _ _ (third_late (readbuf c) hd 0 z tl (to_uint ms) _ h1 w1 Hb1 eq_refl Hm1)).
  change (negb (1 =? 1)) with false. cbv iota.
  set (h2 := <[readbuf c := z :: _]> h1).
  assert (Hb2 : h2 !! readbuf c = Some (z :: 0 :: z :: tl)) by apply lookup_insert_eq.
  destruct (run_left T1 0 (Some (readbuf c, 0)) h2 w1 _ Hw' Ht1) as (ms2 & T2 & E2 & _).
  rewrite (run_bind _ _ _ _ _ E2).
  destruct (Hsel w1 (timeval_of (to_uint ms2)) Hw') as (k & r & ws & e & w2 & E5 & Hk).
  rewrite (run_bind _ _ _ _ _ (decode_silent _ _ _ _ _ _ _ _ _ E5 Hk)).
  rewrite (run_bind _ _ _ _ _ (encode_zero _ _ _ _ _ _ _ Hb2)). cbv zeta.
  assert (to_size (readbuf_size c - (1 + 1)) <? 0 = false) as ->
    by (unfold to_size; destruct lp64; ztest; done).
  change (0 <? 0) with false. cbv iota. rewrite run_bind_ret.
  assert (<[readbuf c := z :: 0 :: z :: tl]> h2 = <[readbuf c := z :: 0 :: z :: tl]> h) as ->
    by (unfold h2, h1; by rewrite !insert_insert_eq).
  destruct (read_end_returns z (0 :: z :: tl) T2 0 (Some (readbuf c, 0))
    (<[readbuf c := z :: 0 :: z :: tl]> h) w2 (lookup_insert_eq _ _ _)) as [tr' E'].
  by exists T2, tr', w2.
Qed.

End Receive.

(** ** Sending *)

Section Send.
Context `{CImpl} {W : Type} `{RTOS W} `{OpenSSL W}.

Context (now : W → Z) (start : TimeOut_t → Z) (t0 t1 : Z).

(** A session on a socket that is ready, and takes between one and all of the bytes it is
    offered. [S w l] tracks the log [l] of what it has taken. *)
Record accepting (sk : Z) (ssl : option SSL) (S : W → list Z → Prop) : Prop :=
  { ac_within w l : S w l → within now t0 t1 w;
    ac_select w l tv : S w l → ∃ w',
      select (sk + 1) [] [sk] [sk] tv w = Ok ((1, [], [sk], []), w') ∧ now w ≤ now w' ∧ S w' l;
    ac_write w l p n bs : S w l → 0 < n → mem_read (Some p) n = Ok bs → ∃ k w', 0 < k ≤ n ∧
      SSL_write ssl p n w = Ok (k, w') ∧ S w' (l ++ take (Z.to_nat k) bs) }.

Context (sk : Z) (ctx : option SSL_CTX) (ssl : option SSL) (S : W → list Z → Prop).
Context (HC : clock now start) (HP : 0 < portTICK_PERIOD_MS) (Hsk : 0 ≤ sk < INT_MAX).
Context (HS : accepting sk ssl S).

Lemma ssl_write_loop_sends fuel buf i bs sent t ticks n rb h w l :
  S w l → 0 ≤ i → load_bytes buf i (len bs) = Ok bs → 0 ≤ sent < len bs →
  len bs ≤ INT_MAX → len bs - sent ≤ Z.of_nat fuel → t1 ≤ start t + ticks →
  ∃ w', ssl_write_loop fuel (Ptr buf i) (len bs) sent t ticks (mkTls sk n ctx ssl rb h w) =
      Ok (len bs, mkTls sk n ctx ssl rb h w') ∧ S w' (l ++ drop (Z.to_nat sent) bs).
Proof.
  intros Hw Hi Hb Hs HI. revert sent t ticks w l Hs Hw.
  induction fuel as [|fuel IH]; intros sent t ticks w l Hs Hw Hf Ht; [lia|].
  cbn [ssl_write_loop obj off]. rewrite bind_gets. cbn [t_ssl]. rewrite to_uint_id by lia.
  destruct (load_bytes_inv _ _ _ _ Hb) as (_ & _ & Hlen & tl & Ed); [lia|].
  assert (Er : mem_read (Some (Ptr buf (i + sent))) (len bs - sent) = Ok (drop (Z.to_nat sent) bs)).
  { eapply (mem_read_rest _ _ _ _ tl); [lia| |rewrite length_drop; lia].
    rewrite <- drop_drop_Z by lia. by rewrite Ed, drop_app_le by lia. }
  destruct (ac_write _ _ _ HS w l (Ptr buf (i + sent)) (len bs - sent) _ Hw ltac:(lia) Er)
    as (k & w1 & Hk & E & A1).
  rewrite (bind_sys _ _ _ _ _ _ _ _ _ _ _ E). ztest. ztest.
  rewrite (run_bind _ _ _ (sent + k) _) by (apply run_lift, iadd_Ok; unfold INT_MIN; lia).
  rewrite to_uint_id by lia. destruct (Z.ltb_spec (sent + k) (len bs)).
  - pose proof (ac_within _ _ _ HS w1 _ A1) as Hin. unfold within in Hin.
    destruct (run_check_early now start HC t ticks w1) as (t2 & ticks2 & E2 & Edl & _); [lia|].
    unfold expired. rewrite (bind_sys _ _ _ _ _ _ _ _ _ _ _ E2).
    change (pdFALSE =? pdFALSE) with true. cbv iota.
    destruct (IH (sent + k) t2 ticks2 w1 _ ltac:(lia) A1 ltac:(lia) ltac:(lia)) as (w' & E' & A').
    exists w'. split; [done|]. rewrite <- app_assoc in A'.
    rewrite <- drop_drop_Z in A' by lia. by rewrite take_drop in A'.
  - exists w1. rewrite take_ge in A1 by (rewrite length_drop; lia). split; [|done].
    rewrite run_ret. do 2 f_equal. lia.
Qed.

(** On a ready socket esp_ssl_write hands all the bytes it is given to the session, in order
    and once, however few of them each call takes. *)
Theorem esp_ssl_write_sends_all fuel buf i k bs ms n rb h w l :
  S w l → 0 ≤ i → 0 < k ≤ INT_MAX → load_bytes buf i k = Ok bs → k ≤ Z.of_nat fuel →
  outlasts now t1 w ms →
  ∃ w', esp_ssl_write fuel (Ptr buf i) k ms (mkTls sk n ctx ssl rb h w) =
      Ok (k, mkTls sk n ctx ssl rb h w') ∧ S w' (l ++ bs).
Proof.
  intros Hw Hi Hk Hb Hf Hms. destruct (load_bytes_inv _ _ _ _ Hb) as (_ & Hl & _); [lia|]. subst k.
  unfold esp_ssl_write.
  rewrite (run_bind _ _ _ (ms / portTICK_PERIOD_MS) _)
    by (apply run_lift; unfold to_ticks; by ztest).
  destruct (ck_set _ _ HC w) as (t & E1 & Et). rewrite (bind_sys _ _ _ _ _ _ _ _ _ _ _ E1), bind_gets.
  cbn [t_socket]. destruct (ac_select _ _ _ HS w _ (timeval_of ms) Hw) as (w2 & E2 & Hle & A2).
  rewrite (run_bind _ _ _ ([sk] : fd_set, [] : fd_set) (mkTls sk n ctx ssl rb h w2)).
  - assert (FD_ISSET sk [] = false) as -> by (apply bool_decide_eq_false, not_elem_of_nil).
    assert (FD_ISSET sk [sk] = true) as -> by (by apply bool_decide_eq_true, list_elem_of_here).
    by destruct (ssl_write_loop_sends fuel buf i bs 0 t (ms / portTICK_PERIOD_MS) n rb h w2 l)
      as (w' & E & A'); [done..|lia|lia|lia|unfold outlasts in Hms; lia|exists w'].
  - destruct fuel as [|fuel]; [lia|]. cbn [ssl_write_wait].
    rewrite (run_bind _ _ _ (sk + 1) _) by (apply run_lift, iadd_Ok; unfold INT_MIN; lia).
    by rewrite (bind_sys _ _ _ _ _ _ _ _ _ _ _ E2).
Qed.

End Send.

(** ** Examples *)

#[local] Existing Instance esp32.
#[local] Existing Instance rtos_sim.

Definition tls_ops : network_ops (H1 := ssl_sim) :=
  NetworkOps (H1 := ssl_sim) (esp_ssl_read 9)
    (esp_ssl_write 9) (esp_ssl_disconnect).

(** A client with a readbuf of eight bytes, object 0. *)
Definition tls_receiver : receiver (H1 := ssl_sim) :=
  mkReceiver (H1 := ssl_sim) tls_ops 0 8 60
    (mkTimer 0 (tick 0)).

Abbreviation read_sim :=
  (readPacket (H1 := ssl_sim) tls_receiver (mkTimer 40 (tick 0))).

(** What NetworkInitSSL stores. *)
Example tls_ops_installed :
  ∃ s, NetworkInitSSL (H1 := ssl_sim) 9 (tls_sim [] []) = Ok (tls_ops, s).
Proof. by eexists. Qed.

(** Every call of SSL_read takes a tick, and there are at most twenty of them. *)
Abbreviation session_sim :=
  (λ (y : system) bs, y_in y = bs ∧ len bs ≤ y_chunk y ∧ y_writable y = true ∧ 0 ≤ y_ticks y ≤ 20 - len bs).

Lemma sim_delivering : delivering (H1 := ssl_sim) y_ticks 0 40 54 None session_sim.
Proof.
  split.
  - intros w bs (_ & _ & _ & Ht). unfold within. lia.
  - intros w bs tv (Hw & Hc & Hr & Ht) Hb. exists w. split; [|done]. cbn. unfold select_sys.
    rewrite bool_decide_eq_false_2 by congruence. by rewrite Hr.
  - intros w bs rest (Hw & Hc & Hr & Ht) Hb. eexists. split.
    + cbn. unfold recv_sys. rewrite bool_decide_eq_false_2 by (rewrite Hw; by destruct bs).
      rewrite length_app in Hc. rewrite Z.min_l, Z.max_r, Hw, Nat2Z.id, take_app_length by lia. done.
    + cbn. rewrite length_app in Hc. rewrite drop_app_length. destruct bs; [done|]. rewrite length_app in Ht. cbn [length] in *.
      split_and!; [done|lia|done|lia..].
Qed.

Abbreviation after bs := (System 0 bs [] 99 true).
Lemma session_after bs : len bs ≤ 20 → session_sim (after bs) bs.
Proof. intros H. cbn. split_and!; [done|lia|done|lia..]. Qed.

Lemma example_lasting : lasting started 0 40 (mkTimer 40 (tick 0)).
Proof. unfold lasting, deadline, started, tick. cbn. lia. Qed.

Abbreviation at_rest bs := (mkTls (H1 := ssl_sim) 54 0 None None None {[0%nat := replicate 8 0]} (after bs)).

Lemma tls_readPacket_correct_witness :
  ∃ t tr w', read_sim (at_rest [64; 2; 1; 9; 208; 0]) =
      Ok ((PUBACK, t, tr),
        mkTls (H1 := ssl_sim) 54 0 None None (Some (0%nat, 0))
          (<[0%nat := [64; 2; 1; 9; 0; 0; 0; 0]]> {[0%nat := replicate 8 0]}) w') ∧
    session_sim w' [208; 0].
Proof.
  apply (tls_readPacket_correct (H1 := ssl_sim) y_ticks started 0 40 54 None None session_sim
    sim_clock eq_refl ltac:(decide_by_vm) sim_delivering tls_receiver 8 (replicate 8 0) eq_refl
    eq_refl ltac:(decide_by_vm) 64 [1; 9] [208; 0]); [decide_by_vm..|reflexivity| |apply example_lasting].
  by apply session_after.
Defined.

(** A PINGRESP, then a PUBACK. *)
Lemma tls_packet_after_ping_overruns_witness :
  ('(_, timer, _) ← read_sim;
   readPacket (H1 := ssl_sim) tls_receiver timer)
    (at_rest [208; 0; 64; 2; 1; 9]) = UB OutOfBounds.
Proof.
  apply (tls_packet_after_ping_overruns (H1 := ssl_sim) y_ticks started 0 40 54 None None session_sim
    sim_clock eq_refl ltac:(decide_by_vm) sim_delivering tls_receiver 8 (replicate 8 0) eq_refl
    eq_refl ltac:(decide_by_vm) 208 [64; 2; 1; 9]); [decide_by_vm..|reflexivity| |decide_by_vm|apply example_lasting].
  by apply session_after.
Defined.

(** A PINGRESP over a readbuf that held a PUBLISH before: a second one, that never came. *)
Lemma tls_phantom_packet_witness :
  ∃ t tr w', ('(_, timer, _) ← read_sim;
     readPacket (H1 := ssl_sim) tls_receiver timer)
    (mkTls (H1 := ssl_sim) 54 0 None None None {[0%nat := [48; 6; 48; 1; 97; 1; 2; 3]]} (after [208; 0])) =
    Ok ((PUBLISH, t, tr),
        mkTls (H1 := ssl_sim) 54 0 None None (Some (0%nat, 0))
          (<[0%nat := [48; 0; 48; 1; 97; 1; 2; 3]]> {[0%nat := [48; 6; 48; 1; 97; 1; 2; 3]]}) w').
Proof.
  apply (tls_phantom_packet (H1 := ssl_sim) y_ticks started 0 40 54 None None session_sim
    sim_clock eq_refl ltac:(decide_by_vm) sim_delivering tls_receiver 8
    [48; 6; 48; 1; 97; 1; 2; 3] eq_refl eq_refl ltac:(decide_by_vm) 208
    (mkTimer 40 (tick 0)) None _ (after [208; 0]) 48 6 48 [1; 97; 1; 2; 3]);
    [decide_by_vm|reflexivity|reflexivity|by apply session_after|apply example_lasting|].
  intros w tv (Hw & _ & Hr & _). exists 0, [], [], [], w. split; [|done]. cbn. unfold select_sys.
  by rewrite Hw, Hr.
Defined.

Lemma sim_accepting : accepting (H1 := ssl_sim) y_ticks 0 10 54 None
  (λ y l, y_out y = l ∧ 0 < y_chunk y ∧ y_writable y = true ∧ y_in y = [] ∧ y_ticks y = 0).
Proof.
  split.
  - intros w l Hw. unfold within. lia.
  - intros w l tv Hw. exists w. split; [|done]. destruct Hw as (_ & _ & Hw & Hi & _).
    cbn. unfold select_sys. by rewrite Hi, Hw.
  - intros w l p n bs (Hl & Hc & Hw & Hi & Ht) Hn E.
    pose proof (mem_read_prefix _ _ (Z.min n (y_chunk w)) _ E ltac:(lia)) as E'.
    exists (Z.min n (y_chunk w)). eexists. split; [lia|]. cbn. unfold send_sys.
    unfold mem_read in E'. destruct (Z.eqb_spec (Z.min n (y_chunk w)) 0); [lia|]. rewrite E'.
    split; [done|]. cbn. by rewrite Hl.
Qed.

(** Five bytes, two at a time. *)
Lemma esp_ssl_write_sends_all_witness :
  ∃ w', esp_ssl_write (H1 := ssl_sim) 5 (Ptr [9; 1; 2; 3; 4; 5] 1) 5 100
      (mkTls (H1 := ssl_sim) 54 0 None None None ∅ (System 0 [] [7] 2 true)) =
    Ok (5, mkTls (H1 := ssl_sim) 54 0 None None None ∅ w') ∧
    y_out w' = [7; 1; 2; 3; 4; 5] ∧ 0 < y_chunk w' ∧ y_writable w' = true ∧ y_in w' = [] ∧ y_ticks w' = 0.
Proof.
  apply (esp_ssl_write_sends_all (H1 := ssl_sim) y_ticks started 0 10 54 None None _ sim_clock
    eq_refl ltac:(decide_by_vm) sim_accepting 5 [9; 1; 2; 3; 4; 5] 1 5 [1; 2; 3; 4; 5] 100 0 None ∅
    (System 0 [] [7] 2 true) [7]); try done; unfold INT_MAX, outlasts; cbn; lia.
Defined.

End TlsReceive.
