(* ===== verification/Transport.v ===== *)
(** * The transports of the packet samples

    samples/baremetalserial/transport.c (Module Serial) and
    samples/transport.c (Module Socket): how a program without the client
    connects the packet readers of Stream.v to a serial line or a socket. *)

From S2P Require Import Prelude CSem Packet Stream FreeRTOS.

Definition TRANSPORT_DONE : Z := 1.
Definition TRANSPORT_AGAIN : Z := 0.
Definition TRANSPORT_ERROR : Z := -1.

(** ** The serial line *)

Module Serial.
Section Serial.
Context {W : Type}.

(** The functions the application passes to transport_open. *)
Record transport_iofunctions_t : Type := IoFunctions
  { io_send : option (ptr → Z → M W Z);
    io_recv : option (Z → M W (Z * list Z)) }.

(** The static variables, and the world. *)
Record line : Type := Line
  { io : option transport_iofunctions_t; from : option ptr; howmany : Z; world : W }.

Abbreviation L A := (M line A).

Definition outside {A} (m : M W A) : L A := λ s,
  match m (world s) with
  | Ok (a, w) => Ok (a, Line (io s) (from s) (howmany s) w) | UB u => UB u | NoFuel => NoFuel end.

Definition transport_sendPacketBuffernb_start (sock : Z) (buf : ptr) (buflen : Z) : L unit :=
  modify (λ s, Line (io s) (Some buf) buflen (world s)).

Definition transport_sendPacketBuffernb (sock : Z) : L Z :=
  s ← get;
  match myio ← io s; io_send myio, from s with
  | Some send, Some p =>
      len ← outside (send p (to_uint (howmany s)));
      if 0 <? len then
        n ← lift (howmany s +i (- len))%c;
        modify (λ s, Line (io s) (Some (Ptr (obj p) (off p + len))) n (world s)) ;;
        mret (if n <=? 0 then TRANSPORT_DONE else TRANSPORT_AGAIN)
      else if len <? 0 then mret TRANSPORT_ERROR
      else mret TRANSPORT_AGAIN
  | _, _ => lift (UB AssertionFailed)
  end.

(** [while ((rc = transport_sendPacketBuffernb(sock)) == TRANSPORT_AGAIN)] *)
Fixpoint sendPacketBuffer_loop (fuel : nat) (sock : Z) : L Z :=
  match fuel with
  | O => no_fuel
  | S fuel =>
      rc ← transport_sendPacketBuffernb sock;
      if rc =? TRANSPORT_AGAIN then sendPacketBuffer_loop fuel sock else mret rc
  end.

Definition transport_sendPacketBuffer (fuel : nat) (sock : Z) (buf : ptr) (buflen : Z) : L Z :=
  transport_sendPacketBuffernb_start sock buf buflen ;;
  rc ← sendPacketBuffer_loop fuel sock;
  mret (if rc =? TRANSPORT_DONE then buflen else TRANSPORT_ERROR).

(** [assert(0)] *)
Definition transport_getdata (count : Z) : L (Z * list Z) := lift (UB AssertionFailed).

Definition transport_getdatanb : getfn line := λ count,
  s ← get;
  match myio ← io s; io_recv myio with
  | Some recv =>
      '(len, bs) ← outside (recv (to_uint count));
      mret (if 0 <=? len then len else TRANSPORT_ERROR, bs)
  | None => lift (UB AssertionFailed)
  end.

Definition transport_open (thisio : option transport_iofunctions_t) : L Z :=
  modify (λ s, Line thisio (from s) (howmany s) (world s)) ;; mret 0.

Definition transport_close (sock : Z) : L Z := mret TRANSPORT_DONE.

(** ** Sending *)

Lemma bind_get {A} (f : line → L A) s : (get ≫= f) s = f s s.
Proof. done. Qed.

(** A line that takes none, some or all of the bytes, and none at most [idle]
    times; [l] is what it has taken. *)
Definition takes (send : ptr → Z → M W Z) (R : W → list Z → nat → Prop) : Prop :=
  ∀ w l idle p n bs, R w l idle → 0 < n ≤ INT_MAX → mem_read (Some p) n = Ok bs →
    ∃ k w' idle', 0 ≤ k ≤ n ∧ send p n w = Ok (k, w') ∧ R w' (l ++ take (Z.to_nat k) bs) idle' ∧
      (idle' ≤ idle)%nat ∧ (k = 0 → (idle' < idle)%nat).

Lemma sendPacketBuffer_loop_takes fuel sock f send R buf i bs l idle w :
  io_send f = Some send → takes send R → R w l idle → 0 ≤ i → bs ≠ [] → len bs ≤ INT_MAX →
  mem_read (Some (Ptr buf i)) (len bs) = Ok bs → (length bs + idle ≤ fuel)%nat →
  ∃ p n w' idle', sendPacketBuffer_loop fuel sock (Line (Some f) (Some (Ptr buf i)) (len bs) w) =
    Ok (TRANSPORT_DONE, Line (Some f) p n w') ∧ R w' (l ++ bs) idle'.
Proof.
  intros Ef HT. revert i bs l idle w.
  induction fuel as [|fuel IH]; intros i bs l idle w HR Hi Hbs HI Em Hf; [destruct bs; [done|cbn in Hf; lia]|].
  pose proof (len_pos bs Hbs) as Hp.
  destruct (HT w l idle (Ptr buf i) (len bs) bs HR ltac:(lia) Em)
    as (k & w1 & idle1 & Hk & E & HR1 & Hid & H0).
  assert (Step : transport_sendPacketBuffernb sock (Line (Some f) (Some (Ptr buf i)) (len bs) w) =
    Ok (if len bs - k <=? 0 then TRANSPORT_DONE else TRANSPORT_AGAIN,
        Line (Some f) (Some (Ptr buf (i + k))) (len bs - k) w1)).
  { unfold transport_sendPacketBuffernb. rewrite bind_get. cbn [io from howmany].
    assert ((myio ← Some f; io_send myio) = Some send) as -> by done.
    rewrite to_uint_id by lia.
    rewrite (run_bind _ _ _ k (Line (Some f) (Some (Ptr buf i)) (len bs) w1))
      by (unfold outside; cbn [world]; by rewrite E).
    destruct (Z.ltb_spec 0 k).
    - rewrite (run_bind _ _ _ (len bs - k) _) by (apply run_lift, iadd_Ok; unfold INT_MIN, INT_MAX in *; lia).
      done.
    - assert (k = 0) as -> by lia. rewrite Z.add_0_r, Z.sub_0_r. ztests. done. }
  cbn [sendPacketBuffer_loop]. rewrite (run_bind _ _ _ _ _ Step).
  destruct (Z.leb_spec (len bs - k) 0).
  - change (TRANSPORT_DONE =? TRANSPORT_AGAIN) with false. cbv iota.
    rewrite take_ge in HR1 by lia. by eexists _, _, _, _.
  - change (TRANSPORT_AGAIN =? TRANSPORT_AGAIN) with true. cbv iota.
    pose proof (length_drop bs (Z.to_nat k)) as Hd.
    destruct (IH (i + k) (drop (Z.to_nat k) bs) _ idle1 w1 HR1) as (p & n & w' & idle' & E' & HR').
    + lia.
    + intros E0. rewrite E0 in Hd. cbn in Hd. lia.
    + lia.
    + unfold mem_read in *. destruct (Z.eqb_spec (len bs) 0); [lia|]. rewrite Hd.
      destruct (Z.eqb_spec (Z.of_nat (length bs - Z.to_nat k)) 0); [lia|]. cbn [obj off] in *.
      destruct (load_bytes_inv _ _ _ _ Em) as (_ & _ & _ & tl & Ed); [lia|].
      eapply (load_bytes_rest _ _ _ _ tl); [lia| |lia].
      rewrite <- drop_drop_Z by lia. rewrite Ed. by rewrite drop_app_le by lia.
    + destruct (decide (k = 0)) as [->|]; [specialize (H0 eq_refl)|]; lia.
    + rewrite <- app_assoc, take_drop in HR'. exists p, n, w', idle'. split; [|done].
      rewrite <- E'. do 2 f_equal. lia.
Qed.

(** Transport_sendPacketBuffer sends exactly the buffer, in order and once, through a line that
    takes it in any pieces, and returns its length. *)
Theorem serial_sends_all fuel sock f send R buf i n bs l idle p0 n0 w :
  io_send f = Some send → takes send R → R w l idle → 0 ≤ i → 0 < n ≤ INT_MAX →
  mem_read (Some (Ptr buf i)) n = Ok bs → (Z.to_nat n + idle ≤ fuel)%nat →
  ∃ p m w' idle', transport_sendPacketBuffer fuel sock (Ptr buf i) n (Line (Some f) p0 n0 w) =
    Ok (n, Line (Some f) p m w') ∧ R w' (l ++ bs) idle'.
Proof.
  intros Ef HT HR Hi Hn Em Hf.
  assert (Hl : len bs = n).
  { unfold mem_read in Em. destruct (Z.eqb_spec n 0); [lia|].
    destruct (load_bytes_inv _ _ _ _ Em) as (_ & Hl & _); [lia|done]. }
  subst n. destruct (sendPacketBuffer_loop_takes fuel sock f send R buf i bs l idle w)
    as (p & m & w' & idle' & E & HR'); try done; [intros ->; cbn in Hn; lia|lia|lia|].
  exists p, m, w', idle'. split; [|done]. unfold transport_sendPacketBuffer.
  rewrite (run_bind _ _ _ tt (Line (Some f) (Some (Ptr buf i)) (len bs) w)) by reflexivity.
  by rewrite (run_bind _ _ _ _ _ E).
Qed.

(** ** Receiving *)

(** A line that gives the next bytes it has, none when there are none yet. *)
Definition gives (recv : Z → M W (Z * list Z)) (R : W → list Z → Prop) : Prop :=
  ∀ w bs n, R w bs → 0 < n ≤ INT_MAX → ∃ k w', 0 ≤ k ≤ n ∧ k ≤ len bs ∧
    recv n w = Ok ((k, take (Z.to_nat k) bs), w') ∧ R w' (drop (Z.to_nat k) bs).

Lemma serial_getdatanb_gives f recv R s bs n :
  io_recv f = Some recv → gives recv R → io s = Some f → R (world s) bs → 0 < n ≤ INT_MAX →
  ∃ k s', 0 ≤ k ≤ n ∧ k ≤ len bs ∧ transport_getdatanb n s = Ok ((k, take (Z.to_nat k) bs), s') ∧
    io s' = Some f ∧ R (world s') (drop (Z.to_nat k) bs).
Proof.
  intros Ef HG Hs HR Hn. destruct (HG _ bs n HR Hn) as (k & w' & Hk & Hl & E & HR').
  exists k, (Line (io s) (from s) (howmany s) w'). split; [done|]. split; [done|]. split; [|done].
  unfold transport_getdatanb. rewrite bind_get, Hs.
  assert ((myio ← Some f; io_recv myio) = Some recv) as -> by done. rewrite to_uint_id by lia.
  rewrite (run_bind _ _ _ (k, take (Z.to_nat k) bs) (Line (io s) (from s) (howmany s) w'))
    by (unfold outside; by rewrite E).
  rewrite Hs. by ztest.
Qed.

(** The serial line is a source for MQTTPacket_readnb: the packets it carries are read whatever
    pieces they arrive in. *)
Theorem serial_is_source f recv R :
  io_recv f = Some recv → gives recv R →
  source (transport_getdatanb) (λ s bs, io s = Some f ∧ R (world s) bs).
Proof.
  intros Ef HG s bs n [Hs HR] Hn.
  destruct (serial_getdatanb_gives f recv R s bs n Ef HG Hs HR Hn) as (k & s' & Hk & Hl & E & Hs' & HR').
  by exists k, s'.
Qed.

End Serial.

(** A line that moves three bytes at a time, every other time. *)
Definition slow_send (p : ptr) (n : Z) : M (bool * list Z) Z := λ w,
  if w.1 then Ok (0, (false, w.2))
  else bs ← load_bytes (obj p) (off p) (Z.min 3 n); Ok (Z.min 3 n, (true, w.2 ++ bs)).

Definition slow_recv (n : Z) : M (bool * list Z) (Z * list Z) := λ w,
  if w.1 then Ok ((0, []), (false, w.2))
  else let bs := take (Z.to_nat (Z.min 3 n)) w.2 in
       Ok ((len bs, bs), (true, drop (length bs) w.2)).

Lemma slow_gives : gives slow_recv (λ w bs, w.2 = bs).
Proof.
  intros [b bs'] bs n Hw Hn. cbn in Hw. subst bs'. unfold slow_recv. cbn [fst snd].
  destruct b; [exists 0, (false, bs); repeat split; lia|].
  exists (Z.min (Z.min 3 n) (len bs)). eexists. split; [lia|]. split; [lia|].
  assert (El : len (take (Z.to_nat (Z.min 3 n)) bs) = Z.min (Z.min 3 n) (len bs))
    by (rewrite length_take; lia).
  assert (Et : take (Z.to_nat (Z.min (Z.min 3 n) (len bs))) bs = take (Z.to_nat (Z.min 3 n)) bs)
    by (destruct (Z.le_gt_cases (Z.min 3 n) (len bs)); [f_equal; lia|by rewrite !take_ge by lia]).
  rewrite Et, <- El. split; [done|]. cbn. by rewrite Nat2Z.id.
Qed.

Lemma serial_is_source_witness :
  source (transport_getdatanb (W := bool * list Z))
    (λ s bs, io s = Some (IoFunctions None (Some slow_recv)) ∧ (world s).2 = bs).
Proof.
  apply (serial_is_source (IoFunctions None (Some slow_recv)) slow_recv (λ w bs, w.2 = bs));
    [reflexivity|apply slow_gives].
Defined.

(** Seven bytes in five calls. *)
Example serial_sends_seven :
  match transport_sendPacketBuffer 6 0 (Ptr [0; 1; 2; 3; 4; 5; 6; 7; 8] 1) 7
    (Line (Some (IoFunctions (Some slow_send) None)) None 0 (false, [9])) with
  | Ok (rc, s) => (rc, (world s).2) = (7, [9; 1; 2; 3; 4; 5; 6; 7])
  | _ => False end.
Proof. vm_compute. reflexivity. Qed.

End Serial.

(** ** The socket *)

Module Socket.

(** The functions of the socket library; the timeout of setsockopt is the
    second the file sets. *)
Class Sockets (W : Type) : Type :=
  { address : Type;
    AF_INET : Z; AF_INET6 : Z;
    sk_write : Z → ptr → Z → M W Z;
    sk_recv : Z → Z → M W (Z * list Z);
    (* the result, and the families and addresses of the list *)
    getaddrinfo : ptr → M W (Z * list (Z * address));
    sk_socket : Z → M W Z;
    sk_connect : Z → address → Z → M W Z;
    set_recv_timeout : Z → Z → M W unit;
    shutdown : Z → M W Z;
    sk_close : Z → M W Z }.

Section Socket.
Context {W : Type} `{Sockets W}.

Definition INVALID_SOCKET : Z := -1.

(** The static variable [mysock], and the world. *)
Abbreviation K A := (M (Z * W) A).

Definition outside {A} (m : M W A) : K A := λ s,
  match m s.2 with
  | Ok (a, w) => Ok (a, (s.1, w)) | UB u => UB u | NoFuel => NoFuel end.
Definition set_mysock (n : Z) : K unit := modify (λ s, (n, s.2)).

Definition transport_sendPacketBuffer (sock : Z) (buf : ptr) (buflen : Z) : K Z :=
  outside (sk_write sock buf buflen).

Definition transport_getdata : getfn (Z * W) := λ count,
  mysock ← gets fst; outside (sk_recv mysock count).

Definition transport_getdatanb (sock : Z) : getfn (Z * W) := λ count,
  '(rc, bs) ← outside (sk_recv sock count);
  mret (if rc =? -1 then 0 else rc, bs).

(** The first IPv4 address, or else the first. *)
Fixpoint prefer_ip4 (l : list (Z * address)) : option (Z * address) :=
  match l with
  | [] => None
  | a :: l => if a.1 =? AF_INET then Some a else prefer_ip4 l
  end.

Definition chosen (l : list (Z * address)) : outcome (Z * address) :=
  match prefer_ip4 l, l with
  | Some a, _ => Ok a
  | None, a :: _ => Ok a
  | None, [] => UB NullPointer
  end.

Definition transport_open (addr : ptr) (port : Z) : K Z :=
  set_mysock (-1) ;;
  c ← lift (load (obj addr) (off addr));
  let addr := if c =? 91 then Ptr (obj addr) (off addr + 1) else addr in
  '(rc, result) ← outside (getaddrinfo addr);
  '(rc, found) ← (
    if rc =? 0 then
      a ← lift (chosen result);
      mret (if (a.1 =? AF_INET6) || (a.1 =? AF_INET) then (0, Some a) else (-1, None))
    else mret (rc, None));
  rc ← (
    match found with
    | Some (family, a) =>
        s ← outside (sk_socket family);
        set_mysock s ;;
        if negb (s =? -1) then outside (sk_connect s a (htons port)) else mret rc
    | None => mret rc
    end);
  mysock ← gets fst;
  if mysock =? INVALID_SOCKET then mret rc
  else outside (set_recv_timeout mysock 1) ;; mret mysock.

Definition transport_close (sock : Z) : K Z :=
  outside (shutdown sock) ;;
  outside (sk_recv sock 0) ;;
  outside (sk_close sock).

(** Transport_open returns the socket, the sign of success, when the connection to the broker
    was refused: what connect returned is lost. *)
Theorem socket_open_hides_refusal addr port s0 w ch infos family a s rc w1 w2 w3 w4 :
  load (obj addr) (off addr) = Ok ch → ch ≠ 91 → getaddrinfo addr w = Ok ((0, infos), w1) →
  prefer_ip4 infos = Some (family, a) → sk_socket family w1 = Ok (s, w2) → 0 ≤ s →
  sk_connect s a (htons port) w2 = Ok (rc, w3) → rc < 0 →
  set_recv_timeout s 1 w3 = Ok (tt, w4) →
  transport_open addr port (s0, w) = Ok (s, (s, w4)).
Proof.
  intros Hch Hn E1 Hp E2 Hs E3 Hrc E4. unfold transport_open.
  assert (bind_out : ∀ A B (m : M W A) (f : A → K B) k v x v',
    m v = Ok (x, v') → (outside m ≫= f) (k, v) = f x (k, v')).
  { intros A B m f k v x v' E. unfold mbind, M_bind, outside. cbn [fst snd]. by rewrite E. }
  rewrite (run_bind _ _ _ tt (-1, w)) by reflexivity.
  rewrite (run_bind _ _ _ _ _ (run_lift _ _ _ Hch)). ztest.
  rewrite (bind_out _ _ _ _ _ _ _ _ E1). cbn [Z.eqb].
  assert (Hf : (family =? AF_INET) = true).
  { clear -Hp. induction infos as [|x l IH]; [done|]. cbn [prefer_ip4] in Hp.
    destruct (x.1 =? AF_INET) eqn:E; [|by apply IH]. by injection Hp as ->. }
  assert (Hc : chosen infos = Ok (family, a)) by (unfold chosen; by rewrite Hp).
  rewrite (run_bind _ _ _ (0, Some (family, a)) (-1, w1)).
  2: { rewrite (run_bind _ _ _ _ _ (run_lift _ _ _ Hc)). cbn [fst]. by rewrite Hf, orb_true_r. }
  rewrite (run_bind _ _ _ rc (s, w3)).
  2: { rewrite (bind_out _ _ _ _ _ _ _ _ E2).
       rewrite (run_bind _ _ _ tt (s, w2)) by reflexivity. ztest.
       unfold outside. cbn [fst snd]. by rewrite E3. }
  rewrite (run_bind _ _ _ s (s, w3)) by reflexivity. unfold INVALID_SOCKET. ztest.
  by rewrite (bind_out _ _ _ _ _ _ _ _ E4).
Qed.

End Socket.

(** A network whose broker refuses. *)
Definition refusing : Sockets unit :=
  {| address := unit; AF_INET := 2; AF_INET6 := 10;
     sk_write := λ _ _ n, mret n; sk_recv := λ _ _, mret (-1, []);
     getaddrinfo := λ _, mret (0, [(10, tt); (2, tt)]); sk_socket := λ _, mret 3;
     sk_connect := λ _ _ _, mret (-1); set_recv_timeout := λ _ _, mret tt;
     shutdown := λ _, mret 0; sk_close := λ _, mret 0 |}.

Lemma socket_open_hides_refusal_witness :
  transport_open (H := refusing) (c_string [108]) 1883 (7, tt) = Ok (3, (3, tt)).
Proof.
  by apply (socket_open_hides_refusal (H := refusing) (c_string [108]) 1883 7 tt 108
    [(10, tt); (2, tt)] 2 tt 3 (-1) tt tt tt tt).
Defined.

End Socket.
