(* ===== verification/CppClient.v ===== *)
(** * The C++ MQTT client: MQTTClient.h and FP.h of src/paho/MQTTClient

    The class template Client over its Network and Timer arguments. The
    packets are those of the C library; timers and network are the interface
    of Platform.v (Timer() is [TimerInit], countdown_ms [TimerCountdownMS],
    countdown [TimerCountdown], expired [TimerIsExpired], left_ms
    [TimerLeftMS], ipstack.read [mqttread], ipstack.write [mqttwrite], a
    FunctionCallback a [messageHandler]); what else the code asks for is
    [CppPlatform]. *)

From S2P Require Import Prelude CSem Wire Packet Connect Publish Subscribe Topics Platform.

(** ** The configuration

    The template arguments and the macros of the header. *)
Class Config : Type :=
  { MAX_MQTT_PACKET_SIZE : Z; MAX_MESSAGE_HANDLERS : Z; MAX_INCOMING_QOS2_MESSAGES : Z;
    MQTTCLIENT_QOS1 : bool; MQTTCLIENT_QOS2 : bool }.

(** The virtual methods of class MessageCallback. *)
Inductive method : Type := defaultHandler | messageHandler_.

(** Objects of class MessageCallback, the constructor Timer(ms), and the
    allocator: [malloc] returns the address of the block, or none. *)
Class CppPlatform (W : Type) `{Platform W} : Type :=
  { Timer_ms : Z → M W Timer;
    MessageCallback : Type;
    call_method : MessageCallback → method → MessageData → M W unit;
    malloc : Z → M W (option Z);
    free : Z → M W unit }.

Module CppClient.

Definition QOS0 : Z := 0.
Definition QOS1 : Z := 1.
Definition QOS2 : Z := 2.
Definition BUFFER_OVERFLOW : Z := -2.
Definition FAILURE : Z := -1.
Definition SUCCESS : Z := 0.

Record connackData : Type := ConnackData { cd_rc : Z; sessionPresent : bool }.

(** ** class PacketId *)

Definition MAX_PACKET_ID : Z := 65535.
Definition PacketId_new : Z := 0.
(** The new value of [next], which is also the result. *)
Definition getNext (next : Z) : Z := if next =? MAX_PACKET_ID then 1 else next + 1.

Section Client.
Context `{CImpl} `{Config} {W : Type} `{CppPlatform W}.

(** ** class FP

    The union of c_callback and method_callback: which one was written last.
    A member function pointer is not null. *)
Inductive callback : Type :=
  | c_callback (function : option messageHandler)
  | method_callback (m : method).

Record FP : Type := mkFP { obj_callback : option MessageCallback; fp_callback : callback }.

Definition FP_new : FP := mkFP None (c_callback None).
Definition attach_method (item : option MessageCallback) (m : method) (fp : FP) : FP :=
  mkFP item (method_callback m).
Definition attach_function (function : option messageHandler) (fp : FP) : FP :=
  mkFP (obj_callback fp) (c_callback function).
Definition detach (fp : FP) : FP := mkFP None (c_callback None).

(** [0 != c_callback] *)
Definition c_callback_set (cb : callback) : bool :=
  match cb with c_callback f => nonnull f | method_callback _ => true end.

Definition attached (fp : FP) : bool := nonnull (obj_callback fp) || c_callback_set (fp_callback fp).

(** operator(): the member of the union that is used depends on obj_callback
    alone. *)
Definition FP_call (fp : FP) (arg : MessageData) : M W unit :=
  if c_callback_set (fp_callback fp) then
    match obj_callback fp, fp_callback fp with
    | Some o, method_callback m => call_method o m arg
    | None, c_callback (Some f) => call_handler f arg
    | _, _ => lift (UB WrongFunction)
    end
  else mret tt.

(** ** The object *)

(** A string allocated by setMessageHandler. *)
Record block : Type := Block { b_addr : Z; b_str : ptr }.

Record MessageHandlers : Type := Slot { topicFilter : option block; fp : FP }.

Record Client : Type := mkClient
  { sendbuf : list Z; readbuf : list Z; last_received : Timer;
    keepAliveInterval : Z; ping_outstanding : Z; cleansession : bool;
    packetid : Z; messageHandlers : list MessageHandlers; defaultMessageHandler : FP;
    isconnected : bool; pubbuf : list Z; inflightLen : Z;
    inflightMsgid : Z; inflightQoS : Z; pubrel : bool;
    incomingQoS2messages : list Z }.

Definition set_sendbuf v c := mkClient v (readbuf c) (last_received c) (keepAliveInterval c)
  (ping_outstanding c) (cleansession c) (packetid c) (messageHandlers c)
  (defaultMessageHandler c) (isconnected c) (pubbuf c) (inflightLen c) (inflightMsgid c)
  (inflightQoS c) (pubrel c) (incomingQoS2messages c).
Definition set_readbuf v c := mkClient (sendbuf c) v (last_received c) (keepAliveInterval c)
  (ping_outstanding c) (cleansession c) (packetid c) (messageHandlers c)
  (defaultMessageHandler c) (isconnected c) (pubbuf c) (inflightLen c) (inflightMsgid c)
  (inflightQoS c) (pubrel c) (incomingQoS2messages c).
Definition set_last_received v c := mkClient (sendbuf c) (readbuf c) v (keepAliveInterval c)
  (ping_outstanding c) (cleansession c) (packetid c) (messageHandlers c)
  (defaultMessageHandler c) (isconnected c) (pubbuf c) (inflightLen c) (inflightMsgid c)
  (inflightQoS c) (pubrel c) (incomingQoS2messages c).
Definition set_keepAliveInterval v c := mkClient (sendbuf c) (readbuf c) (last_received c) v
  (ping_outstanding c) (cleansession c) (packetid c) (messageHandlers c)
  (defaultMessageHandler c) (isconnected c) (pubbuf c) (inflightLen c) (inflightMsgid c)
  (inflightQoS c) (pubrel c) (incomingQoS2messages c).
Definition set_ping_outstanding v c := mkClient (sendbuf c) (readbuf c) (last_received c)
  (keepAliveInterval c) v (cleansession c) (packetid c) (messageHandlers c)
  (defaultMessageHandler c) (isconnected c) (pubbuf c) (inflightLen c) (inflightMsgid c)
  (inflightQoS c) (pubrel c) (incomingQoS2messages c).
Definition set_cleansession v c := mkClient (sendbuf c) (readbuf c) (last_received c)
  (keepAliveInterval c) (ping_outstanding c) v (packetid c) (messageHandlers c)
  (defaultMessageHandler c) (isconnected c) (pubbuf c) (inflightLen c) (inflightMsgid c)
  (inflightQoS c) (pubrel c) (incomingQoS2messages c).
Definition set_packetid v c := mkClient (sendbuf c) (readbuf c) (last_received c)
  (keepAliveInterval c) (ping_outstanding c) (cleansession c) v (messageHandlers c)
  (defaultMessageHandler c) (isconnected c) (pubbuf c) (inflightLen c) (inflightMsgid c)
  (inflightQoS c) (pubrel c) (incomingQoS2messages c).
Definition set_messageHandlers v c := mkClient (sendbuf c) (readbuf c) (last_received c)
  (keepAliveInterval c) (ping_outstanding c) (cleansession c) (packetid c) v
  (defaultMessageHandler c) (isconnected c) (pubbuf c) (inflightLen c) (inflightMsgid c)
  (inflightQoS c) (pubrel c) (incomingQoS2messages c).
Definition set_defaultMessageHandler v c := mkClient (sendbuf c) (readbuf c) (last_received
  c) (keepAliveInterval c) (ping_outstanding c) (cleansession c) (packetid c)
  (messageHandlers c) v (isconnected c) (pubbuf c) (inflightLen c) (inflightMsgid c)
  (inflightQoS c) (pubrel c) (incomingQoS2messages c).
Definition set_isconnected v c := mkClient (sendbuf c) (readbuf c) (last_received c)
  (keepAliveInterval c) (ping_outstanding c) (cleansession c) (packetid c) (messageHandlers
  c) (defaultMessageHandler c) v (pubbuf c) (inflightLen c) (inflightMsgid c) (inflightQoS
  c) (pubrel c) (incomingQoS2messages c).
Definition set_pubbuf v c := mkClient (sendbuf c) (readbuf c) (last_received c)
  (keepAliveInterval c) (ping_outstanding c) (cleansession c) (packetid c) (messageHandlers
  c) (defaultMessageHandler c) (isconnected c) v (inflightLen c) (inflightMsgid c)
  (inflightQoS c) (pubrel c) (incomingQoS2messages c).
Definition set_inflightLen v c := mkClient (sendbuf c) (readbuf c) (last_received c)
  (keepAliveInterval c) (ping_outstanding c) (cleansession c) (packetid c) (messageHandlers
  c) (defaultMessageHandler c) (isconnected c) (pubbuf c) v (inflightMsgid c) (inflightQoS
  c) (pubrel c) (incomingQoS2messages c).
Definition set_inflightMsgid v c := mkClient (sendbuf c) (readbuf c) (last_received c)
  (keepAliveInterval c) (ping_outstanding c) (cleansession c) (packetid c) (messageHandlers
  c) (defaultMessageHandler c) (isconnected c) (pubbuf c) (inflightLen c) v (inflightQoS c)
  (pubrel c) (incomingQoS2messages c).
Definition set_inflightQoS v c := mkClient (sendbuf c) (readbuf c) (last_received c)
  (keepAliveInterval c) (ping_outstanding c) (cleansession c) (packetid c) (messageHandlers
  c) (defaultMessageHandler c) (isconnected c) (pubbuf c) (inflightLen c) (inflightMsgid c)
  v (pubrel c) (incomingQoS2messages c).
Definition set_pubrel v c := mkClient (sendbuf c) (readbuf c) (last_received c)
  (keepAliveInterval c) (ping_outstanding c) (cleansession c) (packetid c) (messageHandlers
  c) (defaultMessageHandler c) (isconnected c) (pubbuf c) (inflightLen c) (inflightMsgid c)
  (inflightQoS c) v (incomingQoS2messages c).
Definition set_incomingQoS2messages v c := mkClient (sendbuf c) (readbuf c) (last_received
  c) (keepAliveInterval c) (ping_outstanding c) (cleansession c) (packetid c)
  (messageHandlers c) (defaultMessageHandler c) (isconnected c) (pubbuf c) (inflightLen c)
  (inflightMsgid c) (inflightQoS c) (pubrel c) v.

(** ** Computations over the object and its platform *)

Abbreviation C A := (M (Client * W) A).

Definition env {A} (m : M W A) : C A := λ s,
  match m (snd s) with
  | Ok (a, w) => Ok (a, (fst s, w)) | UB u => UB u | NoFuel => NoFuel end.
Definition this : C Client := gets fst.
Definition update (f : Client → Client) : C unit := modify (λ s, (f (fst s), snd s)).

(** A serializer run on sendbuf, its result the int it returns. *)
Definition on_sendbuf (m : list Z → outcome (Z * list Z)) : C Z :=
  c ← this; '(len, b) ← lift (m (sendbuf c)); update (set_sendbuf b) ;; mret len.

Definition store_readbuf (i : Z) (bs : list Z) : C unit :=
  c ← this; b ← lift (store_bytes (readbuf c) i bs); update (set_readbuf b).

Definition filter_str (h : MessageHandlers) : option ptr := b_str <$> topicFilter h.

(** ** Sessions *)

(** The first loop of cleanSession, from slot [i] on. *)
Fixpoint cleanSession_loop (n : nat) (i : Z) : C unit :=
  match n with
  | O => mret tt
  | S n =>
      c ← this;
      h ← lift (arr_get (messageHandlers c) i);
      (match topicFilter h with Some b => env (free (b_addr b)) | None => mret tt end) ;;
      hs ← lift (arr_set (messageHandlers c) i (Slot None (fp h)));
      update (set_messageHandlers hs) ;;
      cleanSession_loop n (i + 1)
  end.

Definition cleanSession : C unit :=
  cleanSession_loop (Z.to_nat MAX_MESSAGE_HANDLERS) 0 ;;
  (if MQTTCLIENT_QOS1 || MQTTCLIENT_QOS2 then
     update (set_inflightMsgid 0) ;; update (set_inflightQoS QOS0) else mret tt) ;;
  (if MQTTCLIENT_QOS2 then
     update (set_pubrel false) ;;
     update (set_incomingQoS2messages (replicate (Z.to_nat MAX_INCOMING_QOS2_MESSAGES) 0))
   else mret tt).

Definition closeSession : C unit :=
  update (set_ping_outstanding 0) ;;
  update (set_isconnected false) ;;
  c ← this;
  if cleansession c then cleanSession else mret tt.

(** The constructor, on the memory of the object: the members it does not
    initialise keep what the memory held. *)
Definition Client_new : C unit :=
  t ← env TimerInit;
  update (set_last_received t) ;;
  update (set_packetid PacketId_new) ;;
  update (set_messageHandlers (replicate (Z.to_nat MAX_MESSAGE_HANDLERS) (Slot None FP_new))) ;;
  update (set_defaultMessageHandler FP_new) ;;
  update (set_cleansession true) ;;
  closeSession.

Definition setDefaultMessageHandler_method (mh : option MessageCallback) : C unit :=
  update (λ c, set_defaultMessageHandler
    (if nonnull mh then attach_method mh defaultHandler (defaultMessageHandler c)
     else detach (defaultMessageHandler c)) c).

Definition setDefaultMessageHandler (mh : option messageHandler) : C unit :=
  update (λ c, set_defaultMessageHandler
    (if nonnull mh then attach_function mh (defaultMessageHandler c)
     else detach (defaultMessageHandler c)) c).

Definition isConnected : C bool := c ← this; mret (isconnected c).

(** ** The identifiers of incoming QoS 2 messages *)

Fixpoint isQoS2msgidFree_loop (n : nat) (i : Z) (ids : list Z) (id : Z) : outcome bool :=
  match n with
  | O => Ok true
  | S n => x ← arr_get ids i; if x =? id then Ok false else isQoS2msgidFree_loop n (i + 1) ids id
  end.

Definition isQoS2msgidFree (id : Z) (ids : list Z) : outcome bool :=
  isQoS2msgidFree_loop (Z.to_nat MAX_INCOMING_QOS2_MESSAGES) 0 ids id.

(** The loop of useQoS2msgid and freeQoS2msgid: [new] in the place of the
    first [old], and whether there was one. *)
Fixpoint replace_msgid (n : nat) (i old new : Z) (ids : list Z) : outcome (bool * list Z) :=
  match n with
  | O => Ok (false, ids)
  | S n =>
      x ← arr_get ids i;
      if x =? old then ids ← arr_set ids i new; Ok (true, ids)
      else replace_msgid n (i + 1) old new ids
  end.

Definition useQoS2msgid (id : Z) (ids : list Z) : outcome (bool * list Z) :=
  replace_msgid (Z.to_nat MAX_INCOMING_QOS2_MESSAGES) 0 0 id ids.

Definition freeQoS2msgid (id : Z) (ids : list Z) : outcome (list Z) :=
  '(_, ids) ← replace_msgid (Z.to_nat MAX_INCOMING_QOS2_MESSAGES) 0 id 0 ids; Ok ids.

(** ** Sending *)

Fixpoint sendPacket_loop (fuel : nat) (length sent : Z) (timer : Timer) : C (Z * Timer) :=
  match fuel with
  | O => no_fuel
  | S fuel =>
      if sent <? length then
        '(expired, timer) ← env (TimerIsExpired timer);
        if expired : bool then mret (sent, timer)
        else
          '(ms, timer) ← env (TimerLeftMS timer);
          c ← this;
          rc ← env (mqttwrite (Ptr (sendbuf c) sent) (length - sent) ms);
          if rc <? 0 then mret (sent, timer)
          else
            sent ← lift (sent +i rc)%c;
            sendPacket_loop fuel length sent timer
      else mret (sent, timer)
  end.

Definition sendPacket (fuel : nat) (length : Z) (timer : Timer) : C (Z * Timer) :=
  '(sent, timer) ← sendPacket_loop fuel length 0 timer;
  mret (if sent =? length then SUCCESS else FAILURE, timer).

(** ** Receiving *)

Fixpoint decodePacket_loop (fuel : nat) (timeout value multiplier len : Z) : M W (Z * Z) :=
  match fuel with
  | O => no_fuel
  | S fuel =>
      let len := len + 1 in
      if MAX_NO_OF_REMAINING_LENGTH_BYTES <? len then mret (len, value)
      else
        '(rc, cs) ← mqttread 1 timeout;
        if negb (rc =? 1) then mret (len, value)
        else
          c ← lift (match cs with [] => UB Uninitialised | c :: _ => Ok c end);
          let value := value + Z.land c 127 * multiplier in
          let multiplier := multiplier * 128 in
          if negb (Z.land c 128 =? 0)
          then decodePacket_loop fuel timeout value multiplier len
          else mret (len, value)
  end.

Definition decodePacket (timeout : Z) : M W (Z * Z) := decodePacket_loop 5 timeout 0 1 0.

(** [keepAliveInterval/2 > 60 ? 60 : keepAliveInterval/2] *)
Definition receive_interval (c : Client) : Z :=
  if 60 <? keepAliveInterval c `quot` 2 then 60 else keepAliveInterval c `quot` 2.

(** [if (keepAliveInterval > 0) last_received.countdown(...)] *)
Definition restart_last_received : C unit :=
  c ← this;
  if 0 <? keepAliveInterval c then
    t ← env (TimerCountdown (last_received c) (receive_interval c));
    update (set_last_received t)
  else mret tt.

Definition readPacket (timer : Timer) : C (Z * Timer) :=
  '(ms, timer) ← env (TimerLeftMS timer);
  '(rc, bs) ← env (mqttread 1 ms);
  store_readbuf 0 bs ;;
  if negb (rc =? 1) then mret (rc, timer)
  else
    '(ms, timer) ← env (TimerLeftMS timer);
    '(_, rem_len) ← env (decodePacket ms);
    c ← this;
    '(k, b) ← lift (MQTTPacket_encode rem_len (readbuf c) 1);
    update (set_readbuf b) ;;
    let len := 1 + k in
    if MAX_MQTT_PACKET_SIZE - len <? rem_len then mret (BUFFER_OVERFLOW, timer)
    else
      '(bad, timer) ← (
        if 0 <? rem_len then
          '(ms, timer) ← env (TimerLeftMS timer);
          '(rc, bs) ← env (mqttread rem_len ms);
          store_readbuf len bs ;;
          mret (negb (rc =? rem_len), timer)
        else mret (false, timer));
      if bad : bool then mret (rc, timer)
      else
        c ← this;
        b ← lift (load (readbuf c) 0);
        restart_last_received ;;
        mret (header_type b, timer).

(** ** Delivery *)

(** The same loop as that of MQTTClient.c; [fuel] covers the characters. *)
Fixpoint skip_level (fuel : nat) (data : option ptr) (curn curn_end : Z) : outcome Z :=
  match fuel with
  | O => NoFuel
  | S fuel =>
      if curn + 1 <? curn_end then
        x ← ptr_load data (curn + 1);
        if negb (x =? SLASH) then skip_level fuel data (curn + 1) curn_end else Ok curn
      else Ok curn
  end.

Fixpoint isTopicMatched_loop (fuel : nat) (filter data : option ptr) (curf curn curn_end : Z)
  : outcome bool :=
  match fuel with
  | O => NoFuel
  | S fuel =>
      f ← ptr_load filter curf;
      if truth f && (curn <? curn_end) then
        n ← ptr_load data curn;
        if (n =? SLASH) && negb (f =? SLASH) then Ok ((curn =? curn_end) && (f =? 0))
        else if negb (f =? PLUS) && negb (f =? HASH) && negb (f =? n)
        then Ok ((curn =? curn_end) && (f =? 0))
        else
          curn ← (if f =? PLUS
                  then skip_level (Datatypes.S (Z.to_nat (curn_end - curn))) data curn curn_end
                  else if f =? HASH then Ok (curn_end - 1)
                  else Ok curn);
          isTopicMatched_loop fuel filter data (curf + 1) (curn + 1) curn_end
      else Ok ((curn =? curn_end) && (f =? 0))
  end.

Definition isTopicMatched (filter : option ptr) (topicName : MQTTString) : outcome bool :=
  n ← strlen filter;
  isTopicMatched_loop (Datatypes.S (Z.to_nat n)) filter (ls_data (lenstring topicName))
    0 0 (ls_len (lenstring topicName)).

(** The loop of deliverMessage from slot [i] on. *)
Fixpoint deliver_loop (n : nat) (i rc : Z) (topicName : MQTTString) (message : MQTTMessage)
  : C Z :=
  match n with
  | O => mret rc
  | S n =>
      c ← this;
      h ← lift (arr_get (messageHandlers c) i);
      matched ← lift (
        if nonnull (topicFilter h) then
          eq ← MQTTPacket_equals topicName (filter_str h);
          if eq : bool then Ok true else isTopicMatched (filter_str h) topicName
        else Ok false);
      rc ← (if matched && attached (fp h)
            then env (FP_call (fp h) (NewMessageData topicName message)) ;; mret SUCCESS
            else mret rc);
      deliver_loop n (i + 1) rc topicName message
  end.

Definition deliverMessage (topicName : MQTTString) (message : MQTTMessage) : C Z :=
  rc ← deliver_loop (Z.to_nat MAX_MESSAGE_HANDLERS) 0 FAILURE topicName message;
  c ← this;
  if (rc =? FAILURE) && attached (defaultMessageHandler c)
  then env (FP_call (defaultMessageHandler c) (NewMessageData topicName message)) ;; mret SUCCESS
  else mret rc.

(** ** One round of the protocol *)

(** What case PUBLISH does with the message before it is answered. *)
Definition receive_message (topicName : MQTTString) (msg : MQTTMessage) : C unit :=
  if MQTTCLIENT_QOS2 && (m_qos msg =? QOS2) then
    c ← this;
    is_free ← lift (isQoS2msgidFree (m_id msg) (incomingQoS2messages c));
    if is_free : bool then
      '(used, ids) ← lift (useQoS2msgid (m_id msg) (incomingQoS2messages c));
      update (set_incomingQoS2messages ids) ;;
      if used : bool then deliverMessage topicName msg ;; mret tt
      else mret tt (* WARN *)
    else mret tt
  else deliverMessage topicName msg ;; mret tt.

(** The acknowledgement of the message: its length in sendbuf, 0 if none. *)
Definition answer_message (msg : MQTTMessage) : C Z :=
  if m_qos msg =? QOS1 then
    on_sendbuf (λ b, MQTTSerialize_ack b MAX_MQTT_PACKET_SIZE PUBACK 0 (m_id msg))
  else if m_qos msg =? QOS2 then
    on_sendbuf (λ b, MQTTSerialize_ack b MAX_MQTT_PACKET_SIZE PUBREC 0 (m_id msg))
  else mret 0.

(** case PUBLISH of cycle: whether it goes to exit, and [rc]. [o]: what the
    uninitialised locals hold; payloadlen is set to 0 first. Without QoS 1
    and 2 the case has no break and goes on to case PINGRESP. *)
Definition cycle_publish (fuel : nat) (o : publish_out) (send_timer : Timer) : C (bool * Z) :=
  c ← this;
  '(ok, o) ← lift (MQTTDeserialize_publish
    (PublishOut (p_dup o) (p_qos o) (p_retained o) (p_packetid o) (p_topicName o)
       (p_payload o) 0) (readbuf c) MAX_MQTT_PACKET_SIZE);
  if negb (ok =? 1) then mret (true, SUCCESS)
  else
    let msg := Message (p_qos o) (p_retained o) (p_dup o) (p_packetid o) (p_payload o)
                 (to_uint (p_payloadlen o)) in
    receive_message (p_topicName o) msg ;;
    if MQTTCLIENT_QOS1 || MQTTCLIENT_QOS2 then
      if negb (m_qos msg =? QOS0) then
        len ← answer_message msg;
        rc ← (if len <=? 0 then mret FAILURE
              else '(rc, _) ← sendPacket fuel len send_timer; mret rc);
        mret (rc =? FAILURE, rc)
      else mret (false, SUCCESS)
    else update (set_ping_outstanding 0) ;; mret (false, SUCCESS).

(** case PUBREC and case PUBREL of cycle. *)
Definition cycle_pubrec_pubrel (fuel : nat) (packet_type mypacketid : Z) (send_timer : Timer)
  : C (bool * Z) :=
  c ← this;
  '(ok, _, _, id) ← lift (MQTTDeserialize_ack mypacketid (readbuf c) MAX_MQTT_PACKET_SIZE);
  if negb (ok =? 1) then mret (true, FAILURE)
  else
    len ← on_sendbuf (λ b, MQTTSerialize_ack b MAX_MQTT_PACKET_SIZE
                             (if packet_type =? PUBREC then PUBREL else PUBCOMP) 0 id);
    if len <=? 0 then mret (true, FAILURE)
    else
      '(rc, _) ← sendPacket fuel len send_timer;
      if negb (rc =? SUCCESS) then mret (true, FAILURE)
      else
        (if packet_type =? PUBREL then
           c ← this;
           ids ← lift (freeQoS2msgid id (incomingQoS2messages c));
           update (set_incomingQoS2messages ids)
         else mret tt) ;;
        mret (false, SUCCESS).

(** The switch of cycle: whether it goes to exit, and [rc]. There is no case
    for UNSUBACK, and none for PUBREC, PUBREL and PUBCOMP without QoS 2. *)
Definition cycle_switch (fuel : nat) (o : publish_out) (packet_type : Z) (send_timer : Timer)
  : C (bool * Z) :=
  if packet_type =? 0 then mret (false, SUCCESS)
  else if (packet_type =? CONNACK) || (packet_type =? PUBACK) || (packet_type =? SUBACK)
  then mret (false, SUCCESS)
  else if packet_type =? PUBLISH then cycle_publish fuel o send_timer
  else if MQTTCLIENT_QOS2 && ((packet_type =? PUBREC) || (packet_type =? PUBREL))
  then cycle_pubrec_pubrel fuel packet_type (p_packetid o) send_timer
  else if MQTTCLIENT_QOS2 && (packet_type =? PUBCOMP) then mret (false, SUCCESS)
  else if packet_type =? PINGRESP
  then update (set_ping_outstanding 0) ;; mret (false, SUCCESS)
  else mret (true, packet_type).

Definition keepalive (fuel : nat) : C Z :=
  c ← this;
  if keepAliveInterval c =? 0 then mret SUCCESS
  else
    '(expired, t) ← env (TimerIsExpired (last_received c));
    update (set_last_received t) ;;
    if expired : bool then
      c ← this;
      if 5 <? ping_outstanding c then mret FAILURE
      else
        timer ← env (Timer_ms 1000);
        len ← on_sendbuf (λ b, MQTTSerialize_pingreq b MAX_MQTT_PACKET_SIZE);
        if 0 <? len then
          '(rc, _) ← sendPacket fuel len timer;
          (if rc =? SUCCESS then
             c ← this;
             t ← env (TimerCountdown (last_received c) 15);
             update (set_last_received t) ;;
             c ← this;
             n ← lift (ping_outstanding c +i 1)%c;
             update (set_ping_outstanding n)
           else mret tt) ;;
          mret rc
        else mret SUCCESS
    else mret SUCCESS.

Definition cycle (fuel : nat) (o : publish_out) (timer : Timer) : C (Z * Timer) :=
  send_timer ← env TimerInit;
  '(packet_type, timer) ← readPacket timer;
  '(to_exit, rc) ← cycle_switch fuel o packet_type send_timer;
  rc ← (if to_exit : bool then mret rc
        else k ← keepalive fuel; mret (if negb (k =? SUCCESS) then FAILURE else rc));
  if rc =? SUCCESS then mret (packet_type, timer)
  else
    c ← this;
    (if isconnected c then closeSession else mret tt) ;;
    mret (rc, timer).

(** The while loop of yield. *)
Fixpoint yield_loop (n fuel : nat) (o : publish_out) (timer : Timer) : C Z :=
  match n with
  | O => no_fuel
  | S n =>
      '(expired, timer) ← env (TimerIsExpired timer);
      if expired : bool then mret SUCCESS
      else
        '(r, timer) ← cycle fuel o timer;
        if r <? 0 then mret FAILURE else yield_loop n fuel o timer
  end.

Definition yield (fuel : nat) (o : publish_out) (timeout_ms : Z) : C Z :=
  timer ← env TimerInit;
  timer ← env (TimerCountdownMS timer timeout_ms);
  yield_loop fuel fuel o timer.

(** The do-while loop of waitfor. *)
Fixpoint waitfor_loop (n fuel : nat) (o : publish_out) (packet_type rc : Z) (timer : Timer)
  : C (Z * Timer) :=
  match n with
  | O => no_fuel
  | S n =>
      '(expired, timer) ← env (TimerIsExpired timer);
      if expired : bool then mret (rc, timer)
      else
        '(rc, timer) ← cycle fuel o timer;
        if negb (rc =? packet_type) && (0 <=? rc)
        then waitfor_loop n fuel o packet_type rc timer
        else mret (rc, timer)
  end.

Definition waitfor (fuel : nat) (o : publish_out) (packet_type : Z) (timer : Timer)
  : C (Z * Timer) :=
  waitfor_loop fuel fuel o packet_type FAILURE timer.

(** ** Publishing *)

(** The wait for PUBACK or PUBCOMP of the private publish, and what it does
    with the acknowledgement. *)
Definition publish_wait (fuel : nat) (o : publish_out) (packet_type rc : Z) (timer : Timer)
  : C Z :=
  '(r, _) ← waitfor fuel o packet_type timer;
  if r =? packet_type then
    c ← this;
    '(ok, _, _, mypacketid) ←
      lift (MQTTDeserialize_ack (p_packetid o) (readbuf c) MAX_MQTT_PACKET_SIZE);
    if negb (ok =? 1) then mret FAILURE
    else
      (if inflightMsgid c =? mypacketid then update (set_inflightMsgid 0) else mret tt) ;;
      mret rc
  else mret FAILURE.

(** [publish(int len, Timer& timer, enum QoS qos)] *)
Definition publish_len (fuel : nat) (o : publish_out) (len : Z) (timer : Timer) (qos : Z)
  : C Z :=
  '(rc, timer) ← sendPacket fuel len timer;
  if negb (rc =? SUCCESS) then mret rc
  else if MQTTCLIENT_QOS1 && (qos =? QOS1) then publish_wait fuel o PUBACK rc timer
  else if MQTTCLIENT_QOS2 && (qos =? QOS2) then publish_wait fuel o PUBCOMP rc timer
  else mret rc.

(** [MQTTString topic = MQTTString_initializer; topic.cstring = s;] *)
Definition topic_of (s : option ptr) : MQTTString :=
  {| cstring := s; lenstring := lenstring MQTTString_initializer |}.

(** [memcpy(pubbuf, sendbuf, len)] and the inflight variables. *)
Definition keep_inflight (len id qos : Z) : C unit :=
  c ← this;
  bs ← lift (load_bytes (sendbuf c) 0 len);
  b ← lift (store_bytes (pubbuf c) 0 bs);
  update (set_pubbuf b) ;;
  update (set_inflightMsgid id) ;;
  update (set_inflightLen len) ;;
  update (set_inflightQoS qos) ;;
  (if MQTTCLIENT_QOS2 then update (set_pubrel false) else mret tt).

(** [publish(topicName, payload, payloadlen, id, qos, retained)]: the result
    and [id]. *)
Definition publish_id (fuel : nat) (o : publish_out) (topicName payload : option ptr)
    (payloadlen id qos retained : Z) : C (Z * Z) :=
  timer ← env TimerInit;
  c ← this;
  if negb (isconnected c) then mret (FAILURE, id)
  else
    id ← (if (MQTTCLIENT_QOS1 || MQTTCLIENT_QOS2) && ((qos =? QOS1) || (qos =? QOS2)) then
            let next := getNext (packetid c) in
            update (set_packetid next) ;; mret (to_ushort next)
          else mret id);
    len ← on_sendbuf (λ b, MQTTSerialize_publish b MAX_MQTT_PACKET_SIZE 0 qos retained id
                             (topic_of topicName) payload (to_int payloadlen));
    if len <=? 0 then mret (FAILURE, id)
    else
      (if (MQTTCLIENT_QOS1 || MQTTCLIENT_QOS2) && negb (cleansession c)
       then keep_inflight len id qos else mret tt) ;;
      rc ← publish_len fuel o len timer qos;
      mret (rc, id).

Definition publish (fuel : nat) (o : publish_out) (topicName payload : option ptr)
    (payloadlen qos retained : Z) : C Z :=
  '(rc, _) ← publish_id fuel o topicName payload payloadlen 0 qos retained; mret rc.

Definition publish_message (fuel : nat) (o : publish_out) (topicName : option ptr)
    (message : MQTTMessage) : C Z :=
  publish fuel o topicName (m_payload message) (m_payloadlen message) (m_qos message)
    (m_retained message).

(** ** Connecting *)

(** What connect does with the CONNACK; data.rc is an int, its low byte is
    written. *)
Definition connect_ack (data : connackData) : C (Z * connackData) :=
  c ← this;
  '(ok, sp, connack_rc) ← lift (MQTTDeserialize_connack 0 0 (readbuf c) MAX_MQTT_PACKET_SIZE);
  let data := ConnackData connack_rc (truth sp) in
  mret (if ok =? 1 then connack_rc else FAILURE, data).

(** The publish in flight is sent again. *)
Definition resend_inflight (fuel : nat) (o : publish_out) (rc : Z) (timer : Timer) : C Z :=
  c ← this;
  if MQTTCLIENT_QOS2 && ((0 <? inflightMsgid c) && (inflightQoS c =? QOS2) && pubrel c) then
    len ← on_sendbuf (λ b, MQTTSerialize_ack b MAX_MQTT_PACKET_SIZE PUBREL 0 (inflightMsgid c));
    if len <=? 0 then mret FAILURE else publish_len fuel o len timer (inflightQoS c)
  else if (MQTTCLIENT_QOS1 || MQTTCLIENT_QOS2) && (0 <? inflightMsgid c) then
    bs ← lift (load_bytes (pubbuf c) 0 MAX_MQTT_PACKET_SIZE);
    b ← lift (store_bytes (sendbuf c) 0 bs);
    update (set_sendbuf b) ;;
    publish_len fuel o (inflightLen c) timer (inflightQoS c)
  else mret rc.

(** connect once the client is known not to be connected: [rc] and [data]. *)
Definition connect_session (fuel : nat) (o : publish_out) (options : MQTTPacket_connectData)
    (connect_timer : Timer) (data : connackData) : C (Z * connackData) :=
  update (set_keepAliveInterval (Connect.keepAliveInterval options)) ;;
  update (set_cleansession (truth (Connect.cleansession options))) ;;
  len ← on_sendbuf (λ b, MQTTSerialize_connect b MAX_MQTT_PACKET_SIZE options);
  if len <=? 0 then mret (FAILURE, data)
  else
    '(rc, connect_timer) ← sendPacket fuel len connect_timer;
    if negb (rc =? SUCCESS) then mret (rc, data)
    else
      restart_last_received ;;
      '(r, connect_timer) ← waitfor fuel o CONNACK connect_timer;
      '(rc, data) ← (if r =? CONNACK then connect_ack data else mret (FAILURE, data));
      rc ← resend_inflight fuel o rc connect_timer;
      mret (rc, data).

Definition connect_data (fuel : nat) (o : publish_out) (options : MQTTPacket_connectData)
    (data : connackData) : C (Z * connackData) :=
  connect_timer ← env (Timer_ms 5000);
  c ← this;
  '(rc, data) ← (if isconnected c then mret (FAILURE, data)
                 else connect_session fuel o options connect_timer data);
  (if rc =? SUCCESS then
     update (set_isconnected true) ;; update (set_ping_outstanding 0)
   else mret tt) ;;
  mret (rc, data).

(** [data] is not initialised by its declaration. *)
Definition connect_options (fuel : nat) (o : publish_out) (data : connackData)
    (options : MQTTPacket_connectData) : C Z :=
  '(rc, _) ← connect_data fuel o options data; mret rc.

Definition connect (fuel : nat) (o : publish_out) (data : connackData) : C Z :=
  connect_options fuel o data MQTTPacket_connectData_initializer.

(** ** Message handlers *)

(** The first loop of setMessageHandler: the index of the slot with this
    filter, MAX_MESSAGE_HANDLERS if there is none. *)
Fixpoint find_filter (n : nat) (i : Z) (filter : option ptr) (hs : list MessageHandlers)
  : outcome Z :=
  match n with
  | O => Ok i
  | S n =>
      h ← arr_get hs i;
      same ← (if nonnull (topicFilter h)
              then r ← strcmp (filter_str h) filter; Ok (r =? 0) else Ok false);
      if same : bool then Ok i else find_filter n (i + 1) filter hs
  end.

(** The second loop: the index of the first empty slot. *)
Fixpoint find_empty (n : nat) (i : Z) (hs : list MessageHandlers) : outcome Z :=
  match n with
  | O => Ok i
  | S n =>
      h ← arr_get hs i;
      if nonnull (topicFilter h) then find_empty n (i + 1) hs else Ok i
  end.

(** [malloc(strlen(s) + 1)] and [strcpy] to it, which faults when there was
    no memory. The copy has the characters of [s] and its NUL. *)
Definition copy_filter (s : option ptr) : C block :=
  n ← lift (strlen s);
  a ← env (malloc (n + 1));
  bs ← lift (mem_read s (n + 1));
  match a with
  | Some a => mret (Block a (Ptr bs 0))
  | None => lift (UB NullPointer)
  end.

(** The body the two overloads share: [attach] is what they do with the
    callback, [None] for a null one. *)
Definition set_handler (filter : option ptr) (attach : option (FP → FP)) : C Z :=
  c ← this;
  let slots := Z.to_nat MAX_MESSAGE_HANDLERS in
  i ← lift (find_filter slots 0 filter (messageHandlers c));
  let rc := if i <? MAX_MESSAGE_HANDLERS then SUCCESS else FAILURE in
  match attach with
  | None =>
      (if rc =? SUCCESS then
         h ← lift (arr_get (messageHandlers c) i);
         (match topicFilter h with Some b => env (free (b_addr b)) | None => mret tt end) ;;
         hs ← lift (arr_set (messageHandlers c) i (Slot None (detach (fp h))));
         update (set_messageHandlers hs)
       else mret tt) ;;
      mret rc
  | Some attach =>
      i ← (if rc =? FAILURE then lift (find_empty slots 0 (messageHandlers c)) else mret i);
      let rc := if (rc =? FAILURE) && (i <? MAX_MESSAGE_HANDLERS) then SUCCESS else rc in
      (if i <? MAX_MESSAGE_HANDLERS then
         b ← copy_filter filter;
         h ← lift (arr_get (messageHandlers c) i);
         hs ← lift (arr_set (messageHandlers c) i (Slot (Some b) (attach (fp h))));
         update (set_messageHandlers hs)
       else mret tt) ;;
      mret rc
  end.

Definition setMessageHandler (filter : option ptr) (func_cb : option messageHandler) : C Z :=
  set_handler filter (if nonnull func_cb then Some (attach_function func_cb) else None).

Definition setMessageHandler_method (filter : option ptr) (cb : option MessageCallback) : C Z :=
  set_handler filter (if nonnull cb then Some (attach_method cb messageHandler_) else None).

(** ** Subscribing *)

(** What subscribe does with a SUBACK: [rc] is SUCCESS, [set] is the call of
    setMessageHandler. *)
Definition subscribe_ack (o : publish_out) (set : C Z) (rc : Z) : C (Z * Z) :=
  c ← this;
  '(ok, _, _, granted) ←
    lift (MQTTDeserialize_suback (p_packetid o) 1 0 [0] (readbuf c) MAX_MQTT_PACKET_SIZE);
  q ← lift (arr_get granted 0);
  if (ok =? 1) && negb (q =? 128) then rc ← set; mret (rc, q)
  else mret (rc, q).

(** The body the overloads share: [rc] and [data.grantedQoS]. *)
Definition subscribe_with (fuel : nat) (o : publish_out) (filter : option ptr) (qos : Z)
    (set : C Z) (data : Z) : C (Z * Z) :=
  timer ← env TimerInit;
  c ← this;
  if negb (isconnected c) then mret (FAILURE, data)
  else
    let id := getNext (packetid c) in
    update (set_packetid id) ;;
    len ← on_sendbuf (λ b, MQTTSerialize_subscribe b MAX_MQTT_PACKET_SIZE 0 (to_ushort id) 1
                             [topic_of filter] [qos]);
    if len <=? 0 then mret (FAILURE, data)
    else
      '(rc, timer) ← sendPacket fuel len timer;
      if negb (rc =? SUCCESS) then mret (rc, data)
      else
        '(r, _) ← waitfor fuel o SUBACK timer;
        if r =? SUBACK then subscribe_ack o set rc else mret (FAILURE, data).

Definition subscribe_data (fuel : nat) (o : publish_out) (filter : option ptr) (qos : Z)
    (func_cb : option messageHandler) (data : Z) : C (Z * Z) :=
  subscribe_with fuel o filter qos (setMessageHandler filter func_cb) data.

Definition subscribe_data_method (fuel : nat) (o : publish_out) (filter : option ptr) (qos : Z)
    (cb : option MessageCallback) (data : Z) : C (Z * Z) :=
  subscribe_with fuel o filter qos (setMessageHandler_method filter cb) data.

(** [data] is not initialised by its declaration. *)
Definition subscribe (fuel : nat) (o : publish_out) (filter : option ptr) (qos : Z)
    (func_cb : option messageHandler) (data : Z) : C Z :=
  '(rc, _) ← subscribe_data fuel o filter qos func_cb data; mret rc.

Definition subscribe_method (fuel : nat) (o : publish_out) (filter : option ptr) (qos : Z)
    (cb : option MessageCallback) (data : Z) : C Z :=
  '(rc, _) ← subscribe_data_method fuel o filter qos cb data; mret rc.

Definition unsubscribe (fuel : nat) (o : publish_out) (filter : option ptr) : C Z :=
  timer ← env TimerInit;
  c ← this;
  if negb (isconnected c) then mret FAILURE
  else
    let id := getNext (packetid c) in
    update (set_packetid id) ;;
    len ← on_sendbuf (λ b, MQTTSerialize_unsubscribe b MAX_MQTT_PACKET_SIZE 0 (to_ushort id) 1
                             [topic_of filter]);
    if len <=? 0 then mret FAILURE
    else
      '(rc, timer) ← sendPacket fuel len timer;
      if negb (rc =? SUCCESS) then mret rc
      else
        '(r, _) ← waitfor fuel o UNSUBACK timer;
        if r =? UNSUBACK then
          c ← this;
          '(ok, _) ← lift (MQTTDeserialize_unsuback (p_packetid o) (readbuf c)
                             MAX_MQTT_PACKET_SIZE);
          (if ok =? 1 then setMessageHandler filter None ;; mret tt else mret tt) ;;
          mret rc
        else mret FAILURE.

Definition disconnect (fuel : nat) : C Z :=
  timer ← env TimerInit;
  len ← on_sendbuf (λ b, MQTTSerialize_disconnect b MAX_MQTT_PACKET_SIZE);
  rc ← (if 0 <? len then '(rc, _) ← sendPacket fuel len timer; mret rc else mret FAILURE);
  closeSession ;;
  mret rc.

(** ** Running a step of the client *)

Lemma cpp_run_env {A} (m : M W A) c w a w' :
  m w = Ok (a, w') → env m (c, w) = Ok (a, (c, w')).
Proof. unfold env. cbn [fst snd]. by intros ->. Qed.

Lemma cpp_bind_env {A B} (m : M W A) (f : A → C B) c w a w' :
  m w = Ok (a, w') → (env m ≫= f) (c, w) = f a (c, w').
Proof. intros E. by apply run_bind, cpp_run_env. Qed.

Lemma bind_this {B} (f : Client → C B) c w : (this ≫= f) (c, w) = f c (c, w).
Proof. done. Qed.

Lemma cpp_bind_update {B} g (f : unit → C B) c w : (update g ≫= f) (c, w) = f tt (g c, w).
Proof. done. Qed.

End Client.
End CppClient.
