(* ===== verification/CppQoS2.v ===== *)
(** * The identifiers of incoming QoS 2 messages

    The array incomingQoS2messages of the C++ client as a bounded finite set:
    a slot that holds 0 is empty. *)

From stdpp Require Import gmap fin_sets.
From S2P Require Import Prelude CSem Packet Platform CppClient.

Module CppQoS2.
Import CppClient.

Section Table.
Context `{Config}.

(** The identifiers in the table, and the set they are. *)
Definition stored (ids : list Z) : list Z := base.filter (λ x, x ≠ 0) ids.
Definition msgids (ids : list Z) : gset Z := list_to_set (stored ids).

(** A table of the declared size without repetitions. *)
Definition table_ok (ids : list Z) : Prop :=
  length ids = Z.to_nat MAX_INCOMING_QOS2_MESSAGES ∧ NoDup (stored ids).

Lemma stored_app a b : stored (a ++ b) = stored a ++ stored b.
Proof. apply list.filter_app. Qed.

Lemma stored_cons x l : stored (x :: l) = (if x =? 0 then [] else [x]) ++ stored l.
Proof.
  unfold stored. rewrite list.filter_cons. destruct (Z.eqb_spec x 0); by destruct (decide _).
Qed.

Lemma elem_of_stored x ids : x ∈ stored ids ↔ x ≠ 0 ∧ x ∈ ids.
Proof. unfold stored. by rewrite list_elem_of_filter. Qed.

Lemma elem_of_msgids x ids : x ∈ msgids ids ↔ x ≠ 0 ∧ x ∈ ids.
Proof. unfold msgids. by rewrite elem_of_list_to_set, elem_of_stored. Qed.

Lemma size_msgids ids : NoDup (stored ids) → size (msgids ids) = length (stored ids).
Proof. intros. by apply size_list_to_set. Qed.

(** ** The loops *)

(** The next place of a loop over an array. *)
Lemma len_snoc {A} (pre : list A) x : len pre + 1 = len (pre ++ [x]).
Proof. rewrite len_app. done. Qed.
Lemma app_snoc {A} (pre : list A) x l : pre ++ x :: l = (pre ++ [x]) ++ l.
Proof. by rewrite <- app_assoc. Qed.

Lemma isQoS2msgidFree_loop_spec pre ids id :
  isQoS2msgidFree_loop (length ids) (len pre) (pre ++ ids) id = Ok (bool_decide (id ∉ ids)).
Proof.
  revert pre. induction ids as [|x ids IH]; intros pre; [done|]. cbn [length isQoS2msgidFree_loop].
  rewrite arr_get_app by done. cbn [mbind outcome_bind]. destruct (Z.eqb_spec x id) as [->|N].
  - rewrite bool_decide_false; [done|]. intros Hn. apply Hn. by left.
  - rewrite (len_snoc pre x), (app_snoc pre x ids), IH. f_equal. apply bool_decide_ext. rewrite not_elem_of_cons.
    split; [intros ?; by split|by intros [_ ?]].
Qed.

Lemma isQoS2msgidFree_spec id ids :
  length ids = Z.to_nat MAX_INCOMING_QOS2_MESSAGES →
  isQoS2msgidFree id ids = Ok (bool_decide (id ∉ ids)).
Proof. intros E. unfold isQoS2msgidFree. rewrite <- E. apply (isQoS2msgidFree_loop_spec []). Qed.

(** Where there is no [old] the array is left alone; else the first one is
    replaced. *)
Lemma replace_msgid_absent pre ids old new :
  old ∉ ids → replace_msgid (length ids) (len pre) old new (pre ++ ids) = Ok (false, pre ++ ids).
Proof.
  revert pre. induction ids as [|x ids IH]; intros pre Hn; [done|].
  apply not_elem_of_cons in Hn as [Hx Hn]. cbn [length replace_msgid].
  rewrite arr_get_app by done. cbn [mbind outcome_bind]. destruct (Z.eqb_spec x old); [by subst|].
  rewrite (len_snoc pre x), (app_snoc pre x ids). by apply IH.
Qed.

Lemma replace_msgid_first pre l1 l2 old new :
  old ∉ l1 →
  replace_msgid (length (l1 ++ old :: l2)) (len pre) old new (pre ++ l1 ++ old :: l2) =
    Ok (true, pre ++ l1 ++ new :: l2).
Proof.
  revert pre. induction l1 as [|x l1 IH]; intros pre Hn.
  - cbn [length app replace_msgid]. rewrite arr_get_app by done. cbn [mbind outcome_bind]. rewrite Z.eqb_refl.
    rewrite arr_set_app by done. cbn [mbind outcome_bind]. by rewrite <- app_assoc.
  - apply not_elem_of_cons in Hn as [Hx Hn]. cbn [length app replace_msgid].
    rewrite arr_get_app by done. cbn [mbind outcome_bind]. destruct (Z.eqb_spec x old); [by subst|].
    rewrite (len_snoc pre x), (app_snoc pre x (l1 ++ old :: l2)), IH by done.
    by rewrite <- app_assoc.
Qed.

(** The first place of an element. *)
Lemma elem_of_first (x : Z) l : x ∈ l → ∃ l1 l2, l = l1 ++ x :: l2 ∧ x ∉ l1.
Proof.
  induction l as [|y l IH]; [by intros ?%not_elem_of_nil|]. intros Hx.
  destruct (decide (x = y)) as [->|N].
  - exists [], l. split; [done|apply not_elem_of_nil].
  - apply elem_of_cons in Hx as [|Hx]; [done|]. destruct (IH Hx) as (l1 & l2 & -> & Hn).
    exists (y :: l1), l2. split; [done|]. by apply not_elem_of_cons.
Qed.

Lemma replace_msgid_spec old new ids :
  length ids = Z.to_nat MAX_INCOMING_QOS2_MESSAGES →
  ((old ∉ ids) ∧ replace_msgid (Z.to_nat MAX_INCOMING_QOS2_MESSAGES) 0 old new ids = Ok (false, ids)) ∨
  ∃ l1 l2, ids = l1 ++ old :: l2 ∧ (old ∉ l1) ∧
    replace_msgid (Z.to_nat MAX_INCOMING_QOS2_MESSAGES) 0 old new ids = Ok (true, l1 ++ new :: l2).
Proof.
  intros <-. destruct (decide (old ∈ ids)) as [Hx|Hx].
  - right. destruct (elem_of_first _ _ Hx) as (l1 & l2 & -> & Hn). exists l1, l2.
    split; [done|]. split; [done|]. by apply (replace_msgid_first []).
  - left. split; [done|]. by apply (replace_msgid_absent []).
Qed.

Lemma stored_length ids : (length (stored ids) ≤ length ids)%nat.
Proof. apply list.length_filter. Qed.

(** A table with an empty slot is not full. *)
Lemma stored_room (l1 l2 : list Z) : (length (stored (l1 ++ 0%Z :: l2)) < length (l1 ++ 0%Z :: l2))%nat.
Proof.
  rewrite stored_app, stored_cons, !length_app. cbn.
  pose proof (stored_length l1). pose proof (stored_length l2). lia.
Qed.

Lemma stored_full ids : 0 ∉ ids → stored ids = ids.
Proof.
  induction ids as [|x ids IH]; [done|]. rewrite not_elem_of_cons. intros [Hx Hn].
  rewrite stored_cons. destruct (Z.eqb_spec x 0); [by subst|]. cbn. by rewrite IH.
Qed.

Lemma NoDup_middle (l1 l2 : list Z) x : NoDup (l1 ++ x :: l2) ↔ NoDup (l1 ++ l2) ∧ x ∉ l1 ++ l2.
Proof.
  rewrite !list.NoDup_app, list.NoDup_cons, not_elem_of_app.
  setoid_rewrite not_elem_of_cons. naive_solver.
Qed.

(** useQoS2msgid for an identifier that is not there, as the client calls it. *)
Lemma useQoS2msgid_spec id ids :
  table_ok ids → id ≠ 0 → id ∉ ids →
  ∃ ids', useQoS2msgid id ids =
      Ok (bool_decide (Z.of_nat (size (msgids ids)) < MAX_INCOMING_QOS2_MESSAGES), ids') ∧
    table_ok ids' ∧
    msgids ids' = (if bool_decide (Z.of_nat (size (msgids ids)) < MAX_INCOMING_QOS2_MESSAGES)
                   then {[id]} ∪ msgids ids else msgids ids) ∧
    (∀ x, x ∈ ids' → x = id ∨ x ∈ ids).
Proof.
  intros [Hl Hnd] Hid Hn. unfold useQoS2msgid. rewrite size_msgids by done.
  destruct (replace_msgid_spec 0 id ids Hl) as [[H0 ->]|(l1 & l2 & -> & H0 & ->)].
  - exists ids. rewrite stored_full by done. rewrite bool_decide_false by lia.
    repeat split; auto.
  - pose proof (stored_room l1 l2). rewrite bool_decide_true by lia.
    exists (l1 ++ id :: l2). split; [done|].
    rewrite stored_app, stored_cons in Hnd. cbn in Hnd.
    rewrite not_elem_of_app, not_elem_of_cons in Hn. destruct Hn as (N1 & _ & N2).
    repeat split.
    + rewrite length_app in *. cbn in *. lia.
    + rewrite stored_app, stored_cons. destruct (Z.eqb_spec id 0); [done|].
      apply NoDup_middle. split; [done|]. rewrite <- stored_app, elem_of_stored, elem_of_app. tauto.
    + apply set_eq. intros x. rewrite elem_of_union, elem_of_singleton, !elem_of_msgids.
      rewrite !elem_of_app, !elem_of_cons. naive_solver.
    + intros x. rewrite !elem_of_app, !elem_of_cons. naive_solver.
Qed.

Lemma freeQoS2msgid_spec id ids :
  table_ok ids → id ≠ 0 →
  ∃ ids', freeQoS2msgid id ids = Ok ids' ∧ table_ok ids' ∧
    msgids ids' = msgids ids ∖ {[id]} ∧ (∀ x, x ∈ ids' → x = 0 ∨ x ∈ ids).
Proof.
  intros [Hl Hnd] Hid. unfold freeQoS2msgid.
  destruct (replace_msgid_spec id 0 ids Hl) as [[H0 ->]|(l1 & l2 & -> & H0 & ->)]; cbn.
  - exists ids. repeat split; auto. apply set_eq. intros x.
    rewrite elem_of_difference, elem_of_singleton, elem_of_msgids. split; [|naive_solver].
    intros [Hx1 Hx2]. split; [done|]. by intros ->.
  - exists (l1 ++ 0 :: l2). split; [done|].
    rewrite stored_app, stored_cons in Hnd. destruct (Z.eqb_spec id 0); [done|]. cbn in Hnd.
    apply NoDup_middle in Hnd as [Hnd Hn]. rewrite <- stored_app, elem_of_stored in Hn.
    repeat split.
    + rewrite length_app in *. cbn in *. lia.
    + by rewrite stored_app, stored_cons.
    + apply set_eq. intros x. rewrite elem_of_difference, elem_of_singleton, !elem_of_msgids.
      rewrite elem_of_app in Hn. rewrite !elem_of_app, !elem_of_cons. naive_solver.
    + intros x. rewrite !elem_of_app, !elem_of_cons. naive_solver.
Qed.

(** ** The table as a set *)

(** On a table without repetitions isQoS2msgidFree decides membership in the set of stored
    identifiers, useQoS2msgid adds an identifier that is not stored exactly when fewer than
    MAX_INCOMING_QOS2_MESSAGES are, freeQoS2msgid removes one, and the table stays without
    repetitions. *)
Theorem qos2_table_refines id ids :
  table_ok ids → id ≠ 0 →
  isQoS2msgidFree id ids = Ok (bool_decide (id ∉ msgids ids)) ∧
  (id ∉ msgids ids → ∃ ids', table_ok ids' ∧ 
     let room := bool_decide (Z.of_nat (size (msgids ids)) < MAX_INCOMING_QOS2_MESSAGES) in
     useQoS2msgid id ids = Ok (room, ids') ∧
     msgids ids' = if room then {[id]} ∪ msgids ids else msgids ids) ∧
  ∃ ids', freeQoS2msgid id ids = Ok ids' ∧ table_ok ids' ∧ msgids ids' = msgids ids ∖ {[id]}.
Proof.
  intros Ht Hid. split; [|split].
  - rewrite isQoS2msgidFree_spec by apply Ht. f_equal. apply bool_decide_ext.
    rewrite elem_of_msgids. tauto.
  - rewrite elem_of_msgids. intros Hn.
    destruct (useQoS2msgid_spec id ids Ht Hid ltac:(tauto)) as (ids' & E & Ht' & Em & _).
    exists ids'. auto.
  - destruct (freeQoS2msgid_spec id ids Ht Hid) as (ids' & E & Ht' & Em & _). exists ids'. auto.
Qed.

End Table.

#[local] Definition three : Config :=
  {| MAX_MQTT_PACKET_SIZE := 100; MAX_MESSAGE_HANDLERS := 5; MAX_INCOMING_QOS2_MESSAGES := 3;
     MQTTCLIENT_QOS1 := true; MQTTCLIENT_QOS2 := true |}.
#[local] Existing Instance three.

Lemma ex_table : table_ok [0; 7; 9].
Proof. split; [done|]. by decide_by_vm. Qed.

Lemma qos2_table_refines_witness :
  isQoS2msgidFree 5 [0; 7; 9] = Ok true ∧ freeQoS2msgid 5 [0; 7; 9] = Ok [0; 7; 9] ∧
  ∃ ids', table_ok ids' ∧ useQoS2msgid 5 [0; 7; 9] = Ok (true, ids') ∧
    msgids ids' = {[5]} ∪ msgids [0; 7; 9].
Proof.
  destruct (qos2_table_refines 5 [0; 7; 9] ex_table ltac:(done)) as (E & U & _).
  split; [exact E|]. split; [reflexivity|]. apply U. decide_by_vm.
Defined.

End CppQoS2.
