(* ===== verification/CppDelivery.v ===== *)
(** * Delivery in the C++ client

    deliverMessage of MQTTClient.h calls the functions and objects whose filter matches, in the
    order of the slots; what case PUBLISH of cycle does with a message of QoS 2 is an insertion
    into the set of CppQoS2.v. *)

From stdpp Require Import gmap fin_sets.
From S2P Require Import Prelude CSem Wire Packet Topics Platform CppClient CppQoS2.

Module CppDelivery.
Import CppClient CppQoS2.

Section Delivery.
Context `{CImpl} `{Config} {W : Type} `{CppPlatform W}.
#[local] Abbreviation C A := (M (Client * W) A).

(** ** The slots *)

(** The contents of a slot: a filter and what is to be called, or nothing. *)
Abbreviation entry := (option (list Z * FP)).

Definition cpp_holds (h : MessageHandlers) (e : entry) : Prop :=
  match e with
  | Some (f, x) => ∃ b, topicFilter h = Some b ∧ cstr (b_str b) f ∧ fp h = x
  | None => topicFilter h = None
  end.

(** What a slot contributes for a topic. *)
Definition cpp_selected (topic : list Z) (e : entry) : option FP :=
  match e with
  | Some (f, x) => if (bool_decide (topic = f) || tm f topic) && attached x then Some x else None
  | None => None
  end.

(** What deliverMessage calls: the attached slots whose filter matches, in their order, else the
    default handler if it is attached. *)
Definition cpp_recipients (c : Client) (topic : list Z) (tbl : list entry) : list FP :=
  match omap (cpp_selected topic) tbl with
  | [] => if attached (defaultMessageHandler c) then [defaultMessageHandler c] else []
  | fps => fps
  end.

Fixpoint call_fps (fps : list FP) (md : MessageData) : M W unit :=
  match fps with [] => mret tt | x :: fps => FP_call x md ;; call_fps fps md end.

(** The return code when [fps] have been called. *)
Definition cpp_called (rc : Z) (fps : list FP) : Z :=
  match fps with [] => rc | _ => SUCCESS end.

(** isTopicMatched is the function of the C client. *)
Lemma cpp_isTopicMatched_same filter t : isTopicMatched filter t = Topics.isTopicMatched filter t.
Proof. reflexivity. Qed.

Lemma cpp_env_ext {A B} (m : M W A) (f g : A → C B) c w :
  (∀ a w', f a (c, w') = g a (c, w')) → (env m ≫= f) (c, w) = (env m ≫= g) (c, w).
Proof.
  intros E. unfold env, mbind, M_bind. cbn [fst snd]. destruct (m w) as [[a w']| |]; [|done..].
  apply E.
Qed.

Lemma cpp_env_seq {A B D} (m : M W A) (k : M W B) (f : B → C D) c w :
  (env (m ;; k) ≫= f) (c, w) = (env m ;; env k ≫= f) (c, w).
Proof. unfold env, mbind, M_bind. cbn [fst snd]. by destruct (m w) as [[a w']| |]. Qed.

Lemma cpp_slot_matches p f t topic :
  cstr p f → denotes t topic → cstring t = None →
  (eq ← MQTTPacket_equals t (Some p);
   if eq : bool then Ok true else isTopicMatched (Some p) t) =
  Ok (bool_decide (topic = f) || tm f topic).
Proof.
  intros Hp Ht Hc. rewrite (bind_Ok _ _ _ (equals_denotes t p topic f Ht Hp)).
  destruct (bool_decide _); [done|]. rewrite cpp_isTopicMatched_same. by apply isTopicMatched_defined.
Qed.

Lemma cpp_deliver_loop_spec c t topic msg hs tbl pre rc w :
  denotes t topic → cstring t = None → messageHandlers c = pre ++ hs → Forall2 cpp_holds hs tbl →
  deliver_loop (length hs) (len pre) rc t msg (c, w) =
    (env (call_fps (omap (cpp_selected topic) tbl) (NewMessageData t msg)) ;;
     mret (cpp_called rc (omap (cpp_selected topic) tbl))) (c, w).
Proof.
  intros Ht Hc. revert tbl pre rc w. induction hs as [|h hs IH]; intros tbl pre rc w Eh F.
  { by inversion F. }
  inversion F as [|? e ? tbl' He F']; subst. cbn [deliver_loop length]. rewrite bind_this.
  rewrite (run_bind _ _ _ h (c, w)) by (apply run_lift; rewrite Eh; by apply arr_get_app).
  assert (Next : ∀ rc' w', deliver_loop (length hs) (len pre + 1) rc' t msg (c, w') =
    (env (call_fps (omap (cpp_selected topic) tbl') (NewMessageData t msg)) ;;
     mret (cpp_called rc' (omap (cpp_selected topic) tbl'))) (c, w')).
  { intros rc' w'. rewrite (len_snoc pre h). apply IH; [by rewrite <- app_snoc|done]. }
  unfold filter_str. destruct e as [[f x]|].
  - destruct He as (b & -> & Hp & Ex). cbn [nonnull fmap option_fmap option_map].
    rewrite (run_bind _ _ _ _ _ (run_lift _ _ (c, w) (cpp_slot_matches _ f t topic Hp Ht Hc))).
    cbn [omap list_omap cpp_selected]. rewrite Ex.
    destruct (_ && attached x); [|rewrite run_bind_ret; apply Next]. cbn [call_fps cpp_called].
    rewrite run_assoc, cpp_env_seq. apply cpp_env_ext. intros [] w'.
    rewrite run_bind_ret, (Next SUCCESS). apply cpp_env_ext. intros [] w2.
    by destruct (omap _ tbl').
  - cbn in He. rewrite He. cbn [nonnull andb]. rewrite (run_bind _ _ _ false (c, w)) by done.
    cbn [andb]. rewrite run_bind_ret. apply Next.
Qed.

(** The calls of deliverMessage: the object itself does not change. *)
Theorem cpp_deliverMessage_calls c w t topic msg tbl :
  Forall2 cpp_holds (messageHandlers c) tbl → len (messageHandlers c) = MAX_MESSAGE_HANDLERS →
  denotes t topic → cstring t = None →
  deliverMessage t msg (c, w) =
    (env (call_fps (cpp_recipients c topic tbl) (NewMessageData t msg)) ;;
     mret (cpp_called FAILURE (cpp_recipients c topic tbl))) (c, w).
Proof.
  intros F Hlen Ht Hc. unfold deliverMessage.
  replace (Z.to_nat MAX_MESSAGE_HANDLERS) with (length (messageHandlers c)) by lia.
  pose proof (cpp_deliver_loop_spec c t topic msg _ tbl [] FAILURE w Ht Hc eq_refl F) as E.
  change (len (@nil MessageHandlers)) with 0 in E. unfold mbind at 1, M_bind at 1.
  rewrite E. clear E. change (
    ((env (call_fps (omap (cpp_selected topic) tbl) (NewMessageData t msg)) ;;
      mret (cpp_called FAILURE (omap (cpp_selected topic) tbl))) ≫= (λ rc,
      c ← this;
      if (rc =? FAILURE) && attached (defaultMessageHandler c)
      then env (FP_call (defaultMessageHandler c) (NewMessageData t msg)) ;; mret SUCCESS
      else mret rc)) (c, w) = (env (call_fps (cpp_recipients c topic tbl) (NewMessageData t msg)) ;;
     mret (cpp_called FAILURE (cpp_recipients c topic tbl))) (c, w)).
  unfold cpp_recipients. destruct (omap (cpp_selected topic) tbl) as [|x fps].
  - rewrite run_assoc. cbn [call_fps cpp_called].
    assert (E1 : env (mret tt : M W unit) (c, w) = Ok (tt, (c, w))) by done.
    rewrite (run_bind _ _ _ _ _ E1), run_bind_ret, bind_this. change (FAILURE =? FAILURE) with true.
    cbn [andb]. destruct (attached (defaultMessageHandler c)); [|done].
    cbn [call_fps cpp_called]. rewrite cpp_env_seq. by apply cpp_env_ext.
  - rewrite run_assoc. apply cpp_env_ext. intros [] w'. by rewrite run_bind_ret, bind_this.
Qed.

(** ** Messages of QoS 2 *)

(** Whether a message with this QoS and identifier goes to the handlers when the identifiers in
    [held] are stored. *)
Definition accepted (qos id : Z) (held : gset Z) : bool :=
  if MQTTCLIENT_QOS2 && (qos =? QOS2)
  then bool_decide (id ∉ held) && bool_decide (Z.of_nat (size held) < MAX_INCOMING_QOS2_MESSAGES)
  else true.

(** The identifiers stored afterwards. *)
Definition remembered (qos id : Z) (held : gset Z) : gset Z :=
  if MQTTCLIENT_QOS2 && (qos =? QOS2) && accepted qos id held then {[id]} ∪ held else held.

Lemma set_incoming_same c : set_incomingQoS2messages (incomingQoS2messages c) c = c.
Proof. by destruct c. Qed.

(** What receive_message does: the message goes to its handlers when it is accepted, and its
    identifier is remembered first. *)
Lemma receive_message_calls t topic msg c w tbl :
  Forall2 cpp_holds (messageHandlers c) tbl → len (messageHandlers c) = MAX_MESSAGE_HANDLERS →
  denotes t topic → cstring t = None → table_ok (incomingQoS2messages c) →
  (m_qos msg = QOS2 → m_id msg ≠ 0) →
  let held := msgids (incomingQoS2messages c) in
  ∃ ids, table_ok ids ∧ msgids ids = remembered (m_qos msg) (m_id msg) held ∧
    receive_message t msg (c, w) =
      env (call_fps (if accepted (m_qos msg) (m_id msg) held then cpp_recipients c topic tbl else [])
             (NewMessageData t msg)) (set_incomingQoS2messages ids c, w).
Proof.
  intros F Hlen Ht Hc Htab Hid. cbv zeta. unfold receive_message, remembered, accepted.
  assert (Go : ∀ c', messageHandlers c' = messageHandlers c →
    defaultMessageHandler c' = defaultMessageHandler c →
    (deliverMessage t msg ;; mret tt) (c', w) =
      env (call_fps (cpp_recipients c topic tbl) (NewMessageData t msg)) (c', w)).
  { intros c' E1 E2. unfold mbind, M_bind. rewrite (cpp_deliverMessage_calls c' w t topic msg tbl);
      [|by rewrite E1..|done|done].
    assert (cpp_recipients c' topic tbl = cpp_recipients c topic tbl) as ->
      by (unfold cpp_recipients; by rewrite E2).
    unfold env, mbind, M_bind. cbn [fst snd]. by destruct (call_fps _ _ w) as [[[] w']| |]. }
  destruct (Z.eqb_spec (m_qos msg) QOS2) as [Q|Q]; [|rewrite !andb_false_r; cbn [andb];
    exists (incomingQoS2messages c); rewrite set_incoming_same; auto].
  destruct MQTTCLIENT_QOS2; cbn [andb];
    [|exists (incomingQoS2messages c); rewrite set_incoming_same; auto].
  specialize (Hid Q). rewrite bind_this.
  rewrite (run_bind _ _ _ _ _ (run_lift _ _ (c, w) (isQoS2msgidFree_spec (m_id msg) _ (proj1 Htab)))).
  destruct (decide (m_id msg ∈ incomingQoS2messages c)) as [Hin|Hin].
  - rewrite (bool_decide_false (_ ∉ msgids _)) by (rewrite elem_of_msgids; tauto).
    rewrite (bool_decide_false (_ ∉ incomingQoS2messages c)) by auto. cbn [andb].
    exists (incomingQoS2messages c). by rewrite set_incoming_same.
  - rewrite (bool_decide_true (_ ∉ msgids _)) by (rewrite elem_of_msgids; tauto).
    rewrite (bool_decide_true (_ ∉ incomingQoS2messages c)) by done. cbn [andb].
    destruct (useQoS2msgid_spec (m_id msg) (incomingQoS2messages c) Htab Hid Hin)
      as (ids & Eu & Htab' & Em & _).
    exists ids. rewrite Em. split; [done|]. split; [done|].
    rewrite (run_bind _ _ _ _ _ (run_lift _ _ (c, w) Eu)), cpp_bind_update.
    destruct (bool_decide (_ < _)); [|done]. by apply Go.
Qed.

End Delivery.
End CppDelivery.
