(* ===== verification/CppSim.v ===== *)
(** * A platform to evaluate the C++ client on

    The simulated world of Sim.v with a heap, where a new timer counts down ten
    seconds as that of the Arduino does, and a configuration with QoS
    1 and 2, as the build files of the repository choose, and small buffers. *)

From stdpp Require Import gmap.
From S2P Require Import Prelude CSem Packet Platform Sim CppClient.

(** [cw_live]: the blocks malloc has given out and that are not freed. *)
Record cworld : Type := CWorld { cw : world; cw_live : list Z }.

Definition on_world {A} (m : M world A) : M cworld A := λ w,
  match m (cw w) with
  | Ok (a, v) => Ok (a, CWorld v (cw_live w)) | UB u => UB u | NoFuel => NoFuel end.

#[export] Instance csim : Platform cworld :=
  {| Timer := Z;
     TimerInit := on_world (TimerCountdownMS (W := world) 0 10000);
     TimerCountdownMS := λ t n, on_world (TimerCountdownMS (W := world) t n);
     TimerCountdown := λ t n, on_world (TimerCountdown (W := world) t n);
     TimerIsExpired := λ t, on_world (TimerIsExpired (W := world) t);
     TimerLeftMS := λ t, on_world (TimerLeftMS (W := world) t);
     mqttread := λ n ms, on_world (mqttread n ms);
     mqttwrite := λ p n ms, on_world (mqttwrite p n ms);
     MutexInit := on_world MutexInit;
     MutexLock := on_world MutexLock;
     MutexUnlock := on_world MutexUnlock;
     messageHandler := nat;
     call_handler := λ h md, on_world (call_handler (W := world) h md) |}.

(** An address above all the live ones. *)
Definition next_block (l : list Z) : Z := foldr Z.max 0 l + 1.

Lemma next_block_fresh l : next_block l ∉ l.
Proof.
  assert (∀ x, x ∈ l → x < next_block l) as L.
  { unfold next_block. induction l as [|y l IH]; intros x; [by intros ?%not_elem_of_nil|].
    rewrite elem_of_cons. cbn. intros [->|Hx]; [lia|]. apply IH in Hx. lia. }
  intros Hx%L. lia.
Qed.

(** Objects log their number plus 100, or plus 200 for the default handler. *)
#[export] Instance cpp_sim : CppPlatform cworld :=
  {| Timer_ms := λ n, on_world (TimerCountdownMS (W := world) 0 n);
     MessageCallback := nat;
     call_method := λ o m md, on_world (call_handler (W := world)
       (match m with messageHandler_ => 100 + o | defaultHandler => 200 + o end)%nat md);
     malloc := λ _ w, Ok (Some (next_block (cw_live w)),
                          CWorld (cw w) (next_block (cw_live w) :: cw_live w));
     free := λ a w,
       if bool_decide (a ∈ cw_live w)
       then Ok (tt, CWorld (cw w) (base.filter (λ x, x ≠ a) (cw_live w)))
       else UB OutOfBounds |}.

Definition small_config : Config :=
  {| MAX_MQTT_PACKET_SIZE := 20; MAX_MESSAGE_HANDLERS := 2; MAX_INCOMING_QOS2_MESSAGES := 3;
     MQTTCLIENT_QOS1 := true; MQTTCLIENT_QOS2 := true |}.

Definition cpp_world : cworld := CWorld (World 0 [] [] 1000 0 []) [].

(** A function and an object of the application, by their numbers. *)
Definition app_function (n : nat) : messageHandler (W := cworld) := n.
Definition app_object (n : nat) : MessageCallback (W := cworld) := n.

Definition heap_sim (w : cworld) : gset Z := list_to_set (cw_live w).

(** A timer of the simulated platform. *)
Definition cpp_time (t : Z) : Timer (W := cworld) := t.

(** The outcome of a run, seen through [f]. *)
Definition result {A S B} (f : A → S → B) (o : outcome (A * S)) : option B :=
  match o with Ok (a, s) => Some (f a s) | _ => None end.

Lemma run_result {A S B} (f : A → S → B) (o : outcome (A * S)) k :
  result f o = Some k → ∃ a s, o = Ok (a, s) ∧ f a s = k.
Proof. destruct o as [[a s]| |]; [|done..]. intros [= <-]. by exists a, s. Qed.
