(* ===== verification/CppClientState.v ===== *)
(** * Invariants of the C++ client

    What every member function of MQTTClient.h keeps, and two such
    invariants: the ranges of the members, and the ownership of the topic
    filters that setMessageHandler allocates. *)

From stdpp Require Import relations gmap.
From S2P Require Import Prelude CSem Wire Packet Connect Publish Subscribe Topics Platform Sim.
From S2P Require Import ClientState CppClient CppQoS2 CppSim.

Module CppClientState.
Import CppClient CppQoS2.

Section State.
Context `{CImpl} `{Config} {W : Type} `{CppPlatform W}.
#[local] Abbreviation C A := (M (Client * W) A).

(** The operations of the platform that do not touch the heap. *)
Inductive platform_op : ∀ {A}, M W A → Prop :=
  | op_timer : platform_op TimerInit
  | op_timer_ms n : platform_op (Timer_ms n)
  | op_countdown_ms t n : platform_op (TimerCountdownMS t n)
  | op_countdown t n : platform_op (TimerCountdown t n)
  | op_expired t : platform_op (TimerIsExpired t)
  | op_left t : platform_op (TimerLeftMS t)
  | op_read n ms : platform_op (mqttread n ms)
  | op_write p n ms : platform_op (mqttwrite p n ms)
  | op_function f md : platform_op (call_handler f md)
  | op_method o m md : platform_op (call_method o m md).

(** The operations by which the code changes the part of the state an
    invariant [P] is about. *)
Class Stable (P : Client * W → Prop) : Prop :=
  { st_op {A} (m : M W A) c w a w' : platform_op m → P (c, w) → m w = Ok (a, w') → P (c, w');
    st_sendbuf b c w : length b = length (sendbuf c) → P (c, w) → P (set_sendbuf b c, w);
    st_readbuf b c w : length b = length (readbuf c) → P (c, w) → P (set_readbuf b c, w);
    st_last_received t c w : P (c, w) → P (set_last_received t c, w);
    st_keepAliveInterval v c w : 0 ≤ v < 65536 → P (c, w) → P (set_keepAliveInterval v c, w);
    st_cleansession v c w : P (c, w) → P (set_cleansession v c, w);
    st_packetid c w : P (c, w) → P (set_packetid (getNext (packetid c)) c, w);
    st_default fp c w : P (c, w) → P (set_defaultMessageHandler fp c, w);
    st_disconnected c w : P (c, w) → P (set_isconnected false c, w);
    st_ping_reset c w : P (c, w) → P (set_ping_outstanding 0 c, w);
    st_ping_sent c w : ping_outstanding c ≤ 5 → P (c, w) →
      P (set_ping_outstanding (ping_outstanding c + 1) c, w);
    st_acked c w : P (c, w) → P (set_inflightMsgid 0 c, w);
    st_inflight b id n qos c w : length b = length (pubbuf c) → 0 ≤ id < 65536 →
      0 < n ≤ len (pubbuf c) → 0 ≤ qos ≤ 2 → P (c, w) →
      P (set_inflightQoS qos (set_inflightLen n (set_inflightMsgid id (set_pubbuf b c))), w);
    st_pubrel c w : P (c, w) → P (set_pubrel false c, w);
    st_ids_use id used ids c w : 0 ≤ id < 65536 →
      isQoS2msgidFree id (incomingQoS2messages c) = Ok true →
      useQoS2msgid id (incomingQoS2messages c) = Ok (used, ids) →
      P (c, w) → P (set_incomingQoS2messages ids c, w);
    st_ids_free id ids c w : freeQoS2msgid id (incomingQoS2messages c) = Ok ids →
      P (c, w) → P (set_incomingQoS2messages ids c, w);
    st_qos0 c w : P (c, w) → P (set_inflightQoS 0 c, w);
    st_ids_clear c w : P (c, w) →
      P (set_incomingQoS2messages (replicate (Z.to_nat MAX_INCOMING_QOS2_MESSAGES) 0) c, w);
    st_slot_freed b i h c w w' f : messageHandlers c !! i = Some h → topicFilter h = Some b →
      free (b_addr b) w = Ok (tt, w') → P (c, w) →
      P (set_messageHandlers (<[i := Slot None f]> (messageHandlers c)) c, w');
    st_slot_cleared i h c w f : messageHandlers c !! i = Some h → topicFilter h = None →
      P (c, w) → P (set_messageHandlers (<[i := Slot None f]> (messageHandlers c)) c, w);
    st_slot_set n a i h c w w' s f : messageHandlers c !! i = Some h →
      malloc n w = Ok (Some a, w') → P (c, w) →
      P (set_messageHandlers (<[i := Slot (Some (Block a s)) f]> (messageHandlers c)) c, w') }.

Context (P : Client * W → Prop) `{Stable P}.

Definition keeps {A} (m : C A) : Prop := ∀ s a s', P s → m s = Ok (a, s') → P s'.

Lemma cpp_keeps_ret {A} (a : A) : keeps (mret a).
Proof. intros s b s' Hs E. by run_inv. Qed.
Lemma cpp_keeps_bind {A B} (m : C A) (f : A → C B) :
  keeps m → (∀ a, keeps (f a)) → keeps (m ≫= f).
Proof.
  intros Hm Hf s b s' Hs E. apply run_bind_inv in E as (a & s1 & E1 & E2).
  exact (Hf a s1 b s' (Hm s a s1 Hs E1) E2).
Qed.
Lemma cpp_keeps_if {A} (b : bool) (m1 m2 : C A) : keeps m1 → keeps m2 → keeps (if b then m1 else m2).
Proof. by destruct b. Qed.
Lemma cpp_keeps_lift {A} (o : outcome A) : keeps (lift o).
Proof. intros s a s' Hs E. by apply run_lift_inv in E as [_ ->]. Qed.
Lemma cpp_keeps_no_fuel {A} : keeps (no_fuel : C A).
Proof. by intros s a s' _ E. Qed.
Lemma keeps_this : keeps this.
Proof. intros s a s' Hs [= <- <-]. done. Qed.
Lemma cpp_keeps_update f : (∀ c w, P (c, w) → P (f c, w)) → keeps (update f).
Proof. intros Hf [c w] a s' Hs [= <- <-]. by apply Hf. Qed.

Lemma env_inv {A} (m : M W A) c w a s' :
  env m (c, w) = Ok (a, s') → ∃ w', m w = Ok (a, w') ∧ s' = (c, w').
Proof.
  unfold env. cbn [fst snd]. destruct (m w) as [[b w']| |]; [|done..].
  intros [= <- <-]. by exists w'.
Qed.

Lemma keeps_op {A} (m : M W A) : platform_op m → keeps (env m).
Proof.
  intros Hm [c w] a s' Hs E. apply env_inv in E as (w' & E & ->). by eapply st_op.
Qed.

(** A read of the object whose value is that of the current state. *)
Lemma keeps_this_bind {A} (f : Client → C A) :
  (∀ c w a s', P (c, w) → f c (c, w) = Ok (a, s') → P s') → keeps (this ≫= f).
Proof. intros Hf [c w] a s' Hs E. exact (Hf c w a s' Hs E). Qed.

Lemma keeps_on_sendbuf (m : list Z → outcome (Z * list Z)) :
  (∀ b, keeps_size (m b) b) → keeps (on_sendbuf m).
Proof.
  intros Hm. apply keeps_this_bind. intros c w n s' Hs E.
  apply run_bind_inv in E as ([k b] & s2 & E2 & E). apply run_lift_inv in E2 as [E2 ->].
  apply Hm in E2. injection E as _ <-. by apply st_sendbuf.
Qed.

Lemma cpp_keeps_store_readbuf i bs : keeps (store_readbuf i bs).
Proof.
  apply keeps_this_bind. intros c w n s' Hs E.
  apply run_bind_inv in E as (b & s2 & E2 & E). apply run_lift_inv in E2 as [E2 ->].
  apply store_bytes_length in E2. injection E as _ <-. by apply st_readbuf.
Qed.

Lemma cpp_keeps_set_last_received v : keeps (update (set_last_received v)).
Proof. apply cpp_keeps_update. intros. by apply st_last_received. Qed.
Lemma cpp_keeps_set_cleansession v : keeps (update (set_cleansession v)).
Proof. apply cpp_keeps_update. intros. by apply st_cleansession. Qed.
Lemma keeps_set_disconnected : keeps (update (set_isconnected false)).
Proof. apply cpp_keeps_update. intros. by apply st_disconnected. Qed.
Lemma keeps_reset_ping : keeps (update (set_ping_outstanding 0)).
Proof. apply cpp_keeps_update. intros. by apply st_ping_reset. Qed.
Lemma keeps_acked : keeps (update (set_inflightMsgid 0)).
Proof. apply cpp_keeps_update. intros. by apply st_acked. Qed.
Lemma keeps_setDefault mh : keeps (setDefaultMessageHandler mh).
Proof. apply cpp_keeps_update. intros. by apply st_default. Qed.
Lemma keeps_setDefault_method mh : keeps (setDefaultMessageHandler_method mh).
Proof. apply cpp_keeps_update. intros. by apply st_default. Qed.

Lemma keeps_packetid {A} (f : Client → C A) :
  (∀ c, keeps (f c)) →
  keeps (c ← this; update (set_packetid (getNext (packetid c))) ;; f c).
Proof.
  intros Hf. apply keeps_this_bind. intros c w a s' Hs E.
  rewrite cpp_bind_update in E. refine (Hf c _ a s' _ E). by apply st_packetid.
Qed.

End State.

Create HintDb cpp_keeps.
#[export] Hint Resolve cpp_keeps_ret cpp_keeps_lift cpp_keeps_no_fuel keeps_this cpp_keeps_store_readbuf
  cpp_keeps_set_last_received cpp_keeps_set_cleansession keeps_set_disconnected keeps_reset_ping keeps_acked
  keeps_setDefault keeps_setDefault_method : cpp_keeps.
#[export] Hint Constructors platform_op : cpp_keeps.

(** One step of a proof that a function keeps an invariant. *)
Ltac cpp_step :=
  first
    [ solve [eauto 3 with cpp_keeps]
    | match goal with
      | |- keeps _ (env _) => apply keeps_op; [typeclasses eauto|constructor]
      | |- keeps _ (on_sendbuf _) => apply keeps_on_sendbuf; [typeclasses eauto|intros]
      | |- keeps_size _ _ => solve [auto with sizes]
      | |- keeps _ (let _ := _ in _) => cbv zeta
      | |- keeps _ (if _ then _ else _) => apply cpp_keeps_if
      | |- keeps _ (match ?x with _ => _ end) => destruct x
      end
    | apply cpp_keeps_bind; [|intros] ].
Ltac cpp_tac := repeat cpp_step.

Section Operations.
Context `{CImpl} `{Config} {W : Type} `{CppPlatform W}.
Context (P : Client * W → Prop) `{HP : !Stable P}.
#[local] Abbreviation C A := (M (Client * W) A).
#[local] Abbreviation Keeps := (keeps P).

Lemma keeps_FP_call fp md : Keeps (env (FP_call fp md)).
Proof.
  intros [c w] a s' Hs E. apply env_inv in E as (w' & E & ->). unfold FP_call in E.
  destruct (c_callback_set _); [|by injection E as _ <-].
  destruct (obj_callback fp) as [o|], (fp_callback fp) as [[f|]|m]; try done;
    (eapply st_op; [|exact Hs|exact E]; constructor).
Qed.
#[local] Hint Resolve keeps_FP_call : cpp_keeps.

Lemma arr_get_inv {A} (a : list A) i x :
  arr_get a i = Ok x → 0 ≤ i ∧ a !! Z.to_nat i = Some x.
Proof.
  unfold arr_get. ztest; [|done]. destruct (a !! Z.to_nat i); [|done]. by intros [= ->].
Qed.

Lemma arr_set_inv {A} (a : list A) i x a' : arr_set a i x = Ok a' → a' = <[Z.to_nat i := x]> a.
Proof. unfold arr_set. destruct (_ && _); [|done]. by intros [= <-]. Qed.

(** The filter of slot [i] is freed, if it has one, and the slot cleared. *)
Lemma keeps_clear_slot {A} i f (k : C A) :
  Keeps k →
  Keeps (c ← this;
         h ← lift (arr_get (messageHandlers c) i);
         (match topicFilter h with Some b => env (free (b_addr b)) | None => mret tt end) ;;
         hs ← lift (arr_set (messageHandlers c) i (Slot None (f (fp h))));
         update (set_messageHandlers hs) ;; k).
Proof.
  intros Hk. apply keeps_this_bind. intros c w a s' Hs E.
  apply run_bind_inv in E as (h & s1 & E1 & E). apply run_lift_inv in E1 as [E1 ->].
  apply arr_get_inv in E1 as [_ E1].
  apply run_bind_inv in E as ([] & s2 & E2 & E). apply run_bind_inv in E as (hs & s3 & E3 & E).
  apply run_lift_inv in E3 as [E3 ->]. apply arr_set_inv in E3 as ->.
  destruct (topicFilter h) as [b|] eqn:Et.
  - apply env_inv in E2 as (w' & E2 & ->). rewrite cpp_bind_update in E.
    refine (Hk _ _ _ _ E). by eapply st_slot_freed.
  - injection E2 as <-. rewrite cpp_bind_update in E. refine (Hk _ _ _ _ E). by eapply st_slot_cleared.
Qed.

Lemma keeps_cleanSession : Keeps cleanSession.
Proof.
  unfold cleanSession. apply cpp_keeps_bind.
  - generalize 0. induction (Z.to_nat MAX_MESSAGE_HANDLERS) as [|n IH]; intros i;
      cbn [cleanSession_loop]; [apply cpp_keeps_ret|]. by apply (keeps_clear_slot i id).
  - assert (Keeps (update (set_inflightQoS QOS0)))
      by (apply cpp_keeps_update; intros; by apply st_qos0).
    assert (Keeps (update (set_pubrel false))) by (apply cpp_keeps_update; intros; by apply st_pubrel).
    assert (Keeps (update (set_incomingQoS2messages
      (replicate (Z.to_nat MAX_INCOMING_QOS2_MESSAGES) 0))))
      by (apply cpp_keeps_update; intros; by apply st_ids_clear).
    intros _. cpp_tac.
Qed.
#[local] Hint Resolve keeps_cleanSession : cpp_keeps.

Lemma keeps_closeSession : Keeps closeSession.
Proof. unfold closeSession. cpp_tac. Qed.

Lemma cpp_keeps_sendPacket fuel length timer : Keeps (sendPacket fuel length timer).
Proof.
  unfold sendPacket. cpp_tac. generalize 0 as sent.
  induction fuel as [|fuel IH] in timer |- *; intros sent; cbn [sendPacket_loop]; cpp_tac.
Qed.
#[local] Hint Resolve keeps_closeSession cpp_keeps_sendPacket : cpp_keeps.

Lemma keeps_decodePacket timeout : Keeps (env (decodePacket timeout)).
Proof.
  assert (L : ∀ fuel v m l c w r w', P (c, w) →
    decodePacket_loop fuel timeout v m l w = Ok (r, w') → P (c, w')).
  { induction fuel as [|fuel IH]; intros v m l c w r w' Hw E; [done|].
    cbn [decodePacket_loop] in E. destruct (_ <? _); [by injection E as _ <-|].
    apply run_bind_inv in E as ([rc cs] & w1 & E1 & E).
    assert (P (c, w1)) by (eapply st_op; [|exact Hw|exact E1]; constructor).
    destruct (negb (rc =? 1)); [by injection E as _ <-|].
    apply run_bind_inv in E as (b & w2 & E2 & E). apply run_lift_inv in E2 as [_ ->].
    destruct (negb _); [by eapply IH|by injection E as _ <-]. }
  intros [c w] r s' Hs E. apply env_inv in E as (w' & E & ->). by eapply L.
Qed.
#[local] Hint Resolve keeps_decodePacket : cpp_keeps.

(** The remaining length put back into readbuf. *)
Lemma cpp_keeps_encode {A} rem_len (f : Z → C A) :
  (∀ k, Keeps (f k)) →
  Keeps (c ← this; '(k, b) ← lift (MQTTPacket_encode rem_len (readbuf c) 1);
         update (set_readbuf b) ;; f k).
Proof.
  intros Hf. apply keeps_this_bind. intros c w a s' Hs E.
  apply run_bind_inv in E as ([k b] & s1 & E1 & E). apply run_lift_inv in E1 as [E1 ->].
  apply encode_loop_length in E1. rewrite cpp_bind_update in E.
  refine (Hf k _ a s' _ E). by apply st_readbuf.
Qed.

Lemma keeps_restart : Keeps restart_last_received.
Proof. unfold restart_last_received. cpp_tac. Qed.
#[local] Hint Resolve keeps_restart : cpp_keeps.

Lemma cpp_keeps_readPacket timer : Keeps (readPacket timer).
Proof. unfold readPacket. repeat first [apply cpp_keeps_encode; intros | cpp_step]. Qed.

Lemma cpp_keeps_deliverMessage topicName message : Keeps (deliverMessage topicName message).
Proof.
  unfold deliverMessage. apply cpp_keeps_bind.
  - generalize 0 FAILURE. induction (Z.to_nat MAX_MESSAGE_HANDLERS) as [|n IH]; intros i rc;
      cbn [deliver_loop]; cpp_tac.
  - intros rc. cpp_tac.
Qed.
#[local] Hint Resolve cpp_keeps_readPacket cpp_keeps_deliverMessage : cpp_keeps.

Lemma keeps_receive_message topicName msg :
  0 ≤ m_id msg < 65536 → Keeps (receive_message topicName msg).
Proof.
  intros Hid. unfold receive_message. apply cpp_keeps_if; [|cpp_tac].
  apply keeps_this_bind. intros c w a s' Hs E.
  apply run_bind_inv in E as (is_free & s1 & E1 & E). apply run_lift_inv in E1 as [E1 ->].
  destruct is_free; [|by injection E as _ <-].
  apply run_bind_inv in E as ([used ids] & s2 & E2 & E). apply run_lift_inv in E2 as [E2 ->].
  rewrite cpp_bind_update in E.
  assert (Hs2 : P (set_incomingQoS2messages ids c, w)) by (by eapply st_ids_use).
  destruct used; [|by injection E as _ <-]. apply run_bind_inv in E as (r & s3 & E3 & E).
  injection E as _ <-. by eapply cpp_keeps_deliverMessage.
Qed.

(** What MQTTDeserialize_publish assigns is in the range of its type. *)
Definition ushort_out (o : publish_out) : Prop := 0 ≤ p_packetid o < 65536.

Lemma to_ushort_range z : 0 ≤ to_ushort z < 65536.
Proof. unfold to_ushort. lia. Qed.

Lemma MQTTDeserialize_publish_id o b n r o' :
  ushort_out o → MQTTDeserialize_publish o b n = Ok (r, o') → ushort_out o'.
Proof.
  intros Ho E. unfold MQTTDeserialize_publish, read_publish_body in E.
  apply bind_Ok_inv in E as ([[r1 o1] c1] & E & [= <- <-]).
  apply run_bind_inv in E as (h & c2 & _ & E). cbv zeta in E.
  destruct (negb (header_type _ =? PUBLISH)); [by injection E as _ <-|].
  apply run_bind_inv in E as ([rc mylen] & c3 & _ & E).
  apply run_bind_inv in E as (p & c4 & _ & E). cbv zeta in E.
  apply run_bind_inv in E as ([ok t] & c5 & _ & E).
  apply run_bind_inv in E as (q & c6 & _ & E).
  destruct (_ || _); [by injection E as _ <-|].
  apply run_bind_inv in E as (id & c7 & Eid & E). apply run_bind_inv in E as (q2 & c8 & _ & E).
  apply run_bind_inv in E as (q3 & c9 & _ & E). injection E as _ <- _.
  unfold ushort_out. cbn [p_packetid]. destruct (0 <? _).
  - apply run_bind_inv in Eid as (k & c10 & _ & Eid). injection Eid as <- _. apply to_ushort_range.
  - injection Eid as <- _. done.
Qed.

Lemma keeps_answer_message msg : Keeps (answer_message msg).
Proof. unfold answer_message. cpp_tac. Qed.
#[local] Hint Resolve keeps_answer_message : cpp_keeps.

Lemma keeps_cycle_publish fuel o timer : ushort_out o → Keeps (cycle_publish fuel o timer).
Proof.
  intros Ho. apply keeps_this_bind. intros c w a s' Hs E.
  apply run_bind_inv in E as ([ok o'] & s1 & E1 & E). apply run_lift_inv in E1 as [E1 ->].
  apply MQTTDeserialize_publish_id in E1; [|done].
  destruct (negb (ok =? 1)); [by injection E as _ <-|]. cbv zeta in E.
  revert E. set (m := receive_message _ _ ≫= _).
  assert (Hk : Keeps m); [|by apply Hk].
  subst m. apply cpp_keeps_bind; [by apply keeps_receive_message|]. intros _. cpp_tac.
Qed.

Lemma keeps_free_id id :
  Keeps (c ← this; ids ← lift (freeQoS2msgid id (incomingQoS2messages c));
         update (set_incomingQoS2messages ids)).
Proof.
  apply keeps_this_bind. intros c w a s' Hs E.
  apply run_bind_inv in E as (ids & s1 & E1 & E). apply run_lift_inv in E1 as [E1 ->].
  injection E as _ <-. by eapply st_ids_free.
Qed.

Lemma keeps_cycle_pubrec_pubrel fuel t id timer : Keeps (cycle_pubrec_pubrel fuel t id timer).
Proof. unfold cycle_pubrec_pubrel. repeat first [apply keeps_free_id | cpp_step]. Qed.
#[local] Hint Resolve keeps_cycle_publish keeps_cycle_pubrec_pubrel : cpp_keeps.

Lemma keeps_cycle_switch fuel o t timer : ushort_out o → Keeps (cycle_switch fuel o t timer).
Proof. intros. unfold cycle_switch. cpp_tac. Qed.
#[local] Hint Resolve keeps_cycle_switch : cpp_keeps.

(** Sending changes nothing but the world. *)
Lemma sendPacket_same fuel n timer c w r s :
  sendPacket fuel n timer (c, w) = Ok (r, s) → fst s = c.
Proof.
  intros E. unfold sendPacket in E. apply run_bind_inv in E as ([sent t] & s1 & E & E1).
  injection E1 as _ <-. revert E. generalize 0 as k. revert timer w.
  induction fuel as [|fuel IH]; intros timer w k E; [done|]. cbn [sendPacket_loop] in E.
  destruct (k <? n); [|by injection E as _ _ <-].
  apply run_bind_inv in E as ([e t1] & s2 & E2 & E). apply env_inv in E2 as (w2 & _ & ->).
  destruct e; [by injection E as _ _ <-|].
  apply run_bind_inv in E as ([ms t2] & s3 & E3 & E). apply env_inv in E3 as (w3 & _ & ->).
  rewrite bind_this in E.
  apply run_bind_inv in E as (rc & s4 & E4 & E). apply env_inv in E4 as (w4 & _ & ->).
  destruct (rc <? 0); [by injection E as _ _ <-|].
  apply run_bind_inv in E as (k' & s5 & E5 & E). apply run_lift_inv in E5 as [_ ->]. by eapply IH.
Qed.

Lemma on_sendbuf_inv m c w (n : Z) s :
  on_sendbuf m (c, w) = Ok (n, s) → ∃ b, m (sendbuf c) = Ok (n, b) ∧ s = (set_sendbuf b c, w).
Proof.
  intros E. unfold on_sendbuf in E. rewrite bind_this in E.
  apply run_bind_inv in E as ([k b] & s1 & E1 & E). apply run_lift_inv in E1 as [E1 ->].
  injection E as -> <-. by exists b.
Qed.

Lemma cpp_keeps_keepalive fuel : Keeps (keepalive fuel).
Proof.
  apply keeps_this_bind. intros c w a s' Hs E.
  destruct (_ =? 0); [by injection E as _ <-|].
  apply run_bind_inv in E as ([e t] & s1 & E1 & E). apply env_inv in E1 as (w1 & E1 & ->).
  assert (H1' : P (c, w1)) by (eapply st_op; [|exact Hs|exact E1]; constructor).
  rewrite cpp_bind_update in E. pose proof (st_last_received t c w1 H1') as Hs2.
  destruct e; [|by injection E as _ <-]. rewrite bind_this in E.
  destruct (Z.ltb_spec 5 (ping_outstanding (set_last_received t c))) as [|Hp];
    [by injection E as _ <-|].
  apply run_bind_inv in E as (t2 & s3 & E3 & E). apply env_inv in E3 as (w3 & E3 & ->).
  assert (Hs3 : P (set_last_received t c, w3)) by (eapply st_op; [|exact Hs2|exact E3]; constructor).
  apply run_bind_inv in E as (n & s4 & E4 & E).
  pose proof (keeps_on_sendbuf P _ (λ b, pingreq_size b _) _ _ _ Hs3 E4) as Hs4.
  apply on_sendbuf_inv in E4 as (b & _ & ->).
  destruct (0 <? n); [|by injection E as _ <-].
  apply run_bind_inv in E as ([rc t3] & [c5 w5] & E5 & E).
  pose proof (cpp_keeps_sendPacket _ _ _ _ _ _ Hs4 E5) as Hs5.
  apply sendPacket_same in E5. cbn [fst] in E5. subst c5.
  apply run_bind_inv in E as ([] & s6 & E6 & E). injection E as _ <-.
  destruct (rc =? SUCCESS); [|by injection E6 as <-]. rewrite bind_this in E6.
  apply run_bind_inv in E6 as (t4 & s7 & E7 & E6). apply env_inv in E7 as (w7 & E7 & ->).
  rewrite cpp_bind_update, bind_this in E6.
  apply run_bind_inv in E6 as (k & s8 & E8 & E6). apply run_lift_inv in E8 as [E8 ->].
  apply iadd_inv in E8 as [-> _]. injection E6 as <-.
  apply (st_ping_sent (set_last_received t4 (set_sendbuf b (set_last_received t c)))); [exact Hp|].
  apply st_last_received. eapply st_op; [|exact Hs5|exact E7]. constructor.
Qed.
#[local] Hint Resolve cpp_keeps_keepalive : cpp_keeps.

Lemma cpp_keeps_cycle fuel o timer : ushort_out o → Keeps (cycle fuel o timer).
Proof. intros. unfold cycle. cpp_tac. Qed.
#[local] Hint Resolve cpp_keeps_cycle : cpp_keeps.

Lemma cpp_keeps_waitfor fuel o packet_type timer :
  ushort_out o → Keeps (waitfor fuel o packet_type timer).
Proof.
  intros Ho. unfold waitfor. generalize FAILURE as rc. generalize fuel at 1 as n. intros n.
  revert timer. induction n as [|n IH]; intros timer rc; cbn [waitfor_loop]; cpp_tac.
Qed.
#[local] Hint Resolve cpp_keeps_waitfor : cpp_keeps.

Lemma keeps_yield fuel o timeout_ms : ushort_out o → Keeps (yield fuel o timeout_ms).
Proof.
  intros Ho. unfold yield. cpp_tac. generalize fuel at 1 as n. intros n.
  induction n as [|n IH] in a0 |- *; cbn [yield_loop]; cpp_tac.
Qed.

Lemma keeps_publish_len fuel o len timer qos :
  ushort_out o → Keeps (publish_len fuel o len timer qos).
Proof. intros Ho. unfold publish_len, publish_wait. cpp_tac. Qed.
#[local] Hint Resolve keeps_publish_len : cpp_keeps.

Lemma keeps_keep_inflight len id qos :
  0 < len → 0 ≤ id < 65536 → 0 ≤ qos ≤ 2 → Keeps (keep_inflight len id qos).
Proof.
  intros Hl Hi Hq. apply keeps_this_bind. intros c w a s' Hs E.
  apply run_bind_inv in E as (bs & s1 & E1 & E). apply run_lift_inv in E1 as [E1 ->].
  apply run_bind_inv in E as (b & s2 & E2 & E). apply run_lift_inv in E2 as [E2 ->].
  rewrite !cpp_bind_update in E.
  apply load_bytes_inv in E1 as (_ & Hlen & _); [|lia].
  assert (Hb : len ≤ Z.of_nat (length (pubbuf c))).
  { revert E2. unfold store_bytes. destruct bs; [intros; cbn in Hlen; lia|].
    ztests; done. }
  apply store_bytes_length in E2.
  assert (HP2 : P (set_inflightQoS qos (set_inflightLen len (set_inflightMsgid id (set_pubbuf b c))), w))
    by (apply st_inflight; auto with lia).
  destruct MQTTCLIENT_QOS2; [|by injection E as _ <-]. injection E as _ <-. by apply st_pubrel.
Qed.

Lemma keeps_publish_id fuel o topic payload n id qos retained :
  ushort_out o → 0 ≤ id < 65536 → 0 ≤ qos ≤ 2 →
  Keeps (publish_id fuel o topic payload n id qos retained).
Proof.
  intros Ho Hid Hq. unfold publish_id. apply cpp_keeps_bind; [cpp_tac|]. intros timer.
  apply keeps_this_bind. intros c w a s' Hs E.
  destruct (negb (isconnected c)); [by injection E as _ <-|].
  apply run_bind_inv in E as (id' & s1 & E1 & E).
  assert (Hs1 : P s1 ∧ 0 ≤ id' < 65536).
  { destruct (_ && _); [|by injection E1 as <- <-]. injection E1 as <- <-.
    split; [by apply st_packetid|apply to_ushort_range]. }
  destruct Hs1 as [Hs1 Hid']. apply run_bind_inv in E as (k & s2 & E2 & E).
  refine (_ (keeps_on_sendbuf P _ _ _ _ _ Hs1 E2)); [|intros; auto with sizes]. intros Hs2.
  destruct (Z.leb_spec k 0); [by injection E as _ <-|].
  apply run_bind_inv in E as ([] & s3 & E3 & E).
  assert (Hs3 : P s3).
  { destruct (_ && negb (cleansession c)); [|by injection E3 as <-].
    by refine (keeps_keep_inflight k id' qos _ Hid' Hq _ _ _ Hs2 E3). }
  apply run_bind_inv in E as (rc & s4 & E4 & E). injection E as _ <-.
  by eapply keeps_publish_len.
Qed.
#[local] Hint Resolve keeps_publish_id : cpp_keeps.

Lemma keeps_publish fuel o topic payload n qos retained :
  ushort_out o → 0 ≤ qos ≤ 2 → Keeps (publish fuel o topic payload n qos retained).
Proof.
  intros. unfold publish. apply cpp_keeps_bind; [|intros; cpp_tac]. apply keeps_publish_id; [done|lia|done].
Qed.

Lemma keeps_publish_message fuel o topic msg :
  ushort_out o → 0 ≤ m_qos msg ≤ 2 → Keeps (publish_message fuel o topic msg).
Proof. intros. by apply keeps_publish. Qed.

Lemma keeps_resend_inflight fuel o rc timer :
  ushort_out o → Keeps (resend_inflight fuel o rc timer).
Proof.
  intros Ho. apply keeps_this_bind. intros c w a s' Hs E. destruct (_ && _).
  - revert E. set (m := on_sendbuf _ ≫= _).
    assert (Hm : Keeps m) by (subst m; cpp_tac). by apply Hm.
  - destruct (_ && _); [|by injection E as _ <-].
    apply run_bind_inv in E as (bs & s1 & E1 & E). apply run_lift_inv in E1 as [_ ->].
    apply run_bind_inv in E as (b & s2 & E2 & E). apply run_lift_inv in E2 as [E2 ->].
    apply store_bytes_length in E2. rewrite cpp_bind_update in E.
    refine (keeps_publish_len _ _ _ _ _ Ho _ _ _ _ E). by apply st_sendbuf.
Qed.
#[local] Hint Resolve keeps_resend_inflight : cpp_keeps.

Lemma cpp_keeps_connect_session fuel o options timer data :
  ushort_out o → 0 ≤ Connect.keepAliveInterval options < 65536 →
  Keeps (connect_session fuel o options timer data).
Proof.
  intros Ho Hk. unfold connect_session, connect_ack.
  apply cpp_keeps_bind; [apply cpp_keeps_update; intros; by apply st_keepAliveInterval|]. intros _. cpp_tac.
Qed.
#[local] Hint Resolve cpp_keeps_connect_session : cpp_keeps.

(** Only connect sets isconnected. *)
Lemma keeps_connect_data fuel o options data :
  (∀ c w, P (c, w) → P (set_isconnected true c, w)) →
  ushort_out o → 0 ≤ Connect.keepAliveInterval options < 65536 →
  Keeps (connect_data fuel o options data).
Proof.
  intros Ht Ho Hk. pose proof (cpp_keeps_update P _ Ht) as Hc. unfold connect_data. cpp_tac.
Qed.

Lemma keeps_set_slot {A} filter i f (k : C A) (c : Client) w a s' :
  Keeps k → P (c, w) →
  (b ← copy_filter filter;
   h ← lift (arr_get (messageHandlers c) i);
   hs ← lift (arr_set (messageHandlers c) i (Slot (Some b) (f (fp h))));
   update (set_messageHandlers hs) ;; k) (c, w) = Ok (a, s') → P s'.
Proof.
  intros Hk Hs E. apply run_bind_inv in E as (b & s1 & E1 & E). unfold copy_filter in E1.
  apply run_bind_inv in E1 as (n & s2 & E2 & E1). apply run_lift_inv in E2 as [_ ->].
  apply run_bind_inv in E1 as (a' & s3 & E3 & E1). apply env_inv in E3 as (w3 & E3 & ->).
  apply run_bind_inv in E1 as (bs & s4 & E4 & E1). apply run_lift_inv in E4 as [_ ->].
  destruct a' as [a'|]; [|done]. injection E1 as <- <-.
  apply run_bind_inv in E as (h & s5 & E5 & E). apply run_lift_inv in E5 as [E5 ->].
  apply arr_get_inv in E5 as [_ E5].
  apply run_bind_inv in E as (hs & s6 & E6 & E). apply run_lift_inv in E6 as [E6 ->].
  apply arr_set_inv in E6 as ->. rewrite cpp_bind_update in E.
  refine (Hk _ _ _ _ E). by eapply st_slot_set.
Qed.

Lemma keeps_set_handler filter attach : Keeps (set_handler filter attach).
Proof.
  apply keeps_this_bind. intros c w a s' Hs E. cbv zeta in E.
  apply run_bind_inv in E as (i & s1 & E1 & E). apply run_lift_inv in E1 as [_ ->].
  destruct attach as [f|].
  - apply run_bind_inv in E as (j & s1 & E1 & E).
    assert (s1 = (c, w)) as ->.
    { destruct (_ =? FAILURE); [by apply run_lift_inv in E1 as [_ ->]|by injection E1 as _ <-]. }
    apply run_bind_inv in E as ([] & s2 & E2 & E). injection E as _ <-.
    destruct (_ <? _); [|by injection E2 as <-].
    refine (keeps_set_slot filter j f (mret tt) c w tt _ (cpp_keeps_ret _ _) Hs _).
    rewrite <- E2. unfold mbind, M_bind. destruct (copy_filter filter (c, w)) as [[b s3]| |]; [|done..].
    destruct (lift (arr_get (messageHandlers c) j) s3) as [[h s4]| |]; [|done..].
    by destruct (lift (arr_set (messageHandlers c) j (Slot (Some b) (f (fp h)))) s4) as [[hs s5]| |].
  - apply run_bind_inv in E as ([] & s2 & E2 & E). injection E as _ <-.
    destruct (_ =? SUCCESS); [|by injection E2 as <-].
    refine (keeps_clear_slot i detach (mret tt) (cpp_keeps_ret _ _) (c, w) tt _ Hs _).
    rewrite bind_this, <- E2. unfold mbind, M_bind.
    destruct (lift (arr_get (messageHandlers c) i) (c, w)) as [[h s4]| |]; [|done..].
    destruct ((match topicFilter h with Some b => env (free (b_addr b)) | None => mret tt end) s4)
      as [[[] s5]| |]; [|done..].
    by destruct (lift (arr_set (messageHandlers c) i (Slot None (detach (fp h)))) s5) as [[hs s6]| |].
Qed.
#[local] Hint Resolve keeps_set_handler : cpp_keeps.

Lemma keeps_setMessageHandler filter h : Keeps (setMessageHandler filter h).
Proof. apply keeps_set_handler. Qed.
Lemma keeps_setMessageHandler_method filter h : Keeps (setMessageHandler_method filter h).
Proof. apply keeps_set_handler. Qed.
#[local] Hint Resolve keeps_setMessageHandler keeps_setMessageHandler_method : cpp_keeps.

Lemma keeps_new_id {A} (k : Client → C A) (c : Client) w a s' :
  (∀ c', Keeps (k c')) → P (c, w) →
  (update (set_packetid (getNext (packetid c))) ;; k c) (c, w) = Ok (a, s') → P s'.
Proof. intros Hk Hs E. rewrite cpp_bind_update in E. refine (Hk _ _ _ _ _ E). by apply st_packetid. Qed.

Lemma keeps_subscribe_with fuel o filter qos set data :
  ushort_out o → Keeps set → Keeps (subscribe_with fuel o filter qos set data).
Proof.
  intros Ho Hset. unfold subscribe_with, subscribe_ack. apply cpp_keeps_bind; [cpp_tac|]. intros timer.
  apply keeps_this_bind. intros c w a s' Hs E.
  destruct (negb _); [by injection E as _ <-|]. cbv zeta in E. rewrite cpp_bind_update in E.
  revert E. set (m := on_sendbuf _ ≫= _). assert (Hm : Keeps m) by (subst m; cpp_tac).
  apply Hm. by apply st_packetid.
Qed.
#[local] Hint Resolve keeps_subscribe_with : cpp_keeps.

Lemma keeps_subscribe fuel o filter qos h data :
  ushort_out o → Keeps (subscribe fuel o filter qos h data).
Proof. intros. unfold subscribe, subscribe_data. cpp_tac. Qed.
Lemma keeps_subscribe_method fuel o filter qos h data :
  ushort_out o → Keeps (subscribe_method fuel o filter qos h data).
Proof. intros. unfold subscribe_method, subscribe_data_method. cpp_tac. Qed.

Lemma keeps_unsubscribe fuel o filter : ushort_out o → Keeps (unsubscribe fuel o filter).
Proof.
  intros Ho. unfold unsubscribe. apply cpp_keeps_bind; [cpp_tac|]. intros timer.
  apply keeps_this_bind. intros c w a s' Hs E.
  destruct (negb _); [by injection E as _ <-|]. cbv zeta in E. rewrite cpp_bind_update in E.
  revert E. set (m := on_sendbuf _ ≫= _). assert (Hm : Keeps m) by (subst m; cpp_tac).
  apply Hm. by apply st_packetid.
Qed.

Lemma cpp_keeps_disconnect fuel : Keeps (disconnect fuel).
Proof. unfold disconnect. cpp_tac. Qed.

End Operations.

(** ** The ranges of the members *)

Section Typed.
Context `{CImpl} `{Config} {W : Type} `{CppPlatform W}.

(** Every member is in the range of its type, and tighter where the code
    keeps it so: the arrays have their declared sizes, packet identifiers are
    16-bit, at most six pings are outstanding, the identifiers of QoS 2
    messages do not repeat, a message in flight has a length and a QoS, and
    pubrel is never set. *)
Record typed (c : Client) : Prop :=
  { ty_sendbuf : length (sendbuf c) = Z.to_nat MAX_MQTT_PACKET_SIZE;
    ty_readbuf : length (readbuf c) = Z.to_nat MAX_MQTT_PACKET_SIZE;
    ty_pubbuf : length (pubbuf c) = Z.to_nat MAX_MQTT_PACKET_SIZE;
    ty_handlers : length (messageHandlers c) = Z.to_nat MAX_MESSAGE_HANDLERS;
    ty_keepAlive : 0 ≤ keepAliveInterval c < 4294967296;
    ty_ping : 0 ≤ ping_outstanding c ≤ 6;
    ty_packetid : 0 ≤ packetid c ≤ MAX_PACKET_ID;
    ty_msgid : 0 ≤ inflightMsgid c < 65536;
    ty_ids : Forall (λ x, 0 ≤ x < 65536) (incomingQoS2messages c);
    ty_table : table_ok (incomingQoS2messages c);
    ty_pubrel : pubrel c = false;
    ty_inflight : 0 < inflightMsgid c →
      0 < inflightLen c ≤ MAX_MQTT_PACKET_SIZE ∧ 0 ≤ inflightQoS c ≤ 2 }.

Lemma getNext_range n : 0 ≤ n ≤ MAX_PACKET_ID → 1 ≤ getNext n ≤ MAX_PACKET_ID.
Proof. unfold getNext, MAX_PACKET_ID. intros. ztest. Qed.

Definition ushorts (ids : list Z) : Prop := Forall (λ x, 0 ≤ x < 65536) ids.

Lemma ushorts_zero n : ushorts (replicate n 0).
Proof. apply Forall_replicate. lia. Qed.

Lemma table_zero : table_ok (replicate (Z.to_nat MAX_INCOMING_QOS2_MESSAGES) 0).
Proof.
  split; [apply length_replicate|]. induction (Z.to_nat _); [constructor|].
  cbn [replicate]. by rewrite stored_cons.
Qed.

(** The table after a new identifier is stored or one is freed. *)
Lemma use_keeps_table id used ids ids' :
  0 ≤ id < 65536 → table_ok ids → ushorts ids → isQoS2msgidFree id ids = Ok true →
  useQoS2msgid id ids = Ok (used, ids') → table_ok ids' ∧ ushorts ids'.
Proof.
  intros Hid Ht Hu Hf E. rewrite isQoS2msgidFree_spec in Hf by apply Ht. injection Hf as Hf.
  apply bool_decide_eq_true in Hf. destruct (Z.eq_dec id 0) as [->|N].
  - unfold useQoS2msgid in E. destruct (replace_msgid_spec 0 0 ids) as [[_ Er]|(l1 & l2 & -> & _)];
      [apply Ht|rewrite Er in E; by injection E as _ <-|]. destruct Hf. rewrite elem_of_app, elem_of_cons. auto.
  - destruct (useQoS2msgid_spec id ids Ht N Hf) as (k & E' & Ht' & _ & Hx). rewrite E' in E.
    simplify_eq.
    split; [done|]. apply list.Forall_forall. intros x [->|Hin]%Hx; [done|].
    by apply (proj1 (list.Forall_forall _ _) Hu).
Qed.

Lemma free_keeps_table id ids ids' :
  table_ok ids → ushorts ids → freeQoS2msgid id ids = Ok ids' → table_ok ids' ∧ ushorts ids'.
Proof.
  intros Ht Hu E. destruct (Z.eq_dec id 0) as [->|N].
  - unfold freeQoS2msgid in E.
    destruct (replace_msgid_spec 0 0 ids) as [[_ Er]|(l1 & l2 & -> & _ & Er)]; [apply Ht|..];
      rewrite Er in E; by injection E as <-.
  - destruct (freeQoS2msgid_spec id ids Ht N) as (k & E' & Ht' & _ & Hx). rewrite E' in E.
    simplify_eq.
    split; [done|]. apply list.Forall_forall. intros x [->|Hin]%Hx; [lia|].
    by apply (proj1 (list.Forall_forall _ _) Hu).
Qed.

#[export] Instance typed_stable : Stable (λ s, typed (fst s)).
Proof.
  split.
  all: try (intros; match goal with Hc : typed _ |- _ => destruct Hc; split; cbn in *; auto; lia end).
  - intros c w [A1 A2 A3 A4 A5 A6 A7 A8 A9 A10 A11 A12].
    pose proof (getNext_range _ A7). split; cbn in *; auto. lia.
  - intros id used ids c w Hid Hf Hu [A1 A2 A3 A4 A5 A6 A7 A8 A9 A10 A11 A12].
    destruct (use_keeps_table _ _ _ _ Hid A10 A9 Hf Hu). split; cbn in *; auto.
  - intros id ids c w Hf [A1 A2 A3 A4 A5 A6 A7 A8 A9 A10 A11 A12].
    destruct (free_keeps_table _ _ _ A10 A9 Hf). split; cbn in *; auto.
  - intros c w [A1 A2 A3 A4 A5 A6 A7 A8 A9 A10 A11 A12].
    split; cbn in *; auto; [apply ushorts_zero|apply table_zero].
  - intros b i h c w w' f _ _ _ [A1 A2 A3 A4 A5 A6 A7 A8 A9 A10 A11 A12].
    split; cbn in *; auto. by rewrite length_insert.
  - intros i h c w f _ _ [A1 A2 A3 A4 A5 A6 A7 A8 A9 A10 A11 A12].
    split; cbn in *; auto. by rewrite length_insert.
  - intros n a i h c w w' s f _ _ [A1 A2 A3 A4 A5 A6 A7 A8 A9 A10 A11 A12].
    split; cbn in *; auto. by rewrite length_insert.
Qed.

(** A client that is not connected. *)
#[export] Instance disconnected_stable : Stable (λ s, isconnected (fst s) = false).
Proof. split; intros; done. Qed.

End Typed.
(** ** The topic filters in the slots *)

Section Heap.
Context `{CImpl} `{Config} {W : Type} `{CppPlatform W}.

(** [heap w]: the blocks that malloc has given to the client and that it has
    not freed. Nothing is known of a free of any other address. *)
Record allocator (heap : W → gset Z) : Prop :=
  { al_op {A} (m : M W A) w a w' : platform_op m → m w = Ok (a, w') → heap w' = heap w;
    al_malloc n w a w' : malloc n w = Ok (Some a, w') → a ∉ heap w ∧ heap w' = {[a]} ∪ heap w;
    al_free a w w' : a ∈ heap w → free a w = Ok (tt, w') → heap w' = heap w ∖ {[a]} }.

Definition addresses (hs : list MessageHandlers) : list Z :=
  omap (λ h, b_addr <$> topicFilter h) hs.

(** Every filter in a slot is a live block, and no two slots share one. *)
Definition owned (heap : W → gset Z) (s : Client * W) : Prop :=
  NoDup (addresses (messageHandlers (fst s))) ∧
  ∀ a, a ∈ addresses (messageHandlers (fst s)) → a ∈ heap (snd s).

Lemma addresses_app l k : addresses (l ++ k) = addresses l ++ addresses k.
Proof. apply omap_app. Qed.

Lemma addresses_cons h l :
  addresses (h :: l) = match topicFilter h with Some b => [b_addr b] | None => [] end ++ addresses l.
Proof. unfold addresses. cbn. by destruct (topicFilter h). Qed.

Lemma slot_split (hs : list MessageHandlers) i h :
  hs !! i = Some h → ∃ l1 l2, hs = l1 ++ h :: l2 ∧ ∀ x, <[i := x]> hs = l1 ++ x :: l2.
Proof.
  intros E. exists (take i hs), (drop (S i) hs). split; [by rewrite take_drop_middle|].
  intros x. apply insert_take_drop. by eapply lookup_lt_Some.
Qed.

Lemma owned_stable heap : allocator heap → Stable (owned heap).
Proof.
  intros Hal. split; try (intros; by match goal with Ho : owned _ _ |- _ => exact Ho end).
  - intros A m c w a w' Hm [Hn Hl] E. split; [done|]. cbn [snd].
    rewrite (al_op heap Hal m w a w' Hm E). exact Hl.
  - intros b i h c w w' f Ei Et Ef [Hn Hl]. cbn [fst snd] in *.
    destruct (slot_split _ _ _ Ei) as (l1 & l2 & E1 & E2). rewrite E1 in Hn, Hl.
    rewrite addresses_app, addresses_cons, Et in Hn, Hl. cbn [app] in Hn, Hl. apply NoDup_middle in Hn as [Hn Hb].
    unfold owned. cbn [fst snd messageHandlers set_messageHandlers].
    rewrite E2, addresses_app, addresses_cons. cbn [topicFilter app].
    rewrite (al_free heap Hal _ _ _ ltac:(apply Hl; rewrite elem_of_app, elem_of_cons; auto) Ef).
    split; [done|]. intros a Ha. rewrite elem_of_difference, elem_of_singleton.
    split; [|by intros ->]. apply Hl. revert Ha. cbn [app]. rewrite !elem_of_app, elem_of_cons.
    intros [Ha|Ha]; auto.
  - intros i h c w f Ei Et [Hn Hl]. cbn [fst snd] in *.
    destruct (slot_split _ _ _ Ei) as (l1 & l2 & E1 & E2). rewrite E1 in Hn, Hl.
    rewrite addresses_app, addresses_cons, Et in Hn, Hl.
    unfold owned. cbn [fst snd messageHandlers set_messageHandlers].
    rewrite E2, addresses_app, addresses_cons. by split.
  - intros n a i h c w w' s f Ei Em [Hn Hl]. cbn [fst snd] in *.
    destruct (slot_split _ _ _ Ei) as (l1 & l2 & E1 & E2).
    destruct (al_malloc heap Hal _ _ _ _ Em) as [Ha Eh].
    assert (Hsub : ∀ x, x ∈ addresses l1 ++ addresses l2 → x ∈ heap w).
    { intros x Hx. apply Hl. rewrite E1, addresses_app, addresses_cons.
      revert Hx. rewrite !elem_of_app. tauto. }
    unfold owned. cbn [fst snd messageHandlers set_messageHandlers].
    rewrite E2, addresses_app, addresses_cons, Eh. cbn [topicFilter b_addr app]. split.
    + apply NoDup_middle. split; [|by intros Hx%Hsub].
      rewrite E1, addresses_app, addresses_cons in Hn.
      destruct (topicFilter h); [by apply NoDup_middle in Hn as [Hn _]|done].
    + intros x. rewrite elem_of_app, elem_of_cons, elem_of_union, elem_of_singleton.
      intros [Hx|[->|Hx]]; [right|by left|right]; apply Hsub; rewrite elem_of_app; auto.
Qed.

End Heap.

(** ** Sequences of calls *)

Section Calls.
Context `{CImpl} `{Config} {W : Type} `{CppPlatform W}.

(** One call of a public member function, with arguments in the range of
    their types, or anything that happens outside the object. *)
Inductive api_step : Client * W → Client * W → Prop :=
  | step_connect fuel o options data r s s' :
      ushort_out o → 0 ≤ Connect.keepAliveInterval options < 65536 →
      connect_data fuel o options data s = Ok (r, s') → api_step s s'
  | step_subscribe fuel o filter qos func_cb data r s s' : ushort_out o →
      subscribe_data fuel o filter qos func_cb data s = Ok (r, s') → api_step s s'
  | step_subscribe_method fuel o filter qos cb data r s s' : ushort_out o →
      subscribe_data_method fuel o filter qos cb data s = Ok (r, s') → api_step s s'
  | step_unsubscribe fuel o filter r s s' : ushort_out o →
      unsubscribe fuel o filter s = Ok (r, s') → api_step s s'
  | step_publish fuel o topic payload n id qos retained r s s' :
      ushort_out o → 0 ≤ id < 65536 → 0 ≤ qos ≤ 2 →
      publish_id fuel o topic payload n id qos retained s = Ok (r, s') → api_step s s'
  | step_disconnect fuel r s s' : disconnect fuel s = Ok (r, s') → api_step s s'
  | step_handler filter func_cb r s s' :
      setMessageHandler filter func_cb s = Ok (r, s') → api_step s s'
  | step_handler_method filter cb r s s' :
      setMessageHandler_method filter cb s = Ok (r, s') → api_step s s'
  | step_default mh r s s' : setDefaultMessageHandler mh s = Ok (r, s') → api_step s s'
  | step_default_method mh r s s' :
      setDefaultMessageHandler_method mh s = Ok (r, s') → api_step s s'
  | step_yield fuel o timeout r s s' : ushort_out o →
      yield fuel o timeout s = Ok (r, s') → api_step s s'.

Lemma api_step_keeps (P : Client * W → Prop) `{!Stable P} s s' :
  (∀ c w, P (c, w) → P (set_isconnected true c, w)) → api_step s s' → P s → P s'.
Proof.
  intros Ht Hstep Hs. destruct Hstep.
  - by eapply keeps_connect_data.
  - by eapply keeps_subscribe_with, H4; [..|apply keeps_setMessageHandler|].
  - by eapply keeps_subscribe_with, H4; [..|apply keeps_setMessageHandler_method|].
  - by eapply keeps_unsubscribe.
  - by eapply keeps_publish_id.
  - by eapply cpp_keeps_disconnect.
  - by eapply keeps_setMessageHandler.
  - by eapply keeps_setMessageHandler_method.
  - by eapply keeps_setDefault.
  - by eapply keeps_setDefault_method.
  - by eapply keeps_yield.
Qed.

Lemma calls_keep (P : Client * W → Prop) `{!Stable P} s s' :
  (∀ c w, P (c, w) → P (set_isconnected true c, w)) → rtc api_step s s' → P s → P s'.
Proof.
  intros Ht. induction 1 as [|s1 s2 s3 Hstep _ IH]; [done|]. intros Hs. apply IH. by eapply api_step_keeps.
Qed.

(** The memory of an object before its constructor runs: anything of the
    declared types. A member the configuration leaves out is held at zero. *)
Record memory (c : Client) : Prop :=
  { me_sendbuf : length (sendbuf c) = Z.to_nat MAX_MQTT_PACKET_SIZE;
    me_readbuf : length (readbuf c) = Z.to_nat MAX_MQTT_PACKET_SIZE;
    me_pubbuf : length (pubbuf c) = Z.to_nat MAX_MQTT_PACKET_SIZE;
    me_keepAlive : 0 ≤ keepAliveInterval c < 4294967296;
    me_inflight : MQTTCLIENT_QOS1 || MQTTCLIENT_QOS2 = false → inflightMsgid c = 0;
    me_qos2 : MQTTCLIENT_QOS2 = false → pubrel c = false ∧
      incomingQoS2messages c = replicate (Z.to_nat MAX_INCOMING_QOS2_MESSAGES) 0 }.

(** cleanSession has nothing to free in new slots. *)
Lemma cleanSession_loop_new k m i c w :
  messageHandlers c = replicate m (Slot None FP_new) → 0 ≤ i → i + Z.of_nat k ≤ Z.of_nat m →
  cleanSession_loop k i (c, w) = Ok (tt, (c, w)).
Proof.
  revert i. induction k as [|k IH]; intros i Em Hi Hk; [done|]. cbn [cleanSession_loop].
  assert (El : messageHandlers c !! Z.to_nat i = Some (Slot None FP_new))
    by (rewrite Em; apply lookup_replicate_2; lia).
  rewrite bind_this, (run_bind _ _ _ (Slot None FP_new) (c, w))
    by (apply run_lift; unfold arr_get; ztest; by rewrite El).
  cbn [topicFilter fp]. rewrite run_bind_ret, (run_bind _ _ _ (messageHandlers c) (c, w)).
  - rewrite cpp_bind_update. replace (set_messageHandlers (messageHandlers c) c) with c by (by destruct c).
    apply IH; [done|lia..].
  - apply run_lift. unfold arr_set. rewrite Em, length_replicate. ztests. rewrite <- Em.
    f_equal. by apply list_insert_id.
Qed.

Lemma Client_new_ok c w s :
  memory c → Client_new (c, w) = Ok (tt, s) → typed (fst s) ∧ addresses (messageHandlers (fst s)) = [].
Proof.
  intros [M1 M2 M3 M4 M5 M6] E. unfold Client_new in E.
  apply run_bind_inv in E as (t & s1 & E1 & E). apply env_inv in E1 as (w1 & _ & ->).
  rewrite !cpp_bind_update in E. unfold closeSession in E. rewrite !cpp_bind_update, bind_this in E.
  cbn [cleansession set_cleansession set_isconnected set_ping_outstanding] in E.
  unfold cleanSession in E. erewrite (run_bind (cleanSession_loop _ _)) in E; [|
    apply (cleanSession_loop_new _ (Z.to_nat MAX_MESSAGE_HANDLERS)); [reflexivity|lia..]].
  assert (A : ∀ n, addresses (replicate n (Slot None FP_new)) = [])
    by (induction n as [|n IH]; [done|]; cbn [replicate]; by rewrite addresses_cons, IH).
  pose proof table_zero as T. pose proof (ushorts_zero (Z.to_nat MAX_INCOMING_QOS2_MESSAGES)) as U.
  destruct MQTTCLIENT_QOS2 eqn:Q2; [rewrite orb_true_r in E|rewrite orb_false_r in E, M5];
    [|destruct MQTTCLIENT_QOS1 eqn:Q1].
  all: injection E as <-; cbn [fst messageHandlers]; split; [|apply A].
  all: split; cbn; rewrite ?length_replicate; auto; unfold PacketId_new, MAX_PACKET_ID; try lia.
  all: destruct (M6 eq_refl) as [P1 P2]; rewrite ?P2, ?P1, ?M5 by done; auto; lia.
Qed.

End Calls.

(** C23: whatever sequence of public member functions is called on a constructed client, and
    whatever the network, the clock and the callbacks do, every member stays in the range of
    its type: the arrays keep their sizes, packet identifiers are 16-bit, at most six
    PINGREQs are outstanding, the identifiers of QoS 2 messages do not repeat, a message in
    flight has a length and a QoS that can be sent again, and pubrel is never set, so that
    the PUBREL connect could send again never is. *)
Theorem cpp_reachable_typed `{CImpl} `{Config} {W : Type} `{CppPlatform W} c w s0 s :
  memory c → Client_new (c, w) = Ok (tt, s0) → rtc api_step s0 s → typed (fst s).
Proof.
  intros Hm E Hr. refine (calls_keep (λ s, typed (fst s)) s0 s _ Hr _).
  - intros c1 w1 [A1 A2 A3 A4 A5 A6 A7 A8 A9 A10 A11 A12]. by split.
  - by apply (Client_new_ok c w).
Qed.

(** C24: for any allocator, the topic filters in the slots are at all times live blocks and no two
    slots share one: the client, which reads and frees only the filters in its slots, uses
    none after it was freed and frees none twice. *)
Theorem cpp_filters_owned `{CImpl} `{Config} {W : Type} `{CppPlatform W} heap c w s0 s :
  allocator heap → memory c → Client_new (c, w) = Ok (tt, s0) → rtc api_step s0 s → owned heap s.
Proof.
  intros Hal Hm E Hr. refine (calls_keep (owned heap) (Stable0 := owned_stable heap Hal) s0 s _ Hr _); [done|].
  destruct (Client_new_ok c w s0 Hm E) as [_ Ha]. unfold owned. rewrite Ha.
  split; [constructor|]. by intros a ?%not_elem_of_nil.
Qed.

(** ** The theorems on the simulated platform *)

#[local] Existing Instance x86_64.
#[local] Existing Instance small_config.

Definition ex_memory : Client (W := cworld) :=
  mkClient (replicate 20 0) (replicate 20 0) 7 0 5 false 9 [] FP_new true (replicate 20 0)
    1 2 3 true [].

Lemma ex_memory_ok : memory ex_memory.
Proof. split; cbn; try done; lia. Qed.

Lemma sim_allocator : allocator heap_sim.
Proof.
  assert (O : ∀ A (m : M world A) w a w', on_world m w = Ok (a, w') → heap_sim w' = heap_sim w).
  { intros A m w a w'. unfold on_world. destruct (m (cw w)) as [[b v]| |]; [|done..].
    by intros [= <- <-]. }
  split.
  - intros A m w a w' Hm E. destruct Hm; exact (O _ _ _ _ _ E).
  - intros n w a w' E. injection E as <- <-. unfold heap_sim. cbn [cw_live].
    rewrite elem_of_list_to_set. split; [apply next_block_fresh|done].
  - intros a w w' Ha E. cbn in E. unfold heap_sim in *. rewrite elem_of_list_to_set in Ha.
    rewrite bool_decide_true in E by done. injection E as <-. cbn [cw_live].
    apply set_eq. intros x. rewrite elem_of_difference, elem_of_singleton, !elem_of_list_to_set.
    rewrite list_elem_of_filter. tauto.
Qed.

Definition set_a : M (Client * cworld) Z :=
  setMessageHandler (Some (c_string [97])) (Some (app_function 7)).

(** The constructor and one handler set directly. *)
Lemma ex_runs : ∃ s0 s, Client_new (ex_memory, cpp_world) = Ok (tt, s0) ∧ rtc api_step s0 s ∧
  cw_live (snd s) = [1].
Proof.
  destruct (run_result (λ _ s, cw_live (snd s)) ((Client_new ;; set_a) (ex_memory, cpp_world)) [1])
    as (r & s & E & El); [vm_compute; reflexivity|].
  apply run_bind_inv in E as ([] & s0 & E0 & E). exists s0, s. split; [exact E0|].
  split; [|exact El]. by eapply rtc_once, (step_handler (Some (c_string [97])) (Some (app_function 7)) r).
Qed.

Lemma cpp_reachable_typed_witness :
  ∃ s0 s, Client_new (ex_memory, cpp_world) = Ok (tt, s0) ∧ rtc api_step s0 s ∧
    cw_live (snd s) = [1] ∧ typed (fst s).
Proof.
  destruct ex_runs as (s0 & s & E & Hr & El). exists s0, s. split_and!; [done..|].
  exact (cpp_reachable_typed ex_memory cpp_world s0 s ex_memory_ok E Hr).
Defined.

Lemma cpp_filters_owned_witness :
  ∃ s0 s, Client_new (ex_memory, cpp_world) = Ok (tt, s0) ∧ rtc api_step s0 s ∧
    cw_live (snd s) = [1] ∧ owned heap_sim s.
Proof.
  destruct ex_runs as (s0 & s & E & Hr & El). exists s0, s. split_and!; [done..|].
  exact (cpp_filters_owned heap_sim ex_memory cpp_world s0 s sim_allocator ex_memory_ok E Hr).
Defined.

End CppClientState.
