(* ===== verification/CppClientIO.v ===== *)
(** * The C++ client and the network

    Sending, receiving and the results of the member functions of Client. *)

From stdpp Require Import gmap fin_sets.
From S2P Require Import Prelude CSem Wire Packet Connect Publish Subscribe Stream Topics Platform.
From S2P Require Import Sim ClientIO CppClient CppQoS2 CppDelivery CppSim CppClientState.

Module CppClientIO.
Import CppClient CppQoS2 CppDelivery CppClientState.


Section IO.
Context `{CImpl} `{Config} {W : Type} `{CppPlatform W}.
#[local] Abbreviation C A := (M (Client * W) A).

(** ** Sending *)

(** What the send loop relies on, while [I] holds: the timer can be looked
    at, and a write of [n] bytes takes between 1 and [n] of them or fails
    having taken none. [out w]: the bytes the network has taken. *)
Record wire (I : W → Prop) (out : W → list Z) : Prop :=
  { wi_expired t w : I w → ∃ b t' w', TimerIsExpired t w = Ok ((b, t'), w') ∧ I w' ∧ out w' = out w;
    wi_left t w : I w → ∃ ms t' w', TimerLeftMS t w = Ok ((ms, t'), w') ∧ I w' ∧ out w' = out w;
    wi_write b i n ms w : I w → 0 < n → 0 ≤ i → i + n ≤ len b →
      ∃ r w', mqttwrite (Ptr b i) n ms w = Ok (r, w') ∧ I w' ∧ r ≠ 0 ∧ r ≤ n ∧
        out w' = out w ++ take (Z.to_nat r) (drop (Z.to_nat i) b) }.

Lemma sendPacket_loop_sends I out fuel n k timer c w :
  wire I out → I w → 0 ≤ k ≤ n → n ≤ len (sendbuf c) → n ≤ INT_MAX → (Z.to_nat (n - k) < fuel)%nat →
  ∃ m t w', sendPacket_loop fuel n k timer (c, w) = Ok ((m, t), (c, w')) ∧ I w' ∧ k ≤ m ≤ n ∧
    out w' = out w ++ take (Z.to_nat (m - k)) (drop (Z.to_nat k) (sendbuf c)).
Proof.
  intros Hwire. revert k timer w. induction fuel as [|fuel IH]; intros k timer w Hw Hk Hn Hmax Hf; [lia|].
  assert (Stay : ∀ t w', out w' = out w →
    out w' = out w ++ take (Z.to_nat (k - k)) (drop (Z.to_nat k) (sendbuf c)))
    by (intros t w' ->; by rewrite Z.sub_diag, app_nil_r).
  cbn [sendPacket_loop]. destruct (Z.ltb_spec k n).
  2:{ exists k, timer, w. split; [done|]. auto with lia. }
  destruct (wi_expired I out Hwire timer w Hw) as (b & t1 & w1 & E1 & H1' & O1).
  rewrite (cpp_bind_env _ _ _ _ _ _ E1).
  destruct b; [exists k, t1, w1; split; [done|]; auto with lia|].
  destruct (wi_left I out Hwire t1 w1 H1') as (ms & t2 & w2 & E2 & H2' & O2).
  rewrite (cpp_bind_env _ _ _ _ _ _ E2), bind_this.
  destruct (wi_write I out Hwire (sendbuf c) k (n - k) ms w2 H2') as (r & w3 & E3 & H3' & Hr & Hrn & O3);
    [lia..|].
  rewrite (cpp_bind_env _ _ _ _ _ _ E3). destruct (Z.ltb_spec r 0).
  - exists k, t2, w3. split; [done|]. split; [done|]. split; [lia|]. apply Stay; [done|].
    rewrite O3. replace (Z.to_nat r) with 0%nat by lia. by rewrite app_nil_r, O2, O1.
  - rewrite (run_bind _ _ _ (k + r) (c, w3))
      by (apply run_lift, iadd_Ok; unfold INT_MIN; lia).
    destruct (IH (k + r) t2 w3) as (m & t & w' & E & Hw' & Hm & O); [done|lia..|].
    exists m, t, w'. split; [done|]. split; [done|]. split; [lia|].
    rewrite O, O3, O2, O1, <- app_assoc. f_equal.
    replace (Z.to_nat (k + r)) with (Z.to_nat k + Z.to_nat r)%nat by lia.
    rewrite <- drop_drop. generalize (drop (Z.to_nat k) (sendbuf c)). intros l.
    replace (Z.to_nat (m - k)) with (Z.to_nat r + Z.to_nat (m - (k + r)))%nat by lia.
    apply take_take_drop.
Qed.

(** C20: sendPacket returns, after at most one look at the timer per byte, having sent a prefix
    of the [length] bytes at the front of sendbuf, each byte once and in order however the
    network splits the writes: SUCCESS if it is all of them, FAILURE if it is not. *)
Theorem cpp_sendPacket_sends I out n timer c w :
  wire I out → I w → 0 ≤ n ≤ len (sendbuf c) → n ≤ INT_MAX →
  ∃ m t w', sendPacket (S (Z.to_nat n)) n timer (c, w) =
      Ok ((if m =? n then SUCCESS else FAILURE, t), (c, w')) ∧
    I w' ∧ 0 ≤ m ≤ n ∧ out w' = out w ++ take (Z.to_nat m) (sendbuf c).
Proof.
  intros Hwire Hw Hn Hmax. unfold sendPacket.
  destruct (sendPacket_loop_sends I out (S (Z.to_nat n)) n 0 timer c w Hwire Hw)
    as (m & t & w' & E & Hw' & Hm & O); [lia..|].
  exists m, t, w'. rewrite (run_bind _ _ _ _ _ E). split; [done|]. split; [done|]. split; [done|].
  by rewrite Z.sub_0_r in O.
Qed.

(** ** Receiving *)

(** decodePacket is that of the C client. *)
Lemma cpp_decodePacket_same timeout w : decodePacket timeout w = Client.Client.decodePacket timeout w.
Proof. reflexivity. Qed.

Lemma cpp_store_readbuf_over c w a bs i :
  i = len a → (length a + length bs ≤ length (readbuf c))%nat →
  store_readbuf i bs (set_readbuf (over a (readbuf c)) c, w) =
    Ok (tt, (set_readbuf (over (a ++ bs) (readbuf c)) c, w)).
Proof.
  intros Hi L. unfold store_readbuf. rewrite bind_this. cbn [readbuf set_readbuf].
  by rewrite (run_bind _ _ _ _ _ (run_lift _ _ _ (store_over a bs (readbuf c) i Hi L))).
Qed.

Lemma cpp_set_readbuf_same c : set_readbuf (readbuf c) c = c.
Proof. by destruct c. Qed.

(** The network delivers the remaining length to decodePacket. *)
Lemma decodePacket_paced p R n rest ms w :
  ClientIO.paced p R → 0 ≤ n ≤ MAX_REMAINING → R w (varint n ++ rest) → ClientIO.enough p w ms →
  ∃ w', decodePacket ms w = Ok ((len (varint n), n), w') ∧ R w' rest.
Proof.
  intros HR Hn Hw Hm. destruct (ClientIO.paced_delivers p R _ rest ms w HR Hw Hm) as (w' & D & H').
  exists w'. split; [|done]. pose proof (varint_len_mqtt n Hn) as Hv.
  rewrite cpp_decodePacket_same.
  assert (Eq : Client.Client.decodePacket ms w = MQTTPacket_decode (λ n, mqttread n ms) w)
    by (apply ClientIO.decodePacket_same).
  rewrite Eq. unfold MQTTPacket_decode. rewrite varint_4 in * by lia.
  rewrite (decode_loop_varint _ 4 5 n 0 1 0 w w');
    [|unfold MAX_REMAINING in *; cbn; lia|lia..|exact D]. do 3 f_equal; lia.
Qed.

(** The end of readPacket. *)
Definition readPacket_end (timer : Timer) : C (Z * Timer) :=
  c ← this; b ← lift (load (readbuf c) 0); restart_last_received ;; mret (header_type b, timer).

(** The fixed header of a packet read into readbuf, and the length test. *)
Lemma cpp_readPacket_head p R h body rest timer c w :
  ClientIO.paced p R → ClientIO.running p timer → byte h → len body ≤ MAX_REMAINING → 5 ≤ MAX_MQTT_PACKET_SIZE →
  len (readbuf c) = MAX_MQTT_PACKET_SIZE → R w (h :: varint (len body) ++ rest) →
  ∃ t w', R w' rest ∧ ClientIO.running p t ∧
    readPacket timer (c, w) =
    (if MAX_MQTT_PACKET_SIZE <? len (packet h body) then mret (BUFFER_OVERFLOW, t)
     else
      '(bad, timer) ← (
        if 0 <? len body then
          '(ms, timer) ← env (TimerLeftMS t);
          '(rc, bs) ← env (mqttread (len body) ms);
          store_readbuf (len (head h body)) bs ;;
          mret (negb (rc =? len body), timer)
        else mret (false, t));
      if bad : bool then mret (1, timer)
      else readPacket_end timer) (set_readbuf (over (head h body) (readbuf c)) c, w').
Proof.
  intros HR Ht Hh Hl H5 Hs Hw. unfold readPacket.
  destruct (ClientIO.pd_left p R HR timer w _ Hw Ht) as (ms & t1 & w1 & E1 & Ht1 & Hm & H1').
  rewrite (cpp_bind_env _ _ _ _ _ _ E1).
  destruct (ClientIO.pd_read p R HR w1 [h] (varint (len body) ++ rest) ms) as (w2 & E2 & _ & H2');
    [done..|].
  rewrite (cpp_bind_env _ _ _ _ _ _ E2).
  pose proof (cpp_store_readbuf_over c w2 [] [h] 0 eq_refl ltac:(cbn; lia)) as Es.
  rewrite over_nil, cpp_set_readbuf_same in Es. rewrite (run_bind _ _ _ _ _ Es). cbn [app].
  change (len [h]) with 1. change (1 =? 1) with true. cbn [negb].
  destruct (ClientIO.pd_left p R HR t1 w2 _ H2' Ht1) as (ms2 & t2 & w3 & E3 & Ht2 & Hm2 & H3').
  rewrite (cpp_bind_env _ _ _ _ _ _ E3).
  destruct (decodePacket_paced p R (len body) rest ms2 w3 HR ltac:(lia) H3' Hm2) as (w4 & E4 & H4').
  pose proof (varint_len_mqtt (len body) ltac:(lia)) as Hv.
  rewrite (cpp_bind_env _ _ _ _ _ _ E4), bind_this. cbn [readbuf set_readbuf].
  rewrite (run_bind _ _ _ _ _ (run_lift _ _ _ (encode_over [h] (len body) (readbuf c) 1 eq_refl
    ltac:(unfold MAX_REMAINING, INT_MAX in *; lia) ltac:(cbn [length]; lia)))).
  rewrite cpp_bind_update. cbv zeta. exists t2, w4. split; [done|]. split; [done|].
  replace (MAX_MQTT_PACKET_SIZE - (1 + len (varint (len body))) <? len body)
    with (MAX_MQTT_PACKET_SIZE <? len (packet h body)).
  - unfold head. rewrite len_cons. reflexivity.
  - rewrite packet_len. ztests; done.
Qed.

(** The client after it has read [bs] to the front of readbuf. *)
Definition received (bs : list Z) (t : Timer) (c : Client) : Client :=
  let c' := set_readbuf (over bs (readbuf c)) c in
  if 0 <? keepAliveInterval c then set_last_received t c' else c'.

(** A packet that fits readbuf. *)
Lemma cpp_readPacket_fits p R h body rest timer c w :
  ClientIO.paced p R → ClientIO.running p timer → byte h → len body ≤ MAX_REMAINING →
  5 ≤ MAX_MQTT_PACKET_SIZE → len (readbuf c) = MAX_MQTT_PACKET_SIZE →
  len (packet h body) ≤ MAX_MQTT_PACKET_SIZE → R w (packet h body ++ rest) →
  ∃ t tr w', readPacket timer (c, w) = Ok ((header_type h, t), (received (packet h body) tr c, w')) ∧
    R w' rest ∧ ClientIO.running p t ∧
    (0 < keepAliveInterval c → ClientIO.long p (1000 * receive_interval c) → ClientIO.running p tr).
Proof.
  intros HR Ht Hh Hl H5 Hs Hfit Hw.
  destruct (cpp_readPacket_head p R h body (body ++ rest) timer c w HR Ht Hh Hl H5 Hs) as (t & w1 & H1' & Ht1 & ->).
  { unfold packet, head in Hw. by rewrite (app_assoc (varint _)). }
  destruct (Z.ltb_spec MAX_MQTT_PACKET_SIZE (len (packet h body))) as [|_]; [lia|].
  rewrite packet_len in Hfit.
  assert (Fin : ∀ t2 w2, R w2 rest → ∃ tr w',
    readPacket_end t2 (set_readbuf (over (packet h body) (readbuf c)) c, w2) =
    Ok ((header_type h, t2), (received (packet h body) tr c, w')) ∧ R w' rest ∧
    (0 < keepAliveInterval c → ClientIO.long p (1000 * receive_interval c) → ClientIO.running p tr)).
  { intros t2 w2 H2'. unfold readPacket_end. rewrite bind_this.
    rewrite (run_bind _ _ _ h (set_readbuf (over (packet h body) (readbuf c)) c, w2)) by done.
    unfold restart_last_received. rewrite run_assoc, bind_this. unfold received.
    cbn [readbuf set_readbuf keepAliveInterval last_received].
    destruct (Z.ltb_spec 0 (keepAliveInterval c)).
    - destruct (ClientIO.pd_countdown p R HR (last_received c)
        (receive_interval (set_readbuf (over (packet h body) (readbuf c)) c)) w2 rest H2')
        as (tr & w3 & E3 & Htr & H3'). exists tr, w3. split; [|done].
      by rewrite run_assoc, (cpp_bind_env _ _ _ _ _ _ E3).
    - exists t, w2. split; [done|]. split; [done|]. lia. }
  destruct (Z.ltb_spec 0 (len body)) as [Hb|Hb].
  - destruct (ClientIO.pd_left p R HR t w1 _ H1' Ht1) as (ms & t2 & w2 & E2 & Ht2 & Hm & H2').
    destruct (ClientIO.pd_read p R HR w2 body rest ms H2') as (w3 & E3 & _ & H3');
      [intros ->; cbn in Hb; lia|done|].
    destruct (Fin t2 w3 H3') as (tr & w' & E & Hw' & Htr). exists t2, tr, w'. split; [|done].
    rewrite <- E, run_assoc, (cpp_bind_env _ _ _ _ _ _ E2), run_assoc, (cpp_bind_env _ _ _ _ _ _ E3).
    assert (Es : store_readbuf (len (head h body)) body
        (set_readbuf (over (head h body) (readbuf c)) c, w3) =
      Ok (tt, (set_readbuf (over (packet h body) (readbuf c)) c, w3)))
      by (apply cpp_store_readbuf_over; [done|unfold head; cbn [length]; lia]).
    rewrite run_assoc, (run_bind _ _ _ _ _ Es), run_bind_ret, Z.eqb_refl. done.
  - destruct body; [|cbn in Hb; lia]. destruct (Fin t w1 H1') as (tr & w' & E & Hw' & Htr).
    exists t, tr, w'. split; [|done]. rewrite <- E. done.
Qed.

(** ReadPacket brings a packet that the network delivers into readbuf, byte for byte, and
    returns its type; a packet larger than MAX_MQTT_PACKET_SIZE gives BUFFER_OVERFLOW, with
    its body left in the network. *)
Theorem cpp_readPacket_correct R h body rest timer c w :
  ClientIO.stream R → byte h → len body ≤ MAX_REMAINING → 5 ≤ MAX_MQTT_PACKET_SIZE →
  len (readbuf c) = MAX_MQTT_PACKET_SIZE → R w (packet h body ++ rest) →
  ∃ t w', if MAX_MQTT_PACKET_SIZE <? len (packet h body)
    then R w' (body ++ rest) ∧ readPacket timer (c, w) =
           Ok ((BUFFER_OVERFLOW, t), (set_readbuf (over (head h body) (readbuf c)) c, w'))
    else R w' rest ∧ ∃ tr, readPacket timer (c, w) =
           Ok ((header_type h, t), (received (packet h body) tr c, w')).
Proof.
  intros HR%ClientIO.stream_paced Hh Hl H5 Hs Hw.
  destruct (Z.ltb_spec MAX_MQTT_PACKET_SIZE (len (packet h body))) as [L|L].
  - destruct (cpp_readPacket_head _ R h body (body ++ rest) timer c w HR I Hh Hl H5 Hs) as (t & w1 & H1' & _ & ->);
      [|exists t, w1; by ztest]. unfold packet, head in Hw. by rewrite (app_assoc (varint _)).
  - destruct (cpp_readPacket_fits _ R h body rest timer c w HR I) as (t & tr & w' & E & Hw' & _); [done..|].
    exists t, w'. split; [done|]. by exists tr.
Qed.

(** When the body of a packet does not arrive whole, readPacket returns neither an error nor
    0, as its documentation says, but 1: the result of the read of the first byte, which is
    also the type of CONNECT. *)
Theorem cpp_readPacket_cut_body R h n timer c w :
  ClientIO.stream R → byte h → 0 < n ≤ MAX_REMAINING → 5 ≤ MAX_MQTT_PACKET_SIZE →
  len (readbuf c) = MAX_MQTT_PACKET_SIZE → 1 + len (varint n) + n ≤ MAX_MQTT_PACKET_SIZE →
  R w (h :: varint n) →
  (∀ ms w', R w' [] → ∃ r bs w2, mqttread n ms w' = Ok ((r, bs), w2) ∧ r ≠ n ∧ len bs ≤ n) →
  ∃ t c' w', readPacket timer (c, w) = Ok ((1, t), (c', w')).
Proof.
  intros HR Hh Hn H5 Hs Hfit Hw Hcut.
  destruct (cpp_readPacket_head _ R h (replicate (Z.to_nat n) 0) [] timer c w
    (ClientIO.stream_paced R HR) I Hh) as (t0 & w0 & H0' & _ & ->);
    rewrite ?length_replicate, ?Z2Nat.id by lia; [lia|done..|by rewrite app_nil_r|].
  rewrite packet_len, length_replicate, Z2Nat.id by lia. ztests.
  destruct (ClientIO.sr_left R HR t0 w0 _ H0') as (ms & t1 & w1 & E1 & H1').
  destruct (Hcut ms w1 H1') as (r & bs & w2 & Er & Hr & Hb).
  rewrite run_assoc, (cpp_bind_env _ _ _ _ _ _ E1), run_assoc, (cpp_bind_env _ _ _ _ _ _ Er), run_assoc.
  erewrite (run_bind (store_readbuf _ _)); [|apply cpp_store_readbuf_over;
    [done|unfold head; rewrite length_replicate, Z2Nat.id by lia; cbn [length]; lia]].
  rewrite run_bind_ret. destruct (Z.eqb_spec r n); [done|]. cbn [negb]. by eexists _, _, _.
Qed.

(** ** The messages of the broker *)

(** A QoS 2 message is delivered when its identifier is not in the table and the table has
    room, and its identifier is then in the table; a message whose identifier is there is a
    duplicate and is not delivered, and neither is one that finds the table full, although
    cycle acknowledges both. *)
Theorem cpp_receive_qos2 t msg c w :
  MQTTCLIENT_QOS2 = true → m_qos msg = 2 → table_ok (incomingQoS2messages c) → m_id msg ≠ 0 →
  receive_message t msg (c, w) =
    if bool_decide (m_id msg ∈ msgids (incomingQoS2messages c)) then Ok (tt, (c, w))
    else if bool_decide (Z.of_nat (size (msgids (incomingQoS2messages c))) <
                         MAX_INCOMING_QOS2_MESSAGES)
    then match useQoS2msgid (m_id msg) (incomingQoS2messages c) with
         | Ok (_, ids) => (deliverMessage t msg ;; mret tt) (set_incomingQoS2messages ids c, w)
         | UB u => UB u | NoFuel => NoFuel
         end
    else Ok (tt, (c, w)).
Proof.
  intros HQ Hq Ht Hid. unfold receive_message. rewrite HQ, Hq. change (2 =? QOS2) with true.
  cbn [andb]. rewrite bind_this.
  rewrite (run_bind _ _ _ _ _ (run_lift _ _ (c, w) (isQoS2msgidFree_spec (m_id msg)
    (incomingQoS2messages c) (proj1 Ht)))).
  destruct (decide (m_id msg ∈ incomingQoS2messages c)) as [Hin|Hin].
  - rewrite (bool_decide_true (_ ∈ msgids _)) by (by apply elem_of_msgids).
    by rewrite bool_decide_false by auto.
  - rewrite (bool_decide_false (_ ∈ msgids _)) by (by rewrite elem_of_msgids; intros []).
    rewrite bool_decide_true by done.
    destruct (useQoS2msgid_spec (m_id msg) (incomingQoS2messages c) Ht Hid Hin)
      as (ids & Eu & _ & _ & _).
    rewrite (run_bind _ _ _ _ _ (run_lift _ _ (c, w) Eu)), cpp_bind_update, Eu.
    destruct (bool_decide (_ < _)) eqn:B; [done|].
    (* the table was full: useQoS2msgid leaves it alone *)
    rewrite run_ret. do 3 f_equal. unfold useQoS2msgid in Eu.
    destruct (replace_msgid_spec 0 (m_id msg) (incomingQoS2messages c) (proj1 Ht))
      as [[_ Er]|(l1 & l2 & _ & _ & Er)]; rewrite Er in Eu; [|done].
    injection Eu as <-. by destruct c.
Qed.

Lemma env_same {A} (m : M W A) c w a s : env m (c, w) = Ok (a, s) → fst s = c.
Proof. intros E. by apply env_inv in E as (w' & _ & ->). Qed.

(** An acknowledgement written to the front of sendbuf. *)
Definition acknowledging (type id : Z) (c : Client) : Client :=
  set_sendbuf (over (ack_packet type 0 id) (sendbuf c)) c.

Lemma on_sendbuf_ack n type id c w :
  0 ≤ id → 4 ≤ n ≤ len (sendbuf c) →
  on_sendbuf (λ b, MQTTSerialize_ack b n type 0 id) (c, w) =
    Ok (4, (acknowledging type id c, w)).
Proof.
  intros Hi Hn. unfold on_sendbuf. rewrite bind_this, write_ack by lia. ztest. done.
Qed.

(** The same for the packet as for the message it carries. *)
Lemma carried_message p t msg held :
  ClientIO.carries p t msg → 0 ≤ pb_qos p →
  accepted (m_qos msg) (m_id msg) held = accepted (pb_qos p) (pb_id p) held ∧
  remembered (m_qos msg) (m_id msg) held = remembered (pb_qos p) (pb_id p) held.
Proof.
  intros Hcar Hq. unfold remembered, accepted. rewrite (ClientIO.ca_qos _ _ _ Hcar).
  destruct (Z.eqb_spec (pb_qos p) QOS2) as [Q|Q]; [|by rewrite !andb_false_r].
  by rewrite (ClientIO.ca_id _ _ _ Hcar) by (rewrite Q; done).
Qed.

(** The case PUBLISH of cycle. *)
Lemma cpp_cycle_publish_steps p junk fuel o timer c w tbl :
  publish_wf p → readbuf c = publish_packet p ++ junk →
  4 ≤ MAX_MQTT_PACKET_SIZE ≤ len (sendbuf c) →
  Forall2 cpp_holds (messageHandlers c) tbl → len (messageHandlers c) = MAX_MESSAGE_HANDLERS →
  table_ok (incomingQoS2messages c) → (pb_qos p = 2 → pb_id p ≠ 0) →
  let held := msgids (incomingQoS2messages c) in
  ∃ t msg ids, ClientIO.carries p t msg ∧ table_ok ids ∧
    msgids ids = remembered (pb_qos p) (pb_id p) held ∧
    cycle_publish fuel o timer (c, w) =
      (env (call_fps (if accepted (pb_qos p) (pb_id p) held then cpp_recipients c (pb_topic p) tbl else [])
              (NewMessageData t msg)) ;;
       if negb (MQTTCLIENT_QOS1 || MQTTCLIENT_QOS2) then
         update (set_ping_outstanding 0) ;; mret (false, SUCCESS)
       else if pb_qos p =? 0 then mret (false, SUCCESS)
       else if pb_qos p =? 3 then mret (true, FAILURE)
       else update (acknowledging (if pb_qos p =? 1 then PUBACK else PUBREC) (pb_id p)) ;;
            '(rc, _) ← sendPacket fuel 4 timer;
            mret (rc =? FAILURE, rc)) (set_incomingQoS2messages ids c, w).
Proof.
  intros Hp Hr Hb Hh Hlen Htab Hid0. cbv zeta. unfold cycle_publish.
  edestruct (read_publish p (PublishOut (p_dup o) (p_qos o) (p_retained o) (p_packetid o)
    (p_topicName o) (p_payload o) 0) junk MAX_MQTT_PACKET_SIZE Hp) as (o' & E & R).
  destruct R as [R1 R2 R3 R4 R5 R6 R7 R8]. pose proof Hp as [_ Hq _ Hi _ _ Hl].
  assert (Hplen : to_uint (p_payloadlen o') = len (pb_payload p)).
  { rewrite R7. unfold to_uint. rewrite publish_body_len in Hl. unfold MAX_REMAINING in Hl.
    revert Hl. ztest; intros; rewrite Z.mod_small; lia. }
  set (msg := Message (p_qos o') (p_retained o') (p_dup o') (p_packetid o')
    (p_payload o') (to_uint (p_payloadlen o'))).
  assert (Hcar : ClientIO.carries p (p_topicName o') msg)
    by (split; cbn; try done; [intros; rewrite R4; by ztest|by rewrite Hplen, <- R7]).
  destruct (carried_message p _ msg (msgids (incomingQoS2messages c)) Hcar ltac:(lia)) as [Ea Em].
  destruct (receive_message_calls (p_topicName o') (pb_topic p) msg c w tbl Hh Hlen
    (ClientIO.ca_topic _ _ _ Hcar) (ClientIO.ca_view _ _ _ Hcar) Htab) as (ids & Htab' & Eids & Erm).
  { rewrite (ClientIO.ca_qos _ _ _ Hcar). intros Q.
    rewrite (ClientIO.ca_id _ _ _ Hcar) by (rewrite Q; done). by apply Hid0. }
  rewrite Ea in Erm. rewrite Em in Eids.
  exists (p_topicName o'), msg, ids. split; [done|]. split; [done|]. split; [done|].
  rewrite bind_this, Hr. rewrite (run_bind _ _ _ _ _ (run_lift _ _ (c, w) E)). cbn [Z.eqb Pos.eqb negb].
  fold msg. unfold mbind at 1, M_bind at 1. rewrite Erm.
  change (match env ?m ?s with Ok (a, s) => ?f a s | UB u => UB u | NoFuel => NoFuel end)
    with ((env m ≫= f) s).
  apply cpp_env_ext. intros [] w1. set (c1 := set_incomingQoS2messages ids c).
  assert (Eb : sendbuf c1 = sendbuf c) by done.
  unfold answer_message. cbn [m_qos m_id msg]. rewrite R2. unfold QOS0, QOS1, QOS2.
  destruct (MQTTCLIENT_QOS1 || MQTTCLIENT_QOS2); cbn [negb]; [|done].
  destruct (Z.eqb_spec (pb_qos p) 0) as [E0|N0]; cbn [negb]; [done|].
  assert (Hid : p_packetid o' = pb_id p) by (rewrite R4; by ztest). rewrite Hid.
  assert (Send : ∀ s, (rc ← ('(rc, _) ← sendPacket fuel 4 timer; mret rc); mret (rc =? FAILURE, rc)) s
    = ('(rc, _) ← sendPacket fuel 4 timer; mret (rc =? FAILURE, rc)) s)
    by (intros s; unfold mbind, M_bind; by destruct (sendPacket fuel 4 timer s) as [[[]]| |]).
  assert (pb_qos p = 1 ∨ pb_qos p = 2 ∨ pb_qos p = 3) as [E1|[E2|E3]] by lia.
  - rewrite E1. cbn [Z.eqb Pos.eqb]. rewrite cpp_bind_update, <- Send.
    by rewrite (run_bind _ _ _ _ _ (on_sendbuf_ack MAX_MQTT_PACKET_SIZE PUBACK (pb_id p) c1 w1 ltac:(lia)
      ltac:(rewrite Eb; lia))).
  - rewrite E2. cbn [Z.eqb Pos.eqb]. rewrite cpp_bind_update, <- Send.
    by rewrite (run_bind _ _ _ _ _ (on_sendbuf_ack MAX_MQTT_PACKET_SIZE PUBREC (pb_id p) c1 w1 ltac:(lia)
      ltac:(rewrite Eb; lia))).
  - rewrite E3. done.
Qed.

(** C21: a PUBLISH packet in readbuf is handed, once each and in the order of the slots, to every
    function and object whose filter matches its topic, or to the default handler when there is
    none; but a message of QoS 2 is handed over only when its identifier is not stored and there
    is room for it, and then the identifier is stored. It is answered whether or not it was handed
    over: not for QoS 0, with a PUBACK for QoS 1, a PUBREC for QoS 2, and an error for QoS 3,
    which MQTT forbids. Built without QoS 1 and 2 nothing is answered and the packet is taken for
    a PINGRESP as well. *)
Theorem cpp_cycle_publish_answers p junk fuel o timer c w tbl :
  publish_wf p → readbuf c = publish_packet p ++ junk →
  4 ≤ MAX_MQTT_PACKET_SIZE ≤ len (sendbuf c) →
  Forall2 cpp_holds (messageHandlers c) tbl → len (messageHandlers c) = MAX_MESSAGE_HANDLERS →
  table_ok (incomingQoS2messages c) → (pb_qos p = 2 → pb_id p ≠ 0) →
  let held := msgids (incomingQoS2messages c) in
  ∃ t msg ids, ClientIO.carries p t msg ∧ table_ok ids ∧
    msgids ids = remembered (pb_qos p) (pb_id p) held ∧
    cycle_publish fuel o timer (c, w) =
      (env (call_fps (if accepted (pb_qos p) (pb_id p) held then cpp_recipients c (pb_topic p) tbl else [])
              (NewMessageData t msg)) ;;
       if negb (MQTTCLIENT_QOS1 || MQTTCLIENT_QOS2) then
         update (set_ping_outstanding 0) ;; mret (false, SUCCESS)
       else if pb_qos p =? 0 then mret (false, SUCCESS)
       else if pb_qos p =? 3 then mret (true, FAILURE)
       else update (acknowledging (if pb_qos p =? 1 then PUBACK else PUBREC) (pb_id p)) ;;
            '(rc, _) ← sendPacket fuel 4 timer;
            mret (rc =? FAILURE, rc)) (set_incomingQoS2messages ids c, w).
Proof. apply cpp_cycle_publish_steps. Qed.

(** ** What cycle reports *)

(** The packets cycle has a case for. *)
Definition handled (packet_type : Z) : Prop :=
  packet_type ∈ [0; CONNACK; PUBLISH; PUBACK; SUBACK; PINGRESP] ∨
  MQTTCLIENT_QOS2 = true ∧ packet_type ∈ [PUBREC; PUBREL; PUBCOMP].

Lemma handled_spec packet_type :
  ¬ handled packet_type →
  ∀ fuel o timer s, cycle_switch fuel o packet_type timer s = Ok ((true, packet_type), s).
Proof.
  intros Hn fuel o timer s. unfold cycle_switch.
  assert (N : ∀ k, k ∈ [0; CONNACK; PUBLISH; PUBACK; SUBACK; PINGRESP] → packet_type =? k = false).
  { intros k Hk. apply Z.eqb_neq. intros ->. apply Hn. by left. }
  assert (N2 : ∀ k, k ∈ [PUBREC; PUBREL; PUBCOMP] → MQTTCLIENT_QOS2 && (packet_type =? k) = false).
  { intros k Hk. destruct MQTTCLIENT_QOS2 eqn:Q; [|done]. apply Z.eqb_neq. intros ->.
    apply Hn. by right. }
  rewrite !N by decide_by_vm. cbn [orb].
  pose proof (N2 PUBREC ltac:(decide_by_vm)) as A1.
  pose proof (N2 PUBREL ltac:(decide_by_vm)) as A2.
  pose proof (N2 PUBCOMP ltac:(decide_by_vm)) as A3.
  rewrite A3, (N PINGRESP) by decide_by_vm.
  destruct MQTTCLIENT_QOS2; cbn [andb] in *; [by rewrite A1, A2|done].
Qed.

Lemma closeSession_disconnects s s' : closeSession s = Ok (tt, s') → isconnected (fst s') = false.
Proof.
  destruct s as [c w]. intros E. unfold closeSession in E. rewrite !cpp_bind_update, bind_this in E.
  destruct (cleansession _); [|by injection E as <-].
  assert (L : ∀ n i s1 s2, isconnected (fst s1) = false → cleanSession_loop n i s1 = Ok (tt, s2) →
    isconnected (fst s2) = false).
  { induction n as [|n IH]; intros i [c1 w1] s2 Hc E1; [by injection E1 as <-|].
    cbn [cleanSession_loop] in E1. rewrite bind_this in E1.
    apply run_bind_inv in E1 as (h & s3 & E3 & E1). apply run_lift_inv in E3 as [_ ->].
    apply run_bind_inv in E1 as ([] & s4 & E4 & E1).
    assert (fst s4 = c1) by (destruct (topicFilter h); [by apply env_same in E4|by injection E4 as <-]).
    destruct s4 as [c4 w4]. cbn [fst] in *. subst c4.
    apply run_bind_inv in E1 as (hs & s5 & E5 & E1). apply run_lift_inv in E5 as [_ ->].
    rewrite cpp_bind_update in E1. by refine (IH _ _ _ _ E1). }
  unfold cleanSession in E. apply run_bind_inv in E as ([] & [c1 w1] & E1 & E).
  apply L in E1; [|done]. cbn [fst] in E1.
  destruct (MQTTCLIENT_QOS1 || MQTTCLIENT_QOS2), MQTTCLIENT_QOS2; injection E as <-; exact E1.
Qed.

(** C25: what cycle returns is the type of a packet it has a case for, or 0 for none, or the
    client is not connected: an error, a packet larger than readbuf, a packet cut short and
    an UNSUBACK (and, built without QoS 2, a PUBREC, PUBREL or PUBCOMP) all end the session. *)
Theorem cpp_cycle_result fuel o timer s rc t s' :
  cycle fuel o timer s = Ok ((rc, t), s') → handled rc ∨ isconnected (fst s') = false.
Proof.
  intros E. unfold cycle in E. apply run_bind_inv in E as (st & s0 & _ & E).
  apply run_bind_inv in E as ([pt t1] & s1 & _ & E).
  apply run_bind_inv in E as ([to_exit rc1] & s2 & E2 & E).
  apply run_bind_inv in E as (rc2 & [c3 w3] & E3 & E).
  destruct (Z.eqb_spec rc2 SUCCESS) as [->|N].
  - injection E as <- _ _. left.
    destruct (decide (pt = 0)) as [->|N0]; [left; by left|].
    assert (Dec : handled pt ∨ ¬ handled pt).
    { unfold handled. destruct (decide (pt ∈ [0; CONNACK; PUBLISH; PUBACK; SUBACK; PINGRESP]));
        [by left; left|]. destruct (decide (MQTTCLIENT_QOS2 = true)); [|tauto].
      destruct (decide (pt ∈ [PUBREC; PUBREL; PUBCOMP])); tauto. }
    destruct Dec as [|Hn]; [done|].
    rewrite (handled_spec pt Hn) in E2. injection E2 as <- <- <-. injection E3 as E3 _.
    unfold SUCCESS in E3. done.
  - rewrite bind_this in E. apply run_bind_inv in E as ([] & s4 & E4 & E).
    injection E as _ _ <-. right. destruct (isconnected c3) eqn:Ec.
    + by apply closeSession_disconnects in E4.
    + injection E4 as <-. exact Ec.
Qed.

(** A wait ends with what its last cycle returned. *)
Lemma waitfor_result fuel o packet_type timer s r t s' :
  waitfor fuel o packet_type timer s = Ok ((r, t), s') →
  r = FAILURE ∨ handled r ∨ isconnected (fst s') = false.
Proof.
  unfold waitfor. generalize fuel at 1 as n. intros n.
  assert (L : ∀ n rc timer s, rc = FAILURE ∨ handled rc ∨ isconnected (fst s) = false →
    waitfor_loop n fuel o packet_type rc timer s = Ok ((r, t), s') →
    r = FAILURE ∨ handled r ∨ isconnected (fst s') = false); [|apply L; by left].
  clear. induction n as [|n IH]; intros rc timer s Hrc E; [done|]. cbn [waitfor_loop] in E.
  apply run_bind_inv in E as ([e t1] & s1 & E1 & E). destruct s as [c w].
  apply env_inv in E1 as (w1 & _ & ->). destruct e; [by injection E as <- _ <-|].
  apply run_bind_inv in E as ([rc' t2] & s2 & E2 & E). apply cpp_cycle_result in E2.
  destruct (negb _ && _); [by refine (IH _ _ _ _ E); right|]. injection E as <- _ <-. by right.
Qed.

Lemma set_handler_connected filter attach s r s' :
  set_handler filter attach s = Ok (r, s') → isconnected (fst s') = isconnected (fst s).
Proof.
  intros E. destruct (isconnected (fst s)) eqn:Ec.
  - (* as for every value of isconnected: the slots only *)
    destruct s as [c w]. cbn [fst] in Ec. unfold set_handler in E. rewrite bind_this in E.
    apply run_bind_inv in E as (i & s1 & E1 & E). apply run_lift_inv in E1 as [_ ->].
    assert (Env : ∀ {A} (m : M W A) s1 a s2, isconnected (fst s1) = true → env m s1 = Ok (a, s2) →
      isconnected (fst s2) = true).
    { intros A m [c1 w1] a s2 Hc E1. apply env_same in E1. by rewrite E1. }
    destruct attach as [f|].
    + apply run_bind_inv in E as (k & s1 & E1 & E).
      assert (s1 = (c, w)) as ->.
      { destruct (_ =? FAILURE); [by apply run_lift_inv in E1 as [_ ->]|by injection E1 as _ <-]. }
      apply run_bind_inv in E as ([] & s2 & E2 & E). injection E as _ <-.
      destruct (k <? _); [|by injection E2 as <-].
      apply run_bind_inv in E2 as (b & s3 & E3 & E2).
      assert (isconnected (fst s3) = true).
      { unfold copy_filter in E3. apply run_bind_inv in E3 as (n & s4 & E4 & E3).
        apply run_lift_inv in E4 as [_ ->]. apply run_bind_inv in E3 as (a & s5 & E5 & E3).
        apply (Env _ _ (c, w)) in E5; [|done]. apply run_bind_inv in E3 as (bs & s6 & E6 & E3).
        apply run_lift_inv in E6 as [_ ->]. destruct a; [|done]. by injection E3 as _ <-. }
      apply run_bind_inv in E2 as (h & s4 & E4 & E2). apply run_lift_inv in E4 as [_ ->].
      apply run_bind_inv in E2 as (hs & s5 & E5 & E2). apply run_lift_inv in E5 as [_ ->].
      by injection E2 as <-.
    + apply run_bind_inv in E as ([] & s2 & E2 & E). injection E as _ <-.
      destruct (_ =? SUCCESS); [|by injection E2 as <-].
      apply run_bind_inv in E2 as (h & s4 & E4 & E2). apply run_lift_inv in E4 as [_ ->].
      apply run_bind_inv in E2 as ([] & s3 & E3 & E2).
      assert (isconnected (fst s3) = true).
      { destruct (topicFilter h); [by apply (Env _ _ (c, w)) in E3|by injection E3 as <-]. }
      apply run_bind_inv in E2 as (hs & s5 & E5 & E2). apply run_lift_inv in E5 as [_ ->].
      by injection E2 as <-.
  - exact (keeps_set_handler (λ s, isconnected (fst s) = false) filter attach s r s' Ec E).
Qed.

(** Unsubscribe that returns SUCCESS leaves the client disconnected: cycle has no case for
    UNSUBACK, so the acknowledgement it waits for closes the session (and, after a clean
    connect, drops every other subscription). *)
Theorem cpp_unsubscribe_disconnects fuel o filter s s' :
  unsubscribe fuel o filter s = Ok (SUCCESS, s') → isconnected (fst s') = false.
Proof.
  intros E. unfold unsubscribe in E. apply run_bind_inv in E as (t & [c w] & _ & E).
  rewrite bind_this in E. destruct (negb _); [done|]. cbv zeta in E. rewrite cpp_bind_update in E.
  apply run_bind_inv in E as (n & s2 & _ & E). destruct (n <=? 0); [done|].
  apply run_bind_inv in E as ([rc t1] & s3 & _ & E).
  destruct (Z.eqb_spec rc SUCCESS) as [->|N]; [|by injection E as E _].
  cbn [negb] in E. apply run_bind_inv in E as ([r t2] & [c4 w4] & E4 & E).
  destruct (Z.eqb_spec r UNSUBACK) as [->|N]; [|done].
  apply waitfor_result in E4 as [E4|[E4|E4]]; [done| |].
  { assert (N1 : UNSUBACK ∉ [0; CONNACK; PUBLISH; PUBACK; SUBACK; PINGRESP]) by decide_by_vm.
    assert (N2 : UNSUBACK ∉ [PUBREC; PUBREL; PUBCOMP]) by decide_by_vm.
    by destruct E4 as [E4|[_ E4]]. }
  rewrite bind_this in E. apply run_bind_inv in E as ([ok id] & s5 & E5 & E).
  apply run_lift_inv in E5 as [_ ->]. apply run_bind_inv in E as ([] & s6 & E6 & E).
  injection E as <-. destruct (ok =? 1); [|by injection E6 as <-].
  apply run_bind_inv in E6 as (r' & s7 & E7 & E6). injection E6 as <-.
  by rewrite (set_handler_connected filter None (c4, w4) r' s7 E7).
Qed.

(** ** Connecting *)

(** Connect on a client that is not connected leaves it connected exactly when it returns
    SUCCESS. *)
Theorem cpp_connect_result fuel o options data c w rc d s' :
  ushort_out o → 0 ≤ Connect.keepAliveInterval options < 65536 → isconnected c = false →
  connect_data fuel o options data (c, w) = Ok ((rc, d), s') →
  isconnected (fst s') = (rc =? SUCCESS).
Proof.
  intros Ho Hk Hc E. unfold connect_data in E.
  apply run_bind_inv in E as (t & s1 & E1 & E). apply env_inv in E1 as (w1 & _ & ->).
  rewrite bind_this, Hc in E. apply run_bind_inv in E as ([rc1 d1] & [c2 w2] & E2 & E).
  pose proof (cpp_keeps_connect_session (λ s, isconnected (fst s) = false) _ _ _ _ _ Ho Hk
    (c, w1) _ _ Hc E2) as Hc2. cbn [fst] in Hc2.
  apply run_bind_inv in E as ([] & s3 & E3 & E). injection E as <- _ <-.
  destruct (rc1 =? SUCCESS); by injection E3 as <-.
Qed.

(** A refused connection counts as made when a message is in flight: connect sends it again
    whatever the return code of the CONNACK, and returns the result of that. *)
Theorem cpp_connect_overrides_refusal fuel o rc data timer c w sp k junk b s' :
  bit sp → byte k → readbuf c = connack_packet sp k ++ junk →
  MQTTCLIENT_QOS1 || MQTTCLIENT_QOS2 = true → 0 < inflightMsgid c → pubrel c = false →
  load_bytes (pubbuf c) 0 MAX_MQTT_PACKET_SIZE = Ok b →
  len (sendbuf c) = MAX_MQTT_PACKET_SIZE → len b = MAX_MQTT_PACKET_SIZE →
  publish_len fuel o (inflightLen c) timer (inflightQoS c) (set_sendbuf b c, w) = Ok (rc, s') →
  ('(rc, data) ← connect_ack data; rc ← resend_inflight fuel o rc timer; mret (rc, data)) (c, w) =
    Ok ((rc, ConnackData k (truth sp)), s').
Proof.
  intros Hsp Hk Hr HQ Hid Hp El Hs Hb E. unfold connect_ack.
  rewrite run_assoc, bind_this, Hr.
  rewrite run_assoc, (run_bind _ _ _ _ _ (run_lift _ _ (c, w) (read_connack sp k junk 0 0 _ Hsp Hk))).
  cbn [Z.eqb Pos.eqb]. rewrite run_bind_ret. unfold resend_inflight.
  rewrite run_assoc, bind_this, Hp, !andb_false_r, HQ. ztest.
  rewrite run_assoc, (run_bind _ _ _ _ _ (run_lift _ _ (c, w) El)).
  assert (Es : store_bytes (sendbuf c) 0 b = Ok b).
  { pose proof (store_bytes_app [] (sendbuf c) [] 0 b eq_refl ltac:(lia)) as Es.
    cbn [app] in Es. by rewrite !app_nil_r in Es. }
  rewrite run_assoc, (run_bind _ _ _ _ _ (run_lift _ _ (c, w) Es)), run_assoc, cpp_bind_update.
  by rewrite (run_bind _ _ _ _ _ E).
Qed.

(** A request on a client that is not connected fails and sends nothing. *)
Theorem cpp_not_connected_fails fuel o c w t w1 filter qos set data topic payload n id retained :
  isconnected c = false → TimerInit w = Ok (t, w1) →
  subscribe_with fuel o filter qos set data (c, w) = Ok ((FAILURE, data), (c, w1)) ∧
  unsubscribe fuel o filter (c, w) = Ok (FAILURE, (c, w1)) ∧
  publish_id fuel o topic payload n id qos retained (c, w) = Ok ((FAILURE, id), (c, w1)).
Proof.
  intros Hc E. unfold subscribe_with, unsubscribe, publish_id.
  by rewrite !(cpp_bind_env _ _ _ _ _ _ E), !bind_this, Hc.
Qed.

(** ** Handlers that replace others *)

(** SetMessageHandler with a function, for a filter whose handler is an object, leaves the
    object in the slot: the slot is attached, and its call goes through a member function
    pointer that is now the function's address. The old copy of the filter is not freed. *)
Theorem cpp_function_over_method heap i h b0 obj m func filter c w b w' :
  allocator heap → owned heap (c, w) →
  find_filter (Z.to_nat MAX_MESSAGE_HANDLERS) 0 filter (messageHandlers c) = Ok (Z.of_nat i) →
  Z.of_nat i < MAX_MESSAGE_HANDLERS → messageHandlers c !! i = Some h →
  topicFilter h = Some b0 → fp h = attach_method (Some obj) m FP_new →
  copy_filter filter (c, w) = Ok (b, (c, w')) →
  let fp' := attach_function (Some func) (fp h) in
  let hs := <[i := Slot (Some b) fp']> (messageHandlers c) in
  setMessageHandler filter (Some func) (c, w) = Ok (SUCCESS, (set_messageHandlers hs c, w')) ∧
  attached fp' = true ∧ (∀ md w, FP_call fp' md w = UB WrongFunction) ∧
  b_addr b0 ∈ heap w' ∧ b_addr b0 ∉ addresses hs.
Proof.
  intros Hal [Hnd Hlive] Ef Hi Eh Et Efp Eb. cbv zeta. rewrite Efp. split_and!; [| done | done | |].
  - unfold setMessageHandler. cbn [nonnull]. unfold set_handler. rewrite bind_this.
    rewrite (run_bind _ _ _ _ _ (run_lift _ _ (c, w) Ef)). ztest. cbv zeta.
    change (SUCCESS =? FAILURE) with false. cbv iota. rewrite run_bind_ret. ztest.
    rewrite run_assoc, (run_bind _ _ _ _ _ Eb).
    rewrite run_assoc, (run_bind _ _ _ h (c, w')) by (apply run_lift; by apply arr_get_lookup).
    pose proof (lookup_lt_Some _ _ _ Eh) as Hlt.
    rewrite run_assoc, (run_bind _ _ _
      (<[i := Slot (Some b) (attach_function (Some func) (fp h))]> (messageHandlers c)) (c, w')).
    + rewrite cpp_bind_update, Efp. done.
    + apply run_lift. unfold arr_set. ztests. by rewrite Nat2Z.id.
  - cbn [snd fst] in *. unfold copy_filter in Eb.
    apply run_bind_inv in Eb as (n & s1 & E1 & Eb). apply run_lift_inv in E1 as [_ ->].
    apply run_bind_inv in Eb as (a & s2 & E2 & Eb). apply env_inv in E2 as (w2 & E2 & ->).
    apply run_bind_inv in Eb as (bs & s3 & E3 & Eb). apply run_lift_inv in E3 as [_ ->].
    destruct a as [a|]; [|done]. injection Eb as _ <-.
    destruct (al_malloc heap Hal _ _ _ _ E2) as [_ ->]. apply elem_of_union_r, Hlive.
    destruct (slot_split _ _ _ Eh) as (l1 & l2 & -> & _).
    rewrite addresses_app, addresses_cons, Et, elem_of_app. right. by left.
  - cbn [snd fst] in *. unfold copy_filter in Eb.
    apply run_bind_inv in Eb as (n & s1 & E1 & Eb). apply run_lift_inv in E1 as [_ ->].
    apply run_bind_inv in Eb as (a & s2 & E2 & Eb). apply env_inv in E2 as (w2 & E2 & ->).
    apply run_bind_inv in Eb as (bs & s3 & E3 & Eb). apply run_lift_inv in E3 as [_ ->].
    destruct a as [a|]; [|done]. injection Eb as <- <-.
    destruct (al_malloc heap Hal _ _ _ _ E2) as [Ha _].
    destruct (slot_split _ _ _ Eh) as (l1 & l2 & E1 & E3). rewrite E3. rewrite E1 in Hnd, Hlive.
    rewrite addresses_app, addresses_cons, Et in Hnd, Hlive. cbn [app] in Hnd, Hlive.
    apply NoDup_middle in Hnd as [_ Hn]. rewrite addresses_app, addresses_cons. cbn [topicFilter app b_addr].
    rewrite elem_of_app, elem_of_cons. rewrite elem_of_app in Hn. intros [Hx|[Hx|Hx]]; [tauto| |tauto].
    subst a. apply Ha, Hlive. rewrite elem_of_app, elem_of_cons. auto.
Qed.

End IO.
(** ** The theorems on the simulated platform *)

#[local] Existing Instance x86_64.
#[local] Existing Instance small_config.

Definition cnet (bs : list Z) (accept : Z) : cworld := CWorld (World 0 bs [] accept 0 []) [].

(** A client with these buffers, connected or not, in the middle of a session. *)
Definition a_client (connected : bool) (b rb : list Z) : Client :=
  mkClient b rb 100000 60 0 true 1 (replicate 2 (Slot None FP_new)) FP_new connected
    (replicate 20 0) 0 0 0 false (replicate 3 0).

Definition filled (bs : list Z) : list Z := over bs (replicate 20 0).

Lemma sim_wire : wire (λ w : cworld, 1 ≤ w_accept (cw w)) (λ w, w_out (cw w)).
Proof.
  split.
  - intros t w Hw. by eexists _, _, _.
  - intros t w Hw. by eexists _, _, _.
  - intros b i n ms w Hw Hn Hi Hl. cbn. unfold on_world. cbn. unfold write_sim. cbn [obj off].
    set (k := Z.min n (w_accept (cw w))).
    assert (Hk : 0 < k ≤ n) by (subst k; lia). clearbody k.
    assert (E : load_bytes b i k = Ok (take (Z.to_nat k) (drop (Z.to_nat i) b)))
      by (unfold load_bytes; by ztests).
    rewrite E. eexists _, _. split; [reflexivity|]. cbn. split; [done|]. split; [lia|].
    split; [lia|done].
Qed.

Lemma cpp_sim_stream : ClientIO.stream (λ (w : cworld) bs, w_in (cw w) = bs).
Proof.
  split.
  - intros w bs rest ms Hw Hn. eexists. split.
    + cbn. unfold on_world, mqttread, sim, read_sim. rewrite Hw, take_len_app by done. reflexivity.
    + cbn. by rewrite drop_len_app.
  - intros t w bs Hw. by eexists _, _, _.
  - intros t n w bs Hw. by eexists _, _.
Qed.

(** Three bytes, two at a time. *)
Lemma cpp_sendPacket_sends_witness :
  ∃ m t w', sendPacket 4 3 (cpp_time 1000) (a_client true [7; 8; 9; 1] [], cnet [] 2) =
      Ok ((if m =? 3 then SUCCESS else FAILURE, t), (a_client true [7; 8; 9; 1] [], w')) ∧
    1 ≤ w_accept (cw w') ∧ 0 ≤ m ≤ 3 ∧ w_out (cw w') = take (Z.to_nat m) [7; 8; 9; 1].
Proof.
  apply (cpp_sendPacket_sends _ _ 3 (cpp_time 1000) (a_client true [7; 8; 9; 1] []) (cnet [] 2) sim_wire);
    decide_by_vm.
Defined.

Lemma cpp_readPacket_correct_witness :
  ∃ t w', w_in (cw w') = [5] ∧ ∃ tr,
    readPacket (cpp_time 1000) (a_client true [] (filled []), cnet [48; 2; 1; 2; 5] 9) =
    Ok ((PUBLISH, t), (received [48; 2; 1; 2] tr (a_client true [] (filled [])), w')).
Proof.
  destruct (cpp_readPacket_correct (λ (w : cworld) bs, w_in (cw w) = bs) 48 [1; 2] [5]
    (cpp_time 1000) (a_client true [] (filled [])) (cnet [48; 2; 1; 2; 5] 9) cpp_sim_stream)
    as (t & w' & E); [decide_by_vm..|reflexivity|].
  exists t, w'. exact E.
Defined.

(** The header announces two bytes and the connection ends. *)
Lemma cpp_readPacket_cut_body_witness :
  ∃ t c' w', readPacket (cpp_time 1000) (a_client true [] (filled []), cnet [48; 2] 9) = Ok ((1, t), (c', w')).
Proof.
  apply (cpp_readPacket_cut_body (λ (w : cworld) bs, w_in (cw w) = bs) 48 2 (cpp_time 1000)
    (a_client true [] (filled [])) (cnet [48; 2] 9) cpp_sim_stream); [decide_by_vm..|reflexivity|
    decide_by_vm|reflexivity|].
  intros ms w' Hw. eexists 0, [], _. split; [|decide_by_vm].
  cbn. unfold on_world, mqttread, sim, read_sim. by rewrite Hw.
Defined.

(** The session is closed, and yield returns SUCCESS. *)
Example yield_cut_body :
  result (λ rc s, (rc, isconnected (fst s)))
    (yield 20 ClientIO.no_locals 5 (a_client true (filled []) (filled []), cnet [48; 2] 9)) =
  Some (SUCCESS, false).
Proof. vm_compute. reflexivity. Qed.

Definition an_exact_message : MQTTMessage := Message 2 0 0 7 None 0.
Definition a_topic : MQTTString := {| cstring := None; lenstring := {| ls_len := 1; ls_data := Some (Ptr [97] 0) |} |}.

(** A duplicate. *)
Lemma cpp_receive_qos2_witness :
  let c := set_incomingQoS2messages (7 :: replicate 2 0) (a_client true [] []) in
  receive_message a_topic an_exact_message (c, cnet [] 9) = Ok (tt, (c, cnet [] 9)).
Proof.
  cbv zeta. refine (eq_trans (cpp_receive_qos2 a_topic an_exact_message
    (set_incomingQoS2messages (7 :: replicate 2 0) (a_client true [] [])) (cnet [] 9)
    eq_refl eq_refl _ _) _); [|done|reflexivity].
  split; [reflexivity|]. cbn. decide_by_vm.
Defined.

(** A client with an object on "a" whose table holds the identifier 23. *)
Definition listening_client (ids : list Z) (p : Wire.publish) : Client :=
  set_incomingQoS2messages ids (set_messageHandlers
    [Slot (Some (Block 1 (c_string [97]))) (attach_method (Some (app_object 3)) messageHandler_ FP_new);
     Slot None FP_new] (a_client true (filled []) (publish_packet p ++ [1]))).
Definition listening_slots : list (option (list Z * FP)) :=
  [Some ([97], attach_method (Some (app_object 3)) messageHandler_ FP_new); None].

Lemma listening_holds ids p : Forall2 cpp_holds (messageHandlers (listening_client ids p)) listening_slots.
Proof.
  constructor; [|by repeat constructor]. eexists. split; [done|]. split; [|done].
  apply c_string_cstr; decide_by_vm.
Qed.

(** A message of QoS 2 with the identifier [id] on "a". *)
Definition exact_publish (id : Z) : Wire.publish := Publish 0 2 0 id [97] [5].

(** It is new, and so the object is called and the identifier stored. *)
Lemma cpp_cycle_publish_answers_witness :
  let c := listening_client [23; 0; 0] (exact_publish 7) in
  ∃ t msg ids, ClientIO.carries (exact_publish 7) t msg ∧ msgids ids = {[7; 23]} ∧
    cycle_publish 9 ClientIO.no_locals (cpp_time 1000) (c, cnet [] 9) =
      (env (call_method (app_object 3) messageHandler_ (NewMessageData t msg) ;; mret tt) ;;
       update (acknowledging PUBREC 7) ;;
       '(rc, _) ← sendPacket 9 4 (cpp_time 1000); mret (rc =? FAILURE, rc))
        (set_incomingQoS2messages ids c, cnet [] 9).
Proof.
  destruct (cpp_cycle_publish_answers (exact_publish 7) [1] 9 ClientIO.no_locals (cpp_time 1000)
    (listening_client [23; 0; 0] (exact_publish 7)) (cnet [] 9) listening_slots)
    as (t & msg & ids & Hc & Hi & Em & E).
  - split; first [unfold bit; cbn; tauto|decide_by_vm|split; decide_by_vm].
  - reflexivity.
  - split; decide_by_vm.
  - apply listening_holds.
  - reflexivity.
  - split; [reflexivity|decide_by_vm].
  - done.
  - exists t, msg, ids. split; [exact Hc|]. split; [|exact E].
    rewrite Em. apply set_eq. intros x. vm_compute remembered. set_solver.
Defined.

(** A second copy of a message is answered and not delivered. *)
Example duplicate_not_delivered :
  result (λ r s, (r, w_calls (cw (snd s)), w_out (cw (snd s))))
    (cycle_publish 9 ClientIO.no_locals (cpp_time 1000)
       (listening_client [7; 0; 0] (exact_publish 7), cnet [] 9)) =
  Some ((false, SUCCESS), [], [80; 2; 0; 7]).
Proof. vm_compute. reflexivity. Qed.

(** An UNSUBACK on an open session. *)
Lemma cpp_cycle_result_witness :
  ∃ t s', cycle 9 ClientIO.no_locals (cpp_time 1000) (a_client true [] (filled []), cnet [176; 2; 0; 1] 9) =
    Ok ((UNSUBACK, t), s') ∧ isconnected (fst s') = false.
Proof.
  assert (N : ¬ handled UNSUBACK).
  { intros [E|[_ E]]; revert E; [|]; apply (bool_decide_unpack (_ ∉ _)); vm_compute; exact I. }
  destruct (run_result (λ r _, fst r) (cycle 9 ClientIO.no_locals (cpp_time 1000)
    (a_client true [] (filled []), cnet [176; 2; 0; 1] 9)) UNSUBACK)
    as ([rc t] & s' & E & Erc); [vm_compute; reflexivity|]. cbn [fst] in Erc. subst rc.
  exists t, s'. split; [done|].
  destruct (cpp_cycle_result 9 ClientIO.no_locals (cpp_time 1000) _ UNSUBACK t s' E) as [Hh|Hd];
    [by destruct (N Hh)|exact Hd].
Defined.

Lemma cpp_unsubscribe_disconnects_witness :
  ∃ s', unsubscribe 20 ClientIO.no_locals (Some (c_string [97]))
      (a_client true (filled []) (filled []), cnet [176; 2; 0; 1] 100) = Ok (SUCCESS, s') ∧
    isconnected (fst s') = false.
Proof.
  destruct (run_result (λ r _, r) (unsubscribe 20 ClientIO.no_locals (Some (c_string [97]))
    (a_client true (filled []) (filled []), cnet [176; 2; 0; 1] 100)) SUCCESS)
    as (r & s' & E & ->); [vm_compute; reflexivity|].
  exists s'. split; [exact E|]. exact (cpp_unsubscribe_disconnects 20 _ _ _ s' E).
Defined.

Lemma cpp_connect_result_witness :
  ∃ d s', connect_data 20 ClientIO.no_locals MQTTPacket_connectData_initializer (ConnackData 9 true)
      (a_client false (filled []) (filled []), cnet [32; 2; 0; 0] 100) = Ok ((SUCCESS, d), s') ∧
    isconnected (fst s') = true.
Proof.
  destruct (run_result (λ r _, fst r) (connect_data 20 ClientIO.no_locals
    MQTTPacket_connectData_initializer (ConnackData 9 true)
    (a_client false (filled []) (filled []), cnet [32; 2; 0; 0] 100)) SUCCESS)
    as ([rc d] & s' & E & Erc); [vm_compute; reflexivity|]. cbn [fst] in Erc. subst rc.
  exists d, s'. split; [exact E|].
  apply (cpp_connect_result 20 ClientIO.no_locals MQTTPacket_connectData_initializer
    (ConnackData 9 true) (a_client false (filled []) (filled [])) (cnet [32; 2; 0; 0] 100) SUCCESS d s');
    [decide_by_vm..|reflexivity|exact E].
Defined.

(** A client with a PUBLISH of four bytes in flight, QoS 1, identifier 7. *)
Definition in_flight (rb : list Z) : Client :=
  mkClient (filled []) rb 100000 60 0 false 7 (replicate 2 (Slot None FP_new)) FP_new false
    (filled [50; 2; 0; 7]) 4 7 1 false (replicate 3 0).

(** The broker refuses the connection with return code 5 and then sends a PUBACK. *)
Lemma cpp_connect_overrides_refusal_witness :
  ∃ s', ('(rc, data) ← connect_ack (ConnackData 0 false);
         rc ← resend_inflight 20 ClientIO.no_locals rc (cpp_time 5000); mret (rc, data))
      (in_flight (filled [32; 2; 0; 5]), cnet [64; 2; 0; 7] 100) =
    Ok ((SUCCESS, ConnackData 5 false), s').
Proof.
  destruct (run_result (λ r _, r) (publish_len 20 ClientIO.no_locals 4 (cpp_time 5000) 1
    (set_sendbuf (filled [50; 2; 0; 7]) (in_flight (filled [32; 2; 0; 5])), cnet [64; 2; 0; 7] 100))
    SUCCESS) as (rc & s' & E & ->); [vm_compute; reflexivity|].
  exists s'. apply (cpp_connect_overrides_refusal 20 ClientIO.no_locals SUCCESS (ConnackData 0 false)
    (cpp_time 5000) (in_flight (filled [32; 2; 0; 5])) (cnet [64; 2; 0; 7] 100) 0 5 (replicate 16 0)
    (filled [50; 2; 0; 7])); [decide_by_vm|decide_by_vm|reflexivity|reflexivity|decide_by_vm|
    reflexivity|reflexivity|reflexivity|reflexivity|exact E].
Defined.

(** connect as a whole on such a connection. *)
Example connect_refused_connected :
  result (λ r s, (r, isconnected (fst s))) (connect_data 20 ClientIO.no_locals
    (Connect.set_cleansession 0 MQTTPacket_connectData_initializer) (ConnackData 0 false)
    (in_flight (filled []), cnet [32; 2; 0; 5; 64; 2; 0; 7] 100)) =
  Some ((SUCCESS, ConnackData 5 false), true).
Proof. vm_compute. reflexivity. Qed.

(** An object's handler for the filter "a" in the first slot. *)
Definition a_slot : MessageHandlers :=
  Slot (Some (Block 1 (c_string [97]))) (attach_method (Some (app_object 3)) messageHandler_ FP_new).
Definition with_object : Client :=
  set_messageHandlers (a_slot :: replicate 1 (Slot None FP_new)) (a_client true [] []).

Lemma cpp_function_over_method_witness :
  ∃ w', setMessageHandler (Some (c_string [97])) (Some (app_function 4))
      (with_object, CWorld (ClientIO.net []) [1]) =
    Ok (SUCCESS, (set_messageHandlers
      (<[0%nat := Slot (Some (Block 2 (c_string [97]))) (attach_function (Some (app_function 4)) (fp a_slot))]>
         (messageHandlers with_object)) with_object, w')) ∧
    (∀ md w, FP_call (attach_function (Some (app_function 4)) (fp a_slot)) md w = UB WrongFunction).
Proof.
  destruct (cpp_function_over_method heap_sim 0 a_slot (Block 1 (c_string [97])) (app_object 3)
    messageHandler_ (app_function 4) (Some (c_string [97])) with_object (CWorld (ClientIO.net []) [1])
    (Block 2 (c_string [97])) (CWorld (ClientIO.net []) [2; 1]) sim_allocator) as (E & _ & U & _);
    try reflexivity.
  - split; [decide_by_vm|]. intros a Ha. revert Ha. vm_compute addresses. 
    rewrite list_elem_of_singleton. intros ->. decide_by_vm.
  - eexists. split; [exact E|exact U].
Defined.

End CppClientIO.
