(* ===== verification/CppLive.v ===== *)
(** * A session of the C++ client that succeeds

    The client of MQTTClient.h over a platform that serves it (the interface [Serving] of
    ClientLive.v, and new timers), while its timers have not run out: it connects, sends again a message that an earlier session
    left in flight, publishes any list of messages of any QoS and disconnects. *)

From S2P Require Import Prelude CSem Wire Packet Connect Publish Subscribe Stream Topics Platform.
From S2P Require Import ClientIO ClientLive CppClient CppClientIO.

Module CppLive.
Import ClientIO ClientLive CppClient CppClientIO.

(** ** The dialogue

    What the broker answers to a message, and what it is sent for the answer. *)
Definition answers (qos id : Z) : list Z :=
  if qos =? 1 then ack_packet PUBACK 0 id
  else if qos =? 2 then ack_packet PUBREC 0 id ++ ack_packet PUBCOMP 0 id else [].
Definition release (qos id : Z) : list Z := if qos =? 2 then ack_packet PUBREL 0 id else [].

Lemma replies_answers n r :
  rq_qos r = 0 ∨ rq_qos r = 1 ∨ rq_qos r = 2 → replies n r = answers (rq_qos r) (pb_id (publish_of n r)).
Proof. unfold replies, answers. cbn [pb_id publish_of]. by intros [-> | [-> | ->]]. Qed.

Lemma sends_release n r :
  rq_qos r = 0 ∨ rq_qos r = 1 ∨ rq_qos r = 2 →
  sends n r = publish_packet (publish_of n r) ++ release (rq_qos r) (pb_id (publish_of n r)).
Proof. unfold sends, release. cbn [pb_id publish_of]. by intros [-> | [-> | ->]]. Qed.

Section Live.
Context `{CImpl} `{Config} {W : Type} `{CppPlatform W}.
#[local] Abbreviation C A := (M (Client * W) A).
#[local] Abbreviation P := MAX_MQTT_PACKET_SIZE.
Context {lim : Z} {pc : pace} (HP : 5 ≤ P ≤ INT_MAX) (Hlim : P ≤ lim).
Context (st : W → list Z → list Z → Prop) `{!Serving lim pc st}.

(** ** What stays

    Everything of the object but the bytes in its two buffers and its timer. *)
Definition core (c : Client) :=
  (keepAliveInterval c, ping_outstanding c, cleansession c, packetid c, messageHandlers c,
   defaultMessageHandler c, isconnected c, length (sendbuf c), length (readbuf c),
   (pubbuf c, inflightLen c, inflightMsgid c, inflightQoS c, pubrel c, incomingQoS2messages c)).

(** The timer that keepalive looks at runs. *)
Definition hearing (pc : pace) (c : Client) : Prop :=
  keepAliveInterval c ≠ 0 → long pc (1000 * receive_interval c) ∧ running pc (last_received c).

Lemma hearing_same c c' :
  keepAliveInterval c' = keepAliveInterval c → last_received c' = last_received c → hearing pc c → hearing pc c'.
Proof. intros E1 E2 Hc. unfold hearing, receive_interval. by rewrite E1, E2. Qed.

(** The buffers are arrays of the packet size. *)
Record sized (c : Client) : Prop :=
  { sz_sendbuf : len (sendbuf c) = P; sz_readbuf : len (readbuf c) = P; sz_pubbuf : len (pubbuf c) = P }.

Lemma cpp_sized_core c c' : core c' = core c → sized c → sized c'.
Proof. intros [=] []. split; congruence. Qed.

Lemma cpp_core_over bs c : (length bs ≤ length (sendbuf c))%nat → core (set_sendbuf (over bs (sendbuf c)) c) = core c.
Proof. intros L. unfold core. cbn. by rewrite over_length. Qed.

Lemma cpp_core_received bs t c : (length bs ≤ length (readbuf c))%nat → core (received bs t c) = core c.
Proof. intros L. unfold core, received. destruct (_ <? _); cbn; by rewrite over_length. Qed.

Lemma cpp_readbuf_received bs t c : readbuf (received bs t c) = over bs (readbuf c).
Proof. unfold received. by destruct (_ <? _). Qed.

Lemma cpp_total_env {A B} (m : M W A) (f : A → C B) c w R Q :
  total m w R → (∀ a w', R a w' → total (f a) (c, w') Q) → total (env m ≫= f) (c, w) Q.
Proof.
  intros (a & w' & E & HR) HQ. destruct (HQ a w' HR) as (b & s & E' & Hs). exists b, s.
  by rewrite (cpp_bind_env _ _ _ _ _ _ E).
Qed.

Lemma total_this {B} (f : Client → C B) c w Q : total (f c) (c, w) Q → total (this ≫= f) (c, w) Q.
Proof. done. Qed.

Lemma total_update {B} g (f : unit → C B) c w Q :
  total (f tt) (g c, w) Q → total (update g ≫= f) (c, w) Q.
Proof. done. Qed.

(** ** Sending and receiving *)

(** The packet at the front of sendbuf is sent. *)
Lemma cpp_send_total fuel x timer c w bs l :
  x ≠ [] → (2 ≤ fuel)%nat → sized c → load_bytes (sendbuf c) 0 (len x) = Ok x → st w bs l →
  running pc timer →
  total (sendPacket fuel (len x) timer) (c, w)
    (λ r s, r.1 = SUCCESS ∧ running pc r.2 ∧ s.1 = c ∧ st s.2 bs (l ++ x)).
Proof.
  intros Hx Hf Hs Hl Hw Ht. destruct fuel as [|[|n]]; [lia..|]. pose proof (len_pos x Hx) as Hn.
  assert (len x ≤ P).
  { destruct (load_bytes_inv _ _ _ _ Hl) as (_ & _ & _ & tl & Et); [lia|]. pose proof (sz_sendbuf c Hs).
    apply (f_equal length) in Et. rewrite length_drop, length_app in Et. lia. }
  unfold sendPacket. cbn [sendPacket_loop]. destruct (Z.ltb_spec 0 (len x)); [|lia].
  unfold total. rewrite !run_assoc.
  eapply cpp_total_env; [by apply sv_expired|]. intros [e t] w1 (He & Ht1 & A1). cbn in He, Ht1. subst e.
  unfold total. rewrite run_assoc.
  eapply cpp_total_env; [by apply sv_left|]. intros [ms t'] w2 (Hm & Ht2 & A2). cbn in Hm, Ht2. rewrite Z.sub_0_r.
  unfold total. rewrite run_assoc, bind_this, run_assoc.
  eapply cpp_total_env; [apply (sv_write (lim := lim) w2 bs l (Ptr (sendbuf c) 0) (len x) x ms A2); [lia|done|exact Hl|exact Hm]|].
  intros r w3 [-> A3]. destruct (Z.ltb_spec (len x) 0); [lia|].
  unfold total. rewrite run_assoc, (run_bind _ _ _ (len x) (c, w3))
    by (apply run_lift; rewrite iadd_Ok by (unfold INT_MIN; lia); f_equal; lia).
  rewrite Z.ltb_irrefl, run_bind_ret, Z.eqb_refl. by eexists _, _.
Qed.

Lemma cpp_send_over fuel x timer c w bs l :
  x ≠ [] → (2 ≤ fuel)%nat → len x ≤ P → sized c → st w bs l → running pc timer →
  total (sendPacket fuel (len x) timer) (set_sendbuf (over x (sendbuf c)) c, w)
    (λ r s, r.1 = SUCCESS ∧ running pc r.2 ∧ core s.1 = core c ∧ (hearing pc c → hearing pc s.1) ∧
       readbuf s.1 = readbuf c ∧ st s.2 bs (l ++ x)).
Proof.
  intros Hx Hf Hl Hs Hw Ht. pose proof (sz_sendbuf c Hs) as Es.
  eapply total_weaken; [eapply (cpp_send_total fuel x); [done|done| | |exact Hw|exact Ht]|].
  - by eapply cpp_sized_core; [apply cpp_core_over; lia|].
  - cbn [sendbuf set_sendbuf]. by apply (load_bytes_app [] x).
  - intros r [c' w'] (Hr & Hrt & -> & Hw'). cbn [fst snd]. split; [done|]. split; [done|].
    split; [apply cpp_core_over; lia|]. split; [by apply hearing_same|done].
Qed.

Lemma cpp_read_total h body rest timer c w l :
  byte h → len body ≤ MAX_REMAINING → len (packet h body) ≤ P → sized c →
  st w (packet h body ++ rest) l → running pc timer → hearing pc c →
  total (readPacket timer) (c, w) (λ r s, r.1 = header_type h ∧ running pc r.2 ∧ hearing pc s.1 ∧
    core s.1 = core c ∧ readbuf s.1 = over (packet h body) (readbuf c) ∧ st s.2 rest l).
Proof.
  intros Hh Hl Hfit Hs Hw Ht Hk. pose proof (sz_readbuf c Hs) as Er.
  destruct (cpp_readPacket_fits _ _ h body rest timer c w (st_paced st l) Ht Hh Hl)
    as (t & tr & w' & E & Hw' & Ht' & Htr); [lia|done|done|done|].
  eexists _, _. split; [exact E|]. cbn [fst snd]. split; [done|]. split; [done|].
  split; [|split; [apply cpp_core_received; lia|split; [apply cpp_readbuf_received|done]]].
  unfold hearing, received, receive_interval in *. destruct (Z.ltb_spec 0 (keepAliveInterval c)); cbn; intros K;
    destruct (Hk K) as [HL HR]; [|done]. split; [done|]. by apply Htr.
Qed.

Lemma cpp_keepalive_total fuel c w bs l :
  st w bs l → hearing pc c →
  total (keepalive fuel) (c, w) (λ k s, k = SUCCESS ∧ hearing pc s.1 ∧ core s.1 = core c ∧
    readbuf s.1 = readbuf c ∧ st s.2 bs l).
Proof.
  intros Hw Hk. unfold keepalive. apply total_this.
  destruct (Z.eqb_spec (keepAliveInterval c) 0) as [|K]; [by eexists _, _|]. destruct (Hk K) as [HL HR].
  eapply cpp_total_env; [by apply sv_expired|]. intros [e t] w1 (He & Ht & A1). cbn in He. subst e.
  by eexists _, _.
Qed.

End Live.

(** ** Rounds of the protocol *)

(** What a round leaves when it has read [bs] and written [x]. *)
Definition after_round `{CImpl} `{Config} {W : Type} `{CppPlatform W} (pc : pace)
    (st : W → list Z → list Z → Prop) (c : Client) (bs rest l x : list Z) (s : Client * W) : Prop :=
  core s.1 = core c ∧ hearing pc s.1 ∧ (∃ junk, readbuf s.1 = bs ++ junk) ∧ st s.2 rest (l ++ x).

(** A round from [st] to [st']: they may differ in what the handlers have done. *)
Section Round.
Context `{CImpl} `{Config} {W : Type} `{CppPlatform W} (o : publish_out).
#[local] Abbreviation P := MAX_MQTT_PACKET_SIZE.
Context {lim : Z} {pc : pace} (HP : 5 ≤ P ≤ INT_MAX) (Hlim : P ≤ lim).
Context (st : W → list Z → list Z → Prop) `{!Serving lim pc st}.
Context (st' : W → list Z → list Z → Prop) `{!Serving lim pc st'}.
Context (Hinit : ∀ w bs l, st w bs l → total TimerInit w (λ t w', running pc t ∧ st w' bs l)).

(** What the round makes of the object, up to its buffers and its timer. *)
Context (K : Client → Prop) (HK : ∀ c c', core c' = core c → K c → K c').

Lemma cpp_cycle_total fuel timer h body rest x c w l :
  byte h → len body ≤ MAX_REMAINING → len (packet h body) ≤ P → sized c →
  st w (packet h body ++ rest) l → running pc timer → hearing pc c →
  (∀ t c1 w1, core c1 = core c → hearing pc c1 → running pc t →
     readbuf c1 = over (packet h body) (readbuf c) → st w1 rest l →
     total (cycle_switch fuel o (header_type h) t) (c1, w1) (λ r s, r = (false, SUCCESS) ∧
       hearing pc s.1 ∧ K s.1 ∧ readbuf s.1 = readbuf c1 ∧ st' s.2 rest (l ++ x))) →
  total (cycle fuel o timer) (c, w)
    (λ r s, r.1 = header_type h ∧ running pc r.2 ∧ K s.1 ∧ hearing pc s.1 ∧
       (∃ junk, readbuf s.1 = packet h body ++ junk) ∧ st' s.2 rest (l ++ x)).
Proof.
  intros Hh Hl Hfit Hs Hw Htm Hk Hsw. unfold cycle.
  eapply cpp_total_env; [by apply Hinit|]. intros st0 w0 [Ht0 A0]. cbn beta in A0.
  eapply total_bind; [by apply (cpp_read_total HP st)|].
  intros [pt t] [c1 w1] (Ept & Ht1 & Hk1 & Ec & Er & A1).
  cbn [fst snd] in *. subst pt.
  eapply total_bind; [by apply Hsw|].
  intros [to_exit rc] [c2 w2] (E0 & Hk2 & Ec2 & Er2 & A2). cbn [fst snd] in *. injection E0 as -> ->.
  eapply total_bind.
  { eapply total_bind; [by apply (cpp_keepalive_total st' fuel c2 w2)|]. intros k s Hq.
    apply (total_ret _ _ (λ a s, a = SUCCESS ∧ hearing pc s.1 ∧ core s.1 = core c2 ∧
      readbuf s.1 = readbuf c2 ∧ st' s.2 rest (l ++ x))).
    destruct Hq as (-> & Hq). by split. }
  intros rc [c3 w3] (-> & Hk3 & Ec3 & Er3 & A3). cbn [fst snd] in *. change (SUCCESS =? SUCCESS) with true.
  apply total_ret. cbn [fst snd]. split; [done|]. split; [done|]. split; [by apply (HK c2)|].
  split; [done|]. split; [|done].
  exists (drop (length (packet h body)) (readbuf c)). rewrite Er3, Er2, Er. done.
Qed.

End Round.

Section Live.
Context `{CImpl} `{Config} {W : Type} `{CppPlatform W} (o : publish_out).
#[local] Abbreviation C A := (M (Client * W) A).
#[local] Abbreviation P := MAX_MQTT_PACKET_SIZE.
Context (HQ1 : MQTTCLIENT_QOS1 = true) (HQ2 : MQTTCLIENT_QOS2 = true).
Context {lim : Z} {pc : pace} (HP : 5 ≤ P ≤ INT_MAX) (Hlim : P ≤ lim).
Context (st : W → list Z → list Z → Prop) `{!Serving lim pc st}.

(** A timer made by its default constructor runs, as the Countdown of arduino/Countdown.h does,
    which is set to ten seconds, and so does one made with a wait that is long enough. The client
    gives its requests timers of the first kind. *)
Context (Hinit : ∀ w bs l, st w bs l → total TimerInit w (λ t w', running pc t ∧ st w' bs l)).
Context (Hnew : ∀ n w bs l, st w bs l →
  total (Timer_ms n) w (λ t w', (long pc n → running pc t) ∧ st w' bs l)).

(** A packet that only wakes the caller. *)
Lemma cpp_cycle_ack fuel timer type body rest c w l :
  type = CONNACK ∨ type = PUBACK ∨ type = PUBCOMP →
  len body ≤ 2 → sized c → st w (packet (fixed_header type 0 0 0) body ++ rest) l →
  running pc timer → hearing pc c →
  total (cycle fuel o timer) (c, w)
    (λ r s, r.1 = type ∧ running pc r.2 ∧ after_round pc st c (packet (fixed_header type 0 0 0) body) rest l [] s).
Proof.
  intros Ht Hb Hs Hw Htm Hk.
  assert (Et : header_type (fixed_header type 0 0 0) = type) by (by destruct Ht as [->|[->| ->]]).
  assert (Hlen : len (packet (fixed_header type 0 0 0) body) ≤ 4).
  { rewrite packet_len, varint_len by lia. ztest; lia. }
  eapply total_weaken;
    [eapply (cpp_cycle_total o HP st st Hinit (λ c', core c' = core c) ltac:(congruence) fuel timer
       (fixed_header type 0 0 0) body rest [] c); try exact Hw; try exact Hs; try done
    |intros r s; by rewrite Et].
  - apply fixed_header_byte.
  - unfold MAX_REMAINING. lia.
  - lia.
  - intros t c1 w1 Ec Hk1 Ht1 Er A1. rewrite Et. unfold total. rewrite app_nil_r.
    exists (false, SUCCESS), (c1, w1). split; [|done].
    unfold cycle_switch. rewrite HQ2. by destruct Ht as [->|[->| ->]].
Qed.

(** A PUBREC is answered by a PUBREL. *)
Lemma cycle_pubrec fuel timer id rest c w l :
  0 ≤ id < 65536 → (2 ≤ fuel)%nat → sized c → st w (ack_packet PUBREC 0 id ++ rest) l →
  running pc timer → hearing pc c →
  total (cycle fuel o timer) (c, w)
    (λ r s, r.1 = PUBREC ∧ running pc r.2 ∧ after_round pc st c (ack_packet PUBREC 0 id) rest l (ack_packet PUBREL 0 id) s).
Proof.
  intros Hid Hf Hs Hw Htm Hk.
  assert (El : ∀ ty, len (ack_packet ty 0 id) = 4) by done.
  eapply (cpp_cycle_total o HP st st Hinit (λ c', core c' = core c) ltac:(congruence) fuel timer
    (fixed_header PUBREC 0 0 0) (int16 id) rest (ack_packet PUBREL 0 id) c w l).
  - apply fixed_header_byte.
  - done.
  - change (len (ack_packet PUBREC 0 id) ≤ P). rewrite El. lia.
  - done.
  - exact Hw.
  - done.
  - done.
  - intros t c1 w1 Ec Hk1 Ht1 Er A1. change (header_type _) with PUBREC.
    assert (Hs1 : sized c1) by (by eapply cpp_sized_core).
    assert (Esw : cycle_switch fuel o PUBREC t = cycle_pubrec_pubrel fuel PUBREC (p_packetid o) t)
      by (unfold cycle_switch; by rewrite HQ2).
    rewrite Esw. unfold cycle_pubrec_pubrel. apply total_this.
    rewrite Er. change (over _ (readbuf c)) with (ack_packet PUBREC 0 id ++ drop 4 (readbuf c)).
    eapply total_lift; [by apply (read_ack PUBREC 0 id); [|left|]|].
    cbn beta iota. change (negb (1 =? 1)) with false. cbv iota. change (PUBREC =? PUBREC) with true.
    eapply total_run; [apply on_sendbuf_ack; [lia|rewrite (sz_sendbuf c1 Hs1); lia]|].
    change (4 <=? 0) with false. cbv iota. unfold acknowledging.
    eapply total_bind; [apply (cpp_send_over HP Hlim st fuel (ack_packet PUBREL 0 id) t c1 w1 rest l); try done;
      rewrite El; lia|].
    intros [rc t2] s (Hr & Ht2 & Hc & Hk2 & Hb & Hst). cbn [fst] in Hr. subst rc. apply total_ret.
    split; [done|]. split; [by apply Hk2|]. split; [congruence|]. by rewrite Hb, Er.
Qed.

(** ** Waiting *)

Lemma cpp_wait_step n fuel type rc timer c w bs l (Q : Z * Timer → Client * W → Prop) R :
  st w bs l → running pc timer →
  (∀ t w', st w' bs l → running pc t → total (cycle fuel o t) (c, w') R) →
  (∀ r t s, R (r, t) s →
     if negb (r =? type) && (0 <=? r) then total (waitfor_loop n fuel o type r t) s Q else Q (r, t) s) →
  total (waitfor_loop (S n) fuel o type rc timer) (c, w) Q.
Proof.
  intros Hw Ht HR HQ. cbn [waitfor_loop]. eapply cpp_total_env; [by apply sv_expired|].
  intros [e t] w1 (He & Ht1 & A1). cbn in He. subst e.
  eapply total_bind; [by apply HR|]. intros [r t'] s Hr. specialize (HQ r t' s Hr).
  destruct (_ && _); [done|by apply total_ret].
Qed.

Lemma cpp_wait_ack fuel timer type body rest c w l :
  type = CONNACK ∨ type = PUBACK ∨ type = PUBCOMP → (1 ≤ fuel)%nat →
  len body ≤ 2 → sized c → st w (packet (fixed_header type 0 0 0) body ++ rest) l →
  running pc timer → hearing pc c →
  total (waitfor fuel o type timer) (c, w)
    (λ r s, r.1 = type ∧ running pc r.2 ∧ after_round pc st c (packet (fixed_header type 0 0 0) body) rest l [] s).
Proof.
  intros Ht Hf Hb Hs Hw Htm Hk. unfold waitfor. destruct fuel as [|n]; [lia|].
  eapply cpp_wait_step; [exact Hw|done|intros t w' A At; by apply cpp_cycle_ack|].
  intros r t s [Hr Ha]. cbn [fst] in Hr. subst r. by rewrite Z.eqb_refl.
Qed.

(** The handshake of QoS 2. *)
Lemma cpp_wait_pubcomp fuel timer id rest c w l :
  0 ≤ id < 65536 → (2 ≤ fuel)%nat → sized c →
  st w (ack_packet PUBREC 0 id ++ ack_packet PUBCOMP 0 id ++ rest) l →
  running pc timer → hearing pc c →
  total (waitfor fuel o PUBCOMP timer) (c, w)
    (λ r s, r.1 = PUBCOMP ∧ running pc r.2 ∧ after_round pc st c (ack_packet PUBCOMP 0 id) rest l (ack_packet PUBREL 0 id) s).
Proof.
  intros Hid Hf Hs Hw Htm Hk. unfold waitfor. destruct fuel as [|[|n]]; [lia..|].
  eapply cpp_wait_step; [exact Hw|done|intros t w' A At; by eapply (cycle_pubrec _ t id)|].
  intros r t [c1 w1] (Hr & Ht1 & Hc & Hk1 & _ & A1). cbn [fst snd] in *. subst r.
  change (negb (PUBREC =? PUBCOMP) && (0 <=? PUBREC)) with true. cbv iota.
  eapply cpp_wait_step; [exact A1|done| |].
  - intros t' w' A At. apply (cpp_cycle_ack (S (S n)) t' PUBCOMP (int16 id) rest c1 w'); try done; [by do 2 right|].
    by eapply cpp_sized_core.
  - intros r t' [c2 w2] (Hr & Ht2 & Hc2 & Hk2 & Hj & A2). cbn [fst snd] in *. subst r. rewrite Z.eqb_refl.
    cbn [negb andb]. unfold after_round in *. cbn [fst snd] in *. split; [done|]. split; [done|].
    split; [congruence|]. split; [done|]. split; [done|]. by rewrite app_nil_r in A2.
Qed.

(** ** A message and its acknowledgement *)

(** The acknowledgement of the message in flight. *)
Definition settle (id : Z) (c : Client) : Client :=
  if inflightMsgid c =? id then set_inflightMsgid 0 c else c.

Lemma settle_core id c c' : core c' = core c → core (settle id c') = core (settle id c).
Proof.
  intros E. injection E as. unfold settle, core.
  destruct (inflightMsgid c' =? id) eqn:E1, (inflightMsgid c =? id) eqn:E2; cbn; congruence.
Qed.

(** An acknowledgement that is waited for. *)
Lemma cpp_acked fuel ty id rc timer c w rest l x :
  0 ≤ ty < 16 → 0 ≤ id < 65536 →
  total (waitfor fuel o ty timer) (c, w)
    (λ r s, r.1 = ty ∧ running pc r.2 ∧ after_round pc st c (ack_packet ty 0 id) rest l x s) →
  total (publish_wait fuel o ty rc timer) (c, w)
    (λ a s, a = rc ∧ core s.1 = core (settle id c) ∧ hearing pc s.1 ∧ st s.2 rest (l ++ x)).
Proof.
  intros Ht Hi Hwait. unfold publish_wait. eapply total_bind; [exact Hwait|].
  intros [r t] [c1 w1] (Hr & _ & Hc & Hk & [junk Hj] & A1). cbn [fst snd] in *. subst r. rewrite Z.eqb_refl.
  apply total_this. rewrite Hj.
  eapply total_lift; [by apply (read_ack ty 0 id); [|left|]|]. cbn beta iota.
  change (negb (1 =? 1)) with false. cbv iota.
  eapply (total_bind _ _ _ _ (λ _ s, core s.1 = core (settle id c) ∧ hearing pc s.1 ∧ st s.2 rest (l ++ x)));
    [|intros u s Hq; by apply total_ret].
  rewrite <- (settle_core id c c1 Hc). unfold settle.
  destruct (inflightMsgid c1 =? id); by eexists _, _.
Qed.

(** The private publish: the packet at the front of sendbuf is sent, and answered. *)
Lemma publish_len_total fuel q id x timer c w rest l :
  q = 0 ∨ q = 1 ∨ q = 2 → 0 ≤ id < 65536 → x ≠ [] → (2 ≤ fuel)%nat → sized c →
  load_bytes (sendbuf c) 0 (len x) = Ok x → st w (answers q id ++ rest) l →
  running pc timer → hearing pc c →
  total (publish_len fuel o (len x) timer q) (c, w)
    (λ a s, a = SUCCESS ∧ core s.1 = core (if q =? 0 then c else settle id c) ∧ hearing pc s.1 ∧
       st s.2 rest (l ++ x ++ release q id)).
Proof.
  intros Hq Hid Hx Hf Hs Hl Hw Htm Hk. unfold publish_len.
  eapply total_bind; [by apply (cpp_send_total HP Hlim st fuel x timer c w (answers q id ++ rest) l)|].
  intros [rc t] [c1 w1] (E & Ht & Ec & A1). cbn [fst snd] in *. subst rc c1.
  change (negb (SUCCESS =? SUCCESS)) with false. cbv iota. rewrite HQ1, HQ2. cbn [andb].
  unfold answers, release in *. rewrite app_assoc.
  destruct Hq as [-> | [-> | ->]]; cbn [Z.eqb Pos.eqb] in *; change (1 =? QOS1) with true;
    change (2 =? QOS1) with false; change (2 =? QOS2) with true; change (0 =? QOS1) with false;
    change (0 =? QOS2) with false; cbv iota.
  - apply total_ret. by rewrite app_nil_r.
  - apply (cpp_acked fuel PUBACK id SUCCESS t c w1 rest (l ++ x) []); [done|done|].
    apply (cpp_wait_ack fuel t PUBACK (int16 id)); try done; [by right; left|lia].
  - rewrite <- app_assoc in A1. apply (cpp_acked fuel PUBCOMP id SUCCESS t c w1 rest (l ++ x)); [done|done|].
    by apply cpp_wait_pubcomp.
Qed.

(** ** The state between calls

    A message in flight: its QoS, its identifier and its packet, in pubbuf. *)
Definition flight : Type := Z * Z * list Z.

Definition in_flight (m : option flight) (c : Client) : Prop :=
  match m with
  | None => inflightMsgid c = 0
  | Some (q, id, x) =>
      (q = 1 ∨ q = 2) ∧ 0 < id < 65536 ∧ x ≠ [] ∧ inflightMsgid c = id ∧ inflightQoS c = q ∧
      inflightLen c = len x ∧ pubrel c = false ∧ load_bytes (pubbuf c) 0 (len x) = Ok x
  end.

Definition answers_of (m : option flight) : list Z :=
  match m with None => [] | Some (q, id, x) => answers q id end.
Definition resent (m : option flight) : list Z :=
  match m with None => [] | Some (q, id, x) => x ++ release q id end.

(** Connected or not; the last identifier; no handler has a filter. The timer of the receiver
    runs on an open session. *)
Record state (b : bool) (n : Z) (m : option flight) (c : Client) : Prop :=
  { st_sized : sized c; st_conn : isconnected c = b; st_id : packetid c = n;
    st_slots : len (messageHandlers c) = MAX_MESSAGE_HANDLERS;
    st_free : Forall (λ h, topicFilter h = None) (messageHandlers c);
    st_flight : in_flight m c }.

Lemma state_core b n m c c' : core c' = core c → state b n m c → state b n m c'.
Proof.
  intros E [Hs Hb Hn Hl Hf Hm]. pose proof (cpp_sized_core _ _ E Hs) as Hs'.
  injection E as E1 E2 E3 E4 E5 E6 E7 E8 E9 E10 E11 E12 E13 E14 E15.
  split; try congruence. destruct m as [[[q id] x]|]; cbn in *; [|congruence].
  destruct Hm as (A1 & A2 & A3 & A4 & A5 & A6 & A7 & A8). repeat split; try congruence; tauto.
Qed.

Lemma on_sendbuf_written m x c w :
  m (sendbuf c) = Ok (written (sendbuf c) x) →
  on_sendbuf m (c, w) = Ok (len x, (set_sendbuf (over x (sendbuf c)) c, w)).
Proof. intros E. unfold on_sendbuf. by rewrite bind_this, (run_bind _ _ _ _ _ (run_lift _ _ (c, w) E)). Qed.

(** The object with a packet in sendbuf. *)
Lemma loaded x c : len x ≤ len (sendbuf c) → load_bytes (over x (sendbuf c)) 0 (len x) = Ok x.
Proof. intros L. by apply (load_bytes_app [] x). Qed.

Lemma state_written b n m x c :
  len x ≤ P → state b n m c → state b n m (set_sendbuf (over x (sendbuf c)) c).
Proof.
  intros L Hs. apply (state_core b n m c); [|done]. apply cpp_core_over.
  pose proof (sz_sendbuf c (st_sized _ _ _ _ Hs)). lia.
Qed.

(** ** Publishing *)

(** The message gets its identifier. *)
Lemma run_publish_id r n c w :
  request_ok P r → 0 ≤ n ≤ MAX_PACKET_ID → packetid c = n →
  (if (MQTTCLIENT_QOS1 || MQTTCLIENT_QOS2) && ((rq_qos r =? QOS1) || (rq_qos r =? QOS2)) then
     let next := getNext (packetid c) in update (set_packetid next) ;; mret (to_ushort next)
   else mret 0) (c, w) = Ok (pb_id (publish_of n r), (set_packetid (id_after n r) c, w)).
Proof.
  intros [Hq _ _ _ _ _ _] Hn Ec. pose proof (next_id_id n Hn) as Hid.
  unfold MAX_PACKET_ID, Client.MAX_PACKET_ID in *. rewrite HQ1. cbn [orb andb].
  unfold id_after. cbn [publish_of pb_id]. destruct Hq as [Hq|Hq].
  - rewrite Hq. change (0 =? QOS1) with false. change (0 =? QOS2) with false. cbn [orb Z.eqb].
    subst n. by destruct c.
  - assert ((rq_qos r =? QOS1) || (rq_qos r =? QOS2) = true) as -> by (by destruct Hq as [-> | ->]).
    assert (rq_qos r =? 0 = false) as -> by (by destruct Hq as [-> | ->]).
    cbv zeta. rewrite cpp_bind_update, run_ret. change (getNext (packetid c)) with (next_id (packetid c)).
    rewrite Ec. unfold to_ushort. by rewrite Z.mod_small by lia.
Qed.

Lemma cpp_serialize_request n r c w :
  request_ok P r → 0 ≤ n ≤ MAX_PACKET_ID → sized c →
  on_sendbuf (λ b, MQTTSerialize_publish b P 0 (rq_qos r) (rq_retained r) (pb_id (publish_of n r))
      (topic_of (Some (c_string (rq_topic r)))) (Some (Ptr (rq_payload r) 0))
      (to_int (len (rq_payload r)))) (c, w) =
    Ok (len (publish_packet (publish_of n r)),
        (set_sendbuf (over (publish_packet (publish_of n r)) (sendbuf c)) c, w)).
Proof.
  intros Hr Hn Hs. pose proof (publish_of_wf _ n r Hr Hn) as Hwf.
  assert (Hpl : len (rq_payload r) ≤ MAX_REMAINING).
  { pose proof (wf_body _ Hwf) as Hb. rewrite publish_body_len in Hb. cbn [pb_payload publish_of] in Hb.
    destruct (_ <? _); lia. }
  rewrite to_int_id by (unfold in_int, INT_MIN, MAX_REMAINING, INT_MAX in *; lia).
  apply on_sendbuf_written. pose proof (sz_sendbuf c Hs).
  apply (serialize_publish_room (publish_of n r)); [done| |rewrite publish_of_len; split; [apply Hr|lia]].
  split.
  - apply (of_cstring_denotes (rq_topic r)); [apply Hr|]. pose proof (ro_topic_len _ _ Hr). unfold INT_MAX. lia.
  - cbn [publish_of pb_payload]. unfold mem_read. destruct (Z.eqb_spec (len (rq_payload r)) 0) as [E|E].
    + by destruct (rq_payload r).
    + rewrite <- (app_nil_r (rq_payload r)) at 1. by apply (load_bytes_app [] (rq_payload r) []).
Qed.

(** A packet is kept for the next session. *)
Definition kept (x : list Z) (id q : Z) (c : Client) : Client :=
  set_pubrel false (set_inflightQoS q (set_inflightLen (len x)
    (set_inflightMsgid id (set_pubbuf (over x (pubbuf c)) c)))).

Lemma cpp_run_keep x id q c w :
  sized c → len x ≤ P → load_bytes (sendbuf c) 0 (len x) = Ok x →
  keep_inflight (len x) id q (c, w) = Ok (tt, (kept x id q c, w)).
Proof.
  intros Hs Hx Hl. unfold keep_inflight. rewrite bind_this, (run_bind _ _ _ _ _ (run_lift _ _ _ Hl)).
  pose proof (sz_pubbuf c Hs).
  pose proof (store_over [] x (pubbuf c) 0 eq_refl ltac:(cbn; lia)) as E. rewrite over_nil in E.
  rewrite (run_bind _ _ _ _ _ (run_lift _ _ _ E)), !cpp_bind_update, HQ2. done.
Qed.

Lemma kept_sized x id q c : sized c → len x ≤ P → sized (kept x id q c).
Proof. intros [] Hx. split; [done..|]. cbn. rewrite over_length; lia. Qed.

(** The object before its packet is sent: a session that is not clean keeps it. *)
Definition filed (x : list Z) (id q : Z) (c : Client) : Client :=
  if cleansession c then c else kept x id q c.

Lemma run_file x id q c w :
  sized c → len x ≤ P → load_bytes (sendbuf c) 0 (len x) = Ok x →
  (if (MQTTCLIENT_QOS1 || MQTTCLIENT_QOS2) && negb (cleansession c) then keep_inflight (len x) id q
   else mret tt) (c, w) = Ok (tt, (filed x id q c, w)).
Proof.
  intros Hs Hx Hl. rewrite HQ1. unfold filed. destruct (cleansession c); [done|]. by apply cpp_run_keep.
Qed.

Lemma filed_sized x id q c : sized c → len x ≤ P → sized (filed x id q c).
Proof. intros Hs Hx. unfold filed. destruct (cleansession c); [done|by apply kept_sized]. Qed.

Lemma filed_sendbuf x id q c : sendbuf (filed x id q c) = sendbuf c.
Proof. unfold filed. by destruct (cleansession c). Qed.

(** Once a message is acknowledged nothing is in flight. *)
Lemma settled b n q id x c :
  (q = 0 → id = 0) → len x ≤ P → state b n None c →
  state b n None (if q =? 0 then filed x id q c else settle id (filed x id q c)).
Proof.
  intros Hq Hx [Hs Hb Hn Hl Hf Hm]. cbn in Hm. pose proof (kept_sized x id q c Hs Hx) as Sz.
  unfold filed, settle. destruct (cleansession c).
  - destruct (q =? 0); [by split|]. destruct (_ =? id); [|by split]. by destruct Hs.
  - destruct (Z.eqb_spec q 0) as [->|].
    + split; try done. cbn. auto.
    + cbn [inflightMsgid kept set_pubrel set_inflightQoS set_inflightLen set_inflightMsgid].
      rewrite Z.eqb_refl. destruct Sz. by split.
Qed.

Lemma state_settled n q id x b c :
  (q = 1 ∨ q = 2) → state b n (Some (q, id, x)) c → state b n None (settle id c).
Proof.
  intros Hq [[] Hb Hn Hl Hf (_ & _ & _ & Ei & _)]. unfold settle. rewrite Ei, Z.eqb_refl. by split.
Qed.

Lemma cpp_publish_total fuel n r c w rest l :
  request_ok P r → 0 ≤ n ≤ MAX_PACKET_ID → state true n None c → (2 ≤ fuel)%nat →
  st w (replies n r ++ rest) l → hearing pc c →
  total (publish fuel o (Some (c_string (rq_topic r))) (Some (Ptr (rq_payload r) 0))
           (len (rq_payload r)) (rq_qos r) (rq_retained r)) (c, w)
    (λ a s, a = SUCCESS ∧ state true (id_after n r) None s.1 ∧ hearing pc s.1 ∧ st s.2 rest (l ++ sends n r)).
Proof.
  intros Hr Hn Hs Hf Hw Hk. unfold publish.
  eapply (total_bind _ _ _ _ (λ (a : Z * Z) s, a.1 = SUCCESS ∧ state true (id_after n r) None s.1 ∧
    hearing pc s.1 ∧ st s.2 rest (l ++ sends n r))); [|intros [rc id] s Hq; by apply total_ret].
  unfold publish_id. eapply cpp_total_env; [by apply Hinit|]. intros timer w1 [Ht1 A1]. cbn beta in A1.
  apply total_this. rewrite (st_conn _ _ _ _ Hs). cbn [negb]. cbv iota.
  eapply total_run; [exact (run_publish_id r n c w1 Hr Hn (st_id _ _ _ _ Hs))|].
  set (c1 := set_packetid (id_after n r) c).
  assert (Hs1 : state true (id_after n r) None c1) by (by destruct Hs as [[]]).
  eapply total_run; [exact (cpp_serialize_request n r c1 w1 Hr Hn (st_sized _ _ _ _ Hs1))|].
  set (x := publish_packet (publish_of n r)). set (id := pb_id (publish_of n r)).
  assert (Hx : x ≠ []) by done. pose proof (len_pos x Hx) as L1.
  assert (L2 : len x ≤ P) by (by apply publish_fits).
  destruct (Z.leb_spec (len x) 0); [lia|].
  set (c2 := set_sendbuf (over x (sendbuf c1)) c1).
  assert (Hs2 : state true (id_after n r) None c2) by (by apply state_written).
  assert (El : load_bytes (sendbuf c2) 0 (len x) = Ok x)
    by (apply loaded; rewrite (sz_sendbuf c1 (st_sized _ _ _ _ Hs1)); lia).
  eapply total_run; [by apply (run_file x id (rq_qos r) c2 w1); [apply Hs2|..]|].
  assert (Hid : 0 ≤ id < 65536).
  { pose proof (next_id_id n Hn). unfold id, MAX_PACKET_ID, Client.MAX_PACKET_ID in *. cbn. destruct (_ =? 0); lia. }
  eapply total_bind.
  { apply (publish_len_total fuel (rq_qos r) id x timer _ w1 rest l (ro_qos _ _ Hr) Hid Hx Hf).
    - apply filed_sized; [apply Hs2|done].
    - by rewrite filed_sendbuf.
    - by rewrite (replies_answers n r (ro_qos _ _ Hr)) in A1.
    - done.
    - unfold filed. by destruct (cleansession _). }
  intros rc [c4 w4] (-> & Hc & Hk4 & A4). apply total_ret. cbn [fst snd] in *. split; [done|].
  split; [|split; [done|by rewrite (sends_release n r (ro_qos _ _ Hr))]]. apply (state_core _ _ _ _ c4 Hc), settled; [|done..].
  intros E. unfold id. cbn. by rewrite E.
Qed.

(** The application: it publishes the messages in turn. *)
Fixpoint publish_all (fuel : nat) (rs : list request) : C (list Z) :=
  match rs with
  | [] => mret []
  | r :: rs =>
      rc ← publish fuel o (Some (c_string (rq_topic r))) (Some (Ptr (rq_payload r) 0))
             (len (rq_payload r)) (rq_qos r) (rq_retained r);
      rcs ← publish_all fuel rs;
      mret (rc :: rcs)
  end.

Lemma cpp_publish_all_total fuel rs n c w rest l :
  Forall (request_ok P) rs → 0 ≤ n ≤ MAX_PACKET_ID → state true n None c → (2 ≤ fuel)%nat →
  st w (all_replies n rs ++ rest) l → hearing pc c →
  total (publish_all fuel rs) (c, w) (λ a s, a = replicate (length rs) SUCCESS ∧
    (∃ n, state true n None s.1) ∧ st s.2 rest (l ++ all_sends n rs)).
Proof.
  revert n c w l. induction rs as [|r rs IH]; intros n c w l Hrs Hn Hs Hf Hw Hk.
  - apply total_ret. cbn. rewrite app_nil_r. eauto.
  - cbn [publish_all all_replies all_sends] in *. apply list.Forall_cons in Hrs as [Hr Hrs].
    rewrite <- app_assoc in Hw.
    eapply total_bind; [by apply (cpp_publish_total fuel n)|].
    intros rc [c1 w1] (-> & Hs1 & Hk1 & A1). cbn [fst snd] in *.
    eapply total_bind.
    { apply (IH (id_after n r) c1 w1 (l ++ sends n r)); try done.
      unfold id_after. destruct (_ =? 0); [done|]. pose proof (next_id_id n Hn).
      unfold MAX_PACKET_ID, Client.MAX_PACKET_ID in *. lia. }
    intros rcs [c2 w2] (-> & Hs2 & A2). apply total_ret. cbn [fst snd] in *.
    by rewrite <- app_assoc in A2.
Qed.

(** ** Connecting *)

(** The waits of a session: for the answers to connect, and for a sign of life from the broker. *)
Definition patient (pc : pace) (d : MQTTPacket_connectData) : Prop :=
  long pc 5000 ∧ (Connect.keepAliveInterval d ≠ 0 →
    long pc (1000 * (if 60 <? Connect.keepAliveInterval d `quot` 2 then 60
                     else Connect.keepAliveInterval d `quot` 2))).

(** The message of an earlier session is sent again, and acknowledged. *)
Lemma resend_total fuel b n m timer c w rest l :
  state b n m c → (2 ≤ fuel)%nat → st w (answers_of m ++ rest) l → running pc timer → hearing pc c →
  total (resend_inflight fuel o SUCCESS timer) (c, w)
    (λ a s, a = SUCCESS ∧ state b n None s.1 ∧ hearing pc s.1 ∧ st s.2 rest (l ++ resent m)).
Proof.
  intros Hs Hf Hw Htm Hk. unfold resend_inflight. apply total_this. rewrite HQ1, HQ2. cbn [orb andb].
  destruct m as [[[q id] x]|]; cbn [answers_of resent app] in *.
  - destruct (st_flight _ _ _ _ Hs) as (Hq & Hid & Hx & Ei & Eq & En & Ep & El).
    rewrite Ei, Eq, En, Ep, andb_false_r. cbv iota. ztest.
    pose proof (st_sized _ _ _ _ Hs) as [Ls _ Lp].
    assert (Ea : load_bytes (pubbuf c) 0 P = Ok (pubbuf c)).
    { rewrite <- Lp. rewrite <- (app_nil_r (pubbuf c)) at 1. by apply (load_bytes_app [] (pubbuf c) []). }
    eapply total_lift; [exact Ea|].
    pose proof (store_over [] (pubbuf c) (sendbuf c) 0 eq_refl ltac:(cbn; lia)) as E. rewrite over_nil in E.
    eapply total_lift; [exact E|]. apply total_update.
    assert (Hl : length (pubbuf c) = length (sendbuf c)) by lia.
    set (c1 := set_sendbuf (over (pubbuf c) (sendbuf c)) c).
    assert (Hs1 : state b n (Some (q, id, x)) c1) by (apply (state_core _ _ _ c); [apply cpp_core_over; lia|done]).
    eapply total_weaken; [apply (publish_len_total fuel q id x timer c1 w rest l); try done|].
    + by right.
    + lia.
    + apply Hs1.
    + unfold c1. cbn [sendbuf set_sendbuf]. unfold over. rewrite drop_ge, app_nil_r by lia. exact El.
    + intros a [c2 w2] (-> & Hc & Hk2 & A2). cbn [fst snd] in *. split; [done|]. split; [|done].
      apply (state_core _ _ _ _ _ Hc). destruct (Z.eqb_spec q 0); [lia|].
      by eapply state_settled.
  - rewrite (st_flight _ _ _ _ Hs : inflightMsgid c = 0). cbn [andb Z.ltb Z.compare]. cbv iota.
    apply total_ret. by rewrite app_nil_r.
Qed.

Lemma cpp_connect_session_total fuel d k sp data n m c w rest l timer :
  connect_wf k → connect_denotes d k → MQTTVersion d = k_version k →
  packet_size (len (connect_body k)) ≤ P → bit sp → state false n m c → (2 ≤ fuel)%nat →
  st w (connack_packet sp 0 ++ answers_of m ++ rest) l → running pc timer → patient pc d →
  total (connect_session fuel o d timer data) (c, w)
    (λ a s, a.1 = SUCCESS ∧ state false n None s.1 ∧ hearing pc s.1 ∧
       st s.2 rest (l ++ connect_packet k ++ resent m)).
Proof.
  intros Hk Hd Hv Hroom Hsp Hs Hf Hw Htm [_ HK]. unfold connect_session. apply total_update, total_update.
  set (c1 := set_cleansession _ _).
  assert (Hs1 : state false n m c1) by (by destruct Hs as [[]]).
  set (x := connect_packet k).
  assert (Hx : x ≠ []) by done. pose proof (len_pos x Hx) as L1.
  pose proof (packet_size_ge (fixed_header CONNECT 0 0 0) (connect_body k) (connect_body_bound k Hk)) as L2.
  eapply total_run.
  { apply (on_sendbuf_written _ x c1 w). apply serialize_connect_room; [done..|].
    pose proof (sz_sendbuf c1 (st_sized _ _ _ _ Hs1)). lia. }
  destruct (Z.leb_spec (len x) 0); [lia|].
  eapply total_bind.
  { eapply (cpp_send_over HP Hlim st fuel x timer c1 w); [done|done| |apply Hs1|exact Hw|done]. unfold x, connect_packet. lia. }
  intros [rc t2] [c2 w2] (E & Ht2 & Hc2 & _ & _ & A2). cbn [fst snd] in *. subst rc.
  change (negb (SUCCESS =? SUCCESS)) with false. cbv iota.
  assert (Hs2 : state false n m c2) by (by apply (state_core _ _ _ c1)).
  eapply (total_bind _ _ _ _ (λ _ s, state false n m s.1 ∧ hearing pc s.1 ∧
    st s.2 (connack_packet sp 0 ++ answers_of m ++ rest) (l ++ x))).
  { assert (Ek : keepAliveInterval c2 = Connect.keepAliveInterval d) by (injection Hc2; done).
    assert (0 ≤ Connect.keepAliveInterval d) by (rewrite (cd_keepalive d k Hd); apply Hk).
    unfold restart_last_received. apply total_this. rewrite Ek.
    destruct (Z.ltb_spec 0 (Connect.keepAliveInterval d)).
    2:{ apply total_ret. split; [done|]. split; [|done]. cbn [fst]. intros K. rewrite Ek in K. lia. }
    eapply cpp_total_env; [by apply sv_countdown|]. intros t w3 [Ht A3]. eexists _, _. split; [reflexivity|].
    split; [by apply (state_core _ _ _ c2)|]. split; [|done]. cbn [fst].
    unfold hearing, receive_interval in *. cbn. rewrite Ek in *. intros K. split; [by apply HK|by apply Ht, HK]. }
  intros _ [c3 w3] (Hs3 & Hk3 & A3). cbn [fst snd] in *.
  eapply total_bind.
  { apply (cpp_wait_ack fuel t2 CONNACK [sp; 0] (answers_of m ++ rest) c3 w3 (l ++ x)); [by left|lia|done| |exact A3|done|done].
    apply Hs3. }
  intros [r t3] [c4 w4] (Hr & Ht3 & Hc4 & Hk4 & [junk Hj] & A4). cbn [fst snd] in *. subst r.
  change (CONNACK =? CONNACK) with true. cbv iota.
  eapply (total_bind _ _ _ _ (λ a s, a.1 = SUCCESS ∧ s = (c4, w4))).
  { unfold connect_ack. apply total_this. rewrite Hj.
    eapply total_lift; [apply (read_connack sp 0 junk); [done|by split]|]. by apply total_ret. }
  intros [rc data'] ? [E ->]. cbn [fst snd] in *. subst rc.
  eapply total_bind.
  { eapply (resend_total fuel false n m t3 c4 w4 rest); [|done|exact A4|done|done]. by apply (state_core _ _ _ c3). }
  intros rc [c5 w5] (-> & Hs5 & Hk5 & A5). apply total_ret. cbn [fst snd] in *. split; [done|]. split; [done|].
  split; [done|].
  by rewrite app_nil_r, <- app_assoc in A5.
Qed.

Lemma cpp_connect_total fuel d k sp data n m c w rest l :
  connect_wf k → connect_denotes d k → MQTTVersion d = k_version k →
  packet_size (len (connect_body k)) ≤ P → bit sp → state false n m c → (2 ≤ fuel)%nat →
  st w (connack_packet sp 0 ++ answers_of m ++ rest) l → patient pc d →
  total (connect_options fuel o data d) (c, w)
    (λ a s, a = SUCCESS ∧ state true n None s.1 ∧ hearing pc s.1 ∧ st s.2 rest (l ++ connect_packet k ++ resent m)).
Proof.
  intros Hk Hd Hv Hroom Hsp Hs Hf Hw HL. unfold connect_options.
  eapply (total_bind _ _ _ _ (λ (a : Z * connackData) s, a.1 = SUCCESS ∧ state true n None s.1 ∧
    hearing pc s.1 ∧ st s.2 rest (l ++ connect_packet k ++ resent m))); [|intros [rc data'] s Hq; by apply total_ret].
  unfold connect_data. eapply cpp_total_env; [by apply Hnew|]. intros t w1 [Ht A1]. specialize (Ht (proj1 HL)).
  apply total_this. rewrite (st_conn _ _ _ _ Hs). cbv iota.
  eapply total_bind; [by eapply cpp_connect_session_total|].
  intros [rc data'] [c2 w2] (E & Hs2 & Hk2 & A2). cbn [fst snd] in *. subst rc.
  change (SUCCESS =? SUCCESS) with true. cbv iota. eexists _, _. split; [reflexivity|].
  cbn [fst snd]. split; [done|]. split; [|done]. by destruct Hs2 as [[]].
Qed.

(** ** Disconnecting *)

(** Slots without a filter own no memory. *)
Lemma clean_total k i hs c w :
  messageHandlers c = hs → Forall (λ h, topicFilter h = None) hs → (i + k ≤ length hs)%nat →
  ∃ c', cleanSession_loop k (Z.of_nat i) (c, w) = Ok (tt, (c', w)) ∧ isconnected c' = isconnected c.
Proof.
  revert i hs c. induction k as [|k IH]; intros i hs c E Hn Hk; [by exists c|].
  destruct (lookup_lt_is_Some_2 hs i) as [h Eh]; [lia|].
  cbn [cleanSession_loop]. rewrite bind_this, E, (run_bind _ _ _ _ _ (run_lift _ _ (c, w) (arr_get_lookup _ _ _ Eh))).
  rewrite (proj1 (Forall_lookup _ _) Hn _ _ Eh), run_bind_ret.
  assert (Ea : arr_set hs (Z.of_nat i) (Slot None (fp h)) = Ok (<[i := Slot None (fp h)]> hs))
    by (unfold arr_set; ztests; [by rewrite Nat2Z.id|lia..]).
  rewrite (run_bind _ _ _ _ _ (run_lift _ _ (c, w) Ea)), cpp_bind_update.
  replace (Z.of_nat i + 1) with (Z.of_nat (S i)) by lia.
  apply (IH (S i) (<[i := Slot None (fp h)]> hs) (set_messageHandlers _ c)); [done| |].
  - by apply Forall_insert.
  - rewrite length_insert. lia.
Qed.

Lemma close_total b n m c w :
  state b n m c → ∃ c', closeSession (c, w) = Ok (tt, (c', w)) ∧ isconnected c' = false.
Proof.
  intros [_ _ _ Hl Hf _]. unfold closeSession. rewrite !cpp_bind_update, bind_this.
  destruct (cleansession _); [|by eexists].
  set (c1 := set_isconnected _ _). unfold cleanSession.
  destruct (clean_total (Z.to_nat MAX_MESSAGE_HANDLERS) 0 (messageHandlers c) c1 w)
    as (c' & E & Hc); [done|done|lia|].
  rewrite (run_bind _ _ _ _ _ E), HQ1, HQ2. cbn [orb]. by eexists.
Qed.

Lemma cpp_disconnect_total fuel b n m c w rest l :
  state b n m c → (2 ≤ fuel)%nat → st w rest l →
  total (disconnect fuel) (c, w) (λ a s, a = SUCCESS ∧ isconnected s.1 = false ∧ st s.2 rest (l ++ [224; 0])).
Proof.
  intros Hs Hf Hw. unfold disconnect. pose proof (sz_sendbuf c (st_sized _ _ _ _ Hs)) as Ls.
  eapply cpp_total_env; [by apply Hinit|]. intros t w1 [Ht A1]. cbn beta in A1.
  eapply total_run.
  { apply (on_sendbuf_written _ [224; 0] c w1). unfold MQTTSerialize_disconnect.
    rewrite MQTTSerialize_zero_correct by lia. ztest. done. }
  eapply (total_bind _ _ _ _ (λ a s, a = SUCCESS ∧ state b n m s.1 ∧ st s.2 rest (l ++ [224; 0]))).
  { change (0 <? len [224; 0]) with true. cbv iota.
    eapply total_bind; [apply (cpp_send_over HP Hlim st fuel [224; 0] t c w1 rest l); [done|done|cbn; lia|apply Hs|done|done]|].
    intros [rc t'] [c2 w2] (E & _ & Hc & _ & _ & A2). cbn [fst snd] in *. subst rc. apply total_ret.
    split; [done|]. split; [by apply (state_core _ _ _ c)|done]. }
  intros rc [c2 w2] (-> & Hs2 & A2). cbn [fst snd] in *.
  destruct (close_total b n m c2 w2 Hs2) as (c3 & E & Hc).
  eapply total_run; [exact E|]. by apply total_ret.
Qed.

(** ** The session *)

(** An application that connects, publishes and disconnects. *)
Definition session (fuel : nat) (d : MQTTPacket_connectData) (data : connackData) (rs : list request)
  : C (Z * list Z * Z) :=
  rc ← connect_options fuel o data d;
  rcs ← publish_all fuel rs;
  rc' ← disconnect fuel;
  mret (rc, rcs, rc').

(** C19: a C++ client whose platform serves it, before the wait for the CONNACK and the
    keep-alive timer run out, connects, sends again the message an earlier session
    left in flight, publishes every message, of any QoS, and disconnects, each call returning
    SUCCESS; it has then sent the connect packet, the old message, every new message once under
    its own identifier, a PUBREL for those of QoS 2 and a disconnect packet, and read the
    answers of the broker and nothing more. *)
Theorem cpp_session_served fuel d k sp data n m rs c w rest l :
  connect_wf k → connect_denotes d k → MQTTVersion d = k_version k →
  packet_size (len (connect_body k)) ≤ P → Forall (request_ok P) rs → 0 ≤ n ≤ MAX_PACKET_ID → bit sp →
  state false n m c → (2 ≤ fuel)%nat →
  st w (connack_packet sp 0 ++ answers_of m ++ all_replies n rs ++ rest) l → patient pc d →
  total (session fuel d data rs) (c, w) (λ a s,
    a = (SUCCESS, replicate (length rs) SUCCESS, SUCCESS) ∧ isconnected s.1 = false ∧
    st s.2 rest (l ++ connect_packet k ++ resent m ++ all_sends n rs ++ [224; 0])).
Proof.
  intros Hk Hd Hv Hroom Hrs Hn Hsp Hs Hf Hw HL. unfold session.
  eapply total_bind; [by eapply cpp_connect_total|]. intros rc [c1 w1] (-> & Hs1 & Hk1 & A1). cbn [fst snd] in *.
  eapply total_bind; [by apply (cpp_publish_all_total fuel rs n c1 w1 rest)|].
  intros rcs [c2 w2] (-> & [n2 Hs2] & A2). cbn [fst snd] in *.
  eapply total_bind; [by eapply cpp_disconnect_total|]. intros rc [c3 w3] (-> & Hc3 & A3).
  apply total_ret. cbn [fst snd] in *. split; [done|]. split; [done|].
  by rewrite <- !app_assoc in A3.
Qed.

End Live.

(** ** Example

    The platform of ClientLive.v, with new timers, and buffers of 40 bytes. *)
#[local] Existing Instance x86_64.
#[local] Existing Instance serving_sim.
#[local] Existing Instance serving_sim_serves.

#[local] Instance cpp_serving : CppPlatform (list Z * list Z) :=
  {| Timer_ms := λ _ w, Ok (tt, w); MessageCallback := unit; call_method := λ _ _ _, mret tt;
     malloc := λ _ w, Ok (None, w); free := λ _ w, Ok (tt, w) |}.

#[local] Instance cpp_small : Config :=
  {| MAX_MQTT_PACKET_SIZE := 40; MAX_MESSAGE_HANDLERS := 2; MAX_INCOMING_QOS2_MESSAGES := 3;
     MQTTCLIENT_QOS1 := true; MQTTCLIENT_QOS2 := true |}.

(** A message of QoS 2 under identifier 9. *)
Definition old_message : flight := (2, 9, [52; 6; 0; 1; 99; 0; 9; 5]).

(** The client of an earlier session that broke off before the PUBREC. *)
Definition broken_off : Client :=
  mkClient (replicate 40 0) (replicate 40 0) tt 60 0 false 65534 (replicate 2 (Slot None FP_new)) FP_new
    false ([52; 6; 0; 1; 99; 0; 9; 5] ++ replicate 32 0) 8 9 2 false [0; 0; 0].

(** The old message, then three messages, over the end of the range of identifiers. *)
Lemma cpp_session_served_witness :
  ∃ s, session ClientIO.no_locals 2 ex_connectData (ConnackData 0 false) three
      (broken_off, (connack_packet 1 0 ++ [80; 2; 0; 9; 112; 2; 0; 9] ++
        [64; 2; 255; 255; 80; 2; 0; 1; 112; 2; 0; 1] ++ [7], [])) =
    Ok ((SUCCESS, [SUCCESS; SUCCESS; SUCCESS], SUCCESS), s) ∧
    s.2 = ([7], connect_packet ex_connect ++ [52; 6; 0; 1; 99; 0; 9; 5;  98; 2; 0; 9] ++
      [48; 5; 0; 1; 97; 1; 2;  51; 6; 0; 1; 98; 255; 255; 3;  52; 5; 0; 1; 99; 0; 1;
       98; 2; 0; 1;  224; 0]).
Proof.
  destruct (@cpp_session_served x86_64 cpp_small _ _ cpp_serving ClientIO.no_locals eq_refl eq_refl 100 calm ltac:(decide_by_vm)
    ltac:(decide_by_vm) (λ w bs l, w = (bs, l)) serving_sim_serves
    ltac:(intros; subst; by eexists _, _) ltac:(intros; subst; by eexists _, _) 2 ex_connectData ex_connect 1
    (ConnackData 0 false) 65534 (Some old_message) three broken_off
    (connack_packet 1 0 ++ [80; 2; 0; 9; 112; 2; 0; 9] ++ [64; 2; 255; 255; 80; 2; 0; 1; 112; 2; 0; 1] ++ [7], [])
    [7] [] ex_connect_wf ex_connect_denotes eq_refl) as (a & s & E & -> & _ & Hs).
  - decide_by_vm.
  - repeat (apply list.Forall_cons; split); [..|by apply list.Forall_nil];
      (split; [cbn; auto|unfold bit; cbn; auto|decide_by_vm..]).
  - decide_by_vm.
  - by right.
  - split; [by split|done..|by repeat apply list.Forall_cons_2|].
    by split; [right|split; [lia|]].
  - lia.
  - reflexivity.
  - by split.
  - exists s. split; [exact E|]. rewrite Hs. reflexivity.
Defined.
End CppLive.
