(* ===== verification/CppReceive.v ===== *)
(** * What the C++ client hears

    Over a platform that serves the client, cycle hands the messages of the broker to the
    functions and objects their topic is for: a message of QoS 2 once, however often it is sent
    before the broker releases its identifier. *)

From stdpp Require Import gmap fin_sets.
From S2P Require Import Prelude CSem Wire Packet Publish Subscribe Stream Topics Platform Sim ClientIO ClientLive ClientReceive.
From S2P Require Import CppClient CppQoS2 CppDelivery CppClientIO CppLive.

Module CppReceive.
Import ClientIO ClientLive CppClient CppQoS2 CppDelivery CppClientIO CppLive.

(** ** The dialogue

    What the broker sends: a message, or the release of an identifier of QoS 2. *)
Inductive event : Type := Message (p : Wire.publish) | Release (id : Z).

Definition packet_of (e : event) : list Z :=
  match e with Message p => publish_packet p | Release id => ack_packet PUBREL 0 id end.
Definition type_of (e : event) : Z := match e with Message _ => PUBLISH | Release _ => PUBREL end.
Definition answer_to (e : event) : list Z :=
  match e with
  | Message p => ClientReceive.first_answer p
  | Release id => ack_packet PUBCOMP 0 id
  end.

(** *** Exactly once

    [held]: the identifiers of QoS 2 that are not released. The first message with an
    identifier is delivered, and it is held until it is released; the others are copies. *)
Definition copy (p : Wire.publish) (held : gset Z) : bool :=
  (pb_qos p =? 2) && bool_decide (pb_id p ∈ held).
Definition hold (e : event) (held : gset Z) : gset Z :=
  match e with
  | Message p => if pb_qos p =? 2 then {[pb_id p]} ∪ held else held
  | Release id => held ∖ {[id]}
  end.

Fixpoint delivered (held : gset Z) (es : list event) : list Wire.publish :=
  match es with
  | [] => []
  | e :: es =>
      match e with
      | Message p => if copy p held then [] else [p]
      | Release _ => []
      end ++ delivered (hold e held) es
  end.
Fixpoint still_held (held : gset Z) (es : list event) : gset Z :=
  match es with [] => held | e :: es => still_held (hold e held) es end.

Section Receive.
Context `{CImpl} `{Config} {W : Type} `{CppPlatform W} (o : publish_out).
#[local] Abbreviation C A := (M (Client * W) A).
#[local] Abbreviation P := MAX_MQTT_PACKET_SIZE.

(** No more identifiers are held than the table has room for. *)
Fixpoint roomy (held : gset Z) (es : list event) : Prop :=
  match es with
  | [] => True
  | e :: es => Z.of_nat (size (hold e held)) ≤ MAX_INCOMING_QOS2_MESSAGES ∧ roomy (hold e held) es
  end.

(** Packets as MQTT has them, that fit readbuf. *)
Definition event_ok (e : event) : Prop :=
  match e with
  | Message p => publish_wf p ∧ pb_qos p ≤ 2 ∧ (pb_qos p = 2 → pb_id p ≠ 0) ∧ len (publish_packet p) ≤ P
  | Release id => 0 < id < 65536
  end.

(** ** The platform

    What was called, and with what. *)
Abbreviation call := (FP * MessageData)%type.

Class CppHearing (lim : Z) (pc : pace) (st : W → list Z → list Z → list call → Prop) : Prop :=
  { ch_serving hs : Serving lim pc (λ w bs l, st w bs l hs);
    ch_init w bs l hs : st w bs l hs → total TimerInit w (λ t w', running pc t ∧ st w' bs l hs);
    ch_function w bs l hs fn md : st w bs l hs →
      total (call_handler fn md) w (λ _ w', st w' bs l (hs ++ [(mkFP None (c_callback (Some fn)), md)]));
    ch_method w bs l hs obj m md : st w bs l hs →
      total (call_method obj m md) w
        (λ _ w', st w' bs l (hs ++ [(mkFP (Some obj) (method_callback m), md)])) }.
#[local] Existing Instance ch_serving.

(** A function, or a method with its object. *)
Definition callable (x : FP) : Prop :=
  match obj_callback x, fp_callback x with
  | Some _, method_callback _ | None, c_callback (Some _) => True
  | _, _ => False
  end.

Context {lim : Z} {pc : pace} (HP : 5 ≤ P ≤ INT_MAX) (Hlim : P ≤ lim).
Context (HQ2 : MQTTCLIENT_QOS2 = true).
Context (st : W → list Z → list Z → list call → Prop) `{!CppHearing lim pc st}.
Context (tbl : list (option (list Z * FP))).

(** ** One message *)

Abbreviation to_all md fps := (map (λ x : FP, (x, md)) fps).

Lemma FP_call_total x md w bs l hs :
  callable x → st w bs l hs → total (FP_call x md) w (λ _ w', st w' bs l (hs ++ [(x, md)])).
Proof.
  intros Hx Hw. destruct x as [[obj|] [[fn|]|m]]; try done; unfold FP_call; cbn.
  - by apply ch_method.
  - by apply ch_function.
Qed.

Lemma call_fps_total fps md w bs l hs :
  Forall callable fps → st w bs l hs →
  total (call_fps fps md) w (λ _ w', st w' bs l (hs ++ to_all md fps)).
Proof.
  intros Hc. revert w hs. induction Hc as [|x fps Hx Hc IH]; intros w hs Hw; cbn [call_fps map].
  - apply total_ret. by rewrite app_nil_r.
  - eapply total_bind; [by apply FP_call_total|]. intros u w' Hw'.
    eapply total_weaken; [apply IH, Hw'|]. intros v w2 Hw2. by rewrite <- app_assoc in Hw2.
Qed.

(** The slots of the object hold [tbl], whose functions and methods can be called, and its table
    the identifiers [held]. *)
Record cpp_listening (held : gset Z) (c : Client) : Prop :=
  { cl_sized : sized c; cl_slots : len (messageHandlers c) = MAX_MESSAGE_HANDLERS;
    cl_holds : Forall2 cpp_holds (messageHandlers c) tbl;
    cl_callable : Forall callable (omap (λ e, snd <$> e) tbl);
    cl_default : attached (defaultMessageHandler c) = true → callable (defaultMessageHandler c);
    cl_table : table_ok (incomingQoS2messages c);
    cl_held : msgids (incomingQoS2messages c) = held }.

Lemma cpp_listening_core held c c' : core c' = core c → cpp_listening held c → cpp_listening held c'.
Proof.
  intros E []. pose proof (cpp_sized_core _ _ E ltac:(done)) as Hs.
  injection E as _ _ _ _ E5 E6 _ _ _ _ _ _ _ _ E15. by split; rewrite ?E5, ?E6, ?E15.
Qed.

Lemma cpp_recipients_callable held c topic :
  cpp_listening held c → Forall callable (cpp_recipients c topic tbl).
Proof.
  intros Hc. unfold cpp_recipients.
  assert (F : Forall callable (omap (cpp_selected topic) tbl)).
  { pose proof (cl_callable _ _ Hc) as F. apply list.Forall_forall. intros x Hx.
    apply list_elem_of_omap in Hx as (e & He & Ex). destruct e as [[f y]|]; [|done]. cbn in Ex.
    destruct (_ && _); [|done]. injection Ex as ->. apply (proj1 (list.Forall_forall _ _) F).
    apply list_elem_of_omap. by exists (Some (f, x)). }
  destruct (omap _ tbl); [|done]. destruct (attached _) eqn:Ea; [|done].
  apply list.Forall_singleton. by apply (cl_default _ _ Hc).
Qed.

(** The object after an event: its table has changed. *)
Definition kept (c : Client) (held : gset Z) (c' : Client) : Prop :=
  cpp_listening held c' ∧ defaultMessageHandler c' = defaultMessageHandler c.

Lemma kept_core c held c1 c' : core c' = core c1 → kept c held c1 → kept c held c'.
Proof.
  intros E [Hl Ed]. split; [by eapply cpp_listening_core|]. injection E as _ _ _ _ _ E6 _. congruence.
Qed.

Lemma cpp_recipients_kept c held c' topic : kept c held c' → cpp_recipients c' topic tbl = cpp_recipients c topic tbl.
Proof. intros [_ Ed]. unfold cpp_recipients. by rewrite Ed. Qed.

Lemma hold_kept_trans c held c1 held2 c2 : kept c held c1 → kept c1 held2 c2 → kept c held2 c2.
Proof. intros [_ E1] [Hl E2]. split; [done|congruence]. Qed.

(** What an event leads to. *)
Definition told (fps : list FP) (p : Wire.publish) (hs : list call) (w : W) (bs l : list Z) : Prop :=
  ∃ md, carries p (md_topicName md) (md_message md) ∧ st w bs l (hs ++ to_all md fps).

#[local] Instance told_serves fps p hs : Serving lim pc (told fps p hs).
Proof.
  apply (ClientReceive.serving_exists lim pc (λ md, carries p (md_topicName md) (md_message md))
    (λ md w bs l, st w bs l (hs ++ to_all md fps))). intros md. apply _.
Qed.

(** An answer to the packet in readbuf. *)
Lemma cpp_answer_total fuel (q : W → list Z → list Z → Prop) `{!Serving lim pc q} type id timer c w bs l :
  (2 ≤ fuel)%nat → sized c → q w bs l → running pc timer → hearing pc c →
  total (update (acknowledging type id) ;; '(rc, _) ← sendPacket fuel 4 timer;
         mret (rc =? FAILURE, rc)) (c, w)
    (λ r s, r = (false, SUCCESS) ∧ hearing pc s.1 ∧ core s.1 = core c ∧ readbuf s.1 = readbuf c ∧
       q s.2 bs (l ++ ack_packet type 0 id)).
Proof.
  intros Hf Hs Hw Ht Hk. apply total_update. unfold acknowledging.
  assert (El : len (ack_packet type 0 id) = 4) by done. rewrite <- El.
  eapply total_bind; [apply (cpp_send_over HP Hlim q fuel _ timer c w bs l); try done; rewrite El; lia|].
  intros [rc t] s (E & Ht' & Hc & Hk' & Hb & Hw'). cbn [fst] in E. subst rc. apply total_ret.
  split; [done|]. split; [by apply Hk'|done].
Qed.

Lemma accepted_hold p held :
  Z.of_nat (size (hold (Message p) held)) ≤ MAX_INCOMING_QOS2_MESSAGES →
  accepted (pb_qos p) (pb_id p) held = negb (copy p held) ∧
  remembered (pb_qos p) (pb_id p) held = hold (Message p) held.
Proof.
  intros Hroom. unfold remembered, accepted, copy. rewrite HQ2. cbn [hold andb] in *.
  change (pb_qos p =? QOS2) with (pb_qos p =? 2). destruct (pb_qos p =? 2); [|done]. cbn [andb].
  destruct (decide (pb_id p ∈ held)) as [Hin|Hn].
  - rewrite (bool_decide_false (_ ∉ held)) by auto. rewrite (bool_decide_true (_ ∈ held)) by done. cbn [andb].
    split; [done|]. symmetry. apply subseteq_union_1_L, singleton_subseteq_l. done.
  - rewrite size_union, size_singleton in Hroom by set_solver.
    rewrite (bool_decide_true (_ ∉ held)), (bool_decide_false (_ ∈ held)), bool_decide_true by (done || lia). done.
Qed.

(** A message is handed over unless it is a copy, and answered. *)
Lemma cpp_cycle_message fuel timer p rest c w l hs held :
  event_ok (Message p) → Z.of_nat (size (hold (Message p) held)) ≤ MAX_INCOMING_QOS2_MESSAGES →
  cpp_listening held c → (2 ≤ fuel)%nat → st w (publish_packet p ++ rest) l hs → running pc timer → hearing pc c →
  total (cycle fuel o timer) (c, w) (λ r s, r.1 = PUBLISH ∧ running pc r.2 ∧
    kept c (hold (Message p) held) s.1 ∧ hearing pc s.1 ∧
    told (if copy p held then [] else cpp_recipients c (pb_topic p) tbl) p hs s.2 rest
      (l ++ ClientReceive.first_answer p)).
Proof.
  intros (Hp & Hq & Hid & Hfit) Hroom Hls Hf Hw Htm Hk. pose proof (cl_sized _ _ Hls) as Hs.
  destruct (accepted_hold p held Hroom) as [Ea Em].
  set (fps := if copy p held then [] else cpp_recipients c (pb_topic p) tbl).
  set (h := fixed_header PUBLISH (pb_dup p) (pb_qos p) (pb_retain p)).
  assert (Et : header_type h = PUBLISH) by (unfold h; by rewrite header_type_of).
  eapply total_weaken;
    [apply (cpp_cycle_total o HP (λ w bs l, st w bs l hs) (told fps p hs)
       (λ w bs l, ch_init w bs l hs) (kept c (hold (Message p) held)) (λ a b, kept_core c _ a b) fuel timer h (publish_body p) rest
       (ClientReceive.first_answer p) c w l)|].
  - apply fixed_header_byte.
  - apply Hp.
  - exact Hfit.
  - exact Hs.
  - exact Hw.
  - exact Htm.
  - exact Hk.
  - intros t c1 w1 Ec Hk1 Ht1 Er A1. rewrite Et.
    change (cycle_switch fuel o PUBLISH t) with (cycle_publish fuel o t).
    pose proof (cpp_listening_core _ _ _ Ec Hls) as Hls1.
    assert (Er1 : cpp_recipients c1 (pb_topic p) tbl = cpp_recipients c (pb_topic p) tbl)
      by (injection Ec as _ _ _ _ _ E6 _; unfold cpp_recipients; by rewrite E6).
    destruct (cpp_cycle_publish_steps p (drop (length (publish_packet p)) (readbuf c)) fuel o t c1 w1 tbl Hp Er)
      as (tn & msg & ids & Hcar & Htab & Eids & E); [rewrite (sz_sendbuf c1); [lia|by apply (cl_sized held)]|
      apply Hls1|apply Hls1|apply Hls1|done|].
    rewrite (cl_held _ _ Hls1), Er1, Ea in E. rewrite (cl_held _ _ Hls1), Em in Eids.
    set (c2 := set_incomingQoS2messages ids c1) in *.
    assert (Hkept : kept c (hold (Message p) held) c2).
    { split; [|by injection Ec]. destruct Hls1 as [[] ? ? ? ? _ _]. by split. }
    assert (Efps : (if negb (copy p held) then cpp_recipients c (pb_topic p) tbl else []) = fps)
      by (unfold fps; by destruct (copy p held)).
    rewrite Efps, HQ2, orb_true_r in E. cbn [negb] in E. unfold total. rewrite E. clear E.
    assert (Hcall : Forall callable fps)
      by (unfold fps; destruct (copy p held); [done|by apply (cpp_recipients_callable held)]).
    eapply cpp_total_env; [by apply call_fps_total|]. intros u w2 A2.
    assert (A3 : told fps p hs w2 rest l) by (by exists (NewMessageData tn msg)).
    pose proof (wf_qos p Hp). unfold ClientReceive.first_answer.
    assert (Hfin : ∀ type, total (update (acknowledging type (pb_id p)) ;;
        '(rc, _) ← sendPacket fuel 4 t; mret (rc =? FAILURE, rc)) (c2, w2) (λ r s, r = (false, SUCCESS) ∧
        hearing pc s.1 ∧ kept c (hold (Message p) held) s.1 ∧ readbuf s.1 = readbuf c1 ∧
        told fps p hs s.2 rest (l ++ ack_packet type 0 (pb_id p)))).
    { intros type. eapply total_weaken; [apply (cpp_answer_total fuel (told fps p hs)); [done| |exact A3|exact Ht1|exact Hk1]|].
      - by apply (cl_sized (hold (Message p) held)), Hkept.
      - intros r s (-> & Hk2 & Hc2 & Hr2 & Hst). split; [done|]. split; [done|].
        split; [by eapply kept_core|]. split; [by rewrite Hr2|done]. }
    assert (pb_qos p = 0 ∨ pb_qos p = 1 ∨ pb_qos p = 2) as [Eq|[Eq|Eq]] by lia; rewrite Eq; cbn [Z.eqb Pos.eqb].
    + apply total_ret. rewrite app_nil_r. by split_and!.
    + apply Hfin.
    + apply Hfin.
  - intros r s (Er & Ht & HK & Hk' & _ & Hst). by rewrite Er, Et.
Qed.

(** A PUBREL is answered with a PUBCOMP, and its identifier is stored no longer. *)
Lemma cpp_cycle_release fuel timer id rest c w l hs held :
  0 < id < 65536 → cpp_listening held c → (2 ≤ fuel)%nat → st w (ack_packet PUBREL 0 id ++ rest) l hs →
  running pc timer → hearing pc c →
  total (cycle fuel o timer) (c, w) (λ r s, r.1 = PUBREL ∧ running pc r.2 ∧
    kept c (held ∖ {[id]}) s.1 ∧ hearing pc s.1 ∧ st s.2 rest (l ++ ack_packet PUBCOMP 0 id) hs).
Proof.
  intros Hid Hls Hf Hw Htm Hk. pose proof (cl_sized _ _ Hls) as Hs.
  assert (El : ∀ ty, len (ack_packet ty 0 id) = 4) by done.
  set (h := fixed_header PUBREL 0 1 0).
  eapply total_weaken;
    [apply (cpp_cycle_total o HP (λ w bs l, st w bs l hs) (λ w bs l, st w bs l hs)
       (λ w bs l, ch_init w bs l hs) (kept c (held ∖ {[id]})) (λ a b, kept_core c _ a b) fuel timer h
       (int16 id) rest (ack_packet PUBCOMP 0 id) c w l)|].
  - apply fixed_header_byte.
  - done.
  - change (len (ack_packet PUBREL 0 id) ≤ P). rewrite El. lia.
  - exact Hs.
  - exact Hw.
  - exact Htm.
  - exact Hk.
  - intros t c1 w1 Ec Hk1 Ht1 Er A1. change (header_type h) with PUBREL.
    pose proof (cpp_listening_core _ _ _ Ec Hls) as Hls1. pose proof (cl_sized _ _ Hls1) as Hs1.
    assert (Esw : cycle_switch fuel o PUBREL t = cycle_pubrec_pubrel fuel PUBREL (p_packetid o) t)
      by (unfold cycle_switch; by rewrite HQ2).
    rewrite Esw. unfold cycle_pubrec_pubrel. apply total_this.
    rewrite Er. change (over _ (readbuf c)) with (ack_packet PUBREL 0 id ++ drop 4 (readbuf c)).
    eapply total_lift; [by apply (read_ack PUBREL 0 id); [|left|lia]|].
    cbn beta iota. change (negb (1 =? 1)) with false. change (PUBREL =? PUBREC) with false. cbv iota.
    eapply total_run; [apply on_sendbuf_ack; [lia|rewrite (sz_sendbuf c1 Hs1); lia]|].
    change (4 <=? 0) with false. cbv iota. unfold acknowledging.
    eapply total_bind; [apply (cpp_send_over HP Hlim (λ w bs l, st w bs l hs) fuel (ack_packet PUBCOMP 0 id)
      t c1 w1 rest l); try done; rewrite El; lia|].
    intros [rc t2] [c2 w2] (Hr & Ht2 & Hc & Hk2 & Hb & Hst). cbn [fst snd] in *. subst rc.
    change (negb (SUCCESS =? SUCCESS)) with false. change (PUBREL =? PUBREL) with true. cbv iota.
    pose proof (cpp_listening_core _ _ _ Hc Hls1) as Hls2.
    destruct (freeQoS2msgid_spec id (incomingQoS2messages c2) (cl_table _ _ Hls2) ltac:(lia))
      as (ids & Ef & Htab & Em & _).
    rewrite (cl_held _ _ Hls2) in Em. unfold total. rewrite run_assoc, bind_this, run_assoc.
    rewrite (run_bind _ _ _ _ _ (run_lift _ _ (c2, w2) Ef)), cpp_bind_update.
    eexists _, _. split; [reflexivity|]. split; [done|]. split; [by apply Hk2|]. split; [|split; [exact (eq_trans Hb Er)|exact Hst]].
    split.
    2:{ injection Hc as _ _ _ _ _ D2 _. injection Ec as _ _ _ _ _ D1 _. by rewrite <- D1. }
    destruct Hls2 as [[] ? ? ? ? _ _]. by split.
  - intros r s (Er & Ht & HK & Hk' & _ & Hst). by rewrite Er.
Qed.

(** ** A sequence of packets *)

(** The calls of cycle that yield and waitfor make, one for a packet. *)
Fixpoint cycles (n fuel : nat) (timer : Timer) : C (list Z) :=
  match n with
  | O => mret []
  | S n => '(rc, timer) ← cycle fuel o timer; rcs ← cycles n fuel timer; mret (rc :: rcs)
  end.

(** What the functions and objects hear of the messages [ps], given as [mds]. *)
Definition heard (c : Client) (ps : list Wire.publish) (mds : list MessageData) : list call :=
  concat (zip_with (λ p md, to_all md (cpp_recipients c (pb_topic p) tbl)) ps mds).

Lemma heard_kept c held c' ps mds : kept c held c' → heard c' ps mds = heard c ps mds.
Proof. intros [_ Ed]. unfold heard, cpp_recipients. by rewrite Ed. Qed.

(** C22: whatever messages and PUBRELs the broker sends, in whatever order and repeated as often
    as it likes, cycle calls the functions and objects of a message of QoS 2 exactly once until
    the broker releases its identifier: for its first copy, and for no other; messages of QoS 0
    and 1 are delivered each time. Every packet is answered, copies included. The broker has no
    more identifiers under way than the table has room for. *)
Theorem qos2_delivered_once fuel es rest timer c w l hs held :
  Forall event_ok es → roomy held es → cpp_listening held c → (2 ≤ fuel)%nat →
  st w (concat (map packet_of es) ++ rest) l hs → running pc timer → hearing pc c →
  total (cycles (length es) fuel timer) (c, w) (λ rcs s,
    rcs = map type_of es ∧ msgids (incomingQoS2messages s.1) = still_held held es ∧
    ∃ mds, Forall2 (λ p md, carries p (md_topicName md) (md_message md)) (delivered held es) mds ∧
      st s.2 rest (l ++ concat (map answer_to es)) (hs ++ heard c (delivered held es) mds)).
Proof.
  revert timer c w l hs held. induction es as [|e es IH]; intros timer c w l hs held Hes Hroom Hls Hf Hw Htm Hk.
  - apply total_ret. cbn. split; [done|]. split; [apply Hls|]. exists []. by rewrite !app_nil_r.
  - apply list.Forall_cons in Hes as [He Hes]. destruct Hroom as [Hr Hroom].
    cbn [map concat] in Hw. rewrite <- app_assoc in Hw. cbn [length cycles].
    assert (One : total (cycle fuel o timer) (c, w) (λ r s, r.1 = type_of e ∧ running pc r.2 ∧
      kept c (hold e held) s.1 ∧ hearing pc s.1 ∧ ∃ ps mds, delivered held (e :: es) = ps ++ delivered (hold e held) es ∧
        Forall2 (λ p md, carries p (md_topicName md) (md_message md)) ps mds ∧
        st s.2 (concat (map packet_of es) ++ rest) (l ++ answer_to e) (hs ++ heard c ps mds))).
    { destruct e as [p|id]; cbn [packet_of type_of answer_to delivered] in *.
      - eapply total_weaken; [by apply (cpp_cycle_message fuel timer p (concat (map packet_of es) ++ rest) c w l hs held)|].
        intros r s (Er & Ht & HK & Hk' & md & Hcar & Hst). split; [done|]. split; [done|]. split; [done|]. split; [done|].
        revert Hst. destruct (copy p held); intros Hst.
        + exists [], []. split; [done|]. split; [by constructor|exact Hst].
        + exists [p], [md]. split; [done|]. split; [constructor; [done|constructor]|].
          unfold heard. cbn [zip_with concat map]. rewrite app_nil_r. exact Hst.
      - eapply total_weaken; [by apply (cpp_cycle_release fuel timer id (concat (map packet_of es) ++ rest) c w l hs held)|].
        intros r s (Er & Ht & HK & Hk' & Hst). split; [done|]. split; [done|]. split; [done|]. split; [done|].
        exists [], []. split; [done|]. split; [by constructor|]. cbn. by rewrite app_nil_r. }
    eapply total_bind; [exact One|].
    intros [rc t] [c1 w1] (Er & Ht & HK & Hk1 & ps & mds & Ed & F & A1). cbn [fst snd] in *. subst rc.
    eapply total_bind; [apply (IH t c1 w1 _ _ (hold e held) Hes Hroom (proj1 HK) Hf A1 Ht Hk1)|].
    intros rcs s (-> & Hheld & mds' & F' & A2). apply total_ret. split; [done|]. split; [done|].
    exists (mds ++ mds'). rewrite Ed. split; [by apply Forall2_app|].
    cbn [map concat]. rewrite app_assoc. rewrite (heard_kept _ _ _ _ _ HK) in A2.
    assert (E : heard c (ps ++ delivered (hold e held) es) (mds ++ mds') =
      heard c ps mds ++ heard c (delivered (hold e held) es) mds').
    { unfold heard. rewrite zip_with_app by (by eapply Forall2_length). apply concat_app. }
    by rewrite E, app_assoc.
Qed.

End Receive.

(** ** Example

    A platform that serves and remembers the calls, and a client with buffers of twenty bytes. *)
Record cpp_ear : Type := CppEar
  { ce_in : list Z; ce_out : list Z; ce_calls : list (nat * MessageData) }.

#[local] Instance cpp_ear_sim : Platform cpp_ear :=
  {| Timer := unit; TimerInit := mret tt; TimerCountdownMS := λ _ _, mret tt;
     TimerCountdown := λ _ _, mret tt; TimerIsExpired := λ t, mret (false, t);
     TimerLeftMS := λ t, mret (1000, t);
     mqttread := λ n _ w, Ok ((Z.min n (len (ce_in w)), take (Z.to_nat n) (ce_in w)),
                              CppEar (drop (Z.to_nat n) (ce_in w)) (ce_out w) (ce_calls w));
     mqttwrite := λ p n _ w,
       bs ← load_bytes (obj p) (off p) n; Ok (n, CppEar (ce_in w) (ce_out w ++ bs) (ce_calls w));
     MutexInit := mret tt; MutexLock := mret 0; MutexUnlock := mret 0;
     messageHandler := nat;
     call_handler := λ fn md w, Ok (tt, CppEar (ce_in w) (ce_out w) (ce_calls w ++ [(fn, md)])) |}.

#[local] Instance cpp_ear_platform : CppPlatform cpp_ear :=
  {| Timer_ms := λ _ w, Ok (tt, w); MessageCallback := nat;
     call_method := λ obj m md w, Ok (tt, CppEar (ce_in w) (ce_out w)
       (ce_calls w ++ [((match m with messageHandler_ => 100 + obj | defaultHandler => 200 + obj end)%nat, md)]));
     malloc := λ _ w, Ok (None, w); free := λ _ w, Ok (tt, w) |}.

#[local] Instance ear_config : Config :=
  {| MAX_MQTT_PACKET_SIZE := 20; MAX_MESSAGE_HANDLERS := 2; MAX_INCOMING_QOS2_MESSAGES := 1;
     MQTTCLIENT_QOS1 := true; MQTTCLIENT_QOS2 := true |}.

(** The number a call is remembered by. *)
Definition number_of (x : FP (W := cpp_ear)) : nat :=
  match obj_callback x, fp_callback x with
  | Some obj, method_callback messageHandler_ => (100 + obj)%nat
  | Some obj, method_callback defaultHandler => (200 + obj)%nat
  | None, c_callback (Some fn) => fn
  | _, _ => 0%nat
  end.

Definition at_cpp_ear (w : cpp_ear) (bs l : list Z) (hs : list (FP (W := cpp_ear) * MessageData)) : Prop :=
  w = CppEar bs l (map (λ e, (number_of e.1, e.2)) hs).

#[local] Instance cpp_ear_hears : CppHearing 100 calm at_cpp_ear.
Proof.
  unfold at_cpp_ear. split.
  - intros hs. split; try (intros; subst; by eexists _, _).
    + intros w x bs l ms -> _ _. eexists _, _. split; [reflexivity|]. cbn [ce_in ce_out ce_calls].
      rewrite Nat2Z.id, take_app_length, drop_app_length, length_app.
      split; [|done]. f_equal. lia.
    + intros w bs l p n x ms -> _ _ E _. eexists _, _. split; [|done].
      cbn. rewrite E. by split.
  - intros. subst. by eexists _, _.
  - intros w bs l hs fn md ->. eexists _, _. split; [reflexivity|]. by rewrite map_app.
  - intros w bs l hs obj m md ->. eexists _, _. split; [reflexivity|]. rewrite map_app. by destruct m.
Qed.

#[local] Existing Instance x86_64.

(** An object on "a". *)
Definition an_object : FP (W := cpp_ear) :=
  mkFP (Some (3%nat : MessageCallback (W := cpp_ear))) (method_callback messageHandler_).
Definition object_slots : list (option (list Z * FP (W := cpp_ear))) := [Some ([97], an_object); None].

Definition ear_of : Client (W := cpp_ear) :=
  mkClient (replicate 20 0) (replicate 20 0) tt 60 0 true 1
    [Slot (Some (Block 1 (c_string [97]))) an_object; Slot None FP_new] FP_new true
    (replicate 20 0) 0 0 0 false [0].

Lemma ear_of_listening : cpp_listening object_slots ∅ ear_of.
Proof.
  split.
  - by split.
  - done.
  - constructor; [|by repeat constructor]. eexists. split; [done|]. split; [|done].
    apply c_string_cstr; decide_by_vm.
  - by repeat constructor.
  - done.
  - split; [done|decide_by_vm].
  - done.
Qed.

(** A message of QoS 2, its copy, its release, and another message under the same identifier,
    with a table of one place. *)
Definition a_message (dup byte : Z) : event := Message (Wire.Publish dup 2 0 8 [97] [byte]).
Definition some_events : list event := [a_message 0 1; a_message 1 1; Release 8; a_message 0 2].

Lemma qos2_delivered_once_witness :
  ∃ s, cycles no_locals 4 2 tt (ear_of, CppEar (concat (map packet_of some_events) ++ [5]) [] []) =
      Ok ([PUBLISH; PUBLISH; PUBREL; PUBLISH], s) ∧
    ce_out s.2 = [80; 2; 0; 8;  80; 2; 0; 8;  112; 2; 0; 8;  80; 2; 0; 8] ∧ (ce_calls s.2).*1 = [103%nat; 103%nat].
Proof.
  destruct (qos2_delivered_once no_locals (lim := 100) (pc := calm) ltac:(decide_by_vm) ltac:(decide_by_vm)
    eq_refl at_cpp_ear object_slots 2 some_events [5] tt ear_of
    (CppEar (concat (map packet_of some_events) ++ [5]) [] []) [] [] ∅)
    as (rcs & s & E & -> & _ & mds & F & Hw).
  - repeat (apply list.Forall_cons; split); [..|by apply list.Forall_nil]; try (split; decide_by_vm);
      (split; [split; first [unfold bit; cbn; tauto|decide_by_vm|split; decide_by_vm]|split_and!; decide_by_vm]).
  - split_and!; decide_by_vm.
  - apply ear_of_listening.
  - lia.
  - reflexivity.
  - done.
  - done.
  - exists s. split; [exact E|]. rewrite Hw. cbn [ce_in ce_out ce_calls]. split; [reflexivity|].
    change (delivered ∅ some_events) with
      [Wire.Publish 0 2 0 8 [97] [1]; Wire.Publish 0 2 0 8 [97] [2]] in *.
    inversion F as [|? md1 ? ? _ F1]; subst. inversion F1 as [|? md2 ? ? _ F2]; subst.
    inversion F2; subst. reflexivity.
Defined.

End CppReceive.
