(* ===== verification/CppPlatforms.v ===== *)
(** * The network and timers of the C++ client on Linux

    linux.cpp (Module Linux): the template arguments Network and Timer that
    the sample gives to Client, over the system calls they make, and the
    instance of Platform.v's interface they are. *)

From S2P Require Import Prelude CSem Packet Platform ClientIO.
From S2P Require Import Sim CppClient CppSim.

(** ** Linux *)

Module Linux.

(** A struct timeval: seconds and microseconds; the macros of <sys/time.h>. *)
Definition timeval : Type := (Z * Z)%type.

Definition timersub (a b : timeval) : timeval :=
  let s := fst a - fst b in
  let u := snd a - snd b in
  if u <? 0 then (s - 1, u + 1000000) else (s, u).

Definition timeradd (a b : timeval) : timeval :=
  let s := fst a + fst b in
  let u := snd a + snd b in
  if 1000000 <=? u then (s + 1, u - 1000000) else (s, u).

(** The system calls of the file. recv stores bytes at the address given and
    returns them here; [errno] is what it holds after the last call. *)
Class System (W : Type) : Type :=
  { gettimeofday : M W timeval;
    address : Type;
    AF_INET : Z;
    (* the result, and the families and addresses of the list *)
    getaddrinfo : ptr → M W (Z * list (Z * address));
    socket : Z → M W Z;
    sys_connect : Z → address → Z → M W Z;
    setsockopt_rcvtimeo : Z → timeval → M W Z;
    setsockopt_sndtimeo : Z → timeval → M W Z;
    recv : Z → Z → M W (Z * list Z);
    errno : M W Z;
    EAGAIN : Z;
    EWOULDBLOCK : Z;
    sys_write : Z → ptr → Z → M W Z;
    close : Z → M W Z }.

Section Linux.
Context {W : Type} `{System W}.

(** *** class Countdown

    end_time has no value before the first countdown. *)
Definition Countdown : Type := option timeval.

Definition Countdown_new : Countdown := None.

Definition end_time (t : Countdown) : outcome timeval :=
  match t with Some e => Ok e | None => UB Uninitialised end.

(** [{ms / 1000, (ms % 1000) * 1000}] *)
Definition interval_of (ms : Z) : timeval := (ms `quot` 1000, (ms `rem` 1000) * 1000).

Definition countdown_ms (ms : Z) : M W Countdown :=
  now ← gettimeofday; mret (Some (timeradd now (interval_of ms))).

Definition Countdown_ms (ms : Z) : M W Countdown := countdown_ms ms.

Definition countdown (seconds : Z) : M W Countdown :=
  now ← gettimeofday; mret (Some (timeradd now (seconds, 0))).

Definition expired (t : Countdown) : M W bool :=
  now ← gettimeofday;
  e ← lift (end_time t);
  let res := timersub e now in
  mret ((fst res <? 0) || ((fst res =? 0) && (snd res <=? 0))).

Definition left_ms (t : Countdown) : M W Z :=
  now ← gettimeofday;
  e ← lift (end_time t);
  let res := timersub e now in
  mret (if fst res <? 0 then 0 else to_int (fst res * 1000 + snd res `quot` 1000)).

(** *** class IPStack *)

(** The first IPv4 address of the list, or else the first address. *)
Fixpoint prefer_ip4 (l : list (Z * address)) : option (Z * address) :=
  match l with
  | [] => None
  | a :: l => if fst a =? AF_INET then Some a else prefer_ip4 l
  end.

Definition chosen (l : list (Z * address)) : outcome (Z * address) :=
  match prefer_ip4 l, l with
  | Some a, _ => Ok a
  | None, a :: _ => Ok a
  | None, [] => UB NullPointer
  end.

(** The result and mysock. *)
Definition connect (mysock : Z) (hostname : ptr) (port : Z) : M W (Z * Z) :=
  '(rc, result) ← getaddrinfo hostname;
  '(rc, found) ← (
    if rc =? 0 then
      a ← lift (chosen result);
      mret (if fst a =? AF_INET then (0, Some (snd a)) else (-1, None))
    else mret (rc, None));
  match found with
  | Some a =>
      mysock ← socket AF_INET;
      if negb (mysock =? -1) then rc ← sys_connect mysock a port; mret (rc, mysock)
      else mret (rc, mysock)
  | None => mret (rc, mysock)
  end.

(** The timeout of a read: at least 100 microseconds. *)
Definition read_interval (timeout_ms : Z) : timeval :=
  let interval := interval_of timeout_ms in
  if (fst interval <? 0) || ((fst interval =? 0) && (snd interval <=? 0)) then (0, 100)
  else interval.

Definition max_tries : Z := 10.

(** The while loop of read: [bytes] and what is stored at buffer. Each round
    but the last counts a try. *)
Fixpoint read_loop (fuel : nat) (mysock len bytes i : Z) (dst : list Z) : M W (Z * list Z) :=
  match fuel with
  | O => no_fuel
  | S fuel =>
      if bytes <? len then
        '(rc, bs) ← recv mysock (len - bytes);
        let dst := take (Z.to_nat bytes) dst ++ bs in
        if rc =? -1 then
          e ← errno;
          mret (if negb (e =? EAGAIN) && negb (e =? EWOULDBLOCK) then -1 else bytes, dst)
        else
          bytes ← lift (bytes +i rc)%c;
          let i := i + 1 in
          if max_tries <=? i then mret (bytes, dst)
          else if rc =? 0 then mret (bytes, dst)
          else read_loop fuel mysock len bytes i dst
      else mret (bytes, dst)
  end.

(** Ten tries and the test that ends the loop. *)
Definition read (mysock len timeout_ms : Z) : M W (Z * list Z) :=
  setsockopt_rcvtimeo mysock (read_interval timeout_ms) ;;
  read_loop 11 mysock len 0 0 [].

Definition write (mysock : Z) (buffer : ptr) (len timeout : Z) : M W Z :=
  us ← lift (if in_int (timeout * 1000) then Ok (timeout * 1000) else UB SignedOverflow);
  setsockopt_sndtimeo mysock (0, us) ;;
  sys_write mysock buffer len.

Definition disconnect (mysock : Z) : M W Z := close mysock.

End Linux.

(** *** The platform they make

    [mysock] is a member of the network object. The client has no mutex. *)
Record host (W : Type) : Type := mkHost { mysock : Z; world_of : W }.
Arguments mkHost {W} _ _.
Arguments mysock {W} _.
Arguments world_of {W} _.

Section Instance.
Context {W : Type} `{System W} (Handler : Type) (call : Handler → MessageData → M W unit).

Definition on_host {A} (m : M W A) : M (host W) A := λ h,
  match m (world_of h) with
  | Ok (a, w) => Ok (a, mkHost (mysock h) w) | UB u => UB u | NoFuel => NoFuel end.

Definition linux : Platform (host W) :=
  {| Timer := Countdown;
     TimerInit := mret Countdown_new;
     TimerCountdownMS := λ _ ms, on_host (countdown_ms ms);
     TimerCountdown := λ _ s, on_host (countdown s);
     TimerIsExpired := λ t, on_host (e ← expired t; mret (e, t));
     TimerLeftMS := λ t, on_host (ms ← left_ms t; mret (ms, t));
     mqttread := λ n ms h, on_host (read (mysock h) n ms) h;
     mqttwrite := λ p n ms h, on_host (write (mysock h) p n ms) h;
     MutexInit := mret tt;
     MutexLock := mret 0;
     MutexUnlock := mret 0;
     messageHandler := Handler;
     call_handler := λ f md, on_host (call f md) |}.

End Instance.

(** *** Timers *)

Section Timers.
Context {W : Type} `{System W}.

(** A time in microseconds, and the times gettimeofday and the macros give. *)
Definition micros (t : timeval) : Z := fst t * 1000000 + snd t.
Definition normal (t : timeval) : Prop := 0 ≤ snd t < 1000000.

Lemma timersub_micros a b :
  normal a → normal b → micros (timersub a b) = micros a - micros b ∧ normal (timersub a b).
Proof. unfold normal, micros, timersub. intros. ztest; cbn [fst snd]; lia. Qed.

Lemma timeradd_micros a b :
  normal a → normal b → micros (timeradd a b) = micros a + micros b ∧ normal (timeradd a b).
Proof. unfold normal, micros, timeradd. intros. ztest; cbn [fst snd]; lia. Qed.

Lemma interval_micros ms : 0 ≤ ms → micros (interval_of ms) = ms * 1000 ∧ normal (interval_of ms).
Proof.
  intros. unfold micros, normal, interval_of. cbn [fst snd].
  rewrite Z.quot_div_nonneg, Z.rem_mod_nonneg by lia. lia.
Qed.

(** A Countdown of [ms] milliseconds started at [now] has expired at a later time exactly
    when [ms] milliseconds have passed, and until then left_ms is what is missing. *)
Theorem linux_countdown_deadline ms w now w1 w2 now2 w3 :
  0 ≤ ms ≤ INT_MAX → gettimeofday w = Ok (now, w1) → normal now →
  gettimeofday w2 = Ok (now2, w3) → normal now2 → micros now ≤ micros now2 →
  ∃ t, countdown_ms ms w = Ok (t, w1) ∧
    let rest := micros now + ms * 1000 - micros now2 in
    expired t w2 = Ok (bool_decide (rest ≤ 0), w3) ∧
    left_ms t w2 = Ok (Z.max 0 (rest / 1000), w3).
Proof.
  intros Hms E1 N1 E2 N2 Hle. unfold countdown_ms. rewrite (run_bind _ _ _ _ _ E1).
  destruct (interval_micros ms) as [Mi Ni]; [lia|].
  destruct (timeradd_micros now (interval_of ms) N1 Ni) as [Ma Na].
  eexists. split; [reflexivity|]. unfold expired, left_ms. rewrite !(run_bind _ _ _ _ _ E2).
  cbn [end_time]. rewrite !run_bind_lift_Ok, !run_ret.
  destruct (timersub_micros _ now2 Na N2) as [Ms Ns]. rewrite Ma, Mi in Ms.
  set (res := timersub _ _) in *. destruct res as [s u]. unfold micros, normal, INT_MAX in *.
  cbn [fst snd] in *. split.
  - do 2 f_equal. symmetry. destruct (bool_decide _) eqn:B;
      [apply bool_decide_eq_true in B|apply bool_decide_eq_false in B]; lia.
  - do 2 f_equal. ztest.
    rewrite Z.quot_div_nonneg by lia. rewrite to_int_id; [lia|].
    unfold in_int, INT_MIN, INT_MAX. lia.
Qed.

(** *** Reading *)

(** [S w bs]: [bs] have arrived on the socket [fd]; recv gives some of them, at
    least one and at most as many as asked for. *)
Record arriving (fd : Z) (S : W → list Z → Prop) : Prop :=
  { av_recv w bs n : S w bs → bs ≠ [] → 0 < n → ∃ k w', 1 ≤ k ≤ Z.min n (len bs) ∧
      recv fd n w = Ok ((k, take (Z.to_nat k) bs), w') ∧ S w' (drop (Z.to_nat k) bs);
    av_timeout w bs tv : S w bs → ∃ r w', setsockopt_rcvtimeo fd tv w = Ok (r, w') ∧ S w' bs }.

Lemma read_loop_pieces fd S bs n fuel i got w :
  arriving fd S → 0 < n ≤ len bs → n ≤ INT_MAX → 0 ≤ got ≤ n → 0 ≤ i ≤ got →
  i < max_tries → max_tries + 1 - i ≤ Z.of_nat fuel → S w (drop (Z.to_nat got) bs) →
  ∃ b w', read_loop fuel fd n got i (take (Z.to_nat got) bs) w =
      Ok ((b, take (Z.to_nat b) bs), w') ∧ S w' (drop (Z.to_nat b) bs) ∧
    Z.min n max_tries ≤ b ≤ n.
Proof.
  intros HS Hn HI. revert i got w. induction fuel as [|fuel IH]; intros i got w Hg Hi Hm Hf Hw;
    [unfold max_tries in *; lia|].
  cbn [read_loop]. destruct (Z.ltb_spec got n) as [L|L].
  2:{ exists got, w. split; [done|]. split; [done|]. lia. }
  destruct (av_recv fd S HS w _ (n - got) Hw) as (k & w1 & Hk & E & H1).
  { intros E0%(f_equal length). rewrite length_drop in E0. cbn in E0. lia. }
  { lia. }
  rewrite length_drop in Hk. rewrite (run_bind _ _ _ _ _ E).
  destruct (Z.eqb_spec k (-1)); [lia|].
  rewrite (run_bind _ _ _ (got + k) w1)
    by (apply run_lift, iadd_Ok; unfold INT_MIN, INT_MAX in *; lia).
  assert (take (Z.to_nat got) (take (Z.to_nat got) bs) ++ take (Z.to_nat k) (drop (Z.to_nat got) bs)
    = take (Z.to_nat (got + k)) bs) as ->.
  { rewrite take_take, Nat.min_id, Z2Nat.inj_add by lia. by rewrite take_take_drop. }
  rewrite drop_drop_Z in H1 by lia.
  destruct (Z.leb_spec max_tries (i + 1)) as [T|T].
  - exists (got + k), w1. split; [done|]. split; [done|]. unfold max_tries in *. lia.
  - destruct (Z.eqb_spec k 0); [lia|]. apply IH; [lia..|done].
Qed.

(** When the bytes asked for have arrived, read returns the first of them in order, however
    recv cuts them, but after ten pieces it stops: it may return as few as ten bytes. *)
Theorem linux_read_pieces fd S bs n ms w :
  arriving fd S → S w bs → 0 < n ≤ len bs → n ≤ INT_MAX →
  ∃ b w', read fd n ms w = Ok ((b, take (Z.to_nat b) bs), w') ∧ S w' (drop (Z.to_nat b) bs) ∧
    Z.min n 10 ≤ b ≤ n.
Proof.
  intros HS Hw Hn HI. unfold read.
  destruct (av_timeout fd S HS w bs (read_interval ms) Hw) as (r & w1 & E & H1).
  rewrite (run_bind _ _ _ _ _ E).
  destruct (read_loop_pieces fd S bs n 11 0 0 w1) as (b & w' & E' & H'); try done;
    [unfold max_tries; lia..|]. by exists b, w'.
Qed.

(** *** Connecting *)

(** When no socket can be made connect reports success, with mysock -1. *)
Theorem linux_connect_no_socket s hostname port w a l w1 w2 :
  getaddrinfo hostname w = Ok ((0, l), w1) → prefer_ip4 l = Some (AF_INET, a) →
  socket AF_INET w1 = Ok (-1, w2) → connect s hostname port w = Ok ((0, -1), w2).
Proof.
  intros E1 El E2. unfold connect. rewrite (run_bind _ _ _ _ _ E1). cbn [fst snd Z.eqb].
  rewrite (run_bind _ _ _ (0, Some a) w1).
  - by rewrite (run_bind _ _ _ _ _ E2).
  - unfold chosen. rewrite El, run_bind_lift_Ok. cbn [fst snd]. by rewrite Z.eqb_refl.
Qed.

End Timers.

(** *** The client over it *)

Section Uninitialised.
Context {W : Type} `{System W} (Handler : Type) (call : Handler → MessageData → M W unit).
Context `{CImpl} `{Config}.
#[local] Instance over_linux : Platform (host W) := linux Handler call.
Context `{!CppPlatform (host W)}.

Lemma sendPacket_uninitialised fuel n (c : CppClient.Client) (h : host W) now w' :
  0 < n → (0 < fuel)%nat → gettimeofday (world_of h) = Ok (now, w') →
  CppClient.sendPacket fuel n (Countdown_new : Timer (W := host W)) (c, h) = UB Uninitialised.
Proof.
  intros Hn Hf E. destruct fuel as [|fuel]; [lia|]. unfold CppClient.sendPacket.
  cbn [CppClient.sendPacket_loop]. ztest. unfold CppClient.env, mbind at 1, M_bind at 1.
  cbn [fst snd]. unfold mbind at 1, M_bind at 1. cbn [TimerIsExpired fst snd].
  unfold over_linux, linux. cbn. unfold on_host, expired, mbind, M_bind. by rewrite E.
Qed.

(** On Linux disconnect waits on a timer that was never started, so that its outcome is
    undefined (publish, subscribe, unsubscribe and the answers of cycle start with the same
    declaration). *)
Theorem linux_disconnect_uninitialised fuel (c : CppClient.Client) (h : host W) now w' :
  (0 < fuel)%nat → 2 ≤ MAX_MQTT_PACKET_SIZE ≤ len (CppClient.sendbuf c) →
  gettimeofday (world_of h) = Ok (now, w') →
  CppClient.disconnect fuel (c, h) = UB Uninitialised.
Proof.
  intros Hf Hm E. unfold CppClient.disconnect.
  rewrite (CppClient.cpp_bind_env _ _ _ _ (Countdown_new : @Timer _ over_linux) h) by done.
  rewrite (run_bind _ _ _ 2 (CppClient.set_sendbuf (224 :: 0 :: drop 2 (CppClient.sendbuf c)) c, h)).
  - cbn [Z.ltb Z.compare]. unfold mbind at 1, M_bind at 1, mbind at 1, M_bind at 1.
    by rewrite (sendPacket_uninitialised fuel 2 _ h now w').
  - unfold CppClient.on_sendbuf. rewrite CppClient.bind_this.
    unfold Connect.MQTTSerialize_disconnect. rewrite Connect.MQTTSerialize_zero_correct by lia.
    by destruct (Z.ltb_spec MAX_MQTT_PACKET_SIZE 2); [lia|].
Qed.

End Uninitialised.

(** *** Evaluation

    A clock at a fixed time, bytes that have arrived and come in pieces of at
    most [u_chunk], and the socket that socket() gives. *)
Record unix : Type := Unix { u_now : timeval; u_in : list Z; u_chunk : Z; u_socket : Z }.

#[local] Instance unix_sim : System unix :=
  {| gettimeofday := gets u_now; address := Z; AF_INET := 2;
     getaddrinfo := λ _, mret (0, [(10, 1); (2, 7)]);
     socket := λ _, gets u_socket; sys_connect := λ _ _ _, mret 0;
     setsockopt_rcvtimeo := λ _ _, mret 0; setsockopt_sndtimeo := λ _ _, mret 0;
     recv := λ _ n u,
       let bs := take (Z.to_nat (Z.min n (u_chunk u))) (u_in u) in
       Ok ((len bs, bs), Unix (u_now u) (drop (length bs) (u_in u)) (u_chunk u) (u_socket u));
     errno := mret 11; EAGAIN := 11; EWOULDBLOCK := 11;
     sys_write := λ _ _ n, mret n; close := λ _, mret 0 |}.

Lemma unix_arriving fd : arriving fd (λ u bs, u_in u = bs ∧ 1 ≤ u_chunk u).
Proof.
  split.
  - intros u bs n [<- Hc] Hbs Hn. apply len_pos in Hbs.
    exists (Z.min (Z.min n (u_chunk u)) (len (u_in u))), (Unix (u_now u)
      (drop (Z.to_nat (Z.min (Z.min n (u_chunk u)) (len (u_in u)))) (u_in u)) (u_chunk u)
      (u_socket u)).
    split; [lia|]. split; [|done]. cbn. rewrite length_take.
    replace (take (Z.to_nat (Z.min (Z.min n (u_chunk u)) (len (u_in u)))) (u_in u))
      with (take (Z.to_nat (Z.min n (u_chunk u))) (u_in u)).
    + do 3 f_equal; [lia|]. do 2 f_equal. lia.
    + destruct (Z.le_gt_cases (Z.min n (u_chunk u)) (len (u_in u))).
      * f_equal. lia.
      * rewrite !take_ge by lia. done.
  - intros u bs tv [Hb Hc]. by exists 0, u.
Qed.

(** With bytes that come one at a time, of twelve bytes ten are read. *)
Example read_ten_of_twelve :
  read 3 12 1000 (Unix (0, 0) (seqZ 0 12) 1 3) = Ok ((10, seqZ 0 10), Unix (0, 0) [10; 11] 1 3).
Proof. reflexivity. Qed.

(** Started at 5.999999 s with 1500 ms, seen at 6 s: 1499 ms are left. *)
Lemma linux_countdown_deadline_witness :
  ∃ t, countdown_ms 1500 (Unix (5, 999999) [] 1 3) = Ok (t, Unix (5, 999999) [] 1 3) ∧
    expired t (Unix (6, 0) [] 1 3) = Ok (false, Unix (6, 0) [] 1 3) ∧
    left_ms t (Unix (6, 0) [] 1 3) = Ok (1499, Unix (6, 0) [] 1 3).
Proof.
  destruct (linux_countdown_deadline 1500 (Unix (5, 999999) [] 1 3) (5, 999999)
    (Unix (5, 999999) [] 1 3) (Unix (6, 0) [] 1 3) (6, 0) (Unix (6, 0) [] 1 3))
    as (t & E & E1 & E2); [unfold INT_MAX; lia|done|unfold normal; cbn; lia|done|unfold normal;
    cbn; lia|unfold micros; cbn; lia|].
  exists t. split; [exact E|]. split; [exact E1|exact E2].
Defined.

Lemma linux_read_pieces_witness :
  ∃ b w', read 3 12 1000 (Unix (0, 0) (seqZ 0 12) 1 3) = Ok ((b, take (Z.to_nat b) (seqZ 0 12)), w') ∧
    10 ≤ b ≤ 12.
Proof.
  destruct (linux_read_pieces 3 _ (seqZ 0 12) 12 1000 (Unix (0, 0) (seqZ 0 12) 1 3)
    (unix_arriving 3)) as (b & w' & E & _ & Hb);
    [split; [done|cbn; lia]|rewrite length_seqZ; lia|unfold INT_MAX; lia|].
  exists b, w'. split; [exact E|exact Hb].
Defined.

Lemma linux_connect_no_socket_witness :
  connect 3 (c_string []) 1883 (Unix (0, 0) [] 1 (-1)) = Ok ((0, -1), Unix (0, 0) [] 1 (-1)).
Proof.
  eapply (linux_connect_no_socket (W := unix)); reflexivity.
Defined.

(** A connected client with buffers of twenty bytes, before any use of its
    network. *)
#[local] Instance unix_client : Platform (host unix) := linux unit (λ _ _, mret tt).

#[local] Instance unix_cpp : CppPlatform (host unix) :=
  {| Timer_ms := λ n, on_host (Countdown_ms n); MessageCallback := unit;
     call_method := λ _ _ _, mret tt; malloc := λ _, mret (Some 1); free := λ _, mret tt |}.

Definition unix_connected : CppClient.Client :=
  CppClient.mkClient (replicate 20 0) (replicate 20 0) (Some (0, 0)) 60 0 true 1
    (replicate 2 (CppClient.Slot None CppClient.FP_new)) CppClient.FP_new true
    (replicate 20 0) 0 0 0 false (replicate 3 0).

Lemma linux_disconnect_uninitialised_witness :
  CppClient.disconnect (H := x86_64) (H0 := small_config) 9
    (unix_connected, mkHost 3 (Unix (5, 0) [] 1 3)) = UB Uninitialised.
Proof.
  by apply (linux_disconnect_uninitialised unit (λ _ _, mret tt) 9 unix_connected
    (mkHost 3 (Unix (5, 0) [] 1 3)) (5, 0) (Unix (5, 0) [] 1 3)); [lia|cbn; lia|].
Defined.

End Linux.
