(* ===== verification/CppArduino.v ===== *)
(** * The networks and timers of the C++ client on Arduino and mbed

    Countdown.h, IPStack.h and WifiIPStack.h of the Arduino (Module Arduino)
    and MQTTSocket.h of mbed (Module Mbed): template arguments of Client, over
    the functions of the board they call. *)

From S2P Require Import Prelude CSem Packet Platform ClientIO.

(** ** Arduino *)

Module Arduino.

(** The clock of the board and an object of class Client (or WiFiClient):
    millis() and unsigned long have 32 bits; readBytes stores bytes at the
    address given and returns them here. *)
Class Board (W : Type) : Type :=
  { millis : M W Z;
    delay : Z → M W unit;
    client_connect : ptr → Z → M W Z;
    client_connect_ip : Z → Z → M W Z;
    available : M W Z;
    readBytes : Z → M W (Z * list Z);
    setTimeout : Z → M W unit;
    client_write : ptr → Z → M W Z;
    stop : M W unit }.

Section Arduino.
Context {W : Type} `{Board W}.

(** *** class Countdown *)

(** interval_end_ms *)
Definition Countdown : Type := Z.

Definition countdown_ms (ms : Z) : M W Countdown :=
  now ← millis; mret (to_uint (now + to_uint ms)).

(** The constructor without arguments counts down ten seconds. *)
Definition Countdown_new : M W Countdown := countdown_ms (10 * 1000).
Definition Countdown_ms (ms : Z) : M W Countdown := countdown_ms ms.

(** [(unsigned long)seconds * 1000L] *)
Definition countdown (seconds : Z) : M W Countdown :=
  countdown_ms (to_uint (to_uint seconds * 1000)).

(** [now < interval_end_ms && (interval_end_ms - now) < 0x80000000] *)
Definition pending (now interval_end_ms : Z) : bool :=
  (now <? interval_end_ms) && (interval_end_ms - now <? 2147483648).

Definition expired (t : Countdown) : M W bool :=
  if truth t then now ← millis; mret (negb (pending now t)) else mret false.

Definition left_ms (t : Countdown) : M W Z :=
  now ← millis; mret (if pending now t then to_int (t - now) else 0).

(** *** class IPStack *)

Definition connect (hostname : ptr) (port : Z) : M W Z := client_connect hostname port.
Definition connect_ip (hostname port : Z) : M W Z := client_connect_ip hostname port.

(** [while (client->available() < len && total < timeout)] *)
Fixpoint wait_loop (fuel : nat) (len timeout interval total : Z) : M W Z :=
  match fuel with
  | O => no_fuel
  | S fuel =>
      n ← available;
      if (n <? len) && (total <? timeout) then
        delay interval ;;
        total ← lift (total +i interval)%c;
        wait_loop fuel len timeout interval total
      else mret total
  end.

(** A round more than the milliseconds of the timeout is enough fuel. *)
Definition read (len timeout : Z) : M W (Z * list Z) :=
  let interval := if timeout <? 30 then 2 else 10 in
  wait_loop (S (Z.to_nat timeout)) len timeout interval 0 ;;
  n ← available;
  if len <=? n then '(rc, bs) ← readBytes len; mret (to_int rc, bs) else mret (0, []).

Definition write (buffer : ptr) (len timeout : Z) : M W Z :=
  setTimeout timeout ;; rc ← client_write buffer len; mret (to_int rc).

Definition disconnect : M W Z := stop ;; mret 0.

(** *** class WifiIPStack

    iface is the client; [while(!iface.available());] *)
Definition Wifi_new : M W unit := setTimeout 1000.
Definition wifi_connect (hostname : ptr) (port : Z) : M W Z := client_connect hostname port.
Definition wifi_connect_ip (hostname port : Z) : M W Z := client_connect_ip hostname port.

Fixpoint wifi_wait (fuel : nat) : M W unit :=
  match fuel with
  | O => no_fuel
  | S fuel => n ← available; if truth n then mret tt else wifi_wait fuel
  end.

Definition wifi_read (fuel : nat) (len timeout : Z) : M W (Z * list Z) :=
  setTimeout timeout ;;
  wifi_wait fuel ;;
  '(rc, bs) ← readBytes len;
  mret (to_int rc, bs).

Definition wifi_write (buffer : ptr) (len timeout : Z) : M W Z :=
  setTimeout timeout ;; rc ← client_write buffer len; mret (to_int rc).

Definition wifi_disconnect : M W Z := stop ;; mret 0.

End Arduino.

(** *** The platform IPStack and Countdown make

    The client has no mutex. *)
Definition arduino {W} `{Board W} (Handler : Type) (call : Handler → MessageData → M W unit) :
    Platform W :=
  {| Timer := Countdown;
     TimerInit := Countdown_new;
     TimerCountdownMS := λ _ ms, countdown_ms ms;
     TimerCountdown := λ _ s, countdown s;
     TimerIsExpired := λ t, e ← expired t; mret (e, t);
     TimerLeftMS := λ t, ms ← left_ms t; mret (ms, t);
     mqttread := read;
     mqttwrite := write;
     MutexInit := mret tt;
     MutexLock := mret 0;
     MutexUnlock := mret 0;
     messageHandler := Handler;
     call_handler := call |}.

(** *** Timers *)

Section Timers.
Context {W : Type} `{Board W}.

Lemma pending_before now t : t - now < 2147483648 → pending now t = bool_decide (now < t).
Proof.
  intros L. unfold pending. symmetry. ztest; cbn [andb];
    [ztest; by apply bool_decide_eq_true|apply bool_decide_eq_false; lia].
Qed.

(** A Countdown of [ms] milliseconds, less than half the range of the clock, started at [now]
    is, at a later time before the clock wraps around, expired exactly when they have
    passed, and what is left is what is missing: as long as its end is before the clock wraps
    around. If the end is after that, the Countdown has expired at once, and if it is at 0 it
    never expires. *)
Theorem arduino_countdown_deadline ms w now w1 w2 now2 w3 :
  0 ≤ ms < 2147483648 → millis w = Ok (now, w1) → millis w2 = Ok (now2, w3) →
  0 < now → now ≤ now2 < 4294967296 →
  ∃ t, countdown_ms ms w = Ok (t, w1) ∧
    (if now + ms <? 4294967296 then
       expired t w2 = Ok (bool_decide (now + ms ≤ now2), w3) ∧
       left_ms t w2 = Ok (Z.max 0 (now + ms - now2), w3)
     else
       left_ms t w2 = Ok (0, w3) ∧
       if now + ms =? 4294967296 then expired t w2 = Ok (false, w2)
       else expired t w2 = Ok (true, w3)).
Proof.
  intros Hms E1 E2 H0 Hle. unfold countdown_ms. rewrite (run_bind _ _ _ _ _ E1).
  eexists. split; [reflexivity|]. unfold expired, left_ms, truth, to_uint, to_int.
  rewrite (Z.mod_small ms) by lia.
  destruct (Z.ltb_spec (now + ms) 4294967296) as [L|L].
  - rewrite (Z.mod_small (now + ms)) by lia. destruct (Z.eqb_spec (now + ms) 0); [lia|].
    cbn [negb]. split; rewrite (run_bind _ _ _ _ _ E2), pending_before by lia; unfold mret, M_ret; do 2 f_equal.
    + rewrite <- bool_decide_not. apply bool_decide_ext. lia.
    + destruct (bool_decide_reflect (now2 < now + ms)); lia.
  - rewrite !(run_bind _ _ _ _ _ E2).
    assert ((now + ms) mod 4294967296 = now + ms - 4294967296) as -> by lia.
    assert (Hp : pending now2 (now + ms - 4294967296) = false) by (unfold pending; by ztest).
    split; [by rewrite Hp|].
    destruct (Z.eqb_spec (now + ms) 4294967296) as [E|E].
    + by rewrite E.
    + destruct (Z.eqb_spec (now + ms - 4294967296) 0); [lia|]. cbn [negb].
      by rewrite (run_bind _ _ _ _ _ E2), Hp.
Qed.

End Timers.

(** *** Reading *)

Section Reading.
Context {W : Type} `{Board W}.

(** While [I] holds, the functions of the board return and keep it. *)
Definition keeps_running {A} (I : W → Prop) (m : M W A) : Prop :=
  ∀ w, I w → ∃ a w', m w = Ok (a, w') ∧ I w'.

Record running (I : W → Prop) : Prop :=
  { ru_available : keeps_running I available;
    ru_delay n : keeps_running I (delay n);
    ru_readBytes n : keeps_running I (readBytes n) }.

Lemma wait_loop_returns I fuel n timeout interval total w :
  running I → I w → 2 ≤ interval ≤ 10 → 0 ≤ total → timeout ≤ INT_MAX - 10 →
  timeout - total < Z.of_nat fuel → (0 < fuel)%nat →
  ∃ t w', wait_loop fuel n timeout interval total w = Ok (t, w') ∧ I w'.
Proof.
  intros HI. revert total w. induction fuel as [|fuel IH]; intros total w Hw Hi Ht HT Hf H0; [lia|].
  cbn [wait_loop]. destruct (ru_available I HI w Hw) as (k & w1 & E & H1).
  rewrite (run_bind _ _ _ _ _ E). destruct (k <? n); cbn [andb]; [|by eexists _, _].
  destruct (Z.ltb_spec total timeout) as [L|L]; [|by eexists _, _].
  destruct (ru_delay I HI interval w1 H1) as ([] & w2 & E2 & H2). rewrite (run_bind _ _ _ _ _ E2).
  rewrite (run_bind _ _ _ (total + interval) w2)
    by (apply run_lift, iadd_Ok; unfold INT_MIN, INT_MAX in *; lia).
  apply IH; [done|lia..].
Qed.

(** Read returns on a board whose functions do, however little arrives. *)
Theorem arduino_read_returns I n timeout w :
  running I → I w → timeout ≤ INT_MAX - 10 →
  ∃ r w', read n timeout w = Ok (r, w') ∧ I w'.
Proof.
  intros HI Hw HT. unfold read.
  destruct (wait_loop_returns I (S (Z.to_nat timeout)) n timeout (if timeout <? 30 then 2 else 10) 0 w)
    as (t & w1 & E & H1); try done; [ztest..|lia|lia|]. rewrite (run_bind _ _ _ _ _ E).
  destruct (ru_available I HI w1 H1) as (k & w2 & E2 & H2). rewrite (run_bind _ _ _ _ _ E2).
  destruct (n <=? k); [|by eexists _, _].
  destruct (ru_readBytes I HI n w2 H2) as ([rc bs] & w3 & E3 & H3). rewrite (run_bind _ _ _ _ _ E3).
  by eexists _, _.
Qed.

(** When WiFiClient has nothing to read and never will (the peer has closed the connection),
    WifiIPStack's read does not return, whatever its timeout. *)
Theorem wifi_read_spins (I : W → Prop) fuel n timeout w :
  (∀ w, I w → ∃ w', available w = Ok (0, w') ∧ I w') → keeps_running I (setTimeout timeout) →
  I w → wifi_read fuel n timeout w = NoFuel.
Proof.
  intros Ha Ht Hw. unfold wifi_read. destruct (Ht w Hw) as (? & w1 & E & H1).
  rewrite (run_bind _ _ _ _ _ E). unfold mbind, M_bind.
  assert (wifi_wait fuel w1 = NoFuel) as ->; [|done]. clear E. revert w1 H1.
  induction fuel as [|fuel IH]; intros w1 H1; [done|]. cbn [wifi_wait].
  destruct (Ha w1 H1) as (w2 & E & H2). rewrite (run_bind _ _ _ _ _ E). by apply IH.
Qed.

(** [S w bs]: [bs] have arrived. *)
Record arrived (S : W → list Z → Prop) : Prop :=
  { ad_available w bs : S w bs → ∃ w', available w = Ok (len bs, w') ∧ S w' bs;
    ad_readBytes w bs n : S w bs → 0 < n ≤ len bs →
      ∃ w', readBytes n w = Ok ((n, take (Z.to_nat n) bs), w') ∧ S w' (drop (Z.to_nat n) bs);
    ad_millis w bs : S w bs → ∃ now w', millis w = Ok (now, w') ∧ S w' bs }.

(** The Arduino platform keeps the promise the theorems about the client's receiving assume:
    bytes that have arrived are a stream. *)
Theorem arduino_is_stream (S : W → list Z → Prop) Handler (call : Handler → MessageData → M W unit) :
  arrived S →
  ClientIO.stream (H0 := arduino Handler call) (λ w bs, S w bs ∧ len bs ≤ INT_MAX).
Proof.
  intros HS. split.
  - intros w bs rest ms [Hw HI] Hbs. apply len_pos in Hbs. rewrite length_app in HI.
    cbn [mqttread arduino]. unfold read. cbn [wait_loop].
    destruct (ad_available S HS w _ Hw) as (w1 & E1 & H1).
    destruct (ad_available S HS w1 _ H1) as (w2 & E2 & H2).
    destruct (ad_readBytes S HS w2 _ (len bs) H2) as (w3 & E3 & H3);
      [rewrite length_app; lia|]. rewrite length_app in E1, E2.
    rewrite (run_bind _ _ _ 0 w1).
    + rewrite (run_bind _ _ _ _ _ E2). ztest. rewrite (run_bind _ _ _ _ _ E3).
      rewrite take_len_app, drop_len_app in * by done.
      exists w3. rewrite to_int_id by (unfold in_int, INT_MIN, INT_MAX in *; lia).
      split; [done|]. split; [done|lia].
    + rewrite (run_bind _ _ _ _ _ E1). by ztest.
  - intros t w bs [Hw HI]. destruct (ad_millis S HS w bs Hw) as (now & w1 & E & H1).
    cbn [TimerLeftMS arduino]. unfold left_ms. eexists _, t, w1. split; [|done].
    unfold mbind, M_bind. rewrite E. reflexivity.
  - intros t n w bs [Hw HI]. destruct (ad_millis S HS w bs Hw) as (now & w1 & E & H1).
    cbn [TimerCountdown arduino]. unfold countdown, countdown_ms. eexists _, w1. split; [|done].
    rewrite (run_bind _ _ _ _ _ E). reflexivity.
Qed.

End Reading.

(** *** Evaluation

    A board with a clock that advances by a millisecond at every look and
    with delays, and the bytes that have arrived. *)
#[local] Instance board_sim : Board (Z * list Z) :=
  {| millis := λ w, Ok (fst w, (fst w + 1, snd w));
     delay := λ n, modify (λ w, (fst w + n, snd w));
     client_connect := λ _ _, mret 1; client_connect_ip := λ _ _, mret 1;
     available := gets (λ w, len (snd w));
     readBytes := λ n w, Ok ((n, take (Z.to_nat n) (snd w)), (fst w, drop (Z.to_nat n) (snd w)));
     setTimeout := λ _, mret tt; client_write := λ _ n, mret n; stop := mret tt |}.

(** Ten milliseconds from 4294967290 on are over at once. *)
Lemma arduino_countdown_deadline_witness :
  ∃ t, countdown_ms 10 (4294967290, []) = Ok (t, (4294967291, [])) ∧
    left_ms t (4294967291, []) = Ok (0, (4294967292, [])) ∧
    expired t (4294967291, []) = Ok (true, (4294967292, [])).
Proof.
  destruct (arduino_countdown_deadline 10 (4294967290, []) 4294967290 (4294967291, [])
    (4294967291, []) 4294967291 (4294967292, [])) as (t & E & E1 & E2); [lia|done|done|lia|lia|].
  exists t. split; [exact E|]. split; [exact E1|exact E2].
Defined.

(** Two bytes are there, three are asked for: given up after 40 ms. *)
Lemma arduino_read_returns_witness :
  ∃ r w', read 3 40 (7, [1; 2]) = Ok (r, w') ∧ True.
Proof.
  apply (arduino_read_returns (λ _ : Z * list Z, True) 3 40 (7, [1; 2]));
    [|done|unfold INT_MAX; lia].
  split; repeat intro; by eexists _, _.
Defined.

Example read_gives_up : read 3 40 (7, [1; 2]) = Ok ((0, []), (47, [1; 2])).
Proof. reflexivity. Qed.

Lemma wifi_read_spins_witness : wifi_read 100 1 1000 (7, []) = NoFuel.
Proof.
  apply (wifi_read_spins (λ w : Z * list Z, snd w = []) 100 1 1000 (7, [])); [|by eexists _, _|done].
  intros [t l] E. cbn in E. subst l. by eexists.
Defined.

Lemma arduino_is_stream_witness :
  ∃ w', mqttread (Platform := arduino unit (λ _ _, mret tt)) 2 100 (7, [1; 2; 3]) = Ok ((2, [1; 2]), w').
Proof.
  destruct (ClientIO.sr_read (H0 := arduino unit (λ _ _, mret tt)) _ (arduino_is_stream (λ (w : Z * list Z) bs, snd w = bs) unit
    (λ _ _, mret tt) ltac:(split; [by intros [t l] bs <-; eexists|
      by intros [t l] bs n <- Hn; eexists|by intros [t l] bs <-; eexists _, _]))
    (7, [1; 2; 3]) [1; 2] [3] 100) as (w' & E & _); [split; [done|cbn; unfold INT_MAX; lia]|done|].
  exists w'. exact E.
Defined.

End Arduino.

(** ** mbed *)

Module Mbed.

(** The methods of TCPSocketConnection. *)
Class TCPSocketConnection (W : Type) : Type :=
  { set_blocking : bool → Z → M W unit;
    sock_connect : ptr → Z → M W Z;
    receive : Z → M W (Z * list Z);
    send : ptr → Z → M W Z;
    sock_close : M W Z }.

Section Mbed.
Context {W : Type} `{TCPSocketConnection W}.

(** [timeout] is 1000 unless given. *)
Definition connect (hostname : ptr) (port timeout : Z) : M W Z :=
  set_blocking false timeout ;; sock_connect hostname port.

Definition read (len timeout : Z) : M W (Z * list Z) :=
  set_blocking false timeout ;; receive len.

Definition write (buffer : ptr) (len timeout : Z) : M W Z :=
  set_blocking false timeout ;; send buffer len.

Definition disconnect : M W Z := sock_close.

End Mbed.
End Mbed.
