(* ===== verification/Numerals.v ===== *)
(** * Numbers as text

    The functions of <stdlib.h> and <stdio.h> that read a number from text,
    and the numerals of a base, which they read back. Nothing here models a
    file under src/. *)

From S2P Require Import Prelude CSem.

(** isspace and isdigit, in the C locale. *)
Definition blank (c : Z) : bool := (c =? 32) || ((9 <=? c) && (c <=? 13)).
Definition isdigit (c : Z) : bool := (48 <=? c) && (c <=? 57).

Definition digit_of (c : Z) : option Z :=
  if isdigit c then Some (c - 48)
  else if (97 <=? c) && (c <=? 122) then Some (c - 87)
  else if (65 <=? c) && (c <=? 90) then Some (c - 55)
  else None.

Definition is_digit (b c : Z) : bool :=
  match digit_of c with Some d => d <? b | None => false end.

Fixpoint drop_blanks (l : list Z) : list Z :=
  match l with c :: r => if blank c then drop_blanks r else l | [] => [] end.

(** The value of the digits at the front of [l], after [acc]; and what follows
    them. *)
Fixpoint num (b acc : Z) (l : list Z) : Z :=
  match l with
  | c :: r => match digit_of c with
              | Some d => if d <? b then num b (acc * b + d) r else acc
              | None => acc
              end
  | [] => acc
  end.

Fixpoint after_num (b : Z) (l : list Z) : list Z :=
  match l with c :: r => if is_digit b c then after_num b r else l | [] => [] end.

Definition sign (l : list Z) : bool * list Z :=
  match l with
  | c :: r => if c =? 45 then (true, r) else if c =? 43 then (false, r) else (false, l)
  | [] => (false, [])
  end.

(** The prefix 0x of base 16, when a digit follows. *)
Definition drop_0x (l : list Z) : list Z :=
  match l with
  | 48 :: x :: c :: r => if ((x =? 120) || (x =? 88)) && is_digit 16 c then c :: r else l
  | _ => l
  end.

Definition LONG_MAX `{CImpl} : Z := if lp64 then 9223372036854775807 else 2147483647.

(** strtol; [l] is the text from the pointer on, which ends with a NUL or at the
    end of the list. *)
Definition strtol `{CImpl} (b : Z) (l : list Z) : Z :=
  let '(neg, l) := sign (drop_blanks l) in
  let v := num b 0 (if b =? 16 then drop_0x l else l) in
  if neg then Z.max (- LONG_MAX - 1) (- v) else Z.min LONG_MAX v.

(** atoi, where the number is an int. *)
Definition atoi (l : list Z) : Z :=
  let '(neg, l) := sign (drop_blanks l) in
  to_int (if neg then - num 10 0 l else num 10 0 l).

(** ** Numerals *)

Definition digit_char (d : Z) : Z := if d <? 10 then 48 + d else 87 + d.

Fixpoint numeral_go (fuel : nat) (b n : Z) (acc : list Z) : list Z :=
  match fuel with
  | O => acc
  | S fuel =>
      let acc := digit_char (n mod b) :: acc in
      if n / b =? 0 then acc else numeral_go fuel b (n / b) acc
  end.

Definition numeral (b n : Z) : list Z := numeral_go (S (Z.to_nat (Z.log2 n))) b n [].

Lemma digit_of_char d : 0 ≤ d < 36 → digit_of (digit_char d) = Some d.
Proof.
  intros. unfold digit_of, isdigit, digit_char. destruct (Z.ltb_spec d 10).
  - destruct (Z.leb_spec 48 (48 + d)), (Z.leb_spec (48 + d) 57); cbn; f_equal; lia.
  - destruct (Z.leb_spec 48 (87 + d)), (Z.leb_spec (87 + d) 57); cbn; try (exfalso; lia).
    destruct (Z.leb_spec 97 (87 + d)), (Z.leb_spec (87 + d) 122); cbn; f_equal; lia.
Qed.

Lemma is_digit_char b d : 0 ≤ d < b → b ≤ 36 → is_digit b (digit_char d) = true.
Proof. intros. unfold is_digit. rewrite digit_of_char by lia. lia. Qed.

Lemma num_stop b acc l : (∀ c r, l = c :: r → is_digit b c = false) → num b acc l = acc.
Proof.
  destruct l as [|c r]; [done|]. intros Hc. specialize (Hc c r eq_refl). cbn. unfold is_digit in Hc.
  destruct (digit_of c); [by rewrite Hc|done].
Qed.

Lemma num_digit b acc d l :
  0 ≤ d < b → b ≤ 36 → num b acc (digit_char d :: l) = num b (acc * b + d) l.
Proof.
  intros. cbn. rewrite digit_of_char by lia. by destruct (Z.ltb_spec d b); [|lia].
Qed.

Lemma num_numeral_go fuel b n acc :
  2 ≤ b ≤ 36 → 0 ≤ n < 2 ^ Z.of_nat fuel → (0 < fuel)%nat →
  num b 0 (numeral_go fuel b n acc) = num b n acc.
Proof.
  intros Hb. revert n acc. induction fuel as [|fuel IH]; intros n acc Hn HF; [lia|].
  cbn [numeral_go]. rewrite Nat2Z.inj_succ, Z.pow_succ_r in Hn by lia.
  pose proof (Z.mod_pos_bound n b ltac:(lia)). pose proof (Z.div_mod n b ltac:(lia)).
  pose proof (Z.div_pos n b ltac:(lia) ltac:(lia)).
  destruct (Z.eqb_spec (n / b) 0) as [E|E].
  - rewrite num_digit by lia. f_equal. lia.
  - assert (Hd : n / b < 2 ^ Z.of_nat fuel).
    { apply Z.div_lt_upper_bound; [lia|]. pose proof (Z.pow_pos_nonneg 2 (Z.of_nat fuel)). nia. }
    destruct fuel as [|fuel]; [cbn in Hd; lia|].
    rewrite IH, num_digit by lia. f_equal. lia.
Qed.

(** The text of a number reads back, whatever follows. *)
Lemma num_numeral b n post :
  2 ≤ b ≤ 36 → 0 ≤ n → num b 0 (numeral b n ++ post) = num b n post.
Proof.
  intros Hb Hn. unfold numeral.
  assert (HA : ∀ fuel m acc, numeral_go fuel b m acc ++ post = numeral_go fuel b m (acc ++ post)).
  { induction fuel as [|fuel IH]; intros m acc; cbn [numeral_go]; [done|].
    destruct (m / b =? 0); [done|]. by rewrite IH. }
  rewrite HA. cbn [app]. apply num_numeral_go; [done| |lia]. split; [lia|].
  destruct (Z.eq_dec n 0) as [->|]; [by vm_compute|].
  pose proof (Z.log2_spec n ltac:(lia)) as [_ HL].
  rewrite Nat2Z.inj_succ, Z2Nat.id by apply Z.log2_nonneg. done.
Qed.

(** The characters of a numeral are digits. *)
Lemma numeral_digits b n : 2 ≤ b ≤ 36 → 0 ≤ n → Forall (λ c, is_digit b c = true) (numeral b n).
Proof.
  intros Hb. unfold numeral.
  assert (HA : ∀ fuel m acc, 0 ≤ m → Forall (λ c, is_digit b c = true) acc →
    Forall (λ c, is_digit b c = true) (numeral_go fuel b m acc)).
  { induction fuel as [|fuel IH]; intros m acc Hm HF; cbn [numeral_go]; [done|].
    pose proof (Z.mod_pos_bound m b ltac:(lia)).
    assert (is_digit b (digit_char (m mod b)) = true) by (apply is_digit_char; lia).
    destruct (m / b =? 0); [by constructor|]. apply IH; [by apply Z.div_pos; lia|by constructor]. }
  intros. by apply HA.
Qed.

Lemma is_digit_range b c : b ≤ 36 → is_digit b c = true →
  48 ≤ c ≤ 57 ∨ 97 ≤ c ≤ 122 ∨ 65 ≤ c ≤ 90.
Proof.
  intros Hb. unfold is_digit, digit_of, isdigit.
  destruct (Z.leb_spec 48 c), (Z.leb_spec c 57), (Z.leb_spec 97 c), (Z.leb_spec c 122),
    (Z.leb_spec 65 c), (Z.leb_spec c 90); cbn; intros; lia || done.
Qed.

Lemma numeral_cons b n : ∃ c l, numeral b n = c :: l.
Proof.
  unfold numeral.
  assert (HA : ∀ fuel m acc, (acc ≠ [] ∨ 0 < fuel)%nat →
    ∃ c l, numeral_go fuel b m acc = c :: l).
  { induction fuel as [|fuel IH]; intros m acc HF; cbn [numeral_go].
    - destruct acc as [|c l]; [naive_solver lia|by exists c, l].
    - destruct (m / b =? 0); [eauto|]. apply IH. by left. }
  apply HA. right. lia.
Qed.

(** What follows the digits. *)
Lemma after_num_app b l post :
  Forall (λ c, is_digit b c = true) l → (∀ c r, post = c :: r → is_digit b c = false) →
  after_num b (l ++ post) = post.
Proof.
  intros HF Hp. induction HF as [|c l Hc HF IH]; cbn; [|by rewrite Hc].
  destruct post as [|c r]; [done|]. cbn. by rewrite (Hp c r).
Qed.

Lemma isdigit_10 c : is_digit 10 c = true → isdigit c = true.
Proof.
  unfold is_digit, digit_of. destruct (isdigit c); [done|].
  destruct (Z.leb_spec 97 c), (Z.leb_spec c 122), (Z.leb_spec 65 c), (Z.leb_spec c 90); cbn;
    try done; ztests; done || lia.
Qed.

(** ** Reading a numeral *)

Lemma blank_digit b c : b ≤ 36 → is_digit b c = true → blank c = false.
Proof.
  intros Hb Hc%is_digit_range; [|done]. unfold blank.
  destruct (Z.eqb_spec c 32); [lia|]. destruct (Z.leb_spec c 13); [lia|]. by rewrite andb_false_r.
Qed.

(** Text that begins with a digit has no blanks or sign before it. *)
Lemma sign_digit b c l :
  b ≤ 36 → is_digit b c = true → sign (drop_blanks (c :: l)) = (false, c :: l).
Proof.
  intros Hb Hc. cbn [drop_blanks]. rewrite (blank_digit b) by done. cbn.
  apply is_digit_range in Hc; [|done].
  by destruct (Z.eqb_spec c 45), (Z.eqb_spec c 43); try lia.
Qed.

Lemma drop_0x_digits l : Forall (λ c, is_digit 16 c = true) l → drop_0x l = l.
Proof.
  intros HF. unfold drop_0x. destruct l as [|a [|x [|c r]]]; try (repeat case_match; done).
  assert (Hx : is_digit 16 x = true) by (by apply Forall_inv_tail, Forall_inv in HF).
  assert (x =? 120 = false ∧ x =? 88 = false) as [-> ->]; [|repeat case_match; done].
  split; apply Z.eqb_neq; intros ->; by vm_compute in Hx.
Qed.

Lemma strtol_numeral `{CImpl} b n :
  2 ≤ b ≤ 36 → 0 ≤ n ≤ INT_MAX → strtol b (numeral b n) = n.
Proof.
  intros Hb Hn. unfold strtol. pose proof (numeral_digits b n ltac:(lia) ltac:(lia)) as HD.
  destruct (numeral_cons b n) as (c & l & E).
  assert (Hc : is_digit b c = true) by (rewrite E in HD; by apply Forall_inv in HD).
  rewrite E, (sign_digit b) by (done || lia).
  rewrite <-E. assert ((if b =? 16 then drop_0x (numeral b n) else numeral b n) = numeral b n) as ->.
  { destruct (Z.eqb_spec b 16) as [->|]; [by apply drop_0x_digits|done]. }
  pose proof (num_numeral b n [] Hb ltac:(lia)) as EN. rewrite app_nil_r in EN. rewrite EN. cbn.
  unfold LONG_MAX, INT_MAX in *. destruct lp64; lia.
Qed.

Lemma numeral_length b n : len (numeral b n) ≤ 1 + Z.log2 n.
Proof.
  unfold numeral.
  assert (HA : ∀ fuel m acc, (length (numeral_go fuel b m acc) ≤ fuel + length acc)%nat).
  { induction fuel as [|fuel IH]; intros m acc; cbn [numeral_go]; [lia|].
    destruct (m / b =? 0); [cbn; lia|]. specialize (IH (m / b) (digit_char (m mod b) :: acc)).
    cbn in IH. lia. }
  specialize (HA (S (Z.to_nat (Z.log2 n))) n []). cbn [length] in HA.
  pose proof (Z.log2_nonneg n). lia.
Qed.
