(* ===== verification/ArduinoString.v ===== *)
(** * The String class of the Arduino core

    The operations of String the HTTP client uses, as a class; what their
    documentation says, as a second class; and an instance of both to evaluate
    and to discharge it. A String is its characters, as bytes. *)

From S2P Require Import Prelude CSem Numerals.

(** The indices are unsigned int: a caller that passes an int converts it. *)
Class ArduinoString : Type :=
  { str_add : list Z → list Z → list Z;          (* +, += *)
    indexOf_char : list Z → Z → Z → Z;           (* indexOf(ch, fromIndex) *)
    indexOf : list Z → list Z → Z;               (* indexOf(const String &) *)
    substring : list Z → Z → Z → list Z;         (* substring(left, right) *)
    substring_from : list Z → Z → list Z;        (* substring(left) *)
    remove : list Z → Z → Z → list Z;            (* remove(index, count) *)
    trim : list Z → list Z;
    toInt : list Z → Z;
    equalsIgnoreCase : list Z → list Z → bool;
    startsWith : list Z → list Z → bool;
    replace : list Z → list Z → list Z → list Z; (* replace(find, with) *)
    charAt : list Z → Z → Z;                     (* operator[] *)
    String_of : Z → list Z }.                    (* String(unsigned) *)

Notation "a +s b" := (str_add a b) (at level 50, left associativity) : c_scope.

(** Decimal numerals; lower case; the text without the blanks around it. *)
Definition dec (n : Z) : list Z := numeral 10 n.
Definition lower (c : Z) : Z := if (65 <=? c) && (c <=? 90) then c + 32 else c.
Definition strip (l : list Z) : list Z := rev (drop_blanks (rev (drop_blanks l))).

(** What the documentation says, memory permitting. A position that is not
    there is -1. *)
Class StringLaws `{ArduinoString} : Prop :=
  { add_app a b : str_add a b = a ++ b;
    index_char pre skip c post :
      c ∉ skip → indexOf_char (pre ++ skip ++ c :: post) c (len pre) = len pre + len skip;
    index_char_none pre skip c : c ∉ skip → indexOf_char (pre ++ skip) c (len pre) = -1;
    index_some s p pre post :
      s = pre ++ p ++ post →
      ∃ pre' post', s = pre' ++ p ++ post' ∧ len pre' ≤ len pre ∧ indexOf s p = len pre';
    index_none s p : (∀ pre post, s ≠ pre ++ p ++ post) → indexOf s p = -1;
    substring_take s l r :
      0 ≤ l ≤ r → substring s l r = take (Z.to_nat (r - l)) (drop (Z.to_nat l) s);
    substring_from_drop s l : 0 ≤ l → substring_from s l = drop (Z.to_nat l) s;
    remove_front s n : 0 ≤ n → remove s 0 n = drop (Z.to_nat n) s;
    trim_strip s : trim s = strip s;
    toInt_dec n post :
      0 ≤ n ≤ INT_MAX → (∀ c l, post = c :: l → isdigit c = false) →
      toInt (dec n ++ post) = n;
    equals_lower a b : equalsIgnoreCase a b = bool_decide (map lower a = map lower b);
    starts_prefix s p : startsWith s p = bool_decide (p `prefix_of` s);
    replace_absent s p q : (∀ pre post, s ≠ pre ++ p ++ post) → replace s p q = s;
    charAt_nth s i : 0 ≤ i < len s → charAt s i = nth (Z.to_nat i) s 0;
    String_of_dec n : 0 ≤ n → String_of n = dec n }.

(** ** An instance *)

Fixpoint find_char (l : list Z) (c : Z) (i : Z) : Z :=
  match l with
  | [] => -1
  | x :: l => if x =? c then i else find_char l c (i + 1)
  end.

Fixpoint has_prefix (p l : list Z) : bool :=
  match p, l with
  | [], _ => true
  | a :: p, b :: l => (a =? b) && has_prefix p l
  | _, [] => false
  end.

Fixpoint find_str (l p : list Z) (i : Z) : Z :=
  if has_prefix p l then i
  else match l with [] => -1 | _ :: l => find_str l p (i + 1) end.

(** Occurrences, which do not overlap, from the left. *)
Fixpoint replace_all (fuel : nat) (l p q : list Z) : list Z :=
  match fuel, l with
  | S n, x :: r =>
      if negb (bool_decide (p = [])) && has_prefix p l
      then q ++ replace_all n (drop (length p) l) p q else x :: replace_all n r p q
  | _, _ => l
  end.

Definition upto (s : list Z) (i : Z) : nat := Z.to_nat (Z.min i (len s)).

#[export] Instance plain_string : ArduinoString :=
  {| str_add a b := a ++ b;
     indexOf_char s c i := find_char (drop (Z.to_nat i) s) c i;
     indexOf s p := find_str s p 0;
     substring s l r := take (upto s (r - l)) (drop (upto s l) s);
     substring_from s l := drop (upto s l) s;
     remove s i n := take (upto s i) s ++ drop (upto s (i + n)) s;
     trim := strip;
     toInt s := let '(neg, l) := sign (drop_blanks s) in if neg then - num 10 0 l else num 10 0 l;
     equalsIgnoreCase a b := bool_decide (map lower a = map lower b);
     startsWith s p := has_prefix p s;
     replace s p q := replace_all (length s) s p q;
     charAt s i := nth (Z.to_nat i) s 0;
     String_of := dec |}.
#[global] Remove Hints plain_string : typeclass_instances.

Lemma find_char_skip l c i r : c ∉ l → find_char (l ++ c :: r) c i = i + len l.
Proof.
  revert i. induction l as [|x l IH]; intros i Hc; cbn.
  - rewrite Z.eqb_refl. lia.
  - apply not_elem_of_cons in Hc as [Hx Hl]. destruct (Z.eqb_spec x c); [done|].
    rewrite IH by done. lia.
Qed.

Lemma find_char_none l c i : c ∉ l → find_char l c i = -1.
Proof.
  revert i. induction l as [|x l IH]; intros i Hc; cbn; [done|].
  apply not_elem_of_cons in Hc as [Hx Hl]. destruct (Z.eqb_spec x c); [done|]. by apply IH.
Qed.

Lemma has_prefix_spec p l : has_prefix p l = bool_decide (p `prefix_of` l).
Proof.
  revert l. induction p as [|a p IH]; intros l; cbn.
  - symmetry. apply bool_decide_eq_true. apply prefix_nil.
  - destruct l as [|b l]; [symmetry; apply bool_decide_eq_false, prefix_nil_not|].
    rewrite IH. destruct (Z.eqb_spec a b) as [->|Hn]; cbn.
    + apply bool_decide_ext. split; [apply prefix_cons|apply prefix_cons_inv_2].
    + symmetry. apply bool_decide_eq_false. by intros ?%prefix_cons_inv_1.
Qed.

Lemma find_str_first s p pre post i :
  s = pre ++ p ++ post →
  ∃ pre' post', s = pre' ++ p ++ post' ∧ len pre' ≤ len pre ∧ find_str s p i = i + len pre'.
Proof.
  revert pre i. induction s as [|x s IH]; intros pre i E.
  - symmetry in E. apply app_nil in E as [-> [-> ->]%app_nil]. exists [], []. cbn. repeat split; lia.
  - destruct (has_prefix p (x :: s)) eqn:EP.
    + assert (find_str (x :: s) p i = i) as -> by (cbn [find_str]; by rewrite EP).
      rewrite has_prefix_spec, bool_decide_eq_true in EP. destruct EP as [post' E'].
      exists [], post'. split; [done|]. cbn. lia.
    + assert (find_str (x :: s) p i = find_str s p (i + 1)) as -> by (cbn [find_str]; by rewrite EP).
      destruct pre as [|y pre].
      { rewrite has_prefix_spec, bool_decide_eq_false in EP. destruct EP. by exists post. }
      injection E as -> E. destruct (IH pre (i + 1) E) as (pre' & post' & E' & HL & EF).
      exists (y :: pre'), post'. rewrite EF. cbn. repeat split; [by rewrite E'|lia|lia].
Qed.

Lemma find_str_none s p i : (∀ pre post, s ≠ pre ++ p ++ post) → find_str s p i = -1.
Proof.
  revert i. induction s as [|x s IH]; intros i HN; cbn [find_str].
  - destruct (has_prefix p []) eqn:EP; [|done].
    rewrite has_prefix_spec, bool_decide_eq_true in EP. destruct EP as [post E].
    by destruct (HN [] post).
  - destruct (has_prefix p (x :: s)) eqn:EP.
    + rewrite has_prefix_spec, bool_decide_eq_true in EP. destruct EP as [post E].
      by destruct (HN [] post).
    + apply IH. intros pre post E. by destruct (HN (x :: pre) post); rewrite E.
Qed.

Lemma replace_all_absent n l p q : (∀ pre post, l ≠ pre ++ p ++ post) → replace_all n l p q = l.
Proof.
  revert l. induction n as [|n IH]; intros l HN; [done|]. destruct l as [|x l]; [done|].
  cbn [replace_all]. destruct (has_prefix p (x :: l)) eqn:EP.
  - rewrite has_prefix_spec, bool_decide_eq_true in EP. destruct EP as [post E].
    by destruct (HN [] post).
  - rewrite andb_false_r. f_equal. apply IH. intros pre post E.
    by destruct (HN (x :: pre) post); rewrite E.
Qed.

Lemma take_upto (s : list Z) i (l : list Z) : (length l ≤ length s)%nat → take (upto s i) l = take (Z.to_nat i) l.
Proof.
  intros HL. unfold upto. destruct (Z.le_ge_cases i (len s)); [by rewrite Z.min_l|].
  rewrite Z.min_r by done. rewrite !take_ge; [done|lia..].
Qed.

Lemma drop_upto (s : list Z) i : drop (upto s i) s = drop (Z.to_nat i) s.
Proof.
  unfold upto. destruct (Z.le_ge_cases i (len s)); [by rewrite Z.min_l|].
  rewrite Z.min_r by done. rewrite !drop_ge; [done|lia..].
Qed.

Lemma is_digit_10 c : is_digit 10 c = isdigit c.
Proof.
  unfold is_digit, digit_of, isdigit.
  destruct (Z.leb_spec 48 c), (Z.leb_spec c 57), (Z.leb_spec 97 c), (Z.leb_spec c 122),
    (Z.leb_spec 65 c), (Z.leb_spec c 90); cbn; lia.
Qed.

(** Digits before the end of a line are all that is left of it. *)
Lemma strip_digits b l :
  b ≤ 36 → l ≠ [] → Forall (λ c, is_digit b c = true) l → strip (l ++ [13]) = l.
Proof.
  intros Hb Hl HF. unfold strip. destruct l as [|c l]; [done|].
  assert (drop_blanks ((c :: l) ++ [13]) = (c :: l) ++ [13]) as ->.
  { cbn. by rewrite (blank_digit b) by (done || by apply Forall_inv in HF). }
  rewrite rev_app_distr. cbn [rev app]. change (drop_blanks (13 :: rev l ++ [c]))
    with (drop_blanks (rev (c :: l))).
  apply Forall_rev in HF. destruct (rev (c :: l)) as [|x r] eqn:E.
  { apply (f_equal length) in E. rewrite length_rev in E. done. }
  cbn [drop_blanks]. rewrite ?E in HF.
  rewrite (blank_digit b) by (done || by apply Forall_inv in HF).
  rewrite <-E. apply rev_involutive.
Qed.

#[export] Instance plain_laws : StringLaws (H := plain_string).
Proof.
  split; cbn [str_add indexOf_char indexOf substring substring_from remove trim toInt
    equalsIgnoreCase startsWith replace charAt String_of plain_string].
  - done.
  - intros pre skip c post Hc. rewrite drop_len_app by done. by apply find_char_skip.
  - intros pre skip c Hc. rewrite drop_len_app by done. by apply find_char_none.
  - intros s p pre post E. destruct (find_str_first s p pre post 0 E) as (pre' & post' & ? & ? & ->).
    by exists pre', post'.
  - intros s p HN. by apply find_str_none.
  - intros s l r Hlr. rewrite drop_upto. apply take_upto. rewrite length_drop. lia.
  - intros s l _. apply drop_upto.
  - intros s n Hn. rewrite Z.add_0_l, drop_upto. unfold upto. by rewrite Z.min_l by lia.
  - done.
  - intros n post Hn HP. destruct (numeral_cons 10 n) as (c & l & E).
    pose proof (numeral_digits 10 n ltac:(lia) ltac:(lia)) as HD. rewrite E in HD.
    apply Forall_inv in HD. unfold dec.
    rewrite E. cbn [app]. rewrite (sign_digit 10) by (done || lia).
    change (c :: l ++ post) with ((c :: l) ++ post). rewrite <-E, num_numeral by lia.
    apply num_stop. intros x r Ex. rewrite is_digit_10. by eapply HP.
  - done.
  - intros s p. apply has_prefix_spec.
  - intros s p q. apply replace_all_absent.
  - done.
  - done.
Qed.
