(* ===== verification/Lwip.v ===== *)
(** * The sockets of lwIP, as the C++ wrappers use them

    The functions of lwIP that src/src calls, as the operations of a class;
    methods of an object over them; and what the documentation of lwIP says
    about descriptors. *)

From stdpp Require Import gmap.
From S2P Require Import Prelude CSem.

(** ** The functions

    A sockaddr_in is its address and port, as they are stored. A function that
    stores at an address it is given returns what it stores. *)
Record sockaddr_in : Type := SockAddr { s_addr : Z; sin_port : Z }.

Inductive socktype : Type := SOCK_STREAM | SOCK_DGRAM.

(** The options the wrappers set, with their values. *)
Inductive sockopt : Type :=
  | SO_KEEPALIVE (v : Z) | SO_REUSEADDR (v : Z) | TCP_NODELAY (v : Z)
  | SO_SNDTIMEO (sec usec : Z) | SO_RCVTIMEO (sec usec : Z)
  | SO_SNDTIMEO_int (v : Z) | SO_RCVTIMEO_int (v : Z).

Class Lwip (W : Type) : Type :=
  { lwip_socket : socktype → M W Z;
    lwip_setsockopt : Z → sockopt → M W Z;
    lwip_connect : Z → sockaddr_in → M W Z;
    lwip_bind : Z → sockaddr_in → M W Z;
    lwip_listen : Z → Z → M W Z;
    (* the length given, if it is initialised; the address stored *)
    lwip_accept : Z → option Z → M W (Z * option sockaddr_in);
    lwip_getsockname : Z → M W (Z * option sockaddr_in);
    lwip_shutdown : Z → Z → M W Z;
    lwip_close : Z → M W Z;
    lwip_write : Z → ptr → Z → M W Z;
    lwip_sendto : Z → ptr → Z → sockaddr_in → M W Z;
    lwip_recv : Z → Z → M W (Z * list Z);
    lwip_recvfrom : Z → Z → M W (Z * list Z * option sockaddr_in);
    (* ioctl(FIONREAD): the number stored, if one is *)
    lwip_ioctl_fionread : Z → M W (option Z);
    (* select on one descriptor for reading, without a timeout *)
    lwip_select_read : Z → Z → M W Z;
    (* getsockopt(SO_ERROR): the error stored, if one is *)
    lwip_getsockopt_error : Z → M W (option Z);
    lwip_fcntl_nonblock : Z → M W unit;
    (* the numeric address, or IPADDR_NONE *)
    inet_addr : ptr → Z;
    (* the result, and families and IPv4 addresses of the list *)
    lwip_getaddrinfo : ptr → M W (Z * list (Z * Z)) }.

Definition AF_INET : Z := 2.
Definition IPADDR_NONE : Z := 4294967295.
Definition IPADDR_BROADCAST : Z := 4294967295.
Definition INADDR_ANY : Z := 0.

(** The byte order of the network on a little-endian processor (which those of
    the build files are). *)
Definition lwip_htons (v : Z) : Z := 256 * (v mod 256) + v / 256 mod 256.
Definition lwip_htonl (v : Z) : Z :=
  65536 * lwip_htons (v mod 65536) + lwip_htons (v / 65536 mod 65536).

(** struct timeval *)
Definition timeval : Type := (Z * Z)%type.

(** ** Methods

    A method works on its object and on the world. *)
Section Methods.
Context {O W : Type}.

Definition sys {A} (m : M W A) : M (O * W) A := λ s,
  match m s.2 with Ok (a, w) => Ok (a, (s.1, w)) | UB u => UB u | NoFuel => NoFuel end.

Definition self : M (O * W) O := gets fst.
Definition become (f : O → O) : M (O * W) unit := modify (λ s, (f s.1, s.2)).

Lemma bind_world {A B} (m : M W A) (f : A → M (O * W) B) o w a w' :
  m w = Ok (a, w') → (sys m ≫= f) (o, w) = f a (o, w').
Proof. intros E. apply run_bind. unfold sys. cbn. by rewrite E. Qed.

Lemma bind_self {B} (f : O → M (O * W) B) o w : (self ≫= f) (o, w) = f o (o, w).
Proof. done. Qed.

Lemma bind_become {B} g (f : unit → M (O * W) B) o w : (become g ≫= f) (o, w) = f tt (g o, w).
Proof. done. Qed.

Lemma sys_inv {A} (m : M W A) o w a s' :
  sys m (o, w) = Ok (a, s') → ∃ w', m w = Ok (a, w') ∧ s' = (o, w').
Proof.
  unfold sys. cbn. destruct (m w) as [[b v]| |]; [|done..]. intros [= <- <-]. by exists v.
Qed.

End Methods.

(** ** Computations that return

    [yields I m P]: while the world satisfies [I], [m] returns with a result in
    [P] and keeps [I]; [does I m o Q]: so does a method on the object [o], with
    [Q] of the result and of what the object has become. *)
Definition yields {W A} (I : W → Prop) (m : M W A) (P : A → Prop) : Prop :=
  ∀ w, I w → ∃ a w', m w = Ok (a, w') ∧ P a ∧ I w'.

Definition does {O W A} (I : W → Prop) (m : M (O * W) A) (o : O) (Q : A → O → Prop) : Prop :=
  ∀ w, I w → ∃ a o' w', m (o, w) = Ok (a, (o', w')) ∧ Q a o' ∧ I w'.

Section Does.
Context {O W : Type} (I : W → Prop).

Lemma yields_ret {A} (a : A) (P : A → Prop) : P a → yields I (mret a) P.
Proof. intros Ha w Hw. by exists a, w. Qed.

Lemma yields_bind {A B} (m : M W A) (f : A → M W B) P Q :
  yields I m P → (∀ a, P a → yields I (f a) Q) → yields I (m ≫= f) Q.
Proof.
  intros Hm Hf w Hw. destruct (Hm w Hw) as (a & w1 & E & Ha & Hw1).
  rewrite (run_bind _ _ _ _ _ E). by apply Hf.
Qed.

Lemma does_ret {A} (a : A) (o : O) (Q : A → O → Prop) : Q a o → does I (mret a) o Q.
Proof. intros Ha w Hw. by exists a, o, w. Qed.

Lemma does_bind {A B} (m : M (O * W) A) (f : A → M (O * W) B) o R Q :
  does I m o R → (∀ a o', R a o' → does I (f a) o' Q) → does I (m ≫= f) o Q.
Proof.
  intros Hm Hf w Hw. destruct (Hm w Hw) as (a & o1 & w1 & E & Ha & Hw1).
  rewrite (run_bind _ _ _ _ _ E). by apply Hf.
Qed.

Lemma does_sys {A B} (m : M W A) (f : A → M (O * W) B) o P Q :
  yields I m P → (∀ a, P a → does I (f a) o Q) → does I (sys m ≫= f) o Q.
Proof.
  intros Hm Hf w Hw. destruct (Hm w Hw) as (a & w1 & E & Ha & Hw1).
  rewrite (bind_world _ _ _ _ _ _ E). by apply Hf.
Qed.

Lemma does_sys_last {A} (m : M W A) o (P : A → Prop) (Q : A → O → Prop) :
  yields I m P → (∀ a, P a → Q a o) → does I (sys m) o Q.
Proof.
  intros Hm Hf w Hw. destruct (Hm w Hw) as (a & w1 & E & Ha & Hw1).
  exists a, o, w1. unfold sys. cbn. rewrite E. auto.
Qed.

Lemma does_self {B} (f : O → M (O * W) B) o Q : does I (f o) o Q → does I (self ≫= f) o Q.
Proof. done. Qed.

Lemma does_become {B} g (f : unit → M (O * W) B) o Q :
  does I (f tt) (g o) Q → does I (become g ≫= f) o Q.
Proof. done. Qed.

Lemma does_become_last g o (Q : unit → O → Prop) : Q tt (g o) → does I (become g) o Q.
Proof. intros HQ w Hw. by exists tt, (g o), w. Qed.

End Does.

(** The first IPv4 address of the list that getaddrinfo gives, or else its
    first address; an empty list is a null pointer. *)
Definition prefer_ip4 (l : list (Z * Z)) : outcome (Z * Z) :=
  match filter (λ a, fst a = AF_INET) l, l with
  | a :: _, _ => Ok a
  | [], a :: _ => Ok a
  | [], [] => UB NullPointer
  end.

(** [inet_addr(host)], or the name looked up when that is IPADDR_NONE: the
    address, IPADDR_NONE when there is none. hostByName of TCPClient.cpp and
    connect of UDPClient.cpp have the same lines. *)
Definition lookup_host {W} `{Lwip W} (host : ptr) : M W Z :=
  let ip := inet_addr host in
  if ip =? IPADDR_NONE then
    '(rc, result) ← lwip_getaddrinfo host;
    if rc =? 0 then
      a ← lift (prefer_ip4 result);
      mret (if fst a =? AF_INET then snd a else ip)
    else mret ip
  else mret ip.

(** ** Descriptors

    [open w]: the descriptors in use. Only socket and accept open one, a new
    one; only close closes one. *)
Section Descriptors.
Context {W : Type} `{Lwip W}.

Definition leaves (open : W → gset Z) {A} (m : M W A) : Prop :=
  ∀ w a w', m w = Ok (a, w') → open w' = open w.

(** What a call that gives a descriptor or a negative number does. *)
Definition opened (open : W → gset Z) (w : W) (fd : Z) (w' : W) : Prop :=
  if 0 <=? fd then fd ∉ open w ∧ open w' = {[fd]} ∪ open w else open w' = open w.

Record descriptors (open : W → gset Z) : Prop :=
  { ds_socket t w fd w' : lwip_socket t w = Ok (fd, w') → opened open w fd w';
    ds_accept s n w fd sa w' : lwip_accept s n w = Ok ((fd, sa), w') → opened open w fd w';
    ds_close fd w rc w' : lwip_close fd w = Ok (rc, w') → open w' = open w ∖ {[fd]};
    ds_setsockopt fd o : leaves open (lwip_setsockopt fd o);
    ds_connect fd sa : leaves open (lwip_connect fd sa);
    ds_bind fd sa : leaves open (lwip_bind fd sa);
    ds_listen fd n : leaves open (lwip_listen fd n);
    ds_getsockname fd : leaves open (lwip_getsockname fd);
    ds_shutdown fd n : leaves open (lwip_shutdown fd n);
    ds_write fd p n : leaves open (lwip_write fd p n);
    ds_sendto fd p n sa : leaves open (lwip_sendto fd p n sa);
    ds_recv fd n : leaves open (lwip_recv fd n);
    ds_recvfrom fd n : leaves open (lwip_recvfrom fd n);
    ds_ioctl fd : leaves open (lwip_ioctl_fionread fd);
    ds_select n fd : leaves open (lwip_select_read n fd);
    ds_getsockopt fd : leaves open (lwip_getsockopt_error fd);
    ds_fcntl fd : leaves open (lwip_fcntl_nonblock fd);
    ds_getaddrinfo h : leaves open (lwip_getaddrinfo h) }.

(** The descriptor a number stands for, if it is one. *)
Definition fds (fd : Z) : gset Z := if 0 <=? fd then {[fd]} else ∅.

(** Those in use that are not held by [fd]. *)
Definition others (open : W → gset Z) (fd : Z) (w : W) : gset Z := open w ∖ fds fd.

(** The object's descriptor, if it has one, is in use. *)
Definition holds (open : W → gset Z) (fd : Z) (w : W) : Prop := fds fd ⊆ open w.

Lemma leaves_ret open {A} (a : A) : leaves open (mret a).
Proof. by intros w b w' [= _ <-]. Qed.

Lemma leaves_lift open {A} (o : outcome A) : leaves open (lift o).
Proof. by intros w b w' [_ ->]%run_lift_inv. Qed.

Lemma leaves_bind open {A B} (m : M W A) (f : A → M W B) :
  leaves open m → (∀ a, leaves open (f a)) → leaves open (m ≫= f).
Proof.
  intros Hm Hf w b w2 (a & w1 & E1%Hm & E2%Hf)%run_bind_inv. congruence.
Qed.

Lemma leaves_if open {A} (b : bool) (m n : M W A) :
  leaves open m → leaves open n → leaves open (if b then m else n).
Proof. by destruct b. Qed.

Lemma leaves_lookup open host : descriptors open → leaves open (lookup_host host).
Proof.
  intros HD w a w' E. unfold lookup_host in E. destruct (_ =? _); [|by injection E as _ <-].
  apply run_bind_inv in E as ([rc l] & w1 & E1 & E). rewrite <- (ds_getaddrinfo _ HD _ _ _ _ E1).
  destruct (rc =? 0); [|by injection E as _ <-].
  apply run_bind_inv in E as (x & w2 & E2 & E). apply run_lift_inv in E2 as [_ ->].
  by injection E as _ <-.
Qed.

End Descriptors.

(** ** Objects that hold a descriptor

    [fd_of o]: the number in the object. A method is tidy when it leaves the
    object with a descriptor in use, or none, if it finds it so, and leaves the
    descriptors that are not the object's as they are. *)
Section Tidy.
Context {O W : Type} (fd_of : O → Z) (open : W → gset Z).

Definition in_order (s : O * W) : Prop := holds open (fd_of s.1) s.2.
Definition same_others (s s' : O * W) : Prop :=
  others open (fd_of s'.1) s'.2 = others open (fd_of s.1) s.2.

Definition tidy {A} (m : M (O * W) A) : Prop :=
  ∀ s a s', m s = Ok (a, s') → in_order s → in_order s' ∧ same_others s s'.

Lemma tidy_ret {A} (a : A) : tidy (mret a).
Proof. by intros s b s' [= <- <-]. Qed.

Lemma tidy_lift {A} (o : outcome A) : tidy (lift o).
Proof. intros s b s' [_ ->]%run_lift_inv. done. Qed.

Lemma tidy_bind {A B} (m : M (O * W) A) (f : A → M (O * W) B) :
  tidy m → (∀ a, tidy (f a)) → tidy (m ≫= f).
Proof.
  intros Hm Hf s b s2 (a & s1 & E1 & E2)%run_bind_inv Hs.
  destruct (Hm _ _ _ E1 Hs) as [H1 K1]. destruct (Hf _ _ _ _ E2 H1) as [H2 K2].
  split; [done|]. unfold same_others in *. congruence.
Qed.

Lemma tidy_self {B} (f : O → M (O * W) B) : (∀ o, tidy (f o)) → tidy (self ≫= f).
Proof. intros Hf [o w] b s' E. rewrite bind_self in E. by eapply Hf. Qed.

Lemma tidy_become g : (∀ o, fd_of (g o) = fd_of o) → tidy (become g).
Proof.
  intros Hg s a s' [= _ <-] Hs. unfold in_order, same_others in *. cbn. by rewrite Hg.
Qed.

Lemma tidy_sys {A} (m : M W A) : leaves open m → tidy (sys m).
Proof.
  intros Hm [o w] a s' (w' & E%Hm & ->)%sys_inv Hs.
  unfold in_order, same_others, holds, others in *. cbn in *. by rewrite E.
Qed.

Lemma tidy_if {A} (b : bool) (m n : M (O * W) A) : tidy m → tidy n → tidy (if b then m else n).
Proof. by destruct b. Qed.

End Tidy.

Create HintDb tidy.
#[export] Hint Resolve leaves_ret leaves_lift leaves_bind leaves_if : tidy.
#[export] Hint Resolve tidy_ret tidy_lift tidy_bind tidy_self tidy_become tidy_sys tidy_if : tidy.
#[export] Hint Resolve ds_setsockopt ds_connect ds_bind ds_listen ds_getsockname ds_shutdown
  ds_write ds_sendto ds_recv ds_recvfrom ds_ioctl ds_select ds_getsockopt ds_fcntl ds_getaddrinfo
  leaves_lookup : tidy.

(** Take a method apart. *)
Ltac tidy_tac :=
  repeat first
    [ assumption
    | solve [auto with tidy nocore]
    | match goal with
      | |- tidy _ _ (self ≫= _) => apply tidy_self; intro
      | |- tidy _ _ (_ ≫= _) => apply tidy_bind; [|intro]
      | |- tidy _ _ (mret _) => apply tidy_ret
      | |- tidy _ _ (lift _) => apply tidy_lift
      | |- tidy _ _ (become _) => apply tidy_become; by intros []
      | |- tidy _ _ (sys _) => apply tidy_sys; eauto with tidy; fail
      | |- tidy _ _ (if _ then _ else _) => apply tidy_if
      | |- tidy _ _ (match ?x with _ => _ end) => destruct x
      end ].

(** Closing one's descriptor and forgetting it. *)
Section Close.
Context {O W : Type} `{Lwip W} (fd_of : O → Z) (open : W → gset Z).

Lemma close_forget o o' w w' :
  open w' = open w ∖ fds (fd_of o) → fd_of o' < 0 →
  in_order fd_of open (o', w') ∧ same_others fd_of open (o, w) (o', w').
Proof.
  intros E Hn. unfold in_order, same_others, holds, others, fds in *. cbn [fst snd].
  destruct (Z.leb_spec 0 (fd_of o')); [lia|]. rewrite E. set_solver.
Qed.

Lemma open_new o o' w w' :
  opened open w (fd_of o') w' → fd_of o < 0 →
  in_order fd_of open (o', w') ∧ same_others fd_of open (o, w) (o', w').
Proof.
  unfold opened, in_order, same_others, holds, others, fds. cbn [fst snd]. intros HO Hn.
  destruct (Z.leb_spec 0 (fd_of o)); [lia|]. destruct (0 <=? fd_of o').
  - destruct HO as [Hf ->]. set_solver.
  - rewrite HO. set_solver.
Qed.

End Close.

Section Steps.
Context {O W : Type} `{Lwip W} (fd_of : O → Z) (open : W → gset Z) (HD : descriptors open).

Lemma kept_trans s1 s2 s3 :
  in_order fd_of open s2 ∧ same_others fd_of open s1 s2 →
  in_order fd_of open s3 ∧ same_others fd_of open s2 s3 →
  in_order fd_of open s3 ∧ same_others fd_of open s1 s3.
Proof. unfold same_others. intros [_ E1] [H2 E2]. split; [done|congruence]. Qed.

Lemma rtc_kept (step : O * W → O * W → Prop) s s' :
  (∀ s s', step s s' → in_order fd_of open s →
    in_order fd_of open s' ∧ same_others fd_of open s s') →
  rtc step s s' → in_order fd_of open s →
  in_order fd_of open s' ∧ same_others fd_of open s s'.
Proof.
  intros HT HR. induction HR as [s|s1 s2 s3 H12 HR IH]; intros Hs; [by split|].
  destruct (HT _ _ H12 Hs) as [HA HB].
  apply (kept_trans _ s2); [done|]. by apply IH.
Qed.

Lemma close_step (g : O → O) o w s' :
  fd_of (g o) < 0 → in_order fd_of open (o, w) →
  (if 0 <=? fd_of o then sys (lwip_close (fd_of o)) ;; become g else mret tt) (o, w) = Ok (tt, s') →
  in_order fd_of open s' ∧ same_others fd_of open (o, w) s' ∧ fd_of s'.1 < 0.
Proof.
  intros Hg Hs. destruct (Z.leb_spec 0 (fd_of o)) as [L|L].
  - intros (rc & s1 & (w1 & E1 & ->)%sys_inv & E)%run_bind_inv. injection E as <-.
    apply (ds_close _ HD) in E1.
    assert (open w1 = open w ∖ fds (fd_of o)) as E.
    { rewrite E1. unfold fds. by destruct (Z.leb_spec 0 (fd_of o)); [|lia]. }
    destruct (close_forget fd_of open o (g o) w w1 E Hg) as [HA HB]. done.
  - intros [= <-]. split; [exact Hs|]. split; [done|exact L].
Qed.

End Steps.

(** Take a computation on the world apart. *)
Ltac leaves_tac :=
  repeat first
    [ assumption
    | solve [eauto 2 with tidy]
    | match goal with
      | |- leaves _ (_ ≫= _) => apply leaves_bind; [|intro]
      | |- leaves _ (mret _) => apply leaves_ret
      | |- leaves _ (lift _) => apply leaves_lift
      | |- leaves _ (if _ then _ else _) => apply leaves_if
      | |- leaves _ (match ?x with _ => _ end) => destruct x
      end ].
