(* ===== verification/LwipSim.v ===== *)
(** * Sockets to evaluate the wrappers on

    A concrete instance of the class of Lwip.v: the descriptors in use, what
    connect answers, the bytes that will be received, and the bytes
    sent. *)

From stdpp Require Import gmap.
From S2P Require Import Prelude CSem Lwip.

Record sockets : Type := Sockets
  { so_open : list Z; so_connect : Z; so_in : list Z; so_out : list Z }.

Definition next_fd (l : list Z) : Z := foldr Z.max (-1) l + 1.

Lemma next_fd_bound l : 0 ≤ next_fd l ∧ ∀ x, x ∈ l → x < next_fd l.
Proof.
  unfold next_fd. induction l as [|y l [H0 IH]]; cbn [foldr].
  - split; [lia|]. by intros x ?%not_elem_of_nil.
  - split; [lia|]. intros x [->|Hx%IH]%elem_of_cons; lia.
Qed.

Definition open_fd : M sockets Z := λ w,
  let fd := next_fd (so_open w) in
  Ok (fd, Sockets (fd :: so_open w) (so_connect w) (so_in w) (so_out w)).

Definition close_fd (fd : Z) : M sockets Z := λ w,
  Ok (0, Sockets (filter (λ x, x ≠ fd) (so_open w)) (so_connect w) (so_in w) (so_out w)).

Definition recv_fd (n : Z) : M sockets (Z * list Z) := λ w,
  let bs := take (Z.to_nat n) (so_in w) in
  Ok ((len bs, bs), Sockets (so_open w) (so_connect w) (drop (Z.to_nat n) (so_in w))
                      (so_out w)).

Definition send_fd (p : ptr) (n : Z) : M sockets Z := λ w,
  match load_bytes (obj p) (off p) n with
  | Ok bs => Ok (n, Sockets (so_open w) (so_connect w) (so_in w) (so_out w ++ bs))
  | UB u => UB u | NoFuel => NoFuel
  end.

(** [opt]: what setsockopt answers. *)
Definition lwip_sim (opt : Z) : Lwip sockets :=
  {| lwip_socket := λ _, open_fd; lwip_setsockopt := λ _ _, mret opt;
     lwip_connect := λ _ _, gets so_connect; lwip_bind := λ _ _, mret 0;
     lwip_listen := λ _ _, mret 0; lwip_accept := λ _ _, fd ← open_fd; mret (fd, None);
     lwip_getsockname := λ _, mret (0, None); lwip_shutdown := λ _ _, mret 0;
     lwip_close := close_fd; lwip_write := λ _, send_fd; lwip_sendto := λ _ p n _, send_fd p n;
     lwip_recv := λ _, recv_fd;
     lwip_recvfrom := λ _ n, '(rc, bs) ← recv_fd n; mret (rc, bs, None);
     lwip_ioctl_fionread := λ _, gets (λ w, Some (len (so_in w)));
     lwip_select_read := λ _ _, mret 1; lwip_getsockopt_error := λ _, mret (Some 0);
     lwip_fcntl_nonblock := λ _, mret tt; inet_addr := λ _, 16777343;
     lwip_getaddrinfo := λ _, mret (0, []) |}.

Definition open_sim (w : sockets) : gset Z := list_to_set (so_open w).

Lemma open_fd_opened w fd w' : open_fd w = Ok (fd, w') → opened open_sim w fd w'.
Proof.
  intros [= <- <-]. destruct (next_fd_bound (so_open w)) as [H0 HL]. unfold opened, open_sim.
  destruct (Z.leb_spec 0 (next_fd (so_open w))); [|lia]. cbn. split; [|done].
  rewrite elem_of_list_to_set. intros Hx%HL. lia.
Qed.

Lemma descriptors_sim opt : descriptors (H := lwip_sim opt) open_sim.
Proof.
  split; try by (intros; intros w a w' E; injection E as _ <-).
  - intros t w fd w'. apply open_fd_opened.
  - intros s n w fd sa w' (x & w1 & E & E1)%run_bind_inv. injection E1 as <- _ <-.
    by apply open_fd_opened.
  - intros fd w rc w' [= _ <-]. unfold open_sim. cbn. apply leibniz_equiv. intros x.
    rewrite elem_of_difference, !elem_of_list_to_set, list_elem_of_filter, elem_of_singleton.
    naive_solver.
  - intros fd p n w a w' E. cbn in E. unfold send_fd in E.
    destruct (load_bytes _ _ _); [|done..]. by injection E as _ <-.
  - intros fd p n sa w a w' E. cbn in E. unfold send_fd in E.
    destruct (load_bytes _ _ _); [|done..]. by injection E as _ <-.
Qed.
