(* ===== verification/TcpUdp.v ===== *)
(** * TCP and UDP clients and servers

    TCPClient.cpp (Module TCPClient), TCPServer.cpp (Module TCPServer),
    UDPClient.cpp (Module UDPClient) and UDPServer.cpp (Module UDPServer) of
    src/src, over the sockets of Lwip.v: their operations, and which
    descriptors they hold. *)

From stdpp Require Import gmap.
From S2P Require Import Prelude CSem Lwip LwipSim.

(** IPAddress of the Arduino core: its four bytes as a number. *)
Class IPAddresses : Type := { IPAddress : Type; v4 : IPAddress → Z; IPAddress_of : Z → IPAddress }.

(** ** TCPClient.cpp *)

Module TCPClient.

(** m_sa and m_so_timeout have no value until connectV4 gives them one. *)
Record TCPClient : Type := mkTCPClient
  { m_socket_fd : Z; m_sa : option sockaddr_in; m_so_timeout : option timeval; _connected : bool }.

Definition set_m_socket_fd v c := mkTCPClient v (m_sa c) (m_so_timeout c) (_connected c).
Definition set_m_sa v c := mkTCPClient (m_socket_fd c) v (m_so_timeout c) (_connected c).
Definition set_m_so_timeout v c := mkTCPClient (m_socket_fd c) (m_sa c) v (_connected c).
Definition set_connected v c := mkTCPClient (m_socket_fd c) (m_sa c) (m_so_timeout c) v.

Definition TCPClient_new : TCPClient := mkTCPClient (-1) None None false.

Definition TCPClient_of (sock_id : Z) (sa : option sockaddr_in) : TCPClient :=
  mkTCPClient sock_id sa None (0 <=? sock_id).

Section TCPClient.
Context `{CImpl} `{IPAddresses} {W : Type} `{Lwip W}.
#[local] Abbreviation T A := (M (TCPClient * W) A).

(** The destructor. *)
Definition TCPClient_delete : T unit :=
  c ← self;
  if 0 <=? m_socket_fd c then
    sys (lwip_shutdown (m_socket_fd c) 2) ;; sys (lwip_close (m_socket_fd c)) ;; mret tt
  else mret tt.

Definition stop : T unit :=
  c ← self;
  (if 0 <=? m_socket_fd c then
    sys (lwip_shutdown (m_socket_fd c) 2) ;; sys (lwip_close (m_socket_fd c)) ;; mret tt
   else mret tt) ;;
  become (set_connected false) ;;
  become (set_m_socket_fd (-1)).

(** [{timeout/1000, (timeout%1000)*1000}] *)
Definition so_timeout (timeout : Z) : timeval := (timeout `quot` 1000, (timeout `rem` 1000) * 1000).

Definition connectV4 (ip port timeout : Z) : T Z :=
  c ← self;
  (if 0 <=? m_socket_fd c then stop else mret tt) ;;
  fd ← sys (lwip_socket SOCK_STREAM);
  become (set_m_socket_fd fd) ;;
  if fd <? 0 then mret (-1)
  else
    rc ← sys (lwip_setsockopt fd (SO_KEEPALIVE timeout));
    if rc =? -1 then sys (lwip_close fd) ;; mret (-1)
    else
      rc ← sys (lwip_setsockopt fd (SO_REUSEADDR 1));
      if rc =? -1 then sys (lwip_close fd) ;; mret (-1)
      else
        let sa := SockAddr ip (lwip_htons port) in
        become (set_m_sa (Some sa)) ;;
        rc ← sys (lwip_connect fd sa);
        (if rc <? 0 then sys (lwip_close fd) ;; become (set_m_socket_fd (-2)) else mret tt) ;;
        become (set_m_so_timeout (Some (so_timeout timeout))) ;;
        become (set_connected true) ;;
        c ← self;
        mret (m_socket_fd c).

(** The result, and aResult when there is one. *)
Definition hostByName (host : ptr) : M W (Z * option IPAddress) :=
  ip ← lookup_host host;
  mret (if ip =? IPADDR_NONE then (0, None) else (1, Some (IPAddress_of ip))).

(** [connect(IPAddress ip, uint16_t port)]; the timeout is 5000 by default. *)
Definition connect_ip (ip : IPAddress) (port : Z) : T Z := connectV4 (v4 ip) port 5000.

Definition connect_timeout (host : ptr) (port timeout : Z) : T Z :=
  c ← self;
  (if 0 <=? m_socket_fd c then stop ;; become (set_m_socket_fd (-1)) else mret tt) ;;
  '(found, ip) ← sys (hostByName host);
  match ip with
  | Some ip => if found =? 0 then mret (-1) else connectV4 (v4 ip) port timeout
  | None => mret (-1)
  end.

Definition connect (host : ptr) (port : Z) : T Z := connect_timeout host port 5000.

Definition setKeepAlive (time : Z) : T unit :=
  c ← self;
  if 0 <=? m_socket_fd c
  then sys (lwip_setsockopt (m_socket_fd c) (SO_KEEPALIVE time)) ;; mret tt else mret tt.

(** The timeout of the object, which a client made by accept never set. *)
Definition its_timeout (c : TCPClient) : outcome timeval :=
  match m_so_timeout c with Some t => Ok t | None => UB Uninitialised end.

(** [write(const uint8_t *buf, size_t size)]; [write(uint8_t c)] writes one
    byte the same way. *)
Definition write (buf : ptr) (size : Z) : T Z :=
  c ← self;
  if m_socket_fd c <? 0 then mret (to_size (-1))
  else
    t ← lift (its_timeout c);
    sys (lwip_setsockopt (m_socket_fd c) (SO_SNDTIMEO (fst t) (snd t))) ;;
    rc ← sys (lwip_write (m_socket_fd c) buf size);
    mret (if rc <? 0 then 0 else rc).

Definition write_byte (b : Z) : T Z := write (Ptr [b] 0) 1.

Definition write_string (msg : ptr) : T Z :=
  n ← lift (strlen (Some msg)); write msg n.

Definition available : T Z :=
  c ← self;
  if 0 <=? m_socket_fd c then
    n ← sys (lwip_ioctl_fionread (m_socket_fd c));
    let rc := default 0 n in
    if rc <? 0 then become (set_connected false) ;; mret 0 else mret rc
  else mret 0.

(** [read()]: the byte, as a char. *)
Definition read_byte : T Z :=
  c ← self;
  if m_socket_fd c <? 0 then mret (-1)
  else
    nfds ← lift (m_socket_fd c +i 1)%c;
    n ← sys (lwip_select_read nfds (m_socket_fd c));
    if 0 <? n then
      t ← lift (its_timeout c);
      sys (lwip_setsockopt (m_socket_fd c) (SO_RCVTIMEO (fst t) (snd t))) ;;
      '(rc, bs) ← sys (lwip_recv (m_socket_fd c) 1);
      let buf := match bs with b :: _ => to_char b | [] => 0 end in
      mret (if truth rc then buf else 0)
    else become (set_connected false) ;; mret 0.

(** [read(uint8_t *buf, size_t size)]: the result and what is stored. *)
Definition read (size : Z) : T (Z * list Z) :=
  c ← self;
  if m_socket_fd c <? 0 then mret (-1, [])
  else
    nfds ← lift (m_socket_fd c +i 1)%c;
    n ← sys (lwip_select_read nfds (m_socket_fd c));
    if 0 <? n then
      t ← lift (its_timeout c);
      sys (lwip_setsockopt (m_socket_fd c) (SO_RCVTIMEO (fst t) (snd t))) ;;
      sys (lwip_recv (m_socket_fd c) size)
    else become (set_connected false) ;; mret (-1, []).

Definition peek : T Z := mret 0.
Definition flush : T unit := mret tt.

Definition connected : T Z :=
  c ← self;
  if m_socket_fd c <? 0 then mret 0
  else available ;; c ← self; mret (Z.b2z (_connected c)).

Definition operator_bool : T bool := c ← self; mret (0 <=? m_socket_fd c).

(** *** The descriptor *)

Section Descriptors.
Variable open : W → gset Z.
Hypothesis HD : descriptors open.
#[local] Abbreviation tidy := (tidy m_socket_fd open).

Lemma tcp_run_close c w u s' :
  TCPClient_delete (c, w) = Ok (u, s') →
  s'.1 = c ∧ open s'.2 = open w ∖ fds (m_socket_fd c).
Proof.
  unfold TCPClient_delete. rewrite bind_self. unfold fds. destruct (0 <=? m_socket_fd c).
  - intros (x & s1 & (w1 & E1 & ->)%sys_inv & (y & s2 & (w2 & E2 & ->)%sys_inv & E)%run_bind_inv)%run_bind_inv.
    injection E as <- <-. split; [done|]. cbn. rewrite (ds_close _ HD _ _ _ _ E2).
    by rewrite (ds_shutdown _ HD _ _ _ _ _ E1).
  - intros [= <- <-]. split; [done|]. cbn. set_solver.
Qed.

Lemma run_stop c w u s' :
  stop (c, w) = Ok (u, s') →
  s'.1 = set_m_socket_fd (-1) (set_connected false c) ∧ open s'.2 = open w ∖ fds (m_socket_fd c).
Proof.
  intros E. unfold stop in E. rewrite bind_self in E. apply run_bind_inv in E as ([] & [c1 w1] & E1 & E).
  rewrite bind_become in E. injection E as _ <-.
  destruct (tcp_run_close c w tt (c1, w1)) as [Ec Eo]; [by unfold TCPClient_delete; rewrite bind_self|].
  cbn in *. by subst c1.
Qed.

Lemma tidy_stop : tidy stop.
Proof.
  intros [c w] u [c' w'] [Ec E]%run_stop Hs. cbn in *. subst c'.
  by apply close_forget.
Qed.

Lemma tidy_delete_free c w u s' :
  TCPClient_delete (c, w) = Ok (u, s') → open s'.2 = others open (m_socket_fd c) w.
Proof. by intros [_ E]%tcp_run_close. Qed.

Lemma connectV4_tidy ip port timeout :
  (∀ fd o w rc w', lwip_setsockopt fd o w = Ok (rc, w') → rc ≠ -1) →
  tidy (connectV4 ip port timeout).
Proof.
  intros HO s a s' E Hs. unfold connectV4 in E. destruct s as [c w]. rewrite bind_self in E.
  apply run_bind_inv in E as ([] & [c1 w1] & E1 & E).
  assert (HA : (in_order m_socket_fd open (c1, w1) ∧
    same_others m_socket_fd open (c, w) (c1, w1)) ∧ m_socket_fd c1 < 0).
  { destruct (Z.leb_spec 0 (m_socket_fd c)).
    - split; [by eapply tidy_stop|]. apply run_stop in E1 as [Ec _]. cbn in Ec. by subst c1.
    - by injection E1 as <- <-. }
  destruct HA as [HA Hn]. apply run_bind_inv in E as (fd & s2 & (w2 & E2 & ->)%sys_inv & E).
  rewrite bind_become in E. apply (ds_socket _ HD) in E2.
  apply (kept_trans _ _ _ _ _ HA). apply (kept_trans _ _ _ (set_m_socket_fd fd c1, w2)).
  { by apply open_new. }
  assert (HB : in_order m_socket_fd open (set_m_socket_fd fd c1, w2)).
  { by apply (open_new m_socket_fd open c1 (set_m_socket_fd fd c1) w1 w2). }
  destruct (Z.ltb_spec fd 0); [injection E as _ <-; by split|].
  apply run_bind_inv in E as (r3 & s3 & (w3 & E3 & ->)%sys_inv & E).
  pose proof (HO _ _ _ _ _ E3). destruct (Z.eqb_spec r3 (-1)); [done|].
  apply run_bind_inv in E as (r4 & s4 & (w4 & E4 & ->)%sys_inv & E).
  pose proof (HO _ _ _ _ _ E4). destruct (Z.eqb_spec r4 (-1)); [done|].
  rewrite bind_become in E. apply run_bind_inv in E as (r5 & s5 & (w5 & E5 & ->)%sys_inv & E).
  apply run_bind_inv in E as ([] & [c6 w6] & E6 & E).
  rewrite !bind_become, bind_self in E. injection E as _ <-.
  change (in_order m_socket_fd open (c6, w6) ∧
    same_others m_socket_fd open (set_m_socket_fd fd c1, w2) (c6, w6)).
  assert (Eo : open w5 = open w2).
  { rewrite (ds_connect _ HD _ _ _ _ _ E5), (ds_setsockopt _ HD _ _ _ _ _ E4).
    by rewrite (ds_setsockopt _ HD _ _ _ _ _ E3). }
  destruct (r5 <? 0).
  - apply run_bind_inv in E6 as (r6 & s6 & (w7 & E7 & ->)%sys_inv & E6). injection E6 as <- <-.
    apply close_forget; [|done]. rewrite (ds_close _ HD _ _ _ _ E7), Eo. unfold fds. cbn.
    by destruct (Z.leb_spec 0 fd); [|lia].
  - injection E6 as <- <-. clear HA. unfold in_order, same_others, holds, others in *. cbn in *. by rewrite Eo.
Qed.

Lemma leaves_hostByName host : leaves open (hostByName host).
Proof.
  intros w a w' (ip & w1 & E1 & E)%run_bind_inv. injection E as _ <-.
  by apply (leaves_lookup open host HD) in E1.
Qed.

Lemma tidy_connect_timeout host port timeout :
  (∀ fd o w rc w', lwip_setsockopt fd o w = Ok (rc, w') → rc ≠ -1) →
  tidy (connect_timeout host port timeout).
Proof.
  intros HO. unfold connect_timeout. apply tidy_self. intros c.
  apply tidy_bind.
  - destruct (0 <=? m_socket_fd c); [|apply tidy_ret].
    intros [c0 w0] u [c' w'] ([] & [c1 w1] & [Ec Eo]%run_stop & E)%run_bind_inv Hs.
    injection E as _ <- <-. cbn in *. subst c1. by apply close_forget.
  - intros []. apply tidy_bind.
    + apply tidy_sys, leaves_hostByName.
    + intros [found [ip|]]; [|apply tidy_ret]. apply tidy_if; [apply tidy_ret|].
      by apply connectV4_tidy.
Qed.

Lemma tidy_setKeepAlive time : tidy (setKeepAlive time).
Proof. unfold setKeepAlive. tidy_tac. Qed.
Lemma tidy_write buf size : tidy (write buf size).
Proof. unfold write. tidy_tac. Qed.
Lemma tidy_write_string msg : tidy (write_string msg).
Proof. pose proof tidy_write. unfold write_string. tidy_tac. Qed.
Lemma tidy_available : tidy available.
Proof. unfold available. tidy_tac. Qed.
Lemma tidy_read_byte : tidy read_byte.
Proof. unfold read_byte. tidy_tac. Qed.
Lemma tidy_read size : tidy (read size).
Proof. unfold read. tidy_tac. Qed.
Lemma tidy_connected : tidy connected.
Proof. pose proof tidy_available. unfold connected. tidy_tac. Qed.

End Descriptors.

(** A call of a method, or something else that happens in the world and leaves
    the descriptor of the object open. *)
Inductive step (open : W → gset Z) : TCPClient * W → TCPClient * W → Prop :=
  | step_connectV4 ip port timeout r s s' :
      connectV4 ip port timeout s = Ok (r, s') → step open s s'
  | step_connect_ip ip port r s s' : connect_ip ip port s = Ok (r, s') → step open s s'
  | step_connect host port r s s' : connect host port s = Ok (r, s') → step open s s'
  | step_connect_timeout host port timeout r s s' :
      connect_timeout host port timeout s = Ok (r, s') → step open s s'
  | step_setKeepAlive time r s s' : setKeepAlive time s = Ok (r, s') → step open s s'
  | step_write buf size r s s' : write buf size s = Ok (r, s') → step open s s'
  | step_write_byte b r s s' : write_byte b s = Ok (r, s') → step open s s'
  | step_write_string msg r s s' : write_string msg s = Ok (r, s') → step open s s'
  | step_available r s s' : available s = Ok (r, s') → step open s s'
  | step_read_byte r s s' : read_byte s = Ok (r, s') → step open s s'
  | step_read size r s s' : read size s = Ok (r, s') → step open s s'
  | step_stop r s s' : stop s = Ok (r, s') → step open s s'
  | step_connected r s s' : connected s = Ok (r, s') → step open s s'
  | step_world c w w' : open w' = open w → step open (c, w) (c, w').

Lemma step_tidy open s s' :
  descriptors open → (∀ fd o w rc w', lwip_setsockopt fd o w = Ok (rc, w') → rc ≠ -1) →
  step open s s' → in_order m_socket_fd open s →
  in_order m_socket_fd open s' ∧ same_others m_socket_fd open s s'.
Proof.
  intros HD HO [] Hs.
  1,2: by eapply connectV4_tidy.
  1,2: by eapply tidy_connect_timeout.
  - by eapply tidy_setKeepAlive.
  - by eapply tidy_write.
  - by eapply tidy_write.
  - by eapply tidy_write_string.
  - by eapply tidy_available.
  - by eapply tidy_read_byte.
  - by eapply tidy_read.
  - by eapply tidy_stop.
  - by eapply tidy_connected.
  - unfold in_order, same_others, holds, others in *. cbn in *. by rewrite H2.
Qed.

(** C36: A TCPClient, used in any way while no socket option is refused, has a descriptor that is
    in use or none, and when it is destroyed the descriptors in use are those there were
    before it was made: it closes what it opened and nothing else. *)
Theorem tcp_client_no_leak open w0 s u s' :
  descriptors open → (∀ fd o w rc w', lwip_setsockopt fd o w = Ok (rc, w') → rc ≠ -1) →
  rtc (step open) (TCPClient_new, w0) s → TCPClient_delete s = Ok (u, s') →
  fds (m_socket_fd s.1) ⊆ open s.2 ∧ open s'.2 = open w0.
Proof.
  intros HD HO HR HE.
  assert (HS : in_order m_socket_fd open s ∧ same_others m_socket_fd open (TCPClient_new, w0) s).
  { apply (rtc_kept m_socket_fd open (step open)); [|done|].
    - intros s1 s2. by apply step_tidy.
    - unfold in_order, holds, fds. cbn. set_solver. }
  destruct HS as [HS HT]. split; [exact HS|]. destruct s as [c w].
  apply (tidy_delete_free open HD) in HE. rewrite HE. unfold same_others, others, fds in HT.
  cbn in *. unfold others, fds. rewrite HT. set_solver.
Qed.

(** When lwip_setsockopt refuses SO_KEEPALIVE, connectV4 closes the socket but the object
    keeps its number: its next stop, or its destruction, closes it once more, whoever it
    belongs to then. *)
Theorem tcp_refused_option_keeps_fd open ip port timeout c w fd w1 w2 rc w3 :
  descriptors open → m_socket_fd c < 0 → 0 ≤ fd →
  lwip_socket SOCK_STREAM w = Ok (fd, w1) →
  lwip_setsockopt fd (SO_KEEPALIVE timeout) w1 = Ok (-1, w2) →
  lwip_close fd w2 = Ok (rc, w3) →
  connectV4 ip port timeout (c, w) = Ok (-1, (set_m_socket_fd fd c, w3)) ∧ fd ∉ open w3.
Proof.
  intros HD Hn Hf E1 E2 E3. split.
  - unfold connectV4. rewrite bind_self. destruct (Z.leb_spec 0 (m_socket_fd c)); [lia|].
    rewrite run_bind_ret, (bind_world _ _ _ _ _ _ E1), bind_become.
    destruct (Z.ltb_spec fd 0); [lia|]. rewrite (bind_world _ _ _ _ _ _ E2).
    change (-1 =? -1) with true. cbv iota. by rewrite (bind_world _ _ _ _ _ _ E3).
  - rewrite (ds_close _ HD _ _ _ _ E3). set_solver.
Qed.

(** The client that a TCPServer gives for a connection has never been given a timeout: its
    first write hands one without a value to the socket. *)
Theorem tcp_accepted_write_uninitialised fd sa buf size w :
  0 ≤ fd → write buf size (TCPClient_of fd sa, w) = UB Uninitialised.
Proof. intros Hf. unfold write. rewrite bind_self. cbn [m_socket_fd TCPClient_of]. by ztest. Qed.

End TCPClient.
(** *** Evaluation

    Descriptor 3 belongs to somebody else. *)
#[local] Instance any_address : IPAddresses := {| IPAddress := Z; v4 := λ a, a; IPAddress_of := λ a, a |}.

#[local] Existing Instance x86_64.
#[local] Instance willing : Lwip sockets := lwip_sim 0.

Definition net_sim (bs : list Z) : sockets := Sockets [3] 0 bs [].

(** Connected, a byte written, two read, and destroyed. *)
Lemma tcp_client_no_leak_witness :
  open_sim (Sockets [3] 0 [] [65]) = open_sim (net_sim [8; 7]).
Proof.
  set (c := mkTCPClient 4 (Some (SockAddr 16777343 20480)) (Some (5, 0)) true).
  refine (proj2 (tcp_client_no_leak open_sim (net_sim [8; 7]) (c, Sockets [4; 3] 0 [] [65]) tt
    (c, Sockets [3] 0 [] [65]) (descriptors_sim 0) _ _ _)); [by intros fd o w rc w' [= <- _]| |done].
  apply (rtc_l _ _ (c, Sockets [4; 3] 0 [8; 7] []));
    [by apply (step_connectV4 _ 16777343 80 5000 4)|].
  apply (rtc_l _ _ (c, Sockets [4; 3] 0 [8; 7] [65])); [by apply (step_write_byte _ 65 1)|].
  apply (rtc_l _ _ (c, Sockets [4; 3] 0 [] [65])); [by apply (step_read _ 2 (2, [8; 7]))|].
  apply rtc_refl.
Defined.

Lemma tcp_refused_option_keeps_fd_witness :
  connectV4 (H1 := lwip_sim (-1)) 16777343 80 5000 (TCPClient_new, net_sim []) =
    Ok (-1, (set_m_socket_fd 4 TCPClient_new, net_sim [])) ∧ 4 ∉ open_sim (net_sim []).
Proof.
  apply (tcp_refused_option_keeps_fd (H1 := lwip_sim (-1)) open_sim 16777343 80 5000 TCPClient_new (net_sim []) 4
    (Sockets [4; 3] 0 [] []) (Sockets [4; 3] 0 [] []) 0 (net_sim []) (descriptors_sim (-1)));
    [done|done|reflexivity..].
Defined.

Lemma tcp_accepted_write_uninitialised_witness :
  write (Ptr [65] 0) 1 (TCPClient_of 4 None, net_sim []) = UB Uninitialised.
Proof. by apply (tcp_accepted_write_uninitialised 4 None (Ptr [65] 0) 1 (net_sim [])). Defined.

End TCPClient.

(** ** TCPServer.cpp *)

Module TCPServer.

(** The addresses have no value before begin and establish. *)
Record TCPServer : Type := mkTCPServer
  { m_socket_fd : Z; m_serv_addr : option sockaddr_in; m_cli_addr : option sockaddr_in }.

Definition set_m_socket_fd v c := mkTCPServer v (m_serv_addr c) (m_cli_addr c).
Definition set_m_serv_addr v c := mkTCPServer (m_socket_fd c) v (m_cli_addr c).
Definition set_m_cli_addr v c := mkTCPServer (m_socket_fd c) (m_serv_addr c) v.

Definition TCP_SERVER_MAX_CONN : Z := 2.

Section TCPServer.
Context {W : Type} `{Lwip W}.
#[local] Abbreviation T A := (M (TCPServer * W) A).

Definition TCPServer_new : TCPServer := mkTCPServer (-1) None None.

(** The destructor does nothing. *)
Definition TCPServer_delete : T unit := mret tt.

Definition begin : T unit :=
  become (set_m_serv_addr (Some (SockAddr 0 0))) ;;
  become (set_m_cli_addr (Some (SockAddr 0 0))) ;;
  fd ← sys (lwip_socket SOCK_STREAM);
  become (set_m_socket_fd fd).

Definition end_ : T unit :=
  c ← self;
  if 0 <=? m_socket_fd c then sys (lwip_close (m_socket_fd c)) ;; mret tt else mret tt.

(** The result, a bool made an int. *)
Definition establish (port bind_addr : Z) : T Z :=
  let sa := SockAddr (lwip_htonl bind_addr) (lwip_htons port) in
  become (set_m_serv_addr (Some sa)) ;;
  c ← self;
  let fd := m_socket_fd c in
  if fd <? 0 then mret 0
  else
    sys (lwip_setsockopt fd (SO_REUSEADDR 1)) ;;
    sys (lwip_setsockopt fd (SO_RCVTIMEO 5 0)) ;;
    rc ← sys (lwip_bind fd sa);
    if rc <? 0 then mret 0
    else
      rc ← sys (lwip_listen fd TCP_SERVER_MAX_CONN);
      mret (if rc <? 0 then 0 else 1).

(** [TCPServer(port)] *)
Definition TCPServer_port (port : Z) : T unit :=
  become (λ _, TCPServer_new) ;; begin ;; establish port INADDR_ANY ;; mret tt.

(** What accept stores at m_cli_addr. *)
Definition store_cli (sa : option sockaddr_in) (c : TCPServer) : TCPServer :=
  match sa with Some _ => set_m_cli_addr sa c | None => c end.

(** [accept()] gives a shared pointer to the client, or none; client_len has
    no value. *)
Definition accept : T (option TCPClient.TCPClient) :=
  c ← self;
  if 0 <=? m_socket_fd c then
    '(sock_fd, sa) ← sys (lwip_accept (m_socket_fd c) None);
    become (store_cli sa) ;;
    c ← self;
    mret (if 0 <=? sock_fd then Some (TCPClient.TCPClient_of sock_fd (m_cli_addr c)) else None)
  else mret None.

(** [available()] gives a client without a socket when there is none. *)
Definition available : T TCPClient.TCPClient :=
  client ← accept; mret (default TCPClient.TCPClient_new client).

(** After end the object still has the number of the descriptor it closed: a second end, or
    an end of a server that nobody ended in between, closes whatever has it then. *)
Theorem tcp_server_end_keeps_fd open c w u s' :
  descriptors open → 0 ≤ m_socket_fd c → end_ (c, w) = Ok (u, s') →
  s'.1 = c ∧ open s'.2 = open w ∖ {[m_socket_fd c]}.
Proof.
  intros HD Hf E. unfold end_ in E. rewrite bind_self in E.
  destruct (Z.leb_spec 0 (m_socket_fd c)); [|lia].
  apply run_bind_inv in E as (rc & s1 & (w1 & E1 & ->)%sys_inv & E). injection E as _ <-.
  split; [done|]. apply (ds_close _ HD _ _ _ _ E1).
Qed.

(** The client accept gives holds a descriptor that was opened for it, and the server's own is
    untouched. *)
Theorem tcp_server_accept_opens open c w client s' :
  descriptors open → accept (c, w) = Ok (Some client, s') →
  let fd := TCPClient.m_socket_fd client in
  0 ≤ fd ∧ fd ∉ open w ∧ open s'.2 = {[fd]} ∪ open w ∧ m_socket_fd s'.1 = m_socket_fd c.
Proof.
  intros HD E. unfold accept in E. rewrite bind_self in E.
  destruct (0 <=? m_socket_fd c); [|done].
  apply run_bind_inv in E as ([fd sa] & s1 & (w1 & E1 & ->)%sys_inv & E).
  apply (ds_accept _ HD) in E1. rewrite bind_become, bind_self in E. unfold opened in E1.
  destruct (Z.leb_spec 0 fd); [|done]. injection E as <- <-. cbn.
  destruct E1 as [Hf Ho]. split; [done|]. split; [done|]. split; [done|]. by destruct sa.
Qed.

End TCPServer.

#[local] Instance willing : Lwip sockets := lwip_sim 0.

Definition listening : TCPServer := mkTCPServer 3 None None.

Lemma tcp_server_end_keeps_fd_witness :
  end_ (listening, Sockets [4; 3] 0 [] []) = Ok (tt, (listening, Sockets [4] 0 [] [])) ∧
  open_sim (Sockets [4] 0 [] []) = open_sim (Sockets [4; 3] 0 [] []) ∖ {[3]}.
Proof.
  split; [reflexivity|].
  apply (tcp_server_end_keeps_fd open_sim listening (Sockets [4; 3] 0 [] []) tt
    (listening, Sockets [4] 0 [] []) (descriptors_sim 0)); [cbn; lia|reflexivity].
Defined.

Lemma tcp_server_accept_opens_witness :
  accept (listening, Sockets [3] 0 [] []) =
    Ok (Some (TCPClient.TCPClient_of 4 None), (listening, Sockets [4; 3] 0 [] [])) ∧
  4 ∉ open_sim (Sockets [3] 0 [] []).
Proof.
  split; [reflexivity|].
  apply (tcp_server_accept_opens open_sim listening (Sockets [3] 0 [] []) (TCPClient.TCPClient_of 4 None)
    (listening, Sockets [4; 3] 0 [] []) (descriptors_sim 0)). reflexivity.
Defined.

End TCPServer.

(** ** UDPClient.cpp *)

Module UDPClient.

Record UDPClient : Type := mkUDPClient { m_socket_fd : Z; m_sa : option sockaddr_in }.

Definition set_m_socket_fd v c := mkUDPClient v (m_sa c).
Definition set_m_sa v c := mkUDPClient (m_socket_fd c) v.

Section UDPClient.
Context `{CImpl} `{IPAddresses} {W : Type} `{Lwip W}.
#[local] Abbreviation U A := (M (UDPClient * W) A).

Definition UDPClient_new : UDPClient := mkUDPClient (-1) None.

Definition UDPClient_delete : U unit :=
  c ← self;
  if 0 <=? m_socket_fd c then sys (lwip_close (m_socket_fd c)) ;; mret tt else mret tt.

Definition connectV4 (ip port timeout : Z) : U Z :=
  fd ← sys (lwip_socket SOCK_DGRAM);
  become (set_m_socket_fd fd) ;;
  if fd <? 0 then mret (-1)
  else
    rc ← sys (lwip_setsockopt fd (SO_KEEPALIVE timeout));
    if rc =? -1 then sys (lwip_close fd) ;; mret (-1)
    else
      become (set_m_sa (Some (SockAddr ip (lwip_htons port)))) ;;
      c ← self;
      mret (m_socket_fd c).

Definition connect_ip (ip : IPAddress) (port : Z) : U Z := connectV4 (v4 ip) port 5000.

(** [connect(host, port)] calls itself. *)
Fixpoint connect (fuel : nat) (host : ptr) (port : Z) : U Z :=
  match fuel with
  | O => no_fuel
  | S fuel => connect fuel host port
  end.

(** The timeout is not used. *)
Definition connect_timeout (host : ptr) (port timeout : Z) : U Z :=
  c ← self;
  if 0 <=? m_socket_fd c then mret (m_socket_fd c)
  else
    ip ← sys (lookup_host host);
    if ip =? IPADDR_NONE then mret (-1) else connectV4 ip port 5000.

(** The address of the object, which connectV4 gives it. *)
Definition its_address (c : UDPClient) : outcome sockaddr_in :=
  match m_sa c with Some a => Ok a | None => UB Uninitialised end.

Definition write (buf : ptr) (size : Z) : U Z :=
  c ← self;
  if m_socket_fd c <? 0 then mret (to_size (-1))
  else
    sa ← lift (its_address c);
    rc ← sys (lwip_sendto (m_socket_fd c) buf size sa);
    mret (if rc <? 0 then 0 else rc).

Definition write_byte (b : Z) : U Z := write (Ptr [b] 0) 1.

Definition available : U Z :=
  c ← self;
  if 0 <=? m_socket_fd c then
    n ← sys (lwip_ioctl_fionread (m_socket_fd c));
    mret (Z.max 0 (default 0 n))
  else mret 0.

Definition read_byte : U Z :=
  c ← self;
  if m_socket_fd c <? 0 then mret (-1)
  else
    '(rc, bs) ← sys (lwip_recv (m_socket_fd c) 1);
    let buf := match bs with b :: _ => to_char b | [] => 0 end in
    mret (if truth rc then buf else 0).

Definition read (size : Z) : U (Z * list Z) :=
  c ← self;
  if m_socket_fd c <? 0 then mret (-1, [])
  else sys (lwip_recv (m_socket_fd c) size).

Definition peek : U Z := mret 0.
Definition flush : U unit := mret tt.

Definition stop : U unit := UDPClient_delete ;; become (set_m_socket_fd (-1)).

Definition connected : U Z :=
  c ← self;
  if m_socket_fd c <? 0 then mret 0
  else
    n ← sys (lwip_getsockopt_error (m_socket_fd c));
    error_code ← lift (match n with Some e => Ok e | None => UB Uninitialised end);
    mret (if error_code =? 0 then 1 else 0).

Definition operator_bool : U bool := c ← self; mret (0 <=? m_socket_fd c).

(** *** What goes wrong *)

(** Connect with a host name and no timeout never returns. *)
Theorem udp_connect_never_returns fuel host port s : connect fuel host port s = NoFuel.
Proof. by induction fuel. Qed.

(** A second connect by address opens a second socket and forgets the first: it stays open
    when the object is destroyed. *)
Theorem udp_reconnect_leaks open ip port c w r s1 u s2 :
  descriptors open → (∀ fd o w rc w', lwip_setsockopt fd o w = Ok (rc, w') → rc ≠ -1) →
  0 ≤ m_socket_fd c → m_socket_fd c ∈ open w →
  connect_ip ip port (c, w) = Ok (r, s1) → UDPClient_delete s1 = Ok (u, s2) →
  open s2.2 = open w.
Proof.
  intros HD HO Hf Hin E1 E2. unfold connect_ip, connectV4 in E1.
  apply run_bind_inv in E1 as (fd & s & (w1 & EA & ->)%sys_inv & E1).
  apply (ds_socket _ HD) in EA. rewrite bind_become in E1. unfold opened in EA.
  unfold UDPClient_delete in E2. destruct (Z.ltb_spec fd 0) as [L|L].
  - injection E1 as _ <-. rewrite bind_self in E2. cbn in E2.
    destruct (Z.leb_spec 0 fd); [lia|]. by injection E2 as _ <-.
  - apply run_bind_inv in E1 as (rc & s & (w2 & EB & ->)%sys_inv & E1).
    pose proof (HO _ _ _ _ _ EB). apply (ds_setsockopt _ HD) in EB.
    destruct (Z.eqb_spec rc (-1)); [done|].
    rewrite bind_become, bind_self in E1. injection E1 as _ <-. rewrite bind_self in E2. cbn in E2.
    destruct (Z.leb_spec 0 fd); [|lia]. destruct EA as [Hn Ho].
    apply run_bind_inv in E2 as (rc2 & s & (w3 & EC & ->)%sys_inv & E2). injection E2 as _ <-.
    apply (ds_close _ HD) in EC. cbn. rewrite EC, EB, Ho. set_solver.
Qed.

End UDPClient.

#[local] Existing Instance x86_64.
#[local] Instance some_address : IPAddresses := {| IPAddress := Z; v4 := λ a, a; IPAddress_of := λ a, a |}.
#[local] Instance willing : Lwip sockets := lwip_sim 0.

(** Descriptor 3 stays. *)
Lemma udp_reconnect_leaks_witness :
  open_sim (Sockets [3] 0 [] []) = open_sim (Sockets [3] 0 [] []).
Proof.
  set (c := mkUDPClient 4 (Some (SockAddr 16777343 13568))).
  refine (udp_reconnect_leaks open_sim (16777343 : IPAddress) 53 (mkUDPClient 3 None)
    (Sockets [3] 0 [] []) 4 (c, Sockets [4; 3] 0 [] []) tt (c, Sockets [3] 0 [] [])
    (descriptors_sim 0) _ _ _ _ _); [by intros fd o w rc w' [= <- _]|done|set_solver|reflexivity..].
Defined.

End UDPClient.

(** ** UDPServer.cpp *)

Module UDPServer.

Record UDPServer : Type := mkUDPServer
  { m_socket_fd : Z; m_serv_addr : option sockaddr_in; m_cli_addr : option sockaddr_in }.

Definition set_m_socket_fd v c := mkUDPServer v (m_serv_addr c) (m_cli_addr c).
Definition set_m_serv_addr v c := mkUDPServer (m_socket_fd c) v (m_cli_addr c).
Definition set_m_cli_addr v c := mkUDPServer (m_socket_fd c) (m_serv_addr c) v.

Section UDPServer.
Context {W : Type} `{Lwip W}.
#[local] Abbreviation U A := (M (UDPServer * W) A).

Definition UDPServer_new : UDPServer := mkUDPServer (-1) None None.

Definition UDPServer_delete : U unit :=
  c ← self;
  if 0 <=? m_socket_fd c then sys (lwip_close (m_socket_fd c)) ;; mret tt else mret tt.

Definition begin : U unit :=
  become (set_m_serv_addr (Some (SockAddr 0 0))) ;;
  become (set_m_cli_addr (Some (SockAddr 0 0))) ;;
  fd ← sys (lwip_socket SOCK_DGRAM);
  become (set_m_socket_fd fd).

Definition end_ : U unit := UDPServer_delete ;; become (set_m_socket_fd (-1)).

(** An address of the object, as an output of a call. *)
Definition store (set : option sockaddr_in → UDPServer → UDPServer) (sa : option sockaddr_in)
    (c : UDPServer) : UDPServer :=
  match sa with Some _ => set sa c | None => c end.

Definition establish (port bind_addr : Z) : U Z :=
  let sa := SockAddr (lwip_htonl bind_addr) (lwip_htons port) in
  become (set_m_serv_addr (Some sa)) ;;
  become (set_m_cli_addr (Some (SockAddr IPADDR_BROADCAST (lwip_htons port)))) ;;
  c ← self;
  let fd := m_socket_fd c in
  if fd <? 0 then mret 0
  else
    sys (lwip_setsockopt fd (SO_RCVTIMEO 5 0)) ;;
    rc ← sys (lwip_bind fd sa);
    if rc =? -1 then mret rc
    else
      '(rc, sa) ← sys (lwip_getsockname fd);
      become (store set_m_serv_addr sa) ;;
      mret rc.

(** The address to send to: that of the last peer, or the one of establish. *)
Definition its_peer (c : UDPServer) : outcome sockaddr_in :=
  match m_cli_addr c with Some a => Ok a | None => UB Uninitialised end.

Definition write (buf : ptr) (size : Z) : U Z :=
  c ← self;
  sa ← lift (its_peer c);
  rc ← sys (lwip_sendto (m_socket_fd c) buf size sa);
  mret (if rc <? 0 then 0 else rc).

Definition write_byte (b : Z) : U Z := write (Ptr [b] 0) 1.

Definition read (size : Z) : U (Z * list Z) :=
  c ← self;
  '(rc, bs, sa) ← sys (lwip_recvfrom (m_socket_fd c) size);
  become (store set_m_cli_addr sa) ;;
  mret (rc, bs).

(** [read()] gives the result of recvfrom, and drops the byte. *)
Definition read_byte : U Z := '(rc, _) ← read 1; mret rc.

Definition available : U Z :=
  c ← self;
  if 0 <=? m_socket_fd c then
    n ← sys (lwip_ioctl_fionread (m_socket_fd c));
    mret (Z.max 0 (default 0 n))
  else mret 0.

(** A server that is begun once and ended leaves the descriptors in use as they were. *)
Theorem udp_server_begin_end open c w u1 s1 u2 s2 :
  descriptors open → begin (c, w) = Ok (u1, s1) → end_ s1 = Ok (u2, s2) →
  open s2.2 = open w ∧ m_socket_fd s2.1 = -1.
Proof.
  intros HD E1 E2. unfold begin in E1. rewrite !bind_become in E1.
  apply run_bind_inv in E1 as (fd & s & (w1 & EA & ->)%sys_inv & E1). injection E1 as _ <-.
  apply (ds_socket _ HD) in EA. unfold opened in EA. unfold end_ in E2.
  apply run_bind_inv in E2 as ([] & [c3 w3] & E3 & E2). injection E2 as _ <-. split; [|done].
  unfold UDPServer_delete in E3. rewrite bind_self in E3. cbn in *. destruct (0 <=? fd).
  - apply run_bind_inv in E3 as (rc2 & s & (w4 & EC & ->)%sys_inv & E3). injection E3 as _ <-.
    apply (ds_close _ HD) in EC. destruct EA as [Hn Ho]. rewrite EC, Ho. set_solver.
  - by injection E3 as _ <-.
Qed.

(** What it sends goes to the peer of the last datagram it read. *)
Theorem udp_server_answers_peer n c w rc bs sa w1 buf size :
  lwip_recvfrom (m_socket_fd c) n w = Ok ((rc, bs, Some sa), w1) →
  ∃ s1, read n (c, w) = Ok ((rc, bs), s1) ∧
    write buf size s1 =
      (rc ← sys (lwip_sendto (m_socket_fd c) buf size sa); mret (if rc <? 0 then 0 else rc)) s1.
Proof.
  intros E. unfold read. rewrite bind_self, (bind_world _ _ _ _ _ _ E), bind_become.
  eexists. split; [reflexivity|]. done.
Qed.

End UDPServer.

#[local] Instance willing : Lwip sockets := lwip_sim 0.

Lemma udp_server_begin_end_witness :
  open_sim (Sockets [3] 0 [] []) = open_sim (Sockets [3] 0 [] []) ∧ m_socket_fd UDPServer_new = -1.
Proof.
  apply (udp_server_begin_end open_sim UDPServer_new (Sockets [3] 0 [] []) tt
    (mkUDPServer 4 (Some (SockAddr 0 0)) (Some (SockAddr 0 0)), Sockets [4; 3] 0 [] []) tt
    (mkUDPServer (-1) (Some (SockAddr 0 0)) (Some (SockAddr 0 0)), Sockets [3] 0 [] [])
    (descriptors_sim 0)); reflexivity.
Defined.

End UDPServer.
