(* ===== verification/SslClient.v ===== *)
(** * TLS for the C++ clients: ssl_client.cpp

    The names and fingerprints of certificates (Module Names), and the
    connection (Module SslClient), over the sockets of Lwip.v and the
    functions of mbedTLS. TlsClient.v has the class that uses it. *)

From stdpp Require Import gmap.
From S2P Require Import Prelude CSem Lwip TcpUdp.

Definition npos `{CImpl} : Z := to_size (-1).

(** ** Names and fingerprints

    A std::string, and a C string without its final zero, is the list of its
    bytes. *)
Module Names.

(** The nibble of a hexadecimal digit: parseHexNibble, and the code that
    start_ssl_client has in its place twice. *)
Definition parseHexNibble (pb : Z) : option Z :=
  if (48 <=? pb) && (pb <=? 57) then Some (pb - 48)
  else if (97 <=? pb) && (pb <=? 102) then Some (pb - 97 + 10)
  else if (65 <=? pb) && (pb <=? 70) then Some (pb - 65 + 10)
  else None.

Section Names.
Context `{CImpl}.

(** [s.find(c)] *)
Definition find (c : Z) (s : list Z) : Z :=
  match list_find (λ x, x = c) s with Some (i, _) => Z.of_nat i | None => npos end.

(** [s.substr(i)] for [i] at most the length. *)
Definition substr (i : Z) (s : list Z) : list Z := drop (Z.to_nat i) s.

Definition matchName (name domainName : list Z) : bool :=
  let wildcardPos := find 42 name in
  if wildcardPos =? npos then bool_decide (name = domainName)
  else
    let firstDotPos := find 46 name in
    if firstDotPos <? wildcardPos then false
    else if negb (wildcardPos =? 0) || negb (firstDotPos =? 1) then false
    else
      let domainNameFirstDotPos := find 46 domainName in
      if domainNameFirstDotPos =? npos then false
      else bool_decide (substr domainNameFirstDotPos domainName = substr firstDotPos name).

(** [::tolower] of a char; its argument is the value of an unsigned char or
    EOF. *)
Definition tolower (b : Z) : outcome Z :=
  let c := to_char b in
  if (-1 <=? c) && (c <=? 255)
  then Ok (if (65 <=? c) && (c <=? 90) then c + 32 else to_uchar c)
  else UB OutOfBounds.

(** [std::transform(s.begin(), s.end(), s.begin(), ::tolower)] *)
Fixpoint lower (s : list Z) : outcome (list Z) :=
  match s with
  | [] => Ok []
  | b :: s => c ← tolower b; s ← lower s; Ok (c :: s)
  end.

End Names.

(** The loop over blanks and colons. *)
Fixpoint skip_separators (fuel : nat) (fp : list Z) (pos : Z) : outcome Z :=
  match fuel with
  | O => NoFuel
  | S fuel =>
      if pos <? len fp then
        c ← load fp pos;
        if (c =? 32) || (c =? 58) then skip_separators fuel fp (pos + 1) else Ok pos
      else Ok pos
  end.

(** The loop over the [n] bytes of the fingerprint that are left: them, or
    none if it does not parse. *)
Fixpoint fingerprint_loop (n : nat) (fp : list Z) (pos : Z) : outcome (option (list Z)) :=
  match n with
  | O => Ok (Some [])
  | S n =>
      pos ← skip_separators (S (length fp)) fp pos;
      if len fp - 2 <? pos then Ok None
      else
        a ← load fp pos;
        match parseHexNibble a with
        | None => Ok None
        | Some high =>
            b ← load fp (pos + 1);
            match parseHexNibble b with
            | None => Ok None
            | Some low =>
                rest ← fingerprint_loop n fp (pos + 2);
                Ok (option_map (cons (Z.lor low (to_uchar (Z.shiftl high 4)))) rest)
            end
        end
  end.

Definition parse_fingerprint (fp : list Z) : outcome (option (list Z)) := fingerprint_loop 32 fp 0.

(** The loop that turns the hexadecimal pre-shared key to bytes. *)
Fixpoint psk_loop (psKey : list Z) : option (list Z) :=
  match psKey with
  | a :: b :: rest =>
      high ← parseHexNibble a;
      low ← parseHexNibble b;
      cons (Z.lor (to_uchar (Z.shiftl high 4)) low) <$> psk_loop rest
  | _ => Some []
  end.

Definition psk_of (MBEDTLS_PSK_MAX_LEN : Z) (psKey : list Z) : option (list Z) :=
  if negb (Z.land (len psKey) 1 =? 0) || (2 * MBEDTLS_PSK_MAX_LEN <? len psKey) then None
  else psk_loop psKey.

(** *** Matching names *)

Section Matching.
Context `{CImpl}.

Lemma find_cases c s :
  len s ≤ INT_MAX →
  (c ∉ s ∧ find c s = npos) ∨
  (∃ pre post, s = pre ++ c :: post ∧ c ∉ pre ∧ find c s = len pre ∧ find c s ≠ npos).
Proof.
  intros HL. unfold find. destruct (list_find _ s) as [[i x]|] eqn:E.
  - right. apply list_find_Some in E as (E & -> & Hn).
    exists (take i s), (drop (S i) s). pose proof (lookup_lt_Some _ _ _ E) as Hi.
    split; [by rewrite take_drop_middle|]. split; [|split].
    + intros [j Hj]%list_elem_of_lookup. rewrite lookup_take in Hj. case_decide; [|done].
      by eapply Hn.
    + rewrite length_take. lia.
    + unfold npos, to_size, INT_MAX in *. destruct lp64; lia.
  - left. apply list_find_None in E. rewrite list.Forall_forall in E. split; [|done].
    intros Hc. by apply (E c).
Qed.

(** C38: A name without a wildcard matches itself alone, and "*.rest" matches any name whose first
    label is followed by rest; no other name with a wildcard matches anything. *)
Theorem matchName_spec name domainName :
  len name ≤ INT_MAX → len domainName ≤ INT_MAX →
  matchName name domainName = true ↔
    (42 ∉ name ∧ name = domainName) ∨
    (∃ label rest, name = 42 :: 46 :: rest ∧ 46 ∉ label ∧ domainName = label ++ 46 :: rest).
Proof.
  intros HN HM. unfold matchName, substr.
  destruct (find_cases 42 name HN) as [[Hw ->]|(pre & post & En & Hpre & -> & Hnp)].
  { rewrite Z.eqb_refl, bool_decide_eq_true. split; [by left|]. intros [[_ ?]|(l & r & -> & _)]; [done|].
    destruct Hw. by left. }
  destruct (Z.eqb_spec (len pre) npos); [done|].
  assert (HL : ∀ l : list Z, name = 42 :: l → pre = []).
  { intros l ->. destruct pre as [|x pre]; [done|]. injection En as <- _. destruct Hpre. by left. }
  split.
  - destruct (_ <? _); [done|]. destruct (Z.eqb_spec (len pre) 0) as [E0|]; [|done].
    destruct pre as [|? ?]; [|cbn in E0; lia]. cbn [app] in *.
    destruct (find_cases 46 name HN) as [[_ ->]|(p1 & r1 & En1 & Hd & Hf & _)].
    { destruct (Z.eqb_spec npos 1) as [E1|]; [|done].
      unfold npos, to_size in E1. destruct lp64; lia. }
    rewrite Hf. destruct (Z.eqb_spec (len p1) 1) as [E1|]; [|done]. cbn [negb orb].
    destruct (find_cases 46 domainName HM) as [[_ ->]|(p2 & r2 & Em & Hd2 & -> & Hn2)];
      [by rewrite Z.eqb_refl|].
    destruct (Z.eqb_spec (len p2) npos); [done|]. rewrite bool_decide_eq_true. intros ED.
    rewrite Em, En1 in ED. rewrite !drop_len_app in ED by lia. injection ED as <-.
    right. exists p2, r2. split; [|done]. rewrite En1.
    destruct p1 as [|x [|? ?]]; [cbn in E1; lia| |cbn in E1; lia]. rewrite En1 in En. by injection En as ->.
  - intros [[Hw _]|(label & rest & -> & Hl & ->)].
    { destruct Hw. rewrite En. apply elem_of_app. right. by left. }
    rewrite (HL _ eq_refl). cbn [length].
    assert (find 46 (42 :: 46 :: rest) = 1) as -> by (unfold find; by cbn).
    change (1 <? Z.of_nat 0) with false.
    change (negb (Z.of_nat 0 =? 0) || negb (1 =? 1)) with false. cbv iota.
    destruct (find_cases 46 (label ++ 46 :: rest) HM) as [[Hd _]|(p2 & r2 & Em & Hd2 & -> & Hn2)].
    { destruct Hd. apply elem_of_app. right. by left. }
    destruct (Z.eqb_spec (len p2) npos); [done|]. rewrite bool_decide_eq_true.
    assert (p2 = label) as ->; [|by rewrite drop_len_app by lia].
    clear -Em Hl Hd2. revert label Em Hl. induction p2 as [|x p2 IH]; intros [|y label] Em Hl; try done.
    + cbn in Em. injection Em as -> _. destruct Hl. by left.
    + cbn in Em. injection Em as <- _. destruct Hd2. by left.
    + cbn in Em. injection Em as <- Em. f_equal. apply IH; [|done|];
        intros Hx; [apply Hd2|apply Hl]; by right.
Qed.

End Matching.

(** *** Fingerprints and keys *)

(** [text] begins with the bytes [bs] in hexadecimal, with blanks and colons
    between them. *)
Inductive spells : list Z → list Z → Prop :=
  | spells_nil text : spells text []
  | spells_cons separators a high b low text bs :
      Forall (λ c, c = 32 ∨ c = 58) separators →
      parseHexNibble a = Some high → parseHexNibble b = Some low → spells text bs →
      spells (separators ++ a :: b :: text) (16 * high + low :: bs).

Lemma nibble_bound c n : parseHexNibble c = Some n → 0 ≤ n < 16 ∧ c ≠ 32 ∧ c ≠ 58.
Proof. unfold parseHexNibble. ztests; intros [= <-]; lia. Qed.

Lemma nibbles_byte high low :
  0 ≤ high < 16 → 0 ≤ low < 16 →
  Z.lor low (to_uchar (Z.shiftl high 4)) = 16 * high + low ∧
  Z.lor (to_uchar (Z.shiftl high 4)) low = 16 * high + low.
Proof.
  assert (A : Forall (λ h, Forall (λ l, Z.lor l (to_uchar (Z.shiftl h 4)) = 16 * h + l ∧
    Z.lor (to_uchar (Z.shiftl h 4)) l = 16 * h + l) (seqZ 0 16)) (seqZ 0 16)) by decide_by_vm.
  rewrite list.Forall_forall in A. intros Hh Hl.
  specialize (A high ltac:(apply elem_of_seqZ; lia)). rewrite list.Forall_forall in A.
  apply A, elem_of_seqZ. lia.
Qed.

(** The same parser over what is left of the text. *)
Fixpoint skip (t : list Z) : list Z :=
  match t with
  | c :: t' => if (c =? 32) || (c =? 58) then skip t' else t
  | [] => []
  end.

Fixpoint parse_from (n : nat) (t : list Z) : option (list Z) :=
  match n with
  | O => Some []
  | S n =>
      match skip t with
      | a :: b :: t =>
          high ← parseHexNibble a; low ← parseHexNibble b;
          cons (16 * high + low) <$> parse_from n t
      | _ => None
      end
  end.

Lemma load_at (s : list Z) i v : 0 ≤ i → s !! Z.to_nat i = Some v → load s i = Ok v.
Proof. intros Hi E. unfold load. rewrite E. by ztest. Qed.

Lemma skip_separators_skip fuel fp pos :
  0 ≤ pos ≤ len fp → len fp - pos < Z.of_nat fuel →
  ∃ pos', skip_separators fuel fp pos = Ok pos' ∧ pos ≤ pos' ≤ len fp ∧
    drop (Z.to_nat pos') fp = skip (drop (Z.to_nat pos) fp).
Proof.
  revert pos. induction fuel as [|fuel IH]; intros pos Hp Hf; [lia|]. cbn [skip_separators].
  destruct (Z.ltb_spec pos (len fp)).
  - destruct (lookup_lt_is_Some_2 fp (Z.to_nat pos) ltac:(lia)) as [c Hc].
    rewrite (drop_S _ _ _ Hc), (load_at fp pos c) by (lia || done). cbn [skip].
    cbn [mbind outcome_bind]. destruct ((c =? 32) || (c =? 58)).
    + destruct (IH (pos + 1)) as (p & E & Hp' & Ed); [lia..|]. exists p. split; [done|].
      split; [lia|]. rewrite Ed. do 2 f_equal. lia.
    + exists pos. split; [done|]. split; [lia|]. by rewrite (drop_S _ _ _ Hc).
  - exists pos. split; [done|]. split; [lia|]. by rewrite drop_ge by lia.
Qed.

Lemma fingerprint_loop_parse n fp pos :
  0 ≤ pos ≤ len fp → fingerprint_loop n fp pos = Ok (parse_from n (drop (Z.to_nat pos) fp)).
Proof.
  revert pos. induction n as [|n IH]; intros pos Hp; [done|]. cbn [fingerprint_loop parse_from].
  destruct (skip_separators_skip (S (length fp)) fp pos) as (p & E & Hp' & Ed); [lia..|].
  rewrite E. cbn [mbind outcome_bind]. rewrite <- Ed.
  destruct (Z.ltb_spec (len fp - 2) p).
  - pose proof (length_drop fp (Z.to_nat p)) as Hl.
    destruct (drop _ fp) as [|a [|b t]]; [done|done|cbn in Hl; lia].
  - destruct (lookup_lt_is_Some_2 fp (Z.to_nat p) ltac:(lia)) as [a Ha].
    destruct (lookup_lt_is_Some_2 fp (S (Z.to_nat p)) ltac:(lia)) as [b Hb].
    rewrite (drop_S _ _ _ Ha), (drop_S _ _ _ Hb), (load_at fp p a) by (lia || done).
    cbn [mbind outcome_bind option_bind].
    destruct (parseHexNibble a) as [high|] eqn:Eh; [|done].
    assert (load fp (p + 1) = Ok b) as ->
      by (apply load_at; [lia|]; by replace (Z.to_nat (p + 1)) with (S (Z.to_nat p)) by lia).
    cbn [mbind outcome_bind option_bind].
    destruct (parseHexNibble b) as [low|] eqn:El; [|done].
    rewrite IH by lia. cbn [mbind outcome_bind].
    replace (Z.to_nat (p + 2)) with (S (S (Z.to_nat p))) by lia.
    apply nibble_bound in Eh as [Eh _]. apply nibble_bound in El as [El _].
    by rewrite (proj1 (nibbles_byte high low Eh El)).
Qed.

Lemma skip_app seps t :
  Forall (λ c, c = 32 ∨ c = 58) seps → skip (seps ++ t) = skip t.
Proof. induction 1 as [|c seps Hc HS IH]; [done|]. cbn. rewrite IH. destruct Hc; by subst c. Qed.

Lemma skip_split t : ∃ seps, Forall (λ c, c = 32 ∨ c = 58) seps ∧ t = seps ++ skip t.
Proof.
  induction t as [|c t (seps & HS & E)]; [by exists []|]. cbn.
  destruct (Z.eqb_spec c 32), (Z.eqb_spec c 58); cbn [orb];
    try (exists (c :: seps); split; [by constructor; [lia|]|by cbn; f_equal]).
  by exists [].
Qed.

Lemma parse_from_spells n t bs : parse_from n t = Some bs ↔ spells t bs ∧ length bs = n.
Proof.
  split.
  - revert t bs. induction n as [|n IH]; intros t bs E; [injection E as <-; by split; [constructor|]|].
    cbn in E. destruct (skip_split t) as (seps & HS & Et).
    destruct (skip t) as [|a [|b u]]; [done..|]. apply bind_Some in E as (high & Eh & E).
    apply bind_Some in E as (low & El & E). apply fmap_Some in E as (l & E & ->).
    apply IH in E as [E <-]. split; [|done]. rewrite Et. by constructor.
  - intros [HS <-]. induction HS as [|seps a high b low text bs HS Ea Eb Ht IH]; [done|].
    cbn [length parse_from]. rewrite skip_app by done. cbn [skip].
    destruct (nibble_bound _ _ Ea) as (_ & N1 & N2).
    destruct (Z.eqb_spec a 32), (Z.eqb_spec a 58); [done..|]. cbn [orb]. rewrite Ea, Eb.
    cbn [mbind option_bind]. by rewrite IH.
Qed.

(** The fingerprint is read without leaving the text, and it is accepted exactly when the text
    begins with thirty-two bytes in hexadecimal, blanks and colons apart; what follows them is
    not looked at. *)
Theorem parse_fingerprint_spec fp :
  ∃ r, parse_fingerprint fp = Ok r ∧ ∀ bs, r = Some bs ↔ spells fp bs ∧ length bs = 32%nat.
Proof.
  exists (parse_from 32 fp). split; [|intros bs; apply parse_from_spells].
  unfold parse_fingerprint. rewrite fingerprint_loop_parse by lia. done.
Qed.

(** The hexadecimal text of bytes, as upper- or lower-case digits. *)
Definition digit (upper : bool) (n : Z) : Z := if n <? 10 then 48 + n else (if upper then 55 else 87) + n.
Fixpoint to_hex (upper : bool) (bs : list Z) : list Z :=
  match bs with
  | [] => []
  | b :: bs => digit upper (b / 16) :: digit upper (b mod 16) :: to_hex upper bs
  end.

Lemma parse_digit upper n : 0 ≤ n < 16 → parseHexNibble (digit upper n) = Some n.
Proof. intros Hn. unfold parseHexNibble, digit. destruct upper; ztests; f_equal; lia. Qed.

Lemma length_to_hex upper bs : length (to_hex upper bs) = (2 * length bs)%nat.
Proof. induction bs as [|b bs IH]; [done|]. cbn. rewrite IH. lia. Qed.

(** A pre-shared key written in hexadecimal is read back, when it is not longer than mbedTLS
    takes. *)
Theorem psk_roundtrip MBEDTLS_PSK_MAX_LEN upper bs :
  bytes bs → len bs ≤ MBEDTLS_PSK_MAX_LEN → psk_of MBEDTLS_PSK_MAX_LEN (to_hex upper bs) = Some bs.
Proof.
  intros HB HL. unfold psk_of. rewrite length_to_hex.
  replace (Z.land (Z.of_nat (2 * length bs)) 1) with 0
    by (change 1 with (Z.ones 1); rewrite Z.land_ones by lia; lia).
  destruct (Z.ltb_spec (2 * MBEDTLS_PSK_MAX_LEN) (Z.of_nat (2 * length bs))) as [|_]; [lia|].
  clear HL. change (negb (0 =? 0) || false) with false. cbv iota. induction HB as [|b bs Hb HB IH]; [done|]. cbn [to_hex psk_loop].
  rewrite !parse_digit by (unfold byte in *; lia). cbn [mbind option_bind].
  rewrite IH. cbn [fmap option_fmap option_map].
  rewrite (proj2 (nibbles_byte (b / 16) (b mod 16) ltac:(unfold byte in *; lia) ltac:(lia))).
  do 2 f_equal. lia.
Qed.

(** "*.iot.example" *)
Lemma matchName_spec_witness :
  matchName (H := esp32) (bytes_of "*.iot"%string) (bytes_of "broker.iot"%string) = true.
Proof.
  apply (matchName_spec (H := esp32)); [cbn; unfold INT_MAX; lia..|]. right.
  exists (bytes_of "broker"%string), (bytes_of "iot"%string). split; [done|]. split; [|done]. decide_by_vm.
Defined.

Lemma psk_roundtrip_witness : psk_of 32 (to_hex true [26; 255]) = Some [26; 255].
Proof. apply (psk_roundtrip 32 true [26; 255]); [decide_by_vm|cbn; lia]. Defined.

End Names.

(** ** The connection *)

Module SslClient.
Import Names.

(** The structures of sslclient_context that mbedTLS keeps. *)
Inductive structure : Type :=
  ssl_ctx | ssl_conf | drbg_ctx | entropy_ctx | ca_cert | client_cert | client_key.

#[export] Instance structure_eq_dec : EqDecision structure.
Proof. solve_decision. Defined.

(** A certificate: its bytes, its alternative names, and its subject, where an
    item says whether it is a common name. *)
Record x509_crt : Type := Crt
  { raw : list Z; subject_alt_names : list (list Z); subject : list (bool * list Z) }.

(** The functions of mbedTLS and of the board. Those that send and receive do
    so on the descriptor they are given, which they read from the context. *)
Class Mbedtls (W : Type) : Type :=
  { mbedtls_init : structure → M W unit;
    mbedtls_free : structure → M W unit;
    mbedtls_ctr_drbg_seed : M W Z;
    mbedtls_ssl_config_defaults : M W Z;
    (* MBEDTLS_SSL_VERIFY_REQUIRED or _NONE *)
    mbedtls_ssl_conf_authmode : bool → M W unit;
    mbedtls_x509_crt_parse : structure → ptr → Z → M W Z;
    mbedtls_ssl_conf_ca_chain : M W unit;
    MBEDTLS_PSK_MAX_LEN : Z;
    mbedtls_ssl_conf_psk : list Z → ptr → Z → M W Z;
    mbedtls_pk_parse_key : ptr → Z → M W Z;
    mbedtls_ssl_conf_own_cert : M W unit;
    mbedtls_ssl_set_hostname : ptr → M W Z;
    mbedtls_ssl_conf_rng : M W unit;
    mbedtls_ssl_setup : M W Z;
    mbedtls_ssl_set_bio : M W unit;
    mbedtls_ssl_handshake : Z → M W Z;
    mbedtls_ssl_get_record_expansion : M W Z;
    mbedtls_ssl_get_verify_result : M W Z;
    mbedtls_ssl_read : Z → Z → M W (Z * list Z);
    mbedtls_ssl_get_bytes_avail : M W Z;
    mbedtls_ssl_write : Z → ptr → Z → M W Z;
    mbedtls_ssl_get_peer_cert : M W (option x509_crt);
    mbedtls_sha256 : list Z → list Z;
    millis : M W Z;
    vTaskDelay : Z → M W unit;
    portTICK_PERIOD_MS : Z }.

Definition MBEDTLS_ERR_SSL_WANT_READ : Z := -26880.
Definition MBEDTLS_ERR_SSL_WANT_WRITE : Z := -26752.

(** What is left of sslclient_context. *)
Record sslclient_context : Type := mkContext { socket : Z; handshake_timeout : Z }.

Definition set_socket v c := mkContext v (handshake_timeout c).
Definition set_handshake_timeout v c := mkContext (socket c) v.

(** Both ways of _handle_error return the error; the other one logs it. *)
Definition handle_error (err : Z) : Z := if err =? -30848 then err else err.

(** The bytes of a C string. *)
Definition c_chars (p : ptr) : outcome (list Z) :=
  n ← strlen (Some p); load_bytes (obj p) (off p) n.

Section SslClient.
Context `{CImpl} `{IPAddresses} {W : Type} `{Lwip W} `{Mbedtls W}.
#[local] Abbreviation L A := (M (sslclient_context * W) A).

Definition ssl_init : L unit :=
  sys (mbedtls_init ssl_ctx) ;; sys (mbedtls_init ssl_conf) ;; sys (mbedtls_init drbg_ctx).

Definition stop_ssl_socket : L unit :=
  c ← self;
  (if 0 <=? socket c then sys (lwip_close (socket c)) ;; become (set_socket (-1)) else mret tt) ;;
  sys (mbedtls_free ssl_ctx) ;;
  sys (mbedtls_free ssl_conf) ;;
  sys (mbedtls_free drbg_ctx) ;;
  sys (mbedtls_free entropy_ctx).

(** *** start_ssl_client

    In parts; a part that returns [Some r] makes the function return r. *)

Definition connect_socket (host : ptr) (port timeout : Z) : L (option Z) :=
  become (set_socket (-1)) ;;
  fd ← sys (lwip_socket SOCK_STREAM);
  become (set_socket fd) ;;
  if fd <? 0 then mret (Some fd)
  else
    '(found, srv) ← sys (TCPClient.hostByName host);
    match srv with
    | Some srv =>
        if found =? 0 then mret (Some (-1))
        else
          rc ← sys (lwip_connect fd (SockAddr (v4 srv) (lwip_htons (to_ushort port))));
          if rc =? 0 then
            let timeout := if timeout <=? 0 then 30000 else timeout in
            sys (lwip_setsockopt fd (SO_RCVTIMEO_int timeout)) ;;
            sys (lwip_setsockopt fd (SO_SNDTIMEO_int timeout)) ;;
            sys (lwip_setsockopt fd (TCP_NODELAY 1)) ;;
            sys (lwip_setsockopt fd (SO_KEEPALIVE 1)) ;;
            sys (lwip_fcntl_nonblock fd) ;;
            mret None
          else mret (Some (-1))
    | None => mret (Some (-1))
    end.

(** The generator of random numbers and the configuration. *)
Definition configure : M W (option Z) :=
  mbedtls_init entropy_ctx ;;
  ret ← mbedtls_ctr_drbg_seed;
  if ret <? 0 then mret (Some (handle_error ret))
  else
    ret ← mbedtls_ssl_config_defaults;
    mret (if negb (ret =? 0) then Some (handle_error ret) else None).

(** The certificate authority, or the pre-shared key, or neither. *)
Definition authenticate (rootCABuff pskIdent psKey : option ptr) : M W (option Z) :=
  match rootCABuff, pskIdent, psKey with
  | Some root, _, _ =>
      mbedtls_init ca_cert ;;
      mbedtls_ssl_conf_authmode true ;;
      n ← lift (strlen (Some root));
      ret ← mbedtls_x509_crt_parse ca_cert root (n + 1);
      mbedtls_ssl_conf_ca_chain ;;
      mret (if ret <? 0 then Some (handle_error ret) else None)
  | None, Some ident, Some key =>
      digits ← lift (c_chars key);
      match psk_of MBEDTLS_PSK_MAX_LEN digits with
      | None => mret (Some (-1))
      | Some psk =>
          n ← lift (strlen (Some ident));
          ret ← mbedtls_ssl_conf_psk psk ident n;
          mret (if negb (ret =? 0) then Some (handle_error ret) else None)
      end
  | None, _, _ => mbedtls_ssl_conf_authmode false ;; mret None
  end.

(** The certificate and key of the client, if it has both. *)
Definition own_cert (cli_cert cli_key : option ptr) : M W (option Z) :=
  match cli_cert, cli_key with
  | Some cert, Some key =>
      mbedtls_init client_cert ;;
      mbedtls_init client_key ;;
      n ← lift (strlen (Some cert));
      ret ← mbedtls_x509_crt_parse client_cert cert (n + 1);
      if ret <? 0 then mret (Some (handle_error ret))
      else
        n ← lift (strlen (Some key));
        ret ← mbedtls_pk_parse_key key (n + 1);
        if negb (ret =? 0) then mret (Some (handle_error ret))
        else mbedtls_ssl_conf_own_cert ;; mret None
  | _, _ => mret None
  end.

Definition set_up (host : ptr) : M W (option Z) :=
  ret ← mbedtls_ssl_set_hostname host;
  if negb (ret =? 0) then mret (Some (handle_error ret))
  else
    mbedtls_ssl_conf_rng ;;
    ret ← mbedtls_ssl_setup;
    if negb (ret =? 0) then mret (Some (handle_error ret))
    else mbedtls_ssl_set_bio ;; mret None.

Definition wants (ret : Z) : bool :=
  (ret =? MBEDTLS_ERR_SSL_WANT_READ) || (ret =? MBEDTLS_ERR_SSL_WANT_WRITE).

(** The loop of the handshake: [Some r] when the function returns r. *)
Fixpoint handshake_loop (fuel : nat) (fd timeout start : Z) : M W (option Z) :=
  match fuel with
  | O => no_fuel
  | S fuel =>
      ret ← mbedtls_ssl_handshake fd;
      if ret =? 0 then mret None
      else if negb (wants ret) then mret (Some (handle_error ret))
      else
        now ← millis;
        if timeout <? to_uint (now - start) then mret (Some (-1))
        else
          vTaskDelay (10 `quot` portTICK_PERIOD_MS) ;;
          handshake_loop fuel fd timeout start
  end.

(** The end: [ret] is 0, or the record expansion. *)
Definition check_peer (rootCABuff cli_cert cli_key : option ptr) : L Z :=
  ret ← (if nonnull cli_cert && nonnull cli_key
         then sys mbedtls_ssl_get_record_expansion else mret 0);
  flags ← sys mbedtls_ssl_get_verify_result;
  if negb (flags =? 0) then stop_ssl_socket ;; mret (handle_error ret)
  else
    (if nonnull rootCABuff then sys (mbedtls_free ca_cert) else mret tt) ;;
    (if nonnull cli_cert then sys (mbedtls_free client_cert) else mret tt) ;;
    (if nonnull cli_key then sys (mbedtls_free client_key) else mret tt) ;;
    c ← self;
    mret (socket c).

(** The next part, unless the function has returned. *)
Definition go_on (m : L (option Z)) (next : L Z) : L Z :=
  r ← m; match r with Some r => mret r | None => next end.

Definition start_ssl_client (fuel : nat) (host : ptr) (port timeout : Z)
    (rootCABuff cli_cert cli_key pskIdent psKey : option ptr) : L Z :=
  go_on (connect_socket host port timeout)
  (go_on (sys configure)
  (go_on (sys (authenticate rootCABuff pskIdent psKey))
  (go_on (sys (own_cert cli_cert cli_key))
  (go_on (sys (set_up host))
  (go_on (c ← self; start ← sys millis;
          sys (handshake_loop fuel (socket c) (handshake_timeout c) start))
  (check_peer rootCABuff cli_cert cli_key)))))).

(** *** Data *)

Definition data_to_read : L Z :=
  c ← self;
  '(ret, _) ← sys (mbedtls_ssl_read (socket c) 0);
  res ← sys mbedtls_ssl_get_bytes_avail;
  mret (if negb (wants ret) && (ret <? 0) then handle_error ret else res).

Fixpoint send_loop (fuel : nat) (fd : Z) (data : ptr) (len : Z) : M W Z :=
  match fuel with
  | O => no_fuel
  | S fuel =>
      ret ← mbedtls_ssl_write fd data len;
      if ret <=? 0 then
        if negb (wants ret) then mret (handle_error ret) else send_loop fuel fd data len
      else mret ret
  end.

(** [len] is a uint16_t. *)
Definition send_ssl_data (fuel : nat) (data : ptr) (len : Z) : L Z :=
  c ← self; sys (send_loop fuel (socket c) data (to_ushort len)).

Definition get_ssl_receive (length : Z) : L (Z * list Z) :=
  c ← self; sys (mbedtls_ssl_read (socket c) length).

(** *** Certificates *)

(** The names of a certificate against a domain name in lower case. *)
Fixpoint match_san (san : list (list Z)) (domain_name : list Z) : outcome bool :=
  match san with
  | [] => Ok false
  | s :: san =>
      s ← lower s; if matchName s domain_name then Ok true else match_san san domain_name
  end.

Fixpoint match_cn (subject : list (bool * list Z)) (domain_name : list Z) : bool :=
  match subject with
  | [] => false
  | (is_cn, s) :: subject =>
      if is_cn && matchName s domain_name then true else match_cn subject domain_name
  end.

Definition verify_ssl_dn (domain_name : option ptr) : L bool :=
  p ← lift (match domain_name with Some p => Ok p | None => UB NullPointer end);
  domain_name_str ← lift (s ← c_chars p; lower s);
  crt ← sys mbedtls_ssl_get_peer_cert;
  match crt with
  | None => lift (UB NullPointer)
  | Some crt =>
      found ← lift (match_san (subject_alt_names crt) domain_name_str);
      mret (found || match_cn (subject crt) domain_name_str)
  end.

Definition verify_ssl_fingerprint (fp : ptr) (domain_name : option ptr) : L bool :=
  text ← lift (c_chars fp);
  fingerprint_local ← lift (parse_fingerprint text);
  match fingerprint_local with
  | None => mret false
  | Some fingerprint_local =>
      crt ← sys mbedtls_ssl_get_peer_cert;
      match crt with
      | None => mret false
      | Some crt =>
          if negb (bool_decide (fingerprint_local = mbedtls_sha256 (raw crt))) then mret false
          else match domain_name with Some d => verify_ssl_dn (Some d) | None => mret true end
      end
  end.

(** *** The handshake ends *)

(** [clock w]: the milliseconds since the board was started. A tick comes every
    portTICK_PERIOD_MS milliseconds, the first [phase] before the board was; each of the
    functions that the loop calls returns, within [D] milliseconds, and vTaskDelay when the
    ticks that it is given have come, which may take up to a period less than that many. *)
Definition tick (clock : W → Z) (phase : Z) (w : W) : Z := (clock w + phase) / portTICK_PERIOD_MS.

Definition turn : Z := 10 `quot` portTICK_PERIOD_MS.

Record ticking (clock : W → Z) (phase D fd : Z) : Prop :=
  { ti_period : 0 < portTICK_PERIOD_MS ≤ 10;
    ti_handshake w : ∃ r w', mbedtls_ssl_handshake fd w = Ok (r, w') ∧ clock w ≤ clock w' ≤ clock w + D;
    ti_millis w : ∃ w', millis w = Ok (to_uint (clock w), w') ∧ clock w ≤ clock w' ≤ clock w + D;
    ti_delay w : ∃ w', vTaskDelay turn w = Ok (tt, w') ∧ clock w ≤ clock w' ≤ clock w + D ∧
      tick clock phase w + turn ≤ tick clock phase w' }.

(** The peer has not answered, whatever has been sent. *)
Definition silent (fd : Z) : Prop :=
  ∀ w r w', mbedtls_ssl_handshake fd w = Ok (r, w') → wants r = true.

Lemma handshake_loop_returns clock phase D fd timeout t0 fuel w :
  ticking clock phase D fd → 0 ≤ timeout → timeout + 3 * D < 4294967296 →
  t0 ≤ clock w ≤ t0 + timeout + 2 * D → 0 < Z.of_nat fuel →
  (t0 + timeout + phase) / portTICK_PERIOD_MS + 1 - tick clock phase w < Z.of_nat fuel →
  ∃ r w', handshake_loop fuel fd timeout (to_uint t0) w = Ok (r, w') ∧
    clock w' ≤ t0 + timeout + 4 * D ∧ (silent fd → r = Some (-1) ∧ t0 + timeout < clock w').
Proof.
  intros HT Hto HD. pose proof (ti_period _ _ _ _ HT) as HP.
  assert (1 ≤ turn) as Hturn.
  { unfold turn. rewrite Z.quot_div_nonneg by lia. apply Z.div_le_lower_bound; lia. }
  revert w. induction fuel as [|fuel IH]; intros w Hw Hp Hf; [lia|].
  cbn [handshake_loop]. destruct (ti_handshake _ _ _ _ HT w) as (ret & w1 & E1 & C1).
  rewrite (run_bind _ _ _ _ _ E1). destruct (Z.eqb_spec ret 0) as [->|Hr].
  { eexists _, _. split; [done|]. split; [lia|]. intros HS. apply HS in E1. by vm_compute in E1. }
  destruct (wants ret) eqn:Ewants; cbn [negb].
  2:{ eexists _, _. split; [done|]. split; [lia|]. intros HS. apply HS in E1. congruence. }
  destruct (ti_millis _ _ _ _ HT w1) as (w2 & E2 & C2). rewrite (run_bind _ _ _ _ _ E2).
  assert (to_uint (to_uint (clock w1) - to_uint t0) = clock w1 - t0) as ->.
  { unfold to_uint. rewrite <- Zminus_mod. apply Z.mod_small. lia. }
  destruct (Z.ltb_spec timeout (clock w1 - t0)).
  { eexists _, _. split; [done|]. split; [lia|]. split; [done|lia]. }
  destruct (ti_delay _ _ _ _ HT w2) as (w3 & E3 & C3 & T3). fold turn.
  assert (tick clock phase w ≤ tick clock phase w2) by (unfold tick; apply Z.div_le_mono; lia).
  assert (tick clock phase w ≤ (t0 + timeout + phase) / portTICK_PERIOD_MS)
    by (unfold tick; apply Z.div_le_mono; lia).
  rewrite (run_bind _ _ _ _ _ E3). apply IH; lia.
Qed.

(** C39: the handshake loop ends, at most handshake_timeout and the time of four of its calls
    after it was started, also when the 32-bit clock of the board wraps around on the way; and
    when the peer keeps silent it answers -1, but not before handshake_timeout has passed. Each
    call returns, in a time that is bounded, and a tick is at most 10 ms. *)
Theorem handshake_terminates clock phase D fd timeout w :
  ticking clock phase D fd → 0 ≤ timeout → timeout + 3 * D < 4294967296 →
  ∃ r w', handshake_loop (3 + Z.to_nat timeout) fd timeout (to_uint (clock w)) w = Ok (r, w') ∧
    clock w' ≤ clock w + timeout + 4 * D ∧ (silent fd → r = Some (-1) ∧ clock w + timeout < clock w').
Proof.
  intros HT Hto HD. pose proof (ti_period _ _ _ _ HT).
  destruct (ti_delay _ _ _ _ HT w) as (w' & _ & C & _).
  apply (handshake_loop_returns clock phase D); try done; [lia..|].
  assert ((clock w + timeout + phase) / portTICK_PERIOD_MS ≤ tick clock phase w + timeout + 1); [|lia].
  unfold tick. assert (timeout ≤ timeout * portTICK_PERIOD_MS) by nia.
  assert (portTICK_PERIOD_MS ≠ 0) as HP0 by lia.
  pose proof (Z.div_add (clock w + phase) (timeout + 1) _ HP0).
  pose proof (Z.div_le_mono (clock w + timeout + phase)
    (clock w + phase + (timeout + 1) * portTICK_PERIOD_MS) portTICK_PERIOD_MS). lia.
Qed.

(** Sending has no such limit: while mbedTLS cannot send, send_ssl_data does not return. *)
Theorem send_ssl_data_spins (I : W → Prop) fuel c w data n :
  (∀ w, I w → ∃ w', mbedtls_ssl_write (socket c) data (to_ushort n) w =
    Ok (MBEDTLS_ERR_SSL_WANT_WRITE, w') ∧ I w') →
  I w → send_ssl_data fuel data n (c, w) = NoFuel.
Proof.
  intros HI Hw. unfold send_ssl_data. rewrite bind_self. unfold sys. cbn [fst snd].
  assert (send_loop fuel (socket c) data (to_ushort n) w = NoFuel) as ->; [|done].
  revert w Hw. induction fuel as [|fuel IH]; intros w Hw; [done|]. cbn [send_loop].
  destruct (HI w Hw) as (w1 & E & Hw1). rewrite (run_bind _ _ _ _ _ E). by apply IH.
Qed.

(** Of a buffer of 65536 bytes or more only its length modulo 65536 is offered to mbedTLS. *)
Theorem send_ssl_data_truncates fuel data n s :
  send_ssl_data fuel data (n + 65536) s = send_ssl_data fuel data n s.
Proof.
  unfold send_ssl_data. assert (to_ushort (n + 65536) = to_ushort n) as ->; [|done].
  unfold to_ushort. lia.
Qed.

(** *** Certificates *)

(** The certificate of the peer is accepted for a fingerprint exactly when that spells its
    SHA-256. *)
Theorem verify_ssl_fingerprint_spec fp text c w crt w' :
  c_chars fp = Ok text → mbedtls_ssl_get_peer_cert w = Ok (Some crt, w') →
  length (mbedtls_sha256 (raw crt)) = 32%nat →
  ∃ b s', verify_ssl_fingerprint fp None (c, w) = Ok (b, s') ∧
    (b = true ↔ spells text (mbedtls_sha256 (raw crt))).
Proof.
  intros ET EC HL. unfold verify_ssl_fingerprint. rewrite ET, run_bind_lift_Ok.
  unfold parse_fingerprint. rewrite fingerprint_loop_parse, run_bind_lift_Ok by lia.
  pose proof (parse_from_spells 32 (drop (Z.to_nat 0) text)) as HS.
  destruct (parse_from 32 _) as [bs|].
  - rewrite (bind_world _ _ _ _ _ _ EC). destruct (proj1 (HS bs) eq_refl) as [Hbs _].
    destruct (bool_decide_reflect (bs = mbedtls_sha256 (raw crt))) as [->|Hn]; cbn [negb].
    + by exists true, (c, w').
    + exists false, (c, w'). split; [done|]. split; [done|]. intros HT.
      destruct Hn. assert (Some bs = Some (mbedtls_sha256 (raw crt))) as E; [by apply HS|].
      by injection E.
  - exists false, (c, w). split; [done|]. split; [done|]. intros HT.
    assert (None = Some (mbedtls_sha256 (raw crt))) as E; [by apply HS|]. done.
Qed.

(** *** The way to the peer

    A world in which everything succeeds and the result of the verification is
    [flags]. *)
Record cooperative (I : W → Prop) (flags : Z) : Prop :=
  { co_socket t : yields I (lwip_socket t) (λ fd, 0 ≤ fd);
    co_lookup h : yields I (lookup_host h) (λ ip, ip ≠ IPADDR_NONE);
    co_connect fd sa : yields I (lwip_connect fd sa) (λ rc, rc = 0);
    co_setsockopt fd o : yields I (lwip_setsockopt fd o) (λ _, True);
    co_fcntl fd : yields I (lwip_fcntl_nonblock fd) (λ _, True);
    co_close fd : yields I (lwip_close fd) (λ _, True);
    co_init x : yields I (mbedtls_init x) (λ _, True);
    co_free x : yields I (mbedtls_free x) (λ _, True);
    co_seed : yields I mbedtls_ctr_drbg_seed (λ ret, 0 ≤ ret);
    co_defaults : yields I mbedtls_ssl_config_defaults (λ ret, ret = 0);
    co_authmode b : yields I (mbedtls_ssl_conf_authmode b) (λ _, True);
    co_hostname h : yields I (mbedtls_ssl_set_hostname h) (λ ret, ret = 0);
    co_rng : yields I mbedtls_ssl_conf_rng (λ _, True);
    co_setup : yields I mbedtls_ssl_setup (λ ret, ret = 0);
    co_bio : yields I mbedtls_ssl_set_bio (λ _, True);
    co_millis : yields I millis (λ _, True);
    co_handshake fd : yields I (mbedtls_ssl_handshake fd) (λ ret, ret = 0);
    co_verify : yields I mbedtls_ssl_get_verify_result (λ f, f = flags) }.

Section Cooperative.
Context (I : W → Prop) (flags : Z) (HC : cooperative I flags).

Lemma connect_socket_does host port timeout c :
  does I (connect_socket host port timeout) c (λ r c', r = None ∧ 0 ≤ socket c').
Proof.
  unfold connect_socket. apply does_become. eapply does_sys; [apply (co_socket _ _ HC)|].
  intros fd Hfd. cbv beta in Hfd. apply does_become. destruct (Z.ltb_spec fd 0); [lia|].
  eapply (does_sys _ _ _ _ (λ p : Z * option IPAddress, p.1 = 1 ∧ is_Some p.2)).
  { unfold TCPClient.hostByName. eapply yields_bind; [apply (co_lookup _ _ HC)|].
    intros ip Hip. apply yields_ret. by destruct (Z.eqb_spec ip IPADDR_NONE). }
  intros [found srv] [Ef [ip Es]]. cbn in Ef, Es. subst found srv.
  change (1 =? 0) with false. cbv iota. eapply does_sys; [apply (co_connect _ _ HC)|].
  intros rc ->. change (0 =? 0) with true. cbv iota zeta.
  do 4 (eapply does_sys; [apply (co_setsockopt _ _ HC)|intros _ _]).
  eapply does_sys; [apply (co_fcntl _ _ HC)|]. intros _ _. by apply does_ret.
Qed.

Lemma configure_yields : yields I configure (λ r, r = None).
Proof.
  unfold configure. eapply yields_bind; [apply (co_init _ _ HC)|]. intros _ _.
  eapply yields_bind; [apply (co_seed _ _ HC)|]. intros ret Hr. cbv beta in Hr.
  destruct (Z.ltb_spec ret 0); [lia|]. eapply yields_bind; [apply (co_defaults _ _ HC)|]. intros ret2 ->. by apply yields_ret.
Qed.

Lemma set_up_yields host : yields I (set_up host) (λ r, r = None).
Proof.
  unfold set_up. eapply yields_bind; [apply (co_hostname _ _ HC)|]. intros ? ->.
  change (negb (0 =? 0)) with false. cbv iota.
  eapply yields_bind; [apply (co_rng _ _ HC)|]. intros _ _.
  eapply yields_bind; [apply (co_setup _ _ HC)|]. intros ? ->.
  change (negb (0 =? 0)) with false. cbv iota.
  eapply yields_bind; [apply (co_bio _ _ HC)|]. intros _ _. by apply yields_ret.
Qed.

Lemma stop_ssl_socket_does c : does I stop_ssl_socket c (λ _ c', socket c' < 0).
Proof.
  unfold stop_ssl_socket. apply does_self.
  apply (does_bind _ _ _ _ (λ _ c', socket c' < 0)).
  - destruct (Z.leb_spec 0 (socket c)); [|by apply does_ret].
    eapply does_sys; [apply (co_close _ _ HC)|]. intros _ _. by apply does_become_last.
  - intros _ c' Hc. do 3 (eapply does_sys; [apply (co_free _ _ HC)|intros _ _]).
    by eapply does_sys_last; [apply (co_free _ _ HC)|].
Qed.

Lemma go_on_does m next c R Q :
  does I m c (λ r c', r = None ∧ R c') → (∀ c', R c' → does I next c' Q) → does I (go_on m next) c Q.
Proof. intros Hm Hn. eapply does_bind; [exact Hm|]. intros ? c' [-> Hc]. by apply Hn. Qed.

Lemma go_on_sys m next c Q :
  yields I m (λ r, r = None) → does I next c Q → does I (go_on (sys m) next) c Q.
Proof.
  intros Hm Hn. apply (go_on_does _ _ _ (λ c', c' = c)); [|by intros ? ->].
  by eapply does_sys_last; [exact Hm|].
Qed.

(** Without certificates or a key of its own start_ssl_client returns the socket when the
    certificate of the peer is verified; when it is not, it closes the socket and returns 0,
    which is no error. *)
Lemma start_ssl_client_does fuel host port timeout c :
  (0 < fuel)%nat →
  does I (start_ssl_client fuel host port timeout None None None None None) c
    (λ r c', if flags =? 0 then r = socket c' ∧ 0 ≤ r else r = 0 ∧ socket c' < 0).
Proof.
  intros Hf. unfold start_ssl_client.
  apply (go_on_does _ _ _ (λ c', 0 ≤ socket c')); [apply connect_socket_does|]. intros c1 H1c.
  apply go_on_sys; [apply configure_yields|].
  apply go_on_sys.
  { unfold authenticate. eapply yields_bind; [apply (co_authmode _ _ HC)|]. intros _ _.
    by apply yields_ret. }
  apply go_on_sys; [by apply yields_ret|].
  apply go_on_sys; [apply set_up_yields|].
  apply (go_on_does _ _ _ (λ c', c' = c1)).
  { apply does_self. eapply does_sys; [apply (co_millis _ _ HC)|]. intros start _.
    apply (does_sys_last _ _ _ (λ r, r = None)); [|by intros ? ->]. destruct fuel as [|fuel]; [lia|].
    cbn [handshake_loop]. eapply yields_bind; [apply (co_handshake _ _ HC)|]. intros ? ->.
    by apply yields_ret. }
  intros ? ->. unfold check_peer. cbn [nonnull andb].
  apply (does_bind _ _ _ _ (λ r c', r = 0 ∧ c' = c1)); [by apply does_ret|]. intros ? ? [-> ->].
  eapply does_sys; [apply (co_verify _ _ HC)|]. intros ? ->. destruct (Z.eqb_spec flags 0); cbn [negb].
  - do 3 (apply (does_bind _ _ _ _ (λ _ c', c' = c1)); [by apply does_ret|intros _ ? ->]).
    apply does_self. by apply does_ret.
  - eapply does_bind; [apply stop_ssl_socket_does|]. intros ? c' Hc'. by apply does_ret.
Qed.

End Cooperative.

(** *** The descriptor *)

(** The functions of mbedTLS and the board neither open nor close one. *)
Record quiet (open : W → gset Z) : Prop :=
  { qu_init x : leaves open (mbedtls_init x); qu_free x : leaves open (mbedtls_free x);
    qu_seed : leaves open mbedtls_ctr_drbg_seed;
    qu_defaults : leaves open mbedtls_ssl_config_defaults;
    qu_authmode b : leaves open (mbedtls_ssl_conf_authmode b);
    qu_parse x p n : leaves open (mbedtls_x509_crt_parse x p n);
    qu_chain : leaves open mbedtls_ssl_conf_ca_chain;
    qu_psk k p n : leaves open (mbedtls_ssl_conf_psk k p n);
    qu_key p n : leaves open (mbedtls_pk_parse_key p n);
    qu_own : leaves open mbedtls_ssl_conf_own_cert;
    qu_hostname h : leaves open (mbedtls_ssl_set_hostname h);
    qu_rng : leaves open mbedtls_ssl_conf_rng; qu_setup : leaves open mbedtls_ssl_setup;
    qu_bio : leaves open mbedtls_ssl_set_bio;
    qu_handshake fd : leaves open (mbedtls_ssl_handshake fd);
    qu_expansion : leaves open mbedtls_ssl_get_record_expansion;
    qu_verify : leaves open mbedtls_ssl_get_verify_result;
    qu_read fd n : leaves open (mbedtls_ssl_read fd n);
    qu_avail : leaves open mbedtls_ssl_get_bytes_avail;
    qu_write fd p n : leaves open (mbedtls_ssl_write fd p n);
    qu_peer : leaves open mbedtls_ssl_get_peer_cert;
    qu_millis : leaves open millis; qu_delay n : leaves open (vTaskDelay n) }.

#[local] Hint Resolve qu_init qu_free qu_seed qu_defaults qu_authmode qu_parse qu_chain qu_psk
  qu_key qu_own qu_hostname qu_rng qu_setup qu_bio qu_handshake qu_expansion qu_verify qu_read
  qu_avail qu_write qu_peer qu_millis qu_delay : tidy.

Section Descriptor.
Context (open : W → gset Z) (HD : descriptors open) (HQ : quiet open).
#[local] Abbreviation tidy := (tidy socket open).

Lemma leaves_configure : leaves open configure.
Proof. unfold configure. leaves_tac. Qed.

Lemma leaves_authenticate r i k : leaves open (authenticate r i k).
Proof. unfold authenticate. leaves_tac. Qed.

Lemma leaves_own_cert a b : leaves open (own_cert a b).
Proof. unfold own_cert. leaves_tac. Qed.

Lemma leaves_set_up h : leaves open (set_up h).
Proof. unfold set_up. leaves_tac. Qed.

Lemma leaves_handshake_loop fuel fd timeout start : leaves open (handshake_loop fuel fd timeout start).
Proof. induction fuel as [|fuel IH]; [by intros ???|]. cbn [handshake_loop]. leaves_tac. Qed.

Lemma leaves_send_loop fuel fd p n : leaves open (send_loop fuel fd p n).
Proof. induction fuel as [|fuel IH]; [by intros ???|]. cbn [send_loop]. leaves_tac. Qed.

Lemma frees_tidy :
  tidy (sys (mbedtls_free ssl_ctx) ;; sys (mbedtls_free ssl_conf) ;; sys (mbedtls_free drbg_ctx) ;;
        sys (mbedtls_free entropy_ctx)).
Proof. tidy_tac. Qed.

Lemma stop_ssl_socket_kept c w u s' :
  stop_ssl_socket (c, w) = Ok (u, s') → in_order socket open (c, w) →
  (in_order socket open s' ∧ same_others socket open (c, w) s') ∧ socket s'.1 < 0.
Proof.
  intros E Hs. unfold stop_ssl_socket in E. rewrite bind_self in E.
  apply run_bind_inv in E as ([] & s1 & E1 & E2).
  apply (close_step socket open HD (set_socket (-1))) in E1 as (HA & HB & HN); [|done|done].
  split; [apply (kept_trans _ _ _ s1); [done|by eapply frees_tidy]|].
  destruct s1 as [c1 w1]. unfold sys in E2. unfold mbind, M_bind in E2. cbn in *.
  destruct (mbedtls_free ssl_ctx w1) as [[? w2]| |]; [|done..]. cbn in E2.
  destruct (mbedtls_free ssl_conf w2) as [[? w3]| |]; [|done..]. cbn in E2.
  destruct (mbedtls_free drbg_ctx w3) as [[? w4]| |]; [|done..]. cbn in E2.
  destruct (mbedtls_free entropy_ctx w4) as [[? w5]| |]; [|done..]. by injection E2 as _ <-.
Qed.

Lemma tidy_stop_ssl_socket : tidy stop_ssl_socket.
Proof. intros [c w] u s' E Hs. by apply stop_ssl_socket_kept in E as [? _]. Qed.

Lemma connect_socket_kept host port timeout c w r s' :
  connect_socket host port timeout (c, w) = Ok (r, s') →
  in_order socket open s' ∧ same_others socket open (set_socket (-1) c, w) s'.
Proof.
  intros E. unfold connect_socket in E. rewrite bind_become in E.
  apply run_bind_inv in E as (fd & s1 & (w1 & E1 & ->)%sys_inv & E). rewrite bind_become in E.
  apply (ds_socket _ HD) in E1.
  assert (HA : in_order socket open (set_socket fd (set_socket (-1) c), w1) ∧
    same_others socket open (set_socket (-1) c, w) (set_socket fd (set_socket (-1) c), w1))
    by (by apply open_new).
  apply (kept_trans _ _ _ (set_socket fd (set_socket (-1) c), w1)); [done|].
  revert E. match goal with |- ?m _ = _ → _ => assert (T : tidy m) end.
  { pose proof (TCPClient.leaves_hostByName open HD). clear HA E1. tidy_tac. }
  intros E. eapply T; [exact E|apply HA].
Qed.

Lemma tidy_go_on m next : tidy m → tidy next → tidy (go_on m next).
Proof. intros Hm Hn. unfold go_on. apply tidy_bind; [done|]. intros [r|]; [apply tidy_ret|done]. Qed.

Lemma tidy_check_peer a b k : tidy (check_peer a b k).
Proof. pose proof tidy_stop_ssl_socket. unfold check_peer. tidy_tac. Qed.

(** Whatever start_ssl_client returns, the descriptors in use are those there were and that of
    the context. *)
Lemma start_ssl_client_kept fuel host port timeout a b k i p c w r s' :
  start_ssl_client fuel host port timeout a b k i p (c, w) = Ok (r, s') →
  in_order socket open s' ∧ same_others socket open (set_socket (-1) c, w) s'.
Proof.
  intros E. unfold start_ssl_client in E. unfold go_on at 1 in E.
  apply run_bind_inv in E as (r1 & s1 & E1 & E). apply connect_socket_kept in E1.
  destruct r1 as [r1|]; [by injection E as _ <-|].
  apply (kept_trans _ _ _ s1); [done|]. destruct E1 as [E1 _]. revert E E1.
  match goal with |- ?m _ = _ → _ => assert (T : tidy m) end; [|intros E E1; by eapply T].
  repeat apply tidy_go_on; try (apply tidy_sys).
  - apply leaves_configure.
  - apply leaves_authenticate.
  - apply leaves_own_cert.
  - apply leaves_set_up.
  - pose proof leaves_handshake_loop. tidy_tac.
  - apply tidy_check_peer.
Qed.

Lemma tidy_data_to_read : tidy data_to_read.
Proof. unfold data_to_read. tidy_tac. Qed.

Lemma tidy_send_ssl_data fuel p n : tidy (send_ssl_data fuel p n).
Proof. pose proof leaves_send_loop. unfold send_ssl_data. tidy_tac. Qed.

Lemma tidy_get_ssl_receive n : tidy (get_ssl_receive n).
Proof. unfold get_ssl_receive. tidy_tac. Qed.

Lemma tidy_verify_ssl_fingerprint fp d : tidy (verify_ssl_fingerprint fp d).
Proof. unfold verify_ssl_fingerprint, verify_ssl_dn. tidy_tac. Qed.

End Descriptor.

End SslClient.
End SslClient.
