(* ===== verification/TlsClient.v ===== *)
(** * The TLS client class: TCPClientSecure.cpp

    class TCPClientSecure over the connection of SslClient.v: its operations,
    its descriptor, what it reads, and what goes wrong. *)

From stdpp Require Import gmap.
From S2P Require Import Prelude CSem Lwip LwipSim TcpUdp SslClient.

Module TlsClient.
Import SslClient.

(** A pointer to a C string, with the block of the heap it points to, if it
    does. *)
Record cstr : Type := CStr { c_block : option Z; c_str : ptr }.

(** The socket of the base class is never used. *)
Record TCPClientSecure : Type := mkSecure
  { sslclient : sslclient_context; _connected : bool; _lastError : Z; _peek : Z; _timeout : Z;
    _CA_cert : option cstr; _cert : option cstr; _private_key : option cstr;
    _pskIdent : option cstr; _psKey : option cstr }.

Definition set_sslclient v c := mkSecure v (_connected c) (_lastError c) (_peek c) (_timeout c)
  (_CA_cert c) (_cert c) (_private_key c) (_pskIdent c) (_psKey c).
Definition set_connected v c := mkSecure (sslclient c) v (_lastError c) (_peek c) (_timeout c)
  (_CA_cert c) (_cert c) (_private_key c) (_pskIdent c) (_psKey c).
Definition set_lastError v c := mkSecure (sslclient c) (_connected c) v (_peek c) (_timeout c)
  (_CA_cert c) (_cert c) (_private_key c) (_pskIdent c) (_psKey c).
Definition set_peek v c := mkSecure (sslclient c) (_connected c) (_lastError c) v (_timeout c)
  (_CA_cert c) (_cert c) (_private_key c) (_pskIdent c) (_psKey c).
Definition set_timeout v c := mkSecure (sslclient c) (_connected c) (_lastError c) (_peek c) v
  (_CA_cert c) (_cert c) (_private_key c) (_pskIdent c) (_psKey c).
Definition set_CA_cert v c := mkSecure (sslclient c) (_connected c) (_lastError c) (_peek c)
  (_timeout c) v (_cert c) (_private_key c) (_pskIdent c) (_psKey c).
Definition set_cert v c := mkSecure (sslclient c) (_connected c) (_lastError c) (_peek c)
  (_timeout c) (_CA_cert c) v (_private_key c) (_pskIdent c) (_psKey c).
Definition set_private_key v c := mkSecure (sslclient c) (_connected c) (_lastError c) (_peek c)
  (_timeout c) (_CA_cert c) (_cert c) v (_pskIdent c) (_psKey c).
Definition set_psk i k c := mkSecure (sslclient c) (_connected c) (_lastError c) (_peek c)
  (_timeout c) (_CA_cert c) (_cert c) (_private_key c) i k.

(** What else the class calls: the heap, a Stream of the Arduino core, an
    address as text, timedRead of the base class Stream (which calls back the
    read below), and the text of an error. *)
Class SecurePlatform (W : Type) `{IPAddresses} : Type :=
  { malloc : Z → M W (option Z);
    free : Z → M W unit;
    Stream : Type;
    stream_readBytes : Stream → Z → M W (Z * list Z);
    toString : IPAddress → ptr;
    timedRead : M (TCPClientSecure * W) Z;
    mbedtls_strerror : Z → list Z }.

Section TlsClient.
Context `{CImpl} `{IPAddresses} {W : Type} `{Lwip W} `{Mbedtls W} `{!SecurePlatform W}.
#[local] Abbreviation T A := (M (TCPClientSecure * W) A).

(** A function of ssl_client.cpp, on the context of the object. *)
Definition on_ssl {A} (m : M (sslclient_context * W) A) : T A := λ s,
  match m (sslclient s.1, s.2) with
  | Ok (a, (x, w)) => Ok (a, (set_sslclient x s.1, w)) | UB u => UB u | NoFuel => NoFuel end.

(** The object the constructors make: [new sslclient_context], ssl_init, and
    the members. *)
Definition secure_of (sock : Z) : TCPClientSecure :=
  mkSecure (mkContext sock 120000) (0 <=? sock) 0 (-1) 0 None None None None None.

Definition TCPClientSecure_new : T unit :=
  become (λ _, secure_of (-1)) ;; on_ssl ssl_init.

Definition TCPClientSecure_of (sock : Z) : T unit :=
  become (λ _, secure_of sock) ;; on_ssl ssl_init.

Definition stop : T unit :=
  c ← self;
  (if 0 <=? socket (sslclient c) then
     sys (lwip_close (socket (sslclient c))) ;;
     on_ssl (become (set_socket (-1))) ;;
     become (set_connected false) ;;
     become (set_peek (-1))
   else mret tt) ;;
  on_ssl stop_ssl_socket.

Definition TCPClientSecure_delete : T unit := stop.

(** [operator=] *)
Definition assign (other : TCPClientSecure) : T unit :=
  stop ;;
  on_ssl (become (set_socket (socket (sslclient other)))) ;;
  become (set_connected (_connected other)).

(** What both connects do with the result of start_ssl_client. *)
Definition connected_with (ret : Z) : T Z :=
  become (set_lastError ret) ;;
  if ret <? 0 then stop ;; mret 0
  else become (set_connected true) ;; mret 1.

(** [if(_timeout > 0) sslclient->handshake_timeout = _timeout;] *)
Definition take_timeout : T unit :=
  c ← self;
  if 0 <? _timeout c then on_ssl (become (set_handshake_timeout (_timeout c))) else mret tt.

Definition connect_certs (fuel : nat) (host : ptr) (port : Z)
    (CA_cert cert private_key : option cstr) : T Z :=
  take_timeout ;;
  c ← self;
  ret ← on_ssl (start_ssl_client fuel host port (_timeout c) (c_str <$> CA_cert) (c_str <$> cert)
                  (c_str <$> private_key) None None);
  connected_with ret.

(** The identity and key given are not used: those of the object are. *)
Definition connect_psk (fuel : nat) (host : ptr) (port : Z) (pskIdent psKey : option cstr) : T Z :=
  take_timeout ;;
  c ← self;
  ret ← on_ssl (start_ssl_client fuel host port (_timeout c) None None None
                  (c_str <$> _pskIdent c) (c_str <$> _psKey c));
  connected_with ret.

Definition connect_certs_ip (fuel : nat) (ip : IPAddress) (port : Z)
    (CA_cert cert private_key : option cstr) : T Z :=
  connect_certs fuel (toString ip) port CA_cert cert private_key.

Definition connect_psk_ip (fuel : nat) (ip : IPAddress) (port : Z) (pskIdent psKey : option cstr)
  : T Z :=
  c ← self; connect_psk fuel (toString ip) port (_pskIdent c) (_psKey c).

Definition connect (fuel : nat) (host : ptr) (port : Z) : T Z :=
  c ← self;
  if nonnull (_pskIdent c) && nonnull (_psKey c)
  then connect_psk fuel host port (_pskIdent c) (_psKey c)
  else connect_certs fuel host port (_CA_cert c) (_cert c) (_private_key c).

Definition connect_ip (fuel : nat) (ip : IPAddress) (port : Z) : T Z :=
  c ← self;
  if nonnull (_pskIdent c) && nonnull (_psKey c)
  then connect_psk_ip fuel ip port (_pskIdent c) (_psKey c)
  else connect_certs_ip fuel ip port (_CA_cert c) (_cert c) (_private_key c).

Definition connect_timeout (fuel : nat) (host : ptr) (port timeout : Z) : T Z :=
  become (set_timeout timeout) ;; connect fuel host port.

Definition connect_ip_timeout (fuel : nat) (ip : IPAddress) (port timeout : Z) : T Z :=
  become (set_timeout timeout) ;; connect_ip fuel ip port.

(** [write(const uint8_t *buf, size_t size)]; the byte is written as a buffer
    of one. *)
Definition write (fuel : nat) (buf : ptr) (size : Z) : T Z :=
  c ← self;
  if negb (_connected c) then mret 0
  else
    res ← on_ssl (send_ssl_data fuel buf size);
    if res <? 0 then stop ;; mret 0 else mret res.

Definition write_byte (fuel : nat) (data : Z) : T Z := write fuel (Ptr [data] 0) 1.

Definition available : T Z :=
  c ← self;
  let peeked := Z.b2z (0 <=? _peek c) in
  if negb (_connected c) then mret peeked
  else
    res ← on_ssl data_to_read;
    if res <? 0 then stop ;; mret (if truth peeked then peeked else res)
    else lift (res +i peeked)%c.

(** The result and what is stored at [buf], when it is not null. *)
Definition read (buf : bool) (size : Z) : T (Z * list Z) :=
  avail ← available;
  if (negb buf && truth size) || (avail <=? 0) then mret (-1, [])
  else if size =? 0 then mret (0, [])
  else
    c ← self;
    if 0 <=? _peek c then
      let b := to_uchar (_peek c) in
      become (set_peek (-1)) ;;
      if (size - 1 =? 0) || (avail - 1 =? 0) then mret (1, [b])
      else
        '(res, bs) ← on_ssl (get_ssl_receive (size - 1));
        if res <? 0 then stop ;; mret (1, b :: bs) else res ← lift (res +i 1)%c; mret (res, b :: bs)
    else
      '(res, bs) ← on_ssl (get_ssl_receive size);
      if res <? 0 then stop ;; mret (res, bs) else mret (res, bs).

(** [uint8_t data = -1] *)
Definition read_byte : T Z :=
  '(res, bs) ← read true 1;
  mret (if res <? 0 then res else match bs with b :: _ => b | [] => 255 end).

Definition peek : T Z :=
  c ← self;
  if 0 <=? _peek c then mret (_peek c)
  else
    b ← timedRead;
    become (set_peek b) ;;
    mret b.

Definition connected : T Z :=
  read true 0 ;; c ← self; mret (Z.b2z (_connected c)).

(** [socket()] forgets the socket. *)
Definition socket_ : T Z := on_ssl (become (set_socket (-1))) ;; mret (-1).

Definition setCACert (rootCA : option cstr) : T unit := become (set_CA_cert rootCA).
Definition setCertificate (client_ca : option cstr) : T unit := become (set_cert client_ca).
Definition setPrivateKey (private_key : option cstr) : T unit :=
  become (set_private_key private_key).
Definition setPreSharedKey (pskIdent psKey : option cstr) : T unit :=
  become (set_psk pskIdent psKey).

Definition verify (fp : ptr) (domain_name : option ptr) : T bool :=
  on_ssl (verify_ssl_fingerprint fp domain_name).

(** [handshake_timeout * 1000], in an unsigned long of 32 bits. *)
Definition setHandshakeTimeout (handshake_timeout : Z) : T unit :=
  on_ssl (become (set_handshake_timeout (to_uint (handshake_timeout * 1000)))).

(** The result, and the text that snprintf stores in the [size] bytes at
    [buf]. *)
Definition lastError (size : Z) : T (Z * list Z) :=
  c ← self;
  if _lastError c =? 0 then mret (0, [])
  else
    mret (_lastError c,
          if size =? 0 then [] else take (Z.to_nat (size - 1)) (mbedtls_strerror (_lastError c)) ++ [0]).

(** *** Operators of the header *)

Definition setTimeout (seconds : Z) : T Z := mret 0.

Definition operator_bool : T bool := r ← connected; mret (truth r).

(** [bool() == value]: a new bool, not the object. *)
Definition eq_bool (value : bool) : bool := bool_decide (false = value).
Definition ne_bool (value : bool) : bool := negb (bool_decide (false = value)).

(** *** Certificates from a stream

    [dest] is the static variable of _streamLoad, which all objects share. *)

Definition streamLoad (stream : Stream) (size : Z) (dest : option Z)
  : M W (option cstr * option Z) :=
  (match dest with Some d => free d | None => mret tt end) ;;
  dest ← malloc size;
  match dest with
  | None => mret (None, None)
  | Some d =>
      '(n, bs) ← stream_readBytes stream size;
      if negb (size =? n) then free d ;; mret (None, None)
      else mret (Some (CStr (Some d) (Ptr bs 0)), Some d)
  end.

(** The three of them differ in what they set. *)
Definition load (set : option cstr → T unit) (stream : Stream) (size : Z) (dest : option Z)
  : T (bool * option Z) :=
  '(p, dest) ← sys (streamLoad stream size dest);
  match p with
  | Some _ => set p ;; mret (true, dest)
  | None => mret (false, dest)
  end.

Definition loadCACert := load setCACert.
Definition loadCertificate := load setCertificate.
Definition loadPrivateKey := load setPrivateKey.

(** *** Connecting *)

Lemma does_on_ssl I {A} (m : M (sslclient_context * W) A) o Q :
  does I m (sslclient o) Q → does I (on_ssl m) o (λ a o', ∃ x, o' = set_sslclient x o ∧ Q a x).
Proof.
  intros Hm w Hw. destruct (Hm w Hw) as (a & x & w1 & E & HQ & Hw1).
  exists a, (set_sslclient x o), w1. unfold on_ssl. cbn. rewrite E. split; [done|]. split; [|done].
  by exists x.
Qed.

(** Where everything succeeds, connect without certificates or keys reports success, also when
    the certificate of the peer was found not to be valid: then the socket is closed and the
    object says that it is connected. *)
Theorem secure_connect_result I flags fuel host port (c : TCPClientSecure) w :
  cooperative I flags → I w → (0 < fuel)%nat →
  _CA_cert c = None → _cert c = None → _private_key c = None →
  _pskIdent c = None ∨ _psKey c = None →
  ∃ c' w', connect fuel host port (c, w) = Ok (1, (c', w')) ∧ _connected c' = true ∧
    (0 ≤ socket (sslclient c') ↔ flags = 0).
Proof.
  intros HC Hw Hf E1 E2 E3 E4.
  assert (does I (connect fuel host port) c (λ r c', r = 1 ∧ _connected c' = true ∧
    (0 ≤ socket (sslclient c') ↔ flags = 0))) as HD.
  2:{ destruct (HD w Hw) as (r & c' & w' & E & (-> & H1c & H2c) & _). by exists c', w'. }
  unfold connect. apply does_self.
  assert (nonnull (_pskIdent c) && nonnull (_psKey c) = false) as ->
    by (destruct E4 as [-> | ->]; [done|by destruct (_pskIdent c)]).
  unfold connect_certs. rewrite E1, E2, E3. cbn [fmap option_fmap option_map].
  apply (does_bind _ _ _ _ (λ _ _, True)).
  { unfold take_timeout. apply does_self. destruct (0 <? _timeout c); [|by apply does_ret].
    intros v Hv. by eexists _, _, _. }
  intros _ c1 _. apply does_self.
  eapply does_bind; [apply does_on_ssl, (start_ssl_client_does I flags HC); exact Hf|].
  intros r c2 (x & -> & Hx). unfold connected_with. apply does_become.
  destruct (Z.eqb_spec flags 0) as [Hfl|Hfl].
  - destruct Hx as [-> Hx]. destruct (Z.ltb_spec (socket x) 0); [lia|].
    apply does_become, does_ret. split; [done|]. split; [done|]. cbn. by split.
  - destruct Hx as [-> Hx]. change (0 <? 0) with false. cbv iota.
    apply does_become, does_ret. split; [done|]. split; [done|]. cbn. lia.
Qed.

(** *** The descriptor *)

Section Descriptor.
Context (open : W → gset Z) (HD : descriptors open) (HQ : quiet open).
#[local] Abbreviation its_fd := (λ c, socket (sslclient c)).
#[local] Abbreviation tidy := (tidy its_fd open).

Lemma tidy_on_ssl {A} (m : M (sslclient_context * W) A) :
  Lwip.tidy socket open m → tidy (on_ssl m).
Proof.
  intros Hm [c w] a s' E Hs. unfold on_ssl in E. cbn in E.
  destruct (m (sslclient c, w)) as [[b [x w1]]| |] eqn:Em; [|done..]. injection E as _ <-.
  exact (Hm _ _ _ Em Hs).
Qed.

Lemma close_own_kept c w u s' :
  stop (c, w) = Ok (u, s') → in_order its_fd open (c, w) →
  (in_order its_fd open s' ∧ same_others its_fd open (c, w) s') ∧ its_fd s'.1 < 0.
Proof.
  intros E Hs. unfold stop in E. rewrite bind_self in E.
  apply run_bind_inv in E as ([] & [c1 w1] & E1 & E2).
  assert (HA : in_order its_fd open (c1, w1) ∧ same_others its_fd open (c, w) (c1, w1)).
  { destruct (Z.leb_spec 0 (socket (sslclient c))) as [L|L]; [|by injection E1 as <- <-].
    apply run_bind_inv in E1 as (rc & s & (w2 & E & ->)%sys_inv & E1). injection E1 as <- <-.
    apply close_forget; [|done]. rewrite (ds_close _ HD _ _ _ _ E). unfold fds. by ztest. }
  unfold on_ssl in E2. cbn in E2.
  destruct (stop_ssl_socket (sslclient c1, w1)) as [[b [x w2]]| |] eqn:Em; [|done..].
  injection E2 as _ <-. apply (stop_ssl_socket_kept open HD HQ) in Em as [HB HN]; [|apply HA].
  split; [|done]. apply (kept_trans _ _ _ (c1, w1)); [done|exact HB].
Qed.

Lemma tls_tidy_stop : tidy stop.
Proof. intros [c w] u s' E Hs. by apply close_own_kept in E as [? _]. Qed.

(** What connects leaves the descriptors that were in use as they are, and when it
    fails it has closed the one it opened. *)
Definition opens (m : T Z) : Prop := ∀ c w r s', m (c, w) = Ok (r, s') →
  fds (its_fd s'.1) ⊆ open s'.2 ∧ open s'.2 ∖ fds (its_fd s'.1) = open w ∧
  (r = 0 → open s'.2 = open w).

Lemma opens_with fuel host port a b k (i y : TCPClientSecure → option ptr) :
  opens (take_timeout ;; c ← self;
    ret ← on_ssl (start_ssl_client fuel host port (_timeout c) a b k (i c) (y c));
    connected_with ret).
Proof.
  intros c w r s' E. apply run_bind_inv in E as ([] & [c1 w1] & E1 & E).
  assert (w1 = w) as ->.
  { unfold take_timeout in E1. rewrite bind_self in E1. destruct (0 <? _timeout c); by injection E1. }
  rewrite bind_self in E. apply run_bind_inv in E as (ret & [c2 w2] & E2 & E).
  unfold on_ssl in E2. cbn in E2. destruct (start_ssl_client _ _ _ _ _ _ _ _ _ _) as [[b2 [x w3]]| |] eqn:Em; [|done..].
  injection E2 as <- <- <-. apply (start_ssl_client_kept open HD HQ) in Em as [HA HB].
  unfold connected_with in E. rewrite bind_become in E.
  unfold same_others, others in HB. cbn in HB. rewrite difference_empty_L in HB.
  destruct (b2 <? 0).
  - apply run_bind_inv in E as ([] & [c4 w4] & E4 & E). injection E as <- <-.
    apply close_own_kept in E4 as [[HC HE] HN]; [|exact HA].
    unfold same_others, others in HE. cbn in HE, HN. rewrite HB in HE. unfold fds in *. cbn [fst snd].
    destruct (Z.leb_spec 0 (socket (sslclient c4))); [lia|].
    rewrite difference_empty_L in HE. split; [done|]. split; [by rewrite difference_empty_L|done].
  - rewrite bind_become in E. injection E as <- <-. split; [exact HA|]. split; [exact HB|done].
Qed.

Lemma opens_self f : (∀ c, opens (f c)) → opens (self ≫= f).
Proof. intros Hf c w r s' E. rewrite bind_self in E. by eapply Hf. Qed.

Lemma opens_become g m : opens m → opens (become g ;; m).
Proof. intros Hm c w r s' E. rewrite bind_become in E. by eapply Hm. Qed.

Lemma opens_if (b : bool) m n : opens m → opens n → opens (if b then m else n).
Proof. by destruct b. Qed.

Lemma opens_certs fuel host port a b k : opens (connect_certs fuel host port a b k).
Proof. apply (opens_with fuel host port _ _ _ (λ _, None) (λ _, None)). Qed.

Lemma opens_psk fuel host port i y : opens (connect_psk fuel host port i y).
Proof. apply (opens_with fuel host port None None None (λ c, c_str <$> _pskIdent c) (λ c, c_str <$> _psKey c)). Qed.

Lemma opens_psk_ip fuel ip port i y : opens (connect_psk_ip fuel ip port i y).
Proof. apply opens_self. intros c. apply opens_psk. Qed.

Lemma opens_connect fuel host port : opens (connect fuel host port).
Proof. apply opens_self. intros c. apply opens_if; [apply opens_psk|apply opens_certs]. Qed.

Lemma opens_connect_ip fuel ip port : opens (connect_ip fuel ip port).
Proof. apply opens_self. intros c. apply opens_if; [apply opens_psk_ip|apply opens_certs]. Qed.

(** For an object without a socket. *)
Lemma opens_kept m s r s' : opens m → socket (sslclient s.1) < 0 → m s = Ok (r, s') →
  in_order its_fd open s' ∧ same_others its_fd open s s'.
Proof.
  destruct s as [c w]. intros Hm Hs E. destruct (Hm c w r s' E) as (HA & HB & _).
  split; [exact HA|]. unfold same_others, others. rewrite HB. unfold fds. cbn in *.
  destruct (Z.leb_spec 0 (socket (sslclient c))); [lia|]. by rewrite difference_empty_L.
Qed.

Lemma tls_tidy_write fuel buf size : tidy (write fuel buf size).
Proof.
  pose proof tls_tidy_stop. pose proof (tidy_on_ssl _ (tidy_send_ssl_data open HQ fuel buf size)).
  unfold write. tidy_tac.
Qed.

Lemma tls_tidy_available : tidy available.
Proof.
  pose proof tls_tidy_stop. pose proof (tidy_on_ssl _ (tidy_data_to_read open HQ)).
  unfold available. tidy_tac.
Qed.

Lemma tls_tidy_read buf size : tidy (read buf size).
Proof.
  pose proof tls_tidy_stop. pose proof tls_tidy_available.
  assert (∀ n, tidy (on_ssl (get_ssl_receive n))) by (intros; by apply tidy_on_ssl, tidy_get_ssl_receive).
  unfold read. tidy_tac.
Qed.

Lemma tls_tidy_connected : tidy connected.
Proof. pose proof (tls_tidy_read true 0). unfold connected. tidy_tac. Qed.

Lemma tls_tidy_write_byte fuel data : tidy (write_byte fuel data).
Proof. apply tls_tidy_write. Qed.

Lemma tls_tidy_read_byte : tidy read_byte.
Proof. pose proof (tls_tidy_read true 1). unfold read_byte. tidy_tac. Qed.

Lemma tls_tidy_verify fp domain_name : tidy (verify fp domain_name).
Proof. by apply tidy_on_ssl, tidy_verify_ssl_fingerprint. Qed.

Lemma tls_tidy_setHandshakeTimeout t : tidy (setHandshakeTimeout t).
Proof. apply tidy_on_ssl, tidy_become. by intros []. Qed.

Lemma tls_tidy_lastError size : tidy (lastError size).
Proof. unfold lastError. tidy_tac. Qed.

Lemma tls_tidy_operator_bool : tidy operator_bool.
Proof. pose proof tls_tidy_connected. unfold operator_bool. tidy_tac. Qed.

(** The heap, and the streams that certificates are loaded from, have nothing to do with
    sockets; timedRead of the base class does what calls of read do, some time apart. *)
Inductive reading : TCPClientSecure * W → TCPClientSecure * W → Prop :=
  | reading_byte b s s' : read_byte s = Ok (b, s') → reading s s'
  | reading_wait c w w' : open w' = open w → reading (c, w) (c, w').

Record quiet_core : Prop :=
  { qc_malloc n : leaves open (malloc n); qc_free d : leaves open (free d);
    qc_readBytes st n : leaves open (stream_readBytes st n);
    qc_timedRead s b s' : timedRead s = Ok (b, s') → rtc reading s s' }.

Context (HC : quiet_core).

Lemma tidy_timedRead : tidy timedRead.
Proof.
  intros s b s' E%(qc_timedRead HC) Hs. apply (rtc_kept its_fd open reading); [|done|done].
  intros s1 s2 [b1 s3 s4 E1|c w w' Ew] Hs1; [by eapply tls_tidy_read_byte|].
  unfold in_order, same_others, holds, others in *. cbn in *. by rewrite Ew.
Qed.

Lemma tls_tidy_peek : tidy peek.
Proof. pose proof tidy_timedRead. unfold peek. tidy_tac. Qed.

Lemma leaves_streamLoad stream size dest : leaves open (streamLoad stream size dest).
Proof.
  pose proof (qc_malloc HC). pose proof (qc_free HC). pose proof (qc_readBytes HC). unfold streamLoad.
  apply leaves_bind; [destruct dest; auto with tidy|]. intros _. apply leaves_bind; [done|].
  intros [d|]; [|apply leaves_ret]. apply leaves_bind; [done|]. intros [n bs].
  apply leaves_if; [|apply leaves_ret]. apply leaves_bind; [done|]. intros. apply leaves_ret.
Qed.

Lemma tls_tidy_load set stream size dest : (∀ p, tidy (set p)) → tidy (load set stream size dest).
Proof.
  intros Hset. unfold load. apply tidy_bind; [apply tidy_sys, leaves_streamLoad|].
  intros [[p|] d]; [|apply tidy_ret]. apply tidy_bind; [apply Hset|]. intros. apply tidy_ret.
Qed.

End Descriptor.

(** The calls of the methods; connecting is only for an object without a socket. *)
Inductive connecting : T Z → Prop :=
  | by_certs fuel host port a b k : connecting (connect_certs fuel host port a b k)
  | by_psk fuel host port i y : connecting (connect_psk fuel host port i y)
  | by_certs_ip fuel ip port a b k : connecting (connect_certs_ip fuel ip port a b k)
  | by_psk_ip fuel ip port i y : connecting (connect_psk_ip fuel ip port i y)
  | by_host fuel host port : connecting (connect fuel host port)
  | by_ip fuel ip port : connecting (connect_ip fuel ip port)
  | by_host_timeout fuel host port t : connecting (connect_timeout fuel host port t)
  | by_ip_timeout fuel ip port t : connecting (connect_ip_timeout fuel ip port t).

Inductive setting : T unit → Prop :=
  | set_ca p : setting (setCACert p)
  | set_certificate p : setting (setCertificate p)
  | set_key p : setting (setPrivateKey p)
  | set_shared i y : setting (setPreSharedKey i y)
  | set_handshake t : setting (setHandshakeTimeout t).

Inductive loading : (Stream → Z → option Z → T (bool * option Z)) → Prop :=
  | load_ca : loading loadCACert
  | load_certificate : loading loadCertificate
  | load_key : loading loadPrivateKey.

(** A step is a call of any method but operator= and socket, which share the socket with
    another object, or something that happens elsewhere. *)
Inductive step (open : W → gset Z) : TCPClientSecure * W → TCPClientSecure * W → Prop :=
  | step_connect m r s s' :
      connecting m → socket (sslclient s.1) < 0 → m s = Ok (r, s') → step open s s'
  | step_set m r s s' : setting m → m s = Ok (r, s') → step open s s'
  | step_load m stream size dest r s s' :
      loading m → m stream size dest s = Ok (r, s') → step open s s'
  | step_write fuel buf size r s s' : write fuel buf size s = Ok (r, s') → step open s s'
  | step_write_byte fuel data r s s' : write_byte fuel data s = Ok (r, s') → step open s s'
  | step_available r s s' : available s = Ok (r, s') → step open s s'
  | step_read buf size r s s' : read buf size s = Ok (r, s') → step open s s'
  | step_read_byte r s s' : read_byte s = Ok (r, s') → step open s s'
  | step_peek r s s' : peek s = Ok (r, s') → step open s s'
  | step_connected r s s' : connected s = Ok (r, s') → step open s s'
  | step_bool r s s' : operator_bool s = Ok (r, s') → step open s s'
  | step_verify fp domain r s s' : verify fp domain s = Ok (r, s') → step open s s'
  | step_lastError size r s s' : lastError size s = Ok (r, s') → step open s s'
  | step_setTimeout seconds r s s' : setTimeout seconds s = Ok (r, s') → step open s s'
  | step_stop r s s' : stop s = Ok (r, s') → step open s s'
  | step_world c w w' : open w' = open w → step open (c, w) (c, w').

#[local] Abbreviation its_fd := (λ c, socket (sslclient c)).

Lemma connecting_opens open m : descriptors open → quiet open → connecting m → opens open m.
Proof.
  intros HD HQ []; try apply opens_become; try (by apply opens_certs || by apply opens_psk ||
    by apply opens_psk_ip || by apply opens_connect || by apply opens_connect_ip).
Qed.

Lemma setting_tidy open m : setting m → tidy its_fd open m.
Proof. intros []; first [by apply tls_tidy_setHandshakeTimeout|apply tidy_become; by intros []]. Qed.

Lemma loading_tidy open m stream size dest : quiet_core open → loading m →
  tidy its_fd open (m stream size dest).
Proof. intros HC []; apply tls_tidy_load; try done; intros; apply tidy_become; by intros []. Qed.

Lemma tls_step_tidy open s s' :
  descriptors open → quiet open → quiet_core open → step open s s' → in_order its_fd open s →
  in_order its_fd open s' ∧ same_others its_fd open s s'.
Proof.
  intros HD HQ HC [] Hs.
  - by eapply opens_kept; [apply connecting_opens|..].
  - by eapply setting_tidy.
  - by eapply loading_tidy.
  - by eapply tls_tidy_write.
  - by eapply tls_tidy_write_byte.
  - by eapply tls_tidy_available.
  - by eapply tls_tidy_read.
  - by eapply tls_tidy_read_byte.
  - by eapply tls_tidy_peek.
  - by eapply tls_tidy_connected.
  - by eapply tls_tidy_operator_bool.
  - by eapply tls_tidy_verify.
  - by eapply tls_tidy_lastError.
  - by eapply (tidy_ret _ open 0).
  - by eapply tls_tidy_stop.
  - unfold in_order, same_others, holds, others in *. cbn in *.
    by match goal with Ew : open _ = open _ |- _ => rewrite Ew end.
Qed.

Lemma new_kept open c w u s :
  quiet open → TCPClientSecure_new (c, w) = Ok (u, s) →
  in_order its_fd open s ∧ others open (its_fd s.1) s.2 = open w.
Proof.
  intros HQ E. unfold TCPClientSecure_new in E. rewrite bind_become in E.
  assert (T : tidy its_fd open (on_ssl ssl_init)).
  { apply tidy_on_ssl. pose proof (qu_init _ HQ). unfold ssl_init. tidy_tac. }
  destruct (T _ _ _ E) as [HA HB].
  { unfold in_order, holds, fds. cbn. set_solver. }
  split; [done|]. rewrite HB. unfold others, fds. cbn. by rewrite difference_empty_L.
Qed.

(** C37: A TCPClientSecure that is made and then used in any way, with certificates or with a
    shared key, as long as it connects only while it has no socket, and is not assigned to and
    does not give its socket away, has a descriptor that is in use or none; and when it is
    destroyed the descriptors in use are those there were before it was made: it closes what it
    opened and nothing else, whatever fails. *)
Theorem secure_client_no_leak open c0 w0 u0 s0 s u s' :
  descriptors open → quiet open → quiet_core open →
  TCPClientSecure_new (c0, w0) = Ok (u0, s0) → rtc (step open) s0 s →
  TCPClientSecure_delete s = Ok (u, s') →
  fds (socket (sslclient s.1)) ⊆ open s.2 ∧ open s'.2 = open w0.
Proof.
  intros HD HQ HC EN HR HE. apply (new_kept open) in EN as [HN HO]; [|done].
  assert (HS : in_order its_fd open s ∧ same_others its_fd open s0 s).
  { apply (rtc_kept its_fd open (step open)); [|done|done]. intros s1 s2. by apply tls_step_tidy. }
  destruct HS as [HS HT]. split; [exact HS|]. destruct s as [c w].
  apply (close_own_kept open HD HQ) in HE as [[_ HB] Hfd]; [|exact HS].
  unfold same_others in *. rewrite HT, HO in HB. unfold others, fds in HB. cbn in *.
  destruct (Z.leb_spec 0 (socket (sslclient s'.1))); [lia|]. by rewrite difference_empty_L in HB.
Qed.

(** When an object that has a socket connects again, that socket stays open when the object is
    destroyed. *)
Theorem secure_reconnect_leaks open fuel host port a b k c w r s1 u s2 :
  descriptors open → quiet open → 0 ≤ socket (sslclient c) → socket (sslclient c) ∈ open w →
  connect_certs fuel host port a b k (c, w) = Ok (r, s1) → TCPClientSecure_delete s1 = Ok (u, s2) →
  open s2.2 = open w.
Proof.
  intros HD HQ Hf Hin E1 E2. apply (opens_certs open HD HQ) in E1 as (HA & HB & _).
  destruct s1 as [c1 w1]. apply (close_own_kept open HD HQ) in E2 as [[_ HE] HN]; [|exact HA].
  unfold same_others, others in HE. cbn in *. rewrite HB in HE. unfold fds in HE.
  destruct (Z.leb_spec 0 (socket (sslclient s2.1))); [lia|]. by rewrite difference_empty_L in HE.
Qed.

(** *** Reading *)

(** The byte that peek returned is the byte that read returns next, as long as the connection
    can be asked how much there is; reading does not touch the connection for it. *)
Theorem secure_read_peeked c w w1 w2 bs b n :
  _peek c = b → 0 ≤ b < 256 → _connected c = true → 0 ≤ n < INT_MAX →
  mbedtls_ssl_read (socket (sslclient c)) 0 w = Ok ((0, bs), w1) →
  mbedtls_ssl_get_bytes_avail w1 = Ok (n, w2) →
  read_byte (c, w) = Ok (b, (set_peek (-1) (set_sslclient (sslclient c) c), w2)).
Proof.
  intros Hp Hb Hc Hn E1 E2. unfold read_byte.
  rewrite (run_bind _ _ _ (1, [b]) (set_peek (-1) (set_sslclient (sslclient c) c), w2)); [by ztest|].
  unfold read.
  rewrite (run_bind _ _ _ (n + 1) (set_sslclient (sslclient c) c, w2)).
  - cbn [negb andb truth orb]. ztest. change (1 =? 0) with false. cbv iota. rewrite bind_self.
    cbn [_peek set_sslclient]. rewrite Hp. ztest. rewrite bind_become.
    unfold to_uchar. rewrite Z.mod_small by lia. done.
  - unfold available. rewrite bind_self, Hc. cbn [negb].
    rewrite (run_bind _ _ _ n (set_sslclient (sslclient c) c, w2)).
    + rewrite Hp. destruct (Z.ltb_spec n 0); [lia|]. destruct (Z.leb_spec 0 b); [|lia]. cbn [Z.b2z].
      apply run_lift, iadd_Ok; unfold INT_MIN, INT_MAX in *; lia.
    + unfold on_ssl, data_to_read. cbn [fst snd]. rewrite bind_self, (bind_world _ _ _ _ _ _ E1).
      by rewrite (bind_world _ _ _ _ _ _ E2).
Qed.

(** When the connection has failed since, the byte is lost: read closes the connection and goes
    on to read from what stop_ssl_socket has freed. *)
Theorem secure_peeked_lost c w w1 w2 w3 w4 err bs n res data rc x :
  0 ≤ _peek c → _connected c = true → 0 ≤ socket (sslclient c) →
  wants err = false → err < 0 →
  mbedtls_ssl_read (socket (sslclient c)) 0 w = Ok ((err, bs), w1) →
  mbedtls_ssl_get_bytes_avail w1 = Ok (n, w2) →
  lwip_close (socket (sslclient c)) w2 = Ok (rc, w3) →
  stop_ssl_socket (set_socket (-1) (sslclient c), w3) = Ok (tt, (x, w4)) →
  0 ≤ res → ∀ w5, mbedtls_ssl_read (socket x) 1 w4 = Ok ((res, data), w5) →
  ∃ s', read true 1 (c, w) = Ok ((res, data), s') ∧ _connected s'.1 = false.
Proof.
  intros Hp Hc Hs Hw He E1 E2 E3 E4 Hr w5 E5. unfold read.
  set (c1 := set_peek (-1) (set_connected false (set_sslclient (set_socket (-1) (sslclient c))
    (set_sslclient (sslclient c) c)))).
  rewrite (run_bind _ _ _ 1 (set_sslclient x c1, w4)).
  - cbn [negb andb truth orb]. change (1 <=? 0) with false. change (1 =? 0) with false. cbv iota.
    rewrite bind_self. cbn [_peek set_sslclient c1 set_peek]. change (0 <=? -1) with false. cbv iota.
    rewrite (run_bind _ _ _ (res, data) (set_sslclient x (set_sslclient x c1), w5)).
    + destruct (Z.ltb_spec res 0); [lia|]. by eexists.
    + unfold on_ssl, get_ssl_receive. cbn [fst snd sslclient set_sslclient].
      rewrite bind_self. unfold sys. cbn [fst snd]. by rewrite E5.
  - unfold available. rewrite bind_self, Hc. cbn [negb].
    rewrite (run_bind _ _ _ (handle_error err) (set_sslclient (sslclient c) c, w2)).
    + unfold handle_error. destruct (err =? -30848); (destruct (Z.ltb_spec err 0); [|lia]);
      (rewrite (run_bind _ _ _ tt (set_sslclient x c1, w4));
        [by destruct (Z.leb_spec 0 (_peek c)); [|lia]|];
       unfold stop; rewrite bind_self; cbn [sslclient set_sslclient];
       destruct (Z.leb_spec 0 (socket (sslclient c))); [|lia];
       rewrite (run_bind _ _ _ tt (c1, w3)); [|by rewrite (bind_world _ _ _ _ _ _ E3)];
       unfold on_ssl; cbn [fst snd sslclient set_sslclient c1 set_peek set_connected]; by rewrite E4).
    + unfold on_ssl, data_to_read. cbn [fst snd]. rewrite bind_self, (bind_world _ _ _ _ _ _ E1).
      rewrite (bind_world _ _ _ _ _ _ E2), Hw. cbn [negb andb]. by destruct (Z.ltb_spec err 0); [|lia].
Qed.

(** *** What has not been initialised *)

(** [inited w x]: the structure has been initialised; freeing one that has not
    is undefined. *)
Record tracks (inited : W → structure → Prop) : Prop :=
  { tr_init x w : ∃ w', mbedtls_init x w = Ok (tt, w') ∧ ∀ y, inited w' y ↔ y = x ∨ inited w y;
    tr_free x w : inited w x → ∃ w', mbedtls_free x w = Ok (tt, w') ∧ ∀ y, inited w' y ↔ inited w y;
    tr_undefined x w : ¬ inited w x → mbedtls_free x w = UB Uninitialised }.

(** A TCPClientSecure that is destroyed before it was ever connected frees an entropy context
    that only connect initialises. *)
Theorem secure_unused_delete inited c w :
  tracks inited → ¬ inited w entropy_ctx →
  ∃ s, TCPClientSecure_new (c, w) = Ok (tt, s) ∧ TCPClientSecure_delete s = UB Uninitialised.
Proof.
  intros HT Hw.
  destruct (tr_init _ HT ssl_ctx w) as (w1 & E1 & H1w).
  destruct (tr_init _ HT ssl_conf w1) as (w2 & E2 & H2w).
  destruct (tr_init _ HT drbg_ctx w2) as (w3 & E3 & H3w).
  destruct (tr_free _ HT ssl_ctx w3) as (w4 & E4 & H4w);
    [rewrite H3w, H2w, H1w; auto|].
  destruct (tr_free _ HT ssl_conf w4) as (w5 & E5 & H5w);
    [rewrite H4w, H3w, H2w; auto|].
  destruct (tr_free _ HT drbg_ctx w5) as (w6 & E6 & H6w);
    [rewrite H5w, H4w, H3w; auto|].
  assert (E7 : mbedtls_free entropy_ctx w6 = UB Uninitialised).
  { apply (tr_undefined _ HT). rewrite H6w, H5w, H4w, H3w, H2w, H1w. by intros [|[|[|]]]. }
  exists (secure_of (-1), w3). split.
  - unfold TCPClientSecure_new. rewrite bind_become. unfold on_ssl, ssl_init. cbn [fst snd].
    rewrite (bind_world _ _ _ _ _ _ E1), (bind_world _ _ _ _ _ _ E2). unfold sys. cbn [fst snd].
    by rewrite E3.
  - unfold TCPClientSecure_delete, stop. rewrite bind_self. cbn [sslclient secure_of socket].
    change (0 <=? -1) with false. cbv iota. rewrite run_bind_ret.
    unfold on_ssl, stop_ssl_socket. cbn [fst snd]. rewrite bind_self. cbn [sslclient secure_of socket].
    change (0 <=? -1) with false. cbv iota. rewrite run_bind_ret.
    rewrite (bind_world _ _ _ _ _ _ E4), (bind_world _ _ _ _ _ _ E5), (bind_world _ _ _ _ _ _ E6).
    unfold sys. cbn [fst snd]. by rewrite E7.
Qed.

(** *** Certificates from a stream *)

(** The blocks the heap has given out: malloc gives a new one, free takes one
    back. *)
Record heap (live : W → gset Z) : Prop :=
  { hp_malloc n w d w' : malloc n w = Ok (Some d, w') → d ∉ live w ∧ live w' = {[d]} ∪ live w;
    hp_malloc_none n w w' : malloc n w = Ok (None, w') → live w' = live w;
    hp_free d w u w' : free d w = Ok (u, w') → live w' = live w ∖ {[d]};
    hp_read st n w r w' : stream_readBytes st n w = Ok (r, w') → live w' = live w }.

(** Loading a second certificate or key frees the block that the first is in, and the object
    still points to it: afterwards that pointer is to no block, or to the new certificate. *)
Theorem secure_load_frees_first live st1 n1 dest1 st2 n2 d b c w s1 dest2 s2 :
  heap live → loadCACert st1 n1 dest1 (c, w) = Ok ((true, d), s1) →
  loadCertificate st2 n2 d s1 = Ok ((b, dest2), s2) →
  ∃ p a, _CA_cert s2.1 = Some p ∧ c_block p = Some a ∧ (a ∉ live s2.2 ∨ dest2 = Some a).
Proof.
  intros HH E1 E2. unfold loadCACert, load in E1.
  apply run_bind_inv in E1 as ([p1 d1] & s & (w1 & E & ->)%sys_inv & E1).
  destruct p1 as [p|]; [|done]. injection E1 as <- <-. unfold streamLoad in E.
  apply run_bind_inv in E as ([] & w2 & _ & E). apply run_bind_inv in E as ([a|] & w3 & EM & E); [|done].
  apply run_bind_inv in E as ([n bs] & w4 & ER & E).
  destruct (negb _); [by apply run_bind_inv in E as (? & ? & _ & ?)|].
  injection E as <- <- <-. unfold loadCertificate, load in E2.
  apply run_bind_inv in E2 as ([p2 d2] & s & (w5 & E & ->)%sys_inv & E2).
  assert (HC : _CA_cert s2.1 = Some (CStr (Some a) (Ptr bs 0)) ∧ dest2 = d2 ∧ s2.2 = w5)
    by (destruct p2; by injection E2 as _ <- <-).
  destruct HC as (HC & -> & ->). exists (CStr (Some a) (Ptr bs 0)), a. split; [done|]. split; [done|].
  unfold streamLoad in E. apply run_bind_inv in E as ([] & w6 & EF & E).
  apply (hp_free _ HH) in EF. apply run_bind_inv in E as ([a2|] & w7 & EM2 & E).
  - apply (hp_malloc _ HH) in EM2 as [_ EM2]. apply run_bind_inv in E as ([m bs2] & w8 & ER2 & E).
    apply (hp_read _ HH) in ER2. destruct (negb _).
    + apply run_bind_inv in E as (? & w9 & EF2 & E). injection E as _ _ <-.
      apply (hp_free _ HH) in EF2. left. rewrite EF2, ER2, EM2, EF. set_solver.
    + injection E as _ <- <-. destruct (decide (a2 = a)) as [->|Hn]; [by right|].
      left. rewrite ER2, EM2, EF. set_solver.
  - apply (hp_malloc_none _ HH) in EM2. injection E as _ _ <-. left. rewrite EM2, EF. set_solver.
Qed.

(** A certificate loaded from a stream has no zero at its end unless the stream has one: connect
    reads on past the block. *)
Theorem secure_loaded_unterminated st n dest c w d s :
  streamLoad st n dest w = Ok ((Some c, d), s) → 0 ∉ obj (c_str c) →
  (∀ x w, ∃ w', mbedtls_init x w = Ok (tt, w')) → (∀ b w, ∃ w', mbedtls_ssl_conf_authmode b w = Ok (tt, w')) →
  ∀ i k v, authenticate (Some (c_str c)) i k v = UB OutOfBounds.
Proof.
  intros E Hz HI HA i k v. unfold authenticate.
  destruct (HI ca_cert v) as (v1 & E1). rewrite (run_bind _ _ _ _ _ E1).
  destruct (HA true v1) as (v2 & E2). rewrite (run_bind _ _ _ _ _ E2).
  assert (strlen (Some (c_str c)) = UB OutOfBounds) as ->; [|done].
  unfold streamLoad in E. apply run_bind_inv in E as ([] & w2 & _ & E).
  apply run_bind_inv in E as ([a|] & w3 & EM & E); [|done].
  apply run_bind_inv in E as ([m bs] & w4 & ER & E).
  destruct (negb _); [by apply run_bind_inv in E as (? & ? & _ & ?)|].
  injection E as <- _ _. unfold strlen. cbn in Hz. cbn [c_str obj off].
  change (0 <? 0) with false. change (drop (Z.to_nat 0) bs) with bs. cbv iota.
  assert (scan_nul bs = None) as ->; [|done].
  clear -Hz. induction bs as [|x bs IH]; [done|]. cbn. destruct (Z.eqb_spec x 0) as [->|].
  - destruct Hz. by left.
  - rewrite IH; [done|]. intros ?. apply Hz. by right.
Qed.

End TlsClient.
End TlsClient.
