(* ===== verification/TlsExamples.v ===== *)
(** * TLS clients on a concrete world

    An instance of the classes of Lwip.v, SslClient.v and TlsClient.v: the
    sockets of LwipSim.v, a clock, the structures that have been initialised and
    the blocks of the heap; and the witnesses of the theorems of SslClient.v and
    TlsClient.v. *)

From stdpp Require Import gmap.
From S2P Require Import Prelude CSem Lwip LwipSim TcpUdp SslClient TlsClient.

Module TlsExamples.
Import Names SslClient TlsClient.

Record tls_world : Type := Tls
  { tl_net : sockets; tl_clock : Z; tl_inited : list structure; tl_live : list Z }.

Definition on_net {A} (m : M sockets A) : M tls_world A := λ w,
  match m (tl_net w) with
  | Ok (a, n) => Ok (a, Tls n (tl_clock w) (tl_inited w) (tl_live w))
  | UB u => UB u | NoFuel => NoFuel end.

#[local] Existing Instance esp32.
#[local] Instance ip_number : IPAddresses :=
  {| IPAddress := Z; v4 := λ a, a; IPAddress_of := λ a, a |}.

#[local] Instance tls_lwip : Lwip tls_world :=
  let L := lwip_sim 0 in
  {| lwip_socket := λ t, on_net (lwip_socket t);
     lwip_setsockopt := λ fd o, on_net (lwip_setsockopt fd o);
     lwip_connect := λ fd a, on_net (lwip_connect fd a);
     lwip_bind := λ fd a, on_net (lwip_bind fd a);
     lwip_listen := λ fd n, on_net (lwip_listen fd n);
     lwip_accept := λ fd n, on_net (lwip_accept fd n);
     lwip_getsockname := λ fd, on_net (lwip_getsockname fd);
     lwip_shutdown := λ fd n, on_net (lwip_shutdown fd n);
     lwip_close := λ fd, on_net (lwip_close fd);
     lwip_write := λ fd p n, on_net (lwip_write fd p n);
     lwip_sendto := λ fd p n a, on_net (lwip_sendto fd p n a);
     lwip_recv := λ fd n, on_net (lwip_recv fd n);
     lwip_recvfrom := λ fd n, on_net (lwip_recvfrom fd n);
     lwip_ioctl_fionread := λ fd, on_net (lwip_ioctl_fionread fd);
     lwip_select_read := λ n fd, on_net (lwip_select_read n fd);
     lwip_getsockopt_error := λ fd, on_net (lwip_getsockopt_error fd);
     lwip_fcntl_nonblock := λ fd, on_net (lwip_fcntl_nonblock fd);
     inet_addr := inet_addr;
     lwip_getaddrinfo := λ h, on_net (lwip_getaddrinfo h) |}.

Definition init_tls (x : structure) : M tls_world unit := λ w,
  Ok (tt, Tls (tl_net w) (tl_clock w) (x :: tl_inited w) (tl_live w)).

Definition free_tls (x : structure) : M tls_world unit := λ w,
  if bool_decide (x ∈ tl_inited w) then Ok (tt, w) else UB Uninitialised.

Definition pass (n : Z) : M tls_world unit := λ w,
  Ok (tt, Tls (tl_net w) (tl_clock w + n) (tl_inited w) (tl_live w)).

(** The clear text travels as it is. [hs]: the result of the handshake, [flags]
    that of the verification, [wr] whether data is sent. *)
Definition tls_sim (hs flags : Z) (wr : bool) : Mbedtls tls_world :=
  {| mbedtls_init := init_tls; mbedtls_free := free_tls;
     mbedtls_ctr_drbg_seed := mret 0; mbedtls_ssl_config_defaults := mret 0;
     mbedtls_ssl_conf_authmode := λ _, mret tt; mbedtls_x509_crt_parse := λ _ _ _, mret 0;
     mbedtls_ssl_conf_ca_chain := mret tt; MBEDTLS_PSK_MAX_LEN := 32;
     mbedtls_ssl_conf_psk := λ _ _ _, mret 0; mbedtls_pk_parse_key := λ _ _, mret 0;
     mbedtls_ssl_conf_own_cert := mret tt; mbedtls_ssl_set_hostname := λ _, mret 0;
     mbedtls_ssl_conf_rng := mret tt; mbedtls_ssl_setup := mret 0; mbedtls_ssl_set_bio := mret tt;
     mbedtls_ssl_handshake := λ _, pass 2 ;; mret hs;
     mbedtls_ssl_get_record_expansion := mret 29; mbedtls_ssl_get_verify_result := mret flags;
     mbedtls_ssl_read := λ fd n, on_net (lwip_recv (Lwip := lwip_sim 0) fd n);
     mbedtls_ssl_get_bytes_avail := gets (λ w, len (so_in (tl_net w)));
     mbedtls_ssl_write := λ fd p n,
       if wr then on_net (lwip_write (Lwip := lwip_sim 0) fd p n)
       else mret MBEDTLS_ERR_SSL_WANT_WRITE;
     mbedtls_ssl_get_peer_cert := mret (Some (Crt [1; 2] [bytes_of "a.b"%string] []));
     mbedtls_sha256 := λ _, replicate 32 17;
     millis := gets (λ w, to_uint (tl_clock w)); vTaskDelay := λ n, pass (10 * n);
     portTICK_PERIOD_MS := 10 |}.

#[local] Instance secure_sim : SecurePlatform tls_world :=
  {| malloc := λ _ w, let d := next_fd (tl_live w) in
       Ok (Some d, Tls (tl_net w) (tl_clock w) (tl_inited w) (d :: tl_live w));
     free := λ d w,
       Ok (tt, Tls (tl_net w) (tl_clock w) (tl_inited w) (filter (λ x, x ≠ d) (tl_live w)));
     Stream := list Z; stream_readBytes := λ s n, mret (n, take (Z.to_nat n) s);
     toString := λ _, c_string []; timedRead := mret 0; mbedtls_strerror := λ _, [] |}.

Definition open_tls (w : tls_world) : gset Z := open_sim (tl_net w).

Lemma leaves_on_net {A} (m : M sockets A) : leaves open_sim m → leaves open_tls (on_net m).
Proof.
  intros Hm w a w' E. unfold on_net in E. destruct (m (tl_net w)) as [[b n]| |] eqn:Em; [|done..].
  injection E as _ <-. by apply Hm in Em.
Qed.

Lemma opened_on_net {A} (m : M sockets A) (fd : A → Z) w a w' :
  (∀ w a w', m w = Ok (a, w') → opened open_sim w (fd a) w') → on_net m w = Ok (a, w') →
  opened open_tls w (fd a) w'.
Proof.
  intros Hm E. unfold on_net in E. destruct (m (tl_net w)) as [[b n]| |] eqn:Em; [|done..].
  injection E as <- <-. by apply Hm in Em.
Qed.

Lemma descriptors_tls : descriptors open_tls.
Proof.
  pose proof (descriptors_sim 0) as HD.
  split; try (intros; apply leaves_on_net; by apply HD).
  - intros t w fd w' E. apply (opened_on_net _ (λ x, x)) in E; [done|]. intros ???. apply HD.
  - intros s n w fd sa w' E. apply (opened_on_net _ fst) in E; [done|]. intros ? [??] ?. apply HD.
  - intros fd w rc w' E. cbn in E. unfold on_net in E. cbn in E. injection E as _ <-.
    by apply (ds_close (H := lwip_sim 0) _ HD fd (tl_net w) 0).
Qed.

Lemma quiet_tls hs flags wr : quiet (H2 := tls_sim hs flags wr) open_tls.
Proof.
  pose proof (descriptors_sim 0) as HD.
  split; try (intros; apply leaves_on_net; by apply HD); try (intros; apply leaves_ret).
  - intros x w a w' [= _ <-]. done.
  - intros x w a w' E. cbn in E. unfold free_tls in E. case_bool_decide; [|done]. by injection E as _ <-.
  - intros fd. apply leaves_bind; [|intros; apply leaves_ret]. intros w a w' [= _ <-]. done.
  - intros w a w' [= _ <-]. done.
  - intros fd p n. cbn. destruct wr; [|apply leaves_ret].
    apply leaves_on_net. exact (ds_write (H := lwip_sim 0) _ HD fd p n).
  - intros w a w' [= _ <-]. done.
  - intros n w a w' [= _ <-]. done.
Qed.

(** *** SslClient.v *)

Lemma ticking_tls flags wr fd :
  ticking (H2 := tls_sim MBEDTLS_ERR_SSL_WANT_READ flags wr) tl_clock 0 10 fd.
Proof.
  split.
  - by vm_compute.
  - intros w. eexists _, _. split; [reflexivity|]. cbn. lia.
  - intros w. eexists. split; [reflexivity|]. lia.
  - intros w. eexists. split; [reflexivity|].
    change (turn (H2 := tls_sim MBEDTLS_ERR_SSL_WANT_READ flags wr)) with 1. cbn.
    split; [lia|]. unfold tick. cbn. rewrite <-Z.div_add by lia. apply Z.div_le_mono; lia.
Qed.

(** A board that has run for 2^32 - 5 milliseconds, nothing initialised, and the
    bytes [bs] on their way. *)
Definition tls_start (bs : list Z) : tls_world := Tls (Sockets [3] 0 bs []) 4294967291 [] [].

(** And one with everything initialised. *)
Definition all_structures : list structure :=
  [ssl_ctx; ssl_conf; drbg_ctx; entropy_ctx; ca_cert; client_cert; client_key].
Definition tls_ready (open bs out : list Z) : tls_world :=
  Tls (Sockets open 0 bs out) 0 all_structures [].

(** A peer that keeps silent, for 100 ms, from just before the clock wraps around. *)
Lemma handshake_terminates_witness :
  ∃ r w', handshake_loop (H2 := tls_sim MBEDTLS_ERR_SSL_WANT_READ 0 true) 103 4 100 4294967291
    (tls_start []) = Ok (r, w') ∧ tl_clock w' ≤ 4294967291 + 100 + 40 ∧
    (silent (H2 := tls_sim MBEDTLS_ERR_SSL_WANT_READ 0 true) 4 → r = Some (-1) ∧ 4294967291 + 100 < tl_clock w').
Proof.
  apply (handshake_terminates (H2 := tls_sim MBEDTLS_ERR_SSL_WANT_READ 0 true) tl_clock 0 10 4 100
    (tls_start []) (ticking_tls 0 true 4)); lia.
Defined.

Example silent_tls : silent (H2 := tls_sim MBEDTLS_ERR_SSL_WANT_READ 0 true) 4.
Proof. intros w r w' E. cbn in E. apply run_bind_inv in E as (? & ? & _ & E). by injection E as <- _. Qed.

Lemma send_ssl_data_spins_witness :
  send_ssl_data (H2 := tls_sim 0 0 false) 50 (Ptr [7] 0) 1 (mkContext 4 1000, tls_start []) = NoFuel.
Proof.
  apply (send_ssl_data_spins (H2 := tls_sim 0 0 false) (λ _, True)); [|done].
  intros w _. by exists w.
Defined.

(** Thirty-two times 11, with colons. *)
Definition elevens : list Z := concat (replicate 32 [58; 49; 49]).

Lemma verify_ssl_fingerprint_spec_witness :
  ∃ b s', verify_ssl_fingerprint (H2 := tls_sim 0 0 true) (c_string elevens) None
      (mkContext 4 1000, tls_start []) = Ok (b, s') ∧ (b = true ↔ spells elevens (replicate 32 17)).
Proof.
  apply (verify_ssl_fingerprint_spec (H2 := tls_sim 0 0 true) (c_string elevens) elevens
    (mkContext 4 1000) (tls_start []) (Crt [1; 2] [bytes_of "a.b"%string] []) (tls_start []));
    reflexivity.
Defined.

(** *** TlsClient.v *)

Definition ready (w : tls_world) : Prop :=
  so_connect (tl_net w) = 0 ∧ ∀ x, x ∈ tl_inited w.

Lemma yields_net {A} (m : M sockets A) (P : A → Prop) :
  (∀ v, so_connect v = 0 → ∃ a v', m v = Ok (a, v') ∧ P a ∧ so_connect v' = 0) →
  yields ready (on_net m) P.
Proof.
  intros Hm w [Hc Hw]. destruct (Hm (tl_net w) Hc) as (a & v' & E & Ha & Hc').
  unfold on_net. rewrite E. by eexists _, _.
Qed.

Lemma cooperative_tls flags : cooperative (H2 := tls_sim 0 flags true) ready flags.
Proof.
  split; intros; try (by apply yields_ret).
  - apply yields_net. intros v Hv. eexists _, _. split; [reflexivity|]. split; [|done].
    apply next_fd_bound.
  - apply yields_net. intros v Hv. by eexists _, _.
  - apply yields_net. intros v Hv. by eexists _, _.
  - apply yields_net. intros v Hv. by eexists _, _.
  - apply yields_net. intros v Hv. by eexists _, _.
  - intros w [Hc Hw]. eexists _, _. split; [reflexivity|]. split; [done|]. split; [done|].
    intros y. right. apply Hw.
  - intros w [Hc Hw]. cbn. unfold free_tls. rewrite bool_decide_eq_true_2 by apply Hw.
    by eexists _, _.
  - intros w Hw. by eexists _, _.
  - intros w Hw. by eexists _, _.
Qed.

Lemma all_ready open bs out : ready (tls_ready open bs out).
Proof. split; [done|]. intros []; decide_by_vm. Qed.

(** A certificate that was found not to be valid (flags 8). *)
Lemma secure_connect_result_witness :
  ∃ c' w', connect (H2 := tls_sim 0 8 true) 5 (c_string []) 443 (secure_of (-1), tls_ready [3] [] []) =
      Ok (1, (c', w')) ∧ _connected c' = true ∧ (0 ≤ socket (sslclient c') ↔ 8 = 0).
Proof.
  apply (secure_connect_result (H2 := tls_sim 0 8 true) ready 8 5 (c_string []) 443 (secure_of (-1)) (tls_ready [3] [] [])
    (cooperative_tls 8) (all_ready [3] [] [])); [lia|done..|by left].
Defined.

Ltac by_vm := vm_compute; reflexivity.

(** The state a run ends in. *)
Definition after {A S} (o : outcome (A * S)) (s : S) : S :=
  match o with Ok (_, s') => s' | _ => s end.

#[local] Instance tls_good : Mbedtls tls_world := tls_sim 0 0 true.

Definition st0 : TCPClientSecure * tls_world := (secure_of (-1), tls_ready [3] [5; 6] []).
Definition st1 := after (connect_certs 5 (c_string []) 443 None None None st0) st0.
Definition st2 := after (write 5 (Ptr [65; 66] 0) 2 st1) st1.
Definition st3 := after (TCPClientSecure_delete st2) st2.

(** Made, given a shared key, connected with it on descriptor 4, two bytes written,
    destroyed. *)
Lemma quiet_core_tls : quiet_core open_tls.
Proof.
  split.
  - intros n w a w' [= _ <-]. done.
  - intros d w a w' [= _ <-]. done.
  - intros st n. apply leaves_ret.
  - intros s0 b s' [= _ <-]. apply rtc_refl.
Qed.

Definition key_of (l : String.string) : option cstr := Some (CStr None (c_string (bytes_of l))).
Definition p0 := after (TCPClientSecure_new st0) st0.
Definition p1 := after (setPreSharedKey (key_of "id"%string) (key_of "00ff"%string) p0) p0.
Definition p2 := after (connect_timeout 5 (c_string []) 443 1000 p1) p1.
Definition p3 := after (write 5 (Ptr [65; 66] 0) 2 p2) p2.
Definition p4 := after (TCPClientSecure_delete p3) p3.

Lemma secure_client_no_leak_witness :
  socket (sslclient p3.1) = 4 ∧ so_out (tl_net p3.2) = [65; 66] ∧
  fds (socket (sslclient p3.1)) ⊆ open_tls p3.2 ∧ open_tls p4.2 = open_tls (tls_ready [3] [5; 6] []).
Proof.
  split; [by_vm|]. split; [by_vm|].
  apply (secure_client_no_leak open_tls (secure_of (-1)) (tls_ready [3] [5; 6] []) tt p0 p3 tt p4
    descriptors_tls (quiet_tls 0 0 true) quiet_core_tls); [by_vm| |by_vm].
  apply (rtc_l _ _ p1); [apply (step_set _ _ tt _ _
    (set_shared (key_of "id"%string) (key_of "00ff"%string))); by_vm|].
  apply (rtc_l _ _ p2); [apply (step_connect _ _ 1 _ _ (by_host_timeout 5 (c_string []) 443 1000));
    [decide_by_vm|by_vm]|].
  apply (rtc_l _ _ p3); [apply (step_write _ 5 (Ptr [65; 66] 0) 2 2); by_vm|].
  apply rtc_refl.
Defined.

(** Connected on descriptor 4, connected again on descriptor 5. *)
Definition st4 := after (connect_certs 5 (c_string []) 443 None None None st1) st1.
Definition st5 := after (TCPClientSecure_delete st4) st4.

Lemma secure_reconnect_leaks_witness :
  socket (sslclient st4.1) = 5 ∧ open_tls st5.2 = open_tls st1.2.
Proof.
  split; [by_vm|].
  apply (secure_reconnect_leaks open_tls 5 (c_string []) 443 None None None st1.1 st1.2 1 st4 tt st5
    descriptors_tls (quiet_tls 0 0 true)); [decide_by_vm| |by_vm..].
  apply elem_of_list_to_set. decide_by_vm.
Defined.

(** A client that has peeked at a 9. *)
Definition peeked : TCPClientSecure :=
  mkSecure (mkContext 4 120000) true 0 9 0 None None None None None.

Lemma secure_read_peeked_witness :
  read_byte (peeked, tls_ready [4; 3] [5; 6] []) =
    Ok (9, (set_peek (-1) (set_sslclient (mkContext 4 120000) peeked), tls_ready [4; 3] [5; 6] [])).
Proof.
  apply (secure_read_peeked peeked (tls_ready [4; 3] [5; 6] []) (tls_ready [4; 3] [5; 6] [])
    (tls_ready [4; 3] [5; 6] []) [] 9 2); [by_vm|lia|by_vm|unfold INT_MAX; lia|by_vm..].
Defined.

Lemma tracks_tls : tracks (λ (w : tls_world) x, x ∈ tl_inited w).
Proof.
  split.
  - intros x w. eexists. split; [reflexivity|]. intros y. apply elem_of_cons.
  - intros x w Hx. exists w. split; [|done]. cbn. unfold free_tls. by rewrite bool_decide_eq_true_2.
  - intros x w Hx. cbn. unfold free_tls. by rewrite bool_decide_eq_false_2.
Qed.

Lemma secure_unused_delete_witness :
  ∃ s, TCPClientSecure_new (secure_of (-1), tls_start []) = Ok (tt, s) ∧
    TCPClientSecure_delete s = UB Uninitialised.
Proof.
  apply (secure_unused_delete (λ (w : tls_world) x, x ∈ tl_inited w) (secure_of (-1)) (tls_start [])
    tracks_tls). decide_by_vm.
Defined.

Definition live_tls (w : tls_world) : gset Z := list_to_set (tl_live w).

Lemma heap_tls : heap live_tls.
Proof.
  split.
  - intros n w d w' [= <- <-]. unfold live_tls. cbn. split; [|done].
    rewrite elem_of_list_to_set. intros Hx. pose proof (next_fd_bound (tl_live w)) as [_ HL].
    apply HL in Hx. lia.
  - done.
  - intros d w u w' [= _ <-]. unfold live_tls. cbn. apply leibniz_equiv. intros x.
    rewrite elem_of_difference, !elem_of_list_to_set, list_elem_of_filter, elem_of_singleton.
    naive_solver.
  - by intros st n w r w' [= _ <-].
Qed.

Definition a_stream (bs : list Z) : Stream (W := tls_world) := bs.

Definition st6 := after (loadCACert (a_stream [1; 2; 3]) 3 None st0) st0.
Definition st7 := after (loadCertificate (a_stream [4; 5]) 2 (Some 0) st6) st6.

(** The block of the first is given to the second. *)
Lemma secure_load_frees_first_witness :
  ∃ p a, _CA_cert st7.1 = Some p ∧ c_block p = Some a ∧ (a ∉ live_tls st7.2 ∨ Some 0 = Some a).
Proof.
  apply (secure_load_frees_first live_tls (a_stream [1; 2; 3]) 3 None (a_stream [4; 5]) 2 (Some 0) true
    st0.1 st0.2 st6 (Some 0) st7 heap_tls); by_vm.
Defined.

Lemma secure_loaded_unterminated_witness :
  authenticate (Some (Ptr [1; 2; 3] 0)) None None (tls_start []) = UB OutOfBounds.
Proof.
  apply (secure_loaded_unterminated (a_stream [1; 2; 3]) 3 None (CStr (Some 0) (Ptr [1; 2; 3] 0))
    (tls_ready [3] [] []) (Some 0) (Tls (Sockets [3] 0 [] []) 0 all_structures [0])).
  - reflexivity.
  - decide_by_vm.
  - intros x w. by eexists.
  - intros b w. by eexists.
Defined.

End TlsExamples.
