(* ===== verification/Ppp.v ===== *)
(** * The PPP adapter and the SNTP service

    PPPAdapter.cpp (Module PPPAdapter) and SNTP.cpp (Module SNTP) of src/src,
    over the functions of lwIP they call. lwIP reports what becomes of a PPP
    session to ppp_status_cb, from its own thread: a call of the adapter during
    which reports arrive gives them as a list of error codes, in their order. *)

From S2P Require Import Prelude CSem Lwip.

Module PPPAdapter.

(** enum PPPState *)
Inductive PPPState : Type :=
  PPPState_Disconnected | PPPState_Connected | PPPState_Idle | PPPState_Uninit.

#[export] Instance PPPState_eq_dec : EqDecision PPPState.
Proof. solve_decision. Defined.

Definition PPPERR_NONE : Z := 0.
Definition PPPERR_USER : Z := 5.
Definition PPPERR_CONNECT : Z := 6.

(** A ppp_pcb is known by its address. [pppWrite] is the method of the
    application's callback object. *)
Class Pppapi (W : Type) : Type :=
  { PPPAdapterCallback : Type;
    pppWrite : PPPAdapterCallback → list Z → M W Z;
    pppos_input_tcpip : option Z → list Z → M W unit;
    (* the bytes of the address, the gateway and the mask *)
    pppapi_pppos_create : list Z → list Z → list Z → M W (option Z);
    pppapi_close : Z → M W (list Z);
    pppapi_free : Z → M W unit;
    pppapi_set_default : Z → M W unit;
    ppp_set_usepeerdns : option Z → M W unit;
    pppapi_connect : option Z → M W Z;
    fe_delay : Z → M W (list Z) }.

Section PPPAdapter.
Context {W : Type} `{Pppapi W}.

Record PPPAdapter : Type := mkAdapter
  { m_cb : option PPPAdapterCallback; m_state : PPPState; m_ppp_pcb : option Z }.

Definition set_state v c := mkAdapter (m_cb c) v (m_ppp_pcb c).
Definition set_pcb v c := mkAdapter (m_cb c) (m_state c) v.

#[local] Abbreviation A := (M (PPPAdapter * W)).

Definition PPPAdapter_new (cb : option PPPAdapterCallback) : PPPAdapter :=
  mkAdapter cb PPPState_Uninit None.

(** updatePPPState and state take the lock of the adapter around one access. *)
Definition updatePPPState (s : PPPState) : A unit := become (set_state s).
Definition state : A PPPState := c ← self; mret (m_state c).

(** The other error codes are only logged. *)
Definition ppp_status_cb (err_code : Z) (c : PPPAdapter) : PPPAdapter :=
  if err_code =? PPPERR_NONE then set_state PPPState_Connected c
  else if (err_code =? PPPERR_USER) || (err_code =? PPPERR_CONNECT)
  then set_state PPPState_Disconnected c
  else c.

(** Reports that arrive one after the other. *)
Definition reports (l : list Z) : A unit := become (λ c, foldl (λ c e, ppp_status_cb e c) c l).

Definition write (data : list Z) : A Z :=
  c ← self;
  match m_cb c with Some cb => sys (pppWrite cb data) | None => mret 0 end.

Definition ppp_output_callback (data : list Z) : A Z := write data.

Definition update (data : list Z) : A unit := c ← self; sys (pppos_input_tcpip (m_ppp_pcb c) data).

Definition pppInit : A bool :=
  pcb ← sys (pppapi_pppos_create [192; 168; 4; 1] [192; 168; 4; 1] [255; 255; 255; 0]);
  become (set_pcb pcb) ;;
  mret (nonnull pcb).

Definition pppClose : A bool :=
  c ← self;
  match m_ppp_pcb c with
  | Some pcb => l ← sys (pppapi_close pcb); reports l ;; mret true
  | None => mret true
  end.

(** [for(uint32_t i=0; i< 5; i++)]: a second for each, while the session is not
    disconnected. *)
Fixpoint wait_disconnected (n : nat) : A unit :=
  match n with
  | O => mret tt
  | S n =>
      c ← self;
      (if bool_decide (m_state c = PPPState_Disconnected) then mret tt
       else l ← sys (fe_delay 1000); reports l) ;;
      wait_disconnected n
  end.

Definition pppCloseAndFree : A bool :=
  c ← self;
  match m_ppp_pcb c with
  | Some pcb =>
      l ← sys (pppapi_close pcb);
      reports l ;;
      wait_disconnected 5 ;;
      c ← self;
      (if bool_decide (m_state c = PPPState_Disconnected) then sys (pppapi_free pcb) else mret tt) ;;
      become (set_pcb None) ;;
      mret true
  | None => mret true
  end.

(** The configuration without PPP_AUTH_SUPPORT. *)
Definition pppNegotiation : A bool :=
  c ← self;
  (match m_ppp_pcb c with Some pcb => sys (pppapi_set_default pcb) | None => mret tt end) ;;
  sys (ppp_set_usepeerdns (m_ppp_pcb c)) ;;
  rc ← sys (pppapi_connect (m_ppp_pcb c));
  mret (rc =? 0).

Definition udpateDNSServer : A unit := mret tt.

(** *** Closing *)

(** While no report arrives the state is what it was. *)
Lemma wait_silent n c w :
  (∀ w, ∃ w', fe_delay 1000 w = Ok ([], w')) →
  ∃ w', wait_disconnected n (c, w) = Ok (tt, (c, w')).
Proof.
  intros HS. revert w. induction n as [|n IH]; intros w; [by exists w|]. cbn [wait_disconnected].
  rewrite bind_self. destruct (bool_decide _).
  - rewrite run_bind_ret. apply IH.
  - destruct (HS w) as (w1 & E). rewrite (run_bind _ _ _ tt (c, w1)); [apply IH|].
    by rewrite (bind_world _ _ _ _ _ _ E).
Qed.

(** When lwIP does not report the end of the session within five seconds, pppCloseAndFree forgets
    the control block without freeing it, and reports success: the block, which holds the
    address of the adapter, lives on. *)
Theorem ppp_close_forgets c w pcb w1 :
  m_ppp_pcb c = Some pcb → m_state c ≠ PPPState_Disconnected →
  pppapi_close pcb w = Ok ([], w1) → (∀ w, ∃ w', fe_delay 1000 w = Ok ([], w')) →
  ∃ w', pppCloseAndFree (c, w) = Ok (true, (set_pcb None c, w')).
Proof.
  intros Hp Hs E1 HS. unfold pppCloseAndFree. rewrite bind_self, Hp, (bind_world _ _ _ _ _ _ E1).
  unfold reports. rewrite bind_become. cbn [foldl].
  destruct (wait_silent 5 c w1 HS) as (w2 & E2). rewrite (run_bind _ _ _ _ _ E2), bind_self.
  rewrite bool_decide_eq_false_2 by done. rewrite run_bind_ret, bind_become. by exists w2.
Qed.

(** When a report of the end arrives with the call itself, or the state still says
    disconnected from before, the block is freed once, without a delay. *)
Theorem ppp_close_frees c w pcb l w1 w2 :
  m_ppp_pcb c = Some pcb → pppapi_close pcb w = Ok (l, w1) →
  m_state (foldl (λ c e, ppp_status_cb e c) c l) = PPPState_Disconnected →
  pppapi_free pcb w1 = Ok (tt, w2) →
  ∃ c', pppCloseAndFree (c, w) = Ok (true, (c', w2)) ∧ m_ppp_pcb c' = None ∧
    m_state c' = PPPState_Disconnected.
Proof.
  intros Hp E1 Hs E2. unfold pppCloseAndFree. rewrite bind_self, Hp, (bind_world _ _ _ _ _ _ E1).
  unfold reports. rewrite bind_become. set (c1 := foldl _ c l) in *.
  assert (EW : ∀ n, wait_disconnected n (c1, w1) = Ok (tt, (c1, w1))).
  { induction n as [|n IH]; [done|]. cbn [wait_disconnected].
    by rewrite bind_self, bool_decide_eq_true_2, run_bind_ret, IH. }
  rewrite (run_bind _ _ _ _ _ (EW 5%nat)), bind_self, bool_decide_eq_true_2 by done.
  rewrite (bind_world _ _ _ _ _ _ E2), bind_become. by eexists.
Qed.

End PPPAdapter.

(** A modem whose sessions end, or not, with the call, and the blocks freed. *)
#[local] Instance modem (l : list Z) : Pppapi (list Z) :=
  {| PPPAdapterCallback := unit; pppWrite := λ _ d, mret (len d);
     pppos_input_tcpip := λ _ _, mret tt; pppapi_pppos_create := λ _ _ _, mret (Some 7);
     pppapi_close := λ _, mret l; pppapi_free := λ p w, Ok (tt, p :: w);
     pppapi_set_default := λ _, mret tt; ppp_set_usepeerdns := λ _, mret tt;
     pppapi_connect := λ _, mret 0; fe_delay := λ _, mret [] |}.

Definition up (l : list Z) : PPPAdapter (H := modem l) :=
  mkAdapter (H := modem l) None PPPState_Connected (Some 7).

Lemma ppp_close_forgets_witness :
  ∃ w', pppCloseAndFree (H := modem []) (up [], []) = Ok (true, (set_pcb None (up []), w')).
Proof. apply (ppp_close_forgets (H := modem []) (up []) [] 7 []); try done. intros w. by exists w. Defined.

Lemma ppp_close_frees_witness :
  ∃ c', pppCloseAndFree (H := modem [5]) (up [5], []) = Ok (true, (c', [7])) ∧ m_ppp_pcb c' = None ∧
    m_state c' = PPPState_Disconnected.
Proof. by apply (ppp_close_frees (H := modem [5]) (up [5]) [] 7 [5] [] [7]). Defined.

End PPPAdapter.

(** ** SNTP.cpp *)

Module SNTP.

(** The functions of the SNTP application of lwIP. *)
Class Sntp (W : Type) : Type :=
  { sntp_setoperatingmode_poll : M W unit;
    sntp_init : M W unit;
    sntp_enabled : M W Z;
    sntp_stop : M W unit;
    sntp_setservername : Z → ptr → M W unit }.

Section SNTP.
Context {W : Type} `{Sntp W}.

Definition SNTP_new : M W unit := sntp_setoperatingmode_poll.
Definition SNTP_delete : M W unit := mret tt.
Definition init : M W unit := sntp_init.
Definition stop : M W unit := e ← sntp_enabled; if truth e then sntp_stop else mret tt.
Definition isEnabled : M W bool := e ← sntp_enabled; mret (truth e).
Definition setServerName (idx : Z) (name : ptr) : M W unit := sntp_setservername (to_uchar idx) name.

End SNTP.
End SNTP.
