(* ===== verification/Http.v ===== *)
(** * The HTTP client: HTTPClient.cpp

    Every member function of class HTTPClient, over the network clients it
    drives (virtual calls on shared objects, class [HttpNet]), the streams and
    strings of the Arduino core, and the shared pointers that own the network
    clients. *)

From stdpp Require Import gmap.
From S2P Require Import Prelude CSem Numerals ArduinoString Lwip TlsClient.

Module Http.

(** ** Objects behind shared pointers

    A network client is a TCPClient or a TCPClientSecure, at an address;
    [objects] has the number of its owners. *)
Inductive kind : Type := Plain | Secure.

#[export] Instance kind_eq_dec : EqDecision kind.
Proof. solve_decision. Defined.

Record shared (W : Type) : Type := mkShared { objects : gmap Z (Z * kind); under : W }.
Arguments mkShared {W} objects under.
Arguments objects {W} s.
Arguments under {W} s.

(** What the client calls: constructors and destructor of a network client, its
    virtual functions, what it inherits from Stream; the functions of
    TCPClientSecure; a Stream of the application; time and the heap; and
    base64. *)
Class HttpNet (W : Type) : Type :=
  { cl_new : kind → M W Z;
    cl_delete : Z → M W unit;
    cl_connect : Z → ptr → Z → Z → M W Z;
    cl_connected : Z → M W Z;
    cl_available : Z → M W Z;
    cl_read : Z → M W Z;
    cl_write : Z → ptr → Z → M W Z;
    cl_stop : Z → M W unit;
    cl_setTimeout : Z → Z → M W unit;
    cl_readStringUntil : Z → Z → M W (list Z);
    cl_readBytes : Z → Z → M W (Z * list Z);   (* the result, what is stored *)
    cl_getWriteError : Z → M W Z;
    cl_clearWriteError : Z → M W unit;
    cl_setCACert : Z → option TlsClient.cstr → M W unit;
    cl_setCertificate : Z → option TlsClient.cstr → M W unit;
    cl_setPrivateKey : Z → option TlsClient.cstr → M W unit;
    Stream : Type;
    st_available : Stream → M W Z;
    st_readBytes : Stream → Z → M W (Z * list Z);
    st_write : Stream → ptr → Z → M W Z;
    st_getWriteError : Stream → M W Z;
    st_clearWriteError : Stream → M W unit;
    sstring_new : M W Stream;                  (* StreamString *)
    sstring_reserve : Stream → Z → M W bool;
    sstring_text : Stream → M W (list Z);
    millis : M W Z;
    delay : Z → M W unit;
    malloc : Z → M W (option (Z * list Z));    (* the block, what it happens to hold *)
    free : Z → M W unit;
    base64_encode : list Z → list Z }.

(** Whether the macro FEMBED_PLATFORM is defined. *)
Class HttpConfig : Type := { FEMBED_PLATFORM : bool }.

(** ** HTTPClient.h *)

Definition HTTPCLIENT_DEFAULT_TCP_TIMEOUT : Z := 60000.
Definition HTTPC_ERROR_CONNECTION_REFUSED : Z := -1.
Definition HTTPC_ERROR_SEND_HEADER_FAILED : Z := -2.
Definition HTTPC_ERROR_SEND_PAYLOAD_FAILED : Z := -3.
Definition HTTPC_ERROR_NOT_CONNECTED : Z := -4.
Definition HTTPC_ERROR_CONNECTION_LOST : Z := -5.
Definition HTTPC_ERROR_NO_STREAM : Z := -6.
Definition HTTPC_ERROR_NO_HTTP_SERVER : Z := -7.
Definition HTTPC_ERROR_TOO_LESS_RAM : Z := -8.
Definition HTTPC_ERROR_ENCODING : Z := -9.
Definition HTTPC_ERROR_STREAM_WRITE : Z := -10.
Definition HTTPC_ERROR_READ_TIMEOUT : Z := -11.
Definition HTTP_TCP_BUFFER_SIZE : Z := 1460.

Inductive transferEncoding_t : Type := HTTPC_TE_IDENTITY | HTTPC_TE_CHUNKED.

Record RequestArgument : Type := mkArgument { key : list Z; value : list Z }.

(** TransportTraits, or TLSTraits with its pointers. *)
Inductive TransportTraits : Type :=
  | PlainTraits
  | TLSTraits (CAcert clicert clikey : option TlsClient.cstr).

Record HTTPClient : Type := mkHTTPClient
  { _transportTraits : option TransportTraits;
    _tcpDeprecated : option Z;
    _client : option Z;
    _host : list Z;
    _port : Z;
    _connectTimeout : Z;
    _reuse : bool;
    _tcpTimeout : Z;
    _useHTTP10 : bool;
    _secure : bool;
    _uri : list Z;
    _protocol : list Z;
    _headers : list Z;
    _userAgent : list Z;
    _base64Authorization : list Z;
    _currentHeaders : option (list RequestArgument);
    _headerKeysCount : Z;
    _returnCode : Z;
    _size : Z;
    _canReuse : bool;
    _transferEncoding : transferEncoding_t }.

Definition set_transportTraits v c := mkHTTPClient v (_tcpDeprecated c) (_client c) (_host c)
  (_port c) (_connectTimeout c) (_reuse c) (_tcpTimeout c) (_useHTTP10 c) (_secure c) (_uri c)
  (_protocol c) (_headers c) (_userAgent c) (_base64Authorization c) (_currentHeaders c)
  (_headerKeysCount c) (_returnCode c) (_size c) (_canReuse c) (_transferEncoding c).
Definition set_tcpDeprecated v c := mkHTTPClient (_transportTraits c) v (_client c) (_host c)
  (_port c) (_connectTimeout c) (_reuse c) (_tcpTimeout c) (_useHTTP10 c) (_secure c) (_uri c)
  (_protocol c) (_headers c) (_userAgent c) (_base64Authorization c) (_currentHeaders c)
  (_headerKeysCount c) (_returnCode c) (_size c) (_canReuse c) (_transferEncoding c).
Definition set_client v c := mkHTTPClient (_transportTraits c) (_tcpDeprecated c) v (_host c)
  (_port c) (_connectTimeout c) (_reuse c) (_tcpTimeout c) (_useHTTP10 c) (_secure c) (_uri c)
  (_protocol c) (_headers c) (_userAgent c) (_base64Authorization c) (_currentHeaders c)
  (_headerKeysCount c) (_returnCode c) (_size c) (_canReuse c) (_transferEncoding c).
Definition set_host v c := mkHTTPClient (_transportTraits c) (_tcpDeprecated c) (_client c) v
  (_port c) (_connectTimeout c) (_reuse c) (_tcpTimeout c) (_useHTTP10 c) (_secure c) (_uri c)
  (_protocol c) (_headers c) (_userAgent c) (_base64Authorization c) (_currentHeaders c)
  (_headerKeysCount c) (_returnCode c) (_size c) (_canReuse c) (_transferEncoding c).
Definition set_port v c := mkHTTPClient (_transportTraits c) (_tcpDeprecated c) (_client c) (_host
  c) v (_connectTimeout c) (_reuse c) (_tcpTimeout c) (_useHTTP10 c) (_secure c) (_uri c)
  (_protocol c) (_headers c) (_userAgent c) (_base64Authorization c) (_currentHeaders c)
  (_headerKeysCount c) (_returnCode c) (_size c) (_canReuse c) (_transferEncoding c).
Definition set_connectTimeout v c := mkHTTPClient (_transportTraits c) (_tcpDeprecated c) (_client
  c) (_host c) (_port c) v (_reuse c) (_tcpTimeout c) (_useHTTP10 c) (_secure c) (_uri c)
  (_protocol c) (_headers c) (_userAgent c) (_base64Authorization c) (_currentHeaders c)
  (_headerKeysCount c) (_returnCode c) (_size c) (_canReuse c) (_transferEncoding c).
Definition set_reuse v c := mkHTTPClient (_transportTraits c) (_tcpDeprecated c) (_client c)
  (_host c) (_port c) (_connectTimeout c) v (_tcpTimeout c) (_useHTTP10 c) (_secure c) (_uri c)
  (_protocol c) (_headers c) (_userAgent c) (_base64Authorization c) (_currentHeaders c)
  (_headerKeysCount c) (_returnCode c) (_size c) (_canReuse c) (_transferEncoding c).
Definition set_tcpTimeout v c := mkHTTPClient (_transportTraits c) (_tcpDeprecated c) (_client c)
  (_host c) (_port c) (_connectTimeout c) (_reuse c) v (_useHTTP10 c) (_secure c) (_uri c)
  (_protocol c) (_headers c) (_userAgent c) (_base64Authorization c) (_currentHeaders c)
  (_headerKeysCount c) (_returnCode c) (_size c) (_canReuse c) (_transferEncoding c).
Definition set_useHTTP10 v c := mkHTTPClient (_transportTraits c) (_tcpDeprecated c) (_client c)
  (_host c) (_port c) (_connectTimeout c) (_reuse c) (_tcpTimeout c) v (_secure c) (_uri c)
  (_protocol c) (_headers c) (_userAgent c) (_base64Authorization c) (_currentHeaders c)
  (_headerKeysCount c) (_returnCode c) (_size c) (_canReuse c) (_transferEncoding c).
Definition set_secure v c := mkHTTPClient (_transportTraits c) (_tcpDeprecated c) (_client c)
  (_host c) (_port c) (_connectTimeout c) (_reuse c) (_tcpTimeout c) (_useHTTP10 c) v (_uri c)
  (_protocol c) (_headers c) (_userAgent c) (_base64Authorization c) (_currentHeaders c)
  (_headerKeysCount c) (_returnCode c) (_size c) (_canReuse c) (_transferEncoding c).
Definition set_uri v c := mkHTTPClient (_transportTraits c) (_tcpDeprecated c) (_client c) (_host
  c) (_port c) (_connectTimeout c) (_reuse c) (_tcpTimeout c) (_useHTTP10 c) (_secure c) v
  (_protocol c) (_headers c) (_userAgent c) (_base64Authorization c) (_currentHeaders c)
  (_headerKeysCount c) (_returnCode c) (_size c) (_canReuse c) (_transferEncoding c).
Definition set_protocol v c := mkHTTPClient (_transportTraits c) (_tcpDeprecated c) (_client c)
  (_host c) (_port c) (_connectTimeout c) (_reuse c) (_tcpTimeout c) (_useHTTP10 c) (_secure c)
  (_uri c) v (_headers c) (_userAgent c) (_base64Authorization c) (_currentHeaders c)
  (_headerKeysCount c) (_returnCode c) (_size c) (_canReuse c) (_transferEncoding c).
Definition set_headers v c := mkHTTPClient (_transportTraits c) (_tcpDeprecated c) (_client c)
  (_host c) (_port c) (_connectTimeout c) (_reuse c) (_tcpTimeout c) (_useHTTP10 c) (_secure c)
  (_uri c) (_protocol c) v (_userAgent c) (_base64Authorization c) (_currentHeaders c)
  (_headerKeysCount c) (_returnCode c) (_size c) (_canReuse c) (_transferEncoding c).
Definition set_userAgent v c := mkHTTPClient (_transportTraits c) (_tcpDeprecated c) (_client c)
  (_host c) (_port c) (_connectTimeout c) (_reuse c) (_tcpTimeout c) (_useHTTP10 c) (_secure c)
  (_uri c) (_protocol c) (_headers c) v (_base64Authorization c) (_currentHeaders c)
  (_headerKeysCount c) (_returnCode c) (_size c) (_canReuse c) (_transferEncoding c).
Definition set_base64Authorization v c := mkHTTPClient (_transportTraits c) (_tcpDeprecated c)
  (_client c) (_host c) (_port c) (_connectTimeout c) (_reuse c) (_tcpTimeout c) (_useHTTP10 c)
  (_secure c) (_uri c) (_protocol c) (_headers c) (_userAgent c) v (_currentHeaders c)
  (_headerKeysCount c) (_returnCode c) (_size c) (_canReuse c) (_transferEncoding c).
Definition set_currentHeaders v c := mkHTTPClient (_transportTraits c) (_tcpDeprecated c) (_client
  c) (_host c) (_port c) (_connectTimeout c) (_reuse c) (_tcpTimeout c) (_useHTTP10 c) (_secure c)
  (_uri c) (_protocol c) (_headers c) (_userAgent c) (_base64Authorization c) v (_headerKeysCount
  c) (_returnCode c) (_size c) (_canReuse c) (_transferEncoding c).
Definition set_headerKeysCount v c := mkHTTPClient (_transportTraits c) (_tcpDeprecated c)
  (_client c) (_host c) (_port c) (_connectTimeout c) (_reuse c) (_tcpTimeout c) (_useHTTP10 c)
  (_secure c) (_uri c) (_protocol c) (_headers c) (_userAgent c) (_base64Authorization c)
  (_currentHeaders c) v (_returnCode c) (_size c) (_canReuse c) (_transferEncoding c).
Definition set_returnCode v c := mkHTTPClient (_transportTraits c) (_tcpDeprecated c) (_client c)
  (_host c) (_port c) (_connectTimeout c) (_reuse c) (_tcpTimeout c) (_useHTTP10 c) (_secure c)
  (_uri c) (_protocol c) (_headers c) (_userAgent c) (_base64Authorization c) (_currentHeaders c)
  (_headerKeysCount c) v (_size c) (_canReuse c) (_transferEncoding c).
Definition set_size v c := mkHTTPClient (_transportTraits c) (_tcpDeprecated c) (_client c) (_host
  c) (_port c) (_connectTimeout c) (_reuse c) (_tcpTimeout c) (_useHTTP10 c) (_secure c) (_uri c)
  (_protocol c) (_headers c) (_userAgent c) (_base64Authorization c) (_currentHeaders c)
  (_headerKeysCount c) (_returnCode c) v (_canReuse c) (_transferEncoding c).
Definition set_canReuse v c := mkHTTPClient (_transportTraits c) (_tcpDeprecated c) (_client c)
  (_host c) (_port c) (_connectTimeout c) (_reuse c) (_tcpTimeout c) (_useHTTP10 c) (_secure c)
  (_uri c) (_protocol c) (_headers c) (_userAgent c) (_base64Authorization c) (_currentHeaders c)
  (_headerKeysCount c) (_returnCode c) (_size c) v (_transferEncoding c).
Definition set_transferEncoding v c := mkHTTPClient (_transportTraits c) (_tcpDeprecated c)
  (_client c) (_host c) (_port c) (_connectTimeout c) (_reuse c) (_tcpTimeout c) (_useHTTP10 c)
  (_secure c) (_uri c) (_protocol c) (_headers c) (_userAgent c) (_base64Authorization c)
  (_currentHeaders c) (_headerKeysCount c) (_returnCode c) (_size c) (_canReuse c) v.

(** The values the class gives its members. *)
Definition HTTPClient_new : HTTPClient :=
  mkHTTPClient None None None [] 0 (-1) true HTTPCLIENT_DEFAULT_TCP_TIMEOUT false false
    [] [] [] (bytes_of "CustomHTTPClient"%string) [] None 0 0 (-1) false HTTPC_TE_IDENTITY.

Definition crlf : list Z := [13; 10].

Section HTTPClient.
Context `{CImpl} `{ArduinoString} `{HttpConfig} {W : Type} `{HttpNet W}.
#[local] Abbreviation T A := (M (HTTPClient * shared W) A).
#[local] Open Scope c_scope.

(** An operation on the world below the shared pointers. *)
Definition call {A} (m : M W A) : T A :=
  sys (λ s, match m (under s) with
            | Ok (a, w) => Ok (a, mkShared (objects s) w) | UB u => UB u | NoFuel => NoFuel end).

(** ** Shared pointers *)

Definition sp_count (p : Z) : T (Z * kind) :=
  sys (λ s, match objects s !! p with Some x => Ok (x, s) | None => UB OutOfBounds end).

Definition sp_store (p : Z) (x : option (Z * kind)) : T unit :=
  sys (λ s, Ok (tt, mkShared (partial_alter (λ _, x) p (objects s)) (under s))).

Definition sp_copy (p : option Z) : T unit :=
  match p with
  | None => mret tt
  | Some p => '(n, k) ← sp_count p; sp_store p (Some (n + 1, k))
  end.

(** The last owner destroys the object. *)
Definition sp_drop (p : option Z) : T unit :=
  match p with
  | None => mret tt
  | Some p =>
      '(n, k) ← sp_count p;
      if n =? 1 then sp_store p None ;; call (cl_delete p) else sp_store p (Some (n - 1, k))
  end.

(** [std::shared_ptr<TCPClient>(new ...)]; new throws rather than give null. *)
Definition sp_new (k : kind) : T Z := p ← call (cl_new k); sp_store p (Some (1, k)) ;; mret p.

(** [_client = p], of a pointer that stays with its owner. *)
Definition assign_client (p : option Z) : T unit :=
  sp_copy p ;; c ← self; become (set_client p) ;; sp_drop (_client c).

Definition client : T Z :=
  c ← self; lift (match _client c with Some p => Ok p | None => UB NullPointer end).

(** ** Transport traits *)

(** [create()]: one owner, the result. *)
Definition create (t : TransportTraits) : T Z :=
  match t with
  | PlainTraits => sp_new Plain
  | TLSTraits _ _ _ => sp_new (if FEMBED_PLATFORM then Plain else Secure)
  end.

Definition verify (t : TransportTraits) (p : option Z) : T bool :=
  match t with
  | PlainTraits => mret true
  | TLSTraits ca cert key =>
      match p with
      | None => mret false
      | Some p =>
          if FEMBED_PLATFORM then mret true
          else
            '(_, k) ← sp_count p;
            match k with
            | Plain => lift (UB WrongClass)
            | Secure =>
                call (cl_setCACert p ca) ;;
                call (cl_setCertificate p cert) ;;
                call (cl_setPrivateKey p key) ;;
                mret true
            end
      end
  end.

(** ** HTTPClient.cpp *)

Definition clear : T unit :=
  become (set_returnCode 0) ;; become (set_size (-1)) ;; become (set_headers []).

Definition connected : T bool :=
  c ← self;
  match _client c with
  | Some p =>
      n ← call (cl_available p);
      if 0 <? n then mret true else r ← call (cl_connected p); mret (truth r)
  | None => mret false
  end.

(** [while(_client->available() > 0) _client->read();] *)
Fixpoint drain (fuel : nat) : T unit :=
  match fuel with
  | O => no_fuel
  | S fuel =>
      p ← client;
      n ← call (cl_available p);
      if 0 <? n then call (cl_read p) ;; drain fuel else mret tt
  end.

Definition disconnect (fuel : nat) (preserveClient : bool) : T unit :=
  b ← connected;
  if (b : bool) then
    p ← client;
    n ← call (cl_available p);
    (if 0 <? n then drain fuel else mret tt) ;;
    c ← self;
    if _reuse c && _canReuse c then mret tt
    else
      p ← client;
      call (cl_stop p) ;;
      (if negb preserveClient then assign_client None else mret tt) ;;
      c ← self;
      match _tcpDeprecated c with
      | Some q =>
          become (set_transportTraits None) ;;
          become (set_tcpDeprecated None) ;;
          sp_drop (Some q)
      | None => mret tt
      end
  else mret tt.

Definition end_ (fuel : nat) : T unit := disconnect fuel false ;; clear.

(** The body of the destructor, and then the members. *)
Definition HTTPClient_delete : T unit :=
  c ← self;
  (match _client c with Some p => call (cl_stop p) | None => mret tt end) ;;
  c ← self;
  become (set_currentHeaders None) ;;
  become (set_client None) ;; sp_drop (_client c) ;;
  become (set_tcpDeprecated None) ;; sp_drop (_tcpDeprecated c) ;;
  become (set_transportTraits None).

(** *** begin *)

(** The part of beginInternal after the protocol. *)
Definition parse_host (url : list Z) : T unit :=
  let index := indexOf_char url 47 0 in
  let host := substring url 0 (to_uint index) in
  let url := remove url 0 (to_uint index) in
  let index := indexOf_char host 64 0 in
  host ← (if 0 <=? index then
            let auth := substring host 0 (to_uint index) in
            become (set_base64Authorization (base64_encode auth)) ;;
            mret (remove host 0 (to_uint (index + 1)))
          else mret host);
  let index := indexOf_char host 58 0 in
  (if 0 <=? index then
     become (set_host (substring host 0 (to_uint index))) ;;
     let host := remove host 0 (to_uint (index + 1)) in
     become (set_port (to_ushort (toInt host)))
   else become (set_host host)) ;;
  become (set_uri url).

Definition beginInternal (url expectedProtocol : list Z) : T bool :=
  clear ;;
  let index := indexOf_char url 58 0 in
  if index <? 0 then mret false
  else
    let protocol := substring url 0 (to_uint index) in
    become (set_protocol protocol) ;;
    if bool_decide (protocol ≠ expectedProtocol) then mret false
    else parse_host (remove url 0 (to_uint (index + 3))) ;; mret true.

(** What begin with a client does first: leave the deprecated interface. *)
Definition leave_deprecated (fuel : nat) : T unit :=
  c ← self;
  if nonnull (_tcpDeprecated c) then become (set_canReuse false) ;; end_ fuel else mret tt.

(** What the deprecated begin does first. *)
Definition leave_client (fuel : nat) : T unit :=
  c ← self;
  if nonnull (_client c) && negb (nonnull (_tcpDeprecated c))
  then become (set_canReuse false) ;; end_ fuel else mret tt.

(** [begin(client, url)]; the parameter owns what it points to, and drops it at
    the end. *)
Definition begin_client_url (fuel : nat) (p : option Z) (url : list Z) : T bool :=
  leave_deprecated fuel ;;
  assign_client p ;;
  let index := indexOf_char url 58 0 in
  r ← (if index <? 0 then mret false
       else
         let protocol := substring url 0 (to_uint index) in
         if bool_decide (protocol ≠ bytes_of "http"%string) && bool_decide (protocol ≠ bytes_of "https"%string)
         then mret false
         else
           become (set_port (if bool_decide (protocol = bytes_of "https"%string) then 443 else 80)) ;;
           beginInternal url protocol);
  sp_drop p ;;
  mret r.

Definition begin_client (fuel : nat) (p : option Z) (host : list Z) (port : Z) (uri : list Z)
    (https : bool) : T bool :=
  leave_deprecated fuel ;;
  assign_client p ;;
  clear ;;
  become (set_host host) ;;
  become (set_port port) ;;
  become (set_uri uri) ;;
  become (set_protocol (if https then bytes_of "https"%string else bytes_of "http"%string)) ;;
  sp_drop p ;;
  mret true.

Definition begin_url_ca (fuel : nat) (url : list Z) (CAcert : option TlsClient.cstr) : T bool :=
  leave_client fuel ;;
  become (set_port 443) ;;
  ok ← beginInternal url (bytes_of "https"%string);
  if negb ok then mret false
  else
    become (set_secure true) ;;
    become (set_transportTraits (Some (TLSTraits CAcert None None))) ;;
    mret true.

Definition begin_url (fuel : nat) (url : list Z) : T bool :=
  leave_client fuel ;;
  become (set_port 80) ;;
  ok ← beginInternal url (bytes_of "http"%string);
  if negb ok then begin_url_ca fuel url None
  else become (set_transportTraits (Some PlainTraits)) ;; mret true.

Definition begin_host (fuel : nat) (host : list Z) (port : Z) (uri : list Z) : T bool :=
  leave_client fuel ;;
  clear ;;
  become (set_host host) ;;
  become (set_port port) ;;
  become (set_uri uri) ;;
  become (set_transportTraits (Some PlainTraits)) ;;
  mret true.

(** [begin(host, port, uri, CAcert, cli_cert, cli_key)]; without the last two
    they are null. *)
Definition begin_host_certs (fuel : nat) (host : list Z) (port : Z) (uri : list Z)
    (CAcert cli_cert cli_key : option TlsClient.cstr) : T bool :=
  leave_client fuel ;;
  clear ;;
  become (set_host host) ;;
  become (set_port port) ;;
  become (set_uri uri) ;;
  n ← lift (strlen (TlsClient.c_str <$> CAcert));
  if n =? 0 then mret false
  else
    become (set_secure true) ;;
    become (set_transportTraits (Some (TLSTraits CAcert cli_cert cli_key))) ;;
    mret true.

Definition begin_host_ca (fuel : nat) (host : list Z) (port : Z) (uri : list Z)
    (CAcert : option TlsClient.cstr) : T bool := begin_host_certs fuel host port uri CAcert None None.

(** *** Settings *)

Definition setReuse (reuse : bool) : T unit := become (set_reuse reuse).
Definition setUserAgent (userAgent : list Z) : T unit := become (set_userAgent userAgent).

Definition setAuthorization_user (user password : option (list Z)) : T unit :=
  match user, password with
  | Some user, Some password =>
      let auth := user +s bytes_of ":"%string +s password in
      become (set_base64Authorization (base64_encode auth))
  | _, _ => mret tt
  end.

Definition setAuthorization (auth : option (list Z)) : T unit :=
  match auth with Some auth => become (set_base64Authorization auth) | None => mret tt end.

Definition setConnectTimeout (connectTimeout : Z) : T unit :=
  become (set_connectTimeout connectTimeout).

Definition setTimeout (timeout : Z) : T unit :=
  become (set_tcpTimeout timeout) ;;
  b ← connected;
  if (b : bool) then p ← client; call (cl_setTimeout p ((timeout + 500) / 1000)) else mret tt.

Definition useHTTP10 (useHTTP10 : bool) : T unit :=
  become (set_useHTTP10 useHTTP10) ;; become (set_reuse (negb useHTTP10)).

(** *** Headers of the request *)

Definition addHeader (name value : list Z) (first replace : bool) : T unit :=
  c ← self;
  if negb (equalsIgnoreCase name (bytes_of "Connection"%string)) &&
     negb (equalsIgnoreCase name (bytes_of "User-Agent"%string)) &&
     negb (equalsIgnoreCase name (bytes_of "Host"%string)) &&
     negb (equalsIgnoreCase name (bytes_of "Authorization"%string) &&
           truth (len (_base64Authorization c)))
  then
    let headerLine := name +s bytes_of ": "%string in
    (if replace then
       let headerStart := indexOf (_headers c) headerLine in
       if negb (headerStart =? -1) then
         let headerEnd := indexOf_char (_headers c) 10 (to_uint headerStart) in
         become (set_headers (substring (_headers c) 0 (to_uint headerStart)
                                +s substring_from (_headers c) (to_uint (headerEnd + 1))))
       else mret tt
     else mret tt) ;;
    let headerLine := headerLine +s value +s crlf in
    c ← self;
    if first then become (set_headers (headerLine +s _headers c))
    else become (set_headers (_headers c +s headerLine))
  else mret tt.

(** *** Headers of the response *)

Definition header_at (i : Z) : T RequestArgument :=
  c ← self;
  lift (match _currentHeaders c with Some l => arr_get l i | None => UB NullPointer end).

Definition header_set (i : Z) (h : RequestArgument) : T unit :=
  c ← self;
  l ← lift (match _currentHeaders c with Some l => arr_set l i h | None => UB NullPointer end);
  become (set_currentHeaders (Some l)).

Definition collectHeaders (headerKeys : list (list Z)) (headerKeysCount : Z) : T unit :=
  become (set_headerKeysCount headerKeysCount) ;;
  become (set_currentHeaders (Some (replicate (Z.to_nat headerKeysCount) (mkArgument [] [])))) ;;
  for_loop (Z.to_nat headerKeysCount) 0 (λ i,
    k ← lift (arr_get headerKeys i);
    h ← header_at i;
    header_set i (mkArgument k (value h))).

Fixpoint header_loop (n : nat) (i : Z) (name : list Z) : T (list Z) :=
  match n with
  | O => mret []
  | S n =>
      h ← header_at i;
      if bool_decide (key h = name) then mret (value h) else header_loop n (i + 1) name
  end.

Definition header (name : list Z) : T (list Z) :=
  c ← self; header_loop (Z.to_nat (_headerKeysCount c)) 0 name.

Definition header_index (i : Z) : T (list Z) :=
  c ← self;
  if i <? _headerKeysCount c then h ← header_at i; mret (value h) else mret [].

Definition headerName (i : Z) : T (list Z) :=
  c ← self;
  if i <? _headerKeysCount c then h ← header_at i; mret (key h) else mret [].

Definition headers : T Z := c ← self; mret (to_int (_headerKeysCount c)).

Fixpoint hasHeader_loop (n : nat) (i : Z) (name : list Z) : T bool :=
  match n with
  | O => mret false
  | S n =>
      h ← header_at i;
      if bool_decide (key h = name) && (0 <? len (value h)) then mret true
      else hasHeader_loop n (i + 1) name
  end.

Definition hasHeader (name : list Z) : T bool :=
  c ← self; hasHeader_loop (Z.to_nat (_headerKeysCount c)) 0 name.

(** *** Connection *)

Definition returnError (error : Z) : T Z :=
  (if error <? 0 then
     b ← connected;
     if (b : bool) then p ← client; call (cl_stop p) else mret tt
   else mret tt) ;;
  mret error.

(** Makes the client of the transport traits, when there is none. *)
Definition make_client : T unit :=
  c ← self;
  match _transportTraits c, _client c with
  | Some t, None =>
      p ← create t;
      become (set_tcpDeprecated (Some p)) ;;
      sp_drop (_tcpDeprecated c) ;;
      assign_client (Some p)
  | _, _ => mret tt
  end.

Definition connect (fuel : nat) : T bool :=
  b ← connected;
  if (b : bool) then drain fuel ;; mret true
  else
    make_client ;;
    c ← self;
    match _client c with
    | None => mret false
    | Some p =>
        r ← call (cl_connect p (c_string (_host c)) (_port c) (_connectTimeout c));
        if r <? 0 then mret false
        else
          call (cl_setTimeout p ((_tcpTimeout c + 500) / 1000)) ;;
          ok ← match _tcpDeprecated c with
               | Some _ =>
                   t ← lift (match _transportTraits c with
                             | Some t => Ok t | None => UB NullPointer end);
                   verify t (Some p)
               | None => mret true
               end;
          if negb ok then call (cl_stop p) ;; mret false else connected
    end.

(** The text of the request up to the authorization, and the authorization. *)
Definition request_header (c : HTTPClient) (type : list Z) : list Z :=
  let header := type +s bytes_of " "%string +s _uri c +s bytes_of " HTTP/1."%string in
  let header := header +s (if _useHTTP10 c then bytes_of "0"%string else bytes_of "1"%string) in
  let header := header +s (crlf +s bytes_of "Host: "%string +s _host c) in
  let header := if negb (_port c =? 80) && negb (_port c =? 443)
                then header +s bytes_of ":"%string +s String_of (_port c) else header in
  let header := header +s (crlf +s bytes_of "User-Agent: "%string +s _userAgent c
                             +s (crlf +s bytes_of "Connection: "%string)) in
  let header := header +s (if _reuse c then bytes_of "keep-alive"%string else bytes_of "close"%string) in
  let header := header +s crlf in
  if negb (_useHTTP10 c)
  then header +s (bytes_of "Accept-Encoding: identity;q=1,chunked;q=0.1,*;q=0"%string +s crlf)
  else header.

Definition authorization (c : HTTPClient) (header : list Z) : list Z :=
  header +s bytes_of "Authorization: Basic "%string +s _base64Authorization c +s crlf.

Definition sendHeader (type : list Z) : T bool :=
  b ← connected;
  if negb b then mret false
  else
    c ← self;
    let header := request_header c type in
    header ← (if truth (len (_base64Authorization c)) then
                become (set_base64Authorization (replace (_base64Authorization c) [10] [])) ;;
                c ← self; mret (authorization c header)
              else mret header);
    c ← self;
    let header := header +s (_headers c +s crlf) in
    p ← client;
    n ← call (cl_write p (c_string header) (len header));
    mret (n =? len header).

(** *** The response *)

(** [for(i) if(_currentHeaders[i].key.equalsIgnoreCase(headerName)) ...] *)
Fixpoint keep_header (n : nat) (i : Z) (headerName headerValue : list Z) : T unit :=
  match n with
  | O => mret tt
  | S n =>
      h ← header_at i;
      if equalsIgnoreCase (key h) headerName
      then header_set i (mkArgument (key h) headerValue)
      else keep_header n (i + 1) headerName headerValue
  end.

(** A line of the response; the result is the new transferEncoding. *)
Definition take_line (headerLine transferEncoding : list Z) : T (list Z) :=
  if startsWith headerLine (bytes_of "HTTP/1."%string) then
    c ← self;
    (if _canReuse c then become (set_canReuse (negb (charAt headerLine 7 =? 48))) else mret tt) ;;
    become (set_returnCode
      (to_int (toInt (substring headerLine 9 (to_uint (indexOf_char headerLine 32 9)))))) ;;
    mret transferEncoding
  else if truth (indexOf_char headerLine 58 0) then
    let headerName := substring headerLine 0 (to_uint (indexOf_char headerLine 58 0)) in
    let headerValue :=
      trim (substring_from headerLine (to_uint (indexOf_char headerLine 58 0 + 1))) in
    (if equalsIgnoreCase headerName (bytes_of "Content-Length"%string)
     then become (set_size (to_int (toInt headerValue))) else mret tt) ;;
    c ← self;
    (if _canReuse c && equalsIgnoreCase headerName (bytes_of "Connection"%string) then
       if (0 <=? indexOf headerValue (bytes_of "close"%string)) &&
          (indexOf headerValue (bytes_of "keep-alive"%string) <? 0)
       then become (set_canReuse false) else mret tt
     else mret tt) ;;
    keep_header (Z.to_nat (_headerKeysCount c)) 0 headerName headerValue ;;
    mret (if equalsIgnoreCase headerName (bytes_of "Transfer-Encoding"%string)
          then headerValue else transferEncoding)
  else mret transferEncoding.

(** The empty line that ends the header. *)
Definition end_of_header (transferEncoding : list Z) : T Z :=
  if 0 <? len transferEncoding then
    if equalsIgnoreCase transferEncoding (bytes_of "chunked"%string) then
      become (set_transferEncoding HTTPC_TE_CHUNKED) ;;
      c ← self;
      mret (if truth (_returnCode c) then _returnCode c else HTTPC_ERROR_NO_HTTP_SERVER)
    else mret HTTPC_ERROR_ENCODING
  else
    become (set_transferEncoding HTTPC_TE_IDENTITY) ;;
    c ← self;
    mret (if truth (_returnCode c) then _returnCode c else HTTPC_ERROR_NO_HTTP_SERVER).

Fixpoint response_loop (fuel : nat) (transferEncoding : list Z) (lastDataTime : Z) : T Z :=
  match fuel with
  | O => no_fuel
  | S fuel =>
      b ← connected;
      if negb b then mret HTTPC_ERROR_CONNECTION_LOST
      else
        p ← client;
        n ← call (cl_available p);
        if 0 <? to_size n then
          line ← call (cl_readStringUntil p 10);
          let headerLine := trim line in
          lastDataTime ← call millis;
          transferEncoding ← take_line headerLine transferEncoding;
          if bool_decide (headerLine = []) then end_of_header transferEncoding
          else response_loop fuel transferEncoding lastDataTime
        else
          now ← call millis;
          c ← self;
          if _tcpTimeout c <? to_uint (now - lastDataTime) then mret HTTPC_ERROR_READ_TIMEOUT
          else call (delay 10) ;; response_loop fuel transferEncoding lastDataTime
  end.

Definition handleHeaderResponse (fuel : nat) : T Z :=
  b ← connected;
  if negb b then mret HTTPC_ERROR_NOT_CONNECTED
  else
    clear ;;
    c ← self;
    become (set_canReuse (_reuse c)) ;;
    become (set_transferEncoding HTTPC_TE_IDENTITY) ;;
    lastDataTime ← call millis;
    response_loop fuel [] lastDataTime.

(** *** Copying a body

    What sendRequest and writeToStreamDataBlock do with the bytes they have
    read into [buff]: they write them, try once again to write what is missing,
    and look at the error of the writer. [None] is a failure, or else the new
    [bytesWritten]. *)
Definition write_out (write : ptr → Z → M W Z) (getWriteError : M W Z) (clearWriteError : M W unit)
    (buff : list Z) (readBytes bytesRead bytesWritten : Z) : M W (option Z) :=
  n ← write (Ptr buff 0) (to_size bytesRead);
  let bytesWrite := to_int n in
  bytesWritten ← lift (bytesWritten +i bytesWrite);
  r ← (if negb (bytesWrite =? bytesRead) then
         e ← getWriteError;
         (if truth e then clearWriteError else mret tt) ;;
         delay 1 ;;
         leftBytes ← lift (readBytes +i - bytesWrite);
         n ← write (Ptr buff bytesWrite) (to_size leftBytes);
         bytesWritten ← lift (bytesWritten +i to_int n);
         mret (if negb (to_int n =? leftBytes) then None else Some bytesWritten)
       else mret (Some bytesWritten));
  match r with
  | None => mret None
  | Some bytesWritten =>
      e ← getWriteError;
      mret (if truth e then None else Some bytesWritten)
  end.

(** [min(available, len, buff_size)], where [len] counts when it is positive. *)
Definition piece_size (sizeAvailable len buff_size : Z) : Z :=
  let readBytes := if (0 <? len) && (len <? sizeAvailable) then len else sizeAvailable in
  if buff_size <? readBytes then buff_size else readBytes.

Definition block_size (len : Z) : Z :=
  if (0 <? len) && (len <? HTTP_TCP_BUFFER_SIZE) then len else HTTP_TCP_BUFFER_SIZE.

(** The loop of writeToStreamDataBlock: bytesWritten, or None when it returns
    HTTPC_ERROR_STREAM_WRITE. *)
Fixpoint block_loop (fuel : nat) (stream : Stream) (buff_size : Z) (buff : list Z)
    (len bytesWritten : Z) : T (option Z) :=
  match fuel with
  | O => no_fuel
  | S fuel =>
      b ← connected;
      if b && ((0 <? len) || (len =? -1)) then
        p ← client;
        n ← call (cl_available p);
        let sizeAvailable := to_size n in
        if truth sizeAvailable then
          let readBytes := piece_size (to_int sizeAvailable) len buff_size in
          if readBytes =? 0 then mret (Some bytesWritten)
          else
            '(n, bs) ← call (cl_readBytes p (to_size readBytes));
            buff ← lift (store_bytes buff 0 bs);
            r ← call (write_out (st_write stream) (st_getWriteError stream)
                        (st_clearWriteError stream) buff readBytes (to_int n) bytesWritten);
            match r with
            | None => mret None
            | Some bytesWritten =>
                len ← lift (if 0 <? len then len +i - readBytes else Ok len);
                call (delay 0) ;;
                block_loop fuel stream buff_size buff len bytesWritten
            end
        else call (delay 1) ;; block_loop fuel stream buff_size buff len bytesWritten
      else mret (Some bytesWritten)
  end.

Definition writeToStreamDataBlock (fuel : nat) (stream : Stream) (size : Z) : T Z :=
  let buff_size := block_size size in
  b ← call (malloc (to_size buff_size));
  match b with
  | None => mret HTTPC_ERROR_TOO_LESS_RAM
  | Some (blk, buff) =>
      r ← block_loop fuel stream buff_size buff size 0;
      call (free blk) ;;
      mret (match r with
            | None => HTTPC_ERROR_STREAM_WRITE
            | Some bytesWritten =>
                if (0 <? size) && negb (size =? bytesWritten)
                then HTTPC_ERROR_STREAM_WRITE else bytesWritten
            end)
  end.

(** The chunks: an error, or what was written. *)
Fixpoint chunk_loop (fuel : nat) (stream : Stream) (size ret : Z) : T (Z + Z) :=
  match fuel with
  | O => no_fuel
  | S n =>
      b ← connected;
      if negb b then mret (inl HTTPC_ERROR_CONNECTION_LOST)
      else
        p ← client;
        chunkHeader ← call (cl_readStringUntil p 10);
        if len chunkHeader <=? 0 then mret (inl HTTPC_ERROR_READ_TIMEOUT)
        else
          let chunkHeader := trim chunkHeader in
          let len := to_int (to_uint (strtol 16 chunkHeader)) in
          size ← lift (size +i len);
          if 0 <? len then
            r ← writeToStreamDataBlock fuel stream len;
            if r <? 0 then mret (inl r)
            else
              ret ← lift (ret +i r);
              p ← client;
              '(trailing_seq_len, bs) ← call (cl_readBytes p 2);
              if negb (trailing_seq_len =? 2) then mret (inl HTTPC_ERROR_READ_TIMEOUT)
              else
                ok ← lift (match bs with
                           | b0 :: b1 :: _ => Ok ((b0 =? 13) && (b1 =? 10))
                           | _ => UB Uninitialised end);
                if negb ok then mret (inl HTTPC_ERROR_READ_TIMEOUT)
                else call (delay 0) ;; chunk_loop n stream size ret
          else
            c ← self;
            (if _size c <=? 0 then become (set_size size) else mret tt) ;;
            c ← self;
            mret (if negb (ret =? _size c) then inl HTTPC_ERROR_STREAM_WRITE else inr ret)
  end.

Definition writeToStream (fuel : nat) (stream : option Stream) : T Z :=
  match stream with
  | None => returnError HTTPC_ERROR_NO_STREAM
  | Some stream =>
      b ← connected;
      if negb b then returnError HTTPC_ERROR_NOT_CONNECTED
      else
        c ← self;
        r ← match _transferEncoding c with
            | HTTPC_TE_IDENTITY =>
                ret ← writeToStreamDataBlock fuel stream (_size c);
                mret (if ret <? 0 then inl ret else inr ret)
            | HTTPC_TE_CHUNKED => chunk_loop fuel stream 0 0
            end;
        match r with
        | inl e => returnError e
        | inr ret => disconnect fuel true ;; mret ret
        end
  end.

Definition getString (fuel : nat) : T (list Z) :=
  sstring ← call sstring_new;
  c ← self;
  ok ← (if truth (_size c) then
          n ← lift (_size c +i 1);
          call (sstring_reserve sstring (to_uint n))
        else mret true);
  if negb ok then mret []
  else writeToStream fuel (Some sstring) ;; call (sstring_text sstring).

(** *** Requests *)

Definition sendRequest (fuel : nat) (type : list Z) (payload : option ptr) (size : Z) : T Z :=
  ok ← connect fuel;
  if negb ok then returnError HTTPC_ERROR_CONNECTION_REFUSED
  else
    (if nonnull payload && (0 <? size)
     then addHeader (bytes_of "Content-Length"%string) (String_of size) false true else mret tt) ;;
    ok ← sendHeader type;
    if negb ok then returnError HTTPC_ERROR_SEND_HEADER_FAILED
    else
      ok ← match payload with
           | Some payload =>
               if 0 <? size then
                 p ← client; n ← call (cl_write p payload size); mret (n =? size)
               else mret true
           | None => mret true
           end;
      if negb ok then returnError HTTPC_ERROR_SEND_PAYLOAD_FAILED
      else r ← handleHeaderResponse fuel; returnError r.

Definition sendRequest_string (fuel : nat) (type payload : list Z) : T Z :=
  sendRequest fuel type (Some (c_string payload)) (len payload).

Definition GET (fuel : nat) : T Z := sendRequest fuel (bytes_of "GET"%string) None 0.
Definition POST (fuel : nat) (payload : option ptr) (size : Z) : T Z :=
  sendRequest fuel (bytes_of "POST"%string) payload size.
Definition POST_string (fuel : nat) (payload : list Z) : T Z :=
  POST fuel (Some (c_string payload)) (len payload).
Definition PATCH (fuel : nat) (payload : option ptr) (size : Z) : T Z :=
  sendRequest fuel (bytes_of "PATCH"%string) payload size.
Definition PATCH_string (fuel : nat) (payload : list Z) : T Z :=
  PATCH fuel (Some (c_string payload)) (len payload).
Definition PUT (fuel : nat) (payload : option ptr) (size : Z) : T Z :=
  sendRequest fuel (bytes_of "PUT"%string) payload size.
Definition PUT_string (fuel : nat) (payload : list Z) : T Z :=
  PUT fuel (Some (c_string payload)) (len payload).

(** The loop of sendRequest over a stream, likewise. *)
Fixpoint upload_loop (fuel : nat) (stream : Stream) (buff_size : Z) (buff : list Z)
    (len bytesWritten : Z) : T (option Z) :=
  match fuel with
  | O => no_fuel
  | S fuel =>
      b ← connected;
      b ← (if (b : bool) then n ← call (st_available stream); mret (-1 <? n) else mret false);
      if b && ((0 <? len) || (len =? -1)) then
        sizeAvailable ← call (st_available stream);
        if truth sizeAvailable then
          let readBytes := piece_size sizeAvailable len buff_size in
          '(n, bs) ← call (st_readBytes stream (to_size readBytes));
          buff ← lift (store_bytes buff 0 bs);
          p ← client;
          r ← call (write_out (cl_write p) (cl_getWriteError p) (cl_clearWriteError p)
                      buff readBytes (to_int n) bytesWritten);
          match r with
          | None => mret None
          | Some bytesWritten =>
              len ← lift (if 0 <? len then len +i - readBytes else Ok len);
              call (delay 0) ;;
              upload_loop fuel stream buff_size buff len bytesWritten
          end
        else call (delay 1) ;; upload_loop fuel stream buff_size buff len bytesWritten
      else mret (Some bytesWritten)
  end.

Definition sendRequest_stream (fuel : nat) (type : list Z) (stream : option Stream) (size : Z)
  : T Z :=
  match stream with
  | None => returnError HTTPC_ERROR_NO_STREAM
  | Some stream =>
      ok ← connect fuel;
      if negb ok then returnError HTTPC_ERROR_CONNECTION_REFUSED
      else
        (if 0 <? size
         then addHeader (bytes_of "Content-Length"%string) (String_of size) false true else mret tt) ;;
        ok ← sendHeader type;
        if negb ok then returnError HTTPC_ERROR_SEND_HEADER_FAILED
        else
          let len := if to_int size =? 0 then -1 else to_int size in
          let buff_size := block_size len in
          b ← call (malloc (to_size buff_size));
          match b with
          | None => returnError HTTPC_ERROR_TOO_LESS_RAM
          | Some (blk, buff) =>
              r ← upload_loop fuel stream buff_size buff len 0;
              call (free blk) ;;
              match r with
              | None => returnError HTTPC_ERROR_SEND_PAYLOAD_FAILED
              | Some bytesWritten =>
                  if truth size && negb (to_int size =? bytesWritten)
                  then returnError HTTPC_ERROR_SEND_PAYLOAD_FAILED
                  else r ← handleHeaderResponse fuel; returnError r
              end
          end
  end.

Definition getSize : T Z := c ← self; mret (_size c).

(** The object of the connection; getStream gives the static, empty TCPClient
    when there is none. *)
Definition getStreamPtr : T (option Z) :=
  b ← connected; if (b : bool) then p ← client; mret (Some p) else mret None.

Definition getStream : T (option Z) := getStreamPtr.

End HTTPClient.

Definition errorToString (error : Z) : list Z :=
  if error =? HTTPC_ERROR_CONNECTION_REFUSED then bytes_of "connection refused"%string
  else if error =? HTTPC_ERROR_SEND_HEADER_FAILED then bytes_of "send header failed"%string
  else if error =? HTTPC_ERROR_SEND_PAYLOAD_FAILED then bytes_of "send payload failed"%string
  else if error =? HTTPC_ERROR_NOT_CONNECTED then bytes_of "not connected"%string
  else if error =? HTTPC_ERROR_CONNECTION_LOST then bytes_of "connection lost"%string
  else if error =? HTTPC_ERROR_NO_STREAM then bytes_of "no stream"%string
  else if error =? HTTPC_ERROR_NO_HTTP_SERVER then bytes_of "no HTTP server"%string
  else if error =? HTTPC_ERROR_TOO_LESS_RAM then bytes_of "too less ram"%string
  else if error =? HTTPC_ERROR_ENCODING then bytes_of "Transfer-Encoding not supported"%string
  else if error =? HTTPC_ERROR_STREAM_WRITE then bytes_of "Stream write error"%string
  else if error =? HTTPC_ERROR_READ_TIMEOUT then bytes_of "read Timeout"%string
  else [].

End Http.
