(* ===== verification/HttpSim.v ===== *)
(** * A network to run the HTTP client on

    A concrete instance of the class of Http.v: one connection, with the bytes
    that will be received, at most five of them at a time, the bytes sent, those
    written to a stream, and what the server answers to what it has been sent. *)

From stdpp Require Import gmap.
From S2P Require Import Prelude CSem Numerals ArduinoString Lwip Http.

Record net : Type := Net
  { n_open : bool; n_in : list Z; n_sent : list Z; n_written : list Z; n_clock : Z; n_next : Z }.

Definition n_read (n : Z) : M net (Z * list Z) := λ w,
  let bs := take (Z.to_nat n) (n_in w) in
  Ok ((len bs, bs), Net (n_open w) (drop (Z.to_nat n) (n_in w)) (n_sent w) (n_written w)
                      (n_clock w) (n_next w)).

(** Up to and without the character, or all there is. *)
Fixpoint until (c : Z) (l : list Z) : list Z * list Z :=
  match l with
  | [] => ([], [])
  | x :: r => if x =? c then ([], r) else let '(a, b) := until c r in (x :: a, b)
  end.

Definition n_until (c : Z) : M net (list Z) := λ w,
  let '(a, b) := until c (n_in w) in
  Ok (a, Net (n_open w) b (n_sent w) (n_written w) (n_clock w) (n_next w)).

Definition n_send (answer : list Z → list Z) (p : ptr) (n : Z) : M net Z := λ w,
  match load_bytes (obj p) (off p) n with
  | Ok bs => Ok (n, Net (n_open w) (n_in w ++ answer (n_sent w ++ bs)) (n_sent w ++ bs)
                      (n_written w) (n_clock w) (n_next w))
  | UB u => UB u | NoFuel => NoFuel end.

Definition n_write (p : ptr) (n : Z) : M net Z := λ w,
  match load_bytes (obj p) (off p) n with
  | Ok bs => Ok (n, Net (n_open w) (n_in w) (n_sent w) (n_written w ++ bs) (n_clock w) (n_next w))
  | UB u => UB u | NoFuel => NoFuel end.

Definition n_set_open (b : bool) : M net unit :=
  modify (λ w, Net b (n_in w) (n_sent w) (n_written w) (n_clock w) (n_next w)).
Definition n_wait (t : Z) : M net unit :=
  modify (λ w, Net (n_open w) (n_in w) (n_sent w) (n_written w) (n_clock w + t) (n_next w)).
Definition n_fresh : M net Z := λ w,
  Ok (n_next w, Net (n_open w) (n_in w) (n_sent w) (n_written w) (n_clock w) (n_next w + 1)).

Definition http_net (answer : list Z → list Z) : Http.HttpNet net :=
  {| Http.cl_new _ := n_fresh; Http.cl_delete _ := mret tt;
     Http.cl_connect _ _ _ _ := n_set_open true ;; mret 1;
     Http.cl_connected _ := gets (λ w, Z.b2z (n_open w));
     Http.cl_available _ := gets (λ w, Z.min 5 (len (n_in w)));
     Http.cl_read _ := '(n, bs) ← n_read 1; mret (match bs with b :: _ => b | [] => -1 end);
     Http.cl_write _ := n_send answer; Http.cl_stop _ := n_set_open false;
     Http.cl_setTimeout _ _ := mret tt; Http.cl_readStringUntil _ := n_until;
     Http.cl_readBytes _ := n_read; Http.cl_getWriteError _ := mret 0;
     Http.cl_clearWriteError _ := mret tt; Http.cl_setCACert _ _ := mret tt;
     Http.cl_setCertificate _ _ := mret tt; Http.cl_setPrivateKey _ _ := mret tt;
     Http.Stream := unit; Http.st_available _ := gets (λ w, len (n_in w));
     Http.st_readBytes _ := n_read; Http.st_write _ := n_write; Http.st_getWriteError _ := mret 0;
     Http.st_clearWriteError _ := mret tt; Http.sstring_new := mret tt;
     Http.sstring_reserve _ _ := mret true; Http.sstring_text _ := gets n_written;
     Http.millis := gets (λ w, to_uint (n_clock w)); Http.delay := n_wait;
     Http.malloc n := mret (Some (0, replicate (Z.to_nat n) 0)); Http.free _ := mret tt;
     Http.base64_encode l := l |}.

#[export] Instance quiet_net : Http.HttpNet net := http_net (λ _, []).

#[export] Instance devices : Http.HttpConfig := {| Http.FEMBED_PLATFORM := false |}.
#[export] Existing Instance plain_string.
#[export] Existing Instance esp32.

Import Http.

Definition lines (l : list String.string) : list Z := concat (map (λ s, bytes_of s ++ crlf) l).

Definition idle (input : list Z) : shared net := mkShared ∅ (Net false input [] [] 0 0).

(** A page in two chunks: the request, the result and the page. *)
Definition exchange : outcome (list Z * Z * list Z) :=
  '(r, (c, w)) ←
    (begin_url 50 (bytes_of "http://me@host:8080/page"%string) ;;
     GET 50;;  getString 50) (HTTPClient_new, idle (lines
       ["HTTP/1.1 200 OK"; "Transfer-Encoding: chunked"; ""; "6"; "abcdef"; "3"; "ghi"; "0"; ""]%string));
  Ok (n_sent (under w), _returnCode c, r).

Example get_page : exchange =
  Ok (lines ["GET /page HTTP/1.1"; "Host: host:8080"; "User-Agent: CustomHTTPClient";
             "Connection: keep-alive"; "Accept-Encoding: identity;q=1,chunked;q=0.1,*;q=0";
             "Authorization: Basic me"; ""]%string, 200, bytes_of "abcdefghi"%string).
Proof. vm_compute. reflexivity. Qed.
