(* ===== verification/HttpUrl.v ===== *)
(** * URLs and headers of the HTTP client

    What begin takes from a URL, what addHeader does to the headers, and the
    text of the request. *)

From stdpp Require Import gmap.
From S2P Require Import Prelude CSem Numerals ArduinoString Lwip Http HttpSim.

Module HttpUrl.
Import Http.

(** ** Positions in a string *)
Section Strings.
Context `{ArduinoString} `{HL : !StringLaws}.

Lemma index_first skip c post : c ∉ skip → indexOf_char (skip ++ c :: post) c 0 = len skip.
Proof. apply (index_char [] skip c post). Qed.

Lemma index_first_none s c : c ∉ s → indexOf_char s c 0 = -1.
Proof. apply (index_char_none [] s c). Qed.

Lemma to_uint_len {A} (l : list A) : len l ≤ INT_MAX → to_uint (len l) = len l.
Proof. intros. apply to_uint_id. lia. Qed.

(** The text before and after a position. *)
Lemma substring_front (a b : list Z) : len a ≤ INT_MAX → substring (a ++ b) 0 (to_uint (len a)) = a.
Proof.
  intros Ha. rewrite to_uint_len, substring_take, Z.sub_0_r by lia. by apply take_len_app.
Qed.

Lemma remove_front_app (a b : list Z) n :
  n = len a → len a ≤ INT_MAX → remove (a ++ b) 0 (to_uint n) = b.
Proof. intros -> Ha. rewrite to_uint_len, remove_front by lia. by apply drop_len_app. Qed.

Lemma remove_front_char (a b : list Z) (x : Z) :
  len a < INT_MAX → remove (a ++ x :: b) 0 (to_uint (len a + 1)) = b.
Proof.
  intros Ha. change (x :: b) with ([x] ++ b). rewrite app_assoc.
  apply remove_front_app; rewrite len_app; cbn; lia.
Qed.

End Strings.

(** ** URLs *)

Definition authority (auth : option (list Z)) (host : list Z) (port : option Z) : list Z :=
  match auth with Some a => a ++ [64] | None => [] end ++ host ++
  match port with Some n => [58] ++ dec n | None => [] end.

(** [protocol://auth@host:port/uri] *)
Definition url_of (protocol : list Z) (auth : option (list Z)) (host : list Z) (port : option Z)
    (uri : list Z) : list Z :=
  protocol ++ bytes_of "://"%string ++ authority auth host port ++ uri.

(** The separators are where they mean something. *)
Definition well_formed (auth : option (list Z)) (host : list Z) (port : option Z) (uri : list Z)
  : Prop :=
  (∀ a, auth = Some a → 64 ∉ a ∧ 47 ∉ a) ∧
  (47 ∉ host ∧ 58 ∉ host ∧ 64 ∉ host) ∧
  (∀ n, port = Some n → 0 ≤ n < 65536) ∧
  (∃ path, uri = 47 :: path).

Lemma not_in_dec c n : 0 ≤ n → ¬ 48 ≤ c ≤ 57 → c ∉ dec n.
Proof.
  intros Hn Hc Hx. pose proof (numeral_digits 10 n ltac:(lia) Hn) as HF.
  rewrite Forall_forall in HF. specialize (HF c (proj1 (list_elem_of_In _ _) Hx)).
  unfold is_digit, digit_of, isdigit in HF.
  destruct (Z.leb_spec 48 c), (Z.leb_spec c 57), (Z.leb_spec 97 c), (Z.leb_spec c 122),
    (Z.leb_spec 65 c), (Z.leb_spec c 90); cbn in HF; lia.
Qed.

Section Begin.
Context `{CImpl} `{ArduinoString} `{HL : !StringLaws} `{HttpConfig} {W : Type} `{HttpNet W}.

(** What parse_host makes of the object. *)
Definition parsed (auth : option (list Z)) (host : list Z) (port : option Z) (uri : list Z)
    (c : HTTPClient) : HTTPClient :=
  set_uri uri (match port with Some n => set_port n | None => id end (set_host host
    (match auth with Some a => set_base64Authorization (base64_encode a) | None => id end c))).

Lemma run_host host port uri c (s : shared W) :
  58 ∉ host → (∀ n, port = Some n → 0 ≤ n < 65536) → len host < INT_MAX →
  (let h := host ++ match port with Some n => [58] ++ dec n | None => [] end in
   let index := indexOf_char h 58 0 in
   (if 0 <=? index then
      become (set_host (substring h 0 (to_uint index))) ;;
      let h := remove h 0 (to_uint (index + 1)) in
      become (set_port (to_ushort (toInt h)))
    else become (set_host h)) ;;
   become (set_uri uri)) (c, s) = Ok (tt, (parsed None host port uri c, s)).
Proof.
  intros Hh Hp Hl. cbv zeta. destruct port as [n|].
  - cbn [app]. rewrite index_first by done. destruct (Z.leb_spec 0 (len host)); [|lia].
    rewrite substring_front, remove_front_char by lia.
    specialize (Hp n eq_refl). pose proof (toInt_dec n [] ltac:(unfold INT_MAX; lia)) as Ed.
    rewrite app_nil_r in Ed. rewrite Ed by done.
    unfold to_ushort. rewrite Z.mod_small by lia. by rewrite run_assoc, !bind_become.
  - rewrite app_nil_r, index_first_none by done. cbn. by rewrite bind_become.
Qed.

Lemma run_parse_host auth host port uri c (s : shared W) :
  well_formed auth host port uri → len (authority auth host port ++ uri) ≤ INT_MAX →
  parse_host (authority auth host port ++ uri) (c, s) =
    Ok (tt, (parsed auth host port uri c, s)).
Proof.
  intros (Ha & (Hh1 & Hh2 & Hh3) & Hp & path & ->) Hl. unfold parse_host. cbv zeta.
  assert (Hd : ∀ c, ¬ 48 ≤ c ≤ 57 → c ≠ 58 →
    c ∉ match port with Some n => [58] ++ dec n | None => [] end).
  { intros x Hx H58. destruct port as [n|]; [|by apply not_elem_of_nil].
    apply not_elem_of_cons. split; [done|]. apply not_in_dec; [|done].
    by destruct (Hp n eq_refl). }
  assert (Hs : 47 ∉ authority auth host port).
  { unfold authority. rewrite !not_elem_of_app. split; [|split; [done|apply Hd; lia]].
    destruct auth as [a|]; [|by apply not_elem_of_nil]. rewrite not_elem_of_app.
    split; [by apply Ha|]. by intros ?%list_elem_of_singleton. }
  rewrite len_app, len_cons in Hl.
  rewrite index_first, substring_front, (remove_front_app _ (47 :: path)) by (done || lia).
  unfold authority in *. rewrite len_app in Hl. destruct auth as [a|]; cbn [app] in *.
  - rewrite !len_app, <-app_assoc in *. cbn [app length] in *. destruct (Ha a eq_refl) as [Ha1 _].
    rewrite index_first by done. destruct (Z.leb_spec 0 (len a)); [|lia].
    rewrite substring_front, remove_front_char by lia.
    rewrite !run_assoc, bind_become, run_bind_ret.
    rewrite run_host; [done|done|done|lia].
  - rewrite len_app in Hl. rewrite (index_first_none _ 64).
    2: { rewrite not_elem_of_app. split; [done|]. apply Hd; lia. }
    cbn [Z.leb Z.compare]. rewrite run_bind_ret. rewrite run_host; [done|done|done|lia].
Qed.

Definition cleared (c : HTTPClient) : HTTPClient :=
  set_headers [] (set_size (-1) (set_returnCode 0 c)).

Lemma run_clear c (s : shared W) : clear (c, s) = Ok (tt, (cleared c, s)).
Proof. unfold clear. by rewrite !bind_become. Qed.

Lemma run_beginInternal protocol auth host port uri c (s : shared W) :
  58 ∉ protocol → well_formed auth host port uri →
  len (url_of protocol auth host port uri) ≤ INT_MAX →
  beginInternal (url_of protocol auth host port uri) protocol (c, s) =
    Ok (true, (parsed auth host port uri (set_protocol protocol (cleared c)), s)).
Proof.
  intros Hp HW Hl. unfold beginInternal. rewrite (run_bind _ _ _ _ _ (run_clear c s)). cbv zeta.
  unfold url_of in *. change (bytes_of "://"%string ++ ?x) with (58 :: 47 :: 47 :: x) in *.
  rewrite len_app, !len_cons in Hl.
  rewrite index_first by done. destruct (Z.ltb_spec (len protocol) 0); [lia|].
  rewrite substring_front by lia. rewrite bind_become.
  rewrite bool_decide_eq_false_2 by (intros E; by destruct E).
  change (protocol ++ 58 :: 47 :: 47 :: ?x) with (protocol ++ [58; 47; 47] ++ x).
  rewrite app_assoc, remove_front_app by (rewrite len_app; cbn; lia).
  rewrite (run_bind _ _ _ _ _ (run_parse_host auth host port uri _ s HW ltac:(lia))). done.
Qed.

(** Another protocol: beginInternal says no, and has cleared the object. *)
Lemma run_beginInternal_other protocol expected auth host port uri c (s : shared W) :
  58 ∉ protocol → protocol ≠ expected → len protocol ≤ INT_MAX →
  beginInternal (url_of protocol auth host port uri) expected (c, s) =
    Ok (false, (set_protocol protocol (cleared c), s)).
Proof.
  intros Hp HN Hl. unfold url_of. change (bytes_of "://"%string ++ ?x) with (58 :: 47 :: 47 :: x).
  unfold beginInternal. rewrite (run_bind _ _ _ _ _ (run_clear c s)). cbv zeta.
  rewrite index_first by done. destruct (Z.ltb_spec (len protocol) 0); [lia|].
  rewrite substring_front by lia. rewrite bind_become. by rewrite bool_decide_eq_true_2.
Qed.

(** What begin(url) makes of an object that has no client of the new interface. *)
Definition scheme (tls : bool) : list Z :=
  if tls then bytes_of "https"%string else bytes_of "http"%string.

Definition begun (tls : bool) (auth : option (list Z)) (host : list Z) (port : option Z)
    (uri : list Z) (c : HTTPClient) : HTTPClient :=
  set_transportTraits (Some (if tls then TLSTraits None None None else PlainTraits))
    (set_secure (tls || _secure c) (parsed auth host port uri (set_protocol (scheme tls)
      (cleared (set_port (if tls then 443 else 80) c))))).

Lemma run_begin_url tls auth host port uri c (s : shared W) fuel :
  well_formed auth host port uri → nonnull (_client c) && negb (nonnull (_tcpDeprecated c)) = false →
  len (url_of (scheme tls) auth host port uri) ≤ INT_MAX →
  begin_url fuel (url_of (scheme tls) auth host port uri) (c, s) =
    Ok (true, (begun tls auth host port uri c, s)).
Proof.
  intros HW Hc Hl. unfold begin_url, leave_client. rewrite run_assoc, bind_self, Hc.
  rewrite run_bind_ret, bind_become. destruct tls; unfold scheme in *.
  - assert (H58 : 58 ∉ bytes_of "https"%string) by decide_by_vm.
    rewrite (run_bind _ _ _ _ _ (run_beginInternal_other (bytes_of "https"%string)
      (bytes_of "http"%string) _ _ _ _ _ s H58 ltac:(decide_by_vm) ltac:(decide_by_vm))).
    cbn [negb]. unfold begin_url_ca, leave_client. rewrite run_assoc, bind_self.
    cbn [_client _tcpDeprecated set_protocol set_headers set_size set_returnCode set_port cleared].
    rewrite Hc, run_bind_ret, bind_become.
    rewrite (run_bind _ _ _ _ _ (run_beginInternal _ _ _ _ _ _ s H58 HW Hl)).
    cbn [negb]. rewrite !bind_become. by destruct auth, port.
  - assert (H58 : 58 ∉ bytes_of "http"%string) by decide_by_vm.
    rewrite (run_bind _ _ _ _ _ (run_beginInternal _ _ _ _ _ _ s H58 HW Hl)).
    cbn [negb]. rewrite !bind_become. by destruct auth, port.
Qed.

End Begin.

(** C28: begin(url) takes a URL apart into what it was made of: the protocol, the credentials
    (in base64), the host, the port or that of the protocol, and the path; and it chooses
    the transport of the protocol. *)
Theorem http_begin_parses `{CImpl} `{ArduinoString} `{!StringLaws} `{HttpConfig} {W} `{HttpNet W}
    tls auth host port uri c (s : shared W) fuel :
  well_formed auth host port uri → _client c = None →
  len (url_of (scheme tls) auth host port uri) ≤ INT_MAX →
  ∃ c', begin_url fuel (url_of (scheme tls) auth host port uri) (c, s) = Ok (true, (c', s)) ∧
    _protocol c' = scheme tls ∧
    _host c' = host ∧ _port c' = default (if tls then 443 else 80) port ∧ _uri c' = uri ∧
    _base64Authorization c' =
      match auth with Some a => base64_encode a | None => _base64Authorization c end ∧
    _transportTraits c' = Some (if tls then TLSTraits None None None else PlainTraits).
Proof.
  intros HW Hc Hl. exists (begun tls auth host port uri c).
  rewrite run_begin_url by (rewrite ?Hc; done). split; [done|]. by destruct auth, port.
Qed.

Lemma http_begin_parses_witness :
  ∃ c', begin_url 5 (bytes_of "https://me:x@host:8443/a?b"%string) (HTTPClient_new, idle [])
      = Ok (true, (c', idle [])) ∧
    _protocol c' = bytes_of "https"%string ∧ _host c' = bytes_of "host"%string ∧
    _port c' = 8443 ∧ _uri c' = bytes_of "/a?b"%string ∧
    _base64Authorization c' = bytes_of "me:x"%string ∧
    _transportTraits c' = Some (TLSTraits None None None).
Proof.
  replace (bytes_of "https://me:x@host:8443/a?b"%string) with
    (url_of (bytes_of "https"%string) (Some (bytes_of "me:x"%string)) (bytes_of "host"%string)
       (Some 8443) (bytes_of "/a?b"%string)) by (vm_compute; reflexivity).
  edestruct (http_begin_parses (W := net) true (Some (bytes_of "me:x"%string)) (bytes_of "host"%string)
    (Some 8443) (bytes_of "/a?b"%string) HTTPClient_new (idle []) 5)
    as (c' & HE & HR).
  - split; [|split; [|split; [|by eexists]]].
    + intros a [= <-]. split; decide_by_vm.
    + repeat split; decide_by_vm.
    + intros n [= <-]. lia.
  - done.
  - by vm_compute.
  - exists c'. split; [exact HE|exact HR].
Defined.

(** ** Headers *)

(** The lines of a list of names and values. *)
Definition line (h : list Z * list Z) : list Z := fst h ++ bytes_of ": "%string ++ snd h ++ crlf.
Definition block (l : list (list Z * list Z)) : list Z := concat (map line l).

(** A header at the front or the end. *)
Definition enter (first : bool) (name value : list Z) (l : list (list Z * list Z))
  : list (list Z * list Z) :=
  if first then (name, value) :: l else l ++ [(name, value)].

(** Setting a name anew: where the old one was there is nothing. *)
Definition put (first : bool) (name value : list Z) (l : list (list Z * list Z))
  : list (list Z * list Z) := enter first name value (filter (λ h, fst h ≠ name) l).

(** The name is found in the line of its header, at its start, and in no other. *)
Definition found_in_place (name : list Z) (h : list Z * list Z) : Prop :=
  ∀ a b, line h = a ++ (name ++ bytes_of ": "%string) ++ b → fst h = name ∧ a = [].

Lemma block_app l1 l2 : block (l1 ++ l2) = block l1 ++ block l2.
Proof. unfold block. by rewrite map_app, concat_app. Qed.

Lemma block_one name value : block [(name, value)] = line (name, value).
Proof. unfold block. cbn. apply app_nil_r. Qed.

(** A text without a line feed that is in a block is in a line of it. *)
Lemma in_a_line k l pre post :
  10 ∉ k → k ≠ [] → block l = pre ++ k ++ post →
  ∃ l1 h l2 a b, l = l1 ++ h :: l2 ∧ line h = a ++ k ++ b ∧ pre = block l1 ++ a ∧
    post = b ++ block l2.
Proof.
  intros H10 Hk. revert pre. induction l as [|h l IH]; intros pre E.
  { cbn in E. symmetry in E. apply app_nil in E as [_ [-> _]%app_nil]. done. }
  change (block (h :: l)) with (line h ++ block l) in E.
  destruct (Nat.le_gt_cases (length (line h)) (length pre)) as [HL|HL].
  - assert (∃ pre', pre = line h ++ pre') as [pre' ->].
    { apply (f_equal (take (length (line h)))) in E. rewrite take_app_length, take_app_le in E by lia.
      exists (drop (length (line h)) pre).
      rewrite <-(take_drop (length (line h)) pre) at 1. by rewrite <-E. }
    rewrite <-app_assoc in E. apply app_inv_head in E.
    destruct (IH pre' E) as (l1 & h' & l2 & a & b & -> & EL & -> & ->).
    exists (h :: l1), h', l2, a, b. repeat split; [done|]. cbn. by rewrite app_assoc.
  - assert (∃ m, line h = pre ++ m ∧ k ++ post = m ++ block l ∧ m ≠ []) as (m & Em & E2 & Hm).
    { exists (drop (length pre) (line h)). apply (f_equal (take (length pre))) in E as E1.
      rewrite take_app_length, take_app_le in E1 by lia.
      assert (EL : line h = pre ++ drop (length pre) (line h)) by
        (rewrite <-(take_drop (length pre) (line h)) at 1; by rewrite E1).
      split; [done|]. split.
      - rewrite EL, <-app_assoc in E. by apply app_inv_head in E.
      - intros E0. apply (f_equal length) in E0. rewrite length_drop in E0. cbn in E0. lia. }
    destruct (Nat.le_gt_cases (length k) (length m)) as [HK|HK].
    + assert (∃ b, m = k ++ b ∧ post = b ++ block l) as (b & -> & ->).
      { exists (drop (length k) m). apply (f_equal (take (length k))) in E2 as E3.
        rewrite take_app_length, take_app_le in E3 by lia.
        assert (EM : m = k ++ drop (length k) m) by
          (rewrite <-(take_drop (length k) m) at 1; by rewrite <-E3).
        split; [done|]. rewrite EM, <-app_assoc in E2. by apply app_inv_head in E2. }
      by exists [], h, l, pre, b.
    + (* the line ends inside the text, so the text has its line feed *)
      destruct H10. assert (EK : m = take (length m) k).
      { apply (f_equal (take (length m))) in E2. rewrite take_app_length, take_app_le in E2 by lia.
        done. }
      assert (H10m : 10 ∈ m).
      { assert (EX : line h = (fst h ++ bytes_of ": "%string ++ snd h ++ [13]) ++ [10]).
        { unfold line, crlf. by rewrite <-!app_assoc. }
        rewrite EX in Em. destruct (exists_last Hm) as (m' & x & ->).
        rewrite (app_assoc pre m') in Em. apply app_inj_tail in Em as [_ <-]. rewrite elem_of_app. right.
        by apply list_elem_of_singleton. }
      rewrite EK in H10m. rewrite <-(take_drop (length m) k). apply elem_of_app. by left.
Qed.

Lemma block_found name l pre post :
  10 ∉ name → Forall (found_in_place name) l →
  block l = pre ++ (name ++ bytes_of ": "%string) ++ post →
  ∃ l1 h l2, l = l1 ++ h :: l2 ∧ fst h = name ∧ pre = block l1.
Proof.
  intros Hn HF E. destruct (in_a_line (name ++ bytes_of ": "%string) l pre post)
    as (l1 & h & l2 & a & b & -> & EL & -> & _); [| |done|].
  - rewrite not_elem_of_app. split; [done|decide_by_vm].
  - by intros [_ E0]%app_nil.
  - rewrite list.Forall_forall in HF. destruct (HF h) with a b as [Hh ->]; [|done|].
    { apply elem_of_app. right. by apply list_elem_of_here. }
    exists l1, h, l2. by rewrite app_nil_r.
Qed.

(** Without the first header of the name, which is the only one. *)
Lemma filter_other (name : list Z) (l : list (list Z * list Z)) :
  Forall (λ h, fst h ≠ name) l → filter (λ h, fst h ≠ name) l = l.
Proof.
  induction l as [|h l IH]; intros HF; [done|].
  rewrite filter_cons_True by by apply Forall_inv in HF. f_equal. apply IH.
  by apply Forall_inv_tail in HF.
Qed.

Lemma other_names (name : list Z) (l1 l2 : list (list Z * list Z)) v :
  NoDup (map fst (l1 ++ (name, v) :: l2)) →
  Forall (λ h, fst h ≠ name) (l1 ++ l2).
Proof.
  rewrite map_app. cbn [map fst]. intros HN. apply list.Forall_forall. intros h Hh <-.
  apply list.NoDup_app in HN as (_ & HD & [Hx _]%list.NoDup_cons).
  apply elem_of_app in Hh as [Hh|Hh]; apply (list_elem_of_fmap_2 fst) in Hh.
  - apply (HD (fst h)); [done|]. by apply list_elem_of_here.
  - by destruct Hx.
Qed.

(** The names that addHeader leaves to the client. *)
Definition reserved `{ArduinoString} (c : HTTPClient) (name : list Z) : bool :=
  equalsIgnoreCase name (bytes_of "Connection"%string) ||
  equalsIgnoreCase name (bytes_of "User-Agent"%string) ||
  equalsIgnoreCase name (bytes_of "Host"%string) ||
  (equalsIgnoreCase name (bytes_of "Authorization"%string) &&
   truth (len (_base64Authorization c))).

Section Headers.
Context `{ArduinoString} `{HL : !StringLaws}.

(** The headers without the one of the name, as addHeader cuts it out. *)
Lemma cut_header name l :
  10 ∉ name → Forall (found_in_place name) l → NoDup (map fst l) →
  Forall (λ h, 10 ∉ snd h) l → len (block l) < INT_MAX →
  (let hs := block l in
   let k := str_add name (bytes_of ": "%string) in
   if negb (indexOf hs k =? -1) then
     str_add (substring hs 0 (to_uint (indexOf hs k)))
       (substring_from hs (to_uint (indexOf_char hs 10 (to_uint (indexOf hs k)) + 1)))
   else hs) = block (filter (λ h, fst h ≠ name) l).
Proof.
  intros Hn HF HD HV HL'. cbv zeta. rewrite !add_app.
  set (k := name ++ bytes_of ": "%string).
  destruct (decide (name ∈ fst <$> l)) as [Hin|Hout].
  - assert (∃ pre post, block l = pre ++ k ++ post) as (pre0 & post0 & E0).
    { apply list_elem_of_fmap in Hin as ([n' v] & Eh & (l1 & l2 & ->)%list_elem_of_split).
      cbn in Eh. subst n'. exists (block l1), (v ++ crlf ++ block l2).
      rewrite block_app. unfold block, k, line. cbn [map concat fst snd]. by rewrite <-!app_assoc. }
    destruct (index_some _ k pre0 post0 E0) as (pre & post & E & _ & Ei). rewrite Ei.
    destruct (Z.eqb_spec (len pre) (-1)); [lia|]. cbn [negb]. clear pre0 post0 E0 Hin.
    destruct (block_found name l pre post Hn HF E) as (l1 & [n' v] & l2 & -> & Hh & ->).
    cbn in Hh. subst n'. pose proof (other_names name l1 l2 v HD) as HO.
    apply list.Forall_app in HV as [_ HV]. apply Forall_inv in HV. cbn in HV.
    assert (EB : block (l1 ++ (name, v) :: l2) = block l1 ++ (k ++ v ++ [13]) ++ 10 :: block l2).
    { rewrite block_app. unfold block, k, line, crlf. cbn [map concat fst snd].
      by rewrite <-!app_assoc. }
    rewrite EB in *. rewrite len_app, len_app, len_cons in HL'.
    rewrite substring_front, to_uint_len, index_char; [| |lia|lia].
    2: { unfold k. rewrite !not_elem_of_app. repeat split; [done|decide_by_vm|done|decide_by_vm]. }
    rewrite to_uint_id, substring_from_drop by lia.
    replace (block l1 ++ (k ++ v ++ [13]) ++ 10 :: block l2)
      with (((block l1 ++ (k ++ v ++ [13])) ++ [10]) ++ block l2) by (by rewrite <-!app_assoc).
    rewrite drop_len_app by (rewrite !len_app; cbn; lia).
    rewrite list.filter_app, filter_cons_False by (cbn; tauto).
    by rewrite <-list.filter_app, filter_other, block_app.
  - rewrite index_none.
    + cbn. rewrite filter_other; [done|]. apply list.Forall_forall. intros h Hh E. apply Hout.
      rewrite <-E. by apply list_elem_of_fmap_2.
    + intros pre post E. destruct (block_found name l pre post Hn HF E) as (l1 & h & l2 & -> & Hh & _).
      apply Hout. rewrite <-Hh. apply list_elem_of_fmap_2. rewrite elem_of_app. right.
      by apply list_elem_of_here.
Qed.

End Headers.

Section AddHeader.
Context `{ArduinoString} `{HL : !StringLaws} {W : Type}.

(** What addHeader can replace: the name is found in its own header only, at the start of it;
    no name is there twice, and no value has a line feed. *)
Record replaceable (name : list Z) (l : list (list Z * list Z)) : Prop :=
  { rp_name : 10 ∉ name; rp_found : Forall (found_in_place name) l; rp_once : NoDup (map fst l);
    rp_values : Forall (λ h, 10 ∉ snd h) l; rp_len : len (block l) < INT_MAX }.

(** The headers that addHeader leaves. *)
Lemma run_addHeader name value first replace l c (s : shared W) :
  _headers c = block l → reserved c name = false → (replace = true → replaceable name l) →
  addHeader name value first replace (c, s) =
    Ok (tt, (set_headers (block ((if replace then put else enter) first name value l)) c, s)).
Proof.
  intros Hc HR Hrep. unfold addHeader. rewrite bind_self.
  unfold reserved in HR. rewrite !orb_false_iff in HR. destruct HR as [[[-> ->] ->] ->]. cbn [negb andb].
  set (i := indexOf (_headers c) (name +s bytes_of ": "%string)%c) in *.
  assert (∃ c', (if replace then if negb (i =? -1) then
       become (set_headers (substring (_headers c) 0 (to_uint i)
         +s substring_from (_headers c) (to_uint (indexOf_char (_headers c) 10 (to_uint i) + 1)))%c)
     else mret tt else mret tt) (c, s) = Ok (tt, (c', s)) ∧
    c' = set_headers (block (if replace then filter (λ h, fst h ≠ name) l else l)) c) as (c' & E & ->).
  { destruct replace; [|exists c; split; [done|rewrite <-Hc; by destruct c]].
    destruct (Hrep eq_refl) as [Hn HF HD HV HL'].
    pose proof (cut_header name l Hn HF HD HV HL') as HC. cbv zeta in HC. rewrite <-Hc in HC. fold i in HC.
    destruct (negb (i =? -1)); [rewrite <-HC; by eexists|]. exists c. split; [done|].
    rewrite <-HC. by destruct c. }
  cbv zeta. rewrite (run_bind _ _ _ _ _ E), bind_self.
  assert (EL : (name +s bytes_of ": "%string +s value +s crlf)%c = line (name, value)).
  { rewrite !add_app. unfold line. cbn [fst snd]. by rewrite <-!app_assoc. }
  assert (EH : ∀ a, _headers (set_headers a c) = a) by done.
  rewrite EL. unfold put, enter. destruct first, replace; unfold become, modify; cbn [fst snd];
    rewrite add_app, EH, <-block_one, <-block_app; done.
Qed.

End AddHeader.

(** C29: addHeader is the update of a finite map that keeps the order: the line of the name is
    taken out and the new one is put at the front or the end; asked not to replace, it leaves the
    others alone; the names the client sends itself are left to it. To replace, the name followed by
    a colon must not occur elsewhere in the headers, as the end of a longer name or in a value, and
    every name is there once, on a line of its own. *)
Theorem http_addHeader_refines `{ArduinoString} `{!StringLaws} {W} name value first replace l c
    (s : shared W) :
  _headers c = block l → (replace = true → replaceable name l) →
  addHeader name value first replace (c, s) =
    Ok (tt, (if reserved c name then c
             else set_headers (block ((if replace then put else enter) first name value l)) c, s)) ∧
  (replace = true → NoDup (map fst (put first name value l))).
Proof.
  intros Hc Hrep. split; [|intros Ht; destruct (Hrep Ht) as [Hn HF HD HV HL]].
  - destruct (reserved c name) eqn:HR; [|by apply run_addHeader].
    unfold addHeader. rewrite bind_self. unfold reserved in HR.
    destruct (equalsIgnoreCase name _), (equalsIgnoreCase name _), (equalsIgnoreCase name _);
      cbn [negb andb orb] in *; try done. by rewrite HR.
  - unfold put, enter.
    assert (HN : name ∉ map fst (filter (λ h, fst h ≠ name) l)).
    { intros (h & Eh & [Hh _]%list_elem_of_filter)%list_elem_of_fmap. by destruct Hh. }
    assert (HF' : NoDup (map fst (filter (λ h, fst h ≠ name) l))).
    { clear -HD. induction l as [|h l IH]; [done|]. cbn [map] in HD.
      apply list.NoDup_cons in HD as [Hx HD]. rewrite filter_cons.
      destruct (decide _); [|by apply IH]. cbn. apply list.NoDup_cons. split; [|by apply IH].
      intros (h' & Eh & [_ Hh]%list_elem_of_filter)%list_elem_of_fmap. apply Hx. rewrite Eh.
      by apply (list_elem_of_fmap_2 fst). }
    destruct first; cbn [map fst].
    + by apply list.NoDup_cons.
    + rewrite map_app. apply list.NoDup_app. split; [done|]. split; [|apply list.NoDup_singleton].
      by intros x Hx ->%list_elem_of_singleton.
Qed.

(** [found_in_place], by trying every position. *)
Definition in_place (name : list Z) (h : list Z * list Z) : bool :=
  forallb (λ i, negb (has_prefix (name ++ bytes_of ": "%string) (drop i (line h))) ||
                (Nat.eqb i 0 && bool_decide (fst h = name)))
    (seq 0 (S (length (line h)))).

Lemma in_place_found name h : in_place name h = true → found_in_place name h.
Proof.
  unfold in_place, found_in_place. intros HF a b E. rewrite forallb_forall in HF.
  specialize (HF (length a)). rewrite E, drop_app_length, has_prefix_spec in HF.
  rewrite bool_decide_eq_true_2 in HF by by apply prefix_app_r. cbn [negb orb] in HF.
  destruct a as [|x a].
  - split; [|done]. cbn in HF. rewrite bool_decide_eq_true in HF. apply HF. by left.
  - cbn [Nat.eqb length andb] in HF. exfalso. enough (false = true) by done. apply HF.
    apply in_seq. rewrite length_app. cbn. lia.
Qed.

Definition some_headers : list (list Z * list Z) :=
  [(bytes_of "Accept"%string, bytes_of "text/html"%string);
   (bytes_of "Content-Type"%string, bytes_of "text/plain"%string)].

Lemma http_addHeader_refines_witness :
  addHeader (bytes_of "Accept"%string) (bytes_of "*/*"%string) true true
    (set_headers (block some_headers) HTTPClient_new, idle []) =
  Ok (tt, (set_headers (lines ["Accept: */*"; "Content-Type: text/plain"]%string) HTTPClient_new,
           idle [])) ∧
  NoDup (map fst (put true (bytes_of "Accept"%string) (bytes_of "*/*"%string) some_headers)).
Proof.
  destruct (http_addHeader_refines (bytes_of "Accept"%string) (bytes_of "*/*"%string) true true
    some_headers (set_headers (block some_headers) HTTPClient_new) (idle [])) as [HE HN].
  - done.
  - intros _. split.
    + decide_by_vm.
    + constructor; [by apply in_place_found|]. constructor; [by apply in_place_found|constructor].
    + decide_by_vm.
    + repeat constructor; decide_by_vm.
    + by vm_compute.
  - split; [|by apply HN]. rewrite HE. vm_compute. reflexivity.
Defined.

(** A name that ends another one: the value of Content-Type is replaced, and there is
    no header Type. *)
Example addHeader_inside_a_name :
  addHeader (bytes_of "Type"%string) (bytes_of "b"%string) false true
    (set_headers (lines ["Content-Type: a"]%string) HTTPClient_new, idle []) =
  Ok (tt, (set_headers (lines ["Content-Type: b"]%string) HTTPClient_new, idle [])).
Proof. vm_compute. reflexivity. Qed.

(** *** The request *)

Section Request.
Context `{CImpl} `{ArduinoString} `{HL : !StringLaws} {W : Type} `{HttpNet W}.

(** The request line and the headers of the client, in their order. *)
Definition request_line (c : HTTPClient) (type : list Z) : list Z :=
  type ++ bytes_of " "%string ++ _uri c ++ bytes_of " HTTP/1."%string ++
  (if _useHTTP10 c then bytes_of "0"%string else bytes_of "1"%string) ++ crlf.

Definition default_headers (c : HTTPClient) : list (list Z * list Z) :=
  [(bytes_of "Host"%string,
    _host c ++ (if (_port c =? 80) || (_port c =? 443) then [] else [58] ++ dec (_port c)));
   (bytes_of "User-Agent"%string, _userAgent c);
   (bytes_of "Connection"%string,
    if _reuse c then bytes_of "keep-alive"%string else bytes_of "close"%string)] ++
  (if _useHTTP10 c then []
   else [(bytes_of "Accept-Encoding"%string, bytes_of "identity;q=1,chunked;q=0.1,*;q=0"%string)]) ++
  (if bool_decide (_base64Authorization c = []) then []
   else [(bytes_of "Authorization"%string,
          bytes_of "Basic "%string ++ _base64Authorization c)]).

Lemma request_header_spec c type :
  0 ≤ _port c →
  str_add (if truth (len (_base64Authorization c)) then authorization c (request_header c type)
           else request_header c type) (str_add (_headers c) crlf) =
  request_line c type ++ block (default_headers c) ++ _headers c ++ crlf.
Proof.
  intros Hp. unfold authorization, request_header, default_headers, request_line. rewrite !add_app.
  rewrite String_of_dec by done.
  assert (truth (len (_base64Authorization c)) =
    negb (bool_decide (_base64Authorization c = []))) as ->.
  { by destruct (_base64Authorization c). }
  destruct (_port c =? 80), (_port c =? 443), (_useHTTP10 c), (_reuse c),
    (bool_decide (_base64Authorization c = [])); cbn [negb andb orb app];
    unfold block, line; cbn [map concat fst snd]; rewrite ?app_nil_r;
    repeat (rewrite <-app_assoc || rewrite <-app_comm_cons || cbn [app]); try reflexivity.
Qed.

End Request.

End HttpUrl.
