(* ===== verification/HttpLink.v ===== *)
(** * The connection of the HTTP client

    What the theorems about the HTTP client assume of a connection that works and
    of a server that answers, as a record of laws over an abstract view of the
    world; first consequences; and the laws of the instance of HttpSim.v. *)

From stdpp Require Import gmap.
From S2P Require Import Prelude CSem Numerals ArduinoString Lwip Http HttpSim.

Module HttpLink.
Import Http.

Lemma bind_call `{CImpl} `{ArduinoString} `{HttpConfig} {W A B} `{HttpNet W} (m : M W A)
    (f : A → M (HTTPClient * shared W) B) c o w a w' :
  m w = Ok (a, w') → (call m ≫= f) (c, mkShared o w) = f a (c, mkShared o w').
Proof. intros E. apply run_bind. unfold call, sys. cbn. by rewrite E. Qed.

(** [inb]: the bytes that are on their way, [sent]: those that were sent, [outb]:
    those the stream has taken, [lag]: how often the connection may have none
    available although there are some on their way; waiting makes it shorter. *)
Record view : Type := View { inb : list Z; sent : list Z; outb : list Z; lag : nat }.

Definition set_inb l v := View l (sent v) (outb v) (lag v).
Definition set_outb l v := View (inb v) (sent v) l (lag v).
Definition set_lag n v := View (inb v) (sent v) (outb v) n.

Section Link.
Context `{CImpl} `{ArduinoString} `{HttpConfig} {W : Type} `{HttpNet W}.

(** [V w v]: the connection stands, and so; [D w v]: it may be closed. The server
    answers [answer l] when [l] is what it has been sent. *)
Record link (answer : list Z → list Z) (p : Z) (st : Stream) (V D : W → view → Prop) : Prop :=
  { lk_available w v : V w v → ∃ n w', cl_available p w = Ok (n, w') ∧ V w' v ∧
      0 ≤ n ≤ len (inb v) ∧ n ≤ INT_MAX ∧ (n = 0 → inb v = [] ∨ (0 < lag v)%nat);
    lk_connected w v : V w v → ∃ r w', cl_connected p w = Ok (r, w') ∧ V w' v ∧ truth r = true;
    lk_readBytes w v bs r : V w v → inb v = bs ++ r → ∃ w',
      cl_readBytes p (len bs) w = Ok ((len bs, bs), w') ∧ V w' (set_inb r v);
    lk_read w v b r : V w v → inb v = b :: r → ∃ w',
      cl_read p w = Ok (b, w') ∧ V w' (set_inb r v);
    lk_readStringUntil w v l r : V w v → inb v = l ++ 10 :: r → 10 ∉ l → ∃ w',
      cl_readStringUntil p 10 w = Ok (l, w') ∧ V w' (set_inb r v);
    lk_write w v bs tl : V w v → ∃ w',
      cl_write p (Ptr (bs ++ tl) 0) (len bs) w = Ok (len bs, w') ∧
      V w' (View (inb v ++ answer (sent v ++ bs)) (sent v ++ bs) (outb v) (lag v));
    lk_st_write w v bs tl : V w v → ∃ w',
      st_write st (Ptr (bs ++ tl) 0) (len bs) w = Ok (len bs, w') ∧
      V w' (set_outb (outb v ++ bs) v);
    lk_getWriteError w v : V w v → ∃ w', st_getWriteError st w = Ok (0, w') ∧ V w' v;
    lk_setTimeout t w v : V w v → ∃ w', cl_setTimeout p t w = Ok (tt, w') ∧ V w' v;
    lk_delay t w v : V w v → ∃ w', delay t w = Ok (tt, w') ∧
      V w' (set_lag (if 0 <? t then pred (lag v) else lag v) v);
    lk_millis w v : V w v → ∃ t w', millis w = Ok (t, w') ∧ V w' v;
    lk_stop w v : V w v → ∃ w', cl_stop p w = Ok (tt, w') ∧ D w' v;
    lk_done w v : V w v → D w v;
    lk_malloc n w v : 0 ≤ n → V w v → ∃ b buff w', malloc n w = Ok (Some (b, buff), w') ∧
      len buff = n ∧ V w' v;
    lk_free b w v : V w v → ∃ w', free b w = Ok (tt, w') ∧ V w' v }.

(** A connection that is closed, and can be opened. *)
Record closed_link (p : Z) (V C : W → view → Prop) : Prop :=
  { cl_down w v : C w v → ∃ w' w2, cl_available p w = Ok (0, w') ∧
      cl_connected p w' = Ok (0, w2) ∧ C w2 v;
    cl_up host port timeout w v : C w v → ∃ r w', cl_connect p host port timeout w = Ok (r, w') ∧
      0 ≤ r ∧ V w' v }.

Context (answer : list Z → list Z) (p : Z) (st : Stream) (V D : W → view → Prop).
Hypothesis HL : link answer p st V D.

Lemma run_connected c o w v :
  V w v → _client c = Some p →
  ∃ w', connected (c, mkShared o w) = Ok (true, (c, mkShared o w')) ∧ V w' v.
Proof.
  intros HV Hc. unfold connected. rewrite bind_self, Hc.
  destruct (lk_available _ _ _ _ _ HL w v HV) as (n & w1 & E1 & V1 & _).
  rewrite (bind_call _ _ _ _ _ _ _ E1). destruct (0 <? n); [by exists w1|].
  destruct (lk_connected _ _ _ _ _ HL w1 v V1) as (r & w2 & E2 & V2 & Hr).
  rewrite (bind_call _ _ _ _ _ _ _ E2), Hr. by exists w2.
Qed.

Lemma run_client c (s : shared W) : _client c = Some p → client (c, s) = Ok (p, (c, s)).
Proof. intros Hc. unfold client. rewrite bind_self, Hc. done. Qed.

Lemma to_size_id n : 0 ≤ n ≤ INT_MAX → to_size n = n.
Proof. intros. unfold to_size, INT_MAX in *. apply Z.mod_small. destruct lp64; lia. Qed.

End Link.

(** ** The instance *)

Definition net_view (w : net) (v : view) : Prop :=
  n_open w = true ∧ n_in w = inb v ∧ n_sent w = sent v ∧ n_written w = outb v.

Definition net_done (w : net) (v : view) : Prop :=
  n_sent w = sent v ∧ n_written w = outb v.

Definition net_closed (w : net) (v : view) : Prop :=
  n_open w = false ∧ n_in w = [] ∧ inb v = [] ∧ n_sent w = sent v ∧ n_written w = outb v.

Definition sink (answer : list Z → list Z) : Stream (HttpNet := http_net answer) := tt.

Lemma link_net answer p :
  link (H2 := http_net answer) answer p (sink answer) net_view net_done.
Proof.
  split.
  - intros w v HV. exists (Z.min 5 (len (n_in w))), w. split; [done|]. split; [done|].
    destruct HV as (_ & -> & _). split; [lia|]. split; [unfold INT_MAX; lia|].
    intros E. left. destruct (inb v); [done|cbn in E; lia].
  - intros w v (Ho & HV). exists 1, w. cbn. unfold gets. by rewrite Ho.
  - intros w v bs r (Ho & Hi & Hs & Hw) E. cbn. unfold n_read.
    rewrite Hi, E, take_len_app, drop_len_app by done. eexists. by repeat split.
  - intros w v b r (Ho & Hi & Hs & Hw) E. cbn. unfold mbind, M_bind, n_read. rewrite Hi, E. cbn.
    eexists. by repeat split.
  - intros w v l r (Ho & Hi & Hs & Hw) E Hl. cbn. unfold n_until. rewrite Hi, E. clear -Hl Ho Hs Hw.
    assert (until 10 (l ++ 10 :: r) = (l, r)) as ->.
    { induction l as [|x l IH]; cbn; [done|]. apply not_elem_of_cons in Hl as [Hx Hl].
      destruct (Z.eqb_spec x 10); [done|]. by rewrite IH. }
    eexists. by repeat split.
  - intros w v bs tl (Ho & Hi & Hs & Hw). cbn. unfold n_send. cbn [obj off].
    pose proof (load_bytes_app [] bs tl 0 (len bs) eq_refl eq_refl) as EL. cbn [app] in EL.
    rewrite EL, Hi, Hs, Ho. eexists. by repeat split.
  - intros w v bs tl (Ho & Hi & Hs & Hw). cbn. unfold n_write. cbn [obj off].
    pose proof (load_bytes_app [] bs tl 0 (len bs) eq_refl eq_refl) as EL. cbn [app] in EL.
    rewrite EL. eexists. repeat split; cbn; [done..|by rewrite Hw].
  - intros w v HV. by exists w.
  - intros t w v HV. by exists w.
  - intros t w v (Ho & Hi & Hs & Hw). eexists. by repeat split.
  - intros w v HV. by exists (to_uint (n_clock w)), w.
  - intros w v (Ho & Hi & Hs & Hw). eexists. by repeat split.
  - by intros w v (Ho & Hi & Hs & Hw).
  - intros n w v Hn HV. exists 0, (replicate (Z.to_nat n) 0), w. split; [done|].
    rewrite length_replicate. by split; [lia|].
  - intros b w v HV. by exists w.
Qed.

Lemma closed_net answer p : closed_link (H2 := http_net answer) p net_view net_closed.
Proof.
  split.
  - intros w v HC. exists w, w. pose proof HC as (Ho & Hi & _). cbn. unfold gets. by rewrite Hi, Ho.
  - intros h q t w v (Ho & Hi & Hv & Hs & Hw). exists 1. eexists. split; [done|]. split; [lia|].
    repeat split; cbn; [by rewrite Hi|done..].
Qed.

End HttpLink.
