(* ===== verification/HttpBody.v ===== *)
(** * The body of an HTTP response

    What writeToStreamDataBlock and writeToStream copy from a connection to a
    stream, in one block and in chunks. *)

From stdpp Require Import gmap.
From S2P Require Import Prelude CSem Numerals ArduinoString Lwip Http HttpSim HttpLink.

Module HttpBody.
Import Http HttpLink.

(** The encoding of a body in chunks, up to the last, empty chunk. *)
Definition chunk (bs : list Z) : list Z := numeral 16 (len bs) ++ crlf ++ bs ++ crlf.
Definition chunked (l : list (list Z)) : list Z := concat (map chunk l) ++ [48] ++ crlf.

Section Body.
Context `{CImpl} `{ArduinoString} `{HL : !StringLaws} `{HttpConfig} {W : Type} `{HttpNet W}.

Context (answer : list Z → list Z) (p : Z) (st : Stream) (V D : W → view → Prop).
Hypothesis HK : link answer p st V D.

(** ** One block *)

Lemma piece_size_bounds n len bs :
  0 ≤ n → 0 < len → 0 < bs → 0 ≤ piece_size n len bs ≤ Z.min n (Z.min len bs) ∧
  (0 < n → 0 < piece_size n len bs).
Proof.
  intros. unfold piece_size. destruct (Z.ltb_spec 0 len), (Z.ltb_spec len n); cbn;
    destruct (Z.ltb_spec bs len), (Z.ltb_spec bs n); lia.
Qed.

Lemma run_write_out bs tl written w v :
  V w v → 0 ≤ written → written + len bs ≤ INT_MAX →
  ∃ w', write_out (st_write st) (st_getWriteError st) (st_clearWriteError st) (bs ++ tl)
          (len bs) (len bs) written w = Ok (Some (written + len bs), w') ∧
        V w' (set_outb (outb v ++ bs) v).
Proof.
  intros HV Hw Hb. unfold write_out.
  assert (to_size (len bs) = len bs) as ->.
  { unfold to_size. apply Z.mod_small. unfold INT_MAX in Hb. destruct lp64; lia. }
  destruct (lk_st_write _ _ _ _ _ HK w v bs tl HV) as (w1 & E1 & V1). rewrite (run_bind _ _ _ _ _ E1).
  rewrite to_int_id by (unfold in_int, INT_MIN, INT_MAX in *; lia).
  rewrite (iadd_Ok written) by (unfold INT_MIN; lia). rewrite run_bind_lift_Ok, Z.eqb_refl. cbn [negb].
  rewrite run_bind_ret. destruct (lk_getWriteError _ _ _ _ _ HK w1 _ V1) as (w2 & E2 & V2).
  rewrite (run_bind _ _ _ _ _ E2). by exists w2.
Qed.

Lemma run_block fuel bs body r buff written c o w v :
  V w v → _client c = Some p → inb v = body ++ r → len buff = bs → 0 < bs →
  0 ≤ written → written + len body ≤ INT_MAX → (lag v + length body < fuel)%nat →
  ∃ w' n, block_loop fuel st bs buff (len body) written (c, mkShared o w) =
        Ok (Some (written + len body), (c, mkShared o w')) ∧
      V w' (View r (sent v) (outb v ++ body) n) ∧ (n ≤ lag v)%nat.
Proof.
  intros HV Hc Hi HB Hs. revert body buff written w v HV Hi HB.
  induction fuel as [|fuel IH]; intros body buff written w v HV Hi HB Hw Hl HF; [lia|].
  cbn [block_loop]. destruct (run_connected answer p st V D HK c o w v HV Hc) as (w1 & E1 & V1).
  rewrite (run_bind _ _ _ _ _ E1). cbn [andb].
  destruct (Z.ltb_spec 0 (len body)) as [Hp|Hp]; cbn [orb].
  2: { assert (body = []) as -> by (by destruct body; [|cbn in Hp; lia]). cbn.
       exists w1, (lag v). rewrite Z.add_0_r, app_nil_r. cbn in Hi. subst r. by destruct v. }
  rewrite (run_bind _ _ _ _ _ (run_client p c _ Hc)).
  destruct (lk_available _ _ _ _ _ HK w1 v V1) as (n & w2 & E2 & V2 & Hn & Hm & H0').
  rewrite (bind_call _ _ _ _ _ _ _ E2).
  assert (to_size n = n) as ->.
  { unfold to_size. apply Z.mod_small. unfold INT_MAX in Hm. destruct lp64; lia. }
  unfold truth at 1. destruct (Z.eqb_spec n 0) as [->|Hz]; cbn [negb].
  - destruct (H0' eq_refl) as [Hnil|Hlag].
    { rewrite Hnil in Hi. symmetry in Hi. apply app_nil in Hi as [-> _]. cbn in Hp. lia. }
    destruct (lk_delay _ _ _ _ _ HK 1 w2 v V2) as (w3 & E3 & V3).
    rewrite (bind_call _ _ _ _ _ _ _ E3). cbn [Z.ltb] in V3.
    destruct (IH body buff written w3 _ V3 Hi HB Hw Hl) as (w4 & k & E4 & V4 & Hk);
      [cbn in *; lia|]. exists w4, k. cbn in *. by repeat split; [| |lia].
  - rewrite to_int_id by (unfold in_int, INT_MIN, INT_MAX in *; lia).
    pose proof (piece_size_bounds n (len body) bs ltac:(lia) Hp Hs) as [[HP0 HP1] HP2].
    specialize (HP2 ltac:(lia)). set (k := piece_size n (len body) bs) in *.
    destruct (Z.eqb_spec k 0) as [|_]; [lia|].
    assert (Hsz : to_size k = k).
    { unfold to_size. apply Z.mod_small. unfold INT_MAX in Hl. destruct lp64; lia. }
    rewrite Hsz. set (x := take (Z.to_nat k) body). set (y := drop (Z.to_nat k) body).
    assert (Hx : len x = k) by (unfold x; rewrite length_take; lia).
    assert (Hxy : body = x ++ y) by (unfold x, y; by rewrite take_drop).
    destruct (lk_readBytes _ _ _ _ _ HK w2 v x (y ++ r) V2) as (w3 & E3 & V3).
    { by rewrite Hi, Hxy, app_assoc. }
    rewrite Hx in E3. rewrite (bind_call _ _ _ _ _ _ _ E3). cbv beta iota.
    assert (ES : store_bytes buff 0 x = Ok (x ++ drop (length x) buff)).
    { pose proof (store_bytes_app [] (take (length x) buff) (drop (length x) buff) 0 x) as E.
      cbn [app] in E. rewrite take_drop in E. apply E; [done|].
      rewrite length_take. lia. }
    rewrite ES, run_bind_lift_Ok. rewrite to_int_id by (unfold in_int, INT_MIN, INT_MAX in *; lia).
    assert (Hby : len body = k + len y) by (rewrite Hxy, len_app, Hx; done).
    destruct (run_write_out x (drop (length x) buff) written w3 _ V3 Hw) as (w4 & E4 & V4); [lia|].
    rewrite Hx in E4. rewrite (bind_call _ _ _ _ _ _ _ E4).
    rewrite iadd_Ok by (unfold INT_MIN, INT_MAX in *; lia). rewrite run_bind_lift_Ok.
    destruct (lk_delay _ _ _ _ _ HK 0 w4 _ V4) as (w5 & E5 & V5). rewrite (bind_call _ _ _ _ _ _ _ E5).
    cbn [inb sent outb lag set_inb set_outb set_lag Z.ltb Z.compare] in V5.
    replace (len body + - k) with (len y) by lia.
    destruct (IH y (x ++ drop (length x) buff) (written + k) w5 _ V5) as (w6 & m & E6 & V6 & Hm6).
    { done. } { rewrite len_app, length_drop. lia. } { lia. } { lia. }
    { cbn. assert (length y < length body)%nat by lia. lia. }
    exists w6, m. rewrite E6. cbn in V6. rewrite Hxy at 2. rewrite app_assoc.
    repeat split; [|done|done]. by replace (written + k + len y) with (written + len body) by lia.
Qed.

Lemma run_data_block fuel body r c o w v :
  V w v → _client c = Some p → inb v = body ++ r → len body ≤ INT_MAX →
  (lag v + length body < fuel)%nat →
  ∃ w' n, writeToStreamDataBlock fuel st (len body) (c, mkShared o w) =
        Ok (len body, (c, mkShared o w')) ∧
      V w' (View r (sent v) (outb v ++ body) n) ∧ (n ≤ lag v)%nat.
Proof.
  intros HV Hc Hi Hb HF. unfold writeToStreamDataBlock.
  assert (HB : 0 < block_size (len body) ≤ 1460).
  { unfold block_size, HTTP_TCP_BUFFER_SIZE.
    destruct (Z.ltb_spec 0 (len body)), (Z.ltb_spec (len body) 1460); cbn; lia. }
  assert (to_size (block_size (len body)) = block_size (len body)) as ->.
  { unfold to_size. apply Z.mod_small. destruct lp64; lia. }
  destruct (lk_malloc _ _ _ _ _ HK (block_size (len body)) w v ltac:(lia) HV) as (b & buff & w1 & E1 & HL1 & V1).
  rewrite (bind_call _ _ _ _ _ _ _ E1).
  destruct (run_block fuel (block_size (len body)) body r buff 0 c o w1 v V1 Hc Hi HL1)
    as (w2 & n & E2 & V2 & Hn); [lia..|].
  rewrite (run_bind _ _ _ _ _ E2).
  destruct (lk_free _ _ _ _ _ HK b w2 _ V2) as (w3 & E3 & V3). rewrite (bind_call _ _ _ _ _ _ _ E3).
  exists w3, n. rewrite Z.add_0_l, Z.eqb_refl, andb_false_r. done.
Qed.

(** ** Chunks *)

Lemma header_not_empty n : len (numeral 16 n ++ [13]) <=? 0 = false.
Proof. rewrite len_app. cbn. apply Z.leb_gt. lia. Qed.

Lemma numeral_no_newline n : 0 ≤ n → 10 ∉ numeral 16 n ++ [13].
Proof.
  intros Hn [Hx|Hx%list_elem_of_singleton]%elem_of_app; [|done].
  pose proof (numeral_digits 16 n ltac:(lia) Hn) as HF. rewrite Forall_forall in HF.
  by specialize (HF 10 (proj1 (list_elem_of_In _ _) Hx)).
Qed.

Lemma chunk_length n :
  0 ≤ n ≤ INT_MAX → to_int (to_uint (strtol 16 (trim (numeral 16 n ++ [13])))) = n.
Proof.
  intros Hn. rewrite trim_strip, (strip_digits 16), strtol_numeral by
    (lia || (by destruct (numeral_cons 16 n) as (c & l & ->)) || (apply numeral_digits; lia)).
  rewrite to_uint_id by lia. apply to_int_id. unfold in_int, INT_MIN, INT_MAX in *. lia.
Qed.

(** What the last chunk does to [_size]. *)
Definition sized (total : Z) (c : HTTPClient) : HTTPClient :=
  if _size c <=? 0 then set_size total c else c.

Lemma run_chunks fuel l ret r c o w v :
  V w v → _client c = Some p → inb v = chunked l ++ r → Forall (λ ch, ch ≠ []) l →
  0 ≤ ret → ret + len (concat l) ≤ INT_MAX → (lag v + length (concat l) + length l < fuel)%nat →
  _size c ≤ 0 ∨ _size c = ret + len (concat l) →
  ∃ w' n, chunk_loop fuel st ret ret (c, mkShared o w) =
        Ok (inr (ret + len (concat l)), (sized (ret + len (concat l)) c, mkShared o w')) ∧
      V w' (View r (sent v) (outb v ++ concat l) n) ∧ (n ≤ lag v)%nat.
Proof.
  intros HV Hc. revert l ret w v HV.
  induction fuel as [|fuel IH]; intros l ret w v HV Hi HN Hr Hl HF HS; [lia|].
  cbn [chunk_loop]. destruct (run_connected answer p st V D HK c o w v HV Hc) as (w1 & E1 & V1).
  rewrite (run_bind _ _ _ _ _ E1). cbn [negb].
  rewrite (run_bind _ _ _ _ _ (run_client p c _ Hc)).
  destruct l as [|ch l].
  - cbn [chunked map concat app len] in *.
    change (inb v = (numeral 16 0 ++ [13]) ++ 10 :: r) in Hi.
    destruct (lk_readStringUntil _ _ _ _ _ HK w1 v _ r V1 Hi) as (w2 & E2 & V2);
      [by apply numeral_no_newline|].
    rewrite (bind_call _ _ _ _ _ _ _ E2), header_not_empty, chunk_length by (unfold INT_MAX; lia).
    cbn [length]. rewrite Z.add_0_r in *.
    rewrite iadd_Ok by (unfold INT_MIN in *; lia). rewrite run_bind_lift_Ok. cbn [Z.ltb Z.compare].
    rewrite Z.add_0_r, bind_self. exists w2, (lag v). rewrite app_nil_r.
    split; [|by split]. unfold sized. destruct (Z.leb_spec (_size c) 0).
    + rewrite bind_become, bind_self. cbn. by rewrite Z.eqb_refl.
    + rewrite run_bind_ret, bind_self. destruct HS as [|HS]; [lia|]. by rewrite HS, Z.eqb_refl.
  - pose proof (Forall_inv HN) as Hch. apply Forall_inv_tail in HN.
    assert (HL1 : len (concat (ch :: l)) = len ch + len (concat l)) by (cbn; by rewrite len_app).
    assert (Hp : 0 < len ch) by (destruct ch; [done|cbn; lia]).
    rewrite HL1 in *.
    assert (Hi' : inb v = (numeral 16 (len ch) ++ [13]) ++ 10 :: ch ++ crlf ++ chunked l ++ r).
    { rewrite Hi. unfold chunked, chunk, crlf. cbn [map concat]. by rewrite <-!app_assoc. }
    destruct (lk_readStringUntil _ _ _ _ _ HK w1 v _ _ V1 Hi') as (w2 & E2 & V2);
      [apply numeral_no_newline; lia|].
    rewrite (bind_call _ _ _ _ _ _ _ E2), header_not_empty, chunk_length by lia.
    rewrite iadd_Ok by (unfold INT_MIN in *; lia). rewrite run_bind_lift_Ok.
    destruct (Z.ltb_spec 0 (len ch)); [|lia].
    destruct (run_data_block (S fuel) ch (crlf ++ chunked l ++ r) c o w2 _ V2 Hc eq_refl)
      as (w3 & n & E3 & V3 & Hn); [lia|cbn in *; rewrite length_app in HF; lia|].
    rewrite (run_bind _ _ _ _ _ E3). destruct (Z.ltb_spec (len ch) 0); [lia|].
    rewrite iadd_Ok by (unfold INT_MIN in *; lia). rewrite run_bind_lift_Ok.
    rewrite (run_bind _ _ _ _ _ (run_client p c _ Hc)). cbn [inb sent outb lag set_inb set_outb set_lag] in *.
    destruct (lk_readBytes _ _ _ _ _ HK w3 _ crlf (chunked l ++ r) V3 eq_refl) as (w4 & E4 & V4).
    rewrite (bind_call _ _ _ _ _ _ _ E4). cbn [len length crlf] in *. change (Z.of_nat 2 =? 2) with true. cbn [negb].
    rewrite run_bind_lift_Ok. cbn [andb negb Z.eqb Pos.eqb].
    destruct (lk_delay _ _ _ _ _ HK 0 w4 _ V4) as (w5 & E5 & V5). rewrite (bind_call _ _ _ _ _ _ _ E5).
    cbn [inb sent outb lag set_inb set_outb set_lag Z.ltb Z.compare] in *.
    destruct (IH l (ret + len ch) w5 _ V5 eq_refl HN) as (w6 & m & E6 & V6 & Hm).
    { lia. } { lia. } { cbn. cbn in HF. rewrite length_app in HF. lia. }
    { destruct HS as [|HS]; [by left|right; lia]. }
    exists w6, m. rewrite E6. cbn [inb sent outb lag set_inb set_outb set_lag] in *. rewrite Z.add_assoc. cbn [concat].
    rewrite <-app_assoc in V6. repeat split; [done|lia].
Qed.

(** ** The end of the exchange *)

Lemma run_drain fuel c o w v :
  V w v → _client c = Some p → (length (inb v) < fuel)%nat →
  ∃ w' r, drain fuel (c, mkShared o w) = Ok (tt, (c, mkShared o w')) ∧
    V w' (set_inb r v).
Proof.
  revert w v. induction fuel as [|fuel IH]; intros w v HV Hc HF; [lia|]. cbn [drain].
  rewrite (run_bind _ _ _ _ _ (run_client p c _ Hc)).
  destruct (lk_available _ _ _ _ _ HK w v HV) as (n & w1 & E1 & V1 & Hn & _).
  rewrite (bind_call _ _ _ _ _ _ _ E1). destruct (Z.ltb_spec 0 n).
  2: { exists w1, (inb v). by destruct v. }
  destruct (inb v) as [|b r] eqn:Ei; [cbn in Hn; lia|].
  destruct (lk_read _ _ _ _ _ HK w1 v b r V1 Ei) as (w2 & E2 & V2).
  rewrite (bind_call _ _ _ _ _ _ _ E2). cbn in HF.
  destruct (IH w2 _ V2 Hc) as (w3 & r' & E3 & V3); [cbn; lia|]. by exists w3, r'.
Qed.

(** Destroying the member [_tcpDeprecated] leaves an owner of its object. *)
Definition shares (c : HTTPClient) (o : gmap Z (Z * kind)) : Prop :=
  ∀ q, _tcpDeprecated c = Some q → ∃ n k, o !! q = Some (n, k) ∧ 1 < n.

Lemma run_disconnect fuel c o w v :
  V w v → _client c = Some p → shares c o → (length (inb v) < fuel)%nat →
  ∃ c' o' w', disconnect fuel true (c, mkShared o w) = Ok (tt, (c', mkShared o' w')) ∧
    ∃ r, D w' (set_inb r v).
Proof.
  intros HV Hc HS HF. unfold disconnect.
  destruct (run_connected answer p st V D HK c o w v HV Hc) as (w1 & E1 & V1). rewrite (run_bind _ _ _ _ _ E1).
  rewrite (run_bind _ _ _ _ _ (run_client p c _ Hc)).
  destruct (lk_available _ _ _ _ _ HK w1 v V1) as (n & w2 & E2 & V2 & _).
  rewrite (bind_call _ _ _ _ _ _ _ E2).
  assert (∃ w3 r, (if 0 <? n then drain fuel else mret tt) (c, mkShared o w2) =
    Ok (tt, (c, mkShared o w3)) ∧ V w3 (set_inb r v)) as (w3 & r & E3 & V3).
  { destruct (0 <? n); [by apply run_drain|]. exists w2, (inb v). by destruct v. }
  rewrite (run_bind _ _ _ _ _ E3), bind_self.
  destruct (_reuse c && _canReuse c).
  { exists c, o, w3. split; [done|]. exists r. apply (lk_done _ _ _ _ _ HK _ _ V3). }
  rewrite (run_bind _ _ _ _ _ (run_client p c _ Hc)).
  destruct (lk_stop _ _ _ _ _ HK w3 _ V3) as (w4 & E4 & D4). rewrite (bind_call _ _ _ _ _ _ _ E4).
  cbn [negb]. rewrite run_bind_ret, bind_self.
  destruct (_tcpDeprecated c) as [q|] eqn:Eq; [|by exists c, o, w4; split; [|exists r]].
  rewrite !bind_become. destruct (HS q Eq) as (m & k & Eo & Hm). cbn [sp_drop].
  unfold sp_count. erewrite bind_world by (cbn; rewrite Eo; reflexivity). cbv beta iota.
  destruct (Z.eqb_spec m 1); [lia|]. eexists _, _, _. split; [done|]. by exists r.
Qed.

End Body.

(** [input] is the encoding of [body] that the header announced; it is followed by
    the end of the last chunk, which is not read. *)
Definition encoded (c : HTTPClient) (body input : list Z) : Prop :=
  match _transferEncoding c with
  | HTTPC_TE_IDENTITY => _size c = len body ∧ input = body
  | HTTPC_TE_CHUNKED =>
      (_size c ≤ 0 ∨ _size c = len body) ∧
      ∃ l, Forall (λ ch, ch ≠ []) l ∧ body = concat l ∧ input = chunked l
  end.

Lemma chunked_length l :
  Forall (λ ch, ch ≠ []) l → (length (concat l) + length l < length (chunked l))%nat.
Proof.
  unfold chunked. rewrite !length_app. cbn [length]. intros _.
  induction l as [|ch l IH]; cbn [map concat length]; [cbn; lia|]. unfold chunk at 1.
  rewrite !length_app. cbn [length]. change (length crlf) with 2%nat in *. lia.
Qed.

(** C27: The body of a response, sent with its length or in chunks and in pieces of any size,
    is written to the stream byte for byte; the result is its length, and the loops end
    within as many turns as there are bytes to come and times to wait. *)
Theorem http_body_copied `{CImpl} `{ArduinoString} `{!StringLaws} `{HttpConfig} {W} `{HttpNet W}
    answer p st V D (c : HTTPClient) o w v body input r fuel :
  link answer p st V D → V w v → _client c = Some p → shares c o →
  encoded c body input → inb v = input ++ r → len body ≤ INT_MAX →
  (lag v + length (inb v) < fuel)%nat →
  ∃ c' o' w', writeToStream fuel (Some st) (c, mkShared o w) =
      Ok (len body, (c', mkShared o' w')) ∧ ∃ v', D w' v' ∧ sent v' = sent v ∧ outb v' = outb v ++ body.
Proof.
  intros HK HV Hc HS HE Hi Hb HF. unfold writeToStream.
  destruct (run_connected answer p st V D HK c o w v HV Hc) as (w1 & E1 & V1).
  rewrite (run_bind _ _ _ _ _ E1). cbn [negb]. rewrite bind_self.
  assert (∃ c2 w2 n, (match _transferEncoding c with
      | HTTPC_TE_IDENTITY =>
          ret ← writeToStreamDataBlock fuel st (_size c);
          mret (if ret <? 0 then inl ret else inr ret)
      | HTTPC_TE_CHUNKED => chunk_loop fuel st 0 0
      end) (c, mkShared o w1) = Ok (inr (len body), (c2, mkShared o w2)) ∧
    V w2 (View r (sent v) (outb v ++ body) n) ∧ _client c2 = Some p ∧ shares c2 o)
    as (c2 & w2 & n & E2 & V2 & Hc2 & HS2).
  { unfold encoded in HE. destruct (_transferEncoding c).
    - destruct HE as [-> ->].
      destruct (run_data_block answer p st V D HK fuel body r c o w1 v V1 Hc Hi) as (w2 & n & E2 & V2 & _);
        [lia|rewrite Hi, length_app in HF; lia|].
      exists c, w2, n. rewrite (run_bind _ _ _ _ _ E2).
      by destruct (Z.ltb_spec (len body) 0); [lia|].
    - destruct HE as (Hs & l & HN & -> & ->). pose proof (chunked_length l HN).
      destruct (run_chunks answer p st V D HK fuel l 0 r c o w1 v V1 Hc Hi HN) as (w2 & n & E2 & V2 & _);
        [lia..|rewrite Hi, length_app in HF; lia|done|].
      exists (sized (0 + len (concat l)) c), w2, n. rewrite Z.add_0_l in *. split; [done|].
      split; [done|]. unfold sized. by destruct (_size c <=? 0). }
  rewrite (run_bind _ _ _ _ _ E2).
  destruct (run_disconnect answer p st V D HK fuel c2 o w2 _ V2 Hc2 HS2) as (c3 & o3 & w3 & E3 & r3 & D3).
  { cbn. rewrite Hi, length_app in HF. lia. }
  rewrite (run_bind _ _ _ _ _ E3). exists c3, o3, w3. split; [done|]. by eexists.
Qed.

Definition chunked_client : HTTPClient :=
  set_transferEncoding HTTPC_TE_CHUNKED (set_client (Some 7) HTTPClient_new).

#[local] Existing Instance quiet_net.

Lemma http_body_copied_witness :
  ∃ c' o' w', writeToStream 100 (Some (sink (λ _, []))) (chunked_client, mkShared ∅
      (Net true (lines ["3"; "abc"; "2"; "de"; "0"; ""]%string) [] [] 0 8)) =
    Ok (5, (c', mkShared o' w')) ∧
    ∃ v', net_done w' v' ∧ sent v' = [] ∧ outb v' = bytes_of "abcde"%string.
Proof.
  apply (http_body_copied (λ _, []) 7 (sink (λ _, [])) net_view net_done chunked_client ∅ _
    (View (lines ["3"; "abc"; "2"; "de"; "0"; ""]%string) [] [] 0) (bytes_of "abcde"%string)
    (chunked [bytes_of "abc"%string; bytes_of "de"%string]) crlf 100).
  - apply link_net.
  - by repeat split.
  - done.
  - done.
  - split; [by left|]. exists [bytes_of "abc"%string; bytes_of "de"%string].
    by repeat constructor.
  - done.
  - done.
  - vm_compute. lia.
Defined.

End HttpBody.
