(* ===== verification/HttpExchange.v ===== *)
(** * An exchange of the HTTP client

    The response as handleHeaderResponse reads it, and a request with its
    response as a whole. *)

From stdpp Require Import gmap.
From S2P Require Import Prelude CSem Numerals ArduinoString Lwip Http HttpSim HttpUrl HttpLink.

Module HttpExchange.
Import Http HttpUrl HttpLink.

(** ** Lines *)

(** A name of a header, and a value. *)
Definition token_char (c : Z) : Prop := blank c = false ∧ c ≠ 58 ∧ c ≠ 47.
Definition token (name : list Z) : Prop := name ≠ [] ∧ Forall token_char name.
Definition clean (v : list Z) : Prop := strip v = v ∧ 10 ∉ v.

Definition front_ok (l : list Z) : Prop := ∀ c r, l = c :: r → blank c = false.

Lemma drop_blanks_id l : front_ok l → drop_blanks l = l.
Proof. destruct l as [|c l]; [done|]. intros H. cbn. by rewrite (H c l). Qed.

Lemma drop_blanks_front l : front_ok (drop_blanks l).
Proof.
  induction l as [|c l IH]; cbn; [by intros c r|]. destruct (blank c) eqn:E; [done|].
  by intros x r [= <- <-].
Qed.

Lemma strip_id l : front_ok l → front_ok (rev l) → strip l = l.
Proof. intros H1 H2. unfold strip. by rewrite (drop_blanks_id l), drop_blanks_id, rev_involutive. Qed.

Lemma drop_blanks_suffix l : ∃ pre, l = pre ++ drop_blanks l ∧ Forall (λ c, blank c = true) pre.
Proof.
  induction l as [|c l (pre & E & HF)]; [by exists []|]. cbn. destruct (blank c) eqn:Eb.
  - exists (c :: pre). split; [cbn; by rewrite <-E|by constructor].
  - by exists [].
Qed.

(** What is stripped has no blanks at its ends. *)
Lemma strip_ends l : front_ok (strip l) ∧ front_ok (rev (strip l)).
Proof.
  unfold strip. rewrite rev_involutive. split; [|apply drop_blanks_front].
  destruct (drop_blanks_suffix (rev (drop_blanks l))) as (pre & E & _).
  apply (f_equal (@rev Z)) in E. rewrite rev_involutive, rev_app_distr in E.
  intros c r Ec. rewrite Ec in E. by apply (drop_blanks_front l c (r ++ rev pre)).
Qed.

(** A line as it is read: with its carriage return; and as the loop sees it. *)
Definition shown (h : list Z * list Z) : list Z :=
  fst h ++ [58] ++ match snd h with [] => [] | v => 32 :: v end.

Lemma front_ok_app a b : a ≠ [] → front_ok a → front_ok (a ++ b).
Proof. intros Ha HF c r E. destruct a as [|x a]; [done|]. injection E as <- _. by apply (HF x a). Qed.

Lemma strip_line name v :
  token name → clean v → strip (name ++ bytes_of ": "%string ++ v ++ [13]) = shown (name, v).
Proof.
  intros [Hn HF] [Hv _]. unfold strip.
  assert (H1 : front_ok name) by (intros c r ->; by apply Forall_inv in HF as [? _]).
  rewrite (drop_blanks_id (name ++ _)) by (by apply front_ok_app).
  rewrite !app_assoc, rev_app_distr. cbn [rev app drop_blanks].
  change (blank 13) with true. cbv iota. unfold shown. cbn [fst snd].
  destruct (exists_last (l := name ++ bytes_of ": "%string ++ v)) as (l & x & El).
  { by destruct name. }
  destruct v as [|y v].
  - rewrite app_nil_r. change (bytes_of ": "%string) with [58; 32].
    rewrite rev_app_distr. cbn [rev app drop_blanks]. change (blank 32) with true.
    change (blank 58) with false. cbv iota. cbn [rev app]. by rewrite rev_involutive.
  - pose proof (strip_ends (y :: v)) as [_ H2]. rewrite Hv in H2.
    rewrite drop_blanks_id.
    + rewrite rev_involutive, <-!app_assoc. done.
    + rewrite rev_app_distr. apply front_ok_app; [|done].
      intros E. apply (f_equal length) in E. by rewrite length_rev in E.
Qed.

Section Lines.
Context `{ArduinoString} `{HS : !StringLaws}.

Lemma not_in_token c name : ¬ token_char c → Forall token_char name → c ∉ name.
Proof. intros Hc HF Hx. rewrite list.Forall_forall in HF. by apply Hc, HF. Qed.

Lemma shown_colon name v : token name → indexOf_char (shown (name, v)) 58 0 = len name.
Proof. intros [_ HF]. apply index_first. apply not_in_token; [|done]. by intros [_ [? _]]. Qed.

Lemma shown_not_status name v :
  token name → startsWith (shown (name, v)) (bytes_of "HTTP/1."%string) = false.
Proof.
  intros [_ HF]. rewrite starts_prefix. apply bool_decide_eq_false. intros [r E].
  unfold shown in E. cbn [fst snd] in E. set (k := bytes_of "HTTP/1."%string) in *.
  assert (H58 : 58 ∉ k) by decide_by_vm. assert (H47 : 47 ∈ k) by decide_by_vm.
  assert (HN : ∀ x y, name = x ++ y → 47 ∉ x).
  { intros x y ->. apply list.Forall_app in HF as [HF _]. apply not_in_token; [|done].
    by intros [_ [_ ?]]. }
  apply app_eq_inv in E as [(m & Em & _)|(m & Em & E)]; [by apply (HN k m)|].
  destruct m as [|x m].
  - rewrite app_nil_r in Em. apply (HN k []); [by rewrite app_nil_r|done].
  - injection E as <- _. apply H58. rewrite Em. apply elem_of_app. right. by apply list_elem_of_here.
Qed.

(** ** Headers of a response *)

(** [_currentHeaders] after a header: the first that has its name. *)
Fixpoint note (name v : list Z) (l : list RequestArgument) : list RequestArgument :=
  match l with
  | [] => []
  | h :: l => if equalsIgnoreCase (key h) name then mkArgument (key h) v :: l
              else h :: note name v l
  end.

Definition closes (v : list Z) : bool :=
  (0 <=? indexOf v (bytes_of "close"%string)) && (indexOf v (bytes_of "keep-alive"%string) <? 0).

Definition header_step (st : HTTPClient * list Z) (h : list Z * list Z) : HTTPClient * list Z :=
  let '(c, te) := st in
  let c := if equalsIgnoreCase (fst h) (bytes_of "Content-Length"%string)
           then set_size (to_int (toInt (snd h))) c else c in
  let c := if _canReuse c && equalsIgnoreCase (fst h) (bytes_of "Connection"%string)
           then if closes (snd h) then set_canReuse false c else c else c in
  let c := match _currentHeaders c with
           | Some l => set_currentHeaders (Some (note (fst h) (snd h) l)) c | None => c end in
  (c, if equalsIgnoreCase (fst h) (bytes_of "Transfer-Encoding"%string) then snd h else te).

(** The count of the collected headers is their number. *)
Definition counted (c : HTTPClient) : Prop :=
  _headerKeysCount c = match _currentHeaders c with Some l => len l | None => 0 end.

Lemma note_length name v l : length (note name v l) = length l.
Proof. induction l as [|h l IH]; cbn; [done|]. destruct (equalsIgnoreCase (key h) name); cbn; by rewrite ?IH. Qed.

Lemma header_step_counted c te h : counted c → counted (fst (header_step (c, te) h)).
Proof.
  unfold counted, header_step. intros HC. cbn [fst].
  repeat match goal with |- context [if ?b then _ else _] => destruct b; cbn [fst] end; cbn;
    destruct (_currentHeaders c) eqn:E; cbn; rewrite ?E, ?note_length; done.
Qed.

Context `{CImpl} {W : Type} `{HttpNet W}.

Lemma run_keep_header name v pre l c (s : shared W) :
  _currentHeaders c = Some (pre ++ l) →
  keep_header (length l) (len pre) name v (c, s) =
    Ok (tt, (set_currentHeaders (Some (pre ++ note name v l)) c, s)).
Proof.
  revert pre. induction l as [|h l IH]; intros pre Hc; cbn [keep_header length note].
  - replace (set_currentHeaders (Some (pre ++ [])) c) with c; [done|]. rewrite <-Hc. by destruct c.
  - unfold header_at. rewrite run_assoc, bind_self, Hc, arr_get_app by done.
    rewrite run_bind_lift_Ok. destruct (equalsIgnoreCase (key h) name).
    + unfold header_set. rewrite bind_self, Hc, arr_set_app by done. rewrite run_bind_lift_Ok. by rewrite <-app_assoc.
    + change (h :: l) with ([h] ++ l) in Hc. rewrite app_assoc in Hc.
      replace (len pre + 1) with (len (pre ++ [h])) by (rewrite len_app; cbn; lia).
      rewrite (IH _ Hc). by rewrite <-app_assoc.
Qed.

Lemma run_keep c name v (s : shared W) :
  counted c →
  keep_header (Z.to_nat (_headerKeysCount c)) 0 name v (c, s) =
    Ok (tt, (match _currentHeaders c with
             | Some l => set_currentHeaders (Some (note name v l)) c | None => c end, s)).
Proof.
  unfold counted. intros ->. destruct (_currentHeaders c) as [l|] eqn:E; [|done].
  rewrite Nat2Z.id. by apply (run_keep_header name v [] l).
Qed.

Lemma shown_value name v :
  token name → clean v → len (shown (name, v)) < INT_MAX →
  trim (substring_from (shown (name, v)) (to_uint (len name + 1))) = v.
Proof.
  intros Hn [Hv _] HL. unfold shown in *. cbn [fst snd] in *. rewrite !len_app in HL. cbn [length] in HL.
  rewrite to_uint_id, substring_from_drop by lia. rewrite app_assoc, drop_len_app by
    (rewrite len_app; cbn; lia).
  rewrite trim_strip. destruct v as [|x v]; [done|]. unfold strip in *. cbn [drop_blanks].
  change (blank 32) with true. done.
Qed.

Lemma run_take_line name v te c (s : shared W) :
  token name → clean v → counted c → len (shown (name, v)) < INT_MAX →
  take_line (shown (name, v)) te (c, s) =
    Ok (snd (header_step (c, te) (name, v)), (fst (header_step (c, te) (name, v)), s)).
Proof.
  intros Hn Hv HC HL. unfold take_line. rewrite shown_not_status, shown_colon by done.
  assert (truth (len name) = true) as ->.
  { unfold truth. destruct Hn as [Hn _]. apply len_pos in Hn. by destruct (Z.eqb_spec (len name) 0); [lia|]. }
  rewrite shown_value by done.
  assert (substring (shown (name, v)) 0 (to_uint (len name)) = name) as ->.
  { unfold shown in *. cbn [fst snd] in *. rewrite len_app in HL. apply substring_front. lia. }
  unfold header_step. cbn [fst snd].
  set (c1 := if equalsIgnoreCase name (bytes_of "Content-Length"%string)
             then set_size (to_int (toInt v)) c else c).
  assert (E1 : (if equalsIgnoreCase name (bytes_of "Content-Length"%string)
     then become (set_size (to_int (toInt v))) else mret tt) (c, s) = Ok (tt, (c1, s))).
  { unfold c1. by destruct (equalsIgnoreCase name _). }
  rewrite (run_bind _ _ _ _ _ E1), bind_self.
  assert (HC1 : counted c1) by (unfold c1; by destruct (equalsIgnoreCase name _)).
  set (c2 := if _canReuse c1 && equalsIgnoreCase name (bytes_of "Connection"%string)
             then if closes v then set_canReuse false c1 else c1 else c1).
  assert (E2 : (if _canReuse c1 && equalsIgnoreCase name (bytes_of "Connection"%string) then
     if (0 <=? indexOf v (bytes_of "close"%string)) &&
        (indexOf v (bytes_of "keep-alive"%string) <? 0)
     then become (set_canReuse false) else mret tt else mret tt) (c1, s) = Ok (tt, (c2, s))).
  { unfold c2, closes. destruct (_canReuse c1 && _); [|done]. by destruct ((0 <=? _) && _). }
  rewrite (run_bind _ _ _ _ _ E2).
  assert (HC2 : counted c2).
  { unfold c2. destruct (_canReuse c1 && _); [|done]. by destruct (closes v). }
  assert (EK : _headerKeysCount c1 = _headerKeysCount c2).
  { unfold c2. destruct (_canReuse c1 && _); [|done]. by destruct (closes v). }
  rewrite EK. rewrite (run_bind _ _ _ _ _ (run_keep c2 name v s HC2)). done.
Qed.

End Lines.

(** ** What a list of headers leaves *)
Section Fold.
Context `{ArduinoString} `{HS : !StringLaws}.

(** The value of the last header of a name. *)
Fixpoint last_value (name : list Z) (hs : list (list Z * list Z)) : option (list Z) :=
  match hs with
  | [] => None
  | h :: hs => match last_value name hs with
               | Some v => Some v
               | None => if equalsIgnoreCase (fst h) name then Some (snd h) else None
               end
  end.

Lemma last_value_snoc name hs h :
  last_value name (hs ++ [h]) =
    if equalsIgnoreCase (fst h) name then Some (snd h) else last_value name hs.
Proof.
  induction hs as [|x hs IH]; cbn; [done|]. rewrite IH.
  by destruct (equalsIgnoreCase (fst h) name).
Qed.

Definition fold_headers (hs : list (list Z * list Z)) (c : HTTPClient) : HTTPClient * list Z :=
  fold_left header_step hs (c, []).

Lemma fold_snoc hs h c : fold_headers (hs ++ [h]) c = header_step (fold_headers hs c) h.
Proof. unfold fold_headers. by rewrite fold_left_app. Qed.

Ltac fold_ind hs :=
  induction hs as [|h hs IH] using rev_ind; [try done|
  rewrite fold_snoc, ?last_value_snoc;
  match goal with |- context [fold_headers hs ?c] => destruct (fold_headers hs c) as [c' te'] end;
  cbn [fst snd] in *; unfold header_step; cbn [fst snd]].

Ltac split_ifs := repeat match goal with
  | |- context [match _currentHeaders ?c with _ => _ end] => destruct (_currentHeaders c) eqn:?; cbn
  | |- context [if ?b then _ else _] => destruct b eqn:?; cbn end.

Lemma fold_size hs c :
  _size (fst (fold_headers hs c)) =
    match last_value (bytes_of "Content-Length"%string) hs with
    | Some v => to_int (toInt v) | None => _size c end.
Proof. fold_ind hs. by split_ifs. Qed.

Lemma fold_encoding hs c :
  snd (fold_headers hs c) = default [] (last_value (bytes_of "Transfer-Encoding"%string) hs).
Proof. fold_ind hs. by destruct (equalsIgnoreCase _ _). Qed.

Lemma fold_reuse hs c :
  _canReuse (fst (fold_headers hs c)) =
    _canReuse c && forallb (λ h, negb (equalsIgnoreCase (fst h) (bytes_of "Connection"%string) &&
                                       closes (snd h))) hs.
Proof.
  fold_ind hs; [by rewrite andb_true_r|]. rewrite forallb_app. cbn [forallb].
  rewrite andb_true_r, andb_assoc, <-IH.
  assert (EC : ∀ z, _canReuse (set_size z c') = _canReuse c') by done.
  destruct (equalsIgnoreCase (fst h) (bytes_of "Content-Length"%string)); rewrite ?EC;
    destruct (_canReuse c') eqn:ER, (equalsIgnoreCase (fst h) (bytes_of "Connection"%string)),
      (closes (snd h)); cbn [andb negb]; split_ifs; congruence.
Qed.

Lemma fold_same hs c :
  let c' := fst (fold_headers hs c) in
  _client c' = _client c ∧ _returnCode c' = _returnCode c ∧
  _headerKeysCount c' = _headerKeysCount c ∧ _tcpTimeout c' = _tcpTimeout c ∧
  _tcpDeprecated c' = _tcpDeprecated c.
Proof. cbv zeta. fold_ind hs. split_ifs; naive_solver. Qed.

Lemma fold_counted hs c : counted c → counted (fst (fold_headers hs c)).
Proof.
  intros HC. induction hs as [|h hs IH] using rev_ind; [done|]. rewrite fold_snoc.
  destruct (fold_headers hs c) as [c' te']. by apply header_step_counted.
Qed.

(** Each collected header, when no two have the same name. *)
Lemma note_lookup name v l i h :
  NoDup (map (λ h, map lower (key h)) l) → l !! i = Some h →
  note name v l !! i = Some (if equalsIgnoreCase (key h) name then mkArgument (key h) v else h).
Proof.
  revert i. induction l as [|x l IH]; intros i HN Hi; [done|]. cbn [map] in HN.
  apply list.NoDup_cons in HN as [Hx HN]. cbn [note]. destruct i as [|i].
  - injection Hi as ->. by destruct (equalsIgnoreCase (key h) name).
  - cbn in Hi. destruct (equalsIgnoreCase (key x) name) eqn:Ex; [|by apply IH].
    cbn. rewrite Hi. destruct (equalsIgnoreCase (key h) name) eqn:Eh; [|done]. destruct Hx.
    rewrite equals_lower, bool_decide_eq_true in Ex, Eh. rewrite Ex, <-Eh.
    apply (list_elem_of_fmap_2 (λ h, map lower (key h))). by eapply list_elem_of_lookup_2.
Qed.

Lemma note_keys name v l : map key (note name v l) = map key l.
Proof.
  induction l as [|h l IH]; cbn; [done|].
  destruct (equalsIgnoreCase (key h) name); cbn; by rewrite ?IH.
Qed.

Lemma step_collected c te h l :
  _currentHeaders c = Some l →
  _currentHeaders (fst (header_step (c, te) h)) = Some (note (fst h) (snd h) l).
Proof.
  intros Hc. unfold header_step. cbn [fst].
  match goal with |- context [match _currentHeaders ?x with _ => _ end] =>
    assert (_currentHeaders x = Some l) as ->; [|done] end.
  repeat match goal with |- context [if ?b then _ else _] => destruct b; cbn [_currentHeaders] end; done.
Qed.

Lemma fold_collected hs c l i a :
  _currentHeaders c = Some l → NoDup (map (λ h, map lower (key h)) l) → l !! i = Some a →
  ∃ l', _currentHeaders (fst (fold_headers hs c)) = Some l' ∧ map key l' = map key l ∧
    l' !! i = Some (mkArgument (key a) (default (value a) (last_value (key a) hs))).
Proof.
  intros Hc HN Hi. induction hs as [|h hs (l' & E & EK & EL)] using rev_ind; [exists l; by destruct a|].
  rewrite fold_snoc, last_value_snoc. destruct (fold_headers hs c) as [c' te'].
  exists (note (fst h) (snd h) l'). split; [by apply step_collected|].
  split; [by rewrite note_keys|].
  assert (HN' : NoDup (map (λ h, map lower (key h)) l')).
  { rewrite <-(map_map key (map lower)) in HN |- *. by rewrite EK. }
  rewrite (note_lookup _ _ _ _ _ HN' EL).
  cbn [key value]. rewrite !equals_lower.
  destruct (bool_decide_reflect (map lower (key a) = map lower (fst h)));
    destruct (bool_decide_reflect (map lower (fst h) = map lower (key a))); cbn; congruence || done.
Qed.

End Fold.

(** ** The text of a response *)

Definition status_line (v code : Z) (reason : list Z) : list Z :=
  bytes_of "HTTP/1."%string ++ [v; 32] ++ dec code ++ [32] ++ reason.

Definition response (v code : Z) (reason : list Z) (hs : list (list Z * list Z)) (body : list Z)
  : list Z := status_line v code reason ++ crlf ++ block hs ++ crlf ++ body.

Record response_ok (v code : Z) (reason : list Z) (hs : list (list Z * list Z)) : Prop :=
  { ro_version : v ≠ 10;
    ro_code : 0 < code < 1000;
    ro_reason : reason ≠ [] ∧ front_ok (rev reason) ∧ 10 ∉ reason;
    ro_headers : Forall (λ h, token (fst h) ∧ clean (snd h) ∧ len (shown h) < INT_MAX) hs }.

Section Response.
Context `{CImpl} `{ArduinoString} `{HS : !StringLaws} `{HttpConfig} {W : Type} `{HttpNet W}.
Context (answer : list Z → list Z) (p : Z) (st : Stream) (V D : W → view → Prop).
Hypothesis HK : link answer p st V D.

(** One line that has arrived. *)
Lemma run_line fuel te t l r c o w v :
  V w v → _client c = Some p → lag v = 0%nat → inb v = l ++ [13; 10] ++ r → 10 ∉ l →
  ∃ w' t', V w' (set_inb r v) ∧
    response_loop (S fuel) te t (c, mkShared o w) =
      (te ← take_line (trim (l ++ [13])) te;
       if bool_decide (trim (l ++ [13]) = []) then end_of_header te
       else response_loop fuel te t') (c, mkShared o w').
Proof.
  intros HV Hc Hlag Hi Hl. cbn [response_loop].
  destruct (run_connected answer p st V D HK c o w v HV Hc) as (w1 & E1 & V1).
  rewrite (run_bind _ _ _ _ _ E1). cbn [negb]. rewrite (run_bind _ _ _ _ _ (run_client p c _ Hc)).
  destruct (lk_available _ _ _ _ _ HK w1 v V1) as (n & w2 & E2 & V2 & Hn & Hm & H0').
  rewrite (bind_call _ _ _ _ _ _ _ E2), to_size_id by lia.
  destruct (Z.ltb_spec 0 n) as [Hp|Hp].
  2: { exfalso. assert (n = 0) as -> by lia. destruct (H0' eq_refl) as [E|]; [|lia].
       rewrite Hi in E. by destruct l. }
  assert (Hi' : inb v = (l ++ [13]) ++ 10 :: r) by (by rewrite Hi, <-app_assoc).
  destruct (lk_readStringUntil _ _ _ _ _ HK w2 v _ r V2 Hi') as (w3 & E3 & V3).
  { rewrite not_elem_of_app. split; [done|]. by intros ?%list_elem_of_singleton. }
  rewrite (bind_call _ _ _ _ _ _ _ E3).
  destruct (lk_millis _ _ _ _ _ HK w3 _ V3) as (t' & w4 & E4 & V4).
  rewrite (bind_call _ _ _ _ _ _ _ E4). by exists w4, t'.
Qed.

(** The empty line counts as a header without a name. *)
Lemma take_empty te c (s : shared W) :
  counted c → take_line [] te (c, s) =
    Ok (te, (fst (header_step (c, te) ([], [])), s)).
Proof.
  intros HC. unfold take_line. rewrite starts_prefix.
  rewrite bool_decide_eq_false_2 by (by intros [r E]).
  assert (indexOf_char [] 58 0 = -1) as -> by (apply index_first_none, not_elem_of_nil).
  cbn [truth Z.eqb negb].
  assert (substring [] 0 (to_uint (-1)) = []) as ->.
  { rewrite substring_take by (vm_compute; split; discriminate). by rewrite drop_nil, take_nil. }
  assert (trim (substring_from [] (to_uint (-1 + 1))) = []) as ->.
  { rewrite substring_from_drop by (vm_compute; discriminate). rewrite drop_nil. by rewrite trim_strip. }
  assert (EQ : ∀ k, k ≠ [] → equalsIgnoreCase [] k = false).
  { intros k Hk. rewrite equals_lower. apply bool_decide_eq_false_2. by destruct k. }
  unfold header_step. cbn [fst snd]. rewrite !EQ by done. rewrite run_bind_ret, bind_self.
  rewrite andb_false_r, run_bind_ret. by rewrite (run_bind _ _ _ _ _ (run_keep c [] [] s HC)).
Qed.

(** The headers, the empty line, and then what the header says. *)
Lemma run_headers hs fuel te t body c o w v :
  V w v → _client c = Some p → lag v = 0%nat → counted c →
  inb v = block hs ++ crlf ++ body → (length hs < fuel)%nat →
  Forall (λ h, token (fst h) ∧ clean (snd h) ∧ len (shown h) < INT_MAX) hs →
  ∃ w', V w' (set_inb body v) ∧
    let '(c', te') := fold_left header_step (hs ++ [([], [])]) (c, te) in
    response_loop fuel te t (c, mkShared o w) = end_of_header te' (c', mkShared o w').
Proof.
  revert fuel te t c w v. induction hs as [|[name x] hs IH];
    intros fuel te t c w v HV Hc Hlag HC Hi HF Hhs; (destruct fuel as [|fuel]; [lia|]).
  - destruct (run_line fuel te t [] body c o w v HV Hc Hlag Hi) as (w1 & t1 & V1 & E1);
      [apply not_elem_of_nil|].
    exists w1. split; [done|]. cbn [app fold_left]. rewrite E1.
    assert (trim ([] ++ [13]) = []) as -> by (by rewrite trim_strip).
    rewrite (run_bind _ _ _ _ _ (take_empty te c _ HC)).
    rewrite bool_decide_eq_true_2 by done. unfold header_step. cbn [fst snd].
    destruct (equalsIgnoreCase [] (bytes_of "Transfer-Encoding"%string)) eqn:E; [|done].
    rewrite equals_lower, bool_decide_eq_true in E. done.
  - apply Forall_inv in Hhs as HX. destruct HX as (Hn & Hx & HL). apply Forall_inv_tail in Hhs.
    cbn [fst snd] in *.
    assert (Hi1 : inb v = (name ++ bytes_of ": "%string ++ x) ++ [13; 10] ++ block hs ++ crlf ++ body).
    { rewrite Hi. unfold block, line, crlf. cbn [map concat fst snd]. by rewrite <-!app_assoc. }
    destruct (run_line fuel te t _ _ c o w v HV Hc Hlag Hi1) as (w1 & t1 & V1 & E1).
    { rewrite !not_elem_of_app. destruct Hn as [_ Hn]. split; [|split; [decide_by_vm|by destruct Hx]].
      apply not_in_token; [|done]. by intros [? _]. }
    rewrite E1. assert (trim ((name ++ bytes_of ": "%string ++ x) ++ [13]) = shown (name, x)) as ->.
    { rewrite trim_strip, <-!app_assoc. by apply strip_line. }
    rewrite (run_bind _ _ _ _ _ (run_take_line name x te c _ Hn Hx HC HL)).
    rewrite bool_decide_eq_false_2.
    2: { unfold shown. cbn [fst]. destruct Hn as [Hn _]. by destruct name. }
    cbn [app fold_left]. pose proof (header_step_counted c te (name, x) HC) as HC'.
    assert (Hc' : _client (fst (header_step (c, te) (name, x))) = Some p).
    { rewrite <-Hc. unfold header_step. cbn [fst]. repeat match goal with
      | |- context [match _currentHeaders ?c with _ => _ end] => destruct (_currentHeaders c); cbn
      | |- context [if ?b then _ else _] => destruct b; cbn end; done. }
    destruct (header_step (c, te) (name, x)) as [c1 te1]. cbn [fst snd] in *.
    destruct (IH fuel te1 t1 c1 w1 _ V1 Hc' Hlag HC' eq_refl) as (w2 & V2 & E2);
      [cbn in HF; lia|done|]. by exists w2.
Qed.

Lemma status_trim v code reason :
  reason ≠ [] → front_ok (rev reason) →
  trim (status_line v code reason ++ [13]) = status_line v code reason.
Proof.
  intros Hr HF. rewrite trim_strip. unfold strip. rewrite (drop_blanks_id (status_line _ _ _ ++ _)).
  2: { by intros c r [= <- _]. }
  rewrite rev_app_distr. cbn [rev app drop_blanks]. change (blank 13) with true. cbv iota.
  rewrite drop_blanks_id; [apply rev_involutive|]. unfold status_line.
  rewrite !app_assoc, rev_app_distr. apply front_ok_app; [|done].
  intros E. apply (f_equal length) in E. rewrite length_rev in E. by destruct reason.
Qed.

Definition answered (v code : Z) (c : HTTPClient) : HTTPClient :=
  set_returnCode code (set_canReuse (_canReuse c && negb (v =? 48)) c).

Lemma run_status v code reason te c (s : shared W) :
  0 < code < 1000 →
  take_line (status_line v code reason) te (c, s) = Ok (te, (answered v code c, s)).
Proof.
  intros Hcode. unfold take_line. rewrite starts_prefix.
  rewrite bool_decide_eq_true_2 by by eexists. rewrite bind_self.
  rewrite charAt_nth by (unfold status_line; rewrite !len_app; cbn; lia).
  change (nth (Z.to_nat 7) (status_line v code reason) 0) with v.
  set (pre := bytes_of "HTTP/1."%string ++ [v; 32]).
  assert (ES : status_line v code reason = pre ++ dec code ++ 32 :: reason).
  { unfold status_line, pre. by rewrite <-!app_assoc. }
  pose proof (numeral_length 10 code) as HL.
  assert (Z.log2 code < 10) by (apply Z.log2_lt_pow2; lia).
  assert (EI : indexOf_char (status_line v code reason) 32 9 = 9 + len (dec code)).
  { rewrite ES. apply (index_char pre (dec code) 32 reason). apply not_in_dec; lia. }
  assert (EC : toInt (substring (status_line v code reason) 9
                        (to_uint (indexOf_char (status_line v code reason) 32 9))) = code).
  { rewrite EI, to_uint_id by (unfold dec, INT_MAX; lia). rewrite substring_take by lia.
    rewrite ES. change (Z.to_nat 9) with (length pre). rewrite drop_app_length.
    replace (9 + len (dec code) - 9) with (len (dec code)) by lia. rewrite take_len_app by done.
    rewrite <-(app_nil_r (dec code)). apply toInt_dec; [unfold INT_MAX; lia|done]. }
  rewrite EC, to_int_id by (unfold in_int, INT_MIN, INT_MAX; lia).
  assert (E1 : (if _canReuse c then become (set_canReuse (negb (v =? 48))) else mret tt) (c, s) =
    Ok (tt, (set_canReuse (_canReuse c && negb (v =? 48)) c, s))).
  { destruct (_canReuse c) eqn:E; [done|]. cbn. rewrite <-E. by destruct c. }
  rewrite (run_bind _ _ _ _ _ E1). rewrite bind_become. done.
Qed.

(** The object when the response begins, and the answer at the end of it. *)
Definition asked (c : HTTPClient) : HTTPClient :=
  set_transferEncoding HTTPC_TE_IDENTITY (set_canReuse (_reuse c) (cleared c)).

Definition chunks (te : list Z) : bool := equalsIgnoreCase te (bytes_of "chunked"%string).

Lemma run_end te c (s : shared W) :
  0 < _returnCode c → te = [] ∨ chunks te = true →
  end_of_header te (c, s) = Ok (_returnCode c,
    (set_transferEncoding (if bool_decide (te = []) then HTTPC_TE_IDENTITY else HTTPC_TE_CHUNKED) c, s)).
Proof.
  intros Hc Ht. unfold end_of_header, chunks in *.
  assert (truth (_returnCode c) = true) as HT by (unfold truth; destruct (Z.eqb_spec (_returnCode c) 0); lia || done).
  destruct te as [|x te].
  - rewrite bool_decide_eq_true_2 by done. change (0 <? len []) with false. cbv iota.
    rewrite bind_become, bind_self. cbn [_returnCode set_transferEncoding]. by rewrite HT.
  - destruct Ht as [|Ht]; [done|]. rewrite bool_decide_eq_false_2 by done.
    destruct (Z.ltb_spec 0 (len (x :: te))); [|cbn in *; lia]. rewrite Ht.
    rewrite bind_become, bind_self. cbn [_returnCode set_transferEncoding]. by rewrite HT.
Qed.

(** The whole header. *)
Lemma run_response vs code reason hs body fuel c o w v te :
  V w v → _client c = Some p → lag v = 0%nat → counted c → response_ok vs code reason hs →
  inb v = response vs code reason hs body → (S (length hs) < fuel)%nat →
  te = snd (fold_headers (hs ++ [([], [])]) (answered vs code (asked c))) →
  te = [] ∨ chunks te = true →
  ∃ w', V w' (set_inb body v) ∧
    handleHeaderResponse fuel (c, mkShared o w) = Ok (code,
      (set_transferEncoding (if bool_decide (te = []) then HTTPC_TE_IDENTITY else HTTPC_TE_CHUNKED)
         (fst (fold_headers (hs ++ [([], [])]) (answered vs code (asked c)))), mkShared o w')).
Proof.
  intros HV Hc Hlag HC [Hvs Hcode (Hr1 & Hr2 & Hr3) Hhs] Hi HF Hte Ht. unfold handleHeaderResponse.
  destruct (run_connected answer p st V D HK c o w v HV Hc) as (w1 & E1 & V1).
  rewrite (run_bind _ _ _ _ _ E1). cbn [negb].
  rewrite (run_bind _ _ _ _ _ (run_clear c _)), bind_self, !bind_become.
  destruct (lk_millis _ _ _ _ _ HK w1 v V1) as (t & w2 & E2 & V2).
  rewrite (bind_call _ _ _ _ _ _ _ E2). destruct fuel as [|fuel]; [lia|].
  change (set_transferEncoding HTTPC_TE_IDENTITY (set_canReuse (_reuse (cleared c)) (cleared c)))
    with (asked c).
  assert (Hi1 : inb v = status_line vs code reason ++ [13; 10] ++ block hs ++ crlf ++ body) by done.
  destruct (run_line fuel [] t _ _ (asked c) o w2 v V2 Hc Hlag Hi1) as (w3 & t3 & V3 & E3).
  { unfold status_line. rewrite !not_elem_of_app. split; [decide_by_vm|].
    split; [by intros [E|E%list_elem_of_singleton]%elem_of_cons; [destruct Hvs|]|].
    split; [apply not_in_dec; lia|]. by split; [decide_by_vm|]. }
  rewrite E3, status_trim by done. rewrite (run_bind _ _ _ _ _ (run_status _ _ _ _ _ _ Hcode)).
  rewrite bool_decide_eq_false_2 by done.
  destruct (run_headers hs fuel [] t3 body (answered vs code (asked c)) o w3 _ V3 Hc Hlag HC eq_refl)
    as (w4 & V4 & E4); [lia|done|].
  exists w4. split; [done|]. unfold fold_headers in *.
  destruct (fold_left header_step (hs ++ [([], [])]) (answered vs code (asked c), [])) as [c' te'] eqn:EF.
  cbn [fst snd] in *. subst te'. rewrite E4.
  assert (ER : _returnCode c' = code).
  { pose proof (fold_same (hs ++ [([], [])]) (answered vs code (asked c))) as (_ & ER & _).
    unfold fold_headers in ER. rewrite EF in ER. done. }
  rewrite run_end by (rewrite ?ER; done || lia). by rewrite ER.
Qed.

End Response.

(** ** The request *)
Section Request.
Context `{CImpl} `{ArduinoString} `{HS : !StringLaws} `{HttpConfig} {W : Type} `{HttpNet W}.
Context (answer : list Z → list Z) (p : Z) (st : Stream) (V D C : W → view → Prop).
Hypothesis HK : link answer p st V D.
Hypothesis HC : closed_link p V C.

Lemma run_connect fuel c o w v :
  C w v → _client c = Some p → _tcpDeprecated c = None →
  ∃ w', connect fuel (c, mkShared o w) = Ok (true, (c, mkShared o w')) ∧ V w' v.
Proof.
  intros Hw Hc Hd. unfold connect.
  assert (∃ w1, connected (c, mkShared o w) = Ok (false, (c, mkShared o w1)) ∧ C w1 v)
    as (w1 & E1 & C1).
  { unfold connected. rewrite bind_self, Hc.
    destruct (cl_down _ _ _ HC w v Hw) as (w1 & w2 & E1 & E2 & C2).
    rewrite (bind_call _ _ _ _ _ _ _ E1). cbn [Z.ltb Z.compare].
    rewrite (bind_call _ _ _ _ _ _ _ E2). by exists w2. }
  rewrite (run_bind _ _ _ _ _ E1).
  assert (E2 : make_client (c, mkShared o w1) = Ok (tt, (c, mkShared o w1))).
  { unfold make_client. rewrite bind_self, Hc. by destruct (_transportTraits c). }
  rewrite (run_bind _ _ _ _ _ E2), bind_self, Hc.
  destruct (cl_up _ _ _ HC (c_string (_host c)) (_port c) (_connectTimeout c) w1 v C1)
    as (r & w2 & E3 & Hr & V2).
  rewrite (bind_call _ _ _ _ _ _ _ E3). destruct (Z.ltb_spec r 0); [lia|].
  destruct (lk_setTimeout _ _ _ _ _ HK ((_tcpTimeout c + 500) / 1000) w2 v V2) as (w3 & E4 & V3).
  rewrite (bind_call _ _ _ _ _ _ _ E4), Hd, run_bind_ret. cbn [negb].
  by apply (run_connected answer p st V D HK).
Qed.

(** What is sent before the payload. *)
Definition head (c : HTTPClient) (type : list Z) : list Z :=
  request_line c type ++ block (default_headers c) ++ _headers c ++ crlf.

Lemma run_sendHeader type c o w v :
  V w v → _client c = Some p → 0 ≤ _port c → 10 ∉ _base64Authorization c →
  ∃ w', sendHeader type (c, mkShared o w) = Ok (true, (c, mkShared o w')) ∧
    V w' (View (inb v ++ answer (sent v ++ head c type)) (sent v ++ head c type) (outb v) (lag v)).
Proof.
  intros HV Hc Hp Ha. unfold sendHeader.
  destruct (run_connected answer p st V D HK c o w v HV Hc) as (w1 & E1 & V1).
  rewrite (run_bind _ _ _ _ _ E1). cbn [negb]. rewrite bind_self.
  assert (Er : set_base64Authorization (replace (_base64Authorization c) [10] []) c = c).
  { rewrite replace_absent; [by destruct c|].
    intros pre post E. apply Ha. rewrite E, !elem_of_app. right. left. by apply list_elem_of_here. }
  set (h := request_header c type).
  assert (E2 : (if truth (len (_base64Authorization c)) then
       become (set_base64Authorization (replace (_base64Authorization c) [10] [])) ;;
       c ← self; mret (authorization c h)
     else mret h) (c, mkShared o w1) =
     Ok (if truth (len (_base64Authorization c)) then authorization c h else h, (c, mkShared o w1))).
  { destruct (truth _); [|done]. by rewrite bind_become, bind_self, Er. }
  rewrite (run_bind _ _ _ _ _ E2), bind_self, (run_bind _ _ _ _ _ (run_client p c _ Hc)).
  cbv zeta. unfold h. rewrite request_header_spec by done. fold (head c type).
  destruct (lk_write _ _ _ _ _ HK w1 v (head c type) [0] V1) as (w2 & E3 & V2).
  change (Ptr (head c type ++ [0]) 0) with (c_string (head c type)) in E3.
  rewrite (bind_call _ _ _ _ _ _ _ E3), Z.eqb_refl. by exists w2.
Qed.

(** The payload that a call is given: its bytes, at the front of an object. *)
Definition payload_is (payload : option ptr) (body : list Z) : Prop :=
  match payload with
  | None => body = []
  | Some q => ∃ tl, q = Ptr (body ++ tl) 0
  end.

(** The headers of a request with a body. *)
Definition with_length (body : list Z) (l : list (list Z * list Z)) : list (list Z * list Z) :=
  match body with
  | [] => l
  | _ => put false (bytes_of "Content-Length"%string) (dec (len body)) l
  end.

Definition request (c : HTTPClient) (type : list Z) (l : list (list Z * list Z)) (body : list Z)
  : list Z :=
  request_line c type ++ block (default_headers c ++ with_length body l) ++ crlf ++ body.

(** The headers the application has set are in order. *)
Definition headers_ok (c : HTTPClient) (l : list (list Z * list Z)) : Prop :=
  _headers c = block l ∧ Forall (found_in_place (bytes_of "Content-Length"%string)) l ∧
  NoDup (map fst l) ∧ Forall (λ h, 10 ∉ snd h) l ∧ len (block l) < INT_MAX.

Lemma length_not_reserved c : reserved c (bytes_of "Content-Length"%string) = false.
Proof.
  unfold reserved. rewrite !equals_lower, !bool_decide_eq_false_2 by (by vm_compute). done.
Qed.

(** Everything up to the response. *)
Lemma run_request fuel type payload body l c o w v :
  C w v → inb v = [] → _client c = Some p → _tcpDeprecated c = None → 0 ≤ _port c →
  10 ∉ _base64Authorization c → headers_ok c l → payload_is payload body →
  (∀ x, answer (sent v ++ x) = if bool_decide (x = request c type l body) then
                                 answer (sent v ++ request c type l body) else []) →
  ∃ w' c', V w' (View (answer (sent v ++ request c type l body)) (sent v ++ request c type l body)
                   (outb v) (lag v)) ∧ c' = set_headers (block (with_length body l)) c ∧
    sendRequest fuel type payload (len body) (c, mkShared o w) =
      (r ← handleHeaderResponse fuel; returnError r) (c', mkShared o w').
Proof.
  intros Hw Hi Hc Hd Hp Ha (Hh & HF & HN & HV & HL) Hpl HA. unfold sendRequest.
  destruct (run_connect fuel c o w v Hw Hc Hd) as (w1 & E1 & V1).
  rewrite (run_bind _ _ _ _ _ E1). cbn [negb].
  set (c' := set_headers (block (with_length body l)) c).
  assert (HB : nonnull payload && (0 <? len body) = negb (bool_decide (body = []))).
  { destruct body as [|x body]; [by rewrite andb_false_r|].
    destruct (Z.ltb_spec 0 (len (x :: body))); [|cbn in *; lia]. by destruct payload. }
  assert (E2 : (if nonnull payload && (0 <? len body)
     then addHeader (bytes_of "Content-Length"%string) (String_of (len body)) false true
     else mret tt) (c, mkShared o w1) = Ok (tt, (c', mkShared o w1))).
  { rewrite HB. unfold c'. destruct body as [|x body]; cbn [with_length].
    - rewrite bool_decide_eq_true_2 by done. cbn [negb]. rewrite <-Hh. by destruct c.
    - rewrite bool_decide_eq_false_2 by done. cbn [negb]. rewrite String_of_dec by lia.
      apply (run_addHeader _ _ false true); [done|apply length_not_reserved|].
      intros _. split; [decide_by_vm|done..]. }
  rewrite (run_bind _ _ _ _ _ E2).
  destruct (run_sendHeader type c' o w1 v V1 Hc Hp Ha) as (w2 & E3 & V2).
  rewrite (run_bind _ _ _ _ _ E3). cbn [negb].
  assert (ER : request c type l body = head c' type ++ body).
  { unfold request, head. rewrite block_app. change (_headers c') with (block (with_length body l)).
    by rewrite <-!app_assoc. }
  destruct (decide (body = [])) as [->|Hb].
  - rewrite app_nil_r in ER. rewrite HA, ER, bool_decide_eq_true_2 in V2 by done. cbn [length] in *.
    exists w2, c'. rewrite ER, Hi in *. split; [done|]. split; [done|]. by destruct payload.
  - rewrite HA, bool_decide_eq_false_2 in V2.
    2: { rewrite ER. intros E. rewrite <-(app_nil_r (head c' type)) in E at 1.
         by apply app_inv_head in E. }
    destruct payload as [q|]; [|done]. destruct Hpl as [tl ->].
    destruct (Z.ltb_spec 0 (len body)) as [|Hz]; [|by apply len_pos in Hb; lia].
    rewrite run_assoc, (run_bind _ _ _ _ _ (run_client p c' _ Hc)), run_assoc.
    destruct (lk_write _ _ _ _ _ HK w2 _ body tl V2) as (w3 & E4 & V3).
    rewrite (bind_call _ _ _ _ _ _ _ E4), run_bind_ret, Z.eqb_refl. cbn [negb].
    exists w3, c'. cbn [inb sent outb lag] in V3. rewrite <-!app_assoc, <-ER, Hi in V3. by repeat split.
Qed.

End Request.

Lemma fold_last `{ArduinoString} `{!StringLaws} hs c :
  let c' := fst (fold_headers hs c) in let c2 := fst (fold_headers (hs ++ [([], [])]) c) in
  _size c2 = _size c' ∧ _canReuse c2 = _canReuse c'.
Proof.
  cbv zeta. rewrite fold_snoc. destruct (fold_headers hs c) as [c' te'].
  assert (EQ : ∀ k, k ≠ [] → equalsIgnoreCase [] k = false).
  { intros k Hk. rewrite equals_lower. apply bool_decide_eq_false_2. by destruct k. }
  unfold header_step. cbn [fst snd]. rewrite !EQ by done. rewrite andb_false_r.
  by destruct (_currentHeaders c').
Qed.

(** The encoding and the collected values that the headers announce. *)
Definition announced `{ArduinoString} (hs : list (list Z * list Z)) : list Z :=
  default [] (last_value (bytes_of "Transfer-Encoding"%string) hs).

Definition announced_size `{ArduinoString} (hs : list (list Z * list Z)) : Z :=
  match last_value (bytes_of "Content-Length"%string) hs with
  | Some x => to_int (toInt x) | None => -1 end.

(** C26: A request over a connection that works: exactly the request line, the headers of the
    client, those of the application, the length and the payload are sent; the result is the
    code of the response; the size, the encoding and whether the connection can be used again
    are those the last header of their name says; what is left to read is the body. *)
Theorem http_exchange `{CImpl} `{ArduinoString} `{!StringLaws} `{HttpConfig} {W} `{HttpNet W}
    answer p st V D C fuel type payload body l vs code reason hs page (c : HTTPClient) o w v :
  link answer p st V D → closed_link p V C →
  C w v → inb v = [] → lag v = 0%nat → _client c = Some p → _tcpDeprecated c = None →
  0 ≤ _port c → 10 ∉ _base64Authorization c → headers_ok c l → payload_is payload body →
  counted c → response_ok vs code reason hs → (S (length hs) < fuel)%nat →
  announced hs = [] ∨ chunks (announced hs) = true →
  (∀ x, answer (sent v ++ x) = if bool_decide (x = request c type l body)
                               then response vs code reason hs page else []) →
  ∃ c' w', sendRequest fuel type payload (len body) (c, mkShared o w) = Ok (code, (c', mkShared o w')) ∧
    V w' (View page (sent v ++ request c type l body) (outb v) (lag v)) ∧
    _client c' = Some p ∧ _returnCode c' = code ∧ _size c' = announced_size hs ∧
    _transferEncoding c' = (if bool_decide (announced hs = []) then HTTPC_TE_IDENTITY
                            else HTTPC_TE_CHUNKED) ∧
    _canReuse c' = (_reuse c && negb (vs =? 48) &&
      forallb (λ h, negb (equalsIgnoreCase (fst h) (bytes_of "Connection"%string) &&
                          closes (snd h))) hs).
Proof.
  intros HK HC Hw Hi Hlag Hc Hd Hp Ha Hh Hpl HN HR HF HT HA.
  assert (HA' : answer (sent v ++ request c type l body) = response vs code reason hs page).
  { by rewrite HA, bool_decide_eq_true_2. }
  destruct (run_request answer p st V D C HK HC fuel type payload body l c o w v Hw Hi Hc Hd Hp Ha Hh Hpl)
    as (w1 & c1 & V1 & Ec & E1); [by rewrite HA'|]. rewrite HA' in V1.
  assert (HTE : snd (fold_headers (hs ++ [([], [])]) (answered vs code (asked c1))) = announced hs).
  { rewrite fold_encoding, last_value_snoc. cbn [fst]. rewrite equals_lower.
    by rewrite bool_decide_eq_false_2 by by vm_compute. }
  destruct (run_response answer p st V D HK vs code reason hs page fuel c1 o w1 _ (announced hs) V1)
    as (w2 & V2 & E2); try done; [by rewrite Ec..|]. cbn [sent outb lag] in V2.
  pose proof (fold_last hs (answered vs code (asked c1))) as [Es Er].
  pose proof (fold_same (hs ++ [([], [])]) (answered vs code (asked c1))) as (Fc & Fr & _).
  pose proof (fold_size hs (answered vs code (asked c1))) as Fs.
  pose proof (fold_reuse hs (answered vs code (asked c1))) as Fu.
  eexists _, w2. split; [|split; [exact V2|]].
  - rewrite E1, (run_bind _ _ _ _ _ E2). unfold returnError. destruct HR as [_ Hcode _ _].
    destruct (Z.ltb_spec code 0); [lia|]. by rewrite run_bind_ret.
  - cbn [_client _returnCode _size _transferEncoding _canReuse set_transferEncoding].
    rewrite Fc, Fr, Es, Er, Fs, Fu, Ec. repeat split.
    cbn [_client set_headers answered asked set_returnCode set_canReuse set_transferEncoding cleared
      set_size]. done.
Qed.

Definition get_url : outcome (bool * (HTTPClient * shared net)) :=
  begin_client_url (W := net) 5 (Some 7) (bytes_of "http://host/page"%string)
    (HTTPClient_new, mkShared {[7 := (2, Plain)]} (Net false [] [] [] 0 8)).

Definition page_headers : list (list Z * list Z) :=
  [(bytes_of "content-length"%string, bytes_of "2"%string);
   (bytes_of "Connection"%string, bytes_of "close"%string)].

Definition page_client : HTTPClient :=
  set_uri (bytes_of "/page"%string) (set_host (bytes_of "host"%string) (set_port 80
    (set_client (Some 7) HTTPClient_new))).

Definition server (x : list Z) : list Z :=
  if bool_decide (x = request page_client (bytes_of "POST"%string) [] (bytes_of "a=b"%string))
  then response 49 200 (bytes_of "OK"%string) page_headers (bytes_of "hi"%string) else [].

Lemma http_exchange_witness :
  ∃ c' w', sendRequest (H2 := http_net server) 9 (bytes_of "POST"%string)
      (Some (c_string (bytes_of "a=b"%string))) (len (bytes_of "a=b"%string))
      (page_client, mkShared ∅ (Net false [] [] [] 0 8)) = Ok (200, (c', mkShared ∅ w')) ∧
    net_view w' (View (bytes_of "hi"%string)
      (request page_client (bytes_of "POST"%string) [] (bytes_of "a=b"%string)) [] 0) ∧
    _client c' = Some 7 ∧ _returnCode c' = 200 ∧ _size c' = 2 ∧
    _transferEncoding c' = HTTPC_TE_IDENTITY ∧ _canReuse c' = false.
Proof.
  destruct (http_exchange (H3 := http_net server) server 7 (sink server) net_view net_done net_closed
    9 (bytes_of "POST"%string) (Some (c_string (bytes_of "a=b"%string))) (bytes_of "a=b"%string) []
    49 200 (bytes_of "OK"%string) page_headers (bytes_of "hi"%string) page_client ∅
    (Net false [] [] [] 0 8) (View [] [] [] 0)) as (c' & w' & HE & HV & HR).
  - apply link_net.
  - apply closed_net.
  - by repeat split.
  - done.
  - done.
  - done.
  - done.
  - by vm_compute.
  - decide_by_vm.
  - split; [done|]. split; [constructor|]. split; [constructor|]. split; [constructor|]. by vm_compute.
  - by exists [0].
  - done.
  - split; [done|lia| |].
    + split; [done|]. split; [|decide_by_vm]. by intros c r [= <- _].
    + repeat (constructor; [repeat split; try decide_by_vm; by repeat constructor|]). constructor.
  - cbn. lia.
  - left. by vm_compute.
  - done.
  - exists c', w'. split; [apply HE|]. split; [apply HV|].
    destruct HR as (R1 & R2 & R3 & R4 & R5). split; [apply R1|]. split; [apply R2|].
    rewrite R3, R4, R5. split; [by vm_compute|split; by vm_compute].
Defined.

End HttpExchange.
