(* ===== verification/HttpState.v ===== *)
(** * The state of the HTTP client

    What holds of the members in every state the calls can reach: their ranges,
    and that the headers that are collected are as many as the count says, so
    that reading them is never out of bounds; and what happens when the two
    interfaces of the class meet. *)

From stdpp Require Import gmap.
From S2P Require Import Prelude CSem Numerals ArduinoString Lwip Http HttpSim HttpUrl HttpLink HttpExchange.

Module HttpState.
Import Http HttpUrl HttpLink.

(** The values the types of the members allow, and the array of headers. *)
Definition typed (c : HTTPClient) : Prop :=
  HttpExchange.counted c ∧ 0 ≤ _port c < 65536 ∧ in_int (_size c) = true ∧
  in_int (_returnCode c) = true ∧ 0 ≤ _headerKeysCount c.

Lemma typed_new : typed HTTPClient_new.
Proof. repeat split; by vm_compute. Qed.

Lemma to_int_in z : in_int (to_int z) = true.
Proof. unfold in_int, to_int, INT_MIN, INT_MAX. pose proof (Z.mod_pos_bound (z + 2147483648) 4294967296). lia. Qed.

Section Keeps.
Context `{CImpl} `{ArduinoString} `{HttpConfig} {W : Type} `{HttpNet W}.
#[local] Abbreviation T A := (M (HTTPClient * shared W) A).

(** A method that returns leaves the object well-typed. *)
Definition keeps {A} (m : T A) : Prop :=
  ∀ c s a c' s', m (c, s) = Ok (a, (c', s')) → typed c → typed c'.

Lemma http_keeps_ret {A} (a : A) : keeps (mret a).
Proof. by intros c s b c' s' [= <- <- <-]. Qed.

Lemma http_keeps_no_fuel {A} : keeps (no_fuel : T A).
Proof. by intros c s b c' s' E. Qed.

Lemma http_keeps_bind {A B} (m : T A) (f : A → T B) : keeps m → (∀ a, keeps (f a)) → keeps (m ≫= f).
Proof.
  intros Hm Hf c s b c' s' (a & [c1 s1] & E1 & E2)%run_bind_inv HT. eapply Hf; [done|]. by eapply Hm.
Qed.

Lemma keeps_lift_bind {A B} (o : outcome A) (f : A → T B) :
  (∀ a, o = Ok a → keeps (f a)) → keeps (lift o ≫= f).
Proof.
  intros Hf c s b c' s' (a & s1 & [Eo ->]%run_lift_inv & E2)%run_bind_inv HT. by eapply Hf.
Qed.

Lemma http_keeps_lift {A} (o : outcome A) : keeps (lift o).
Proof. by intros c s b c' s' [_ [= -> ->]]%run_lift_inv. Qed.

Lemma keeps_sys {A} (m : M (shared W) A) : keeps (sys m).
Proof. by intros c s a c' s' (w & _ & [= -> _])%sys_inv. Qed.

Lemma keeps_call {A} (m : M W A) : keeps (call m).
Proof. apply keeps_sys. Qed.

Lemma keeps_self : keeps self.
Proof. by intros c s a c' s' [= <- <- <-]. Qed.

Lemma keeps_become g : (∀ c, typed c → typed (g c)) → keeps (become g).
Proof. intros Hg c s a c' s' [= <- <- <-]. apply Hg. Qed.

(** A change of the members [typed] does not speak of, or of their values. *)
Lemma typed_size z c : in_int z = true → typed c → typed (set_size z c).
Proof. by intros ? (? & ? & ? & ? & ?). Qed.
Lemma typed_returnCode z c : in_int z = true → typed c → typed (set_returnCode z c).
Proof. by intros ? (? & ? & ? & ? & ?). Qed.
Lemma typed_port z c : 0 ≤ z < 65536 → typed c → typed (set_port z c).
Proof. by intros ? (? & ? & ? & ? & ?). Qed.

End Keeps.

Create HintDb http_keeps.

Ltac keep_become :=
  apply keeps_become; intros ? HT;
  first [ exact HT
        | apply typed_size; [first [apply to_int_in | done]|exact HT]
        | apply typed_returnCode; [first [apply to_int_in | done]|exact HT]
        | apply typed_port; [repeat case_match; lia|exact HT] ].

Ltac keep_step :=
  match goal with
  | |- keeps (mret _) => apply http_keeps_ret
  | |- keeps no_fuel => apply http_keeps_no_fuel
  | |- keeps (call _) => apply keeps_call
  | |- keeps (sys _) => apply keeps_sys
  | |- keeps (lift _) => apply http_keeps_lift
  | |- keeps self => apply keeps_self
  | |- keeps (become _) => keep_become
  | |- keeps (lift _ ≫= _) => apply keeps_lift_bind; intros ? ?
  | |- keeps (_ ≫= _) => apply http_keeps_bind; [|intros ?]
  | |- keeps (if ?b then _ else _) => destruct b
  | |- keeps (match ?x with _ => _ end) => destruct x
  | |- keeps _ => eauto with http_keeps
  end.
Ltac keep := repeat (cbv zeta; keep_step).

Section Methods.
Context `{CImpl} `{ArduinoString} `{HttpConfig} {W : Type} `{HttpNet W}.
#[local] Abbreviation keeps m := (keeps (W := W) m).

Lemma keeps_clear : keeps clear.
Proof. unfold clear. keep. Qed.
#[local] Hint Resolve keeps_clear : http_keeps.

Lemma keeps_sp_copy p : keeps (sp_copy p).
Proof. unfold sp_copy, sp_count, sp_store. keep. Qed.
Lemma keeps_sp_drop p : keeps (sp_drop p).
Proof. unfold sp_drop, sp_count, sp_store. keep. Qed.
#[local] Hint Resolve keeps_sp_copy keeps_sp_drop : http_keeps.

Lemma keeps_assign_client p : keeps (assign_client p).
Proof. unfold assign_client. keep. Qed.
Lemma http_keeps_client : keeps client.
Proof. unfold client. keep. Qed.
Lemma keeps_connected : keeps connected.
Proof. unfold connected. keep. Qed.
#[local] Hint Resolve keeps_assign_client http_keeps_client keeps_connected : http_keeps.

Lemma keeps_drain fuel : keeps (drain fuel).
Proof. induction fuel as [|fuel IH]; cbn [drain]; keep. Qed.
#[local] Hint Resolve keeps_drain : http_keeps.

Lemma http_keeps_disconnect fuel b : keeps (disconnect fuel b).
Proof. unfold disconnect. keep. Qed.
#[local] Hint Resolve http_keeps_disconnect : http_keeps.

Lemma keeps_end fuel : keeps (end_ fuel).
Proof. unfold end_. keep. Qed.
#[local] Hint Resolve keeps_end : http_keeps.

Lemma http_port_range z : 0 ≤ to_ushort z < 65536.
Proof. unfold to_ushort. lia. Qed.

Lemma keeps_set_port z : keeps (become (set_port (to_ushort z))).
Proof. apply keeps_become. intros c HT. by apply typed_port; [apply http_port_range|]. Qed.

Lemma keeps_parse_host url : keeps (parse_host url).
Proof. pose proof keeps_set_port. unfold parse_host. keep; auto. Qed.
#[local] Hint Resolve keeps_parse_host : http_keeps.

Lemma keeps_beginInternal url e : keeps (beginInternal url e).
Proof. unfold beginInternal. keep. Qed.
#[local] Hint Resolve keeps_beginInternal : http_keeps.

Lemma keeps_leave_deprecated fuel : keeps (leave_deprecated fuel).
Proof. unfold leave_deprecated. keep. Qed.
Lemma keeps_leave_client fuel : keeps (leave_client fuel).
Proof. unfold leave_client. keep. Qed.
#[local] Hint Resolve keeps_leave_deprecated keeps_leave_client : http_keeps.

Lemma keeps_begin_client_url fuel p url : keeps (begin_client_url fuel p url).
Proof. unfold begin_client_url. keep. Qed.
Lemma keeps_begin_client fuel p host port uri https :
  0 ≤ port < 65536 → keeps (begin_client fuel p host port uri https).
Proof. intros. unfold begin_client. keep. Qed.
Lemma keeps_begin_url_ca fuel url ca : keeps (begin_url_ca fuel url ca).
Proof. unfold begin_url_ca. keep. Qed.
#[local] Hint Resolve keeps_begin_url_ca : http_keeps.
Lemma keeps_begin_url fuel url : keeps (begin_url fuel url).
Proof. unfold begin_url. keep. Qed.
Lemma keeps_begin_host fuel host port uri :
  0 ≤ port < 65536 → keeps (begin_host fuel host port uri).
Proof. intros. unfold begin_host. keep. Qed.
Lemma keeps_begin_host_certs fuel host port uri ca cert k :
  0 ≤ port < 65536 → keeps (begin_host_certs fuel host port uri ca cert k).
Proof. intros. unfold begin_host_certs. keep. Qed.

Lemma keeps_setTimeout t : keeps (setTimeout t).
Proof. unfold setTimeout. keep. Qed.
Lemma keeps_useHTTP10 b : keeps (useHTTP10 b).
Proof. unfold useHTTP10. keep. Qed.
Lemma keeps_setAuthorization_user u q : keeps (setAuthorization_user u q).
Proof. unfold setAuthorization_user. keep. Qed.
Lemma keeps_setAuthorization a : keeps (setAuthorization a).
Proof. unfold setAuthorization. keep. Qed.
Lemma keeps_addHeader n v f r : keeps (addHeader n v f r).
Proof. unfold addHeader. keep. Qed.
#[local] Hint Resolve keeps_addHeader : http_keeps.

(** The array of headers keeps its length. *)
Lemma keeps_header_at i : keeps (header_at i).
Proof. unfold header_at. keep. Qed.

Lemma keeps_header_set i h : keeps (header_set i h).
Proof.
  intros c s a c' s' E (HC & HT). unfold header_set in E. rewrite bind_self in E.
  destruct (_currentHeaders c) as [l|] eqn:El; [|done].
  apply run_bind_inv in E as (l' & s1 & [E1 ->]%run_lift_inv & [= <- <- <-]).
  split; [|done]. unfold HttpExchange.counted in *. cbn. rewrite El in HC.
  by rewrite (arr_set_length _ _ _ _ E1).
Qed.
#[local] Hint Resolve keeps_header_at keeps_header_set : http_keeps.

Lemma keeps_for n i (body : Z → M (HTTPClient * shared W) unit) :
  (∀ j, keeps (body j)) → keeps (for_loop n i body).
Proof. intros Hb. revert i. induction n as [|n IH]; intros i; cbn [for_loop]; keep; auto. Qed.

Lemma keeps_collectHeaders keys n : 0 ≤ n → keeps (collectHeaders keys n).
Proof.
  intros Hn c s a c' s' E HT. unfold collectHeaders in E. rewrite !bind_become in E.
  refine (keeps_for _ _ _ _ _ _ _ _ _ E _).
  - intros j. keep.
  - destruct HT as (_ & Hp & Hs & Hr & _). split; [|by repeat split; destruct_and?].
    unfold HttpExchange.counted. cbn. rewrite length_replicate. lia.
Qed.

Lemma keeps_header_loop n i name : keeps (header_loop n i name).
Proof. revert i. induction n as [|n IH]; intros i; cbn [header_loop]; keep; auto. Qed.
Lemma keeps_hasHeader_loop n i name : keeps (hasHeader_loop n i name).
Proof. revert i. induction n as [|n IH]; intros i; cbn [hasHeader_loop]; keep; auto. Qed.
Lemma keeps_keep_header n i name v : keeps (keep_header n i name v).
Proof. revert i. induction n as [|n IH]; intros i; cbn [keep_header]; keep; auto. Qed.
#[local] Hint Resolve keeps_keep_header : http_keeps.

Lemma keeps_returnError e : keeps (returnError e).
Proof. unfold returnError. keep. Qed.
#[local] Hint Resolve keeps_returnError : http_keeps.

Lemma keeps_create t : keeps (create t).
Proof. unfold create, sp_new, sp_store. keep. Qed.
Lemma keeps_verify t p : keeps (verify t p).
Proof. unfold verify, sp_count. keep. Qed.
#[local] Hint Resolve keeps_create keeps_verify : http_keeps.

Lemma keeps_make_client : keeps make_client.
Proof. unfold make_client. keep. Qed.
#[local] Hint Resolve keeps_make_client : http_keeps.

Lemma keeps_connect fuel : keeps (connect fuel).
Proof. unfold connect. keep. Qed.
Lemma keeps_sendHeader type : keeps (sendHeader type).
Proof. unfold sendHeader. keep. Qed.
#[local] Hint Resolve keeps_connect keeps_sendHeader : http_keeps.

Lemma keeps_take_line l te : keeps (take_line l te).
Proof. unfold take_line. keep. Qed.
Lemma keeps_end_of_header te : keeps (end_of_header te).
Proof. unfold end_of_header. keep. Qed.
#[local] Hint Resolve keeps_take_line keeps_end_of_header : http_keeps.

Lemma keeps_response_loop fuel te t : keeps (response_loop fuel te t).
Proof. revert te t. induction fuel as [|fuel IH]; intros te t; cbn [response_loop]; keep; auto. Qed.
#[local] Hint Resolve keeps_response_loop : http_keeps.
Lemma keeps_handleHeaderResponse fuel : keeps (handleHeaderResponse fuel).
Proof. unfold handleHeaderResponse. keep. Qed.
#[local] Hint Resolve keeps_handleHeaderResponse : http_keeps.

Lemma keeps_block_loop fuel st bs buff n k : keeps (block_loop fuel st bs buff n k).
Proof. revert buff n k. induction fuel as [|fuel IH]; intros; cbn [block_loop]; keep; auto. Qed.
#[local] Hint Resolve keeps_block_loop : http_keeps.
Lemma keeps_writeToStreamDataBlock fuel st n : keeps (writeToStreamDataBlock fuel st n).
Proof. unfold writeToStreamDataBlock. keep. Qed.
#[local] Hint Resolve keeps_writeToStreamDataBlock : http_keeps.

Lemma keeps_set_size a b z : iadd a b = Ok z → keeps (become (set_size z)).
Proof.
  intros [_ Hz]%iadd_inv. apply keeps_become. intros c HT. apply typed_size; [|done].
  unfold in_int. lia.
Qed.
#[local] Hint Resolve keeps_set_size : http_keeps.

Lemma keeps_chunk_loop fuel st n k : keeps (chunk_loop fuel st n k).
Proof.
  revert n k. induction fuel as [|fuel IH]; intros; cbn [chunk_loop]; repeat (cbv zeta;
    match goal with
    | H : iadd _ _ = Ok ?z |- HttpState.keeps (become (set_size ?z)) => by eapply keeps_set_size
    | _ => keep_step end); auto.
Qed.
#[local] Hint Resolve keeps_chunk_loop : http_keeps.

Lemma keeps_writeToStream fuel st : keeps (writeToStream fuel st).
Proof. unfold writeToStream. keep. Qed.
#[local] Hint Resolve keeps_writeToStream : http_keeps.
Lemma keeps_getString fuel : keeps (getString fuel).
Proof. unfold getString. keep. Qed.
Lemma keeps_sendRequest fuel type payload n : keeps (sendRequest fuel type payload n).
Proof. unfold sendRequest. keep. Qed.
Lemma keeps_upload_loop fuel st bs buff n k : keeps (upload_loop fuel st bs buff n k).
Proof. revert buff n k. induction fuel as [|fuel IH]; intros; cbn [upload_loop]; keep; auto. Qed.
#[local] Hint Resolve keeps_upload_loop : http_keeps.
Lemma keeps_sendRequest_stream fuel type st n : keeps (sendRequest_stream fuel type st n).
Proof. unfold sendRequest_stream. keep. Qed.

End Methods.

(** ** Reachable states *)
Section Reachable.
Context `{CImpl} `{ArduinoString} `{HttpConfig} {W : Type} `{HttpNet W}.
#[local] Abbreviation T A := (M (HTTPClient * shared W) A).

(** The public member functions, with arguments of their types. *)
Inductive http_call : ∀ A, T A → Prop :=
  | call_begin_client_url fuel p url : http_call bool (begin_client_url fuel p url)
  | call_begin_client fuel p host port uri https :
      0 ≤ port < 65536 → http_call bool (begin_client fuel p host port uri https)
  | call_begin_url fuel url : http_call bool (begin_url fuel url)
  | call_begin_url_ca fuel url ca : http_call bool (begin_url_ca fuel url ca)
  | call_begin_host fuel host port uri :
      0 ≤ port < 65536 → http_call bool (begin_host fuel host port uri)
  | call_begin_host_certs fuel host port uri ca cert k :
      0 ≤ port < 65536 → http_call bool (begin_host_certs fuel host port uri ca cert k)
  | call_end fuel : http_call unit (end_ fuel)
  | call_connected : http_call bool connected
  | call_setReuse b : http_call unit (setReuse b)
  | call_setUserAgent u : http_call unit (setUserAgent u)
  | call_setAuthorization_user u q : http_call unit (setAuthorization_user u q)
  | call_setAuthorization a : http_call unit (setAuthorization a)
  | call_setConnectTimeout t : http_call unit (setConnectTimeout t)
  | call_setTimeout t : http_call unit (setTimeout t)
  | call_useHTTP10 b : http_call unit (useHTTP10 b)
  | call_sendRequest fuel type payload size : http_call Z (sendRequest fuel type payload size)
  | call_sendRequest_stream fuel type st size : http_call Z (sendRequest_stream fuel type st size)
  | call_addHeader name v first rep : http_call unit (addHeader name v first rep)
  | call_collectHeaders keys n : 0 ≤ n → http_call unit (collectHeaders keys n)
  | call_header name : http_call (list Z) (header name)
  | call_hasHeader name : http_call bool (hasHeader name)
  | call_writeToStream fuel st : http_call Z (writeToStream fuel st)
  | call_getString fuel : http_call (list Z) (getString fuel).

(** A call, or something that happens outside the object. *)
Inductive http_step : HTTPClient * shared W → HTTPClient * shared W → Prop :=
  | step_call A (m : T A) a s s' : http_call A m → m s = Ok (a, s') → http_step s s'
  | step_outside c s s' : http_step (c, s) (c, s').

Lemma call_keeps A (m : T A) : http_call A m → keeps m.
Proof.
  intros [].
  - apply keeps_begin_client_url.
  - by apply keeps_begin_client.
  - apply keeps_begin_url.
  - apply keeps_begin_url_ca.
  - by apply keeps_begin_host.
  - by apply keeps_begin_host_certs.
  - apply keeps_end.
  - apply keeps_connected.
  - unfold setReuse. keep.
  - unfold setUserAgent. keep.
  - apply keeps_setAuthorization_user.
  - apply keeps_setAuthorization.
  - unfold setConnectTimeout. keep.
  - apply keeps_setTimeout.
  - apply keeps_useHTTP10.
  - apply keeps_sendRequest.
  - apply keeps_sendRequest_stream.
  - apply keeps_addHeader.
  - by apply keeps_collectHeaders.
  - unfold header. apply http_keeps_bind; [apply keeps_self|intros]. apply keeps_header_loop.
  - unfold hasHeader. apply http_keeps_bind; [apply keeps_self|intros]. apply keeps_hasHeader_loop.
  - apply keeps_writeToStream.
  - apply keeps_getString.
Qed.

Lemma reachable_typed s0 s : rtc http_step (HTTPClient_new, s0) s → typed (fst s).
Proof.
  intros HR. pose proof typed_new as HT. change (typed (fst (HTTPClient_new, s0))) in HT.
  induction HR as [|s1 s2 s3 HS _ IH]; [done|]. apply IH. destruct HS as [A m a [c s] [c' s'] HC E|]; [|done].
  by eapply (call_keeps A m HC).
Qed.

(** Reading the headers that were collected. *)
Lemma run_header_at i c l h (s : shared W) :
  _currentHeaders c = Some l → l !! i = Some h → header_at (Z.of_nat i) (c, s) = Ok (h, (c, s)).
Proof.
  intros Hc Hi. unfold header_at. rewrite bind_self, Hc. unfold lift.
  by rewrite (arr_get_lookup _ _ _ Hi).
Qed.

(** The first header that has a name. *)
Fixpoint first_header (name : list Z) (l : list RequestArgument) : list Z :=
  match l with
  | [] => []
  | h :: l => if bool_decide (key h = name) then value h else first_header name l
  end.

Lemma run_header_loop name pre l c (s : shared W) :
  _currentHeaders c = Some (pre ++ l) →
  header_loop (length l) (len pre) name (c, s) = Ok (first_header name l, (c, s)).
Proof.
  revert pre. induction l as [|h l IH]; intros pre Hc; cbn [header_loop length first_header]; [done|].
  rewrite (run_bind _ _ _ _ _ (run_header_at (length pre) c _ h s Hc ltac:(by apply list_lookup_middle))).
  destruct (bool_decide _); [done|].
  replace (len pre + 1) with (len (pre ++ [h])) by (rewrite len_app; cbn; lia).
  apply IH. by rewrite <-app_assoc.
Qed.

Lemma run_hasHeader_loop name pre l c (s : shared W) :
  _currentHeaders c = Some (pre ++ l) →
  hasHeader_loop (length l) (len pre) name (c, s) =
    Ok (existsb (λ h, bool_decide (key h = name) && (0 <? len (value h))) l, (c, s)).
Proof.
  revert pre. induction l as [|h l IH]; intros pre Hc; cbn [hasHeader_loop length existsb]; [done|].
  rewrite (run_bind _ _ _ _ _ (run_header_at (length pre) c _ h s Hc ltac:(by apply list_lookup_middle))).
  destruct (_ && _); [done|].
  replace (len pre + 1) with (len (pre ++ [h])) by (rewrite len_app; cbn; lia).
  apply IH. by rewrite <-app_assoc.
Qed.

End Reachable.

(** In every state that any sequence of calls can reach, the port, the size and the code are in
    the ranges of their types, and reading the collected headers is defined, by any index or
    name: they are as many as the count, and the first with the name is found. *)
Theorem http_reachable_typed `{CImpl} `{ArduinoString} `{HttpConfig} {W} `{HttpNet W}
    (s0 : shared W) s :
  rtc http_step (HTTPClient_new, s0) s →
  typed (fst s) ∧
  (∀ i, 0 ≤ i → ∃ k x, headerName i s = Ok (k, s) ∧ header_index i s = Ok (x, s)) ∧
  (∀ name, header name s = Ok (first_header name (default [] (_currentHeaders (fst s))), s)) ∧
  (∀ name, hasHeader name s =
     Ok (existsb (λ h, bool_decide (key h = name) && (0 <? len (value h)))
           (default [] (_currentHeaders (fst s))), s)).
Proof.
  intros HR%reachable_typed. destruct s as [c s]. cbn [fst] in *. split; [done|].
  destruct HR as (HC & _). unfold HttpExchange.counted in HC. split; [|split].
  - intros i Hi. unfold headerName, header_index. rewrite !bind_self.
    destruct (Z.ltb_spec i (_headerKeysCount c)) as [Hn|]; [|by exists [], []].
    destruct (_currentHeaders c) as [l|] eqn:El; [|lia].
    destruct (lookup_lt_is_Some_2 l (Z.to_nat i)) as [h Hh]; [lia|].
    pose proof (run_header_at (Z.to_nat i) c l h s El Hh) as E. rewrite Z2Nat.id in E by done.
    rewrite !(run_bind _ _ _ _ _ E). by exists (key h), (value h).
  - intros name. unfold header. rewrite bind_self, HC.
    destruct (_currentHeaders c) as [l|] eqn:El; [|done]. rewrite Nat2Z.id. cbn [default].
    by apply (run_header_loop name [] l).
  - intros name. unfold hasHeader. rewrite bind_self, HC.
    destruct (_currentHeaders c) as [l|] eqn:El; [|done]. rewrite Nat2Z.id. cbn [default].
    by apply (run_hasHeader_loop name [] l).
Qed.

Definition one_header : HTTPClient :=
  set_currentHeaders (Some [mkArgument (bytes_of "ETag"%string) []])
    (set_headerKeysCount 1 HTTPClient_new).

Lemma http_reachable_typed_witness :
  typed one_header ∧
  (∀ i, 0 ≤ i → ∃ k x, headerName i (one_header, idle []) = Ok (k, (one_header, idle [])) ∧
     header_index i (one_header, idle []) = Ok (x, (one_header, idle []))) ∧
  (∀ name, header name (one_header, idle []) =
     Ok (first_header name (default [] (_currentHeaders one_header)), (one_header, idle []))) ∧
  (∀ name, hasHeader name (one_header, idle []) =
     Ok (existsb (λ h, bool_decide (key h = name) && (0 <? len (value h)))
           (default [] (_currentHeaders one_header)), (one_header, idle []))).
Proof.
  apply (http_reachable_typed (W := net) (idle []) (one_header, idle [])).
  eapply rtc_l; [|apply rtc_refl].
  apply (step_call unit (collectHeaders [bytes_of "ETag"%string] 1) tt).
  - by constructor.
  - reflexivity.
Defined.

(** ** The two interfaces of the class *)

(** A plain client that the object made for itself stays its client when the peer
    closes the connection: end() finds nothing to close. *)
Definition left_over (c : HTTPClient) (o : gmap Z (Z * kind)) (p : Z) : Prop :=
  _client c = Some p ∧ _tcpDeprecated c = Some p ∧ ∃ n, o !! p = Some (n, Plain).

(** After an exchange over http that the peer has closed, a URL with https is asked for
    over the plain client that is left: it connects without TLS to the port of https, and
    then the certificates are set on an object of another class. *)
Theorem http_then_https `{CImpl} `{ArduinoString} `{!StringLaws} `{HttpConfig} {W} `{HttpNet W}
    answer p st V D C auth host port uri (c : HTTPClient) o w v fuel :
  FEMBED_PLATFORM = false → link answer p st V D → closed_link p V C → C w v →
  left_over c o p → well_formed auth host port uri →
  len (url_of (scheme true) auth host port uri) ≤ INT_MAX →
  (end_ fuel ;; begin_url fuel (url_of (scheme true) auth host port uri) ;; GET fuel)
    (c, mkShared o w) = UB WrongClass.
Proof.
  intros HP HK HC Hw (Hc & Hd & n & Ho) HW Hl.
  assert (HN : ∀ c' w1, C w1 v → _client c' = Some p →
    ∃ w2, connected (c', mkShared o w1) = Ok (false, (c', mkShared o w2)) ∧ C w2 v).
  { intros c' w1 C1 Hc'. unfold connected. rewrite bind_self, Hc'.
    destruct (cl_down _ _ _ HC w1 v C1) as (w2 & w3 & E1 & E2 & C3).
    rewrite (bind_call _ _ _ _ _ _ _ E1). cbn [Z.ltb Z.compare].
    rewrite (bind_call _ _ _ _ _ _ _ E2). by exists w3. }
  destruct (HN c w Hw Hc) as (w1 & E1 & C1). unfold end_. rewrite run_assoc. unfold disconnect.
  rewrite run_assoc, (run_bind _ _ _ _ _ E1), run_bind_ret.
  rewrite (run_bind _ _ _ _ _ (run_clear c _)).
  rewrite (run_bind _ _ _ _ _ (run_begin_url true auth host port uri (cleared c) _ fuel HW
    ltac:(cbn; by rewrite Hc, Hd) Hl)).
  set (c2 := begun true auth host port uri (cleared c)).
  assert (Hc2 : _client c2 = Some p) by (rewrite <-Hc; unfold c2, begun, parsed; by destruct auth, port).
  assert (Hd2 : _tcpDeprecated c2 = Some p)
    by (rewrite <-Hd; unfold c2, begun, parsed; by destruct auth, port).
  unfold GET, sendRequest, connect.
  destruct (HN c2 w1 C1 Hc2) as (w2 & E2 & C2). rewrite run_assoc, (run_bind _ _ _ _ _ E2).
  assert (E3 : make_client (c2, mkShared o w2) = Ok (tt, (c2, mkShared o w2))).
  { unfold make_client. rewrite bind_self, Hc2. by destruct (_transportTraits c2). }
  rewrite run_assoc, (run_bind _ _ _ _ _ E3), run_assoc, bind_self, Hc2.
  destruct (cl_up _ _ _ HC (c_string (_host c2)) (_port c2) (_connectTimeout c2) w2 v C2)
    as (r & w3 & E4 & Hr & V3).
  rewrite run_assoc, (bind_call _ _ _ _ _ _ _ E4). destruct (Z.ltb_spec r 0); [lia|].
  destruct (lk_setTimeout _ _ _ _ _ HK ((_tcpTimeout c2 + 500) / 1000) w3 v V3) as (w4 & E5 & V4).
  rewrite run_assoc, (bind_call _ _ _ _ _ _ _ E5), Hd2.
  unfold c2, begun at 1. cbn [_transportTraits set_transportTraits].
  rewrite !run_assoc, run_bind_lift_Ok. unfold verify. rewrite HP, run_assoc.
  unfold sp_count. erewrite bind_world by (cbn; rewrite Ho; reflexivity). done.
Qed.

Definition after_http : HTTPClient :=
  set_client (Some 7) (set_tcpDeprecated (Some 7) (set_transportTraits (Some PlainTraits)
    HTTPClient_new)).

Lemma http_then_https_witness :
  (end_ 5 ;; begin_url 5 (url_of (scheme true) None (bytes_of "host"%string) None
                           (bytes_of "/"%string)) ;; GET 5)
    (after_http, mkShared {[7 := (2, Plain)]} (Net false [] [] [] 0 8)) = UB WrongClass.
Proof.
  apply (http_then_https (H3 := quiet_net) (λ _, []) 7 (sink (λ _, [])) net_view net_done net_closed
    None (bytes_of "host"%string) None (bytes_of "/"%string) after_http {[7 := (2, Plain)]}
    (Net false [] [] [] 0 8) (View [] [] [] 0)).
  - done.
  - apply link_net.
  - apply closed_net.
  - by repeat split.
  - split; [done|]. split; [done|]. by exists 2.
  - split; [done|]. split; [repeat split; decide_by_vm|]. split; [done|]. by eexists.
  - by vm_compute.
Defined.

(** ** A server that does not answer *)

(** The connection [p] stands and nothing comes; [T]: the time. A wait of t takes
    no less than that, and no more than [late] longer. *)
Record silent `{HttpNet W} (p late : Z) (T : W → Z) (V : W → Prop) : Prop :=
  { si_available w : V w → ∃ w', cl_available p w = Ok (0, w') ∧ V w' ∧ T w' = T w;
    si_connected w : V w → ∃ r w', cl_connected p w = Ok (r, w') ∧ truth r = true ∧ V w' ∧ T w' = T w;
    si_millis w : V w → ∃ w', millis w = Ok (to_uint (T w), w') ∧ V w' ∧ T w' = T w;
    si_delay t w : V w → ∃ w', delay t w = Ok (tt, w') ∧ V w' ∧ T w + t ≤ T w' ≤ T w + t + late }.

Section Silent.
Context `{CImpl} `{ArduinoString} `{HttpConfig} {W : Type} `{HttpNet W}.
Context (p late : Z) (T : W → Z) (V : W → Prop).
Hypothesis HS : silent p late T V.

Lemma silent_connected c o w :
  V w → _client c = Some p →
  ∃ w', connected (c, mkShared o w) = Ok (true, (c, mkShared o w')) ∧ V w' ∧ T w' = T w.
Proof.
  intros HV Hc. unfold connected. rewrite bind_self, Hc.
  destruct (si_available _ _ _ _ HS w HV) as (w1 & E1 & V1 & T1).
  rewrite (bind_call _ _ _ _ _ _ _ E1). cbn [Z.ltb Z.compare].
  destruct (si_connected _ _ _ _ HS w1 V1) as (r & w2 & E2 & Hr & V2 & T2).
  rewrite (bind_call _ _ _ _ _ _ _ E2), Hr. exists w2. split; [done|]. split; [done|lia].
Qed.

Lemma uint_diff a b : 0 ≤ a - b < 4294967296 → to_uint (to_uint a - to_uint b) = a - b.
Proof.
  intros. unfold to_uint. rewrite <-Zminus_mod. by apply Z.mod_small.
Qed.

Lemma silent_loop fuel te t0 c o w :
  V w → _client c = Some p → 0 ≤ late → 0 ≤ _tcpTimeout c →
  _tcpTimeout c + 10 + late < 4294967296 → t0 ≤ T w ≤ t0 + _tcpTimeout c + 10 + late →
  t0 + _tcpTimeout c - T w < 10 * (Z.of_nat fuel - 1) → (0 < fuel)%nat →
  ∃ w', response_loop fuel te (to_uint t0) (c, mkShared o w) =
      Ok (HTTPC_ERROR_READ_TIMEOUT, (c, mkShared o w')) ∧ V w' ∧
    t0 + _tcpTimeout c < T w' ≤ t0 + _tcpTimeout c + 10 + late.
Proof.
  intros HV Hc Hl Ht Hb. revert w HV. induction fuel as [|fuel IH]; intros w HV Hw HF HF0; [lia|].
  cbn [response_loop]. destruct (silent_connected c o w HV Hc) as (w1 & E1 & V1 & T1).
  rewrite (run_bind _ _ _ _ _ E1). cbn [negb].
  assert (EC : client (c, mkShared o w1) = Ok (p, (c, mkShared o w1))) by by apply run_client.
  rewrite (run_bind _ _ _ _ _ EC).
  destruct (si_available _ _ _ _ HS w1 V1) as (w2 & E2 & V2 & T2).
  rewrite (bind_call _ _ _ _ _ _ _ E2), to_size_id by (unfold INT_MAX; lia). cbn [Z.ltb Z.compare].
  destruct (si_millis _ _ _ _ HS w2 V2) as (w3 & E3 & V3 & T3).
  rewrite (bind_call _ _ _ _ _ _ _ E3), bind_self, uint_diff by lia.
  destruct (Z.ltb_spec (_tcpTimeout c) (T w2 - t0)).
  - exists w3. split; [done|]. split; [done|lia].
  - destruct (si_delay _ _ _ _ HS 10 w3 V3) as (w4 & E4 & V4 & T4).
    rewrite (bind_call _ _ _ _ _ _ _ E4).
    destruct fuel as [|fuel]; [lia|]. apply IH; [done|lia..].
Qed.

End Silent.

(** C30: A server that does not answer cannot hold the client: handleHeaderResponse gives up with a
    timeout once the timeout has passed, and no later than one wait after; it takes a turn
    for every ten milliseconds. *)
Theorem http_silent_server `{CImpl} `{ArduinoString} `{HttpConfig} {W} `{HttpNet W}
    p late T V fuel (c : HTTPClient) o w :
  silent p late T V → V w → _client c = Some p → 0 ≤ late → 0 ≤ _tcpTimeout c →
  _tcpTimeout c + 10 + late < 4294967296 → _tcpTimeout c < 10 * (Z.of_nat fuel - 1) →
  ∃ c' w', handleHeaderResponse fuel (c, mkShared o w) =
      Ok (HTTPC_ERROR_READ_TIMEOUT, (c', mkShared o w')) ∧
    T w + _tcpTimeout c < T w' ≤ T w + _tcpTimeout c + 10 + late.
Proof.
  intros HS HV Hc Hl Ht Hb HF. unfold handleHeaderResponse.
  destruct (silent_connected p late T V HS c o w HV Hc) as (w1 & E1 & V1 & T1).
  rewrite (run_bind _ _ _ _ _ E1). cbn [negb].
  rewrite (run_bind _ _ _ _ _ (run_clear c _)), bind_self, !bind_become.
  destruct (si_millis _ _ _ _ HS w1 V1) as (w2 & E2 & V2 & T2).
  rewrite (bind_call _ _ _ _ _ _ _ E2).
  set (c2 := set_transferEncoding _ _).
  destruct (silent_loop p late T V HS fuel [] (T w1) c2 o w2 V2 Hc Hl Ht Hb)
    as (w3 & E3 & V3 & T3); [cbn; lia..|]. exists c2, w3. rewrite <-T1. by split.
Qed.

Lemma silent_net p : silent (H := quiet_net) p 0 n_clock (λ w, n_open w = true ∧ n_in w = []).
Proof.
  split.
  - intros w [Ho Hi]. exists w. split; [|done]. cbn. unfold gets. by rewrite Hi.
  - intros w [Ho Hi]. exists 1, w. cbn. unfold gets. by rewrite Ho.
  - intros w HV. by exists w.
  - intros t w HV. eexists. split; [done|]. split; [done|]. cbn. lia.
Qed.

Lemma http_silent_server_witness :
  ∃ c' w', handleHeaderResponse (W := net) 102
      (set_tcpTimeout 1000 (set_client (Some 7) HTTPClient_new), mkShared ∅ (Net true [] [] [] 4294967000 8)) =
    Ok (HTTPC_ERROR_READ_TIMEOUT, (c', mkShared ∅ w')) ∧
    4294967000 + 1000 < n_clock w' ≤ 4294967000 + 1000 + 10 + 0.
Proof.
  apply (http_silent_server (H2 := quiet_net) 7 0 n_clock (λ w, n_open w = true ∧ n_in w = []) 102
    (set_tcpTimeout 1000 (set_client (Some 7) HTTPClient_new)) ∅ (Net true [] [] [] 4294967000 8)).
  - apply silent_net.
  - done.
  - done.
  - done.
  - by vm_compute.
  - by vm_compute.
  - by vm_compute.
Defined.

End HttpState.
