(* ===== verification/HttpTcp.v ===== *)
(** * The HTTP client over TCPClient

    HTTPClient.cpp drives objects of class TCPClient by virtual calls. Here the
    class of Http.v is implemented by the methods of TCPClient (TcpUdp.v), and the
    promise from which the theorems about the HTTP client are proved (HttpLink.v) is
    derived from lwIP and from Stream of the Arduino core. *)

From stdpp Require Import gmap.
From S2P Require Import Prelude CSem Numerals ArduinoString Lwip TcpUdp Http HttpSim HttpLink.

Module HttpTcp.

Import HttpLink.

(** The objects of class TCPClient, and everything else. *)
Record tcp_world (W : Type) : Type := mkWorld { clients : gmap Z TCPClient.TCPClient; rest : W }.
Arguments mkWorld {W} clients rest.
Arguments clients {W} t.
Arguments rest {W} t.

(** What TCPClient inherits from Stream and Print of the Arduino core. *)
Class ArduinoStream (W : Type) : Type :=
  { stream_setTimeout : Z → M (TCPClient.TCPClient * W) unit;
    stream_readStringUntil : Z → M (TCPClient.TCPClient * W) (list Z);
    stream_readBytes : Z → M (TCPClient.TCPClient * W) (Z * list Z);
    print_getWriteError : M (TCPClient.TCPClient * W) Z;
    print_clearWriteError : M (TCPClient.TCPClient * W) unit }.

Section HttpTcp.
Context `{CImpl} `{IPAddresses} {W : Type} `{Lwip W} `{ArduinoStream W} (base : Http.HttpNet W).

Definition on_client {A} (p : Z) (m : M (TCPClient.TCPClient * W) A) : M (tcp_world W) A := λ w,
  match clients w !! p with
  | None => UB OutOfBounds
  | Some c =>
      match m (c, rest w) with
      | Ok (a, (c, s)) => Ok (a, mkWorld (<[p := c]> (clients w)) s)
      | UB u => UB u | NoFuel => NoFuel
      end
  end.

Definition in_rest {A} (m : M W A) : M (tcp_world W) A := λ w,
  match m (rest w) with
  | Ok (a, s) => Ok (a, mkWorld (clients w) s) | UB u => UB u | NoFuel => NoFuel end.

Definition new_client : M (tcp_world W) Z := λ w,
  let p := fresh (dom (clients w)) in
  Ok (p, mkWorld (<[p := TCPClient.TCPClient_new]> (clients w)) (rest w)).

Definition delete_client (p : Z) : M (tcp_world W) unit :=
  on_client p TCPClient.TCPClient_delete ;; modify (λ w, mkWorld (delete p (clients w)) (rest w)).

(** The virtual calls; there are no objects of class TCPClientSecure here. *)
Definition http_tcp : Http.HttpNet (tcp_world W) :=
  {| Http.cl_new k := match k with Http.Plain => new_client | Http.Secure => lift (UB WrongClass) end;
     Http.cl_delete := delete_client;
     Http.cl_connect p host port timeout := on_client p (TCPClient.connect_timeout host port timeout);
     Http.cl_connected p := on_client p TCPClient.connected;
     Http.cl_available p := on_client p TCPClient.available;
     Http.cl_read p := on_client p TCPClient.read_byte;
     Http.cl_write p buf size := on_client p (TCPClient.write buf size);
     Http.cl_stop p := on_client p TCPClient.stop;
     Http.cl_setTimeout p t := on_client p (stream_setTimeout t);
     Http.cl_readStringUntil p c := on_client p (stream_readStringUntil c);
     Http.cl_readBytes p n := on_client p (stream_readBytes n);
     Http.cl_getWriteError p := on_client p print_getWriteError;
     Http.cl_clearWriteError p := on_client p print_clearWriteError;
     Http.cl_setCACert _ _ := lift (UB WrongClass);
     Http.cl_setCertificate _ _ := lift (UB WrongClass);
     Http.cl_setPrivateKey _ _ := lift (UB WrongClass);
     Http.Stream := Http.Stream;
     Http.st_available st := in_rest (Http.st_available st);
     Http.st_readBytes st n := in_rest (Http.st_readBytes st n);
     Http.st_write st buf n := in_rest (Http.st_write st buf n);
     Http.st_getWriteError st := in_rest (Http.st_getWriteError st);
     Http.st_clearWriteError st := in_rest (Http.st_clearWriteError st);
     Http.sstring_new := in_rest Http.sstring_new;
     Http.sstring_reserve st n := in_rest (Http.sstring_reserve st n);
     Http.sstring_text st := in_rest (Http.sstring_text st);
     Http.millis := in_rest Http.millis;
     Http.delay t := in_rest (Http.delay t);
     Http.malloc n := in_rest (Http.malloc n);
     Http.free b := in_rest (Http.free b);
     Http.base64_encode := Http.base64_encode |}.

(** ** The network below *)

(** Bytes that read() gives one after the other; none of them is -1, at which Stream would
    wait for more and give up at its timeout. *)
Inductive reads : TCPClient.TCPClient * W → list Z → TCPClient.TCPClient * W → Prop :=
  | reads_nil s : reads s [] s
  | reads_cons s b s1 bs s2 :
      byte b → TCPClient.read_byte s = Ok (b, s1) → reads s1 bs s2 → reads s (b :: bs) s2.

(** What lwIP, Stream and the rest of the core do. [wire fd v w]: the socket is
    connected; [idle v w]: there is no socket; [made fd v w]: there is one, not yet
    connected. The functions of Stream get their bytes from read(), as long as it gives
    bytes. The host is found, and accepts the connection. *)
Class TcpNet (answer : list Z → list Z) (st : Http.Stream (HttpNet := base))
    (wire made : Z → view → W → Prop) (idle : view → W → Prop) : Prop :=
  { tn_answer l : bytes (answer l);
    tn_fd fd v w : wire fd v w → 0 ≤ fd < INT_MAX;
    tn_ioctl fd v w : wire fd v w → ∃ n w', lwip_ioctl_fionread fd w = Ok (Some n, w') ∧
      wire fd v w' ∧ 0 ≤ n ≤ len (inb v) ∧ n ≤ INT_MAX ∧ (n = 0 → inb v = [] ∨ (0 < lag v)%nat);
    tn_select fd v w : wire fd v w → inb v ≠ [] →
      ∃ n w', lwip_select_read (fd + 1) fd w = Ok (n, w') ∧ 0 < n ∧ wire fd v w';
    tn_setsockopt fd o v : yields (wire fd v) (lwip_setsockopt fd o) (λ _, True);
    tn_recv fd v b r w : wire fd v w → inb v = b :: r →
      ∃ w', lwip_recv fd 1 w = Ok ((1, [b]), w') ∧ wire fd (set_inb r v) w';
    tn_write fd v bs tl w : wire fd v w → ∃ w',
      lwip_write fd (Ptr (bs ++ tl) 0) (len bs) w = Ok (len bs, w') ∧
      wire fd (View (inb v ++ answer (sent v ++ bs)) (sent v ++ bs) (outb v) (lag v)) w';
    tn_shutdown fd v : yields (wire fd v) (lwip_shutdown fd 2) (λ _, True);
    tn_close fd v w : wire fd v w → ∃ rc w', lwip_close fd w = Ok (rc, w') ∧ idle v w';
    tn_lookup host v : yields (idle v) (lookup_host host) (λ ip, ip ≠ IPADDR_NONE);
    tn_socket t v w : idle v w → ∃ fd w', lwip_socket t w = Ok (fd, w') ∧ 0 ≤ fd ∧ made fd v w';
    tn_option fd o v : yields (made fd v) (lwip_setsockopt fd o) (λ rc, rc ≠ -1);
    tn_connect fd sa v w : made fd v w →
      ∃ rc w', lwip_connect fd sa w = Ok (rc, w') ∧ 0 ≤ rc ∧ wire fd v w';
    tn_readBytes s bs s' : reads s bs s' → stream_readBytes (len bs) s = Ok ((len bs, bs), s');
    tn_readStringUntil c v s l x r s' : wire (TCPClient.m_socket_fd c) v s →
      inb v = (l ++ [x]) ++ r → reads (c, s) (l ++ [x]) (c, s') → x ∉ l →
      stream_readStringUntil x (c, s) = Ok (l, (c, s'));
    tn_setTimeout t c fd v w : wire fd v w →
      ∃ w', stream_setTimeout t (c, w) = Ok (tt, (c, w')) ∧ wire fd v w';
    tn_st_write fd v bs tl w : wire fd v w → ∃ w',
      Http.st_write st (Ptr (bs ++ tl) 0) (len bs) w = Ok (len bs, w') ∧
      wire fd (set_outb (outb v ++ bs) v) w';
    tn_getWriteError fd v w : wire fd v w → ∃ w', Http.st_getWriteError st w = Ok (0, w') ∧ wire fd v w';
    tn_delay t fd v w : wire fd v w → ∃ w', Http.delay t w = Ok (tt, w') ∧
      wire fd (set_lag (if 0 <? t then pred (lag v) else lag v) v) w';
    tn_millis fd v : yields (wire fd v) Http.millis (λ _, True);
    tn_malloc n fd v w : 0 ≤ n → wire fd v w → ∃ b buff w',
      Http.malloc n w = Ok (Some (b, buff), w') ∧ len buff = n ∧ wire fd v w';
    tn_free b fd v : yields (wire fd v) (Http.free b) (λ _, True) }.

Context (answer : list Z → list Z) (st : Http.Stream (HttpNet := base))
  (wire made : Z → view → W → Prop) (idle : view → W → Prop).
Context {HT : TcpNet answer st wire made idle}.

(** The object [p] is connected, or is not. *)
Definition up (p : Z) (w : tcp_world W) (v : view) : Prop :=
  ∃ c, clients w !! p = Some c ∧ TCPClient.m_so_timeout c ≠ None ∧ TCPClient._connected c = true ∧
    bytes (inb v) ∧ wire (TCPClient.m_socket_fd c) v (rest w).
Definition down (p : Z) (w : tcp_world W) (v : view) : Prop :=
  ∃ c, clients w !! p = Some c ∧ TCPClient.m_socket_fd c < 0 ∧ bytes (inb v) ∧ idle v (rest w).
Definition over_ (p : Z) (w : tcp_world W) (v : view) : Prop := up p w v ∨ down p w v.

Lemma run_on_client {A} p (m : M (TCPClient.TCPClient * W) A) w c a c' s' :
  clients w !! p = Some c → m (c, rest w) = Ok (a, (c', s')) →
  on_client p m w = Ok (a, mkWorld (<[p := c']> (clients w)) s').
Proof. intros Hc E. unfold on_client. by rewrite Hc, E. Qed.

(** A method that keeps the object: what it does with what is below. *)
Lemma up_method {A} p (m : M (TCPClient.TCPClient * W) A) w v (Q : A → view → Prop) :
  up p w v →
  (∀ c s, TCPClient.m_so_timeout c ≠ None → TCPClient._connected c = true → bytes (inb v) →
    wire (TCPClient.m_socket_fd c) v s →
    ∃ a v' s', m (c, s) = Ok (a, (c, s')) ∧ Q a v' ∧ bytes (inb v') ∧
      wire (TCPClient.m_socket_fd c) v' s') →
  ∃ a v' w', on_client p m w = Ok (a, w') ∧ Q a v' ∧ up p w' v'.
Proof.
  intros (c & Hc & Ht & Hu & HB & Hw) Hm.
  destruct (Hm c (rest w) Ht Hu HB Hw) as (a & v' & s' & E & HQ & HB' & Hw').
  exists a, v'. eexists. split; [by apply (run_on_client p m w c a c s')|]. split; [done|].
  exists c. cbn. by rewrite lookup_insert_eq.
Qed.

(** What is below and not the object's. *)
Lemma up_rest {A} p (m : M W A) w v (Q : A → view → Prop) :
  up p w v →
  (∀ fd s, bytes (inb v) → wire fd v s → ∃ a v' s', m s = Ok (a, s') ∧ Q a v' ∧ bytes (inb v') ∧ wire fd v' s') →
  ∃ a v' w', in_rest m w = Ok (a, w') ∧ Q a v' ∧ up p w' v'.
Proof.
  intros (c & Hc & Ht & Hu & HB & Hw) Hm.
  destruct (Hm _ _ HB Hw) as (a & v' & s' & E & HQ & HB' & Hw').
  exists a, v'. eexists. split; [by unfold in_rest; rewrite E|]. split; [done|]. by exists c.
Qed.

Lemma its_timeout_Some c : TCPClient.m_so_timeout c ≠ None → ∃ t, TCPClient.its_timeout c = Ok t.
Proof. unfold TCPClient.its_timeout. destruct (TCPClient.m_so_timeout c); [by eexists|done]. Qed.

Lemma run_available c v s : wire (TCPClient.m_socket_fd c) v s →
  ∃ n s', TCPClient.available (c, s) = Ok (n, (c, s')) ∧ wire (TCPClient.m_socket_fd c) v s' ∧
    0 ≤ n ≤ len (inb v) ∧ n ≤ INT_MAX ∧ (n = 0 → inb v = [] ∨ (0 < lag v)%nat).
Proof.
  intros Hw. pose proof (tn_fd _ _ _ Hw). destruct (tn_ioctl _ _ _ Hw) as (n & s' & E & Hw' & Hn & HI & Hlag).
  exists n, s'. split; [|done]. unfold TCPClient.available. rewrite bind_self.
  destruct (Z.leb_spec 0 (TCPClient.m_socket_fd c)); [|lia].
  rewrite (bind_world _ _ _ _ _ _ E). cbn [default from_option id].
  by destruct (Z.ltb_spec n 0); [lia|].
Qed.

(** A byte, where char is not signed. *)
Lemma run_read_byte c v b r s : char_signed = false → byte b →
  TCPClient.m_so_timeout c ≠ None → wire (TCPClient.m_socket_fd c) v s → inb v = b :: r →
  ∃ s', TCPClient.read_byte (c, s) = Ok (b, (c, s')) ∧ wire (TCPClient.m_socket_fd c) (set_inb r v) s'.
Proof.
  intros Hch Hb Ht Hw Hi. pose proof (tn_fd _ _ _ Hw). unfold TCPClient.read_byte. rewrite bind_self.
  destruct (Z.ltb_spec (TCPClient.m_socket_fd c) 0); [lia|].
  rewrite (iadd_Ok (TCPClient.m_socket_fd c) 1) by (unfold INT_MIN, INT_MAX in *; lia).
  destruct (tn_select _ _ _ Hw) as (n & s1 & E1 & Hn & Hw1); [by rewrite Hi|].
  rewrite run_bind_lift_Ok, (bind_world _ _ _ _ _ _ E1). destruct (Z.ltb_spec 0 n); [|lia].
  destruct (its_timeout_Some c Ht) as (t & Et). rewrite Et, run_bind_lift_Ok.
  destruct (tn_setsockopt _ (SO_RCVTIMEO (fst t) (snd t)) _ _ Hw1) as (rc & s2 & E2 & _ & Hw2).
  rewrite (bind_world _ _ _ _ _ _ E2).
  destruct (tn_recv _ _ _ _ _ Hw2 Hi) as (s3 & E3 & Hw3).
  rewrite (bind_world _ _ _ _ _ _ E3). cbn beta iota. exists s3. split; [|done].
  unfold to_char. rewrite Hch. by rewrite to_uchar_id.
Qed.

Lemma reads_bytes c bs : char_signed = false → bytes bs → TCPClient.m_so_timeout c ≠ None →
  ∀ v r s, wire (TCPClient.m_socket_fd c) v s → inb v = bs ++ r →
  ∃ s', reads (c, s) bs (c, s') ∧ wire (TCPClient.m_socket_fd c) (set_inb r v) s'.
Proof.
  intros Hch HB Ht. induction HB as [|b bs Hb HB IH]; intros v r s Hw Hi.
  - exists s. split; [constructor|]. cbn in Hi. subst r. by destruct v.
  - destruct (run_read_byte c v b (bs ++ r) s) as (s1 & E1 & Hw1); [done..|].
    destruct (IH (set_inb (bs ++ r) v) r s1 Hw1 eq_refl) as (s2 & HR & Hw2).
    exists s2. split; [by eapply reads_cons|done].
Qed.

Lemma run_write c v bs tl s : TCPClient.m_so_timeout c ≠ None → wire (TCPClient.m_socket_fd c) v s →
  ∃ s', TCPClient.write (Ptr (bs ++ tl) 0) (len bs) (c, s) = Ok (len bs, (c, s')) ∧
    wire (TCPClient.m_socket_fd c)
      (View (inb v ++ answer (sent v ++ bs)) (sent v ++ bs) (outb v) (lag v)) s'.
Proof.
  intros Ht Hw. pose proof (tn_fd _ _ _ Hw). unfold TCPClient.write. rewrite bind_self.
  destruct (Z.ltb_spec (TCPClient.m_socket_fd c) 0); [lia|].
  destruct (its_timeout_Some c Ht) as (t & Et). rewrite Et, run_bind_lift_Ok.
  destruct (tn_setsockopt _ (SO_SNDTIMEO (fst t) (snd t)) _ _ Hw) as (rc & s2 & E2 & _ & Hw2).
  rewrite (bind_world _ _ _ _ _ _ E2).
  destruct (tn_write _ _ bs tl _ Hw2) as (s3 & E3 & Hw3). rewrite (bind_world _ _ _ _ _ _ E3).
  exists s3. split; [|done]. by destruct (Z.ltb_spec (len bs) 0); [lia|].
Qed.

(** The same, when the result and what it does are known. *)
Lemma up_call {A} p (m : M (TCPClient.TCPClient * W) A) a v' w v :
  up p w v →
  (∀ c s, TCPClient.m_so_timeout c ≠ None → TCPClient._connected c = true → bytes (inb v) →
    wire (TCPClient.m_socket_fd c) v s →
    ∃ s', m (c, s) = Ok (a, (c, s')) ∧ bytes (inb v') ∧ wire (TCPClient.m_socket_fd c) v' s') →
  ∃ w', on_client p m w = Ok (a, w') ∧ up p w' v'.
Proof.
  intros HV Hm. destruct (up_method p m w v (λ x y, x = a ∧ y = v') HV) as (x & y & w' & E & [-> ->] & HV').
  { intros c s Ht Hu HB Hw. destruct (Hm c s Ht Hu HB Hw) as (s' & E & HB' & Hw'). by exists a, v', s'. }
  by exists w'.
Qed.

Lemma up_below {A} p (m : M W A) a v' w v :
  up p w v → (bytes (inb v) → bytes (inb v')) →
  (∀ fd s, wire fd v s → ∃ s', m s = Ok (a, s') ∧ wire fd v' s') →
  ∃ w', in_rest m w = Ok (a, w') ∧ up p w' v'.
Proof.
  intros HV HB Hm. destruct (up_rest p m w v (λ x y, x = a ∧ y = v') HV) as (x & y & w' & E & [-> ->] & HV').
  { intros fd s HBs Hw. destruct (Hm fd s Hw) as (s' & E & Hw'). exists a, v', s'. by auto. }
  by exists w'.
Qed.

Lemma tcp_stops p w v : up p w v → ∃ w', on_client p TCPClient.stop w = Ok (tt, w') ∧ down p w' v.
Proof.
  intros (c & Hc & _ & _ & HB & Hw). pose proof (tn_fd _ _ _ Hw).
  destruct (tn_shutdown (TCPClient.m_socket_fd c) v _ Hw) as (r1 & s1 & E1 & _ & Hw1).
  destruct (tn_close _ _ _ Hw1) as (r2 & s2 & E2 & Hi).
  assert (E : TCPClient.stop (c, rest w)
    = Ok (tt, (TCPClient.set_m_socket_fd (-1) (TCPClient.set_connected false c), s2))).
  { unfold TCPClient.stop. rewrite bind_self.
    destruct (Z.leb_spec 0 (TCPClient.m_socket_fd c)); [|lia].
    rewrite run_assoc, (bind_world _ _ _ _ _ _ E1), run_assoc, (bind_world _ _ _ _ _ _ E2), run_bind_ret.
    by rewrite bind_become. }
  eexists. split; [by apply (run_on_client p _ w c tt _ s2 Hc E)|].
  eexists. cbn. rewrite lookup_insert_eq. split; [done|]. by split; [cbn; lia|].
Qed.

Lemma tcp_link p : char_signed = false →
  link (H2 := http_tcp) answer p st (up p) (over_ p).
Proof.
  intros Hch. split.
  - intros w v HV. destruct (up_method p TCPClient.available w v (λ n v', v' = v ∧ 0 ≤ n ≤ len (inb v) ∧
      n ≤ INT_MAX ∧ (n = 0 → inb v = [] ∨ (0 < lag v)%nat)) HV) as (n & v' & w' & E & [-> Hn] & HV').
    { intros c s Ht Hu HB Hw. destruct (run_available c v s Hw) as (n & s' & E & Hw' & Hn). by exists n, v, s'. }
    by exists n, w'.
  - intros w v HV. exists 1. edestruct (up_call p TCPClient.connected 1 v w v HV) as (w' & E & HV'); [|by exists w'].
    intros c s Ht Hu HB Hw. destruct (run_available c v s Hw) as (n & s' & E & Hw' & _).
    pose proof (tn_fd _ _ _ Hw). exists s'. split; [|done]. unfold TCPClient.connected.
    rewrite bind_self. destruct (Z.ltb_spec (TCPClient.m_socket_fd c) 0); [lia|].
    rewrite (run_bind _ _ _ _ _ E), bind_self. by rewrite Hu.
  - intros w v bs r HV Hi. apply up_call with v; [done|]. intros c s Ht Hu HB Hw.
    rewrite Hi in HB. apply Forall_app in HB as [HB HBr].
    destruct (reads_bytes c bs Hch HB Ht v r s Hw Hi) as (s' & HR & Hw').
    exists s'. split; [by apply tn_readBytes|done].
  - intros w v b r HV Hi. apply up_call with v; [done|]. intros c s Ht Hu HB Hw.
    rewrite Hi in HB. apply list.Forall_cons_1 in HB as [HB HBr].
    destruct (run_read_byte c v b r s Hch HB Ht Hw Hi) as (s' & E & Hw'). by exists s'.
  - intros w v l r HV Hi Hl. apply up_call with v; [done|]. intros c s Ht Hu HB Hw.
    change (10 :: r) with ([10] ++ r) in Hi. rewrite app_assoc in Hi. rewrite Hi in HB. apply Forall_app in HB as [HB HBr].
    destruct (reads_bytes c _ Hch HB Ht v r s Hw Hi) as (s' & HR & Hw').
    exists s'. split; [by eapply tn_readStringUntil|done].
  - intros w v bs tl HV. apply up_call with v; [done|]. intros c s Ht Hu HB Hw.
    destruct (run_write c v bs tl s Ht Hw) as (s' & E & Hw'). exists s'. split; [done|]. split; [|done].
    apply Forall_app. split; [done|]. apply tn_answer.
  - intros w v bs tl HV. apply up_below with v; [done|done|]. intros fd s Hw. by apply tn_st_write.
  - intros w v HV. apply up_below with v; [done|done|]. intros fd s Hw. by apply tn_getWriteError.
  - intros t w v HV. apply up_call with v; [done|]. intros c s Ht Hu HB Hw.
    destruct (tn_setTimeout t c _ _ _ Hw) as (s' & E & Hw'). by exists s'.
  - intros t w v HV. apply up_below with v; [done|done|]. intros fd s Hw. by apply tn_delay.
  - intros w v HV. destruct (up_rest p Http.millis w v (λ _ v', v' = v) HV) as (t & v' & w' & E & -> & HV').
    { intros fd s HB Hw. destruct (tn_millis _ _ _ Hw) as (t & s' & E & _ & Hw'). by exists t, v, s'. }
    by exists t, w'.
  - intros w v HV. destruct (tcp_stops p w v HV) as (w' & E & Hd). exists w'. split; [done|]. by right.
  - intros w v HV. by left.
  - intros n w v Hn HV.
    destruct (up_rest p (Http.malloc n) w v (λ x v', v' = v ∧ ∃ b buff, x = Some (b, buff) ∧ len buff = n) HV)
      as (x & v' & w' & E & (-> & b & buff & -> & Hl) & HV').
    { intros fd s HB Hw. destruct (tn_malloc n _ _ _ Hn Hw) as (b & buff & s' & E & Hl & Hw').
      exists (Some (b, buff)), v, s'. by eauto 10. }
    by exists b, buff, w'.
  - intros b w v HV. apply up_below with v; [done|done|]. intros fd s Hw.
    destruct (tn_free b _ _ _ Hw) as ([] & s' & E & _ & Hw'). by exists s'.
Qed.

(** Connecting a client that is not connected. *)
Lemma tcp_connects_V4 c ip port timeout v s : TCPClient.m_socket_fd c < 0 → idle v s →
  ∃ c' s', TCPClient.connectV4 ip port timeout (c, s) = Ok (TCPClient.m_socket_fd c', (c', s')) ∧
    0 ≤ TCPClient.m_socket_fd c' ∧ TCPClient.m_so_timeout c' ≠ None ∧ TCPClient._connected c' = true ∧
    wire (TCPClient.m_socket_fd c') v s'.
Proof.
  intros Hc Hi. unfold TCPClient.connectV4. rewrite bind_self.
  destruct (Z.leb_spec 0 (TCPClient.m_socket_fd c)); [lia|]. rewrite run_bind_ret.
  destruct (tn_socket SOCK_STREAM _ _ Hi) as (fd & s1 & E1 & Hfd & Hm1).
  rewrite (bind_world _ _ _ _ _ _ E1), bind_become. destruct (Z.ltb_spec fd 0); [lia|].
  destruct (tn_option _ (SO_KEEPALIVE timeout) _ _ Hm1) as (r2 & s2 & E2 & Hr2 & Hm2).
  rewrite (bind_world _ _ _ _ _ _ E2). destruct (Z.eqb_spec r2 (-1)); [done|].
  destruct (tn_option _ (SO_REUSEADDR 1) _ _ Hm2) as (r3 & s3 & E3 & Hr3 & Hm3).
  rewrite (bind_world _ _ _ _ _ _ E3). destruct (Z.eqb_spec r3 (-1)); [done|].
  rewrite bind_become. destruct (tn_connect _ (SockAddr ip (lwip_htons port)) _ _ Hm3) as (r4 & s4 & E4 & Hr4 & Hw).
  rewrite (bind_world _ _ _ _ _ _ E4). destruct (Z.ltb_spec r4 0); [lia|].
  rewrite run_bind_ret, !bind_become, bind_self. eexists _, s4. split; [done|]. by repeat split.
Qed.

Lemma tcp_connects c host port timeout v s : TCPClient.m_socket_fd c < 0 → idle v s →
  ∃ c' s', TCPClient.connect_timeout host port timeout (c, s) = Ok (TCPClient.m_socket_fd c', (c', s')) ∧
    0 ≤ TCPClient.m_socket_fd c' ∧ TCPClient.m_so_timeout c' ≠ None ∧ TCPClient._connected c' = true ∧
    wire (TCPClient.m_socket_fd c') v s'.
Proof.
  intros Hc Hi. unfold TCPClient.connect_timeout. rewrite bind_self.
  destruct (Z.leb_spec 0 (TCPClient.m_socket_fd c)); [lia|]. rewrite run_bind_ret.
  destruct (tn_lookup host v _ Hi) as (ip & s1 & E1 & Hip & Hi1).
  assert (EH : TCPClient.hostByName host s = Ok ((1, Some (IPAddress_of ip)), s1)).
  { unfold TCPClient.hostByName. rewrite (run_bind _ _ _ _ _ E1).
    by destruct (Z.eqb_spec ip IPADDR_NONE). }
  rewrite (bind_world _ _ _ _ _ _ EH). by apply tcp_connects_V4.
Qed.

Lemma tcp_closed_link p : closed_link (H2 := http_tcp) p (up p) (down p).
Proof.
  split.
  - intros w v (c & Hc & Hfd & HB & Hi).
    assert (Ea : TCPClient.available (c, rest w) = Ok (0, (c, rest w))).
    { unfold TCPClient.available. rewrite bind_self.
      by destruct (Z.leb_spec 0 (TCPClient.m_socket_fd c)); [lia|]. }
    assert (Ec : TCPClient.connected (c, rest w) = Ok (0, (c, rest w))).
    { unfold TCPClient.connected. rewrite bind_self.
      by destruct (Z.ltb_spec (TCPClient.m_socket_fd c) 0); [|lia]. }
    set (w' := mkWorld (<[p:=c]> (clients w)) (rest w)).
    exists w', w'. split; [by apply (run_on_client p _ w c)|].
    assert (Hc' : clients w' !! p = Some c) by (cbn; by rewrite lookup_insert_eq).
    split; [|by exists c].
    assert (w' = mkWorld (<[p:=c]> (clients w')) (rest w')) as EW.
    { unfold w'. cbn. by rewrite insert_insert_eq. }
    rewrite EW at 2. by apply (run_on_client p _ w' c).
  - intros host port timeout w v (c & Hc & Hfd & HB & Hi).
    destruct (tcp_connects c host port timeout v _ Hfd Hi) as (c' & s' & E & Hfd' & Ht & Hu & Hw).
    exists (TCPClient.m_socket_fd c'). eexists. split; [by apply (run_on_client p _ w c _ _ _ Hc E)|].
    split; [done|]. exists c'. cbn. by rewrite lookup_insert_eq.
Qed.

(** C35: where char is not signed, the objects of class TCPClient keep the promise from which
    the theorems about the HTTP client are proved: over lwIP, with a host that is found,
    accepts the connection and answers, over a Stream that reads its bytes by read(), and with a
    heap and an output that take what they are given, a client that is connected passes on what is sent and what arrives, and one that is
    not can be connected. (A signed char makes -1 of the byte 255.) *)
Theorem tcp_is_link p : char_signed = false →
  link (H2 := http_tcp) answer p st (up p) (over_ p) ∧
  closed_link (H2 := http_tcp) p (up p) (down p).
Proof. intros Hch. split; [by apply tcp_link|by apply tcp_closed_link]. Qed.

End HttpTcp.
End HttpTcp.
