(* ===== verification/HttpTcpSim.v ===== *)
(** * An exchange over TCPClient

    The instance of HttpTcp.v over a concrete network: the promise it keeps, and a
    page that comes through the code of HTTPClient.cpp and TCPClient.cpp. *)

From stdpp Require Import gmap.
From S2P Require Import Prelude CSem Numerals ArduinoString Lwip TcpUdp Http HttpSim HttpLink HttpTcp.

Module HttpTcpSim.

Import HttpLink HttpTcp.

Section Sim.
Context (answer : list Z → list Z) (Hans : ∀ l, bytes (answer l)).

(** The one socket is 0; the rest of the world is that of HttpSim.v. *)
Definition net_lwip : Lwip net :=
  {| lwip_socket := λ _, mret 0; lwip_setsockopt := λ _ _, mret 0;
     lwip_connect := λ _ _, n_set_open true ;; mret 0; lwip_bind := λ _ _, mret 0;
     lwip_listen := λ _ _, mret 0; lwip_accept := λ _ _, mret (-1, None);
     lwip_getsockname := λ _, mret (0, None); lwip_shutdown := λ _ _, mret 0;
     lwip_close := λ _, n_set_open false ;; mret 0; lwip_write := λ _, n_send answer;
     lwip_sendto := λ _ _ n _, mret n; lwip_recv := λ _, n_read;
     lwip_recvfrom := λ _ _, mret (-1, [], None);
     lwip_ioctl_fionread := λ _, gets (λ w, Some (Z.min 5 (len (n_in w))));
     lwip_select_read := λ _ _, gets (λ w, len (n_in w)); lwip_getsockopt_error := λ _, mret (Some 0);
     lwip_fcntl_nonblock := λ _, mret tt; inet_addr := λ _, 16777343;
     lwip_getaddrinfo := λ _, mret (0, []) |}.

#[local] Existing Instance net_lwip.
#[local] Instance net_addresses : IPAddresses := {| IPAddress := Z; v4 a := a; IPAddress_of a := a |}.

(** Stream: bytes are read one after the other, until there is none (the wait of Stream for more
    is over at once). *)
Fixpoint read_n (n : nat) : M (TCPClient.TCPClient * net) (list Z) :=
  match n with
  | O => mret []
  | S n => b ← TCPClient.read_byte; if b <? 0 then mret [] else bs ← read_n n; mret (b :: bs)
  end.

Fixpoint read_until (n : nat) (c : Z) : M (TCPClient.TCPClient * net) (list Z) :=
  match n with
  | O => no_fuel
  | S n => b ← TCPClient.read_byte; if (b <? 0) || (b =? c) then mret [] else bs ← read_until n c; mret (b :: bs)
  end.

Definition net_stream : ArduinoStream net :=
  {| stream_setTimeout _ := mret tt;
     stream_readStringUntil c := λ s, read_until (S (length (n_in s.2))) c s;
     stream_readBytes n := bs ← read_n (Z.to_nat n); mret (len bs, bs);
     print_getWriteError := mret 0; print_clearWriteError := mret tt |}.
#[local] Existing Instance net_stream.

Definition net_wire (fd : Z) (v : view) (w : net) : Prop := fd = 0 ∧ net_view w v.
Definition net_idle (v : view) (w : net) : Prop := n_in w = inb v ∧ n_sent w = sent v ∧ n_written w = outb v.
Definition net_made (fd : Z) (v : view) (w : net) : Prop := fd = 0 ∧ net_idle v w.

Lemma read_n_reads s bs s' : reads s bs s' → read_n (length bs) s = Ok (bs, s').
Proof.
  induction 1 as [s|s b s1 bs s2 [Hb _] E _ IH]; [done|]. cbn [length read_n].
  rewrite (run_bind _ _ _ _ _ E). destruct (Z.ltb_spec b 0); [lia|]. by rewrite (run_bind _ _ _ _ _ IH).
Qed.

Lemma read_until_reads s l c s' n :
  reads s (l ++ [c]) s' → c ∉ l → (length l < n)%nat → read_until n c s = Ok (l, s').
Proof.
  revert s n. induction l as [|b l IH]; intros s n HR Hc Hn; (destruct n as [|n]; [lia|]); cbn [read_until];
    inversion HR as [|? ? s1 ? ? [Hb0 _] E HR']; subst; rewrite (run_bind _ _ _ _ _ E).
  - rewrite Z.eqb_refl, orb_true_r. by inversion HR'; subst.
  - apply not_elem_of_cons in Hc as [Hb Hc]. destruct (Z.ltb_spec b 0), (Z.eqb_spec b c); try done; try lia.
    cbn [orb].
    cbn in Hn. by rewrite (run_bind _ _ _ _ _ (IH s1 n HR' Hc ltac:(lia))).
Qed.

Lemma net_is_tcp : TcpNet (http_net answer) answer (sink answer) net_wire net_made net_idle.
Proof.
  pose proof (link_net answer 0) as HL. split.
  - done.
  - intros fd v w (-> & _). by vm_compute.
  - intros fd v w (-> & HV). destruct (lk_available _ _ _ _ _ HL w v HV) as (n & w' & [= <- <-] & HV' & Hn).
    by exists (Z.min 5 (len (n_in w))), w.
  - intros fd v w (-> & HV) Hne. exists (len (n_in w)), w. split; [done|]. split; [|done].
    destruct HV as (_ & -> & _). destruct (inb v); [done|cbn; lia].
  - intros fd o v w Hw. by exists 0, w.
  - intros fd v b r w (-> & HV) E. pose proof (lk_readBytes _ _ _ _ _ HL w v [b] r HV E) as (w' & E' & HV').
    by exists w'.
  - intros fd v bs tl w (-> & HV). destruct (lk_write _ _ _ _ _ HL w v bs tl HV) as (w' & E & HV').
    by exists w'.
  - intros fd v w Hw. by exists 0, w.
  - intros fd v w (-> & HV). exists 0. eexists. split; [done|]. by destruct HV as (_ & ? & ? & ?).
  - intros host v w Hw. by exists 16777343, w.
  - intros t v w Hw. by exists 0, w.
  - intros fd o v w Hw. by exists 0, w.
  - intros fd sa v w (-> & Hi & Hs & Ho). exists 0. eexists. split; [done|]. split; [lia|]. by repeat split.
  - intros s bs s' HR. cbn. rewrite Nat2Z.id. by rewrite (run_bind _ _ _ _ _ (read_n_reads _ _ _ HR)).
  - intros c v s l x r s' (_ & _ & Hi & _) E HR Hx.
    apply (read_until_reads (c, s) l x (c, s') (S (length (n_in s))) HR Hx).
    rewrite Hi, E, !length_app. cbn. lia.
  - intros t c fd v w Hw. by exists w.
  - intros fd v bs tl w (-> & HV). destruct (lk_st_write _ _ _ _ _ HL w v bs tl HV) as (w' & E & HV').
    by exists w'.
  - intros fd v w Hw. by exists w.
  - intros t fd v w (-> & HV). destruct (lk_delay _ _ _ _ _ HL t w v HV) as (w' & E & HV'). by exists w'.
  - intros fd v w Hw. by exists (to_uint (n_clock w)), w.
  - intros n fd v w Hn (-> & HV). destruct (lk_malloc _ _ _ _ _ HL n w v Hn HV) as (b & u & w' & E & El & HV').
    by exists b, u, w'.
  - intros b fd v w Hw. by exists tt, w.
Qed.

End Sim.

#[local] Instance quiet_lwip : Lwip net := net_lwip (λ _, []).
#[local] Existing Instance net_addresses.
#[local] Instance quiet_stream : ArduinoStream net := net_stream (λ _, []).

Lemma tcp_is_link_witness :
  link (H2 := http_tcp quiet_net) (λ _, []) 1 (sink (λ _, []))
    (up net_wire 1) (over_ net_wire net_idle 1) ∧
  closed_link (H2 := http_tcp quiet_net) 1 (up net_wire 1) (down net_idle 1).
Proof.
  exact (tcp_is_link quiet_net (λ _, []) (sink (λ _, [])) net_wire net_made net_idle
    (HT := net_is_tcp (λ _, []) (λ _, Forall_nil _)) 1 eq_refl).
Defined.

(** ** A page

    That of HttpSim.v: the request, the result and the page. *)
Import Http.
#[local] Instance over_tcp : HttpNet (tcp_world net) := http_tcp quiet_net.

Definition page_over_tcp : outcome (list Z * Z * list Z) :=
  '(r, (c, w)) ←
    (begin_url 50 (bytes_of "http://me@host:8080/page"%string) ;;
     GET 50 ;; getString 50) (HTTPClient_new, mkShared ∅ (mkWorld ∅ (under (idle (lines
       ["HTTP/1.1 200 OK"; "Transfer-Encoding: chunked"; ""; "6"; "abcdef"; "3"; "ghi"; "0"; ""]%string)))));
  Ok (n_sent (rest (under w)), _returnCode c, r).

Example get_page_over_tcp : page_over_tcp = exchange.
Proof. vm_compute. reflexivity. Qed.

End HttpTcpSim.
