(* ===== verification/Ftp.v ===== *)
(** * The FTP client: FTPClient.cpp

    Every member function of FTPClientBase, FTPClient and FTPClientData, over
    TCPClient (TcpUdp.v) and its sockets, the file system of the application and
    Print of the Arduino core; with the shared pointers between the two
    connections. *)

From stdpp Require Import gmap.
From S2P Require Import Prelude CSem Numerals Lwip TcpUdp.

Module Ftp.

(** ** FTPClient.h *)

Definition FTPLIB_BUFSIZ : Z := 512.
Definition FTPLIB_RESPONSE_BUFSIZ : Z := 512.
Definition FTPLIB_CONTROL : Z := 0.
Definition FTPLIB_READ : Z := 1.
Definition FTPLIB_WRITE : Z := 2.

(** enum TransferMode, enum Type, enum Mode *)
Definition TEXT : Z := 65.
Definition BINARY : Z := 73.
Inductive Type_ : Type := DIR | DIR_VERBOSE | FILE_READ | FILE_WRITE.
Definition PASSIVE : Z := 1.
Definition PORT : Z := 2.

#[export] Instance Type_eq_dec : EqDecision Type_.
Proof. solve_decision. Defined.

(** [cput] and [cget] are positions in [buf]. [ctrl] and [data] are shared
    pointers, to the address of an object. [m_fs_cb] is a member of FTPClient:
    whether there is a callback. *)
Record FTPClientBase : Type := mkFTP
  { tcp : TCPClient.TCPClient; cput : option Z; cget : option Z; cavail : Z; cleft : Z; dir : Z;
    ctrl : option Z; data : option Z; cmode : Z; idletime : timeval; xfered : Z; xfered1 : Z;
    buf : list Z; response : list Z; m_fs_cb : bool }.

Definition set_tcp v o := mkFTP v (cput o) (cget o) (cavail o) (cleft o) (dir o) (ctrl o) (data o)
  (cmode o) (idletime o) (xfered o) (xfered1 o) (buf o) (response o) (m_fs_cb o).
Definition set_cput v o := mkFTP (tcp o) v (cget o) (cavail o) (cleft o) (dir o) (ctrl o) (data o)
  (cmode o) (idletime o) (xfered o) (xfered1 o) (buf o) (response o) (m_fs_cb o).
Definition set_cget v o := mkFTP (tcp o) (cput o) v (cavail o) (cleft o) (dir o) (ctrl o) (data o)
  (cmode o) (idletime o) (xfered o) (xfered1 o) (buf o) (response o) (m_fs_cb o).
Definition set_cavail v o := mkFTP (tcp o) (cput o) (cget o) v (cleft o) (dir o) (ctrl o) (data o)
  (cmode o) (idletime o) (xfered o) (xfered1 o) (buf o) (response o) (m_fs_cb o).
Definition set_cleft v o := mkFTP (tcp o) (cput o) (cget o) (cavail o) v (dir o) (ctrl o) (data o)
  (cmode o) (idletime o) (xfered o) (xfered1 o) (buf o) (response o) (m_fs_cb o).
Definition set_dir v o := mkFTP (tcp o) (cput o) (cget o) (cavail o) (cleft o) v (ctrl o) (data o)
  (cmode o) (idletime o) (xfered o) (xfered1 o) (buf o) (response o) (m_fs_cb o).
Definition set_ctrl v o := mkFTP (tcp o) (cput o) (cget o) (cavail o) (cleft o) (dir o) v (data o)
  (cmode o) (idletime o) (xfered o) (xfered1 o) (buf o) (response o) (m_fs_cb o).
Definition set_data v o := mkFTP (tcp o) (cput o) (cget o) (cavail o) (cleft o) (dir o) (ctrl o) v
  (cmode o) (idletime o) (xfered o) (xfered1 o) (buf o) (response o) (m_fs_cb o).
Definition set_cmode v o := mkFTP (tcp o) (cput o) (cget o) (cavail o) (cleft o) (dir o) (ctrl o)
  (data o) v (idletime o) (xfered o) (xfered1 o) (buf o) (response o) (m_fs_cb o).
Definition set_idletime v o := mkFTP (tcp o) (cput o) (cget o) (cavail o) (cleft o) (dir o) (ctrl
  o) (data o) (cmode o) v (xfered o) (xfered1 o) (buf o) (response o) (m_fs_cb o).
Definition set_xfered v o := mkFTP (tcp o) (cput o) (cget o) (cavail o) (cleft o) (dir o) (ctrl o)
  (data o) (cmode o) (idletime o) v (xfered1 o) (buf o) (response o) (m_fs_cb o).
Definition set_xfered1 v o := mkFTP (tcp o) (cput o) (cget o) (cavail o) (cleft o) (dir o) (ctrl
  o) (data o) (cmode o) (idletime o) (xfered o) v (buf o) (response o) (m_fs_cb o).
Definition set_buf v o := mkFTP (tcp o) (cput o) (cget o) (cavail o) (cleft o) (dir o) (ctrl o)
  (data o) (cmode o) (idletime o) (xfered o) (xfered1 o) v (response o) (m_fs_cb o).
Definition set_response v o := mkFTP (tcp o) (cput o) (cget o) (cavail o) (cleft o) (dir o) (ctrl
  o) (data o) (cmode o) (idletime o) (xfered o) (xfered1 o) (buf o) v (m_fs_cb o).
Definition set_m_fs_cb v o := mkFTP (tcp o) (cput o) (cget o) (cavail o) (cleft o) (dir o) (ctrl
  o) (data o) (cmode o) (idletime o) (xfered o) (xfered1 o) (buf o) (response o) v.

(** A new object; what its two buffers hold is not known. *)
Definition FTPClientBase_new (buf response : list Z) : FTPClientBase :=
  mkFTP TCPClient.TCPClient_new None None 0 0 0 None None 0 (0, 0) 0 0 buf response false.

(** The FTP objects that exist, with the number of their owners. *)
Record ftp_world (W : Type) : Type := World { objects : gmap Z (Z * FTPClientBase); sockets_ : W }.
Arguments World {W} objects sockets_.
Arguments objects {W} f.
Arguments sockets_ {W} f.

(** What else the code calls: Print::printf of the Arduino core, with the text it
    formats; the callback of the application; malloc; and what the buffers of a
    new object happen to hold. *)
Class FtpPlatform (W : Type) : Type :=
  { print : list Z → M (TCPClient.TCPClient * W) Z;
    fs_open : list Z → list Z → M W unit;
    fs_read : Z → M W (Z * list Z);
    fs_write : ptr → Z → M W Z;
    fs_close : M W unit;
    raw_buf : list Z;
    raw_response : list Z }.

(** ** <string.h> and <stdio.h> *)

(** The function memccpy of the file: from [src + s] to [dest + d], up to [n] bytes
    and no further than [c]; the position after it, when it is met. *)
Fixpoint memccpy (n : nat) (dest : list Z) (d : Z) (src : list Z) (s c : Z)
  : outcome (option Z * list Z) :=
  match n with
  | O => Ok (None, dest)
  | S n =>
      x ← load src s;
      dest ← store_bytes dest d [x];
      if x =? c then Ok (Some (d + 1), dest) else memccpy n dest (d + 1) src (s + 1) c
  end.

(** The text a pointer points to. *)
Definition text_at (p : ptr) : outcome (list Z) := n ← strlen (Some p); mem_read (Some p) n.
Definition text_of (p : option ptr) : outcome (list Z) := n ← strlen p; mem_read p n.

(** strchr: the position in the object. *)
Fixpoint find_from (l : list Z) (c i : Z) : outcome (option Z) :=
  match l with
  | [] => UB OutOfBounds
  | x :: l => if x =? c then Ok (Some i) else if x =? 0 then Ok None else find_from l c (i + 1)
  end.
Definition strchr (obj : list Z) (c : Z) : outcome (option Z) := find_from obj c 0.

(** strncpy of [n] characters: after a NUL there are only NULs. *)
Fixpoint strncpy (n : nat) (l : list Z) : outcome (list Z) :=
  match n with
  | O => Ok []
  | S n =>
      match l with
      | [] => UB OutOfBounds
      | x :: l => if x =? 0 then Ok (replicate (S n) 0) else r ← strncpy n l; Ok (x :: r)
      end
  end.

(** [%u] of sscanf, where the number is an unsigned: the number and what follows. *)
Definition scan_u (l : list Z) : option (Z * list Z) :=
  let '(neg, l) := sign (drop_blanks l) in
  match l with
  | c :: _ => if isdigit c
              then let v := num 10 0 l in Some (to_uint (if neg then - v else v), after_num 10 l)
              else None
  | [] => None
  end.

Definition scan_char (c : Z) (l : list Z) : option (list Z) :=
  match l with x :: l => if x =? c then Some l else None | [] => None end.

(** [sscanf(cp, "%u,%u,...")] for [n] numbers: those that were read. *)
Fixpoint scan_list (n : nat) (l : list Z) : list Z :=
  match n with
  | O => []
  | S n =>
      match scan_u l with
      | None => []
      | Some (v, l) =>
          v :: match scan_char 44 l with Some l => scan_list n l | None => [] end
      end
  end.

(** [sscanf(response, "%d %u", ...) == 2]: the second number. *)
Definition scan_size (l : list Z) : option Z :=
  match scan_u l with
  | Some (_, l) => fst <$> scan_u (drop_blanks l)
  | None => None
  end.

Definition crlf : list Z := [13; 10].

Section Ftp.
Context `{CImpl} `{IPAddresses} {W : Type} `{Lwip W} `{FtpPlatform W}.
#[local] Abbreviation F A := (M (ftp_world W) A).

(** ** Objects

    A method has the address of its object as [this]. *)
Definition entry (this : Z) : F (Z * FTPClientBase) := λ w,
  match objects w !! this with Some x => Ok (x, w) | None => UB OutOfBounds end.

Definition get_this (this : Z) : F FTPClientBase := '(n, o) ← entry this; mret o.

Definition put_entry (this : Z) (x : option (Z * FTPClientBase)) : F unit := λ w,
  Ok (tt, World (partial_alter (λ _, x) this (objects w)) (sockets_ w)).

Definition set_this (this : Z) (f : FTPClientBase → FTPClientBase) : F unit :=
  '(n, o) ← entry this; put_entry this (Some (n, f o)).

Definition outside {A} (m : M W A) : F A := λ w,
  match m (sockets_ w) with
  | Ok (a, s) => Ok (a, World (objects w) s) | UB u => UB u | NoFuel => NoFuel end.

(** A method of the base class TCPClient. *)
Definition on_tcp {A} (this : Z) (m : M (TCPClient.TCPClient * W) A) : F A := λ w,
  match objects w !! this with
  | None => UB OutOfBounds
  | Some (n, o) =>
      match m (tcp o, sockets_ w) with
      | Ok (a, (t, s)) => Ok (a, World (<[this := (n, set_tcp t o)]> (objects w)) s)
      | UB u => UB u | NoFuel => NoFuel
      end
  end.

Definition printf (this : Z) (text : list Z) : F unit := on_tcp this (print text) ;; mret tt.

Definition deref (p : option Z) : F Z :=
  lift (match p with Some p => Ok p | None => UB NullPointer end).

(** ** Reading and writing lines *)

(** The locals of readLine: the line, where the next character goes, how much
    room there is, and the result. *)
Definition readLine_take (o : FTPClientBase) (line : list Z) (bp max retval : Z)
  : outcome (FTPClientBase * list Z * Z * Z * Z * bool) :=
  let x := if cavail o <=? max then cavail o else max - 1 in
  get ← match cget o with Some g => Ok g | None => UB NullPointer end;
  '(end_, line) ← memccpy (Z.to_nat x) line bp (buf o) get 10;
  let x := match end_ with Some e => e - bp | None => x end in
  let retval := retval + x in
  let bp := bp + x in
  line ← store_bytes line bp [0];
  let max := max - x in
  let o := set_cavail (cavail o - x) (set_cget (Some (get + x)) o) in
  match end_ with
  | None => Ok (o, line, bp, max, retval, false)
  | Some _ =>
      let bp := bp - 2 in
      r ← strcmp (Some (Ptr line bp)) (Some (c_string crlf));
      if r =? 0 then
        line ← store_bytes line bp [10];
        line ← store_bytes line (bp + 1) [0];
        Ok (o, line, bp + 2, max, retval - 1, true)
      else Ok (o, line, bp, max, retval, true)
  end.

(** The buffer is used from its start when everything in it has been taken. *)
Definition readLine_reset (this : Z) : F unit :=
  o ← get_this this;
  if bool_decide (cput o = cget o)
  then set_this this (λ o, set_cleft FTPLIB_BUFSIZ (set_cavail 0 (set_cput (Some 0) (set_cget (Some 0) o))))
  else mret tt.

(** The result of the read; what was read is added to the buffer, and a NUL. *)
Definition readLine_read (this : Z) : F Z :=
  o ← get_this this;
  '(x, bs) ← on_tcp this (TCPClient.read (to_size (cleft o)));
  put ← deref (cput o);
  b ← lift (store_bytes (buf o) put bs);
  set_this this (set_buf b) ;;
  if x =? -1 then mret (-1)
  else
    set_this this (λ o, set_cput (Some (put + x)) (set_cavail (cavail o + x) (set_cleft (cleft o - x) o))) ;;
    o ← get_this this;
    b ← lift (store_bytes (buf o) (cavail o) [0]);
    set_this this (set_buf b) ;;
    mret x.

Fixpoint readLine_loop (fuel : nat) (this : Z) (line : list Z) (bp max retval : Z) (eof : bool)
  : F (Z * list Z) :=
  match fuel with
  | O => no_fuel
  | S fuel =>
      o ← get_this this;
      '(line, bp, max, retval, done_) ← (
        if 0 <? cavail o then
          '(o, line, bp, max, retval, found) ← lift (readLine_take o line bp max retval);
          set_this this (λ _, o) ;;
          mret (line, bp, max, retval, found)
        else mret (line, bp, max, retval, false));
      if (done_ : bool) then mret (retval, line)
      else if max =? 1 then line ← lift (store_bytes line 0 [0]); mret (retval, line)
      else
        readLine_reset this ;;
        if eof then mret (if retval =? 0 then -1 else retval, line)
        else
          x ← readLine_read this;
          if x =? -1 then mret (-1, line)
          else readLine_loop fuel this line bp max retval (x =? 0)
  end.

(** [readLine(buf, max)]: the result and the line, which is what the buffer of the
    caller holds. *)
Definition readLine (fuel : nat) (this : Z) (line : list Z) (max : Z) : F (Z * list Z) :=
  o ← get_this this;
  if negb (dir o =? FTPLIB_CONTROL) && negb (dir o =? FTPLIB_READ) then mret (-1, line)
  else if max =? 0 then mret (0, line)
  else readLine_loop fuel this line 0 max 0 false.

(** The buffer is written out when it is full. *)
Definition put_char (this : Z) (nb c : Z) : F (option Z) :=
  nb ← (if nb =? FTPLIB_BUFSIZ then
          o ← get_this this;
          w ← on_tcp this (TCPClient.write (Ptr (buf o) 0) FTPLIB_BUFSIZ);
          mret (if negb (to_int w =? FTPLIB_BUFSIZ) then None else Some 0)
        else mret (Some nb));
  match nb with
  | None => mret None
  | Some nb =>
      o ← get_this this;
      b ← lift (store_bytes (buf o) nb [c]);
      set_this this (set_buf b) ;;
      mret (Some (nb + 1))
  end.

(** The loop of writeLine: what is left in the buffer, or None after a short
    write. *)
Fixpoint writeLine_loop (n : nat) (this : Z) (ubp : option ptr) (x nb lc : Z) : F (option Z) :=
  match n with
  | O => mret (Some nb)
  | S n =>
      c ← lift (ptr_load ubp x);
      nb ← (if (c =? 10) && negb (lc =? 13) then put_char this nb 13 else mret (Some nb));
      match nb with
      | None => mret None
      | Some nb =>
          nb ← put_char this nb c;
          match nb with
          | None => mret None
          | Some nb => writeLine_loop n this ubp (x + 1) nb c
          end
      end
  end.

Definition writeLine (this : Z) (line : option ptr) (len : Z) : F Z :=
  o ← get_this this;
  if negb (dir o =? FTPLIB_WRITE) then mret (-1)
  else
    nb ← writeLine_loop (Z.to_nat len) this line 0 0 0;
    match nb with
    | None => mret (-1)
    | Some nb =>
        if truth nb then
          o ← get_this this;
          w ← on_tcp this (TCPClient.write (Ptr (buf o) 0) nb);
          mret (if negb (to_int w =? nb) then -1 else len)
        else mret len
    end.

(** [readLine(this->response, FTPLIB_RESPONSE_BUFSIZ)] *)
Definition readResponse (fuel : nat) (this : Z) : F Z :=
  o ← get_this this;
  '(r, line) ← readLine fuel this (response o) FTPLIB_RESPONSE_BUFSIZ;
  set_this this (set_response line) ;;
  mret r.

Fixpoint readResp_loop (fuel : nat) (this : Z) (match_ : list Z) : F bool :=
  match fuel with
  | O => no_fuel
  | S n =>
      r ← readResponse fuel this;
      if r =? -1 then mret false
      else
        o ← get_this this;
        d ← lift (strncmp (Some (Ptr (response o) 0)) (Some (Ptr match_ 0)) 4);
        if truth d then readResp_loop n this match_ else mret true
  end.

Definition readResp (fuel : nat) (this : Z) (c : Z) : F Z :=
  r ← readResponse fuel this;
  if r =? -1 then mret 0
  else
    o ← get_this this;
    r3 ← lift (load (response o) 3);
    ok ← (if r3 =? 45 then
            m ← lift (strncpy 3 (response o));
            readResp_loop fuel this (m ++ [32; 0])
          else mret true);
    if negb ok then mret 0
    else
      o ← get_this this;
      r0 ← lift (load (response o) 0);
      mret (if r0 =? c then 1 else 0).

(** ** Shared pointers

    Copies that are passed by value leave the counts as they were, and are left
    out. [destroy] is the destructor, which drops the pointers an object holds:
    [depth] bounds how deep that goes. *)

Definition sp_copy (p : option Z) : F unit :=
  match p with
  | None => mret tt
  | Some p => '(n, o) ← entry p; put_entry p (Some (n + 1, o))
  end.

(** [this->ctrl = p] and [this->data = p], with what dropping the old pointer
    does. *)
Definition assign_ctrl (drop : option Z → F unit) (this : Z) (p : option Z) : F unit :=
  sp_copy p ;; o ← get_this this; set_this this (set_ctrl p) ;; drop (ctrl o).
Definition assign_data (drop : option Z → F unit) (this : Z) (p : option Z) : F unit :=
  sp_copy p ;; o ← get_this this; set_this this (set_data p) ;; drop (data o).

(** The case FTPLIB_READ of the destructor. *)
Definition finish_transfer (drop : option Z → F unit) (fuel : nat) (this : Z) : F unit :=
  o ← get_this this;
  match ctrl o with
  | None => mret tt
  | Some p =>
      c ← get_this p;
      (if nonnull (data c) then assign_data drop p None else mret tt) ;;
      o ← get_this this;
      (match ctrl o with
       | None => mret tt
       | Some p =>
           c ← get_this p;
           r0 ← lift (load (response c) 0);
           if negb (r0 =? 52) && negb (r0 =? 53) then readResp fuel p 50 ;; mret tt else mret tt
       end) ;;
      assign_ctrl drop this None
  end.

(** ~FTPClientBase, and then its members and ~TCPClient. *)
Definition FTPClientBase_delete (drop : option Z → F unit) (fuel : nat) (this : Z) : F unit :=
  o ← get_this this;
  (if dir o =? FTPLIB_WRITE then
     writeLine this None 0 ;; finish_transfer drop fuel this
   else if dir o =? FTPLIB_READ then finish_transfer drop fuel this
   else if dir o =? FTPLIB_CONTROL then
     if nonnull (data o) then assign_ctrl drop this None ;; assign_data drop this None
     else mret tt
   else mret tt) ;;
  assign_data drop this None ;;
  assign_ctrl drop this None ;;
  on_tcp this TCPClient.TCPClient_delete ;;
  put_entry this None.

(** A shared pointer that goes; the last one destroys the object. *)
Fixpoint sp_drop (depth : nat) (fuel : nat) (p : option Z) : F unit :=
  match p, depth with
  | None, _ => mret tt
  | Some _, O => no_fuel
  | Some p, S depth =>
      '(n, o) ← entry p;
      put_entry p (Some (n - 1, o)) ;;
      if n =? 1 then FTPClientBase_delete (sp_drop depth fuel) fuel p else mret tt
  end.

(** Three: the data connection, its control connection, and the data connection
    that one would hold. *)
Definition drop (fuel : nat) : option Z → F unit := sp_drop 3 fuel.

(** [new], held by one pointer. *)
Definition new_object (o : FTPClientBase) : F Z := λ w,
  let p := fresh (dom (objects w)) in
  Ok (p, World (<[p := (1, o)]> (objects w)) (sockets_ w)).

(** ** FTPClient *)

(** What connectHost sets once it is connected. *)
Definition control_of (o : FTPClientBase) : FTPClientBase :=
  set_xfered1 0 (set_xfered 0 (set_idletime (0, 0) (set_cmode 1 (set_dir FTPLIB_CONTROL o)))).

Definition connectHost (fuel : nat) (this : Z) (host : option ptr) : F bool :=
  lhost ← lift (text_of host);
  let colon := list_find (λ c, c = 58) lhost in
  let name := match colon with Some (i, _) => take i lhost | None => lhost end in
  let pnum := match colon with
              | Some (i, _) => list.drop (S i) lhost | None => bytes_of "21"%string end in
  if negb (match pnum with c :: _ => isdigit c | [] => false end) then mret false
  else
    r ← on_tcp this (TCPClient.connect (c_string name) (to_ushort (atoi pnum)));
    if r =? -1 then mret false
    else
      set_this this (set_dir FTPLIB_CONTROL) ;;
      assign_ctrl (drop fuel) this None ;;
      assign_data (drop fuel) this None ;;
      set_this this control_of ;;
      ok ← readResp fuel this 50;
      if ok =? 0 then on_tcp this TCPClient.stop ;; mret false else mret true.

(** The constructor with a host does not say whether it is connected. *)
Definition FTPClient_host (fuel : nat) (host : option ptr) : F Z :=
  this ← new_object (FTPClientBase_new raw_buf raw_response);
  connectHost fuel this host ;;
  mret this.

Definition setFSCallback (this : Z) (cb : bool) : F unit := set_this this (set_m_fs_cb cb).
Definition setConnectionMode (this mode : Z) : F unit := set_this this (set_cmode mode).
Definition setIdleTime (this ms : Z) : F unit :=
  set_this this (set_idletime (ms `quot` 1000, (ms `rem` 1000) * 1000)).

(** The response, for a control connection. *)
Definition getLastResponse (this : Z) : F (option ptr) :=
  o ← get_this this;
  mret (if dir o =? FTPLIB_CONTROL then Some (Ptr (response o) 0) else None).

(** A command with its argument, and the digit the response must begin with. *)
Definition command (fuel : nat) (this : Z) (name : String.string) (arg : option ptr) (c : Z) : F Z :=
  a ← lift (text_of arg);
  printf this (bytes_of name ++ bytes_of " "%string ++ a ++ crlf) ;;
  readResp fuel this c.

Definition login (fuel : nat) (this : Z) (user password : option ptr) : F Z :=
  r ← command fuel this "USER"%string user 51;
  if r =? 0 then
    o ← get_this this;
    r0 ← lift (load (response o) 0);
    mret (if r0 =? 50 then 1 else 0)
  else command fuel this "PASS"%string password 50.

(** The loop of getSystemType and getDirectory, to the next [c]: a backslash hides
    the character after it. *)
Fixpoint skip_to (fuel : nat) (response : list Z) (s c : Z) : outcome Z :=
  match fuel with
  | O => NoFuel
  | S fuel =>
      if s <? FTPLIB_RESPONSE_BUFSIZ - 1 then
        x ← load response s;
        if truth x && negb (x =? c)
        then skip_to fuel response (if x =? 92 then s + 2 else s + 1) c
        else Ok s
      else Ok s
  end.

(** The text from [r] to the next [c]; a NUL is stored there. std::string cannot be
    made from a null pointer. *)
Definition word_of (this r c : Z) : F (list Z) :=
  o ← get_this this;
  s ← lift (skip_to (Z.to_nat FTPLIB_RESPONSE_BUFSIZ) (response o) r c);
  l ← lift (store_bytes (response o) s [0]);
  set_this this (set_response l) ;;
  lift (text_at (Ptr l r)).

Definition getSystemType (fuel : nat) (this : Z) : F (list Z) :=
  printf this (bytes_of "SYST"%string ++ crlf) ;;
  ok ← readResp fuel this 50;
  if ok =? 0 then lift (UB NullPointer) else word_of this 4 32.

Definition getDirectory (fuel : nat) (this : Z) : F (list Z) :=
  printf this (bytes_of "PWD"%string ++ crlf) ;;
  ok ← readResp fuel this 50;
  if ok =? 0 then lift (UB NullPointer)
  else
    o ← get_this this;
    s ← lift (strchr (response o) 34);
    match s with
    | None => lift (UB NullPointer)
    | Some s => word_of this (s + 1) 34
    end.

Definition cd (fuel : nat) (this : Z) (directory : option ptr) : F Z :=
  command fuel this "CWD"%string directory 50.

Definition cdup (fuel : nat) (this : Z) : F Z :=
  printf this (bytes_of "CDUP"%string ++ crlf) ;; readResp fuel this 50.

Definition mkdir (fuel : nat) (this : Z) (directory : option ptr) : F Z :=
  command fuel this "MKD"%string directory 50.
Definition rmdir (fuel : nat) (this : Z) (directory : option ptr) : F Z :=
  command fuel this "RMD"%string directory 50.

Definition rename (fuel : nat) (this : Z) (oldName newName : option ptr) : F Z :=
  r ← command fuel this "RNFR"%string oldName 51;
  if r =? 0 then mret 0 else command fuel this "RNTO"%string newName 50.

Definition unlink (fuel : nat) (this : Z) (filename : option ptr) : F Z :=
  command fuel this "DELE"%string filename 50.

Definition site (fuel : nat) (this : Z) (cmd : option ptr) : F Z :=
  command fuel this "SITE"%string cmd 50.

Definition type_command (mode : Z) : list Z := bytes_of "TYPE "%string ++ [mode] ++ crlf.

Definition size (fuel : nat) (this : Z) (path : option ptr) (mode : Z) : F Z :=
  printf this (type_command mode) ;;
  ok ← readResp fuel this 50;
  if ok =? 0 then mret 0
  else
    ok ← command fuel this "SIZE"%string path 50;
    if ok =? 0 then mret 0
    else
      o ← get_this this;
      l ← lift (text_at (Ptr (response o) 0));
      mret (default 0 (scan_size l)).

Definition modDate (fuel : nat) (this : Z) (path : option ptr) : F (list Z) :=
  ok ← command fuel this "MDTM"%string path 50;
  if ok =? 0 then lift (UB NullPointer)
  else o ← get_this this; lift (text_at (Ptr (response o) 4)).

(** ** FTPClientData *)

(** The four bytes of the address and the two of the port, in their order in
    memory. *)
Definition le_bytes (n : nat) (v : Z) : list Z := map (λ i, v / 256 ^ Z.of_nat i mod 256) (seq 0 n).

(** [sprintf(ftp_ctrl->response, ...)] *)
Definition set_text (p : Z) (text : list Z) : F unit :=
  c ← get_this p; l ← lift (store_bytes (response c) 0 (text ++ [0])); set_this p (set_response l).

(** The address and port of the answer to PASV: numbers that were not read have no
    value. *)
Definition passive_address (v : list Z) : outcome (Z * Z) :=
  match v with
  | [a; b; c; d; p; q] =>
      Ok (to_uchar a + 256 * to_uchar b + 65536 * to_uchar c + 16777216 * to_uchar d,
          to_ushort (256 * p + q))
  | _ => UB Uninitialised
  end.

Definition passive (fuel : nat) (this ftp_ctrl : Z) : F bool :=
  printf ftp_ctrl (bytes_of "PASV"%string ++ crlf) ;;
  ok ← readResp fuel ftp_ctrl 50;
  if ok =? 0 then mret false
  else
    c ← get_this ftp_ctrl;
    cp ← lift (strchr (response c) 40);
    match cp with
    | None => mret false
    | Some cp =>
        l ← lift (text_at (Ptr (response c) (cp + 1)));
        '(ip, port) ← lift (passive_address (scan_list 6 l));
        on_tcp this (TCPClient.connectV4 ip port 5000) ;;
        mret true
    end.

(** The text of the command PORT; the command goes to [this], which has no
    connection yet. sin_family is not set for lwip_bind. *)
Definition port_command (sa : sockaddr_in) : outcome (list Z) :=
  t ← match le_bytes 4 (s_addr sa) ++ le_bytes 2 (sin_port sa) with
      | [a; b; c; d; p; q] => Ok (map (numeral 10) [a; b; c; d; p; q])
      | _ => UB Uninitialised
      end;
  Ok (bytes_of "PORT "%string ++ match t with
      | x :: t => x ++ concat (map (λ y, 44 :: y) t) | [] => [] end ++ crlf).

Definition active (fuel : nat) (this ftp_ctrl : Z) : F bool :=
  o ← get_this this;
  sa ← lift (match TCPClient.m_sa (tcp o) with Some sa => Ok sa | None => UB Uninitialised end);
  sData ← outside (lwip_socket SOCK_STREAM);
  if sData =? -1 then mret false
  else
    r ← outside (lwip_setsockopt sData (SO_REUSEADDR 1));
    if r =? -1 then outside (lwip_close sData) ;; mret false
    else
      r ← outside (lwip_bind sData (SockAddr 0 0));
      if r =? -1 then outside (lwip_close sData) ;; mret false
      else
        r ← outside (lwip_listen sData 1);
        if r <? 0 then outside (lwip_close sData) ;; mret false
        else
          '(r, sin) ← outside (lwip_getsockname sData);
          if r <? 0 then mret false
          else
            text ← lift (port_command (default (SockAddr 0 0) sin));
            printf this text ;;
            ok ← readResp fuel ftp_ctrl 50;
            if ok =? 0 then outside (lwip_close sData) ;; mret false
            else
              set_this this (λ o, set_tcp (TCPClient.set_m_socket_fd sData (tcp o)) o) ;;
              mret true.

Definition openDataConn (fuel : nat) (this ftp_ctrl mode dir_ : Z) : F Z :=
  c ← get_this ftp_ctrl;
  if negb (dir c =? FTPLIB_CONTROL) then mret (-1)
  else if negb (dir_ =? FTPLIB_READ) && negb (dir_ =? FTPLIB_WRITE) then
    set_text ftp_ctrl (bytes_of "Invalid direction "%string ++ numeral 10 dir_ ++ [10]) ;; mret (-1)
  else if negb (mode =? TEXT) && negb (mode =? BINARY) then
    set_text ftp_ctrl (bytes_of "Invalid mode "%string ++ [mode; 10]) ;; mret (-1)
  else
    ok ← (if cmode c =? PASSIVE then passive fuel this ftp_ctrl else active fuel this ftp_ctrl);
    if negb ok then mret (-1)
    else
      c ← get_this ftp_ctrl;
      set_this this (λ o, set_xfered1 0 (set_xfered 0 (set_idletime (idletime c) (set_dir dir_ o)))) ;;
      assign_ctrl (drop fuel) this (Some ftp_ctrl) ;;
      mret 1.

Definition acceptConnection (ftp_ctrl : Z) : F Z := mret (-1).

Definition verb (typ : Type_) : list Z :=
  match typ with
  | DIR => bytes_of "NLST "%string
  | DIR_VERBOSE => bytes_of "LIST "%string
  | FILE_READ => bytes_of "RETR "%string
  | FILE_WRITE => bytes_of "STOR "%string
  end.

(** The constructor; what fails in it shows in no result. *)
Definition FTPClientData_new (fuel : nat) (ftp_ctrl : Z) (path : option ptr) (typ : Type_) (mode : Z)
  : F Z :=
  this ← new_object (FTPClientBase_new raw_buf raw_response);
  (if negb (nonnull path) && (bool_decide (typ = FILE_WRITE) || bool_decide (typ = FILE_READ)) then
     set_text ftp_ctrl (bytes_of "Missing path argument for file transfer"%string ++ [10])
   else
     printf ftp_ctrl (type_command mode) ;;
     ok ← readResp fuel ftp_ctrl 50;
     if ok =? 0 then mret tt
     else
       r ← openDataConn fuel this ftp_ctrl mode
             (if bool_decide (typ = FILE_WRITE) then FTPLIB_WRITE else FTPLIB_READ);
       if r =? -1 then mret tt
       else
         printf ftp_ctrl (verb typ) ;;
         p ← lift (text_of path);
         printf ftp_ctrl (p ++ crlf) ;;
         ok ← readResp fuel ftp_ctrl 49;
         if ok =? 0 then on_tcp this TCPClient.stop ;; mret tt
         else
           c ← get_this ftp_ctrl;
           if cmode c =? PORT then
             r ← acceptConnection ftp_ctrl;
             if r =? 0 then
               on_tcp this TCPClient.stop ;;
               assign_ctrl (drop fuel) this None ;;
               assign_data (drop fuel) ftp_ctrl None
             else mret tt
           else mret tt) ;;
  mret this.

(** ** Transfers *)

(** The callback, if there is one. *)
Definition with_cb {A} (this : Z) (m : M W A) : F A :=
  o ← get_this this; if m_fs_cb o then outside m else lift (UB NullPointer).

Fixpoint upload_loop (fuel : nat) (this nData : Z) : F Z :=
  match fuel with
  | O => no_fuel
  | S fuel =>
      '(l, bs) ← with_cb this (fs_read FTPLIB_BUFSIZ);
      if 0 <? to_int l then
        c ← on_tcp nData (TCPClient.write (Ptr bs 0) (to_int l));
        if to_int c <? to_int l then mret 0 else upload_loop fuel this nData
      else mret 1
  end.

Fixpoint download_loop (fuel : nat) (this nData : Z) : F Z :=
  match fuel with
  | O => no_fuel
  | S fuel =>
      '(l, bs) ← on_tcp nData (TCPClient.read FTPLIB_BUFSIZ);
      if 0 <? l then
        r ← with_cb this (fs_write (Ptr bs 0) l);
        if r =? 0 then mret 0 else download_loop fuel this nData
      else mret 1
  end.

(** [ac]: how the local file is opened. *)
Definition open_mode (typ : Type_) (mode : Z) : list Z :=
  (if bool_decide (typ = FILE_WRITE) then 114 else 119) :: (if mode =? BINARY then [98] else []).

Definition xfer (fuel : nat) (this : Z) (localfile path : option ptr) (typ : Type_) (mode : Z) : F Z :=
  opened ← match localfile with
           | Some f =>
               o ← get_this this;
               if m_fs_cb o then
                 name ← lift (text_at f);
                 outside (fs_open name (open_mode typ mode)) ;;
                 mret true
               else mret false
           | None => mret true
           end;
  if negb opened then mret 0
  else
    nData ← FTPClientData_new fuel this path typ mode;
    assign_data (drop fuel) this (Some nData) ;;
    rv ← (if bool_decide (typ = FILE_WRITE) then upload_loop fuel this nData
          else download_loop fuel this nData);
    with_cb this fs_close ;;
    ok ← on_tcp nData TCPClient.operator_bool;
    (if (ok : bool) then on_tcp nData TCPClient.stop ;; readResp fuel this 50 ;; mret tt
     else mret tt) ;;
    assign_ctrl (drop fuel) nData None ;;
    assign_data (drop fuel) this None ;;
    drop fuel (Some nData) ;;
    mret rv.

Definition getList (fuel : nat) (this : Z) (filename path : option ptr) : F Z :=
  xfer fuel this filename path DIR TEXT.
Definition getFullList (fuel : nat) (this : Z) (filename path : option ptr) : F Z :=
  xfer fuel this filename path DIR_VERBOSE TEXT.
Definition get (fuel : nat) (this : Z) (local remote : option ptr) (mode : Z) : F Z :=
  xfer fuel this local remote FILE_READ mode.
Definition put (fuel : nat) (this : Z) (local remote : option ptr) (mode : Z) : F Z :=
  xfer fuel this local remote FILE_WRITE mode.

End Ftp.

End Ftp.
