(* ===== verification/FtpLines.v ===== *)
(** * Lines of the FTP control connection

    What readLine and readResp of FTPClient.cpp (Ftp.v) return, however the
    bytes of the server arrive. *)

From stdpp Require Import gmap.
From S2P Require Import Prelude CSem Numerals Lwip TcpUdp Ftp.

Module FtpLines.

Import Ftp.

(** ** memccpy *)

Lemma memccpy_all c l : Forall (λ x, x ≠ c) l → ∀ dp old q sp r,
  length old = length l →
  memccpy (length l) (dp ++ old ++ q) (len dp) (sp ++ l ++ r) (len sp) c = Ok (None, dp ++ l ++ q).
Proof.
  induction 1 as [|x l Hx Hl IH]; intros dp old q sp r E.
  - by destruct old.
  - destruct old as [|y old]; [done|]. cbn [length memccpy app]. rewrite (bind_Ok _ _ x) by by apply load_app.
    rewrite (bind_Ok _ _ (dp ++ [x] ++ old ++ q)) by by apply (store_bytes_app dp [y]).
    destruct (Z.eqb_spec x c); [done|].
    specialize (IH (dp ++ [x]) old q (sp ++ [x]) r ltac:(by injection E)).
    rewrite <-!app_assoc, !len_app in IH. exact IH.
Qed.

Lemma memccpy_stop c l k : Forall (λ x, x ≠ c) l → ∀ dp old q sp r,
  length old = S (length l) →
  memccpy (length l + S k) (dp ++ old ++ q) (len dp) (sp ++ l ++ c :: r) (len sp) c
  = Ok (Some (len dp + len l + 1), dp ++ l ++ c :: q).
Proof.
  induction 1 as [|x l Hx Hl IH]; intros dp old q sp r E.
  - destruct old as [|y [|]]; [done| |done]. cbn [length memccpy app Nat.add].
    rewrite (bind_Ok _ _ c) by by apply load_app.
    rewrite (bind_Ok _ _ (dp ++ [c] ++ q)) by by apply (store_bytes_app dp [y]).
    rewrite Z.eqb_refl. do 3 f_equal. lia.
  - destruct old as [|y old]; [done|]. cbn [length memccpy app Nat.add]. rewrite (bind_Ok _ _ x) by by apply load_app.
    rewrite (bind_Ok _ _ (dp ++ [x] ++ old ++ q)) by by apply (store_bytes_app dp [y]).
    destruct (Z.eqb_spec x c); [done|].
    specialize (IH (dp ++ [x]) old q (sp ++ [x]) r ltac:(by injection E)).
    rewrite <-!app_assoc, !len_app in IH. cbn [app] in IH. etrans; [exact IH|]. rewrite !len_cons.
    do 3 f_equal. cbn. lia.
Qed.

(** ** What is buffered

    The bytes [b] from cget to cput. *)
Definition buffered (o : FTPClientBase) (b : list Z) : Prop :=
  cavail o = len b ∧
  match cget o with
  | None => b = [] ∧ cput o = None
  | Some g => cput o = Some (g + len b) ∧
              ∃ pre post, buf o = pre ++ b ++ post ∧ len pre = g
  end.

(** The text of a line: CR LF is taken as LF. *)
Definition line_text (l : list Z) : list Z :=
  match list.last l with
  | Some c => if c =? 13 then removelast l ++ [10] else l ++ [10]
  | None => [10]
  end.

Definition taken (k : Z) (o : FTPClientBase) : FTPClientBase :=
  set_cavail (cavail o - k) (set_cget (option_map (Z.add k) (cget o)) o).

Lemma buffered_get o b :
  buffered o b → b ≠ [] → ∃ pre post, cget o = Some (len pre) ∧ buf o = pre ++ b ++ post.
Proof.
  intros (_ & Hg) Hb. destruct (cget o) as [g|]; [|by destruct Hg]. destruct Hg as (_ & pre & post & E & <-).
  by exists pre, post.
Qed.

Lemma buffered_taken o b c : buffered o (b ++ c) → buffered (taken (len b) o) c.
Proof.
  intros (Ea & Hg). split; [cbn; rewrite Ea; autorewrite with lens; lia|]. cbn.
  destruct (cget o) as [g|]; cbn.
  - destruct Hg as (-> & pre & post & E & <-). split; [f_equal; autorewrite with lens; lia|].
    exists (pre ++ b), post. rewrite E, <-!app_assoc. split; [done|]. autorewrite with lens. lia.
  - destruct Hg as [[-> ->]%app_nil ->]. done.
Qed.

(** The bytes are before the newline: they are all taken. *)
Lemma readLine_take_all o b done old q max retval :
  buffered o b → b ≠ [] → Forall (λ x, x ≠ 10) b → len b < max → length old = S (length b) →
  readLine_take o (done ++ old ++ q) (len done) max retval
  = Ok (taken (len b) o, (done ++ b) ++ 0 :: q, len (done ++ b), max - len b, retval + len b, false).
Proof.
  intros HB Hb HF Hm Eo. unfold readLine_take. pose proof HB as [Ea _].
  destruct (buffered_get _ _ HB Hb) as (pre & post & Eg & Ebuf). rewrite Ea, Ebuf, Eg.
  destruct (Z.leb_spec (len b) max); [|lia]. rewrite (bind_Ok _ _ (len pre)) by done.
  destruct (exists_last (l := old)) as (old' & z & ->); [by intros ->|].
  assert (Eo' : length old' = length b) by (rewrite length_app in Eo; cbn in *; lia).
  rewrite <-app_assoc, Nat2Z.id.
  rewrite (bind_Ok _ _ _ (memccpy_all 10 b HF done old' ([z] ++ q) pre post Eo')).
  rewrite (bind_Ok _ _ ((done ++ b) ++ [0] ++ q)).
  2:{ rewrite app_assoc. apply store_bytes_app; [autorewrite with lens; lia|done]. }
  cbn [mbind]. unfold taken. rewrite Ea, Eg. do 6 f_equal; autorewrite with lens; [|lia].
  cbn [option_map]. by rewrite (Z.add_comm (len b) (len pre)).
Qed.

Lemma strcmp_crlf t y q :
  strcmp (Some (Ptr ((t ++ [y]) ++ 10 :: [0] ++ q) (len t))) (Some (c_string crlf)) = Ok (y - 13).
Proof.
  unfold strcmp. cbn [off obj]. destruct (Z.ltb_spec (len t) 0); [lia|]. cbn [orb].
  rewrite <-app_assoc, drop_len_app by done. change (list.drop _ (obj _)) with [13; 10; 0].
  cbn [strcmp_list app]. destruct (Z.eqb_spec y 13) as [->|]; done.
Qed.

Lemma line_text_snoc t y : line_text (t ++ [y]) = if y =? 13 then t ++ [10] else (t ++ [y]) ++ [10].
Proof.
  unfold line_text. by rewrite last_snoc, removelast_last.
Qed.

(** The newline is among the bytes. *)
Lemma readLine_take_stop o l b done old q max retval :
  buffered o (l ++ 10 :: b) → done ++ l ≠ [] → Forall (λ x, x ≠ 10) l → len l + 1 < max →
  length old = S (S (length l)) → retval = len done →
  ∃ q' bp max', readLine_take o (done ++ old ++ q) (len done) max retval
    = Ok (taken (len l + 1) o, line_text (done ++ l) ++ 0 :: q', bp, max',
          len (line_text (done ++ l)), true)
  ∧ length (line_text (done ++ l) ++ 0 :: q') = length (done ++ old ++ q).
Proof.
  intros HB Hb HF Hm Eo ->. unfold readLine_take. pose proof HB as [Ea _].
  destruct (buffered_get _ _ HB) as (pre & post & Eg & Ebuf); [by destruct l|].
  rewrite <-app_assoc in Ebuf. cbn [app] in Ebuf. rewrite Eg, Ebuf. rewrite (bind_Ok _ _ (len pre)) by done.
  set (x := if cavail o <=? max then cavail o else max - 1).
  assert (Hx : ∃ k, Z.to_nat x = (length l + S k)%nat).
  { exists (Z.to_nat (x - len l - 1)). subst x. rewrite Ea. autorewrite with lens. ztests; lia. }
  destruct Hx as (k & ->).
  destruct (exists_last (l := old)) as (old' & z & ->); [by intros ->|].
  assert (Eo' : length old' = S (length l)) by (rewrite length_app in Eo; cbn in *; lia).
  rewrite <-(app_assoc old').
  rewrite (bind_Ok _ _ _ (memccpy_stop 10 l k HF done old' ([z] ++ q) pre _ Eo')).
  cbn beta iota zeta. replace (len done + len l + 1 - len done) with (len l + 1) by lia.
  rewrite (bind_Ok _ _ ((done ++ l) ++ 10 :: [0] ++ q)).
  2:{ replace (done ++ l ++ 10 :: [z] ++ q) with ((done ++ l ++ [10]) ++ [z] ++ q) by by rewrite <-!app_assoc.
      replace ((done ++ l) ++ 10 :: [0] ++ q) with ((done ++ l ++ [10]) ++ [0] ++ q) by by rewrite <-!app_assoc.
      apply store_bytes_app; [autorewrite with lens; cbn; lia|done]. }
  destruct (exists_last Hb) as (t & y & Et). rewrite Et. unfold taken. rewrite Eg. cbn [option_map].
  rewrite (Z.add_comm (len l + 1) (len pre)), line_text_snoc.
  assert (HL : len done + len l = len t + 1) by (rewrite <-len_app, Et, len_app; done).
  replace (len done + (len l + 1) - 2) with (len t) by lia.
  rewrite (bind_Ok _ _ _ (strcmp_crlf t y q)).
  assert (Elen : length (done ++ (old' ++ [z]) ++ q) = (length t + 3 + length q)%nat).
  { rewrite !length_app in *. cbn in *. lia. }
  rewrite <-app_assoc in Elen. rewrite Elen.
  destruct (Z.eqb_spec (y - 13) 0), (Z.eqb_spec y 13); try lia.
  - subst y. rewrite <-app_assoc.
    rewrite (bind_Ok _ _ (t ++ [10] ++ 10 :: [0] ++ q)) by by apply (store_bytes_app t [13]).
    rewrite (bind_Ok _ _ ((t ++ [10]) ++ [0] ++ [0] ++ q)).
    2:{ rewrite app_assoc. apply (store_bytes_app _ [10]); [autorewrite with lens; done|done]. }
    do 3 eexists. split; [do 3 f_equal; autorewrite with lens; cbn; lia|].
    rewrite !length_app. cbn. lia.
  - exists q. do 2 eexists. split; [|rewrite !length_app; cbn; lia].
    rewrite <-!app_assoc. cbn [app]. do 3 f_equal. rewrite !len_app. cbn. lia.
Qed.

(** ** The control connection

    What a server and a network have to do: while bytes are under way, recv gives some of
    them, at least one and at most the 512 that are asked for; and the server [answer]s what
    it has been sent. [wire fd sent inp]: by the socket, [sent] has gone out and [inp] is to
    come. A piece of 512 bytes overruns the buffer of the client (ftp_readLine_overruns), so
    the lemmas on lines ask that fewer are under way. *)
Section Control.
Context `{CImpl} `{IPAddresses} {W : Type} `{Lwip W} `{FtpPlatform W}.

Class ControlLine (answer : list Z → list Z) (wire : Z → list Z → list Z → W → Prop) : Prop :=
  { cn_fd fd sent inp w : wire fd sent inp w → 0 ≤ fd < INT_MAX;
    cn_select fd sent inp w : wire fd sent inp w → inp ≠ [] →
      ∃ n w', lwip_select_read (fd + 1) fd w = Ok (n, w') ∧ 0 < n ∧ wire fd sent inp w';
    cn_recv fd sent inp w : wire fd sent inp w → inp ≠ [] →
      ∃ p inp' w', lwip_recv fd 512 w = Ok ((len p, p), w') ∧ inp = p ++ inp' ∧
        0 < len p ≤ 512 ∧ wire fd sent inp' w';
    cn_print c text sent inp w : wire (TCPClient.m_socket_fd c) sent inp w →
      ∃ n w', print text (c, w) = Ok (n, (c, w')) ∧
        wire (TCPClient.m_socket_fd c) (sent ++ text) (inp ++ answer (sent ++ text)) w';
    cn_setsockopt fd fd' o sent inp : yields (wire fd sent inp) (lwip_setsockopt fd' o) (λ _, True) }.

(** Other sockets, and files. [wire c open]: [c] is the socket that is open beside that of the
    control connection, and a file is [open] or not. What is done with them does not matter to the
    control connection. *)
Class ControlNet (answer : list Z → list Z)
    (wire : option Z → bool → Z → list Z → list Z → W → Prop) : Prop :=
  { cn_line c f :: ControlLine answer (wire c f);
    cn_socket f fd t sent inp w : wire None f fd sent inp w →
      ∃ fd' w', lwip_socket t w = Ok (fd', w') ∧
        wire (if 0 <=? fd' then Some fd' else None) f fd sent inp w';
    cn_option d f fd o sent inp :
      yields (wire (Some d) f fd sent inp) (lwip_setsockopt d o) (λ rc, rc ≠ -1);
    cn_connect d f fd sa sent inp :
      yields (wire (Some d) f fd sent inp) (lwip_connect d sa) (λ _, True);
    cn_shutdown d f fd how sent inp :
      yields (wire (Some d) f fd sent inp) (lwip_shutdown d how) (λ _, True);
    cn_close d f fd sent inp w : wire (Some d) f fd sent inp w →
      ∃ rc w', lwip_close d w = Ok (rc, w') ∧ wire None f fd sent inp w';
    cn_fs_open c fd name mode sent inp w : wire c false fd sent inp w →
      ∃ w', fs_open name mode w = Ok (tt, w') ∧ wire c true fd sent inp w';
    cn_fs_close c fd sent inp w : wire c true fd sent inp w →
      ∃ w', fs_close w = Ok (tt, w') ∧ wire c false fd sent inp w' }.

(** A control connection: the object and what does not change while lines are
    read, with the other objects. *)
Record control : Type := Control
  { c_this : Z; c_owners : Z; c_ctrl : option Z; c_data : option Z; c_cmode : Z; c_idle : timeval;
    c_cb : bool; c_fd : Z; c_response : list Z; c_others : gmap Z (Z * FTPClientBase) }.

Definition with_response (r : list Z) (k : control) : control :=
  Control (c_this k) (c_owners k) (c_ctrl k) (c_data k) (c_cmode k) (c_idle k) (c_cb k)
    (c_fd k) r (c_others k).

Definition world (k : control) (o : FTPClientBase) (s : W) : ftp_world W :=
  World (<[c_this k := (c_owners k, o)]> (c_others k)) s.

Definition is_control (k : control) (o : FTPClientBase) : Prop :=
  dir o = FTPLIB_CONTROL ∧ ctrl o = c_ctrl k ∧ data o = c_data k ∧ cmode o = c_cmode k ∧
  idletime o = c_idle k ∧ m_fs_cb o = c_cb k ∧ length (buf o) = 512%nat ∧
  response o = c_response k ∧ TCPClient.m_so_timeout (tcp o) ≠ None ∧
  TCPClient.m_socket_fd (tcp o) = c_fd k.

Section Wire.
Context (answer : list Z → list Z) (wire : Z → list Z → list Z → W → Prop).

(** [inp] is still to be read: what is buffered and what will come. *)
Definition conn (k : control) (sent inp : list Z) (w : ftp_world W) : Prop :=
  ∃ o s b i, w = world k o s ∧ is_control k o ∧ buffered o b ∧ inp = b ++ i ∧
    wire (TCPClient.m_socket_fd (tcp o)) sent i s.

Lemma run_get_this k o s : get_this (c_this k) (world k o s) = Ok (o, world k o s).
Proof.
  unfold get_this, entry, world, mbind, M_bind. cbn [objects]. by rewrite lookup_insert_eq.
Qed.

Lemma run_set_this k f o s : set_this (c_this k) f (world k o s) = Ok (tt, world k (f o) s).
Proof.
  unfold set_this, entry, world, mbind, M_bind. cbn [objects]. rewrite lookup_insert_eq.
  unfold put_entry. cbn [objects sockets_].
  change (partial_alter (λ _, Some (c_owners k, f o)) (c_this k)) with
    (insert (M := gmap Z (Z * FTPClientBase)) (c_this k) (c_owners k, f o)).
  by rewrite insert_insert_eq.
Qed.

Lemma run_on_tcp {A} k (m : M (TCPClient.TCPClient * W) A) o s a t s' :
  m (tcp o, s) = Ok (a, (t, s')) → on_tcp (c_this k) m (world k o s) = Ok (a, world k (set_tcp t o) s').
Proof.
  intros E. unfold on_tcp, world. cbn [objects sockets_]. rewrite lookup_insert_eq, E.
  by rewrite insert_insert_eq.
Qed.

Context {HN : ControlLine answer wire}.

Lemma read_piece t s sent inp :
  wire (TCPClient.m_socket_fd t) sent inp s → TCPClient.m_so_timeout t ≠ None → inp ≠ [] →
  len inp < 512 →
  ∃ p inp' s', TCPClient.read 512 (t, s) = Ok ((len p, p), (t, s')) ∧ inp = p ++ inp' ∧
    0 < len p < 512 ∧ wire (TCPClient.m_socket_fd t) sent inp' s'.
Proof.
  intros Hw Ht Hi H512. pose proof (cn_fd _ _ _ _ Hw). unfold TCPClient.read. rewrite bind_self.
  destruct (Z.ltb_spec (TCPClient.m_socket_fd t) 0); [lia|].
  destruct (cn_select _ _ _ _ Hw Hi) as (n & s1 & E1 & Hn & Hw1).
  rewrite (iadd_Ok (TCPClient.m_socket_fd t) 1) by (unfold INT_MIN, INT_MAX in *; lia).
  rewrite run_bind_lift_Ok, (bind_world _ _ _ _ _ _ E1).
  destruct (Z.ltb_spec 0 n); [|lia]. unfold TCPClient.its_timeout.
  destruct (TCPClient.m_so_timeout t) as [to|]; [|done]. rewrite run_bind_lift_Ok.
  destruct (cn_setsockopt (TCPClient.m_socket_fd t) (TCPClient.m_socket_fd t)
    (SO_RCVTIMEO (fst to) (snd to)) _ _ _ Hw1) as (rc & s2 & E2 & _ & Hw2).
  rewrite (bind_world _ _ _ _ _ _ E2).
  destruct (cn_recv _ _ _ _ Hw2 Hi) as (p & inp' & s3 & E3 & -> & Hp & Hw3). rewrite len_app in H512.
  exists p, inp', s3. unfold sys. cbn [fst snd]. rewrite E3. split; [done|]. split; [done|]. split; [lia|done].
Qed.

Lemma fill k o s sent inp :
  is_control k o → buffered o [] → wire (TCPClient.m_socket_fd (tcp o)) sent inp s → inp ≠ [] →
  len inp < 512 →
  ∃ p inp' o' s', (readLine_reset (c_this k) ;; readLine_read (c_this k)) (world k o s)
    = Ok (len p, world k o' s') ∧ inp = p ++ inp' ∧ 0 < len p ∧ is_control k o' ∧ buffered o' p ∧
    wire (TCPClient.m_socket_fd (tcp o')) sent inp' s'.
Proof.
  intros HK (Ea & Hg) Hw Hi H512. unfold readLine_reset. rewrite run_assoc.
  rewrite (run_bind _ _ _ _ _ (run_get_this k o s)).
  assert (cput o = cget o) as E.
  { destruct (cget o) as [g|]; [|by destruct Hg]. destruct Hg as [-> _]. f_equal. cbn. lia. }
  rewrite bool_decide_true by done. rewrite (run_bind _ _ _ _ _ (run_set_this k _ o s)).
  set (o1 := set_cleft _ _).
  unfold readLine_read. rewrite (run_bind _ _ _ _ _ (run_get_this k _ s)).
  destruct HK as (K1 & K2 & K3 & K4 & K5 & K6 & K7 & K8 & K9 & K10).
  destruct (read_piece (tcp o) s sent inp) as (p & inp' & s' & ER & -> & Hp & Hw'); [done..|].
  change (to_size (cleft _)) with (to_size 512).
  assert (to_size 512 = 512) as -> by (unfold to_size; by destruct lp64).
  rewrite (run_bind _ _ _ _ _ (run_on_tcp k _ o1 s (len p, p) _ s' ER)).
  set (o2 := set_tcp _ o1). change (deref _) with (lift (Ok 0) : M (ftp_world W) Z). rewrite run_bind_lift_Ok.
  change (buf o1) with (buf o).
  assert (HB : buf o = take (length p) (buf o) ++ list.drop (length p) (buf o)) by by rewrite take_drop.
  assert (HT : length (take (length p) (buf o)) = length p) by (rewrite length_take; lia).
  set (u := list.drop (length p) (buf o)) in *. rewrite HB.
  rewrite (run_bind _ _ _ _ _ (run_lift _ _ _ (store_bytes_app [] _ u 0 p eq_refl HT))).
  rewrite (run_bind _ _ _ _ _ (run_set_this k _ o2 s')). destruct (Z.eqb_spec (len p) (-1)); [lia|].
  rewrite (run_bind _ _ _ _ _ (run_set_this k _ _ s')). set (o3 := set_cput _ _).
  rewrite (run_bind _ _ _ _ _ (run_get_this k o3 s')).
  assert (HU : ∃ z u', u = z :: u').
  { destruct u as [|z u'] eqn:EU; [|by exists z, u']. exfalso. subst u.
    assert (length (list.drop (length p) (buf o)) = 0%nat) as EL by by rewrite EU.
    rewrite length_drop in EL. lia. }
  destruct HU as (z & u' & EU). change (buf o3) with (p ++ u). rewrite EU.
  rewrite (run_bind _ _ _ _ _ (run_lift _ (p ++ [0] ++ u') _
    (store_bytes_app p [z] u' (cavail o3) [0] eq_refl eq_refl))).
  rewrite (run_bind _ _ _ _ _ (run_set_this k _ o3 s')).
  eexists p, inp', _, s'. split; [done|]. split; [done|]. split; [lia|]. split; [|split]; [..|done].
  - repeat split; try done. cbn [buf set_buf]. rewrite HB, EU in K7. rewrite !length_app in *. cbn in *. lia.
  - split; [done|]. cbn. split; [done|]. by exists [], (0 :: u').
Qed.

(** What is buffered is taken. *)
Lemma take_buffered k o s b done old :
  is_control k o → buffered o b → Forall (λ x, x ≠ 10) b → len b < len old →
  ∃ o' old', (if 0 <? len b then
      '(o, line, bp, max, retval, found) ←
        lift (readLine_take o (done ++ old) (len done) (len old) (len done));
      set_this (c_this k) (λ _, o) ;;
      mret (line, bp, max, retval, found)
    else mret (done ++ old, len done, len old, len done, false)) (world k o s)
    = Ok (((done ++ b) ++ old', len (done ++ b), len old', len (done ++ b), false), world k o' s) ∧
  length ((done ++ b) ++ old') = length (done ++ old) ∧
  is_control k o' ∧ buffered o' [] ∧ tcp o' = tcp o.
Proof.
  intros HK HB HF Hm. destruct (Z.ltb_spec 0 (len b)) as [Hb|Hb].
  - set (o2 := take (S (length b)) old). set (q := list.drop (S (length b)) old).
    assert (Eo : old = o2 ++ q) by by (unfold o2, q; rewrite take_drop).
    assert (E2 : length o2 = S (length b)) by (unfold o2; rewrite length_take; lia).
    clearbody o2 q. subst old. assert (Hb' : b ≠ []) by by intros ->.
    rewrite (run_bind _ _ _ _ _ (run_lift _ _ _
      (readLine_take_all o b done o2 q (len (o2 ++ q)) (len done) HB Hb' HF Hm E2))).
    rewrite (run_bind _ _ _ _ _ (run_set_this k _ o s)).
    exists (taken (len b) o), (0 :: q). split; [|split; [|split; [|split]]]; try done.
    + rewrite run_ret. do 4 f_equal; [|rewrite len_app; lia]. f_equal.
      rewrite !len_app, len_cons. lia.
    + rewrite !length_app. cbn. lia.
    + apply buffered_taken. by rewrite app_nil_r.
  - destruct b; [|cbn in Hb; lia]. exists o, old. by rewrite app_nil_r.
Qed.

Lemma readLine_loop_line k sent rest fuel : ∀ l done old b i o s,
  is_control k o → buffered o b → wire (TCPClient.m_socket_fd (tcp o)) sent i s →
  b ++ i = l ++ 10 :: rest → len i < 512 →
  Forall (λ x, x ≠ 10) l → done ++ l ≠ [] → len l + 2 ≤ len old →
  (length l + (if b is [] then 1 else 0) < fuel)%nat →
  ∃ q w, readLine_loop fuel (c_this k) (done ++ old) (len done) (len old) (len done) false (world k o s)
    = Ok ((len (line_text (done ++ l)), line_text (done ++ l) ++ 0 :: q), w) ∧
  length (line_text (done ++ l) ++ 0 :: q) = length (done ++ old) ∧ conn k sent rest w.
Proof.
  induction fuel as [|fuel IH]; intros l done old b i o s HK HB Hw E H512 HF Hd Hr Hf; [lia|].
  cbn [readLine_loop]. rewrite (run_bind _ _ _ _ _ (run_get_this k o s)).
  pose proof HB as [Ea _]. rewrite Ea.
  assert (HE : (∃ b', b = l ++ 10 :: b' ∧ rest = b' ++ i) ∨ (∃ l', l = b ++ l' ∧ i = l' ++ 10 :: rest)).
  { apply app_eq_inv in E as [([|x b'] & -> & E)|?]; [right; exists []|left|by right].
    - by rewrite !app_nil_r.
    - injection E as <- ->. by exists b'. }
  destruct HE as [(b' & -> & ->)|(l' & -> & ->)].
  - destruct (Z.ltb_spec 0 (len (l ++ 10 :: b'))) as [_|Hn]; [|rewrite len_app, len_cons in Hn; lia].
    set (o2 := take (length l + 2) old). set (q0 := list.drop (length l + 2) old).
    assert (Eo : old = o2 ++ q0) by by (unfold o2, q0; rewrite take_drop).
    assert (E2 : length o2 = S (S (length l))) by (unfold o2; rewrite length_take; lia).
    destruct (readLine_take_stop o l b' done o2 q0 (len old) (len done)) as (q & bp & max' & ET & EL);
      [done|done|done|lia|done|done|].
    rewrite run_assoc, <-Eo in *. rewrite (run_bind _ _ _ _ _ (run_lift _ _ _ ET)).
    cbn beta iota. rewrite run_assoc, (run_bind _ _ _ _ _ (run_set_this k _ o s)), run_bind_ret.
    cbn beta iota. eexists q, _. split; [done|]. split; [done|].
    exists (taken (len l + 1) o), s, b', i. split; [done|]. split; [done|].
    split; [|done]. replace (len l + 1) with (len (l ++ [10])) by (rewrite len_app; done).
    apply buffered_taken. by rewrite <-app_assoc.
  - assert (HF' : Forall (λ x, x ≠ 10) b ∧ Forall (λ x, x ≠ 10) l') by by apply Forall_app.
    destruct HF' as [HFb HFl].
    destruct (take_buffered k o s b done old) as (o1 & old1 & E1 & EL & HK1 & HB1 & Et1);
      [done..|rewrite len_app in Hr; lia|].
    rewrite (run_bind _ _ _ _ _ E1). cbn beta iota. rewrite <-Et1 in Hw.
    rewrite length_app in Hf. rewrite len_app in Hr.
    assert (len old1 = len old - len b) by (rewrite !length_app in EL; lia).
    destruct (Z.eqb_spec (len old1) 1); [lia|].
    destruct (fill k o1 s sent (l' ++ 10 :: rest)) as (p & i' & o2 & s2 & E2 & Ei & Hp & HK2 & HB2 & Hw2);
      [done|done|done|by destruct l'|done|].
    apply run_bind_inv in E2 as (? & ? & E2 & E3). rewrite (run_bind _ _ _ _ _ E2).
    rewrite (run_bind _ _ _ _ _ E3). destruct (Z.eqb_spec (len p) (-1)); [lia|].
    destruct (Z.eqb_spec (len p) 0); [lia|].
    destruct (IH l' (done ++ b) old1 p i' o2 s2) as (q & w & EI & EL' & HC); try done.
    + rewrite Ei, len_app in H512. lia.
    + by rewrite <-app_assoc.
    + lia.
    + destruct p; [cbn in Hp; lia|]. destruct b; cbn [length] in *; lia.
    + exists q, w. rewrite <-(app_assoc done b l') in EI, EL'. split; [done|]. split; [by rewrite EL'|done].
Qed.

(** The line that is next is read, whatever the pieces in which it comes. *)
Lemma readLine_line k sent l rest line fuel w :
  conn k sent (l ++ 10 :: rest) w → len (l ++ 10 :: rest) < 512 →
  Forall (λ x, x ≠ 10) l → l ≠ [] → len l + 2 ≤ len line → (length l + 1 < fuel)%nat →
  ∃ q w', readLine fuel (c_this k) line (len line) w
    = Ok ((len (line_text l), line_text l ++ 0 :: q), w') ∧
  length (line_text l ++ 0 :: q) = length line ∧ conn k sent rest w'.
Proof.
  intros (o & s & b & i & -> & HK & HB & Ei & Hw) H512 HF Hl Hr Hf. unfold readLine.
  rewrite (run_bind _ _ _ _ _ (run_get_this k o s)). destruct HK as [Ed HK]. rewrite Ed. cbn [Z.eqb negb andb FTPLIB_CONTROL].
  destruct (Z.eqb_spec (len line) 0); [lia|].
  apply (readLine_loop_line k sent rest fuel l [] line b i o s); try done.
  { rewrite Ei, len_app in H512. lia. }
  destruct b; lia.
Qed.

(** ** Replies

    The lines of a reply, without CR LF. *)
Definition is_line (l : list Z) : Prop := Forall (λ x, byte x ∧ x ≠ 10 ∧ x ≠ 0) l ∧ 3 ≤ len l ≤ 509.

Lemma is_line_3 l : is_line l → ∃ a b c r, l = a :: b :: c :: r ∧ a ≠ 0 ∧ b ≠ 0 ∧ c ≠ 0.
Proof.
  intros [HF HL]. destruct l as [|a [|b [|c r]]]; try (cbn in HL; lia). exists a, b, c, r.
  split; [done|]. repeat (apply Forall_cons_1 in HF as [(_ & _ & ?) HF]). done.
Qed.

Definition lines_of (ls : list (list Z)) : list Z := concat (map (λ l, l ++ crlf) ls).

(** A line that begins with the code [c] of three digits and a space. *)
Definition final (c l : list Z) : bool := bool_decide (take 4 l = c ++ [32]).

(** The first line has a hyphen after the code exactly when more lines follow, up to
    the first that is final; [l] is the last line. *)
Inductive reply : list (list Z) → list Z → Prop :=
  | reply_one l : l !! 3%nat ≠ Some 45 → reply [l] l
  | reply_many l ls l' :
      l !! 3%nat = Some 45 → Forall (λ x, final (take 3 l) x = false) ls →
      final (take 3 l) l' = true → reply (l :: ls ++ [l']) l'.

Lemma readResponse_line k sent l rest fuel w :
  conn k sent (l ++ crlf ++ rest) w → len (l ++ crlf ++ rest) < 512 →
  is_line l → length (c_response k) = 512%nat → (length l + 2 < fuel)%nat →
  ∃ q w', readResponse fuel (c_this k) w = Ok (len l + 1, w') ∧
    length (l ++ 10 :: 0 :: q) = 512%nat ∧ conn (with_response (l ++ 10 :: 0 :: q) k) sent rest w'.
Proof.
  intros HC H512 [HF HL] HR Hf. unfold readResponse. pose proof HC as (o & s & b & i & -> & HK & _).
  rewrite (run_bind _ _ _ _ _ (run_get_this k o s)).
  assert (response o = c_response k) as -> by apply HK.
  destruct (readLine_line k sent (l ++ [13]) rest (c_response k) fuel (world k o s)) as (q & w' & E & EL & HC').
  { by rewrite <-app_assoc. }
  { by rewrite <-app_assoc. }
  { apply Forall_app. split; [|by constructor]. by apply (list.Forall_impl _ _ _ HF); intros ? (_ & ? & _). }
  { by destruct l. }
  { rewrite HR, len_app. cbn. lia. }
  { rewrite length_app. cbn. lia. }
  rewrite HR in *. rewrite (run_bind _ _ _ _ _ E). cbn beta iota.
  rewrite line_text_snoc in *. cbn [Z.eqb Pos.eqb] in *. rewrite <-app_assoc in *. cbn [app] in *.
  destruct HC' as (o' & s' & b' & i' & -> & HK' & HB' & -> & Hw').
  rewrite (run_bind _ _ _ _ _ (run_set_this k _ o' s')).
  exists q. eexists. split; [by rewrite len_app|]. split; [done|].
  exists (set_response (l ++ 10 :: 0 :: q) o'), s', b', i'. split; [done|]. split; [|done].
  destruct HK' as (? & ? & ? & ? & ? & ? & ? & ? & ? & ?). by repeat split.
Qed.

(** The comparison of readResp. *)
Lemma strncmp_final l f q :
  is_line l → is_line f →
  ∃ d, strncmp (Some (Ptr (l ++ 10 :: 0 :: q) 0)) (Some (Ptr (take 3 f ++ [32; 0]) 0)) 4 = Ok d ∧
    truth d = negb (final (take 3 f) l).
Proof.
  intros (a & b & c & r & -> & Ha%Z.eqb_neq & Hb%Z.eqb_neq & Hc%Z.eqb_neq)%is_line_3 (a' & b' & c' & r' & -> & _)%is_line_3.
  unfold strncmp. change (4 =? 0) with false. change (4 <? 0) with false. cbn [off obj orb].
  change ((0 <? 0) || (0 <? 0)) with false. change (Z.to_nat 4) with 4%nat. change (Z.to_nat 0) with 0%nat.
  rewrite !drop_0. cbn [take app strncmp_list firstn].
  assert (Hd : ∀ x y, x ≠ y → truth (x - y) = true) by (intros; apply truth_nonzero; lia).
  unfold final. cbn [take app firstn].
  destruct (Z.eqb_spec a a') as [<-|], (Z.eqb_spec b b') as [<-|], (Z.eqb_spec c c') as [<-|];
    cbn [negb]; rewrite ?Ha, ?Hb, ?Hc;
    try (eexists; split; [done|]; rewrite Hd, bool_decide_false by naive_solver; done).
  rewrite take_0. cbn [app]. destruct r as [|x r]; cbn [app].
  - eexists. split; [done|]. by rewrite bool_decide_false.
  - change (take 1 (x :: r)) with [x]. destruct (Z.eqb_spec x 32) as [->|]; cbn [negb].
    + eexists. split; [done|]. by rewrite bool_decide_true.
    + eexists. split; [done|]. by rewrite Hd, bool_decide_false by naive_solver.
Qed.

Lemma response_is k sent inp w r :
  conn (with_response r k) sent inp w → ∃ o, get_this (c_this k) w = Ok (o, w) ∧ response o = r.
Proof.
  intros (o & s & b & i & -> & HK & _). exists o. split; [|by apply HK].
  apply (run_get_this (with_response r k)).
Qed.

Lemma lines_of_cons l ls : lines_of (l :: ls) = l ++ crlf ++ lines_of ls.
Proof. unfold lines_of. cbn. by rewrite <-app_assoc. Qed.

Lemma readResp_loop_reply f l' sent rest ls : is_line f → is_line l' → Forall is_line ls →
  Forall (λ x, final (take 3 f) x = false) ls → final (take 3 f) l' = true → ∀ fuel k w,
  conn k sent (lines_of (ls ++ [l']) ++ rest) w → len (lines_of (ls ++ [l']) ++ rest) < 512 →
  length (c_response k) = 512%nat →
  (length (lines_of (ls ++ [l'])) + 2 < fuel)%nat →
  ∃ q w', readResp_loop fuel (c_this k) (take 3 f ++ [32; 0]) w = Ok (true, w') ∧
    length (l' ++ 10 :: 0 :: q) = 512%nat ∧ conn (with_response (l' ++ 10 :: 0 :: q) k) sent rest w'.
Proof.
  intros Hf Hl'. induction ls as [|l ls IH]; intros HL HO HE fuel k w HC H512 HR Hfu.
  - destruct fuel as [|fuel]; [lia|]. cbn [app readResp_loop] in *. rewrite lines_of_cons, <-!app_assoc in HC, H512.
    rewrite lines_of_cons, !length_app in Hfu.
    destruct (readResponse_line k sent l' rest (S fuel) w) as (q & w' & E & EL & HC'); [done..|lia|].
    rewrite (run_bind _ _ _ _ _ E). destruct (Z.eqb_spec (len l' + 1) (-1)); [lia|].
    destruct (response_is _ _ _ _ _ HC') as (o & Eo & Er). rewrite (run_bind _ _ _ _ _ Eo), Er.
    destruct (strncmp_final l' f q) as (d & Ed & Et); [done..|].
    rewrite (run_bind _ _ _ _ _ (run_lift _ _ _ Ed)), Et, HE. by exists q, w'.
  - destruct fuel as [|fuel]; [lia|]. cbn [app readResp_loop] in *. rewrite lines_of_cons, <-!app_assoc in HC, H512.
    rewrite lines_of_cons, !length_app in Hfu.
    apply list.Forall_cons_1 in HL as [Hl HL], HO as [HFl HO].
    destruct (readResponse_line k sent l (lines_of (ls ++ [l']) ++ rest) (S fuel) w)
      as (q & w' & E & EL & HC'); [done..|lia|].
    rewrite (run_bind _ _ _ _ _ E). destruct (Z.eqb_spec (len l + 1) (-1)); [lia|].
    destruct (response_is _ _ _ _ _ HC') as (o & Eo & Er). rewrite (run_bind _ _ _ _ _ Eo), Er.
    destruct (strncmp_final l f q) as (d & Ed & Et); [done..|].
    rewrite (run_bind _ _ _ _ _ (run_lift _ _ _ Ed)), Et, HFl. cbn [negb].
    destruct (IH HL HO HE fuel _ _ HC') as (q' & w'' & E'' & HC''); [|done| |by exists q', w''].
    + rewrite !len_app in *. lia.
    + destruct Hl. lia.
Qed.

Lemma load_3 l q : is_line l →
  ∃ x, load (l ++ 10 :: 0 :: q) 3 = Ok x ∧ (x =? 45) = bool_decide (l !! 3%nat = Some 45).
Proof.
  intros (a & b & c & r & -> & _)%is_line_3. destruct r as [|x r]; [by exists 10|].
  exists x. split; [done|]. cbn. destruct (Z.eqb_spec x 45) as [->|]; [done|].
  rewrite bool_decide_false; [done|naive_solver].
Qed.

Lemma strncpy_3 l q : is_line l → strncpy 3 (l ++ q) = Ok (take 3 l).
Proof.
  intros (a & b & c & r & -> & Ha%Z.eqb_neq & Hb%Z.eqb_neq & Hc%Z.eqb_neq)%is_line_3.
  cbn. by rewrite Ha, Hb, Hc.
Qed.

Lemma verdict k sent inp l q c w : is_line l → conn (with_response (l ++ 10 :: 0 :: q) k) sent inp w →
  (o ← get_this (c_this k); r0 ← lift (load (response o) 0); mret (if r0 =? c then 1 else 0)) w
  = Ok (if bool_decide (head l = Some c) then 1 else 0, w).
Proof.
  intros (a & b & d & r & -> & _)%is_line_3 HC. destruct (response_is _ _ _ _ _ HC) as (o & Eo & Er).
  rewrite (run_bind _ _ _ _ _ Eo), Er, (run_bind _ _ _ _ _ (run_lift _ a _ eq_refl)), run_ret.
  do 2 f_equal. change (head _) with (Some a). destruct (Z.eqb_spec a c) as [->|].
  - by rewrite bool_decide_true.
  - rewrite bool_decide_false; [done|naive_solver].
Qed.

(** readResp reads one reply, and answers whether its last line begins with [c]; that
    line is what the response holds. *)
Lemma readResp_reply k sent ls l rest c fuel w :
  reply ls l → Forall is_line ls → conn k sent (lines_of ls ++ rest) w →
  len (lines_of ls ++ rest) < 512 → length (c_response k) = 512%nat → (length (lines_of ls) + 2 < fuel)%nat →
  ∃ q w', readResp fuel (c_this k) c w = Ok (if bool_decide (head l = Some c) then 1 else 0, w') ∧
    length (l ++ 10 :: 0 :: q) = 512%nat ∧ conn (with_response (l ++ 10 :: 0 :: q) k) sent rest w'.
Proof.
  intros HR HF HC H512 HL Hf. unfold readResp.
  assert (HS : ∃ f r, ls = f :: r) by (destruct HR; eauto).
  destruct HS as (f & r & ->). pose proof (Forall_inv HF) as Hl.
  rewrite lines_of_cons, <-!app_assoc in HC, H512. rewrite lines_of_cons, !length_app in Hf.
  destruct (readResponse_line k sent f (lines_of r ++ rest) fuel w) as (q & w' & E & EL & HC'); [done..|lia|].
  rewrite (run_bind _ _ _ _ _ E). destruct (Z.eqb_spec (len f + 1) (-1)); [lia|].
  destruct (response_is _ _ _ _ _ HC') as (o & Eo & Er). rewrite (run_bind _ _ _ _ _ Eo), Er.
  destruct (load_3 f q Hl) as (x & Ex & E45). rewrite (run_bind _ _ _ _ _ (run_lift _ _ _ Ex)), E45.
  inversion HR as [l0 H3|l0 ls' l' H3 HO HE]; subst.
  - rewrite bool_decide_false by done. rewrite run_bind_ret. cbn [negb].
    exists q, w'. split; [|done]. by apply (verdict k sent (lines_of [] ++ rest) l q).
  - rewrite bool_decide_true by done.
    rewrite run_assoc, (run_bind _ _ _ _ _ (run_lift _ _ _ (strncpy_3 f _ Hl))).
    pose proof (Forall_inv_tail HF) as [HFs HFl]%Forall_app. apply Forall_inv in HFl.
    destruct (readResp_loop_reply f l sent rest ls' Hl HFl HFs HO HE fuel (with_response _ k) w' HC')
      as (q' & w'' & E'' & EL' & HC''); [|done|lia|].
    { rewrite !len_app in *. lia. }
    rewrite (run_bind _ _ _ _ _ E''). cbn [negb]. exists q', w''.
    split; [|done]. by apply (verdict k sent rest l q').
Qed.

(** *** Overruns *)

Lemma store_end buf x : store_bytes buf (len buf) [x] = UB OutOfBounds.
Proof. unfold store_bytes. cbn [length]. ztests; try done; lia. Qed.

Lemma readLine_take_overruns o b done old max retval :
  buffered o b → b ≠ [] → Forall (λ x, x ≠ 10) b → length old = length b → len b ≤ max →
  readLine_take o (done ++ old) (len done) max retval = UB OutOfBounds.
Proof.
  intros HB Hb HF Eo Hm. unfold readLine_take. pose proof HB as [Ea _].
  destruct (buffered_get _ _ HB Hb) as (pre & post & Eg & Ebuf). rewrite Ea, Ebuf, Eg.
  destruct (Z.leb_spec (len b) max); [|lia]. rewrite (bind_Ok _ _ (len pre)) by done. rewrite Nat2Z.id.
  pose proof (memccpy_all 10 b HF done old [] pre post Eo) as EM. rewrite app_nil_r in EM.
  rewrite (bind_Ok _ _ _ EM). cbn beta iota zeta.
  rewrite app_nil_r. apply bind_UB. rewrite <-len_app. apply store_end.
Qed.

(** C33: readLine stores a NUL after what it copies: when the bytes that are buffered
    exactly fill what is left of the line, and none of them is a newline, it is stored
    after the end; so is the one that readLine stores after what it has read, when
    the socket fills the buffer. *)
Theorem ftp_readLine_overruns k o s :
  (∀ b done old fuel, buffered o b → b ≠ [] → Forall (λ x, x ≠ 10) b → length old = length b →
    readLine_loop (S fuel) (c_this k) (done ++ old) (len done) (len old) (len done) false (world k o s)
    = UB OutOfBounds) ∧
  (∀ p t s', length (buf o) = 512%nat → length p = 512%nat → buffered o [] → cget o = cput o →
    TCPClient.read 512 (tcp o, s) = Ok ((512, p), (t, s')) →
    (readLine_reset (c_this k) ;; readLine_read (c_this k)) (world k o s) = UB OutOfBounds).
Proof.
  split.
  - intros b done old fuel HB Hb HF Eo. cbn [readLine_loop].
    rewrite (run_bind _ _ _ _ _ (run_get_this k o s)). pose proof HB as [Ea _]. rewrite Ea.
    destruct (Z.ltb_spec 0 (len b)); [|destruct b; [done|cbn in *; lia]].
    rewrite run_assoc. apply run_bind_UB. unfold lift.
    by rewrite (readLine_take_overruns o b done old) by (done || lia).
  - intros p t s' Hbuf Hlen HB E ER. unfold readLine_reset. rewrite run_assoc.
    rewrite (run_bind _ _ _ _ _ (run_get_this k o s)), bool_decide_true by done.
    rewrite (run_bind _ _ _ _ _ (run_set_this k _ o s)). set (o1 := set_cleft _ _).
    unfold readLine_read. rewrite (run_bind _ _ _ _ _ (run_get_this k _ s)).
    change (to_size (cleft _)) with (to_size 512).
    assert (to_size 512 = 512) as -> by (unfold to_size; by destruct lp64).
    rewrite (run_bind _ _ _ _ _ (run_on_tcp k _ o1 s (512, p) _ s' ER)). cbn beta iota.
    change (deref _) with (lift (Ok 0) : M (ftp_world W) Z). rewrite run_bind_lift_Ok.
    change (buf o1) with (buf o).
    pose proof (store_bytes_app [] (buf o) [] 0 p eq_refl ltac:(by rewrite Hbuf)) as ES.
    rewrite !app_nil_r in ES. cbn [app] in ES.
    rewrite (run_bind _ _ _ _ _ (run_lift _ _ _ ES)), (run_bind _ _ _ _ _ (run_set_this k _ _ s')).
    change (512 =? -1) with false. cbn match.
    rewrite (run_bind _ _ _ _ _ (run_set_this k _ _ s')), (run_bind _ _ _ _ _ (run_get_this k _ s')).
    apply run_bind_UB. unfold lift. cbn [buf cavail set_cput set_cavail set_cleft set_buf set_tcp o1].
    change (0 + 512) with 512. replace 512 with (len p) by (rewrite Hlen; done). by rewrite store_end.
Qed.

End Wire.
End Control.

End FtpLines.
