(* ===== verification/FtpSession.v ===== *)
(** * What the FTP client says, and what it makes of the replies

    Logins and other commands of FTPClient.cpp (Ftp.v) refine the dialogue they are
    meant to hold with a server that replies to each command. *)

From stdpp Require Import gmap.
From S2P Require Import Prelude CSem Numerals Lwip TcpUdp Ftp FtpLines.

Module FtpSession.

Import Ftp FtpLines.

(** ** The reply to PASV

    [h1,h2,h3,h4,p1,p2], in decimal. *)
Definition commas (v : list Z) : list Z :=
  match v with [] => [] | x :: v => numeral 10 x ++ concat (map (λ y, 44 :: numeral 10 y) v) end.

Lemma scan_u_numeral n post :
  0 ≤ n ≤ INT_MAX → (∀ c r, post = c :: r → is_digit 10 c = false) →
  scan_u (numeral 10 n ++ post) = Some (n, post).
Proof.
  intros Hn Hp. unfold scan_u. pose proof (numeral_digits 10 n ltac:(lia) ltac:(lia)) as HD.
  destruct (numeral_cons 10 n) as (c & l & E). pose proof HD as Hc. rewrite E in Hc.
  apply Forall_inv in Hc. rewrite E. cbn [app]. rewrite (sign_digit 10) by done.
  rewrite (isdigit_10 c) by done. change (c :: l ++ post) with ((c :: l) ++ post). rewrite <-E.
  rewrite after_num_app, (num_numeral 10 n post), num_stop by done || lia.
  rewrite to_uint_id by lia. done.
Qed.

Lemma scan_list_commas v : Forall (λ x, 0 ≤ x ≤ INT_MAX) v → ∀ post, v ≠ [] →
  (∀ c r, post = c :: r → is_digit 10 c = false ∧ c ≠ 44) → post ≠ [] →
  scan_list (length v) (commas v ++ post) = v.
Proof.
  induction 1 as [|x v Hx Hv IH]; intros post Hne Hp Hpost; [done|]. clear Hne.
  cbn [length scan_list commas]. rewrite <-app_assoc.
  destruct v as [|y v].
  - cbn [map concat app]. rewrite scan_u_numeral by (done || naive_solver).
    destruct post as [|c r]; [done|]. cbn. destruct (Hp c r eq_refl) as [_ Hc].
    by destruct (Z.eqb_spec c 44).
  - cbn [map concat]. rewrite <-app_assoc. cbn [app].
    rewrite scan_u_numeral; [|done|by intros ? ? [= <- _]].
    unfold scan_char. rewrite Z.eqb_refl. f_equal. specialize (IH post).
    unfold commas in IH. rewrite <-app_assoc in IH. by apply IH.
Qed.

Section Session.
Context `{CImpl} `{IPAddresses} {W : Type} `{Lwip W} `{FtpPlatform W}.

(** The server: the lines of its reply, which may depend on all it has been sent; it
    replies when a command is complete. [code]: the first digit of the last line. After a
    reply that is preliminary, one that begins with 1, it gives a second one, [later]. *)
Context (server later : list Z → list (list Z)).
Definition code (sent : list Z) : option Z := list.last (server sent) ≫= head.
Definition polite : Prop :=
  (∀ t, Forall is_line (server (t ++ crlf)) ∧ ∃ l, reply (server (t ++ crlf)) l) ∧
  (∀ t x, x ≠ 10 → server (t ++ [x]) = []) ∧
  (∀ t, if bool_decide (code t = Some 49) then Forall is_line (later t) ∧ ∃ l, reply (later t) l
        else later t = []).
Definition answer (sent : list Z) : list Z := lines_of (server sent ++ later sent).

Context (wire : Z → list Z → list Z → W → Prop) {HN : ControlLine answer wire} (HP : polite).

(** [inp] is to be read; nothing, when the client is at the start of a command. *)
Definition rests (k : control) (sent inp : list Z) (w : ftp_world W) : Prop :=
  length (c_response k) = 512%nat ∧ conn wire k sent inp w.
Definition ready (k : control) (sent : list Z) (w : ftp_world W) : Prop := rests k sent [] w.

Definition enough (fuel : nat) : Prop := ∀ sent, (length (answer sent) + 2 < fuel)%nat.

(** Fewer than 512 bytes are ever under way: the client, which asks for 512, cannot be
    given as many at once (it would write past its buffer). *)
Definition brief : Prop := ∀ sent, len (answer sent) < 512.

Lemma later_none t : code t ≠ Some 49 → later t = [].
Proof. intros Hc. pose proof (proj2 (proj2 HP) t) as HL. by rewrite bool_decide_false in HL. Qed.

Lemma answer_app t : answer t = lines_of (server t) ++ lines_of (later t).
Proof. unfold answer, lines_of. by rewrite map_app, concat_app. Qed.

Lemma reply_last ls l : reply ls l → list.last ls = Some l.
Proof. intros [|]; [done|]. by rewrite app_comm_cons, last_snoc. Qed.

Lemma run_printf k text sent inp w :
  conn wire k sent inp w →
  ∃ w', printf (c_this k) text w = Ok (tt, w') ∧
    conn wire k (sent ++ text) (inp ++ answer (sent ++ text)) w'.
Proof.
  intros (o & s & b & i & -> & HK & HB & -> & Hw).
  destruct (cn_print (tcp o) text sent i s Hw) as (n & s' & E & Hw'). unfold printf.
  rewrite (run_bind _ _ _ _ _ (run_on_tcp k _ o s n (tcp o) s' E)). eexists. split; [done|].
  exists (set_tcp (tcp o) o), s', b, (i ++ answer (sent ++ text)).
  split; [done|]. split; [|split; [done|split; [by rewrite app_assoc|done]]].
  destruct HK as (? & ? & ? & ? & ? & ? & ? & ? & ? & ?). by repeat split.
Qed.

Lemma run_readResp k t sent c fuel w :
  sent = t ++ crlf → length (c_response k) = 512%nat → conn wire k sent (answer sent) w → brief → enough fuel →
  ∃ l q w', readResp fuel (c_this k) c w
    = Ok (if bool_decide (code sent = Some c) then 1 else 0, w') ∧ code sent = head l ∧
    is_line l ∧ reply (server sent) l ∧
    rests (with_response (l ++ 10 :: 0 :: q) k) sent (lines_of (later sent)) w'.
Proof.
  intros Ht HR HC HB HF. destruct (proj1 HP t) as [HL (l & Hl)]. rewrite <-Ht in *.
  specialize (HF sent). specialize (HB sent). rewrite answer_app in HC, HF, HB. rewrite length_app in HF.
  destruct (readResp_reply _ wire k sent (server sent) l (lines_of (later sent)) c fuel w)
    as (q & w' & E & EL & HC'); [done..|lia|].
  unfold code. rewrite (reply_last _ _ Hl). exists l, q, w'. do 2 (split; [done|]).
  split; [|done]. destruct Hl; [by apply Forall_inv in HL|].
  apply Forall_inv_tail, Forall_app in HL as [_ HL]. by apply Forall_inv in HL.
Qed.

Lemma text_of_cstr p bs : cstr p bs → text_of (Some p) = Ok bs.
Proof.
  intros Hp. unfold text_of. rewrite (bind_Ok _ _ _ (strlen_cstr _ _ Hp)). by apply mem_read_cstr.
Qed.

(** The line of a command. *)
Definition command_line (name : String.string) (arg : list Z) : list Z :=
  bytes_of name ++ bytes_of " "%string ++ arg ++ crlf.

Lemma run_command k sent name p arg c fuel w :
  ready k sent w → cstr p arg → brief → enough fuel →
  let sent' := sent ++ command_line name arg in
  ∃ l q w', command fuel (c_this k) name (Some p) c w
    = Ok (if bool_decide (code sent' = Some c) then 1 else 0, w') ∧ code sent' = head l ∧
    is_line l ∧ rests (with_response (l ++ 10 :: 0 :: q) k) sent' (lines_of (later sent')) w'.
Proof.
  intros [HR HC] Hp HB HF sent'. unfold command.
  rewrite (run_bind _ _ _ _ _ (run_lift _ _ _ (text_of_cstr _ _ Hp))).
  destruct (run_printf k (command_line name arg) sent [] w HC) as (w1 & E1 & HC1).
  rewrite (run_bind _ _ _ _ _ E1).
  destruct (run_readResp k (sent ++ bytes_of name ++ bytes_of " "%string ++ arg) sent' c fuel w1)
    as (l & q & w' & E & Ec & Hl & _ & HR'); [|done..|].
  { unfold sent', command_line. by rewrite <-!app_assoc. }
  by exists l, q, w'.
Qed.

(** *** Logins

    What RFC 959 asks: the user, and the password if the server wants it. The result
    and all that has been sent; a password that is null cannot be given. *)
Definition login_spec (sent user : list Z) (password : option (list Z)) : outcome (Z * list Z) :=
  let sent := sent ++ command_line "USER"%string user in
  if bool_decide (code sent = Some 51) then
    match password with
    | None => UB NullPointer
    | Some pass =>
        let sent := sent ++ command_line "PASS"%string pass in
        Ok (if bool_decide (code sent = Some 50) then 1 else 0, sent)
    end
  else Ok (if bool_decide (code sent = Some 50) then 1 else 0, sent).

(** The object that a session leaves: only its response has changed. When the reply was
    preliminary the next one is still to be read. *)
Definition after (k : control) (sent : list Z) (w : ftp_world W) : Prop :=
  ∃ r, rests (with_response r k) sent (lines_of (later sent)) w.

(** C31: login refines the dialogue of a login: with a server that replies to every
    command in one or more lines, however these arrive while fewer than 512 bytes of the
    replies are under way, it sends USER and, when it is
    asked for, PASS, and answers 1 exactly when the server accepts; when the server
    asks for a password and there is none (the default), it reads through a null
    pointer. *)
Theorem ftp_login_refines k sent user pass ubytes pbytes fuel w :
  ready k sent w → brief → enough fuel → cstr user ubytes →
  match pass, pbytes with Some p, Some bs => cstr p bs | None, None => True | _, _ => False end →
  match login_spec sent ubytes pbytes with
  | Ok (r, sent') => ∃ w', login fuel (c_this k) (Some user) pass w = Ok (r, w') ∧ after k sent' w'
  | UB f => login fuel (c_this k) (Some user) pass w = UB f
  | NoFuel => False
  end.
Proof.
  intros HR HB HF Hu Hp. unfold login, login_spec.
  destruct (run_command k sent "USER"%string user ubytes 51 fuel w HR Hu HB HF)
    as (l & q & w1 & E & Ec & Hl & HR1).
  set (s1 := sent ++ command_line _ _) in *. rewrite (run_bind _ _ _ _ _ E).
  destruct (decide (code s1 = Some 51)) as [E1|E1].
  - rewrite !(bool_decide_true (code s1 = Some 51)) by done. cbn [Z.eqb].
    destruct pass as [p|], pbytes as [bs|]; try done.
    rewrite later_none in HR1 by by rewrite E1.
    destruct (run_command (with_response _ k) s1 "PASS"%string p bs 50 fuel w1 HR1 Hp HB HF)
      as (l' & q' & w2 & E' & Ec' & Hl' & HR2).
    exists w2. split; [exact E'|]. eexists. exact HR2.
  - rewrite !(bool_decide_false (code s1 = Some 51)) by done. cbn [Z.eqb].
    exists w1. destruct HR1 as [HL HC]. rewrite Ec. split; [|by eexists].
    by rewrite (verdict wire k s1 _ l q 50 w1 Hl HC).
Qed.

End Session.

End FtpSession.
