(* ===== verification/FtpTransfer.v ===== *)
(** * Transfers of the FTP client

    The two connections of FTPClient.cpp (Ftp.v), their objects and the owners they have;
    how the second is opened and closed; and what get does and says when the server
    refuses. *)

From stdpp Require Import gmap.
From S2P Require Import Prelude CSem Numerals Lwip TcpUdp Ftp FtpLines FtpSession.

Module FtpTransfer.

Import Ftp FtpLines FtpSession.

Section Conn.
Context `{CImpl} `{IPAddresses} {W : Type} `{Lwip W} `{FtpPlatform W}.
Context {server later : list Z → list (list Z)} {wire : Z → list Z → list Z → W → Prop}.
#[local] Abbreviation answer := (answer server later).

(** ** Two objects

    [p] is another object of the world [world k o s]. *)
Definition with_others (f : gmap Z (Z * FTPClientBase) → gmap Z (Z * FTPClientBase)) (k : control)
  : control :=
  Control (c_this k) (c_owners k) (c_ctrl k) (c_data k) (c_cmode k) (c_idle k) (c_cb k)
    (c_fd k) (c_response k) (f (c_others k)).
Definition with_owners (n : Z) (k : control) : control :=
  Control (c_this k) n (c_ctrl k) (c_data k) (c_cmode k) (c_idle k) (c_cb k)
    (c_fd k) (c_response k) (c_others k).
Definition with_data (d : option Z) (k : control) : control :=
  Control (c_this k) (c_owners k) (c_ctrl k) d (c_cmode k) (c_idle k) (c_cb k)
    (c_fd k) (c_response k) (c_others k).

Definition other (p : Z) (n : Z) (d : FTPClientBase) (k : control) : control :=
  with_others <[p := (n, d)]> k.

Section Two.
Context (k : control) (p : Z) (Hp : p ≠ c_this k) (n : Z) (d : FTPClientBase) (o : FTPClientBase) (s : W).
#[local] Abbreviation w := (world (other p n d k) o s).

Lemma run_entry_other : entry p w = Ok ((n, d), w).
Proof. unfold entry, world. cbn. by rewrite lookup_insert_ne, lookup_insert_eq by done. Qed.

Lemma run_get_other : get_this p w = Ok (d, w).
Proof. unfold get_this. by rewrite (run_bind _ _ _ _ _ run_entry_other). Qed.

Lemma run_put_other m d' : put_entry p (Some (m, d')) w = Ok (tt, world (other p m d' k) o s).
Proof.
  unfold put_entry, world. cbn. do 3 f_equal.
  change (<[p:=(m, d')]> (<[c_this k:=(c_owners k, o)]> (<[p:=(n, d)]> (c_others k)))
    = <[c_this k:=(c_owners k, o)]> (<[p:=(m, d')]> (c_others k))).
  by rewrite insert_insert_ne, insert_insert_eq by done.
Qed.

Lemma run_set_other f : set_this p f w = Ok (tt, world (other p n (f d) k) o s).
Proof. unfold set_this. rewrite (run_bind _ _ _ _ _ run_entry_other). apply run_put_other. Qed.

Lemma run_on_other {A} (m : M (TCPClient.TCPClient * W) A) a t s' :
  m (tcp d, s) = Ok (a, (t, s')) →
  on_tcp p m w = Ok (a, world (other p n (set_tcp t d) k) o s').
Proof.
  intros E. unfold on_tcp, world. cbn. rewrite lookup_insert_ne, lookup_insert_eq by done.
  rewrite E. do 3 f_equal. by rewrite insert_insert_ne, insert_insert_eq by done.
Qed.

(** Gone: the entry is removed. *)
Lemma run_forget : c_others k !! p = None → put_entry p None w = Ok (tt, world k o s).
Proof.
  intros Hk. unfold put_entry, world. cbn. do 3 f_equal.
  change (delete p (<[c_this k:=(c_owners k, o)]> (<[p:=(n, d)]> (c_others k)))
    = <[c_this k:=(c_owners k, o)]> (c_others k)).
  by rewrite delete_insert_ne, delete_insert_id by done.
Qed.

End Two.

Lemma run_entry_this k o (s : W) : entry (c_this k) (world k o s) = Ok ((c_owners k, o), world k o s).
Proof. unfold entry, world. cbn. by rewrite lookup_insert_eq. Qed.

Lemma run_put_this k o (s : W) m :
  put_entry (c_this k) (Some (m, o)) (world k o s) = Ok (tt, world (with_owners m k) o s).
Proof.
  unfold put_entry, world. cbn. do 3 f_equal.
  change (<[c_this k:=(m, o)]> (<[c_this k:=(c_owners k, o)]> (c_others k))
    = <[c_this k:=(m, o)]> (c_others k)). by rewrite insert_insert_eq.
Qed.

Context {HLine : ControlLine answer wire}.

(** ** Owners

    Taking and dropping a pointer to the control connection, which has other owners. *)
Lemma run_copy_this k o (s : W) :
  sp_copy (Some (c_this k)) (world k o s) = Ok (tt, world (with_owners (c_owners k + 1) k) o s).
Proof. unfold sp_copy. rewrite (run_bind _ _ _ _ _ (run_entry_this k o s)). apply run_put_this. Qed.

Lemma run_drop_this fuel k o (s : W) : 1 < c_owners k →
  drop fuel (Some (c_this k)) (world k o s) = Ok (tt, world (with_owners (c_owners k - 1) k) o s).
Proof.
  intros Hn. unfold drop. cbn [sp_drop]. rewrite (run_bind _ _ _ _ _ (run_entry_this k o s)).
  rewrite (run_bind _ _ _ _ _ (run_put_this k o s _)). by destruct (Z.eqb_spec (c_owners k) 1); [lia|].
Qed.

(** ** Steps

    Beside a control connection [k] there is the data connection [p], with the object
    [d] and [n] owners. *)
#[local] Abbreviation conn := (conn wire).

Lemma conn_fd k sent inp w : conn k sent inp w → 0 ≤ c_fd k.
Proof.
  intros (o & s & b & i & _ & HK & _ & _ & Hw). pose proof (cn_fd _ _ _ _ Hw) as Hf.
  destruct HK as (_ & _ & _ & _ & _ & _ & _ & _ & _ & E). rewrite E in Hf. lia.
Qed.

Lemma conn_get k sent inp w :
  conn k sent inp w → ∃ o, get_this (c_this k) w = Ok (o, w) ∧ is_control k o.
Proof. intros (o & s & b & i & -> & HK & _). exists o. split; [apply run_get_this|done]. Qed.

(** What is done beside the control connection; then [wire1] holds. *)
Lemma conn_outside {A} (wire1 : Z → list Z → list Z → W → Prop) k sent inp w (m : M W A) Q :
  conn k sent inp w →
  (∀ i s, wire (c_fd k) sent i s → ∃ a s', m s = Ok (a, s') ∧ Q a ∧ wire1 (c_fd k) sent i s') →
  ∃ a w', outside m w = Ok (a, w') ∧ Q a ∧ FtpLines.conn wire1 k sent inp w'.
Proof.
  intros (o & s & b & i & -> & HK & HB & E & Hw) Hm.
  assert (Ef : TCPClient.m_socket_fd (tcp o) = c_fd k) by apply HK. rewrite Ef in Hw.
  destruct (Hm i s Hw) as (a & s' & Em & Ha & Hw'). exists a, (world k o s').
  unfold outside, world. cbn. rewrite Em. do 2 (split; [done|]). exists o, s', b, i. by rewrite Ef.
Qed.

(** What is done with the data connection; then [wire1] holds. *)
Lemma conn_tcp_change {A} (wire1 : TCPClient.TCPClient → Z → list Z → list Z → W → Prop)
    k p n d sent inp w (m : M (TCPClient.TCPClient * W) A) (Q : A → TCPClient.TCPClient → Prop) :
  p ≠ c_this k → conn (other p n d k) sent inp w →
  (∀ i s, wire (c_fd k) sent i s → ∃ a t s', m (tcp d, s) = Ok (a, (t, s')) ∧ Q a t ∧
    wire1 t (c_fd k) sent i s') →
  ∃ a t w', on_tcp p m w = Ok (a, w') ∧ Q a t ∧
    FtpLines.conn (wire1 t) (other p n (set_tcp t d) k) sent inp w'.
Proof.
  intros Hp (o & s & b & i & -> & HK & HB & E & Hw) Hm.
  assert (Ef : TCPClient.m_socket_fd (tcp o) = c_fd k) by apply HK. rewrite Ef in Hw.
  destruct (Hm i s Hw) as (a & t & s' & Em & Ha & Hw'). exists a, t. eexists.
  split; [by apply (run_on_other k p Hp n d o s m a t s')|]. split; [done|].
  exists o, s', b, i. split; [done|]. by rewrite Ef.
Qed.

Lemma conn_tcp_other {A} k p n d sent inp w (m : M (TCPClient.TCPClient * W) A) Q :
  p ≠ c_this k → conn (other p n d k) sent inp w →
  (∀ i, does (wire (c_fd k) sent i) m (tcp d) Q) →
  ∃ a t w', on_tcp p m w = Ok (a, w') ∧ Q a t ∧ conn (other p n (set_tcp t d) k) sent inp w'.
Proof. intros Hp HC Hm. by apply (conn_tcp_change (λ _, wire)). Qed.

(** What does nothing to the data connection. *)
Lemma conn_idle_other {A} k p n d sent inp w (m : M (TCPClient.TCPClient * W) A) a :
  p ≠ c_this k → conn (other p n d k) sent inp w →
  (∀ s, m (tcp d, s) = Ok (a, (tcp d, s))) → on_tcp p m w = Ok (a, w).
Proof.
  intros Hp (o & s & b & i & -> & _) Hm.
  rewrite (run_on_other k p Hp n d o s m a (tcp d) s) by done. by destruct d.
Qed.

Lemma conn_get_other k p n d sent inp w :
  p ≠ c_this k → conn (other p n d k) sent inp w → get_this p w = Ok (d, w).
Proof. intros Hp (o & s & b & i & -> & _). by apply run_get_other. Qed.

Lemma conn_entry_other k p n d sent inp w :
  p ≠ c_this k → conn (other p n d k) sent inp w → entry p w = Ok ((n, d), w).
Proof. intros Hp (o & s & b & i & -> & _). by apply run_entry_other. Qed.

Lemma conn_put_other k p n d sent inp w m d' :
  p ≠ c_this k → conn (other p n d k) sent inp w →
  ∃ w', put_entry p (Some (m, d')) w = Ok (tt, w') ∧ conn (other p m d' k) sent inp w'.
Proof.
  intros Hp (o & s & b & i & -> & HK & HC). eexists. split; [by apply run_put_other|].
  exists o, s, b, i. by split.
Qed.

Lemma conn_set_other k p n d sent inp w f :
  p ≠ c_this k → conn (other p n d k) sent inp w →
  ∃ w', set_this p f w = Ok (tt, w') ∧ conn (other p n (f d) k) sent inp w'.
Proof.
  intros Hp (o & s & b & i & -> & HK & HC). eexists. split; [by apply run_set_other|].
  exists o, s, b, i. by split.
Qed.

Lemma conn_copy k sent inp w : conn k sent inp w →
  ∃ w', sp_copy (Some (c_this k)) w = Ok (tt, w') ∧ conn (with_owners (c_owners k + 1) k) sent inp w'.
Proof.
  intros (o & s & b & i & -> & HC). eexists. split; [apply run_copy_this|]. exists o, s, b, i. by split.
Qed.

Lemma conn_drop k fuel sent inp w : 1 < c_owners k → conn k sent inp w →
  ∃ w', drop fuel (Some (c_this k)) w = Ok (tt, w') ∧ conn (with_owners (c_owners k - 1) k) sent inp w'.
Proof.
  intros Hn (o & s & b & i & -> & HC). eexists. split; [by apply run_drop_this|].
  exists o, s, b, i. by split.
Qed.

Lemma conn_set_data k v sent inp w : conn k sent inp w →
  ∃ w', set_this (c_this k) (set_data v) w = Ok (tt, w') ∧ conn (with_data v k) sent inp w'.
Proof.
  intros (o & s & b & i & -> & HK & HC). eexists. split; [apply run_set_this|].
  exists (set_data v o), s, b, i. split; [done|]. split; [|done].
  destruct HK as (? & ? & ? & ? & ? & ? & ? & ? & ? & ?). by repeat split.
Qed.

(** A new object, and its end. *)
Lemma conn_new k o0 sent inp w : conn k sent inp w →
  ∃ p w', new_object o0 w = Ok (p, w') ∧ p ≠ c_this k ∧ c_others k !! p = None ∧
    conn (other p 1 o0 k) sent inp w'.
Proof.
  intros (o & s & b & i & -> & HC). unfold new_object. set (p := fresh _).
  assert (Hp : p ∉ dom (objects (world k o s))) by apply is_fresh.
  apply not_elem_of_dom in Hp. cbn in Hp. apply lookup_insert_None in Hp as [Hk Hne].
  exists p. eexists. split; [done|]. do 2 (split; [done|]). exists o, s, b, i. split; [|done].
  unfold world. cbn. by rewrite insert_insert_ne by done.
Qed.

Lemma conn_forget k p n d sent inp w : p ≠ c_this k → c_others k !! p = None →
  conn (other p n d k) sent inp w → ∃ w', put_entry p None w = Ok (tt, w') ∧ conn k sent inp w'.
Proof.
  intros Hp Hk (o & s & b & i & -> & HK & HC). eexists. split; [by apply run_forget|].
  exists o, s, b, i. by split.
Qed.

(** ** The end of a transfer *)

Lemma drop_none fuel : drop fuel None = (mret tt : M (ftp_world W) unit).
Proof. done. Qed.

(** The destructor of a data connection that holds nothing. *)
Lemma run_delete k p n d drp fuel sent inp w :
  p ≠ c_this k → c_others k !! p = None → conn (other p n d k) sent inp w →
  dir d = FTPLIB_READ ∨ dir d = FTPLIB_WRITE → ctrl d = None → data d = None →
  TCPClient.m_socket_fd (tcp d) < 0 → drp None = mret tt →
  ∃ w', FTPClientBase_delete drp fuel p w = Ok (tt, w') ∧ conn k sent inp w'.
Proof.
  intros Hp Hk HC Hd Ec Ed Hfd Hdrp. unfold FTPClientBase_delete.
  pose proof (conn_get_other _ _ _ _ _ _ _ Hp HC) as EG. rewrite (run_bind _ _ _ _ _ EG).
  assert (Efin : finish_transfer drp fuel p w = Ok (tt, w)).
  { unfold finish_transfer. by rewrite (run_bind _ _ _ _ _ EG), Ec. }
  assert (Ew : writeLine p None 0 w = Ok (if dir d =? FTPLIB_WRITE then 0 else -1, w)).
  { unfold writeLine. rewrite (run_bind _ _ _ _ _ EG). by destruct (dir d =? FTPLIB_WRITE). }
  rewrite (run_bind _ _ w tt w).
  2:{ destruct Hd as [Hd | Hd]; rewrite Hd in *; cbn [Z.eqb Pos.eqb FTPLIB_READ FTPLIB_WRITE FTPLIB_CONTROL].
      - exact Efin.
      - cbn match. by rewrite (run_bind _ _ _ _ _ Ew). }
  unfold assign_data. cbn [sp_copy]. rewrite !run_assoc, run_bind_ret, run_assoc, (run_bind _ _ _ _ _ EG).
  edestruct (conn_set_other k p n) as (w1 & E1 & HC1); [done|exact HC|].
  rewrite run_assoc, (run_bind _ _ _ _ _ E1), Ed, Hdrp, run_bind_ret.
  unfold assign_ctrl. cbn [sp_copy]. rewrite !run_assoc, run_bind_ret, run_assoc.
  rewrite (run_bind _ _ _ _ _ (conn_get_other _ _ _ _ _ _ _ Hp HC1)).
  edestruct (conn_set_other k p n) as (w2 & E2 & HC2); [done|exact HC1|].
  rewrite run_assoc, (run_bind _ _ _ _ _ E2). cbn [ctrl set_data]. rewrite Ec, Hdrp, run_bind_ret.
  destruct (conn_tcp_other k p n (set_ctrl None (set_data None d)) sent inp w2 TCPClient.TCPClient_delete (λ _ _, True))
    as (a & t & w3 & E3 & _ & HC3); [done|exact HC2| |].
  { intros i. unfold TCPClient.TCPClient_delete. apply does_self. cbn [tcp set_ctrl set_data].
    destruct (Z.leb_spec 0 (TCPClient.m_socket_fd (tcp d))); [lia|]. by apply does_ret. }
  rewrite (run_bind _ _ _ _ _ E3). by apply (conn_forget k p n _ sent inp w3 Hp Hk HC3).
Qed.

(** The pointers between the two connections are dropped, and the data connection with
    them. *)
Lemma run_release k p d fuel sent inp w :
  p ≠ c_this k → c_others k !! p = None → c_data k = Some p → 1 < c_owners k →
  conn (other p 2 d k) sent inp w →
  dir d = FTPLIB_READ ∨ dir d = FTPLIB_WRITE → ctrl d = Some (c_this k) → data d = None →
  TCPClient.m_socket_fd (tcp d) < 0 →
  ∃ w', (assign_ctrl (drop fuel) p None ;; assign_data (drop fuel) (c_this k) None ;;
         drop fuel (Some p)) w = Ok (tt, w') ∧
    conn (with_data None (with_owners (c_owners k - 1) k)) sent inp w'.
Proof.
  intros Hp Hk Hdata Hown HC Hd Ec Ed Hfd. unfold assign_ctrl. cbn [sp_copy].
  rewrite run_assoc, run_bind_ret, run_assoc.
  rewrite (run_bind _ _ _ _ _ (conn_get_other _ _ _ _ _ _ _ Hp HC)).
  edestruct (conn_set_other k p 2) as (w1 & E1 & HC1); [done|exact HC|].
  rewrite run_assoc, (run_bind _ _ _ _ _ E1), Ec.
  destruct (conn_drop (other p 2 (set_ctrl None d) k) fuel _ _ _ Hown HC1) as (w2 & E2 & HC2).
  rewrite (run_bind _ _ _ _ _ E2).
  unfold assign_data. cbn [sp_copy]. rewrite run_assoc, run_bind_ret, run_assoc.
  destruct (conn_get _ _ _ _ HC2) as (o & Eo & HK). rewrite (run_bind _ _ _ _ _ Eo).
  destruct (conn_set_data _ None _ _ _ HC2) as (w3 & E3 & HC3).
  rewrite run_assoc, (run_bind _ _ _ _ _ E3).
  assert (data o = Some p) as -> by (rewrite <-Hdata; apply HK).
  set (k4 := with_data None (with_owners (c_owners k - 1) k)).
  change (conn (other p 2 (set_ctrl None d) k4) sent inp w3) in HC3.
  assert (Edrop : ∀ m d' w', conn (other p m d' k4) sent inp w' →
    ∃ w'', drop fuel (Some p) w' = (if m =? 1 then FTPClientBase_delete (sp_drop 2 fuel) fuel p else mret tt) w''
      ∧ conn (other p (m - 1) d' k4) sent inp w'').
  { intros m d' w' HC'. unfold drop. cbn [sp_drop].
    rewrite (run_bind _ _ _ _ _ (conn_entry_other k4 p m d' sent inp w' Hp HC')). cbn beta iota.
    destruct (conn_put_other k4 p m d' sent inp w' (m - 1) d' Hp HC') as (w'' & E'' & HC'').
    exists w''. by rewrite (run_bind _ _ _ _ _ E''). }
  destruct (Edrop 2 _ _ HC3) as (w4 & E4 & HC4). cbn [Z.eqb Pos.eqb] in E4.
  rewrite (run_bind _ _ _ tt w4) by by rewrite E4.
  destruct (Edrop 1 _ _ HC4) as (w5 & -> & HC5). cbn [Z.eqb Pos.eqb].
  by apply (run_delete k4 p 0 (set_ctrl None d)).
Qed.

(** During a transfer [k] has one owner more, and [p] for its data connection; its end. *)
Definition holding (p : Z) (k : control) : control :=
  with_data (Some p) (with_owners (c_owners k + 1) k).

Lemma run_let_go k p d fuel sent inp w :
  p ≠ c_this k → c_others k !! p = None → c_data k = None → 1 ≤ c_owners k →
  conn (other p 2 d (holding p k)) sent inp w →
  dir d = FTPLIB_READ ∨ dir d = FTPLIB_WRITE → ctrl d = Some (c_this k) → data d = None →
  TCPClient.m_socket_fd (tcp d) < 0 →
  ∃ w', (∀ B (f : M (ftp_world W) B), (assign_ctrl (drop fuel) p None ;;
           assign_data (drop fuel) (c_this k) None ;; drop fuel (Some p) ;; f) w = f w') ∧
    conn k sent inp w'.
Proof.
  intros Hp Hk Hdata Hown HC Hdir Hc Hd Hfd.
  destruct (run_release (holding p k) p d fuel sent inp w Hp Hk eq_refl ltac:(cbn; lia) HC)
    as (w' & E & HC'); [done..|]. exists w'. split.
  - intros B f. apply run_bind_inv in E as ([] & w6 & E6 & ([] & w7 & E7 & E)%run_bind_inv).
    by rewrite (run_bind _ _ _ _ _ E6), (run_bind _ _ _ _ _ E7), (run_bind _ _ _ _ _ E).
  - replace k with (with_data None (with_owners (c_owners (holding p k) - 1) (holding p k))); [done|].
    destruct k. cbn in *. unfold with_data, with_owners. cbn. by rewrite Hdata, Z.add_simpl_r.
Qed.

(** A file callback that the object has. *)
Lemma run_with_cb {A} wire1 k sent inp w (m : M W A) Q :
  conn k sent inp w → c_cb k = true →
  (∀ i s, wire (c_fd k) sent i s → ∃ a s', m s = Ok (a, s') ∧ Q a ∧ wire1 (c_fd k) sent i s') →
  ∃ a w', with_cb (c_this k) m w = Ok (a, w') ∧ Q a ∧ FtpLines.conn wire1 k sent inp w'.
Proof.
  intros HC Hcb Hm. destruct (conn_get _ _ _ _ HC) as (o & Eo & HK).
  unfold with_cb. rewrite (run_bind _ _ _ _ _ Eo).
  assert (m_fs_cb o = true) as -> by (rewrite <-Hcb; apply HK). by apply (conn_outside wire1).
Qed.

(** The data connection is held by the control connection and by the transfer. *)
Lemma run_hold k p d fuel sent inp w :
  p ≠ c_this k → c_data k = None → conn (other p 1 d k) sent inp w →
  ∃ w', assign_data (drop fuel) (c_this k) (Some p) w = Ok (tt, w') ∧
    conn (other p 2 d (with_data (Some p) k)) sent inp w'.
Proof.
  intros Hp Hdata HC. unfold assign_data. cbn [sp_copy].
  rewrite run_assoc, (run_bind _ _ _ _ _ (conn_entry_other k p 1 d sent inp w Hp HC)). cbn beta iota.
  destruct (conn_put_other k p 1 d sent inp w 2 d Hp HC) as (w1 & E1 & HC1).
  rewrite (run_bind _ _ _ _ _ E1). destruct (conn_get _ _ _ _ HC1) as (o & Eo & HK).
  rewrite (run_bind _ _ _ _ _ Eo).
  destruct (conn_set_data _ (Some p) _ _ _ HC1) as (w2 & E2 & HC2). rewrite (run_bind _ _ _ _ _ E2).
  assert (data o = None) as -> by (rewrite <-Hdata; apply HK). by exists w2.
Qed.

End Conn.

(** ** The data connection *)

Section Open.
Context `{CImpl} `{IPAddresses} {W : Type} `{Lwip W} `{FtpPlatform W}.

Lemma strchr_found pre c r : Forall (λ x, x ≠ c ∧ x ≠ 0) pre → strchr (pre ++ c :: r) c = Ok (Some (len pre)).
Proof.
  intros HF. unfold strchr.
  assert (HA : ∀ i, find_from (pre ++ c :: r) c i = Ok (Some (i + len pre))).
  { induction HF as [|x pre [Hx%Z.eqb_neq Hx0%Z.eqb_neq] HF IH]; intros i; cbn [app find_from].
    - rewrite Z.eqb_refl. do 2 f_equal. cbn. lia.
    - rewrite Hx, Hx0, IH. do 2 f_equal. autorewrite with lens. lia. }
  by rewrite HA.
Qed.

(** The line of the reply to PASV, with its address and port. *)
Definition passive_line (l : list Z) (ip port : Z) : Prop :=
  ∃ pre a b c d p q post, l = pre ++ 40 :: commas [a; b; c; d; p; q] ++ 41 :: post ∧
    Forall (λ x, x ≠ 40) pre ∧ Forall byte [a; b; c; d; p; q] ∧
    ip = a + 256 * b + 65536 * c + 16777216 * d ∧ port = 256 * p + q.

Lemma passive_line_read l ip port r : is_line l → passive_line l ip port →
  ∃ n, strchr (l ++ 10 :: 0 :: r) 40 = Ok (Some n) ∧
    (t ← text_at (Ptr (l ++ 10 :: 0 :: r) (n + 1)); passive_address (scan_list 6 t)) = Ok (ip, port).
Proof.
  intros [HL Hn] (pre & a & b & c & d & p & q & post & -> & Hpre & Hv & -> & ->).
  exists (len pre). rewrite <-app_assoc in *. cbn [app] in *.
  apply Forall_app in HL as [HL1 HL2]. apply list.Forall_cons_1 in HL2 as [_ HL2].
  split.
  - apply strchr_found. clear -HL1 Hpre. induction HL1 as [|x l (_ & _ & ?) ? IH]; [done|].
    apply list.Forall_cons_1 in Hpre as [? ?]. constructor; [done|by apply IH].
  - set (u := commas _ ++ 41 :: post) in *.
    assert (HC : cstr (Ptr (pre ++ 40 :: u ++ 10 :: 0 :: r) (len pre + 1)) (u ++ [10])).
    { repeat split.
      - cbn. lia.
      - apply Forall_app. split; [|by repeat constructor].
        by apply (list.Forall_impl _ _ _ HL2); intros ? (? & _ & ?).
      - rewrite len_app, len_cons in Hn. unfold INT_MAX. rewrite len_app.
        change (len [10]) with 1. lia.
      - exists r. change (obj _) with (pre ++ [40] ++ u ++ 10 :: 0 :: r).
        change (off _) with (len pre + 1).
        rewrite app_assoc, drop_len_app by (rewrite len_app; done). by rewrite <-app_assoc. }
    unfold text_at. rewrite (bind_Ok _ _ _ (strlen_cstr _ _ HC)).
    rewrite (bind_Ok _ _ _ (mem_read_cstr _ _ HC)). unfold u. rewrite <-app_assoc.
    rewrite (scan_list_commas [a; b; c; d; p; q]); [|..].
    + cbn [passive_address]. unfold to_uchar, to_ushort.
      repeat (apply list.Forall_cons_1 in Hv as [? Hv]). unfold byte in *.
      rewrite !Z.mod_small by lia. done.
    + apply (list.Forall_impl _ _ _ Hv). unfold byte, INT_MAX. intros. lia.
    + done.
    + by intros ? ? [= <- _].
    + done.
Qed.

Definition pasv : list Z := bytes_of "PASV"%string ++ crlf.

(** Opening it: where the server listens, and what there is once the client has tried. *)
Context (server later : list Z → list (list Z)) (HP : polite server later) (HB : brief server later).
#[local] Abbreviation answer := (answer server later).
Context (wire : Z → list Z → list Z → W → Prop) {HLine : ControlLine answer wire}.
#[local] Abbreviation ready := (ready wire).
Context (ip port : Z) (wire1 : TCPClient.TCPClient → Z → list Z → list Z → W → Prop)
  {HLine1 : ∀ t, ControlLine answer (wire1 t)} (own : Z → TCPClient.TCPClient → Prop).
Hypothesis Hopen : ∀ fd sent inp s, wire fd sent inp s →
  ∃ a t s', TCPClient.connectV4 ip port 5000 (TCPClient.TCPClient_new, s) = Ok (a, (t, s')) ∧
    own fd t ∧ wire1 t fd sent inp s'.

Lemma run_passive k p n d sent fuel w :
  p ≠ c_this k → ready (other p n d k) sent w → tcp d = TCPClient.TCPClient_new →
  enough server later fuel → code server (sent ++ pasv) = Some 50 →
  (∃ l, reply (server (sent ++ pasv)) l ∧ passive_line l ip port) →
  ∃ r t w', passive fuel p (c_this k) w = Ok (true, w') ∧ own (c_fd k) t ∧
    FtpSession.ready (wire1 t) (other p n (set_tcp t d) (with_response r k)) (sent ++ pasv) w'.
Proof.
  intros Hp [HL HC] Ed HF Hc (l & Hr & Hl). unfold passive.
  destruct (run_printf server later wire (other p n d k) pasv sent [] w HC) as (w1 & E1 & HC1).
  rewrite (run_bind _ _ _ _ _ E1).
  destruct (run_readResp server later wire HP (other p n d k) (sent ++ bytes_of "PASV"%string) (sent ++ pasv) 50 fuel w1)
    as (l' & q & w2 & E2 & _ & Hl' & Hr' & HL2 & HC2); [by rewrite <-app_assoc|done..|].
  rewrite (later_none server later HP) in HC2 by by rewrite Hc.
  rewrite (run_bind _ _ _ _ _ E2), bool_decide_true by done. cbn [Z.eqb].
  assert (l' = l) as -> by (apply reply_last in Hr, Hr'; congruence).
  destruct (conn_get _ _ _ _ HC2) as (o & Eo & HK). rewrite (run_bind _ _ _ _ _ Eo).
  assert (Er : response o = l ++ 10 :: 0 :: q) by apply HK. rewrite Er.
  destruct (passive_line_read l ip port q Hl' Hl) as (m & Em & Ea).
  rewrite (run_bind _ _ _ _ _ (run_lift _ _ _ Em)).
  apply bind_Ok_inv in Ea as (t & Et & Ea).
  rewrite (run_bind _ _ _ _ _ (run_lift _ _ _ Et)), (run_bind _ _ _ _ _ (run_lift _ _ _ Ea)).
  cbn beta iota.
  destruct (conn_tcp_change (wire := wire) wire1 (with_response (l ++ 10 :: 0 :: q) k) p n d (sent ++ pasv) [] w2
    (TCPClient.connectV4 ip port 5000) (λ _ t, own (c_fd k) t))
    as (a & c & w3 & E3 & Hne & HC3); [done|done| |].
  { intros i s. rewrite Ed. apply Hopen. }
  rewrite (run_bind _ _ _ _ _ E3). by exists (l ++ 10 :: 0 :: q), c, w3.
Qed.

(** The state of the data connection's object [d] then, with a pointer to the control
    connection [k]. *)
Definition opened (k : control) (v : Z) (d : FTPClientBase) : Prop :=
  dir d = v ∧ ctrl d = Some (c_this k) ∧ data d = None.

Lemma run_openDataConn k p n d sent fuel mode v w :
  p ≠ c_this k → ready (other p n d k) sent w → tcp d = TCPClient.TCPClient_new →
  ctrl d = None → data d = None → enough server later fuel →
  code server (sent ++ pasv) = Some 50 →
  (∃ l, reply (server (sent ++ pasv)) l ∧ passive_line l ip port) →
  c_cmode k = PASSIVE → v = FTPLIB_READ ∨ v = FTPLIB_WRITE → mode = TEXT ∨ mode = BINARY →
  ∃ r d' w', openDataConn fuel p (c_this k) mode v w = Ok (1, w') ∧ own (c_fd k) (tcp d') ∧
    opened k v d' ∧
    FtpSession.ready (wire1 (tcp d')) (other p n d' (with_owners (c_owners k + 1) (with_response r k)))
      (sent ++ pasv) w'.
Proof.
  intros Hp HR Ed Ec Edd HF Hc Hl Hm Hv Hmode. unfold openDataConn. pose proof HR as [HL HC].
  destruct (conn_get _ _ _ _ HC) as (o & Eo & HK). rewrite (run_bind _ _ _ _ _ Eo).
  assert (dir o = FTPLIB_CONTROL) as -> by apply HK. assert (cmode o = PASSIVE) as ->.
  { rewrite <-Hm. apply HK. }
  assert ((v =? FTPLIB_READ) || (v =? FTPLIB_WRITE) = true) as Ev by by destruct Hv as [-> | ->].
  assert ((mode =? TEXT) || (mode =? BINARY) = true) as Em by by destruct Hmode as [-> | ->].
  rewrite Z.eqb_refl. cbn [negb]. rewrite <-!negb_orb, Ev, Em. cbn [negb]. rewrite Z.eqb_refl.
  destruct (run_passive k p n d sent fuel w) as (r & t & w1 & E1 & Ht & HL1 & HC1); [done..|].
  rewrite (run_bind _ _ _ _ _ E1). cbn [negb].
  destruct (conn_get _ _ _ _ HC1) as (o1 & Eo1 & HK1). rewrite (run_bind _ _ _ _ _ Eo1).
  edestruct (conn_set_other (wire := wire1 t) (with_response r k) p n) as (w2 & E2 & HC2); [done|exact HC1|].
  rewrite (run_bind _ _ _ _ _ E2). unfold assign_ctrl. rewrite !run_assoc.
  destruct (conn_copy _ _ _ _ HC2) as (w3 & E3 & HC3). rewrite (run_bind _ _ _ _ _ E3).
  rewrite run_assoc, (run_bind _ _ _ _ _
    (conn_get_other (with_owners _ (with_response r k)) p n _ _ _ _ Hp HC3)).
  edestruct (conn_set_other (wire := wire1 t) (with_owners (c_owners k + 1) (with_response r k)) p n)
    as (w4 & E4 & HC4); [done|exact HC3|].
  rewrite run_assoc, (run_bind _ _ _ _ _ E4). cbn [ctrl set_xfered1 set_xfered set_idletime set_dir set_tcp].
  rewrite Ec. unfold drop. cbn [sp_drop]. rewrite run_bind_ret.
  match type of HC4 with context [other p n ?d4 _] => exists r, d4, w4 end. split; [done|].
  split; [exact Ht|]. split; [by repeat split|]. by split.
Qed.

(** What the client has sent for a transfer. *)
Definition asked (sent : list Z) (mode : Z) : list Z := (sent ++ type_command mode) ++ pasv.
Definition requested (sent : list Z) (mode : Z) (typ : Type_) (path : list Z) : list Z :=
  asked sent mode ++ verb typ ++ path ++ crlf.

(** The server accepts the type, and tells where to connect to. *)
Definition accepts (sent : list Z) (mode : Z) : Prop :=
  code server (sent ++ type_command mode) = Some 50 ∧ code server (asked sent mode) = Some 50 ∧
  ∃ l, reply (server (asked sent mode)) l ∧ passive_line l ip port.

Lemma verb_silent typ sent : answer (sent ++ verb typ) = [].
Proof.
  assert (∃ v, verb typ = v ++ [32]) as (v & ->).
  { destruct typ; [by exists (bytes_of "NLST"%string)|by exists (bytes_of "LIST"%string)
      |by exists (bytes_of "RETR"%string)|by exists (bytes_of "STOR"%string)]. }
  rewrite app_assoc. pose proof (proj1 (proj2 HP) (sent ++ v) 32 ltac:(done)) as Es.
  unfold FtpSession.answer. rewrite Es, (later_none server later HP); [done|]. unfold code. by rewrite Es.
Qed.

(** The constructor, up to where it looks at the reply to its command. *)
Lemma run_FTPClientData_new k sent fuel path pb typ mode w :
  ready k sent w → enough server later fuel → c_cmode k = PASSIVE → mode = TEXT ∨ mode = BINARY →
  accepts sent mode → cstr path pb →
  let sent' := requested sent mode typ pb in
  ∃ p r d w', FTPClientData_new fuel (c_this k) (Some path) typ mode w
      = (if bool_decide (code server sent' = Some 49) then mret p
         else on_tcp p TCPClient.stop ;; mret p) w' ∧
    p ≠ c_this k ∧ c_others k !! p = None ∧ own (c_fd k) (tcp d) ∧
    opened k (if bool_decide (typ = FILE_WRITE) then FTPLIB_WRITE else FTPLIB_READ) d ∧
    rests (wire1 (tcp d)) (other p 1 d (with_owners (c_owners k + 1) (with_response r k)))
      sent' (lines_of (later sent')) w'.
Proof.
  intros [HL HC] HF Hm Hmode (Ht & Hpa & Hl) Hpath sent'. unfold FTPClientData_new.
  destruct (conn_new k (FTPClientBase_new raw_buf raw_response) _ _ _ HC) as (p & w0 & E0 & Hp & Hk & HC0).
  rewrite (run_bind _ _ _ _ _ E0). cbn [nonnull negb andb].
  set (v := if bool_decide _ then FTPLIB_WRITE else FTPLIB_READ).
  destruct (run_printf server later wire _ (type_command mode) sent [] w0 HC0) as (w1 & E1 & HC1).
  rewrite run_assoc, (run_bind _ _ _ _ _ E1).
  destruct (run_readResp server later wire HP (other p 1 (FTPClientBase_new raw_buf raw_response) k)
    (sent ++ bytes_of "TYPE "%string ++ [mode]) (sent ++ type_command mode) 50 fuel w1)
    as (l1 & q1 & w2 & E2 & _ & _ & _ & HR2); [|done..|].
  { unfold type_command. by rewrite <-!app_assoc. }
  rewrite (later_none server later HP) in HR2 by by rewrite Ht.
  rewrite run_assoc, (run_bind _ _ _ _ _ E2), bool_decide_true by done. cbn [Z.eqb].
  destruct (run_openDataConn (with_response (l1 ++ 10 :: 0 :: q1) k) p 1
    (FTPClientBase_new raw_buf raw_response) (sent ++ type_command mode) fuel mode v w2)
    as (r3 & d3 & w3 & E3 & Ho3 & Hd3 & HL3 & HC3); try done.
  { unfold v. destruct typ; vm_compute; by (left + right). }
  rewrite run_assoc, (run_bind _ _ _ _ _ E3). change (1 =? -1) with false. cbn match.
  set (k3 := with_owners _ _) in HC3.
  destruct (run_printf server later _ _ (verb typ) _ _ w3 HC3) as (w4 & E4 & HC4).
  rewrite run_assoc, (run_bind _ _ _ _ _ E4). rewrite verb_silent in HC4.
  rewrite run_assoc, (run_bind _ _ _ _ _ (run_lift _ _ _ (text_of_cstr _ _ Hpath))).
  destruct (run_printf server later _ _ (pb ++ crlf) _ _ w4 HC4) as (w5 & E5 & HC5).
  rewrite run_assoc, (run_bind _ _ _ _ _ E5).
  assert (Es : ((((sent ++ type_command mode) ++ pasv) ++ verb typ) ++ pb ++ crlf) = sent').
  { unfold sent', requested, asked. by rewrite <-!app_assoc. }
  rewrite Es in HC5. cbn [app] in HC5.
  destruct (run_readResp server later (wire1 (tcp d3)) HP (other p 1 d3 k3)
    (asked sent mode ++ verb typ ++ pb) sent' 49 fuel w5)
    as (l6 & q6 & w6 & E6 & _ & _ & _ & HL6 & HC6); [|done..|].
  { unfold sent', requested. by rewrite <-!app_assoc. }
  rewrite run_assoc, (run_bind _ _ _ _ _ E6).
  exists p, (l6 ++ 10 :: 0 :: q6), d3, w6. split; [|by repeat split; try apply Hd3].
  destruct (decide (code server sent' = Some 49)) as [Ec|Ec].
  - rewrite !bool_decide_true by done. cbn [Z.eqb].
    destruct (conn_get _ _ _ _ HC6) as (o & Eo & HK). rewrite run_assoc, (run_bind _ _ _ _ _ Eo).
    assert (cmode o = PASSIVE) as -> by (rewrite <-Hm; apply HK). done.
  - rewrite !bool_decide_false by done. cbn [Z.eqb]. by rewrite !run_assoc.
Qed.

End Open.

(** ** Refusals *)

Section Refused.
Context `{CImpl} `{IPAddresses} {W : Type} `{Lwip W} `{FtpPlatform W}.
Context (server later : list Z → list (list Z)) (HP : polite server later) (HB : brief server later).
Context (wire : option Z → bool → Z → list Z → list Z → W → Prop)
  {HN : ControlNet (FtpSession.answer server later) wire}.

(** ** The data connection beside the control connection

    The file is open; the data connection [t] has a socket that is open, or none. *)
Definition beside (t : TCPClient.TCPClient) : Z → list Z → list Z → W → Prop :=
  wire (if 0 <=? TCPClient.m_socket_fd t then Some (TCPClient.m_socket_fd t) else None) true.

#[local] Instance beside_line t : ControlLine (FtpSession.answer server later) (beside t) := cn_line _ _.

Lemma connect_beside ip port fd sent inp s : wire None true fd sent inp s →
  ∃ a t s', TCPClient.connectV4 ip port 5000 (TCPClient.TCPClient_new, s) = Ok (a, (t, s')) ∧
    True ∧ beside t fd sent inp s'.
Proof.
  intros Hw. unfold TCPClient.connectV4. rewrite bind_self. change (0 <=? _) with false.
  cbv iota. rewrite run_bind_ret. destruct (cn_socket _ _ SOCK_STREAM _ _ _ Hw) as (d & w1 & E1 & A1).
  rewrite (bind_world _ _ _ _ _ _ E1), bind_become. unfold beside.
  destruct (Z.ltb_spec d 0) as [Hd|Hd].
  { do 3 eexists. split; [done|]. split; [done|]. exact A1. }
  apply Z.leb_le in Hd. rewrite Hd in A1.
  destruct (cn_option d _ _ (SO_KEEPALIVE 5000) _ _ _ A1) as (r2 & w2 & E2 & Hr2 & A2).
  rewrite (bind_world _ _ _ _ _ _ E2). destruct (Z.eqb_spec r2 (-1)); [done|].
  destruct (cn_option d _ _ (SO_REUSEADDR 1) _ _ _ A2) as (r3 & w3 & E3 & Hr3 & A3).
  rewrite (bind_world _ _ _ _ _ _ E3). destruct (Z.eqb_spec r3 (-1)); [done|]. rewrite bind_become.
  destruct (cn_connect d _ _ (SockAddr ip (lwip_htons port)) _ _ _ A3) as (r4 & w4 & E4 & _ & A4).
  rewrite (bind_world _ _ _ _ _ _ E4). destruct (Z.ltb_spec r4 0).
  - destruct (cn_close _ _ _ _ _ _ A4) as (r5 & w5 & E5 & A5).
    rewrite run_assoc, (bind_world _ _ _ _ _ _ E5), !bind_become, bind_self, run_ret.
    by eexists _, _, w5.
  - rewrite run_bind_ret, !bind_become, bind_self, run_ret. eexists _, _, w4. do 2 (split; [done|]).
    cbn. by rewrite Hd.
Qed.

Lemma stop_beside c fd sent inp s : beside c fd sent inp s →
  ∃ a c' s', TCPClient.stop (c, s) = Ok (a, (c', s')) ∧ TCPClient.m_socket_fd c' = -1 ∧
    wire None true fd sent inp s'.
Proof.
  intros Hw. unfold TCPClient.stop. rewrite bind_self. unfold beside in Hw.
  destruct (0 <=? TCPClient.m_socket_fd c).
  - destruct (cn_shutdown _ _ _ 2 _ _ _ Hw) as (r1 & w1 & E1 & _ & A1).
    rewrite run_assoc, (bind_world _ _ _ _ _ _ E1).
    destruct (cn_close _ _ _ _ _ _ A1) as (r2 & w2 & E2 & A2).
    rewrite run_assoc, (bind_world _ _ _ _ _ _ E2), run_bind_ret, bind_become. by eexists _, _, w2.
  - rewrite run_bind_ret, bind_become. by eexists _, _, s.
Qed.

(** The constructor, when the server refuses: the data connection is closed again. *)
Lemma run_refused ip port k sent fuel path pb typ mode w :
  ready (wire None true) k sent w → enough server later fuel → c_cmode k = PASSIVE →
  mode = TEXT ∨ mode = BINARY →
  accepts server ip port sent mode → cstr path pb →
  let sent' := requested sent mode typ pb in
  code server sent' ≠ Some 49 →
  ∃ p r d w', FTPClientData_new fuel (c_this k) (Some path) typ mode w = Ok (p, w') ∧
    p ≠ c_this k ∧ c_others k !! p = None ∧ TCPClient.m_socket_fd (tcp d) = -1 ∧
    opened k (if bool_decide (typ = FILE_WRITE) then FTPLIB_WRITE else FTPLIB_READ) d ∧
    ready (wire None true) (other p 1 d (with_owners (c_owners k + 1) (with_response r k))) sent' w'.
Proof.
  intros HR HF Hm Hmode HA Hpath sent' Hcode.
  destruct (run_FTPClientData_new server later HP HB (wire None true) ip port beside
    (λ _ _, True) (connect_beside ip port) k sent fuel path pb typ mode w)
    as (p & r & d & w1 & -> & Hp & Hk & _ & Hd & HL & HC); [done..|].
  fold sent' in HC |- *. rewrite bool_decide_false by done.
  rewrite (later_none server later HP) in HC by done.
  destruct (conn_tcp_change (λ _, wire None true) (with_owners (c_owners k + 1) (with_response r k)) p 1 d
    sent' [] w1 TCPClient.stop (λ _ t, TCPClient.m_socket_fd t = -1) Hp HC)
    as (a & t & w2 & E2 & Hfd & HC2); [intros i s; apply stop_beside|].
  rewrite (run_bind _ _ _ _ _ E2). exists p, r, (set_tcp t d), w2.
  do 4 (split; [done|]). by split; [|split].
Qed.

(** C32: when the server refuses to send a file (or has none of that name), get
    answers 1, as if the file had been copied; but the socket of the data connection and
    the local file are closed, the object of that connection is destroyed, and the client
    can give its next command. Fewer than 512 bytes of replies are under way, and the stack
    takes the options of the new socket. *)
Theorem ftp_get_refused ip port k sent fuel local name remote path mode w :
  ready (wire None false) k sent w → enough server later fuel → c_cmode k = PASSIVE →
  c_cb k = true → c_data k = None → 1 ≤ c_owners k → mode = TEXT ∨ mode = BINARY → cstr local name →
  cstr remote path → accepts server ip port sent mode →
  code server (requested sent mode FILE_READ path) ≠ Some 49 →
  ∃ r w', get fuel (c_this k) (Some local) (Some remote) mode w = Ok (1, w') ∧
    ready (wire None false) (with_response r k) (requested sent mode FILE_READ path) w'.
Proof.
  intros [HL HC] HF Hm Hcb Hdata Hown Hmode Hlocal Hremote HA Hcode.
  unfold get, xfer. destruct (conn_get _ _ _ _ HC) as (o & Eo & HK).
  rewrite run_assoc, (run_bind _ _ _ _ _ Eo).
  assert (m_fs_cb o = true) as -> by (rewrite <-Hcb; apply HK).
  rewrite run_assoc, (run_bind _ _ _ _ _ (run_lift _ _ _ (text_of_cstr _ _ Hlocal))).
  destruct (conn_outside (wire None true) k sent [] w (fs_open name (open_mode FILE_READ mode)) (λ _, True) HC)
    as ([] & w1 & E1 & _ & HC1).
  { intros i s Hw. destruct (cn_fs_open _ _ name (open_mode FILE_READ mode) _ _ _ Hw) as (s' & E & Hw').
    by exists tt, s'. }
  rewrite run_assoc, (run_bind _ _ _ _ _ E1), run_bind_ret. cbn [negb].
  destruct (run_refused ip port k sent fuel remote path FILE_READ mode w1)
    as (p & r & d & w2 & E2 & Hp & Hk & Hfd & (Hdir & Hctrl & Hdd) & HL2 & HC2); [done..|].
  rewrite (run_bind _ _ _ _ _ E2). set (k2 := with_owners _ _) in HC2.
  destruct (run_hold k2 p d fuel _ _ _ Hp Hdata HC2) as (w3 & E3 & HC3).
  rewrite (run_bind _ _ _ _ _ E3). rewrite bool_decide_false by done.
  destruct fuel as [|fuel']; [pose proof (HF []); lia|].
  change (with_data (Some p) k2) with (holding p (with_response r k)) in HC3.
  set (k3 := holding _ _) in HC3.
  assert (ER : on_tcp p (TCPClient.read FTPLIB_BUFSIZ) w3 = Ok ((-1, []), w3)).
  { apply (conn_idle_other k3 p 2 d _ _ _ _ _ Hp HC3). intros s.
    unfold TCPClient.read. by rewrite bind_self, Hfd. }
  rewrite (run_bind _ _ w3 1 w3) by (cbn [download_loop]; by rewrite (run_bind _ _ _ _ _ ER)).
  destruct (run_with_cb (wire None false) (other p 2 d k3) (requested sent mode FILE_READ path) [] w3
    fs_close (λ _, True) HC3) as ([] & w4 & E4 & _ & HC4); [done|..].
  { intros i s Hw. destruct (cn_fs_close _ _ _ _ _ Hw) as (s' & E & Hw'). by exists tt, s'. }
  rewrite (run_bind _ _ _ _ _ E4).
  assert (EB : on_tcp p TCPClient.operator_bool w4 = Ok (false, w4)).
  { apply (conn_idle_other k3 p 2 d _ _ _ _ _ Hp HC4). intros s.
    unfold TCPClient.operator_bool. by rewrite bind_self, Hfd. }
  rewrite (run_bind _ _ _ _ _ EB), run_bind_ret.
  destruct (run_let_go (with_response r k) p d (S fuel') _ _ w4 Hp Hk Hdata Hown HC4)
    as (w5 & E5 & HC5); [by left|done|done|by rewrite Hfd|].
  exists r, w5. rewrite E5. by split; [|split].
Qed.

End Refused.

End FtpTransfer.
