(* ===== verification/FtpCopy.v ===== *)
(** * The bytes of a transfer

    The loops of xfer of FTPClient.cpp (Ftp.v): what comes over the data connection
    is what the local file gets, all of it and in order, in whatever pieces it comes,
    until the peer closes the connection; and the other way around. *)

From stdpp Require Import gmap.
From S2P Require Import Prelude CSem Numerals Lwip TcpUdp Ftp FtpLines FtpTransfer.

Module FtpCopy.

Import Ftp FtpLines FtpTransfer.

Section Copy.
Context `{CImpl} `{IPAddresses} {W : Type} `{Lwip W} `{FtpPlatform W}.

(** ** The two ends

    [flow fd src dst]: on the socket [fd], or in the file, [src] is still to be read;
    [dst] has been written to the other. A download reads the socket, in pieces,
    until the peer has closed it; an upload reads the file. *)
Class Download (flow : Z → list Z → list Z → W → Prop) : Prop :=
  { dl_fd fd src dst w : flow fd src dst w → 0 ≤ fd < INT_MAX;
    dl_select fd src dst : yields (flow fd src dst) (lwip_select_read (fd + 1) fd) (λ n, 0 < n);
    dl_setsockopt fd o src dst : yields (flow fd src dst) (lwip_setsockopt fd o) (λ _, True);
    dl_recv fd src dst w : flow fd src dst w →
      ∃ p src' w', lwip_recv fd 512 w = Ok ((len p, p), w') ∧ src = p ++ src' ∧ len p ≤ 512 ∧
        (src ≠ [] → p ≠ []) ∧ flow fd src' dst w';
    dl_write fd src dst p w : flow fd src dst w → p ≠ [] →
      ∃ r w', fs_write (Ptr p 0) (len p) w = Ok (r, w') ∧ r ≠ 0 ∧ flow fd src (dst ++ p) w' }.

Class Upload (flow : Z → list Z → list Z → W → Prop) : Prop :=
  { ul_fd fd src dst w : flow fd src dst w → 0 ≤ fd;
    ul_read fd src dst w : flow fd src dst w →
      ∃ p src' w', fs_read 512 w = Ok ((len p, p), w') ∧ src = p ++ src' ∧ len p ≤ 512 ∧
        (src ≠ [] → p ≠ []) ∧ flow fd src' dst w';
    ul_setsockopt fd o src dst : yields (flow fd src dst) (lwip_setsockopt fd o) (λ _, True);
    ul_write fd src dst p w : flow fd src dst w → p ≠ [] →
      ∃ w', lwip_write fd (Ptr p 0) (len p) w = Ok (len p, w') ∧ flow fd src (dst ++ p) w' }.

(** ** The loops

    [k] is the control connection, whose object has the callback; [p] the data
    connection. *)
Context (k : control) (p n : Z) (d o : FTPClientBase).
Context (Hp : p ≠ c_this k) (Hcb : m_fs_cb o = true) (Ht : TCPClient.m_so_timeout (tcp d) ≠ None).
#[local] Abbreviation fd := (TCPClient.m_socket_fd (tcp d)).
#[local] Abbreviation here s := (world (other p n d k) o s).

Lemma run_cb {A} (m : M W A) a s s' :
  m s = Ok (a, s') → with_cb (c_this k) m (here s) = Ok (a, here s').
Proof.
  intros E. unfold with_cb. change (c_this k) with (c_this (other p n d k)).
  rewrite (run_bind _ _ _ _ _ (run_get_this _ o s)), Hcb. unfold outside, world. cbn. by rewrite E.
Qed.

Lemma run_data {A} (m : M (TCPClient.TCPClient * W) A) a s s' :
  m (tcp d, s) = Ok (a, (tcp d, s')) → on_tcp p m (here s) = Ok (a, here s').
Proof. intros E. rewrite (run_on_other k p Hp n d o s m a (tcp d) s' E). by destruct d. Qed.

Lemma its_timeout_ok : ∃ t, TCPClient.its_timeout (tcp d) = Ok t.
Proof. unfold TCPClient.its_timeout. destruct (TCPClient.m_so_timeout (tcp d)); [by eexists|done]. Qed.

Lemma run_download flow `{!Download flow} src dst fuel s :
  flow fd src dst s → (length src < fuel)%nat →
  ∃ s', download_loop fuel (c_this k) p (here s) = Ok (1, here s') ∧ flow fd [] (dst ++ src) s'.
Proof.
  revert src dst s. induction fuel as [|fuel IH]; intros src dst s HF Hf; [lia|].
  cbn [download_loop]. destruct (dl_select _ _ _ s HF) as (m & s1 & E1 & Hm & HF1).
  destruct its_timeout_ok as (t & Et).
  destruct (dl_setsockopt _ (SO_RCVTIMEO (fst t) (snd t)) _ _ s1 HF1) as (rc & s2 & E2 & _ & HF2).
  destruct (dl_recv _ _ _ _ HF2) as (q & src' & s3 & E3 & -> & Hq & Hne & HF3).
  assert (ER : TCPClient.read FTPLIB_BUFSIZ (tcp d, s) = Ok ((len q, q), (tcp d, s3))).
  { pose proof (dl_fd _ _ _ _ HF). unfold TCPClient.read. rewrite bind_self.
    destruct (Z.ltb_spec fd 0); [lia|].
    rewrite (iadd_Ok fd 1) by (unfold INT_MIN, INT_MAX in *; lia).
    rewrite run_bind_lift_Ok, (bind_world _ _ _ _ _ _ E1). destruct (Z.ltb_spec 0 m); [|lia].
    rewrite Et, run_bind_lift_Ok, (bind_world _ _ _ _ _ _ E2). unfold sys. cbn [fst snd].
    change FTPLIB_BUFSIZ with 512. by rewrite E3. }
  rewrite (run_bind _ _ _ _ _ (run_data _ _ _ _ ER)). cbn beta iota.
  destruct q as [|x q].
  - destruct src'; [|by exfalso; apply Hne]. exists s3. by rewrite app_nil_r.
  - destruct (Z.ltb_spec 0 (len (x :: q))) as [_|Hl]; [|cbn in Hl; lia].
    destruct (dl_write _ _ _ (x :: q) _ HF3) as (r & s4 & E4 & Hr & HF4); [done|].
    rewrite (run_bind _ _ _ _ _ (run_cb _ _ _ _ E4)). destruct (Z.eqb_spec r 0); [done|].
    rewrite app_assoc. apply IH; [done|]. rewrite length_app in Hf. cbn in Hf. lia.
Qed.

Lemma run_upload flow `{!Upload flow} src dst fuel s :
  flow fd src dst s → (length src < fuel)%nat →
  ∃ s', upload_loop fuel (c_this k) p (here s) = Ok (1, here s') ∧ flow fd [] (dst ++ src) s'.
Proof.
  revert src dst s. induction fuel as [|fuel IH]; intros src dst s HF Hf; [lia|].
  cbn [upload_loop]. destruct (ul_read _ _ _ _ HF) as (q & src' & s1 & E1 & -> & Hq & Hne & HF1).
  change FTPLIB_BUFSIZ with 512. rewrite (run_bind _ _ _ _ _ (run_cb _ _ _ _ E1)). cbn beta iota.
  rewrite to_int_id by (unfold in_int, INT_MIN, INT_MAX; lia).
  destruct q as [|x q].
  - destruct src'; [|by exfalso; apply Hne]. exists s1. by rewrite app_nil_r.
  - destruct (Z.ltb_spec 0 (len (x :: q))) as [_|Hl]; [|cbn in Hl; lia].
    destruct its_timeout_ok as (t & Et).
    destruct (ul_setsockopt _ (SO_SNDTIMEO (fst t) (snd t)) _ _ s1 HF1) as (rc & s2 & E2 & _ & HF2).
    destruct (ul_write _ _ _ (x :: q) _ HF2) as (s3 & E3 & HF3); [done|].
    assert (EW : TCPClient.write (Ptr (x :: q) 0) (len (x :: q)) (tcp d, s1)
      = Ok (len (x :: q), (tcp d, s3))).
    { pose proof (ul_fd _ _ _ _ HF). unfold TCPClient.write. rewrite bind_self.
      destruct (Z.ltb_spec fd 0); [lia|].
      rewrite Et, run_bind_lift_Ok, (bind_world _ _ _ _ _ _ E2), (bind_world _ _ _ _ _ _ E3).
      destruct (Z.ltb_spec (len (x :: q)) 0); [lia|done]. }
    rewrite (run_bind _ _ _ _ _ (run_data _ _ _ _ EW)).
    rewrite to_int_id by (unfold in_int, INT_MIN, INT_MAX; lia).
    rewrite Z.ltb_irrefl, app_assoc. apply IH; [done|]. rewrite length_app in Hf. cbn in Hf. lia.
Qed.

End Copy.

End FtpCopy.
