(* ===== verification/FtpXfer.v ===== *)
(** * A whole transfer of the FTP client

    get and put of FTPClient.cpp (Ftp.v) over a server that accepts: the dialogue on the
    control connection, the second connection it leads to, and the local file. *)

From stdpp Require Import gmap.
From S2P Require Import Prelude CSem Numerals Lwip TcpUdp Ftp FtpLines FtpSession FtpTransfer FtpCopy.

Module FtpXfer.

Import Ftp FtpLines FtpSession FtpTransfer FtpCopy.

(** The socket of the data connection. *)
Inductive data_socket : Type := Closed | Opened (fd : Z) | Connected (fd : Z).

Section Xfer.
Context `{CImpl} `{IPAddresses} {W : Type} `{Lwip W} `{FtpPlatform W}.
Context (server later : list Z → list (list Z)) (HP : polite server later) (HB : brief server later).

(** ** The network and the file

    [link c open src dst fd sent inp]: on the socket [fd] of the control connection [sent]
    has gone out and [inp] is to come; [c] is the socket of the data connection, and the
    local file is [open] or not. On one side of the transfer [src] is still to be read;
    [dst] has been written to the other. The server listens at [ip] and [port]. *)
Class DataNet (typ : Type_) (mode ip port : Z)
    (link : data_socket → bool → list Z → list Z → Z → list Z → list Z → W → Prop) : Prop :=
  { dn_line c f src dst :: ControlLine (answer server later) (link c f src dst);
    dn_fs_open name src dst fd sent inp w : link Closed false src dst fd sent inp w →
      ∃ w', fs_open name (open_mode typ mode) w = Ok (tt, w') ∧ link Closed true src [] fd sent inp w';
    dn_socket f src dst fd sent inp w : link Closed f src dst fd sent inp w →
      ∃ d w', lwip_socket SOCK_STREAM w = Ok (d, w') ∧ 0 ≤ d ∧ link (Opened d) f src dst fd sent inp w';
    dn_setsockopt c f fd' o src dst fd sent inp : yields (link c f src dst fd sent inp)
      (lwip_setsockopt fd' o) (λ r, r ≠ -1);
    dn_connect f d src dst fd sent inp w : link (Opened d) f src dst fd sent inp w →
      ∃ r w', lwip_connect d (SockAddr ip (lwip_htons port)) w = Ok (r, w') ∧ 0 ≤ r ∧
        link (Connected d) f src dst fd sent inp w';
    dn_fs_close c src dst fd sent inp w : link c true src dst fd sent inp w →
      ∃ w', fs_close w = Ok (tt, w') ∧ link c false src dst fd sent inp w';
    dn_shutdown d f src dst fd sent inp : yields (link (Connected d) f src dst fd sent inp)
      (lwip_shutdown d 2) (λ _, True);
    dn_close d f src dst fd sent inp w : link (Connected d) f src dst fd sent inp w →
      ∃ r w', lwip_close d w = Ok (r, w') ∧ link Closed f src dst fd sent inp w' }.

Context (typ : Type_) (mode ip port : Z).
Context (link : data_socket → bool → list Z → list Z → Z → list Z → list Z → W → Prop)
  {HD : DataNet typ mode ip port link}.

(** ** The data connection *)

(** A client that is connected to the server. *)
Definition connected_to (t : TCPClient.TCPClient) : Prop :=
  0 ≤ TCPClient.m_socket_fd t ∧ TCPClient.m_so_timeout t ≠ None.

Lemma connect_data f src dst fd sent inp s : link Closed f src dst fd sent inp s →
  ∃ a t s', TCPClient.connectV4 ip port 5000 (TCPClient.TCPClient_new, s) = Ok (a, (t, s')) ∧
    connected_to t ∧ link (Connected (TCPClient.m_socket_fd t)) f src dst fd sent inp s'.
Proof.
  intros Hw. unfold TCPClient.connectV4. rewrite bind_self. change (0 <=? _) with false. cbv iota.
  rewrite run_bind_ret. destruct (dn_socket _ _ _ _ _ _ _ Hw) as (d & w1 & E1 & Hfd & A1).
  rewrite (bind_world _ _ _ _ _ _ E1), bind_become. destruct (Z.ltb_spec d 0); [lia|].
  destruct (dn_setsockopt _ _ d (SO_KEEPALIVE 5000) _ _ _ _ _ _ A1) as (r2 & w2 & E2 & Hr2 & A2).
  rewrite (bind_world _ _ _ _ _ _ E2). destruct (Z.eqb_spec r2 (-1)); [done|].
  destruct (dn_setsockopt _ _ d (SO_REUSEADDR 1) _ _ _ _ _ _ A2) as (r3 & w3 & E3 & Hr3 & A3).
  rewrite (bind_world _ _ _ _ _ _ E3). destruct (Z.eqb_spec r3 (-1)); [done|]. rewrite bind_become.
  destruct (dn_connect _ _ _ _ _ _ _ _ A3) as (r4 & w4 & E4 & Hr4 & A4).
  rewrite (bind_world _ _ _ _ _ _ E4). destruct (Z.ltb_spec r4 0); [lia|]. rewrite run_bind_ret.
  rewrite !bind_become, bind_self, run_ret. by eexists _, _, w4.
Qed.

Lemma stop_data t f src dst fd sent inp s : 0 ≤ TCPClient.m_socket_fd t →
  link (Connected (TCPClient.m_socket_fd t)) f src dst fd sent inp s →
  ∃ a t' s', TCPClient.stop (t, s) = Ok (a, (t', s')) ∧ TCPClient.m_socket_fd t' = -1 ∧
    link Closed f src dst fd sent inp s'.
Proof.
  intros Hfd Hw. unfold TCPClient.stop. rewrite bind_self.
  destruct (Z.leb_spec 0 (TCPClient.m_socket_fd t)); [|lia].
  destruct (dn_shutdown _ _ _ _ _ _ _ _ Hw) as (r1 & w1 & E1 & _ & A1).
  rewrite run_assoc, (bind_world _ _ _ _ _ _ E1).
  destruct (dn_close _ _ _ _ _ _ _ _ A1) as (r2 & w2 & E2 & A2).
  rewrite run_assoc, (bind_world _ _ _ _ _ _ E2), run_bind_ret, bind_become. by eexists _, _, w2.
Qed.

(** The second reply, when everything has been copied. *)
Lemma run_later wire `{!ControlLine (answer server later) wire} k sent c fuel w :
  code server sent = Some 49 → enough server later fuel →
  rests wire k sent (lines_of (later sent)) w →
  ∃ r v w', readResp fuel (c_this k) c w = Ok (v, w') ∧ ready wire (with_response r k) sent w'.
Proof.
  intros Hc HF [HL HC]. pose proof (proj2 (proj2 HP) sent) as HR.
  rewrite bool_decide_true in HR by done. destruct HR as (HR1 & l & HR2).
  specialize (HF sent). specialize (HB sent). rewrite answer_app in HF, HB. rewrite length_app in HF.
  rewrite len_app in HB.
  destruct (readResp_reply (answer server later) wire k sent (later sent) l [] c fuel w)
    as (q & w' & E & EL & HC'); [done|done|by rewrite app_nil_r|rewrite app_nil_r; lia|done|lia|].
  rewrite E. exists (l ++ 10 :: 0 :: q). eexists _, w'. split; [done|]. by split.
Qed.

(** ** The transfer *)

Definition copy_loop (fuel : nat) (this p : Z) : M (ftp_world W) Z :=
  if bool_decide (typ = FILE_WRITE) then upload_loop fuel this p else download_loop fuel this p.

(** The loop copies what is to be read. *)
Definition copies (fuel : nat) (src : list Z) : Prop :=
  ∀ k p n d o fd sent inp s, p ≠ c_this k → m_fs_cb o = true → connected_to (tcp d) →
  link (Connected (TCPClient.m_socket_fd (tcp d))) true src [] fd sent inp s →
  ∃ s', copy_loop fuel (c_this k) p (world (other p n d k) o s) = Ok (1, world (other p n d k) o s') ∧
    link (Connected (TCPClient.m_socket_fd (tcp d))) true [] src fd sent inp s'.

Lemma run_copy k p n d fuel src sent inp w :
  copies fuel src → p ≠ c_this k → c_cb k = true → connected_to (tcp d) →
  conn (link (Connected (TCPClient.m_socket_fd (tcp d))) true src []) (other p n d k) sent inp w →
  ∃ w', copy_loop fuel (c_this k) p w = Ok (1, w') ∧
    conn (link (Connected (TCPClient.m_socket_fd (tcp d))) true [] src) (other p n d k) sent inp w'.
Proof.
  intros HC Hp Hcb Hd (o & s & b & i & -> & HK & HBf & E & Hw).
  assert (m_fs_cb o = true) as Ho by (rewrite <-Hcb; apply HK).
  destruct (HC k p n d o _ _ _ _ Hp Ho Hd Hw) as (s' & El & Hw').
  eexists. split; [exact El|]. by exists o, s', b, i.
Qed.

(** What follows the loop. *)
Lemma run_finish k p d fuel src sent (rv : Z) w :
  p ≠ c_this k → c_others k !! p = None → c_data k = None → c_cb k = true → 1 ≤ c_owners k →
  length (c_response k) = 512%nat → code server sent = Some 49 → enough server later fuel →
  connected_to (tcp d) → dir d = FTPLIB_READ ∨ dir d = FTPLIB_WRITE →
  ctrl d = Some (c_this k) → data d = None →
  conn (link (Connected (TCPClient.m_socket_fd (tcp d))) true [] src) (other p 2 d (holding p k)) sent
    (lines_of (later sent)) w →
  ∃ r w', (with_cb (c_this k) fs_close ;;
      ok ← on_tcp p TCPClient.operator_bool;
      (if (ok : bool) then on_tcp p TCPClient.stop ;; readResp fuel (c_this k) 50 ;; mret tt
       else mret tt) ;;
      assign_ctrl (drop fuel) p None ;; assign_data (drop fuel) (c_this k) None ;;
      drop fuel (Some p) ;; mret rv) w = Ok (rv, w') ∧
    ready (link Closed false [] src) (with_response r k) sent w'.
Proof.
  intros Hp Hk Hdata Hcb Hown HL Hcode HF Hd Hdir Hctrl Hdd HC4.
  destruct (run_with_cb (link (Connected (TCPClient.m_socket_fd (tcp d))) false [] src)
    (other p 2 d (holding p k)) _ _ w fs_close (λ _, True) HC4)
    as ([] & w5 & E5 & _ & HC5); [done|..].
  { intros i s' Hw. destruct (dn_fs_close _ _ _ _ _ _ _ Hw) as (s2 & E & Hw'). by exists tt, s2. }
  rewrite (run_bind _ _ _ _ _ E5).
  assert (EB : on_tcp p TCPClient.operator_bool w5 = Ok (true, w5)).
  { apply (conn_idle_other (holding p k) p 2 d _ _ _ _ _ Hp HC5). intros s.
    unfold TCPClient.operator_bool. rewrite bind_self.
    by destruct (Z.leb_spec 0 (TCPClient.m_socket_fd (tcp d))); [|destruct Hd; lia]. }
  rewrite (run_bind _ _ _ _ _ EB).
  destruct (conn_tcp_change (λ _, link Closed false [] src) (holding p k) p 2 d _ _ w5 TCPClient.stop
    (λ _ t, TCPClient.m_socket_fd t = -1) Hp HC5) as (a & t & w6 & E6 & Hfd & HC6).
  { intros i s Hw. by apply stop_data; [apply Hd|]. }
  rewrite !run_assoc, (run_bind _ _ _ _ _ E6).
  destruct (run_later (link Closed false [] src) (other p 2 (set_tcp t d) (holding p k)) sent 50 fuel w6)
    as (r & v & w7 & E7 & HL7 & HC7); [done|done|by split|].
  rewrite run_assoc, (run_bind _ _ _ _ _ E7), run_bind_ret.
  destruct (run_let_go (with_response r k) p (set_tcp t d) fuel sent [] w7 Hp Hk Hdata Hown HC7)
    as (w8 & E8 & HC8); [done|done|done|by cbn; lia|].
  exists r, w8. rewrite E8. by split; [|split].
Qed.

Lemma run_xfer k sent fuel local name remote path src dst w :
  ready (link Closed false src dst) k sent w → enough server later fuel → c_cmode k = PASSIVE →
  c_cb k = true → c_data k = None → 1 ≤ c_owners k → mode = TEXT ∨ mode = BINARY →
  cstr local name → cstr remote path → accepts server ip port sent mode →
  let sent' := requested sent mode typ path in
  code server sent' = Some 49 → copies fuel src →
  ∃ r w', xfer fuel (c_this k) (Some local) (Some remote) typ mode w = Ok (1, w') ∧
    ready (link Closed false [] src) (with_response r k) sent' w'.
Proof.
  intros [HL HC] HF Hm Hcb Hdata Hown Hmode Hlocal Hremote HA sent' Hcode Hcopy.
  unfold xfer. destruct (conn_get _ _ _ _ HC) as (o & Eo & HK).
  rewrite run_assoc, (run_bind _ _ _ _ _ Eo).
  assert (m_fs_cb o = true) as -> by (rewrite <-Hcb; apply HK).
  rewrite run_assoc, (run_bind _ _ _ _ _ (run_lift _ _ _ (text_of_cstr _ _ Hlocal))).
  destruct (conn_outside (link Closed true src []) k sent [] w (fs_open name (open_mode typ mode)) (λ _, True) HC)
    as ([] & w1 & E1 & _ & HC1).
  { intros i s Hw. destruct (dn_fs_open name _ _ _ _ _ _ Hw) as (s' & E & Hw'). by exists tt, s'. }
  rewrite run_assoc, (run_bind _ _ _ _ _ E1), run_bind_ret. cbn [negb].
  destruct (run_FTPClientData_new server later HP HB (link Closed true src []) ip port
    (λ t, link (Connected (TCPClient.m_socket_fd t)) true src []) (λ _, connected_to) (connect_data true src [])
    k sent fuel remote path typ mode w1)
    as (p & r & d & w2 & E2 & Hp & Hk & Hd & (Hdir & Hctrl & Hdd) & HL2 & HC2); [done..|].
  fold sent' in E2, HC2. rewrite bool_decide_true, run_ret in E2 by done.
  rewrite (run_bind _ _ _ _ _ E2).
  destruct (run_hold (with_owners (c_owners k + 1) (with_response r k)) p d fuel _ _ _ Hp Hdata HC2)
    as (w3 & E3 & HC3).
  rewrite (run_bind _ _ _ _ _ E3).
  destruct (run_copy (holding p (with_response r k)) p 2 d fuel src _ _ _ Hcopy Hp Hcb Hd HC3)
    as (w4 & E4 & HC4).
  rewrite (run_bind _ _ _ _ _ E4).
  destruct (run_finish (with_response r k) p d fuel src sent' 1 w4) as (r' & w5 & E5 & HR5); try done.
  { rewrite Hdir. destruct (bool_decide _); [by right|by left]. }
  by exists r', w5.
Qed.

End Xfer.

(** ** Files and lists

    A list comes over the data connection as a file does. *)

Section Files.
Context `{CImpl} `{IPAddresses} {W : Type} `{Lwip W} `{FtpPlatform W}.
Context (server later : list Z → list (list Z)) (HP : polite server later) (HB : brief server later).
Context (typ : Type_) (mode ip port : Z).
Context (link : data_socket → bool → list Z → list Z → Z → list Z → list Z → W → Prop)
  {HD : DataNet server later typ mode ip port link}.

(** The data connection in use. *)
Definition streams : Prop :=
  ∀ fd sent inp, let flow := λ d src dst, link (Connected d) true src dst fd sent inp in
  if bool_decide (typ = FILE_WRITE) then Upload flow else Download flow.

Lemma streams_copies fuel src : streams → (length src < fuel)%nat → copies typ link fuel src.
Proof.
  intros HS Hf k p n d o fd sent inp s Hp Ho [Hfd Ht] Hw. specialize (HS fd sent inp).
  unfold copy_loop. cbv zeta in HS. destruct (bool_decide _).
  - by apply (run_upload k p n d o Hp Ho Ht (λ d src dst, link (Connected d) true src dst fd sent inp) src [] fuel).
  - by apply (run_download k p n d o Hp Ho Ht (λ d src dst, link (Connected d) true src dst fd sent inp) src [] fuel).
Qed.

(** C34: a transfer over a server that accepts it copies all there is, of any size: get, put
    and the lists ask for it in the dialogue of RFC 959, connect to where the server says,
    copy every byte between that connection and the local file, in order, close the file and
    the socket, and read the server's second reply; they answer 1, and the client can give its
    next command. The connection is made, the bytes can be written, and fewer than 512 bytes
    of replies are under way. *)
Theorem ftp_xfer_copies k sent fuel local name remote path src dst w :
  streams → ready (link Closed false src dst) k sent w → enough server later fuel → (length src < fuel)%nat →
  c_cmode k = PASSIVE → c_cb k = true → c_data k = None → 1 ≤ c_owners k →
  mode = TEXT ∨ mode = BINARY → cstr local name → cstr remote path →
  accepts server ip port sent mode → code server (requested sent mode typ path) = Some 49 →
  ∃ r w', xfer fuel (c_this k) (Some local) (Some remote) typ mode w = Ok (1, w') ∧
    ready (link Closed false [] src) (with_response r k) (requested sent mode typ path) w'.
Proof.
  intros HS HR HF Hfuel. intros.
  by apply (run_xfer server later HP HB typ mode ip port link k sent fuel local name remote path src dst);
    [..|apply streams_copies].
Qed.

End Files.

End FtpXfer.
