(* ===== verification/FtpSim.v ===== *)
(** * A server to run the FTP client on

    A concrete instance of the classes of Lwip.v and Ftp.v: a control connection, with
    the bytes that will be received, at most five at a time, and those sent; what can
    be read from any other connection or from the local file; what has been written
    there; the other socket, and whether the file is open. *)

From stdpp Require Import gmap.
From S2P Require Import Prelude CSem Numerals Lwip LwipSim TcpUdp Ftp FtpLines FtpSession FtpTransfer FtpCopy FtpXfer.

Import FtpXfer.

Record ftp_net : Type := FtpNet
  { fn_in : list Z; fn_sent : list Z; fn_data : list Z; fn_file : list Z;
    fn_socket : data_socket; fn_opened : bool }.

Definition with_streams (i s d f : list Z) (w : ftp_net) : ftp_net :=
  FtpNet i s d f (fn_socket w) (fn_opened w).
Definition with_socket (c : data_socket) (w : ftp_net) : ftp_net :=
  FtpNet (fn_in w) (fn_sent w) (fn_data w) (fn_file w) c (fn_opened w).
Definition with_file (f : list Z) (opened : bool) (w : ftp_net) : ftp_net :=
  FtpNet (fn_in w) (fn_sent w) (fn_data w) f (fn_socket w) opened.

(** The socket 0 is that of the control connection. *)
Definition fn_recv (fd n : Z) : M ftp_net (Z * list Z) := λ w,
  let m := Z.to_nat (Z.min 5 n) in
  if fd =? 0
  then Ok ((len (take m (fn_in w)), take m (fn_in w)),
           with_streams (drop m (fn_in w)) (fn_sent w) (fn_data w) (fn_file w) w)
  else Ok ((len (take m (fn_data w)), take m (fn_data w)),
           with_streams (fn_in w) (fn_sent w) (drop m (fn_data w)) (fn_file w) w).

Definition fn_select (fd : Z) : M ftp_net Z :=
  gets (λ w, if fd =? 0 then len (fn_in w) else 1).

(** A transfer begins: nothing has been written in it. *)
Definition fn_open : M ftp_net unit :=
  modify (with_file [] true).
Definition fn_close : M ftp_net unit := modify (λ w, with_file (fn_file w) false w).

Definition fn_write (p : ptr) (n : Z) : M ftp_net Z := λ w,
  match load_bytes (obj p) (off p) n with
  | Ok bs => Ok (n, with_streams (fn_in w) (fn_sent w) (fn_data w) (fn_file w ++ bs) w)
  | UB u => UB u | NoFuel => NoFuel end.

(** One socket more than the first: 1. *)
Definition fn_on_socket (c : data_socket) (rc : Z) : M ftp_net Z := modify (with_socket c) ;; mret rc.

#[export] Instance ftp_sockets : Lwip ftp_net :=
  {| lwip_socket := λ _, fn_on_socket (Opened 1) 1; lwip_setsockopt := λ _ _, mret 0;
     lwip_connect := λ fd _, fn_on_socket (Connected fd) 0; lwip_bind := λ _ _, mret 0; lwip_listen := λ _ _, mret 0;
     lwip_accept := λ _ _, mret (-1, None); lwip_getsockname := λ _, mret (0, None);
     lwip_shutdown := λ _ _, mret 0; lwip_close := λ _, fn_on_socket Closed 0; lwip_write := λ _, fn_write;
     lwip_sendto := λ _ _ n _, mret n; lwip_recv := fn_recv;
     lwip_recvfrom := λ _ _, mret (-1, [], None); lwip_ioctl_fionread := λ _, mret None;
     lwip_select_read := λ _, fn_select; lwip_getsockopt_error := λ _, mret (Some 0);
     lwip_fcntl_nonblock := λ _, mret tt; inet_addr := λ _, 16777343;
     lwip_getaddrinfo := λ _, mret (0, []) |}.

(** The reply to the last command. *)
Definition is_command (name : String.string) (c : list Z) : bool :=
  bool_decide (bytes_of name = take (length (bytes_of name)) c).

Definition replies (c : list Z) : list (list Z) :=
  if is_command "USER"%string c then [bytes_of "331-Welcome."%string; bytes_of " We log all access."%string; bytes_of "331 Password?"%string]
  else if is_command "PASS"%string c then [bytes_of "230 In."%string]
  else if is_command "TYPE"%string c then [bytes_of "200 Type set."%string]
  else if is_command "PASV"%string c then [bytes_of "227 Entering Passive Mode (10,0,0,1,4,1)."%string]
  else if is_command "RETR a"%string c then [bytes_of "150 Here it comes."%string]
  else if is_command "STOR"%string c then [bytes_of "150 Go on."%string]
  else if is_command "RETR"%string c then [bytes_of "550 No such file."%string]
  else [bytes_of "226 Done."%string].

Fixpoint until_newline (l : list Z) : list Z :=
  match l with [] => [] | x :: l => if x =? 10 then [] else x :: until_newline l end.

(** Everything after the last newline but one. *)
Definition last_command (sent : list Z) : list Z :=
  reverse (until_newline (tail (reverse sent))).

Definition ftp_server (sent : list Z) : list (list Z) :=
  match list.last sent with
  | Some c => if c =? 10 then replies (last_command sent) else []
  | None => []
  end.

(** What follows a reply that says that a transfer begins. *)
Definition ftp_later (sent : list Z) : list (list Z) :=
  if bool_decide (FtpSession.code ftp_server sent = Some 49) then [bytes_of "226 Done."%string] else [].

Definition fn_answer : list Z → list Z := FtpSession.answer ftp_server ftp_later.

Definition fn_print (text : list Z) : M (TCPClient.TCPClient * ftp_net) Z := λ '(c, w),
  if TCPClient.m_socket_fd c =? 0
  then Ok (len text, (c, with_streams (fn_in w ++ fn_answer (fn_sent w ++ text)) (fn_sent w ++ text)
                           (fn_data w) (fn_file w) w))
  else Ok (0, (c, w)).

#[export] Instance ftp_platform : Ftp.FtpPlatform ftp_net :=
  {| Ftp.print := fn_print; Ftp.fs_open _ _ := fn_open; Ftp.fs_read n := fn_recv 1 n;
     Ftp.fs_write := fn_write; Ftp.fs_close := fn_close;
     Ftp.raw_buf := replicate 512 170; Ftp.raw_response := replicate 512 170 |}.

#[export] Instance ftp_addresses : IPAddresses := {| IPAddress := Z; v4 a := a; IPAddress_of a := a |}.
#[export] Existing Instance esp32.

Import Ftp FtpLines FtpSession FtpTransfer FtpCopy.

(** ** The server replies as it has to *)

#[export] Instance is_line_dec l : Decision (is_line l).
Proof. unfold is_line. apply _. Defined.

Lemma replies_ok c : Forall is_line (replies c) ∧ ∃ l, reply (replies c) l.
Proof.
  unfold replies. repeat case_match; (split; [decide_by_vm|]); eexists;
    try (apply reply_one; by vm_compute).
  apply (reply_many _ [_]); [by vm_compute| |by vm_compute]. repeat constructor.
Qed.

Lemma ftp_server_polite : polite ftp_server ftp_later.
Proof.
  split; [|split].
  - intros t. unfold ftp_server. change crlf with ([13] ++ [10]).
    rewrite app_assoc, last_snoc. apply replies_ok.
  - intros t x Hx. unfold ftp_server. rewrite last_snoc. by destruct (Z.eqb_spec x 10).
  - intros t. unfold ftp_later. destruct (bool_decide _); [|done].
    split; [decide_by_vm|]. eexists. by apply reply_one; vm_compute.
Qed.

Lemma ftp_server_length sent : (length (answer ftp_server ftp_later sent) ≤ 91)%nat.
Proof.
  rewrite answer_app, length_app.
  assert (length (lines_of (ftp_later sent)) ≤ 11)%nat.
  { unfold ftp_later. destruct (bool_decide _); apply Nat.leb_le; by vm_compute. }
  assert (length (lines_of (ftp_server sent)) ≤ 80)%nat; [|lia].
  unfold ftp_server. repeat case_match; try (unfold replies; repeat case_match);
    apply Nat.leb_le; by vm_compute.
Qed.

Lemma ftp_server_brief : brief ftp_server ftp_later.
Proof. intros sent. pose proof (ftp_server_length sent). lia. Qed.

Lemma ftp_server_enough : enough ftp_server ftp_later 100.
Proof.
  intros sent. pose proof (ftp_server_length sent). lia.
Qed.

(** ** The network *)

Definition fn_line (fd : Z) (sent inp : list Z) (w : ftp_net) : Prop :=
  fd = 0 ∧ fn_sent w = sent ∧ fn_in w = inp.

Definition fn_wire (c : option Z) (open : bool) (fd : Z) (sent inp : list Z) (w : ftp_net) : Prop :=
  fn_line fd sent inp w ∧ fn_opened w = open ∧
  match c with
  | Some d => fn_socket w = Opened d ∨ fn_socket w = Connected d | None => fn_socket w = Closed end.

(** With the second connection: it has another socket. *)
Definition fn_link (c : data_socket) (open : bool) (src dst : list Z) (fd : Z) (sent inp : list Z)
    (w : ftp_net) : Prop :=
  fn_line fd sent inp w ∧ fn_data w = src ∧ fn_file w = dst ∧ fn_socket w = c ∧ fn_opened w = open ∧
  match c with Connected d | Opened d => d = 1 | Closed => True end.

Lemma fn_line_with (P : ftp_net → Prop) :
  (∀ i s w, P w → P (with_streams i s (fn_data w) (fn_file w) w)) →
  ControlLine (answer ftp_server ftp_later) (λ fd sent inp w, fn_line fd sent inp w ∧ P w).
Proof.
  intros HP. split.
  - intros fd sent inp w [(-> & _) _]. by vm_compute.
  - intros fd sent inp w [(-> & Hs & Hi) Pw] Hne. exists (len inp), w. subst inp.
    split; [done|]. split; [|done]. destruct (fn_in w); [done|cbn; lia].
  - intros fd sent inp w [(-> & Hs & <-) Pw] Hne. set (m := Z.to_nat 5).
    exists (take m (fn_in w)), (list.drop m (fn_in w)). eexists. split; [done|].
    split; [by rewrite take_drop|]. split; [|split; [done|by apply HP]].
    rewrite length_take. destruct (fn_in w); [done|]. cbn [length]. lia.
  - intros c text sent inp w [(Hfd & <- & <-) Pw]. cbn [print ftp_platform]. unfold fn_print.
    rewrite Hfd. do 2 eexists. split; [done|]. split; [done|by apply HP].
  - intros fd fd' o sent inp w Hw. by exists 0, w.
Qed.

#[export] Instance fn_link_line c f src dst : ControlLine (answer ftp_server ftp_later) (fn_link c f src dst).
Proof. apply fn_line_with. by intros. Qed.

#[export] Instance fn_wire_line c f : ControlLine (answer ftp_server ftp_later) (fn_wire c f).
Proof. apply fn_line_with. by intros. Qed.

#[export] Instance fn_control : ControlNet (answer ftp_server ftp_later) fn_wire.
Proof.
  split; [apply _|..].
  - intros f fd t sent inp w (Hw & Hf & Hc). eexists 1, _. split; [done|]. by split_and!; try apply Hw; try left.
  - intros d f fd o sent inp w Hw. by exists 0, w.
  - intros d f fd sa sent inp w (Hw & Hf & Hc). eexists 0, _. split; [done|]. split; [done|].
    by split_and!; try apply Hw; try right.
  - intros d f fd how sent inp w Hw. by exists 0, w.
  - intros d f fd sent inp w (Hw & Hf & Hc). eexists 0, _. split; [done|]. by split_and!; try apply Hw.
  - intros c fd name mode sent inp w (Hw & Hf & Hc). eexists. split; [done|]. by split_and!; try apply Hw.
  - intros c fd sent inp w (Hw & Hf & Hc). eexists. split; [done|]. by split_and!; try apply Hw.
Qed.

#[export] Instance fn_data_net typ mode ip port :
  FtpXfer.DataNet ftp_server ftp_later typ mode ip port fn_link.
Proof.
  split; [apply _|..].
  - intros name src dst fd sent inp w (Hw & <- & _ & Hc & _). eexists. split; [done|]. by split_and!; try apply Hw.
  - intros f src dst fd sent inp w (Hw & <- & <- & _ & <- & _). eexists 1, _. split; [done|].
    split; [done|]. by split_and!; try apply Hw.
  - intros c f d o src dst fd sent inp w Hw. by exists 0, w.
  - intros f d src dst fd sent inp w (Hw & <- & <- & _ & <- & Hd). eexists 0, _. split; [done|].
    split; [done|]. by split_and!; try apply Hw.
  - intros c src dst fd sent inp w (Hw & <- & <- & <- & _ & Hd). eexists. split; [done|].
    by split_and!; try apply Hw.
  - intros d f src dst fd sent inp w Hw. by exists 0, w.
  - intros d f src dst fd sent inp w (Hw & <- & <- & _ & <- & _). eexists 0, _. split; [done|].
    by split_and!; try apply Hw.
Qed.

(** ** A session

    The client at the start of a command. *)
Definition client : FTPClientBase :=
  set_m_fs_cb true (control_of (set_tcp (TCPClient.mkTCPClient 0 None (Some (5, 0)) true)
    (FTPClientBase_new (replicate 512 170) (replicate 512 170)))).

Definition k0 : control := Control 1 1 None None PASSIVE (0, 0) true 0 (replicate 512 170) ∅.

Definition start (data : list Z) : ftp_world ftp_net := world k0 client (FtpNet [] [] data [] Closed false).

Lemma start_ready data : ready (fn_wire None false) k0 [] (start data).
Proof.
  split; [done|]. exists client, (FtpNet [] [] data [] Closed false), [], [].
  split; [done|]. split; [by repeat split|]. by split.
Qed.

(** A login, a download and its result, the bytes sent and the local file. *)
Definition session (file : String.string) (data : list Z) : outcome (Z * Z * list Z * list Z) :=
  '((a, b), w) ← (
    a ← login 100 1 (Some (c_string (bytes_of "me"%string))) (Some (c_string (bytes_of "pw"%string)));
    b ← get 100 1 (Some (c_string (bytes_of "f"%string))) (Some (c_string (bytes_of file))) BINARY;
    mret (a, b)) (start data);
  Ok (a, b, fn_sent (sockets_ w), fn_file (sockets_ w)).

Definition sent_of (l : list String.string) : list Z := concat (map (λ c, bytes_of c ++ crlf) l).

Example session_download :
  session "a"%string [1; 2; 3; 4; 5; 6; 7]
  = Ok (1, 1, sent_of ["USER me"; "PASS pw"; "TYPE I"; "PASV"; "RETR a"]%string, [1; 2; 3; 4; 5; 6; 7]).
Proof. vm_compute. reflexivity. Qed.

Example session_no_such_file :
  session "b"%string [1; 2; 3]
  = Ok (1, 1, sent_of ["USER me"; "PASS pw"; "TYPE I"; "PASV"; "RETR b"]%string, []).
Proof. vm_compute. reflexivity. Qed.

Lemma c_string_text s : forallb (λ x, (0 <? x) && (x <? 256)) (bytes_of s) = true →
  len (bytes_of s) ≤ INT_MAX → cstr (c_string (bytes_of s)) (bytes_of s).
Proof.
  intros HF HL. apply c_string_cstr; [|done]. apply list.Forall_forall. intros x Hx.
  rewrite forallb_forall in HF. specialize (HF x ltac:(by apply list_elem_of_In)). unfold byte. lia.
Qed.

Lemma ftp_login_refines_witness :
  cstr (c_string (bytes_of "me"%string)) (bytes_of "me"%string) ∧
  ∃ w', login 100 1 (Some (c_string (bytes_of "me"%string))) (Some (c_string (bytes_of "pw"%string))) (start [])
    = Ok (1, w') ∧ after ftp_later (fn_wire None false) k0 (sent_of ["USER me"; "PASS pw"]%string) w'.
Proof.
  split; [by apply c_string_text|].
  exact (ftp_login_refines ftp_server ftp_later (fn_wire None false) ftp_server_polite k0 [] (c_string (bytes_of "me"%string))
    (Some (c_string (bytes_of "pw"%string))) (bytes_of "me"%string) (Some (bytes_of "pw"%string)) 100
    (start []) (start_ready []) ftp_server_brief ftp_server_enough
    (c_string_text "me"%string eq_refl ltac:(by vm_compute))
    (c_string_text "pw"%string eq_refl ltac:(by vm_compute))).
Defined.

Lemma ftp_server_accepts : accepts ftp_server 16777226 1025 [] BINARY.
Proof.
  split; [by vm_compute|]. split; [by vm_compute|].
  exists (bytes_of "227 Entering Passive Mode (10,0,0,1,4,1)."%string).
  split; [by apply reply_one; vm_compute|].
  exists (bytes_of "227 Entering Passive Mode "%string), 10, 0, 0, 1, 4, 1, (bytes_of "."%string).
  repeat split; by decide_by_vm || vm_compute.
Qed.

Lemma ftp_get_refused_witness :
  ∃ r w', get 100 1 (Some (c_string (bytes_of "f"%string))) (Some (c_string (bytes_of "b"%string))) BINARY (start [])
    = Ok (1, w') ∧
    ready (fn_wire None false) (with_response r k0) (sent_of ["TYPE I"; "PASV"; "RETR b"]%string) w'.
Proof.
  refine (ftp_get_refused ftp_server ftp_later ftp_server_polite ftp_server_brief fn_wire 16777226 1025 k0 [] 100
    (c_string (bytes_of "f"%string))
    (bytes_of "f"%string) (c_string (bytes_of "b"%string)) (bytes_of "b"%string) BINARY (start [])
    (start_ready []) ftp_server_enough eq_refl eq_refl eq_refl ltac:(by vm_compute) (or_intror eq_refl)
    (c_string_text "f"%string eq_refl ltac:(by vm_compute))
    (c_string_text "b"%string eq_refl ltac:(by vm_compute))
    ftp_server_accepts _).
  by vm_compute.
Defined.

(** *** Overruns

    Nine bytes of a line of twelve are there, and three more are buffered; and a socket
    that gives all there is. *)
Definition some_buffered : FTPClientBase :=
  set_cavail 3 (set_cput (Some 3) (set_cget (Some 0) (set_buf ([97; 98; 99] ++ replicate 509 0) client))).

Lemma ftp_readLine_overruns_witness :
  readLine_loop 1 1 (replicate 9 120 ++ replicate 3 0) 9 3 9 false
    (world k0 some_buffered (FtpNet [] [] [] [] Closed false)) = UB OutOfBounds ∧
  (readLine_reset 1 ;; readLine_read (H1 := LwipSim.lwip_sim 0) 1)
    (world k0 client (LwipSim.Sockets [0] 0 (replicate 600 65) [])) = UB OutOfBounds.
Proof.
  split.
  - apply (proj1 (ftp_readLine_overruns k0 some_buffered (FtpNet [] [] [] [] Closed false)) [97; 98; 99]
      (replicate 9 120) (replicate 3 0) 0%nat).
    + split; [done|]. split; [done|]. by exists [], (replicate 509 0).
    + done.
    + by repeat constructor.
    + done.
  - apply (proj2 (ftp_readLine_overruns (H1 := LwipSim.lwip_sim 0) k0 client
      (LwipSim.Sockets [0] 0 (replicate 600 65) [])) (replicate 512 65) (tcp client)
      (LwipSim.Sockets [0] 0 (replicate 88 65) [])); by vm_compute.
Defined.

(** *** The bytes of a transfer *)

Lemma fn_recv_link e d src dst fd sent inp w : e ≠ 0 → fn_link (Connected d) true src dst fd sent inp w →
  ∃ p src' w', fn_recv e 512 w = Ok ((len p, p), w') ∧ src = p ++ src' ∧ len p ≤ 512 ∧
    (src ≠ [] → p ≠ []) ∧ fn_link (Connected d) true src' dst fd sent inp w'.
Proof.
  intros He (Hw & <- & <- & Hc & Ho & Hd). set (m := Z.to_nat 5). unfold fn_recv.
  destruct (Z.eqb_spec e 0); [done|].
  exists (take m (fn_data w)), (list.drop m (fn_data w)). eexists. split; [done|].
  split; [by rewrite take_drop|]. split; [rewrite length_take; lia|].
  split; [by destruct (fn_data w)|]. by repeat split; try apply Hw; try lia.
Qed.

Lemma fn_write_link d src dst fd sent inp p w : fn_link (Connected d) true src dst fd sent inp w →
  ∃ w', fn_write (Ptr p 0) (len p) w = Ok (len p, w') ∧ fn_link (Connected d) true src (dst ++ p) fd sent inp w'.
Proof.
  intros (Hw & <- & <- & Hc & Ho & Hd). unfold fn_write. cbn [obj off].
  pose proof (load_bytes_app [] p [] 0 (len p) eq_refl eq_refl) as E. rewrite app_nil_r in E.
  cbn [app] in E. rewrite E. eexists. split; [done|]. by repeat split; try apply Hw; try lia.
Qed.

Lemma fn_streams typ : streams typ fn_link.
Proof.
  intros fd sent inp. cbv zeta. destruct (bool_decide _); split.
  - intros d src dst w (_ & _ & _ & _ & _ & ->). by vm_compute.
  - intros d src dst w Hw. by apply fn_recv_link.
  - intros d o src dst w Hw. by exists 0, w.
  - intros d src dst p w Hw _. by apply fn_write_link.
  - intros d src dst w (_ & _ & _ & _ & _ & ->). by vm_compute.
  - intros d src dst w Hw. exists 1, w. pose proof Hw as (_ & _ & _ & ?).
    cbn [lwip_select_read ftp_sockets]. unfold fn_select. by destruct (Z.eqb_spec d 0); [lia|].
  - intros d o src dst w Hw. by exists 0, w.
  - intros d src dst w Hw. apply fn_recv_link; [|done]. destruct Hw as (_ & _ & _ & _ & _ & ->). by vm_compute.
  - intros d src dst p w Hw Hp. destruct (fn_write_link _ _ _ _ _ _ p _ Hw) as (w' & E & Hw').
    exists (len p), w'. split; [done|]. split; [|done]. by destruct p.
Qed.

Lemma start_link data : ready (fn_link Closed false data []) k0 [] (start data).
Proof.
  split; [done|]. exists client, (FtpNet [] [] data [] Closed false), [], [].
  split; [done|]. split; [by repeat split|]. by split.
Qed.

Definition seven : list Z := [1; 2; 3; 4; 5; 6; 7].

Lemma ftp_xfer_copies_witness :
  (∃ r w', get 100 1 (Some (c_string (bytes_of "f"%string))) (Some (c_string (bytes_of "a"%string))) BINARY
      (start seven) = Ok (1, w') ∧
    ready (fn_link Closed false [] seven) (with_response r k0) (sent_of ["TYPE I"; "PASV"; "RETR a"]%string) w') ∧
  (∃ r w', put 100 1 (Some (c_string (bytes_of "f"%string))) (Some (c_string (bytes_of "a"%string))) BINARY
      (start seven) = Ok (1, w') ∧
    ready (fn_link Closed false [] seven) (with_response r k0) (sent_of ["TYPE I"; "PASV"; "STOR a"]%string) w').
Proof.
  pose proof (λ typ, ftp_xfer_copies ftp_server ftp_later ftp_server_polite ftp_server_brief typ BINARY 16777226 1025 fn_link
    k0 [] 100 (c_string (bytes_of "f"%string)) (bytes_of "f"%string) (c_string (bytes_of "a"%string))
    (bytes_of "a"%string) seven [] (start seven) (fn_streams typ) (start_link seven) ftp_server_enough
    ltac:(apply Nat.ltb_lt; by vm_compute) eq_refl eq_refl eq_refl ltac:(by vm_compute) (or_intror eq_refl)
    (c_string_text "f"%string eq_refl ltac:(by vm_compute))
    (c_string_text "a"%string eq_refl ltac:(by vm_compute)) ftp_server_accepts) as T.
  split; [apply (T FILE_READ)|apply (T FILE_WRITE)]; by vm_compute.
Defined.
