(* ===== verification/Samples.v ===== *)
(** * The packet samples over a socket

    The programs ping.c, ping_nb.c, pub0sub1.c, pub0sub1_nb.c and qos0pub.c of
    paho/MQTTPacket/samples, which use the packet library and the transport of
    samples/transport.c (Module Socket of Transport.v) without a client. *)

From S2P Require Import Prelude CSem Wire Packet Connect Publish Subscribe Stream Numerals Transport.

#[local] Arguments bytes_of s%_string.

(** ** The process

    What the programs use of the system besides the transport. [interrupted]
    is asked where a program looks at [toStop]: the signal that has arrived
    since, if its handler is cfinish. [set_signal] has [true] for cfinish and
    [false] for NULL. *)
Inductive printf_arg : Type :=
  | ArgInt (n : Z) | ArgChars (p : option ptr)
  | ArgFloat (m e : Z).  (* m times 2 to the e *)

Class Process (W : Type) : Type :=
  { SIGINT : Z; SIGTERM : Z;
    interrupted : M W (option Z);
    set_signal : Z → bool → M W unit;
    time : M W Z;
    printf : String.string → list printf_arg → M W unit }.
#[global] Arguments printf {W _} format%_string args.

(** The global variables of the programs. [time_t] is taken as wide enough. *)
Record globals : Type := Globals { toStop : Z; old_t : Z }.

(** What the uninitialised locals hold that are passed to the library before they are
    assigned. *)
Record locals : Type := Locals
  { l_buf : list Z; l_sessionPresent : Z; l_connack_rc : Z; l_submsgid : Z; l_subcount : Z;
    l_granted_qos : Z; l_publish : publish_out }.

Definition KEEPALIVE_INTERVAL : Z := 20.
Definition buflen : Z := 200.

Definition literal (s : String.string) : MQTTString := of_cstring (bytes_of s).
#[global] Arguments literal s%_string.

Definition connect_data : MQTTPacket_connectData :=
  let data := MQTTPacket_connectData_initializer in
  let data := set_clientID (literal "me") data in
  let data := set_keepAliveInterval KEEPALIVE_INTERVAL data in
  let data := set_cleansession 1 data in
  let data := set_username (literal "testuser") data in
  set_password (literal "testpassword") data.

(** [topicString.cstring = s], of a string that was initialised. *)
Definition topicString (s : String.string) : MQTTString := literal s.
#[global] Arguments topicString s%_string.
Definition payload : option ptr := Some (c_string (bytes_of "mypayload")).
Definition payloadlen : outcome Z := strlen payload.

(** The host and the port of the command line. *)
Definition target (argv : list ptr) : outcome (ptr * Z) :=
  let host := match argv with _ :: h :: _ => h | _ => c_string (bytes_of "m2m.eclipse.org") end in
  match argv with
  | _ :: _ :: p :: _ =>
      n ← strlen (Some p); text ← mem_read (Some p) n; Ok (host, atoi text)
  | _ => Ok (host, 1883)
  end.

Section Process.
Context `{CImpl} {W T : Type} `{Process W} (sys : ∀ A, M W A → M T A) (o : locals).

(** The state of a program: its globals, and the transport with the world. *)
Abbreviation P A := (M (globals * T) A).

Definition tr {A} (m : M T A) : P A := λ s,
  match m s.2 with
  | Ok (a, t) => Ok (a, (s.1, t)) | UB u => UB u | NoFuel => NoFuel end.
Definition process {A} (m : M W A) : P A := tr (sys A m).
Definition print (format : String.string) (args : list printf_arg) : P unit :=
  process (printf format args).

#[local] Arguments print format%_string args.

Definition start_ping_timer : P unit :=
  t ← process time;
  modify (λ s, (Globals (toStop s.1) (t + (KEEPALIVE_INTERVAL / 2 + 1)), s.2)).

Definition time_to_ping : P bool :=
  t ← process time;
  old_t ← gets (λ s, old_t s.1);
  mret (old_t <=? t).

Definition cfinish (sig : Z) : P unit :=
  process (set_signal SIGINT false) ;;
  modify (λ s, (Globals 1 (old_t s.1), s.2)).

Definition stop_init : P unit :=
  process (set_signal SIGINT true) ;; process (set_signal SIGTERM true).

(** [!toStop], after the handler of a signal that has arrived. *)
Definition running : P bool :=
  sig ← process interrupted;
  match sig with Some sig => cfinish sig | None => mret tt end ;;
  toStop ← gets (λ s, toStop s.1);
  mret (toStop =? 0).

(** The body of [if (... == CONNACK)]: false is [goto exit]. *)
Definition connack_accepts (buf : list Z) : P bool :=
  '(r, _, connack_rc) ←
    lift (MQTTDeserialize_connack (l_sessionPresent o) (l_connack_rc o) buf buflen);
  if negb (r =? 1) || negb (connack_rc =? 0) then
    print "Unable to connect, return code %d\n" [ArgInt connack_rc] ;; mret false
  else mret true.

(** The body of [if (... == SUBACK)]; [granted_qos] is an array of one. *)
Definition suback_accepts (buf : list Z) : P bool :=
  '(_, _, _, granted) ← lift (MQTTDeserialize_suback (l_submsgid o) 1 (l_subcount o)
                                [l_granted_qos o] buf buflen);
  granted_qos ← lift (arr_get granted 0);
  if negb (granted_qos =? 0) then
    print "granted qos != 0, %d\n" [ArgInt granted_qos] ;; mret false
  else mret true.

(** The message that has arrived. *)
Definition show_message (buf : list Z) : P unit :=
  '(_, m) ← lift (MQTTDeserialize_publish (l_publish o) buf buflen);
  print "message arrived %.*s\n" [ArgInt (p_payloadlen m); ArgChars (p_payload m)].

Definition serialize_message (buf : list Z) : P (Z * list Z) :=
  payloadlen ← lift payloadlen;
  lift (MQTTSerialize_publish buf buflen 0 0 0 0 (topicString "pubtopic") payload payloadlen).

(** [while(!time_to_ping());] *)
Fixpoint wait_to_ping (fuel : nat) : P unit :=
  match fuel with
  | O => no_fuel
  | S fuel => go ← time_to_ping; if go : bool then mret tt else wait_to_ping fuel
  end.

(** The do-while loop of the non-blocking programs: until a packet of the type
    [type] has arrived that [accepts] likes; a result of -1 gives up. *)
Fixpoint await (getfn : getfn T) (type : Z) (accepts : list Z → P bool) (fuel : nat)
    (buf : list Z) (mytransport : MQTTTransport) : P (bool * list Z * MQTTTransport) :=
  match fuel with
  | O => no_fuel
  | S fuel =>
      '(frc, buf, mytransport) ← tr (MQTTPacket_readnb getfn buf buflen mytransport);
      if frc =? type then
        ok ← accepts buf; mret (ok, buf, mytransport)
      else if frc =? -1 then mret (false, buf, mytransport)
      else await getfn type accepts fuel buf mytransport
  end.

End Process.

(** [mytransport.state = 0]; the other fields are not initialised. *)
Definition new_transport (junk : MQTTTransport) : MQTTTransport := set_state 0 junk.

(** ** The programs *)

Definition sys {W} : ∀ A, M W A → M (Z * W) A := λ A m, Socket.outside m.

Section Programs.
Context `{CImpl} {W : Type} `{Socket.Sockets W} `{Process W} (o : locals).

Abbreviation P A := (M (globals * (Z * W)) A).

Definition say (format : String.string) (args : list printf_arg) : P unit :=
  print sys format args.
#[local] Arguments say format%_string args.

Definition send (mysock : Z) (buf : list Z) (len : Z) : P Z :=
  tr (Socket.transport_sendPacketBuffer mysock (Ptr buf 0) len).
Definition read (buf : list Z) : P (Z * list Z) :=
  tr (MQTTPacket_read Socket.transport_getdata buf buflen).
Definition readnb (mysock : Z) (buf : list Z) (mytransport : MQTTTransport)
  : P (Z * list Z * MQTTTransport) :=
  tr (MQTTPacket_readnb (Socket.transport_getdatanb mysock) buf buflen mytransport).

(** What the programs have around their session with the broker; it ends at their label
    [exit]. *)
Definition program (session : Z → P unit) (argv : list ptr) : P Z :=
  '(host, port) ← lift (target argv);
  mysock ← tr (Socket.transport_open host port);
  if mysock <? 0 then mret mysock
  else
    say "Sending to hostname %s port %d\n" [ArgChars (Some host); ArgInt port] ;;
    session mysock ;;
    tr (Socket.transport_close mysock) ;;
    mret 0.

Definition send_connect (mysock : Z) (data : MQTTPacket_connectData) (buf : list Z)
  : P (list Z) :=
  '(len, buf) ← lift (MQTTSerialize_connect buf buflen data);
  send mysock buf len ;; mret buf.

(** [if (MQTTPacket_read(...) == CONNACK) ... else goto exit;] *)
Definition wait_connack (buf : list Z) : P (bool * list Z) :=
  '(type, buf) ← read buf;
  if type =? CONNACK then ok ← connack_accepts sys o buf; mret (ok, buf)
  else mret (false, buf).

Definition send_disconnect (mysock : Z) (buf : list Z) : P unit :=
  say "disconnecting\n" [] ;;
  '(len, buf) ← lift (MQTTSerialize_disconnect buf buflen);
  send mysock buf len ;; mret tt.

Definition send_subscribe (mysock : Z) (buf : list Z) : P (list Z) :=
  '(len, buf) ← lift (MQTTSerialize_subscribe buf buflen 0 1 1 [topicString "substopic"] [0]);
  send mysock buf len ;; mret buf.

End Programs.
#[global] Arguments say {W _} format%_string args.

(** ping.c *)
Module Ping.
Section Ping.
Context `{CImpl} {W : Type} `{Socket.Sockets W} `{Process W} (o : locals).
Abbreviation P A := (M (globals * (Z * W)) A).

(** The loop; false is [goto exit]. *)
Fixpoint loop (fuel : nat) (mysock : Z) (buf : list Z) : P (bool * list Z) :=
  match fuel with
  | O => no_fuel
  | S fuel' =>
      go ← running sys;
      if go : bool then
        wait_to_ping sys fuel ;;
        '(len, buf) ← lift (MQTTSerialize_pingreq buf buflen);
        send mysock buf len ;;
        say "Ping..." [] ;;
        '(type, buf) ← read buf;
        if type =? PINGRESP then
          say "Pong\n" [] ;; start_ping_timer sys ;; loop fuel' mysock buf
        else say "OOPS\n" [] ;; mret (false, buf)
      else mret (true, buf)
  end.

Definition session (fuel : nat) (mysock : Z) : P unit :=
  buf ← send_connect mysock connect_data (l_buf o);
  say "Sent MQTT connect\n" [] ;;
  '(ok, buf) ← wait_connack o buf;
  if ok : bool then
    say "MQTT connected\n" [] ;;
    start_ping_timer sys ;;
    '(stopped, buf) ← loop fuel mysock buf;
    if stopped : bool then send_disconnect mysock buf else mret tt
  else mret tt.

Definition main (fuel : nat) (argv : list ptr) : P Z :=
  stop_init sys ;; program (session fuel) argv.
End Ping.
End Ping.

(** ping_nb.c *)
Module PingNb.
Section PingNb.
Context `{CImpl} {W : Type} `{Socket.Sockets W} `{Process W} (o : locals).
Abbreviation P A := (M (globals * (Z * W)) A).

Inductive states : Type := IDLE | GETPONG.

Fixpoint loop (fuel : nat) (mysock : Z) (state : states) (buf : list Z)
    (mytransport : MQTTTransport) : P (bool * list Z) :=
  match fuel with
  | O => no_fuel
  | S fuel =>
      go ← running sys;
      if go : bool then
        match state with
        | IDLE =>
            ping ← time_to_ping sys;
            if ping : bool then
              '(len, buf) ← lift (MQTTSerialize_pingreq buf buflen);
              send mysock buf len ;;
              say "Ping..." [] ;;
              loop fuel mysock GETPONG buf mytransport
            else loop fuel mysock IDLE buf mytransport
        | GETPONG =>
            '(rc, buf, mytransport) ← readnb mysock buf mytransport;
            if rc =? PINGRESP then
              say "Pong\n" [] ;; start_ping_timer sys ;; loop fuel mysock IDLE buf mytransport
            else if rc =? -1 then say "OOPS\n" [] ;; mret (false, buf)
            else loop fuel mysock GETPONG buf mytransport
        end
      else mret (true, buf)
  end.

Definition session (fuel : nat) (junk : MQTTTransport) (mysock : Z) : P unit :=
  buf ← send_connect mysock connect_data (l_buf o);
  say "Sent MQTT connect\n" [] ;;
  '(ok, buf, mytransport) ←
    await (Socket.transport_getdatanb mysock) CONNACK (connack_accepts sys o) fuel buf
      (new_transport junk);
  if ok : bool then
    say "MQTT connected\n" [] ;;
    start_ping_timer sys ;;
    '(stopped, buf) ← loop fuel mysock IDLE buf mytransport;
    if stopped : bool then send_disconnect mysock buf else mret tt
  else mret tt.

Definition main (fuel : nat) (junk : MQTTTransport) (argv : list ptr) : P Z :=
  stop_init sys ;; program (session fuel junk) argv.
End PingNb.
End PingNb.

(** pub0sub1.c *)
Module Pub0Sub1.
Section Pub0Sub1.
Context `{CImpl} {W : Type} `{Socket.Sockets W} `{Process W} (o : locals).
Abbreviation P A := (M (globals * (Z * W)) A).

Definition wait_suback (buf : list Z) : P (bool * list Z) :=
  '(type, buf) ← read buf;
  if type =? SUBACK then ok ← suback_accepts sys o buf; mret (ok, buf)
  else mret (false, buf).

Fixpoint loop (fuel : nat) (mysock : Z) (buf : list Z) : P (list Z) :=
  match fuel with
  | O => no_fuel
  | S fuel =>
      go ← running sys;
      if go : bool then
        '(type, buf) ← read buf;
        (if type =? PUBLISH then show_message sys o buf else mret tt) ;;
        say "publishing reading\n" [] ;;
        '(len, buf) ← serialize_message buf;
        send mysock buf len ;;
        loop fuel mysock buf
      else mret buf
  end.

Definition session (fuel : nat) (mysock : Z) : P unit :=
  buf ← send_connect mysock connect_data (l_buf o);
  '(ok, buf) ← wait_connack o buf;
  if ok : bool then
    buf ← send_subscribe mysock buf;
    '(ok, buf) ← wait_suback buf;
    if ok : bool then
      buf ← loop fuel mysock buf;
      send_disconnect mysock buf
    else mret tt
  else mret tt.

Definition main (fuel : nat) (argv : list ptr) : P Z :=
  stop_init sys ;; program (session fuel) argv.
End Pub0Sub1.
End Pub0Sub1.

(** pub0sub1_nb.c *)
Module Pub0Sub1Nb.
Section Pub0Sub1Nb.
Context `{CImpl} {W : Type} `{Socket.Sockets W} `{Process W} (o : locals).
Abbreviation P A := (M (globals * (Z * W)) A).

Fixpoint loop (fuel : nat) (mysock : Z) (buf : list Z) (mytransport : MQTTTransport)
  : P (list Z) :=
  match fuel with
  | O => no_fuel
  | S fuel =>
      go ← running sys;
      if go : bool then
        '(type, buf, mytransport) ← readnb mysock buf mytransport;
        if type =? PUBLISH then
          show_message sys o buf ;;
          say "publishing reading\n" [] ;;
          '(len, buf) ← serialize_message buf;
          send mysock buf len ;;
          loop fuel mysock buf mytransport
        else loop fuel mysock buf mytransport
      else mret buf
  end.

Definition session (fuel : nat) (junk : MQTTTransport) (mysock : Z) : P unit :=
  buf ← send_connect mysock connect_data (l_buf o);
  '(ok, buf) ← wait_connack o buf;
  if ok : bool then
    buf ← send_subscribe mysock buf;
    '(ok, buf, mytransport) ←
      await (Socket.transport_getdatanb mysock) SUBACK (suback_accepts sys o) fuel buf
        (new_transport junk);
    if ok : bool then
      buf ← loop fuel mysock buf mytransport;
      send_disconnect mysock buf
    else mret tt
  else mret tt.

Definition main (fuel : nat) (junk : MQTTTransport) (argv : list ptr) : P Z :=
  stop_init sys ;; program (session fuel junk) argv.
End Pub0Sub1Nb.
End Pub0Sub1Nb.

(** qos0pub.c *)
Module Qos0Pub.
Section Qos0Pub.
Context `{CImpl} {W : Type} `{Socket.Sockets W} `{Process W} (o : locals).
Abbreviation P A := (M (globals * (Z * W)) A).

(** A call of a serializer with [buf + at] and [buflen - at]; and [len += ...] *)
Definition append (at_ : Z) (buf : list Z) (serialize : list Z → Z → outcome (Z * list Z))
  : outcome (Z * list Z) :=
  left ← (buflen +i (- at_))%c;
  '(n, tail) ← serialize (drop (Z.to_nat at_) buf) left;
  len ← (at_ +i n)%c;
  Ok (len, take (Z.to_nat at_) buf ++ tail).

Definition session (mysock : Z) : P unit :=
  let data := connect_data in
  let data := ConnectData (struct_id data) (struct_version data) 4 (clientID data)
    (keepAliveInterval data) (cleansession data) (willFlag data) (will data) (username data)
    (password data) in
  payloadlen ← lift payloadlen;
  '(len, buf) ← lift (MQTTSerialize_connect (l_buf o) buflen data);
  '(len, buf) ← lift (append len buf (λ buf buflen,
    MQTTSerialize_publish buf buflen 0 0 0 0 (topicString "mytopic") payload payloadlen));
  '(len, buf) ← lift (append len buf MQTTSerialize_disconnect);
  rc ← send mysock buf len;
  if rc =? len then say "Successfully published\n" [] else say "Publish failed\n" [].

Definition main (argv : list ptr) : P Z := program session argv.
End Qos0Pub.
End Qos0Pub.
