(* ===== verification/SampleSpec.v ===== *)
(** * What the packet samples send

    The packets the programs of Samples.v offer to their socket, in order,
    whatever the broker answers. *)

From S2P Require Import Prelude CSem Wire Packet Connect Publish Subscribe Stream Numerals ClientState Transport Samples.

(** ** Programs that offer packets

    [offers obs m Q]: when [m] ends, [obs] has grown by the packets that [Q]
    allows with the result. *)
Section Offers.
Context {S : Type} (obs : S → list (list Z)).

Definition offers {A} (m : M S A) (Q : A → list (list Z) → Prop) : Prop :=
  ∀ s a s', m s = Ok (a, s') → ∃ l, obs s' = obs s ++ l ∧ Q a l.

(** No packet, and a result with the property [R]. *)
Definition quiet {A} (m : M S A) (R : A → Prop) : Prop := offers m (λ a l, l = [] ∧ R a).

Lemma offers_ret {A} (a : A) (Q : A → list (list Z) → Prop) : Q a [] → offers (mret a) Q.
Proof. intros HQ s ? s' [= <- <-]. exists []. by rewrite app_nil_r. Qed.

Lemma offers_bind {A B} (m : M S A) (f : A → M S B) Q1 Q :
  offers m Q1 → (∀ a l1, Q1 a l1 → offers (f a) (λ b l2, Q b (l1 ++ l2))) → offers (m ≫= f) Q.
Proof.
  intros H1 H2 s b s' E. apply run_bind_inv in E as (a & s1 & E1 & E2).
  destruct (H1 _ _ _ E1) as (l1 & O1 & HQ1). destruct (H2 _ _ HQ1 _ _ _ E2) as (l2 & O2 & HQ2).
  exists (l1 ++ l2). by rewrite O2, O1, app_assoc.
Qed.

Lemma offers_weaken {A} (m : M S A) (Q Q' : A → list (list Z) → Prop) :
  offers m Q → (∀ a l, Q a l → Q' a l) → offers m Q'.
Proof. intros H HQ s a s' E. destruct (H _ _ _ E) as (l & O & ?). eauto. Qed.

Lemma offers_quiet {A B} (m : M S A) (f : A → M S B) R Q :
  quiet m R → (∀ a, R a → offers (f a) Q) → offers (m ≫= f) Q.
Proof. intros H1 H2. eapply offers_bind; [exact H1|]. intros a l [-> HR]. by apply H2. Qed.

Lemma offers_nothing_ret {A} (a : A) (R : A → Prop) : R a → quiet (mret a) R.
Proof. intros. by apply offers_ret. Qed.

Lemma offers_nothing_lift {A} (m : outcome A) (R : A → Prop) : (∀ a, m = Ok a → R a) → quiet (lift m) R.
Proof. intros HR s a s' E. apply run_lift_inv in E as [E <-]. exists []. rewrite app_nil_r. eauto. Qed.

Lemma quiet_gets {A} (f : S → A) : quiet (gets f) (λ _, True).
Proof. intros s a s' [= <- <-]. exists []. by rewrite app_nil_r. Qed.

Lemma quiet_modify (f : S → S) : (∀ s, obs (f s) = obs s) → quiet (modify f) (λ _, True).
Proof. intros Hf s a s' [= <- <-]. exists []. by rewrite app_nil_r, Hf. Qed.

Lemma offers_nothing_no_fuel {A} Q : offers (no_fuel : M S A) Q.
Proof. done. Qed.

(** The readers, over a source that offers nothing. *)
Section Read.
Context `{CImpl} (g : getfn S) (Hg : ∀ n, quiet (g n) (λ _, True)).

Lemma quiet_decode_loop fuel v m l : quiet (MQTTPacket_decode_loop fuel g v m l) (λ _, True).
Proof.
  revert v m l. induction fuel as [|fuel IH]; intros v m l; [done|]. cbn [MQTTPacket_decode_loop].
  ztest; [by apply offers_nothing_ret|].
  apply (offers_quiet _ _ _ _ (Hg 1)). intros [n cs] _. ztest; [|by apply offers_nothing_ret].
  eapply offers_quiet; [by apply (offers_nothing_lift _ (λ _, True))|]. intros c _.
  destruct (negb _); [apply IH|by apply offers_nothing_ret].
Qed.

(** A lift followed by the rest, with the equation it ran by. *)
Lemma offers_lift {A B} (m : outcome A) (f : A → M S B) Q :
  (∀ a, m = Ok a → offers (f a) Q) → offers (lift m ≫= f) Q.
Proof. intros HQ. eapply offers_quiet; [apply (offers_nothing_lift m (λ a, m = Ok a)); done|done]. Qed.

Lemma offers_assoc {A B C} (m : M S A) (f : A → M S B) (k : B → M S C) Q :
  offers (m ≫= λ a, f a ≫= k) Q → offers ((m ≫= f) ≫= k) Q.
Proof. intros HQ s a s' E. rewrite run_assoc in E. by apply HQ. Qed.

Lemma quiet_read buf n :
  quiet (MQTTPacket_read g buf n) (λ r, length r.2 = length buf).
Proof.
  unfold MQTTPacket_read.
  apply (offers_quiet _ _ _ _ (Hg 1)). intros [k bs] _.
  apply offers_lift. intros b1 E1%store_bytes_length. destruct (negb _); [by apply offers_nothing_ret|].
  eapply offers_quiet; [apply quiet_decode_loop|]. intros [_ rem_len] _.
  apply offers_lift. intros [k2 b2] E2%encode_loop_length. apply offers_lift. intros total _.
  ztest; [apply offers_nothing_ret; cbn; congruence|].
  apply offers_quiet with (R := λ r, length r.2 = length buf).
  - destruct (truth rem_len); [|apply offers_nothing_ret; cbn; congruence].
    apply (offers_quiet _ _ _ _ (Hg _)). intros [k3 bs3] _.
    apply offers_lift. intros b3 E3%store_bytes_length. apply offers_nothing_ret. cbn. congruence.
  - intros [bad b3] E3. destruct bad; [by apply offers_nothing_ret|].
    apply offers_lift. intros b _. by apply offers_nothing_ret.
Qed.

Lemma quiet_decodenb_loop fuel trp : quiet (MQTTPacket_decodenb_loop g fuel trp) (λ _, True).
Proof.
  revert trp. induction fuel as [|fuel IH]; intros trp; [done|]. cbn [MQTTPacket_decodenb_loop].
  ztest; [by apply offers_nothing_ret|].
  apply (offers_quiet _ _ _ _ (Hg 1)). intros [n cs] _.
  ztest; [by apply offers_nothing_ret|]. ztest; [by apply offers_nothing_ret|].
  apply offers_lift. intros c _. destruct (negb _); [apply IH|by apply offers_nothing_ret].
Qed.

Lemma quiet_readnb_body buf trp :
  quiet (readnb_body g buf trp) (λ r, length r.1.2 = length buf).
Proof.
  unfold readnb_body, readnb_exit. destruct (truth _);
    [|apply offers_lift; intros b _; by apply offers_nothing_ret].
  apply (offers_quiet _ _ _ _ (Hg _)). intros [k bs] _.
  apply offers_lift. intros b1 E1%store_bytes_length.
  ztest; [by apply offers_nothing_ret|]. ztest; [by apply offers_nothing_ret|].
  destruct (truth _); [by apply offers_nothing_ret|]. apply offers_lift. intros b _. by apply offers_nothing_ret.
Qed.

Lemma quiet_readnb_length buf n trp :
  quiet (readnb_length g buf n trp) (λ r, length r.1.2 = length buf).
Proof.
  unfold readnb_length, readnb_exit. eapply offers_quiet; [apply quiet_decodenb_loop|].
  intros [frc trp'] _. ztest; [by apply offers_nothing_ret|]. ztest; [by apply offers_nothing_ret|].
  apply offers_lift. intros [k b1] E1%encode_loop_length. apply offers_lift. intros total _.
  ztest; [by apply offers_nothing_ret|]. rewrite <- E1. apply quiet_readnb_body.
Qed.

Lemma quiet_readnb buf n trp :
  quiet (MQTTPacket_readnb g buf n trp) (λ r, length r.1.2 = length buf).
Proof.
  assert (Hh : ∀ trp, quiet (readnb_header g buf n trp) (λ r, length r.1.2 = length buf)).
  { intros trp'. unfold readnb_header, readnb_exit. apply (offers_quiet _ _ _ _ (Hg 1)).
    intros [k bs] _. apply offers_lift. intros b1 E1%store_bytes_length.
    ztest; [by apply offers_nothing_ret|]. ztest; [by apply offers_nothing_ret|].
    rewrite <- E1. apply quiet_readnb_length. }
  unfold MQTTPacket_readnb. ztest; [apply quiet_readnb_length|].
  ztest; [apply quiet_readnb_body|]. ztest; apply Hh.
Qed.

End Read.
End Offers.

(** ** The packets *)

Definition sample_connect : connect :=
  Connect 4 (bytes_of "me"%string) 20 1 None (Some (bytes_of "testuser"%string))
    (Some (bytes_of "testpassword"%string)).
Definition sample_publish (topic : String.string) : publish :=
  Publish 0 0 0 0 (bytes_of topic) (bytes_of "mypayload"%string).
#[global] Arguments sample_publish topic%_string.
Definition sample_subscribe : list Z := subscribe_packet 0 1 [(bytes_of "substopic"%string, 0)].
Definition pingreq : list Z := [192; 0].
Definition disconnect : list Z := [224; 0].

Section Packets.
Context `{CImpl}.

Lemma sample_connect_wf : connect_wf sample_connect.
Proof.
  split; [by right|decide_by_vm|decide_by_vm|by right|done|..]; intros u [= <-]; decide_by_vm.
Qed.

Lemma sample_connect_denotes : connect_denotes connect_data sample_connect.
Proof.
  split; [apply of_cstring_denotes; decide_by_vm|done..| |];
    (split; [done|apply of_cstring_denotes; decide_by_vm]).
Qed.

Lemma sample_publish_wf topic :
  mqtt_str (bytes_of topic) → publish_wf (sample_publish topic).
Proof.
  intros [Hb Hl]. split; cbn [sample_publish pb_dup pb_qos pb_retain pb_id pb_topic pb_payload];
    [by left|lia|by left|lia|done|decide_by_vm|].
  rewrite publish_body_len. cbn [sample_publish pb_topic pb_payload pb_qos].
  change (len (bytes_of "mypayload"%string)) with 9. change (0 <? 0) with false.
  unfold MAX_REMAINING. lia.
Qed.

Lemma serialize_sample_connect buf n :
  40 ≤ n ≤ len buf →
  MQTTSerialize_connect buf n connect_data = Ok (written buf (connect_packet sample_connect)).
Proof.
  intros Hn. apply serialize_connect_room;
    [apply sample_connect_wf|apply sample_connect_denotes|done|].
  change (packet_size (len (connect_body sample_connect))) with 40. done.
Qed.

Lemma serialize_sample_publish topic buf n :
  Forall (λ b, byte b ∧ b ≠ 0) (bytes_of topic) → len (bytes_of topic) ≤ 100 →
  113 ≤ n ≤ len buf →
  MQTTSerialize_publish buf n 0 0 0 0 (topicString topic) payload 9 =
    Ok (written buf (publish_packet (sample_publish topic))).
Proof.
  intros Hb Hl Hn. set (p := sample_publish topic).
  assert (Ha : publish_args p (topicString topic) payload).
  { split; [|done]. apply (of_cstring_denotes (bytes_of topic)); [done|]. unfold INT_MAX. lia. }
  assert (Hp : publish_wf p).
  { apply sample_publish_wf. split; [|lia]. eapply List.Forall_impl; [|exact Hb]. by intros ? []. }
  assert (El : len (publish_body p) = 11 + len (bytes_of topic))
    by (rewrite publish_body_len; cbn [p sample_publish pb_topic pb_payload pb_qos]; 
        change (len (bytes_of "mypayload"%string)) with 9; change (0 <? 0) with false; lia).
  apply (serialize_publish_room p _ payload buf n Hp Ha). rewrite El. unfold packet_size. ztests; lia.
Qed.

Lemma serialize_sample_subscribe buf :
  200 ≤ len buf →
  MQTTSerialize_subscribe buf 200 0 1 1 [topicString "substopic"] [0] =
    Ok (written buf sample_subscribe).
Proof.
  intros Hn. assert (Hw : subscribe_wf 0 1 [(bytes_of "substopic"%string, 0)])
    by (split; [by left|lia|repeat constructor; decide_by_vm|done]).
  rewrite (MQTTSerialize_subscribe_refines 0 1 [(bytes_of "substopic"%string, 0)]
    [topicString "substopic"] buf 200 Hw); [done| |done].
  constructor; [apply of_cstring_denotes; decide_by_vm|constructor].
Qed.

End Packets.

(** ** The programs *)

Section Programs.
Context `{CImpl} {W : Type} `{Socket.Sockets W} `{Process W} (o : locals).

(** [log] is the list of what the calls of write were given; nothing else
    changes it. *)
Class PacketLog (log : W → list (list Z)) : Prop :=
  { pl_write s p n : offers log (Socket.sk_write s p n)
      (λ _ l, ∃ bs, mem_read (Some p) n = Ok bs ∧ l = [bs]);
    pl_recv s n : quiet log (Socket.sk_recv s n) (λ _, True);
    pl_getaddrinfo p : quiet log (Socket.getaddrinfo p) (λ _, True);
    pl_socket f : quiet log (Socket.sk_socket f) (λ _, True);
    pl_connect s a n : quiet log (Socket.sk_connect s a n) (λ _, True);
    pl_timeout s n : quiet log (Socket.set_recv_timeout s n) (λ _, True);
    pl_shutdown s : quiet log (Socket.shutdown s) (λ _, True);
    pl_close s : quiet log (Socket.sk_close s) (λ _, True);
    pl_interrupted : quiet log interrupted (λ _, True);
    pl_signal s h : quiet log (set_signal s h) (λ _, True);
    pl_time : quiet log time (λ _, True);
    pl_printf f args : quiet log (printf f args) (λ _, True) }.

Context (log : W → list (list Z)) `{!PacketLog log}.

Definition log_t (t : Z * W) : list (list Z) := log t.2.
Definition log_p (s : globals * (Z * W)) : list (list Z) := log s.2.2.

Lemma offers_outside {A} (m : M W A) Q : offers log m Q → offers log_t (Socket.outside m) Q.
Proof.
  intros HQ [k w] a [k' w'] E. unfold Socket.outside in E. cbn [fst snd] in E.
  destruct (m w) as [[a1 w1]| |] eqn:Em; simplify_eq. by apply HQ.
Qed.

Lemma offers_tr {A} (m : M (Z * W) A) Q : offers log_t m Q → offers log_p (tr m) Q.
Proof.
  intros HQ [k w] a [k' w'] E. unfold tr in E. cbn [fst snd] in E.
  destruct (m w) as [[a1 w1]| |] eqn:Em; simplify_eq. by apply HQ.
Qed.

Lemma quiet_process {A} (m : M W A) : quiet log m (λ _, True) → quiet log_p (process sys m) (λ _, True).
Proof. intros. by apply offers_tr, offers_outside. Qed.

Lemma quiet_say format args : quiet log_p (say format args) (λ _, True).
Proof. apply quiet_process, pl_printf. Qed.

Lemma quiet_then {A B} (m : M (globals * (Z * W)) A) (f : A → M (globals * (Z * W)) B) Q :
  quiet log_p m (λ _, True) → (∀ a, offers log_p (f a) Q) → offers log_p (m ≫= f) Q.
Proof. intros Hm Hf. eapply offers_quiet; [exact Hm|]. intros a _. apply Hf. Qed.

Lemma quiet_start_ping_timer : quiet log_p (start_ping_timer sys) (λ _, True).
Proof. apply quiet_then; [apply quiet_process, pl_time|]. intros t. by apply quiet_modify. Qed.

Lemma quiet_time_to_ping : quiet log_p (time_to_ping sys) (λ _, True).
Proof.
  apply quiet_then; [apply quiet_process, pl_time|]. intros t.
  apply quiet_then; [apply quiet_gets|]. intros old. by apply offers_nothing_ret.
Qed.

Lemma quiet_wait_to_ping fuel : quiet log_p (wait_to_ping sys fuel) (λ _, True).
Proof.
  induction fuel as [|fuel IH]; [done|]. cbn [wait_to_ping].
  apply quiet_then; [apply quiet_time_to_ping|]. intros []; [by apply offers_nothing_ret|apply IH].
Qed.

Lemma quiet_stop_init : quiet log_p (stop_init sys) (λ _, True).
Proof. apply quiet_then; [|intros _]; apply quiet_process, pl_signal. Qed.

Lemma quiet_running : quiet log_p (running sys) (λ _, True).
Proof.
  apply quiet_then; [apply quiet_process, pl_interrupted|]. intros sig.
  apply quiet_then.
  - destruct sig; [|by apply offers_nothing_ret].
    apply quiet_then; [apply quiet_process, pl_signal|]. intros _. by apply quiet_modify.
  - intros _. apply quiet_then; [apply quiet_gets|]. intros n. by apply offers_nothing_ret.
Qed.

Lemma quiet_connack_accepts buf : quiet log_p (connack_accepts sys o buf) (λ _, True).
Proof.
  apply offers_lift. intros [[r sp] rc] _. destruct (_ || _); [|by apply offers_nothing_ret].
  apply quiet_then; [apply quiet_say|]. intros _. by apply offers_nothing_ret.
Qed.

Lemma quiet_suback_accepts buf : quiet log_p (suback_accepts sys o buf) (λ _, True).
Proof.
  apply offers_lift. intros [[[r id] n] granted] _. apply offers_lift. intros q _.
  destruct (negb _); [|by apply offers_nothing_ret].
  apply quiet_then; [apply quiet_say|]. intros _. by apply offers_nothing_ret.
Qed.

Lemma quiet_show_message buf : quiet log_p (show_message sys o buf) (λ _, True).
Proof. apply offers_lift. intros [r m] _. apply quiet_say. Qed.

Lemma quiet_getdata n : quiet log_t (Socket.transport_getdata n) (λ _, True).
Proof.
  eapply offers_quiet; [by apply (quiet_gets log_t)|]. intros s _. apply offers_outside, pl_recv.
Qed.

Lemma quiet_getdatanb s n : quiet log_t (Socket.transport_getdatanb s n) (λ _, True).
Proof.
  eapply offers_quiet; [apply offers_outside, pl_recv|]. intros [rc bs] _. by apply offers_nothing_ret.
Qed.

Lemma quiet_sample_read buf : quiet log_p (read buf) (λ r, length r.2 = length buf).
Proof. apply offers_tr, quiet_read, quiet_getdata. Qed.

Lemma quiet_sample_readnb s buf trp : quiet log_p (readnb s buf trp) (λ r, length r.1.2 = length buf).
Proof. apply offers_tr, quiet_readnb, quiet_getdatanb. Qed.

(** Sending what a serializer has written offers that packet. *)
Lemma offers_send {A} s bs buf (f : Z → M (globals * (Z * W)) A) Q :
  0 < len bs → (∀ n, offers log_p (f n) (λ a l, Q a (bs :: l))) →
  offers log_p (send s (written buf bs).2 (written buf bs).1 ≫= f) Q.
Proof.
  intros Hb Hf. eapply offers_bind; [apply offers_tr, offers_outside, pl_write|].
  intros n l (bs' & E & ->). cbn [written fst snd] in E.
  rewrite (mem_read_rest _ 0 _ bs (drop (length bs) buf)) in E; [|done|done|lia].
  injection E as <-. apply Hf.
Qed.

End Programs.
