(* ===== verification/SampleTalk.v ===== *)
(** * The conversations of the packet samples

    Each program of Samples.v offers its broker the packets of one
    conversation, in order, whatever the broker answers and whenever it is
    interrupted. *)

From S2P Require Import Prelude CSem Wire Packet Connect Publish Subscribe Stream Transport Samples SampleSpec.

(** Pings, then a disconnect if the program was stopped. *)
Definition ping_conversation (l : list (list Z)) : Prop :=
  ∃ n e, l = connect_packet sample_connect :: replicate n pingreq ++ e ∧ (e = [] ∨ e = [disconnect]).

(** A connect packet; with a subscription; and with readings and a disconnect after it. *)
Definition publish_conversation (l : list (list Z)) : Prop :=
  l = [connect_packet sample_connect] ∨
  l = [connect_packet sample_connect; sample_subscribe] ∨
  ∃ n, l = connect_packet sample_connect :: sample_subscribe ::
           replicate n (publish_packet (sample_publish "pubtopic")) ++ [disconnect].

(** The result of a program that has connected, and what it has sent. *)
Definition talks (Q : list (list Z) → Prop) (rc : Z) (l : list (list Z)) : Prop :=
  (rc < 0 ∧ l = []) ∨ (rc = 0 ∧ Q l).

Section Talk.
Context `{CImpl} {W : Type} `{Socket.Sockets W} `{Process W} (o : locals).
Context (log : W → list (list Z)) `{!PacketLog log} (Hbuf : len (l_buf o) = 200).

Abbreviation offers := (offers (log_p log)).
Abbreviation quiet := (quiet (log_p log)).

(** [offers] and [quiet] over the state of the programs, without repeating the log. *)
Lemma quiet_sys {A} (m : M W A) : SampleSpec.quiet log m (λ _, True) →
  ∀ {B} (f : A → M (globals * (Z * W)) B) Q,
  (∀ a, offers (f a) Q) → offers (process sys m ≫= f) Q.
Proof. intros Hm B f Q Hf. apply quiet_then; [|done]. by apply quiet_process. Qed.

Lemma quiet_outside {A} (m : M W A) : SampleSpec.quiet log m (λ _, True) →
  SampleSpec.quiet (log_t log) (Socket.outside m) (λ _, True).
Proof. apply offers_outside. Qed.

Lemma quiet_step {A B} (m : M (Z * W) A) (f : A → M (Z * W) B) Q :
  SampleSpec.quiet (log_t log) m (λ _, True) → (∀ a, SampleSpec.offers (log_t log) (f a) Q) →
  SampleSpec.offers (log_t log) (m ≫= f) Q.
Proof. intros Hm Hf. eapply offers_quiet; [exact Hm|]. intros a _. apply Hf. Qed.

Lemma quiet_transport_open p n :
  SampleSpec.quiet (log_t log) (Socket.transport_open p n) (λ _, True).
Proof.
  assert (Hset : ∀ k, SampleSpec.quiet (log_t log) (Socket.set_mysock k) (λ _, True))
    by (intros k; by apply quiet_modify).
  unfold Socket.transport_open. apply quiet_step; [apply Hset|]. intros _.
  apply offers_lift. intros c _. apply quiet_step; [apply quiet_outside, pl_getaddrinfo|].
  intros [rc infos]. apply quiet_step.
  { ztest; [|by apply offers_nothing_ret]. apply offers_lift. intros a _. by apply offers_nothing_ret. }
  intros [rc' found]. apply quiet_step.
  { destruct found as [[family a]|]; [|by apply offers_nothing_ret].
    apply quiet_step; [apply quiet_outside, pl_socket|]. intros s.
    apply quiet_step; [apply Hset|]. intros _.
    destruct (negb _); [|by apply offers_nothing_ret]. apply quiet_outside, pl_connect. }
  intros rc2. apply quiet_step; [apply quiet_gets|]. intros s.
  ztest; [by apply offers_nothing_ret|]. apply quiet_step; [apply quiet_outside, pl_timeout|]. intros _.
  by apply offers_nothing_ret.
Qed.

Lemma quiet_transport_close s :
  SampleSpec.quiet (log_t log) (Socket.transport_close s) (λ _, True).
Proof.
  unfold Socket.transport_close. apply quiet_step; [apply quiet_outside, pl_shutdown|]. intros _.
  apply quiet_step; [apply quiet_outside, pl_recv|]. intros _. apply quiet_outside, pl_close.
Qed.

(** What the programs have around their session. *)
Lemma offers_program session argv Q :
  (∀ s, offers (session s) (λ _ l, Q l)) →
  offers (program session argv) (talks Q).
Proof.
  intros Hs. apply offers_lift. intros [host port] _.
  apply quiet_then; [apply offers_tr, quiet_transport_open|]. intros mysock.
  ztest; [apply offers_ret; by left|].
  apply quiet_then; [by apply quiet_say|]. intros _.
  eapply offers_bind; [apply Hs|]. intros u l HQ.
  apply quiet_then; [apply offers_tr, quiet_transport_close|]. intros x.
  apply offers_ret. right. by rewrite app_nil_r.
Qed.

(** ** The packets *)

(** A serializer, and the send that follows. *)
Lemma offers_packet {A} s m buf bs (k : Z → list Z → M (globals * (Z * W)) A) Q :
  m = Ok (written buf bs) → 0 < len bs ≤ len buf → len buf = 200 →
  (∀ n buf', len buf' = 200 → offers (k n buf') (λ a l, Q a (bs :: l))) →
  offers ('(len, buf) ← lift m; n ← send s buf len; k n buf) Q.
Proof.
  intros -> Hbs Hb Hk. apply offers_lift. intros a [= <-].
  apply (offers_send log s bs buf); [lia|]. intros n. apply Hk. cbn [snd written].
  rewrite length_app, length_drop. lia.
Qed.

Lemma offers_send_connect s buf :
  len buf = 200 →
  offers (send_connect s connect_data buf)
    (λ buf' l, len buf' = 200 ∧ l = [connect_packet sample_connect]).
Proof.
  intros Hb. eapply (offers_packet s _ buf (connect_packet sample_connect));
    [apply serialize_sample_connect; unfold buflen; lia|by rewrite Hb|done|].
  intros _ buf' Hb'. by apply offers_ret.
Qed.

Lemma offers_send_subscribe s buf :
  len buf = 200 →
  offers (send_subscribe s buf) (λ buf' l, len buf' = 200 ∧ l = [sample_subscribe]).
Proof.
  intros Hb. eapply (offers_packet s _ buf sample_subscribe);
    [apply serialize_sample_subscribe; lia|by rewrite Hb|done|].
  intros _ buf' Hb'. by apply offers_ret.
Qed.

Lemma offers_send_disconnect s buf :
  len buf = 200 → offers (send_disconnect s buf) (λ _ l, l = [disconnect]).
Proof.
  intros Hb. apply quiet_then; [by apply quiet_say|]. intros _.
  eapply (offers_packet s _ buf disconnect); [|by rewrite Hb|done|].
  - unfold MQTTSerialize_disconnect. rewrite MQTTSerialize_zero_correct by (unfold buflen; lia).
    done.
  - intros _ buf' Hb'. by apply offers_ret.
Qed.

Lemma offers_ping {A} s buf (k : Z → list Z → M (globals * (Z * W)) A) Q :
  len buf = 200 →
  (∀ n buf', len buf' = 200 → offers (k n buf') (λ a l, Q a (pingreq :: l))) →
  offers ('(len, buf) ← lift (MQTTSerialize_pingreq buf buflen); n ← send s buf len; k n buf) Q.
Proof.
  intros Hb Hk. eapply (offers_packet s _ buf pingreq); [|by rewrite Hb|done|exact Hk].
  unfold MQTTSerialize_pingreq. by rewrite MQTTSerialize_zero_correct by (unfold buflen; lia).
Qed.

Lemma offers_message {A} s buf (k : Z → list Z → M (globals * (Z * W)) A) Q :
  len buf = 200 →
  (∀ n buf', len buf' = 200 →
     offers (k n buf') (λ a l, Q a (publish_packet (sample_publish "pubtopic") :: l))) →
  offers ('(len, buf) ← serialize_message buf; n ← send s buf len; k n buf) Q.
Proof.
  intros Hb Hk. unfold serialize_message. apply offers_assoc, offers_lift. intros n En.
  assert (n = 9) as -> by (vm_compute in En; congruence).
  eapply (offers_packet s _ buf (publish_packet (sample_publish "pubtopic")));
    [|by rewrite Hb|done|exact Hk].
  apply (serialize_sample_publish "pubtopic"%string); [decide_by_vm|done|unfold buflen; lia].
Qed.

(** ** The waits *)

Lemma quiet_wait_connack buf :
  len buf = 200 → quiet (wait_connack o buf) (λ r, len r.2 = 200).
Proof.
  intros Hb. eapply offers_quiet; [by apply quiet_sample_read|]. intros [type b] E. cbn in E.
  ztest; [|apply offers_nothing_ret; cbn; lia].
  apply quiet_then; [by apply quiet_connack_accepts|]. intros ok. apply offers_nothing_ret. cbn. lia.
Qed.

Lemma quiet_await s type accepts fuel buf trp :
  (∀ b, quiet (accepts b) (λ _, True)) → len buf = 200 →
  quiet (await (Socket.transport_getdatanb s) type accepts fuel buf trp) (λ r, len r.1.2 = 200).
Proof.
  intros Ha. revert buf trp. induction fuel as [|fuel IH]; intros buf trp Hb; [done|].
  cbn [await]. eapply offers_quiet; [by apply quiet_sample_readnb|]. intros [[frc b] trp'] E.
  cbn in E. ztest.
  - apply quiet_then; [apply Ha|]. intros ok. apply offers_nothing_ret. cbn. lia.
  - ztest; [apply offers_nothing_ret; cbn; lia|]. apply IH. lia.
Qed.

Lemma quiet_wait_suback buf :
  len buf = 200 → quiet (Pub0Sub1.wait_suback o buf) (λ r, len r.2 = 200).
Proof.
  intros Hb. eapply offers_quiet; [by apply quiet_sample_read|]. intros [type b] E. cbn in E.
  ztest; [|apply offers_nothing_ret; cbn; lia].
  apply quiet_then; [by apply quiet_suback_accepts|]. intros ok. apply offers_nothing_ret. cbn. lia.
Qed.

(** ** The loops *)

Lemma offers_ping_loop fuel s buf :
  len buf = 200 →
  offers (Ping.loop fuel s buf) (λ r l, len r.2 = 200 ∧ ∃ n, l = replicate n pingreq).
Proof.
  revert buf. induction fuel as [|fuel IH]; intros buf Hb; [done|]. cbn [Ping.loop].
  apply quiet_then; [by apply quiet_running|]. intros [];
    [|by apply offers_ret; split; [|exists 0%nat]].
  apply quiet_then; [by apply quiet_wait_to_ping|]. intros _.
  apply offers_ping; [done|]. intros n b Hn. apply quiet_then; [by apply quiet_say|]. intros _.
  eapply offers_quiet; [by apply quiet_sample_read|]. intros [type b'] E. cbn in E. ztest.
  - apply quiet_then; [by apply quiet_say|]. intros _.
    apply quiet_then; [by apply quiet_start_ping_timer|]. intros _.
    eapply offers_weaken; [apply IH; lia|]. intros r l [Hr [m ->]]. split; [done|]. by exists (S m).
  - apply quiet_then; [by apply quiet_say|]. intros _.
    apply offers_ret. split; [cbn; lia|]. by exists 1%nat.
Qed.

Lemma offers_ping_nb_loop fuel s state buf trp :
  len buf = 200 →
  offers (PingNb.loop fuel s state buf trp)
    (λ r l, len r.2 = 200 ∧ ∃ n, l = replicate n pingreq).
Proof.
  revert state buf trp. induction fuel as [|fuel IH]; intros state buf trp Hb; [done|].
  cbn [PingNb.loop]. apply quiet_then; [by apply quiet_running|]. intros [];
    [|by apply offers_ret; split; [|exists 0%nat]].
  destruct state.
  - apply quiet_then; [by apply quiet_time_to_ping|]. intros []; [|by apply IH].
    apply offers_ping; [done|]. intros n b Hn.
    apply quiet_then; [by apply quiet_say|]. intros _.
    eapply offers_weaken; [by apply IH|]. intros r l [Hr [m ->]]. split; [done|]. by exists (S m).
  - eapply offers_quiet; [by apply quiet_sample_readnb|]. intros [[rc b] trp'] E. cbn in E. ztest.
    + apply quiet_then; [by apply quiet_say|]. intros _.
      apply quiet_then; [by apply quiet_start_ping_timer|]. intros _. apply IH. lia.
    + ztest; [|apply IH; lia]. apply quiet_then; [by apply quiet_say|]. intros _.
      apply offers_ret. split; [cbn; lia|]. by exists 0%nat.
Qed.

Abbreviation reading := (publish_packet (sample_publish "pubtopic")).

Lemma offers_pub_loop fuel s buf :
  len buf = 200 →
  offers (Pub0Sub1.loop o fuel s buf) (λ b l, len b = 200 ∧ ∃ n, l = replicate n reading).
Proof.
  revert buf. induction fuel as [|fuel IH]; intros buf Hb; [done|]. cbn [Pub0Sub1.loop].
  apply quiet_then; [by apply quiet_running|]. intros [];
    [|by apply offers_ret; split; [|exists 0%nat]].
  eapply offers_quiet; [by apply quiet_sample_read|]. intros [type b] E. cbn in E.
  apply quiet_then; [ztest; [by apply quiet_show_message|by apply offers_nothing_ret]|]. intros _.
  apply quiet_then; [by apply quiet_say|]. intros _.
  apply offers_message; [lia|]. intros n b' Hn.
  eapply offers_weaken; [by apply IH|]. intros r l [Hr [m ->]]. split; [done|]. by exists (S m).
Qed.

Lemma offers_pub_nb_loop fuel s buf trp :
  len buf = 200 →
  offers (Pub0Sub1Nb.loop o fuel s buf trp) (λ b l, len b = 200 ∧ ∃ n, l = replicate n reading).
Proof.
  revert buf trp. induction fuel as [|fuel IH]; intros buf trp Hb; [done|].
  cbn [Pub0Sub1Nb.loop]. apply quiet_then; [by apply quiet_running|]. intros [];
    [|by apply offers_ret; split; [|exists 0%nat]].
  eapply offers_quiet; [by apply quiet_sample_readnb|]. intros [[type b] trp'] E. cbn in E.
  ztest; [|apply IH; lia].
  apply quiet_then; [by apply quiet_show_message|]. intros _.
  apply quiet_then; [by apply quiet_say|]. intros _.
  apply offers_message; [lia|]. intros n b' Hn.
  eapply offers_weaken; [by apply IH|]. intros r l [Hr [m ->]]. split; [done|]. by exists (S m).
Qed.

(** ** The programs *)

(** The end of the two ping programs. *)
Lemma offers_pings m s :
  offers m (λ r l, len r.2 = 200 ∧ ∃ n, l = replicate n pingreq) →
  offers ('(stopped, buf) ← m; if stopped : bool then send_disconnect s buf else mret tt)
    (λ _ l, ping_conversation (connect_packet sample_connect :: l)).
Proof.
  intros Hm. eapply offers_bind; [exact Hm|]. intros [stopped b] l [Hb [n ->]]. destruct stopped.
  - eapply offers_weaken; [by apply offers_send_disconnect|]. intros _ l ->.
    exists n, [disconnect]. split; [done|by right].
  - apply offers_ret. exists n, []. split; [done|by left].
Qed.

(** The end of the two publishing programs. *)
Lemma offers_readings m s :
  offers m (λ b l, len b = 200 ∧ ∃ n, l = replicate n reading) →
  offers (buf ← m; send_disconnect s buf)
    (λ _ l, publish_conversation (connect_packet sample_connect :: sample_subscribe :: l)).
Proof.
  intros Hm. eapply offers_bind; [exact Hm|]. intros b l [Hb [n ->]].
  eapply offers_weaken; [by apply offers_send_disconnect|]. intros _ l ->.
  right. right. by exists n.
Qed.

Lemma connect_only : ping_conversation [connect_packet sample_connect].
Proof. exists 0%nat, []. split; [done|by left]. Qed.

(** Ping.c sends its broker a connect packet, then pings, then, if it was stopped, a
    disconnect; nothing when it could not connect. *)
Theorem ping_talks fuel argv :
  offers (Ping.main o fuel argv) (talks ping_conversation).
Proof.
  apply quiet_then; [by apply quiet_stop_init|]. intros _. apply offers_program. intros s.
  eapply offers_bind; [by apply offers_send_connect|]. intros b l [Hb ->].
  apply quiet_then; [by apply quiet_say|]. intros _.
  eapply offers_quiet; [by apply quiet_wait_connack|]. intros [[] b1] Hb1; cbn in Hb1;
    [|apply offers_ret, connect_only].
  apply quiet_then; [by apply quiet_say|]. intros _.
  apply quiet_then; [by apply quiet_start_ping_timer|]. intros _.
  by apply offers_pings, offers_ping_loop.
Qed.

(** So does ping_nb.c, in its states. *)
Theorem ping_nb_talks fuel junk argv :
  offers (PingNb.main o fuel junk argv) (talks ping_conversation).
Proof.
  apply quiet_then; [by apply quiet_stop_init|]. intros _. apply offers_program. intros s.
  eapply offers_bind; [by apply offers_send_connect|]. intros b l [Hb ->].
  apply quiet_then; [by apply quiet_say|]. intros _.
  eapply offers_quiet; [apply quiet_await; [intros; by apply quiet_connack_accepts|done]|].
  intros [[[] b1] trp] Hb1; cbn in Hb1; [|apply offers_ret, connect_only].
  apply quiet_then; [by apply quiet_say|]. intros _.
  apply quiet_then; [by apply quiet_start_ping_timer|]. intros _.
  by apply offers_pings, offers_ping_nb_loop.
Qed.

(** Pub0sub1.c offers its broker a connect packet, then at most one subscription, then
    readings and one disconnect, and nothing else, whatever the broker answers and whenever it
    is interrupted; it returns 0 after that, and a negative number when it could not connect. *)
Theorem pub0sub1_talks fuel argv :
  offers (Pub0Sub1.main o fuel argv) (talks publish_conversation).
Proof.
  apply quiet_then; [by apply quiet_stop_init|]. intros _. apply offers_program. intros s.
  eapply offers_bind; [by apply offers_send_connect|]. intros b l [Hb ->].
  eapply offers_quiet; [by apply quiet_wait_connack|]. intros [[] b1] Hb1; cbn in Hb1;
    [|apply offers_ret; by left].
  eapply offers_bind; [by apply offers_send_subscribe|]. intros b2 l [Hb2 ->].
  eapply offers_quiet; [by apply quiet_wait_suback|]. intros [[] b3] Hb3; cbn in Hb3;
    [|apply offers_ret; right; by left].
  by apply offers_readings, offers_pub_loop.
Qed.

Theorem pub0sub1_nb_talks fuel junk argv :
  offers (Pub0Sub1Nb.main o fuel junk argv) (talks publish_conversation).
Proof.
  apply quiet_then; [by apply quiet_stop_init|]. intros _. apply offers_program. intros s.
  eapply offers_bind; [by apply offers_send_connect|]. intros b l [Hb ->].
  eapply offers_quiet; [by apply quiet_wait_connack|]. intros [[] b1] Hb1; cbn in Hb1;
    [|apply offers_ret; by left].
  eapply offers_bind; [by apply offers_send_subscribe|]. intros b2 l [Hb2 ->].
  eapply offers_quiet; [apply quiet_await; [intros; by apply quiet_suback_accepts|done]|].
  intros [[[] b3] trp] Hb3; cbn in Hb3; [|apply offers_ret; right; by left].
  by apply offers_readings, offers_pub_nb_loop.
Qed.

(** *** qos0pub.c *)

Definition qos0pub_message : list Z :=
  connect_packet sample_connect ++ publish_packet (sample_publish "mytopic") ++ disconnect.

(** A packet serialized after others. *)
Lemma append_written pre tail bs serialize :
  len pre + len tail = 200 → len bs ≤ len tail → serialize tail (len tail) = Ok (written tail bs) →
  Qos0Pub.append (len pre) (pre ++ tail) serialize =
    Ok (len (pre ++ bs), (pre ++ bs) ++ drop (length bs) tail).
Proof.
  intros Hl Hb E. unfold Qos0Pub.append, buflen.
  rewrite (bind_Ok _ _ _ (iadd_Ok 200 (- len pre) ltac:(unfold INT_MIN, INT_MAX; lia))).
  rewrite drop_len_app by done. replace (200 + - len pre) with (len tail) by lia.
  rewrite (bind_Ok _ _ _ E). cbn [written].
  rewrite (bind_Ok _ _ _ (iadd_Ok (len pre) (len bs) ltac:(unfold INT_MIN, INT_MAX; lia))).
  by rewrite take_len_app, len_app, app_assoc by done.
Qed.

(** Qos0pub.c sends its three packets in one call of write, and reports whether write took
    all of them. *)
Theorem qos0pub_sends g k s w r w1 w2 :
  (∀ p, mem_read (Some p) 62 = Ok qos0pub_message → Socket.sk_write s p 62 w = Ok (r, w1)) →
  printf (if r =? 62 then "Successfully published\n" else "Publish failed\n") [] w1 = Ok (tt, w2) →
  Qos0Pub.session o s (g, (k, w)) = Ok (tt, (g, (k, w2))).
Proof.
  intros Hw Hp. unfold Qos0Pub.session.
  rewrite (run_bind _ _ _ 9 (g, (k, w))) by done.
  change (ConnectData _ _ _ _ _ _ _ _ _ _) with connect_data.
  rewrite (run_bind _ _ _ _ _ (run_lift _ _ _ (serialize_sample_connect (l_buf o) buflen
    ltac:(unfold buflen; lia)))).
  set (cp := connect_packet sample_connect). set (t1 := drop (length cp) (l_buf o)).
  assert (L1 : len t1 = 160) by (unfold t1; rewrite length_drop; change (length cp) with 40%nat; lia).
  cbn [written].
  rewrite (run_bind _ _ _ _ _ (run_lift _ _ _ (append_written cp t1
    (publish_packet (sample_publish "mytopic")) _ ltac:(change (len cp) with 40; lia) ltac:(done || (rewrite L1; done))
    (serialize_sample_publish "mytopic"%string t1 (len t1) ltac:(decide_by_vm) ltac:(done) ltac:(lia))))).
  set (pp := publish_packet (sample_publish "mytopic")). set (t2 := drop (length pp) t1).
  assert (L2 : len t2 = 140) by (unfold t2; rewrite length_drop; change (length pp) with 20%nat; lia).
  assert (E3 : MQTTSerialize_disconnect t2 (len t2) = Ok (written t2 disconnect)).
  { unfold MQTTSerialize_disconnect. rewrite MQTTSerialize_zero_correct by lia. by rewrite L2. }
  rewrite (run_bind _ _ _ _ _ (run_lift _ _ _ (append_written (cp ++ pp) t2 disconnect _
    ltac:(change (len (cp ++ pp)) with 60; lia) ltac:(rewrite L2; done) E3))).
  rewrite <- app_assoc. change (cp ++ pp ++ disconnect) with qos0pub_message.
  change (len qos0pub_message) with 62.
  assert (Er : send s (qos0pub_message ++ drop (length disconnect) t2) 62 (g, (k, w)) = Ok (r, (g, (k, w1)))).
  { unfold send, tr, Socket.transport_sendPacketBuffer, Socket.outside. cbn [fst snd].
    rewrite Hw; [done|]. by apply (mem_read_rest _ 0 62 _ (drop (length disconnect) t2)). }
  rewrite (run_bind _ _ _ _ _ Er).
  destruct (r =? 62); unfold say, print, process, tr, sys, Socket.outside; cbn [fst snd]; by rewrite Hp.
Qed.

End Talk.

(** ** Where the programs go wrong *)

Section Faults.
Context `{CImpl} {W : Type} `{Socket.Sockets W} `{Process W} (o : locals).

(** A connection that is closed or broken: recv gives no byte, and 0 or -1. *)
Definition dead_line (s : Z) (dead : W → Prop) : Prop :=
  ∀ w n, dead w → ∃ rc w', Socket.sk_recv s n w = Ok ((rc, []), w') ∧ (rc = 0 ∨ rc = -1) ∧ dead w'.

(** The transport takes the end of the connection for a packet that has not arrived yet: the
    non-blocking programs wait for their CONNACK or SUBACK for ever. *)
Theorem await_hangs s dead type accepts fuel buf junk g k w :
  dead_line s dead → type ≠ 0 → dead w →
  await (Socket.transport_getdatanb s) type accepts fuel buf (new_transport junk) (g, (k, w)) = NoFuel.
Proof.
  intros Hs Ht. revert w. induction fuel as [|fuel IH]; intros w Hd; [done|]. cbn [await].
  destruct (Hs w 1 Hd) as (rc & w' & E & Hrc & Hd').
  rewrite (run_bind _ _ _ (0, buf, new_transport junk) (g, (k, w'))).
  - ztest. by apply IH.
  - unfold tr. cbn [fst snd]. unfold MQTTPacket_readnb, new_transport, set_state.
    cbn [t_state]. cbn [Z.eqb]. unfold readnb_header.
    rewrite (run_bind _ _ _ (0, []) (k, w')); [done|].
    unfold Socket.transport_getdatanb.
    rewrite (run_bind _ _ _ (rc, []) (k, w')) by (unfold Socket.outside; cbn [fst snd]; by rewrite E).
    by destruct Hrc as [-> | ->].
Qed.

(** A SUBACK without a return code is judged by a variable that was never assigned. *)
Theorem suback_without_code id junk s :
  0 ≤ id < 65536 → l_granted_qos o = 0 →
  suback_accepts sys o (suback_packet id [] ++ junk) s = Ok (true, s).
Proof.
  intros Hi Hq. unfold suback_accepts.
  rewrite (run_bind _ _ _ _ _ (run_lift _ _ s
    (MQTTDeserialize_suback_roundtrip (l_submsgid o) 1 (l_subcount o) [l_granted_qos o] id [] junk
       buflen Hi ltac:(done) ltac:(done) ltac:(done)))).
  cbn. by rewrite Hq.
Qed.

(** One with two is stored past that variable. *)
Theorem suback_two_codes id a b junk s :
  0 ≤ id < 65536 →
  suback_accepts sys o (suback_packet id [a; b] ++ junk) s = UB OutOfBounds.
Proof.
  intros Hi. unfold suback_accepts. apply run_bind_UB. unfold lift.
  by rewrite (MQTTDeserialize_suback_overflow (l_submsgid o) 1 (l_subcount o) [l_granted_qos o] id
    [a; b] junk buflen Hi).
Qed.

End Faults.

(** ** A broker *)

(** What the broker has sent (recv gives -1 when its second is over), the packets that were
    sent to it, the number of times the
    program still looks at [toStop] before it is interrupted, the clock, and what was printed. *)
Record broker : Type := Broker
  { b_answers : list Z; b_log : list (list Z); b_polls : nat; b_time : Z; b_out : list String.string }.

#[local] Existing Instance x86_64.

#[local] Instance broker_sockets : Socket.Sockets broker :=
  {| Socket.address := unit; Socket.AF_INET := 2; Socket.AF_INET6 := 10;
     Socket.sk_write := λ _ p n b,
       bs ← mem_read (Some p) n;
       Ok (n, Broker (b_answers b) (b_log b ++ [bs]) (b_polls b) (b_time b) (b_out b));
     Socket.sk_recv := λ _ n b,
       let bs := take (Z.to_nat n) (b_answers b) in
       Ok ((if bool_decide (bs = []) && (0 <? n) then -1 else len bs, bs), Broker (drop (Z.to_nat n) (b_answers b)) (b_log b) (b_polls b) (b_time b) (b_out b));
     Socket.getaddrinfo := λ _, mret (0, [(2, tt)]); Socket.sk_socket := λ _, mret 3;
     Socket.sk_connect := λ _ _ _, mret 0; Socket.set_recv_timeout := λ _ _, mret tt;
     Socket.shutdown := λ _, mret 0; Socket.sk_close := λ _, mret 0 |}.

#[local] Instance broker_process : Process broker :=
  {| SIGINT := 2; SIGTERM := 15;
     interrupted := λ b,
       Ok (match b_polls b with O => Some 2 | S _ => None end,
           Broker (b_answers b) (b_log b) (pred (b_polls b)) (b_time b) (b_out b));
     set_signal := λ _ _, mret tt;
     time := λ b, Ok (b_time b, Broker (b_answers b) (b_log b) (b_polls b) (b_time b + 1) (b_out b));
     printf := λ f _ b, Ok (tt, Broker (b_answers b) (b_log b) (b_polls b) (b_time b) (b_out b ++ [f])) |}.

#[local] Instance broker_log : PacketLog b_log.
Proof.
  split; try (intros; intros ? ? ? [= <- <-]; exists []; by rewrite app_nil_r).
  intros s p n w a w' E. cbn -[mem_read] in E.
  destruct (mem_read (Some p) n) as [bs| |] eqn:Em; cbn in E; simplify_eq. by exists [bs]; eauto.
Qed.

Definition sample_locals : locals :=
  Locals (replicate 200 7) 9 9 9 9 9
    (PublishOut 9 9 9 9 MQTTString_initializer None 9).
Definition start (answers : list Z) (polls : nat) : globals * (Z * broker) :=
  (Globals 0 0, (0, Broker answers [] polls 1000 [])).

(** Two pings and a stop. *)
Example ping_session :
  match Ping.main sample_locals 30 [] (start ([32; 2; 0; 0] ++ [208; 0; 208; 0]) 2) with
  | Ok (rc, (_, (_, b))) => rc = 0 ∧ b_log b = [connect_packet sample_connect; pingreq; pingreq; disconnect]
  | _ => False end.
Proof. vm_compute. by split. Qed.

(** A broker that accepts the connection and the subscription, and publishes "hi". *)
Example publish_session :
  match Pub0Sub1.main sample_locals 30 [] (start ([32; 2; 0; 0] ++ [144; 3; 0; 1; 0] ++ [48; 5; 0; 1; 97; 104; 105]) 1) with
  | Ok (rc, (_, (_, b))) => rc = 0 ∧ b_log b = [connect_packet sample_connect; sample_subscribe;
      publish_packet (sample_publish "pubtopic"); disconnect] ∧
      b_out b = ["Sending to hostname %s port %d\n"; "message arrived %.*s\n"; "publishing reading\n"; "disconnecting\n"]%string
  | _ => False end.
Proof. vm_compute. by repeat split. Qed.

(** One that refuses the connection. *)
Example refused_session :
  match PingNb.main sample_locals 30 (Transport 9 9 9 9) [] (start [32; 2; 0; 5] 1) with
  | Ok (rc, (_, (_, b))) => rc = 0 ∧ b_log b = [connect_packet sample_connect] ∧
      b_out b = ["Sending to hostname %s port %d\n"; "Sent MQTT connect\n"; "Unable to connect, return code %d\n"]%string
  | _ => False end.
Proof. vm_compute. by repeat split. Qed.

Example qos0pub_session :
  match Qos0Pub.main sample_locals [] (start [] 0) with
  | Ok (rc, (_, (_, b))) => rc = 0 ∧ b_log b = [qos0pub_message]
  | _ => False end.
Proof. vm_compute. by split. Qed.

Lemma ping_talks_witness :
  len (l_buf sample_locals) = 200 ∧
  offers (log_p b_log) (Ping.main sample_locals 30 []) (talks ping_conversation).
Proof. split; [done|]. exact (ping_talks sample_locals b_log eq_refl 30 []). Defined.

Lemma pub0sub1_talks_witness :
  offers (log_p b_log) (Pub0Sub1.main sample_locals 30 []) (talks publish_conversation).
Proof. exact (pub0sub1_talks sample_locals b_log eq_refl 30 []). Defined.

Lemma qos0pub_sends_witness :
  Qos0Pub.session sample_locals 3 (start [] 0) =
    Ok (tt, (Globals 0 0, (0, Broker [] [qos0pub_message] 0 1000 ["Successfully published\n"%string]))).
Proof.
  apply (qos0pub_sends sample_locals eq_refl (Globals 0 0) 0 3 (Broker [] [] 0 1000 [])
    62 (Broker [] [qos0pub_message] 0 1000 [])); [|done].
  intros p E. cbn -[mem_read]. by rewrite E.
Defined.

(** The broker never answers. *)
Lemma await_hangs_witness :
  await (Socket.transport_getdatanb 3) CONNACK (connack_accepts sys sample_locals) 50 (replicate 200 0)
    (new_transport (Transport 9 9 9 9)) (start [] 4) = NoFuel.
Proof.
  apply (await_hangs 3 (λ b, b_answers b = [])); [|done..].
  intros b n E. exists (if 0 <? n then -1 else 0). eexists. cbn. rewrite E, take_nil, drop_nil.
  split; [done|]. split; [destruct (0 <? n); [by right|by left]|done].
Defined.

Lemma suback_without_code_witness :
  suback_accepts sys (Locals [] 0 0 0 0 0 (l_publish sample_locals)) (suback_packet 1 []) (start [] 0) =
    Ok (true, start [] 0).
Proof.
  rewrite <- (app_nil_r (suback_packet 1 [])).
  by apply (suback_without_code (Locals [] 0 0 0 0 0 (l_publish sample_locals))).
Defined.

Lemma suback_two_codes_witness :
  suback_accepts sys sample_locals (suback_packet 1 [0; 0]) (start [] 0) = UB OutOfBounds.
Proof. by apply (suback_two_codes sample_locals 1 0 0 []). Defined.
