(* ===== verification/SampleLive.v ===== *)
(** * A publishing session that ends

    Over a broker that accepts the connection and the subscription, and whatever
    it publishes then, pub0sub1.c runs until it is interrupted and returns, having
    published once per look at [toStop]. *)

From S2P Require Import Prelude CSem Wire Packet Connect Publish Subscribe Stream FreeRTOS Transport Samples SampleSpec SampleTalk.

Section Live.
Context `{CImpl} {W : Type} `{Socket.Sockets W} `{Process W} (o : locals).

(** The system, while nothing fails. [st w n bs l]: the program can look at [toStop] [n] times
    before it is interrupted, the broker has sent [bs], which has not been read, and [l] has been
    written. A socket that blocks takes all that it is given, and recv gives as many bytes as it
    is asked for when they are there; when there are none its second passes, and it gives -1. *)
Class Obliging (st : W → nat → list Z → list (list Z) → Prop) : Prop :=
  { ob_write w n bs l s p k x : st w n bs l → mem_read (Some p) k = Ok x →
      total (Socket.sk_write s p k) w (λ r w', r = k ∧ st w' n bs (l ++ [x]));
    ob_recv w n bs l s k : st w n bs l → 0 < k ≤ len bs →
      total (Socket.sk_recv s k) w (λ r w', r = (k, take (Z.to_nat k) bs) ∧
        st w' n (drop (Z.to_nat k) bs) l);
    ob_silence w n l s k : st w n [] l → 0 < k →
      total (Socket.sk_recv s k) w (λ r w', r = (-1, []) ∧ st w' n [] l);
    ob_drain w n bs l s : st w n bs l → total (Socket.sk_recv s 0) w (λ _ w', st w' n bs l);
    ob_getaddrinfo w n bs l p : st w n bs l →
      total (Socket.getaddrinfo p) w (λ r w', (∃ a, r = (0, [(Socket.AF_INET, a)])) ∧ st w' n bs l);
    ob_socket w n bs l f : st w n bs l → total (Socket.sk_socket f) w (λ s w', 0 ≤ s ∧ st w' n bs l);
    ob_connect w n bs l s a p : st w n bs l → total (Socket.sk_connect s a p) w (λ rc w', rc = 0 ∧ st w' n bs l);
    ob_timeout w n bs l s t : st w n bs l → total (Socket.set_recv_timeout s t) w (λ _ w', st w' n bs l);
    ob_shutdown w n bs l s : st w n bs l → total (Socket.shutdown s) w (λ _ w', st w' n bs l);
    ob_close w n bs l s : st w n bs l → total (Socket.sk_close s) w (λ _ w', st w' n bs l);
    ob_signal w n bs l s h : st w n bs l → total (set_signal s h) w (λ _ w', st w' n bs l);
    ob_printf w n bs l f args : st w n bs l → total (printf f args) w (λ _ w', st w' n bs l);
    ob_quiet w n bs l : st w (S n) bs l → total interrupted w (λ r w', r = None ∧ st w' n bs l);
    ob_interrupt w bs l : st w 0%nat bs l → total interrupted w (λ r w', r ≠ None ∧ st w' 0%nat bs l) }.

Context (st : W → nat → list Z → list (list Z) → Prop) `{!Obliging st}.

(** The state of a program: what [toStop] is, and the world. *)
Definition at_st (s : globals * (Z * W)) (stop : Z) (n : nat) (bs : list Z) (l : list (list Z)) : Prop :=
  toStop s.1 = stop ∧ st s.2.2 n bs l.

Lemma total_outside {A} (m : M W A) k w Q :
  total m w Q → total (Socket.outside m) (k, w) (λ a t, t.1 = k ∧ Q a t.2).
Proof. intros (a & w' & E & HQ). exists a, (k, w'). unfold Socket.outside. cbn. by rewrite E. Qed.

Lemma total_tr {A} (m : M (Z * W) A) g t Q :
  total m t Q → total (tr m) (g, t) (λ a s, s.1 = g ∧ Q a s.2).
Proof. intros (a & t' & E & HQ). exists a, (g, t'). unfold tr. cbn. by rewrite E. Qed.

Lemma total_process {A B} (m : M W A) (f : A → M (globals * (Z * W)) B) s R Q :
  total m s.2.2 R →
  (∀ a w, R a w → total (f a) (s.1, (s.2.1, w)) Q) → total (process sys m ≫= f) s Q.
Proof.
  destruct s as [g [k w]]. intros (a & w' & E & HR) HQ.
  eapply total_bind; [apply total_tr, total_outside; by exists a, w'|].
  intros a' [g' [k' w'']] (Eg & Ek & HR'). cbn in *. subst. by apply HQ.
Qed.

(** ** The transport *)

Lemma total_out {A B} (m : M W A) (f : A → M (Z * W) B) k w R Q :
  total m w R → (∀ a w', R a w' → total (f a) (k, w') Q) → total (Socket.outside m ≫= f) (k, w) Q.
Proof.
  intros HR HQ. eapply total_bind; [by apply total_outside|].
  intros a [k' w'] [Ek Ha]. cbn in *. subst. by apply HQ.
Qed.

Lemma total_open p c port k w n bs l :
  load (obj p) (off p) = Ok c → st w n bs l →
  total (Socket.transport_open p port) (k, w) (λ r s', 0 ≤ r ∧ s'.1 = r ∧ st s'.2 n bs l).
Proof.
  intros Ec Hs. unfold Socket.transport_open.
  apply (total_run _ _ _ tt (-1, w)); [done|]. eapply total_lift; [exact Ec|].
  eapply total_out; [by apply ob_getaddrinfo|]. intros r w1 [[a ->] Hs1].
  apply (total_run _ _ _ (0, Some (Socket.AF_INET, a)) (-1, w1)).
  { cbn [Z.eqb]. unfold Socket.chosen. cbn [Socket.prefer_ip4 fst]. rewrite Z.eqb_refl.
    rewrite run_bind_lift_Ok. cbn [fst]. by rewrite Z.eqb_refl, orb_true_r. }
  assert (Hc : total (s0 ← Socket.outside (Socket.sk_socket Socket.AF_INET);
             Socket.set_mysock s0 ;;
             (if negb (s0 =? -1) then Socket.outside (Socket.sk_connect s0 a (FreeRTOS.htons port))
              else mret 0)) (-1, w1)
     (λ _ s', 0 ≤ s'.1 ∧ st s'.2 n bs l)).
  { eapply total_out; [by apply ob_socket|]. intros s w2 [H2 Hs2].
    apply (total_run _ _ _ tt (s, w2)); [done|]. ztest. cbn [negb].
    eapply total_weaken; [eapply total_outside, ob_connect, Hs2|].
    intros rc [k' w3] [Ek [_ Hs3]]. cbn in *. by subst. }
  eapply total_bind; [exact Hc|]. intros rc [s w3] [H3 Hs3]. cbn [fst snd] in *.
  apply (total_run _ _ _ s (s, w3)); [done|]. unfold Socket.INVALID_SOCKET. ztest.
  eapply total_out; [by apply ob_timeout|]. intros u w4 Hs4. apply total_ret. done.
Qed.

Lemma total_close_transport k w sock n bs l :
  st w n bs l → total (Socket.transport_close sock) (k, w) (λ _ s', st s'.2 n bs l).
Proof.
  intros Hs. unfold Socket.transport_close.
  eapply total_out; [by apply ob_shutdown|]. intros x w1 Hs1.
  eapply total_out; [apply (ob_drain w1 n bs l sock Hs1)|]. intros r w2 Hs2.
  eapply total_weaken; [eapply total_outside, ob_close, Hs2|]. by intros r' s' [_ ?].
Qed.

(** Bytes that are there are got as many as are asked for. *)
Lemma getdata_bytes x bs k w n l :
  st w n (x ++ bs) l → x ≠ [] →
  ∃ w', Socket.transport_getdata (len x) (k, w) = Ok ((len x, x), (k, w')) ∧ st w' n bs l.
Proof.
  intros Hs Hx. destruct (ob_recv w n (x ++ bs) l k (len x) Hs) as (r & w' & E & -> & Hs').
  { rewrite len_app. destruct x; [done|]. rewrite len_cons. lia. }
  rewrite Nat2Z.id in *. rewrite take_app_length in E. rewrite drop_app_length in Hs'.
  exists w'. split; [|done]. unfold Socket.transport_getdata.
  rewrite (run_bind _ _ _ k (k, w)) by done. unfold Socket.outside. cbn [fst snd]. by rewrite E.
Qed.

Lemma getdata_delivers x bs k w n l :
  st w n (x ++ bs) l →
  ∃ w', delivers Socket.transport_getdata (k, w) x (k, w') ∧ st w' n bs l.
Proof.
  revert w. induction x as [|b x IH]; intros w Hs; [exists w; split; [constructor|done]|].
  destruct (getdata_bytes [b] (x ++ bs) k w n l Hs ltac:(done)) as (w1 & E1 & Hs1).
  destruct (IH w1 Hs1) as (w2 & E2 & Hs2). exists w2. split; [by econstructor|done].
Qed.

(** ** Reading and writing *)

(** A packet that has arrived is read into the buffer. *)
Lemma read_packet h body rest buf g k w n l :
  byte h → body ≠ [] → len (packet h body) ≤ 200 → len buf = 200 → st w n (packet h body ++ rest) l →
  ∃ w', read buf (g, (k, w)) = Ok ((header_type h, packet h body ++ drop (length (packet h body)) buf), (g, (k, w'))) ∧
    st w' n rest l.
Proof.
  intros Hh Hb Hl Hbuf Hs. unfold packet in Hs. cbn [app] in Hs. rewrite <- app_assoc in Hs.
  destruct (getdata_bytes [h] _ k w n l Hs ltac:(done)) as (w1 & E1 & Hs1).
  destruct (getdata_delivers (varint (len body)) _ k w1 n l Hs1) as (w2 & E2 & Hs2).
  destruct (getdata_bytes body rest k w2 n l Hs2 Hb) as (w3 & E3 & Hs3).
  exists w3. split; [|done]. unfold read, tr. cbn [fst snd].
  pose proof (packet_len h body) as Lp. pose proof (len_nonneg (varint (len body))).
  erewrite (MQTTPacket_read_correct Socket.transport_getdata h body buf buflen (k, w) (k, w1) (k, w2) (k, w3));
    [|done|unfold MAX_REMAINING; lia|lia|unfold buflen; lia|done|done|done|done].
  unfold buflen. by ztest.
Qed.

(** A broker that is silent: the read fails and leaves the buffer alone. *)
Lemma read_nothing buf g k w n l :
  st w n [] l → ∃ w', read buf (g, (k, w)) = Ok ((-1, buf), (g, (k, w'))) ∧ st w' n [] l.
Proof.
  intros Hs. destruct (ob_silence w n l k 1 Hs ltac:(lia)) as (r & w' & E & -> & Hs').
  exists w'. split; [|done]. unfold read, tr. cbn [fst snd]. unfold MQTTPacket_read.
  rewrite (run_bind _ _ _ (-1, []) (k, w')); [done|].
  unfold Socket.transport_getdata. rewrite (run_bind _ _ _ k (k, w)) by done.
  unfold Socket.outside. cbn [fst snd]. by rewrite E.
Qed.

(** What a serializer has written is sent. *)
Lemma total_packet {A} sock m buf x (f : Z → list Z → M (globals * (Z * W)) A) g k w n bs l Q :
  m = Ok (written buf x) → 0 < len x ≤ len buf → len buf = 200 → st w n bs l →
  (∀ r buf' w', len buf' = 200 → st w' n bs (l ++ [x]) → total (f r buf') (g, (k, w')) Q) →
  total ('(len, buf) ← lift m; r ← send sock buf len; f r buf) (g, (k, w)) Q.
Proof.
  intros -> Hx Hb Hs HQ. apply (total_lift _ _ (written buf x)); [done|]. cbn [written].
  destruct (ob_write w n bs l sock (Ptr (x ++ drop (length x) buf) 0) (len x) x Hs) as (r & w' & E & _ & Hs');
    [by apply (mem_read_rest _ 0 _ x (drop (length x) buf))|].
  apply (total_run _ _ _ r (g, (k, w'))).
  - unfold send, tr, Socket.transport_sendPacketBuffer, Socket.outside. cbn [fst snd]. by rewrite E.
  - apply HQ; [|done]. rewrite length_app, length_drop. lia.
Qed.

Lemma total_say {A} f args (k : unit → M (globals * (Z * W)) A) g c w n bs l Q :
  st w n bs l → (∀ w', st w' n bs l → total (k tt) (g, (c, w')) Q) →
  total (say f args ≫= k) (g, (c, w)) Q.
Proof.
  intros Hs HQ. eapply total_process; [by apply ob_printf|]. intros [] w' Hs'. by apply HQ.
Qed.

Lemma running_goes g k w n bs l :
  toStop g = 0 → st w (S n) bs l →
  ∃ w', running sys (g, (k, w)) = Ok (true, (g, (k, w'))) ∧ st w' n bs l.
Proof.
  intros Hg Hs. destruct (ob_quiet w n bs l Hs) as (r & w' & E & -> & Hs'). exists w'. split; [|done].
  unfold running. rewrite (run_bind _ _ _ None (g, (k, w')))
    by (unfold process, tr, sys, Socket.outside; cbn [fst snd]; by rewrite E).
  rewrite run_bind_ret, (run_bind _ _ _ (toStop g) (g, (k, w'))) by done. by rewrite Hg.
Qed.

Lemma running_stops g k w bs l :
  st w 0%nat bs l →
  ∃ g' w', running sys (g, (k, w)) = Ok (false, (g', (k, w'))) ∧ st w' 0%nat bs l.
Proof.
  intros Hs. destruct (ob_interrupt w bs l Hs) as (r & w1 & E & Hr & Hs1).
  destruct r as [sig|]; [|done].
  destruct (ob_signal w1 _ _ _ SIGINT false Hs1) as (u & w2 & E2 & Hs2).
  exists (Globals 1 (old_t g)), w2. split; [|done]. unfold running.
  rewrite (run_bind _ _ _ (Some sig) (g, (k, w1)))
    by (unfold process, tr, sys, Socket.outside; cbn [fst snd]; by rewrite E).
  rewrite (run_bind _ _ _ tt (Globals 1 (old_t g), (k, w2))); [done|].
  unfold cfinish. rewrite (run_bind _ _ _ u (g, (k, w2))); [done|].
  unfold process, tr, sys, Socket.outside. cbn [fst snd]. by rewrite E2.
Qed.

(** ** pub0sub1.c *)

Abbreviation reading := (publish_packet (sample_publish "pubtopic")).

(** The packet of the readings. *)
Lemma total_message {A} sock buf (f : Z → list Z → M (globals * (Z * W)) A) g k w n bs l Q :
  len buf = 200 → st w n bs l →
  (∀ r buf' w', len buf' = 200 → st w' n bs (l ++ [reading]) → total (f r buf') (g, (k, w')) Q) →
  total ('(len, buf) ← serialize_message buf; r ← send sock buf len; f r buf) (g, (k, w)) Q.
Proof.
  intros Hb Hs HQ. unfold serialize_message.
  assert (Ep : payloadlen = Ok 9) by (by vm_compute). 
  assert (Em : MQTTSerialize_publish buf buflen 0 0 0 0 (topicString "pubtopic") payload 9 = Ok (written buf reading))
    by (apply (serialize_sample_publish "pubtopic"%string); [decide_by_vm|done|unfold buflen; lia]).
  unfold total. rewrite run_assoc, (run_bind _ _ _ 9 (g, (k, w))) by (by rewrite Ep).
  eapply (total_packet sock _ buf reading); [exact Em|by rewrite Hb|done|exact Hs|done].
Qed.

(** A disconnect, after the loop. *)
Lemma total_disconnect sock buf g k w n bs l :
  len buf = 200 → st w n bs l →
  total (send_disconnect sock buf) (g, (k, w)) (λ _ s, st s.2.2 n bs (l ++ [disconnect])).
Proof.
  intros Hb Hs. unfold send_disconnect. eapply total_say; [exact Hs|]. intros w1 Hs1.
  eapply (total_packet sock _ buf disconnect); [|by rewrite Hb|done|exact Hs1|].
  - unfold MQTTSerialize_disconnect. rewrite MQTTSerialize_zero_correct by (unfold buflen; lia). done.
  - intros r b w2 _ Hs2. by apply total_ret.
Qed.

(** Messages that the broker publishes; they fit the buffer. *)
Definition fits (p : publish) : Prop := publish_wf p ∧ len (publish_packet p) ≤ 200.
Definition packets (ms : list publish) : list Z := concat (map publish_packet ms).

(** One is shown. *)
Lemma total_read p rest buf g k w n l : fits p → len buf = 200 →
  st w n (publish_packet p ++ rest) l →
  total ('(type, buf) ← read buf; (if type =? PUBLISH then show_message sys o buf else mret tt) ;; mret buf)
    (g, (k, w)) (λ b s, len b = 200 ∧ s.1 = g ∧ s.2.1 = k ∧ st s.2.2 n rest l).
Proof.
  intros [Hp Hl] Hb Hs. unfold publish_packet in Hl, Hs.
  assert (Hne : publish_body p ≠ []) by by unfold publish_body, str, int16.
  destruct (read_packet _ _ rest buf g k w n l ltac:(apply fixed_header_byte) Hne Hl Hb Hs)
    as (w1 & E1 & Hs1).
  eapply total_run; [exact E1|]. cbv beta iota. rewrite header_type_of. change (PUBLISH mod 16 =? PUBLISH) with true.
  cbv iota. unfold show_message.
  destruct (read_publish p (l_publish o) (drop (length (publish_packet p)) buf) buflen Hp) as (m & Em & _).
  unfold total. rewrite !run_assoc, (run_bind _ _ _ _ _ (run_lift _ _ _ Em)). cbv beta iota.
  eapply total_process; [by apply ob_printf|]. intros [] w2 Hs2. apply total_ret. cbn [fst snd].
  split; [|done]. rewrite length_app, length_drop. unfold publish_packet in *. lia.
Qed.

Lemma total_loop fuel sock buf g w n ms l :
  (n < fuel)%nat → toStop g = 0 → len buf = 200 → Forall fits ms → st w n (packets ms) l →
  total (Pub0Sub1.loop o fuel sock buf) (g, (sock, w))
    (λ b s, len b = 200 ∧ s.2.1 = sock ∧ st s.2.2 0%nat (packets (drop n ms)) (l ++ replicate n reading)).
Proof.
  revert buf w n ms l. induction fuel as [|fuel IH]; intros buf w n ms l Hf Hg Hb HF Hs; [lia|].
  cbn [Pub0Sub1.loop]. destruct n as [|n].
  - destruct (running_stops g sock w _ l Hs) as (g' & w1 & E & Hs1).
    eapply total_run; [exact E|]. apply total_ret. cbn. by rewrite app_nil_r.
  - destruct (running_goes g sock w n _ l Hg Hs) as (w1 & E & Hs1).
    eapply total_run; [exact E|].
    assert (T : total ('(type, buf) ← read buf; (if type =? PUBLISH then show_message sys o buf else mret tt) ;; mret buf)
      (g, (sock, w1)) (λ b s, len b = 200 ∧ s.1 = g ∧ s.2.1 = sock ∧ st s.2.2 n (packets (tail ms)) l)).
    { destruct HF as [|p ms Hp HF]; [|by apply (total_read p)].
      destruct (read_nothing buf g sock w1 n l Hs1) as (w2 & E2 & Hs2).
      eapply total_run; [exact E2|]. by apply total_ret. }
    destruct T as (b & [g2 [k2 w2]] & ([type b1] & s1 & E1 & E2)%run_bind_inv & Hb2 & Eg & Ek & Hs2).
    cbn [fst snd] in *. subst g2 k2. eapply total_run; [exact E1|]. cbv beta iota.
    apply run_bind_inv in E2 as ([] & s2 & E2 & [= <- ->]). eapply total_run; [exact E2|].
    eapply total_say; [exact Hs2|]. intros w3 Hs3.
    eapply total_message; [done|exact Hs3|]. intros r b w4 Hb4 Hs4.
    eapply total_weaken; [apply (IH b w4 n (tail ms) (l ++ [reading])); [lia|done|done|by destruct HF|exact Hs4]|].
    intros b' s' (H1' & H2' & H3'). split; [done|]. split; [done|].
    rewrite <- app_assoc in H3'. by destruct ms; [rewrite drop_nil in *|].
Qed.

(** The acknowledgements that the broker sends. *)
Definition acks (sp id : Z) : list Z := connack_packet sp 0 ++ suback_packet id [0].

Lemma total_connack sp rest buf g k w n l :
  bit sp → len buf = 200 → st w n (connack_packet sp 0 ++ rest) l →
  ∃ buf' w', wait_connack o buf (g, (k, w)) = Ok ((true, buf'), (g, (k, w'))) ∧ len buf' = 200 ∧
    st w' n rest l.
Proof.
  intros Hsp Hb Hs.
  destruct (read_packet (fixed_header CONNACK 0 0 0) [sp; 0] rest buf g k w n l) as (w' & E & Hs');
    [apply fixed_header_byte|done|done|done|exact Hs|].
  eexists _, w'. split; [|split; [|exact Hs']].
  - unfold wait_connack. rewrite (run_bind _ _ _ _ _ E).
    change (header_type (fixed_header CONNACK 0 0 0) =? CONNACK) with true. cbv iota beta.
    rewrite (run_bind _ _ _ true (g, (k, w'))); [done|]. unfold connack_accepts.
    rewrite (run_bind _ _ _ (1, sp, 0) (g, (k, w'))); [done|].
    apply run_lift. by apply read_connack.
  - rewrite length_app, length_drop. change (length (packet (fixed_header CONNACK 0 0 0) [sp; 0])) with 4%nat. lia.
Qed.

Lemma total_suback id rest buf g k w n l :
  0 ≤ id < 65536 → len buf = 200 → st w n (suback_packet id [0] ++ rest) l →
  ∃ buf' w', Pub0Sub1.wait_suback o buf (g, (k, w)) = Ok ((true, buf'), (g, (k, w'))) ∧ len buf' = 200 ∧
    st w' n rest l.
Proof.
  intros Hid Hb Hs. 
  destruct (read_packet (fixed_header SUBACK 0 0 0) (int16 id ++ [0]) rest buf g k w n l) as (w' & E & Hs');
    [apply fixed_header_byte|done|done|done|exact Hs|].
  eexists _, w'. split; [|split; [|exact Hs']].
  - unfold Pub0Sub1.wait_suback. rewrite (run_bind _ _ _ _ _ E).
    change (header_type (fixed_header SUBACK 0 0 0) =? SUBACK) with true. cbv iota beta.
    rewrite (run_bind _ _ _ true (g, (k, w'))); [done|]. unfold suback_accepts.
    rewrite (run_bind _ _ _ _ _ (run_lift _ _ (g, (k, w'))
      (MQTTDeserialize_suback_roundtrip (l_submsgid o) 1 (l_subcount o) [l_granted_qos o] id [0] _
         buflen Hid ltac:(done) ltac:(done) ltac:(done)))).
    cbn [map length drop app]. by rewrite to_char_small.
  - rewrite length_app, length_drop. change (length (packet (fixed_header SUBACK 0 0 0) (int16 id ++ [0]))) with 5%nat. lia.
Qed.

(** The session, from the connect packet on. *)
Lemma total_session fuel s sp id ms g w n :
  len (l_buf o) = 200 → toStop g = 0 → bit sp → 0 ≤ id < 65536 → Forall fits ms →
  st w n (acks sp id ++ packets ms) [] → (n < fuel)%nat →
  total (Pub0Sub1.session o fuel s) (g, (s, w)) (λ _ s', st s'.2.2 0%nat (packets (drop n ms))
    (connect_packet sample_connect :: sample_subscribe :: replicate n reading ++ [disconnect])).
Proof.
  intros Hb Hg Hsp Hid HF Hs Hf. unfold Pub0Sub1.session, acks in *. rewrite <-app_assoc in Hs.
  eapply total_bind with (Q' := λ b s', len b = 200 ∧ s'.1 = g ∧ s'.2.1 = s ∧
    st s'.2.2 n (connack_packet sp 0 ++ suback_packet id [0] ++ packets ms) [connect_packet sample_connect]).
  { eapply (total_packet s _ (l_buf o) (connect_packet sample_connect));
      [apply serialize_sample_connect; unfold buflen; lia|by rewrite Hb|done|exact Hs|].
    intros r b w1 Hb1 Hs1. by apply total_ret. }
  intros b1 [g1 [k1 w1]] (Hb1 & E1 & E2 & Hs1). cbn [fst snd] in *. subst g1 k1.
  destruct (total_connack sp (suback_packet id [0] ++ packets ms) b1 g s w1 n _ Hsp Hb1 Hs1) as (b2 & w2 & E2 & Hb2 & Hs2).
  eapply total_run; [exact E2|]. cbv iota beta.
  eapply total_bind with (Q' := λ b s', len b = 200 ∧ s'.1 = g ∧ s'.2.1 = s ∧
    st s'.2.2 n (suback_packet id [0] ++ packets ms) [connect_packet sample_connect; sample_subscribe]).
  { eapply (total_packet s _ b2 sample_subscribe);
      [apply serialize_sample_subscribe; lia|by rewrite Hb2|done|exact Hs2|].
    intros r b w3 Hb3 Hs3. by apply total_ret. }
  intros b3 [g3 [k3 w3]] (Hb3 & E3 & E4 & Hs3). cbn [fst snd] in *. subst g3 k3.
  destruct (total_suback id (packets ms) b3 g s w3 n _ Hid Hb3 Hs3) as (b4 & w4 & E4 & Hb4 & Hs4).
  eapply total_run; [exact E4|]. cbv iota beta.
  eapply total_bind; [by eapply total_loop|].
  intros b5 [g5 [k5 w5]] (Hb5 & E5 & Hs5). cbn [fst snd] in *. subst k5.
  eapply total_weaken; [by apply total_disconnect|]. intros u s' Hs'. by rewrite <- !app_assoc in Hs'.
Qed.

(** C40: over a broker that accepts the connection and grants QoS 0, and publishes any messages
    then, pub0sub1.c ends when it is interrupted, and returns 0: it has sent a connect packet, a
    subscription, a reading for every look at toStop before that, and a disconnect, and it has
    read one message, if there was one, at every look. The two acknowledgements are there within
    the second that recv waits, and no packet of the broker comes in pieces. *)
Theorem pub0sub1_publishes fuel argv host port c g k w n sp id ms :
  target argv = Ok (host, port) → load (obj host) (off host) = Ok c → len (l_buf o) = 200 →
  toStop g = 0 → bit sp → 0 ≤ id < 65536 → Forall fits ms →
  st w n (acks sp id ++ packets ms) [] → (n < fuel)%nat →
  total (Pub0Sub1.main o fuel argv) (g, (k, w)) (λ rc s, rc = 0 ∧
    st s.2.2 0%nat (packets (drop n ms))
      (connect_packet sample_connect :: sample_subscribe :: replicate n reading ++ [disconnect])).
Proof.
  intros Et Ec Hb Hg Hsp Hid HF Hs Hf. unfold Pub0Sub1.main.
  eapply total_bind.
  { unfold stop_init. eapply total_process; [by apply ob_signal|]. intros u w1 Hs1.
    eapply total_tr, total_outside, ob_signal, Hs1. }
  intros u [g1 [k1 w1]] (E1 & E2 & Hs1). cbn [fst snd] in *. subst g1 k1.
  unfold program. eapply total_lift; [exact Et|].
  eapply total_bind; [eapply total_tr, total_open; [exact Ec|exact Hs1]|].
  intros s [g2 [k2 w2]] (E1 & Hs0 & E2 & Hs2). cbn [fst snd] in *. subst g2 k2. ztest.
  eapply total_say; [exact Hs2|]. intros w3 Hs3.
  eapply total_bind; [by apply (total_session fuel s sp id ms g w3 n)|].
  intros u2 [g4 [k4 w4]] Hs4. cbn [fst snd] in *.
  eapply total_bind; [eapply total_tr, total_close_transport, Hs4|].
  intros r [g5 [k5 w5]] [E3 Hs5]. apply total_ret. by split.
Qed.

End Live.

(** ** The broker of SampleTalk.v *)

#[local] Existing Instance x86_64.
#[local] Existing Instance broker_sockets.
#[local] Existing Instance broker_process.

Definition broker_st (b : broker) (n : nat) (bs : list Z) (l : list (list Z)) : Prop :=
  b_polls b = n ∧ b_answers b = bs ∧ b_log b = l.

#[local] Instance broker_obliges : Obliging broker_st.
Proof.
  split.
  - intros w n bs l s p k x (<- & <- & <-) E.
    exists k, (Broker (b_answers w) (b_log w ++ [x]) (b_polls w) (b_time w) (b_out w)).
    split; [|by split]. cbn -[mem_read]. by rewrite E.
  - intros w n bs l s k (<- & <- & <-) Hk. eexists _, _. split; [done|]. split; [|by split].
    cbn. set (x := take _ _). assert (Hx : len x = k) by (unfold x; rewrite length_take; lia).
    destruct (bool_decide_reflect (x = [])) as [->|]; [cbn in Hx; lia|]. cbn [andb]. by rewrite Hx.
  - intros w n l s k (<- & Hb & <-) Hk. eexists _, _. split; [done|]. cbn. rewrite Hb, take_nil, drop_nil.
    cbn. destruct (Z.ltb_spec 0 k); [done|lia].
  - intros w n bs l s (<- & <- & <-). eexists _, _. split; [done|by split].
  - intros w n bs l p Hs. eexists _, w. split; [done|]. split; [by eexists|done].
  - intros w n bs l f Hs. by exists 3, w.
  - intros w n bs l s a p Hs. by exists 0, w.
  - intros w n bs l s t Hs. by exists tt, w.
  - intros w n bs l s Hs. by exists 0, w.
  - intros w n bs l s Hs. by exists 0, w.
  - intros w n bs l s h Hs. by exists tt, w.
  - intros w n bs l f args (<- & <- & <-). eexists tt, _. split; [done|by split].
  - intros w n bs l (Hn & <- & <-). eexists _, _. split; [done|]. cbn. by rewrite Hn.
  - intros w bs l (Hn & <- & <-). eexists _, _. split; [done|]. cbn. by rewrite Hn.
Qed.

(** Seven readings, and a message that the broker publishes meanwhile. *)
Definition sample_message : publish := Publish 0 0 0 0 (bytes_of "substopic"%string) (bytes_of "hi"%string).

Lemma pub0sub1_publishes_witness :
  total (Pub0Sub1.main sample_locals 8 []) (start (acks 0 1 ++ packets [sample_message]) 7) (λ rc s, rc = 0 ∧
    broker_st s.2.2 0%nat [] (connect_packet sample_connect :: sample_subscribe ::
      replicate 7 (publish_packet (sample_publish "pubtopic")) ++ [disconnect])).
Proof.
  refine (pub0sub1_publishes sample_locals broker_st 8 [] _ 1883 109 (Globals 0 0) 0
    (Broker (acks 0 1 ++ packets [sample_message]) [] 7 1000 []) 7 0 1 [sample_message]
    eq_refl eq_refl eq_refl eq_refl _ _ _ _ _);
    [by left|lia|constructor; [split; [split; decide_by_vm|done]|constructor]|by split|lia].
Defined.

(** A packet that comes in pieces is lost: with a broker that does the same, but whose bytes
    arrive one by one, the program gives up after its connect packet. *)
Definition one_by_one : Socket.Sockets broker :=
  {| Socket.address := unit; Socket.AF_INET := 2; Socket.AF_INET6 := 10;
     Socket.sk_write := Socket.sk_write (Sockets := broker_sockets);
     Socket.sk_recv := λ s n, Socket.sk_recv (Sockets := broker_sockets) s (Z.min n 1);
     Socket.getaddrinfo := λ _, mret (0, [(2, tt)]); Socket.sk_socket := λ _, mret 3;
     Socket.sk_connect := λ _ _ _, mret 0; Socket.set_recv_timeout := λ _ _, mret tt;
     Socket.shutdown := λ _, mret 0; Socket.sk_close := λ _, mret 0 |}.

Example pieces_are_lost :
  match Pub0Sub1.main (H0 := one_by_one) sample_locals 8 [] (start (acks 0 1) 7) with
  | Ok (rc, (_, (_, b))) => rc = 0 ∧ b_log b = [connect_packet sample_connect]
  | _ => False end.
Proof. vm_compute. by split. Qed.
