(* ===== verification/SampleSerial.v ===== *)
(** * The packet samples over a serial line

    The programs ping_nb.c and pub0sub1_nb.c of samples/baremetalserial, over
    the transport of that directory (Module Serial of Transport.v), and the two
    functions with which they simulate the line: samplesend and samplerecv, on
    a socket that does not block. *)

From S2P Require Import Prelude CSem Wire Packet Connect Publish Subscribe Stream Transport Samples.
Import Serial.

(** What samplesend and samplerecv use of the system. [so_connect] connects to port 1883 of
    the address in the file. *)
Class SerialHost (W : Type) : Type :=
  { RAND_MAX : Z; rand : M W Z;
    so_socket : M W Z;
    so_connect : Z → M W Z;
    so_write : Z → ptr → Z → M W Z;
    so_read : Z → Z → M W (Z * list Z);
    so_nonblock : Z → M W unit;
    so_close : Z → M W Z;
    errno : M W Z; EAGAIN : Z;
    perror : M W unit }.

(** How a program ends: by the return of main or by exit. *)
Inductive ending : Type := Returned (rc : Z) | Exited (status : Z).

Section SampleSerial.
Context `{CImpl} {W : Type} `{SerialHost W} `{Process W}.

(** The static variable [sockfd], and the world. *)
Abbreviation U := (Z * W)%type.

Definition host {A} (m : M W A) : M U A := λ s,
  match m s.2 with
  | Ok (a, w) => Ok (a, (s.1, w)) | UB u => UB u | NoFuel => NoFuel end.
Definition set_sockfd (n : Z) : M U unit := modify (λ s, (n, s.2)).

(** exit is the status it is called with. *)
Definition sampleserial_init : M U (option Z) :=
  s ← host so_socket;
  set_sockfd s ;;
  if s <? 0 then host perror ;; mret (Some 2)
  else
    c ← host (so_connect s);
    if c <? 0 then host (printf "ERROR connecting\n" []) ;; mret (Some (-1))
    else
      host (printf "- TCP Connected to Eclipse\n" []) ;;
      host (so_nonblock s) ;;
      mret None.

Definition sampleserial_close : M U unit :=
  sockfd ← gets fst; host (so_close sockfd) ;; mret tt.

(** The two draws with which samplesend and samplerecv play a slow line: [None] is a busy
    line, and otherwise how many bytes are moved at most. *)
Definition draw (bytes : Z) : M U (option Z) :=
  r ← host rand;
  if RAND_MAX / 2 <? r then mret None
  else
    r ← host rand;
    mret (Some (if (RAND_MAX / 2 <? r) && (1 <? bytes) then bytes / 2 else bytes)).

Definition samplesend (address : ptr) (bytes : Z) : M U Z :=
  d ← draw bytes;
  match d with
  | None => mret 0
  | Some bytes =>
      sockfd ← gets fst;
      len ← host (so_write sockfd address bytes);
      if 0 <=? len then mret len
      else e ← host errno; mret (if e =? EAGAIN then 0 else -1)
  end.

Definition samplerecv (maxbytes : Z) : M U (Z * list Z) :=
  d ← draw maxbytes;
  match d with
  | None => mret (0, [])
  | Some maxbytes =>
      sockfd ← gets fst;
      '(len, bs) ← host (so_read sockfd maxbytes);
      if 0 <=? len then mret (len, bs)
      else e ← host errno; mret (if e =? EAGAIN then 0 else -1, bs)
  end.

Definition iof : transport_iofunctions_t := IoFunctions (W := U) (Some samplesend) (Some samplerecv).

(** ** The programs *)

Definition line_sys : ∀ A, M W A → M (line (W := U)) A := λ A m, Serial.outside (host m).
Abbreviation P A := (M (globals * line (W := U)) A).

Definition note (format : String.string) : P unit := print line_sys format [].
#[local] Arguments note format%_string.

(** What the two programs have around their session. *)
Definition serial_program (session : Z → P unit) : P ending :=
  stop_init line_sys ;;
  failed ← tr (Serial.outside sampleserial_init);
  match failed with
  | Some status => mret (Exited status)
  | None =>
      mysock ← tr (transport_open (Some iof));
      if mysock <? 0 then mret (Returned mysock)
      else
        session mysock ;;
        tr (transport_close mysock) ;;
        tr (Serial.outside sampleserial_close) ;;
        mret (Returned 0)
  end.

(** Serializing the connect packet and the blocking send; what it returns is not looked at. *)
Definition serial_connect (fuel : nat) (mysock : Z) (buf : list Z) : P (list Z) :=
  '(len, buf) ← lift (MQTTSerialize_connect buf buflen connect_data);
  tr (transport_sendPacketBuffer fuel mysock (Ptr buf 0) len) ;;
  mret buf.

Definition serial_disconnect (fuel : nat) (mysock : Z) (buf : list Z) : P unit :=
  note "disconnecting\n" ;;
  '(len, buf) ← lift (MQTTSerialize_disconnect buf buflen);
  tr (transport_sendPacketBuffer fuel mysock (Ptr buf 0) len) ;;
  mret tt.

(** [while((rc=transport_sendPacketBuffernb(mysock)) != TRANSPORT_DONE);] *)
Fixpoint send_until_done (fuel : nat) (mysock : Z) : P unit :=
  match fuel with
  | O => no_fuel
  | S fuel =>
      rc ← tr (transport_sendPacketBuffernb mysock);
      if rc =? TRANSPORT_DONE then mret tt else send_until_done fuel mysock
  end.

End SampleSerial.
#[global] Arguments note {W _} format%_string.

(** ping_nb.c *)
Module PingSerial.
Section PingSerial.
Context `{CImpl} {W : Type} `{SerialHost W} `{Process W} (o : locals).
Abbreviation P A := (M (globals * line (W := Z * W)) A).

Inductive states : Type := IDLE | SENDPING | GETPONG.

Fixpoint loop (fuel : nat) (mysock : Z) (state : states) (buf : list Z)
    (mytransport : MQTTTransport) : P (bool * list Z) :=
  match fuel with
  | O => no_fuel
  | S fuel =>
      go ← running line_sys;
      if go : bool then
        match state with
        | IDLE =>
            ping ← time_to_ping line_sys;
            if ping : bool then
              '(len, buf) ← lift (MQTTSerialize_pingreq buf buflen);
              tr (transport_sendPacketBuffernb_start mysock (Ptr buf 0) len) ;;
              loop fuel mysock SENDPING buf mytransport
            else loop fuel mysock IDLE buf mytransport
        | SENDPING =>
            rc ← tr (transport_sendPacketBuffernb mysock);
            if rc =? TRANSPORT_DONE then
              note "Ping..." ;; start_ping_timer line_sys ;;
              loop fuel mysock GETPONG buf mytransport
            else if rc =? TRANSPORT_ERROR then mret (false, buf)
            else loop fuel mysock SENDPING buf mytransport
        | GETPONG =>
            '(rc, buf, mytransport) ← tr (MQTTPacket_readnb transport_getdatanb buf buflen mytransport);
            if rc =? PINGRESP then
              note "Pong\n" ;; start_ping_timer line_sys ;;
              loop fuel mysock IDLE buf mytransport
            else if rc =? -1 then note "OOPS\n" ;; mret (false, buf)
            else loop fuel mysock GETPONG buf mytransport
        end
      else mret (true, buf)
  end.

Definition session (fuel : nat) (junk : MQTTTransport) (mysock : Z) : P unit :=
  buf ← serial_connect fuel mysock (l_buf o);
  note "Sent MQTT connect\n" ;;
  '(ok, buf, mytransport) ←
    await transport_getdatanb CONNACK (connack_accepts line_sys o) fuel buf (new_transport junk);
  if ok : bool then
    note "MQTT connected\n" ;;
    start_ping_timer line_sys ;;
    '(stopped, buf) ← loop fuel mysock IDLE buf mytransport;
    if stopped : bool then serial_disconnect fuel mysock buf else mret tt
  else mret tt.

Definition main (fuel : nat) (junk : MQTTTransport) : P ending :=
  serial_program (session fuel junk).
End PingSerial.
End PingSerial.

(** pub0sub1_nb.c *)
Module Pub0Sub1Serial.
Section Pub0Sub1Serial.
Context `{CImpl} {W : Type} `{SerialHost W} `{Process W} (o : locals).
Abbreviation P A := (M (globals * line (W := Z * W)) A).

Inductive states : Type := READING | PUBLISHING.

Fixpoint loop (fuel : nat) (mysock : Z) (state : states) (buf : list Z)
    (mytransport : MQTTTransport) : P (bool * list Z) :=
  match fuel with
  | O => no_fuel
  | S fuel =>
      go ← running line_sys;
      if go : bool then
        match state with
        | READING =>
            '(rc, buf, mytransport) ← tr (MQTTPacket_readnb transport_getdatanb buf buflen mytransport);
            if rc =? PUBLISH then
              show_message line_sys o buf ;;
              note "publishing reading\n" ;;
              '(len, buf) ← serialize_message buf;
              tr (transport_sendPacketBuffernb_start mysock (Ptr buf 0) len) ;;
              loop fuel mysock PUBLISHING buf mytransport
            else if rc =? -1 then mret (false, buf)
            else loop fuel mysock READING buf mytransport
        | PUBLISHING =>
            rc ← tr (transport_sendPacketBuffernb mysock);
            if rc =? TRANSPORT_DONE then
              note "Published\n" ;; loop fuel mysock READING buf mytransport
            else if rc =? TRANSPORT_ERROR then mret (false, buf)
            else loop fuel mysock PUBLISHING buf mytransport
        end
      else mret (true, buf)
  end.

Definition session (fuel : nat) (junk : MQTTTransport) (mysock : Z) : P unit :=
  buf ← serial_connect fuel mysock (l_buf o);
  note "Sent MQTT connect\n" ;;
  '(ok, buf, mytransport) ←
    await transport_getdatanb CONNACK (connack_accepts line_sys o) fuel buf (new_transport junk);
  if ok : bool then
    note "MQTT connected\n" ;;
    '(len, buf) ← lift (MQTTSerialize_subscribe buf buflen 0 1 1 [topicString "substopic"] [0]);
    tr (transport_sendPacketBuffernb_start mysock (Ptr buf 0) len) ;;
    send_until_done fuel mysock ;;
    '(ok, buf, mytransport) ←
      await transport_getdatanb SUBACK (suback_accepts line_sys o) fuel buf mytransport;
    if ok : bool then
      note "Subscribed\n" ;;
      '(stopped, buf) ← loop fuel mysock READING buf mytransport;
      if stopped : bool then serial_disconnect fuel mysock buf else mret tt
    else mret tt
  else mret tt.

Definition main (fuel : nat) (junk : MQTTTransport) : P ending :=
  serial_program (session fuel junk).
End Pub0Sub1Serial.
End Pub0Sub1Serial.
