(* ===== verification/SampleLine.v ===== *)
(** * The serial samples over the line they simulate

    samplesend and samplerecv keep what Transport.v asks of a serial line, so
    that what is proved there holds of the programs of SampleSerial.v; and
    where these programs go wrong. *)

From S2P Require Import Prelude CSem Wire Packet Connect Publish Subscribe Stream Transport Samples SampleSpec SampleSerial.
Import Serial.

Section Line.
Context `{CImpl} {W : Type} `{SerialHost W}.

(** ** Sending *)

(** A socket that does not block. [sent w l idle]: it has taken [l], and the generator and the
    socket keep the program waiting at most [idle] more times. *)
Class SlowSocket (sent : W → list Z → nat → Prop) : Prop :=
  { ss_rand w l idle : sent w l idle →
      ∃ r w' idle', rand w = Ok (r, w') ∧ sent w' l idle' ∧ (idle' ≤ idle)%nat ∧
        (RAND_MAX / 2 < r → (idle' < idle)%nat);
    ss_write w l idle s p n bs : sent w l idle → 0 < n ≤ INT_MAX → mem_read (Some p) n = Ok bs →
      ∃ k w' idle', so_write s p n w = Ok (k, w') ∧
        ((0 < k ≤ n ∧ sent w' (l ++ take (Z.to_nat k) bs) idle' ∧ (idle' ≤ idle)%nat) ∨
         (k < 0 ∧ (idle' < idle)%nat ∧ ∃ w'', errno w' = Ok (EAGAIN, w'') ∧ sent w'' l idle')) }.

Lemma bind_host {A B} (m : M W A) (f : A → M (Z * W) B) s w a w' :
  m w = Ok (a, w') → (host m ≫= f) (s, w) = f a (s, w').
Proof. intros E. apply run_bind. unfold host. cbn [fst snd]. by rewrite E. Qed.

Lemma draw_keeps (sent : W → list Z → nat → Prop) `{!SlowSocket sent} s w l idle n :
  sent w l idle → 0 < n →
  ∃ d w' idle', draw n (s, w) = Ok (d, (s, w')) ∧ sent w' l idle' ∧ (idle' ≤ idle)%nat ∧
    match d with None => (idle' < idle)%nat | Some m => 0 < m ≤ n end.
Proof.
  intros Hs Hn. destruct (ss_rand w l idle Hs) as (r & w1 & i1 & E1 & Hs1 & Hi1 & Hb1).
  unfold draw. rewrite (bind_host _ _ _ _ _ _ E1). ztest.
  - exists None, w1, i1. repeat split; [done|lia|by apply Hb1].
  - destruct (ss_rand w1 l i1 Hs1) as (r2 & w2 & i2 & E2 & Hs2 & Hi2 & _).
    rewrite (bind_host _ _ _ _ _ _ E2). eexists _, w2, i2. split; [done|]. split; [done|].
    split; [lia|]. cbv beta iota. destruct (_ && _) eqn:Eb; lia.
Qed.

(** Samplesend keeps the promise from which the transport's sends are proved. *)
Theorem samplesend_takes (sent : W → list Z → nat → Prop) `{!SlowSocket sent} :
  takes samplesend (λ u l idle, sent u.2 l idle).
Proof.
  intros [s w] l idle p n bs Hs Hn Em. cbn [snd] in Hs.
  destruct (draw_keeps sent s w l idle n Hs ltac:(lia)) as (d & w1 & i1 & E1 & Hs1 & Hi1 & Hd).
  unfold samplesend. rewrite (run_bind _ _ _ _ _ E1). destruct d as [m|].
  - rewrite (run_bind _ _ _ s (s, w1)) by done.
    destruct (ss_write w1 l i1 s p m (take (Z.to_nat m) bs) Hs1) as (k & w2 & i2 & E2 & Hk);
      [lia|apply (mem_read_prefix (Some p) n m bs); [done|lia]|].
    rewrite (bind_host _ _ _ _ _ _ E2). ztest.
    + destruct Hk as [(Hk & Hs2 & Hi2)|]; [|lia]. exists k, (s, w2), i2.
      rewrite take_take, Nat.min_l in Hs2 by lia. repeat split; try done; lia.
    + destruct Hk as [|(_ & Hi2 & w3 & E3 & Hs3)]; [lia|].
      rewrite (bind_host _ _ _ _ _ _ E3), Z.eqb_refl. exists 0, (s, w3), i2.
      rewrite app_nil_r. repeat split; try done; lia.
  - exists 0, (s, w1), i1. cbn [snd]. rewrite app_nil_r. repeat split; try done; lia.
Qed.

(** ** Receiving *)

(** [coming w bs]: the peer has sent [bs], or will. *)
Class SlowPeer (coming : W → list Z → Prop) : Prop :=
  { sp_rand w bs : coming w bs → ∃ r w', rand w = Ok (r, w') ∧ coming w' bs;
    sp_read w bs s n : coming w bs → 0 < n ≤ INT_MAX → ∃ k w',
      (so_read s n w = Ok ((k, take (Z.to_nat k) bs), w') ∧ 0 ≤ k ≤ n ∧ k ≤ len bs ∧
         coming w' (drop (Z.to_nat k) bs)) ∨
      (so_read s n w = Ok ((k, []), w') ∧ k < 0 ∧ ∃ w'', errno w' = Ok (EAGAIN, w'') ∧ coming w'' bs) }.

(** Samplerecv keeps the promise from which the transport's reads are proved. *)
Theorem samplerecv_gives (coming : W → list Z → Prop) `{!SlowPeer coming} :
  gives samplerecv (λ u bs, coming u.2 bs).
Proof.
  intros [s w] bs n Hc Hn. cbn [snd] in Hc.
  assert (D : ∃ d w', draw n (s, w) = Ok (d, (s, w')) ∧ coming w' bs ∧
                match d with None => True | Some m => 0 < m ≤ n end).
  { destruct (sp_rand w bs Hc) as (r & w1 & E1 & Hc1).
    unfold draw. rewrite (bind_host _ _ _ _ _ _ E1). ztest; [by exists None, w1|].
    destruct (sp_rand w1 bs Hc1) as (r2 & w2 & E2 & Hc2). rewrite (bind_host _ _ _ _ _ _ E2).
    eexists _, w2. split; [done|]. split; [done|]. cbv beta iota. destruct (_ && _) eqn:Eb; lia. }
  destruct D as (d & w1 & E1 & Hc1 & Hd). unfold samplerecv. rewrite (run_bind _ _ _ _ _ E1).
  destruct d as [m|].
  - rewrite (run_bind _ _ _ s (s, w1)) by done.
    destruct (sp_read w1 bs s m Hc1) as (k & w2 & [(E2 & Hk & Hl & Hc2)|(E2 & Hk & w3 & E3 & Hc3)]);
      [lia| |]; rewrite (bind_host _ _ _ _ _ _ E2).
    + ztest. exists k, (s, w2). repeat split; try done; lia.
    + ztest. rewrite (bind_host _ _ _ _ _ _ E3), Z.eqb_refl. exists 0, (s, w3). repeat split; try done; lia.
  - exists 0, (s, w1). repeat split; try done; lia.
Qed.

(** ** The programs over the line *)

Context `{!Process W} (o : locals).

(** The blocking send of a packet that a serializer has written. *)
Lemma serial_send (sent : W → list Z → nat → Prop) `{!SlowSocket sent} fuel s buf bs l idle p0 n0 g k w :
  sent w l idle → 0 < len bs ≤ INT_MAX → (length bs + idle ≤ fuel)%nat →
  ∃ p m w' idle',
    tr (transport_sendPacketBuffer fuel s (Ptr (written buf bs).2 0) (len bs))
      (g, Line (Some iof) p0 n0 (k, w)) = Ok (len bs, (g, Line (Some iof) p m w')) ∧
    sent w'.2 (l ++ bs) idle'.
Proof.
  intros Hs Hb Hf.
  destruct (serial_sends_all fuel s iof samplesend (λ u l idle, sent u.2 l idle) (written buf bs).2 0
    (len bs) bs l idle p0 n0 (k, w)) as (p & m & w' & i' & E & Hs'); try done; try lia.
  - by apply samplesend_takes.
  - by apply (mem_read_rest _ 0 _ bs (drop (length bs) buf)).
  - exists p, m, w', i'. split; [|done]. unfold tr. cbn [snd fst]. by rewrite E.
Qed.

(** The programs get their connect packet onto the line, all of it and once, however slow it
    is. *)
Theorem serial_connect_sends (sent : W → list Z → nat → Prop) `{!SlowSocket sent} fuel s l idle p0 n0 g k w :
  sent w l idle → len (l_buf o) = 200 → (40 + idle ≤ fuel)%nat →
  ∃ buf p m w' idle', serial_connect fuel s (l_buf o) (g, Line (Some iof) p0 n0 (k, w)) =
      Ok (buf, (g, Line (Some iof) p m w')) ∧ len buf = 200 ∧
    sent w'.2 (l ++ connect_packet sample_connect) idle'.
Proof.
  intros Hs Hb Hf. unfold serial_connect.
  rewrite (run_bind _ _ _ _ _ (run_lift _ _ _ (serialize_sample_connect (l_buf o) buflen
    ltac:(unfold buflen; lia)))).
  destruct (serial_send sent fuel s (l_buf o) (connect_packet sample_connect) l idle p0 n0 g k w Hs)
    as (p & m & w' & i' & E & Hs'); [done|exact Hf|].
  cbn [written]. cbn [written snd] in E. rewrite (run_bind _ _ _ _ _ E).
  eexists _, p, m, w', i'. split; [done|]. split; [|done].
  rewrite length_app, length_drop. change (length (connect_packet sample_connect)) with 40%nat. lia.
Qed.

(** A line that is lost: every send fails. *)
Definition lost (dead : W → Prop) : Prop :=
  ∀ w k p n, dead w → ∃ w', samplesend p n (k, w) = Ok (-1, (k, w')) ∧ dead w'.

(** Pub0sub1_nb.c waits for its subscription to be sent in a loop that only success ends: on a
    lost line it never does. *)
Theorem subscription_hangs dead fuel s p n g k w :
  lost dead → dead w → send_until_done fuel s (g, Line (Some iof) (Some p) n (k, w)) = NoFuel.
Proof.
  intros Hl. revert w. induction fuel as [|fuel IH]; intros w Hd; [done|].
  cbn [send_until_done]. destruct (Hl w k p (to_uint n) Hd) as (w' & E & Hd').
  rewrite (run_bind _ _ _ TRANSPORT_ERROR (g, Line (Some iof) (Some p) n (k, w'))).
  - change (TRANSPORT_ERROR =? TRANSPORT_DONE) with false. cbv iota. by apply IH.
  - unfold tr. cbn [snd fst]. unfold transport_sendPacketBuffernb. rewrite bind_get.
    cbn [io from howmany]. assert ((myio ← Some iof; io_send myio) = Some samplesend) as -> by done.
    rewrite (run_bind _ _ _ (-1) (Line (Some iof) (Some p) n (k, w'))); [done|].
    unfold Serial.outside. cbn [world]. by rewrite E.
Qed.

End Line.

(** ** A line and its broker *)

(** What the broker will send, what it has got, the draws of the generator, the looks at
    [toStop] before the interrupt, and the clock. *)
Record far_end : Type := FarEnd
  { fe_answers : list Z; fe_got : list Z; fe_draws : list Z; fe_polls : nat; fe_time : Z }.

#[local] Existing Instance x86_64.

#[local] Instance far_host : SerialHost far_end :=
  {| RAND_MAX := 100;
     rand := λ w, Ok (List.hd 0 (fe_draws w),
       FarEnd (fe_answers w) (fe_got w) (List.tl (fe_draws w)) (fe_polls w) (fe_time w));
     so_socket := mret 3; so_connect := λ _, mret 0;
     so_write := λ _ p n w,
       bs ← mem_read (Some p) n;
       Ok (n, FarEnd (fe_answers w) (fe_got w ++ bs) (fe_draws w) (fe_polls w) (fe_time w));
     so_read := λ _ n w,
       let bs := take (Z.to_nat n) (fe_answers w) in
       Ok (if bool_decide (bs = []) then -1 else len bs, bs,
           FarEnd (drop (Z.to_nat n) (fe_answers w)) (fe_got w) (fe_draws w) (fe_polls w) (fe_time w));
     so_nonblock := λ _, mret tt; so_close := λ _, mret 0;
     errno := mret 11; EAGAIN := 11; perror := mret tt |}.

#[local] Instance far_process : Process far_end :=
  {| SIGINT := 2; SIGTERM := 15;
     interrupted := λ w,
       Ok (match fe_polls w with O => Some 2 | S _ => None end,
           FarEnd (fe_answers w) (fe_got w) (fe_draws w) (pred (fe_polls w)) (fe_time w));
     set_signal := λ _ _, mret tt;
     time := λ w, Ok (fe_time w,
       FarEnd (fe_answers w) (fe_got w) (fe_draws w) (fe_polls w) (fe_time w + 20));
     printf := λ _ _, mret tt |}.

Definition line_locals : locals :=
  Locals (replicate 200 7) 9 9 9 9 9 (PublishOut 9 9 9 9 MQTTString_initializer None 9).
Definition far_start (answers draws : list Z) (polls : nat)
  : globals * line (W := Z * far_end) :=
  (Globals 0 0, Line None None 0 (0, FarEnd answers [] draws polls 1000)).

(** Two pings, with a busy line now and then. *)
Example serial_pings :
  match PingSerial.main line_locals 60 (Transport 9 9 9 9)
    (far_start ([32; 2; 0; 0] ++ [208; 0; 208; 0]) [90; 10; 90; 10; 90; 90] 6) with
  | Ok (rc, (_, l)) => rc = Returned 0 ∧
      fe_got (world l).2 = connect_packet sample_connect ++ pingreq ++ pingreq ++ disconnect
  | _ => False end.
Proof. vm_compute. by split. Qed.

(** Stopped while half of a ping is on the line, the program sends its disconnect after that
    half: the broker gets a packet of type 12 whose length is 224. *)
Example stop_tears_ping :
  match PingSerial.main line_locals 60 (Transport 9 9 9 9)
    (far_start [32; 2; 0; 0] (replicate 8 10 ++ [10; 90]) 2) with
  | Ok (rc, (_, l)) => rc = Returned 0 ∧
      fe_got (world l).2 = connect_packet sample_connect ++ take 1 pingreq ++ disconnect
  | _ => False end.
Proof. vm_compute. by split. Qed.

(** A message that is received is answered by a reading. *)
Example serial_reading :
  match Pub0Sub1Serial.main line_locals 60 (Transport 9 9 9 9)
    (far_start ([32; 2; 0; 0] ++ [144; 3; 0; 1; 0] ++ [48; 5; 0; 1; 97; 104; 105]) [90; 10; 90] 3) with
  | Ok (rc, (_, l)) => rc = Returned 0 ∧
      fe_got (world l).2 = connect_packet sample_connect ++ sample_subscribe ++
        publish_packet (sample_publish "pubtopic") ++ disconnect
  | _ => False end.
Proof. vm_compute. by split. Qed.

(** What [idle] counts here: the draws that are left. *)
#[local] Instance far_slow :
  SlowSocket (λ w l idle, fe_got w = l ∧ idle = length (fe_draws w)).
Proof.
  split.
  - intros w l idle [Eg ->]. eexists _, _, (length (List.tl (fe_draws w))). split; [done|].
    split; [done|]. destruct (fe_draws w) as [|d ds]; cbn; [|lia]. split; [lia|]. intros [=].
  - intros w l idle s p n bs [Eg ->] Hn Em.
    pose proof Em as El. unfold mem_read in El. destruct (Z.eqb_spec n 0); [lia|].
    destruct (load_bytes_inv _ _ _ _ El) as (_ & Hl & _); [lia|].
    eexists n, _, (length (fe_draws w)). cbn -[mem_read]. rewrite Em. cbn. split; [done|]. left.
    rewrite take_ge by lia. rewrite Eg. repeat split; lia.
Qed.

#[local] Instance far_peer : SlowPeer (λ w bs, fe_answers w = bs).
Proof.
  split.
  - intros w bs E. by eexists _, _.
  - intros w bs s n E Hn. cbn. destruct bs as [|b bs].
    + eexists (-1), _. right. rewrite E, take_nil. cbn. split; [done|]. split; [lia|].
      eexists. split; [done|]. cbn. by rewrite drop_nil.
    + rewrite E. exists (len (take (Z.to_nat n) (b :: bs))). eexists. left.
      destruct (bool_decide_reflect (take (Z.to_nat n) (b :: bs) = [])) as [F|F].
      * destruct (Z.to_nat n) eqn:En; [lia|done].
      * pose proof (length_take (b :: bs) (Z.to_nat n)) as L. rewrite Nat2Z.id.
        assert (Ht : take (length (take (Z.to_nat n) (b :: bs))) (b :: bs) = take (Z.to_nat n) (b :: bs)).
        { destruct (Nat.le_gt_cases (Z.to_nat n) (length (b :: bs))).
          - f_equal. rewrite L. lia.
          - by rewrite !(take_ge (b :: bs)) by (rewrite ?take_ge; cbn in *; lia). }
        rewrite Ht. split; [done|]. split; [lia|]. split; [lia|]. cbn [fe_answers].
        destruct (Nat.le_gt_cases (Z.to_nat n) (length (b :: bs))).
        -- f_equal. rewrite L. lia.
        -- rewrite !drop_ge; [done|rewrite L; lia|lia].
Qed.

Lemma samplesend_takes_witness :
  takes samplesend (λ (u : Z * far_end) l idle, fe_got u.2 = l ∧ idle = length (fe_draws u.2)).
Proof. exact (samplesend_takes (λ w l idle, fe_got w = l ∧ idle = length (fe_draws w))). Defined.

Lemma samplerecv_gives_witness :
  gives samplerecv (λ (u : Z * far_end) bs, fe_answers u.2 = bs).
Proof. exact (samplerecv_gives (λ w bs, fe_answers w = bs)). Defined.

Lemma serial_connect_sends_witness :
  ∃ buf p m w' idle', serial_connect 43 0 (l_buf line_locals)
      (Globals 0 0, Line (Some iof) None 0 (3, FarEnd [] [9] [90; 90; 10] 0 0)) =
    Ok (buf, (Globals 0 0, Line (Some iof) p m w')) ∧ len buf = 200 ∧
    fe_got w'.2 = [9] ++ connect_packet sample_connect ∧ idle' = length (fe_draws w'.2).
Proof.
  refine (serial_connect_sends line_locals (λ w l idle, fe_got w = l ∧ idle = length (fe_draws w))
    43 0 [9] 3 None 0 (Globals 0 0) 3 (FarEnd [] [9] [90; 90; 10] 0 0) _ _ _); [by split|done|cbn; lia].
Defined.

(** A line whose other end has hung up. *)
#[local] Instance hung_up : SerialHost unit :=
  {| RAND_MAX := 100; rand := mret 7; so_socket := mret 3; so_connect := λ _, mret 0;
     so_write := λ _ _ _, mret (-1); so_read := λ _ _, mret (-1, []);
     so_nonblock := λ _, mret tt; so_close := λ _, mret 0;
     errno := mret 104; EAGAIN := 11; perror := mret tt |}.

Lemma subscription_hangs_witness :
  send_until_done 1000 0
    (Globals 0 0, Line (Some iof) (Some (Ptr [130; 0] 0)) 2 (3, tt)) = NoFuel.
Proof.
  apply (subscription_hangs (λ _, True)); [|done]. intros [] k p n _. by exists tt.
Defined.
