(* ===== verification/CppSamples.v ===== *)
(** * The samples of the C++ client on Linux

    stdoutsub.cpp (Module Stdoutsub) and hello.cpp (Module Hello) of
    MQTTClient/samples/linux: the client of CppClient.v over the network and
    the timers of linux.cpp (Module Linux of CppPlatforms.v). *)

From S2P Require Import Prelude CSem Packet Connect Publish Platform Numerals CppClient CppPlatforms Transport Samples.
Import Linux.

#[local] Arguments bytes_of s%_string.
Definition lit (s : String.string) : ptr := c_string (bytes_of s).
#[global] Arguments lit s%_string.

(** The heap of the process, and fflush(stdout). *)
Class Libc (W : Type) : Type :=
  { malloc : Z → M W (option Z); free : Z → M W unit; fflush : M W unit }.

(** The value an uninitialised [int] holds, the object a constructor starts from, and the
    locals of the client's functions. *)
Record cpp_locals {W : Type} `{CppPlatform W} : Type := CppLocals
  { raw_client : CppClient.Client (W := W); raw_mysock : Z; raw_connack : CppClient.connackData;
    raw_granted : Z; raw_id : Z; raw_publish : publish_out }.
Arguments cpp_locals W {_ _}.

Inductive ending : Type := Returned (rc : Z) | Exited (status : Z).

(** ** Global variables

    The handlers and the programs share global variables [G]; the system calls do not see
    them. *)
Section Globals.
Context {G W : Type} `{System W} `{Libc W}.

Definition beside {A} (m : M W A) : M (G * W) A := λ s,
  match m s.2 with
  | Ok (a, w) => Ok (a, (s.1, w)) | UB u => UB u | NoFuel => NoFuel end.

#[export] Instance global_system : System (G * W) :=
  {| gettimeofday := beside gettimeofday; Linux.address := Linux.address; AF_INET := AF_INET;
     getaddrinfo := λ p, beside (getaddrinfo p);
     socket := λ f, beside (socket f);
     sys_connect := λ s a p, beside (sys_connect s a p);
     setsockopt_rcvtimeo := λ s t, beside (setsockopt_rcvtimeo s t);
     setsockopt_sndtimeo := λ s t, beside (setsockopt_sndtimeo s t);
     recv := λ s n, beside (recv s n);
     errno := beside errno; EAGAIN := EAGAIN; EWOULDBLOCK := EWOULDBLOCK;
     sys_write := λ s p n, beside (sys_write s p n);
     close := λ s, beside (close s) |}.

(** The platform of a program whose one handler is [messageArrived]; no object has
    callbacks. *)
Context (messageArrived : MessageData → M (G * W) unit).

Definition sample_platform : Platform (host (G * W)) := linux unit (λ _, messageArrived).

Definition sample_cpp : @CppPlatform (host (G * W)) sample_platform :=
  {| Timer_ms := λ n, on_host (Countdown_ms n) : M _ (@Timer _ sample_platform);
     MessageCallback := Empty_set; call_method := λ o _ _, match o with end;
     CppClient.malloc := λ n, on_host (beside (malloc n));
     CppClient.free := λ a, on_host (beside (free a)) |}.
End Globals.

(** ** stdoutsub.cpp *)

Module Stdoutsub.

Record opts_struct : Type := Opts
  { clientid : ptr; nodelimiter : Z; delimiter : ptr; qos : Z; username : option ptr;
    password : option ptr; hostname : ptr; port : Z; showtopics : Z }.

Definition opts_init : opts_struct :=
  Opts (lit "stdout-subscriber") 0 (Ptr [10; 0] 0) CppClient.QOS2 None None (lit "localhost") 1883 0.

(** The options that have a value, in the order in which they are looked for. *)
Inductive option_name : Type :=
  | Qos | Host | Port | Clientid | Username | Password | Delimiter | Showtopics.

Definition option_names : list (String.string * option_name) :=
  [("--qos", Qos); ("--host", Host); ("--port", Port); ("--clientid", Clientid);
   ("--username", Username); ("--password", Password); ("--delimiter", Delimiter);
   ("--showtopics", Showtopics)]%string.

(** The first of [names] that [strcmp] finds equal to [arg]. *)
Fixpoint find_name {A} (names : list (String.string * A)) (arg : ptr) : outcome (option A) :=
  match names with
  | [] => Ok None
  | (s, a) :: names =>
      r ← strcmp (Some arg) (Some (lit s));
      if r =? 0 then Ok (Some a) else find_name names arg
  end.

Definition text_of (p : ptr) : outcome (list Z) := n ← strlen (Some p); mem_read (Some p) n.

(** The assignment of an option to [opts]; None is the call of usage. *)
Definition set_option (k : option_name) (value : ptr) (s : opts_struct)
  : outcome (option opts_struct) :=
  let '(Opts c n d q u p h pt t) := s in
  match k with
  | Qos =>
      q ← find_name [("0", CppClient.QOS0); ("1", CppClient.QOS1); ("2", CppClient.QOS2)]%string value;
      Ok (match q with Some q => Some (Opts c n d q u p h pt t) | None => None end)
  | Host => Ok (Some (Opts c n d q u p value pt t))
  | Port => digits ← text_of value; Ok (Some (Opts c n d q u p h (atoi digits) t))
  | Clientid => Ok (Some (Opts value n d q u p h pt t))
  | Username => Ok (Some (Opts c n d q (Some value) p h pt t))
  | Password => Ok (Some (Opts c n d q u (Some value) h pt t))
  | Delimiter => Ok (Some (Opts c n value q u p h pt t))
  | Showtopics =>
      t ← find_name [("on", 1); ("off", 0)]%string value;
      Ok (match t with Some t => Some (Opts c n d q u p h pt t) | None => None end)
  end.

(** getopts, from [argv[count]] on; None is the call of usage, which does not return. *)
Fixpoint getopts (args : list ptr) (opts : opts_struct) : outcome (option opts_struct) :=
  match args with
  | [] => Ok (Some opts)
  | arg :: args =>
      k ← find_name option_names arg;
      match k, args with
      | None, _ => getopts args opts
      | Some k, value :: args =>
          r ← set_option k value opts;
          match r with Some opts => getopts args opts | None => Ok None end
      | Some Delimiter, [] =>
          let '(Opts c n d q u p h pt t) := opts in Ok (Some (Opts c 1 d q u p h pt t))
      | Some _, [] => Ok None
      end
  end.

(** The global variables. *)
Record globals : Type := Globals { toStop : Z; opts : opts_struct }.

Section Stdoutsub.
Context `{CImpl} {W : Type} `{System W} `{Libc W} `{Process W}.

Abbreviation G A := (M (globals * W) A).

Definition say (format : String.string) (args : list printf_arg) : G unit :=
  beside (printf format args).
#[local] Arguments say format%_string args.
Definition get_opts : G opts_struct := gets (λ s, opts s.1).

Definition usage : G ending :=
  say "MQTT stdout subscriber\n" [] ;;
  say "Usage: stdoutsub topicname <options>, where options are:\n" [] ;;
  say "  --host <hostname> (default is localhost)\n" [] ;;
  say "  --port <port> (default is 1883)\n" [] ;;
  say "  --qos <qos> (default is 2)\n" [] ;;
  say "  --delimiter <delim> (default is \\n)\n" [] ;;
  say "  --clientid <clientid> (default is hostname+timestamp)\n" [] ;;
  say "  --username none\n" [] ;;
  say "  --password none\n" [] ;;
  say "  --showtopics <on or off> (default is on if the topic has a wildcard, else off)\n" [] ;;
  mret (Exited (-1)).

Definition cfinish (sig : Z) : G unit :=
  beside (set_signal SIGINT false) ;;
  modify (λ s, (Globals 1 (opts s.1), s.2)).

(** [!toStop], after the handler of a signal that has arrived. *)
Definition running : G bool :=
  sig ← beside interrupted;
  match sig with Some sig => cfinish sig | None => mret tt end ;;
  toStop ← gets (λ s, toStop s.1);
  mret (toStop =? 0).

Definition messageArrived (md : MessageData) : G unit :=
  let message := md_message md in
  let topic := lenstring (md_topicName md) in
  let payloadlen := to_int (m_payloadlen message) in
  opts ← get_opts;
  (if truth (showtopics opts)
   then say "%.*s\t" [ArgInt (ls_len topic); ArgChars (ls_data topic)] else mret tt) ;;
  (if truth (nodelimiter opts)
   then say "%.*s" [ArgInt payloadlen; ArgChars (m_payload message)]
   else say "%.*s%s" [ArgInt payloadlen; ArgChars (m_payload message);
                      ArgChars (Some (delimiter opts))]) ;;
  beside fflush.

(** MQTT::Client<IPStack, Countdown, 1000>, with the QoS macros of the header. *)
Definition config : Config :=
  {| MAX_MQTT_PACKET_SIZE := 1000; MAX_MESSAGE_HANDLERS := 5; MAX_INCOMING_QOS2_MESSAGES := 10;
     MQTTCLIENT_QOS1 := true; MQTTCLIENT_QOS2 := false |}.
#[local] Existing Instance config.

#[local] Instance platform : Platform (host (globals * W)) := sample_platform messageArrived.
#[local] Instance cpp : CppPlatform (host (globals * W)) := sample_cpp messageArrived.

(** The state while the client and its network exist. *)
Abbreviation C A := (M (CppClient.Client * host (globals * W)) A).

Definition outside {A} (m : G A) : C A := CppClient.env (on_host m).

Definition ipstack_connect (name : ptr) (p : Z) : C Z := λ s,
  match Linux.connect (mysock s.2) name p (world_of s.2) with
  | Ok ((rc, sock), w) => Ok (rc, (s.1, mkHost sock w))
  | UB u => UB u | NoFuel => NoFuel end.

Definition ipstack_disconnect : C Z := λ s,
  CppClient.env (on_host (Linux.disconnect (mysock s.2))) s.

(** Whether the connection is made: if not, the status for exit. *)
Definition myconnect (fuel : nat) (o : cpp_locals (host (globals * W)))
    (data : MQTTPacket_connectData) : C (option Z) :=
  opts ← outside get_opts;
  outside (say "Connecting to %s:%d\n" [ArgChars (Some (hostname opts)); ArgInt (port opts)]) ;;
  rc ← ipstack_connect (hostname opts) (port opts);
  (if negb (rc =? 0) then outside (say "rc from TCP connect is %d\n" [ArgInt rc]) else mret tt) ;;
  rc ← CppClient.connect_options fuel (raw_publish o) (raw_connack o) data;
  if negb (rc =? 0) then
    outside (say "Failed to connect, return code %d\n" [ArgInt rc]) ;; mret (Some (-1))
  else outside (say "Connected\n" []) ;; mret None.

Definition connect_data (opts : opts_struct) : MQTTPacket_connectData :=
  let d := MQTTPacket_connectData_initializer in
  ConnectData (struct_id d) (struct_version d) 3
    {| cstring := Some (clientid opts); lenstring := lenstring (clientID d) |} 10 1 0 (will d)
    {| cstring := username opts; lenstring := lenstring (Connect.username d) |}
    {| cstring := password opts; lenstring := lenstring (Connect.password d) |}.

(** [while (!toStop) client.yield(1000);] *)
Fixpoint yields (n fuel : nat) (o : cpp_locals (host (globals * W))) : C unit :=
  match n with
  | O => no_fuel
  | S n =>
      go ← outside running;
      if go : bool then CppClient.yield fuel (raw_publish o) 1000 ;; yields n fuel o else mret tt
  end.

(** main, from the objects on. *)
Definition session (fuel : nat) (o : cpp_locals (host (globals * W))) (topic : ptr) : C ending :=
  CppClient.Client_new ;;
  outside (beside (set_signal SIGINT true)) ;;
  outside (beside (set_signal SIGTERM true)) ;;
  opts ← outside get_opts;
  let data := connect_data opts in
  outside (say "will flag %d\n" [ArgInt (willFlag data)]) ;;
  failed ← myconnect fuel o data;
  match failed with
  | Some status => mret (Exited status)
  | None =>
      rc ← CppClient.subscribe fuel (raw_publish o) (Some topic) (qos opts)
             (Some (tt : @messageHandler _ platform)) (raw_granted o);
      outside (say "Subscribed %d\n" [ArgInt rc]) ;;
      yields fuel fuel o ;;
      outside (say "Stopping\n" []) ;;
      CppClient.disconnect fuel ;;
      ipstack_disconnect ;;
      mret (Returned 0)
  end.

(** What is run while the objects exist. *)
Definition with_objects {A} (o : cpp_locals (host (globals * W))) (m : C A) : G A := λ s,
  match m (raw_client o, mkHost (raw_mysock o) s) with
  | Ok (a, (_, h)) => Ok (a, world_of h)
  | UB u => UB u | NoFuel => NoFuel end.

Definition has_wildcard (topic : ptr) : outcome bool :=
  bs ← text_of topic; Ok (existsb (λ c, (c =? 35) || (c =? 43)) bs).

Definition main (fuel : nat) (o : cpp_locals (host (globals * W))) (argv : list ptr) : G ending :=
  match argv with
  | _ :: topic :: args =>
      wild ← lift (has_wildcard topic);
      opts ← get_opts;
      let '(Opts c n d q u p h pt t) := opts in
      let opts := if wild : bool then Opts c n d q u p h pt 1 else opts in
      (if truth (showtopics opts) then say "topic is %s\n" [ArgChars (Some topic)] else mret tt) ;;
      r ← lift (getopts args opts);
      match r with
      | None => usage
      | Some opts =>
          modify (λ s, (Globals (toStop s.1) opts, s.2)) ;;
          with_objects o (session fuel o topic)
      end
  | _ => usage
  end.

End Stdoutsub.
End Stdoutsub.

(** ** hello.cpp *)

Module Hello.
Section Hello.
Context `{CImpl} {W : Type} `{System W} `{Libc W} `{Process W}.

(** The global variable is [arrivedcount]. *)
Abbreviation G A := (M (Z * W) A).

Definition say (format : String.string) (args : list printf_arg) : G unit :=
  beside (printf format args).
#[local] Arguments say format%_string args.

(** The bool members are printed as ints. *)
Definition messageArrived (md : MessageData) : G unit :=
  let message := md_message md in
  n ← gets fst;
  n ← lift (n +i 1)%c;
  modify (λ s, (n, s.2)) ;;
  say "Message %d arrived: qos %d, retained %d, dup %d, packetid %d\n"
    [ArgInt n; ArgInt (m_qos message); ArgInt (m_retained message); ArgInt (m_dup message);
     ArgInt (m_id message)] ;;
  say "Payload %.*s\n" [ArgInt (to_int (m_payloadlen message)); ArgChars (m_payload message)].

(** MQTT::Client<IPStack, Countdown>, with MQTTCLIENT_QOS2. *)
Definition config : Config :=
  {| MAX_MQTT_PACKET_SIZE := 100; MAX_MESSAGE_HANDLERS := 5; MAX_INCOMING_QOS2_MESSAGES := 10;
     MQTTCLIENT_QOS1 := true; MQTTCLIENT_QOS2 := true |}.
#[local] Existing Instance config.

#[local] Instance platform : Platform (host (Z * W)) := sample_platform messageArrived.
#[local] Instance cpp : CppPlatform (host (Z * W)) := sample_cpp messageArrived.

Abbreviation C A := (M (CppClient.Client * host (Z * W)) A).

Definition outside {A} (m : G A) : C A := CppClient.env (on_host m).

Definition ipstack_connect (name : ptr) (p : Z) : C Z := λ s,
  match Linux.connect (mysock s.2) name p (world_of s.2) with
  | Ok ((rc, sock), w) => Ok (rc, (s.1, mkHost sock w))
  | UB u => UB u | NoFuel => NoFuel end.

Definition ipstack_disconnect : C Z := λ s,
  CppClient.env (on_host (Linux.disconnect (mysock s.2))) s.

(** [if (rc != 0) printf(format, rc);] *)
Definition complain (rc : Z) (format : String.string) : C unit :=
  if negb (rc =? 0) then outside (say format [ArgInt rc]) else mret tt.
#[local] Arguments complain rc format%_string.

Definition topic : ptr := lit "mbed-sample".

(** The float nearest to 0.3. *)
Definition version : printf_arg := ArgFloat 10066330 (-25).

(** What sprintf leaves in buf, with its NUL; the version is printed as 0.300000. *)
Definition greeting (qos : Z) : list Z :=
  bytes_of "Hello World!  QoS " ++ [48 + qos] ++
  bytes_of " message from app version 0.300000" ++ [0].

(** The message with the text for its QoS; payloadlen counts the NUL. *)
Definition message (o : cpp_locals (host (Z * W))) (qos : Z) : MQTTMessage :=
  let buf := greeting qos ++ replicate (100 - length (greeting qos)) 0 in
  Message qos 0 0 (raw_id o) (Some (Ptr buf 0)) (len (greeting qos)).

(** [while (arrivedcount == count) client.yield(100);] *)
Fixpoint wait_while (n fuel : nat) (o : cpp_locals (host (Z * W))) (count : Z) : C unit :=
  match n with
  | O => no_fuel
  | S n =>
      arrivedcount ← outside (gets fst);
      if arrivedcount =? count then
        CppClient.yield fuel (raw_publish o) 100 ;; wait_while n fuel o count
      else mret tt
  end.

Definition connect_data : MQTTPacket_connectData :=
  let d := set_clientID (literal "mbed-icraggs") MQTTPacket_connectData_initializer in
  ConnectData (struct_id d) (struct_version d) 3 (clientID d) (keepAliveInterval d)
    (cleansession d) (willFlag d) (will d) (username d) (password d).

Definition publish (fuel : nat) (o : cpp_locals (host (Z * W))) (qos : Z) : C Z :=
  CppClient.publish_message fuel (raw_publish o) (Some topic) (message o qos).

(** main *)
Definition session (fuel : nat) (o : cpp_locals (host (Z * W))) : C Z :=
  outside (say "Version is %f\n" [version]) ;;
  CppClient.Client_new ;;
  let hostname := lit "iot.eclipse.org" in
  let port := 1883 in
  outside (say "Connecting to %s:%d\n" [ArgChars (Some hostname); ArgInt port]) ;;
  rc ← ipstack_connect hostname port;
  complain rc "rc from TCP connect is %d\n" ;;
  outside (say "MQTT connecting\n" []) ;;
  rc ← CppClient.connect_options fuel (raw_publish o) (raw_connack o) connect_data;
  complain rc "rc from MQTT connect is %d\n" ;;
  outside (say "MQTT connected\n" []) ;;
  rc ← CppClient.subscribe fuel (raw_publish o) (Some topic) CppClient.QOS2
         (Some (tt : @messageHandler _ platform)) (raw_granted o);
  complain rc "rc from MQTT subscribe is %d\n" ;;
  rc ← publish fuel o CppClient.QOS0;
  (if negb (rc =? 0) then outside (say "Error %d from sending QoS 0 message\n" [ArgInt rc])
   else wait_while fuel fuel o 0) ;;
  outside (say "Now QoS 1\n" []) ;;
  rc ← publish fuel o CppClient.QOS1;
  (if negb (rc =? 0) then outside (say "Error %d from sending QoS 1 message\n" [ArgInt rc])
   else wait_while fuel fuel o 1) ;;
  rc ← publish fuel o CppClient.QOS2;
  complain rc "Error %d from sending QoS 2 message\n" ;;
  wait_while fuel fuel o 2 ;;
  rc ← CppClient.unsubscribe fuel (raw_publish o) (Some topic);
  complain rc "rc from unsubscribe was %d\n" ;;
  rc ← CppClient.disconnect fuel;
  complain rc "rc from disconnect was %d\n" ;;
  ipstack_disconnect ;;
  arrivedcount ← outside (gets fst);
  outside (say "Finishing with %d messages received\n" [ArgInt arrivedcount]) ;;
  mret 0.

Definition main (fuel : nat) (o : cpp_locals (host (Z * W))) : G Z := λ s,
  match session fuel o (raw_client o, mkHost (raw_mysock o) s) with
  | Ok (rc, (_, h)) => Ok (rc, world_of h)
  | UB u => UB u | NoFuel => NoFuel end.

End Hello.
End Hello.
