(* ===== verification/CppOptions.v ===== *)
(** * The options of stdoutsub.cpp

    The options of a command line as data, and that getopts reads back what
    was written. *)

From S2P Require Import Prelude CSem Numerals CppClient CppSamples.
Import Stdoutsub.

#[local] Arguments bytes_of s%_string : simpl never.
#[local] Arguments text_of : simpl never.
#[local] Arguments find_name : simpl never.
#[local] Arguments numeral : simpl never.

(** ** Settings *)

Inductive setting : Type :=
  | SetQos (q : Z) | SetHost (bs : list Z) | SetPort (n : Z) | SetClientid (bs : list Z)
  | SetUsername (bs : list Z) | SetPassword (bs : list Z) | SetDelimiter (bs : list Z)
  | SetShowtopics (on : bool).

(** The words of the command line. *)
Definition words (s : setting) : list (list Z) :=
  match s with
  | SetQos q => [bytes_of "--qos"; [48 + q]]
  | SetHost bs => [bytes_of "--host"; bs]
  | SetPort n => [bytes_of "--port"; numeral 10 n]
  | SetClientid bs => [bytes_of "--clientid"; bs]
  | SetUsername bs => [bytes_of "--username"; bs]
  | SetPassword bs => [bytes_of "--password"; bs]
  | SetDelimiter bs => [bytes_of "--delimiter"; bs]
  | SetShowtopics on => [bytes_of "--showtopics"; if on then bytes_of "on" else bytes_of "off"]
  end.

Definition setting_wf (s : setting) : Prop :=
  match s with SetQos q => 0 ≤ q < 3 | SetPort n => 0 ≤ n ≤ INT_MAX | _ => True end.

(** The options as values. *)
Record choice : Type := Choice
  { c_qos : Z; c_host : list Z; c_port : Z; c_clientid : list Z; c_username : option (list Z);
    c_password : option (list Z); c_delimiter : list Z; c_showtopics : bool }.

Definition choose (c : choice) (s : setting) : choice :=
  let '(Choice q h p i u w d t) := c in
  match s with
  | SetQos q => Choice q h p i u w d t
  | SetHost h => Choice q h p i u w d t
  | SetPort p => Choice q h p i u w d t
  | SetClientid i => Choice q h p i u w d t
  | SetUsername u => Choice q h p i (Some u) w d t
  | SetPassword w => Choice q h p i u (Some w) d t
  | SetDelimiter d => Choice q h p i u w d t
  | SetShowtopics t => Choice q h p i u w d t
  end.

Definition opt_cstr (p : option ptr) (bs : option (list Z)) : Prop :=
  match p, bs with Some p, Some bs => cstr p bs | None, None => True | _, _ => False end.

(** [shows o c]: the structure of the program holds these values. *)
Record shows (o : opts_struct) (c : choice) : Prop :=
  { sh_qos : qos o = c_qos c; sh_host : cstr (hostname o) (c_host c); sh_port : port o = c_port c;
    sh_clientid : cstr (clientid o) (c_clientid c);
    sh_username : opt_cstr (username o) (c_username c);
    sh_password : opt_cstr (password o) (c_password c);
    sh_delimiter : nodelimiter o = 0 ∧ cstr (delimiter o) (c_delimiter c);
    sh_showtopics : showtopics o = if c_showtopics c then 1 else 0 }.

(** ** Looking up a word *)

Definition plain (s : String.string) : Prop :=
  Forall (λ b, byte b ∧ b ≠ 0) (bytes_of s) ∧ len (bytes_of s) ≤ INT_MAX.


Lemma find_name_hit {A} (pre : list (String.string * A)) s a post arg :
  cstr arg (bytes_of s) → Forall (λ n, plain n.1 ∧ bytes_of n.1 ≠ bytes_of s) pre → plain s →
  find_name (pre ++ (s, a) :: post) arg = Ok (Some a).
Proof.
  intros Ha Hpre Hs. induction Hpre as [|[n b] pre [Hn Hd] Hpre IH]; cbn [app]; unfold find_name; fold (@find_name A).
  - destruct (strcmp_cstr arg (lit s) _ _ Ha (c_string_cstr _ (proj1 Hs) (proj2 Hs))) as (r & E & Hr).
    rewrite (bind_Ok _ _ _ E). assert (r = 0) as -> by (by apply Hr). done.
  - cbn [fst] in *.
    destruct (strcmp_cstr arg (lit n) _ _ Ha (c_string_cstr _ (proj1 Hn) (proj2 Hn))) as (r & E & Hr).
    rewrite (bind_Ok _ _ _ E). destruct (Z.eqb_spec r 0) as [->|]; [|done].
    exfalso. apply Hd. symmetry. by apply Hr.
Qed.

#[local] Instance plain_dec s : Decision (plain s).
Proof. unfold plain. apply _. Defined.

Lemma find_name_at {A} (names : list (String.string * A)) i s a arg :
  names !! i = Some (s, a) → cstr arg (bytes_of s) →
  Forall (λ n, plain n ∧ bytes_of n ≠ bytes_of s) (take i (map fst names)) → plain s →
  find_name names arg = Ok (Some a).
Proof.
  intros E Ha Hpre Hs. rewrite <- (take_drop_middle _ _ _ E).
  apply find_name_hit; [done| |done].
  rewrite firstn_map in Hpre. revert Hpre. generalize (take i names). intros l.
  induction l as [|n l IH]; cbn; intros HF; inversion HF; constructor; auto.
Qed.

(** ** One option *)

Ltac known i := eapply (find_name_at _ i); [reflexivity|eassumption|decide_by_vm|decide_by_vm].

Lemma text_of_string p bs : cstr p bs → text_of p = Ok bs.
Proof.
  intros Hp. unfold text_of. rewrite (bind_Ok _ _ _ (strlen_cstr _ _ Hp)). by apply mem_read_cstr.
Qed.

Lemma atoi_numeral n : 0 ≤ n ≤ INT_MAX → atoi (numeral 10 n) = n.
Proof.
  intros Hn. unfold atoi. pose proof (numeral_digits 10 n ltac:(lia) ltac:(lia)) as HD.
  destruct (numeral_cons 10 n) as (c & l & E).
  assert (Hc : is_digit 10 c = true) by (rewrite E in HD; by apply Forall_inv in HD).
  rewrite E, (sign_digit 10) by (done || lia). rewrite <- E.
  pose proof (num_numeral 10 n [] ltac:(lia) ltac:(lia)) as EN. rewrite app_nil_r in EN. rewrite EN.
  cbn. apply to_int_id. unfold in_int, INT_MIN, INT_MAX in *. lia.
Qed.

Definition name_of (s : setting) : option_name :=
  match s with
  | SetQos _ => Qos | SetHost _ => Host | SetPort _ => Port | SetClientid _ => Clientid
  | SetUsername _ => Username | SetPassword _ => Password | SetDelimiter _ => Delimiter
  | SetShowtopics _ => Showtopics
  end.

Lemma option_found s arg w v : words s = [w; v] → cstr arg w → find_name option_names arg = Ok (Some (name_of s)).
Proof.
  destruct s; intros [= <- _] Ha;
    [known 0%nat|known 1%nat|known 2%nat|known 3%nat|known 4%nat|known 5%nat|known 6%nat|known 7%nat].
Qed.

Lemma set_option_chooses s arg w v o c :
  words s = [w; v] → setting_wf s → cstr arg v → shows o c →
  ∃ o', set_option (name_of s) arg o = Ok (Some o') ∧ shows o' (choose c s).
Proof.
  intros Ew Hs Ha [H1 H2 H3 H4 H5 H6 H7 H8]. destruct o, c; cbn in *.
  destruct s; cbn in Ew, Hs; injection Ew as _ <-; cbn [name_of set_option choose].
  - assert (E : find_name [("0", CppClient.QOS0); ("1", CppClient.QOS1); ("2", CppClient.QOS2)]%string arg = Ok (Some q)).
    { assert (q = 0 ∨ q = 1 ∨ q = 2) as [-> |[-> | ->]] by lia; [known 0%nat|known 1%nat|known 2%nat]. }
    rewrite (bind_Ok _ _ _ E). eexists. split; [reflexivity|]. by split.
  - eexists. split; [reflexivity|]. by split.
  - rewrite (bind_Ok _ _ _ (text_of_string _ _ Ha)), atoi_numeral by done. eexists. split; [reflexivity|]. by split.
  - eexists. split; [reflexivity|]. by split.
  - eexists. split; [reflexivity|]. by split.
  - eexists. split; [reflexivity|]. by split.
  - eexists. split; [reflexivity|]. split; try done. by destruct H7.
  - assert (E : find_name [("on", 1); ("off", 0)]%string arg = Ok (Some (if on then 1 else 0))).
    { destruct on; [known 0%nat|known 1%nat]. }
    rewrite (bind_Ok _ _ _ E). eexists. split; [reflexivity|]. by split.
Qed.

(** ** The command line *)

(** Getopts reads back any list of options: each sets its value, and the last one counts. *)
Theorem getopts_roundtrip ss args o c :
  Forall2 cstr args (concat (map words ss)) → Forall setting_wf ss → shows o c →
  ∃ o', getopts args o = Ok (Some o') ∧ shows o' (foldl choose c ss).
Proof.
  revert args o c. induction ss as [|s ss IH]; intros args o c Ha Hwf Ho.
  - apply Forall2_nil_inv_r in Ha as ->. by exists o.
  - apply list.Forall_cons_1 in Hwf as [Hs Hwf]. cbn [map concat] in Ha.
    assert (∃ w v, words s = [w; v]) as (w & v & Ew) by (destruct s; eauto). rewrite Ew in Ha.
    cbn [app] in Ha. apply Forall2_cons_inv_r in Ha as (a & args1 & Hw & Ha & ->).
    apply Forall2_cons_inv_r in Ha as (b & args2 & Hv & Ha & ->).
    destruct (set_option_chooses s b w v o c Ew Hs Hv Ho) as (o1 & E1 & Ho1).
    destruct (IH args2 o1 (choose c s) Ha Hwf Ho1) as (o2 & E2 & Ho2).
    exists o2. split; [|done]. cbn [getopts].
    rewrite (bind_Ok _ _ _ (option_found s a w v Ew Hw)).
    rewrite (bind_Ok _ _ _ E1). by destruct (name_of s).
Qed.

(** A delimiter option at the end has no value: the messages get none. Any other option that
    lacks its value ends the program. *)
Theorem getopts_last o arg s w v :
  words s = [w; v] → cstr arg w →
  getopts [arg] o =
    Ok (match s with SetDelimiter _ =>
          Some (Opts (clientid o) 1 (delimiter o) (qos o) (username o) (password o) (hostname o)
                  (port o) (showtopics o))
        | _ => None end).
Proof.
  intros Ew Hw. cbn [getopts]. rewrite (bind_Ok _ _ _ (option_found s arg w v Ew Hw)).
  by destruct s, o.
Qed.

(** What main starts from. *)
Definition default_choice : choice :=
  Choice 2 (bytes_of "localhost") 1883 (bytes_of "stdout-subscriber") None None [10] false.

Lemma opts_init_shows : shows opts_init default_choice.
Proof.
  split; try done; try (apply c_string_cstr; decide_by_vm).
  split; [done|]. repeat split; [done|decide_by_vm|done|]. by exists [].
Qed.

Lemma getopts_roundtrip_witness :
  ∃ o', getopts (map c_string (concat (map words [SetHost (bytes_of "h"); SetPort 8883; SetQos 1; SetQos 0])))
          opts_init = Ok (Some o') ∧
    shows o' (Choice 0 (bytes_of "h") 8883 (bytes_of "stdout-subscriber") None None [10] false).
Proof.
  apply (getopts_roundtrip [SetHost (bytes_of "h"); SetPort 8883; SetQos 1; SetQos 0] _ opts_init default_choice);
    [|repeat constructor; unfold INT_MAX; lia|exact opts_init_shows].
  cbn [map concat app words]. repeat (constructor; [apply c_string_cstr; decide_by_vm|]). constructor.
Defined.
