(* ===== verification/CppSamplesSpec.v ===== *)
(** * The C++ samples: options, and how the programs end *)

From S2P Require Import Prelude CSem Packet Connect Publish Platform Numerals CppClient CppPlatforms Transport Samples CppSamples.
Import Linux.

(** ** On Linux disconnect does not return

    Its Timer is declared without a countdown, so that end_time has no value. *)
Section Disconnect.
Context `{CImpl} `{Config} {W : Type} `{System W}.
Context (Handler : Type) (call : Handler → MessageData → M W unit).
#[local] Instance spec_linux : Platform (host W) := linux Handler call.
Context `{!CppPlatform (host W)}.

Lemma sendPacket_no_timer fuel n s r :
  0 < n → CppClient.sendPacket fuel n (Countdown_new : @Timer _ spec_linux) s ≠ Ok r.
Proof.
  intros Hn E. destruct r as [r s']. unfold CppClient.sendPacket in E.
  apply run_bind_inv in E as ([sent t] & s1 & E & _).
  destruct fuel as [|fuel]; [done|]. cbn [CppClient.sendPacket_loop] in E.
  revert E. ztest. intros E. apply run_bind_inv in E as ([b t1] & s2 & E & _).
  unfold CppClient.env in E. cbn [TimerIsExpired spec_linux linux] in E.
  unfold on_host in E. 
  destruct ((e ← expired Countdown_new; mret (e, Countdown_new)) (world_of s.2)) as [[? ?]| |] eqn:E1;
    [|done..].
  apply run_bind_inv in E1 as (b1 & w1 & E1 & _). apply run_bind_inv in E1 as (now & w2 & _ & E1).
  by apply run_bind_inv in E1 as (e & w3 & E1 & _).
Qed.

Lemma serialize_zero_length buf n type k b :
  2 ≤ n → MQTTSerialize_zero buf n type = Ok (k, b) → k = 2.
Proof.
  intros Hn. assert (MQTTSerialize_zero buf n type = MQTTSerialize_zero buf 2 type) as ->
    by (unfold MQTTSerialize_zero; by ztest).
  destruct (Z.le_gt_cases 2 (len buf)); [rewrite MQTTSerialize_zero_correct by done; by intros [= <- _]|].
  destruct buf as [|x [|y buf]]; [done|done|cbn in *; lia].
Qed.

Lemma disconnect_no_timer fuel s r :
  2 ≤ MAX_MQTT_PACKET_SIZE → CppClient.disconnect fuel s ≠ Ok r.
Proof.
  intros Hm E. destruct r as [r s']. unfold CppClient.disconnect in E.
  apply run_bind_inv in E as (timer & s1 & E1 & E).
  assert (timer = Countdown_new) as -> by (cbn in E1; congruence).
  apply run_bind_inv in E as (n & s2 & E2 & E). apply run_bind_inv in E as (rc & s3 & E3 & _).
  assert (n = 2) as ->.
  { unfold CppClient.on_sendbuf in E2. apply run_bind_inv in E2 as (c & s4 & _ & E2).
    apply run_bind_inv in E2 as ([k b] & s5 & E2 & E4). apply run_lift_inv in E2 as [E2 _].
    apply run_bind_inv in E4 as (u & s6 & _ & E4). injection E4 as <- _.
    by eapply serialize_zero_length. }
  cbn [Z.ltb Z.compare] in E3. apply run_bind_inv in E3 as (x & s4 & E3 & _).
  by eapply sendPacket_no_timer in E3.
Qed.
End Disconnect.

Section Samples.
Context `{CImpl} {W : Type} `{System W} `{Libc W} `{Process W}.

Lemma stdoutsub_disconnect fuel s r :
  CppClient.disconnect (H0 := Stdoutsub.config)
    (H1 := Stdoutsub.platform (W := W)) (H2 := Stdoutsub.cpp) fuel s ≠ Ok r.
Proof.
  apply (disconnect_no_timer (H0 := Stdoutsub.config) unit (λ _, Stdoutsub.messageArrived)
    (CppPlatform0 := Stdoutsub.cpp)). done.
Qed.

Lemma usage_exits s e s' : Stdoutsub.usage (W := W) s = Ok (e, s') → e = Exited (-1).
Proof.
  unfold Stdoutsub.usage. intros E.
  repeat (apply run_bind_inv in E as (? & ? & _ & E)). by injection E.
Qed.

Lemma myconnect_exits fuel o data s status s' :
  Stdoutsub.myconnect (W := W) fuel o data s = Ok (Some status, s') → status = -1.
Proof.
  unfold Stdoutsub.myconnect. intros Ef.
  do 5 (apply run_bind_inv in Ef as (? & ? & _ & Ef)).
  destruct (negb _); apply run_bind_inv in Ef as (? & ? & _ & Ef); [by injection Ef as <- _|done].
Qed.

Lemma session_exits fuel o topic s e s' :
  Stdoutsub.session (W := W) fuel o topic s = Ok (e, s') → e = Exited (-1).
Proof.
  unfold Stdoutsub.session. intros Es.
  do 5 (apply run_bind_inv in Es as (? & ? & _ & Es)).
  apply run_bind_inv in Es as (failed & ? & Ef & Es). destruct failed as [status|].
  - injection Es as <- _. by rewrite (myconnect_exits _ _ _ _ _ _ Ef).
  - do 4 (apply run_bind_inv in Es as (? & ? & _ & Es)).
    apply run_bind_inv in Es as (? & ? & Es & _). by apply stdoutsub_disconnect in Es.
Qed.

Lemma with_objects_inv {A} o (m : M (CppClient.Client (H2 := Stdoutsub.cpp) * host (Stdoutsub.globals * W)) A) s a s' :
  Stdoutsub.with_objects o m s = Ok (a, s') → ∃ s1 s2, m s1 = Ok (a, s2).
Proof.
  unfold Stdoutsub.with_objects. intros E.
  destruct (m _) as [[a1 [c h]]| |] eqn:Em; [|done..]. injection E as <- _. by eauto.
Qed.

(** Stdoutsub.cpp never comes to the return of main: the run that is stopped is undefined
    where it disconnects, and the others end by exit or not at all. *)
Theorem stdoutsub_never_returns fuel o argv s e s' :
  Stdoutsub.main (W := W) fuel o argv s = Ok (e, s') → e = Exited (-1).
Proof.
  unfold Stdoutsub.main. destruct argv as [|a [|topic args]]; [apply usage_exits..|].
  intros E. apply run_bind_inv in E as (wild & s1 & _ & E).
  apply run_bind_inv in E as ([] & s2 & _ & E).
  apply run_bind_inv in E as (? & s3 & _ & E). apply run_bind_inv in E as (r & s4 & _ & E).
  destruct r as [opts|]; [|by apply usage_exits in E].
  apply run_bind_inv in E as (? & s5 & _ & E).
  apply with_objects_inv in E as (s6 & s7 & E). by apply session_exits in E.
Qed.

Lemma hello_disconnect fuel s r :
  CppClient.disconnect (H0 := Hello.config)
    (H1 := Hello.platform (W := W)) (H2 := Hello.cpp) fuel s ≠ Ok r.
Proof.
  apply (disconnect_no_timer (H0 := Hello.config) unit (λ _, Hello.messageArrived)
    (CppPlatform0 := Hello.cpp)). done.
Qed.

Lemma hello_session_undefined fuel o s r : Hello.session (W := W) fuel o s ≠ Ok r.
Proof.
  intros Es. destruct r as [rc s']. unfold Hello.session in Es.
  do 21 (apply run_bind_inv in Es as (? & ? & _ & Es)).
  apply run_bind_inv in Es as (? & ? & Es & _). by apply hello_disconnect in Es.
Qed.

(** Nor does hello.cpp. *)
Theorem hello_never_returns fuel o s r : Hello.main (W := W) fuel o s ≠ Ok r.
Proof.
  unfold Hello.main. destruct (Hello.session fuel o _) as [[rc [c h]]| |] eqn:Es; [|done..].
  by apply hello_session_undefined in Es.
Qed.

End Samples.

(** ** A machine without a broker *)

(** The seconds of the clock, and what was printed. *)
Record lonely : Type := Lonely { lo_now : Z; lo_out : list String.string }.

#[local] Existing Instance x86_64.

#[local] Instance lonely_system : System lonely :=
  {| gettimeofday := λ w, Ok ((lo_now w, 0), Lonely (lo_now w + 1) (lo_out w));
     Linux.address := unit; AF_INET := 2;
     getaddrinfo := λ _, mret (0, [(2, tt)]); socket := λ _, mret 3;
     sys_connect := λ _ _ _, mret (-1);
     setsockopt_rcvtimeo := λ _ _, mret 0; setsockopt_sndtimeo := λ _ _, mret 0;
     recv := λ _ _, mret (-1, []); errno := mret 11; EAGAIN := 11; EWOULDBLOCK := 11;
     sys_write := λ _ _ n, mret n; close := λ _, mret 0 |}.

#[local] Instance lonely_libc : Libc lonely :=
  {| CppSamples.malloc := λ _, mret (Some 1); CppSamples.free := λ _, mret tt; fflush := mret tt |}.

#[local] Instance lonely_process : Process lonely :=
  {| SIGINT := 2; SIGTERM := 15; interrupted := mret None; set_signal := λ _ _, mret tt;
     time := mret 0;
     printf := λ f _ w, Ok (tt, Lonely (lo_now w) (lo_out w ++ [f])) |}.

Definition lonely_locals {G : Type} (call : MessageData → M (G * lonely) unit)
  : @cpp_locals (host (G * lonely)) (sample_platform call) (sample_cpp call) :=
  let buf := replicate 1000 7 in
  @CppLocals (host (G * lonely)) (sample_platform call) (sample_cpp call)
    (@CppClient.mkClient (host (G * lonely)) (sample_platform call) (sample_cpp call)
       buf buf (None : Countdown) 9 9 true 9
       (replicate 5 (@CppClient.Slot _ (sample_platform call) (sample_cpp call) None
          (@CppClient.FP_new _ (sample_platform call) (sample_cpp call))))
       (@CppClient.FP_new _ (sample_platform call) (sample_cpp call)) true buf 9 9 9 true
       (replicate 10 9))
    9 (CppClient.ConnackData 9 true) 9 9 (PublishOut 9 9 9 9 MQTTString_initializer None 9).

(** The connection is refused: the program says so and exits. *)
Abbreviation refused_run :=
  (Stdoutsub.main 40 (lonely_locals Stdoutsub.messageArrived)
    [lit "stdoutsub"; lit "a/+"; lit "--qos"; lit "1"]
    (Stdoutsub.Globals 0 Stdoutsub.opts_init, Lonely 0 [])).

Example refused_exits :
  match refused_run with
  | Ok (e, (g, w)) => e = Exited (-1) ∧ Stdoutsub.qos (Stdoutsub.opts g) = 1 ∧
      lo_out w = ["topic is %s\n"; "will flag %d\n"; "Connecting to %s:%d\n";
        "rc from TCP connect is %d\n"; "Failed to connect, return code %d\n"]%string
  | _ => False end.
Proof. vm_compute. by repeat split. Qed.

Lemma stdoutsub_never_returns_witness :
  match refused_run with Ok (e, _) => e = Exited (-1) | _ => False end.
Proof.
  destruct refused_run as [[e s']| |] eqn:E; [|by vm_compute in E..].
  exact (stdoutsub_never_returns _ _ _ _ _ _ E).
Defined.
