(* ===== verification/CppMain.v ===== *)
(** * main.cpp of MQTTClient/samples/linux: its network and its timers

    The sample has a network and a timer of its own, an earlier version of
    linux.cpp: the same text but for read, write and Socket_error. Its function
    main passes pointers where MQTTClient.h takes references and has no meaning
    with this header; what the client does over these classes is shown here. *)

From S2P Require Import Prelude CSem Wire Packet Stream Platform ClientIO.
From S2P Require Import CppClient CppSim CppClientIO CppPlatforms Samples CppSamples.
Import Linux.

Module MainCpp.

(** The values of errno that Socket_error knows besides those of [System]. *)
Class ErrorNames (W : Type) : Type :=
  { EINTR : Z; EINPROGRESS : Z; ENOTCONN : Z; ECONNRESET : Z; strerror : Z → M W ptr }.

Section Main.
Context {W : Type} `{System W} `{Process W} `{ErrorNames W}.

(** ** class IPStack *)

(** The argument is a literal. *)
Definition Socket_error (mysock : Z) (aString : String.string) : M W Z :=
  e ← errno;
  (if negb (e =? EINTR) && negb (e =? EAGAIN) && negb (e =? EINPROGRESS) && negb (e =? EWOULDBLOCK)
   then
     shutdown ← lift (strcmp (Some (lit aString)) (Some (lit "shutdown")));
     if negb (shutdown =? 0) || (negb (e =? ENOTCONN) && negb (e =? ECONNRESET))
     then
       text ← strerror e;
       printf "Socket error %s in %s for socket %d\n"
         [ArgChars (Some text); ArgChars (Some (lit aString)); ArgInt mysock]
     else mret tt
   else mret tt) ;;
  errno.

Definition connect (mysock : Z) (hostname : ptr) (port : Z) : M W (Z * Z) :=
  Linux.connect mysock hostname port.

(** One recv, of whatever there is. *)
Definition read (mysock len timeout_ms : Z) : M W (Z * list Z) :=
  setsockopt_rcvtimeo mysock (read_interval timeout_ms) ;;
  '(rc, bs) ← recv mysock len;
  (if rc =? -1 then Socket_error mysock "read"%string ;; mret tt else mret tt) ;;
  mret (rc, bs).

(** The timeout is set for receiving. *)
Definition write (mysock : Z) (buffer : ptr) (len timeout : Z) : M W Z :=
  us ← lift (if in_int (timeout * 1000) then Ok (timeout * 1000) else UB SignedOverflow);
  setsockopt_rcvtimeo mysock (0, us) ;;
  sys_write mysock buffer len.

Definition disconnect (mysock : Z) : M W Z := close mysock.

(** ** class Countdown: the text of linux.cpp *)

Definition Countdown_ms (ms : Z) : M W Countdown := Linux.Countdown_ms ms.
Definition expired (t : Countdown) : M W bool := Linux.expired t.
Definition countdown_ms (ms : Z) : M W Countdown := Linux.countdown_ms ms.
Definition countdown (seconds : Z) : M W Countdown := Linux.countdown seconds.
Definition left_ms (t : Countdown) : M W Z := Linux.left_ms t.

(** ** The handler, and the template arguments *)

(** payloadlen is a size_t where the format has an int. *)
Definition messageArrived (md : MessageData) : M (Z * W) unit :=
  let message := md_message md in
  n ← gets fst;
  n ← lift (n +i 1)%c;
  modify (λ s, (n, s.2)) ;;
  beside (printf "Message %d arrived: qos %d, retained %d, dup %d, packetid %d\n"
    [ArgInt n; ArgInt (m_qos message); ArgInt (m_retained message); ArgInt (m_dup message);
     ArgInt (m_id message)]) ;;
  beside (printf "Payload %.*s\n"
    [ArgInt (to_int (m_payloadlen message)); ArgChars (m_payload message)]).

Definition main_platform (Handler : Type) (call : Handler → MessageData → M W unit)
  : Platform (host W) :=
  {| Timer := Countdown;
     TimerInit := mret Countdown_new;
     TimerCountdownMS := λ _ ms, on_host (countdown_ms ms);
     TimerCountdown := λ _ s, on_host (countdown s);
     TimerIsExpired := λ t, on_host (e ← expired t; mret (e, t));
     TimerLeftMS := λ t, on_host (ms ← left_ms t; mret (ms, t));
     mqttread := λ n ms h, on_host (read (mysock h) n ms) h;
     mqttwrite := λ p n ms h, on_host (write (mysock h) p n ms) h;
     MutexInit := mret tt;
     MutexLock := mret 0;
     MutexUnlock := mret 0;
     messageHandler := Handler;
     call_handler := λ f md, on_host (call f md) |}.

End Main.

(** ** The client over it *)

Section Client.
Context {W : Type} `{System W} `{Process W} `{ErrorNames W}.
Context (Handler : Type) (call : Handler → MessageData → M W unit).
Context `{CImpl} `{Config}.
#[local] Instance over_main : Platform (host W) := main_platform Handler call.
Context `{!CppPlatform (host W)}.

Abbreviation started e := (Some e : @Timer (host W) over_main).

Lemma on_host_Ok {A} (m : M W A) s w a w' :
  m w = Ok (a, w') → on_host m (mkHost s w) = Ok (a, mkHost s w').
Proof. unfold on_host. cbn [world_of mysock]. by intros ->. Qed.

(** The clock runs whatever it is asked, and socket options are accepted; [S w bs]: [bs] have
    arrived on [fd]. *)
Record ticking (fd : Z) (S : W → list Z → Prop) : Prop :=
  { tk_now w bs : S w bs → ∃ now w', gettimeofday w = Ok (now, w') ∧ S w' bs;
    tk_option w bs tv : S w bs → ∃ r w', setsockopt_rcvtimeo fd tv w = Ok (r, w') ∧ S w' bs }.

Lemma run_main_left fd S e w bs : ticking fd S → S w bs →
  ∃ ms w', TimerLeftMS (started e) (mkHost fd w) = Ok ((ms, started e), mkHost fd w') ∧ S w' bs.
Proof.
  intros HT Hw. destruct (tk_now _ _ HT w bs Hw) as (now & w' & E & Hw').
  assert (El : ∃ ms, left_ms (Some e) w = Ok (ms, w')).
  { unfold left_ms, Linux.left_ms. rewrite (run_bind _ _ _ _ _ E). cbn [end_time].
    rewrite run_bind_lift_Ok. by eexists. }
  destruct El as [ms El]. exists ms, w'. split; [|done]. apply on_host_Ok.
  by rewrite (run_bind _ _ _ _ _ El).
Qed.

(** What recv gives is what the client gets, errors apart. *)
Lemma run_read fd S n ms w bs k got bs' :
  ticking fd S → S w bs → k ≠ -1 →
  (∀ w, S w bs → ∃ w', recv fd n w = Ok ((k, got), w') ∧ S w' bs') →
  ∃ w', mqttread n ms (mkHost fd w) = Ok ((k, got), mkHost fd w') ∧ S w' bs'.
Proof.
  intros HT Hw Hk Hr. destruct (tk_option _ _ HT w bs (read_interval ms) Hw) as (r & w1 & E & A1).
  destruct (Hr w1 A1) as (w2 & E2 & A2). exists w2. split; [|done].
  apply on_host_Ok. unfold read. cbn [mysock].
  rewrite (run_bind _ _ _ _ _ E), (run_bind _ _ _ _ _ E2). by ztest.
Qed.

(** A remaining length of one byte. *)
Lemma run_decode fd S n ms w rest :
  ticking fd S → 0 ≤ n < 128 → S w (n :: rest) →
  (∀ w b rest, S w (b :: rest) → ∃ w', recv fd 1 w = Ok ((1, [b]), w') ∧ S w' rest) →
  ∃ w', CppClient.decodePacket ms (mkHost fd w) = Ok ((1, n), mkHost fd w') ∧ S w' rest.
Proof.
  intros HT Hn Hw Hone.
  destruct (run_read fd S 1 ms w (n :: rest) 1 [n] rest HT Hw ltac:(lia)) as (w' & E & Hw');
    [intros w0; apply Hone|].
  exists w'. split; [|done]. unfold CppClient.decodePacket. cbn [CppClient.decodePacket_loop].
  change (MAX_NO_OF_REMAINING_LENGTH_BYTES <? 0 + 1) with false. cbv iota.
  rewrite (run_bind _ _ _ _ _ E). change (negb (1 =? 1)) with false. cbv iota.
  rewrite run_bind_lift_Ok, land_127, land_128, Z.mod_small by (unfold byte; lia). ztest. cbn [negb].
  rewrite run_ret. do 3 f_equal; lia.
Qed.

(** A packet of less than 128 bytes of body, whose body recv gives in two pieces: readPacket
    takes the first piece and returns 1, the type of a CONNACK; the second stays in the network,
    where the next packet is looked for. *)
Theorem main_splits_packet fd S e (c : CppClient.Client) h b1 b2 w :
  ticking fd S → byte h → b1 ≠ [] → b2 ≠ [] → len (b1 ++ b2) < 128 →
  len (CppClient.readbuf c) = MAX_MQTT_PACKET_SIZE → 2 + len (b1 ++ b2) ≤ MAX_MQTT_PACKET_SIZE →
  S w (packet h (b1 ++ b2)) →
  (∀ w b rest, S w (b :: rest) → ∃ w', recv fd 1 w = Ok ((1, [b]), w') ∧ S w' rest) →
  (∀ w, S w (b1 ++ b2) → ∃ w', recv fd (len (b1 ++ b2)) w = Ok ((len b1, b1), w') ∧ S w' b2) →
  ∃ c' w', CppClient.readPacket (started e) (c, mkHost fd w) = Ok ((1, started e), (c', mkHost fd w')) ∧
    S w' b2.
Proof.
  intros HT Hh Hb1 Hb2 Hl Hs Hfit Hw Hone Htwo. set (n := len (b1 ++ b2)) in *.
  pose proof (len_pos b1 Hb1) as L1. pose proof (len_pos b2 Hb2) as L2.
  assert (Hn : n = len b1 + len b2) by (unfold n; rewrite length_app; lia).
  assert (Ev : varint n = [n]) by (unfold varint; cbn [varint_k]; by ztest).
  assert (Ep : packet h (b1 ++ b2) = h :: n :: b1 ++ b2) by (unfold packet; fold n; by rewrite Ev).
  rewrite Ep in Hw. unfold CppClient.readPacket.
  destruct (run_main_left fd S e w _ HT Hw) as (ms1 & w1 & E1 & A1).
  rewrite (CppClient.cpp_bind_env _ _ _ _ _ _ E1).
  destruct (run_read fd S 1 ms1 w1 _ 1 [h] (n :: b1 ++ b2) HT A1 ltac:(lia)) as (w2 & E2 & A2);
    [intros w0; apply Hone|].
  rewrite (CppClient.cpp_bind_env _ _ _ _ _ _ E2).
  pose proof (CppClientIO.cpp_store_readbuf_over c (mkHost fd w2) [] [h] 0 eq_refl ltac:(cbn; lia)) as Es.
  rewrite over_nil, CppClientIO.cpp_set_readbuf_same in Es. rewrite (run_bind _ _ _ _ _ Es).
  change (negb (1 =? 1)) with false. cbv iota. cbn [app].
  destruct (run_main_left fd S e w2 _ HT A2) as (ms2 & w3 & E3 & A3).
  rewrite (CppClient.cpp_bind_env _ _ _ _ _ _ E3).
  destruct (run_decode fd S n ms2 w3 (b1 ++ b2) HT ltac:(lia) A3 Hone) as (w4 & E4 & A4).
  rewrite (CppClient.cpp_bind_env _ _ _ _ _ _ E4), CppClient.bind_this.
  cbn [CppClient.readbuf CppClient.set_readbuf].
  rewrite (run_bind _ _ _ _ _ (run_lift _ _ _ (encode_over [h] n (CppClient.readbuf c) 1 eq_refl
    ltac:(unfold INT_MAX; lia) ltac:(rewrite Ev; cbn [length]; lia)))).
  rewrite Ev. change (len [n]) with 1. rewrite CppClient.cpp_bind_update. cbv zeta.
  change (1 + 1) with 2. ztest. ztest.
  destruct (run_main_left fd S e w4 _ HT A4) as (ms3 & w5 & E5 & A5).
  destruct (run_read fd S n ms3 w5 _ (len b1) b1 b2 HT A5 ltac:(lia) Htwo) as (w6 & E6 & A6).
  rewrite run_assoc, (CppClient.cpp_bind_env _ _ _ _ _ _ E5), run_assoc.
  rewrite (CppClient.cpp_bind_env _ _ _ _ _ _ E6), run_assoc.
  rewrite (run_bind _ _ _ _ _ (CppClientIO.cpp_store_readbuf_over c (mkHost fd w6) ([h] ++ [n]) b1 2
    eq_refl ltac:(cbn [length app]; lia))), run_bind_ret.
  destruct (Z.eqb_spec (len b1) n); [lia|]. cbn [negb]. by eexists _, _.
Qed.

(** When nothing has arrived in time, recv fails with EAGAIN, read returns its -1, and cycle
    takes it for an error: a quiet network ends the session of a connected client. *)
Theorem main_quiet_ends_session fuel o fd e (c : CppClient.Client) w now w1 r w2 w3 :
  CppClient.isconnected c = true → gettimeofday w = Ok (now, w1) →
  (∀ tv, setsockopt_rcvtimeo fd tv w1 = Ok (r, w2)) →
  recv fd 1 w2 = Ok ((-1, []), w3) → errno w3 = Ok (EAGAIN, w3) →
  CppClient.cycle fuel o (started e) (c, mkHost fd w) =
    (CppClient.closeSession ;; mret (-1, started e)) (c, mkHost fd w3).
Proof.
  intros Hc E1 E2 E3 E4. unfold CppClient.cycle.
  rewrite (CppClient.cpp_bind_env _ _ _ _ (Countdown_new : @Timer _ over_main) (mkHost fd w)) by done.
  assert (El : ∃ ms, left_ms (Some e) w = Ok (ms, w1)).
  { unfold left_ms, Linux.left_ms. rewrite (run_bind _ _ _ _ _ E1). cbn [end_time].
    rewrite run_bind_lift_Ok. by eexists. }
  destruct El as [ms El].
  assert (Er : CppClient.readPacket (started e) (c, mkHost fd w) = Ok ((-1, started e), (c, mkHost fd w3))).
  { unfold CppClient.readPacket.
    assert (Em : TimerLeftMS (started e) (mkHost fd w) = Ok ((ms, started e), mkHost fd w1))
      by (apply on_host_Ok; by rewrite (run_bind _ _ _ _ _ El)).
    rewrite (CppClient.cpp_bind_env _ _ _ _ _ _ Em).
    assert (En : mqttread 1 ms (mkHost fd w1) = Ok ((-1, []), mkHost fd w3)).
    { apply on_host_Ok. unfold read. cbn [mysock].
      rewrite (run_bind _ _ _ _ _ (E2 _)), (run_bind _ _ _ _ _ E3).
      rewrite (run_bind _ _ _ tt w3); [done|]. change (-1 =? -1) with true. cbv iota.
      rewrite (run_bind _ _ _ EAGAIN w3); [done|]. unfold Socket_error.
      rewrite (run_bind _ _ _ _ _ E4), Z.eqb_refl, andb_false_r. cbn [andb negb].
      by rewrite run_bind_ret. }
    rewrite (CppClient.cpp_bind_env _ _ _ _ _ _ En).
    rewrite (run_bind _ _ _ tt (c, mkHost fd w3)); [done|].
    unfold CppClient.store_readbuf. by destruct c. }
  rewrite (run_bind _ _ _ _ _ Er). cbv beta iota.
  rewrite (run_bind _ _ _ (true, -1) (c, mkHost fd w3))
    by (unfold CppClient.cycle_switch; by destruct MQTTCLIENT_QOS2).
  rewrite run_bind_ret. change (-1 =? CppClient.SUCCESS) with false. cbv iota.
  rewrite CppClient.bind_this. by rewrite Hc.
Qed.

End Client.

(** ** Examples *)

#[local] Instance main_process : Process unix :=
  {| SIGINT := 2; SIGTERM := 15; interrupted := mret None; set_signal := λ _ _, mret tt;
     time := gets (λ u, fst (u_now u)); printf := λ _ _, mret tt |}.
#[local] Instance main_errors : ErrorNames unix :=
  {| EINTR := 4; EINPROGRESS := 115; ENOTCONN := 107; ECONNRESET := 104;
     strerror := λ _, mret (c_string []) |}.

(** A socket on which nothing arrives, and one whose bytes come in pieces. *)
#[local] Instance silent_sim : System unix :=
  {| gettimeofday := gets u_now; Linux.address := Z; AF_INET := 2;
     getaddrinfo := λ _, mret (0, [(2, 7)]); socket := λ _, mret 3; sys_connect := λ _ _ _, mret 0;
     setsockopt_rcvtimeo := λ _ _, mret 0; setsockopt_sndtimeo := λ _ _, mret 0;
     recv := λ _ n u,
       let bs := take (Z.to_nat (Z.min n (u_chunk u))) (u_in u) in
       Ok ((if bool_decide (bs = []) then -1 else len bs, bs),
           Unix (u_now u) (drop (length bs) (u_in u)) (u_chunk u) (u_socket u));
     errno := mret 11; EAGAIN := 11; EWOULDBLOCK := 11;
     sys_write := λ _ _ n, mret n; close := λ _, mret 0 |}.

#[local] Instance main_client : Platform (host unix) := main_platform unit (λ _ _, mret tt).
#[local] Instance main_cpp : CppPlatform (host unix) :=
  {| Timer_ms := λ n, on_host (Countdown_ms n); MessageCallback := unit;
     call_method := λ _ _ _, mret tt; CppClient.malloc := λ _, mret (Some 1);
     CppClient.free := λ _, mret tt |}.

(** A connected client with buffers of twenty bytes. *)
Definition main_connected : CppClient.Client (W := host unix) :=
  CppClient.mkClient (replicate 20 0) (replicate 20 0) (Some (0, 0)) 60 0 false 1
    (replicate 2 (CppClient.Slot None CppClient.FP_new)) CppClient.FP_new true
    (replicate 20 0) 0 0 0 false (replicate 3 0).

Abbreviation quiet := (Unix (5, 0) [] 9 3).

Lemma main_quiet_ends_session_witness :
  CppClient.cycle (H := x86_64) (H0 := small_config) 9 ClientIO.no_locals
    (Some (6, 0) : @Timer _ main_client) (main_connected, mkHost 3 quiet) =
  Ok ((-1, Some (6, 0)), (CppClient.set_isconnected false main_connected, mkHost 3 quiet)).
Proof.
  refine (eq_trans (main_quiet_ends_session (H2 := x86_64) (H3 := small_config) unit (λ _ _, mret tt)
    9 ClientIO.no_locals 3 (6, 0) main_connected quiet (5, 0) quiet 0 quiet quiet eq_refl eq_refl
    (λ _, eq_refl) eq_refl eq_refl) _). reflexivity.
Defined.

Abbreviation in_twos := (λ (u : unix) bs, u_in u = bs ∧ u_chunk u = 2).

Lemma sim_ticking : ticking 3 in_twos.
Proof. split; intros u bs; [intros Hu|intros tv Hu]; by eexists _, u. Qed.

(** A PUBLISH with four bytes of body, in pieces of two. *)
Lemma main_splits_packet_witness :
  ∃ c' w', CppClient.readPacket (H := x86_64) (H0 := small_config)
      (Some (6, 0) : @Timer _ main_client)
      (main_connected, mkHost 3 (Unix (5, 0) [48; 4; 0; 1; 97; 98] 2 3)) =
    Ok ((1, Some (6, 0)), (c', mkHost 3 w')) ∧ in_twos w' [97; 98].
Proof.
  apply (main_splits_packet (H2 := x86_64) (H3 := small_config) unit (λ _ _, mret tt)
    3 in_twos (6, 0) main_connected 48 [0; 1] [97; 98] (Unix (5, 0) [48; 4; 0; 1; 97; 98] 2 3)
    sim_ticking); [decide_by_vm|done..|decide_by_vm|reflexivity|decide_by_vm|by split| |].
  - intros [now inp k s] b rest [Hi Hk]. cbn in Hi, Hk. subst. by eexists.
  - intros [now inp k s] [Hi Hk]. cbn in Hi, Hk. subst. by eexists.
Defined.

End MainCpp.
